(* ===== verification/_CoqProject ===== *)
-Q . S2P
Prelude.v
Decimal.v
DecimalPackages.v
Calendar.v
Inputs.v
Store.v
Schema.v
Ledger.v
LedgerFacts.v
Periods.v
Chart.v
Books.v
Journal.v
JournalFacts.v
JournalMachine.v
Json.v
Facts.v
PostingRules.v
DefaultRules.v
PostingEngine.v
LineBuilding.v
EngineFacts.v
PostingPump.v
LedgerReports.v
Statements.v
ExpenseTables.v
Expenses.v
ExpenseLines.v
ExpenseMachine.v
ExpenseRefinement.v
ExpenseFacts.v
DnsDiff.v
DnsDiffFacts.v
DnsPlan.v
DnsConverge.v
Tailnet.v
Materialize.v
WritePolicy.v
DnsStore.v
Drift.v
DnsSync.v
ZoneProvider.v
DnsSyncFacts.v
System.v
Stock.v
Movements.v
Reservations.v
LotCosts.v
Items.v
Locations.v
StockNumbers.v
StockFacts.v
StockServices.v
MovementFacts.v
DepletionFacts.v
CostFacts.v
BasisFacts.v
LocationFacts.v
WorkTables.v
Rates.v
TimeEntries.v
Materials.v
Unbilled.v
Projects.v
WorkMachine.v
WorkAmounts.v
Config.v
Adaptive.v
MarketTables.v
Monitors.v
Polls.v
MarketEvents.v
Observations.v
Opportunities.v
MarketTasks.v
MarketMachine.v
AdaptiveFacts.v
ScheduleFacts.v
OpportunityFacts.v
Metrics.v
