(* ===== verification/Prelude.v ===== *)
(** * Loxep: the double-entry ledger, stock and its costs, billable work, market monitors, and DNS

    Loxep is a back office for small sellers.  Operational facts (orders,
    fees, refunds, expenses, acquisition costs, inventory movements) are
    recorded by its packages; the accounting package turns each of them into at
    most one balanced journal entry of one book, under posting rules an operator
    can read and version.  This development models that package over a model of
    the tables it writes, and proves what makes its ledger trustworthy.  Loxep
    also keeps the DNS zones of its operator: it derives the records that should
    exist from stored intent and reconciles them with a provider.  The second part
    of the development models that reconciler and proves that it converges and
    touches only what it owns.  The third part models the inventory package, an
    append-only ledger of stock movements and the costs of what is on hand, and
    proves that balances, costs and locations stay what their ledgers say.  The
    fourth part models the work package: projects, the rate card, hours and
    materials, and what of them is still to bill.  The fifth part models the market
    package, which polls outside listings on a schedule that adapts, and records what it
    sees as observations and events: a target is claimed once for a tick, and nothing that was
    recorded is lost or recorded twice.  All paths below are under [src/packages/].

    ** How the parts interact

    A sweep ([app/src/accounting-posting.ts]) lists the facts without an entry
    and evaluates each with the engine ([accounting/src/posting-engine.ts]).
    The engine reads the fact ([source-facts.ts]), routes it to a book
    ([books.ts]), resolves the first matching rule version ([posting-rules.ts]),
    builds the lines in exact decimals ([decimal.ts]), and calls the journal
    ([journal.ts]), which resolves the accounts ([chart.ts]) and the fiscal
    period ([periods.ts]), numbers the entry and writes it.  The database checks
    the same things again, with constraints and triggers
    ([db/src/schema/accounting.ts] and migrations 0009 and 0010).

    The infrastructure package derives the desired records of a domain
    ([infrastructure/src/materialize.ts], from the hosting targets' addresses,
    which [tailnet-address.ts] screens), writes them to [dns_records]
    ([domains.ts]), reads the provider's zone, diffs the two ([reconcile.ts]) and,
    when the gate of [write-policy.ts] allows it, applies the operations of the
    diff through a provider port ([sync.ts], [port.ts]).

    The inventory package records every change of stock as a movement
    ([inventory/src/movements.ts]) and recomputes the cached balance of the item
    from them; orders reserve stock and their fulfillments deplete it
    ([allocations.ts]); a lot is bought, its costs gathered and spread over its
    items ([acquisitions.ts]); items are received, moved, split, transferred and
    parted out ([items.ts]) in a tree of locations ([locations.ts]).

    The work package keeps projects in two levels ([work/src/projects.ts] with
    [codes.ts]), a card of dated rates ([billing-rates.ts]), the hours worked, each
    with the rates the ladder of [rates.ts] found for its day ([time.ts]), and the
    materials used, costed from the stock of the inventory package or by hand
    ([materials.ts]); [unbilled.ts] totals what no invoice holds, as far as a seam
    the caller supplies tells.

    The market package keeps monitor targets ([market/src/monitors.ts]); a dispatcher
    claims the due ones and queues a poll for each ([tasks.ts]); the poll, run by an executor
    the composition supplies, records items, links and a batch of observations
    ([observations.ts]), derives events from the two latest of each item ([events.ts]) and from
    new links ([discovery.ts]), and reports success or failure, which sets the next poll:
    [adaptive.ts] turns what changed lately into an interval.  Each new event is evaluated
    against the operator's rules and stamped with the first that matches
    ([opportunities.ts]); [metrics.ts] reads series and summaries from what was recorded.

    ** Files

    - [Prelude]: errors, [result] and the state-and-error monad [St], with the
      tactics and lemmas every file uses.
    - [Decimal]: [accounting/src/decimal.ts].  Theorems: the canonical form of
      money, what [toUnits] accepts, the rounding of [multiplyDecimals].
    - [DecimalPackages]: the decimal modules of [commerce], [inventory] and
      [work].  Theorems: [distributeByWeights] neither loses nor invents a
      micro-unit, and [proRataShare] is its two-bucket case.
    - [Calendar], [Inputs]: calendar dates; the shared pieces of the Zod
      schemas, [currency.ts] and [sql.ts].
    - [Store], [Schema], [Ledger], [LedgerFacts]: reasoning about a computation
      over a store; the tables as a record [Db] of lists of rows, and
      transactions; each insert and update with the constraints and triggers it
      meets; the invariant [ledger_ok] of the tables and the relation [evolves]
      every statement respects (entries in the books stay, unaltered but for
      [posted -> reversed]).
    - [Periods]: [periods.ts].  The generated months partition the days, the
      close only moves one period, a locked period is final, and the service's
      judgement of a posting agrees with the trigger's.
    - [Chart]: [chart.ts] and [chart-template.ts].  Accounts keep their identity;
      a seeded book resolves every system key.
    - [Books]: [books.ts].  Routing answers with the nearest ancestor's book; an
      accepted link keeps the roll-up rule; when the descendant query ends.
    - [Journal], [JournalFacts], [JournalMachine]: [journal.ts].  What a balanced
      entry is; what posting writes; idempotency on the posting key, also when
      two callers race; reversal nets to zero and is idempotent; every verb is a
      move of an abstract ledger whose invariant (gapless numbers, unique
      mirroring reversals) therefore holds of every store the verbs reach.
    - [Facts]: [source-facts.ts].  The depletions of an item relieve its landed
      cost exactly.
    - [PostingRules], [DefaultRules]: [posting-rules.ts] and
      [posting-rules-template.ts].  The save-time check decides exactly the
      templates that balance; first match wins; a version's text is immutable;
      the shipped rules are a constant.
    - [Json], [PostingEngine], [LineBuilding], [EngineFacts]:
      [posting-engine.ts].  The fingerprint covers exactly what the rule
      consumed; a checked template always builds, and the shipped rules balance
      on every fact; an evaluation that posts has written one entry whose lines
      are the built ones; evaluating again changes nothing; there is never more
      than one posted entry of a fact.
    - [PostingPump]: [app/src/accounting-posting.ts].  The sweep's counts add up
      and it leaves at most one posted entry per fact.
    - [LedgerReports]: [ledger-reports.ts].  Over a committed store the trial
      balance balances for every window of dates, and an account's own balance is
      its row.
    - [Statements]: [statements.ts].  The balance sheet balances for every date,
      the income statement agrees with the earnings the sheet shows, and what the
      gate of the entity filter does not give.
    - [ExpenseTables], [Expenses], [ExpenseLines]: the tables of
      [db/src/schema/expenses.ts] and the services of [expenses.ts] (with
      [codes.ts], [attribution.ts] and [posting.ts]) and [lines.ts], which feed
      the engine its expenses.
    - [ExpenseMachine], [ExpenseRefinement], [ExpenseFacts]: the
      lifecycle of an expense as an abstract machine; every call of the services
      is one of its moves, under that move's guard; evidence is kept, totals stay
      within the amounts except where shown, codes are fresh also when two
      operators race, re-attribution never rewrites what a person chose, and the
      ledger's tables are not touched.
    - [DnsDiff], [DnsDiffFacts], [DnsPlan], [DnsConverge]: [reconcile.ts] and the
      planning part of [sync.ts].  The diff reports each record of either side
      once; operations touch only what the reconciler owns, with the exception
      shown ([foreign_record_overwritten]); a complete run, also after one that
      stopped half way, leaves the zone as desired and the next plan empty.
    - [Tailnet], [Materialize]: [tailnet-address.ts], [materialize.ts] and the
      address filter of [host-addresses.ts].  The two private ranges exactly; the
      fronting walk ends at the answering host; nothing private, unsupported or
      unreviewed is published.
    - [WritePolicy]: [write-policy.ts] and [domain/src/provider-write-policy.ts].
      What the gate lets through, and what the lockout preflight guarantees.
    - [DnsStore]: the infrastructure tables and [domains.ts].
    - [Drift], [DnsSync], [DnsSyncFacts], [ZoneProvider]: [drift.ts] and
      [sync.ts], a run as it commits statement by statement, with its errors.
      Whatever a run meets, what it does to the zone is bounded by the intent and
      the gate; a complete apply run leaves the zone as desired and the next run
      finds nothing to do but on manual records; applying the materialized records leaves
      a domain's live rows exactly the desired ones, with manual rows and other domains
      untouched.  [ZoneProvider] is a provider in
      memory that keeps the port's laws, to run the model on.
    - [Stock]: the tables of [db/src/schema/inventory.ts] and the statements on
      them.  [Movements], [Reservations], [LotCosts], [Items], [Locations]: the
      services of [inventory/src] of those names ([allocations.ts] is
      [Reservations]; [LotCosts] is [acquisitions.ts] with [codes.ts] and
      [attribution.ts]).
    - [StockNumbers]: what the decimal strings of the package denote, and what its
      arithmetic does to the numbers.  [StockFacts]: the invariant [stock_ok] of
      the tables and the relation [extends] every statement respects.
      [StockServices]: both for every service; the calls of the package as one
      type, and the stores they reach, with a small stock to run on.
    - [MovementFacts], [DepletionFacts], [CostFacts], [BasisFacts],
      [LocationFacts]: every reachable store has balances that are the sums of its
      movements; recording and reversing, exactly; a fulfillment depletes by
      greedy matching; a lot's costs are spread to the micro-unit; moves, carryover
      transfers and part-outs conserve basis; paths are those of the tree.  Three
      theorems show where the code does not do what it means to: a retried
      fulfillment, a second partial transfer, an underscore in a location code.
    - [WorkTables]: the tables of [db/src/schema/projects.ts] and the statements on
      them.  [Rates], [TimeEntries], [Materials], [Unbilled], [Projects]: the
      services of [work/src] ([Rates] is [rates.ts] with [billing-rates.ts],
      [Projects] is [projects.ts] with [codes.ts]).
    - [WorkMachine]: every service keeps the invariant [work_ok] of the
      tables and the [history] of their rows (what is frozen stays frozen, what is
      locked does not change); the calls as one type, and the stores they reach,
      with a small practice to run on.
    - [WorkAmounts]: what the
      package's arithmetic does to the numbers; the six queries of the ladder are
      one ordering of the card; the totals of unbilled work are exact; a markup is
      right to the micro-unit.  Three theorems show where the code does not do what
      it means to: a day rate charged by the hour, a written-down entry that hides
      its currency's total, a stock row's whole cost taken for one unit.
    - [Config]: [toISOString], which is injective; jsonb values, the strict Zod objects over
      them, and the members the jsonb operators read and set.
    - [Adaptive], [AdaptiveFacts]: [adaptive.ts], in exact rationals.  The tier is that of
      the documented tables, and the interval keeps every bound of the policy; what a poll
      writes to the configuration is what the next one reads.
    - [MarketTables]: the tables of [db/src/schema/monitoring.ts], [events.ts] and
      [observations.ts], and the statements on them.  [Monitors] and [Polls] are [monitors.ts]
      (targets and claims; the outcomes of polls); [MarketEvents] is [events.ts], with the theorem that a comparison detects exactly the documented events;
      [Observations] is [observations.ts] with [discovery.ts]; [MarketTasks] is [tasks.ts].
    - [MarketMachine]: the invariant [market_ok] and the [history] of the rows;
      both for every call, in the stores the calls reach from an empty one.
    - [ScheduleFacts]: what success and failure do to the schedule; a claim takes exactly the
      due targets, and none twice for a tick.  Three theorems show where retries and races do
      not do what the comments promise: a replayed success that moves the schedule again, an
      edit that brings a deleted target back, a late link that announces an item twice.
    - [Opportunities], [OpportunityFacts]: [opportunities.ts].  A rule matches exactly when each
      condition it declares holds of known values; its score is the documented formula but for
      the share dropped, which the code cuts off after four places before it is weighted; an
      event is attributed once, to the first rule that matches.
    - [Metrics]: [metrics.ts].  Restock and sell-out intervals tile the time since the first
      event; sell-through adds up.
    - [System]: the verbs of all the ledger's services as one type of calls; every store
      reached from an installation, by any calls in any order, satisfies the
      invariants and the keys, checks and foreign keys of the accounting tables
      ([constraints_ok]), and both reports balance in it.

    ** Correspondence

    A TypeScript function keeps its name.  A service method is a [St Db]
    computation: it takes the store and returns a value or an [error], with the
    store it leaves.  [db.transaction] is [transaction]: a throw restores the
    store, and the balance trigger runs at commit, on the entries the
    transaction touched.  A table is the list of its rows in insertion order; an
    identifier is a positive number drawn from a counter; [numeric(20, 6)]
    columns are integers of micro-units, and overflow of the column is an
    [SqlError]; a decimal string of the code is a [string].  The texts of errors
    are not kept, their class is; the texts that are stored or compared
    (ineligibility reasons, descriptions, posting keys, account codes) are.
    The inventory services run over a store of their own, [Stock], in the same
    monad: [srun] is [St Stock], [atomically] a transaction.  What [randomInt]
    returns is a field of the store; a random key ([randomUUID]) is drawn from the
    counter.  Its calls run one after another.  So do those of the work package, over
    [Work], which holds a [Stock] it only reads; [wrun] is [St Work].  A uuid order
    ([order by id]) is the order of the identifiers, of which the theorems use only
    that it is total.
    The market services run over [Market]; [mrun] is [St Market].  An instant is a whole number of
    milliseconds since the epoch; a number that may have a fraction is a rational, where the code
    computes with doubles, and [Infinity] and [NaN] are values of their own.  The rows that
    another transaction holds ([for update skip locked]) are an argument of the claim, and
    [updateTarget] is the read and the write it issues, with other calls between them.

    ** Bounds and fuel

    The ancestor walk of [Books] has the bound of the query (32 levels).  The
    descendant query has none: it is given one level more than there are
    entities, which is enough for every hierarchy without cycles
    ([descendants_terminates]); over a cycle the source does not end.  All other
    recursion is structural.  [MAX_SAFE_INTEGER] bounds the entry numbers as in
    the code.  The theorems on the reports assume that the micro-units that
    passed through the lines stay below [10 ^ 20], what a [numeric(20, 6)]
    holds, and those on the balance sheet a date from the year 1001 on (before
    it the fiscal year's start prints with fewer digits).

    The fronting walk carries fuel for the eight hops the code allows; one more hop
    is the code's own error.

    The ancestors of a location are walked to the level the query bounds; the tree
    of [reconcilePaths] is descended as many levels as there are locations, which
    no branch exceeds: a row has one parent, and the query starts at the roots.

    ** Parameters

    The DNS provider is a third-party service behind [port.ts]: an instance of
    [DnsSync.DnsProvider], whose state is its own, under [DnsSync.DnsProviderLaws].
    A read returns the zone; a call of [apply] does its operations in order, all of
    them when it returns and some of them when it throws, each as
    [DnsConverge.zone_step] says: a create adds the record or finds it present, an
    update overwrites the record of an identifier, a delete removes it or finds it
    absent.  Record types and names hold no space, and a zone has no two records
    of one identifier or of one type, name and content ([zone_ok]).  That a create
    finds the record present is an idealisation: the Cloudflare adapter also answers
    so on a code that says only that the host has some address record
    ([integrations/cloudflare/src/adapter.ts], [errors.ts]).  SHA-256 ([digest]) is code of Node and a parameter of the engine; what is
    proved of the fingerprint is proved of the hashed text.  The JSON and string
    functions of the language that the code uses are modelled ([Json],
    [Decimal.Js]).

    The datetime and uuid formats of Zod are the record [Config.Formats], of which nothing is
    assumed; the executor of a poll is a parameter of [MarketTasks.pollTarget], and the theorems
    hold for each call it may make.  [time_bucket] of TimescaleDB is a parameter of the bucketed
    series.

    ** Not modelled

    Reading of rows through the query builder beyond the predicates the code
    writes; the metadata and snapshots of audit events; concurrency other than
    the races on a posting key and on a reference code; NUL bytes in bound text
    parameters; a clock of the process apart from the store's; document storage
    and the confirmation of receipts ([receipts.ts], [confirm.ts]); collations
    ([order by] on text is bytewise, [localeCompare] that of letters and the dash); the
    bound of an integer column on the line numbers of an entry; the services that ingest orders, whose rows
    appear as the tables the readers read; of the inventory package, shipments,
    item specifics, media, opportunity links, purchase import and the
    profitability reads, the order of the rows a reconciliation reports, and calls
    that interleave; of the market package, the executors that talk to providers, the monitor targets that
    the syncs of the inventory and commerce packages insert and update (its theorems are about
    its own calls), thresholds of more than six places, which the code rounds as doubles, the issues Zod reports of an
    invalid condition, the rounding of doubles and of the quotients PostgreSQL ranks movers by, and instants of other than four-digit years, which
    [toISOString] prints with a sign; of the work package, calls that interleave, a resolver
    of billed rows that rejects, and the invoices that would lock its rows, which the
    repository does not have; the parts of the
    infrastructure package other than DNS (mail, proxies, tokens, hosts), notifications and run summaries; letters outside
    ASCII in the lower-casing of domain names; provider integrations, jobs and the
    web application, which are I/O with outside systems. *)
From Stdlib Require Export ZArith Lia Ascii String.
From Stdlib Require Import Sorted.
From stdpp Require Export base tactics option list strings gmap.

#[global] Set Default Goal Selector "!".

(** ** Errors

    One constructor per error class the modelled packages throw; [AdapterError] is
    what a provider adapter throws, with its [kind] when it has one, and [PlainError]
    is JavaScript's own [Error]; [UniqueViolation] is a 23505 of a table whose readers look
    at the name of the constraint.  The message texts are not modelled: every [throw] keeps its class and its guard. *)
Inductive error : Type :=
  | AccountingValidationError
  | AccountingNotFoundError
  | AccountingConflictError
  | ExpenseNotEditableError
  | ExpenseOverAllocatedError
  | ExpenseLinesOverTranscribedError
  | BookRoutingError
  | FiscalPeriodClosedError
  | UnbalancedEntryError
  | LedgerImmutableError
  | UnsupportedCurrencyError
  | CommerceValidationError
  | InventoryValidationError
  | InventoryNotFoundError
  | InventoryConflictError
  | InventoryImmutableFactError
  | InventoryAllocationError
  | WorkValidationError
  | WorkNotFoundError
  | WorkConflictError
  | WorkBoundaryError
  | MarketValidationError
  | MarketNotFoundError
  | DocumentsValidationError
  | DocumentsNotFoundError
  | InfrastructureValidationError
  | InfrastructureNotFoundError
  | MaterializationError
  | ProviderCallError (kind : string)
  | AdapterError (kind : option string)
  | WritePolicyError (blockedReason : string)
  | SelfLockoutError (reason : string)
  | ZodError
  | PlainError
  | SqlError (code : string)
  | UniqueViolation (constraint : string).

#[export] Instance error_eq_dec : EqDecision error.
Proof. solve_decision. Defined.

(** ** Computations that may throw *)
Inductive result (A : Type) : Type :=
  | Ok (a : A)
  | Throw (e : error).
Arguments Ok {A} _.
Arguments Throw {A} _.

#[export] Instance result_eq_dec {A} `{EqDecision A} : EqDecision (result A).
Proof. solve_decision. Defined.

#[export] Instance result_ret : MRet result := fun A a => Ok a.
#[export] Instance result_bind : MBind result := fun A B f m =>
  match m with Ok a => f a | Throw e => Throw e end.
#[export] Instance result_fmap : FMap result := fun A B f m =>
  match m with Ok a => Ok (f a) | Throw e => Throw e end.

Definition is_ok {A} (m : result A) : bool :=
  match m with Ok _ => true | Throw _ => false end.

(** [throw_if b e] is the source's [if (b) throw new e(...)]. *)
Definition throw_if (b : bool) (e : error) : result unit :=
  if b then Throw e else Ok tt.

(** ** Computations over a store, which may throw

    The store reached when an exception escapes is kept: a transaction rolls
    it back, a sequence of transactions does not. *)
Definition St (S A : Type) : Type := S -> result A * S.

#[export] Instance St_ret {S} : MRet (St S) := fun A a s => (Ok a, s).
#[export] Instance St_bind {S} : MBind (St S) := fun A B f m s =>
  match m s with
  | (Ok a, s') => f a s'
  | (Throw e, s') => (Throw e, s')
  end.

Section store.
Context {S : Type}.

Definition st_get : St S S := fun s => (Ok s, s).
Definition st_gets {A} (f : S -> A) : St S A := fun s => (Ok (f s), s).
Definition st_modify (f : S -> S) : St S unit := fun s => (Ok tt, f s).
Definition st_throw {A} (e : error) : St S A := fun s => (Throw e, s).
Definition st_lift {A} (m : result A) : St S A := fun s => (m, s).

(** [try { m } catch (error) { h error }] *)
Definition st_catch {A} (m : St S A) (h : error -> St S A) : St S A := fun s =>
  match m s with
  | (Ok a, s') => (Ok a, s')
  | (Throw e, s') => h e s'
  end.

Fixpoint st_mapM {A B} (f : A -> St S B) (l : list A) : St S (list B) :=
  match l with
  | [] => mret []
  | x :: l => y ← f x; ys ← st_mapM f l; mret (y :: ys)
  end.
End store.

(** ** Generic lemmas on results *)
Lemma bind_Ok {A B} (m : result A) (f : A -> result B) b :
  m ≫= f = Ok b <-> exists a, m = Ok a /\ f a = Ok b.
Proof. destruct m; simpl; naive_solver. Qed.

Lemma throw_if_Ok b e u : throw_if b e = Ok u <-> b = false.
Proof. destruct b, u; simpl; naive_solver. Qed.

Fixpoint res_mapM {A B} (f : A -> result B) (l : list A) : result (list B) :=
  match l with
  | [] => Ok []
  | x :: l => y ← f x; ys ← res_mapM f l; mret (y :: ys)
  end.

Lemma res_mapM_Forall2 {A B} (f : A -> result B) l k :
  res_mapM f l = Ok k <-> Forall2 (fun x y => f x = Ok y) l k.
Proof.
  revert k. induction l as [|x l IH]; intros k; simpl.
  - split; [intros [= <-]; constructor | by inversion 1].
  - rewrite bind_Ok. setoid_rewrite bind_Ok. split.
    + intros (y & Hy & ys & Hys & [= <-]). constructor; [done | by apply IH].
    + inversion 1 as [|? y ? ys Hy Hys]; subst. exists y. split; [done|].
      exists ys. split; [by apply IH | done].
Qed.

Lemma res_mapM_length {A B} (f : A -> result B) l k :
  res_mapM f l = Ok k -> length k = length l.
Proof. intros H%res_mapM_Forall2. symmetry. by eapply Forall2_length. Qed.

Lemma res_mapM_ok {A B} (f : A -> result B) l :
  (forall x, x ∈ l -> exists y, f x = Ok y) -> exists k, res_mapM f l = Ok k.
Proof.
  induction l as [|x l IH]; intros Hf; simpl.
  - by eexists.
  - destruct (Hf x) as [y Hy]; [set_solver|].
    destruct IH as [k Hk]; [intros z Hz; apply Hf; set_solver|].
    exists (y :: k). by rewrite Hy; simpl; rewrite Hk.
Qed.

Lemma Forall2_compose {A B C} (P : A -> B -> Prop) (Q : B -> C -> Prop) (R : A -> C -> Prop) l k m :
  (forall x y z, P x y -> Q y z -> R x z) -> Forall2 P l k -> Forall2 Q k m -> Forall2 R l m.
Proof.
  intros H HP. revert m. induction HP as [|x y l k Hxy _ IH]; intros m HQ;
    inversion HQ as [|? z ? m' Hyz Hm]; subst; constructor; [by eapply H|by apply IH].
Qed.

(** A table whose rows each stay, related by [R], and whose new rows come last. *)
Definition grows {A} (R : relation A) (l l' : list A) : Prop := exists k new, l' = k ++ new /\ Forall2 R l k.

#[export] Instance grows_preorder {A} (R : relation A) `{!PreOrder R} : PreOrder (grows R).
Proof.
  split.
  - intros l. exists l, []. rewrite app_nil_r. split; [done|]. apply Forall_Forall2_diag. by apply Forall_forall.
  - intros l1 l2 l3 (k1 & n1 & -> & H1) (k2 & n2 & -> & H2). apply Forall2_app_inv_l in H2 as (k3 & n3 & H3 & _ & ->).
    exists k3, (n3 ++ n2). rewrite app_assoc. split; [done|]. eapply Forall2_compose; [|done..]. intros x y z. by etrans.
Qed.
Lemma grows_app {A} (R : relation A) `{!Reflexive R} l new : grows R l (l ++ new).
Proof. exists l, new. split; [done|]. apply Forall_Forall2_diag. by apply Forall_forall. Qed.
Lemma grows_fmap {A} (R : relation A) (f : A -> A) l : (forall x, x ∈ l -> R x (f x)) -> grows R l (f <$> l).
Proof.
  intros H. exists (f <$> l), []. rewrite app_nil_r. split; [done|]. apply Forall2_fmap_r, Forall_Forall2_diag.
  by apply Forall_forall.
Qed.
Lemma grows_elem {A} (R : relation A) l l' x : grows R l l' -> x ∈ l -> exists y, y ∈ l' /\ R x y.
Proof.
  intros (k & new & -> & H) (i & Hi)%list_elem_of_lookup. destruct (Forall2_lookup_l _ _ _ _ _ H Hi) as (y & Hy & HR).
  exists y. split; [|done]. apply elem_of_app. left. by eapply list_elem_of_lookup_2.
Qed.


(** Decompose hypotheses of the shape [m ≫= f = Ok b]. *)
Ltac inv_ok :=
  repeat match goal with
  | H : _ ≫= _ = Ok _ |- _ =>
      let a := fresh "a" in let H1 := fresh H in
      apply bind_Ok in H; destruct H as (a & H1 & H)
  | H : throw_if _ _ = Ok _ |- _ =>
      apply throw_if_Ok in H
  | H : Throw _ = Ok _ |- _ => discriminate H
  | H : Ok _ = Throw _ |- _ => discriminate H
  | H : Ok _ = Ok _ |- _ => injection H as H; subst
  | H : mret _ = Ok _ |- _ => injection H as H; subst
  end.

(** ** Sums of integers *)
Definition sumZ (l : list Z) : Z := foldr Z.add 0%Z l.

Lemma sumZ_cons x l : sumZ (x :: l) = (x + sumZ l)%Z.
Proof. done. Qed.

Lemma sumZ_app l k : sumZ (l ++ k) = (sumZ l + sumZ k)%Z.
Proof. induction l as [|x l IH]; simpl; lia. Qed.

Lemma sumZ_perm l k : l ≡ₚ k -> sumZ l = sumZ k.
Proof. induction 1; simpl; lia. Qed.

#[export] Instance sumZ_proper : Proper ((≡ₚ) ==> eq) sumZ.
Proof. intros l k. apply sumZ_perm. Qed.

Lemma sumZ_opp l : sumZ (Z.opp <$> l) = (- sumZ l)%Z.
Proof. induction l as [|x l IH]; csimpl; lia. Qed.

Lemma sumZ_nonneg l : Forall (fun x => 0 <= x)%Z l -> (0 <= sumZ l)%Z.
Proof. induction 1; simpl; lia. Qed.

Lemma fold_left_add_sumZ l a : fold_left Z.add l a = (a + sumZ l)%Z.
Proof. revert a. induction l as [|x l IH]; intros a; simpl; [lia|rewrite IH; lia]. Qed.

Lemma sumZ_add {A} (f g : A -> Z) l :
  sumZ ((fun x => f x + g x)%Z <$> l) = (sumZ (f <$> l) + sumZ (g <$> l))%Z.
Proof. induction l as [|x l IH]; csimpl; lia. Qed.

Lemma sumZ_zero {A} (f : A -> Z) l : (forall x, x ∈ l -> f x = 0%Z) -> sumZ (f <$> l) = 0%Z.
Proof.
  induction l as [|x l IH]; intros H; csimpl; [done|].
  rewrite (H x) by set_solver. rewrite IH; [done|]. intros y Hy. apply H. set_solver.
Qed.

(** Summing group by group is summing. *)
Lemma sumZ_filter_cons {A K} `{EqDecision K} (key : A -> K) (f : A -> Z) x l ks :
  NoDup ks -> key x ∈ ks ->
  sumZ ((fun k => sumZ (f <$> filter (fun y => key y = k) (x :: l))) <$> ks)
  = (f x + sumZ ((fun k => sumZ (f <$> filter (fun y => key y = k) l)) <$> ks))%Z.
Proof.
  intros Hn Hx. induction Hn as [|k ks Hk Hn IH]; [by apply not_elem_of_nil in Hx|].
  rewrite !fmap_cons, !sumZ_cons, filter_cons.
  destruct (decide (key x = k)) as [<-|Hne].
  - rewrite fmap_cons, sumZ_cons.
    assert ((fun k => sumZ (f <$> filter (fun y => key y = k) (x :: l))) <$> ks
            = (fun k => sumZ (f <$> filter (fun y => key y = k) l)) <$> ks) as ->; [|lia].
    apply list_fmap_ext. intros i k Hi. rewrite filter_cons_False; [done|]. intros <-.
    apply Hk. by eapply list_elem_of_lookup_2.
  - apply elem_of_cons in Hx as [Hx|Hx]; [done|]. rewrite (IH Hx). lia.
Qed.

Lemma sumZ_by_key {A K} `{EqDecision K} (key : A -> K) (f : A -> Z) l ks :
  NoDup ks -> (forall x, x ∈ l -> key x ∈ ks) ->
  sumZ ((fun k => sumZ (f <$> filter (fun x => key x = k) l)) <$> ks) = sumZ (f <$> l).
Proof.
  intros Hn. induction l as [|x l IH]; intros Hl.
  - apply sumZ_zero. done.
  - etrans; [apply (sumZ_filter_cons key f x l ks); [done|apply Hl; set_solver]|].
    rewrite fmap_cons, sumZ_cons. rewrite IH; [done|].
    intros y Hy. apply Hl. set_solver.
Qed.

(** A sum of non-negative terms over fewer elements is no larger. *)
Lemma sumZ_sublist {A} (f : A -> Z) k l :
  (forall x, 0 <= f x)%Z -> k `sublist_of` l -> (sumZ (f <$> k) <= sumZ (f <$> l))%Z.
Proof. intros Hf. induction 1 as [|x k l _ IH|x k l _ IH]; csimpl; [lia..|]. specialize (Hf x). lia. Qed.

Lemma sumZ_le {A} (f g : A -> Z) l :
  (forall x, x ∈ l -> f x <= g x)%Z -> (sumZ (f <$> l) <= sumZ (g <$> l))%Z.
Proof.
  induction l as [|x l IH]; intros H; csimpl; [lia|].
  pose proof (H x ltac:(set_solver)). specialize (IH ltac:(intros y Hy; apply H; set_solver)). lia.
Qed.

Lemma bool_filter_sublist {A} (p : A -> bool) l : List.filter p l `sublist_of` l.
Proof. induction l as [|x l IH]; cbn; [constructor|]. destruct (p x); by constructor. Qed.

Lemma NoDup_fmap_sublist {A B} (f : A -> B) k l :
  k `sublist_of` l -> NoDup (f <$> l) -> NoDup (f <$> k).
Proof.
  induction 1 as [|x k l H IH|x k l H IH]; csimpl; rewrite ?NoDup_cons; [done|..|naive_solver].
  intros [Hx Hn]. split; [|auto]. intros (y & E & Hy)%list_elem_of_fmap. apply Hx. rewrite E.
  apply list_elem_of_fmap_2. by eapply sublist_subseteq.
Qed.

Lemma elem_of_bool_filter {A} (p : A -> bool) l x : x ∈ List.filter p l <-> p x = true /\ x ∈ l.
Proof. rewrite !list_elem_of_In, filter_In. tauto. Qed.

(** ** Stable sorting by a boolean order *)
Section sorting.
Context {A : Type} (le : A -> A -> bool).

Fixpoint insert_with (x : A) (l : list A) : list A :=
  match l with
  | [] => [x]
  | y :: l' => if le x y then x :: l else y :: insert_with x l'
  end.
Definition sort_with (l : list A) : list A := foldr insert_with [] l.

Lemma insert_with_perm x l : insert_with x l ≡ₚ x :: l.
Proof.
  induction l as [|y l IH]; cbn; [done|]. destruct (le x y); [done|]. rewrite IH. constructor.
Qed.
Lemma sort_with_perm l : sort_with l ≡ₚ l.
Proof. induction l as [|x l IH]; cbn; [done|]. by rewrite insert_with_perm, IH. Qed.

Lemma sort_with_nil l : head (sort_with l) = None -> l = [].
Proof.
  intros H. pose proof (sort_with_perm l) as P. destruct (sort_with l); [|done]. by apply Permutation_nil in P.
Qed.

(** The first row of a sorted query comes before every row of it. *)
Lemma sort_with_head l r : (forall x y, le x y = true \/ le y x = true) ->
  (forall x y z, le x y = true -> le y z = true -> le x z = true) ->
  head (sort_with l) = Some r -> r ∈ l /\ forall q, q ∈ l -> le r q = true.
Proof.
  intros Ht Htr. revert r. induction l as [|x l IH]; intros r; [done|].
  change (sort_with (x :: l)) with (insert_with x (sort_with l)).
  assert (forall z, le z z = true) as Hz by (intros z; by destruct (Ht z z)).
  destruct (sort_with l) as [|y k] eqn:E; cbn [insert_with head].
  - intros [= ->]. assert (l = []) as -> by (by apply sort_with_nil; rewrite E).
    split; [by left|]. by intros q ->%list_elem_of_singleton.
  - destruct (IH y eq_refl) as [Hy Hm]. destruct (le x y) eqn:Exy; intros [= <-].
    + split; [by left|]. intros q [->|Hq]%elem_of_cons; [done|]. eauto.
    + split; [by right|]. intros q [->|Hq]%elem_of_cons; [|by apply Hm]. destruct (Ht x y); congruence.
Qed.

(** A sorted query is in order. *)
Lemma insert_with_sorted x l : (forall x y, le x y = true \/ le y x = true) ->
  (forall x y z, le x y = true -> le y z = true -> le x z = true) ->
  StronglySorted (fun x y => le x y = true) l -> StronglySorted (fun x y => le x y = true) (insert_with x l).
Proof.
  intros Ht Htr. induction 1 as [|y l Hl IH Hy]; cbn; [by repeat constructor|].
  destruct (le x y) eqn:E.
  - constructor; [by constructor|]. constructor; [done|]. eapply Forall_impl; [exact Hy|]. eauto.
  - constructor; [done|]. rewrite insert_with_perm. constructor; [|done]. destruct (Ht x y); congruence.
Qed.
Lemma sort_with_sorted l : (forall x y, le x y = true \/ le y x = true) ->
  (forall x y z, le x y = true -> le y z = true -> le x z = true) ->
  StronglySorted (fun x y => le x y = true) (sort_with l).
Proof. intros Ht Htr. induction l as [|x l IH]; cbn; [constructor|by apply insert_with_sorted]. Qed.
End sorting.

Create HintDb loxep discriminated.
#[export] Hint Rewrite sumZ_app sumZ_opp : loxep.
