(* ===== verification/Decimal.v ===== *)
(** * Exact decimal strings

    [packages/accounting/src/decimal.ts], and the primitives
    ([parseScaled], [rescale], [format]) that the commerce, inventory and work
    packages re-declare word for word.  A JavaScript [bigint] is a [Z]; a
    string is a [string]; [Section primitives] is parameterised by the error
    class the declaring package throws. *)
From Stdlib Require Import ZArith Lia Ascii String.
From stdpp Require Import base tactics option list strings gmap.
From S2P Require Import Prelude.

Open Scope Z_scope.
#[local] Arguments String.append : simpl nomatch.

(** ** Strings as JavaScript sees them *)
Module Js.
Definition is_digit (c : ascii) : bool :=
  let n := nat_of_ascii c in (48 <=? n)%nat && (n <=? 57)%nat.

Definition digit_val (c : ascii) : Z := Z.of_nat (nat_of_ascii c) - 48.

Definition digit_char (d : Z) : ascii := ascii_of_nat (48 + Z.to_nat d).

Fixpoint all_digits (s : string) : bool :=
  match s with
  | EmptyString => true
  | String c s => is_digit c && all_digits s
  end.

(** [s.startsWith(p)] *)
Fixpoint starts_with (p s : string) : bool :=
  match p, s with
  | EmptyString, _ => true
  | String _ _, EmptyString => false
  | String a p, String b s => (a =? b)%char && starts_with p s
  end.

(** [s.slice(i)] and [s.slice(i, j)] for [0 <= i <= j <= s.length] *)
Definition slice_from (i : nat) (s : string) : string :=
  String.substring i (String.length s - i) s.
Definition slice (i j : nat) (s : string) : string :=
  String.substring i (j - i) s.

(** [s.indexOf(c)]; [None] is [-1] *)
Fixpoint index_of (c : ascii) (s : string) : option nat :=
  match s with
  | EmptyString => None
  | String d s => if (c =? d)%char then Some 0%nat else S <$> index_of c s
  end.

Fixpoint repeat_char (n : nat) (c : ascii) : string :=
  match n with O => EmptyString | S n => String c (repeat_char n c) end.

(** [s.padStart(n, c)] *)
Definition pad_start (n : nat) (c : ascii) (s : string) : string :=
  String.append (repeat_char (n - String.length s) c) s.

(** [BigInt(s)] on a string of digits *)
Fixpoint bigint_acc (acc : Z) (s : string) : Z :=
  match s with
  | EmptyString => acc
  | String c s => bigint_acc (10 * acc + digit_val c) s
  end.
Definition bigint (s : string) : Z := bigint_acc 0 s.

(** [u.toString()] on a non-negative bigint: the digits from the last one *)
Fixpoint digits_acc (fuel : nat) (u : Z) (acc : string) : string :=
  match fuel with
  | O => acc
  | S fuel =>
      let acc' := String (digit_char (u mod 10)) acc in
      if u <? 10 then acc' else digits_acc fuel (u / 10) acc'
  end.
Definition bigint_to_string (u : Z) : string :=
  digits_acc (S (Z.to_nat (Z.log2 u))) u EmptyString.
End Js.

Section string_lemmas.
Import Js.

Lemma length_append (a b : string) :
  String.length (String.append a b) = (String.length a + String.length b)%nat.
Proof. induction a; simpl; congruence. Qed.

Lemma append_nil_r (a : string) : String.append a "" = a.
Proof. induction a; simpl; congruence. Qed.

Lemma append_assoc' (a b c : string) :
  String.append a (String.append b c) = String.append (String.append a b) c.
Proof. induction a; simpl; congruence. Qed.

Lemma substring_0_length (a : string) : String.substring 0 (String.length a) a = a.
Proof. induction a; simpl; congruence. Qed.

Lemma substring_skip (a b : string) n m :
  String.substring (String.length a + n) m (String.append a b) = String.substring n m b.
Proof. induction a; simpl; [done|]. done. Qed.

Lemma substring_prefix (a b : string) :
  String.substring 0 (String.length a) (String.append a b) = a.
Proof. induction a; simpl; [by destruct b|congruence]. Qed.

Lemma substring_suffix (a b : string) :
  String.substring (String.length a) (String.length b) (String.append a b) = b.
Proof.
  rewrite <- (Nat.add_0_r (String.length a)), substring_skip.
  apply substring_0_length.
Qed.

Lemma substring_split (s : string) (n : nat) :
  (n <= String.length s)%nat ->
  s = String.append (String.substring 0 n s)
        (String.substring n (String.length s - n) s) /\
  String.length (String.substring 0 n s) = n /\
  String.length (String.substring n (String.length s - n) s) = (String.length s - n)%nat.
Proof.
  revert n. induction s as [|c s IH]; intros n Hn; simpl in *.
  - assert (n = 0%nat) as -> by lia. done.
  - destruct n as [|n]; simpl.
    + rewrite substring_0_length. done.
    + destruct (IH n) as (H1 & H2 & H3); [lia|]. rewrite H2, H3. split_and!; congruence.
Qed.

Lemma slice_from_append (a b : string) :
  slice_from (String.length a) (String.append a b) = b.
Proof.
  unfold slice_from. rewrite length_append.
  replace (_ + _ - _)%nat with (String.length b) by lia. apply substring_suffix.
Qed.

Lemma slice_0_append (a b : string) :
  slice 0 (String.length a) (String.append a b) = a.
Proof. unfold slice. rewrite Nat.sub_0_r. apply substring_prefix. Qed.

Lemma all_digits_append a b :
  all_digits (String.append a b) = all_digits a && all_digits b.
Proof. induction a as [|c a IH]; simpl; [done|]. by rewrite IH, andb_assoc. Qed.

Lemma index_of_append c a b :
  index_of c a = None ->
  index_of c (String.append a (String c b)) = Some (String.length a).
Proof.
  induction a as [|d a IH]; simpl; [by rewrite Ascii.eqb_refl|].
  destruct (c =? d)%char; [done|]. destruct (index_of c a); [done|].
  intros _. by rewrite IH.
Qed.

Lemma index_of_dot_digits a : all_digits a = true -> index_of "." a = None.
Proof.
  induction a as [|d a IH]; cbn [index_of all_digits]; [done|].
  intros [Hd Ha]%andb_true_iff. rewrite (IH Ha).
  destruct (Ascii.eqb_spec "." d) as [<-|]; [done|done].
Qed.

Lemma is_digit_char d : 0 <= d < 10 -> is_digit (digit_char d) = true.
Proof.
  intros Hd. unfold is_digit, digit_char.
  rewrite nat_ascii_embedding by lia. apply andb_true_iff. split; apply Nat.leb_le; lia.
Qed.

Lemma digit_val_char d : 0 <= d < 10 -> digit_val (digit_char d) = d.
Proof. intros Hd. unfold digit_val, digit_char. rewrite nat_ascii_embedding; lia. Qed.

Lemma digit_val_bounds c : is_digit c = true -> 0 <= digit_val c < 10.
Proof.
  unfold is_digit, digit_val. intros [H1%Nat.leb_le H2%Nat.leb_le]%andb_true_iff. lia.
Qed.

Lemma bigint_acc_append acc a b :
  bigint_acc acc (String.append a b) = bigint_acc (bigint_acc acc a) b.
Proof. revert acc. induction a; intros acc; simpl; [done|]. apply IHa. Qed.

Lemma bigint_acc_shift acc s :
  bigint_acc acc s = acc * 10 ^ Z.of_nat (String.length s) + bigint_acc 0 s.
Proof.
  revert acc. induction s as [|c s IH]; intros acc.
  - simpl. lia.
  - cbn [bigint_acc String.length]. rewrite IH, (IH (10 * 0 + _)).
    rewrite Nat2Z.inj_succ, Z.pow_succ_r by lia. ring.
Qed.

Lemma bigint_bounds s :
  all_digits s = true -> 0 <= bigint s < 10 ^ Z.of_nat (String.length s).
Proof.
  unfold bigint. induction s as [|c s IH]; [simpl; lia|].
  cbn [all_digits bigint_acc String.length].
  intros [Hc%digit_val_bounds Hs]%andb_true_iff. specialize (IH Hs).
  rewrite bigint_acc_shift, Nat2Z.inj_succ, Z.pow_succ_r by lia. nia.
Qed.

Lemma bigint_zeros n s : bigint (String.append (repeat_char n "0") s) = bigint s.
Proof. unfold bigint. induction n as [|n IH]; simpl; [done|exact IH]. Qed.

Lemma all_digits_zeros n : all_digits (repeat_char n "0") = true.
Proof. induction n; simpl; done. Qed.

Lemma length_repeat_char n c : String.length (repeat_char n c) = n.
Proof. induction n; simpl; congruence. Qed.

Lemma digits_acc_spec fuel u acc :
  0 <= u < 10 ^ Z.of_nat fuel ->
  exists s, digits_acc fuel u acc = String.append s acc /\
    all_digits s = true /\ bigint s = u /\ (fuel <> 0%nat -> s <> EmptyString).
Proof.
  revert u acc. induction fuel as [|fuel IH]; intros u acc Hu.
  { exists EmptyString. simpl in *. split_and!; try done. unfold bigint; simpl; lia. }
  rewrite Nat2Z.inj_succ, Z.pow_succ_r in Hu by lia.
  assert (0 <= u mod 10 < 10) as Hm by (apply Z.mod_pos_bound; lia).
  assert (u = 10 * (u / 10) + u mod 10) as Hdm by (apply Z.div_mod; lia).
  cbn [digits_acc]. destruct (Z.ltb_spec u 10).
  - exists (String (digit_char (u mod 10)) EmptyString).
    unfold bigint. cbn [all_digits bigint_acc String.append].
    rewrite is_digit_char, digit_val_char by done. split_and!; try done.
    rewrite Z.mod_small; lia.
  - destruct (IH (u / 10) (String (digit_char (u mod 10)) acc)) as (s & -> & H1 & H2 & _).
    { lia. }
    exists (String.append s (String (digit_char (u mod 10)) EmptyString)).
    rewrite <- append_assoc'. cbn [String.append].
    rewrite all_digits_append. unfold bigint in *. rewrite bigint_acc_append, H2.
    cbn [all_digits bigint_acc]. rewrite H1, is_digit_char, digit_val_char by done.
    split_and!; [done|done|lia|]. intros _ Hs. by destruct s.
Qed.

(** The digits of a non-negative integer read back as that integer. *)
Lemma bigint_to_string_spec u :
  0 <= u ->
  all_digits (bigint_to_string u) = true /\ bigint (bigint_to_string u) = u /\
  bigint_to_string u <> EmptyString.
Proof.
  intros Hu. unfold bigint_to_string.
  destruct (digits_acc_spec (S (Z.to_nat (Z.log2 u))) u EmptyString) as (s & -> & H1 & H2 & H3).
  { split; [done|]. rewrite Nat2Z.inj_succ, Z2Nat.id by apply Z.log2_nonneg.
    destruct (Z.eq_dec u 0) as [->|]; [done|].
    eapply Z.lt_le_trans; [apply Z.log2_spec; lia|].
    apply Z.pow_le_mono_l. lia. }
  rewrite append_nil_r. auto.
Qed.
End string_lemmas.

(** ** The primitives every package re-declares *)
Record Scaled := mk_scaled { units : Z; scale : nat }.

(** Longest prefix of digits, and what follows it. *)
Fixpoint span_digits (s : string) : string * string :=
  match s with
  | EmptyString => (EmptyString, EmptyString)
  | String c t =>
      if Js.is_digit c then let '(w, rest) := span_digits t in (String c w, rest)
      else (EmptyString, s)
  end.

(** [/^-?\d+(\.\d+)?$/.test(value)] *)
Definition DECIMAL_STRING (value : string) : bool :=
  let unsigned := if Js.starts_with "-" value then Js.slice_from 1 value else value in
  let '(w, rest) := span_digits unsigned in
  negb (String.eqb w "") &&
  match rest with
  | EmptyString => true
  | String c f => (c =? ".")%char && negb (String.eqb f "") && Js.all_digits f
  end.

(** [numeric(20,6)] *)
Definition MONEY_SCALE : nat := 6.

Definition ZERO : string := "0.000000".

(** [10n ** BigInt(n)] *)
Definition pow10 (n : nat) : Z := 10 ^ Z.of_nat n.

Definition format (u : Z) (sc : nat) : string :=
  let negative := u <? 0 in
  let digits := Js.pad_start (sc + 1) "0" (Js.bigint_to_string (if negative then - u else u)) in
  let whole := Js.slice 0 (String.length digits - sc) digits in
  let fraction :=
    if (sc =? 0)%nat then "" else String.append "." (Js.slice_from (String.length digits - sc) digits) in
  String.append (if negative then "-" else "") (String.append whole fraction).

(** [quotient], [remainder] and [rounded] of the rounding functions: [m / d]
    rounded half up, for a magnitude [m]. *)
Definition half_up (m d : Z) : Z :=
  let quotient := m / d in
  let remainder := m mod d in
  if remainder * 2 >=? d then quotient + 1 else quotient.

Section primitives.
(** The validation error of the declaring package. *)
Variable verr : error.

Definition parseScaled (value : string) : result Scaled :=
  if negb (DECIMAL_STRING value) then Throw verr else
  let negative := Js.starts_with "-" value in
  let unsigned := if negative then Js.slice_from 1 value else value in
  let dot := Js.index_of "." unsigned in
  let digits :=
    match dot with
    | None => unsigned
    | Some i => String.append (Js.slice 0 i unsigned) (Js.slice_from (i + 1) unsigned)
    end in
  let sc := match dot with None => 0%nat | Some i => (String.length unsigned - i - 1)%nat end in
  let u := Js.bigint digits in
  Ok (mk_scaled (if negative then - u else u) sc).

Definition rescale (value : Scaled) (sc : nat) : result Z :=
  if (sc =? scale value)%nat then Ok (units value)
  else if (sc <? scale value)%nat then Throw verr
  else Ok (units value * pow10 (sc - scale value)).

Definition toUnitsAt (value : string) (sc : nat) : result Z :=
  parsed ← parseScaled value; rescale parsed sc.
End primitives.

(** ** [packages/accounting/src/decimal.ts] *)
Definition isDecimalString (value : string) : bool := DECIMAL_STRING value.

Definition toUnits (value : string) : result Z :=
  toUnitsAt AccountingValidationError value MONEY_SCALE.

Definition fromUnits (u : Z) : string := format u MONEY_SCALE.

Definition toMoneyString (value : string) : result string :=
  u ← toUnits value; mret (format u MONEY_SCALE).

(** [for (const value of values) total += toUnits(value)] *)
Fixpoint sum_loop (total : Z) (values : list string) : result Z :=
  match values with
  | [] => Ok total
  | value :: values => u ← toUnits value; sum_loop (total + u) values
  end.

Definition sumDecimals (values : list string) : result string :=
  total ← sum_loop 0 values; mret (format total MONEY_SCALE).

Definition subtractDecimals (a b : string) : result string :=
  x ← toUnits a; y ← toUnits b; mret (format (x - y) MONEY_SCALE).

(** [-1 | 0 | 1] *)
Definition compareDecimals (a b : string) : result Z :=
  left ← toUnits a; right ← toUnits b;
  mret (if left =? right then 0 else if left <? right then -1 else 1).

Definition absDecimal (value : string) : result string :=
  u ← toUnits value; mret (format (if u <? 0 then - u else u) MONEY_SCALE).

Definition negateDecimal (value : string) : result string :=
  u ← toUnits value; mret (format (- u) MONEY_SCALE).

Definition multiplyDecimals (value multiplier : string) : result string :=
  x ← toUnits value; y ← toUnits multiplier;
  let scaled := x * y in
  let divisor := pow10 MONEY_SCALE in
  let negative := scaled <? 0 in
  let magnitude := if negative then - scaled else scaled in
  let rounded := half_up magnitude divisor in
  mret (format (if negative then - rounded else rounded) MONEY_SCALE).

Definition proRataShare (total part whole : string) : result string :=
  wholeUnits ← toUnits whole;
  partUnits ← toUnits part;
  if wholeUnits <=? 0 then Ok ZERO
  else if partUnits <=? 0 then Ok ZERO
  else if partUnits >=? wholeUnits then toMoneyString total
  else
    totalUnits ← toUnits total;
    let negative := totalUnits <? 0 in
    let magnitude := if negative then - totalUnits else totalUnits in
    let rounded := half_up (magnitude * partUnits) wholeUnits in
    mret (format (if negative then - rounded else rounded) MONEY_SCALE).

Definition isZeroDecimal (value : string) : result bool :=
  u ← toUnits value; mret (u =? 0).

Definition isNegative (value : string) : result bool :=
  u ← toUnits value; mret (u <? 0).

(** * Properties *)

(** The strings the regular expression accepts, taken apart. *)
Definition render (negative : bool) (w f : string) : string :=
  String.append (if negative then "-" else "")
    (String.append w (if String.eqb f "" then "" else String.append "." f)).

Section parse_render.
Import Js.

Lemma span_digits_append w rest :
  all_digits w = true ->
  match rest with EmptyString => True | String c _ => is_digit c = false end ->
  span_digits (String.append w rest) = (w, rest).
Proof.
  induction w as [|c w IH]; cbn [all_digits String.append].
  - intros _. destruct rest as [|c r]; [done|]. intros Hc. simpl. by rewrite Hc.
  - intros [Hc Hw]%andb_true_iff Hr. cbn [span_digits]. by rewrite Hc, IH.
Qed.

Lemma span_digits_spec s w rest :
  span_digits s = (w, rest) -> s = String.append w rest /\ all_digits w = true.
Proof.
  revert w rest. induction s as [|c s IH]; intros w rest; cbn [span_digits].
  - by intros [= <- <-].
  - destruct (is_digit c) eqn:Hc; [|by intros [= <- <-]].
    destruct (span_digits s) as [w' r'] eqn:Hs. intros [= <- <-].
    destruct (IH _ _ eq_refl) as [-> Hw]. cbn [all_digits]. by rewrite Hc, Hw.
Qed.

Lemma slice_from_1 c s : slice_from 1 (String c s) = s.
Proof. unfold slice_from. simpl. rewrite Nat.sub_0_r. apply substring_0_length. Qed.

Lemma digits_no_sign w x :
  all_digits w = true -> w <> "" -> starts_with "-" (String.append w x) = false.
Proof.
  destruct w as [|c w]; [done|]. cbn [all_digits]. intros [Hc _]%andb_true_iff _.
  cbn [starts_with String.append].
  destruct (Ascii.eqb_spec "-" c) as [<-|]; [by vm_compute in Hc|done].
Qed.

Lemma render_unsigned negative w f :
  all_digits w = true -> w <> "" ->
  starts_with "-" (render negative w f) = negative /\
  (if negative then slice_from 1 (render negative w f) else render negative w f)
  = String.append w (if String.eqb f "" then "" else String.append "." f).
Proof.
  intros Hw Hne. unfold render. destruct negative.
  - change (String.append "-" ?x) with (String "-" x).
    rewrite slice_from_1. done.
  - change (String.append "" ?x) with x. split; [|done]. by apply digits_no_sign.
Qed.

Lemma DECIMAL_STRING_render negative w f :
  all_digits w = true -> w <> "" -> all_digits f = true ->
  DECIMAL_STRING (render negative w f) = true.
Proof.
  intros Hw Hne Hf. destruct (render_unsigned negative w f Hw Hne) as [Hs Hu].
  unfold DECIMAL_STRING. rewrite Hs, Hu.
  apply String.eqb_neq in Hne. rewrite span_digits_append; [|done|by destruct f].
  rewrite Hne. destruct (String.eqb_spec f "") as [->|Hf']; [done|].
  cbn [String.append]. rewrite Hf. by rewrite (proj2 (String.eqb_neq f "") Hf').
Qed.

Lemma DECIMAL_STRING_inv value :
  DECIMAL_STRING value = true ->
  exists negative w f, value = render negative w f /\
    all_digits w = true /\ w <> "" /\ all_digits f = true.
Proof.
  unfold DECIMAL_STRING. intros H.
  assert (exists negative u, value = String.append (if negative : bool then "-" else "") u /\
    (if starts_with "-" value then slice_from 1 value else value) = u) as (neg & u & Hv & Hu).
  { destruct (starts_with "-" value) eqn:Hs; [|by exists false, value].
    destruct value as [|c s]; [done|]. exists true, s. split; [|apply slice_from_1].
    cbn [starts_with] in Hs. by destruct (Ascii.eqb_spec "-" c) as [<-|]. }
  rewrite Hu in H. destruct (span_digits u) as [w rest] eqn:Hsp.
  apply span_digits_spec in Hsp as [Hu2 Hw]. clear Hu. subst value u.
  apply andb_true_iff in H as [Hne%negb_true_iff%String.eqb_neq H].
  destruct rest as [|c f].
  - exists neg, w, "". unfold render. simpl. by rewrite append_nil_r in *.
  - apply andb_true_iff in H as [[->%Ascii.eqb_eq Hf%negb_true_iff]%andb_true_iff Hfd].
    exists neg, w, f. split; [|done]. unfold render. by rewrite Hf.
Qed.

Lemma parseScaled_render verr negative w f :
  all_digits w = true -> w <> "" -> all_digits f = true ->
  parseScaled verr (render negative w f) =
    Ok (mk_scaled (let u := bigint (String.append w f) in if negative then - u else u)
          (String.length f)).
Proof.
  intros Hw Hne Hf. destruct (render_unsigned negative w f Hw Hne) as [Hs Hu].
  unfold parseScaled. rewrite DECIMAL_STRING_render by done. cbn [negb].
  rewrite Hs, Hu. destruct (String.eqb_spec f "") as [->|Hf'].
  - rewrite !append_nil_r, index_of_dot_digits by done. done.
  - cbn [String.append].
    rewrite index_of_append by by apply index_of_dot_digits.
    rewrite slice_0_append.
    replace (String.append w (String "." f))
      with (String.append (String.append w (String "." EmptyString)) f)
      by by rewrite <- append_assoc'.
    replace (String.length w + 1)%nat
      with (String.length (String.append w (String "." EmptyString)))
      by by rewrite length_append.
    rewrite slice_from_append, !length_append. cbn [String.length].
    do 2 f_equal. lia.
Qed.

Lemma parseScaled_throw verr value e : parseScaled verr value = Throw e -> e = verr.
Proof. unfold parseScaled. by destruct (negb _); [intros [= ->]|]. Qed.

(** The padded digits of a magnitude, split at the decimal point. *)
Lemma format_render u sc :
  exists w f, format u sc = render (u <? 0) w f /\
    all_digits w = true /\ w <> "" /\ all_digits f = true /\
    String.length f = sc /\ bigint (String.append w f) = Z.abs u.
Proof.
  unfold format. set (m := if u <? 0 then - u else u).
  assert (m = Z.abs u) as Hm by (subst m; destruct (Z.ltb_spec u 0); lia).
  destruct (bigint_to_string_spec m) as (Hd & Hv & Hne); [lia|].
  set (d := pad_start (sc + 1) "0" (bigint_to_string m)).
  assert (all_digits d = true /\ bigint d = m /\ (sc + 1 <= String.length d)%nat)
    as (Hd' & Hv' & Hl).
  { subst d. unfold pad_start. rewrite all_digits_append, all_digits_zeros, bigint_zeros.
    rewrite length_append, length_repeat_char. split_and!; [done|done|lia]. }
  destruct (substring_split d (String.length d - sc)) as (Hs & Hl1 & Hl2); [lia|].
  set (w := slice 0 (String.length d - sc) d).
  assert (w = String.substring 0 (String.length d - sc) d) as Hw
    by (subst w; unfold slice; by rewrite Nat.sub_0_r).
  set (f := slice_from (String.length d - sc) d).
  assert (String.length f = sc) as Hlf
    by (change f with (String.substring (String.length d - sc)
                         (String.length d - (String.length d - sc)) d); lia).
  assert (d = String.append w f) as Hwf by (rewrite Hw; exact Hs).
  rewrite Hwf, all_digits_append in Hd'. apply andb_true_iff in Hd' as [Hdw Hdf].
  exists w, f. split_and!; try done.
  - unfold render. do 2 f_equal. destruct (Nat.eqb_spec sc 0) as [->|].
    + by destruct f.
    + destruct (String.eqb_spec f "") as [Hf|]; [|done]. rewrite Hf in Hlf. simpl in Hlf. lia.
  - intros ->. rewrite <- Hw in Hl1. simpl in Hl1. lia.
  - rewrite <- Hwf. lia.
Qed.
End parse_render.

(** ** Reading and writing at a scale *)
Section scales.
Import Js.

Lemma pow10_pos n : 0 < pow10 n.
Proof. unfold pow10. apply Z.pow_pos_nonneg; lia. Qed.

Lemma pow10_add n m : pow10 (n + m) = pow10 n * pow10 m.
Proof. unfold pow10. rewrite Nat2Z.inj_add, Z.pow_add_r; lia. Qed.

Lemma toUnitsAt_render verr negative w f sc :
  all_digits w = true -> w <> "" -> all_digits f = true ->
  toUnitsAt verr (render negative w f) sc =
    if (String.length f <=? sc)%nat
    then Ok ((if negative then -1 else 1) * bigint (String.append w f) * pow10 (sc - String.length f))
    else Throw verr.
Proof.
  intros Hw Hne Hf. unfold toUnitsAt. rewrite parseScaled_render by done.
  cbn [mbind result_bind]. unfold rescale. cbn [scale units].
  set (b := bigint _). destruct (Nat.leb_spec (String.length f) sc).
  - destruct (Nat.eqb_spec sc (String.length f)) as [->|].
    + rewrite Nat.sub_diag. unfold pow10. simpl. f_equal. destruct negative; lia.
    + destruct (Nat.ltb_spec sc (String.length f)); [lia|]. f_equal. destruct negative; lia.
  - destruct (Nat.eqb_spec sc (String.length f)); [lia|].
    destruct (Nat.ltb_spec sc (String.length f)); [done|lia].
Qed.

Lemma parseScaled_format verr u sc : parseScaled verr (format u sc) = Ok (mk_scaled u sc).
Proof.
  destruct (format_render u sc) as (w & f & -> & Hw & Hne & Hf & <- & Hb).
  rewrite parseScaled_render by done. rewrite Hb. cbv zeta. do 2 f_equal.
  destruct (Z.ltb_spec u 0); lia.
Qed.

Lemma toUnitsAt_format verr u sc sc' :
  (sc <= sc')%nat -> toUnitsAt verr (format u sc) sc' = Ok (u * pow10 (sc' - sc)).
Proof.
  intros Hs. unfold toUnitsAt. rewrite parseScaled_format. cbn [mbind result_bind].
  unfold rescale. cbn [scale units].
  destruct (Nat.eqb_spec sc' sc) as [->|].
  - rewrite Nat.sub_diag. unfold pow10. simpl. f_equal. lia.
  - destruct (Nat.ltb_spec sc' sc); [lia|done].
Qed.

Lemma toUnitsAt_format_same verr u sc : toUnitsAt verr (format u sc) sc = Ok u.
Proof.
  rewrite toUnitsAt_format by done. rewrite Nat.sub_diag. unfold pow10. simpl.
  f_equal. lia.
Qed.

Lemma toUnitsAt_throw verr value sc e : toUnitsAt verr value sc = Throw e -> e = verr.
Proof.
  unfold toUnitsAt. destruct (parseScaled verr value) as [p|e'] eqn:Hp; cbn [mbind result_bind].
  - unfold rescale. repeat case_match; congruence.
  - intros [= ->]. by eapply parseScaled_throw.
Qed.
End scales.

Lemma toUnits_fromUnits u : toUnits (fromUnits u) = Ok u.
Proof. apply toUnitsAt_format_same. Qed.

Lemma toUnits_format u : toUnits (format u MONEY_SCALE) = Ok u.
Proof. apply toUnits_fromUnits. Qed.

Lemma toUnits_ZERO : toUnits ZERO = Ok 0.
Proof. reflexivity. Qed.

Lemma toUnits_throw value e : toUnits value = Throw e -> e = AccountingValidationError.
Proof. apply toUnitsAt_throw. Qed.

Lemma fromUnits_inj u v : fromUnits u = fromUnits v -> u = v.
Proof. intros H. pose proof (toUnits_fromUnits u) as Hu. rewrite H, toUnits_fromUnits in Hu. congruence. Qed.

(** What the operations do to the micro-units their operands denote. *)
Section money.
Context (a b : string) (x y : Z) (Ha : toUnits a = Ok x) (Hb : toUnits b = Ok y).

Lemma toMoneyString_units : toMoneyString a = Ok (fromUnits x).
Proof using Ha. unfold toMoneyString. by rewrite Ha. Qed.

Lemma subtractDecimals_units : subtractDecimals a b = Ok (fromUnits (x - y)).
Proof using Ha Hb. unfold subtractDecimals. by rewrite Ha, Hb. Qed.

Lemma compareDecimals_units :
  compareDecimals a b = Ok (if x =? y then 0 else if x <? y then -1 else 1).
Proof using Ha Hb. unfold compareDecimals. by rewrite Ha, Hb. Qed.

Lemma absDecimal_units : absDecimal a = Ok (fromUnits (Z.abs x)).
Proof using Ha.
  unfold absDecimal. rewrite Ha. cbn. unfold fromUnits. do 2 f_equal.
  destruct (Z.ltb_spec x 0); lia.
Qed.

Lemma negateDecimal_units : negateDecimal a = Ok (fromUnits (- x)).
Proof using Ha. unfold negateDecimal. by rewrite Ha. Qed.

Lemma isZeroDecimal_units : isZeroDecimal a = Ok (x =? 0).
Proof using Ha. unfold isZeroDecimal. by rewrite Ha. Qed.

Lemma isNegative_units : isNegative a = Ok (x <? 0).
Proof using Ha. unfold isNegative. by rewrite Ha. Qed.
End money.

Lemma sum_loop_units values us total :
  Forall2 (fun v u => toUnits v = Ok u) values us ->
  sum_loop total values = Ok (total + sumZ us).
Proof.
  intros H. revert total. induction H as [|v u vs us Hv _ IH]; intros total; simpl.
  - f_equal. lia.
  - rewrite Hv. simpl. rewrite IH. f_equal. lia.
Qed.

Lemma sumDecimals_units values us :
  Forall2 (fun v u => toUnits v = Ok u) values us ->
  sumDecimals values = Ok (fromUnits (sumZ us)).
Proof.
  intros H. unfold sumDecimals. rewrite (sum_loop_units _ us) by done. done.
Qed.

Lemma sum_loop_ok total values t :
  sum_loop total values = Ok t ->
  exists us, Forall2 (fun v u => toUnits v = Ok u) values us /\ t = total + sumZ us.
Proof.
  revert total. induction values as [|v vs IH]; intros total; simpl.
  - intros [= <-]. exists []. split; [constructor|simpl; lia].
  - rewrite bind_Ok. intros (u & Hu & H). apply IH in H as (us & Hus & ->).
    exists (u :: us). split; [by constructor|simpl; lia].
Qed.

Lemma sumDecimals_ok values s :
  sumDecimals values = Ok s ->
  exists us, Forall2 (fun v u => toUnits v = Ok u) values us /\ s = fromUnits (sumZ us).
Proof.
  unfold sumDecimals. rewrite bind_Ok. intros (t & Ht & [= <-]).
  apply sum_loop_ok in Ht as (us & Hus & ->). by exists us.
Qed.

Lemma sumDecimals_throw values e : sumDecimals values = Throw e -> e = AccountingValidationError.
Proof.
  unfold sumDecimals.
  assert (forall t, sum_loop t values = Throw e -> e = AccountingValidationError) as Hl.
  { induction values as [|v vs IH]; intros t; simpl; [done|].
    destruct (toUnits v) eqn:Hv; simpl; [apply IH|]. intros [= ->]. by eapply toUnits_throw. }
  destruct (sum_loop 0 values) eqn:Hs; simpl; [done|]. intros [= ->]. by eapply Hl.
Qed.

#[export] Hint Resolve toUnits_fromUnits toUnits_format toUnits_ZERO : loxep.

(** ** Rounding *)

(** Rounding half away from zero, as a specification. *)
Definition round_away (n d : Z) : Z := Z.sgn n * ((2 * Z.abs n + d) / (2 * d)).

Lemma half_up_unique m d r : 0 < d -> - d <= 2 * (m - r * d) < d -> half_up m d = r.
Proof.
  intros Hd Hr. unfold half_up.
  pose proof (Z.mod_pos_bound m d Hd). pose proof (Z.div_mod m d ltac:(lia)).
  rewrite Z.geb_leb. destruct (Z.leb_spec d (m mod d * 2)); nia.
Qed.

Lemma half_up_spec m d : 0 < d -> - d <= 2 * (m - half_up m d * d) < d.
Proof.
  intros Hd. unfold half_up.
  pose proof (Z.mod_pos_bound m d Hd). pose proof (Z.div_mod m d ltac:(lia)).
  rewrite Z.geb_leb. destruct (Z.leb_spec d (m mod d * 2)); nia.
Qed.

Lemma half_up_0 d : 0 < d -> half_up 0 d = 0.
Proof. intros Hd. apply half_up_unique; lia. Qed.

Lemma half_up_exact q d : 0 < d -> half_up (q * d) d = q.
Proof. intros Hd. apply half_up_unique; lia. Qed.

Lemma half_up_mono m n d : 0 < d -> m <= n -> half_up m d <= half_up n d.
Proof.
  intros Hd Hmn. pose proof (half_up_spec m d Hd). pose proof (half_up_spec n d Hd). nia.
Qed.

Lemma half_up_scale k m d : 0 < k -> 0 < d -> half_up (k * m) (k * d) = half_up m d.
Proof. intros Hk Hd. apply half_up_unique; [nia|]. pose proof (half_up_spec m d Hd). nia. Qed.

Lemma half_up_away n d :
  0 < d ->
  (if n <? 0 then - half_up (if n <? 0 then - n else n) d
   else half_up (if n <? 0 then - n else n) d) = round_away n d.
Proof.
  intros Hd. unfold round_away.
  assert (forall m, 0 <= m -> half_up m d = (2 * m + d) / (2 * d)) as Hh.
  { intros m Hm. apply half_up_unique; [done|].
    pose proof (Z.mod_pos_bound (2 * m + d) (2 * d) ltac:(lia)).
    pose proof (Z.div_mod (2 * m + d) (2 * d) ltac:(lia)). nia. }
  destruct (Z.ltb_spec n 0).
  - rewrite Hh by lia. rewrite Z.sgn_neg, Z.abs_neq by lia. lia.
  - destruct (Z.eq_dec n 0) as [->|].
    + rewrite half_up_0 by done. done.
    + rewrite Hh by lia. rewrite Z.sgn_pos, Z.abs_eq by lia. lia.
Qed.

Lemma multiplyDecimals_units a b x y :
  toUnits a = Ok x -> toUnits b = Ok y ->
  multiplyDecimals a b = Ok (fromUnits (round_away (x * y) (pow10 MONEY_SCALE))).
Proof.
  intros Ha Hb. unfold multiplyDecimals. rewrite Ha, Hb. cbn [mbind result_bind].
  rewrite half_up_away by apply pow10_pos. done.
Qed.

Lemma round_away_exact q d : 0 < d -> round_away (q * d) d = q.
Proof.
  intros Hd. rewrite <- half_up_away by done.
  destruct (Z.ltb_spec (q * d) 0).
  - replace (- (q * d)) with (- q * d) by lia. rewrite half_up_exact by done. lia.
  - by apply half_up_exact.
Qed.

Lemma round_away_bound n d : 0 < d -> 2 * Z.abs (n - round_away n d * d) <= d.
Proof.
  intros Hd. rewrite <- half_up_away by done.
  destruct (Z.ltb_spec n 0);
    [pose proof (half_up_spec (- n) d Hd)|pose proof (half_up_spec n d Hd)]; lia.
Qed.

(** [proRataShare] on micro-units: nothing, everything, or the rounded share. *)
Definition share_units (total part whole : Z) : Z :=
  if whole <=? 0 then 0 else if part <=? 0 then 0
  else if part >=? whole then total else round_away (total * part) whole.

Lemma round_away_mul_pos n p d :
  0 < d -> 0 < p ->
  (if n <? 0 then - half_up ((if n <? 0 then - n else n) * p) d
   else half_up ((if n <? 0 then - n else n) * p) d) = round_away (n * p) d.
Proof.
  intros Hd Hp. rewrite <- half_up_away by done.
  destruct (Z.ltb_spec n 0), (Z.ltb_spec (n * p) 0); try nia.
  do 2 f_equal. lia.
Qed.

Lemma proRataShare_units a b c t p w :
  toUnits a = Ok t -> toUnits b = Ok p -> toUnits c = Ok w ->
  proRataShare a b c = Ok (fromUnits (share_units t p w)).
Proof.
  intros Ha Hb Hc. unfold proRataShare, share_units. rewrite Hc, Hb. cbn [mbind result_bind].
  destruct (Z.leb_spec w 0); [done|]. destruct (Z.leb_spec p 0); [done|].
  rewrite Z.geb_leb. destruct (Z.leb_spec w p); [by apply toMoneyString_units|].
  rewrite Ha. cbn [mbind result_bind]. rewrite round_away_mul_pos by lia. done.
Qed.

Lemma round_away_mono n m d : 0 < d -> n <= m -> round_away n d <= round_away m d.
Proof.
  intros Hd Hnm. rewrite <- !half_up_away by done.
  assert (forall k, 0 <= k -> 0 <= half_up k d) as Hpos.
  { intros k Hk. pose proof (half_up_spec k d Hd). nia. }
  destruct (Z.ltb_spec n 0), (Z.ltb_spec m 0); try lia.
  - pose proof (half_up_mono (- m) (- n) d Hd). lia.
  - pose proof (Hpos (- n)). pose proof (Hpos m). lia.
  - by apply half_up_mono.
Qed.

(** The share of a non-negative total grows with the part, up to the total. *)
Lemma share_units_mono t p q w :
  0 <= t -> p <= q -> 0 <= share_units t p w <= share_units t q w /\ share_units t q w <= t.
Proof.
  intros Ht Hpq. unfold share_units. rewrite !Z.geb_leb.
  destruct (Z.leb_spec w 0); [lia|].
  assert (forall k, 0 < k <= w -> 0 <= round_away (t * k) w <= t) as Hb.
  { intros k Hk. split.
    - rewrite <- (round_away_exact 0 w) by done. apply round_away_mono; nia.
    - rewrite <- (round_away_exact t w) at 2 by done. apply round_away_mono; nia. }
  pose proof (Hb p). pose proof (Hb q).
  repeat match goal with |- context [?a <=? ?b] => destruct (Z.leb_spec a b) end; try lia.
  split; [|lia]. split; [lia|]. apply round_away_mono; nia.
Qed.

(** * Theorems *)

(** [toMoneyString] is a canonical form: it keeps the amount, is idempotent,
    and two strings denoting the same amount have the same canonical string. *)
Theorem toMoneyString_canonical a w :
  toMoneyString a = Ok w ->
  toUnits w = toUnits a /\ toMoneyString w = Ok w /\
  (forall b, toUnits b = toUnits a -> toMoneyString b = Ok w).
Proof.
  unfold toMoneyString. rewrite bind_Ok. intros (u & Hu & [= <-]).
  rewrite toUnits_format, Hu. split_and!; [done|done|]. intros b ->. done.
Qed.

Example toMoneyString_canonical_witness :
  toUnits "-7.500000" = toUnits "-007.5" /\ toMoneyString "-7.500000" = Ok "-7.500000" /\
  (forall b, toUnits b = toUnits "-007.5" -> toMoneyString b = Ok "-7.500000").
Proof. apply (toMoneyString_canonical "-007.5" "-7.500000"). reflexivity. Defined.

(** [toUnits] accepts exactly the plain decimal strings of at most six
    fractional digits and returns the integer their digits spell, scaled; every
    other string throws [AccountingValidationError], and no amount is rounded. *)
Theorem toUnits_spec v :
  (exists negative w f,
     v = render negative w f /\ Js.all_digits w = true /\ w <> "" /\
     Js.all_digits f = true /\ (String.length f <= MONEY_SCALE)%nat /\
     toUnits v = Ok ((if negative then -1 else 1) * Js.bigint (String.append w f) *
                       pow10 (MONEY_SCALE - String.length f))) \/
  (toUnits v = Throw AccountingValidationError /\
   forall negative w f,
     v = render negative w f -> Js.all_digits w = true -> w <> "" ->
     Js.all_digits f = true -> (MONEY_SCALE < String.length f)%nat).
Proof.
  destruct (DECIMAL_STRING v) eqn:Hv.
  - apply DECIMAL_STRING_inv in Hv as (neg & w & f & -> & Hw & Hne & Hf).
    destruct (Nat.leb_spec (String.length f) MONEY_SCALE) as [Hl|Hl].
    + left. exists neg, w, f. split_and!; try done. unfold toUnits.
      rewrite toUnitsAt_render by done. by rewrite (proj2 (Nat.leb_le _ _) Hl).
    + right. split.
      * unfold toUnits. rewrite toUnitsAt_render by done.
        by rewrite (proj2 (Nat.leb_gt _ _) Hl).
      * intros neg' w' f' Heq Hw' Hne' Hf'.
        pose proof (parseScaled_render WorkValidationError neg w f Hw Hne Hf) as H1.
        rewrite Heq, parseScaled_render in H1 by done. congruence.
  - right. split.
    + unfold toUnits, toUnitsAt, parseScaled. by rewrite Hv.
    + intros neg w f -> Hw Hne Hf. by rewrite DECIMAL_STRING_render in Hv.
Qed.

(** [multiplyDecimals] returns the micro-unit amount nearest to the exact
    product, and rounds a negative product as it rounds the positive one. *)
Theorem multiplyDecimals_nearest a b a' x y :
  toUnits a = Ok x -> toUnits b = Ok y -> toUnits a' = Ok (- x) ->
  exists z,
    multiplyDecimals a b = Ok (fromUnits z) /\
    2 * Z.abs (x * y - z * pow10 MONEY_SCALE) <= pow10 MONEY_SCALE /\
    multiplyDecimals a' b = Ok (fromUnits (- z)).
Proof.
  intros Ha Hb Ha'. exists (round_away (x * y) (pow10 MONEY_SCALE)). split_and!.
  - by apply multiplyDecimals_units.
  - apply round_away_bound, pow10_pos.
  - erewrite multiplyDecimals_units by done. do 2 f_equal.
    unfold round_away. rewrite Z.mul_opp_l, Z.sgn_opp, Z.abs_opp. lia.
Qed.

Example multiplyDecimals_nearest_witness :
  exists z,
    multiplyDecimals "0.000003" "0.5" = Ok (fromUnits z) /\
    2 * Z.abs (3 * 500000 - z * pow10 MONEY_SCALE) <= pow10 MONEY_SCALE /\
    multiplyDecimals "-0.000003" "0.5" = Ok (fromUnits (- z)).
Proof.
  apply (multiplyDecimals_nearest "0.000003" "0.5" "-0.000003" 3 500000); reflexivity.
Defined.
