(* ===== verification/DecimalPackages.v ===== *)
(** * The decimal modules of commerce, inventory and work

    [packages/commerce/src/decimal.ts], [packages/inventory/src/decimal.ts] and
    [packages/work/src/decimal.ts]: the same scaled-bigint representation as
    the accounting module, with a different set of operations, among them the
    largest-remainder distribution [distributeByWeights]. *)
From Stdlib Require Import ZArith Lia Ascii String.
From stdpp Require Import base tactics option list sorting strings gmap.
From S2P Require Import Prelude Decimal.

Open Scope Z_scope.

(** ** Commerce *)
Module Commerce.
Definition parseScaled : string -> result Scaled := Decimal.parseScaled CommerceValidationError.
Definition rescale : Scaled -> nat -> result Z := Decimal.rescale CommerceValidationError.

Definition toMoneyString (value : string) : result string :=
  parsed ← parseScaled value;
  if (MONEY_SCALE <? scale parsed)%nat then Throw CommerceValidationError
  else u ← rescale parsed MONEY_SCALE; mret (format u MONEY_SCALE).

Definition max_scale (l : list Scaled) : nat := fold_left (fun m p => Nat.max m (scale p)) l 0%nat.

Definition sumDecimals (values : list string) : result string :=
  match values with
  | [] => Ok "0"
  | _ =>
      parsed ← res_mapM parseScaled values;
      let sc := max_scale parsed in
      us ← res_mapM (fun item => rescale item sc) parsed;
      mret (format (fold_left Z.add us 0) sc)
  end.

Definition subtractDecimals (a b : string) : result string :=
  left ← parseScaled a; right ← parseScaled b;
  let sc := Nat.max (scale left) (scale right) in
  l ← rescale left sc; r ← rescale right sc;
  mret (format (l - r) sc).

Definition multiplyDecimals (a b : string) : result string :=
  left ← parseScaled a; right ← parseScaled b;
  toMoneyString (format (units left * units right) (scale left + scale right)).

Definition absDecimal (value : string) : string :=
  if Js.starts_with "-" value then Js.slice_from 1 value else value.

Definition isZeroDecimal (value : string) : result bool :=
  parsed ← parseScaled value; mret (units parsed =? 0).

Definition divideDecimals (a b : string) (sc : nat) : result (string * bool) :=
  left ← parseScaled a; right ← parseScaled b;
  if units right =? 0 then Throw CommerceValidationError
  else
    let numerator :=
      units left * pow10 (scale right + sc) * (if units right <? 0 then -1 else 1) in
    let denominator :=
      (if units right <? 0 then - units right else units right) * pow10 (scale left) in
    let negative := numerator <? 0 in
    let absNumerator := if negative then - numerator else numerator in
    let exact := absNumerator mod denominator =? 0 in
    let rounded := half_up absNumerator denominator in
    mret (format (if negative then - rounded else rounded) sc, exact).

Definition compareDecimals (a b : string) : result Z :=
  left ← parseScaled a; right ← parseScaled b;
  let sc := Nat.max (scale left) (scale right) in
  l ← rescale left sc; r ← rescale right sc;
  mret (if l <? r then -1 else if r <? l then 1 else 0).
End Commerce.

(** ** Inventory *)
Module Inventory.
Definition parseScaled : string -> result Scaled := Decimal.parseScaled InventoryValidationError.
Definition rescale : Scaled -> nat -> result Z := Decimal.rescale InventoryValidationError.

Definition negateDecimal (value : string) : result string :=
  parsed ← parseScaled value; mret (format (- units parsed) (scale parsed)).

Definition multiplyDecimals (a b : string) (sc : nat) : result (string * bool) :=
  left ← parseScaled a; right ← parseScaled b;
  let product := units left * units right in
  let productScale := (scale left + scale right)%nat in
  if (productScale <=? sc)%nat then
    u ← rescale (mk_scaled product productScale) sc; mret (format u sc, true)
  else
    let divisor := pow10 (productScale - sc) in
    let negative := product <? 0 in
    let magnitude := if negative then - product else product in
    let rounded := half_up magnitude divisor in
    mret (format (if negative then - rounded else rounded) sc, magnitude mod divisor =? 0).

Definition isNegative (value : string) : result bool :=
  parsed ← parseScaled value; mret (units parsed <? 0).

Definition clampNonNegative (value : string) : result string :=
  b ← isNegative value; mret (if b : bool then ZERO else value).

(** The comparator of the remainder sort: larger remainder first, then the
    earlier index. *)
Definition remainder_le (a b : Z * nat) : Prop :=
  fst b < fst a \/ (fst a = fst b /\ (snd a <= snd b)%nat).
#[global] Instance remainder_le_dec : RelDecision remainder_le.
Proof. intros a b. unfold remainder_le. solve_decision. Defined.

(** [for (const entry of order) { if (leftover <= 0n) break; floors[i] += 1 }] *)
Fixpoint hand_out (leftover : Z) (order : list (Z * nat)) (floors : list Z) : list Z :=
  match order with
  | [] => floors
  | (_, i) :: order =>
      if leftover <=? 0 then floors else hand_out (leftover - 1) order (alter (Z.add 1) i floors)
  end.

Definition remainder_order (remainders : list Z) : list (Z * nat) :=
  merge_sort remainder_le
    (filter (fun e => 0 < fst e) (imap (fun i r => (r, i)) remainders)).

(** The integral part of [distributeByWeights]. *)
Definition distribute_units (magnitude : Z) (weightUnits : list Z) : list Z :=
  let weightTotal := fold_left Z.add weightUnits 0 in
  let floors := (fun w => magnitude * w / weightTotal) <$> weightUnits in
  let remainders := (fun w => (magnitude * w) mod weightTotal) <$> weightUnits in
  let assigned := fold_left Z.add floors 0 in
  hand_out (magnitude - assigned) (remainder_order remainders) floors.

Definition parse_weight (weight : string) : result Scaled :=
  parsed ← parseScaled weight;
  if units parsed <? 0 then Throw InventoryValidationError else Ok parsed.

Record distribution := mk_distribution { shares : list string; unallocated : string }.

Definition distributeByWeights (total : string) (weights : list string) (sc : nat)
  : result distribution :=
  totalParsed ← parseScaled total;
  totalUnits ← rescale totalParsed sc;
  match weights with
  | [] => Ok (mk_distribution [] (format totalUnits sc))
  | _ =>
      parsedWeights ← res_mapM parse_weight weights;
      let weightScale := Commerce.max_scale parsedWeights in
      weightUnits ← res_mapM (fun w => rescale w weightScale) parsedWeights;
      let weightTotal := fold_left Z.add weightUnits 0 in
      if weightTotal =? 0 then
        Ok (mk_distribution ((fun _ => format 0 sc) <$> weights) (format totalUnits sc))
      else
        let negative := totalUnits <? 0 in
        let magnitude := if negative then - totalUnits else totalUnits in
        let floors := distribute_units magnitude weightUnits in
        Ok (mk_distribution
              ((fun share => format (if negative then - share else share) sc) <$> floors)
              (format 0 sc))
  end.
End Inventory.

(** ** Work *)
Module Work.
Definition parseScaled : string -> result Scaled := Decimal.parseScaled WorkValidationError.
Definition rescale : Scaled -> nat -> result Z := Decimal.rescale WorkValidationError.
Definition toUnits (value : string) (sc : nat) : result Z := toUnitsAt WorkValidationError value sc.

Definition isNegativeDecimal (value : string) : result bool :=
  parsed ← parseScaled value; mret (units parsed <? 0).

Definition multiplyDecimals (a b : string) (sc : nat) : result (string * bool) :=
  left ← parseScaled a; right ← parseScaled b;
  let product := units left * units right in
  let productScale := (scale left + scale right)%nat in
  if (productScale <=? sc)%nat then
    u ← rescale (mk_scaled product productScale) sc; mret (format u sc, true)
  else
    let divisor := pow10 (productScale - sc) in
    let negative := product <? 0 in
    let magnitude := if negative then - product else product in
    let rounded := half_up magnitude divisor in
    mret (format (if negative then - rounded else rounded) sc, magnitude mod divisor =? 0).

(** [divisor] is an integer here: the [Number.isInteger] half of the guard is
    the type. *)
Definition divideByInteger (numerator : string) (divisor : Z) (sc : nat) : result (string * bool) :=
  if divisor <=? 0 then Throw WorkValidationError
  else
    parsed ← parseScaled numerator;
    numeratorUnits ← rescale parsed sc;
    let negative := numeratorUnits <? 0 in
    let magnitude := if negative then - numeratorUnits else numeratorUnits in
    let rounded := half_up magnitude divisor in
    mret (format (if negative then - rounded else rounded) sc, magnitude mod divisor =? 0).

Fixpoint sum_loop (total : Z) (values : list string) (sc : nat) : result Z :=
  match values with
  | [] => Ok total
  | value :: values => u ← toUnits value sc; sum_loop (total + u) values sc
  end.

Definition sumDecimals (values : list string) (sc : nat) : result string :=
  total ← sum_loop 0 values sc; mret (format total sc).

Definition subtractDecimals (a b : string) (sc : nat) : result string :=
  x ← toUnits a sc; y ← toUnits b sc; mret (format (x - y) sc).
End Work.

(** * The distribution *)
Section distribution.
Import Inventory.

Lemma sumZ_alter i (l : list Z) :
  (i < length l)%nat -> sumZ (alter (Z.add 1) i l) = sumZ l + 1.
Proof.
  revert i. induction l as [|x l IH]; intros i Hi; simpl in *; [lia|].
  destruct i as [|i]; [simpl; lia|].
  change (alter (Z.add 1) (S i) (x :: l)) with (x :: alter (Z.add 1) i l).
  cbn [sumZ foldr]. fold (sumZ (alter (Z.add 1) i l)). rewrite IH by lia.
  fold (sumZ l). lia.
Qed.

Lemma hand_out_length n order l : length (hand_out n order l) = length l.
Proof.
  revert n l. induction order as [|[r i] order IH]; intros n l; simpl; [done|].
  destruct (Z.leb_spec n 0); [done|]. by rewrite IH, length_alter.
Qed.

Lemma hand_out_sum n order l :
  0 <= n -> Forall (fun e => (snd e < length l)%nat) order ->
  sumZ (hand_out n order l) = sumZ l + Z.min n (Z.of_nat (length order)).
Proof.
  intros Hn Ho. revert n l Hn Ho.
  induction order as [|[r i] order IH]; intros n l Hn Ho; simpl; [lia|].
  apply Forall_cons in Ho as [Hi Ho]. simpl in Hi.
  destruct (Z.leb_spec n 0); [lia|].
  rewrite IH, sumZ_alter; [lia|done|lia|by rewrite length_alter].
Qed.

(** No entry is handed more than one unit, and only listed entries are. *)
Lemma hand_out_lookup n order l i x :
  NoDup (snd <$> order) -> l !! i = Some x ->
  exists y, hand_out n order l !! i = Some y /\ (y = x \/ y = x + 1) /\
    (i ∉ snd <$> order -> y = x).
Proof.
  revert n l x. induction order as [|[r j] order IH]; intros n l x; cbn [hand_out fmap list_fmap snd].
  - eauto.
  - intros [Hj Hnd]%NoDup_cons Hx. destruct (Z.leb_spec n 0); [by exists x; eauto|].
    destruct (decide (i = j)) as [->|Hij].
    + destruct (IH (n - 1) (alter (Z.add 1) j l) (1 + x) Hnd) as (y & Hy & _ & Hsame).
      { by rewrite list_lookup_alter_eq, Hx. }
      exists y. split; [done|]. specialize (Hsame Hj). split; [right; lia|]. set_solver.
    + destruct (IH (n - 1) (alter (Z.add 1) j l) x Hnd) as (y & Hy & Hor & Hsame).
      { by rewrite list_lookup_alter_ne. }
      exists y. split_and!; [done|done|]. set_solver.
Qed.

Lemma remainder_order_perm rs :
  remainder_order rs ≡ₚ filter (fun e => 0 < fst e) (imap (fun i r => (r, i)) rs).
Proof. apply merge_sort_Permutation. Qed.

Lemma elem_of_remainder_order rs r i :
  (r, i) ∈ remainder_order rs <-> rs !! i = Some r /\ 0 < r.
Proof.
  rewrite remainder_order_perm, list_elem_of_filter, elem_of_lookup_imap. simpl. naive_solver.
Qed.

Lemma remainder_order_NoDup rs : NoDup (snd <$> remainder_order rs).
Proof.
  rewrite remainder_order_perm.
  eapply sublist_NoDup; [|apply fmap_sublist, sublist_filter].
  rewrite fmap_imap. unfold compose; simpl.
  assert (forall k, NoDup (imap (fun i (_ : Z) => (k + i)%nat) rs)) as H; [|exact (H 0%nat)].
  induction rs as [|r rs IH]; intros k; simpl; [constructor|].
  apply NoDup_cons. split.
  - rewrite elem_of_lookup_imap. intros (i & ? & ? & _). unfold compose in *. lia.
  - specialize (IH (S k)). erewrite imap_ext; [exact IH|]. intros. unfold compose. lia.
Qed.

Lemma filter_imap_length (rs : list Z) :
  length (filter (fun e : Z * nat => 0 < fst e) (imap (fun i r => (r, i)) rs))
  = length (filter (fun r => 0 < r) rs).
Proof.
  assert (forall (f : nat -> nat),
    length (filter (fun e : Z * nat => 0 < fst e) (imap (fun i r => (r, f i)) rs))
    = length (filter (fun r => 0 < r) rs)) as H; [|exact (H id)].
  induction rs as [|r rs IH]; intros f; simpl; [done|].
  rewrite !filter_cons. simpl. specialize (IH (f ∘ S)). unfold compose in *.
  case_decide; simpl; rewrite IH; done.
Qed.

(** Quotients and remainders by a common divisor. *)
Lemma sum_quot_rem ns d :
  0 < d -> sumZ ns = d * sumZ ((fun n => n / d) <$> ns) + sumZ ((fun n => n mod d) <$> ns).
Proof.
  intros Hd. induction ns as [|n ns IH]; csimpl; [lia|].
  pose proof (Z.div_mod n d ltac:(lia)). lia.
Qed.

Lemma sum_rem_lt ns d :
  0 < d ->
  let rs := (fun n => n mod d) <$> ns in
  0 <= sumZ rs /\
  (sumZ rs = 0 \/ sumZ rs < d * Z.of_nat (length (filter (fun r => 0 < r) rs))).
Proof.
  intros Hd. induction ns as [|n ns IH]; csimpl; [lia|]. cbv zeta in IH.
  pose proof (Z.mod_pos_bound n d Hd). rewrite filter_cons.
  case_decide; cbn [length]; lia.
Qed.

Lemma sumZ_scale m ws : sumZ ((fun w => m * w) <$> ws) = m * sumZ ws.
Proof. induction ws; csimpl; lia. Qed.

Section units.
Context (m : Z) (ws : list Z) (Hm : 0 <= m) (HW : 0 < sumZ ws).
#[local] Abbreviation T := (sumZ ws).

Lemma distribute_units_unfold :
  distribute_units m ws =
    hand_out (m - sumZ ((fun w => m * w / T) <$> ws))
      (remainder_order ((fun w => (m * w) mod T) <$> ws)) ((fun w => m * w / T) <$> ws).
Proof. unfold distribute_units. cbv zeta. rewrite !fold_left_add_sumZ. done. Qed.

Lemma leftover_bounds :
  let rs := (fun w => (m * w) mod T) <$> ws in
  0 <= m - sumZ ((fun w => m * w / T) <$> ws) <=
    Z.of_nat (length (remainder_order rs)).
Proof using HW.
  cbv zeta. rewrite remainder_order_perm, filter_imap_length.
  pose proof (sum_quot_rem ((fun w => m * w) <$> ws) T HW) as Hs.
  pose proof (sum_rem_lt ((fun w => m * w) <$> ws) T HW) as Hr. cbv zeta in Hr.
  rewrite sumZ_scale, <- !list_fmap_compose in Hs. rewrite <- !list_fmap_compose in Hr.
  unfold compose in *. nia.
Qed.

Lemma distribute_units_sum : sumZ (distribute_units m ws) = m.
Proof using HW.
  pose proof leftover_bounds as Hl. cbv zeta in Hl.
  rewrite distribute_units_unfold, hand_out_sum; [lia|lia|].
  apply Forall_forall. intros [r i] Hi.
  apply elem_of_remainder_order in Hi as [Hi _]. apply lookup_lt_Some in Hi.
  rewrite length_fmap in Hi |- *. done.
Qed.

Lemma distribute_units_length : length (distribute_units m ws) = length ws.
Proof. by rewrite distribute_units_unfold, hand_out_length, length_fmap. Qed.

(** Every share is the exact quotient rounded down or up, and a zero
    weight gets nothing. *)
Lemma distribute_units_lookup i w :
  ws !! i = Some w ->
  exists s, distribute_units m ws !! i = Some s /\
    (s = m * w / T \/ s = m * w / T + 1) /\ (w = 0 -> s = 0) /\
    ((m * w) mod T = 0 -> s = m * w / T).
Proof using HW.
  intros Hi. rewrite distribute_units_unfold.
  destruct (hand_out_lookup (m - sumZ ((fun w => m * w / T) <$> ws))
    (remainder_order ((fun w => (m * w) mod T) <$> ws)) ((fun w => m * w / T) <$> ws)
    i (m * w / T)) as (s & Hs & Hor & Hsame).
  { apply remainder_order_NoDup. }
  { by rewrite list_lookup_fmap, Hi. }
  assert ((m * w) mod T = 0 -> s = m * w / T) as Hex.
  { intros H0. apply Hsame. intros ([r j] & Hj & Hin)%list_elem_of_fmap.
    simpl in Hj; subst j. apply elem_of_remainder_order in Hin as [Hin Hpos].
    rewrite list_lookup_fmap, Hi in Hin. simpl in Hin. injection Hin as <-. lia. }
  exists s. split_and!; [done|done| |done].
  intros ->. rewrite Z.mul_0_r, Zmod_0_l, Zdiv_0_l in Hex. auto.
Qed.
End units.

(** With two weights, the largest-remainder share of the first is the
    half-up quotient. *)
Lemma distribute_two m p q :
  0 <= p -> 0 <= q -> 0 < p + q ->
  distribute_units m [p; q] =
    [half_up (m * p) (p + q); m - half_up (m * p) (p + q)].
Proof.
  intros Hp Hq HT. rewrite distribute_units_unfold. cbn [sumZ foldr].
  rewrite Z.add_0_r. cbn [fmap list_fmap sumZ foldr].
  set (T := p + q) in *. unfold half_up.
  pose proof (Z.mod_pos_bound (m * p) T HT) as B1.
  pose proof (Z.mod_pos_bound (m * q) T HT) as B2.
  pose proof (Z.div_mod (m * p) T ltac:(lia)) as D1.
  pose proof (Z.div_mod (m * q) T ltac:(lia)) as D2.
  set (q1 := m * p / T) in *. set (q2 := m * q / T) in *.
  set (r1 := (m * p) mod T) in *. set (r2 := (m * q) mod T) in *.
  assert (r1 + r2 = T * (m - q1 - q2)) as Hr by (subst T; lia).
  clearbody q1 q2 r1 r2. clear D1 D2.
  assert ((r1 = 0 /\ r2 = 0 /\ m = q1 + q2) \/ (0 < r1 /\ r2 = T - r1 /\ m = q1 + q2 + 1))
    as [(-> & -> & ->)|(Hr1 & Hr2 & Hm)].
  { assert (m - q1 - q2 = 0 \/ m - q1 - q2 = 1) as [Hk|Hk] by nia; rewrite Hk in Hr; [left|right]; lia. }
  - unfold remainder_order. cbn [imap].
    rewrite !filter_cons_False, filter_nil by (simpl; lia).
    rewrite Z.geb_leb. destruct (Z.leb_spec T (0 * 2)); [lia|].
    cbn. do 2 f_equal. lia.
  - unfold remainder_order. cbn [imap].
    rewrite !filter_cons_True, filter_nil by (simpl; lia).
    cbn. case_decide as Hle; unfold remainder_le in Hle; simpl in Hle; cbn [hand_out];
      destruct (Z.leb_spec (m - (q1 + (q2 + 0))) 0); try lia;
      rewrite Z.geb_leb; destruct (Z.leb_spec T (r1 * 2)); try lia; cbn;
      repeat match goal with |- context [?a <=? 0] => destruct (Z.leb_spec a 0); try lia end;
      apply (f_equal2 (fun a b => [a; b])); cbn -[Z.add]; lia.
Qed.
End distribution.

(** ** Strings and micro-units *)
Lemma parseScaled_any e e' v p : Decimal.parseScaled e v = Ok p -> Decimal.parseScaled e' v = Ok p.
Proof. unfold Decimal.parseScaled. by destruct (negb _). Qed.

Lemma toUnitsAt_parse e v sc x :
  toUnitsAt e v sc = Ok x <->
  exists p, Decimal.parseScaled e v = Ok p /\ (scale p <= sc)%nat /\
    x = units p * pow10 (sc - scale p).
Proof.
  unfold toUnitsAt. rewrite bind_Ok. unfold Decimal.rescale. split.
  - intros (p & Hp & H). exists p. split; [done|].
    destruct (Nat.eqb_spec sc (scale p)) as [->|].
    + injection H as <-. rewrite Nat.sub_diag. unfold pow10. simpl. split; lia.
    + destruct (Nat.ltb_spec sc (scale p)); [done|]. injection H as <-. split; [lia|done].
  - intros (p & Hp & Hle & ->). exists p. split; [done|].
    destruct (Nat.eqb_spec sc (scale p)) as [->|].
    + rewrite Nat.sub_diag. unfold pow10. simpl. f_equal. lia.
    + destruct (Nat.ltb_spec sc (scale p)); [lia|done].
Qed.

Lemma rescale_Ok e p sc x :
  Decimal.rescale e p sc = Ok x <-> (scale p <= sc)%nat /\ x = units p * pow10 (sc - scale p).
Proof.
  unfold Decimal.rescale.
  destruct (Nat.eqb_spec sc (scale p)) as [->|].
  - rewrite Nat.sub_diag. unfold pow10. simpl. split; [intros [= <-]; lia|].
    intros [_ ->]. f_equal. lia.
  - destruct (Nat.ltb_spec sc (scale p)).
    + split; [done|lia].
    + split; [intros [= <-]; split; [lia|done]|by intros [_ ->]].
Qed.

Lemma max_scale_acc l m : fold_left (fun m p => Nat.max m (scale p)) l m = Nat.max m (Commerce.max_scale l).
Proof.
  unfold Commerce.max_scale. revert m. induction l as [|p l IH]; intros m; simpl; [lia|].
  rewrite IH, (IH (scale p)). lia.
Qed.

Lemma max_scale_le p l : p ∈ l -> (scale p <= Commerce.max_scale l)%nat.
Proof.
  unfold Commerce.max_scale. induction l as [|q l IH]; simpl; [by intros ?%not_elem_of_nil|].
  rewrite max_scale_acc. intros [->|Hp]%elem_of_cons; [lia|].
  specialize (IH Hp). unfold Commerce.max_scale. lia.
Qed.

Lemma max_scale_bound n l : Forall (fun p => scale p <= n)%nat l -> (Commerce.max_scale l <= n)%nat.
Proof.
  unfold Commerce.max_scale. induction 1 as [|q l Hq _ IH]; simpl; [lia|].
  rewrite max_scale_acc. unfold Commerce.max_scale. lia.
Qed.

Lemma rescale_all_ok e l :
  res_mapM (fun p => Decimal.rescale e p (Commerce.max_scale l)) l =
  Ok ((fun p => units p * pow10 (Commerce.max_scale l - scale p)) <$> l).
Proof.
  apply res_mapM_Forall2, Forall2_fmap_r, Forall_Forall2_diag, Forall_forall.
  intros p Hp. apply rescale_Ok. split; [by apply max_scale_le|done].
Qed.

Section distribution_strings.
Import Inventory.

Lemma parse_weights_nonneg weights ps :
  res_mapM parse_weight weights = Ok ps -> Forall (fun p => 0 <= units p) ps.
Proof.
  intros H%res_mapM_Forall2. apply Forall_forall. intros p Hp.
  apply list_elem_of_lookup in Hp as [i Hi].
  destruct (Forall2_lookup_r _ _ _ _ _ H Hi) as (v & _ & Hv).
  unfold parse_weight in Hv. apply bind_Ok in Hv as (q & _ & Hq).
  destruct (Z.ltb_spec (units q) 0); [done|]. injection Hq as <-. lia.
Qed.

Lemma shares_units sc (us : list Z) (f : Z -> Z) :
  Forall2 (fun s u => toUnitsAt InventoryValidationError s sc = Ok u)
    ((fun u => format (f u) sc) <$> us) (f <$> us).
Proof.
  rewrite Forall2_fmap. apply Forall_Forall2_diag, Forall_forall.
  intros. apply toUnitsAt_format_same.
Qed.

Lemma sumZ_zeros {A} (l : list A) : sumZ ((fun _ => 0) <$> l) = 0.
Proof. induction l; csimpl; lia. Qed.

Lemma weight_units_nonneg n ps :
  Forall (fun p => 0 <= units p) ps ->
  Forall (fun u => 0 <= u) ((fun p => units p * pow10 (n - scale p)) <$> ps).
Proof.
  intros H. apply Forall_fmap. eapply Forall_impl; [exact H|]. intros p Hp.
  apply Z.mul_nonneg_nonneg; [exact Hp|]. pose proof (pow10_pos (n - scale p)). lia.
Qed.

(** What [distributeByWeights] returns, in micro-units. *)
Lemma distributeByWeights_units total weights sc t ps :
  toUnitsAt InventoryValidationError total sc = Ok t ->
  res_mapM parse_weight weights = Ok ps ->
  let ws := (fun p => units p * pow10 (Commerce.max_scale ps - scale p)) <$> ps in
  distributeByWeights total weights sc =
    Ok (if sumZ ws =? 0
        then mk_distribution ((fun _ => format 0 sc) <$> weights) (format t sc)
        else mk_distribution
               ((fun share => format (if t <? 0 then - share else share) sc)
                  <$> distribute_units (Z.abs t) ws) (format 0 sc)).
Proof.
  intros Ht Hps ws. unfold distributeByWeights.
  apply toUnitsAt_parse in Ht as (p & Hp & Hle & Ht).
  unfold Inventory.parseScaled. rewrite Hp. cbn [mbind result_bind].
  unfold Inventory.rescale. rewrite (proj2 (rescale_Ok _ p sc t)) by done.
  cbn [mbind result_bind]. destruct weights as [|v weights].
  - injection Hps as <-. done.
  - rewrite Hps. cbn [mbind result_bind]. rewrite rescale_all_ok. fold ws.
    cbn [mbind result_bind]. rewrite fold_left_add_sumZ, Z.add_0_l.
    destruct (sumZ ws =? 0); [done|].
    replace (if t <? 0 then - t else t) with (Z.abs t); [done|].
    destruct (Z.ltb_spec t 0); lia.
Qed.
End distribution_strings.

(** * Theorems *)

(** [distributeByWeights] neither loses nor invents a micro-unit: on every
    total and every list of non-negative weights it returns one share per
    weight, and the shares plus the unallocated amount are exactly the total. *)
Lemma distributeByWeights_exact total weights sc t ps :
  toUnitsAt InventoryValidationError total sc = Ok t ->
  res_mapM Inventory.parse_weight weights = Ok ps ->
  exists d us u,
    Inventory.distributeByWeights total weights sc = Ok d /\
    Forall2 (fun s u => toUnitsAt InventoryValidationError s sc = Ok u) (Inventory.shares d) us /\
    toUnitsAt InventoryValidationError (Inventory.unallocated d) sc = Ok u /\
    length us = length weights /\ sumZ us + u = t.
Proof.
  intros Ht Hps. rewrite (distributeByWeights_units _ _ _ t ps) by done.
  pose proof (res_mapM_length _ _ _ Hps) as Hlen.
  pose proof (sumZ_nonneg _ (weight_units_nonneg (Commerce.max_scale ps) ps
    (parse_weights_nonneg _ _ Hps))) as Hnn.
  set (ws := (fun p => units p * pow10 (Commerce.max_scale ps - scale p)) <$> ps) in *.
  cbv zeta.
  destruct (Z.eqb_spec (sumZ ws) 0) as [H0|H0].
  - eexists _, ((fun _ => 0) <$> weights), t. split; [done|]. simpl. split_and!.
    + rewrite Forall2_fmap. apply Forall_Forall2_diag, Forall_forall.
      intros. apply toUnitsAt_format_same.
    + apply toUnitsAt_format_same.
    + by rewrite length_fmap.
    + rewrite sumZ_zeros. lia.
  - eexists _, ((fun u => if t <? 0 then - u else u) <$> Inventory.distribute_units (Z.abs t) ws), 0.
    split; [done|]. simpl. split_and!.
    + apply shares_units.
    + apply toUnitsAt_format_same.
    + rewrite length_fmap, distribute_units_length. subst ws. by rewrite length_fmap.
    + pose proof (distribute_units_sum (Z.abs t) ws ltac:(lia)) as Hs.
      destruct (Z.ltb_spec t 0).
      * rewrite sumZ_opp, Hs. lia.
      * rewrite list_fmap_id, Hs. lia.
Qed.

(** A non-negative decimal string at money scale, as a weight. *)
Lemma parse_weight_units v x :
  toUnits v = Ok x -> 0 <= x ->
  exists p, Inventory.parse_weight v = Ok p /\ (scale p <= MONEY_SCALE)%nat /\
    x = units p * pow10 (MONEY_SCALE - scale p) /\ 0 <= units p.
Proof.
  intros (p & Hp & Hle & ->)%toUnitsAt_parse Hx. exists p.
  assert (0 <= units p) as Hu by (pose proof (pow10_pos (MONEY_SCALE - scale p)); nia).
  split_and!; try done. unfold Inventory.parse_weight, Inventory.parseScaled.
  rewrite (parseScaled_any _ _ _ _ Hp). cbn [mbind result_bind].
  destruct (Z.ltb_spec (units p) 0); [lia|done].
Qed.

Lemma pow10_split n sc x : (sc <= n)%nat -> (n <= MONEY_SCALE)%nat ->
  x * pow10 (MONEY_SCALE - sc) = x * pow10 (n - sc) * pow10 (MONEY_SCALE - n).
Proof.
  intros. rewrite <- Z.mul_assoc, <- pow10_add. do 2 f_equal. lia.
Qed.

(** [proRataShare] of the accounting package is the two-bucket case of
    the inventory package's [distributeByWeights]: for a part and a rest that
    make up the whole, the share of the part is the same string. *)
Theorem proRataShare_is_distribution total part rest whole t p r :
  toUnits total = Ok t -> toUnits part = Ok p -> toUnits rest = Ok r ->
  toUnits whole = Ok (p + r) -> 0 < p -> 0 <= r ->
  exists s s',
    Inventory.distributeByWeights total [part; rest] MONEY_SCALE =
      Ok (Inventory.mk_distribution [s; s'] ZERO) /\
    proRataShare total part whole = Ok s.
Proof.
  intros Ht Hp Hr Hw Hp0 Hr0.
  rewrite (proRataShare_units _ _ _ t p (p + r)) by done.
  destruct (parse_weight_units part p) as (pp & Hpp & Lp & Ep & Up); [done|lia|].
  destruct (parse_weight_units rest r) as (pr & Hpr & Lr & Er & Ur); [done|lia|].
  rewrite (distributeByWeights_units _ _ _ t [pp; pr]); cycle 1.
  { apply toUnitsAt_parse in Ht as (pt & Hpt & ?). apply toUnitsAt_parse.
    exists pt. split; [by eapply parseScaled_any|done]. }
  { simpl. rewrite Hpp. simpl. by rewrite Hpr. }
  assert (Commerce.max_scale [pp; pr] <= MONEY_SCALE)%nat as Ln
    by (apply max_scale_bound; rewrite !Forall_cons, Forall_nil; done).
  pose proof (max_scale_le pp [pp; pr] ltac:(set_solver)) as Mp.
  pose proof (max_scale_le pr [pp; pr] ltac:(set_solver)) as Mr.
  set (n := Commerce.max_scale [pp; pr]) in *. cbn [fmap list_fmap].
  rewrite (pow10_split n) in Ep, Er by done.
  pose proof (pow10_pos (MONEY_SCALE - n)) as Hk.
  set (k := pow10 (MONEY_SCALE - n)) in *.
  set (w1 := units pp * pow10 (n - scale pp)) in *.
  set (w2 := units pr * pow10 (n - scale pr)) in *.
  assert (0 < w1) by nia. assert (0 <= w2) by nia. cbn [sumZ foldr].
  destruct (Z.eqb_spec (w1 + (w2 + 0)) 0); [lia|].
  rewrite distribute_two by lia. cbn [fmap list_fmap].
  eexists _, _. split; [reflexivity|]. unfold fromUnits. do 2 f_equal.
  replace (half_up (Z.abs t * w1) (w1 + w2)) with (half_up (Z.abs t * p) (p + r)); cycle 1.
  { rewrite <- (half_up_scale k (Z.abs t * w1)) by lia. f_equal; lia. }
  unfold share_units. rewrite Z.geb_leb.
  destruct (Z.leb_spec (p + r) 0); [lia|]. destruct (Z.leb_spec p 0); [lia|].
  destruct (Z.leb_spec (p + r) p).
  - replace (p + r) with p by lia. rewrite half_up_exact by lia.
    destruct (Z.ltb_spec t 0); lia.
  - rewrite <- round_away_mul_pos by lia.
    destruct (Z.ltb_spec t 0); [rewrite Z.abs_neq by lia|rewrite Z.abs_eq by lia]; done.
Qed.

Example proRataShare_is_distribution_witness :
  exists s s',
    Inventory.distributeByWeights "-10.00" ["1"; "2.0"] MONEY_SCALE =
      Ok (Inventory.mk_distribution [s; s'] ZERO) /\
    proRataShare "-10.00" "1" "3.00" = Ok s.
Proof.
  apply (proRataShare_is_distribution "-10.00" "1" "2.0" "3.00" (-10000000) 1000000 2000000);
    first [reflexivity | lia].
Defined.
