(* ===== verification/Calendar.v ===== *)
(** * Calendar dates

    Accounting dates are PostgreSQL [date] columns which the TypeScript code
    carries as [YYYY-MM-DD] strings and compares as strings.  A date is kept
    here as the integer [10000 * year + 100 * month + day]: on four-digit years
    the order of these integers is the order of the strings, and the order
    PostgreSQL gives the dates.

    This file holds that encoding, the month arithmetic PostgreSQL performs
    ([date + n months] clamps into the month, [date - 1] steps over month
    ends), and the reading of a UTC instant as a calendar date. *)
From S2P Require Import Prelude.

Open Scope Z_scope.

Abbreviation date := Z (only parsing).

Definition mk_date (y m d : Z) : date := y * 10000 + m * 100 + d.
Definition year_of (t : date) : Z := t / 10000.
Definition month_of (t : date) : Z := (t / 100) mod 100.
Definition day_of (t : date) : Z := t mod 100.

Definition is_leap (y : Z) : bool :=
  (y mod 4 =? 0) && (negb (y mod 100 =? 0) || (y mod 400 =? 0)).

Definition days_in_month (y m : Z) : Z :=
  if m =? 2 then if is_leap y then 29 else 28
  else if (m =? 4) || (m =? 6) || (m =? 9) || (m =? 11) then 30 else 31.

(** The shape the calendar-date regular expression checks. *)
Definition iso_shape (t : date) : bool := (0 <=? t) && (t <=? 99999999).

(** The dates PostgreSQL's [::date] cast accepts among those of that shape. *)
Definition valid_date (t : date) : bool :=
  iso_shape t && (1 <=? year_of t) &&
  (1 <=? month_of t) && (month_of t <=? 12) &&
  (1 <=? day_of t) && (day_of t <=? days_in_month (year_of t) (month_of t)).

(** Fields of a calendar day, of any year. *)
Definition civil (t : date) : Prop :=
  1 <= month_of t <= 12 /\ 1 <= day_of t <= days_in_month (year_of t) (month_of t).

(** [(t + (n || ' months')::interval)::date] *)
Definition add_months (t : date) (n : Z) : date :=
  let months := year_of t * 12 + (month_of t - 1) + n in
  let y := months / 12 in
  let m := months mod 12 + 1 in
  mk_date y m (Z.min (day_of t) (days_in_month y m)).

(** [t::date - 1] *)
Definition pred_day (t : date) : date :=
  if 1 <? day_of t then t - 1
  else if 1 <? month_of t
       then mk_date (year_of t) (month_of t - 1)
              (days_in_month (year_of t) (month_of t - 1))
       else mk_date (year_of t - 1) 12 31.

(** [((instant at time zone 'UTC')::date)], the instant in microseconds since
    the epoch: the civil date of its day number. *)
Definition utc_date (instant : Z) : date :=
  let z := instant / 86400000000 + 719468 in
  let era := z / 146097 in
  let doe := z mod 146097 in
  let yoe := (doe - doe / 1460 + doe / 36524 - doe / 146096) / 365 in
  let doy := doe - (365 * yoe + yoe / 4 - yoe / 100) in
  let mp := (5 * doy + 2) / 153 in
  let d := doy - (153 * mp + 2) / 5 + 1 in
  let m := if mp <? 10 then mp + 3 else mp - 9 in
  mk_date (yoe + era * 400 + (if m <=? 2 then 1 else 0)) m d.

Example utc_date_epoch : utc_date 0 = mk_date 1970 1 1.
Proof. reflexivity. Qed.
Example utc_date_leap : utc_date 1709164800000000 = mk_date 2024 2 29.
Proof. reflexivity. Qed.

(** ** The encoding *)
Lemma mk_date_fields y m d :
  0 <= m < 100 -> 0 <= d < 100 ->
  year_of (mk_date y m d) = y /\ month_of (mk_date y m d) = m /\
  day_of (mk_date y m d) = d.
Proof.
  unfold mk_date, year_of, month_of, day_of. intros Hm Hd.
  split; [|split]; Z.to_euclidean_division_equations; lia.
Qed.

Lemma date_fields t : mk_date (year_of t) (month_of t) (day_of t) = t.
Proof.
  unfold mk_date, year_of, month_of, day_of.
  Z.to_euclidean_division_equations; lia.
Qed.

Lemma date_fields_range t : 0 <= month_of t < 100 /\ 0 <= day_of t < 100.
Proof. unfold month_of, day_of. Z.to_euclidean_division_equations; lia. Qed.

Lemma days_in_month_range y m : 28 <= days_in_month y m <= 31.
Proof.
  unfold days_in_month.
  repeat match goal with |- context [if ?b then _ else _] => destruct b end; lia.
Qed.

(** Days within a month are consecutive integers, and [pred_day] steps from the
    first of a month to the last day of the month before. *)
Lemma pred_day_first y m :
  1 < m < 100 -> pred_day (mk_date y m 1) = mk_date y (m - 1) (days_in_month y (m - 1)).
Proof.
  intros Hm. destruct (mk_date_fields y m 1) as (Hy & Hm' & Hd); [lia..|].
  unfold pred_day. rewrite Hy, Hm', Hd. simpl.
  destruct (Z.ltb_spec 1 m); [done|lia].
Qed.

Lemma valid_date_civil t : valid_date t = true -> civil t.
Proof. unfold valid_date, civil. rewrite !andb_true_iff, !Z.leb_le. tauto. Qed.

Lemma mk_date_civil y m d : 1 <= m <= 12 -> 1 <= d <= days_in_month y m -> civil (mk_date y m d).
Proof.
  intros Hm Hd. pose proof (days_in_month_range y m).
  destruct (mk_date_fields y m d) as (Hy & Hm' & Hd'); [lia..|].
  unfold civil. by rewrite Hy, Hm', Hd'.
Qed.

Lemma mk_date_lt y m d y' m' d' :
  1 <= d <= 31 -> 1 <= d' <= 31 -> 1 <= m <= 12 -> 1 <= m' <= 12 ->
  y < y' \/ (y = y' /\ m < m') -> mk_date y m d < mk_date y' m' d'.
Proof. unfold mk_date. lia. Qed.

(** No day lies strictly between [pred_day t] and [t]. *)
Lemma pred_day_lt t : civil t -> pred_day t < t.
Proof.
  intros [Hm Hd]. pose proof (date_fields t) as E.
  unfold pred_day. destruct (Z.ltb_spec 1 (day_of t)); [lia|].
  pose proof (days_in_month_range (year_of t) (month_of t - 1)).
  destruct (Z.ltb_spec 1 (month_of t)); unfold mk_date in *; lia.
Qed.

Lemma pred_day_adjacent t u : civil t -> civil u -> pred_day t < u -> t <= u.
Proof.
  intros [Mt Dt'] [Mu Du'] Hlt.
  pose proof (date_fields t) as Et. pose proof (date_fields u) as Eu.
  pose proof (days_in_month_range (year_of u) (month_of u)) as Du.
  unfold pred_day in Hlt.
  destruct (Z.ltb_spec 1 (day_of t)) as [|Hd]; [lia|].
  assert (day_of t = 1) as Hd1 by lia.
  destruct (Z.ltb_spec 1 (month_of t)) as [Hm|Hm].
  - destruct (Z.le_gt_cases t u) as [|Hgt]; [done|exfalso].
    rewrite <- Et, <- Eu in Hgt. rewrite <- Eu in Hlt. unfold mk_date in *.
    pose proof (days_in_month_range (year_of t) (month_of t - 1)) as Dt.
    assert (year_of u = year_of t) as Ey by lia.
    assert (month_of u = month_of t - 1) as Em by lia.
    rewrite Ey, Em in Hlt, Du', Du. lia.
  - rewrite <- Et, <- Eu. rewrite <- Eu in Hlt. unfold mk_date in *. lia.
Qed.

(** ** Month arithmetic *)
Lemma add_months_fields t n :
  1 <= month_of t <= 12 ->
  exists y m, 1 <= m <= 12 /\ y * 12 + m = year_of t * 12 + month_of t + n /\
    add_months t n = mk_date y m (Z.min (day_of t) (days_in_month y m)).
Proof.
  intros Hm. unfold add_months. cbv zeta.
  set (k := year_of t * 12 + (month_of t - 1) + n).
  exists (k / 12), (k mod 12 + 1). split; [|split; [|done]];
    subst k; Z.to_euclidean_division_equations; lia.
Qed.

Lemma add_months_civil t n : civil t -> civil (add_months t n).
Proof.
  intros [Hm Hd]. destruct (add_months_fields t n Hm) as (y & m & Hr & _ & ->).
  pose proof (days_in_month_range y m). apply mk_date_civil; lia.
Qed.

Lemma add_months_0 t : civil t -> add_months t 0 = t.
Proof.
  intros [Hm Hd]. destruct (add_months_fields t 0 Hm) as (y & m & Hr & E & ->).
  assert (y = year_of t) as -> by lia. assert (m = month_of t) as -> by lia.
  rewrite Z.min_l by lia. apply date_fields.
Qed.

Lemma add_months_lt t n n' : civil t -> n < n' -> add_months t n < add_months t n'.
Proof.
  intros [Hm Hd] Hn.
  destruct (add_months_fields t n Hm) as (y & m & Hr & E & ->).
  destruct (add_months_fields t n' Hm) as (y' & m' & Hr' & E' & ->).
  pose proof (days_in_month_range y m). pose proof (days_in_month_range y' m').
  apply mk_date_lt; lia.
Qed.

Lemma add_months_le t n n' : civil t -> n <= n' -> add_months t n <= add_months t n'.
Proof.
  intros Ht [Hn| ->]%Z.le_lteq; [|done]. apply Z.lt_le_incl. by apply add_months_lt.
Qed.

(** Consecutive month steps leave no day out. *)
Lemma add_months_cover t u (n : nat) :
  civil t -> civil u -> t <= u < add_months t (Z.of_nat n) ->
  exists i, 0 <= i < Z.of_nat n /\ add_months t i <= u <= pred_day (add_months t (i + 1)).
Proof.
  intros Ht Hu. induction n as [|n IH]; [rewrite add_months_0 by done; lia|].
  intros [Hlo Hhi]. destruct (Z.lt_ge_cases u (add_months t (Z.of_nat n))) as [Hlt|Hge].
  - destruct IH as (i & Hi & Hc); [lia|]. exists i. split; [lia|done].
  - exists (Z.of_nat n). split; [lia|]. split; [lia|].
    replace (Z.of_nat n + 1) with (Z.of_nat (S n)) by lia.
    destruct (Z.le_gt_cases u (pred_day (add_months t (Z.of_nat (S n))))) as [|Hgt]; [done|].
    pose proof (pred_day_adjacent (add_months t (Z.of_nat (S n))) u (add_months_civil _ _ Ht) Hu). lia.
Qed.
