(* ===== verification/Inputs.v ===== *)
(** * Input validation and currencies

    The pieces of the Zod schemas the accounting services share
    ([z.string().trim().min(1)], [.nullish()], the calendar-date and decimal
    patterns), [packages/accounting/src/currency.ts], and the SQL text literal
    of [sql.ts].  Every schema failure is one [AccountingValidationError].

    Strings are byte strings: [trim] and [toUpperCase] act on ASCII. *)
From S2P Require Import Prelude Decimal Calendar.

Open Scope Z_scope.

Module Text.
Definition is_space (c : ascii) : bool :=
  let n := nat_of_ascii c in ((9 <=? n)%nat && (n <=? 13)%nat) || (n =? 32)%nat.

Fixpoint drop_spaces (l : list ascii) : list ascii :=
  match l with
  | [] => []
  | c :: l' => if is_space c then drop_spaces l' else l
  end.

(** [s.trim()] *)
Definition trim (s : string) : string :=
  string_of_list_ascii (reverse (drop_spaces (reverse
    (drop_spaces (list_ascii_of_string s))))).

Definition upper_char (c : ascii) : ascii :=
  let n := nat_of_ascii c in
  if (97 <=? n)%nat && (n <=? 122)%nat then ascii_of_nat (n - 32) else c.

(** [s.toUpperCase()] *)
Fixpoint toUpperCase (s : string) : string :=
  match s with
  | EmptyString => EmptyString
  | String c s => String (upper_char c) (toUpperCase s)
  end.

Definition is_upper (c : ascii) : bool :=
  let n := nat_of_ascii c in (65 <=? n)%nat && (n <=? 90)%nat.
Definition is_letter (c : ascii) : bool := is_upper (upper_char c).

Definition all_chars (p : ascii -> bool) (s : string) : bool :=
  forallb p (list_ascii_of_string s).

(** [/^[A-Z]{3}$/.test(s)] and [/^[A-Za-z]{3}$/.test(s)] *)
Definition three_upper (s : string) : bool :=
  (String.length s =? 3)%nat && all_chars is_upper s.
Definition three_letters (s : string) : bool :=
  (String.length s =? 3)%nat && all_chars is_letter s.

Definition has_nul (s : string) : bool :=
  existsb (fun c => (c =? Ascii.zero)%char) (list_ascii_of_string s).
End Text.

(** ** Schema pieces *)
Abbreviation invalid := AccountingValidationError.

(** [z.string().trim().min(1)] *)
Definition z_text (s : string) : result string :=
  let t := Text.trim s in
  _ ← throw_if (String.eqb t "") invalid; mret t.

Definition z_opt {A B} (z : A -> result B) (o : option A) : result (option B) :=
  match o with None => mret None | Some a => b ← z a; mret (Some b) end.

(** [z.string().min(1).nullish()] *)
Definition z_user (o : option string) : result (option string) :=
  z_opt (fun s => _ ← throw_if (String.eqb s "") invalid; mret s) o.

Definition z_check (b : bool) : result unit := throw_if (negb b) invalid.

(** [decimalString] and [calendarDate] *)
Definition z_decimal (s : string) : result string :=
  _ ← z_check (isDecimalString s); mret s.
Definition z_date (t : date) : result date := _ ← z_check (iso_shape t); mret t.

(** [textLiteral] of [sql.ts] *)
Definition textLiteral (s : string) : result string :=
  _ ← throw_if (Text.has_nul s) invalid; mret s.
Definition textLiteral_opt : option string -> result (option string) := z_opt textLiteral.

(** ** [currency.ts] *)
Definition SUPPORTED_FUNCTIONAL_CURRENCIES : list string := ["USD"%string].
Definition DEFAULT_FUNCTIONAL_CURRENCY : string := "USD".

Definition normalizeCurrency (value : string) : result string :=
  let trimmed := Text.toUpperCase (Text.trim value) in
  _ ← throw_if (negb (Text.three_upper trimmed)) UnsupportedCurrencyError;
  mret trimmed.

Definition isSupportedCurrency (value : string) : bool :=
  bool_decide (Text.toUpperCase (Text.trim value) ∈ SUPPORTED_FUNCTIONAL_CURRENCIES).

Definition assertSupportedCurrency (value : string) : result string :=
  currency ← normalizeCurrency value;
  if isSupportedCurrency currency then mret currency else Throw UnsupportedCurrencyError.

Lemma upper_not_space c : Text.is_upper c = true -> Text.is_space c = false.
Proof.
  unfold Text.is_upper, Text.is_space. rewrite andb_true_iff, !Nat.leb_le.
  intros [H1 H2]. apply orb_false_iff. rewrite andb_false_iff, !Nat.leb_gt, Nat.eqb_neq. lia.
Qed.

Lemma upper_char_upper c : Text.is_upper c = true -> Text.upper_char c = c.
Proof.
  unfold Text.is_upper, Text.upper_char. rewrite andb_true_iff, !Nat.leb_le.
  intros [H1 H2]. destruct (Nat.leb_spec 97 (nat_of_ascii c)); [lia|done].
Qed.

(** A normalized code is a fixed point of the normalization. *)
Lemma three_upper_normal s :
  Text.three_upper s = true -> Text.toUpperCase (Text.trim s) = s.
Proof.
  unfold Text.three_upper, Text.all_chars. rewrite andb_true_iff.
  destruct s as [|a [|b [|c [|d s]]]]; try (by intros [? _]). intros [_ H].
  cbn [list_ascii_of_string forallb] in H. rewrite !andb_true_iff in H.
  destruct H as (Ha & Hb & Hc & _). unfold Text.trim.
  cbn [list_ascii_of_string Text.drop_spaces]. rewrite (upper_not_space a Ha).
  change (reverse [a; b; c]) with [c; b; a].
  cbn [Text.drop_spaces]. rewrite (upper_not_space c Hc).
  change (reverse [c; b; a]) with [a; b; c]. cbn.
  by rewrite !upper_char_upper.
Qed.

Lemma normalizeCurrency_shape value c :
  normalizeCurrency value = Ok c -> Text.three_upper c = true.
Proof. unfold normalizeCurrency. intros H. inv_ok. by apply negb_false_iff. Qed.

Lemma assertSupportedCurrency_usd value c :
  assertSupportedCurrency value = Ok c -> c = "USD"%string.
Proof.
  unfold assertSupportedCurrency. intros H. inv_ok. apply normalizeCurrency_shape in H0.
  unfold isSupportedCurrency in H. case_bool_decide as Hs; inv_ok.
  rewrite three_upper_normal in Hs by done. by apply list_elem_of_singleton in Hs.
Qed.

Example trim_usd : normalizeCurrency " usd " = Ok "USD"%string.
Proof. reflexivity. Qed.

(** ** Trimming what has no space *)
Lemma drop_spaces_none l : forallb (fun c => negb (Text.is_space c)) l = true -> Text.drop_spaces l = l.
Proof. destruct l as [|c l]; [done|]. cbn. intros [H%negb_true_iff _]%andb_true_iff. by rewrite H. Qed.

Lemma trim_no_space s :
  forallb (fun c => negb (Text.is_space c)) (list_ascii_of_string s) = true -> Text.trim s = s.
Proof.
  intros H. unfold Text.trim. rewrite (drop_spaces_none _ H), drop_spaces_none.
  - by rewrite reverse_involutive, string_of_list_ascii_of_string.
  - apply forallb_forall. intros c Hc. rewrite forallb_forall in H. apply H.
    by rewrite <- list_elem_of_In, elem_of_reverse, list_elem_of_In in Hc.
Qed.

Lemma digits_no_space s :
  Js.all_digits s = true -> forallb (fun c => negb (Text.is_space c)) (list_ascii_of_string s) = true.
Proof.
  induction s as [|c s IH]; [done|]. cbn [Js.all_digits list_ascii_of_string forallb].
  intros [Hc Hs]%andb_true_iff. rewrite (IH Hs), andb_true_r.
  unfold Js.is_digit in Hc. apply andb_true_iff in Hc as [H1%Nat.leb_le H2%Nat.leb_le].
  unfold Text.is_space. apply negb_true_iff, orb_false_iff.
  rewrite andb_false_iff, !Nat.leb_gt, Nat.eqb_neq. lia.
Qed.
