(* ===== verification/Store.v ===== *)
(** * Reasoning about computations over a store

    Three views of a computation [m : St S A]: [respects R m] - every run of
    [m] that returns relates the store it started from to the one it ends in;
    [always R m] - every run does, whether it returns or throws; and the
    inversion of a run that returns into the runs of its parts ([inv_st]).
    [restores m] says that a run which throws leaves the store as it was. *)
From S2P Require Import Prelude.

Section relations.
Context {S : Type} (R : relation S).

Definition respects {A} (m : St S A) : Prop :=
  forall s a s', m s = (Ok a, s') -> R s s'.
Definition always {A} (m : St S A) : Prop := forall s, R s (snd (m s)).

Lemma always_respects {A} (m : St S A) : always m -> respects m.
Proof. intros H s a s' E. specialize (H s). by rewrite E in H. Qed.

Lemma always_run {A} (m : St S A) s r s' : always m -> m s = (r, s') -> R s s'.
Proof. intros H E. specialize (H s). by rewrite E in H. Qed.

Lemma respects_ret `{!Reflexive R} {A} (a : A) : respects (mret a).
Proof. intros s b s' [= _ <-]. reflexivity. Qed.
Lemma respects_throw {A} e : respects (st_throw (A:=A) e).
Proof. intros s b s' [=]. Qed.
Lemma respects_get `{!Reflexive R} : respects st_get.
Proof. intros s b s' [= _ <-]. reflexivity. Qed.
Lemma respects_gets `{!Reflexive R} {A} (f : S -> A) : respects (st_gets f).
Proof. intros s b s' [= _ <-]. reflexivity. Qed.
Lemma respects_lift `{!Reflexive R} {A} (m : result A) : respects (st_lift m).
Proof. intros s b s' [= _ <-]. reflexivity. Qed.
Lemma respects_modify f : (forall s, R s (f s)) -> respects (st_modify f).
Proof. intros H s b s' [= _ <-]. apply H. Qed.

Lemma respects_bind `{!Transitive R} {A B} (m : St S A) (f : A -> St S B) :
  respects m -> (forall a, respects (f a)) -> respects (m ≫= f).
Proof.
  intros Hm Hf s b s'. unfold mbind, St_bind.
  destruct (m s) as [[a|e] s1] eqn:E; [|intros [=]].
  intros H. etrans; [by eapply Hm | by eapply Hf].
Qed.

Lemma respects_mapM `{!Reflexive R, !Transitive R} {A B} (f : A -> St S B) l :
  (forall x, respects (f x)) -> respects (st_mapM f l).
Proof.
  intros Hf. induction l as [|x l IH]; simpl; [apply respects_ret|].
  apply respects_bind; [done|]. intros y. apply respects_bind; [done|].
  intros ys. apply respects_ret.
Qed.

(** A handler that only rethrows. *)
Lemma respects_rethrow {A} (m : St S A) h :
  respects m -> (forall e s a s', h e s <> (Ok a, s')) -> respects (st_catch m h).
Proof.
  intros Hm Hh s a s'. unfold st_catch. destruct (m s) as [[b|e] s1] eqn:E.
  - intros [= <- <-]. by eapply Hm.
  - intros H. by destruct (Hh e s1 a s').
Qed.

Lemma always_ret `{!Reflexive R} {A} (a : A) : always (mret a).
Proof. intros s. simpl. reflexivity. Qed.
Lemma always_throw `{!Reflexive R} {A} e : always (st_throw (A:=A) e).
Proof. intros s. simpl. reflexivity. Qed.
Lemma always_get `{!Reflexive R} : always st_get.
Proof. intros s. simpl. reflexivity. Qed.
Lemma always_gets `{!Reflexive R} {A} (f : S -> A) : always (st_gets f).
Proof. intros s. simpl. reflexivity. Qed.
Lemma always_lift `{!Reflexive R} {A} (m : result A) : always (st_lift m).
Proof. intros s. simpl. reflexivity. Qed.

Lemma always_bind `{!Transitive R} {A B} (m : St S A) (f : A -> St S B) :
  always m -> (forall a, always (f a)) -> always (m ≫= f).
Proof.
  intros Hm Hf s. specialize (Hm s). unfold mbind, St_bind.
  destruct (m s) as [[a|e] s1]; simpl in *; [|done].
  etrans; [exact Hm | apply Hf].
Qed.

Lemma always_catch `{!Transitive R} {A} (m : St S A) h :
  always m -> (forall e, always (h e)) -> always (st_catch m h).
Proof.
  intros Hm Hh s. specialize (Hm s). unfold st_catch.
  destruct (m s) as [[a|e] s1]; simpl in *; [done|].
  etrans; [exact Hm | apply Hh].
Qed.

Lemma always_mapM `{!Reflexive R, !Transitive R} {A B} (f : A -> St S B) l :
  (forall x, always (f x)) -> always (st_mapM f l).
Proof.
  intros Hf. induction l as [|x l IH]; simpl; [apply always_ret|].
  apply always_bind; [done|]. intros y. apply always_bind; [done|].
  intros ys. apply always_ret.
Qed.
End relations.

Lemma always_weaken {S} (R R' : relation S) {A} (m : St S A) :
  (forall s s', R s s' -> R' s s') -> always R m -> always R' m.
Proof. intros HR H s. apply HR, H. Qed.

(** ** Read-only computations *)
Abbreviation reads := (always eq).

Lemma reads_always {S} (R : relation S) `{!Reflexive R} {A} (m : St S A) :
  reads m -> always R m.
Proof. apply always_weaken. by intros s s' ->. Qed.

Lemma reads_respects {S} (R : relation S) `{!Reflexive R} {A} (m : St S A) :
  reads m -> respects R m.
Proof. intros H. apply always_respects. by apply reads_always. Qed.

Lemma reads_run {S A} (m : St S A) s r s' : reads m -> m s = (r, s') -> s' = s.
Proof. intros H E. symmetry. eapply always_run; eauto. Qed.

(** ** Computations that throw before they write *)
Definition restores {S A} (m : St S A) : Prop := forall s e s', m s = (Throw e, s') -> s' = s.

Lemma restores_reads {S A} (m : St S A) : reads m -> restores m.
Proof. intros H s e s' E. by eapply reads_run. Qed.
Lemma restores_bind {S A B} (m : St S A) (f : A -> St S B) :
  reads m -> (forall a, restores (f a)) -> restores (m ≫= f).
Proof.
  intros Hm Hf s e s'. unfold mbind, St_bind. destruct (m s) as [[a|e1] s1] eqn:E.
  - apply reads_run in E as ->; [|done]. apply Hf.
  - intros [= _ <-]. by eapply reads_run.
Qed.
Lemma restores_modify {S A} (f : S -> S) (k : unit -> St S A) :
  (forall s u, exists a, k u s = (Ok a, s)) -> restores (st_modify f ≫= k).
Proof. intros Hk s e s'. unfold mbind, St_bind, st_modify. destruct (Hk (f s) tt) as [a ->]. by intros [=]. Qed.
Lemma restores_always {S} (R : relation S) `{!Reflexive R} {A} (m : St S A) :
  respects R m -> restores m -> always R m.
Proof.
  intros Hr Ht s. destruct (m s) as [[a|e] s'] eqn:E; cbn; [by eapply Hr|].
  apply Ht in E as ->. reflexivity.
Qed.

(** ** Runs from one store

    [moves R s m]: the run of [m] from [s], when it returns, relates [s] to its end. *)
Definition moves {S} (R : relation S) (s : S) {A} (m : St S A) : Prop := forall a s', m s = (Ok a, s') -> R s s'.

Section moves.
Context {S : Type} (R : relation S).

Lemma respects_moves {A} (m : St S A) : (forall s, moves R s m) -> respects R m.
Proof. intros H s. exact (H s). Qed.
Lemma moves_respects s {A} (m : St S A) : respects R m -> moves R s m.
Proof. intros H. exact (H s). Qed.
Lemma moves_read s {A B} (m : St S A) (f : A -> St S B) :
  reads m -> (forall a, m s = (Ok a, s) -> moves R s (f a)) -> moves R s (m ≫= f).
Proof.
  intros Hm Hf b s'. unfold mbind, St_bind. destruct (m s) as [[a|e] s1] eqn:E; [|by intros [=]].
  pose proof (reads_run _ _ _ _ Hm E) as ->. exact (Hf a eq_refl b s').
Qed.
Lemma moves_then s {A B} (m : St S A) (f : A -> St S B) :
  moves R s m -> (forall a, reads (f a)) -> moves R s (m ≫= f).
Proof.
  intros Hm Hf b s'. unfold mbind, St_bind. destruct (m s) as [[a|e] s1] eqn:E; [|by intros [=]].
  intros H. apply reads_run in H as ->; [|done]. exact (Hm a s1 E).
Qed.
End moves.

(** Structural closure: strips binds, matches and read-only leaves, and leaves
    the primitive steps to the hints of [store]. *)
Create HintDb store discriminated.

Ltac respects_step :=
  match goal with
  | |- respects _ (mret _) => apply respects_ret; try exact _
  | |- respects _ (st_throw _) => apply respects_throw; try exact _
  | |- respects _ st_get => apply respects_get; try exact _
  | |- respects _ (st_gets _) => apply respects_gets; try exact _
  | |- respects _ (st_lift _) => apply respects_lift; try exact _
  | |- respects _ (_ ≫= _) => apply respects_bind; [try exact _ .. | intros ?]
  | |- respects _ (st_mapM _ _) => apply respects_mapM; [try exact _ .. | intros ?]
  | |- respects _ (match ?x with _ => _ end) => destruct x
  | |- respects _ (let _ := _ in _) => cbv zeta
  | |- always _ (mret _) => apply always_ret; try exact _
  | |- always _ (st_throw _) => apply always_throw; try exact _
  | |- always _ st_get => apply always_get; try exact _
  | |- always _ (st_gets _) => apply always_gets; try exact _
  | |- always _ (st_lift _) => apply always_lift; try exact _
  | |- always _ (_ ≫= _) => apply always_bind; [try exact _ .. | intros ?]
  | |- always _ (st_mapM _ _) => apply always_mapM; [try exact _ .. | intros ?]
  | |- always _ (st_catch _ _) => apply always_catch; [try exact _ .. | intros ?]
  | |- always _ (match ?x with _ => _ end) => destruct x
  | |- always _ (let _ := _ in _) => cbv zeta
  end.
Ltac solve_respects := repeat (respects_step || solve [eauto with store]).

(** ** Inverting a successful run *)
Section runs.
Context {S : Type}.
Implicit Types s : S.

Lemma st_bind_Ok {A B} (m : St S A) (f : A -> St S B) s b s' :
  (m ≫= f) s = (Ok b, s') <-> exists a s1, m s = (Ok a, s1) /\ f a s1 = (Ok b, s').
Proof.
  unfold mbind, St_bind. destruct (m s) as [[a|e] s1]; split.
  - intros H. by exists a, s1.
  - by intros (? & ? & [= <- <-] & H).
  - intros [=].
  - by intros (? & ? & [=] & _).
Qed.

Lemma st_bind_run {A B} (m : St S A) (f : A -> St S B) s a s1 :
  m s = (Ok a, s1) -> (m ≫= f) s = f a s1.
Proof. unfold mbind, St_bind. by intros ->. Qed.

Lemma st_bind_throw {A B} (m : St S A) (f : A -> St S B) s e s1 :
  m s = (Throw e, s1) -> (m ≫= f) s = (Throw e, s1).
Proof. unfold mbind, St_bind. by intros ->. Qed.

(** A run that throws threw in its first part or in the rest. *)
Lemma st_bind_Throw {A B} (m : St S A) (f : A -> St S B) s e s' :
  (m ≫= f) s = (Throw e, s') ->
  m s = (Throw e, s') \/ exists a s1, m s = (Ok a, s1) /\ f a s1 = (Throw e, s').
Proof.
  unfold mbind, St_bind. destruct (m s) as [[a|e'] s1]; intros H; [|naive_solver].
  right. by exists a, s1.
Qed.

Lemma st_ret_inv {A} (a b : A) s s' :
  (mret a : St S A) s = (Ok b, s') -> b = a /\ s' = s.
Proof. by intros [= -> ->]. Qed.

Lemma st_get_inv s b s' : st_get s = (Ok b, s') -> b = s /\ s' = s.
Proof. by intros [= -> ->]. Qed.

Lemma st_gets_inv {A} (f : S -> A) s b s' :
  st_gets f s = (Ok b, s') -> b = f s /\ s' = s.
Proof. by intros [= -> ->]. Qed.

Lemma st_modify_inv (f : S -> S) s b s' :
  st_modify f s = (Ok b, s') -> b = tt /\ s' = f s.
Proof. by intros [= <- <-]. Qed.

Lemma st_lift_inv {A} (m : result A) s b s' :
  st_lift m s = (Ok b, s') -> m = Ok b /\ s' = s.
Proof. by intros [= -> ->]. Qed.

Lemma st_pair_inv {A} (a b : A) s s' :
  (Ok a, s) = (Ok b, s') -> b = a /\ s' = s.
Proof. by intros [= -> ->]. Qed.
End runs.

(** ** Transactions and guards *)
Section transactions.
Context {S : Type}.
Implicit Types s : S.

(** [db.transaction(body)] on a store without checks of its own at commit. *)
Definition atomically {A} (body : St S A) : St S A := fun s =>
  match body s with
  | (Ok a, s') => (Ok a, s')
  | (Throw e, _) => (Throw e, s)
  end.

Definition demand (b : bool) (e : error) : St S unit := if b then mret tt else st_throw e.

Lemma demand_inv b e s u s' : demand b e s = (Ok u, s') -> b = true /\ s' = s.
Proof. unfold demand. destruct b; [by intros [= _ <-]|by intros [=]]. Qed.
Lemma demand_reads b e : reads (demand b e).
Proof. intros s. by destruct b. Qed.

Lemma atomically_Ok {A} (body : St S A) s a s' : atomically body s = (Ok a, s') -> body s = (Ok a, s').
Proof. unfold atomically. by destruct (body s) as [[b|e] s1]. Qed.

Lemma atomically_Throw {A} (body : St S A) s e s' : atomically body s = (Throw e, s') -> s' = s.
Proof. unfold atomically. destruct (body s) as [[a|e'] s1]; [done|]. by intros [= _ <-]. Qed.

Lemma always_atomically (R : relation S) `{!Reflexive R} {A} (body : St S A) :
  respects R body -> always R (atomically body).
Proof. intros Hb s. unfold atomically. destruct (body s) as [[a|e] s1] eqn:E; [by eapply Hb|reflexivity]. Qed.

(** The store an atomic call leaves, from what its body does when it returns. *)
Lemma atomically_case {A} (P : S -> Prop) (body : St S A) s :
  P s -> (forall a s', body s = (Ok a, s') -> P s') -> P (atomically body s).2.
Proof. intros Hs Hb. unfold atomically. destruct (body s) as [[a|e] s1] eqn:E; [by eapply Hb|done]. Qed.
End transactions.
#[export] Hint Resolve demand_reads : store.

(** [inv_st] splits every hypothesis [(x ← m; k x) s = (Ok _, _)] into the runs
    of its parts, and discards the trivial ones. *)
Ltac inv_st_step :=
  match goal with
  | H : (_ ≫= _) _ = (Ok _, _) |- _ =>
      let a := fresh "a" in let s := fresh "db" in let H1 := fresh "H" in
      apply st_bind_Ok in H; destruct H as (a & s & H1 & H)
  | H : mret _ _ = (Ok _, _) |- _ => apply st_ret_inv in H; destruct H; subst
  | H : st_get _ = (Ok _, _) |- _ => apply st_get_inv in H; destruct H; subst
  | H : st_gets _ _ = (Ok _, _) |- _ => apply st_gets_inv in H; destruct H; subst
  | H : st_modify _ _ = (Ok _, _) |- _ => apply st_modify_inv in H; destruct H; subst
  | H : st_lift _ _ = (Ok _, _) |- _ => apply st_lift_inv in H; destruct H as [H ?]; subst
  | H : (Ok _, _) = (Ok _, _) |- _ => apply st_pair_inv in H; destruct H; subst
  | H : st_throw _ _ = (Ok _, _) |- _ => discriminate H
  | H : (Throw _, _) = (Ok _, _) |- _ => discriminate H
  end.
Ltac inv_st := repeat inv_st_step.

(** [run_bind H x s Hx]: the first part of the run [H] returned [x] in [s]. *)
Tactic Notation "run_bind" hyp(H) ident(x) ident(s) ident(Hx) :=
  apply st_bind_Ok in H; destruct H as (x & s & Hx & H).
