(* ===== verification/Schema.v ===== *)
(** * Tables and transactions

    The rows of the tables the accounting package reads and writes
    ([db/src/schema/accounting.ts], and the columns it reads of [commerce.ts],
    [inventory.ts], [expenses.ts] and [entities.ts]), the database as a record
    of tables, and [db.transaction].

    A table is the list of its rows in insertion order.  An identifier is a
    positive number drawn from [db_next]; money is the integer count of
    micro-units a [numeric(20, 6)] column holds; an instant is the value of the
    logical clock [db_now], advanced by each transaction ([now()] is constant
    inside one).  The JSON snapshots and the metadata of an audit event are not
    kept; its actor, action, resource and request are. *)
From S2P Require Import Prelude Calendar.

Open Scope Z_scope.

Abbreviation uuid := positive (only parsing).

(** ** Closed sets of [accounting.ts] and [expenses.ts] *)
Inductive AccountingBasis : Type := Cash | Accrual.
Inductive BookStatus : Type := BookActive | BookArchived.
Inductive LinkRole : Type := PostingPrimary | ReportingOnly.
Inductive AccountType : Type := Asset | Liability | Equity | Revenue | Expenditure.
Inductive AccountStatus : Type := AccountActive | AccountArchived.
Inductive PeriodStatus : Type := PeriodOpen | PeriodSoftClosed | PeriodClosed | PeriodLocked.
Inductive EntryStatus : Type := EntryDraft | EntryPosted | EntryReversed | EntryVoid.
Inductive EntrySource : Type := SourcePostingRule | SourceManual | SourceImport | SourceOpeningBalance.
Inductive FxRateSource : Type := FxUnity | FxProviderReported | FxManual | FxImported.
Inductive RuleStatus : Type := RuleDraft | RuleActive | RuleDisabled.
Inductive VersionStatus : Type := VersionDraft | VersionActive | VersionSuperseded.
Inductive FactType : Type :=
  | FactOrder | FactOrderFee | FactOrderRefund | FactOrderFulfillment
  | FactInventoryMovement | FactAcquisitionCost | FactShipment | FactExpense
  | FactPayout | FactPayoutLine | FactBankTransaction | FactSalesTaxFact | FactManual.
Inductive AmountSource : Type :=
  | AmtTotal | AmtSubtotal | AmtShipping | AmtDiscount | AmtTax | AmtFee
  | AmtRefund | AmtNet | AmtCostBasis | AmtQuantityTimesBasis | AmtRemainder.
Inductive SourceLinkRole : Type :=
  | RolePrimary | RoleSettled | RoleAllocated | RoleReversedFrom | RoleEvidence.
Inductive ExpenseStatus : Type := ExpenseDraft | ExpenseRecorded | ExpensePosted | ExpenseVoid.
Inductive ExpensePaymentMethod : Type :=
  PayCard | PayCash | PayBankTransfer | PayMarketplaceBalance | PayDirectDebit | PayOther.
Inductive ExpenseEntityAttributionSource : Type := AttrManual | AttrInstallationDefault | AttrUnattributed.
Inductive ExpenseLineKind : Type := KindItem | KindShipping | KindTax | KindFee | KindDiscount | KindOther.

#[export] Instance AccountingBasis_eq_dec : EqDecision AccountingBasis.
Proof. solve_decision. Defined.
#[export] Instance BookStatus_eq_dec : EqDecision BookStatus.
Proof. solve_decision. Defined.
#[export] Instance LinkRole_eq_dec : EqDecision LinkRole.
Proof. solve_decision. Defined.
#[export] Instance AccountType_eq_dec : EqDecision AccountType.
Proof. solve_decision. Defined.
#[export] Instance AccountStatus_eq_dec : EqDecision AccountStatus.
Proof. solve_decision. Defined.
#[export] Instance PeriodStatus_eq_dec : EqDecision PeriodStatus.
Proof. solve_decision. Defined.
#[export] Instance EntryStatus_eq_dec : EqDecision EntryStatus.
Proof. solve_decision. Defined.
#[export] Instance EntrySource_eq_dec : EqDecision EntrySource.
Proof. solve_decision. Defined.
#[export] Instance FxRateSource_eq_dec : EqDecision FxRateSource.
Proof. solve_decision. Defined.
#[export] Instance RuleStatus_eq_dec : EqDecision RuleStatus.
Proof. solve_decision. Defined.
#[export] Instance VersionStatus_eq_dec : EqDecision VersionStatus.
Proof. solve_decision. Defined.
#[export] Instance FactType_eq_dec : EqDecision FactType.
Proof. solve_decision. Defined.
#[export] Instance AmountSource_eq_dec : EqDecision AmountSource.
Proof. solve_decision. Defined.
#[export] Instance SourceLinkRole_eq_dec : EqDecision SourceLinkRole.
Proof. solve_decision. Defined.
#[export] Instance ExpenseStatus_eq_dec : EqDecision ExpenseStatus.
Proof. solve_decision. Defined.
#[export] Instance ExpensePaymentMethod_eq_dec : EqDecision ExpensePaymentMethod.
Proof. solve_decision. Defined.
#[export] Instance ExpenseEntityAttributionSource_eq_dec : EqDecision ExpenseEntityAttributionSource.
Proof. solve_decision. Defined.
#[export] Instance ExpenseLineKind_eq_dec : EqDecision ExpenseLineKind.
Proof. solve_decision. Defined.

(** The discriminator strings of [POSTING_RULE_SOURCE_FACT_TYPES]. *)
Definition fact_type_text (t : FactType) : string :=
  match t with
  | FactOrder => "order" | FactOrderFee => "order_fee"
  | FactOrderRefund => "order_refund"
  | FactOrderFulfillment => "order_fulfillment"
  | FactInventoryMovement => "inventory_movement"
  | FactAcquisitionCost => "acquisition_cost" | FactShipment => "shipment"
  | FactExpense => "expense" | FactPayout => "payout"
  | FactPayoutLine => "payout_line" | FactBankTransaction => "bank_transaction"
  | FactSalesTaxFact => "sales_tax_fact" | FactManual => "manual"
  end.

(** The handles of [LEDGER_SYSTEM_KEYS]. *)
Definition LEDGER_SYSTEM_KEYS : list string :=
  ["marketplace_clearing"; "undeposited_funds"; "inventory"; "sales_tax_payable";
   "facilitator_tax_clearing"; "sales_revenue"; "sales_returns"; "shipping_income";
   "buyer_fee_income"; "cogs"; "marketplace_fees"; "payment_processing_fees";
   "shipping_expense"; "fx_gain_loss"; "opening_balance_equity"; "suspense"]%string.

(** ** Rows *)
Record EconomicEntity : Type := {
  ent_id : uuid;
  ent_name : string;
  ent_parentEntityId : option uuid;
}.

Record AccountingBook : Type := {
  bk_id : uuid;
  bk_code : string;
  bk_name : string;
  bk_functionalCurrency : string;
  bk_accountingBasis : AccountingBasis;
  bk_fiscalYearStartMonth : Z;
  bk_fiscalYearStartDay : Z;
  bk_requiresEntityDimension : bool;
  bk_nextEntryNumber : Z;
  bk_status : BookStatus;
  bk_openedOn : date;
  bk_notes : option string;
  bk_createdByUserId : option string;
  bk_createdAt : Z;
  bk_updatedAt : Z;
}.

Record BookEntityLink : Type := {
  lk_id : uuid;
  lk_accountingBookId : uuid;
  lk_economicEntityId : uuid;
  lk_linkRole : LinkRole;
  lk_effectiveFrom : date;
  lk_effectiveTo : option date;
  lk_dimensionLabel : option string;
  lk_note : option string;
  lk_createdByUserId : option string;
  lk_createdAt : Z;
  lk_updatedAt : Z;
}.

Record LedgerAccount : Type := {
  la_id : uuid;
  la_accountingBookId : uuid;
  la_code : string;
  la_name : string;
  la_accountType : AccountType;
  la_accountSubtype : option string;
  la_parentAccountId : option uuid;
  la_isPostable : bool;
  la_isContra : bool;
  la_systemKey : option string;
  la_currency : option string;
  la_description : option string;
  la_status : AccountStatus;
  la_createdAt : Z;
  la_updatedAt : Z;
}.

Record AccountingDimension : Type := {
  dm_id : uuid;
  dm_accountingBookId : uuid;
  dm_code : string;
  dm_name : string;
  dm_isRequired : bool;
  dm_sortOrder : Z;
  dm_active : bool;
}.

Record AccountingDimensionValue : Type := {
  dv_id : uuid;
  dv_dimensionId : uuid;
  dv_parentValueId : option uuid;
  dv_code : string;
  dv_name : string;
  dv_active : bool;
}.

Record FiscalPeriod : Type := {
  fp_id : uuid;
  fp_accountingBookId : uuid;
  fp_periodCode : string;
  fp_fiscalYear : Z;
  fp_sequence : Z;
  fp_startsOn : date;
  fp_endsOn : date;
  fp_status : PeriodStatus;
  fp_closedAt : option Z;
  fp_closedByUserId : option string;
  fp_note : option string;
  fp_createdAt : Z;
  fp_updatedAt : Z;
}.

Record PostingRule : Type := {
  pr_id : uuid;
  pr_code : string;
  pr_name : string;
  pr_sourceFactType : FactType;
  pr_accountingBookId : option uuid;
  pr_priority : Z;
  pr_status : RuleStatus;
  pr_currentVersionId : option uuid;
  pr_description : option string;
  pr_createdByUserId : option string;
  pr_createdAt : Z;
  pr_updatedAt : Z;
}.

Record PostingRuleVersion : Type := {
  pv_id : uuid;
  pv_postingRuleId : uuid;
  pv_version : Z;
  pv_status : VersionStatus;
  pv_effectiveFrom : option date;
  pv_effectiveTo : option date;
  pv_matchProvider : option string;
  pv_matchChannel : option string;
  pv_matchEconomicEntityId : option uuid;
  pv_matchFeeType : option string;
  pv_matchFeeDirection : option string;
  pv_matchMovementKind : option string;
  pv_matchSourceKind : option string;
  pv_matchExpenseCategory : option string;
  pv_matchCapitalize : option bool;
  pv_matchCurrency : option string;
  pv_matchMinAmount : option Z;
  pv_matchMaxAmount : option Z;
  pv_note : option string;
  pv_createdByUserId : option string;
  pv_createdAt : Z;
}.

Record PostingRuleLine : Type := {
  pl_id : uuid;
  pl_postingRuleVersionId : uuid;
  pl_lineNumber : Z;
  pl_accountSystemKey : option string;
  pl_ledgerAccountId : option uuid;
  pl_amountSource : AmountSource;
  pl_amountMultiplier : Z;
  pl_inheritEntity : bool;
  pl_dimensionValueId : option uuid;
  pl_descriptionTemplate : option string;
  pl_createdAt : Z;
}.

Record JournalEntry : Type := {
  je_id : uuid;
  je_accountingBookId : uuid;
  je_entryNumber : option Z;
  je_fiscalPeriodId : option uuid;
  je_entryDate : date;
  je_status : EntryStatus;
  je_entrySource : EntrySource;
  je_postingKey : option string;
  je_postingRuleVersionId : option uuid;
  je_sourceFactType : option string;
  je_sourceFactId : option uuid;
  je_sourceFactFingerprint : option string;
  je_reversesEntryId : option uuid;
  je_isBackdated : bool;
  je_description : string;
  je_memo : option string;
  je_postedAt : option Z;
  je_postedByUserId : option string;
  je_createdByUserId : option string;
  je_createdAt : Z;
  je_updatedAt : Z;
}.

Record JournalLine : Type := {
  jl_id : uuid;
  jl_journalEntryId : uuid;
  jl_accountingBookId : uuid;
  jl_ledgerAccountId : uuid;
  jl_economicEntityId : option uuid;
  jl_lineNumber : Z;
  jl_description : option string;
  jl_currency : string;
  jl_amount : Z;
  jl_functionalCurrency : string;
  jl_functionalAmount : Z;
  (** [numeric(24, 12)]: the rate times 10^12 *)
  jl_fxRate : Z;
  jl_fxRateSource : FxRateSource;
  jl_fxRateAt : option Z;
  jl_createdAt : Z;
}.

Record JournalLineDimension : Type := {
  ld_journalLineId : uuid;
  ld_dimensionId : uuid;
  ld_dimensionValueId : uuid;
}.

Record JournalEntrySourceLink : Type := {
  sl_id : uuid;
  sl_journalEntryId : uuid;
  sl_sourceFactType : string;
  sl_sourceFactId : uuid;
  sl_role : SourceLinkRole;
  sl_amountContributed : option Z;
  sl_currency : option string;
  sl_linkedAt : Z;
}.

Record AuditEvent : Type := {
  ae_actorUserId : option string;
  ae_action : string;
  ae_resourceType : string;
  ae_resourceId : option uuid;
  ae_requestId : option string;
}.

(** *** Operational facts: the columns the source-fact readers select *)
Record Order : Type := {
  o_id : uuid;
  o_provider : string;
  o_channel : string;
  o_economicEntityId : option uuid;
  o_currency : string;
  o_status : string;
  o_subtotalAmount : Z;
  o_shippingAmount : Z;
  o_discountAmount : Z;
  o_taxAmount : Z;
  o_feeAmount : Z;
  o_refundedAmount : Z;
  o_totalAmount : Z;
  o_externalOrderId : string;
  o_externalOrderNumber : option string;
  o_placedAt : Z;
}.

Record OrderFee : Type := {
  of_id : uuid;
  of_orderId : uuid;
  of_feeDirection : string;
  of_feeType : string;
  of_currency : string;
  of_amount : Z;
  of_chargedAt : option Z;
}.

Record OrderRefund : Type := {
  orf_id : uuid;
  orf_orderId : uuid;
  orf_status : string;
  orf_currency : string;
  orf_amount : Z;
  orf_refundedAt : option Z;
}.

Record OrderLine : Type := { oln_id : uuid; oln_orderId : uuid }.

Record Acquisition : Type := {
  aq_id : uuid;
  aq_economicEntityId : option uuid;
  aq_sourceKind : string;
  aq_status : string;
  aq_referenceCode : string;
  aq_vendorName : option string;
  aq_currency : string;
  aq_acquiredAt : Z;
}.

Record AcquisitionCost : Type := {
  ac_id : uuid;
  ac_acquisitionId : uuid;
  ac_costType : string;
  ac_capitalize : bool;
  ac_vendorName : option string;
  ac_currency : string;
  ac_amount : Z;
  ac_incurredAt : option Z;
}.

Record InventoryItem : Type := {
  ii_id : uuid;
  ii_itemCode : string;
  ii_acquisitionId : option uuid;
  ii_economicEntityId : option uuid;
  ii_quantity : Z;
  ii_currency : string;
  ii_landedCostAmount : Z;
}.

Record InventoryMovement : Type := {
  im_id : uuid;
  im_inventoryItemId : uuid;
  im_movementKind : string;
  im_quantity : Z;
  im_orderLineId : option uuid;
  im_reversesMovementId : option uuid;
  im_occurredAt : Z;
}.

Record Expense : Type := {
  ex_id : uuid;
  ex_economicEntityId : option uuid;
  ex_entityAttributionSource : ExpenseEntityAttributionSource;
  ex_entityAttributedAt : option Z;
  ex_entityAttributedByUserId : option string;
  ex_referenceCode : string;
  ex_expenseDate : date;
  ex_payeeName : option string;
  ex_payeeCounterpartyId : option uuid;
  ex_category : string;
  ex_description : option string;
  ex_currency : string;
  ex_amount : Z;
  ex_taxAmount : Z;
  ex_paymentMethod : ExpensePaymentMethod;
  ex_acquisitionCostId : option uuid;
  ex_accountingBookId : option uuid;
  ex_status : ExpenseStatus;
  ex_reimbursable : bool;
  ex_recurringGroupKey : option string;
  ex_notes : option string;
  ex_createdByUserId : option string;
  ex_createdAt : Z;
  ex_updatedAt : Z;
}.

Record ExpenseAllocation : Type := {
  ea_id : uuid;
  ea_expenseId : uuid;
  ea_lineNumber : Z;
  ea_amount : Z;
  ea_economicEntityId : option uuid;
  ea_acquisitionId : option uuid;
  ea_catalogItemId : option uuid;
  ea_ledgerAccountId : option uuid;
  ea_dimensionValueId : option uuid;
  ea_channel : option string;
  ea_note : option string;
  ea_createdAt : Z;
}.

Record ExpenseLine : Type := {
  el_id : uuid;
  el_expenseId : uuid;
  el_lineNumber : Z;
  el_description : option string;
  el_quantity : option Z;
  el_unitAmount : option Z;
  el_lineAmount : Z;
  el_lineKind : ExpenseLineKind;
  el_unit : option string;
  el_documentLineCandidateId : option uuid;
  el_note : option string;
  el_createdAt : Z;
  el_updatedAt : Z;
}.

(** The columns of [counterparties] an expense reads. *)
Record Counterparty : Type := { cp_id : uuid; cp_displayName : string }.

(** The tables the accounting services only read. *)
Record FactTables : Type := {
  ft_orders : list Order;
  ft_orderFees : list OrderFee;
  ft_orderRefunds : list OrderRefund;
  ft_orderLines : list OrderLine;
  ft_acquisitions : list Acquisition;
  ft_acquisitionCosts : list AcquisitionCost;
  ft_items : list InventoryItem;
  ft_movements : list InventoryMovement;
  ft_candidates : list uuid;
  ft_catalogItems : list uuid;
  ft_counterparties : list Counterparty;
}.

#[export] Instance JournalEntry_eq_dec : EqDecision JournalEntry.
Proof. solve_decision. Defined.
#[export] Instance JournalLine_eq_dec : EqDecision JournalLine.
Proof. solve_decision. Defined.
#[export] Instance PostingRuleVersion_eq_dec : EqDecision PostingRuleVersion.
Proof. solve_decision. Defined.

(** ** The database

    [db_users] are the user identifiers the [*_by_user_id] columns reference;
    [db_deferred] lists the entries whose deferred balance trigger is queued. *)
Record Db : Type := {
  db_users : list string;
  db_entities : list EconomicEntity;
  db_books : list AccountingBook;
  db_links : list BookEntityLink;
  db_accounts : list LedgerAccount;
  db_dimensions : list AccountingDimension;
  db_dimension_values : list AccountingDimensionValue;
  db_periods : list FiscalPeriod;
  db_rules : list PostingRule;
  db_versions : list PostingRuleVersion;
  db_rule_lines : list PostingRuleLine;
  db_entries : list JournalEntry;
  db_lines : list JournalLine;
  db_line_dims : list JournalLineDimension;
  db_source_links : list JournalEntrySourceLink;
  db_expenses : list Expense;
  db_allocations : list ExpenseAllocation;
  db_expense_lines : list ExpenseLine;
  db_facts : FactTables;
  db_audit : list AuditEvent;
  db_next : positive;
  db_now : Z;
  db_deferred : list uuid;
}.

Definition set_users (v : list string) (db : Db) : Db :=
  {| db_users := v; db_entities := db_entities db; db_books := db_books db; db_links :=
     db_links db; db_accounts := db_accounts db; db_dimensions := db_dimensions db;
     db_dimension_values := db_dimension_values db; db_periods := db_periods db; db_rules
     := db_rules db; db_versions := db_versions db; db_rule_lines := db_rule_lines db;
     db_entries := db_entries db; db_lines := db_lines db; db_line_dims := db_line_dims
     db; db_source_links := db_source_links db; db_expenses := db_expenses db;
     db_allocations := db_allocations db; db_expense_lines := db_expense_lines db;
     db_facts := db_facts db; db_audit := db_audit db; db_next := db_next db; db_now :=
     db_now db; db_deferred := db_deferred db |}.

Definition set_entities (v : list EconomicEntity) (db : Db) : Db :=
  {| db_users := db_users db; db_entities := v; db_books := db_books db; db_links :=
     db_links db; db_accounts := db_accounts db; db_dimensions := db_dimensions db;
     db_dimension_values := db_dimension_values db; db_periods := db_periods db; db_rules
     := db_rules db; db_versions := db_versions db; db_rule_lines := db_rule_lines db;
     db_entries := db_entries db; db_lines := db_lines db; db_line_dims := db_line_dims
     db; db_source_links := db_source_links db; db_expenses := db_expenses db;
     db_allocations := db_allocations db; db_expense_lines := db_expense_lines db;
     db_facts := db_facts db; db_audit := db_audit db; db_next := db_next db; db_now :=
     db_now db; db_deferred := db_deferred db |}.

Definition set_books (v : list AccountingBook) (db : Db) : Db :=
  {| db_users := db_users db; db_entities := db_entities db; db_books := v; db_links :=
     db_links db; db_accounts := db_accounts db; db_dimensions := db_dimensions db;
     db_dimension_values := db_dimension_values db; db_periods := db_periods db; db_rules
     := db_rules db; db_versions := db_versions db; db_rule_lines := db_rule_lines db;
     db_entries := db_entries db; db_lines := db_lines db; db_line_dims := db_line_dims
     db; db_source_links := db_source_links db; db_expenses := db_expenses db;
     db_allocations := db_allocations db; db_expense_lines := db_expense_lines db;
     db_facts := db_facts db; db_audit := db_audit db; db_next := db_next db; db_now :=
     db_now db; db_deferred := db_deferred db |}.

Definition set_links (v : list BookEntityLink) (db : Db) : Db :=
  {| db_users := db_users db; db_entities := db_entities db; db_books := db_books db;
     db_links := v; db_accounts := db_accounts db; db_dimensions := db_dimensions db;
     db_dimension_values := db_dimension_values db; db_periods := db_periods db; db_rules
     := db_rules db; db_versions := db_versions db; db_rule_lines := db_rule_lines db;
     db_entries := db_entries db; db_lines := db_lines db; db_line_dims := db_line_dims
     db; db_source_links := db_source_links db; db_expenses := db_expenses db;
     db_allocations := db_allocations db; db_expense_lines := db_expense_lines db;
     db_facts := db_facts db; db_audit := db_audit db; db_next := db_next db; db_now :=
     db_now db; db_deferred := db_deferred db |}.

Definition set_accounts (v : list LedgerAccount) (db : Db) : Db :=
  {| db_users := db_users db; db_entities := db_entities db; db_books := db_books db;
     db_links := db_links db; db_accounts := v; db_dimensions := db_dimensions db;
     db_dimension_values := db_dimension_values db; db_periods := db_periods db; db_rules
     := db_rules db; db_versions := db_versions db; db_rule_lines := db_rule_lines db;
     db_entries := db_entries db; db_lines := db_lines db; db_line_dims := db_line_dims
     db; db_source_links := db_source_links db; db_expenses := db_expenses db;
     db_allocations := db_allocations db; db_expense_lines := db_expense_lines db;
     db_facts := db_facts db; db_audit := db_audit db; db_next := db_next db; db_now :=
     db_now db; db_deferred := db_deferred db |}.

Definition set_dimensions (v : list AccountingDimension) (db : Db) : Db :=
  {| db_users := db_users db; db_entities := db_entities db; db_books := db_books db;
     db_links := db_links db; db_accounts := db_accounts db; db_dimensions := v;
     db_dimension_values := db_dimension_values db; db_periods := db_periods db; db_rules
     := db_rules db; db_versions := db_versions db; db_rule_lines := db_rule_lines db;
     db_entries := db_entries db; db_lines := db_lines db; db_line_dims := db_line_dims
     db; db_source_links := db_source_links db; db_expenses := db_expenses db;
     db_allocations := db_allocations db; db_expense_lines := db_expense_lines db;
     db_facts := db_facts db; db_audit := db_audit db; db_next := db_next db; db_now :=
     db_now db; db_deferred := db_deferred db |}.

Definition set_dimension_values (v : list AccountingDimensionValue) (db : Db) : Db :=
  {| db_users := db_users db; db_entities := db_entities db; db_books := db_books db;
     db_links := db_links db; db_accounts := db_accounts db; db_dimensions :=
     db_dimensions db; db_dimension_values := v; db_periods := db_periods db; db_rules :=
     db_rules db; db_versions := db_versions db; db_rule_lines := db_rule_lines db;
     db_entries := db_entries db; db_lines := db_lines db; db_line_dims := db_line_dims
     db; db_source_links := db_source_links db; db_expenses := db_expenses db;
     db_allocations := db_allocations db; db_expense_lines := db_expense_lines db;
     db_facts := db_facts db; db_audit := db_audit db; db_next := db_next db; db_now :=
     db_now db; db_deferred := db_deferred db |}.

Definition set_periods (v : list FiscalPeriod) (db : Db) : Db :=
  {| db_users := db_users db; db_entities := db_entities db; db_books := db_books db;
     db_links := db_links db; db_accounts := db_accounts db; db_dimensions :=
     db_dimensions db; db_dimension_values := db_dimension_values db; db_periods := v;
     db_rules := db_rules db; db_versions := db_versions db; db_rule_lines :=
     db_rule_lines db; db_entries := db_entries db; db_lines := db_lines db; db_line_dims
     := db_line_dims db; db_source_links := db_source_links db; db_expenses := db_expenses
     db; db_allocations := db_allocations db; db_expense_lines := db_expense_lines db;
     db_facts := db_facts db; db_audit := db_audit db; db_next := db_next db; db_now :=
     db_now db; db_deferred := db_deferred db |}.

Definition set_rules (v : list PostingRule) (db : Db) : Db :=
  {| db_users := db_users db; db_entities := db_entities db; db_books := db_books db;
     db_links := db_links db; db_accounts := db_accounts db; db_dimensions :=
     db_dimensions db; db_dimension_values := db_dimension_values db; db_periods :=
     db_periods db; db_rules := v; db_versions := db_versions db; db_rule_lines :=
     db_rule_lines db; db_entries := db_entries db; db_lines := db_lines db; db_line_dims
     := db_line_dims db; db_source_links := db_source_links db; db_expenses := db_expenses
     db; db_allocations := db_allocations db; db_expense_lines := db_expense_lines db;
     db_facts := db_facts db; db_audit := db_audit db; db_next := db_next db; db_now :=
     db_now db; db_deferred := db_deferred db |}.

Definition set_versions (v : list PostingRuleVersion) (db : Db) : Db :=
  {| db_users := db_users db; db_entities := db_entities db; db_books := db_books db;
     db_links := db_links db; db_accounts := db_accounts db; db_dimensions :=
     db_dimensions db; db_dimension_values := db_dimension_values db; db_periods :=
     db_periods db; db_rules := db_rules db; db_versions := v; db_rule_lines :=
     db_rule_lines db; db_entries := db_entries db; db_lines := db_lines db; db_line_dims
     := db_line_dims db; db_source_links := db_source_links db; db_expenses := db_expenses
     db; db_allocations := db_allocations db; db_expense_lines := db_expense_lines db;
     db_facts := db_facts db; db_audit := db_audit db; db_next := db_next db; db_now :=
     db_now db; db_deferred := db_deferred db |}.

Definition set_rule_lines (v : list PostingRuleLine) (db : Db) : Db :=
  {| db_users := db_users db; db_entities := db_entities db; db_books := db_books db;
     db_links := db_links db; db_accounts := db_accounts db; db_dimensions :=
     db_dimensions db; db_dimension_values := db_dimension_values db; db_periods :=
     db_periods db; db_rules := db_rules db; db_versions := db_versions db; db_rule_lines
     := v; db_entries := db_entries db; db_lines := db_lines db; db_line_dims :=
     db_line_dims db; db_source_links := db_source_links db; db_expenses := db_expenses
     db; db_allocations := db_allocations db; db_expense_lines := db_expense_lines db;
     db_facts := db_facts db; db_audit := db_audit db; db_next := db_next db; db_now :=
     db_now db; db_deferred := db_deferred db |}.

Definition set_entries (v : list JournalEntry) (db : Db) : Db :=
  {| db_users := db_users db; db_entities := db_entities db; db_books := db_books db;
     db_links := db_links db; db_accounts := db_accounts db; db_dimensions :=
     db_dimensions db; db_dimension_values := db_dimension_values db; db_periods :=
     db_periods db; db_rules := db_rules db; db_versions := db_versions db; db_rule_lines
     := db_rule_lines db; db_entries := v; db_lines := db_lines db; db_line_dims :=
     db_line_dims db; db_source_links := db_source_links db; db_expenses := db_expenses
     db; db_allocations := db_allocations db; db_expense_lines := db_expense_lines db;
     db_facts := db_facts db; db_audit := db_audit db; db_next := db_next db; db_now :=
     db_now db; db_deferred := db_deferred db |}.

Definition set_lines (v : list JournalLine) (db : Db) : Db :=
  {| db_users := db_users db; db_entities := db_entities db; db_books := db_books db;
     db_links := db_links db; db_accounts := db_accounts db; db_dimensions :=
     db_dimensions db; db_dimension_values := db_dimension_values db; db_periods :=
     db_periods db; db_rules := db_rules db; db_versions := db_versions db; db_rule_lines
     := db_rule_lines db; db_entries := db_entries db; db_lines := v; db_line_dims :=
     db_line_dims db; db_source_links := db_source_links db; db_expenses := db_expenses
     db; db_allocations := db_allocations db; db_expense_lines := db_expense_lines db;
     db_facts := db_facts db; db_audit := db_audit db; db_next := db_next db; db_now :=
     db_now db; db_deferred := db_deferred db |}.

Definition set_line_dims (v : list JournalLineDimension) (db : Db) : Db :=
  {| db_users := db_users db; db_entities := db_entities db; db_books := db_books db;
     db_links := db_links db; db_accounts := db_accounts db; db_dimensions :=
     db_dimensions db; db_dimension_values := db_dimension_values db; db_periods :=
     db_periods db; db_rules := db_rules db; db_versions := db_versions db; db_rule_lines
     := db_rule_lines db; db_entries := db_entries db; db_lines := db_lines db;
     db_line_dims := v; db_source_links := db_source_links db; db_expenses := db_expenses
     db; db_allocations := db_allocations db; db_expense_lines := db_expense_lines db;
     db_facts := db_facts db; db_audit := db_audit db; db_next := db_next db; db_now :=
     db_now db; db_deferred := db_deferred db |}.

Definition set_source_links (v : list JournalEntrySourceLink) (db : Db) : Db :=
  {| db_users := db_users db; db_entities := db_entities db; db_books := db_books db;
     db_links := db_links db; db_accounts := db_accounts db; db_dimensions :=
     db_dimensions db; db_dimension_values := db_dimension_values db; db_periods :=
     db_periods db; db_rules := db_rules db; db_versions := db_versions db; db_rule_lines
     := db_rule_lines db; db_entries := db_entries db; db_lines := db_lines db;
     db_line_dims := db_line_dims db; db_source_links := v; db_expenses := db_expenses db;
     db_allocations := db_allocations db; db_expense_lines := db_expense_lines db;
     db_facts := db_facts db; db_audit := db_audit db; db_next := db_next db; db_now :=
     db_now db; db_deferred := db_deferred db |}.

Definition set_expenses (v : list Expense) (db : Db) : Db :=
  {| db_users := db_users db; db_entities := db_entities db; db_books := db_books db;
     db_links := db_links db; db_accounts := db_accounts db; db_dimensions :=
     db_dimensions db; db_dimension_values := db_dimension_values db; db_periods :=
     db_periods db; db_rules := db_rules db; db_versions := db_versions db; db_rule_lines
     := db_rule_lines db; db_entries := db_entries db; db_lines := db_lines db;
     db_line_dims := db_line_dims db; db_source_links := db_source_links db; db_expenses
     := v; db_allocations := db_allocations db; db_expense_lines := db_expense_lines db;
     db_facts := db_facts db; db_audit := db_audit db; db_next := db_next db; db_now :=
     db_now db; db_deferred := db_deferred db |}.

Definition set_allocations (v : list ExpenseAllocation) (db : Db) : Db :=
  {| db_users := db_users db; db_entities := db_entities db; db_books := db_books db;
     db_links := db_links db; db_accounts := db_accounts db; db_dimensions :=
     db_dimensions db; db_dimension_values := db_dimension_values db; db_periods :=
     db_periods db; db_rules := db_rules db; db_versions := db_versions db; db_rule_lines
     := db_rule_lines db; db_entries := db_entries db; db_lines := db_lines db;
     db_line_dims := db_line_dims db; db_source_links := db_source_links db; db_expenses
     := db_expenses db; db_allocations := v; db_expense_lines := db_expense_lines db;
     db_facts := db_facts db; db_audit := db_audit db; db_next := db_next db; db_now :=
     db_now db; db_deferred := db_deferred db |}.

Definition set_expense_lines (v : list ExpenseLine) (db : Db) : Db :=
  {| db_users := db_users db; db_entities := db_entities db; db_books := db_books db;
     db_links := db_links db; db_accounts := db_accounts db; db_dimensions :=
     db_dimensions db; db_dimension_values := db_dimension_values db; db_periods :=
     db_periods db; db_rules := db_rules db; db_versions := db_versions db; db_rule_lines
     := db_rule_lines db; db_entries := db_entries db; db_lines := db_lines db;
     db_line_dims := db_line_dims db; db_source_links := db_source_links db; db_expenses
     := db_expenses db; db_allocations := db_allocations db; db_expense_lines := v;
     db_facts := db_facts db; db_audit := db_audit db; db_next := db_next db; db_now :=
     db_now db; db_deferred := db_deferred db |}.

Definition set_facts (v : FactTables) (db : Db) : Db :=
  {| db_users := db_users db; db_entities := db_entities db; db_books := db_books db;
     db_links := db_links db; db_accounts := db_accounts db; db_dimensions :=
     db_dimensions db; db_dimension_values := db_dimension_values db; db_periods :=
     db_periods db; db_rules := db_rules db; db_versions := db_versions db; db_rule_lines
     := db_rule_lines db; db_entries := db_entries db; db_lines := db_lines db;
     db_line_dims := db_line_dims db; db_source_links := db_source_links db; db_expenses
     := db_expenses db; db_allocations := db_allocations db; db_expense_lines :=
     db_expense_lines db; db_facts := v; db_audit := db_audit db; db_next := db_next db;
     db_now := db_now db; db_deferred := db_deferred db |}.

Definition set_audit (v : list AuditEvent) (db : Db) : Db :=
  {| db_users := db_users db; db_entities := db_entities db; db_books := db_books db;
     db_links := db_links db; db_accounts := db_accounts db; db_dimensions :=
     db_dimensions db; db_dimension_values := db_dimension_values db; db_periods :=
     db_periods db; db_rules := db_rules db; db_versions := db_versions db; db_rule_lines
     := db_rule_lines db; db_entries := db_entries db; db_lines := db_lines db;
     db_line_dims := db_line_dims db; db_source_links := db_source_links db; db_expenses
     := db_expenses db; db_allocations := db_allocations db; db_expense_lines :=
     db_expense_lines db; db_facts := db_facts db; db_audit := v; db_next := db_next db;
     db_now := db_now db; db_deferred := db_deferred db |}.

Definition set_next (v : positive) (db : Db) : Db :=
  {| db_users := db_users db; db_entities := db_entities db; db_books := db_books db;
     db_links := db_links db; db_accounts := db_accounts db; db_dimensions :=
     db_dimensions db; db_dimension_values := db_dimension_values db; db_periods :=
     db_periods db; db_rules := db_rules db; db_versions := db_versions db; db_rule_lines
     := db_rule_lines db; db_entries := db_entries db; db_lines := db_lines db;
     db_line_dims := db_line_dims db; db_source_links := db_source_links db; db_expenses
     := db_expenses db; db_allocations := db_allocations db; db_expense_lines :=
     db_expense_lines db; db_facts := db_facts db; db_audit := db_audit db; db_next := v;
     db_now := db_now db; db_deferred := db_deferred db |}.

Definition set_now (v : Z) (db : Db) : Db :=
  {| db_users := db_users db; db_entities := db_entities db; db_books := db_books db;
     db_links := db_links db; db_accounts := db_accounts db; db_dimensions :=
     db_dimensions db; db_dimension_values := db_dimension_values db; db_periods :=
     db_periods db; db_rules := db_rules db; db_versions := db_versions db; db_rule_lines
     := db_rule_lines db; db_entries := db_entries db; db_lines := db_lines db;
     db_line_dims := db_line_dims db; db_source_links := db_source_links db; db_expenses
     := db_expenses db; db_allocations := db_allocations db; db_expense_lines :=
     db_expense_lines db; db_facts := db_facts db; db_audit := db_audit db; db_next :=
     db_next db; db_now := v; db_deferred := db_deferred db |}.

Definition set_deferred (v : list uuid) (db : Db) : Db :=
  {| db_users := db_users db; db_entities := db_entities db; db_books := db_books db;
     db_links := db_links db; db_accounts := db_accounts db; db_dimensions :=
     db_dimensions db; db_dimension_values := db_dimension_values db; db_periods :=
     db_periods db; db_rules := db_rules db; db_versions := db_versions db; db_rule_lines
     := db_rule_lines db; db_entries := db_entries db; db_lines := db_lines db;
     db_line_dims := db_line_dims db; db_source_links := db_source_links db; db_expenses
     := db_expenses db; db_allocations := db_allocations db; db_expense_lines :=
     db_expense_lines db; db_facts := db_facts db; db_audit := db_audit db; db_next :=
     db_next db; db_now := db_now db; db_deferred := v |}.

(** ** Queries *)

(** [findFirst] and [select ... limit 1] over a table, in insertion order. *)
Definition find_row {A} (p : A -> bool) (rows : list A) : option A := List.find p rows.

(** [update ... set ... where p] *)
Definition update_rows {A} (p : A -> bool) (f : A -> A) (rows : list A) : list A :=
  map (fun r => if p r then f r else r) rows.

(** Stable ascending sort ([order by]) on an integer key. *)
Fixpoint insert_by {A} (key : A -> Z) (x : A) (l : list A) : list A :=
  match l with
  | [] => [x]
  | y :: l' => if key x <=? key y then x :: l else y :: insert_by key x l'
  end.
Definition order_by {A} (key : A -> Z) (l : list A) : list A :=
  foldr (insert_by key) [] l.

Definition opt_eqb {A} `{EqDecision A} (x : option A) (y : A) : bool :=
  bool_decide (x = Some y).

Lemma find_row_some {A} (p : A -> bool) rows r :
  find_row p rows = Some r -> r ∈ rows /\ p r = true.
Proof. intros [H1 H2]%find_some. split; [by apply list_elem_of_In | done]. Qed.

Lemma find_row_none {A} (p : A -> bool) rows :
  find_row p rows = None -> forall r, r ∈ rows -> p r = false.
Proof. intros H r Hr. eapply find_none; [exact H | by apply list_elem_of_In]. Qed.

Lemma find_row_app_new {A} (p : A -> bool) rows r :
  (forall x, x ∈ rows -> p x = false) -> p r = true ->
  find_row p (rows ++ [r]) = Some r.
Proof.
  intros Hold Hr. unfold find_row. induction rows as [|x rows IH]; simpl.
  - by rewrite Hr.
  - rewrite (Hold x); [|set_solver]. apply IH. intros y Hy. apply Hold. set_solver.
Qed.

Lemma insert_by_perm {A} (key : A -> Z) x l : insert_by key x l ≡ₚ x :: l.
Proof.
  induction l as [|y l IH]; simpl; [done|]. destruct (key x <=? key y); [done|].
  rewrite IH. apply Permutation_swap.
Qed.

Lemma order_by_perm {A} (key : A -> Z) l : order_by key l ≡ₚ l.
Proof. induction l as [|x l IH]; simpl; [done|]. by rewrite insert_by_perm, IH. Qed.
