(* ===== verification/Ledger.v ===== *)
(** * The statements the services run

    One definition per kind of [insert] and [update] the accounting services
    issue, with what PostgreSQL does to it: generated identifiers, [CHECK],
    [UNIQUE], exclusion and foreign-key constraints of
    [db/src/schema/accounting.ts], and the triggers and exclusion constraints
    of migrations 0009 and 0010 (balance at commit, immutability of posted
    entries, of their lines and of referenced rule versions, the fiscal-period
    guard).  A violated constraint is [SqlError] with its SQLSTATE code. *)
From S2P Require Import Prelude Decimal Calendar Store Schema.

Open Scope Z_scope.

Abbreviation run := (St Db) (only parsing).

(** ** Transactions *)

(** Statuses whose lines are in the books ([LEDGER_VISIBLE_ENTRY_STATUSES]). *)
Definition in_books (s : EntryStatus) : bool :=
  match s with EntryPosted | EntryReversed => true | _ => false end.

Definition entry_lines (db : Db) (e : uuid) : list JournalLine :=
  filter (fun l => jl_journalEntryId l = e) (db_lines db).

Definition currency_total (c : string) (ls : list JournalLine) : Z :=
  sumZ (jl_amount <$> filter (fun l => jl_currency l = c) ls).
Definition functional_total (c : string) (ls : list JournalLine) : Z :=
  sumZ (jl_functionalAmount <$> filter (fun l => jl_functionalCurrency l = c) ls).

(** What trigger [loxep_journal_entry_balanced] demands of an entry's lines. *)
Definition lines_balanced (ls : list JournalLine) : bool :=
  match ls with [] => false | _ => true end
  && forallb (fun l => currency_total (jl_currency l) ls =? 0) ls
  && forallb (fun l => functional_total (jl_functionalCurrency l) ls =? 0) ls.

Definition find_entry (db : Db) (id : uuid) : option JournalEntry :=
  find_row (fun e => bool_decide (je_id e = id)) (db_entries db).

Definition balance_trigger (db : Db) (target : uuid) : bool :=
  match find_entry db target with
  | None => true
  | Some e => negb (in_books (je_status e)) || lines_balanced (entry_lines db target)
  end.

Definition begin_tx (db : Db) : Db := set_deferred [] (set_now (db_now db + 1) db).
Definition commit_check (db : Db) : bool := forallb (balance_trigger db) (db_deferred db).

(** [db.transaction(body)]: an exception restores the store, and so does a
    deferred trigger that fails at commit. *)
Definition transaction {A} (body : run A) : run A := fun db =>
  match body (begin_tx db) with
  | (Ok a, db') => if commit_check db' then (Ok a, set_deferred [] db')
                   else (Throw (SqlError "P0001"), db)
  | (Throw e, _) => (Throw e, db)
  end.

(** ** Building blocks *)
Definition ensure (b : bool) (code : string) : run unit :=
  if b then mret tt else st_throw (SqlError code).

(** [defaultRandom()] *)
Definition next_id : run uuid := fun db =>
  (Ok (db_next db), set_next (Pos.succ (db_next db)) db).

(** A decimal string stored into [numeric(20, 6)]. *)
Definition numeric_in (s : string) : run Z :=
  match toUnits s with
  | Ok z => if Z.abs z <? 10 ^ 20 then mret z else st_throw (SqlError "22003")
  | Throw _ => st_throw (SqlError "22P02")
  end.

Definition numeric_in_opt (s : option string) : run (option Z) :=
  match s with None => mret None | Some s => z ← numeric_in s; mret (Some z) end.

(** What an [integer] column holds. *)
Definition int4 (n : Z) : bool := (- 2 ^ 31 <=? n) && (n <? 2 ^ 31).

(** A sum cast to [numeric(20, 6)]. *)
Definition numeric_cast (z : Z) : run Z :=
  if Z.abs z <? 10 ^ 20 then mret z else st_throw (SqlError "22003").

(** A string literal cast to [date]. *)
Definition date_in (t : date) : run date :=
  if valid_date t then mret t else st_throw (SqlError "22008").

(** [dateLiteral] of [sql.ts], evaluated by a statement: the shape is checked
    by the service, the day by PostgreSQL. *)
Definition dateLiteral (t : date) : run date :=
  if iso_shape t then date_in t else st_throw AccountingValidationError.

Definition user_exists (db : Db) (u : option string) : bool :=
  match u with None => true | Some u => bool_decide (u ∈ db_users db) end.
Definition exists_id {A} (f : A -> uuid) (id : uuid) (rows : list A) : bool :=
  existsb (fun r => bool_decide (f r = id)) rows.
Definition exists_opt {A} (f : A -> uuid) (id : option uuid) (rows : list A) : bool :=
  match id with None => true | Some id => exists_id f id rows end.

(** ** [accounting_books] *)
Definition book_checks (b : AccountingBook) : bool :=
  (1 <=? bk_fiscalYearStartMonth b) && (bk_fiscalYearStartMonth b <=? 12) &&
  (1 <=? bk_fiscalYearStartDay b) && (bk_fiscalYearStartDay b <=? 31) &&
  (0 <? bk_nextEntryNumber b).

Definition insertBook (values : uuid -> Z -> AccountingBook) : run AccountingBook :=
  id ← next_id;
  db ← st_get;
  let row := values id (db_now db) in
  _ ← ensure (book_checks row) "23514";
  _ ← ensure (negb (exists_id bk_id id (db_books db)) &&
              forallb (fun r => bool_decide (bk_code r <> bk_code row)) (db_books db)) "23505";
  _ ← ensure (user_exists db (bk_createdByUserId row)) "23503";
  _ ← st_modify (fun db => set_books (db_books db ++ [row]) db);
  mret row.

(** [update accounting_books set ... where id = id]; no statement of the
    services changes a book's code or its references. *)
Definition updateBook (id : uuid) (f : AccountingBook -> AccountingBook) : run unit :=
  db ← st_get;
  let p b := bool_decide (bk_id b = id) in
  _ ← ensure (forallb (fun b => negb (p b) || book_checks (f b)) (db_books db)) "23514";
  st_modify (fun db => set_books (update_rows p f (db_books db)) db).

(** ** [book_entity_links] *)
Definition ranges_overlap (f1 : date) (t1 : option date) (f2 : date) (t2 : option date) : bool :=
  match t2 with None => true | Some t2 => f1 <=? t2 end
  && match t1 with None => true | Some t1 => f2 <=? t1 end.

Definition link_checks (l : BookEntityLink) : bool :=
  match lk_effectiveTo l with None => true | Some t => lk_effectiveFrom l <=? t end.

(** [book_entity_links_primary_no_overlap] *)
Definition links_conflict (l k : BookEntityLink) : bool :=
  bool_decide (lk_linkRole l = PostingPrimary) && bool_decide (lk_linkRole k = PostingPrimary)
  && bool_decide (lk_economicEntityId l = lk_economicEntityId k)
  && ranges_overlap (lk_effectiveFrom l) (lk_effectiveTo l)
       (lk_effectiveFrom k) (lk_effectiveTo k).

Definition insertLink (values : uuid -> Z -> BookEntityLink) : run BookEntityLink :=
  id ← next_id;
  db ← st_get;
  let row := values id (db_now db) in
  _ ← ensure (link_checks row) "23514";
  _ ← ensure (negb (exists_id lk_id id (db_links db))) "23505";
  _ ← ensure (forallb (fun k => negb (links_conflict k row)) (db_links db)) "23P01";
  _ ← ensure (exists_id bk_id (lk_accountingBookId row) (db_books db)
              && exists_id ent_id (lk_economicEntityId row) (db_entities db)
              && user_exists db (lk_createdByUserId row)) "23503";
  _ ← st_modify (fun db => set_links (db_links db ++ [row]) db);
  mret row.

Definition updateLink (id : uuid) (f : BookEntityLink -> BookEntityLink) : run unit :=
  db ← st_get;
  let p l := bool_decide (lk_id l = id) in
  _ ← ensure (forallb (fun l => negb (p l) || link_checks (f l)) (db_links db)) "23514";
  _ ← ensure (forallb (fun l => negb (p l) ||
                 forallb (fun k => p k || negb (links_conflict k (f l))) (db_links db))
               (db_links db)) "23P01";
  st_modify (fun db => set_links (update_rows p f (db_links db)) db).

(** ** [ledger_accounts] *)
Definition account_checks (a : LedgerAccount) : bool :=
  bool_decide (la_parentAccountId a <> Some (la_id a)).

Definition accounts_conflict (a b : LedgerAccount) : bool :=
  bool_decide (la_accountingBookId a = la_accountingBookId b) &&
  (bool_decide (la_code a = la_code b) ||
   (bool_decide (la_systemKey a <> None) && bool_decide (la_systemKey a = la_systemKey b))).

Definition account_fks (db : Db) (a : LedgerAccount) : bool :=
  exists_id bk_id (la_accountingBookId a) (db_books db) &&
  match la_parentAccountId a with
  | None => true
  | Some p => existsb (fun r => bool_decide (la_id r = p)
                && bool_decide (la_accountingBookId r = la_accountingBookId a)) (db_accounts db)
  end.

Definition insertAccount (values : uuid -> Z -> LedgerAccount) : run LedgerAccount :=
  id ← next_id;
  db ← st_get;
  let row := values id (db_now db) in
  _ ← ensure (account_checks row) "23514";
  _ ← ensure (negb (exists_id la_id id (db_accounts db)) &&
              forallb (fun r => negb (accounts_conflict r row)) (db_accounts db)) "23505";
  _ ← ensure (account_fks db row) "23503";
  _ ← st_modify (fun db => set_accounts (db_accounts db ++ [row]) db);
  mret row.

Definition updateAccount (id : uuid) (f : LedgerAccount -> LedgerAccount) : run unit :=
  db ← st_get;
  let p a := bool_decide (la_id a = id) in
  _ ← ensure (forallb (fun a => negb (p a) || account_checks (f a)) (db_accounts db)) "23514";
  _ ← ensure (forallb (fun a => negb (p a) ||
                 forallb (fun b => p b || negb (accounts_conflict b (f a))) (db_accounts db))
               (db_accounts db)) "23505";
  _ ← ensure (forallb (fun a => negb (p a) || account_fks db (f a)) (db_accounts db)) "23503";
  st_modify (fun db => set_accounts (update_rows p f (db_accounts db)) db).

(** ** [fiscal_periods] *)
Definition periods_overlap (p q : FiscalPeriod) : bool :=
  bool_decide (fp_accountingBookId p = fp_accountingBookId q)
  && (fp_startsOn p <=? fp_endsOn q) && (fp_startsOn q <=? fp_endsOn p).

(** [insert ... on conflict on constraint fiscal_periods_book_year_sequence_uq
    do nothing returning id], one row. *)
Definition insertPeriodOnConflict (values : uuid -> Z -> FiscalPeriod) : run (option FiscalPeriod) :=
  id ← next_id;
  db ← st_get;
  let row := values id (db_now db) in
  _ ← ensure (fp_startsOn row <=? fp_endsOn row) "23514";
  if existsb (fun r => bool_decide (fp_accountingBookId r = fp_accountingBookId row)
                && (fp_fiscalYear r =? fp_fiscalYear row)
                && (fp_sequence r =? fp_sequence row)) (db_periods db)
  then mret None
  else
    _ ← ensure (negb (exists_id fp_id id (db_periods db)) &&
          forallb (fun r => negb (bool_decide (fp_accountingBookId r = fp_accountingBookId row)
                               && bool_decide (fp_periodCode r = fp_periodCode row)))
            (db_periods db)) "23505";
    _ ← ensure (forallb (fun r => negb (periods_overlap r row)) (db_periods db)) "23P01";
    _ ← ensure (exists_id bk_id (fp_accountingBookId row) (db_books db)) "23503";
    _ ← st_modify (fun db => set_periods (db_periods db ++ [row]) db);
    mret (Some row).

(** The columns [setStatus] assigns. *)
Definition period_set_status (st : PeriodStatus) (closedAt : option Z)
    (closedBy : option string) (note : option string) (now : Z) (p : FiscalPeriod) : FiscalPeriod :=
  {| fp_id := fp_id p; fp_accountingBookId := fp_accountingBookId p;
     fp_periodCode := fp_periodCode p; fp_fiscalYear := fp_fiscalYear p;
     fp_sequence := fp_sequence p; fp_startsOn := fp_startsOn p; fp_endsOn := fp_endsOn p;
     fp_status := st; fp_closedAt := closedAt; fp_closedByUserId := closedBy;
     fp_note := note; fp_createdAt := fp_createdAt p; fp_updatedAt := now |}.

Definition updatePeriodStatus (id : uuid) (st : PeriodStatus) (closedAt : option Z)
    (closedBy : option string) (note : FiscalPeriod -> option string) : run unit :=
  db ← st_get;
  let p r := bool_decide (fp_id r = id) in
  _ ← ensure (user_exists db closedBy) "23503";
  st_modify (fun db => set_periods
    (update_rows p (fun r => period_set_status st closedAt closedBy (note r) (db_now db) r)
       (db_periods db)) db).

(** ** [journal_entries] *)

(** The row with the two columns the immutability trigger exempts blanked. *)
Definition entry_frozen (e : JournalEntry) : JournalEntry :=
  {| je_id := je_id e; je_accountingBookId := je_accountingBookId e;
     je_entryNumber := je_entryNumber e; je_fiscalPeriodId := je_fiscalPeriodId e;
     je_entryDate := je_entryDate e; je_status := EntryPosted;
     je_entrySource := je_entrySource e; je_postingKey := je_postingKey e;
     je_postingRuleVersionId := je_postingRuleVersionId e;
     je_sourceFactType := je_sourceFactType e; je_sourceFactId := je_sourceFactId e;
     je_sourceFactFingerprint := je_sourceFactFingerprint e;
     je_reversesEntryId := je_reversesEntryId e; je_isBackdated := je_isBackdated e;
     je_description := je_description e; je_memo := je_memo e;
     je_postedAt := je_postedAt e; je_postedByUserId := je_postedByUserId e;
     je_createdByUserId := je_createdByUserId e; je_createdAt := je_createdAt e;
     je_updatedAt := 0 |}.

(** [loxep_journal_entries_immutable], on update. *)
Definition entry_update_allowed (old new : JournalEntry) : bool :=
  bool_decide (je_status old = EntryDraft)
  || (bool_decide (je_status old = EntryPosted) && bool_decide (je_status new = EntryReversed)
      && bool_decide (entry_frozen new = entry_frozen old)).

(** [loxep_journal_entries_period_guard]; [old] is [None] on insert. *)
Definition period_guard (db : Db) (old : option JournalEntry) (new : JournalEntry) : bool :=
  if negb (in_books (je_status new)) then true
  else if match old with
          | Some o => in_books (je_status o)
                      && (je_entryDate o =? je_entryDate new)
                      && bool_decide (je_fiscalPeriodId o = je_fiscalPeriodId new)
          | None => false
          end then true
  else match find_row (fun p => opt_eqb (je_fiscalPeriodId new) (fp_id p)) (db_periods db) with
       | None => false
       | Some p =>
           (fp_startsOn p <=? je_entryDate new) && (je_entryDate new <=? fp_endsOn p)
           && negb (bool_decide (fp_status p = PeriodClosed) || bool_decide (fp_status p = PeriodLocked))
           && negb (bool_decide (fp_status p = PeriodSoftClosed) && negb (je_isBackdated new))
       end.

Definition is_some {A} (o : option A) : bool := match o with Some _ => true | None => false end.

(** The [CHECK] constraints, and that a [date] column holds a date. *)
Definition entry_checks (e : JournalEntry) : bool :=
  eqb (bool_decide (je_entrySource e = SourcePostingRule)) (is_some (je_postingRuleVersionId e))
  && (negb (in_books (je_status e)) ||
      (is_some (je_entryNumber e) && is_some (je_fiscalPeriodId e) && is_some (je_postedAt e)))
  && bool_decide (je_reversesEntryId e <> Some (je_id e))
  && eqb (is_some (je_sourceFactType e)) (is_some (je_sourceFactId e))
  && valid_date (je_entryDate e).

(** Same posting key, or same number in the same book. *)
Definition entries_conflict (e f : JournalEntry) : bool :=
  (is_some (je_postingKey e) && bool_decide (je_postingKey e = je_postingKey f))
  || (bool_decide (je_accountingBookId e = je_accountingBookId f)
      && is_some (je_entryNumber e) && bool_decide (je_entryNumber e = je_entryNumber f)).

Definition entry_fks (db : Db) (e : JournalEntry) : bool :=
  exists_id bk_id (je_accountingBookId e) (db_books db)
  && match je_fiscalPeriodId e with
     | None => true
     | Some p => existsb (fun r => bool_decide (fp_id r = p)
                   && bool_decide (fp_accountingBookId r = je_accountingBookId e)) (db_periods db)
     end
  && exists_opt je_id (je_reversesEntryId e) (db_entries db)
  && exists_opt pv_id (je_postingRuleVersionId e) (db_versions db)
  && user_exists db (je_postedByUserId e) && user_exists db (je_createdByUserId e).

Definition insertJournalEntry (values : uuid -> Z -> JournalEntry) : run JournalEntry :=
  id ← next_id;
  db ← st_get;
  let row := values id (db_now db) in
  _ ← ensure (period_guard db None row) "P0001";
  _ ← ensure (entry_checks row) "23514";
  _ ← ensure (negb (exists_id je_id id (db_entries db)) &&
              forallb (fun r => negb (entries_conflict r row)) (db_entries db)) "23505";
  _ ← ensure (entry_fks db row) "23503";
  _ ← st_modify (fun db => set_deferred (db_deferred db ++ [id])
                            (set_entries (db_entries db ++ [row]) db));
  mret row.

(** [update journal_entries set ... where id = id] *)
Definition updateJournalEntry (id : uuid) (f : JournalEntry -> JournalEntry) : run unit :=
  db ← st_get;
  let p e := bool_decide (je_id e = id) in
  _ ← ensure (forallb (fun e => negb (p e) ||
          (entry_update_allowed e (f e) && period_guard db (Some e) (f e))) (db_entries db)) "P0001";
  _ ← ensure (forallb (fun e => negb (p e) || entry_checks (f e)) (db_entries db)) "23514";
  _ ← ensure (forallb (fun e => negb (p e) ||
          forallb (fun k => p k || negb (entries_conflict k (f e))) (db_entries db))
        (db_entries db)) "23505";
  _ ← ensure (forallb (fun e => negb (p e) || entry_fks db (f e)) (db_entries db)) "23503";
  st_modify (fun db => set_deferred (db_deferred db ++ [id])
                        (set_entries (update_rows p f (db_entries db)) db)).

(** ** [journal_lines]

    A line number is one more than a position in the caller's list, or copied
    from such a line: that it fits the [integer] column is not asked here. *)

(** [loxep_journal_lines_immutable], on insert. *)
Definition line_insert_allowed (db : Db) (l : JournalLine) : bool :=
  match find_entry db (jl_journalEntryId l) with
  | None => true
  | Some e => bool_decide (je_status e = EntryDraft)
  end.

Definition line_checks (l : JournalLine) : bool :=
  negb (jl_amount l =? 0) && (0 <? jl_lineNumber l) && (0 <? jl_fxRate l)
  && eqb (bool_decide (jl_currency l = jl_functionalCurrency l))
         (bool_decide (jl_fxRateSource l = FxUnity)).

Definition line_fks (db : Db) (l : JournalLine) : bool :=
  existsb (fun e => bool_decide (je_id e = jl_journalEntryId l)
             && bool_decide (je_accountingBookId e = jl_accountingBookId l)) (db_entries db)
  && existsb (fun a => bool_decide (la_id a = jl_ledgerAccountId l)
             && bool_decide (la_accountingBookId a = jl_accountingBookId l)) (db_accounts db)
  && exists_opt ent_id (jl_economicEntityId l) (db_entities db).

Definition insertJournalLineRow (values : uuid -> Z -> JournalLine) : run JournalLine :=
  id ← next_id;
  db ← st_get;
  let row := values id (db_now db) in
  _ ← ensure (line_insert_allowed db row) "P0001";
  _ ← ensure (line_checks row) "23514";
  _ ← ensure (negb (exists_id jl_id id (db_lines db)) &&
              forallb (fun r => negb (bool_decide (jl_journalEntryId r = jl_journalEntryId row)
                                      && (jl_lineNumber r =? jl_lineNumber row)))
                (db_lines db)) "23505";
  _ ← st_modify (fun db => set_deferred (db_deferred db ++ [jl_journalEntryId row])
                            (set_lines (db_lines db ++ [row]) db));
  mret row.

(** One statement for several rows: the foreign keys are checked at its end. *)
Definition insertJournalLines (values : list (uuid -> Z -> JournalLine)) : run (list JournalLine) :=
  rows ← st_mapM insertJournalLineRow values;
  db ← st_get;
  _ ← ensure (forallb (line_fks db) rows) "23503";
  mret rows.

(** ** [journal_line_dimensions] *)
Definition insertLineDimensionRow (row : JournalLineDimension) : run unit :=
  db ← st_get;
  _ ← ensure (forallb (fun r => negb (bool_decide (ld_journalLineId r = ld_journalLineId row)
                                 && bool_decide (ld_dimensionId r = ld_dimensionId row)))
                (db_line_dims db)) "23505";
  st_modify (fun db => set_line_dims (db_line_dims db ++ [row]) db).

Definition insertLineDimensions (rows : list JournalLineDimension) : run unit :=
  _ ← st_mapM insertLineDimensionRow rows;
  db ← st_get;
  ensure (forallb (fun r => exists_id jl_id (ld_journalLineId r) (db_lines db)
                    && exists_id dm_id (ld_dimensionId r) (db_dimensions db)
                    && exists_id dv_id (ld_dimensionValueId r) (db_dimension_values db)) rows)
    "23503".

(** ** [journal_entry_source_links], [on conflict do nothing] *)
Definition insertSourceLinkRow (values : uuid -> Z -> JournalEntrySourceLink) : run unit :=
  id ← next_id;
  db ← st_get;
  let row := values id (db_now db) in
  if exists_id sl_id id (db_source_links db) ||
     existsb (fun r => bool_decide (sl_journalEntryId r = sl_journalEntryId row)
               && bool_decide (sl_sourceFactType r = sl_sourceFactType row)
               && bool_decide (sl_sourceFactId r = sl_sourceFactId row)
               && bool_decide (sl_role r = sl_role row)) (db_source_links db)
  then mret tt
  else
    _ ← ensure (exists_id je_id (sl_journalEntryId row) (db_entries db)) "23503";
    st_modify (fun db => set_source_links (db_source_links db ++ [row]) db).

(** ** [audit_events] ([domain/src/audit.ts]) *)
Definition audit_append (e : AuditEvent) : run unit :=
  st_modify (fun db => set_audit (db_audit db ++ [e]) db).
