(* ===== verification/LedgerFacts.v ===== *)
(** * What the database itself guarantees

    [ledger_ok] is the invariant of the accounting tables, and [evolves] says
    how they may change: entries that are in the books stay, unaltered but for
    the [posted -> reversed] stamp, with the same lines.  Every statement of
    [Ledger] preserves the first and respects the second, and so does every
    transaction built from them; the services' theorems follow by closure. *)
From S2P Require Import Prelude Calendar Store Schema Ledger.

Open Scope Z_scope.

(** ** Tables *)
Lemma update_rows_elem {A} (p : A -> bool) f rows y :
  y ∈ update_rows p f rows <-> exists x, x ∈ rows /\ y = if p x then f x else x.
Proof. unfold update_rows. rewrite list_elem_of_fmap. naive_solver. Qed.

Lemma update_rows_keys {A B} (key : A -> B) (p : A -> bool) f rows :
  (forall x, key (f x) = key x) -> key <$> update_rows p f rows = key <$> rows.
Proof.
  intros Hk. induction rows as [|x rows IH]; csimpl; [done|].
  rewrite IH. destruct (p x); [by rewrite Hk | done].
Qed.

Lemma update_rows_none {A} (p : A -> bool) f rows :
  (forall x, x ∈ rows -> p x = false) -> update_rows p f rows = rows.
Proof.
  induction rows as [|x rows IH]; simpl; [done|]. intros H.
  rewrite (H x) by set_solver. rewrite IH; [done|]. intros y Hy. apply H. set_solver.
Qed.

Lemma update_rows_app {A} (p : A -> bool) f l k :
  update_rows p f (l ++ k) = update_rows p f l ++ update_rows p f k.
Proof. apply map_app. Qed.

Lemma update_rows_grows {A} (R : relation A) `{!Reflexive R} (p : A -> bool) f rows :
  (forall r, r ∈ rows -> p r = true -> R r (f r)) -> grows R rows (update_rows p f rows).
Proof. intros H. apply grows_fmap. intros r Hr. destruct (p r) eqn:E; [auto|done]. Qed.

Lemma exists_id_false {A} (f : A -> uuid) id rows :
  exists_id f id rows = false <-> id ∉ (f <$> rows).
Proof.
  unfold exists_id. rewrite <- not_true_iff_false, existsb_exists, list_elem_of_fmap.
  setoid_rewrite bool_decide_eq_true. setoid_rewrite <- list_elem_of_In. naive_solver.
Qed.

Lemma exists_id_true {A} (f : A -> uuid) id rows :
  exists_id f id rows = true <-> exists r, r ∈ rows /\ f r = id.
Proof.
  unfold exists_id. rewrite existsb_exists.
  setoid_rewrite bool_decide_eq_true. by setoid_rewrite <- list_elem_of_In.
Qed.

Lemma NoDup_keys_inj {A B} (key : A -> B) (l : list A) x y :
  NoDup (key <$> l) -> x ∈ l -> y ∈ l -> key x = key y -> x = y.
Proof.
  induction l as [|z l IH]; [set_solver|]. csimpl. rewrite NoDup_cons.
  intros [Hz Hl] Hx Hy E.
  apply elem_of_cons in Hx as [->|Hx], Hy as [->|Hy]; [done|..|by apply IH].
  - destruct Hz. rewrite E. apply list_elem_of_fmap. eauto.
  - destruct Hz. rewrite <- E. apply list_elem_of_fmap. eauto.
Qed.

Lemma NoDup_keys_snoc {A B} (key : A -> B) (l : list A) x :
  NoDup (key <$> l ++ [x]) <-> NoDup (key <$> l) /\ key x ∉ (key <$> l).
Proof.
  rewrite fmap_app, NoDup_app. csimpl. split.
  - intros (H1 & H2 & _). split; [done|]. intros Hx. apply (H2 _ Hx). set_solver.
  - intros [H1 H2]. split; [done|]. split; [set_solver|]. apply NoDup_singleton.
Qed.

(** ** Inverting the primitive checks *)
Lemma forallb_elem {A} (p : A -> bool) l :
  forallb p l = true <-> forall x, x ∈ l -> p x = true.
Proof. rewrite forallb_forall. by setoid_rewrite list_elem_of_In. Qed.

Lemma existsb_elem {A} (p : A -> bool) l :
  existsb p l = true <-> exists x, x ∈ l /\ p x = true.
Proof. rewrite existsb_exists. by setoid_rewrite list_elem_of_In. Qed.

Lemma ensure_inv b c db u db' :
  ensure b c db = (Ok u, db') -> b = true /\ db' = db.
Proof. destruct b; simpl; [intros [= _ <-]; done | intros [=]]. Qed.

Lemma next_id_inv db id db' :
  next_id db = (Ok id, db') -> id = db_next db /\ db' = set_next (Pos.succ id) db.
Proof. by intros [= <- <-]. Qed.

Lemma numeric_in_inv s db z db' :
  numeric_in s db = (Ok z, db') -> Decimal.toUnits s = Ok z /\ Z.abs z < 10 ^ 20 /\ db' = db.
Proof.
  unfold numeric_in. destruct (Decimal.toUnits s) as [y|e]; [|intros [=]].
  destruct (Z.ltb_spec (Z.abs y) (10 ^ 20)); intros [= <- <-]; done.
Qed.

Lemma numeric_in_reads s : reads (numeric_in s).
Proof. unfold numeric_in. solve_respects. Qed.
Lemma numeric_in_opt_reads s : reads (numeric_in_opt s).
Proof. unfold numeric_in_opt. solve_respects. apply numeric_in_reads. Qed.
Lemma date_in_reads t : reads (date_in t).
Proof. unfold date_in. solve_respects. Qed.
Lemma dateLiteral_reads t : reads (dateLiteral t).
Proof. unfold dateLiteral, date_in. solve_respects. Qed.

(** A literal that evaluates is a valid date. *)
Lemma dateLiteral_inv t db t' db' :
  dateLiteral t db = (Ok t', db') -> valid_date t = true /\ t' = t /\ db' = db.
Proof.
  unfold dateLiteral, date_in. destruct (iso_shape t); [|intros [=]].
  destruct (valid_date t); [by intros [= <- <-]|intros [=]].
Qed.

Lemma dateLiteral_valid t db : valid_date t = true -> dateLiteral t db = (Ok t, db).
Proof.
  intros Hv. unfold dateLiteral, date_in. rewrite Hv.
  unfold valid_date in Hv. by destruct (iso_shape t).
Qed.

Lemma date_in_inv t db t' db' :
  date_in t db = (Ok t', db') -> valid_date t = true /\ t' = t /\ db' = db.
Proof. unfold date_in. destruct (valid_date t); [by intros [= <- <-]|intros [=]]. Qed.

Lemma numeric_cast_reads z : reads (numeric_cast z).
Proof. unfold numeric_cast. solve_respects. Qed.
Lemma ensure_reads b c : reads (ensure b c).
Proof. unfold ensure. solve_respects. Qed.
#[export] Hint Resolve numeric_in_reads numeric_in_opt_reads date_in_reads dateLiteral_reads
  ensure_reads numeric_cast_reads : store.

(** [inv_stmt] also inverts the checks and [next_id]. *)
Ltac inv_stmt :=
  repeat (inv_st_step || match goal with
  | H : ensure _ _ _ = (Ok _, _) |- _ => apply ensure_inv in H; destruct H as [? ->]
  | H : next_id _ = (Ok _, _) |- _ => apply next_id_inv in H; destruct H as [-> ->]
  | H : (let _ := _ in _) = _ |- _ => cbv zeta in H
  | H : andb _ _ = true |- _ => apply andb_true_iff in H; destruct H
  | H : negb _ = true |- _ => apply negb_true_iff in H
  end).

(** ** The invariant *)
Record ledger_ok (db : Db) : Prop := {
  ok_entry_ids : NoDup (je_id <$> db_entries db);
  ok_line_ids : NoDup (jl_id <$> db_lines db);
  ok_account_ids : NoDup (la_id <$> db_accounts db);
  ok_period_ids : NoDup (fp_id <$> db_periods db);
  ok_link_ids : NoDup (lk_id <$> db_links db);
  (** an entry in the books whose deferred trigger is not queued balances *)
  ok_balanced e : e ∈ db_entries db -> in_books (je_status e) = true ->
    je_id e ∉ db_deferred db -> lines_balanced (entry_lines db (je_id e)) = true;
  ok_entry_checks e : e ∈ db_entries db -> entry_checks e = true;
  (** posting keys, and entry numbers of one book, are unique *)
  ok_entry_uniques e f : e ∈ db_entries db -> f ∈ db_entries db ->
    je_id e <> je_id f -> entries_conflict e f = false;
  (** an entry in the books is stamped with the period of its book and date *)
  ok_stamp e : e ∈ db_entries db -> in_books (je_status e) = true ->
    exists p, p ∈ db_periods db /\ je_fiscalPeriodId e = Some (fp_id p) /\
      fp_accountingBookId p = je_accountingBookId e /\
      fp_startsOn p <= je_entryDate e <= fp_endsOn p;
  (** a line belongs to an entry of its book and to an account of its book *)
  ok_lines l : l ∈ db_lines db -> line_checks l = true /\ line_fks db l = true;
  ok_no_overlap p q : p ∈ db_periods db -> q ∈ db_periods db ->
    fp_id p <> fp_id q -> periods_overlap p q = false;
  ok_no_double_primary k l : k ∈ db_links db -> l ∈ db_links db ->
    lk_id k <> lk_id l -> links_conflict k l = false;
}.

Definition ok_step (db db' : Db) : Prop := ledger_ok db -> ledger_ok db'.
#[export] Instance ok_step_preorder : PreOrder ok_step.
Proof. split; unfold ok_step; [intros ?; done | intros ???; auto]. Qed.

(** [e'] is [e], or [e] stamped [reversed]. *)
Definition same_or_reversed (e e' : JournalEntry) : Prop :=
  e' = e \/ (je_status e = EntryPosted /\ je_status e' = EntryReversed
             /\ entry_frozen e' = entry_frozen e).

Record evolves (db db' : Db) : Prop := {
  ev_ids : NoDup (je_id <$> db_entries db) -> NoDup (je_id <$> db_entries db');
  ev_entries e : NoDup (je_id <$> db_entries db) ->
    e ∈ db_entries db -> in_books (je_status e) = true ->
    exists e', e' ∈ db_entries db' /\ same_or_reversed e e'
      /\ entry_lines db' (je_id e) = entry_lines db (je_id e);
  ev_audit : db_audit db `prefix_of` db_audit db';
}.

Lemma entry_frozen_id e e' : entry_frozen e' = entry_frozen e -> je_id e' = je_id e.
Proof. intros H. exact (f_equal je_id H). Qed.

Lemma same_or_reversed_id e e' : same_or_reversed e e' -> je_id e' = je_id e.
Proof. intros [->|(_ & _ & H)]; [done|by apply entry_frozen_id]. Qed.

Lemma same_or_reversed_in_books e e' :
  same_or_reversed e e' -> in_books (je_status e) = true -> in_books (je_status e') = true.
Proof. by intros [->|(_ & -> & _)]. Qed.

#[export] Instance evolves_preorder : PreOrder evolves.
Proof.
  split.
  - intros db. split; [done| |done]. intros e _ He _. exists e. repeat split; [done|by left].
  - intros a b c [I1 E1 A1] [I2 E2 A2]. split; [auto| |by etrans].
    intros e Hn He Hb. destruct (E1 e Hn He Hb) as (e1 & He1 & Hs1 & Hl1).
    destruct (E2 e1 (I1 Hn) He1) as (e2 & He2 & Hs2 & Hl2).
    { by eapply same_or_reversed_in_books. }
    exists e2. split; [done|]. rewrite (same_or_reversed_id _ _ Hs1) in Hl2.
    split; [|congruence].
    destruct Hs1 as [->|(S1 & S1' & F1)]; [done|].
    destruct Hs2 as [->|(S2 & S2' & F2)]; [by right|congruence].
Qed.

(** *** Statements that leave entries, lines, periods and links alone *)
Lemma ok_frame db db' :
  db_entries db' = db_entries db -> db_lines db' = db_lines db ->
  db_periods db' = db_periods db -> db_links db' = db_links db ->
  db_accounts db' = db_accounts db -> db_entities db' = db_entities db ->
  db_deferred db' = db_deferred db -> ok_step db db'.
Proof.
  intros E1 E2 E3 E4 E5 E6 E7 [].
  assert (forall l, line_fks db' l = line_fks db l) as F.
  { intros l. unfold line_fks. by rewrite E1, E5, E6. }
  assert (forall e, entry_lines db' e = entry_lines db e) as L.
  { intros e. unfold entry_lines. by rewrite E2. }
  split; rewrite ?E1, ?E2, ?E3, ?E4, ?E5, ?E7; try done.
  - intros e. rewrite L. auto.
  - intros l. rewrite F. auto.
Qed.

Lemma evolves_frame db db' :
  db_entries db' = db_entries db -> db_lines db' = db_lines db ->
  db_audit db `prefix_of` db_audit db' -> evolves db db'.
Proof.
  intros E1 E2 A. split; rewrite ?E1; [done| |done].
  intros e _ He _. exists e. unfold entry_lines. rewrite E2.
  repeat split; [done|by left].
Qed.

(** The conjunction, so that each statement is inverted once. *)
Definition step_ok (db db' : Db) : Prop := ok_step db db' /\ evolves db db'.
#[export] Instance step_ok_preorder : PreOrder step_ok.
Proof.
  split; [intros ?; split; reflexivity|].
  intros a b c [H1 H2] [H3 H4]. split; by etrans.
Qed.

Lemma step_ok_frame db db' :
  db_entries db' = db_entries db -> db_lines db' = db_lines db ->
  db_periods db' = db_periods db -> db_links db' = db_links db ->
  db_accounts db' = db_accounts db -> db_entities db' = db_entities db ->
  db_deferred db' = db_deferred db -> db_audit db `prefix_of` db_audit db' ->
  step_ok db db'.
Proof. intros. split; [by apply ok_frame | by apply evolves_frame]. Qed.

Ltac by_frame := apply step_ok_frame; try done.

Lemma reads_step_ok {A} (m : run A) : reads m -> respects step_ok m.
Proof. apply reads_respects. apply _. Qed.
#[export] Hint Resolve reads_step_ok : store.

Lemma next_id_step_ok : respects step_ok next_id.
Proof. intros db id db' H. inv_stmt. by_frame. Qed.
#[export] Hint Resolve next_id_step_ok : store.

Lemma audit_append_step_ok e : respects step_ok (audit_append e).
Proof. intros db u db' H. unfold audit_append in H. inv_stmt. by_frame. by apply prefix_app_r. Qed.

Lemma insertBook_step_ok v : respects step_ok (insertBook v).
Proof. intros db r db' H. unfold insertBook in H. inv_stmt. by_frame. Qed.

Lemma updateBook_step_ok id f : respects step_ok (updateBook id f).
Proof. intros db r db' H. unfold updateBook in H. inv_stmt. by_frame. Qed.

Lemma insertLineDimensionRow_step_ok row : respects step_ok (insertLineDimensionRow row).
Proof. intros db r db' H. unfold insertLineDimensionRow in H. inv_stmt. by_frame. Qed.

Lemma insertLineDimensions_step_ok rows : respects step_ok (insertLineDimensions rows).
Proof.
  unfold insertLineDimensions. solve_respects. apply insertLineDimensionRow_step_ok.
Qed.

Lemma insertSourceLinkRow_step_ok v : respects step_ok (insertSourceLinkRow v).
Proof.
  intros db r db' H. unfold insertSourceLinkRow in H. inv_stmt. case_match; inv_stmt; by_frame.
Qed.

(** *** Tables keyed by an identifier, with a symmetric conflict *)
Lemma table_insert {A} (key : A -> uuid) (conflict : A -> A -> bool) rows row :
  (forall x y, conflict x y = conflict y x) ->
  (forall x y, x ∈ rows -> y ∈ rows -> key x <> key y -> conflict x y = false) ->
  (forall x, x ∈ rows -> conflict x row = false) ->
  forall x y, x ∈ rows ++ [row] -> y ∈ rows ++ [row] -> key x <> key y ->
    conflict x y = false.
Proof.
  intros Hsym Hold Hnew x y Hx Hy Hk.
  apply elem_of_app in Hx as [Hx|Hx%list_elem_of_singleton];
  apply elem_of_app in Hy as [Hy|Hy%list_elem_of_singleton]; subst; auto.
  - rewrite Hsym. auto.
  - done.
Qed.

Lemma table_update {A} (key : A -> uuid) (conflict : A -> A -> bool) id f rows :
  (forall x y, conflict x y = conflict y x) ->
  (forall x, key (f x) = key x) ->
  (forall x y, x ∈ rows -> y ∈ rows -> key x <> key y -> conflict x y = false) ->
  (forall x y, x ∈ rows -> y ∈ rows -> key x = id -> key y <> id -> conflict y (f x) = false) ->
  forall x y, x ∈ update_rows (fun r => bool_decide (key r = id)) f rows ->
    y ∈ update_rows (fun r => bool_decide (key r = id)) f rows ->
    key x <> key y -> conflict x y = false.
Proof.
  intros Hsym Hk Hold Hnew x y (x0 & Hx & ->)%update_rows_elem (y0 & Hy & ->)%update_rows_elem.
  repeat case_bool_decide; rewrite ?Hk; intros Hxy.
  - congruence.
  - rewrite Hsym. apply Hnew; congruence.
  - apply Hnew; congruence.
  - by apply Hold.
Qed.

(** The guards an [update ... where id = id] evaluates on the rows it hits. *)
Lemma guarded_row {A} (key : A -> uuid) id (q : A -> bool) rows x :
  forallb (fun r => negb (bool_decide (key r = id)) || q r) rows = true ->
  x ∈ rows -> key x = id -> q x = true.
Proof.
  rewrite forallb_elem. intros H Hx Hk. specialize (H x Hx).
  by rewrite bool_decide_true in H.
Qed.

Lemma guarded_conflict {A} (key : A -> uuid) (conflict : A -> A -> bool) id f rows :
  forallb (fun r => negb (bool_decide (key r = id)) ||
    forallb (fun k => bool_decide (key k = id) || negb (conflict k (f r))) rows) rows = true ->
  forall x y, x ∈ rows -> y ∈ rows -> key x = id -> key y <> id -> conflict y (f x) = false.
Proof.
  intros H x y Hx Hy Hk Hn. pose proof (guarded_row key id _ rows x H Hx Hk) as H1.
  cbv beta in H1. rewrite forallb_elem in H1. specialize (H1 y Hy).
  rewrite bool_decide_false in H1 by done. by apply negb_true_iff.
Qed.

Lemma no_conflict_new {A} (conflict : A -> A -> bool) rows row :
  forallb (fun r => negb (conflict r row)) rows = true ->
  forall x, x ∈ rows -> conflict x row = false.
Proof. rewrite forallb_elem. intros H x Hx. apply negb_true_iff. auto. Qed.

Lemma periods_overlap_sym p q : periods_overlap p q = periods_overlap q p.
Proof.
  unfold periods_overlap.
  rewrite (bool_decide_ext _ (fp_accountingBookId q = fp_accountingBookId p)) by naive_solver.
  rewrite <- !andb_assoc. f_equal. apply andb_comm.
Qed.

Lemma ranges_overlap_sym f1 t1 f2 t2 : ranges_overlap f1 t1 f2 t2 = ranges_overlap f2 t2 f1 t1.
Proof. unfold ranges_overlap. apply andb_comm. Qed.

Lemma links_conflict_sym k l : links_conflict k l = links_conflict l k.
Proof.
  unfold links_conflict. rewrite ranges_overlap_sym. f_equal.
  rewrite (bool_decide_ext (lk_economicEntityId k = _) (lk_economicEntityId l = lk_economicEntityId k)) by naive_solver.
  f_equal. apply andb_comm.
Qed.

Lemma entries_conflict_sym e f : entries_conflict e f = entries_conflict f e.
Proof.
  unfold entries_conflict. apply eq_bool_prop_intro.
  rewrite !orb_True, !andb_True, !bool_decide_spec.
  split; intros [[H1 H2]|[[H1 H2] H3]]; rewrite ?H1, ?H2, ?H3 in *; naive_solver congruence.
Qed.

Lemma line_fks_mono db db' l :
  (forall e, e ∈ db_entries db -> exists e', e' ∈ db_entries db' /\ je_id e' = je_id e
      /\ je_accountingBookId e' = je_accountingBookId e) ->
  (forall a, a ∈ db_accounts db -> exists a', a' ∈ db_accounts db' /\ la_id a' = la_id a
      /\ la_accountingBookId a' = la_accountingBookId a) ->
  db_entities db' = db_entities db ->
  line_fks db l = true -> line_fks db' l = true.
Proof.
  intros He Ha Hn. unfold line_fks. rewrite !andb_true_iff, !existsb_elem, Hn.
  intros [[(e & Hin & E) (a & Hina & A)] ?].
  destruct (He e Hin) as (e' & ? & E1 & E2). destruct (Ha a Hina) as (a' & ? & A1 & A2).
  split; [split|done].
  - exists e'. by rewrite E1, E2.
  - exists a'. by rewrite A1, A2.
Qed.

Lemma insertAccount_step_ok v :
  (forall id now, la_id (v id now) = id) -> respects step_ok (insertAccount v).
Proof.
  intros V db r db' H. unfold insertAccount in H. inv_stmt.
  split; [|by apply evolves_frame]. intros []. split; simpl; try done.
  { apply NoDup_keys_snoc. rewrite V. split; [done|]. by apply exists_id_false. }
  intros l Hl. split; [by apply ok_lines0|]. eapply (line_fks_mono db); [..|by apply ok_lines0]; simpl.
  - eauto.
  - intros a Ha. exists a. set_solver.
  - done.
Qed.

Lemma updateAccount_step_ok id f :
  (forall a, la_id (f a) = la_id a) ->
  (forall a, la_accountingBookId (f a) = la_accountingBookId a) ->
  respects step_ok (updateAccount id f).
Proof.
  intros F1 F2 db r db' H. unfold updateAccount in H. inv_stmt.
  split; [|by apply evolves_frame]. intros []. split; simpl; try done.
  { by rewrite update_rows_keys. }
  intros l Hl. split; [by apply ok_lines0|]. eapply (line_fks_mono db); [..|by apply ok_lines0]; simpl.
  - eauto.
  - intros a Ha. eexists. split; [apply update_rows_elem; eauto|]. case_match; by rewrite ?F1, ?F2.
  - done.
Qed.

Lemma insertLink_step_ok v :
  (forall id now, lk_id (v id now) = id) -> respects step_ok (insertLink v).
Proof.
  intros V db r db' H. unfold insertLink in H. inv_stmt.
  split; [|by apply evolves_frame]. intros []. split; simpl in *; try done.
  - apply NoDup_keys_snoc. rewrite V. split; [done|]. by apply exists_id_false.
  - apply table_insert; [apply links_conflict_sym|done|].
    by apply no_conflict_new.
Qed.

Lemma updateLink_step_ok id f :
  (forall l, lk_id (f l) = lk_id l) -> respects step_ok (updateLink id f).
Proof.
  intros F db r db' H. unfold updateLink in H. inv_stmt.
  split; [|by apply evolves_frame]. intros []. split; simpl in *; try done.
  - by rewrite update_rows_keys.
  - apply table_update; [apply links_conflict_sym|done..|].
    by apply guarded_conflict.
Qed.

Lemma insertPeriodOnConflict_step_ok v :
  (forall id now, fp_id (v id now) = id) -> respects step_ok (insertPeriodOnConflict v).
Proof.
  intros V db r db' H. unfold insertPeriodOnConflict in H. inv_stmt.
  case_match; inv_stmt; [by by_frame|].
  split; [|by apply evolves_frame]. intros []. split; simpl in *; try done.
  - apply NoDup_keys_snoc. rewrite V. split; [done|]. by apply exists_id_false.
  - intros e He Hb. destruct (ok_stamp0 e He Hb) as (p & Hp & ?). exists p. set_solver.
  - apply table_insert; [apply periods_overlap_sym|done|]. by apply no_conflict_new.
Qed.

Lemma updatePeriodStatus_step_ok id st ca cb note :
  respects step_ok (updatePeriodStatus id st ca cb note).
Proof.
  intros db r db' H. unfold updatePeriodStatus in H. inv_stmt.
  split; [|by apply evolves_frame]. intros []. split; simpl in *; try done.
  - by rewrite update_rows_keys.
  - intros e He Hb. destruct (ok_stamp0 e He Hb) as (p & Hp & ?). eexists.
    split; [apply update_rows_elem; eauto|]. by case_bool_decide.
  - apply table_update; [apply periods_overlap_sym|done..|].
    intros x y Hx Hy Hxi Hyi. apply (ok_no_overlap0 y x); congruence.
Qed.

(** *** Journal entries *)
Lemma find_entry_unique db e :
  NoDup (je_id <$> db_entries db) -> e ∈ db_entries db -> find_entry db (je_id e) = Some e.
Proof.
  intros Hn He. unfold find_entry. destruct (find_row _ _) as [e'|] eqn:E.
  - apply find_row_some in E as [He' ?%bool_decide_eq_true].
    f_equal. by eapply NoDup_keys_inj.
  - apply find_row_none with (r := e) in E; [|done]. by apply bool_decide_eq_false in E.
Qed.

Lemma find_entry_some db id e : find_entry db id = Some e -> e ∈ db_entries db /\ je_id e = id.
Proof. intros [He ?%bool_decide_eq_true]%find_row_some. done. Qed.

(** A posting that passes the guard and the foreign keys carries its stamp. *)
Lemma period_guard_stamp db old e :
  NoDup (fp_id <$> db_periods db) ->
  match old with Some o => in_books (je_status o) = false | None => True end ->
  in_books (je_status e) = true -> period_guard db old e = true -> entry_fks db e = true ->
  exists p, p ∈ db_periods db /\ je_fiscalPeriodId e = Some (fp_id p) /\
    fp_accountingBookId p = je_accountingBookId e /\
    fp_startsOn p <= je_entryDate e <= fp_endsOn p.
Proof.
  intros Hn Ho Hb Hg Hf. unfold period_guard in Hg. rewrite Hb in Hg. simpl in Hg.
  assert (match old with
          | Some o => in_books (je_status o) && (je_entryDate o =? je_entryDate e)
                      && bool_decide (je_fiscalPeriodId o = je_fiscalPeriodId e)
          | None => false end = false) as Eo.
  { destruct old as [o|]; [by rewrite Ho | done]. }
  rewrite Eo in Hg. clear Eo.
  destruct (find_row _ _) as [p|] eqn:Ep; [|done].
  apply find_row_some in Ep as [Hp Hid%bool_decide_eq_true].
  rewrite !andb_true_iff, !Z.leb_le in Hg. exists p. split; [done|]. split; [done|].
  split; [|lia].
  unfold entry_fks in Hf. rewrite Hid, !andb_true_iff, existsb_elem in Hf.
  destruct Hf as [[[[[_ (r & Hr & [Hri Hrb]%andb_true_iff)] _] _] _] _].
  apply bool_decide_eq_true in Hri, Hrb. rewrite <- Hrb. f_equal.
  by eapply NoDup_keys_inj.
Qed.

Lemma insertJournalEntry_step_ok v :
  (forall id now, je_id (v id now) = id) -> respects step_ok (insertJournalEntry v).
Proof.
  intros V db r db' H. unfold insertJournalEntry in H. inv_stmt.
  set (row := v _ _) in *. split.
  - intros []. split; simpl in *; try done.
    + apply NoDup_keys_snoc. split; [done|]. unfold row. rewrite V. by apply exists_id_false.
    + intros e [He| ->%list_elem_of_singleton]%elem_of_app Hb Hd; [|set_solver].
      apply ok_balanced0; [done..|set_solver].
    + intros e [He| ->%list_elem_of_singleton]%elem_of_app; auto.
    + apply table_insert; [apply entries_conflict_sym|done|]. by apply no_conflict_new.
    + intros e [He| ->%list_elem_of_singleton]%elem_of_app Hb; [auto|].
      by eapply (period_guard_stamp (set_next (Pos.succ (db_next db)) db) None).
    + intros l Hl. split; [by apply ok_lines0|].
      eapply (line_fks_mono db); [..|by apply ok_lines0]; simpl; [|by eauto|done].
      intros e He. exists e. set_solver.
  - split; simpl; [| |done].
    + intros Hn. apply NoDup_keys_snoc. split; [done|]. unfold row. rewrite V.
      by apply exists_id_false.
    + intros e _ He _. exists e. repeat split; [set_solver|by left].
Qed.

Lemma update_allowed_in_books e e' :
  in_books (je_status e) = true -> entry_update_allowed e e' = true -> same_or_reversed e e'.
Proof.
  unfold entry_update_allowed. intros Hb [Hd|[[H1 H2]%andb_true_iff H3]%andb_true_iff]%orb_true_iff.
  - apply bool_decide_eq_true in Hd. by rewrite Hd in Hb.
  - right. by apply bool_decide_eq_true in H1, H2, H3.
Qed.

Lemma same_or_reversed_fields e e' : same_or_reversed e e' ->
  je_accountingBookId e' = je_accountingBookId e /\ je_entryDate e' = je_entryDate e /\
  je_fiscalPeriodId e' = je_fiscalPeriodId e.
Proof.
  intros [->|(_ & _ & F)]; [done|].
  exact (conj (f_equal je_accountingBookId F)
          (conj (f_equal je_entryDate F) (f_equal je_fiscalPeriodId F))).
Qed.

Lemma updateJournalEntry_step_ok id f :
  (forall e, je_id (f e) = je_id e) ->
  (forall e, je_accountingBookId (f e) = je_accountingBookId e) ->
  respects step_ok (updateJournalEntry id f).
Proof.
  intros F1 F2 db r db' H. unfold updateJournalEntry in H. inv_stmt.
  match goal with
  | G1 : forallb _ _ = true, G2 : forallb _ _ = true, G3 : forallb _ _ = true,
    G4 : forallb _ _ = true |- _ =>
      pose proof (fun e => guarded_row je_id id (fun e => entry_update_allowed e (f e) && period_guard db (Some e) (f e)) _ e G1) as Hallow;
      pose proof (fun e => guarded_row je_id id (fun e => entry_checks (f e)) _ e G2) as Hcheck;
      pose proof (fun e => guarded_row je_id id (fun e => entry_fks db (f e)) _ e G4) as Hfk;
      pose proof (guarded_conflict je_id entries_conflict id f _ G3) as Hconf
  end.
  cbv beta in *. setoid_rewrite andb_true_iff in Hallow. split.
  - intros []. split; simpl in *; try done.
    + by rewrite update_rows_keys.
    + intros e (e0 & He0 & ->)%update_rows_elem. case_bool_decide as Hi.
      * rewrite F1. set_solver.
      * intros ??. apply ok_balanced0; [done..|set_solver].
    + intros e (e0 & He0 & ->)%update_rows_elem. case_bool_decide; auto.
    + apply table_update; [apply entries_conflict_sym|done..].
    + intros e (e0 & He0 & ->)%update_rows_elem. case_bool_decide as Hi; [|by auto].
      intros Hb. destruct (Hallow e0 He0 Hi) as [Ha Hg].
      destruct (in_books (je_status e0)) eqn:Hb0.
      * apply update_allowed_in_books in Ha; [|done].
        destruct (same_or_reversed_fields _ _ Ha) as (-> & -> & ->). auto.
      * by apply (period_guard_stamp db (Some e0)); auto.
    + intros l Hl. split; [by apply ok_lines0|].
      eapply (line_fks_mono db); [..|by apply ok_lines0]; simpl; [|by eauto|done].
      intros e He. eexists. split; [apply update_rows_elem; eauto|].
      case_match; by rewrite ?F1, ?F2.
  - split; simpl; [by rewrite update_rows_keys| |done].
    intros e Hn He Hb. eexists. split; [apply update_rows_elem; eauto|]. split; [|done].
    case_bool_decide as Hi; [|by left].
    apply update_allowed_in_books; [done|]. by apply Hallow.
Qed.

(** *** Journal lines *)
Definition add_lines (next : uuid) (rows : list JournalLine) (db : Db) : Db :=
  set_next next (set_deferred (db_deferred db ++ (jl_journalEntryId <$> rows))
    (set_lines (db_lines db ++ rows) db)).

Lemma add_lines_nil db : add_lines (db_next db) [] db = db.
Proof. destruct db. unfold add_lines. cbn. by rewrite !app_nil_r. Qed.

Lemma add_lines_app n1 rows1 n2 rows2 db :
  add_lines n2 rows2 (add_lines n1 rows1 db) = add_lines n2 (rows1 ++ rows2) db.
Proof.
  unfold add_lines. rewrite fmap_app, !(assoc_L (++)). reflexivity.
Qed.

Lemma insertJournalLineRow_inv v db row db' :
  insertJournalLineRow v db = (Ok row, db') ->
  row = v (db_next db) (db_now db) /\
  db' = add_lines (Pos.succ (db_next db)) [row] db /\
  line_insert_allowed db row = true /\ line_checks row = true /\
  db_next db ∉ (jl_id <$> db_lines db).
Proof.
  intros H. unfold insertJournalLineRow in H. inv_stmt.
  split; [done|]. split; [done|]. split; [done|]. split; [done|].
  by apply exists_id_false.
Qed.

Lemma insertJournalLineRows_spec vs db rows db' :
  (forall v, v ∈ vs -> forall id now, jl_id (v id now) = id) ->
  st_mapM insertJournalLineRow vs db = (Ok rows, db') ->
  exists next, db' = add_lines next rows db /\
    (forall l, l ∈ rows -> line_checks l = true /\ line_insert_allowed db l = true) /\
    (NoDup (jl_id <$> db_lines db) -> NoDup (jl_id <$> db_lines db ++ rows)) /\
    Forall2 (fun (v : uuid -> Z -> JournalLine) l => exists id, l = v id (db_now db)) vs rows.
Proof.
  revert db rows db'. induction vs as [|v vs IH]; intros db rows db' V H; simpl in H.
  - inv_st. exists (db_next db). rewrite add_lines_nil, app_nil_r.
    repeat split; [set_solver..|done|constructor].
  - inv_st. apply insertJournalLineRow_inv in H0 as (Er & -> & Ha & Hc & Hn).
    apply IH in H1 as (next & -> & Hall & Hnd & Hf); [|set_solver]. rename a into row.
    exists next. rewrite add_lines_app. split; [done|]. cbn in Hnd, Hf. split; [|split].
    + intros l [->|Hl]%elem_of_cons; [done|]. by apply Hall.
    + intros Hd. rewrite <- (assoc_L (++)) in Hnd. apply Hnd. apply NoDup_keys_snoc.
      split; [done|]. rewrite Er, V by set_solver. done.
    + constructor; [by eexists|done].
Qed.

Lemma filter_none {A} (P : A -> Prop) `{!forall x, Decision (P x)} l :
  (forall x, x ∈ l -> ~ P x) -> filter P l = [].
Proof.
  induction l as [|x l IH]; [done|]. intros Hx.
  rewrite filter_cons_False by (apply Hx; set_solver). apply IH. set_solver.
Qed.

Lemma entry_lines_add_lines db next rows e :
  NoDup (je_id <$> db_entries db) -> e ∈ db_entries db -> in_books (je_status e) = true ->
  (forall l, l ∈ rows -> line_insert_allowed db l = true) ->
  entry_lines (add_lines next rows db) (je_id e) = entry_lines db (je_id e).
Proof.
  intros Hn He Hb Hall. unfold entry_lines. cbn. rewrite filter_app.
  rewrite (filter_none _ rows); [apply app_nil_r|].
  intros l Hl Hle. specialize (Hall l Hl).
  unfold line_insert_allowed in Hall. rewrite Hle, find_entry_unique in Hall by done.
  apply bool_decide_eq_true in Hall. by rewrite Hall in Hb.
Qed.

Lemma insertJournalLines_spec vs db rows db' :
  (forall v, v ∈ vs -> forall id now, jl_id (v id now) = id) ->
  insertJournalLines vs db = (Ok rows, db') ->
  exists next, db' = add_lines next rows db /\
    (forall l, l ∈ rows -> line_checks l = true /\ line_insert_allowed db l = true
                           /\ line_fks db l = true) /\
    (NoDup (jl_id <$> db_lines db) -> NoDup (jl_id <$> db_lines db ++ rows)) /\
    Forall2 (fun (v : uuid -> Z -> JournalLine) l => exists id, l = v id (db_now db)) vs rows.
Proof.
  intros V H. unfold insertJournalLines in H. inv_stmt.
  apply insertJournalLineRows_spec in H0 as (next & -> & Hall & Hnd & Hf); [|done].
  exists next. repeat split; try done; try (by apply Hall).
  match goal with H : forallb _ _ = true |- _ => rewrite forallb_elem in H; by apply H end.
Qed.

Lemma insertJournalLines_step_ok vs :
  (forall v, v ∈ vs -> forall id now, jl_id (v id now) = id) ->
  respects step_ok (insertJournalLines vs).
Proof.
  intros V db rows db' H.
  apply insertJournalLines_spec in H as (next & -> & Hall & Hnd & _); [|done].
  assert (forall l, l ∈ rows -> line_insert_allowed db l = true) as Hall1
    by (intros l Hl; by apply Hall).
  split.
  - intros []. split; try done.
    + by apply Hnd.
    + intros e He Hb Hd. rewrite entry_lines_add_lines by done.
      apply ok_balanced0; [done..|]. cbn in Hd. set_solver.
    + intros l Hl. apply elem_of_app in Hl as [Hl|Hl]; [by apply ok_lines0|].
      split; by apply Hall.
  - split; [done| |done].
    intros e Hn He Hb. exists e. split; [done|]. split; [by left|].
    by apply entry_lines_add_lines.
Qed.

(** ** Transactions *)
Definition committed (db : Db) : Prop := ledger_ok db /\ db_deferred db = [].

(** What a transaction, returning or throwing, may do to the store. *)
Definition tx_ok (db db' : Db) : Prop := committed db -> committed db' /\ evolves db db'.
#[export] Instance tx_ok_preorder : PreOrder tx_ok.
Proof.
  split; [intros db H; split; [done|reflexivity]|].
  intros a b c H1 H2 Ha. destruct (H1 Ha) as [Hb ?]. destruct (H2 Hb). split; [done|by etrans].
Qed.

Lemma begin_tx_step_ok db : db_deferred db = [] -> step_ok db (begin_tx db).
Proof. intros E. by_frame. Qed.

Lemma commit_ok db : ledger_ok db -> commit_check db = true -> committed (set_deferred [] db).
Proof.
  intros [] Hc. split; [|done]. split; cbn; try done.
  intros e He Hb _. destruct (decide (je_id e ∈ db_deferred db)) as [Hd|Hd]; [|by apply ok_balanced0].
  unfold commit_check in Hc. rewrite forallb_elem in Hc. specialize (Hc _ Hd).
  unfold balance_trigger in Hc. rewrite find_entry_unique, Hb in Hc by done. done.
Qed.

Lemma transaction_tx_ok {A} (body : run A) :
  respects step_ok body -> always tx_ok (transaction body).
Proof.
  intros Hb db [Hok Hd]. unfold transaction.
  destruct (body (begin_tx db)) as [[a|e] db1] eqn:E; [|split; [done|reflexivity]].
  destruct (commit_check db1) eqn:Hc; cbn; [|split; [done|reflexivity]].
  destruct (begin_tx_step_ok db Hd) as [O1 E1]. destruct (Hb _ _ _ E) as [O2 E2].
  split; [apply commit_ok; auto|]. etrans; [exact E1|]. etrans; [exact E2|].
  by apply evolves_frame.
Qed.

Lemma reads_tx_ok {A} (m : run A) : reads m -> always tx_ok m.
Proof. apply reads_always. apply _. Qed.

(** A transaction that throws leaves the store as it was. *)
Lemma transaction_throw {A} (body : run A) db e db' :
  transaction body db = (Throw e, db') -> db' = db.
Proof.
  unfold transaction. destruct (body _) as [[a|e'] db1].
  - destruct (commit_check _); [intros [=] | by intros [= _ <-]].
  - by intros [= _ <-].
Qed.

Lemma transaction_inv {A} (body : run A) db a db' :
  transaction body db = (Ok a, db') ->
  exists db1, body (begin_tx db) = (Ok a, db1) /\ commit_check db1 = true
    /\ db' = set_deferred [] db1.
Proof.
  unfold transaction. destruct (body _) as [[b|e'] db1]; [|intros [=]].
  destruct (commit_check _) eqn:Hc; [|intros [=]]. intros [= <- <-]. by exists db1.
Qed.

(** ** A store to start from: an installation with users and books, and no
    activity yet. *)
Definition installation (users : list string) (entities : list EconomicEntity)
    (books : list AccountingBook) : Db :=
  {| db_users := users; db_entities := entities; db_books := books; db_links := [];
     db_accounts := []; db_dimensions := []; db_dimension_values := []; db_periods := [];
     db_rules := []; db_versions := []; db_rule_lines := []; db_entries := []; db_lines := [];
     db_line_dims := []; db_source_links := []; db_expenses := []; db_allocations := [];
     db_expense_lines := [];
     db_facts := {| ft_orders := []; ft_orderFees := []; ft_orderRefunds := [];
                    ft_orderLines := []; ft_acquisitions := []; ft_acquisitionCosts := [];
                    ft_items := []; ft_movements := []; ft_candidates := []; ft_catalogItems := [];
                    ft_counterparties := [] |};
     db_audit := []; db_next := 100; db_now := 0; db_deferred := [] |}.

Lemma installation_committed users entities books : committed (installation users entities books).
Proof. split; [|done]. split; cbn; try constructor; intros; set_solver. Qed.
