(* ===== verification/Periods.v ===== *)
(** * Fiscal periods

    [packages/accounting/src/periods.ts]: fiscal-year arithmetic, the period
    service (generation, lookup, the four-state close), and the judgement
    [assertPeriodAcceptsPosting] shares with the journal. *)
From S2P Require Import Prelude Decimal Calendar Inputs Store Schema Ledger LedgerFacts.

Open Scope Z_scope.
#[local] Arguments String.append : simpl nomatch.

(** ** Pure functions *)

Definition HARD_CLOSED : list PeriodStatus := [PeriodClosed; PeriodLocked].

Definition pad (value : Z) : string := Js.pad_start 2 "0" (Js.bigint_to_string value).

(** [new Date(Date.UTC(fiscalYear, month, 0)).getUTCDate()] is the last day of
    the one-based [month]. *)
Definition fiscalYearStartDate (fiscalYear month day : Z) : date :=
  let lastDayOfMonth := days_in_month fiscalYear month in
  mk_date fiscalYear month (Z.min day lastDayOfMonth).

Definition fiscalYearFor (isoDate : date) (fiscalYearStartMonth fiscalYearStartDay : Z) : Z :=
  let year := year_of isoDate in
  if fiscalYearStartDate year fiscalYearStartMonth fiscalYearStartDay <=? isoDate
  then year else year - 1.

Definition periodCodeFor (fiscalYear sequence : Z) : string :=
  String.append "FY" (String.append (Js.bigint_to_string fiscalYear)
    (String.append "-P" (pad sequence))).

(** [noPeriodError] *)
Definition noPeriodError : error := FiscalPeriodClosedError.

Definition assertPeriodAcceptsPosting (period : FiscalPeriod) (allowBackdated : bool) : result bool :=
  if bool_decide (fp_status period ∈ HARD_CLOSED) then Throw FiscalPeriodClosedError
  else if bool_decide (fp_status period = PeriodSoftClosed) then
    if negb allowBackdated then Throw FiscalPeriodClosedError else mret true
  else mret false.

Definition isExclusionViolation (e : error) : bool := bool_decide (e = SqlError "23P01").

(** ** Inputs *)
Record GenerateFiscalYearInput : Type := {
  gf_accountingBookId : uuid;
  gf_fiscalYear : Z;
  gf_periodCount : option Z;
  gf_actorUserId : option string;
  gf_requestId : option string;
}.

(** [generateSchema]: the parsed input has its default filled in. *)
Definition generateSchema (i : GenerateFiscalYearInput) : result GenerateFiscalYearInput :=
  let count := default 12 (gf_periodCount i) in
  _ ← z_check ((1900 <=? gf_fiscalYear i) && (gf_fiscalYear i <=? 9999));
  _ ← z_check ((1 <=? count) && (count <=? 12));
  actor ← z_user (gf_actorUserId i);
  request ← z_user (gf_requestId i);
  mret {| gf_accountingBookId := gf_accountingBookId i; gf_fiscalYear := gf_fiscalYear i;
          gf_periodCount := Some count; gf_actorUserId := actor; gf_requestId := request |}.

(** [ss_note] is [None] for an absent key, [Some None] for [null]. *)
Record SetStatusInput : Type := {
  ss_fiscalPeriodId : uuid;
  ss_status : PeriodStatus;
  ss_note : option (option string);
  ss_actorUserId : option string;
  ss_requestId : option string;
}.

Definition setStatusSchema (i : SetStatusInput) : result SetStatusInput :=
  note ← z_opt (z_opt z_text) (ss_note i);
  actor ← z_user (ss_actorUserId i);
  request ← z_user (ss_requestId i);
  mret {| ss_fiscalPeriodId := ss_fiscalPeriodId i; ss_status := ss_status i;
          ss_note := note; ss_actorUserId := actor; ss_requestId := request |}.

(** ** The service *)
Definition loadPeriod (fiscalPeriodId : uuid) : run FiscalPeriod :=
  db ← st_get;
  match find_row (fun p => bool_decide (fp_id p = fiscalPeriodId)) (db_periods db) with
  | None => st_throw AccountingNotFoundError
  | Some row => mret row
  end.

Definition period_contains (book : uuid) (t : date) (p : FiscalPeriod) : bool :=
  bool_decide (fp_accountingBookId p = book) && (fp_startsOn p <=? t) && (t <=? fp_endsOn p).

Definition resolvePeriod (accountingBookId : uuid) (isoDate : date) : run (option FiscalPeriod) :=
  t ← dateLiteral isoDate;
  db ← st_get;
  match find_row (period_contains accountingBookId t) (db_periods db) with
  | None => mret None
  | Some found => row ← loadPeriod (fp_id found); mret (Some row)
  end.

Definition requirePeriod (accountingBookId : uuid) (isoDate : date) : run FiscalPeriod :=
  period ← resolvePeriod accountingBookId isoDate;
  match period with None => st_throw noPeriodError | Some p => mret p end.

Definition listPeriods (accountingBookId : uuid) (fiscalYear : option Z) : run (list FiscalPeriod) :=
  st_gets (fun db => order_by fp_startsOn
    (List.filter (fun p => bool_decide (fp_accountingBookId p = accountingBookId) &&
               match fiscalYear with None => true | Some y => fp_fiscalYear p =? y end)
            (db_periods db))).

Definition setStatus_body (value : SetStatusInput) : run FiscalPeriod :=
  before ← loadPeriod (ss_fiscalPeriodId value);
  if bool_decide (fp_status before = ss_status value) then mret before
  else
    _ ← st_lift (throw_if (bool_decide (fp_status before = PeriodLocked)) LedgerImmutableError);
    let closing := negb (bool_decide (ss_status value = PeriodOpen)) in
    closedBy ← (if closing then st_lift (textLiteral_opt (ss_actorUserId value)) else mret None);
    note ← st_lift (z_opt textLiteral_opt (ss_note value));
    db ← st_get;
    _ ← updatePeriodStatus (fp_id before) (ss_status value)
          (if closing then Some (db_now db) else None) closedBy
          (fun row => default (fp_note row) note);
    after ← loadPeriod (fp_id before);
    _ ← audit_append
          {| ae_actorUserId := ss_actorUserId value;
             ae_action := if closing then "accounting.period.closed" else "accounting.period.reopened";
             ae_resourceType := "fiscal_period"; ae_resourceId := Some (fp_id before);
             ae_requestId := ss_requestId value |};
    mret after.

Definition setStatus (input : SetStatusInput) : run FiscalPeriod :=
  value ← st_lift (setStatusSchema input);
  transaction (setStatus_body value).

Definition closePeriod (id : uuid) (status : option PeriodStatus) (note actor request : option string)
    : run FiscalPeriod :=
  setStatus {| ss_fiscalPeriodId := id; ss_status := default PeriodSoftClosed status;
               ss_note := Some note; ss_actorUserId := actor; ss_requestId := request |}.

Definition reopenPeriod (id : uuid) (note actor request : option string) : run FiscalPeriod :=
  setStatus {| ss_fiscalPeriodId := id; ss_status := PeriodOpen;
               ss_note := Some note; ss_actorUserId := actor; ss_requestId := request |}.

(** One row of the [insert ... select ... from generate_series]. *)
Definition generated_period (book : uuid) (fiscalYear : Z) (start : date) (i : Z)
    (id : uuid) (now : Z) : FiscalPeriod :=
  {| fp_id := id; fp_accountingBookId := book;
     (* 'FY' || year || '-P' || lpad((i + 1)::text, 2, '0') *)
     fp_periodCode := periodCodeFor fiscalYear (i + 1);
     fp_fiscalYear := fiscalYear; fp_sequence := i + 1;
     fp_startsOn := add_months start i;
     fp_endsOn := pred_day (add_months start (i + 1));
     fp_status := PeriodOpen; fp_closedAt := None; fp_closedByUserId := None;
     fp_note := None; fp_createdAt := now; fp_updatedAt := now |}.

Definition insertGeneratedPeriods (book : uuid) (fiscalYear : Z) (start : date) (count : Z)
    : run (list FiscalPeriod) :=
  t ← dateLiteral start;
  rows ← st_mapM (fun i => insertPeriodOnConflict (generated_period book fiscalYear t i))
           (seqZ 0 count);
  mret (omap id rows).

Definition find_book (id : uuid) (db : Db) : option AccountingBook :=
  find_row (fun b => bool_decide (bk_id b = id)) (db_books db).

Definition year_periods (book : uuid) (fiscalYear : Z) (db : Db) : list FiscalPeriod :=
  order_by fp_sequence
    (filter (fun p => fp_accountingBookId p = book /\ fp_fiscalYear p = fiscalYear) (db_periods db)).

Definition generateFiscalYear_body (value : GenerateFiscalYearInput) : run (Z * list FiscalPeriod) :=
  db ← st_get;
  match find_book (gf_accountingBookId value) db with
  | None => st_throw AccountingNotFoundError
  | Some book =>
      let start := fiscalYearStartDate (gf_fiscalYear value)
                     (bk_fiscalYearStartMonth book) (bk_fiscalYearStartDay book) in
      created ← st_catch
        (insertGeneratedPeriods (gf_accountingBookId value) (gf_fiscalYear value) start
           (default 12 (gf_periodCount value)))
        (fun error => if isExclusionViolation error then st_throw AccountingConflictError
                      else st_throw error);
      periods ← st_gets (year_periods (gf_accountingBookId value) (gf_fiscalYear value));
      _ ← (if (0 <? Z.of_nat (length created)) then
             audit_append
               {| ae_actorUserId := gf_actorUserId value; ae_action := "accounting.period.generated";
                  ae_resourceType := "accounting_book";
                  ae_resourceId := Some (gf_accountingBookId value);
                  ae_requestId := gf_requestId value |}
           else mret tt);
      mret (Z.of_nat (length created), periods)
  end.

Definition generateFiscalYear (input : GenerateFiscalYearInput) : run (Z * list FiscalPeriod) :=
  value ← st_lift (generateSchema input);
  transaction (generateFiscalYear_body value).

(** ** Fiscal-year arithmetic *)
Section fiscal_years.
Context (month day : Z).
Context (Hmonth : 1 <= month <= 12) (Hday : 1 <= day <= 31).

Lemma fiscal_start_civil y : civil (fiscalYearStartDate y month day).
Proof.
  pose proof (days_in_month_range y month). apply mk_date_civil; lia.
Qed.

Lemma fiscal_start_lt y y' :
  y < y' -> fiscalYearStartDate y month day < fiscalYearStartDate y' month day.
Proof.
  intros. pose proof (days_in_month_range y month). pose proof (days_in_month_range y' month).
  unfold fiscalYearStartDate. apply mk_date_lt; lia.
Qed.

Lemma fiscalYearFor_range t :
  let y := fiscalYearFor t month day in
  fiscalYearStartDate y month day <= t < fiscalYearStartDate (y + 1) month day.
Proof.
  unfold fiscalYearFor. cbv zeta.
  pose proof (days_in_month_range (year_of t) month).
  pose proof (days_in_month_range (year_of t + 1) month).
  pose proof (days_in_month_range (year_of t - 1) month).
  pose proof (date_fields t). pose proof (date_fields_range t).
  destruct (Z.leb_spec (fiscalYearStartDate (year_of t) month day) t);
    unfold fiscalYearStartDate, mk_date in *; cbv zeta in *.
  - split; [done|]. lia.
  - replace (year_of t - 1 + 1) with (year_of t) by lia. lia.
Qed.

(** The fiscal year starts on a day every February has, or in another month. *)
Context (Hleap : month <> 2 \/ day <= 28).

Lemma fiscal_start_next y :
  add_months (fiscalYearStartDate y month day) 12 = fiscalYearStartDate (y + 1) month day.
Proof.
  pose proof (days_in_month_range y month). pose proof (days_in_month_range (y + 1) month).
  destruct (mk_date_fields y month (Z.min day (days_in_month y month))) as (Ey & Em & Ed);
    [lia..|].
  unfold fiscalYearStartDate. cbv zeta.
  destruct (add_months_fields (mk_date y month (Z.min day (days_in_month y month))) 12)
    as (y' & m' & Hr & E & ->); [rewrite Em; lia|].
  rewrite Ey, Em in E. assert (y' = y + 1) as -> by lia. assert (m' = month) as -> by lia.
  rewrite Ed. f_equal.
  assert (days_in_month y month = days_in_month (y + 1) month \/ day <= 28) as [->|] by
    (destruct Hleap; [left; unfold days_in_month; destruct (Z.eqb_spec month 2); [lia|done]
                     | by right]); lia.
Qed.
End fiscal_years.

(** The monthly periods generated year after year for a book partition the
    calendar: every valid day lies in exactly one generated period, a period
    of the fiscal year [fiscalYearFor] names for it.  (The fiscal year may not
    start on February 29th to 31st; see [feb29_fiscal_year_gap].) *)
Theorem fiscal_years_partition (month day : Z) (t : date) (book id : uuid) (now : Z) :
  1 <= month <= 12 -> 1 <= day <= 31 -> month <> 2 \/ day <= 28 ->
  valid_date t = true ->
  exists i, 0 <= i < 12 /\
    period_contains book t
      (generated_period book (fiscalYearFor t month day)
         (fiscalYearStartDate (fiscalYearFor t month day) month day) i id now) = true /\
    (forall y' i', 0 <= i' < 12 ->
       period_contains book t
         (generated_period book y' (fiscalYearStartDate y' month day) i' id now) = true ->
       y' = fiscalYearFor t month day /\ i' = i).
Proof.
  intros Hm Hd Hleap Ht%valid_date_civil.
  pose proof (fiscalYearFor_range month day Hm Hd t) as Hr. cbv zeta in Hr.
  set (y := fiscalYearFor t month day) in *.
  pose proof (fiscal_start_civil month day Hm Hd) as Hciv.
  destruct (add_months_cover (fiscalYearStartDate y month day) t 12) as (i & Hi & Hc);
    [done..| |].
  { change (Z.of_nat 12) with 12. by rewrite fiscal_start_next. }
  assert (forall y' i', 0 <= i' < 12 ->
     period_contains book t (generated_period book y' (fiscalYearStartDate y' month day) i' id now) = true ->
     add_months (fiscalYearStartDate y' month day) i' <= t
       < add_months (fiscalYearStartDate y' month day) (i' + 1)) as Hin.
  { intros y' i' Hi' Hp. unfold period_contains in Hp.
    rewrite !andb_true_iff, !Z.leb_le in Hp. destruct Hp as [[_ H1] H2]. cbn in H1, H2.
    pose proof (pred_day_lt _ (add_months_civil _ (i' + 1) (Hciv y'))). lia. }
  exists i. split; [lia|]. split.
  - unfold period_contains. cbn. rewrite bool_decide_true by done.
    apply andb_true_iff. rewrite !Z.leb_le. cbn. lia.
  - intros y' i' Hi' Hp. specialize (Hin y' i' Hi' Hp).
    pose proof (add_months_le _ 0 i' (Hciv y') ltac:(lia)) as L1.
    pose proof (add_months_le _ (i' + 1) 12 (Hciv y') ltac:(lia)) as L2.
    rewrite add_months_0 in L1 by done. rewrite fiscal_start_next in L2 by done.
    assert (y' = y) as ->.
    { destruct (Z.lt_trichotomy y' y) as [Hlt|[Heq|Hgt]]; [|done|].
      - assert (y' + 1 = y \/ y' + 1 < y) as [<-|Hlt'] by lia; [lia|].
        pose proof (fiscal_start_lt month day Hm Hd _ _ Hlt'). lia.
      - assert (y + 1 = y' \/ y + 1 < y') as [E|Hlt'] by lia; [rewrite <- E in *; lia|].
        pose proof (fiscal_start_lt month day Hm Hd _ _ Hlt'). lia. }
    split; [done|]. pose proof (pred_day_lt _ (add_months_civil _ (i + 1) (Hciv y))).
    destruct (Z.lt_trichotomy i' i) as [Hlt|[Heq|Hgt]]; [|done|].
    + pose proof (add_months_le _ (i' + 1) i (Hciv y) ltac:(lia)). lia.
    + pose proof (add_months_le _ (i + 1) i' (Hciv y) ltac:(lia)). lia.
Qed.

Lemma fiscal_years_partition_witness :
  exists i, 0 <= i < 12 /\
    period_contains 1 20240229
      (generated_period 1 (fiscalYearFor 20240229 7 31)
         (fiscalYearStartDate (fiscalYearFor 20240229 7 31) 7 31) i 1 0) = true /\
    (forall y' i', 0 <= i' < 12 ->
       period_contains 1 20240229
         (generated_period 1 y' (fiscalYearStartDate y' 7 31) i' 1 0) = true ->
       y' = fiscalYearFor 20240229 7 31 /\ i' = i).
Proof. apply (fiscal_years_partition 7 31 20240229 1 1 0); [lia..|reflexivity]. Defined.

(** For a fiscal year starting on February 29th the years generated do
    leave a day out: 2028-02-28 belongs to fiscal year 2027 by
    [fiscalYearFor], no period of that year contains it, and the next year
    starts on the 29th. *)
Theorem feb29_fiscal_year_gap :
  let t := mk_date 2028 2 28 in
  fiscalYearFor t 2 29 = 2027 /\ t < fiscalYearStartDate 2028 2 29 /\
  forallb (fun i => negb (period_contains 1 t
      (generated_period 1 2027 (fiscalYearStartDate 2027 2 29) i 1 0))) (seqZ 0 12) = true.
Proof. vm_compute. done. Qed.

(** ** Closure: the service keeps the invariant of the tables *)
Lemma loadPeriod_reads id : reads (loadPeriod id).
Proof. unfold loadPeriod. solve_respects. Qed.
#[export] Hint Resolve loadPeriod_reads : store.

Lemma resolvePeriod_reads book t : reads (resolvePeriod book t).
Proof. unfold resolvePeriod. solve_respects. Qed.
#[export] Hint Resolve resolvePeriod_reads : store.

#[export] Hint Resolve audit_append_step_ok updatePeriodStatus_step_ok : store.

Lemma insertGeneratedPeriods_step_ok book y start n :
  respects step_ok (insertGeneratedPeriods book y start n).
Proof.
  unfold insertGeneratedPeriods. solve_respects.
  by apply insertPeriodOnConflict_step_ok.
Qed.

Lemma setStatus_tx_ok i : always tx_ok (setStatus i).
Proof.
  unfold setStatus. solve_respects. apply transaction_tx_ok.
  unfold setStatus_body. solve_respects.
Qed.

Lemma generateFiscalYear_tx_ok i : always tx_ok (generateFiscalYear i).
Proof.
  unfold generateFiscalYear. solve_respects. apply transaction_tx_ok.
  unfold generateFiscalYear_body. solve_respects.
  apply respects_rethrow; [apply insertGeneratedPeriods_step_ok|].
  intros e s r s'. by case_match.
Qed.

Lemma loadPeriod_inv id db r db' :
  loadPeriod id db = (Ok r, db') -> r ∈ db_periods db /\ fp_id r = id /\ db' = db.
Proof.
  unfold loadPeriod. intros H. inv_st. destruct (find_row _ _) eqn:E; inv_st.
  by apply find_row_some in E as [? ?%bool_decide_eq_true].
Qed.

Lemma loadPeriod_unique db p :
  NoDup (fp_id <$> db_periods db) -> p ∈ db_periods db ->
  loadPeriod (fp_id p) db = (Ok p, db).
Proof.
  intros Hn Hp. unfold loadPeriod. erewrite st_bind_run by done.
  destruct (find_row _ _) as [q|] eqn:E.
  - apply find_row_some in E as [Hq ?%bool_decide_eq_true].
    by replace q with p by (by eapply NoDup_keys_inj).
  - apply find_row_none with (r := p) in E; [|done]. by apply bool_decide_eq_false in E.
Qed.

(** ** The close *)

(** What [setStatus] leaves of a period. *)
Definition same_period (p q : FiscalPeriod) : Prop :=
  fp_id q = fp_id p /\ fp_accountingBookId q = fp_accountingBookId p /\
  fp_periodCode q = fp_periodCode p /\ fp_fiscalYear q = fp_fiscalYear p /\
  fp_sequence q = fp_sequence p /\ fp_startsOn q = fp_startsOn p /\ fp_endsOn q = fp_endsOn p.

Lemma setStatus_body_inv value db after db' :
  NoDup (fp_id <$> db_periods db) -> setStatus_body value db = (Ok after, db') ->
  exists before, before ∈ db_periods db /\ fp_id before = ss_fiscalPeriodId value /\
    ((fp_status before = ss_status value /\ after = before /\ db' = db) \/
     (fp_status before <> ss_status value /\ fp_status before <> PeriodLocked /\
      exists cb note,
        let f r := period_set_status (ss_status value)
              (if negb (bool_decide (ss_status value = PeriodOpen)) then Some (db_now db) else None)
              cb (default (fp_note r) note) (db_now db) r in
        after = f before /\
        db_periods db' = update_rows (fun r => bool_decide (fp_id r = fp_id before)) f (db_periods db))).
Proof.
  intros Hn H. unfold setStatus_body in H. inv_st.
  apply loadPeriod_inv in H0 as (Hb & Hid & ->). exists a. split; [done|]. split; [done|].
  case_bool_decide as Hst; [inv_st; by left|right].
  run_bind H u db1 Hlock. apply st_lift_inv in Hlock as [Hlock ->].
  inv_ok. apply bool_decide_eq_false in Hlock.
  split; [done|]. split; [done|].
  run_bind H cb db1 Hcb. assert (db1 = db) as ->.
  { destruct (negb _); inv_st; done. }
  run_bind H note db1 Hnote. apply st_lift_inv in Hnote as [_ ->].
  unfold updatePeriodStatus in H. inv_stmt.
  exists cb, note. cbv zeta. unfold audit_append in *. inv_st.
  match goal with Hl : loadPeriod _ _ = _ |- _ => apply loadPeriod_inv in Hl as (Ha & Hai & ->) end.
  split; [|done]. cbn in Ha.
  apply update_rows_elem in Ha as (r & Hr & ->).
  assert (fp_id r = fp_id a) as Hri by (destruct (bool_decide (fp_id r = fp_id a)); exact Hai).
  rewrite (bool_decide_true (fp_id r = fp_id a)) by done.
  by replace r with a by (by eapply NoDup_keys_inj).
Qed.

(** [setStatus] moves one period to the requested state, keeps its code,
    year and dates, stamps [closed_at] exactly when it closes it, and touches
    no other period; a period that was [locked] was asked to stay so. *)
Theorem setStatus_functional (input : SetStatusInput) (db db' : Db) (after : FiscalPeriod) :
  committed db -> setStatus input db = (Ok after, db') ->
  exists before, before ∈ db_periods db /\ after ∈ db_periods db' /\
    fp_id before = ss_fiscalPeriodId input /\ same_period before after /\
    fp_status after = ss_status input /\
    (fp_status before = PeriodLocked -> ss_status input = PeriodLocked) /\
    (fp_status before <> ss_status input ->
       is_some (fp_closedAt after) = negb (bool_decide (ss_status input = PeriodOpen))) /\
    (forall p, fp_id p <> fp_id before -> p ∈ db_periods db <-> p ∈ db_periods db').
Proof.
  intros [Hok Hdef] H. unfold setStatus in H. inv_st.
  apply transaction_inv in H as (db1 & H & _ & ->).
  assert (ss_status a = ss_status input /\ ss_fiscalPeriodId a = ss_fiscalPeriodId input)
    as [Est Eid].
  { unfold setStatusSchema in H0. by inv_ok. }
  apply setStatus_body_inv in H as (before & Hb & Hid & Hcase); [|apply Hok].
  rewrite Est in Hcase. exists before. split; [done|].
  destruct Hcase as [(Hst & -> & ->)|(Hst & Hlock & cb & note & -> & Hrows)].
  - unfold same_period. rewrite Hst. repeat split; try done; congruence.
  - split; [cbn; rewrite Hrows; apply update_rows_elem; exists before; split; [done|];
            by rewrite (bool_decide_true (fp_id before = fp_id before))|].
    split; [congruence|]. split; [done|]. split; [done|]. split; [done|].
    split; [intros _; cbn; by destruct (bool_decide (ss_status input = PeriodOpen))|].
    intros p Hp. cbn. rewrite Hrows, update_rows_elem. split.
    + intros Hin. exists p. by rewrite (bool_decide_false (fp_id p = _)).
    + intros (q & Hq & ->). destruct (decide (fp_id q = fp_id before)) as [E|E].
      * rewrite (bool_decide_true (fp_id q = _)) in Hp by done. by destruct Hp.
      * by rewrite (bool_decide_false (fp_id q = _)).
Qed.

(** A January book, with its first year generated. *)
Definition sample_book : AccountingBook :=
  {| bk_id := 1; bk_code := "MAIN"; bk_name := "Main book"; bk_functionalCurrency := "USD";
     bk_accountingBasis := Accrual; bk_fiscalYearStartMonth := 1; bk_fiscalYearStartDay := 1;
     bk_requiresEntityDimension := false; bk_nextEntryNumber := 1; bk_status := BookActive;
     bk_openedOn := 20260101; bk_notes := None; bk_createdByUserId := None;
     bk_createdAt := 0; bk_updatedAt := 0 |}.

Definition sample_year : GenerateFiscalYearInput :=
  {| gf_accountingBookId := 1; gf_fiscalYear := 2026; gf_periodCount := None;
     gf_actorUserId := Some "u1"%string; gf_requestId := None |}.

Definition sample_db : Db := installation ["u1"%string] [] [sample_book].
Definition sample_db_2026 : Db := snd (generateFiscalYear sample_year sample_db).

Lemma sample_db_2026_committed : committed sample_db_2026.
Proof. apply (generateFiscalYear_tx_ok sample_year sample_db), installation_committed. Qed.

Definition sample_close : SetStatusInput :=
  {| ss_fiscalPeriodId := 102; ss_status := PeriodLocked; ss_note := None;
     ss_actorUserId := Some "u1"%string; ss_requestId := None |}.

Lemma setStatus_functional_witness :
  exists after db', setStatus sample_close sample_db_2026 = (Ok after, db') /\
    fp_status after = PeriodLocked /\ fp_periodCode after = "FY2026-P03"%string /\
    exists before, before ∈ db_periods sample_db_2026 /\ after ∈ db_periods db' /\
    fp_id before = 102%positive /\ same_period before after /\
    fp_status after = PeriodLocked /\
    (fp_status before = PeriodLocked -> PeriodLocked = PeriodLocked) /\
    (fp_status before <> PeriodLocked -> is_some (fp_closedAt after) = true) /\
    (forall p, fp_id p <> fp_id before -> p ∈ db_periods sample_db_2026 <-> p ∈ db_periods db').
Proof.
  eexists _, _. split; [vm_compute; reflexivity|]. split; [reflexivity|]. split; [reflexivity|].
  apply (setStatus_functional sample_close sample_db_2026);
    [apply sample_db_2026_committed | vm_compute; reflexivity].
Defined.

(** ** Generation *)
Definition has_period (book : uuid) (y seq : Z) (db : Db) : bool :=
  existsb (fun r => bool_decide (fp_accountingBookId r = book) && (fp_fiscalYear r =? y)
                    && (fp_sequence r =? seq)) (db_periods db).

Definition add_periods (next : uuid) (rows : list FiscalPeriod) (db : Db) : Db :=
  set_next next (set_periods (db_periods db ++ rows) db).

Lemma add_periods_app n1 r1 n2 r2 db :
  add_periods n2 r2 (add_periods n1 r1 db) = add_periods n2 (r1 ++ r2) db.
Proof. unfold add_periods. rewrite (assoc_L (++)). reflexivity. Qed.

Lemma has_period_mono book y seq db next rows :
  has_period book y seq db = true -> has_period book y seq (add_periods next rows db) = true.
Proof. unfold has_period. cbn. rewrite existsb_app. by intros ->. Qed.

Lemma insertPeriodRow_inv book y start i db row db' :
  insertPeriodOnConflict (generated_period book y start i) db = (Ok row, db') ->
  db' = add_periods (Pos.succ (db_next db)) (omap id [row]) db /\
  has_period book y (i + 1) db' = true /\
  add_months start i <= pred_day (add_months start (i + 1)).
Proof.
  intros H. unfold insertPeriodOnConflict in H. inv_stmt.
  match goal with Hle : (_ <=? _) = true |- _ => apply Z.leb_le in Hle end.
  case_match eqn:E; inv_stmt.
  - unfold add_periods. cbn. rewrite app_nil_r. repeat split; [|done]. exact E.
  - split; [done|]. split; [|done]. unfold has_period. cbn. rewrite existsb_app. cbn.
    rewrite bool_decide_true, !Z.eqb_refl by done. cbn. by rewrite orb_true_r.
Qed.

Lemma insertPeriodRows_spec book y start idxs db rows db' :
  st_mapM (fun i => insertPeriodOnConflict (generated_period book y start i)) idxs db = (Ok rows, db') ->
  (exists next, db' = add_periods next (omap id rows) db) /\
  forall i, i ∈ idxs -> has_period book y (i + 1) db' = true /\
    add_months start i <= pred_day (add_months start (i + 1)).
Proof.
  revert db rows db'. induction idxs as [|i idxs IH]; intros db rows db' H; simpl in H.
  - inv_st. split; [|set_solver]. exists (db_next db). unfold add_periods. cbn.
    rewrite app_nil_r. by destruct db.
  - run_bind H row db1 Hi. run_bind H rows' db2 Hrows. inv_st.
    apply IH in Hrows as [(n2 & ->) Hall].
    apply insertPeriodRow_inv in Hi as (-> & Hhas & Hle). split.
    + exists n2. rewrite add_periods_app. f_equal. by destruct row.
    + intros j [->|Hj]%elem_of_cons; [|by apply Hall].
      split; [|done]. by apply has_period_mono.
Qed.

(** Rows that are all there already are all skipped. *)
Lemma insertPeriodRows_skip book y start idxs db :
  (forall i, i ∈ idxs -> has_period book y (i + 1) db = true /\
    add_months start i <= pred_day (add_months start (i + 1))) ->
  exists next, st_mapM (fun i => insertPeriodOnConflict (generated_period book y start i)) idxs db
    = (Ok ((fun _ => None) <$> idxs), set_next next db).
Proof.
  revert db. induction idxs as [|i idxs IH]; intros db H; cbn [st_mapM fmap list_fmap].
  - exists (db_next db). by destruct db.
  - destruct (H i) as [Hi Hle]; [set_solver|].
    assert (insertPeriodOnConflict (generated_period book y start i) db
            = (Ok None, set_next (Pos.succ (db_next db)) db)) as E.
    { unfold insertPeriodOnConflict. erewrite st_bind_run by done.
      erewrite st_bind_run by done. cbv zeta.
      unfold ensure. cbn [fp_startsOn fp_endsOn generated_period].
      rewrite (proj2 (Z.leb_le _ _) Hle). erewrite st_bind_run by done.
      match goal with |- context [existsb ?f ?l] =>
        replace (existsb f l) with true by (symmetry; exact Hi) end. done. }
    rewrite (st_bind_run _ _ _ _ _ E).
    destruct (IH (set_next (Pos.succ (db_next db)) db)) as (next & E').
    { intros j Hj. apply H. set_solver. }
    exists next. rewrite (st_bind_run _ _ _ _ _ E'). done.
Qed.

Lemma insertGeneratedPeriods_spec book y start count db created db' :
  insertGeneratedPeriods book y start count db = (Ok created, db') ->
  valid_date start = true /\ (exists next, db' = add_periods next created db) /\
  forall i, 0 <= i < count -> has_period book y (i + 1) db' = true /\
    add_months start i <= pred_day (add_months start (i + 1)).
Proof.
  unfold insertGeneratedPeriods. intros H. run_bind H t db1 Ht.
  apply dateLiteral_inv in Ht as (Hv & -> & ->). run_bind H rows db2 Hrows. inv_st.
  apply insertPeriodRows_spec in Hrows as [Hn Hall].
  split; [done|]. split; [done|]. intros i Hi. apply Hall. apply elem_of_seqZ. lia.
Qed.

Lemma generateFiscalYear_body_inv value db n periods db' :
  generateFiscalYear_body value db = (Ok (n, periods), db') ->
  exists book next created audit,
    find_book (gf_accountingBookId value) db = Some book /\
    insertGeneratedPeriods (gf_accountingBookId value) (gf_fiscalYear value)
      (fiscalYearStartDate (gf_fiscalYear value) (bk_fiscalYearStartMonth book)
         (bk_fiscalYearStartDay book)) (default 12 (gf_periodCount value)) db
      = (Ok created, add_periods next created db) /\
    n = Z.of_nat (length created) /\
    periods = year_periods (gf_accountingBookId value) (gf_fiscalYear value)
                (add_periods next created db) /\
    db' = set_audit (db_audit db ++ audit) (add_periods next created db) /\
    (created = [] -> audit = []).
Proof.
  unfold generateFiscalYear_body. intros H. inv_st.
  destruct (find_book _ _) as [book|] eqn:Eb; [|inv_st].
  run_bind H created db1 Hc. unfold st_catch in Hc.
  destruct (insertGeneratedPeriods _ _ _ _ _) as [[c|e] db2] eqn:Ei;
    [injection Hc as -> ->|destruct (isExclusionViolation e); discriminate Hc].
  pose proof (insertGeneratedPeriods_spec _ _ _ _ _ _ _ Ei) as (_ & (next & ->) & _).
  run_bind H ps db2 Hps. apply st_gets_inv in Hps as [-> ->].
  run_bind H u db2 Haud. apply st_ret_inv in H as [[= -> ->] ->].
  destruct created as [|p created].
  - apply st_ret_inv in Haud as [_ ->]. exists book, next, [], [].
    repeat split; try done. rewrite app_nil_r. by destruct db.
  - change (audit_append {| ae_actorUserId := gf_actorUserId value;
              ae_action := "accounting.period.generated"; ae_resourceType := "accounting_book";
              ae_resourceId := Some (gf_accountingBookId value);
              ae_requestId := gf_requestId value |} (add_periods next (p :: created) db)
            = (Ok u, db2)) in Haud.
    unfold audit_append in Haud. apply st_modify_inv in Haud as [_ ->].
    eexists book, next, (p :: created), [_]. repeat split; try done.
Qed.

Lemma omap_all_none {A B} (l : list A) : omap id ((fun _ => @None B) <$> l) = [].
Proof. by induction l. Qed.

Lemma transaction_run {A} (body : run A) db a db1 :
  body (begin_tx db) = (Ok a, db1) -> commit_check db1 = true ->
  transaction body db = (Ok a, set_deferred [] db1).
Proof. unfold transaction. by intros -> ->. Qed.

(** Generating a fiscal year is idempotent and complete: a run that returns
    leaves every requested sequence of that year present and keeps every period
    there was, and running it again creates nothing, returns the same periods,
    and writes neither a period nor an audit event. *)
Theorem generateFiscalYear_idempotent (input : GenerateFiscalYearInput) (db db' : Db)
    (n : Z) (periods : list FiscalPeriod) :
  generateFiscalYear input db = (Ok (n, periods), db') ->
  (forall p, p ∈ db_periods db -> p ∈ db_periods db') /\
  Z.of_nat (length (db_periods db')) = Z.of_nat (length (db_periods db)) + n /\
  (forall i, 1 <= i <= default 12 (gf_periodCount input) ->
     has_period (gf_accountingBookId input) (gf_fiscalYear input) i db' = true) /\
  exists db'', generateFiscalYear input db' = (Ok (0, periods), db'') /\
    db_periods db'' = db_periods db' /\ db_audit db'' = db_audit db'.
Proof.
  intros H. unfold generateFiscalYear in H. run_bind H value db1 Hv.
  apply st_lift_inv in Hv as [Hv ->].
  assert (gf_accountingBookId value = gf_accountingBookId input /\
          gf_fiscalYear value = gf_fiscalYear input /\
          default 12 (gf_periodCount value) = default 12 (gf_periodCount input)) as (E1 & E2 & E3).
  { unfold generateSchema in Hv. by inv_ok. }
  apply transaction_inv in H as (db1 & H & _ & ->).
  apply generateFiscalYear_body_inv in H
    as (book & next & created & aud & Hb & Hi & -> & -> & -> & Haud).
  rewrite E1, E2, E3 in *.
  apply insertGeneratedPeriods_spec in Hi as (Hd & _ & Hall).
  split; [intros p Hp; cbn; set_solver|].
  split; [cbn; rewrite length_app; lia|]. split.
  { intros i Hi. replace i with (i - 1 + 1) by lia. apply (Hall (i - 1)). lia. }
  set (db1 := set_deferred [] _). unfold generateFiscalYear.
  erewrite (st_bind_run _ _ db1) by (unfold st_lift; by rewrite Hv).
  unfold generateFiscalYear_body. rewrite E1, E2, E3.
  assert (exists next', insertGeneratedPeriods (gf_accountingBookId input) (gf_fiscalYear input)
      (fiscalYearStartDate (gf_fiscalYear input) (bk_fiscalYearStartMonth book)
        (bk_fiscalYearStartDay book)) (default 12 (gf_periodCount input)) (begin_tx db1)
      = (Ok [], set_next next' (begin_tx db1))) as (next' & Hskip).
  { unfold insertGeneratedPeriods. rewrite (st_bind_run _ _ _ _ _ (dateLiteral_valid _ _ Hd)).
    destruct (insertPeriodRows_skip (gf_accountingBookId input) (gf_fiscalYear input)
      (fiscalYearStartDate (gf_fiscalYear input) (bk_fiscalYearStartMonth book)
        (bk_fiscalYearStartDay book)) (seqZ 0 (default 12 (gf_periodCount input)))
      (begin_tx db1)) as (next' & E).
    - intros i Hi%elem_of_seqZ. apply (Hall i). lia.
    - exists next'. rewrite (st_bind_run _ _ _ _ _ E). by rewrite omap_all_none. }
  eexists. split; [|split].
  - apply transaction_run with (db1 := set_next next' (begin_tx db1)); [|done].
    erewrite st_bind_run by done.
    replace (find_book (gf_accountingBookId input) (begin_tx db1)) with (Some book) by (symmetry; exact Hb).
    unfold st_catch at 1. erewrite (st_bind_run _ _ _ []); [|by rewrite Hskip].
    erewrite st_bind_run by done. erewrite st_bind_run by done. done.
  - done.
  - done.
Qed.

Lemma generateFiscalYear_idempotent_witness :
  exists ps, generateFiscalYear sample_year sample_db = (Ok (12, ps), sample_db_2026) /\
    (forall p, p ∈ db_periods sample_db -> p ∈ db_periods sample_db_2026) /\
    Z.of_nat (length (db_periods sample_db_2026)) = Z.of_nat (length (db_periods sample_db)) + 12 /\
    (forall i, 1 <= i <= 12 -> has_period 1 2026 i sample_db_2026 = true) /\
    exists db'', generateFiscalYear sample_year sample_db_2026 = (Ok (0, ps), db'') /\
      db_periods db'' = db_periods sample_db_2026 /\ db_audit db'' = db_audit sample_db_2026.
Proof.
  eexists. split; [vm_compute; reflexivity|].
  apply (generateFiscalYear_idempotent sample_year sample_db sample_db_2026 12).
  vm_compute; reflexivity.
Defined.

(** No period operation changes a locked period: whatever [setStatus] or
    [generateFiscalYear] is asked, and however it ends, the row stays as it
    is. *)
Theorem locked_period_is_final (db : Db) (p : FiscalPeriod) :
  committed db -> p ∈ db_periods db -> fp_status p = PeriodLocked ->
  (forall i, p ∈ db_periods (snd (setStatus i db))) /\
  (forall i, p ∈ db_periods (snd (generateFiscalYear i db))).
Proof.
  intros [Hok _] Hp Hl. split; intros i.
  - unfold setStatus, st_lift, mbind, St_bind. destruct (setStatusSchema i) as [v|e]; [|done].
    destruct (transaction _ _) as [[q|e] db'] eqn:H.
    + apply transaction_inv in H as (db1 & H & _ & ->). cbn.
      apply setStatus_body_inv in H as (b & Hb & _ & [(_ & _ & ->)|H]); [done| |apply Hok].
      destruct H as (_ & Hn & cb & note & _ & ->). apply update_rows_elem. exists p.
      split; [done|]. rewrite (bool_decide_false (fp_id p = fp_id b)); [done|].
      intros E. destruct Hn. assert (p = b) as <-; [|done].
      eapply (NoDup_keys_inj fp_id); [apply Hok|exact Hp|exact Hb|exact E].
    + by apply transaction_throw in H as ->.
  - unfold generateFiscalYear, st_lift, mbind, St_bind. destruct (generateSchema i) as [v|e]; [|done].
    destruct (transaction _ _) as [[[n ps]|e] db'] eqn:H.
    + apply transaction_inv in H as (db1 & H & _ & ->).
      apply generateFiscalYear_body_inv in H as (? & ? & ? & ? & _ & _ & _ & _ & -> & _).
      cbn. set_solver.
    + by apply transaction_throw in H as ->.
Qed.

Definition sample_db_locked : Db := snd (setStatus sample_close sample_db_2026).

Lemma locked_period_is_final_witness :
  exists p, p ∈ db_periods sample_db_locked /\ fp_status p = PeriodLocked /\
    (forall i, p ∈ db_periods (snd (setStatus i sample_db_locked))) /\
    (forall i, p ∈ db_periods (snd (generateFiscalYear i sample_db_locked))).
Proof.
  destruct (find_row (fun p => bool_decide (fp_status p = PeriodLocked)) (db_periods sample_db_locked))
    as [p|] eqn:E; [|vm_compute in E; discriminate E].
  apply find_row_some in E as [Hp Hl%bool_decide_eq_true].
  exists p. split; [exact Hp|]. split; [exact Hl|].
  apply (locked_period_is_final sample_db_locked p); [|exact Hp|exact Hl].
  apply (setStatus_tx_ok sample_close sample_db_2026), sample_db_2026_committed.
Defined.

Lemma hard_closed_spec s :
  bool_decide (s ∈ HARD_CLOSED) = match s with PeriodClosed | PeriodLocked => true | _ => false end.
Proof. by destruct s. Qed.

(** The service and the database agree on the close: for an entry stamped
    with a period of its book that contains its date, the fiscal-period guard
    of the database lets the posting through exactly when
    [assertPeriodAcceptsPosting] does with the entry's [is_backdated] flag as
    the authorization; and the flag the service computes always passes. *)
Theorem period_guard_agrees (db : Db) (e : JournalEntry) (p : FiscalPeriod) :
  committed db -> in_books (je_status e) = true ->
  p ∈ db_periods db -> je_fiscalPeriodId e = Some (fp_id p) ->
  fp_startsOn p <= je_entryDate e <= fp_endsOn p ->
  period_guard db None e = is_ok (assertPeriodAcceptsPosting p (je_isBackdated e)) /\
  (forall allow, assertPeriodAcceptsPosting p allow = Ok (je_isBackdated e) ->
     period_guard db None e = true).
Proof.
  intros [[] _] Hb Hp Hs Hd.
  assert (find_row (fun p => opt_eqb (je_fiscalPeriodId e) (fp_id p)) (db_periods db) = Some p) as E.
  { destruct (find_row _ _) as [q|] eqn:E.
    - apply find_row_some in E as [Hq Hid%bool_decide_eq_true]. f_equal.
      eapply (NoDup_keys_inj fp_id); [done..|]. congruence.
    - apply find_row_none with (r := p) in E; [|done].
      apply bool_decide_eq_false in E. congruence. }
  assert (forall b, (fp_startsOn p <=? je_entryDate e) && (je_entryDate e <=? fp_endsOn p) && b = b) as Ed.
  { intros b. rewrite !(proj2 (Z.leb_le _ _)) by lia. done. }
  unfold period_guard. rewrite Hb, E. cbn [negb]. rewrite <- andb_assoc, Ed.
  unfold assertPeriodAcceptsPosting. rewrite hard_closed_spec.
  destruct (fp_status p), (je_isBackdated e); split; try done; by intros [].
Qed.

Definition sample_posted (backdated : bool) : JournalEntry :=
  {| je_id := 500; je_accountingBookId := 1; je_entryNumber := Some 1;
     je_fiscalPeriodId := Some 101%positive; je_entryDate := 20260214; je_status := EntryPosted;
     je_entrySource := SourceManual; je_postingKey := None; je_postingRuleVersionId := None;
     je_sourceFactType := None; je_sourceFactId := None; je_sourceFactFingerprint := None;
     je_reversesEntryId := None; je_isBackdated := backdated; je_description := "February";
     je_memo := None; je_postedAt := Some 3; je_postedByUserId := None;
     je_createdByUserId := None; je_createdAt := 3; je_updatedAt := 3 |}.

Lemma period_guard_agrees_witness :
  exists p, p ∈ db_periods sample_db_2026 /\ fp_periodCode p = "FY2026-P02"%string /\
    period_guard sample_db_2026 None (sample_posted false)
      = is_ok (assertPeriodAcceptsPosting p false) /\
    (forall allow, assertPeriodAcceptsPosting p allow = Ok false ->
       period_guard sample_db_2026 None (sample_posted false) = true).
Proof.
  destruct (find_row (fun p => bool_decide (fp_id p = 101%positive)) (db_periods sample_db_2026))
    as [p|] eqn:E; [|vm_compute in E; discriminate E].
  assert (p ∈ db_periods sample_db_2026) as Hp by (by apply find_row_some in E as [? _]).
  vm_compute in E. injection E as E. exists p. split; [exact Hp|]. split; [by rewrite <- E|].
  apply (period_guard_agrees sample_db_2026 (sample_posted false) p);
    [apply sample_db_2026_committed | reflexivity | exact Hp | by rewrite <- E
    | rewrite <- E; cbn; lia].
Defined.
