(* ===== verification/Chart.v ===== *)
(** * The chart of accounts

    [packages/accounting/src/chart.ts] and the starter chart of
    [chart-template.ts]: seeding a book from the template, operator edits, and
    the two rules that keep system accounts resolvable. *)
From S2P Require Import Prelude Decimal Calendar Inputs Store Schema Ledger LedgerFacts.

Open Scope Z_scope.

(** ** [chart-template.ts] *)
Record ChartTemplateAccount : Type := {
  ct_code : string;
  ct_name : string;
  ct_accountType : AccountType;
  ct_accountSubtype : option string;
  ct_systemKey : option string;
  ct_parentCode : option string;
  ct_isPostable : option bool;
  ct_isContra : option bool;
  ct_description : option string;
}.

Definition DEFAULT_CHART_TEMPLATE : list ChartTemplateAccount :=
  [
   {| ct_code := "1000"; ct_name := "Assets"; ct_accountType := Asset;
      ct_accountSubtype := None; ct_systemKey := None;
      ct_parentCode := None; ct_isPostable := Some false; ct_isContra := None;
      ct_description := Some "Roll-up header." |};
   {| ct_code := "1100"; ct_name := "Marketplace Clearing"; ct_accountType := Asset;
      ct_accountSubtype := Some "clearing"; ct_systemKey := Some "marketplace_clearing";
      ct_parentCode := Some "1000"; ct_isPostable := None; ct_isContra := None;
      ct_description := Some "Money the marketplace owes us. A sale debits it, fees and refunds credit it, and the payout clears it. A non-zero residual after a settlement window is THE finding: an uningested fee, a missing order, a refund commerce never saw, or a rule that fired twice." |};
   {| ct_code := "1200"; ct_name := "Undeposited Funds"; ct_accountType := Asset;
      ct_accountSubtype := Some "undeposited_funds"; ct_systemKey := Some "undeposited_funds";
      ct_parentCode := Some "1000"; ct_isPostable := None; ct_isContra := None;
      ct_description := Some "Settled by the processor, not yet in the bank." |};
   {| ct_code := "1300"; ct_name := "Business Checking"; ct_accountType := Asset;
      ct_accountSubtype := Some "bank"; ct_systemKey := None;
      ct_parentCode := Some "1000"; ct_isPostable := None; ct_isContra := None;
      ct_description := Some "An ordinary operator-owned account, not a system account: the banking milestone maps real financial_accounts onto chart accounts, and which one is a bank is the operator's statement, not Loxep's." |};
   {| ct_code := "1400"; ct_name := "Inventory"; ct_accountType := Asset;
      ct_accountSubtype := Some "inventory"; ct_systemKey := Some "inventory";
      ct_parentCode := Some "1000"; ct_isPostable := None; ct_isContra := None;
      ct_description := Some "Stock at landed cost, as frozen on the item by Phase 4. Depletion credits it and debits COGS at that same frozen basis; valuation judgements are a later, separate posting." |};
   {| ct_code := "1900"; ct_name := "Suspense"; ct_accountType := Asset;
      ct_accountSubtype := Some "suspense"; ct_systemKey := Some "suspense";
      ct_parentCode := Some "1000"; ct_isPostable := None; ct_isContra := None;
      ct_description := Some "The plug of last resort, used when a rule matched but an account could not be resolved. It earns its place by being permanently visible in a named report: a suspense balance nobody looks at is worse than a failed posting, and one on the front page is a work queue." |};
   {| ct_code := "2000"; ct_name := "Liabilities"; ct_accountType := Liability;
      ct_accountSubtype := None; ct_systemKey := None;
      ct_parentCode := None; ct_isPostable := Some false; ct_isContra := None;
      ct_description := Some "Roll-up header." |};
   {| ct_code := "2100"; ct_name := "Sales Tax Payable"; ct_accountType := Liability;
      ct_accountSubtype := Some "sales_tax_payable"; ct_systemKey := Some "sales_tax_payable";
      ct_parentCode := Some "2000"; ct_isPostable := None; ct_isContra := None;
      ct_description := Some "Tax WE collected and must remit. Seller liability only." |};
   {| ct_code := "2200"; ct_name := "Facilitator Tax Clearing"; ct_accountType := Liability;
      ct_accountSubtype := Some "clearing"; ct_systemKey := Some "facilitator_tax_clearing";
      ct_parentCode := Some "2000"; ct_isPostable := None; ct_isContra := None;
      ct_description := Some "Tax a marketplace collects from the buyer and remits itself. It passes through gross sales and is never our liability, so it clears to zero once the payout settles and never touches sales tax payable or P&L. Crediting it to Sales Tax Payable instead would create a liability that will never be paid and grows forever." |};
   {| ct_code := "3000"; ct_name := "Equity"; ct_accountType := Equity;
      ct_accountSubtype := None; ct_systemKey := None;
      ct_parentCode := None; ct_isPostable := Some false; ct_isContra := None;
      ct_description := Some "Roll-up header." |};
   {| ct_code := "3100"; ct_name := "Opening Balance Equity"; ct_accountType := Equity;
      ct_accountSubtype := Some "opening_balance_equity"; ct_systemKey := Some "opening_balance_equity";
      ct_parentCode := Some "3000"; ct_isPostable := None; ct_isContra := None;
      ct_description := Some "The other side of an opening-balance entry. Retained earnings is NOT an account here: it is computed in the balance-sheet read model from prior fiscal years' net income, because stored closing entries double a small book's entry count and make the trial balance depend on whether a job ran." |};
   {| ct_code := "4000"; ct_name := "Revenue"; ct_accountType := Revenue;
      ct_accountSubtype := None; ct_systemKey := None;
      ct_parentCode := None; ct_isPostable := Some false; ct_isContra := None;
      ct_description := Some "Roll-up header." |};
   {| ct_code := "4100"; ct_name := "Sales Revenue"; ct_accountType := Revenue;
      ct_accountSubtype := None; ct_systemKey := Some "sales_revenue";
      ct_parentCode := Some "4000"; ct_isPostable := None; ct_isContra := None;
      ct_description := None |};
   {| ct_code := "4200"; ct_name := "Shipping Income"; ct_accountType := Revenue;
      ct_accountSubtype := None; ct_systemKey := Some "shipping_income";
      ct_parentCode := Some "4000"; ct_isPostable := None; ct_isContra := None;
      ct_description := Some "Customer-paid shipping, which is income and not a fee." |};
   {| ct_code := "4300"; ct_name := "Buyer Fee Income"; ct_accountType := Revenue;
      ct_accountSubtype := None; ct_systemKey := Some "buyer_fee_income";
      ct_parentCode := Some "4000"; ct_isPostable := None; ct_isContra := None;
      ct_description := Some "Surcharges the SELLER charges the BUYER — handling, small-order, COD, gift wrap — which arrive as order_fees with fee_direction = 'buyer_surcharge' and are already inside the order total. Income, never a fee expense." |};
   {| ct_code := "4900"; ct_name := "Sales Returns"; ct_accountType := Revenue;
      ct_accountSubtype := None; ct_systemKey := Some "sales_returns";
      ct_parentCode := Some "4000"; ct_isPostable := None; ct_isContra := Some true;
      ct_description := Some "Contra revenue: a flag on the ordinary type rather than a sixth account type, which keeps statement grouping trivial." |};
   {| ct_code := "5000"; ct_name := "Cost of Goods Sold"; ct_accountType := Expenditure;
      ct_accountSubtype := None; ct_systemKey := None;
      ct_parentCode := None; ct_isPostable := Some false; ct_isContra := None;
      ct_description := Some "Roll-up header." |};
   {| ct_code := "5100"; ct_name := "Cost of Goods Sold"; ct_accountType := Expenditure;
      ct_accountSubtype := Some "cogs"; ct_systemKey := Some "cogs";
      ct_parentCode := Some "5000"; ct_isPostable := None; ct_isContra := None;
      ct_description := Some "Posted from depletion movements at the item's frozen landed cost. This is the only way per-item realized contribution and the P&L can agree." |};
   {| ct_code := "6000"; ct_name := "Operating Expenses"; ct_accountType := Expenditure;
      ct_accountSubtype := None; ct_systemKey := None;
      ct_parentCode := None; ct_isPostable := Some false; ct_isContra := None;
      ct_description := Some "Roll-up header." |};
   {| ct_code := "6100"; ct_name := "Marketplace Fees"; ct_accountType := Expenditure;
      ct_accountSubtype := Some "marketplace_fees"; ct_systemKey := Some "marketplace_fees";
      ct_parentCode := Some "6000"; ct_isPostable := None; ct_isContra := None;
      ct_description := Some "Seller-charged platform fees only (fee_direction = 'seller_charge'): final value, insertion, regulatory operating, promoted listing." |};
   {| ct_code := "6200"; ct_name := "Payment Processing Fees"; ct_accountType := Expenditure;
      ct_accountSubtype := Some "marketplace_fees"; ct_systemKey := Some "payment_processing_fees";
      ct_parentCode := Some "6000"; ct_isPostable := None; ct_isContra := None;
      ct_description := None |};
   {| ct_code := "6300"; ct_name := "Shipping Expense"; ct_accountType := Expenditure;
      ct_accountSubtype := Some "shipping_expense"; ct_systemKey := Some "shipping_expense";
      ct_parentCode := Some "6000"; ct_isPostable := None; ct_isContra := None;
      ct_description := Some "Actual postage and label cost — the outbound side of the shipping pair whose income half is 4200." |};
   {| ct_code := "6900"; ct_name := "FX Gain / Loss"; ct_accountType := Expenditure;
      ct_accountSubtype := Some "fx_gain_loss"; ct_systemKey := Some "fx_gain_loss";
      ct_parentCode := Some "6000"; ct_isPostable := None; ct_isContra := None;
      ct_description := Some "Realized conversion difference. Unused while this build is USD-only, and seeded anyway: it is the account the posting engine must be able to reach the moment a second currency exists, and an entry that cannot resolve it silently plugs to suspense instead." |}
  ]%string.

(** ** Helpers *)
Inductive NormalBalance : Type := Debit | Credit.

Definition normalBalanceOf (accountType : AccountType) (isContra : bool) : NormalBalance :=
  let natural := match accountType with Asset | Expenditure => Debit | _ => Credit end in
  if negb isContra then natural
  else match natural with Debit => Credit | Credit => Debit end.

Definition find_account (p : LedgerAccount -> bool) (db : Db) : option LedgerAccount :=
  find_row p (db_accounts db).

Definition loadAccount (ledgerAccountId : uuid) : run LedgerAccount :=
  db ← st_get;
  match find_account (fun a => bool_decide (la_id a = ledgerAccountId)) db with
  | None => st_throw AccountingNotFoundError
  | Some row => mret row
  end.

Definition assertBookExists (accountingBookId : uuid) : run unit :=
  db ← st_get;
  if exists_id bk_id accountingBookId (db_books db) then mret tt
  else st_throw AccountingNotFoundError.

Definition account_audit (action : string) (resource : string) (id : uuid)
    (actor request : option string) : AuditEvent :=
  {| ae_actorUserId := actor; ae_action := action; ae_resourceType := resource;
     ae_resourceId := Some id; ae_requestId := request |}.

(** ** Seeding *)

(** [byCode]: the JavaScript [Map] keeps its insertion order, and [set] on a
    key it has replaces the value in place. *)
Fixpoint map_set {A} (key : A -> string) (m : list A) (a : A) : list A :=
  match m with
  | [] => [a]
  | b :: m' => if String.eqb (key b) (key a) then a :: m' else b :: map_set key m' a
  end.
Definition map_get {A} (key : A -> string) (m : list A) (k : string) : option A :=
  find_row (fun a => String.eqb (key a) k) m.

Definition seedRow (accountingBookId : uuid) (account : ChartTemplateAccount)
    (parent : option LedgerAccount) (id : uuid) (now : Z) : LedgerAccount :=
  {| la_id := id; la_accountingBookId := accountingBookId;
     la_code := ct_code account; la_name := ct_name account;
     la_accountType := ct_accountType account;
     la_accountSubtype := ct_accountSubtype account;
     la_parentAccountId := la_id <$> parent;
     la_isPostable := default true (ct_isPostable account);
     la_isContra := default false (ct_isContra account);
     la_systemKey := ct_systemKey account; la_currency := None;
     la_description := ct_description account; la_status := AccountActive;
     la_createdAt := now; la_updatedAt := now |}.

Fixpoint seed_loop (accountingBookId : uuid) (ordered : list ChartTemplateAccount)
    (byCode : list LedgerAccount) : run (list LedgerAccount) :=
  match ordered with
  | [] => mret byCode
  | account :: ordered =>
      if is_some (map_get la_code byCode (ct_code account))
      then seed_loop accountingBookId ordered byCode
      else
        let parent := match ct_parentCode account with
                      | None => None
                      | Some c => map_get la_code byCode c
                      end in
        if is_some (ct_parentCode account) && negb (is_some parent)
        then st_throw AccountingValidationError
        else
          row ← insertAccount (seedRow accountingBookId account parent);
          seed_loop accountingBookId ordered (map_set la_code byCode row)
  end.

Definition book_accounts (accountingBookId : uuid) (db : Db) : list LedgerAccount :=
  List.filter (fun a => bool_decide (la_accountingBookId a = accountingBookId)) (db_accounts db).

(** [ordered]: headers first, so that a parent exists before its children. *)
Definition template_order (template : list ChartTemplateAccount) : list ChartTemplateAccount :=
  List.filter (fun a => negb (is_some (ct_parentCode a))) template
  ++ List.filter (fun a => is_some (ct_parentCode a)) template.

(** The rows come back in the order of [byCode]; the source sorts them by code
    with [localeCompare], which no caller relies on. *)
Definition seed (accountingBookId : uuid) (template : list ChartTemplateAccount)
    : run (list LedgerAccount) :=
  existing ← st_gets (book_accounts accountingBookId);
  let byCode := fold_left (map_set la_code) existing [] in
  seed_loop accountingBookId (template_order template) byCode.

Definition seedDefaultChart_body (accountingBookId : uuid) (template : list ChartTemplateAccount)
    (actor request : option string) : run (list LedgerAccount) :=
  _ ← assertBookExists accountingBookId;
  before ← st_gets (book_accounts accountingBookId);
  rows ← seed accountingBookId template;
  _ ← (if (length before <? length rows)%nat
       then audit_append (account_audit "accounting.chart.seeded" "accounting_book"
                            accountingBookId actor request)
       else mret tt);
  mret rows.

Definition seedDefaultChart (accountingBookId : uuid)
    (template : option (list ChartTemplateAccount)) (actor request : option string)
    : run (list LedgerAccount) :=
  transaction (seedDefaultChart_body accountingBookId
                 (default DEFAULT_CHART_TEMPLATE template) actor request).

(** ** Operator edits *)
Record CreateAccountInput : Type := {
  ca_accountingBookId : uuid;
  ca_code : string;
  ca_name : string;
  ca_accountType : AccountType;
  ca_accountSubtype : option string;
  ca_systemKey : option string;
  ca_parentAccountId : option uuid;
  ca_isPostable : option bool;
  ca_isContra : option bool;
  ca_currency : option string;
  ca_description : option string;
  ca_actorUserId : option string;
  ca_requestId : option string;
}.

Definition createAccountSchema (i : CreateAccountInput) : result CreateAccountInput :=
  code ← z_text (ca_code i);
  name ← z_text (ca_name i);
  subtype ← z_opt z_text (ca_accountSubtype i);
  _ ← z_check (match ca_systemKey i with
               | None => true
               | Some k => bool_decide (k ∈ LEDGER_SYSTEM_KEYS)
               end);
  _ ← z_check (match ca_currency i with None => true | Some c => Text.three_letters c end);
  description ← z_opt z_text (ca_description i);
  actor ← z_user (ca_actorUserId i);
  request ← z_user (ca_requestId i);
  mret {| ca_accountingBookId := ca_accountingBookId i; ca_code := code; ca_name := name;
          ca_accountType := ca_accountType i; ca_accountSubtype := subtype;
          ca_systemKey := ca_systemKey i; ca_parentAccountId := ca_parentAccountId i;
          ca_isPostable := Some (default true (ca_isPostable i));
          ca_isContra := Some (default false (ca_isContra i)); ca_currency := ca_currency i;
          ca_description := description; ca_actorUserId := actor; ca_requestId := request |}.

Definition createAccount_body (value : CreateAccountInput) : run LedgerAccount :=
  _ ← assertBookExists (ca_accountingBookId value);
  _ ← match ca_parentAccountId value with
      | None => mret tt
      | Some p =>
          parent ← loadAccount p;
          st_lift (throw_if (bool_decide (la_accountingBookId parent <> ca_accountingBookId value))
                     AccountingValidationError)
      end;
  row ← insertAccount (fun id now =>
    {| la_id := id; la_accountingBookId := ca_accountingBookId value;
       la_code := ca_code value; la_name := ca_name value;
       la_accountType := ca_accountType value; la_accountSubtype := ca_accountSubtype value;
       la_parentAccountId := ca_parentAccountId value;
       la_isPostable := default true (ca_isPostable value);
       la_isContra := default false (ca_isContra value);
       la_systemKey := ca_systemKey value;
       la_currency := Text.toUpperCase <$> ca_currency value;
       la_description := ca_description value; la_status := AccountActive;
       la_createdAt := now; la_updatedAt := now |});
  _ ← audit_append (account_audit "accounting.account.created" "ledger_account" (la_id row)
                      (ca_actorUserId value) (ca_requestId value));
  mret row.

Definition createAccount (input : CreateAccountInput) : run LedgerAccount :=
  value ← st_lift (createAccountSchema input);
  transaction (createAccount_body value).

(** [None] is an absent key; for a nullish key, [Some None] is [null]. *)
Record UpdateAccountInput : Type := {
  ua_ledgerAccountId : uuid;
  ua_code : option string;
  ua_name : option string;
  ua_accountSubtype : option (option string);
  ua_parentAccountId : option (option uuid);
  ua_isPostable : option bool;
  ua_description : option (option string);
  ua_actorUserId : option string;
  ua_requestId : option string;
}.

Definition updateAccountSchema (i : UpdateAccountInput) : result UpdateAccountInput :=
  code ← z_opt z_text (ua_code i);
  name ← z_opt z_text (ua_name i);
  subtype ← z_opt (z_opt z_text) (ua_accountSubtype i);
  description ← z_opt (z_opt z_text) (ua_description i);
  actor ← z_user (ua_actorUserId i);
  request ← z_user (ua_requestId i);
  mret {| ua_ledgerAccountId := ua_ledgerAccountId i; ua_code := code; ua_name := name;
          ua_accountSubtype := subtype; ua_parentAccountId := ua_parentAccountId i;
          ua_isPostable := ua_isPostable i; ua_description := description;
          ua_actorUserId := actor; ua_requestId := request |}.

(** The assignments of the [update ledger_accounts] statement. *)
Definition apply_account_update (value : UpdateAccountInput) (now : Z) (a : LedgerAccount)
    : LedgerAccount :=
  {| la_id := la_id a; la_accountingBookId := la_accountingBookId a;
     la_code := default (la_code a) (ua_code value);
     la_name := default (la_name a) (ua_name value);
     la_accountType := la_accountType a;
     la_accountSubtype := default (la_accountSubtype a) (ua_accountSubtype value);
     la_parentAccountId := default (la_parentAccountId a) (ua_parentAccountId value);
     la_isPostable := default (la_isPostable a) (ua_isPostable value);
     la_isContra := la_isContra a; la_systemKey := la_systemKey a;
     la_currency := la_currency a;
     la_description := default (la_description a) (ua_description value);
     la_status := la_status a; la_createdAt := la_createdAt a; la_updatedAt := now |}.

Definition account_status_update (status : AccountStatus) (now : Z) (a : LedgerAccount)
    : LedgerAccount :=
  {| la_id := la_id a; la_accountingBookId := la_accountingBookId a; la_code := la_code a;
     la_name := la_name a; la_accountType := la_accountType a;
     la_accountSubtype := la_accountSubtype a; la_parentAccountId := la_parentAccountId a;
     la_isPostable := la_isPostable a; la_isContra := la_isContra a;
     la_systemKey := la_systemKey a; la_currency := la_currency a;
     la_description := la_description a; la_status := status;
     la_createdAt := la_createdAt a; la_updatedAt := now |}.

Definition updateAccount_body (value : UpdateAccountInput) : run LedgerAccount :=
  before ← loadAccount (ua_ledgerAccountId value);
  _ ← st_lift (z_opt textLiteral (ua_code value));
  _ ← st_lift (z_opt textLiteral (ua_name value));
  _ ← st_lift (z_opt textLiteral_opt (ua_accountSubtype value));
  _ ← st_lift (z_opt textLiteral_opt (ua_description value));
  _ ← match ua_parentAccountId value with
      | Some (Some p) =>
          parent ← loadAccount p;
          st_lift (throw_if (bool_decide (la_accountingBookId parent <> la_accountingBookId before))
                     AccountingValidationError)
      | _ => mret tt
      end;
  _ ← match ua_isPostable value with
      | Some false =>
          used ← st_gets (fun db => existsb (fun l => bool_decide (jl_ledgerAccountId l = la_id before))
                                      (db_lines db));
          st_lift (throw_if used AccountingValidationError)
      | _ => mret tt
      end;
  now ← st_gets db_now;
  _ ← Ledger.updateAccount (la_id before) (apply_account_update value now);
  after ← loadAccount (la_id before);
  _ ← audit_append (account_audit "accounting.account.updated" "ledger_account" (la_id before)
                      (ua_actorUserId value) (ua_requestId value));
  mret after.

Definition updateAccount (input : UpdateAccountInput) : run LedgerAccount :=
  value ← st_lift (updateAccountSchema input);
  transaction (updateAccount_body value).

Definition archiveAccount (ledgerAccountId : uuid) (actor request : option string)
    : run LedgerAccount :=
  transaction (
    before ← loadAccount ledgerAccountId;
    _ ← st_lift (throw_if (is_some (la_systemKey before)) LedgerImmutableError);
    if bool_decide (la_status before = AccountArchived) then mret before
    else
      now ← st_gets db_now;
      _ ← Ledger.updateAccount (la_id before) (account_status_update AccountArchived now);
      after ← loadAccount (la_id before);
      _ ← audit_append (account_audit "accounting.account.archived" "ledger_account"
                          (la_id before) actor request);
      mret after).

Definition reactivateAccount (ledgerAccountId : uuid) (actor request : option string)
    : run LedgerAccount :=
  transaction (
    before ← loadAccount ledgerAccountId;
    if bool_decide (la_status before = AccountActive) then mret before
    else
      now ← st_gets db_now;
      _ ← Ledger.updateAccount (la_id before) (account_status_update AccountActive now);
      after ← loadAccount (la_id before);
      _ ← audit_append (account_audit "accounting.account.reactivated" "ledger_account"
                          (la_id before) actor request);
      mret after).

(** ** Lookups *)
Definition findByCode (accountingBookId : uuid) (code : string) : run (option LedgerAccount) :=
  st_gets (find_account (fun a => bool_decide (la_accountingBookId a = accountingBookId)
                                  && String.eqb (la_code a) code)).

Definition findBySystemKey (accountingBookId : uuid) (systemKey : string)
    : run (option LedgerAccount) :=
  st_gets (find_account (fun a => bool_decide (la_accountingBookId a = accountingBookId)
                                  && opt_eqb (la_systemKey a) systemKey)).

Definition requireSystemAccount (accountingBookId : uuid) (systemKey : string)
    : run LedgerAccount :=
  row ← findBySystemKey accountingBookId systemKey;
  match row with None => st_throw AccountingNotFoundError | Some row => mret row end.

(** ** Closure *)
Lemma loadAccount_reads id : reads (loadAccount id).
Proof. unfold loadAccount. solve_respects. Qed.
Lemma assertBookExists_reads id : reads (assertBookExists id).
Proof. unfold assertBookExists. solve_respects. Qed.
#[export] Hint Resolve loadAccount_reads assertBookExists_reads : store.
#[export] Hint Resolve audit_append_step_ok insertAccount_step_ok : store.

Lemma seed_loop_step_ok book ordered byCode : respects step_ok (seed_loop book ordered byCode).
Proof. revert byCode. induction ordered as [|a l IH]; intros; simpl; solve_respects. Qed.
#[export] Hint Resolve seed_loop_step_ok : store.

Lemma seedDefaultChart_tx_ok book t actor request :
  always tx_ok (seedDefaultChart book t actor request).
Proof.
  apply transaction_tx_ok. unfold seedDefaultChart_body, seed. solve_respects.
Qed.

Lemma createAccount_tx_ok i : always tx_ok (createAccount i).
Proof.
  unfold createAccount. solve_respects. apply transaction_tx_ok.
  unfold createAccount_body. solve_respects.
Qed.

Lemma updateAccount_tx_ok i : always tx_ok (updateAccount i).
Proof.
  unfold updateAccount. solve_respects. apply transaction_tx_ok.
  unfold updateAccount_body. solve_respects. by apply updateAccount_step_ok.
Qed.

Lemma archiveAccount_tx_ok id actor request : always tx_ok (archiveAccount id actor request).
Proof. apply transaction_tx_ok. solve_respects. by apply updateAccount_step_ok. Qed.

Lemma reactivateAccount_tx_ok id actor request : always tx_ok (reactivateAccount id actor request).
Proof. apply transaction_tx_ok. solve_respects. by apply updateAccount_step_ok. Qed.

(** ** What an edit may change *)

(** [a'] is [a] after edits: the same account of the same book, of the same
    type, with the same system key, and a system account still active. *)
Definition same_account (a a' : LedgerAccount) : Prop :=
  la_id a' = la_id a /\ la_accountingBookId a' = la_accountingBookId a /\
  la_accountType a' = la_accountType a /\ la_systemKey a' = la_systemKey a /\
  la_isContra a' = la_isContra a /\
  (la_systemKey a <> None -> la_status a = AccountActive -> la_status a' = AccountActive).

Definition accounts_kept (db db' : Db) : Prop :=
  NoDup (la_id <$> db_accounts db) -> NoDup (la_id <$> db_accounts db') /\
  forall a, a ∈ db_accounts db -> exists a', a' ∈ db_accounts db' /\ same_account a a'.

#[export] Instance accounts_kept_preorder : PreOrder accounts_kept.
Proof.
  split.
  - intros db Hn. split; [done|]. intros a Ha. exists a. by repeat split.
  - intros x y z H1 H2 Hn. destruct (H1 Hn) as [N1 K1]. destruct (H2 N1) as [N2 K2].
    split; [done|]. intros a Ha. destruct (K1 a Ha) as (b & Hb & S1).
    destruct (K2 b Hb) as (c & Hc & S2). exists c. split; [done|].
    destruct S1 as (E1 & E2 & E3 & E4 & E5 & E6), S2 as (F1 & F2 & F3 & F4 & F5 & F6).
    repeat split; try congruence. intros. apply F6; [congruence|auto].
Qed.

Lemma accounts_kept_frame db db' : db_accounts db' = db_accounts db -> accounts_kept db db'.
Proof. intros E Hn. rewrite E. by apply (reflexivity (R := accounts_kept) db). Qed.

Lemma audit_append_kept e : respects accounts_kept (audit_append e).
Proof. intros db u db' H. unfold audit_append in H. inv_st. by apply accounts_kept_frame. Qed.

Lemma insertAccount_kept v :
  (forall id now, la_id (v id now) = id) -> respects accounts_kept (insertAccount v).
Proof.
  intros V db r db' H. unfold insertAccount in H. inv_stmt. intros Hn. cbn in *.
  split; [apply NoDup_keys_snoc; rewrite V; split; [done|by apply exists_id_false]|].
  intros a Ha. exists a. split; [set_solver|]. by repeat split.
Qed.

Lemma updateAccount_kept id f db r db' :
  (forall a, la_id (f a) = la_id a) ->
  (NoDup (la_id <$> db_accounts db) ->
   forall a, a ∈ db_accounts db -> la_id a = id -> same_account a (f a)) ->
  Ledger.updateAccount id f db = (Ok r, db') -> accounts_kept db db'.
Proof.
  intros Hid Hf H. unfold Ledger.updateAccount in H. inv_stmt. intros Hn. cbn.
  split; [by rewrite update_rows_keys|]. intros a Ha. eexists.
  split; [apply update_rows_elem; eauto|]. case_bool_decide; [auto|by repeat split].
Qed.

Lemma loadAccount_inv id db a db' :
  loadAccount id db = (Ok a, db') -> a ∈ db_accounts db /\ la_id a = id /\ db' = db.
Proof.
  unfold loadAccount. intros H. inv_st. destruct (find_account _ _) eqn:E; inv_st.
  by apply find_row_some in E as [? ?%bool_decide_eq_true].
Qed.

Lemma transaction_kept {A} (body : run A) :
  respects accounts_kept body -> always accounts_kept (transaction body).
Proof.
  intros Hb db. unfold transaction. destruct (body (begin_tx db)) as [[a|e] db1] eqn:E;
    [|cbn; reflexivity].
  destruct (commit_check db1); cbn; [|reflexivity]. intros Hn. by apply (Hb _ _ _ E).
Qed.

Lemma reads_kept {A} (m : run A) : reads m -> respects accounts_kept m.
Proof. apply reads_respects. apply _. Qed.
#[local] Hint Resolve reads_kept audit_append_kept : store.

Lemma seed_loop_kept book ordered byCode : respects accounts_kept (seed_loop book ordered byCode).
Proof.
  revert byCode. induction ordered as [|a l IH]; intros; simpl; solve_respects.
  by apply insertAccount_kept.
Qed.
#[local] Hint Resolve seed_loop_kept : store.

Lemma seedDefaultChart_kept book t actor request :
  always accounts_kept (seedDefaultChart book t actor request).
Proof. apply transaction_kept. unfold seedDefaultChart_body, seed. solve_respects. Qed.

Lemma createAccount_kept i : always accounts_kept (createAccount i).
Proof.
  unfold createAccount. solve_respects. apply transaction_kept.
  unfold createAccount_body. solve_respects. by apply insertAccount_kept.
Qed.

(** A body that updates the account it loaded. *)
Lemma status_update_kept (before : LedgerAccount) st now id db r db' :
  before ∈ db_accounts db -> la_id before = id ->
  (la_systemKey before <> None -> st = AccountActive) ->
  Ledger.updateAccount id (account_status_update st now) db = (Ok r, db') -> accounts_kept db db'.
Proof.
  intros Hb <- Hs. apply updateAccount_kept; [done|]. intros Hn a Ha Hid.
  assert (a = before) as -> by (by eapply NoDup_keys_inj).
  repeat split; try done. cbn. auto.
Qed.

(** The three statements that end a status change. *)
Ltac status_updated :=
  match goal with
  | Hu : Ledger.updateAccount _ _ _ = _, Hl : loadAccount _ _ = _, Ha : audit_append _ _ = _ |- _ =>
      apply loadAccount_inv in Hl as (_ & _ & ->);
      unfold audit_append in Ha; apply st_modify_inv in Ha as [_ ->];
      eapply status_update_kept in Hu; [exact Hu|eassumption|reflexivity|]
  end.

Lemma archiveAccount_kept id actor request : always accounts_kept (archiveAccount id actor request).
Proof.
  apply transaction_kept. intros db r db' H. run_bind H before db1 Hb.
  apply loadAccount_inv in Hb as (Hb & Hid & ->). run_bind H u db1 Hk.
  apply st_lift_inv in Hk as [Hk%throw_if_Ok ->].
  case_bool_decide; [inv_st; reflexivity|]. run_bind H now db1 Hnow. inv_st.
  status_updated. by destruct (la_systemKey before).
Qed.

Lemma reactivateAccount_kept id actor request :
  always accounts_kept (reactivateAccount id actor request).
Proof.
  apply transaction_kept. intros db r db' H. run_bind H before db1 Hb.
  apply loadAccount_inv in Hb as (Hb & Hid & ->).
  case_bool_decide; [inv_st; reflexivity|]. run_bind H now db1 Hnow. inv_st. by status_updated.
Qed.

Lemma updateAccount_service_kept i : always accounts_kept (updateAccount i).
Proof.
  unfold updateAccount. solve_respects. apply transaction_kept.
  unfold updateAccount_body. solve_respects.
  intros db r db'. apply updateAccount_kept; [done|]. intros _ b _ _. by repeat split.
Qed.

(** No operation on the chart deletes an account, moves it to another book
    or another account type, or changes its system key; and a system account
    that is active stays active.  This holds whether the operation returns or
    throws. *)
Theorem chart_keeps_identity (db : Db) :
  NoDup (la_id <$> db_accounts db) ->
  let kept db' := forall a, a ∈ db_accounts db -> exists a', a' ∈ db_accounts db' /\ same_account a a' in
  (forall i, kept (snd (createAccount i db))) /\
  (forall i, kept (snd (updateAccount i db))) /\
  (forall id actor request, kept (snd (archiveAccount id actor request db))) /\
  (forall id actor request, kept (snd (reactivateAccount id actor request db))) /\
  (forall book t actor request, kept (snd (seedDefaultChart book t actor request db))).
Proof.
  intros Hn kept. split; [|split; [|split; [|split]]]; intros.
  - exact (proj2 (createAccount_kept i db Hn)).
  - exact (proj2 (updateAccount_service_kept i db Hn)).
  - exact (proj2 (archiveAccount_kept id actor request db Hn)).
  - exact (proj2 (reactivateAccount_kept id actor request db Hn)).
  - exact (proj2 (seedDefaultChart_kept book t actor request db Hn)).
Qed.

(** ** The starter chart *)
Definition from_template (book : uuid) (t : ChartTemplateAccount) (r : LedgerAccount) : Prop :=
  exists parent id now, r = seedRow book t parent id now.

Lemma map_get_set_other {A} (key : A -> string) m a k :
  key a <> k -> map_get key (map_set key m a) k = map_get key m k.
Proof.
  intros Hk. induction m as [|b m IH]; cbn.
  - by rewrite (proj2 (String.eqb_neq _ _) Hk).
  - destruct (String.eqb_spec (key b) (key a)) as [E|E]; cbn.
    + rewrite E. by rewrite (proj2 (String.eqb_neq _ _) Hk).
    + destruct (String.eqb (key b) k); [done|]. exact IH.
Qed.

Lemma insertAccount_inv v db r db' :
  insertAccount v db = (Ok r, db') ->
  (exists id now, r = v id now) /\ db_accounts db' = db_accounts db ++ [r].
Proof. intros H. unfold insertAccount in H. inv_stmt. eauto. Qed.

Lemma seed_loop_spec book ordered byCode db m db' :
  seed_loop book ordered byCode db = (Ok m, db') ->
  exists new, db_accounts db' = db_accounts db ++ new /\
    (forall r, r ∈ new -> exists t, t ∈ ordered /\ from_template book t r) /\
    (NoDup (ct_code <$> ordered) ->
     forall t, t ∈ ordered -> map_get la_code byCode (ct_code t) = None ->
       exists r, r ∈ new /\ from_template book t r).
Proof.
  revert byCode db. induction ordered as [|a l IH]; intros byCode db H; cbn [seed_loop] in H.
  - inv_st. exists []. rewrite app_nil_r. split; [done|]. split; [set_solver|].
    intros _ t Ht. set_solver.
  - destruct (is_some (map_get la_code byCode (ct_code a))) eqn:Eskip.
    + apply IH in H as (new & E & Hfrom & Hall). exists new. split; [done|]. split.
      * intros r Hr. destruct (Hfrom r Hr) as (t & ? & ?). exists t. set_solver.
      * csimpl. intros [_ Hn]%NoDup_cons t [->|Ht]%elem_of_cons Hg; [by rewrite Hg in Eskip|auto].
    + set (parent := match ct_parentCode a with None => None | Some c => map_get la_code byCode c end) in H.
      destruct (is_some (ct_parentCode a) && negb (is_some parent)); [inv_st|].
      run_bind H row db1 Hi. apply insertAccount_inv in Hi as [(id & now & Hrow) E1].
      apply IH in H as (new & E & Hfrom & Hall). exists (row :: new).
      split; [rewrite E, E1, <- (assoc_L (++)); done|]. split.
      * intros r [->|Hr]%elem_of_cons; [exists a; split; [set_solver|by repeat eexists]|].
        destruct (Hfrom r Hr) as (t & ? & ?). exists t. set_solver.
      * csimpl. intros [Hnin Hn]%NoDup_cons t [->|Ht]%elem_of_cons Hg.
        -- exists row. split; [set_solver|by repeat eexists].
        -- destruct (Hall Hn t Ht) as (r & ? & ?); [|exists r; set_solver].
           rewrite map_get_set_other; [done|]. rewrite Hrow. cbn. intros Ec.
           apply Hnin. rewrite Ec. apply list_elem_of_fmap. eauto.
Qed.

Lemma template_codes_unique : NoDup (ct_code <$> template_order DEFAULT_CHART_TEMPLATE).
Proof. by apply (bool_decide_unpack _). Qed.

(** Every system key is in the template, on a postable account. *)
Lemma template_keys k :
  k ∈ LEDGER_SYSTEM_KEYS ->
  exists t, t ∈ template_order DEFAULT_CHART_TEMPLATE /\ ct_systemKey t = Some k.
Proof.
  intros Hk.
  assert (forallb (fun k => existsb (fun t => bool_decide (ct_systemKey t = Some k))
            (template_order DEFAULT_CHART_TEMPLATE)) LEDGER_SYSTEM_KEYS = true) as E by reflexivity.
  rewrite forallb_elem in E. specialize (E k Hk). apply existsb_elem in E as (t & Ht & E).
  exists t. by apply bool_decide_eq_true in E.
Qed.

Lemma template_postable t :
  t ∈ template_order DEFAULT_CHART_TEMPLATE -> ct_systemKey t <> None ->
  default true (ct_isPostable t) = true.
Proof.
  intros Ht Hk.
  assert (forallb (fun t => negb (is_some (ct_systemKey t)) || default true (ct_isPostable t))
            (template_order DEFAULT_CHART_TEMPLATE) = true) as E by reflexivity.
  rewrite forallb_elem in E. specialize (E t Ht). by destruct (ct_systemKey t).
Qed.

#[local] Opaque DEFAULT_CHART_TEMPLATE.

(** Seeding a book that has no accounts gives every system key of the
    posting rules exactly the resolution they rely on: [requireSystemAccount]
    finds, for each key, an active account of that book that is postable. *)
Theorem seeded_chart_resolves (book : uuid) (actor request : option string) (db db' : Db)
    (rows : list LedgerAccount) (k : string) :
  book_accounts book db = [] ->
  seedDefaultChart book None actor request db = (Ok rows, db') ->
  k ∈ LEDGER_SYSTEM_KEYS ->
  exists a, requireSystemAccount book k db' = (Ok a, db') /\
    la_accountingBookId a = book /\ la_systemKey a = Some k /\
    la_isPostable a = true /\ la_status a = AccountActive.
Proof.
  intros Hempty H Hk. apply transaction_inv in H as (db1 & H & _ & ->).
  unfold seedDefaultChart_body in H. run_bind H u db0 Hb.
  apply (reads_run _ _ _ _ (assertBookExists_reads book)) in Hb as ->.
  run_bind H before db0 Hbefore. apply st_gets_inv in Hbefore as [-> ->].
  run_bind H rows0 db2 Hseed. unfold seed in Hseed. run_bind Hseed ex db3 Hex.
  apply st_gets_inv in Hex as [-> ->].
  change (book_accounts book (begin_tx db)) with (book_accounts book db) in Hseed.
  rewrite Hempty in Hseed. apply seed_loop_spec in Hseed as (new & Eacc & Hfrom & Hall).
  assert (db_accounts db1 = db_accounts db ++ new) as Eacc1.
  { run_bind H v db4 Haud. inv_st. destruct (_ <? _)%nat; unfold audit_append in *; inv_st; exact Eacc. }
  destruct (template_keys k Hk) as (t & Ht & Etk).
  destruct (Hall template_codes_unique t Ht eq_refl) as (r & Hr & (p & id & now & Er)).
  unfold requireSystemAccount, findBySystemKey.
  set (q := fun a => bool_decide (la_accountingBookId a = book) && opt_eqb (la_systemKey a) k).
  destruct (find_account q (set_deferred [] db1)) as [a|] eqn:Ef.
  - exists a. split.
    { erewrite st_bind_run by (unfold st_gets; by rewrite Ef). done. }
    apply find_row_some in Ef as [Ha Hq]. cbn in Ha. rewrite Eacc1 in Ha.
    unfold q in Hq. apply andb_true_iff in Hq as [Hbook%bool_decide_eq_true Hkey%bool_decide_eq_true].
    split; [done|]. split; [done|].
    apply elem_of_app in Ha as [Ha|Ha].
    + exfalso. assert (a ∈ book_accounts book db) as Hin.
      { apply list_elem_of_In, filter_In. split; [by apply list_elem_of_In|].
        by apply bool_decide_eq_true. }
      rewrite Hempty in Hin. by apply elem_of_nil in Hin.
    + destruct (Hfrom a Ha) as (t' & Ht' & p' & id' & now' & ->). split; [|done].
      apply template_postable; [done|]. cbn in Hkey. by rewrite Hkey.
  - apply find_row_none with (r := r) in Ef.
    + unfold q in Ef. rewrite Er in Ef. cbn in Ef. rewrite bool_decide_true in Ef by done.
      cbn in Ef. by apply bool_decide_eq_false in Ef.
    + cbn. rewrite Eacc1. apply elem_of_app. by right.
Qed.

Definition sample_chart_book : AccountingBook :=
  {| bk_id := 1; bk_code := "MAIN"; bk_name := "Main book"; bk_functionalCurrency := "USD";
     bk_accountingBasis := Accrual; bk_fiscalYearStartMonth := 1; bk_fiscalYearStartDay := 1;
     bk_requiresEntityDimension := false; bk_nextEntryNumber := 1; bk_status := BookActive;
     bk_openedOn := 20260101; bk_notes := None; bk_createdByUserId := None;
     bk_createdAt := 0; bk_updatedAt := 0 |}.
Definition chart_db : Db := installation [] [] [sample_chart_book].
Definition chart_seeded : Db := snd (seedDefaultChart 1 None None None chart_db).

Lemma chart_seeded_ok : is_ok (fst (seedDefaultChart 1 None None None chart_db)) = true.
Proof. vm_compute. reflexivity. Qed.

Lemma seeded_chart_resolves_witness :
  exists a, requireSystemAccount 1 "cogs" chart_seeded = (Ok a, chart_seeded) /\
    la_accountingBookId a = 1%positive /\ la_systemKey a = Some "cogs"%string /\
    la_isPostable a = true /\ la_status a = AccountActive.
Proof.
  destruct (fst (seedDefaultChart 1 None None None chart_db)) as [rows|e] eqn:E.
  - apply (seeded_chart_resolves 1 None None chart_db chart_seeded rows "cogs");
      [reflexivity | rewrite <- E; apply surjective_pairing | by apply (bool_decide_unpack _)].
  - exfalso. pose proof chart_seeded_ok as Hok. rewrite E in Hok. discriminate Hok.
Defined.

Lemma chart_keeps_identity_witness :
  let kept db' := forall a, a ∈ db_accounts chart_seeded ->
    exists a', a' ∈ db_accounts db' /\ same_account a a' in
  (forall i, kept (snd (createAccount i chart_seeded))) /\
  (forall i, kept (snd (updateAccount i chart_seeded))) /\
  (forall id actor request, kept (snd (archiveAccount id actor request chart_seeded))) /\
  (forall id actor request, kept (snd (reactivateAccount id actor request chart_seeded))) /\
  (forall book t actor request, kept (snd (seedDefaultChart book t actor request chart_seeded))).
Proof.
  apply (chart_keeps_identity chart_seeded).
  apply (seedDefaultChart_kept 1 None None None chart_db). constructor.
Defined.
