(* ===== verification/Books.v ===== *)
(** * Accounting books and the routing of facts to them

    [packages/accounting/src/books.ts]: books, the effective-dated links that
    say which book an economic entity posts to, the roll-up rule that keeps a
    part and its parent in one book, and the routing walk.

    The two recursive queries are modelled level by level.  The ancestor walk
    carries the depth bound the query has (32).  The descendant query has no
    bound: over a cyclic hierarchy it never ends.  [descendants] therefore
    takes the number of levels to explore and answers [None] when rows are
    still being produced; [linkEntity] explores one level more than there are
    entities, and a query still running then is one that only a cancellation
    ends, [SqlError "57014"]. *)
From S2P Require Import Prelude Decimal Calendar Inputs Store Schema Ledger LedgerFacts Periods Chart.

Open Scope Z_scope.

(** ** Data *)
Inductive PostingBookSource : Type := EntityLink | ParentEntityLink | InstallationDefault.

Record BookRouting : Type := {
  br_accountingBookId : uuid;
  br_source : PostingBookSource;
  br_viaEconomicEntityId : option uuid;
}.

Record CreateBookInput : Type := {
  cb_code : string;
  cb_name : string;
  cb_functionalCurrency : option string;
  cb_accountingBasis : option AccountingBasis;
  cb_fiscalYearStartMonth : option Z;
  cb_fiscalYearStartDay : option Z;
  cb_requiresEntityDimension : option bool;
  cb_openedOn : date;
  cb_notes : option string;
  cb_seedChart : option bool;
  cb_generatePeriods : option bool;
  cb_createdByUserId : option string;
  cb_requestId : option string;
  cb_template : option (list ChartTemplateAccount);
}.

Definition createBookSchema (i : CreateBookInput) : result CreateBookInput :=
  let month := default 1 (cb_fiscalYearStartMonth i) in
  let day := default 1 (cb_fiscalYearStartDay i) in
  code ← z_text (cb_code i);
  name ← z_text (cb_name i);
  currency ← z_opt (fun c => let t := Text.trim c in
                     _ ← z_check (String.length t =? 3)%nat; mret t) (cb_functionalCurrency i);
  _ ← z_check ((1 <=? month) && (month <=? 12));
  _ ← z_check ((1 <=? day) && (day <=? 31));
  openedOn ← z_date (cb_openedOn i);
  notes ← z_opt z_text (cb_notes i);
  user ← z_user (cb_createdByUserId i);
  request ← z_user (cb_requestId i);
  mret {| cb_code := code; cb_name := name; cb_functionalCurrency := currency;
          cb_accountingBasis := Some (default Accrual (cb_accountingBasis i));
          cb_fiscalYearStartMonth := Some month; cb_fiscalYearStartDay := Some day;
          cb_requiresEntityDimension := Some (default false (cb_requiresEntityDimension i));
          cb_openedOn := openedOn; cb_notes := notes;
          cb_seedChart := Some (default true (cb_seedChart i));
          cb_generatePeriods := Some (default true (cb_generatePeriods i));
          cb_createdByUserId := user; cb_requestId := request;
          cb_template := cb_template i |}.

Record LinkEntityInput : Type := {
  le_accountingBookId : uuid;
  le_economicEntityId : uuid;
  le_linkRole : LinkRole;
  le_effectiveFrom : date;
  le_effectiveTo : option date;
  le_dimensionLabel : option string;
  le_note : option string;
  le_createdByUserId : option string;
  le_requestId : option string;
}.

Definition linkEntitySchema (i : LinkEntityInput) : result LinkEntityInput :=
  from ← z_date (le_effectiveFrom i);
  to ← z_opt z_date (le_effectiveTo i);
  label ← z_opt z_text (le_dimensionLabel i);
  note ← z_opt z_text (le_note i);
  user ← z_user (le_createdByUserId i);
  request ← z_user (le_requestId i);
  mret {| le_accountingBookId := le_accountingBookId i;
          le_economicEntityId := le_economicEntityId i; le_linkRole := le_linkRole i;
          le_effectiveFrom := from; le_effectiveTo := to; le_dimensionLabel := label;
          le_note := note; le_createdByUserId := user; le_requestId := request |}.

(** ** Loading *)
Definition loadBook (accountingBookId : uuid) : run AccountingBook :=
  db ← st_get;
  match find_book accountingBookId db with
  | None => st_throw AccountingNotFoundError
  | Some row => mret row
  end.

Definition loadLink (bookEntityLinkId : uuid) : run BookEntityLink :=
  db ← st_get;
  match find_row (fun l => bool_decide (lk_id l = bookEntityLinkId)) (db_links db) with
  | None => st_throw AccountingNotFoundError
  | Some row => mret row
  end.

Definition find_entity (ents : list EconomicEntity) (id : uuid) : option EconomicEntity :=
  find_row (fun e => bool_decide (ent_id e = id)) ents.

(** ** Routing *)

(** The [chain] of the recursive query: the entity, then its ancestors, with
    [fuel] more levels allowed. *)
Fixpoint chain (ents : list EconomicEntity) (fuel : nat) (id : uuid) : list uuid :=
  match find_entity ents id with
  | None => []
  | Some e =>
      id :: match fuel, ent_parentEntityId e with
            | S fuel, Some parent => chain ents fuel parent
            | _, _ => []
            end
  end.

Definition link_covers (entity : uuid) (t : date) (l : BookEntityLink) : bool :=
  bool_decide (lk_economicEntityId l = entity) && bool_decide (lk_linkRole l = PostingPrimary)
  && (lk_effectiveFrom l <=? t)
  && match lk_effectiveTo l with None => true | Some u => t <=? u end.

Record Route : Type := { rt_accountingBookId : uuid; rt_depth : Z; rt_entityId : uuid }.

Fixpoint route_walk (links : list BookEntityLink) (t : date) (depth : Z) (ids : list uuid) : option Route :=
  match ids with
  | [] => None
  | id :: ids =>
      match find_row (link_covers id t) links with
      | Some l => Some {| rt_accountingBookId := lk_accountingBookId l;
                          rt_depth := depth; rt_entityId := id |}
      | None => route_walk links t (depth + 1) ids
      end
  end.

Definition route_depth : nat := 32.

Definition routeThroughEntity (economicEntityId : uuid) (onDate : date) : run (option Route) :=
  t ← dateLiteral onDate;
  st_gets (fun db => route_walk (db_links db) t 0 (chain (db_entities db) route_depth economicEntityId)).

(** ** The descendant query *)
Definition children (ents : list EconomicEntity) (ids : list uuid) : list uuid :=
  ids ≫= fun id => ent_id <$> List.filter (fun e => opt_eqb (ent_parentEntityId e) id) ents.

Fixpoint descendants (ents : list EconomicEntity) (levels : nat) (ids : list uuid) : option (list uuid) :=
  match children ents ids with
  | [] => Some []
  | next => match levels with
            | O => None
            | S levels => deeper ← descendants ents levels next; mret (next ++ deeper)
            end
  end.

Definition conflictingDescendantLink (economicEntityId accountingBookId : uuid)
    (effectiveFrom : date) (effectiveTo : option date) : run (option BookEntityLink) :=
  from ← dateLiteral effectiveFrom;
  to ← match effectiveTo with None => mret None | Some t => t ← dateLiteral t; mret (Some t) end;
  db ← st_get;
  match descendants (db_entities db) (S (length (db_entities db))) [economicEntityId] with
  | None => st_throw (SqlError "57014")
  | Some ids =>
      mret (find_row (fun l => bool_decide (lk_economicEntityId l ∈ ids)
              && bool_decide (lk_linkRole l = PostingPrimary)
              && bool_decide (lk_accountingBookId l <> accountingBookId)
              && ranges_overlap (lk_effectiveFrom l) (lk_effectiveTo l) from to) (db_links db))
  end.

(** ** Resolution *)
Definition resolveBookForEntity (economicEntityId : option uuid) (onDate : date)
    (installationDefaultBookId : option uuid) : run (option BookRouting) :=
  route ← match economicEntityId with
          | None => mret None
          | Some id => routeThroughEntity id onDate
          end;
  mret (match route, installationDefaultBookId with
        | Some r, _ => Some {| br_accountingBookId := rt_accountingBookId r;
                               br_source := if rt_depth r =? 0 then EntityLink else ParentEntityLink;
                               br_viaEconomicEntityId :=
                                 if rt_depth r =? 0 then None else Some (rt_entityId r) |}
        | None, Some b => Some {| br_accountingBookId := b; br_source := InstallationDefault;
                                  br_viaEconomicEntityId := None |}
        | None, None => None
        end).

Definition requireBookForEntity (economicEntityId : option uuid) (onDate : date)
    (installationDefaultBookId : option uuid) : run BookRouting :=
  routing ← resolveBookForEntity economicEntityId onDate installationDefaultBookId;
  match routing with Some r => mret r | None => st_throw BookRoutingError end.

(** ** Books *)
Definition book_audit (action : string) (id : uuid) (actor request : option string) : AuditEvent :=
  {| ae_actorUserId := actor; ae_action := action; ae_resourceType := "accounting_book";
     ae_resourceId := Some id; ae_requestId := request |}.

Definition createBook_row (value : CreateBookInput) (functionalCurrency : string)
    : run AccountingBook :=
  openedOn ← date_in (cb_openedOn value);
  row ← insertBook (fun id now =>
    {| bk_id := id; bk_code := cb_code value; bk_name := cb_name value;
       bk_functionalCurrency := functionalCurrency;
       bk_accountingBasis := default Accrual (cb_accountingBasis value);
       bk_fiscalYearStartMonth := default 1 (cb_fiscalYearStartMonth value);
       bk_fiscalYearStartDay := default 1 (cb_fiscalYearStartDay value);
       bk_requiresEntityDimension := default false (cb_requiresEntityDimension value);
       bk_nextEntryNumber := 1; bk_status := BookActive; bk_openedOn := openedOn;
       bk_notes := cb_notes value; bk_createdByUserId := cb_createdByUserId value;
       bk_createdAt := now; bk_updatedAt := now |});
  _ ← audit_append (book_audit "accounting.book.created" (bk_id row)
                      (cb_createdByUserId value) (cb_requestId value));
  mret row.

(** The book, the chart and the fiscal year are three transactions: a failure
    of a later one leaves the earlier ones in place. *)
Definition createBook (input : CreateBookInput) : run (AccountingBook * Z * Z) :=
  value ← st_lift (createBookSchema input);
  functionalCurrency ← st_lift (assertSupportedCurrency
    (default DEFAULT_FUNCTIONAL_CURRENCY (cb_functionalCurrency value)));
  book ← transaction (createBook_row value functionalCurrency);
  accountCount ←
    (if default true (cb_seedChart value) then
       accounts ← seedDefaultChart (bk_id book) (cb_template input)
                    (cb_createdByUserId value) (cb_requestId value);
       mret (Z.of_nat (length accounts))
     else mret 0);
  periodCount ←
    (if default true (cb_generatePeriods value) then
       generated ← generateFiscalYear
         {| gf_accountingBookId := bk_id book;
            gf_fiscalYear := fiscalYearFor (bk_openedOn book) (bk_fiscalYearStartMonth book)
                               (bk_fiscalYearStartDay book);
            gf_periodCount := None; gf_actorUserId := cb_createdByUserId value;
            gf_requestId := cb_requestId value |};
       mret (Z.of_nat (length (snd generated)))
     else mret 0);
  mret (book, accountCount, periodCount).

Definition findBookByCode (code : string) : run (option AccountingBook) :=
  st_gets (fun db => find_row (fun b => String.eqb (bk_code b) code) (db_books db)).

(** Ordered by code in the source; here in insertion order. *)
Definition listBooks (includeArchived : bool) : run (list AccountingBook) :=
  st_gets (fun db => List.filter (fun b => includeArchived || bool_decide (bk_status b = BookActive))
                       (db_books db)).

Definition book_with (status : BookStatus) (next : Z) (now : Z) (b : AccountingBook) : AccountingBook :=
  {| bk_id := bk_id b; bk_code := bk_code b; bk_name := bk_name b;
     bk_functionalCurrency := bk_functionalCurrency b; bk_accountingBasis := bk_accountingBasis b;
     bk_fiscalYearStartMonth := bk_fiscalYearStartMonth b;
     bk_fiscalYearStartDay := bk_fiscalYearStartDay b;
     bk_requiresEntityDimension := bk_requiresEntityDimension b; bk_nextEntryNumber := next;
     bk_status := status; bk_openedOn := bk_openedOn b; bk_notes := bk_notes b;
     bk_createdByUserId := bk_createdByUserId b; bk_createdAt := bk_createdAt b;
     bk_updatedAt := now |}.

Definition archiveBook (accountingBookId : uuid) (actor request : option string)
    : run AccountingBook :=
  transaction (
    before ← loadBook accountingBookId;
    if bool_decide (bk_status before = BookArchived) then mret before
    else
      now ← st_gets db_now;
      _ ← updateBook (bk_id before) (fun b => book_with BookArchived (bk_nextEntryNumber b) now b);
      after ← loadBook (bk_id before);
      _ ← audit_append (book_audit "accounting.book.archived" (bk_id before) actor request);
      mret after).

(** ** Links *)

(** The roll-up rule, upward: a part posts to the book its parent posts to. *)
Definition check_parent_route (value : LinkEntityInput) (entity : EconomicEntity) : run unit :=
  match ent_parentEntityId entity with
  | None => mret tt
  | Some parent =>
      parentRoute ← routeThroughEntity parent (le_effectiveFrom value);
      match parentRoute with
      | None => mret tt
      | Some r =>
          if bool_decide (rt_accountingBookId r <> le_accountingBookId value) then
            _ ← loadBook (rt_accountingBookId r);
            st_throw AccountingValidationError
          else mret tt
      end
  end.

(** ... and downward. *)
Definition check_descendants (value : LinkEntityInput) : run unit :=
  descendant ← conflictingDescendantLink (le_economicEntityId value) (le_accountingBookId value)
                 (le_effectiveFrom value) (le_effectiveTo value);
  st_lift (throw_if (is_some descendant) AccountingValidationError).

Definition insertLink_dated (value : LinkEntityInput) : run BookEntityLink :=
  from ← date_in (le_effectiveFrom value);
  to ← match le_effectiveTo value with None => mret None | Some t => t ← date_in t; mret (Some t) end;
  insertLink (fun id now =>
    {| lk_id := id; lk_accountingBookId := le_accountingBookId value;
       lk_economicEntityId := le_economicEntityId value; lk_linkRole := le_linkRole value;
       lk_effectiveFrom := from; lk_effectiveTo := to;
       lk_dimensionLabel := le_dimensionLabel value; lk_note := le_note value;
       lk_createdByUserId := le_createdByUserId value; lk_createdAt := now; lk_updatedAt := now |}).

Definition linkEntity_body (value : LinkEntityInput) : run BookEntityLink :=
  book ← loadBook (le_accountingBookId value);
  _ ← st_lift (throw_if (bool_decide (bk_status book <> BookActive)) AccountingValidationError);
  db ← st_get;
  match find_entity (db_entities db) (le_economicEntityId value) with
  | None => st_throw AccountingNotFoundError
  | Some entity =>
      _ ← (if bool_decide (le_linkRole value = PostingPrimary) then
             _ ← check_parent_route value entity;
             check_descendants value
           else mret tt);
      row ← st_catch (insertLink_dated value)
              (fun error => if isExclusionViolation error then st_throw AccountingConflictError
                            else st_throw error);
      _ ← audit_append (book_audit "accounting.book.entity_linked" (le_accountingBookId value)
                          (le_createdByUserId value) (le_requestId value));
      mret row
  end.

Definition linkEntity (input : LinkEntityInput) : run BookEntityLink :=
  value ← st_lift (linkEntitySchema input);
  _ ← st_lift (throw_if (match le_effectiveTo value with
                         | None => false
                         | Some t => t <? le_effectiveFrom value
                         end) AccountingValidationError);
  transaction (linkEntity_body value).

Definition link_ended (t : date) (now : Z) (l : BookEntityLink) : BookEntityLink :=
  {| lk_id := lk_id l; lk_accountingBookId := lk_accountingBookId l;
     lk_economicEntityId := lk_economicEntityId l; lk_linkRole := lk_linkRole l;
     lk_effectiveFrom := lk_effectiveFrom l; lk_effectiveTo := Some t;
     lk_dimensionLabel := lk_dimensionLabel l; lk_note := lk_note l;
     lk_createdByUserId := lk_createdByUserId l; lk_createdAt := lk_createdAt l;
     lk_updatedAt := now |}.

Definition endLink (bookEntityLinkId : uuid) (effectiveTo : date) (actor request : option string)
    : run BookEntityLink :=
  transaction (
    before ← loadLink bookEntityLinkId;
    _ ← st_lift (throw_if (effectiveTo <? lk_effectiveFrom before) AccountingValidationError);
    t ← dateLiteral effectiveTo;
    now ← st_gets db_now;
    _ ← updateLink (lk_id before) (link_ended t now);
    after ← loadLink (lk_id before);
    _ ← audit_append (book_audit "accounting.book.entity_link_ended" (lk_accountingBookId before)
                        actor request);
    mret after).

Definition listLinks (accountingBookId economicEntityId : option uuid) (onDate : option date)
    : run (list BookEntityLink) :=
  t ← match onDate with None => mret None | Some t => t ← dateLiteral t; mret (Some t) end;
  st_gets (fun db => order_by (fun l => 2 * lk_effectiveFrom l +
      (if bool_decide (lk_linkRole l = PostingPrimary) then 0 else 1)) (List.filter (fun l =>
    match accountingBookId with None => true | Some b => bool_decide (lk_accountingBookId l = b) end
    && match economicEntityId with None => true | Some e => bool_decide (lk_economicEntityId l = e) end
    && match t with
       | None => true
       | Some t => (lk_effectiveFrom l <=? t)
                   && match lk_effectiveTo l with None => true | Some u => t <=? u end
       end) (db_links db))).

(** ** Closure *)
Lemma loadBook_reads id : reads (loadBook id).
Proof. unfold loadBook. solve_respects. Qed.
Lemma loadLink_reads id : reads (loadLink id).
Proof. unfold loadLink. solve_respects. Qed.
#[export] Hint Resolve loadBook_reads loadLink_reads : store.
Lemma routeThroughEntity_run e t db :
  routeThroughEntity e t db =
    (if valid_date t
     then Ok (route_walk (db_links db) t 0 (chain (db_entities db) route_depth e))
     else Throw (if iso_shape t then SqlError "22008" else AccountingValidationError), db).
Proof.
  unfold routeThroughEntity. destruct (valid_date t) eqn:E.
  - by rewrite (st_bind_run _ _ _ _ _ (dateLiteral_valid _ _ E)).
  - unfold dateLiteral, date_in. rewrite E. by destruct (iso_shape t).
Qed.

Lemma routeThroughEntity_reads e t : reads (routeThroughEntity e t).
Proof. unfold routeThroughEntity. solve_respects. Qed.
#[export] Hint Resolve routeThroughEntity_reads : store.
Lemma conflictingDescendantLink_reads e b f t : reads (conflictingDescendantLink e b f t).
Proof. unfold conflictingDescendantLink. solve_respects. Qed.
#[export] Hint Resolve conflictingDescendantLink_reads : store.
Lemma requireBookForEntity_reads e t d : reads (requireBookForEntity e t d).
Proof. unfold requireBookForEntity, resolveBookForEntity. solve_respects. Qed.
Lemma check_parent_route_reads v e : reads (check_parent_route v e).
Proof. unfold check_parent_route. solve_respects. Qed.
Lemma check_descendants_reads v : reads (check_descendants v).
Proof. unfold check_descendants. solve_respects. Qed.
#[export] Hint Resolve requireBookForEntity_reads check_parent_route_reads
  check_descendants_reads insertBook_step_ok updateBook_step_ok : store.

Lemma insertLink_dated_step_ok v : respects step_ok (insertLink_dated v).
Proof. unfold insertLink_dated. solve_respects. by apply insertLink_step_ok. Qed.
#[export] Hint Resolve insertLink_dated_step_ok : store.

Lemma createBook_tx_ok i : always tx_ok (createBook i).
Proof.
  unfold createBook. solve_respects.
  - apply transaction_tx_ok. unfold createBook_row. solve_respects.
  - apply seedDefaultChart_tx_ok.
  - apply generateFiscalYear_tx_ok.
Qed.

Lemma archiveBook_tx_ok id actor request : always tx_ok (archiveBook id actor request).
Proof. apply transaction_tx_ok. solve_respects. Qed.

Lemma linkEntity_tx_ok i : always tx_ok (linkEntity i).
Proof.
  unfold linkEntity. solve_respects. apply transaction_tx_ok.
  unfold linkEntity_body. solve_respects.
  apply respects_rethrow; [auto with store|]. intros err s r s'. by destruct (isExclusionViolation err).
Qed.

Lemma endLink_tx_ok id t actor request : always tx_ok (endLink id t actor request).
Proof. apply transaction_tx_ok. solve_respects. by apply updateLink_step_ok. Qed.

(** ** The routing walk *)

(** [up ents n e a]: [a] is the [n]-th ancestor of [e]. *)
Inductive up (ents : list EconomicEntity) : nat -> uuid -> uuid -> Prop :=
  | up_self e r : find_entity ents e = Some r -> up ents 0 e e
  | up_parent n e r p a : find_entity ents e = Some r -> ent_parentEntityId r = Some p ->
      up ents n p a -> up ents (S n) e a.

Definition covered_by (links : list BookEntityLink) (t : date) (a book : uuid) : Prop :=
  exists l, l ∈ links /\ link_covers a t l = true /\ lk_accountingBookId l = book.
Definition uncovered (links : list BookEntityLink) (t : date) (a : uuid) : Prop :=
  forall l, l ∈ links -> link_covers a t l = false.

Lemma chain_up ents fuel e n a :
  nth_error (chain ents fuel e) n = Some a <-> (n <= fuel)%nat /\ up ents n e a.
Proof.
  revert e n. induction fuel as [|fuel IH]; intros e n; cbn [chain].
  - destruct (find_entity ents e) as [r|] eqn:E.
    + destruct n as [|n]; cbn.
      * split; [intros [= <-]; split; [lia|by econstructor] | by intros [_ H]; inversion H].
      * rewrite nth_error_nil. split; [done|]. intros [H _]. lia.
    + rewrite nth_error_nil. split; [done|]. intros [_ H]. inversion H; congruence.
  - destruct (find_entity ents e) as [r|] eqn:E.
    + destruct n as [|n]; cbn.
      * split; [intros [= <-]; split; [lia|by econstructor] | by intros [_ H]; inversion H].
      * destruct (ent_parentEntityId r) as [p|] eqn:Ep.
        -- rewrite IH. split.
           ++ intros [? ?]. split; [lia|]. by econstructor.
           ++ intros [? H]. inversion H as [|? ? r' p' ? E' Ep' Hup]; subst.
              rewrite E in E'. injection E' as <-. rewrite Ep in Ep'. injection Ep' as <-.
              split; [lia|done].
        -- rewrite nth_error_nil. split; [done|].
           intros [_ H]. inversion H; congruence.
    + rewrite nth_error_nil. split; [done|]. intros [_ H]. inversion H; congruence.
Qed.

Lemma route_walk_some links t d ids r :
  route_walk links t d ids = Some r ->
  exists n, nth_error ids n = Some (rt_entityId r) /\ rt_depth r = d + Z.of_nat n /\
    covered_by links t (rt_entityId r) (rt_accountingBookId r) /\
    forall m a, (m < n)%nat -> nth_error ids m = Some a -> uncovered links t a.
Proof.
  revert d. induction ids as [|id ids IH]; intros d; cbn; [done|].
  destruct (find_row _ _) as [l|] eqn:E.
  - intros [= <-]. apply find_row_some in E as [Hl Hc]. exists 0%nat. cbn.
    split; [done|]. split; [lia|]. split; [by exists l|]. intros. lia.
  - intros H. destruct (IH _ H) as (n & Hn & Hd & Hc & Hb). exists (S n).
    split; [done|]. split; [lia|]. split; [done|].
    intros [|m] a Hm Ha; [|apply (Hb m); [lia|done]].
    injection Ha as <-. intros l Hl. by eapply find_row_none in E.
Qed.

Lemma route_walk_none links t d ids :
  route_walk links t d ids = None -> forall n a, nth_error ids n = Some a -> uncovered links t a.
Proof.
  revert d. induction ids as [|id ids IH]; intros d; cbn; [by intros _ [|]|].
  destruct (find_row _ _) as [l|] eqn:E; [done|]. intros H [|n] a Ha; [|by eapply IH].
  injection Ha as <-. intros l Hl. by eapply find_row_none in E.
Qed.

(** Routing answers with the nearest: for a valid date the walk always
    ends, whatever cycles the hierarchy has, and returns the book of the first
    entity, from the fact's own upwards through at most 32 ancestors, with a
    posting-primary link in force that day; [None] means no such entity. *)
Theorem route_is_nearest (db : Db) (e : uuid) (t : date) :
  valid_date t = true ->
  match routeThroughEntity e t db with
  | (Ok (Some r), db') =>
      db' = db /\ exists n, rt_depth r = Z.of_nat n /\ (n <= 32)%nat /\ up (db_entities db) n e (rt_entityId r) /\
        covered_by (db_links db) t (rt_entityId r) (rt_accountingBookId r) /\
        forall m a, (m < n)%nat -> up (db_entities db) m e a -> uncovered (db_links db) t a
  | (Ok None, db') =>
      db' = db /\ forall n a, (n <= 32)%nat -> up (db_entities db) n e a -> uncovered (db_links db) t a
  | (Throw _, _) => False
  end.
Proof.
  intros Ht. rewrite routeThroughEntity_run, Ht.
  destruct (route_walk _ _ _ _) as [r|] eqn:E; (split; [done|]).
  - apply route_walk_some in E as (n & Hn & Hd & Hc & Hb).
    apply chain_up in Hn as [Hle Hup]. exists n. repeat split; try done.
    intros m a Hm Ha. apply (Hb m a Hm). apply chain_up. split; [|done].
    unfold route_depth in *. lia.
  - intros n a Hn Ha. eapply route_walk_none; [exact E|]. by apply chain_up.
Qed.

(** ** The roll-up rule *)
Definition child_of (ents : list EconomicEntity) (x y : uuid) : Prop :=
  exists e, e ∈ ents /\ ent_parentEntityId e = Some x /\ ent_id e = y.

(** [below ents x y]: [y] is part of [x], directly or through other entities. *)
Inductive below (ents : list EconomicEntity) (x : uuid) : uuid -> Prop :=
  | below_child y : child_of ents x y -> below ents x y
  | below_step y z : below ents x y -> child_of ents y z -> below ents x z.

Lemma below_first ents x y z : child_of ents x y -> below ents y z -> below ents x z.
Proof.
  intros Hxy Hyz. induction Hyz as [z Hc|z w _ IH Hc].
  - eapply below_step; [by apply below_child|done].
  - by eapply below_step.
Qed.

Lemma below_inv ents x z :
  below ents x z -> child_of ents x z \/ exists y, child_of ents x y /\ below ents y z.
Proof.
  induction 1 as [z Hc|z w _ [Hc'|(y & Hc' & Hb)] Hc]; [by left|right|right].
  - exists z. split; [done|by apply below_child].
  - exists y. split; [done|by eapply below_step].
Qed.

Lemma elem_of_children ents ids y : y ∈ children ents ids <-> exists x, x ∈ ids /\ child_of ents x y.
Proof.
  unfold children, child_of. rewrite list_elem_of_bind. split.
  - intros (x & Hy & Hx). apply list_elem_of_fmap in Hy as (e & -> & He).
    apply list_elem_of_In, filter_In in He as [He%list_elem_of_In Hp%bool_decide_eq_true]. eauto 6.
  - intros (x & Hx & e & He & Hp & <-). exists x. split; [|done].
    apply list_elem_of_fmap. exists e. split; [done|].
    apply list_elem_of_In, filter_In. split; [by apply list_elem_of_In|].
    by apply bool_decide_eq_true.
Qed.

Lemma descendants_spec ents n ids ds y :
  descendants ents n ids = Some ds -> y ∈ ds <-> exists x, x ∈ ids /\ below ents x y.
Proof.
  revert ids ds. induction n as [|n IH]; intros ids ds; cbn [descendants];
    destruct (children ents ids) as [|c next] eqn:Ec; [intros [= <-]|done|intros [= <-]|].
  1, 2: (split; [set_solver|]; intros (x & Hx & Hb); exfalso;
    apply below_inv in Hb as [Hc|(z & Hc & _)];
    [assert (y ∈ children ents ids) as Hin by (apply elem_of_children; eauto)
    |assert (z ∈ children ents ids) as Hin by (apply elem_of_children; eauto)];
    rewrite Ec in Hin; by apply elem_of_nil in Hin).
  intros H. apply bind_Some in H as (deeper & Hd & [= <-]).
  change (c :: next ++ deeper) with ((c :: next) ++ deeper).
  rewrite <- Ec in Hd |- *. clear Ec. rewrite elem_of_app, (IH _ _ Hd). split.
  - intros [(x & Hx & Hc)%elem_of_children|(z & (x & Hx & Hc)%elem_of_children & Hb)];
      exists x; (split; [done|]); [by apply below_child|by eapply below_first].
  - intros (x & Hx & [Hc|(z & Hc & Hb)]%below_inv); [left|right; exists z; split; [|done]];
      apply elem_of_children; eauto.
Qed.

Lemma conflictingDescendantLink_none e b f t db db' :
  conflictingDescendantLink e b f t db = (Ok None, db') ->
  forall y l, below (db_entities db) e y -> l ∈ db_links db -> lk_economicEntityId l = y ->
    lk_linkRole l = PostingPrimary -> ranges_overlap (lk_effectiveFrom l) (lk_effectiveTo l) f t = true ->
    lk_accountingBookId l = b.
Proof.
  unfold conflictingDescendantLink. intros H y l Hb Hl Hy Hr Ho.
  run_bind H f' db1 Hf. run_bind H t' db2 Ht. run_bind H db3 db4 Hg.
  apply st_get_inv in Hg as [-> ->].
  apply dateLiteral_inv in Hf as (_ & -> & ->).
  assert (t' = t /\ db2 = db) as [-> ->].
  { destruct t as [t|]; [|inv_st; done]. run_bind Ht t1 db5 Ht1.
    apply dateLiteral_inv in Ht1 as (_ & -> & ->). inv_st; done. }
  destruct (descendants _ _ _) as [ds|] eqn:Ed; [|inv_st].
  apply st_ret_inv in H as [H _]. symmetry in H. eapply find_row_none in H; [|exact Hl].
  rewrite Hy, Hr, Ho in H. rewrite (bool_decide_true (y ∈ ds)) in H.
  - rewrite (bool_decide_true (PostingPrimary = _)) in H by done. cbn in H.
    destruct (decide (lk_accountingBookId l = b)) as [|Hn]; [done|].
    by rewrite bool_decide_true in H.
  - apply (descendants_spec _ _ _ _ _ Ed). exists e. split; [set_solver|done].
Qed.

(** What a posting-primary link guarantees when [linkEntity] accepts it:
    the parent routed, on the link's first day, to the same book or nowhere;
    and no part of the entity, however deep, has a posting-primary link to
    another book over any day of the new link. *)
Theorem linkEntity_rollup (input : LinkEntityInput) (db db' : Db) (row : BookEntityLink) :
  linkEntity input db = (Ok row, db') -> le_linkRole input = PostingPrimary ->
  row ∈ db_links db' /\ lk_accountingBookId row = le_accountingBookId input /\
  exists entity, find_entity (db_entities db) (le_economicEntityId input) = Some entity /\
    (forall p r, ent_parentEntityId entity = Some p ->
       routeThroughEntity p (le_effectiveFrom input) db = (Ok (Some r), db) ->
       rt_accountingBookId r = le_accountingBookId input) /\
    (forall y l, below (db_entities db) (le_economicEntityId input) y -> l ∈ db_links db ->
       lk_economicEntityId l = y -> lk_linkRole l = PostingPrimary ->
       ranges_overlap (lk_effectiveFrom l) (lk_effectiveTo l)
         (le_effectiveFrom input) (le_effectiveTo input) = true ->
       lk_accountingBookId l = le_accountingBookId input).
Proof.
  intros H Hrole. unfold linkEntity in H. run_bind H v db1 Hv. apply st_lift_inv in Hv as [Hv ->].
  assert (le_accountingBookId v = le_accountingBookId input /\
          le_economicEntityId v = le_economicEntityId input /\ le_linkRole v = PostingPrimary /\
          le_effectiveFrom v = le_effectiveFrom input /\ le_effectiveTo v = le_effectiveTo input)
    as (E1 & E2 & E3 & E4 & E5).
  { unfold linkEntitySchema, z_date in Hv. inv_ok. cbn. repeat split; try done.
    destruct (le_effectiveTo input); cbn in *; by inv_ok. }
  run_bind H u db1 Hle. apply st_lift_inv in Hle as [_ ->].
  apply transaction_inv in H as (db1 & H & _ & ->).
  unfold linkEntity_body in H. run_bind H book db2 Hb.
  apply (reads_run _ _ _ _ (loadBook_reads _)) in Hb as ->.
  run_bind H u1 db2 Hu1. apply st_lift_inv in Hu1 as [_ ->].
  run_bind H db2 db3 Hg. apply st_get_inv in Hg as [-> ->]. rewrite E2 in H.
  change (find_entity (db_entities (begin_tx db)) (le_economicEntityId input))
    with (find_entity (db_entities db) (le_economicEntityId input)) in H.
  destruct (find_entity (db_entities db) _) as [entity|] eqn:Ee; [|inv_st].
  rewrite E3, bool_decide_true in H by done. run_bind H u2 db2 Hchk.
  run_bind Hchk u3 db3 Hpar. pose proof (reads_run _ _ _ _ (check_parent_route_reads _ _) Hpar) as ->.
  pose proof (reads_run _ _ _ _ (check_descendants_reads _) Hchk) as ->.
  run_bind H row' db3 Hins. run_bind H u4 db4 Haud.
  apply st_ret_inv in H as [<- ->].
  unfold audit_append in Haud. apply st_modify_inv in Haud as [_ ->].
  assert (row ∈ db_links db3 /\ lk_accountingBookId row = le_accountingBookId input) as [Hrow Hbk].
  { unfold st_catch in Hins. destruct (insertLink_dated _ _) as [[r|e] s] eqn:Ei;
      [|destruct (isExclusionViolation e); discriminate Hins].
    injection Hins as -> ->. unfold insertLink_dated in Ei. run_bind Ei f db5 Hf.
    run_bind Ei t db6 Ht. unfold insertLink in Ei. inv_stmt. cbn. rewrite E1. split; [set_solver|done]. }
  split; [done|]. split; [done|]. exists entity. split; [done|]. split.
  - intros p r Hp Hr. unfold check_parent_route in Hpar. rewrite Hp, E4 in Hpar.
    run_bind Hpar pr db5 Hroute.
    assert (routeThroughEntity p (le_effectiveFrom input) (begin_tx db)
            = (fst (routeThroughEntity p (le_effectiveFrom input) db), begin_tx db)) as Hr'
      by (rewrite !routeThroughEntity_run; reflexivity).
    rewrite Hr in Hr'. cbn [fst] in Hr'.
    rewrite Hr' in Hroute. injection Hroute as <- <-.
    case_bool_decide as Hn.
    + run_bind Hpar x db6 Hx. inv_st.
    + rewrite <- E1. destruct (decide (rt_accountingBookId r = le_accountingBookId v)) as [E|E]; [exact E|by destruct Hn].
  - intros y l Hy Hl Hly Hlr Ho. unfold check_descendants in Hchk.
    run_bind Hchk d db5 Hd. inv_st. apply throw_if_Ok in Hchk.
    destruct d; [done|]. rewrite E1, E2, E4, E5 in Hd.
    eapply (conflictingDescendantLink_none _ _ _ _ _ _ Hd); [exact Hy|exact Hl|done|exact Hlr|exact Ho].
Qed.

(** ** Samples *)
Definition two_books : list AccountingBook :=
  [ book_with BookActive 1 0 sample_book;
    {| bk_id := 2; bk_code := "OTHER"; bk_name := "Other book"; bk_functionalCurrency := "USD";
       bk_accountingBasis := Accrual; bk_fiscalYearStartMonth := 1; bk_fiscalYearStartDay := 1;
       bk_requiresEntityDimension := false; bk_nextEntryNumber := 1; bk_status := BookActive;
       bk_openedOn := 20260101; bk_notes := None; bk_createdByUserId := None;
       bk_createdAt := 0; bk_updatedAt := 0 |} ].

(** Entity 12 is part of 11, which is part of 10. *)
Definition sample_entities : list EconomicEntity :=
  [ {| ent_id := 10; ent_name := "Acme LLC"; ent_parentEntityId := None |};
    {| ent_id := 11; ent_name := "Route 9 Vintage"; ent_parentEntityId := Some 10%positive |};
    {| ent_id := 12; ent_name := "Route 9 Outlet"; ent_parentEntityId := Some 11%positive |} ].

Definition routing_db : Db := installation [] sample_entities two_books.

Definition sample_link (book entity : uuid) (from : date) : LinkEntityInput :=
  {| le_accountingBookId := book; le_economicEntityId := entity; le_linkRole := PostingPrimary;
     le_effectiveFrom := from; le_effectiveTo := None; le_dimensionLabel := None;
     le_note := None; le_createdByUserId := None; le_requestId := None |}.

Definition linked_db : Db := snd (linkEntity (sample_link 1 10 20260101) routing_db).

(** The grandchild routes through two levels to its ancestor's book. *)
Lemma route_is_nearest_witness :
  routeThroughEntity 12 20260214 linked_db
    = (Ok (Some {| rt_accountingBookId := 1; rt_depth := 2; rt_entityId := 10 |}), linked_db) /\
  match routeThroughEntity 12 20260214 linked_db with
  | (Ok (Some r), db') =>
      db' = linked_db /\ exists n, rt_depth r = Z.of_nat n /\ (n <= 32)%nat /\
        up (db_entities linked_db) n 12 (rt_entityId r) /\
        covered_by (db_links linked_db) 20260214 (rt_entityId r) (rt_accountingBookId r) /\
        forall m a, (m < n)%nat -> up (db_entities linked_db) m 12 a ->
          uncovered (db_links linked_db) 20260214 a
  | (Ok None, db') => db' = linked_db /\ forall n a, (n <= 32)%nat ->
      up (db_entities linked_db) n 12 a -> uncovered (db_links linked_db) 20260214 a
  | (Throw _, _) => False
  end.
Proof.
  split; [vm_compute; reflexivity|]. apply (route_is_nearest linked_db 12 20260214). reflexivity.
Defined.

Lemma linkEntity_rollup_witness :
  exists row db', linkEntity (sample_link 1 11 20260301) linked_db = (Ok row, db') /\
    row ∈ db_links db' /\ lk_accountingBookId row = 1%positive /\
    exists entity, find_entity (db_entities linked_db) 11 = Some entity /\
      (forall p r, ent_parentEntityId entity = Some p ->
         routeThroughEntity p 20260301 linked_db = (Ok (Some r), linked_db) ->
         rt_accountingBookId r = 1%positive) /\
      (forall y l, below (db_entities linked_db) 11 y -> l ∈ db_links linked_db ->
         lk_economicEntityId l = y -> lk_linkRole l = PostingPrimary ->
         ranges_overlap (lk_effectiveFrom l) (lk_effectiveTo l) 20260301 None = true ->
         lk_accountingBookId l = 1%positive).
Proof.
  eexists _, _. split; [vm_compute; reflexivity|].
  apply (linkEntity_rollup (sample_link 1 11 20260301) linked_db); [vm_compute; reflexivity|reflexivity].
Defined.

(** The upward check looks at the new link's first day only, so the roll-up
    rule is not an invariant: with the parent linked to book 1 from June, a
    part may still be linked to book 2 from January, both calls succeed, and in
    July the part posts to another book than the entity it is part of. *)
Theorem rollup_split_accepted :
  let '(r1, db1) := linkEntity (sample_link 1 10 20260601) routing_db in
  let '(r2, db2) := linkEntity (sample_link 2 11 20260101) db1 in
  is_ok r1 = true /\ is_ok r2 = true /\
  below (db_entities db2) 10 11 /\
  fst (routeThroughEntity 10 20260701 db2)
    = Ok (Some {| rt_accountingBookId := 1; rt_depth := 0; rt_entityId := 10 |}) /\
  fst (routeThroughEntity 11 20260701 db2)
    = Ok (Some {| rt_accountingBookId := 2; rt_depth := 0; rt_entityId := 11 |}).
Proof.
  vm_compute. repeat split. apply below_child.
  exists {| ent_id := 11; ent_name := "Route 9 Vintage"; ent_parentEntityId := Some 10%positive |}.
  repeat split. set_solver.
Qed.

(** Over a cyclic hierarchy the routing walk still ends, but the
    descendant query of [linkEntity] produces rows at every level: no number of
    levels exhausts it. *)
Theorem descendants_of_cycle (n : nat) :
  let cyc := [ {| ent_id := 1; ent_name := "A"; ent_parentEntityId := Some 2%positive |};
               {| ent_id := 2; ent_name := "B"; ent_parentEntityId := Some 1%positive |} ] in
  descendants cyc n [1%positive] = None /\ length (chain cyc route_depth 1) = 33%nat.
Proof.
  cbv zeta. split; [|reflexivity].
  set (cyc := [_; _]).
  assert (descendants cyc n [1%positive] = None /\ descendants cyc n [2%positive] = None) as [H _];
    [|exact H].
  induction n as [|n [IH1 IH2]]; [done|].
  change (descendants cyc (S n) [1%positive]) with
    (descendants cyc n [2%positive] ≫= fun deeper => Some ([2%positive] ++ deeper)).
  change (descendants cyc (S n) [2%positive]) with
    (descendants cyc n [1%positive] ≫= fun deeper => Some ([1%positive] ++ deeper)).
  by rewrite IH1, IH2.
Qed.

(** Over a hierarchy without cycles the descendant query ends within the
    levels [linkEntity] explores: it is enough that some rank decreases from an
    entity to its parts and starts no higher than the number of levels. *)
Theorem descendants_terminates (ents : list EconomicEntity) (rank : uuid -> nat)
    (n : nat) (ids : list uuid) :
  (forall e p, e ∈ ents -> ent_parentEntityId e = Some p -> (rank (ent_id e) < rank p)%nat) ->
  (forall x, x ∈ ids -> (rank x <= n)%nat) ->
  exists ds, descendants ents n ids = Some ds /\
    forall y, y ∈ ds <-> exists x, x ∈ ids /\ below ents x y.
Proof.
  intros Hrank Hids.
  assert (exists ds, descendants ents n ids = Some ds) as [ds Hds].
  { revert ids Hids. induction n as [|n IH]; intros ids Hids; cbn [descendants];
      destruct (children ents ids) as [|c next] eqn:Ec; [by eexists| |by eexists|].
    - exfalso. assert (c ∈ children ents ids) as Hc by (rewrite Ec; set_solver).
      apply elem_of_children in Hc as (x & Hx & e & He & Hp & _).
      specialize (Hrank e x He Hp). specialize (Hids x Hx). lia.
    - destruct (IH (c :: next)) as [ds E]; [|by rewrite E; eexists].
      intros y Hy. rewrite <- Ec in Hy. apply elem_of_children in Hy as (x & Hx & e & He & Hp & <-).
      specialize (Hrank e x He Hp). specialize (Hids x Hx). lia. }
  exists ds. split; [exact Hds|]. intros y. by eapply descendants_spec.
Qed.

Lemma descendants_terminates_witness :
  exists ds, descendants sample_entities (S (length sample_entities)) [10%positive] = Some ds /\
    forall y, y ∈ ds <-> exists x, x ∈ [10%positive] /\ below sample_entities x y.
Proof.
  apply (descendants_terminates sample_entities
           (fun id => if bool_decide (id = 10%positive) then 2%nat
                      else if bool_decide (id = 11%positive) then 1%nat else 0%nat)).
  - intros e p He Hp. unfold sample_entities in He.
    repeat (apply elem_of_cons in He as [->|He]); [| | |by apply elem_of_nil in He];
      cbn in Hp; try discriminate Hp; injection Hp as <-; vm_compute; lia.
  - intros x Hx. apply list_elem_of_singleton in Hx as ->. vm_compute. lia.
Defined.
