(* ===== verification/Journal.v ===== *)
(** * The journal: definitions

    [packages/accounting/src/journal.ts]: drafting, posting and reversal.  The
    theorems are in [JournalFacts].

    [postEntry] and the other verbs run their body in one transaction.
    [routeBook] reads through the outer handle in the source; nothing has been
    written when it is called, so it reads the same rows here. *)
From S2P Require Import Prelude Decimal Calendar Inputs Store Schema Ledger Periods Chart Books.

Open Scope Z_scope.
#[local] Arguments String.append : simpl nomatch.

(** ** Inputs *)
Record JournalLineInput : Type := {
  li_ledgerAccountId : option uuid;
  li_accountSystemKey : option string;
  li_economicEntityId : option uuid;
  li_lineNumber : option Z;
  li_description : option string;
  li_currency : option string;
  li_amount : string;
  li_dimensions : list (uuid * uuid);
}.

Definition lineSchema (l : JournalLineInput) : result JournalLineInput :=
  key ← z_opt z_text (li_accountSystemKey l);
  _ ← z_check (match li_lineNumber l with None => true | Some n => 0 <? n end);
  description ← z_opt z_text (li_description l);
  _ ← z_check (match li_currency l with None => true | Some c => Text.three_letters c end);
  amount ← z_decimal (li_amount l);
  _ ← z_check (xorb (negb (is_some (li_ledgerAccountId l))) (negb (is_some key)));
  mret {| li_ledgerAccountId := li_ledgerAccountId l; li_accountSystemKey := key;
          li_economicEntityId := li_economicEntityId l; li_lineNumber := li_lineNumber l;
          li_description := description; li_currency := li_currency l;
          li_amount := amount; li_dimensions := li_dimensions l |}.

Record SourceLinkInput : Type := {
  sk_sourceFactType : string;
  sk_sourceFactId : uuid;
  sk_role : SourceLinkRole;
  sk_amountContributed : option string;
  sk_currency : option string;
}.

Definition sourceLinkSchema (k : SourceLinkInput) : result SourceLinkInput :=
  type ← z_text (sk_sourceFactType k);
  amount ← z_opt z_decimal (sk_amountContributed k);
  _ ← z_check (match sk_currency k with None => true | Some c => Text.three_letters c end);
  mret {| sk_sourceFactType := type; sk_sourceFactId := sk_sourceFactId k; sk_role := sk_role k;
          sk_amountContributed := amount; sk_currency := sk_currency k |}.

(** [entryBaseSchema] with the two members [postEntrySchema] adds; absent
    defaulted members are [None]. *)
Record EntryInput : Type := {
  en_accountingBookId : option uuid;
  en_economicEntityId : option uuid;
  en_installationDefaultBookId : option uuid;
  en_entryDate : date;
  en_description : string;
  en_memo : option string;
  en_entrySource : option EntrySource;
  en_postingRuleVersionId : option uuid;
  en_postingKey : option string;
  en_sourceFactType : option string;
  en_sourceFactId : option uuid;
  en_sourceFactFingerprint : option string;
  en_lines : list JournalLineInput;
  en_sourceLinks : list SourceLinkInput;
  en_createdByUserId : option string;
  en_requestId : option string;
  en_allowBackdated : bool;
  en_postedByUserId : option string;
}.

Definition postEntrySchema (i : EntryInput) : result EntryInput :=
  entryDate ← z_date (en_entryDate i);
  description ← z_text (en_description i);
  memo ← z_opt z_text (en_memo i);
  key ← z_opt z_text (en_postingKey i);
  factType ← z_opt z_text (en_sourceFactType i);
  fingerprint ← z_opt z_text (en_sourceFactFingerprint i);
  lines ← res_mapM lineSchema (en_lines i);
  _ ← z_check (1 <=? length lines)%nat;
  links ← res_mapM sourceLinkSchema (en_sourceLinks i);
  createdBy ← z_user (en_createdByUserId i);
  request ← z_user (en_requestId i);
  postedBy ← z_user (en_postedByUserId i);
  mret {| en_accountingBookId := en_accountingBookId i;
          en_economicEntityId := en_economicEntityId i;
          en_installationDefaultBookId := en_installationDefaultBookId i;
          en_entryDate := entryDate; en_description := description; en_memo := memo;
          en_entrySource := Some (default SourceManual (en_entrySource i));
          en_postingRuleVersionId := en_postingRuleVersionId i; en_postingKey := key;
          en_sourceFactType := factType; en_sourceFactId := en_sourceFactId i;
          en_sourceFactFingerprint := fingerprint; en_lines := lines;
          en_sourceLinks := links; en_createdByUserId := createdBy;
          en_requestId := request; en_allowBackdated := en_allowBackdated i;
          en_postedByUserId := postedBy |}.

Record ResolvedLine : Type := {
  rl_ledgerAccountId : uuid;
  rl_economicEntityId : option uuid;
  rl_lineNumber : Z;
  rl_description : option string;
  rl_currency : string;
  rl_amount : string;
  rl_functionalCurrency : string;
  rl_functionalAmount : string;
  rl_dimensions : list (uuid * uuid);
}.

Record PostedEntry : Type := {
  po_entry : JournalEntry;
  po_lines : list JournalLine;
  po_reused : bool;
  po_routing : option BookRouting;
}.

(** ** The balance invariant *)
Record BalanceLine : Type := {
  bl_currency : string;
  bl_amount : string;
  bl_functionalCurrency : string;
  bl_functionalAmount : string;
}.

(** [map.set(key, [...(map.get(key) ?? []), amount])], the map in insertion
    order. *)
Fixpoint push_amount (m : list (string * list string)) (key amount : string)
    : list (string * list string) :=
  match m with
  | [] => [(key, [amount])]
  | (k, amounts) :: m' =>
      if String.eqb k key then (k, amounts ++ [amount]) :: m'
      else (k, amounts) :: push_amount m' key amount
  end.

Definition group_amounts (key amount : BalanceLine -> string) (lines : list BalanceLine)
    : list (string * list string) :=
  fold_left (fun m l => push_amount m (key l) (amount l)) lines [].

Fixpoint check_totals (m : list (string * list string)) : result unit :=
  match m with
  | [] => mret tt
  | (_, amounts) :: m' =>
      total ← sumDecimals amounts;
      zero ← isZeroDecimal total;
      _ ← throw_if (negb zero) UnbalancedEntryError;
      check_totals m'
  end.

Definition assertBalanced (lines : list BalanceLine) : result unit :=
  _ ← throw_if (length lines <? 2)%nat UnbalancedEntryError;
  _ ← check_totals (group_amounts bl_currency bl_amount lines);
  check_totals (group_amounts bl_functionalCurrency bl_functionalAmount lines).

(** ** Loading *)
Definition loadEntry (journalEntryId : uuid) : run JournalEntry :=
  db ← st_get;
  match find_entry db journalEntryId with
  | None => st_throw AccountingNotFoundError
  | Some row => mret row
  end.

Definition loadLines (journalEntryId : uuid) : run (list JournalLine) :=
  st_gets (fun db => order_by jl_lineNumber (entry_lines db journalEntryId)).

(** [loadBook] of the journal: active, and of a supported currency. *)
Definition loadActiveBook (accountingBookId : uuid) : run AccountingBook :=
  row ← loadBook accountingBookId;
  _ ← st_lift (throw_if (bool_decide (bk_status row <> BookActive)) AccountingValidationError);
  _ ← st_lift (assertSupportedCurrency (bk_functionalCurrency row));
  mret row.

Definition resolvePeriodRow (accountingBookId : uuid) (entryDate : date) : run FiscalPeriod :=
  t ← dateLiteral entryDate;
  db ← st_get;
  match find_row (period_contains accountingBookId t) (db_periods db) with
  | None => st_throw noPeriodError
  | Some found =>
      match find_row (fun p => bool_decide (fp_id p = fp_id found)) (db_periods db) with
      | None => st_throw noPeriodError
      | Some row => mret row
      end
  end.

(** ** Lines *)
Definition find_line_account (book : AccountingBook) (line : JournalLineInput) (db : Db)
    : option LedgerAccount :=
  match li_ledgerAccountId line with
  | Some byId => find_account (fun a => bool_decide (la_id a = byId)) db
  | None =>
      find_account (fun a => bool_decide (la_accountingBookId a = bk_id book)
        && opt_eqb (la_systemKey a) (default "" (li_accountSystemKey line))) db
  end.

Definition resolveLine (book : AccountingBook) (index : Z) (line : JournalLineInput)
    : run ResolvedLine :=
  db ← st_get;
  match find_line_account book line db with
  | None => st_throw AccountingNotFoundError
  | Some account =>
      _ ← st_lift (throw_if (bool_decide (la_accountingBookId account <> bk_id book))
                     AccountingValidationError);
      _ ← st_lift (throw_if (negb (la_isPostable account)) AccountingValidationError);
      _ ← st_lift (throw_if (bool_decide (la_status account <> AccountActive))
                     AccountingValidationError);
      currency ← st_lift (assertSupportedCurrency
                            (default (bk_functionalCurrency book) (li_currency line)));
      _ ← st_lift (throw_if (negb (String.eqb currency (bk_functionalCurrency book)))
                     UnsupportedCurrencyError);
      amount ← st_lift (toMoneyString (li_amount line));
      zero ← st_lift (isZeroDecimal amount);
      _ ← st_lift (throw_if zero AccountingValidationError);
      mret {| rl_ledgerAccountId := la_id account;
              rl_economicEntityId := li_economicEntityId line;
              rl_lineNumber := default (index + 1) (li_lineNumber line);
              rl_description := li_description line;
              rl_currency := currency; rl_amount := amount;
              rl_functionalCurrency := bk_functionalCurrency book;
              rl_functionalAmount := amount;
              rl_dimensions := li_dimensions line |}
  end.

Fixpoint resolveLines (book : AccountingBook) (index : Z) (lines : list JournalLineInput)
    : run (list ResolvedLine) :=
  match lines with
  | [] => mret []
  | line :: lines =>
      r ← resolveLine book index line;
      rs ← resolveLines book (index + 1) lines;
      mret (r :: rs)
  end.

Definition resolved_balance (l : ResolvedLine) : BalanceLine :=
  {| bl_currency := rl_currency l; bl_amount := rl_amount l;
     bl_functionalCurrency := rl_functionalCurrency l;
     bl_functionalAmount := rl_functionalAmount l |}.

(** The row's amounts come back as [numeric] text. *)
Definition row_balance (l : JournalLine) : BalanceLine :=
  {| bl_currency := jl_currency l; bl_amount := fromUnits (jl_amount l);
     bl_functionalCurrency := jl_functionalCurrency l;
     bl_functionalAmount := fromUnits (jl_functionalAmount l) |}.

Definition assertRequiredDimensions (book : AccountingBook) (lines : list (list uuid)) : run unit :=
  db ← st_get;
  let required := List.filter (fun d => bool_decide (dm_accountingBookId d = bk_id book)
                                 && dm_isRequired d && dm_active d) (db_dimensions db) in
  st_lift (throw_if (negb (forallb (fun ids => forallb (fun d => bool_decide (dm_id d ∈ ids)) required)
                             lines)) AccountingValidationError).

(** ** Numbering *)
Definition MAX_SAFE_INTEGER : Z := 9007199254740991.

Definition nextEntryNumber (accountingBookId : uuid) : run Z :=
  db ← st_get;
  let next := match find_book accountingBookId db with Some b => bk_nextEntryNumber b | None => 0 end in
  _ ← st_lift (throw_if ((MAX_SAFE_INTEGER <? next) || (next <? 1)) AccountingConflictError);
  _ ← updateBook accountingBookId
        (fun b => book_with (bk_status b) (bk_nextEntryNumber b + 1) (db_now db) b);
  mret next.

(** ** Writing *)
Definition line_values (accountingBookId journalEntryId : uuid) (line : ResolvedLine)
    : run (uuid -> Z -> JournalLine) :=
  amount ← numeric_in (rl_amount line);
  functionalAmount ← numeric_in (rl_functionalAmount line);
  mret (fun id now =>
    {| jl_id := id; jl_journalEntryId := journalEntryId; jl_accountingBookId := accountingBookId;
       jl_ledgerAccountId := rl_ledgerAccountId line;
       jl_economicEntityId := rl_economicEntityId line; jl_lineNumber := rl_lineNumber line;
       jl_description := rl_description line; jl_currency := rl_currency line;
       jl_amount := amount; jl_functionalCurrency := rl_functionalCurrency line;
       jl_functionalAmount := functionalAmount; jl_fxRate := 10 ^ 12; jl_fxRateSource := FxUnity;
       jl_fxRateAt := None; jl_createdAt := now |}).

(** [lines.flatMap((line, index) => ...inserted[index]...)] *)
Definition line_tags (lines : list ResolvedLine) (inserted : list JournalLine)
    : list JournalLineDimension :=
  zip_with pair lines inserted ≫= fun '(line, row) =>
    (fun '(dimensionId, valueId) =>
       {| ld_journalLineId := jl_id row; ld_dimensionId := dimensionId;
          ld_dimensionValueId := valueId |}) <$> rl_dimensions line.

Definition insertLines (accountingBookId journalEntryId : uuid) (lines : list ResolvedLine)
    : run (list JournalLine) :=
  values ← st_mapM (line_values accountingBookId journalEntryId) lines;
  inserted ← insertJournalLines values;
  let tags := line_tags lines inserted in
  _ ← (if (0 <? length tags)%nat then insertLineDimensions tags else mret tt);
  mret (order_by jl_lineNumber inserted).

Definition insertSourceLink (journalEntryId : uuid) (link : SourceLinkInput * option string)
    : run unit :=
  amount ← numeric_in_opt (snd link);
  insertSourceLinkRow (fun id now =>
    {| sl_id := id; sl_journalEntryId := journalEntryId;
       sl_sourceFactType := sk_sourceFactType (fst link);
       sl_sourceFactId := sk_sourceFactId (fst link); sl_role := sk_role (fst link);
       sl_amountContributed := amount; sl_currency := sk_currency (fst link);
       sl_linkedAt := now |}).

Definition insertSourceLinks (journalEntryId : uuid) (links : list SourceLinkInput) : run unit :=
  amounts ← st_lift (res_mapM (fun k => z_opt toMoneyString (sk_amountContributed k)) links);
  _ ← st_mapM (insertSourceLink journalEntryId) (zip_with pair links amounts);
  mret tt.

(** The columns [markPosted] assigns. *)
Definition entry_posted (entryNumber : Z) (fiscalPeriodId : uuid) (isBackdated : bool)
    (postedByUserId : option string) (now : Z) (e : JournalEntry) : JournalEntry :=
  {| je_id := je_id e; je_accountingBookId := je_accountingBookId e;
     je_entryNumber := Some entryNumber; je_fiscalPeriodId := Some fiscalPeriodId;
     je_entryDate := je_entryDate e; je_status := EntryPosted;
     je_entrySource := je_entrySource e; je_postingKey := je_postingKey e;
     je_postingRuleVersionId := je_postingRuleVersionId e;
     je_sourceFactType := je_sourceFactType e; je_sourceFactId := je_sourceFactId e;
     je_sourceFactFingerprint := je_sourceFactFingerprint e;
     je_reversesEntryId := je_reversesEntryId e; je_isBackdated := isBackdated;
     je_description := je_description e; je_memo := je_memo e; je_postedAt := Some now;
     je_postedByUserId := postedByUserId; je_createdByUserId := je_createdByUserId e;
     je_createdAt := je_createdAt e; je_updatedAt := now |}.

Definition entry_status (status : EntryStatus) (now : Z) (e : JournalEntry) : JournalEntry :=
  {| je_id := je_id e; je_accountingBookId := je_accountingBookId e;
     je_entryNumber := je_entryNumber e; je_fiscalPeriodId := je_fiscalPeriodId e;
     je_entryDate := je_entryDate e; je_status := status;
     je_entrySource := je_entrySource e; je_postingKey := je_postingKey e;
     je_postingRuleVersionId := je_postingRuleVersionId e;
     je_sourceFactType := je_sourceFactType e; je_sourceFactId := je_sourceFactId e;
     je_sourceFactFingerprint := je_sourceFactFingerprint e;
     je_reversesEntryId := je_reversesEntryId e; je_isBackdated := je_isBackdated e;
     je_description := je_description e; je_memo := je_memo e; je_postedAt := je_postedAt e;
     je_postedByUserId := je_postedByUserId e; je_createdByUserId := je_createdByUserId e;
     je_createdAt := je_createdAt e; je_updatedAt := now |}.

Definition markPosted (entry : JournalEntry) (entryNumber : Z) (fiscalPeriodId : uuid)
    (isBackdated : bool) (postedByUserId : option string) : run JournalEntry :=
  by_user ← st_lift (textLiteral_opt postedByUserId);
  now ← st_gets db_now;
  _ ← updateJournalEntry (je_id entry) (entry_posted entryNumber fiscalPeriodId isBackdated by_user now);
  loadEntry (je_id entry).

Definition existingByPostingKey (postingKey : string) : run (option PostedEntry) :=
  db ← st_get;
  match find_row (fun e => opt_eqb (je_postingKey e) postingKey) (db_entries db) with
  | None => mret None
  | Some found =>
      lines ← loadLines (je_id found);
      mret (Some {| po_entry := found; po_lines := lines; po_reused := true; po_routing := None |})
  end.

Record HeaderInput : Type := {
  hd_entryDate : date;
  hd_description : string;
  hd_memo : option string;
  hd_entrySource : EntrySource;
  hd_postingRuleVersionId : option uuid;
  hd_postingKey : option string;
  hd_sourceFactType : option string;
  hd_sourceFactId : option uuid;
  hd_sourceFactFingerprint : option string;
  hd_createdByUserId : option string;
  hd_reversesEntryId : option uuid;
}.

Definition header_row (accountingBookId : uuid) (value : HeaderInput) (id : uuid) (now : Z)
    : JournalEntry :=
  {| je_id := id; je_accountingBookId := accountingBookId; je_entryNumber := None;
     je_fiscalPeriodId := None; je_entryDate := hd_entryDate value; je_status := EntryDraft;
     je_entrySource := hd_entrySource value; je_postingKey := hd_postingKey value;
     je_postingRuleVersionId := hd_postingRuleVersionId value;
     je_sourceFactType := hd_sourceFactType value; je_sourceFactId := hd_sourceFactId value;
     je_sourceFactFingerprint := hd_sourceFactFingerprint value;
     je_reversesEntryId := hd_reversesEntryId value; je_isBackdated := false;
     je_description := hd_description value; je_memo := hd_memo value; je_postedAt := None;
     je_postedByUserId := None; je_createdByUserId := hd_createdByUserId value;
     je_createdAt := now; je_updatedAt := now |}.

Definition insertHeader (accountingBookId : uuid) (value : HeaderInput) : run JournalEntry :=
  _ ← st_lift (throw_if (xorb (is_some (hd_sourceFactType value)) (is_some (hd_sourceFactId value)))
                 AccountingValidationError);
  _ ← st_lift (throw_if (xorb (bool_decide (hd_entrySource value = SourcePostingRule))
                           (is_some (hd_postingRuleVersionId value))) AccountingValidationError);
  _ ← date_in (hd_entryDate value);
  insertJournalEntry (header_row accountingBookId value).

Definition routeBook (accountingBookId economicEntityId installationDefaultBookId : option uuid)
    (entryDate : date) : run (AccountingBook * option BookRouting) :=
  match accountingBookId with
  | Some id => book ← loadActiveBook id; mret (book, None)
  | None =>
      routing ← requireBookForEntity economicEntityId entryDate installationDefaultBookId;
      book ← loadActiveBook (br_accountingBookId routing);
      mret (book, Some routing)
  end.

Definition entry_audit (action : string) (id : uuid) (actor request : option string) : AuditEvent :=
  {| ae_actorUserId := actor; ae_action := action; ae_resourceType := "journal_entry";
     ae_resourceId := Some id; ae_requestId := request |}.

Definition or_else {A} (a b : option A) : option A := match a with Some _ => a | None => b end.

Definition input_header (value : EntryInput) : HeaderInput :=
  {| hd_entryDate := en_entryDate value; hd_description := en_description value;
     hd_memo := en_memo value; hd_entrySource := default SourceManual (en_entrySource value);
     hd_postingRuleVersionId := en_postingRuleVersionId value;
     hd_postingKey := en_postingKey value; hd_sourceFactType := en_sourceFactType value;
     hd_sourceFactId := en_sourceFactId value;
     hd_sourceFactFingerprint := en_sourceFactFingerprint value;
     hd_createdByUserId := en_createdByUserId value; hd_reversesEntryId := None |}.

(** ** [postEntry] *)

(** Everything after the probe for the posting key. *)
Definition postEntry_fresh (value : EntryInput) : run PostedEntry :=
  routed ← routeBook (en_accountingBookId value) (en_economicEntityId value)
             (en_installationDefaultBookId value) (en_entryDate value);
  let '(book, routing) := routed in
  lines ← resolveLines book 0 (en_lines value);
  _ ← st_lift (assertBalanced (resolved_balance <$> lines));
  _ ← assertRequiredDimensions book ((fun l => fst <$> rl_dimensions l) <$> lines);
  period ← resolvePeriodRow (bk_id book) (en_entryDate value);
  isBackdated ← st_lift (assertPeriodAcceptsPosting period (en_allowBackdated value));
  entryNumber ← nextEntryNumber (bk_id book);
  draft ← insertHeader (bk_id book) (input_header value);
  insertedLines ← insertLines (bk_id book) (je_id draft) lines;
  _ ← insertSourceLinks (je_id draft) (en_sourceLinks value);
  entry ← markPosted draft entryNumber (fp_id period) isBackdated
            (or_else (en_postedByUserId value) (en_createdByUserId value));
  _ ← audit_append (entry_audit "accounting.journal.posted" (je_id entry)
                      (or_else (en_postedByUserId value) (en_createdByUserId value))
                      (en_requestId value));
  mret {| po_entry := entry; po_lines := insertedLines; po_reused := false; po_routing := routing |}.

Definition probe (postingKey : option string) : run (option PostedEntry) :=
  match postingKey with None => mret None | Some k => existingByPostingKey k end.

Definition postEntry_body (value : EntryInput) : run PostedEntry :=
  existing ← probe (en_postingKey value);
  match existing with Some e => mret e | None => postEntry_fresh value end.

Definition isUniqueViolation (e : error) : bool := bool_decide (e = SqlError "23505").

(** The [catch]: the loser of a race re-reads. *)
Definition postEntry_handler (value : EntryInput) (error : error) : run PostedEntry :=
  existing ← (if isUniqueViolation error then probe (en_postingKey value) else mret None);
  match existing with Some e => mret e | None => st_throw error end.

Definition postEntry (input : EntryInput) : run PostedEntry :=
  value ← st_lift (postEntrySchema input);
  st_catch (transaction (postEntry_body value)) (postEntry_handler value).

(** Two callers racing on one posting key: the probe reads a store in which
    the key is free, and [env] - the other caller's transaction - commits
    before this one writes. *)
Definition postEntry_raced (env : Db -> Db) (input : EntryInput) : run PostedEntry :=
  value ← st_lift (postEntrySchema input);
  existing ← probe (en_postingKey value);
  match existing with
  | Some e => mret e
  | None =>
      _ ← st_modify env;
      st_catch (transaction (postEntry_fresh value)) (postEntry_handler value)
  end.

(** ** [createDraft] *)
Definition createDraft_body (value : EntryInput) : run PostedEntry :=
  routed ← routeBook (en_accountingBookId value) (en_economicEntityId value)
             (en_installationDefaultBookId value) (en_entryDate value);
  let '(book, routing) := routed in
  lines ← resolveLines book 0 (en_lines value);
  draft ← insertHeader (bk_id book) (input_header value);
  insertedLines ← insertLines (bk_id book) (je_id draft) lines;
  _ ← insertSourceLinks (je_id draft) (en_sourceLinks value);
  _ ← audit_append (entry_audit "accounting.journal.drafted" (je_id draft)
                      (en_createdByUserId value) (en_requestId value));
  mret {| po_entry := draft; po_lines := insertedLines; po_reused := false; po_routing := routing |}.

Definition createDraft (input : EntryInput) : run PostedEntry :=
  value ← st_lift (postEntrySchema input);
  transaction (createDraft_body value).

(** ** [postDraft] *)

(** [byLine]: the dimensions tagged on each line. *)
Definition draft_dimensions (db : Db) (lines : list JournalLine) : list (list uuid) :=
  (fun l => ld_dimensionId <$>
     List.filter (fun d => bool_decide (ld_journalLineId d = jl_id l)) (db_line_dims db)) <$> lines.

Definition postDraft_body (journalEntryId : uuid) (allowBackdated : bool)
    (postedByUserId requestId : option string) : run PostedEntry :=
  draft ← loadEntry journalEntryId;
  _ ← st_lift (throw_if (bool_decide (je_status draft <> EntryDraft)) LedgerImmutableError);
  book ← loadActiveBook (je_accountingBookId draft);
  lines ← loadLines (je_id draft);
  _ ← st_lift (assertBalanced (row_balance <$> lines));
  db ← st_get;
  _ ← assertRequiredDimensions book (draft_dimensions db lines);
  period ← resolvePeriodRow (bk_id book) (je_entryDate draft);
  isBackdated ← st_lift (assertPeriodAcceptsPosting period allowBackdated);
  entryNumber ← nextEntryNumber (bk_id book);
  entry ← markPosted draft entryNumber (fp_id period) isBackdated postedByUserId;
  _ ← audit_append (entry_audit "accounting.journal.posted" (je_id entry) postedByUserId requestId);
  mret {| po_entry := entry; po_lines := lines; po_reused := false; po_routing := None |}.

Definition postDraft (journalEntryId : uuid) (allowBackdated : bool)
    (postedByUserId requestId : option string) : run PostedEntry :=
  transaction (postDraft_body journalEntryId allowBackdated postedByUserId requestId).

(** ** [voidDraft] *)
Definition voidDraft (journalEntryId : uuid) (reason : string) (actor request : option string)
    : run JournalEntry :=
  _ ← st_lift (throw_if (String.eqb (Text.trim reason) "") AccountingValidationError);
  transaction (
    before ← loadEntry journalEntryId;
    if bool_decide (je_status before = EntryVoid) then mret before
    else
      _ ← st_lift (throw_if (bool_decide (je_status before <> EntryDraft)) LedgerImmutableError);
      now ← st_gets db_now;
      _ ← updateJournalEntry (je_id before) (entry_status EntryVoid now);
      after ← loadEntry (je_id before);
      _ ← audit_append (entry_audit "accounting.journal.voided" (je_id before) actor request);
      mret after).

(** ** [reverseEntry] *)
Definition reversal_header (original : JournalEntry) (entryDate : date) (reason : string)
    (actor : option string) : HeaderInput :=
  {| hd_entryDate := entryDate;
     hd_description := String.append "Reversal of " (je_description original);
     hd_memo := Some reason; hd_entrySource := je_entrySource original;
     hd_postingRuleVersionId := je_postingRuleVersionId original;
     hd_postingKey := String.append "rev:" <$> je_postingKey original;
     hd_sourceFactType := je_sourceFactType original;
     hd_sourceFactId := je_sourceFactId original;
     hd_sourceFactFingerprint := je_sourceFactFingerprint original;
     hd_createdByUserId := actor; hd_reversesEntryId := Some (je_id original) |}.

Definition reverseLine (line : JournalLine) : run ResolvedLine :=
  tags ← st_gets (fun db => (fun d => (ld_dimensionId d, ld_dimensionValueId d)) <$>
            List.filter (fun d => bool_decide (ld_journalLineId d = jl_id line)) (db_line_dims db));
  amount ← st_lift (negateDecimal (fromUnits (jl_amount line)));
  functionalAmount ← st_lift (negateDecimal (fromUnits (jl_functionalAmount line)));
  mret {| rl_ledgerAccountId := jl_ledgerAccountId line;
          rl_economicEntityId := jl_economicEntityId line; rl_lineNumber := jl_lineNumber line;
          rl_description := jl_description line; rl_currency := jl_currency line;
          rl_amount := amount; rl_functionalCurrency := jl_functionalCurrency line;
          rl_functionalAmount := functionalAmount; rl_dimensions := tags |}.

Definition copied_link (k : JournalEntrySourceLink) : SourceLinkInput :=
  {| sk_sourceFactType := sl_sourceFactType k; sk_sourceFactId := sl_sourceFactId k;
     sk_role := sl_role k; sk_amountContributed := fromUnits <$> sl_amountContributed k;
     sk_currency := sl_currency k |}.

Definition reversed_from_link (original : JournalEntry) : list SourceLinkInput :=
  match je_sourceFactType original, je_sourceFactId original with
  | Some t, Some id => [{| sk_sourceFactType := t; sk_sourceFactId := id;
                           sk_role := RoleReversedFrom; sk_amountContributed := None;
                           sk_currency := None |}]
  | _, _ => []
  end.

Definition find_reversal (db : Db) (original : uuid) : option JournalEntry :=
  find_row (fun e => opt_eqb (je_reversesEntryId e) original) (db_entries db).

(** The part that writes, once the entry may be reversed and has not been. *)
Definition reverseEntry_write (original : JournalEntry) (entryDate : option date)
    (reason : string) (allowBackdated : bool) (actor request : option string) : run PostedEntry :=
  book ← loadActiveBook (je_accountingBookId original);
  originalLines ← loadLines (je_id original);
  _ ← st_lift (throw_if (length originalLines =? 0)%nat AccountingValidationError);
  let date := default (je_entryDate original) entryDate in
  period ← resolvePeriodRow (bk_id book) date;
  isBackdated ← st_lift (assertPeriodAcceptsPosting period allowBackdated);
  entryNumber ← nextEntryNumber (bk_id book);
  reversal ← insertHeader (bk_id book) (reversal_header original date reason actor);
  reversedLines ← st_mapM reverseLine originalLines;
  insertedLines ← insertLines (bk_id book) (je_id reversal) reversedLines;
  originalLinks ← st_gets (fun db =>
    List.filter (fun k => bool_decide (sl_journalEntryId k = je_id original)) (db_source_links db));
  _ ← insertSourceLinks (je_id reversal) (copied_link <$> originalLinks);
  _ ← insertSourceLinks (je_id reversal) (reversed_from_link original);
  posted ← markPosted reversal entryNumber (fp_id period) isBackdated actor;
  now ← st_gets db_now;
  _ ← updateJournalEntry (je_id original) (entry_status EntryReversed now);
  _ ← audit_append (entry_audit "accounting.journal.reversed" (je_id original) actor request);
  mret {| po_entry := posted; po_lines := insertedLines; po_reused := false; po_routing := None |}.

Definition reverseEntry_body (journalEntryId : uuid) (entryDate : option date)
    (reason : string) (allowBackdated : bool) (actor request : option string) : run PostedEntry :=
  original ← loadEntry journalEntryId;
  _ ← st_lift (throw_if (bool_decide (je_status original = EntryDraft)
                         || bool_decide (je_status original = EntryVoid)) LedgerImmutableError);
  _ ← st_lift (throw_if (is_some (je_reversesEntryId original)) LedgerImmutableError);
  db ← st_get;
  match find_reversal db (je_id original) with
  | Some already =>
      lines ← loadLines (je_id already);
      mret {| po_entry := already; po_lines := lines; po_reused := true; po_routing := None |}
  | None => reverseEntry_write original entryDate reason allowBackdated actor request
  end.

Definition reverseEntry (journalEntryId : uuid) (entryDate : option date) (reason : string)
    (allowBackdated : bool) (actor request : option string) : run PostedEntry :=
  let reason := Text.trim reason in
  _ ← st_lift (throw_if (String.eqb reason "") AccountingValidationError);
  transaction (reverseEntry_body journalEntryId entryDate reason allowBackdated actor request).

(** ** Reading *)
Definition findByPostingKey (postingKey : string) : run (option JournalEntry) :=
  st_gets (fun db => find_row (fun e => opt_eqb (je_postingKey e) postingKey) (db_entries db)).

Definition findBySourceFact (sourceFactType : string) (sourceFactId : uuid)
    : run (list JournalEntry) :=
  st_gets (fun db => order_by je_createdAt
    (List.filter (fun e => opt_eqb (je_sourceFactType e) sourceFactType
                           && opt_eqb (je_sourceFactId e) sourceFactId) (db_entries db))).

(** The filter's [economicEntityId] member is declared and never read. *)
Record JournalEntryFilter : Type := {
  jf_accountingBookId : option uuid;
  jf_economicEntityId : option uuid;
  jf_statuses : list EntryStatus;
  jf_from : option date;
  jf_to : option date;
  jf_limit : option Z;
}.

Definition entry_selected (f : JournalEntryFilter) (e : JournalEntry) : bool :=
  match jf_accountingBookId f with None => true | Some b => bool_decide (je_accountingBookId e = b) end
  && match jf_statuses f with [] => true | l => bool_decide (je_status e ∈ l) end
  && match jf_from f with None => true | Some t => t <=? je_entryDate e end
  && match jf_to f with None => true | Some t => je_entryDate e <=? t end.

(** [order by entry_date, entry_number], nulls last. *)
Definition listEntries (f : JournalEntryFilter) : run (list JournalEntry) :=
  st_gets (fun db =>
    let rows := order_by (fun e => je_entryDate e * 2 ^ 64 + default (2 ^ 64 - 1) (je_entryNumber e))
                  (List.filter (entry_selected f) (db_entries db)) in
    match jf_limit f with
    | None => rows
    | Some n => take (Z.to_nat (Z.max 1 n)) rows
    end).
