(* ===== verification/JournalFacts.v ===== *)
(** * The journal: theorems

    What a balanced entry is ([assertBalanced_spec]), what each verb of the
    journal leaves in the tables when it returns, the gapless numbering, the
    idempotency of posting and of reversal, the race on a posting key, and the
    agreement of the service's checks with the database's. *)
From S2P Require Import Prelude Decimal Calendar Inputs Store Schema Ledger LedgerFacts.
From S2P Require Import Periods Chart Books Journal.

Open Scope Z_scope.

(** ** The balance invariant *)
Definition amounts_of (key amount : BalanceLine -> string) (c : string) (lines : list BalanceLine)
    : list string :=
  amount <$> filter (fun l => key l = c) lines.

(** [values] are decimal literals that sum to zero at money scale. *)
Definition sums_to_zero (values : list string) : Prop :=
  exists us, Forall2 (fun v u => toUnits v = Ok u) values us /\ sumZ us = 0.

(** The amounts of every currency that occurs sum to zero. *)
Definition zero_sum (key amount : BalanceLine -> string) (lines : list BalanceLine) : Prop :=
  forall l, l ∈ lines -> sums_to_zero (amounts_of key amount (key l) lines).

Lemma push_amount_fmap ks f key amount :
  NoDup ks ->
  push_amount ((fun k => (k, f k)) <$> ks) key amount =
  if decide (key ∈ ks)
  then (fun k => (k, f k ++ if decide (k = key) then [amount] else [])) <$> ks
  else ((fun k => (k, f k)) <$> ks) ++ [(key, [amount])].
Proof.
  induction ks as [|k ks IH]; intros Hn; [done|]. csimpl. apply NoDup_cons in Hn as [Hk Hn].
  destruct (String.eqb_spec k key) as [->|Hne].
  - rewrite decide_True by set_solver. rewrite decide_True by done. f_equal.
    apply list_fmap_ext. intros i x Hx. apply list_elem_of_lookup_2 in Hx.
    rewrite decide_False by (intros ->; done). by rewrite app_nil_r.
  - rewrite IH by done. destruct (decide (key ∈ ks)) as [Hi|Hi].
    + rewrite decide_True by set_solver. rewrite decide_False by done. by rewrite app_nil_r.
    + rewrite decide_False by set_solver. done.
Qed.

Lemma group_amounts_spec key amount lines :
  exists ks, NoDup ks /\ (forall c, c ∈ ks <-> exists l, l ∈ lines /\ key l = c) /\
    group_amounts key amount lines = (fun k => (k, amounts_of key amount k lines)) <$> ks.
Proof.
  unfold group_amounts, amounts_of.
  induction lines as [|l lines IH] using rev_ind.
  { exists []. split; [constructor|]. split; [set_solver|done]. }
  destruct IH as (ks & Hn & Hks & E). rewrite fold_left_app, E. cbn [fold_left].
  rewrite (push_amount_fmap ks (fun k => amount <$> filter (fun l => key l = k) lines)) by done.
  assert (forall k, amount <$> filter (fun x => key x = k) (lines ++ [l]) =
            (amount <$> filter (fun x => key x = k) lines)
              ++ if decide (k = key l) then [amount l] else []) as Hf.
  { intros k. rewrite filter_app, fmap_app. f_equal. rewrite filter_cons, filter_nil.
    repeat case_decide; congruence || done. }
  destruct (decide (key l ∈ ks)) as [Hi|Hi].
  - exists ks. split; [done|]. split.
    + intros c. rewrite Hks. setoid_rewrite elem_of_app. setoid_rewrite list_elem_of_singleton.
      split; [naive_solver|]. intros (x & [Hx| ->] & Ex); [naive_solver|].
      subst c. by apply Hks.
    + apply list_fmap_ext. intros i k _. by rewrite Hf.
  - exists (ks ++ [key l]). split; [|split].
    + apply NoDup_app. split; [done|]. split; [|apply NoDup_singleton].
      intros x Hx ->%list_elem_of_singleton. done.
    + intros c. rewrite elem_of_app, Hks, list_elem_of_singleton.
      setoid_rewrite elem_of_app. setoid_rewrite list_elem_of_singleton. naive_solver.
    + rewrite fmap_app. f_equal.
      * apply list_fmap_ext. intros i k Hk. apply list_elem_of_lookup_2 in Hk.
        rewrite Hf, decide_False by (intros ->; done). by rewrite app_nil_r.
      * csimpl. rewrite Hf, decide_True by done. rewrite (filter_none _ lines); [done|].
        intros x Hx Ex. apply Hi, Hks. by exists x.
Qed.

Lemma check_total_ok values :
  (exists total, sumDecimals values = Ok total /\ isZeroDecimal total = Ok true) <->
  sums_to_zero values.
Proof.
  split.
  - intros (total & Hs & Hz). destruct (sumDecimals_ok _ _ Hs) as (us & Hus & ->).
    exists us. split; [done|]. rewrite (isZeroDecimal_units _ (sumZ us)) in Hz
      by apply toUnits_fromUnits.
    injection Hz as Hz. by apply Z.eqb_eq.
  - intros (us & Hus & Hz). exists (fromUnits (sumZ us)). split; [by apply sumDecimals_units|].
    rewrite (isZeroDecimal_units _ (sumZ us)) by apply toUnits_fromUnits. by rewrite Hz.
Qed.

Lemma check_totals_ok m :
  check_totals m = Ok tt <-> Forall (fun g => sums_to_zero (snd g)) m.
Proof.
  induction m as [|[k values] m IH]; cbn [check_totals].
  { split; [constructor|done]. }
  rewrite Forall_cons, <- IH, <- check_total_ok. cbn [snd]. split.
  - intros H. inv_ok. apply negb_false_iff in H2. subst. eauto.
  - intros [(total & -> & Hz) H]. cbn. by rewrite Hz.
Qed.

Lemma check_groups_ok key amount lines :
  check_totals (group_amounts key amount lines) = Ok tt <-> zero_sum key amount lines.
Proof.
  destruct (group_amounts_spec key amount lines) as (ks & _ & Hks & ->).
  rewrite check_totals_ok, Forall_fmap, Forall_forall. unfold zero_sum. cbn. split.
  - intros H l Hl. apply H, Hks. by exists l.
  - intros H k Hk. apply Hks in Hk as (l & Hl & <-). auto.
Qed.

(** ** What the verbs write *)

(** The tables the ledger's arithmetic is about. *)
Definition core (db : Db) :=
  (db_entries db, db_lines db, db_books db, db_periods db, db_accounts db, db_now db).
Definition core_eq (db db' : Db) : Prop := core db' = core db.
#[export] Instance core_eq_preorder : PreOrder core_eq.
Proof. split; unfold core_eq; [done|]. intros ??? H1 H2. by etrans. Qed.

Lemma core_eq_fields db db' : core_eq db db' ->
  db_entries db' = db_entries db /\ db_lines db' = db_lines db /\ db_books db' = db_books db /\
  db_periods db' = db_periods db /\ db_accounts db' = db_accounts db /\ db_now db' = db_now db.
Proof. unfold core_eq, core. by intros [= ? ? ? ? ? ?]. Qed.

Lemma reads_core {A} (m : run A) : reads m -> respects core_eq m.
Proof. apply reads_respects. apply _. Qed.
#[local] Hint Resolve reads_core : store.

Lemma audit_append_core e : respects core_eq (audit_append e).
Proof. intros db u db' H. unfold audit_append in H. by inv_stmt. Qed.

Lemma insertLineDimensions_core rows : respects core_eq (insertLineDimensions rows).
Proof.
  unfold insertLineDimensions. solve_respects.
  intros db u db' H. unfold insertLineDimensionRow in H. by inv_stmt.
Qed.

Lemma insertSourceLinkRow_core v : respects core_eq (insertSourceLinkRow v).
Proof.
  intros db r db' H. unfold insertSourceLinkRow in H. inv_stmt. case_match; by inv_stmt.
Qed.
#[export] Hint Resolve audit_append_core insertLineDimensions_core insertSourceLinkRow_core : store.

Lemma insertSourceLinks_core id links : respects core_eq (insertSourceLinks id links).
Proof. unfold insertSourceLinks, insertSourceLink. solve_respects. Qed.

Lemma insertSourceLinks_step_ok id links : respects step_ok (insertSourceLinks id links).
Proof.
  unfold insertSourceLinks, insertSourceLink. solve_respects. apply insertSourceLinkRow_step_ok.
Qed.

(** *** The reads *)
Lemma loadEntry_reads id : reads (loadEntry id).
Proof. unfold loadEntry. solve_respects. Qed.
Lemma loadLines_reads id : reads (loadLines id).
Proof. unfold loadLines. solve_respects. Qed.
#[export] Hint Resolve loadBook_reads requireBookForEntity_reads loadEntry_reads
  loadLines_reads : store.
Lemma loadActiveBook_reads id : reads (loadActiveBook id).
Proof. unfold loadActiveBook. solve_respects. Qed.
#[export] Hint Resolve loadActiveBook_reads : store.
Lemma resolvePeriodRow_reads book t : reads (resolvePeriodRow book t).
Proof. unfold resolvePeriodRow. solve_respects. Qed.
Lemma resolveLine_reads book i l : reads (resolveLine book i l).
Proof. unfold resolveLine. solve_respects. Qed.
#[export] Hint Resolve resolvePeriodRow_reads resolveLine_reads : store.
Lemma resolveLines_reads book i lines : reads (resolveLines book i lines).
Proof. revert i. induction lines; intros i; simpl; solve_respects. Qed.
Lemma assertRequiredDimensions_reads book lines : reads (assertRequiredDimensions book lines).
Proof. unfold assertRequiredDimensions. solve_respects. Qed.
Lemma routeBook_reads a b c t : reads (routeBook a b c t).
Proof. unfold routeBook. solve_respects. Qed.
Lemma existingByPostingKey_reads k : reads (existingByPostingKey k).
Proof. unfold existingByPostingKey. solve_respects. Qed.
#[export] Hint Resolve resolveLines_reads assertRequiredDimensions_reads routeBook_reads
  existingByPostingKey_reads : store.
Lemma probe_reads k : reads (probe k).
Proof. unfold probe. solve_respects. Qed.
Lemma reverseLine_reads l : reads (reverseLine l).
Proof. unfold reverseLine. solve_respects. Qed.
Lemma line_values_reads b e l : reads (line_values b e l).
Proof. unfold line_values. solve_respects. Qed.
#[export] Hint Resolve probe_reads reverseLine_reads line_values_reads : store.

(** [read_run H] identifies the state a read-only run ended in with the one it
    started from. *)
Ltac read_run H :=
  match type of H with
  | ?m ?s0 = (_, ?s) =>
      let R := fresh in let E := fresh in
      assert (reads m) as R by (first [solve [eauto with store] | solve [solve_respects]]);
      pose proof (reads_run m _ _ _ R H) as E; clear R; subst s
  end.

Lemma loadEntry_inv id db e db' :
  loadEntry id db = (Ok e, db') -> e ∈ db_entries db /\ je_id e = id /\ db' = db.
Proof.
  unfold loadEntry. intros H. inv_st. destruct (find_entry db id) eqn:E; inv_st.
  by apply find_entry_some in E as [? ?].
Qed.

Lemma loadActiveBook_inv id db b db' :
  loadActiveBook id db = (Ok b, db') ->
  db' = db /\ find_book id db = Some b /\ bk_id b = id /\ bk_status b = BookActive.
Proof.
  intros H. pose proof H as H0. read_run H0. split; [done|].
  unfold loadActiveBook in H. run_bind H row s Hr. pose proof Hr as Hr0. read_run Hr0. clear Hr0.
  run_bind H u1 s1 H1. apply st_lift_inv in H1 as [H1 ->].
  run_bind H u2 s2 H2. apply st_ret_inv in H as [-> _].
  unfold loadBook in Hr. run_bind Hr d s3 Hd. apply st_get_inv in Hd as [-> ->].
  destruct (find_book id db) as [b0|] eqn:E; [|discriminate Hr]. apply st_ret_inv in Hr as [<- _].
  apply throw_if_Ok, bool_decide_eq_false, dec_stable in H1.
  split; [done|]. unfold find_book in E. by apply find_row_some in E as [_ Ei%bool_decide_eq_true].
Qed.

Lemma routeBook_inv a b c t db book routing db' :
  routeBook a b c t db = (Ok (book, routing), db') ->
  db' = db /\ find_book (bk_id book) db = Some book /\ bk_status book = BookActive /\
  (forall id, a = Some id -> bk_id book = id).
Proof.
  intros H. pose proof H as H0. read_run H0. split; [done|]. clear H0. unfold routeBook in H.
  destruct a as [id|].
  - run_bind H bk s Hb. apply loadActiveBook_inv in Hb as (-> & Hf & Hi & Hs).
    apply st_ret_inv in H as [[= -> ->] _]. subst id. split; [done|]. split; [done|]. by intros ? [= <-].
  - run_bind H r s Hr. read_run Hr. run_bind H bk s Hb.
    apply loadActiveBook_inv in Hb as (-> & Hf & Hi & Hs).
    apply st_ret_inv in H as [[= -> ->] _]. by rewrite Hi.
Qed.

(** The period a posting is stamped with: the row that has the identifier of
    the book's period covering the date. *)
Definition stamped_period (periods : list FiscalPeriod) (book : uuid) (t : date)
    (p : FiscalPeriod) : Prop :=
  p ∈ periods /\
  exists q, find_row (period_contains book t) periods = Some q /\ fp_id p = fp_id q.

Lemma stamped_period_contains db book t p :
  ledger_ok db -> stamped_period (db_periods db) book t p -> period_contains book t p = true.
Proof.
  intros Hok (Hp & q & Hq & E). apply find_row_some in Hq as [Hq Hc].
  by replace p with q by (by eapply (NoDup_keys_inj fp_id); [apply Hok|..]).
Qed.

Lemma resolvePeriodRow_inv book t db p db' :
  resolvePeriodRow book t db = (Ok p, db') ->
  db' = db /\ stamped_period (db_periods db) book t p.
Proof.
  intros H. pose proof H as H0. read_run H0. split; [done|]. unfold resolvePeriodRow in H.
  run_bind H u s Hd. apply dateLiteral_inv in Hd as (Hv & -> & ->).
  run_bind H d s Hg. apply st_get_inv in Hg as [-> ->].
  destruct (find_row (period_contains _ _) _) as [q|] eqn:Eq; [|discriminate H].
  destruct (find_row (fun p => bool_decide (fp_id p = fp_id q)) _) as [r|] eqn:Er; [|discriminate H].
  apply st_ret_inv in H as [-> _].
  apply find_row_some in Er as [Hr Hi%bool_decide_eq_true]. split; [done|]. by exists q.
Qed.

(** *** The writes *)
Definition bumped (b : AccountingBook) (now : Z) : AccountingBook :=
  book_with (bk_status b) (bk_nextEntryNumber b + 1) now b.

Lemma nextEntryNumber_inv book db n db' :
  find_book (bk_id book) db = Some book ->
  nextEntryNumber (bk_id book) db = (Ok n, db') ->
  n = bk_nextEntryNumber book /\ 1 <= n <= MAX_SAFE_INTEGER /\
  db' = set_books (update_rows (fun b => bool_decide (bk_id b = bk_id book))
                     (fun b => bumped b (db_now db)) (db_books db)) db.
Proof.
  intros Hf H. unfold nextEntryNumber in H. run_bind H d s Hd. apply st_get_inv in Hd as [-> ->].
  cbv zeta in H. rewrite Hf in H. run_bind H u s Hu. apply st_lift_inv in Hu as [Hu ->].
  apply throw_if_Ok, orb_false_iff in Hu as [H1%Z.ltb_ge H2%Z.ltb_ge].
  run_bind H v s Hv. apply st_ret_inv in H as [-> ->].
  unfold updateBook in Hv. inv_stmt. split; [done|]. split; [lia|]. reflexivity.
Qed.

Lemma nextEntryNumber_step_ok id : respects step_ok (nextEntryNumber id).
Proof. unfold nextEntryNumber. solve_respects. Qed.

Definition insert_entry (e : JournalEntry) (db : Db) : Db :=
  set_deferred (db_deferred db ++ [je_id e])
    (set_entries (db_entries db ++ [e]) (set_next (Pos.succ (je_id e)) db)).

Lemma insertHeader_inv book hd db e db' :
  insertHeader book hd db = (Ok e, db') ->
  e = header_row book hd (db_next db) (db_now db) /\ db' = insert_entry e db /\
  je_id e ∉ (je_id <$> db_entries db) /\ valid_date (hd_entryDate hd) = true /\
  forall f, f ∈ db_entries db -> entries_conflict f e = false.
Proof.
  intros H. unfold insertHeader in H. run_bind H u1 s1 H1. apply st_lift_inv in H1 as [_ ->].
  run_bind H u2 s2 H2. apply st_lift_inv in H2 as [_ ->].
  run_bind H t s3 H3. apply date_in_inv in H3 as (Hv & -> & ->).
  unfold insertJournalEntry in H. inv_stmt. split; [done|]. split; [done|].
  split; [by apply exists_id_false|]. split; [done|]. by apply no_conflict_new.
Qed.

Lemma insertHeader_step_ok book hd : respects step_ok (insertHeader book hd).
Proof. unfold insertHeader. solve_respects. by apply insertJournalEntry_step_ok. Qed.

(** The row a resolved line becomes. *)
Record line_row (book entry : uuid) (l : ResolvedLine) (r : JournalLine) : Prop := {
  lr_entry : jl_journalEntryId r = entry;
  lr_book : jl_accountingBookId r = book;
  lr_account : jl_ledgerAccountId r = rl_ledgerAccountId l;
  lr_entity : jl_economicEntityId r = rl_economicEntityId l;
  lr_number : jl_lineNumber r = rl_lineNumber l;
  lr_currency : jl_currency r = rl_currency l;
  lr_functionalCurrency : jl_functionalCurrency r = rl_functionalCurrency l;
  lr_amount : toUnits (rl_amount l) = Ok (jl_amount r);
  lr_functionalAmount : toUnits (rl_functionalAmount l) = Ok (jl_functionalAmount r);
}.

Lemma line_values_inv book entry l db v db' :
  line_values book entry l db = (Ok v, db') ->
  forall id now, jl_id (v id now) = id /\ line_row book entry l (v id now).
Proof.
  unfold line_values. intros H. run_bind H a s Ha. apply numeric_in_inv in Ha as (Ha & _ & ->).
  run_bind H f s Hf. apply numeric_in_inv in Hf as (Hf & _ & ->).
  apply st_ret_inv in H as [-> _]. intros id now. split; [done|]. by split.
Qed.

Lemma st_mapM_reads_Forall2 {A B} (f : A -> run B) l db k db' :
  (forall x, reads (f x)) -> st_mapM f l db = (Ok k, db') ->
  db' = db /\ Forall2 (fun x y => f x db = (Ok y, db)) l k.
Proof.
  intros Hr. revert k. induction l as [|x l IH]; intros k H; simpl in H.
  { apply st_ret_inv in H as [-> ->]. split; [done|constructor]. }
  run_bind H y s Hy. pose proof (reads_run _ _ _ _ (Hr x) Hy) as ->.
  run_bind H ys s Hys. apply st_ret_inv in H as [-> ->].
  apply IH in Hys as [-> Hys]. split; [done|]. by constructor.
Qed.

Lemma insertLines_inv book entry lines db out db' :
  insertLines book entry lines db = (Ok out, db') ->
  exists rows, out = order_by jl_lineNumber rows /\
    Forall2 (line_row book entry) lines rows /\
    (forall r, r ∈ rows -> line_checks r = true /\ line_insert_allowed db r = true) /\
    db_lines db' = db_lines db ++ rows /\
    (NoDup (jl_id <$> db_lines db) -> NoDup (jl_id <$> db_lines db')) /\
    db_entries db' = db_entries db /\ db_books db' = db_books db /\
    db_periods db' = db_periods db /\ db_accounts db' = db_accounts db /\ db_now db' = db_now db.
Proof.
  intros H. unfold insertLines in H. run_bind H vs s Hvs.
  apply st_mapM_reads_Forall2 in Hvs as [-> Hvs]; [|solve_respects].
  run_bind H rows s Hrows. pose proof (Forall2_impl _ _ _ _ Hvs
    (fun l v E => line_values_inv book entry l _ v _ E)) as Hv.
  apply insertJournalLines_spec in Hrows as (next & -> & Hall & Hnd & Hf).
  2:{ intros v Hin id now. destruct (list_elem_of_lookup_1 _ _ Hin) as [i Hi].
      destruct (Forall2_lookup_r _ _ _ _ _ Hv Hi) as (l & _ & Hl). by apply Hl. }
  run_bind H u s Hu. apply st_ret_inv in H as [-> ->].
  assert (core_eq (add_lines next rows db) s) as Hc.
  { destruct (0 <? _)%nat; [by eapply insertLineDimensions_core|].
    by apply st_ret_inv in Hu as [_ ->]. }
  apply core_eq_fields in Hc as (-> & -> & -> & -> & -> & ->).
  exists rows. split; [done|]. split.
  { clear - Hv Hf. revert rows Hf. induction Hv as [|l v ls vs Hl _ IH]; intros rows Hf.
    - inversion Hf. constructor.
    - inversion Hf as [|? r ? rs [id ->] Hr]; subst. constructor; [apply Hl|by apply IH]. }
  split; [intros r Hr; split; by apply Hall|]. done.
Qed.

Lemma insertLines_step_ok book entry lines : respects step_ok (insertLines book entry lines).
Proof.
  intros db out db' H. unfold insertLines in H. run_bind H vs s Hvs.
  apply st_mapM_reads_Forall2 in Hvs as [-> Hvs]; [|solve_respects].
  run_bind H rows s Hrows. etrans.
  - eapply insertJournalLines_step_ok; [|exact Hrows]. intros v Hin id now.
    destruct (list_elem_of_lookup_1 _ _ Hin) as [i Hi].
    destruct (Forall2_lookup_r _ _ _ _ _ Hvs Hi) as (l & _ & Hl).
    by apply (line_values_inv _ _ _ _ _ _ Hl).
  - revert H. eapply (respects_bind step_ok); [|intros; solve_respects].
    solve_respects. apply insertLineDimensions_step_ok.
Qed.

Lemma textLiteral_opt_inv o a : textLiteral_opt o = Ok a -> a = o.
Proof. destruct o as [s|]; cbn; unfold textLiteral; intros H; inv_ok; done. Qed.

Lemma markPosted_inv draft n p b actor db e db' :
  NoDup (je_id <$> db_entries db) -> draft ∈ db_entries db ->
  markPosted draft n p b actor db = (Ok e, db') ->
  e = entry_posted n p b actor (db_now db) draft /\
  db_entries db' = update_rows (fun x => bool_decide (je_id x = je_id draft))
                     (entry_posted n p b actor (db_now db)) (db_entries db) /\
  db_lines db' = db_lines db /\ db_books db' = db_books db /\ db_periods db' = db_periods db /\
  db_accounts db' = db_accounts db /\ db_now db' = db_now db /\
  entry_update_allowed draft e = true /\ period_guard db (Some draft) e = true.
Proof.
  intros Hn Hd H. unfold markPosted in H. run_bind H by_user s Hu.
  apply st_lift_inv in Hu as [->%textLiteral_opt_inv ->].
  run_bind H now s Hnow. apply st_gets_inv in Hnow as [-> ->].
  run_bind H u s Hup. apply loadEntry_inv in H as (He & Hi & ->).
  unfold updateJournalEntry in Hup. inv_stmt.
  match goal with G : forallb _ _ = true |- _ =>
    pose proof (guarded_row je_id (je_id draft)
      (fun e => entry_update_allowed e (entry_posted n p b actor (db_now db) e)
                && period_guard db (Some e) (entry_posted n p b actor (db_now db) e))
      _ draft G Hd eq_refl) as Hg end.
  cbv beta in Hg. apply andb_true_iff in Hg as [Ha Hg]. cbn in He.
  assert (e = entry_posted n p b actor (db_now db) draft) as ->; [|done].
  eapply (NoDup_keys_inj je_id); [| exact He | | exact Hi].
  - by rewrite update_rows_keys.
  - apply update_rows_elem. exists draft. by rewrite bool_decide_true.
Qed.

Lemma markPosted_step_ok draft n p b actor : respects step_ok (markPosted draft n p b actor).
Proof. unfold markPosted. solve_respects. by apply updateJournalEntry_step_ok. Qed.

(** What a verb that posts has written when it returns: one new entry, posted
    under the book's next number, with one row per line, and the counter of
    its book advanced. *)
Record written (db db' : Db) (now : Z) (book : AccountingBook) (hd : HeaderInput) (period : uuid)
    (backdated : bool) (actor : option string) (lines : list ResolvedLine)
    (e : JournalEntry) (rows : list JournalLine) : Prop := {
  wr_fresh : je_id e ∉ (je_id <$> db_entries db);
  wr_entry : e = entry_posted (bk_nextEntryNumber book) period backdated actor now
                   (header_row (bk_id book) hd (je_id e) now);
  wr_number : 1 <= bk_nextEntryNumber book <= MAX_SAFE_INTEGER;
  wr_entries : db_entries db' = db_entries db ++ [e];
  wr_rows : Forall2 (line_row (bk_id book) (je_id e)) lines rows;
  wr_lines : db_lines db' = db_lines db ++ rows;
  wr_books : db_books db' = update_rows (fun b => bool_decide (bk_id b = bk_id book))
                              (fun b => bumped b now) (db_books db);
  wr_periods : db_periods db' = db_periods db;
  wr_accounts : db_accounts db' = db_accounts db;
  wr_now : db_now db' = now;
  wr_unique f : f ∈ db_entries db -> je_postingKey f <> None ->
    je_postingKey f <> je_postingKey e;
}.

Lemma update_rows_snoc_new {A} (key : A -> uuid) (f : A -> A) rows r :
  key r ∉ (key <$> rows) ->
  update_rows (fun x => bool_decide (key x = key r)) f (rows ++ [r]) = rows ++ [f r].
Proof.
  intros Hn. rewrite update_rows_app, update_rows_none.
  - unfold update_rows. csimpl. by rewrite bool_decide_true.
  - intros x Hx. apply bool_decide_eq_false. intros E. apply Hn. rewrite <- E.
    by apply list_elem_of_fmap_2.
Qed.

Lemma write_posting db book n s1 hd d s2 lines out s3 s4 p b actor e s5 :
  NoDup (je_id <$> db_entries db) -> find_book (bk_id book) db = Some book ->
  nextEntryNumber (bk_id book) db = (Ok n, s1) ->
  insertHeader (bk_id book) hd s1 = (Ok d, s2) ->
  insertLines (bk_id book) (je_id d) lines s2 = (Ok out, s3) ->
  core_eq s3 s4 -> markPosted d n p b actor s4 = (Ok e, s5) ->
  exists rows, out = order_by jl_lineNumber rows /\
    written db s5 (db_now db) book hd p b actor lines e rows.
Proof.
  intros Hn Hf H1 H2 H3 H4 H5.
  apply nextEntryNumber_inv in H1 as (-> & Hr & ->); [|done].
  apply insertHeader_inv in H2 as (Hd & -> & Hfresh & _ & Hconf).
  apply insertLines_inv in H3 as (rows & -> & Hrows & _ & El & _ & Ee & Eb & Ep & Ea & En).
  cbn in El, Ee, Eb, Ep, Ea, En, Hfresh.
  apply core_eq_fields in H4 as (Ee4 & El4 & Eb4 & Ep4 & Ea4 & En4).
  apply markPosted_inv in H5 as (He & Ee5 & El5 & Eb5 & Ep5 & Ea5 & En5 & _ & _).
  2:{ rewrite Ee4, Ee. by apply NoDup_keys_snoc. }
  2:{ rewrite Ee4, Ee. apply elem_of_app. right. by apply list_elem_of_singleton. }
  assert (je_id e = je_id d) as Eid by (by rewrite He).
  exists rows. split; [done|]. split; rewrite ?Eid.
  - done.
  - rewrite He, En4, En. f_equal. rewrite Hd. done.
  - done.
  - rewrite Ee5, Ee4, Ee, update_rows_snoc_new by done. by rewrite He, En4, En.
  - done.
  - by rewrite El5, El4, El.
  - by rewrite Eb5, Eb4, Eb.
  - by rewrite Ep5, Ep4, Ep.
  - by rewrite Ea5, Ea4, Ea.
  - by rewrite En5, En4, En.
  - intros f Hin Hk E. specialize (Hconf f Hin). unfold entries_conflict in Hconf.
    apply orb_false_iff in Hconf as [Hconf _].
    assert (je_postingKey e = je_postingKey d) as Ek by (by rewrite He).
    rewrite bool_decide_true in Hconf by congruence.
    destruct (je_postingKey f); [discriminate Hconf|done].
Qed.

(** The lines of the new entry are the rows written with it. *)
Lemma written_lines db db' now book hd p b actor lines e rows :
  ledger_ok db -> written db db' now book hd p b actor lines e rows ->
  entry_lines db' (je_id e) = rows.
Proof.
  intros Hok Hw. unfold entry_lines. rewrite (wr_lines _ _ _ _ _ _ _ _ _ _ _ Hw), filter_app.
  rewrite (filter_none _ (db_lines db)).
  - cbn. pose proof (wr_rows _ _ _ _ _ _ _ _ _ _ _ Hw) as Hr. clear - Hr. revert Hr.
    generalize lines as ls. induction rows as [|r rows IH]; [done|]. intros ls Hr.
    inversion Hr as [|l ? ls' ? Hl Hr']; subst. rewrite filter_cons_True by apply Hl.
    f_equal. by eapply IH.
  - intros l Hl E. apply (wr_fresh _ _ _ _ _ _ _ _ _ _ _ Hw). rewrite <- E.
    destruct (ok_lines _ Hok l Hl) as [_ Hfk]. unfold line_fks in Hfk.
    apply andb_true_iff in Hfk as [[Hfk _]%andb_true_iff _].
    apply existsb_elem in Hfk as (f & Hin & [Hi%bool_decide_eq_true _]%andb_true_iff).
    rewrite <- Hi. by apply list_elem_of_fmap_2.
Qed.

(** Lines that are balanced as the service checks them are rows that are
    balanced as the database checks them. *)
Lemma zero_sum_rows {A} (key : A -> string) (bal : A -> string) (rkey : JournalLine -> string)
    (ramount : JournalLine -> Z) (lines : list A) rows c :
  Forall2 (fun l r => rkey r = key l /\ toUnits (bal l) = Ok (ramount r)) lines rows ->
  sums_to_zero (bal <$> filter (fun l => key l = c) lines) <->
  sumZ (ramount <$> filter (fun r => rkey r = c) rows) = 0.
Proof.
  intros H. assert (Forall2 (fun v u => toUnits v = Ok u)
    (bal <$> filter (fun l => key l = c) lines)
    (ramount <$> filter (fun r => rkey r = c) rows)) as Hf.
  { induction H as [|l r ls rs [Hk Ha] _ IH]; [constructor|].
    destruct (decide (key l = c)) as [E|E].
    - rewrite !filter_cons_True by congruence. by constructor.
    - by rewrite !filter_cons_False by congruence. }
  unfold sums_to_zero. split; [|by eexists].
  intros (us & Hus & Hz). rewrite <- Hz. f_equal. clear - Hus Hf.
  revert us Hus. induction Hf as [|v u vs us' Hv _ IH]; intros us Hus.
  - by inversion Hus.
  - inversion Hus as [|? u2 ? us2 Hv2 Hus2]; subst. f_equal; [congruence|by apply IH].
Qed.

(** A row as [assertBalanced] sees it. *)
Definition balance_row (l : BalanceLine) (r : JournalLine) : Prop :=
  jl_currency r = bl_currency l /\ toUnits (bl_amount l) = Ok (jl_amount r) /\
  jl_functionalCurrency r = bl_functionalCurrency l /\
  toUnits (bl_functionalAmount l) = Ok (jl_functionalAmount r).

Lemma zero_sum_forall key amount (rkey : JournalLine -> string) ramount lines rows :
  Forall2 (fun l r => rkey r = key l /\ toUnits (amount l) = Ok (ramount r)) lines rows ->
  zero_sum key amount lines <->
  forall r, r ∈ rows -> sumZ (ramount <$> filter (fun x => rkey x = rkey r) rows) = 0.
Proof.
  intros H. unfold zero_sum, amounts_of. setoid_rewrite (zero_sum_rows key amount rkey ramount
    lines rows _ H). split.
  - intros Hz r Hr. apply list_elem_of_lookup in Hr as [i Hi].
    destruct (Forall2_lookup_r _ _ _ _ _ H Hi) as (l & Hl & Hk & _). rewrite Hk. apply Hz.
    by eapply list_elem_of_lookup_2.
  - intros Hz l Hl. apply list_elem_of_lookup in Hl as [i Hi].
    destruct (Forall2_lookup_l _ _ _ _ _ H Hi) as (r & Hr & Hk & _). rewrite <- Hk. apply Hz.
    by eapply list_elem_of_lookup_2.
Qed.

Lemma assertBalanced_ok lines :
  assertBalanced lines = Ok tt <->
  (2 <= length lines)%nat /\ zero_sum bl_currency bl_amount lines /\
  zero_sum bl_functionalCurrency bl_functionalAmount lines.
Proof.
  unfold assertBalanced. rewrite <- !check_groups_ok. split.
  - intros H. inv_ok. apply Nat.ltb_ge in H0. by destruct a0.
  - intros (H1%Nat.ltb_ge & H2 & H3). rewrite H1, H2. exact H3.
Qed.

Lemma assertBalanced_rows lines rows :
  Forall2 balance_row lines rows ->
  assertBalanced lines = Ok tt <-> (2 <= length rows)%nat /\ lines_balanced rows = true.
Proof.
  intros H. rewrite assertBalanced_ok, (Forall2_length _ _ _ H).
  rewrite (zero_sum_forall _ _ jl_currency jl_amount _ rows)
    by (eapply Forall2_impl; [exact H|]; by intros l r (? & ? & _)).
  rewrite (zero_sum_forall _ _ jl_functionalCurrency jl_functionalAmount _ rows)
    by (eapply Forall2_impl; [exact H|]; by intros l r (_ & _ & ? & ?)).
  unfold lines_balanced. rewrite !andb_true_iff, !forallb_elem. setoid_rewrite Z.eqb_eq.
  unfold currency_total, functional_total. split; [|by intros (? & [_ ?] & ?)].
  intros (Hlen & ? & ?). split; [done|]. split; [split; [by destruct rows as [|? [|]]; simpl in *; lia || done|done]|done].
Qed.

Lemma row_balance_row rows : Forall2 balance_row (row_balance <$> rows) rows.
Proof.
  induction rows as [|r rows IH]; [constructor|]. constructor; [|done].
  unfold balance_row. cbn. rewrite !toUnits_fromUnits. done.
Qed.

Lemma resolved_balance_row book e lines rows :
  Forall2 (line_row book e) lines rows -> Forall2 balance_row (resolved_balance <$> lines) rows.
Proof. induction 1 as [|l r ls rs [] _ IH]; constructor; [done|exact IH]. Qed.

(** How [assertBalanced] fails. *)
Lemma check_totals_throw m er :
  check_totals m = Throw er -> er = UnbalancedEntryError \/ er = AccountingValidationError.
Proof.
  induction m as [|[k values] m IH]; [done|]. cbn [check_totals].
  destruct (sumDecimals values) as [t|e'] eqn:Es; cbn.
  - destruct (sumDecimals_ok _ _ Es) as (us & _ & ->).
    rewrite (isZeroDecimal_units _ (sumZ us)) by apply toUnits_fromUnits. cbn.
    destruct (sumZ us =? 0); cbn; [exact IH|]. intros [= <-]. by left.
  - intros [= ->]. right. by eapply sumDecimals_throw.
Qed.

Lemma check_totals_total m :
  Forall (fun g => exists us, Forall2 (fun v u => toUnits v = Ok u) (snd g) us) m ->
  check_totals m = Ok tt \/ check_totals m = Throw UnbalancedEntryError.
Proof.
  induction 1 as [|[k values] m [us Hus] _ IH]; [by left|]. cbn [check_totals snd] in *.
  rewrite (sumDecimals_units _ us) by done. cbn.
  rewrite (isZeroDecimal_units _ (sumZ us)) by apply toUnits_fromUnits. cbn.
  destruct (sumZ us =? 0); [exact IH|by right].
Qed.

Lemma group_amounts_parse key amount lines :
  (forall l, l ∈ lines -> exists u, toUnits (amount l) = Ok u) ->
  Forall (fun g => exists us, Forall2 (fun v u => toUnits v = Ok u) (snd g) us)
    (group_amounts key amount lines).
Proof.
  intros H. destruct (group_amounts_spec key amount lines) as (ks & _ & _ & ->).
  apply Forall_fmap, Forall_true. intros k. cbn.
  assert (forall l, l ∈ filter (fun l => key l = k) lines -> exists u, toUnits (amount l) = Ok u) as Hk.
  { intros l Hl. apply list_elem_of_filter in Hl as [_ Hl]. auto. }
  unfold amounts_of. revert Hk. generalize (filter (fun l => key l = k) lines). clear.
  intros ls Hk. induction ls as [|l ls IH]; [exists []; constructor|].
  destruct (Hk l) as [u Hu]; [set_solver|]. destruct IH as [us Hus]; [set_solver|].
  exists (u :: us). by constructor.
Qed.

Lemma balance_row_parse lines rows :
  Forall2 balance_row lines rows ->
  (forall l, l ∈ lines -> exists u, toUnits (bl_amount l) = Ok u) /\
  (forall l, l ∈ lines -> exists u, toUnits (bl_functionalAmount l) = Ok u).
Proof.
  intros H. split; intros l [i Hi]%list_elem_of_lookup;
    destruct (Forall2_lookup_l _ _ _ _ _ H Hi) as (r & _ & _ & ? & _ & ?); eauto.
Qed.

(** [assertBalanced] accepts exactly the entries of two or more lines whose
    amounts are decimals that sum to zero in every transaction currency and
    in every functional currency; and on amounts that are decimals it decides
    exactly what the database's deferred trigger demands of the same rows,
    refusing with the unbalanced-entry error. *)
Theorem assertBalanced_spec (lines : list BalanceLine) :
  (assertBalanced lines = Ok tt <->
     (2 <= length lines)%nat /\ zero_sum bl_currency bl_amount lines /\
     zero_sum bl_functionalCurrency bl_functionalAmount lines) /\
  (forall er, assertBalanced lines = Throw er ->
     er = UnbalancedEntryError \/ er = AccountingValidationError) /\
  (forall rows, Forall2 balance_row lines rows ->
     assertBalanced lines =
       if (2 <=? length rows)%nat && lines_balanced rows then Ok tt
       else Throw UnbalancedEntryError).
Proof.
  split; [apply assertBalanced_ok|]. split.
  - intros er. unfold assertBalanced. destruct (_ <? 2)%nat; cbn; [intros [= <-]; by left|].
    destruct (check_totals (group_amounts bl_currency _ _)) eqn:E; cbn.
    + apply check_totals_throw.
    + intros [= <-]. by eapply check_totals_throw.
  - intros rows H. pose proof (assertBalanced_rows _ _ H) as Hiff.
    destruct ((2 <=? length rows)%nat && lines_balanced rows) eqn:Eb.
    + apply Hiff. apply andb_true_iff in Eb as [Eb ?]. split; [by apply Nat.leb_le|done].
    + destruct (balance_row_parse _ _ H) as [H1 H2].
      assert (assertBalanced lines = Ok tt \/ assertBalanced lines = Throw UnbalancedEntryError)
        as [Ho|Ho]; [|apply Hiff in Ho as [Ho1%Nat.leb_le Ho2]; by rewrite Ho1, Ho2 in Eb|exact Ho].
      unfold assertBalanced. destruct (_ <? 2)%nat; cbn; [by right|].
      destruct (check_totals_total _ (group_amounts_parse bl_currency bl_amount lines H1)) as [->| ->];
        cbn; [|by right].
      apply check_totals_total. by apply group_amounts_parse.
Qed.

Lemma opt_eqb_true (o : option string) k : opt_eqb o k = true <-> o = Some k.
Proof.
  unfold opt_eqb. destruct o as [x|]; [|done]. rewrite bool_decide_eq_true. naive_solver.
Qed.

(** ** Resolving lines *)

(** The account an input line names, by identifier or by system key. *)
Definition named (l : JournalLineInput) (a : LedgerAccount) : Prop :=
  match li_ledgerAccountId l with
  | Some id => la_id a = id
  | None => la_systemKey a = Some (default "" (li_accountSystemKey l))%string
  end.

(** The resolved line of an input line: the account it names, postable, active
    and of the book, and the amount at money scale, not zero, in the book's currency. *)
Record resolves (accounts : list LedgerAccount) (book : AccountingBook) (l : JournalLineInput) (r : ResolvedLine)
    : Prop := {
  rs_account : exists a, a ∈ accounts /\ la_id a = rl_ledgerAccountId r /\
    la_accountingBookId a = bk_id book /\ la_isPostable a = true /\ la_status a = AccountActive
    /\ named l a;
  rs_entity : rl_economicEntityId r = li_economicEntityId l;
  rs_currency : rl_currency r = bk_functionalCurrency book;
  rs_functionalCurrency : rl_functionalCurrency r = bk_functionalCurrency book;
  rs_amount : exists u, toUnits (li_amount l) = Ok u /\ u <> 0 /\ rl_amount r = fromUnits u
    /\ rl_functionalAmount r = fromUnits u;
  rs_dimensions : rl_dimensions r = li_dimensions l;
}.

Lemma toMoneyString_inv s m : toMoneyString s = Ok m -> exists u, toUnits s = Ok u /\ m = fromUnits u.
Proof. unfold toMoneyString. intros H. inv_ok. eauto. Qed.

Lemma resolveLine_inv book i l db r db' :
  resolveLine book i l db = (Ok r, db') -> resolves (db_accounts db) book l r.
Proof.
  intros H. unfold resolveLine in H. run_bind H d s Hd. apply st_get_inv in Hd as [-> ->].
  destruct (find_line_account book l db) as [a|] eqn:Ea; [|discriminate H].
  run_bind H u1 s Hb. apply st_lift_inv in Hb as [Hb ->].
  run_bind H u2 s Hp. apply st_lift_inv in Hp as [Hp ->].
  run_bind H u3 s Hs. apply st_lift_inv in Hs as [Hs ->].
  run_bind H c s Hc. apply st_lift_inv in Hc as [Hc ->].
  run_bind H u4 s Hf. apply st_lift_inv in Hf as [Hf ->].
  run_bind H m s Hm. apply st_lift_inv in Hm as [Hm ->].
  run_bind H z s Hz. apply st_lift_inv in Hz as [Hz ->].
  run_bind H u5 s Hn. apply st_lift_inv in Hn as [Hn ->]. apply st_ret_inv in H as [-> _].
  apply throw_if_Ok in Hb, Hp, Hs, Hf, Hn. subst z.
  apply bool_decide_eq_false, dec_stable in Hb, Hs. apply negb_false_iff in Hp, Hf.
  apply toMoneyString_inv in Hm as (u & Hu & ->).
  rewrite (isZeroDecimal_units _ u) in Hz by apply toUnits_fromUnits.
  injection Hz as Hz%Z.eqb_neq. apply String.eqb_eq in Hf.
  split; try done.
  - exists a. unfold find_line_account, find_account in Ea. unfold named.
    destruct (li_ledgerAccountId l); apply find_row_some in Ea as [? Ea].
    + by apply bool_decide_eq_true in Ea.
    + apply andb_true_iff in Ea as [_ Ea%opt_eqb_true]. done.
  - exists u. done.
Qed.

Lemma resolveLines_inv book i lines db rs db' :
  resolveLines book i lines db = (Ok rs, db') -> Forall2 (resolves (db_accounts db) book) lines rs.
Proof.
  revert i rs db'. induction lines as [|l lines IH]; intros i rs db' H; cbn [resolveLines] in H.
  { apply st_ret_inv in H as [-> _]. constructor. }
  run_bind H r s Hr. pose proof (resolveLine_inv _ _ _ _ _ _ Hr) as Hi. read_run Hr.
  run_bind H rs' s Hrs. apply st_ret_inv in H as [-> _]. constructor; [done|]. by eapply IH.
Qed.

(** The row written for an input line. *)
Definition row_for (accounts : list LedgerAccount) (book : AccountingBook) (l : JournalLineInput) (r : JournalLine)
    : Prop :=
  toUnits (li_amount l) = Ok (jl_amount r) /\ jl_functionalAmount r = jl_amount r /\
  jl_amount r <> 0 /\ jl_currency r = bk_functionalCurrency book /\
  jl_economicEntityId r = li_economicEntityId l /\
  exists a, a ∈ accounts /\ la_id a = jl_ledgerAccountId r /\
    la_accountingBookId a = bk_id book /\ la_isPostable a = true /\ la_status a = AccountActive
    /\ named l a.

Lemma resolved_rows db book e lines rs rows :
  Forall2 (resolves (db_accounts db) book) lines rs -> Forall2 (line_row (bk_id book) e) rs rows ->
  Forall2 (row_for (db_accounts db) book) lines rows.
Proof.
  intros H. revert rows. induction H as [|l r ls rs Hl _ IH]; intros rows Hr;
    inversion Hr as [|? row ? rows' Hrow Hrows]; subst; constructor; [|by apply IH].
  destruct Hl as [(a & Ha & Hi & Hbk) Hent Hc Hfc (u & Hu & Hnz & Eu & Ef) _]. destruct Hrow.
  rewrite Eu, toUnits_fromUnits in lr_amount0. rewrite Ef, toUnits_fromUnits in lr_functionalAmount0.
  injection lr_amount0 as E1. injection lr_functionalAmount0 as E2.
  unfold row_for. rewrite <- E1. split; [done|]. split; [done|]. split; [done|].
  do 2 (split; [congruence|]).
  exists a. by rewrite lr_account0.
Qed.

(** ** [postEntry] *)
Record posted_fresh (value : EntryInput) (db db' : Db) (now : Z) (out : PostedEntry)
    (book : AccountingBook) (period : FiscalPeriod) (backdated : bool)
    (lines : list ResolvedLine) (rows : list JournalLine) : Prop := {
  pf_written : written db db' now book (input_header value) (fp_id period) backdated
                 (or_else (en_postedByUserId value) (en_createdByUserId value)) lines
                 (po_entry out) rows;
  pf_out_lines : po_lines out = order_by jl_lineNumber rows;
  pf_reused : po_reused out = false;
  pf_book : find_book (bk_id book) db = Some book /\ bk_status book = BookActive /\
    (forall id, en_accountingBookId value = Some id -> bk_id book = id);
  pf_lines : Forall2 (resolves (db_accounts db) book) (en_lines value) lines;
  pf_balanced : assertBalanced (resolved_balance <$> lines) = Ok tt;
  pf_period : stamped_period (db_periods db) (bk_id book) (en_entryDate value) period;
  pf_accepts : assertPeriodAcceptsPosting period (en_allowBackdated value) = Ok backdated;
}.

Lemma postEntry_fresh_inv value db out db' :
  NoDup (je_id <$> db_entries db) -> postEntry_fresh value db = (Ok out, db') ->
  exists book period b lines rows,
    posted_fresh value db db' (db_now db) out book period b lines rows.
Proof.
  intros Hn H. unfold postEntry_fresh in H.
  run_bind H routed s Hr. destruct routed as [book routing].
  apply routeBook_inv in Hr as (-> & Hf & Hact).
  run_bind H lines s Hl. pose proof (resolveLines_inv _ _ _ _ _ _ Hl) as Hres. read_run Hl.
  run_bind H u1 s Hb. apply st_lift_inv in Hb as [Hb ->]. destruct u1.
  run_bind H u2 s Hd. read_run Hd.
  run_bind H period s Hp. apply resolvePeriodRow_inv in Hp as (-> & Hp).
  run_bind H b s Ha. apply st_lift_inv in Ha as [Ha ->].
  run_bind H n s1 H1. run_bind H d s2 H2. run_bind H ins s3 H3. run_bind H u3 s4 H4.
  run_bind H e s5 H5. run_bind H u4 s6 H6. apply st_ret_inv in H as [-> ->].
  apply insertSourceLinks_core in H4. apply audit_append_core in H6.
  destruct (write_posting _ _ _ _ _ _ _ _ _ _ _ _ _ _ _ _ Hn Hf H1 H2 H3 H4 H5) as (rows & -> & Hw).
  exists book, period, b, lines, rows. split; try done.
  apply core_eq_fields in H6 as (E1 & E2 & E3 & E4 & E5 & E6).
  destruct Hw. split; rewrite ?E1, ?E2, ?E3, ?E4, ?E5, ?E6; done.
Qed.

Lemma postEntry_fresh_step_ok value : respects step_ok (postEntry_fresh value).
Proof.
  unfold postEntry_fresh. solve_respects; eauto using nextEntryNumber_step_ok,
    insertHeader_step_ok, insertLines_step_ok, insertSourceLinks_step_ok, markPosted_step_ok,
    audit_append_step_ok.
Qed.
#[export] Hint Resolve nextEntryNumber_step_ok insertHeader_step_ok insertLines_step_ok
  insertSourceLinks_step_ok markPosted_step_ok audit_append_step_ok
  postEntry_fresh_step_ok : store.

Lemma postEntry_handler_reads value e : reads (postEntry_handler value e).
Proof. unfold postEntry_handler. solve_respects. Qed.

Lemma postEntry_tx_ok input : always tx_ok (postEntry input).
Proof.
  unfold postEntry. solve_respects.
  - apply transaction_tx_ok. unfold postEntry_body. solve_respects.
  - apply reads_tx_ok, postEntry_handler_reads.
Qed.

Lemma createDraft_tx_ok input : always tx_ok (createDraft input).
Proof.
  unfold createDraft. solve_respects. apply transaction_tx_ok.
  unfold createDraft_body. solve_respects.
Qed.

Lemma postDraft_tx_ok id b actor request : always tx_ok (postDraft id b actor request).
Proof. unfold postDraft. apply transaction_tx_ok. unfold postDraft_body. solve_respects. Qed.

Lemma voidDraft_tx_ok id reason actor request : always tx_ok (voidDraft id reason actor request).
Proof.
  unfold voidDraft. solve_respects. apply transaction_tx_ok. solve_respects.
  by apply updateJournalEntry_step_ok.
Qed.

Lemma reverseEntry_tx_ok id t reason b actor request :
  always tx_ok (reverseEntry id t reason b actor request).
Proof.
  unfold reverseEntry. solve_respects. apply transaction_tx_ok.
  unfold reverseEntry_body, reverseEntry_write. solve_respects.
  by apply updateJournalEntry_step_ok.
Qed.

(** From the transaction's own stores to the ones around it. *)
Lemma written_tx db db1 now book hd p b actor lines e rows :
  written (begin_tx db) db1 now book hd p b actor lines e rows ->
  written db (set_deferred [] db1) now book hd p b actor lines e rows.
Proof. intros []. by split. Qed.

(** ** The cases of [postEntry] *)

(** Everything but the clock. *)
Definition unchanged (db db' : Db) : Prop := set_now (db_now db') db = db'.

Lemma unchanged_tx db : db_deferred db = [] -> unchanged db (set_deferred [] (begin_tx db)).
Proof. unfold unchanged. destruct db. cbn. by intros ->. Qed.

Lemma unchanged_fields db db' : unchanged db db' ->
  db_entries db' = db_entries db /\ db_lines db' = db_lines db /\ db_books db' = db_books db /\
  db_periods db' = db_periods db /\ db_audit db' = db_audit db /\
  db_source_links db' = db_source_links db.
Proof. by intros <-. Qed.

Lemma existingByPostingKey_inv k db o db' :
  existingByPostingKey k db = (Ok o, db') ->
  db' = db /\
  match o with
  | None => forall e, e ∈ db_entries db -> je_postingKey e <> Some k
  | Some out => po_entry out ∈ db_entries db /\ je_postingKey (po_entry out) = Some k /\
      po_lines out = order_by jl_lineNumber (entry_lines db (je_id (po_entry out))) /\
      po_reused out = true
  end.
Proof.
  intros H. pose proof H as H0. read_run H0. split; [done|]. unfold existingByPostingKey in H.
  run_bind H d s Hd. apply st_get_inv in Hd as [-> ->].
  destruct (find_row _ _) as [e|] eqn:E.
  - run_bind H ls s Hl. apply st_gets_inv in Hl as [-> ->]. apply st_ret_inv in H as [-> _].
    by apply find_row_some in E as [He Hk%opt_eqb_true].
  - apply st_ret_inv in H as [-> _]. intros e He Hk.
    apply opt_eqb_true in Hk. pose proof (find_row_none _ _ E e He). congruence.
Qed.

(** The entry a verb returned as already there. *)
Definition reused (db : Db) (key : option string) (out : PostedEntry) : Prop :=
  po_entry out ∈ db_entries db /\ je_postingKey (po_entry out) = key /\ key <> None /\
  po_lines out = order_by jl_lineNumber (entry_lines db (je_id (po_entry out))) /\
  po_reused out = true.

Lemma probe_inv key db o db' :
  probe key db = (Ok o, db') ->
  db' = db /\
  match o with
  | None => forall e, e ∈ db_entries db -> je_postingKey e = None \/ je_postingKey e <> key
  | Some out => reused db key out
  end.
Proof.
  destruct key as [k|]; cbn [probe]; intros H.
  - apply existingByPostingKey_inv in H as [-> H]. split; [done|]. destruct o as [out|].
    + by destruct H as (? & ? & ? & ?).
    + intros e He. right. by apply H.
  - apply st_ret_inv in H as [-> ->]. split; [done|]. intros e _.
    destruct (je_postingKey e); [by right|by left].
Qed.

Lemma postEntry_handler_inv value er db out db' :
  postEntry_handler value er db = (Ok out, db') ->
  db' = db /\ isUniqueViolation er = true /\ reused db (en_postingKey value) out.
Proof.
  unfold postEntry_handler. intros H. run_bind H o s Ho.
  destruct (isUniqueViolation er).
  - apply probe_inv in Ho as [-> Ho]. destruct o as [x|]; [|discriminate H].
    by apply st_ret_inv in H as [-> ->].
  - apply st_ret_inv in Ho as [-> ->]. discriminate H.
Qed.

Lemma transaction_fresh_inv value db out db' :
  committed db -> transaction (postEntry_fresh value) db = (Ok out, db') ->
  exists book period b lines rows,
    posted_fresh value db db' (db_now db + 1) out book period b lines rows.
Proof.
  intros [Hok Hd] H. apply transaction_inv in H as (db1 & H & _ & ->).
  apply postEntry_fresh_inv in H as (book & period & b & lines & rows & [Hw Ho Hr Hb Hl Hbal Hp Ha]);
    [|apply Hok].
  exists book, period, b, lines, rows. split; try done. by apply written_tx.
Qed.

(** [postEntry] either returns the entry that holds the key, and then nothing
    is written, or posts. *)
Lemma postEntry_inv input db out db' :
  committed db -> postEntry input db = (Ok out, db') ->
  exists value, postEntrySchema input = Ok value /\
    ((reused db (en_postingKey value) out /\ unchanged db db') \/
     ((forall e, e ∈ db_entries db ->
         je_postingKey e = None \/ je_postingKey e <> en_postingKey value) /\
      exists book period b lines rows,
        posted_fresh value db db' (db_now db + 1) out book period b lines rows)).
Proof.
  intros Hc H. unfold postEntry in H. run_bind H value s Hv. apply st_lift_inv in Hv as [Hv ->].
  exists value. split; [done|]. unfold st_catch in H.
  destruct (transaction (postEntry_body value) db) as [[o|er] s1] eqn:Et.
  - apply st_pair_inv in H as [-> ->]. unfold postEntry_body in Et.
    pose proof Et as Et0. apply transaction_inv in Et0 as (db1 & Hb & Hcc & ->).
    run_bind Hb ex s2 Hp. apply probe_inv in Hp as [-> Hp]. destruct ex as [x|].
    + left. apply st_ret_inv in Hb as [-> ->]. split; [done|]. apply unchanged_tx, Hc.
    + right. split; [exact Hp|]. apply transaction_fresh_inv; [done|].
      unfold transaction. by rewrite Hb, Hcc.
  - apply transaction_throw in Et as ->.
    apply postEntry_handler_inv in H as (-> & _ & Hr). left. split; [done|]. by destruct db.
Qed.

(** C31. A posting that returns a new entry has done the whole of it, and
    nothing else: the entry is [posted] under the book's next number, in the
    period that covers its date and accepts it; there is one row per input
    line, in order, with the line's amount and entity, on the account the line
    names, postable, active and of the book;
    the rows balance as the database's deferred trigger requires; and every
    other entry and line is as it was. *)
Theorem postEntry_posts (input : EntryInput) (db db' : Db) (out : PostedEntry) :
  committed db -> postEntry input db = (Ok out, db') -> po_reused out = false ->
  exists value book period rows,
    let e := po_entry out in
    postEntrySchema input = Ok value /\
    (find_book (bk_id book) db = Some book /\ bk_status book = BookActive /\
     (forall id, en_accountingBookId value = Some id -> bk_id book = id)) /\
    (je_accountingBookId e = bk_id book /\ je_status e = EntryPosted /\
     je_entryNumber e = Some (bk_nextEntryNumber book) /\
     je_entryDate e = en_entryDate value /\ je_postingKey e = en_postingKey value /\
     je_fiscalPeriodId e = Some (fp_id period)) /\
    (period ∈ db_periods db /\ period_contains (bk_id book) (en_entryDate value) period = true /\
     assertPeriodAcceptsPosting period (en_allowBackdated value) = Ok (je_isBackdated e)) /\
    (je_id e ∉ (je_id <$> db_entries db) /\ db_entries db' = db_entries db ++ [e]) /\
    (db_lines db' = db_lines db ++ rows /\ entry_lines db' (je_id e) = rows /\
     po_lines out = order_by jl_lineNumber rows) /\
    Forall2 (row_for (db_accounts db) book) (en_lines value) rows /\
    (2 <= length rows)%nat /\ lines_balanced rows = true /\
    db_books db' = update_rows (fun b => bool_decide (bk_id b = bk_id book))
      (fun b => bumped b (db_now db + 1)) (db_books db).
Proof.
  intros Hc H Hr. destruct (postEntry_inv _ _ _ _ Hc H)
    as (value & Hv & [[Hre _]|(_ & book & period & b & lines & rows & Hp)]).
  { destruct Hre as (_ & _ & _ & _ & Hre). congruence. }
  destruct Hp as [Hw Ho _ (Hf & Hact & Hreq) Hres Hbal Hper Hacc].
  pose proof (written_lines _ _ _ _ _ _ _ _ _ _ _ (proj1 Hc) Hw) as Hel.
  pose proof (stamped_period_contains _ _ _ _ (proj1 Hc) Hper) as Hpc.
  destruct Hw as [Hfresh He Hn Hes Hrows Hls Hbk _ _ _ _].
  apply (assertBalanced_rows _ rows) in Hbal as [Hlen Hbal];
    [|by eapply resolved_balance_row].
  exists value, book, period, rows. cbv zeta.
  split; [done|]. split; [done|].
  split. { rewrite He. done. }
  split. { split; [apply Hper|]. split; [done|]. by rewrite He. }
  do 2 (split; [done|]). split; [by eapply resolved_rows|]. done.
Qed.

(** The book of [sample_db_2026] with the default chart. *)
Definition ledger_db : Db := snd (seedDefaultChart 1 None None None sample_db_2026).

Lemma ledger_db_committed : committed ledger_db.
Proof. apply (seedDefaultChart_tx_ok 1 None None None sample_db_2026), sample_db_2026_committed. Qed.

Definition sample_line (key amount : string) : JournalLineInput :=
  {| li_ledgerAccountId := None; li_accountSystemKey := Some key; li_economicEntityId := None;
     li_lineNumber := None; li_description := None; li_currency := None; li_amount := amount;
     li_dimensions := [] |}.

Definition sample_entry (key : option string) (lines : list JournalLineInput) : EntryInput :=
  {| en_accountingBookId := Some 1%positive; en_economicEntityId := None;
     en_installationDefaultBookId := None; en_entryDate := 20260214;
     en_description := "Owner's investment"; en_memo := None; en_entrySource := None;
     en_postingRuleVersionId := None; en_postingKey := key; en_sourceFactType := None;
     en_sourceFactId := None; en_sourceFactFingerprint := None; en_lines := lines;
     en_sourceLinks := []; en_createdByUserId := Some "u1"%string; en_requestId := None;
     en_allowBackdated := false; en_postedByUserId := None |}.

Definition sample_posting : EntryInput := sample_entry (Some "fact:1"%string)
  [sample_line "undeposited_funds" "125.50"; sample_line "opening_balance_equity" "-125.5"].
Definition posted_db : Db := snd (postEntry sample_posting ledger_db).

Lemma posted_db_committed : committed posted_db.
Proof. apply (postEntry_tx_ok sample_posting ledger_db), ledger_db_committed. Qed.

Lemma postEntry_posts_witness :
  exists out, postEntry sample_posting ledger_db = (Ok out, posted_db) /\
    exists value book period rows,
    let e := po_entry out in
    postEntrySchema sample_posting = Ok value /\
    (find_book (bk_id book) ledger_db = Some book /\ bk_status book = BookActive /\
     (forall id, en_accountingBookId value = Some id -> bk_id book = id)) /\
    (je_accountingBookId e = bk_id book /\ je_status e = EntryPosted /\
     je_entryNumber e = Some (bk_nextEntryNumber book) /\
     je_entryDate e = en_entryDate value /\ je_postingKey e = en_postingKey value /\
     je_fiscalPeriodId e = Some (fp_id period)) /\
    (period ∈ db_periods ledger_db /\
     period_contains (bk_id book) (en_entryDate value) period = true /\
     assertPeriodAcceptsPosting period (en_allowBackdated value) = Ok (je_isBackdated e)) /\
    (je_id e ∉ (je_id <$> db_entries ledger_db) /\
     db_entries posted_db = db_entries ledger_db ++ [e]) /\
    (db_lines posted_db = db_lines ledger_db ++ rows /\ entry_lines posted_db (je_id e) = rows /\
     po_lines out = order_by jl_lineNumber rows) /\
    Forall2 (row_for (db_accounts ledger_db) book) (en_lines value) rows /\
    (2 <= length rows)%nat /\ lines_balanced rows = true /\
    db_books posted_db = update_rows (fun b => bool_decide (bk_id b = bk_id book))
      (fun b => bumped b (db_now ledger_db + 1)) (db_books ledger_db).
Proof.
  eexists. split; [vm_compute; reflexivity|].
  apply (postEntry_posts sample_posting); [apply ledger_db_committed|vm_compute; reflexivity..].
Defined.

(** A key that is held is found, whoever holds it. *)
Lemma probe_held key db e :
  NoDup (je_id <$> db_entries db) -> ledger_ok db -> e ∈ db_entries db ->
  je_postingKey e = Some key ->
  probe (Some key) db =
    (Ok (Some {| po_entry := e; po_lines := order_by jl_lineNumber (entry_lines db (je_id e));
                 po_reused := true; po_routing := None |}), db).
Proof.
  intros Hn Hok He Hk. cbn [probe]. unfold existingByPostingKey.
  erewrite st_bind_run by done. destruct (find_row _ _) as [f|] eqn:E.
  - apply find_row_some in E as [Hf Hfk]. replace f with e; [done|].
    destruct (decide (je_id e = je_id f)) as [Ei|Ei].
    + by eapply (NoDup_keys_inj je_id).
    + pose proof (ok_entry_uniques _ Hok e f He Hf Ei) as Hx. unfold entries_conflict in Hx.
      apply opt_eqb_true in Hfk. rewrite Hk, Hfk, bool_decide_true in Hx by done. done.
  - apply opt_eqb_true in Hk. pose proof (find_row_none _ _ E e He). congruence.
Qed.

Lemma postEntry_held input value key db e :
  committed db -> postEntrySchema input = Ok value -> en_postingKey value = Some key ->
  e ∈ db_entries db -> je_postingKey e = Some key ->
  postEntry input db =
    (Ok {| po_entry := e; po_lines := order_by jl_lineNumber (entry_lines db (je_id e));
           po_reused := true; po_routing := None |}, set_deferred [] (begin_tx db)).
Proof.
  intros [Hok Hd] Hv Hk He Hek. unfold postEntry. rewrite Hv. erewrite st_bind_run by done.
  unfold st_catch, transaction, postEntry_body. rewrite Hk.
  assert (ledger_ok (begin_tx db)) as Hok'.
  { by apply (begin_tx_step_ok db Hd). }
  erewrite st_bind_run by (by eapply (probe_held key (begin_tx db) e); [apply Hok|..]).
  done.
Qed.

(** Posting is idempotent on its key: once a call with a key has returned an
    entry that is in the books, every later call with that key - whatever
    committed in between, a reversal included - returns that entry, marked
    reused, and leaves every table as it is. *)
Theorem postEntry_idempotent (input : EntryInput) (db db1 db2 : Db) (out : PostedEntry) (k : string) :
  committed db -> postEntry input db = (Ok out, db1) ->
  je_postingKey (po_entry out) = Some k -> in_books (je_status (po_entry out)) = true ->
  committed db2 -> evolves db1 db2 ->
  exists again db3, postEntry input db2 = (Ok again, db3) /\
    po_reused again = true /\ same_or_reversed (po_entry out) (po_entry again) /\
    po_entry again ∈ db_entries db2 /\ unchanged db2 db3.
Proof.
  intros Hc H Hk Hb Hc2 Hev. pose proof (always_run _ _ _ _ _ (postEntry_tx_ok input) H Hc) as [Hc1 _].
  assert (exists value, postEntrySchema input = Ok value /\ en_postingKey value = Some k /\
            po_entry out ∈ db_entries db1) as (value & Hv & Hvk & Hin).
  { destruct (postEntry_inv _ _ _ _ Hc H) as (value & Hv & [[Hr Hu]|(_ & book & period & b & lines & rows & Hp)]).
    - exists value. split; [done|]. destruct Hr as (Hin & Hkk & _). split; [congruence|].
      by destruct (unchanged_fields _ _ Hu) as (-> & _).
    - exists value. split; [done|]. destruct Hp as [Hw _ _ _ _ _ _ _].
      rewrite (wr_entries _ _ _ _ _ _ _ _ _ _ _ Hw).
      pose proof (wr_entry _ _ _ _ _ _ _ _ _ _ _ Hw) as He. rewrite He in Hk. cbn in Hk.
      split; [done|]. apply elem_of_app. right. by apply list_elem_of_singleton. }
  destruct (ev_entries _ _ Hev _ (ok_entry_ids _ (proj1 Hc1)) Hin Hb) as (e' & He' & Hs & _).
  assert (je_postingKey e' = Some k) as Hk'.
  { destruct Hs as [->|(_ & _ & F)]; [done|]. etrans; [exact (f_equal je_postingKey F)|done]. }
  eexists _, _. split; [by eapply postEntry_held|]. split; [done|]. split; [done|]. split; [done|].
  apply unchanged_tx, Hc2.
Qed.

(** C32. Two callers racing on one posting key end with one entry: when the other
    caller's transaction commits the key between this caller's probe and its
    writes, this caller writes nothing, never surfaces the unique violation,
    and, if it returns, returns the winner's entry. *)
Theorem postEntry_race_one_entry (env : Db -> Db) (input value : EntryInput) (db : Db)
    (winner : JournalEntry) (k : string) (r : result PostedEntry) (db' : Db) :
  postEntrySchema input = Ok value -> en_postingKey value = Some k ->
  (forall e, e ∈ db_entries db -> je_postingKey e <> Some k) ->
  committed (env db) -> winner ∈ db_entries (env db) -> je_postingKey winner = Some k ->
  postEntry_raced env input db = (r, db') ->
  db' = env db /\
  match r with
  | Ok out => po_entry out = winner /\ po_reused out = true
  | Throw e => e <> SqlError "23505"
  end.
Proof.
  intros Hv Hk Hfree Hc Hw Hwk H. unfold postEntry_raced in H. rewrite Hv in H.
  erewrite st_bind_run in H by done.
  destruct (probe (en_postingKey value) db) as [ex s] eqn:Ep.
  assert (ex = Ok None /\ s = db) as [-> ->].
  { rewrite Hk in Ep. cbn [probe] in Ep. unfold existingByPostingKey in Ep.
    erewrite st_bind_run in Ep by done. destruct (find_row _ _) as [f|] eqn:E.
    - apply find_row_some in E as [Hf Hfk%opt_eqb_true]. by destruct (Hfree f Hf).
    - by injection Ep as <- <-. }
  erewrite st_bind_run in H by done. cbv beta iota in H. erewrite st_bind_run in H by done.
  unfold st_catch in H. destruct (transaction (postEntry_fresh value) (env db)) as [[out|er] s1] eqn:Et.
  - exfalso. apply transaction_fresh_inv in Et as (bk & p & b & ls & rows & [Hp _ _ _ _ _ _ _]); [|done].
    apply (wr_unique _ _ _ _ _ _ _ _ _ _ _ Hp winner Hw); rewrite Hwk; [done|].
    rewrite (wr_entry _ _ _ _ _ _ _ _ _ _ _ Hp). cbn. by rewrite Hk.
  - apply transaction_throw in Et as ->. unfold postEntry_handler, isUniqueViolation in H.
    case_bool_decide as Hu.
    + rewrite Hk in H. erewrite st_bind_run in H
        by (by apply (probe_held k _ winner); [apply Hc| apply Hc|..]).
      by injection H as <- <-.
    + erewrite st_bind_run in H by done. by injection H as <- <-.
Qed.

Definition reversed_db : Db :=
  snd (reverseEntry 135 None "entered twice" false (Some "u1"%string) None posted_db).
Definition sample_posted : PostedEntry := {|
  po_entry := default (header_row 1 (input_header sample_posting) 1 0) (head (db_entries posted_db));
  po_lines := db_lines posted_db; po_reused := false; po_routing := None |}.

Lemma sample_posting_ok : postEntry sample_posting ledger_db = (Ok sample_posted, posted_db).
Proof. vm_compute. reflexivity. Qed.

Lemma postEntry_idempotent_witness :
  exists again db3, postEntry sample_posting reversed_db = (Ok again, db3) /\
    po_reused again = true /\ same_or_reversed (po_entry sample_posted) (po_entry again) /\
    po_entry again ∈ db_entries reversed_db /\ unchanged reversed_db db3.
Proof.
  destruct (reverseEntry_tx_ok 135 None "entered twice" false (Some "u1"%string) None posted_db
              posted_db_committed) as [Hc Hev].
  apply (postEntry_idempotent sample_posting ledger_db posted_db reversed_db sample_posted "fact:1");
    [apply ledger_db_committed | apply sample_posting_ok | vm_compute; reflexivity
    | vm_compute; reflexivity | exact Hc | exact Hev].
Defined.

Definition other_caller (db : Db) : Db := snd (postEntry sample_posting db).
Definition sample_posting_value : EntryInput :=
  match postEntrySchema sample_posting with Ok v => v | Throw _ => sample_posting end.

Lemma other_caller_committed : committed (other_caller ledger_db).
Proof. apply (postEntry_tx_ok sample_posting ledger_db), ledger_db_committed. Qed.
Lemma other_caller_entries : db_entries (other_caller ledger_db) = [po_entry sample_posted].
Proof. vm_compute. reflexivity. Qed.
Lemma ledger_db_entries : db_entries ledger_db = [].
Proof. vm_compute. reflexivity. Qed.

Lemma postEntry_race_one_entry_witness :
  exists out db', postEntry_raced other_caller sample_posting ledger_db = (Ok out, db') /\
    db' = other_caller ledger_db /\ po_entry out = po_entry sample_posted /\ po_reused out = true.
Proof.
  eexists _, _. split; [vm_compute; reflexivity|].
  eapply (postEntry_race_one_entry other_caller sample_posting sample_posting_value ledger_db
    (po_entry sample_posted) "fact:1" (Ok _));
    [vm_compute; reflexivity | vm_compute; reflexivity | | apply other_caller_committed | |
     vm_compute; reflexivity | vm_compute; reflexivity].
  - rewrite ledger_db_entries. intros e He. exact (False_ind _ (not_elem_of_nil e He)).
  - rewrite other_caller_entries. by apply list_elem_of_singleton.
Defined.
