(* ===== verification/JournalMachine.v ===== *)
(** * The journal as a state machine

    An abstract ledger with six moves - post, draft, post a draft, void a
    draft, reverse, and leave the journal alone - and an invariant of it:
    numbers are gapless per book, reversals are unique and mirror what they
    reverse.  Every verb of [journal.ts] is a move of the machine
    ([journal_refines]), so the invariant holds of every store the verbs
    reach. *)
From S2P Require Import Prelude Decimal Calendar Inputs Store Schema Ledger LedgerFacts.
From S2P Require Import Periods Chart Books Journal JournalFacts.

Open Scope Z_scope.

(** ** Leaving the journal alone *)

(** Books may be added, with no entries and the counter at one; a book that
    exists keeps its counter. *)
Record books_kept (books books' : list AccountingBook) : Prop := {
  bkk_ids : NoDup (bk_id <$> books) -> NoDup (bk_id <$> books');
  bkk_old b : b ∈ books -> exists b', b' ∈ books' /\ bk_id b' = bk_id b;
  bkk_new b' : b' ∈ books' ->
    (exists b, b ∈ books /\ bk_id b' = bk_id b /\ bk_nextEntryNumber b' = bk_nextEntryNumber b) \/
    (bk_id b' ∉ (bk_id <$> books) /\ bk_nextEntryNumber b' = 1);
}.

Record quiet (db db' : Db) : Prop := {
  q_entries : db_entries db' = db_entries db;
  q_lines : db_lines db' = db_lines db;
  q_books : books_kept (db_books db) (db_books db');
}.

#[export] Instance books_kept_preorder : PreOrder books_kept.
Proof.
  split.
  - intros books. split; [done|eauto|]. intros b Hb. left. by exists b.
  - intros x y z [I1 O1 N1] [I2 O2 N2]. split; [auto| |].
    + intros b Hb. destruct (O1 b Hb) as (b1 & Hb1 & E1). destruct (O2 b1 Hb1) as (b2 & Hb2 & E2).
      exists b2. split; [done|congruence].
    + intros b2 Hb2. destruct (N2 b2 Hb2) as [(b1 & Hb1 & E1 & E2)|[Hn E]].
      * destruct (N1 b1 Hb1) as [(b & Hb & E3 & E4)|[Hn E]].
        -- left. exists b. split; [done|]. split; congruence.
        -- right. rewrite E1. split; [done|congruence].
      * right. split; [|done]. intros Hin. apply Hn.
        apply list_elem_of_fmap in Hin as (b & Ei & Hb). destruct (O1 b Hb) as (b1 & Hb1 & E1).
        rewrite Ei, <- E1. by apply list_elem_of_fmap_2.
Qed.

#[export] Instance quiet_preorder : PreOrder quiet.
Proof.
  split.
  - intros db. split; [done..|reflexivity].
  - intros ??? [] []. split; [congruence..|by etrans].
Qed.

Lemma quiet_frame db db' :
  db_entries db' = db_entries db -> db_lines db' = db_lines db -> db_books db' = db_books db ->
  quiet db db'.
Proof. intros E1 E2 E3. split; [done..|]. rewrite E3. reflexivity. Qed.

Lemma reads_quiet {A} (m : run A) : reads m -> respects quiet m.
Proof. apply reads_respects. apply _. Qed.
Lemma reads_quiet_always {A} (m : run A) : reads m -> always quiet m.
Proof. apply reads_always. apply _. Qed.
#[export] Hint Resolve reads_quiet reads_quiet_always : store.

Lemma transaction_quiet {A} (body : run A) : respects quiet body -> always quiet (transaction body).
Proof.
  intros Hb db. unfold transaction. destruct (body (begin_tx db)) as [[a|e] db1] eqn:E; [|reflexivity].
  destruct (commit_check db1); cbn; [|reflexivity].
  destruct (Hb _ _ _ E) as [E1 E2 Hk]. split; [exact E1|exact E2|exact Hk].
Qed.
#[export] Hint Resolve transaction_quiet : store.

Ltac by_quiet := apply quiet_frame; done.

Lemma audit_append_quiet e : respects quiet (audit_append e).
Proof. intros db u db' H. unfold audit_append in H. inv_stmt. by_quiet. Qed.
Lemma insertPeriodOnConflict_quiet v : respects quiet (insertPeriodOnConflict v).
Proof.
  intros db u db' H. unfold insertPeriodOnConflict in H. inv_stmt. case_match; inv_stmt; by_quiet.
Qed.
Lemma updatePeriodStatus_quiet id st ca cb note : respects quiet (updatePeriodStatus id st ca cb note).
Proof. intros db u db' H. unfold updatePeriodStatus in H. inv_stmt. by_quiet. Qed.
Lemma insertAccount_quiet v : respects quiet (insertAccount v).
Proof. intros db u db' H. unfold insertAccount in H. inv_stmt. by_quiet. Qed.
Lemma updateAccount_quiet id f : respects quiet (Ledger.updateAccount id f).
Proof. intros db u db' H. unfold Ledger.updateAccount in H. inv_stmt. by_quiet. Qed.
Lemma insertLink_quiet v : respects quiet (insertLink v).
Proof. intros db u db' H. unfold insertLink in H. inv_stmt. by_quiet. Qed.
Lemma updateLink_quiet id f : respects quiet (updateLink id f).
Proof. intros db u db' H. unfold updateLink in H. inv_stmt. by_quiet. Qed.

Lemma insertBook_quiet v :
  (forall id now, bk_id (v id now) = id) -> (forall id now, bk_nextEntryNumber (v id now) = 1) ->
  respects quiet (insertBook v).
Proof.
  intros V1 V2 db r db' H. unfold insertBook in H. inv_stmt.
  match goal with G : exists_id _ _ _ = false |- _ => apply exists_id_false in G as Hn end.
  split; [done..|]. cbn. split.
  - intros Hd. apply NoDup_keys_snoc. by rewrite V1.
  - intros b Hb. exists b. split; [|done]. apply elem_of_app. by left.
  - intros b [Hb| ->%list_elem_of_singleton]%elem_of_app; [left; by exists b|right].
    by rewrite V1, V2.
Qed.

Lemma updateBook_quiet id f :
  (forall b, bk_id (f b) = bk_id b) -> (forall b, bk_nextEntryNumber (f b) = bk_nextEntryNumber b) ->
  respects quiet (updateBook id f).
Proof.
  intros F1 F2 db r db' H. unfold updateBook in H. inv_stmt. split; [done..|]. cbn. split.
  - by rewrite update_rows_keys.
  - intros b Hb. eexists. split; [apply update_rows_elem; by exists b|]. case_match; auto.
  - intros b' (b & Hb & ->)%update_rows_elem. left. exists b. split; [done|].
    case_match; by rewrite ?F1, ?F2.
Qed.
#[export] Hint Resolve audit_append_quiet insertPeriodOnConflict_quiet updatePeriodStatus_quiet
  insertAccount_quiet updateAccount_quiet insertLink_quiet updateLink_quiet : store.

(** *** The verbs of periods, chart and books *)
Lemma setStatus_quiet i : always quiet (setStatus i).
Proof. unfold setStatus. solve_respects. apply transaction_quiet. unfold setStatus_body. solve_respects. Qed.

Lemma generateFiscalYear_quiet i : always quiet (generateFiscalYear i).
Proof.
  unfold generateFiscalYear. solve_respects. apply transaction_quiet.
  unfold generateFiscalYear_body. solve_respects.
  apply respects_rethrow; [unfold insertGeneratedPeriods; solve_respects|].
  intros e s r s'. by case_match.
Qed.

Lemma seed_loop_quiet book ordered byCode : respects quiet (seed_loop book ordered byCode).
Proof. revert byCode. induction ordered as [|a l IH]; intros; simpl; solve_respects. Qed.
#[export] Hint Resolve seed_loop_quiet : store.

Lemma seedDefaultChart_quiet book t actor request :
  always quiet (seedDefaultChart book t actor request).
Proof. apply transaction_quiet. unfold seedDefaultChart_body, seed. solve_respects. Qed.

Lemma createAccount_quiet i : always quiet (createAccount i).
Proof.
  unfold createAccount. solve_respects. apply transaction_quiet.
  unfold createAccount_body. solve_respects.
Qed.

Lemma updateAccount_service_quiet i : always quiet (Chart.updateAccount i).
Proof.
  unfold Chart.updateAccount. solve_respects. apply transaction_quiet.
  unfold updateAccount_body. solve_respects.
Qed.

Lemma archiveAccount_quiet id actor request : always quiet (archiveAccount id actor request).
Proof. apply transaction_quiet. solve_respects. Qed.
Lemma reactivateAccount_quiet id actor request : always quiet (reactivateAccount id actor request).
Proof. apply transaction_quiet. solve_respects. Qed.

Lemma createBook_quiet i : always quiet (createBook i).
Proof.
  unfold createBook. solve_respects.
  - apply transaction_quiet. unfold createBook_row. solve_respects. by apply insertBook_quiet.
  - apply seedDefaultChart_quiet.
  - apply generateFiscalYear_quiet.
Qed.

Lemma archiveBook_quiet id actor request : always quiet (archiveBook id actor request).
Proof. apply transaction_quiet. solve_respects. by apply updateBook_quiet. Qed.

Lemma linkEntity_quiet i : always quiet (linkEntity i).
Proof.
  unfold linkEntity. solve_respects. apply transaction_quiet.
  unfold linkEntity_body, insertLink_dated. solve_respects.
  apply respects_rethrow; [unfold insertLink_dated; solve_respects|].
  intros err s r s'. by destruct (isExclusionViolation err).
Qed.

Lemma endLink_quiet id t actor request : always quiet (endLink id t actor request).
Proof. apply transaction_quiet. solve_respects. Qed.

(** ** The machine *)
Definition on_entry (id : uuid) (f : JournalEntry -> JournalEntry) : list JournalEntry -> list JournalEntry :=
  update_rows (fun e => bool_decide (je_id e = id)) f.

Definition bump_book (now : Z) (book : AccountingBook) : list AccountingBook -> list AccountingBook :=
  update_rows (fun b => bool_decide (bk_id b = bk_id book)) (fun b => bumped b now).

(** The row [r] reverses the row [l]. *)
Record mirrors (l r : JournalLine) : Prop := {
  mi_account : jl_ledgerAccountId r = jl_ledgerAccountId l;
  mi_book : jl_accountingBookId r = jl_accountingBookId l;
  mi_entity : jl_economicEntityId r = jl_economicEntityId l;
  mi_number : jl_lineNumber r = jl_lineNumber l;
  mi_currency : jl_currency r = jl_currency l;
  mi_functionalCurrency : jl_functionalCurrency r = jl_functionalCurrency l;
  mi_amount : jl_amount r = - jl_amount l;
  mi_functionalAmount : jl_functionalAmount r = - jl_functionalAmount l;
}.

Definition reverses (e : JournalEntry) (x : uuid) : Prop := je_reversesEntryId e = Some x.

Inductive ledger_step (db db' : Db) : Prop :=
  | step_quiet : quiet db db' -> ledger_step db db'
  | step_post now book hd period b actor lines e rows :
      find_book (bk_id book) db = Some book ->
      written db db' now book hd period b actor lines e rows ->
      hd_reversesEntryId hd = None -> ledger_step db db'
  | step_draft now book hd e rows :
      find_book (bk_id book) db = Some book ->
      e = header_row (bk_id book) hd (je_id e) now -> hd_reversesEntryId hd = None ->
      je_id e ∉ (je_id <$> db_entries db) ->
      db_entries db' = db_entries db ++ [e] ->
      db_lines db' = db_lines db ++ rows -> Forall (fun r => jl_journalEntryId r = je_id e) rows ->
      db_books db' = db_books db -> ledger_step db db'
  | step_post_draft now book draft period b actor :
      find_book (bk_id book) db = Some book ->
      draft ∈ db_entries db -> je_status draft = EntryDraft ->
      je_accountingBookId draft = bk_id book ->
      1 <= bk_nextEntryNumber book <= MAX_SAFE_INTEGER ->
      db_entries db' = on_entry (je_id draft)
        (entry_posted (bk_nextEntryNumber book) period b actor now) (db_entries db) ->
      db_lines db' = db_lines db -> db_books db' = bump_book now book (db_books db) ->
      ledger_step db db'
  | step_void now draft :
      draft ∈ db_entries db -> je_status draft = EntryDraft ->
      db_entries db' = on_entry (je_id draft) (entry_status EntryVoid now) (db_entries db) ->
      db_lines db' = db_lines db -> db_books db' = db_books db -> ledger_step db db'
  | step_reverse now book hd period b actor lines e rows original mid :
      find_book (bk_id book) db = Some book ->
      original ∈ db_entries db -> je_status original = EntryPosted ->
      je_reversesEntryId original = None ->
      je_accountingBookId original = bk_id book ->
      (forall f, f ∈ db_entries db -> ~ reverses f (je_id original)) ->
      written db mid now book hd period b actor lines e rows ->
      hd_reversesEntryId hd = Some (je_id original) ->
      Forall2 mirrors (order_by jl_lineNumber (entry_lines db (je_id original))) rows ->
      db_entries db' = on_entry (je_id original) (entry_status EntryReversed now) (db_entries mid) ->
      db_lines db' = db_lines mid -> db_books db' = db_books mid -> ledger_step db db'.

(** ** The verbs are moves of the machine *)
Lemma updateJournalEntry_inv id f db u db' :
  updateJournalEntry id f db = (Ok u, db') ->
  db_entries db' = on_entry id f (db_entries db) /\ db_lines db' = db_lines db /\
  db_books db' = db_books db /\ db_periods db' = db_periods db /\ db_now db' = db_now db /\
  forall e, e ∈ db_entries db -> je_id e = id -> entry_update_allowed e (f e) = true.
Proof.
  intros H. unfold updateJournalEntry in H. inv_stmt. do 5 (split; [done|]). intros e He Hi.
  match goal with G : forallb _ _ = true |- _ =>
    pose proof (guarded_row je_id id
      (fun e => entry_update_allowed e (f e) && period_guard db (Some e) (f e)) _ e G He Hi) as Hg end.
  by apply andb_true_iff in Hg as [? _].
Qed.

Lemma createDraft_body_step value db out db' :
  createDraft_body value db = (Ok out, db') -> ledger_step db db'.
Proof.
  intros H. unfold createDraft_body in H. run_bind H routed s Hr. destruct routed as [book routing].
  apply routeBook_inv in Hr as (-> & Hf & _). run_bind H lines s Hl. read_run Hl.
  run_bind H d s1 Hd. apply insertHeader_inv in Hd as (Ed & -> & Hfresh & _ & _).
  run_bind H ins s2 Hi. apply insertLines_inv in Hi as (rows & _ & Hrows & _ & El & _ & Ee & Eb & _).
  run_bind H u s3 Hs. apply insertSourceLinks_core in Hs.
  run_bind H v s4 Ha. apply audit_append_core in Ha. apply st_ret_inv in H as [_ ->].
  apply core_eq_fields in Hs as (E1 & E2 & E3 & _), Ha as (E4 & E5 & E6 & _).
  eapply (step_draft _ _ (db_now db) book (input_header value) d rows);
    rewrite ?E4, ?E5, ?E6, ?E1, ?E2, ?E3, ?El, ?Ee, ?Eb; try done.
  - by rewrite Ed.
  - clear - Hrows. induction Hrows as [|l r ls rs Hl _ IH]; constructor; [apply Hl|done].
Qed.

Lemma postDraft_body_inv id bd actor request db out db' :
  NoDup (je_id <$> db_entries db) ->
  postDraft_body id bd actor request db = (Ok out, db') ->
  exists draft book period b,
    (draft ∈ db_entries db /\ je_id draft = id /\ je_status draft = EntryDraft) /\
    (find_book (bk_id book) db = Some book /\ je_accountingBookId draft = bk_id book) /\
    1 <= bk_nextEntryNumber book <= MAX_SAFE_INTEGER /\
    po_entry out = entry_posted (bk_nextEntryNumber book) (fp_id period) b actor (db_now db) draft /\
    db_entries db' = on_entry (je_id draft)
      (entry_posted (bk_nextEntryNumber book) (fp_id period) b actor (db_now db)) (db_entries db) /\
    db_lines db' = db_lines db /\ db_books db' = bump_book (db_now db) book (db_books db) /\
    assertBalanced (row_balance <$> order_by jl_lineNumber (entry_lines db (je_id draft))) = Ok tt /\
    stamped_period (db_periods db) (bk_id book) (je_entryDate draft) period /\
    assertPeriodAcceptsPosting period bd = Ok b.
Proof.
  intros Hn H. unfold postDraft_body in H. run_bind H draft s Hd.
  apply loadEntry_inv in Hd as (Hin & Hi & ->).
  run_bind H u1 s Hs. apply st_lift_inv in Hs as [Hs%throw_if_Ok ->].
  apply bool_decide_eq_false, dec_stable in Hs.
  run_bind H book s Hb. apply loadActiveBook_inv in Hb as (-> & Hf & Hbi & _).
  rewrite <- Hbi in Hf. run_bind H ls s Hl. apply st_gets_inv in Hl as [-> ->].
  run_bind H u2 s Hbal. apply st_lift_inv in Hbal as [Hbal ->]. destruct u2.
  run_bind H d s Hg. apply st_get_inv in Hg as [-> ->].
  run_bind H u3 s Hdim. read_run Hdim.
  run_bind H period s Hp. apply resolvePeriodRow_inv in Hp as (-> & Hp).
  run_bind H b s Ha. apply st_lift_inv in Ha as [Ha ->].
  run_bind H n s1 H1. apply nextEntryNumber_inv in H1 as (-> & Hrange & ->); [|done].
  run_bind H e s2 H2. apply markPosted_inv in H2 as (He & Ee & El & Ebk & _); [|done..].
  run_bind H v s3 H3. apply audit_append_core in H3. apply st_ret_inv in H as [-> ->].
  apply core_eq_fields in H3 as (E1 & E2 & E3 & _).
  exists draft, book, period, b. rewrite E1, E2, E3, Ee, El, Ebk.
  do 9 (split; [done|]). done.
Qed.

Lemma voidDraft_step id reason actor request db out db' :
  db_deferred db = [] -> voidDraft id reason actor request db = (Ok out, db') -> ledger_step db db'.
Proof.
  intros Hd H. unfold voidDraft in H. run_bind H u0 s Hu. apply st_lift_inv in Hu as [_ ->].
  apply transaction_inv in H as (db1 & H & _ & ->). run_bind H e s He.
  apply loadEntry_inv in He as (Hin & Hi & ->).
  destruct (bool_decide (je_status e = EntryVoid)) eqn:Ev.
  { apply st_ret_inv in H as [_ ->]. apply step_quiet, quiet_frame; done. }
  run_bind H u1 s Hs. apply st_lift_inv in Hs as [Hs%throw_if_Ok ->].
  apply bool_decide_eq_false, dec_stable in Hs.
  run_bind H now s Hnow. apply st_gets_inv in Hnow as [-> ->].
  run_bind H u2 s2 Hup. apply updateJournalEntry_inv in Hup as (E1 & E2 & E3 & _).
  run_bind H a s3 Ha. apply loadEntry_inv in Ha as (_ & _ & ->).
  run_bind H u3 s3 Hau. apply audit_append_core in Hau. apply st_ret_inv in H as [_ ->].
  apply core_eq_fields in Hau as (E4 & E5 & E6 & _).
  eapply (step_void _ _ (db_now db + 1) e); [exact Hin|done|..]; cbn;
    rewrite ?E4, ?E5, ?E6, ?E1, ?E2, ?E3; done.
Qed.

Lemma reverseLine_inv l db r db' :
  reverseLine l db = (Ok r, db') ->
  rl_ledgerAccountId r = jl_ledgerAccountId l /\ rl_economicEntityId r = jl_economicEntityId l /\
  rl_lineNumber r = jl_lineNumber l /\ rl_currency r = jl_currency l /\
  rl_functionalCurrency r = jl_functionalCurrency l /\
  rl_amount r = fromUnits (- jl_amount l) /\
  rl_functionalAmount r = fromUnits (- jl_functionalAmount l).
Proof.
  unfold reverseLine. intros H. run_bind H tags s Ht. apply st_gets_inv in Ht as [-> ->].
  run_bind H a s Ha. apply st_lift_inv in Ha as [Ha ->].
  run_bind H f s Hf. apply st_lift_inv in Hf as [Hf ->]. apply st_ret_inv in H as [-> _].
  rewrite (negateDecimal_units _ (jl_amount l)) in Ha by apply toUnits_fromUnits.
  rewrite (negateDecimal_units _ (jl_functionalAmount l)) in Hf by apply toUnits_fromUnits.
  injection Ha as <-. by injection Hf as <-.
Qed.

Lemma mirrored_rows ls lines rows db book e :
  Forall2 (fun l r => reverseLine l db = (Ok r, db)) ls lines ->
  Forall2 (line_row book e) lines rows ->
  (forall l, l ∈ ls -> jl_accountingBookId l = book) -> Forall2 mirrors ls rows.
Proof.
  intros H. revert rows. induction H as [|l r ls lines Hl _ IH]; intros rows Hr Hb;
    inversion Hr as [|? row ? rows' Hrow Hrows]; subst; [constructor|].
  constructor; [|apply IH; [done|]; intros x Hx; apply Hb; set_solver].
  apply reverseLine_inv in Hl as (E1 & E2 & E3 & E4 & E5 & E6 & E7).
  destruct Hrow as [Q1 Q2 Q3 Q4 Q5 Q6 Q7 Qa Qf].
  rewrite E6, toUnits_fromUnits in Qa. rewrite E7, toUnits_fromUnits in Qf.
  injection Qa as E8. injection Qf as E9.
  split; try congruence. rewrite (Hb l) by set_solver. congruence.
Qed.

Lemma entry_lines_elem db e l :
  l ∈ entry_lines db e <-> l ∈ db_lines db /\ jl_journalEntryId l = e.
Proof. unfold entry_lines. rewrite list_elem_of_filter. naive_solver. Qed.

Lemma entry_lines_book db e l :
  ledger_ok db -> e ∈ db_entries db -> l ∈ entry_lines db (je_id e) ->
  jl_accountingBookId l = je_accountingBookId e.
Proof.
  intros Hok He [Hl Hi]%entry_lines_elem. destruct (ok_lines _ Hok l Hl) as [_ Hfk].
  unfold line_fks in Hfk. apply andb_true_iff in Hfk as [[Hfk _]%andb_true_iff _].
  apply existsb_elem in Hfk as (f & Hf & [H1%bool_decide_eq_true H2%bool_decide_eq_true]%andb_true_iff).
  rewrite <- H2. f_equal. eapply (NoDup_keys_inj je_id); [apply Hok|done..|congruence].
Qed.

Lemma order_by_elem {A} (key : A -> Z) l x : x ∈ order_by key l <-> x ∈ l.
Proof. by rewrite order_by_perm. Qed.

(** What a reversal that is not a repetition writes. *)
Record reversed_fresh (original : JournalEntry) (t : option date) (reason : string) (bd : bool)
    (actor : option string) (db db' : Db) (now : Z) (out : PostedEntry) (book : AccountingBook)
    (period : FiscalPeriod) (backdated : bool) (lines : list ResolvedLine)
    (rows : list JournalLine) (mid : Db) : Prop := {
  vf_book : find_book (bk_id book) db = Some book;
  vf_own_book : je_accountingBookId original = bk_id book;
  vf_posted : je_status original = EntryPosted;
  vf_written : written db mid now book
    (reversal_header original (default (je_entryDate original) t) reason actor)
    (fp_id period) backdated actor lines (po_entry out) rows;
  vf_mirrors : Forall2 mirrors (order_by jl_lineNumber (entry_lines db (je_id original))) rows;
  vf_entries : db_entries db' =
    on_entry (je_id original) (entry_status EntryReversed now) (db_entries mid);
  vf_lines : db_lines db' = db_lines mid;
  vf_books : db_books db' = db_books mid;
  vf_out : po_reused out = false /\ po_lines out = order_by jl_lineNumber rows;
  vf_period : stamped_period (db_periods db) (bk_id book)
    (default (je_entryDate original) t) period;
  vf_accepts : assertPeriodAcceptsPosting period bd = Ok backdated;
}.

Lemma reverseEntry_write_inv original t reason bd actor request db out db' :
  ledger_ok db -> original ∈ db_entries db -> in_books (je_status original) = true ->
  reverseEntry_write original t reason bd actor request db = (Ok out, db') ->
  exists book period b lines rows mid,
    reversed_fresh original t reason bd actor db db' (db_now db) out book period b lines rows mid.
Proof.
  intros Hok Ho Hib H. unfold reverseEntry_write in H.
  run_bind H book s Hb. apply loadActiveBook_inv in Hb as (-> & Hf & Hbi & _).
  rewrite <- Hbi in Hf. run_bind H ls s Hl. apply st_gets_inv in Hl as [-> ->].
  run_bind H u1 s Hz. apply st_lift_inv in Hz as [_ ->]. cbv zeta in H.
  run_bind H period s Hp. apply resolvePeriodRow_inv in Hp as (-> & Hp).
  run_bind H b s Ha. apply st_lift_inv in Ha as [Ha ->].
  run_bind H n s1 H1. run_bind H d s2 H2. run_bind H lines s Hrl.
  apply st_mapM_reads_Forall2 in Hrl as [-> Hrl]; [|solve_respects].
  run_bind H ins s3 H3. run_bind H links s Hlk. apply st_gets_inv in Hlk as [-> ->].
  run_bind H u2 s4 H4. run_bind H u3 s5 H5. run_bind H e mid H6.
  run_bind H now s Hnow. apply st_gets_inv in Hnow as [-> ->].
  run_bind H u4 s7 H7. run_bind H u5 s8 H8. apply st_ret_inv in H as [-> ->].
  assert (core_eq s3 s5) as H45.
  { etrans; [by eapply insertSourceLinks_core|by eapply insertSourceLinks_core]. }
  destruct (write_posting _ _ _ _ _ _ _ _ _ _ _ _ _ _ _ _ (ok_entry_ids _ Hok) Hf H1 H2 H3 H45 H6)
    as (rows & -> & Hw).
  apply updateJournalEntry_inv in H7 as (E1 & E2 & E3 & _ & _ & Hall).
  apply audit_append_core, core_eq_fields in H8 as (E4 & E5 & E6 & _).
  exists book, period, b, lines, rows, mid. split; try done.
  - assert (original ∈ db_entries mid) as Hom.
    { rewrite (wr_entries _ _ _ _ _ _ _ _ _ _ _ Hw). apply elem_of_app. by left. }
    specialize (Hall original Hom eq_refl). unfold entry_update_allowed in Hall.
    by destruct (je_status original).
  - eapply mirrored_rows; [exact Hrl|apply Hw|]. intros l Hl. rewrite order_by_elem in Hl.
    rewrite Hbi. by eapply entry_lines_book.
  - by rewrite E4, E1, (wr_now _ _ _ _ _ _ _ _ _ _ _ Hw).
  - by rewrite E5, E2.
  - by rewrite E6, E3.
Qed.

Lemma find_reversal_none db id :
  find_reversal db id = None -> forall f, f ∈ db_entries db -> ~ reverses f id.
Proof.
  intros H f Hf Hr. pose proof (find_row_none _ _ H f Hf) as Hn. cbv beta in Hn.
  unfold opt_eqb in Hn. by apply bool_decide_eq_false in Hn.
Qed.

Lemma find_reversal_some db id f :
  find_reversal db id = Some f -> f ∈ db_entries db /\ reverses f id.
Proof. intros [Hf Hr%bool_decide_eq_true]%find_row_some. done. Qed.

Lemma reverseEntry_body_inv id t reason bd actor request db out db' :
  ledger_ok db -> reverseEntry_body id t reason bd actor request db = (Ok out, db') ->
  exists original, original ∈ db_entries db /\ je_id original = id /\
    in_books (je_status original) = true /\ je_reversesEntryId original = None /\
    ((db' = db /\ po_reused out = true /\ find_reversal db id = Some (po_entry out) /\
      po_lines out = order_by jl_lineNumber (entry_lines db (je_id (po_entry out)))) \/
     (find_reversal db id = None /\ exists book period b lines rows mid,
      reversed_fresh original t reason bd actor db db' (db_now db) out book period b lines rows mid)).
Proof.
  intros Hok H. unfold reverseEntry_body in H. run_bind H o s Ho.
  apply loadEntry_inv in Ho as (Hin & Hi & ->).
  run_bind H u1 s H1. apply st_lift_inv in H1 as [H1%throw_if_Ok ->].
  run_bind H u2 s H2. apply st_lift_inv in H2 as [H2%throw_if_Ok ->].
  run_bind H d s Hd. apply st_get_inv in Hd as [-> ->].
  apply orb_false_iff in H1 as [Hn1%bool_decide_eq_false Hn2%bool_decide_eq_false].
  assert (in_books (je_status o) = true) as Hib by (by destruct (je_status o)).
  exists o. split; [done|]. split; [done|]. split; [done|].
  split; [by destruct (je_reversesEntryId o)|]. rewrite Hi in H.
  destruct (find_reversal db id) as [f|] eqn:Ef.
  - left. run_bind H ls s Hl. apply st_gets_inv in Hl as [-> ->].
    by apply st_ret_inv in H as [-> ->].
  - right. split; [done|]. by apply reverseEntry_write_inv in H.
Qed.

(** *** Around the transaction *)
Lemma quiet_tx db db1 : quiet (begin_tx db) db1 -> quiet db (set_deferred [] db1).
Proof. intros []. by split. Qed.

Lemma written_begin db mid now book hd p b actor lines e rows :
  written (begin_tx db) mid now book hd p b actor lines e rows ->
  written db mid now book hd p b actor lines e rows.
Proof. intros []. by split. Qed.

Lemma ledger_step_tx db db1 : ledger_step (begin_tx db) db1 -> ledger_step db (set_deferred [] db1).
Proof.
  destruct 1 as [Hq | now book hd p b actor lines e rows Hf Hw Hr
    | now book hd e rows Hf He Hr Hn E1 E2 Hall E3 | now book draft p b actor Hf Hin Hs Hb Hn E1 E2 E3
    | now draft Hin Hs E1 E2 E3
    | now book hd p b actor lines e rows o mid Hf Hin Hs Ho Hb Hno Hw Hr Hm E1 E2 E3].
  - by apply step_quiet, quiet_tx.
  - eapply step_post; [exact Hf|by apply written_tx|done].
  - by eapply (step_draft _ _ now book hd e rows).
  - by eapply (step_post_draft _ _ now book draft).
  - by eapply (step_void _ _ now draft).
  - eapply (step_reverse _ _ now book hd p b actor lines e rows o mid); try done.
    by apply written_begin.
Qed.

Lemma transaction_step {A} (body : run A) :
  (forall db a db', ledger_ok db -> body db = (Ok a, db') -> ledger_step db db') ->
  forall db, committed db -> ledger_step db (snd (transaction body db)).
Proof.
  intros Hb db [Hok Hd]. unfold transaction.
  destruct (body (begin_tx db)) as [[a|e] db1] eqn:E.
  - destruct (commit_check db1); [|by apply step_quiet].
    apply ledger_step_tx. eapply Hb; [|exact E]. by apply (begin_tx_step_ok db Hd).
  - by apply step_quiet.
Qed.

Lemma quiet_step {A} (m : run A) db : always quiet m -> ledger_step db (snd (m db)).
Proof. intros H. apply step_quiet, H. Qed.

Lemma posted_fresh_step value db db' now out book period b lines rows :
  posted_fresh value db db' now out book period b lines rows -> ledger_step db db'.
Proof. intros [Hw _ _ [Hf _] _ _ _ _]. by eapply step_post. Qed.

Lemma reversed_fresh_step original t reason bd actor db db' now out book period b lines rows mid :
  original ∈ db_entries db -> je_reversesEntryId original = None ->
  find_reversal db (je_id original) = None ->
  reversed_fresh original t reason bd actor db db' now out book period b lines rows mid ->
  ledger_step db db'.
Proof.
  intros Hin Hr Hnone []. eapply (step_reverse _ _ now book); try done.
  by apply find_reversal_none.
Qed.

Lemma postEntry_body_step value db o db' :
  ledger_ok db -> postEntry_body value db = (Ok o, db') -> ledger_step db db'.
Proof.
  intros Hok H. unfold postEntry_body in H.
  run_bind H ex s Hp. apply probe_inv in Hp as [-> _]. destruct ex as [x|].
  - apply st_ret_inv in H as [_ ->]. by apply step_quiet.
  - apply postEntry_fresh_inv in H as (bk & p & b & ls & rows & Hf); [|apply Hok].
    by eapply posted_fresh_step.
Qed.

Lemma postEntry_step i db : committed db -> ledger_step db (snd (postEntry i db)).
Proof.
  intros Hc. unfold postEntry, mbind, St_bind, st_lift.
  destruct (postEntrySchema i) as [value|e]; [|by apply step_quiet]. unfold st_catch.
  pose proof (transaction_step _ (postEntry_body_step value) db Hc) as Ht.
  destruct (transaction (postEntry_body value) db) as [[o|er] s1] eqn:Et; [exact Ht|].
  apply transaction_throw in Et as ->. apply quiet_step, reads_quiet_always, postEntry_handler_reads.
Qed.

Lemma createDraft_step i db : committed db -> ledger_step db (snd (createDraft i db)).
Proof.
  intros Hc. unfold createDraft, mbind, St_bind, st_lift.
  destruct (postEntrySchema i) as [value|e]; [|by apply step_quiet].
  apply transaction_step; [|done]. intros ???? H. by eapply createDraft_body_step.
Qed.

Lemma postDraft_step id bd actor request db :
  committed db -> ledger_step db (snd (postDraft id bd actor request db)).
Proof.
  apply transaction_step. intros s out s' Hok H.
  apply postDraft_body_inv in H as (d & book & p & b & (H1 & H2 & H3) & (H4 & H5) & H6 & _ & H7 & H8 & H9 & _);
    [|apply Hok].
  by eapply (step_post_draft _ _ _ book d).
Qed.

Lemma voidDraft_always_step id reason actor request db :
  committed db -> ledger_step db (snd (voidDraft id reason actor request db)).
Proof.
  intros [Hok Hd]. destruct (voidDraft id reason actor request db) as [[o|e] db'] eqn:E; cbn.
  - by eapply voidDraft_step.
  - enough (db' = db) as -> by (by apply step_quiet). unfold voidDraft in E.
    destruct (st_bind_Throw _ _ _ _ _ E) as [Hl|(u & s & Hl & Ht)].
    + by injection Hl as _ <-.
    + apply st_lift_inv in Hl as [_ ->]. by apply transaction_throw in Ht.
Qed.

Lemma reverseEntry_step id t reason bd actor request db :
  committed db -> ledger_step db (snd (reverseEntry id t reason bd actor request db)).
Proof.
  intros Hc. unfold reverseEntry, mbind, St_bind, st_lift.
  destruct (throw_if _ _) as [u|e]; [|by apply step_quiet].
  apply transaction_step; [|done]. intros s out s' Hok H.
  apply reverseEntry_body_inv in H as (o & Hin & <- & _ & Hr & [(-> & _)|(Hn & book & p & b & ls & rows & mid & Hf)]);
    [by apply step_quiet| |done].
  by eapply reversed_fresh_step.
Qed.

(** ** Numbering *)
Record numbering_ok (entries : list JournalEntry) (books : list AccountingBook) : Prop := {
  nb_books : NoDup (bk_id <$> books);
  nb_next b : b ∈ books -> 1 <= bk_nextEntryNumber b;
  nb_book e : e ∈ entries -> je_accountingBookId e ∈ (bk_id <$> books);
  (** exactly the entries in the books are numbered *)
  nb_numbered e : e ∈ entries -> is_some (je_entryNumber e) = in_books (je_status e);
  nb_range e n b : e ∈ entries -> je_entryNumber e = Some n -> b ∈ books ->
    je_accountingBookId e = bk_id b -> 1 <= n < bk_nextEntryNumber b;
  nb_gapless b n : b ∈ books -> 1 <= n < bk_nextEntryNumber b ->
    exists e, e ∈ entries /\ je_accountingBookId e = bk_id b /\ je_entryNumber e = Some n;
}.

(** [y] is [x] as far as numbering goes. *)
Definition same_number (x y : JournalEntry) : Prop :=
  je_accountingBookId y = je_accountingBookId x /\ je_entryNumber y = je_entryNumber x /\
  in_books (je_status y) = in_books (je_status x).

Definition unnumbered (books : list AccountingBook) (e : JournalEntry) : Prop :=
  je_entryNumber e = None /\ in_books (je_status e) = false /\
  je_accountingBookId e ∈ (bk_id <$> books).

Lemma numbering_same es es' books :
  (forall x, x ∈ es' -> unnumbered books x \/ exists y, y ∈ es /\ same_number y x) ->
  (forall y, y ∈ es -> je_entryNumber y <> None -> exists x, x ∈ es' /\ same_number y x) ->
  numbering_ok es books -> numbering_ok es' books.
Proof.
  intros Hold Hkeep []. split; [done..| | | |].
  - intros x Hx. destruct (Hold x Hx) as [(_ & _ & H)|(y & Hy & -> & _)]; auto.
  - intros x Hx. destruct (Hold x Hx) as [(-> & -> & _)|(y & Hy & _ & -> & ->)]; auto.
  - intros x n b Hx. destruct (Hold x Hx) as [(-> & _)|(y & Hy & -> & -> & _)]; [done|eauto].
  - intros b n Hb Hn. destruct (nb_gapless0 b n Hb Hn) as (y & Hy & E1 & E2).
    destruct (Hkeep y Hy) as (x & Hx & E3 & E4 & _); [congruence|].
    exists x. split; [done|]. split; congruence.
Qed.

(** Entering one entry in the books under the next number of its book. *)
Lemma numbering_next es es' books book now e :
  book ∈ books -> e ∈ es' -> je_accountingBookId e = bk_id book ->
  je_entryNumber e = Some (bk_nextEntryNumber book) -> in_books (je_status e) = true ->
  (forall x, x ∈ es' -> x = e \/ exists y, y ∈ es /\ same_number y x) ->
  (forall y, y ∈ es -> je_entryNumber y <> None -> exists x, x ∈ es' /\ same_number y x) ->
  numbering_ok es books -> numbering_ok es' (bump_book now book books).
Proof.
  intros Hbook He Eb En Es Hold Hkeep [].
  assert (bk_id <$> bump_book now book books = bk_id <$> books) as Hids by by apply update_rows_keys.
  assert (forall b, b ∈ bump_book now book books -> exists b0, b0 ∈ books /\ bk_id b = bk_id b0 /\
    bk_nextEntryNumber b = bk_nextEntryNumber b0 + if decide (bk_id b0 = bk_id book) then 1 else 0) as Hbump.
  { intros b (b0 & Hb0 & ->)%update_rows_elem. exists b0. split; [done|].
    case_bool_decide as Ei; [by rewrite decide_True|].
    rewrite decide_False by done. split; [done|lia]. }
  assert (forall b, b ∈ books -> bk_id b = bk_id book -> b = book) as Hone.
  { intros b Hb Ei. by eapply (NoDup_keys_inj bk_id). }
  split; rewrite ?Hids; try done.
  - intros b (b0 & Hb0 & _ & ->)%Hbump. specialize (nb_next0 b0 Hb0). case_decide; lia.
  - intros x Hx. destruct (Hold x Hx) as [->|(y & Hy & -> & _)]; [|auto].
    rewrite Eb. by apply list_elem_of_fmap_2.
  - intros x Hx. destruct (Hold x Hx) as [->|(y & Hy & _ & -> & ->)]; [by rewrite En, Es|auto].
  - intros x n b Hx Ex (b0 & Hb0 & -> & ->)%Hbump Exb. destruct (Hold x Hx) as [->|(y & Hy & S1 & S2 & _)].
    + rewrite En in Ex. injection Ex as <-.
      rewrite (Hone b0), decide_True by congruence. specialize (nb_next0 book Hbook). lia.
    + pose proof (nb_range0 y n b0 Hy ltac:(congruence) Hb0 ltac:(congruence)). case_decide; lia.
  - intros b n (b0 & Hb0 & -> & ->)%Hbump Hn.
    destruct (decide (bk_id b0 = bk_id book /\ n = bk_nextEntryNumber book)) as [[Ei ->]|Hne].
    { exists e. split; [done|]. split; congruence. }
    destruct (nb_gapless0 b0 n Hb0) as (y & Hy & E1 & E2).
    { case_decide as Ei; [|lia]. rewrite (Hone b0 Hb0 Ei) in *.
      assert (n <> bk_nextEntryNumber book) by (intros ->; by destruct Hne). lia. }
    destruct (Hkeep y Hy) as (x & Hx & E3 & E4 & _); [congruence|].
    exists x. split; [done|]. split; congruence.
Qed.

Lemma numbering_quiet es books books' :
  books_kept books books' -> numbering_ok es books -> numbering_ok es books'.
Proof.
  intros [I O N] []. split; [auto|..|done| |].
  - intros b' Hb'. destruct (N b' Hb') as [(b & Hb & _ & ->)|[_ ->]]; [auto|lia].
  - intros e He. pose proof (nb_book0 e He) as Hin. apply list_elem_of_fmap in Hin as (b & -> & Hb).
    destruct (O b Hb) as (b' & Hb' & <-). by apply list_elem_of_fmap_2.
  - intros e n b' He En Hb' Eb. destruct (N b' Hb') as [(b & Hb & E1 & ->)|[Hn _]].
    + apply (nb_range0 e); congruence.
    + destruct Hn. rewrite <- Eb. auto.
  - intros b' n Hb' Hn. destruct (N b' Hb') as [(b & Hb & -> & E2)|[_ E]]; [|lia].
    rewrite E2 in Hn. auto.
Qed.

Lemma on_entry_elem id f es x :
  x ∈ on_entry id f es <-> exists e, e ∈ es /\ ((je_id e = id /\ x = f e) \/ (je_id e <> id /\ x = e)).
Proof.
  unfold on_entry. rewrite update_rows_elem. split.
  - intros (e & He & ->). exists e. split; [done|]. case_bool_decide; [by left|by right].
  - intros (e & He & [[Hi ->]|[Hi ->]]); exists e; split; try done.
    + by rewrite bool_decide_true.
    + by rewrite bool_decide_false.
Qed.

Lemma find_book_elem id db b : find_book id db = Some b -> b ∈ db_books db /\ bk_id b = id.
Proof. unfold find_book. by intros [? ?%bool_decide_eq_true]%find_row_some. Qed.

Lemma same_number_refl e : same_number e e.
Proof. done. Qed.

Lemma snoc_keep {A} (R : A -> A -> Prop) `{!Reflexive R} es (e y : A) :
  y ∈ es -> exists x, x ∈ es ++ [e] /\ R y x.
Proof. intros Hy. exists y. split; [apply elem_of_app; by left|done]. Qed.

Lemma snoc_old {A} (R : A -> A -> Prop) `{!Reflexive R} es (e x : A) :
  x ∈ es ++ [e] -> x = e \/ exists y, y ∈ es /\ R y x.
Proof.
  intros [Hx|Hx%list_elem_of_singleton]%elem_of_app; [right; by exists x|by left].
Qed.

#[export] Instance same_number_reflexive : Reflexive same_number.
Proof. intros e. exact (same_number_refl e). Qed.

(** The numbering survives every move. *)
Lemma on_entry_other id (f : JournalEntry -> JournalEntry) es y :
  y ∈ es -> je_id y <> id -> y ∈ on_entry id f es.
Proof. intros Hy Hi. apply on_entry_elem. exists y. split; [done|by right]. Qed.

Lemma on_entry_hit (f : JournalEntry -> JournalEntry) es y :
  y ∈ es -> f y ∈ on_entry (je_id y) f es.
Proof. intros Hy. apply on_entry_elem. exists y. split; [done|by left]. Qed.

Lemma written_numbering db db' now book hd p b actor lines e rows :
  find_book (bk_id book) db = Some book ->
  written db db' now book hd p b actor lines e rows ->
  numbering_ok (db_entries db) (db_books db) -> numbering_ok (db_entries db') (db_books db').
Proof.
  intros Hf [Hfresh He Hn Ees _ _ Ebk _ _ _ _] Hnum. rewrite Ees, Ebk.
  apply find_book_elem in Hf as [Hb _].
  apply (numbering_next (db_entries db) _ _ book now e); try done.
  - apply elem_of_app. right. by apply list_elem_of_singleton.
  - by rewrite He.
  - by rewrite He.
  - by rewrite He.
  - intros x. apply (snoc_old same_number).
  - intros y Hy _. by apply (snoc_keep same_number).
Qed.

Lemma draft_unnumbered es books e :
  numbering_ok es books -> e ∈ es -> je_status e = EntryDraft -> je_entryNumber e = None.
Proof.
  intros Hnum He Hs. pose proof (nb_numbered _ _ Hnum e He) as H. rewrite Hs in H.
  by destruct (je_entryNumber e).
Qed.

Lemma step_numbering db db' :
  NoDup (je_id <$> db_entries db) -> ledger_step db db' ->
  numbering_ok (db_entries db) (db_books db) -> numbering_ok (db_entries db') (db_books db').
Proof.
  intros Hids Hstep Hnum.
  destruct Hstep as [[E1 _ Hbk] | now book hd p b actor lines e rows Hf Hw Hr
    | now book hd e rows Hf He Hr Hn E1 E2 Hall E3 | now book draft p b actor Hf Hin Hs Hb Hn E1 E2 E3
    | now draft Hin Hs E1 E2 E3
    | now book hd p b actor lines e rows o mid Hf Hin Hs Ho Hb Hno Hw Hr Hm E1 E2 E3].
  - rewrite E1. by eapply numbering_quiet.
  - by eapply written_numbering.
  - rewrite E1, E3. apply find_book_elem in Hf as [Hb _]. eapply numbering_same; [..|exact Hnum].
    + intros x [->|Hx]%(snoc_old same_number); [left|by right].
      split; [by rewrite He|]. split; [by rewrite He|].
      replace (je_accountingBookId e) with (bk_id book) by (by rewrite He).
      by apply list_elem_of_fmap_2.
    + intros y Hy _. by apply (snoc_keep same_number).
  - rewrite E1, E3. apply find_book_elem in Hf as [Hbe _].
    assert (je_entryNumber draft = None) as Ed.
    { by eapply draft_unnumbered. }
    eapply (numbering_next (db_entries db) _ _ book now); [exact Hbe| by apply on_entry_hit|done..| | |done].
    + intros x (y & Hy & [[Hi ->]|[Hi ->]])%on_entry_elem; [left|right; by exists y].
      f_equal. by eapply (NoDup_keys_inj je_id).
    + intros y Hy Hyn. exists y. split; [|done]. apply on_entry_other; [done|].
      intros Hi. apply Hyn. replace y with draft; [done|]. by eapply (NoDup_keys_inj je_id).
  - rewrite E1, E3. eapply numbering_same; [..|exact Hnum].
    + intros x (y & Hy & [[Hi ->]|[Hi ->]])%on_entry_elem; [left|right; by exists y].
      replace y with draft by (by eapply (NoDup_keys_inj je_id)).
      split; [exact (draft_unnumbered _ _ draft Hnum Hin Hs)|]. split; [done|].
      exact (nb_book _ _ Hnum draft Hin).
    + intros y Hy Hyn. exists y. split; [|done]. apply on_entry_other; [done|].
      intros Hi. apply Hyn. replace y with draft by (by eapply (NoDup_keys_inj je_id)).
      by eapply draft_unnumbered.
  - apply (written_numbering _ _ _ _ _ _ _ _ _ _ _ Hf Hw) in Hnum. rewrite E1, E3.
    assert (NoDup (je_id <$> db_entries mid)) as Hidm.
    { rewrite (wr_entries _ _ _ _ _ _ _ _ _ _ _ Hw). apply NoDup_keys_snoc.
      split; [done|apply Hw]. }
    assert (o ∈ db_entries mid) as Hom.
    { rewrite (wr_entries _ _ _ _ _ _ _ _ _ _ _ Hw). apply elem_of_app. by left. }
    eapply numbering_same; [..|exact Hnum].
    + intros x (y & Hy & [[Hi ->]|[Hi ->]])%on_entry_elem; right; exists y; [|done].
      split; [done|]. replace y with o by (by eapply (NoDup_keys_inj je_id)).
      unfold same_number. cbn. by rewrite Hs.
    + intros y Hy _. destruct (decide (je_id y = je_id o)) as [Hi|Hi].
      * exists (entry_status EntryReversed now y). split.
        -- rewrite <- Hi. by apply on_entry_hit.
        -- replace y with o by (by eapply (NoDup_keys_inj je_id)). unfold same_number. cbn. by rewrite Hs.
      * exists y. split; [by apply on_entry_other|done].
Qed.

(** ** Reversals *)

(** What the lines [ls] do to account [a] in currency [c]. *)
Definition account_total (a : uuid) (c : string) (ls : list JournalLine) : Z :=
  sumZ (jl_amount <$> filter (fun l => jl_ledgerAccountId l = a /\ jl_currency l = c) ls).

Lemma account_total_perm a c ls ls' : ls ≡ₚ ls' -> account_total a c ls = account_total a c ls'.
Proof. unfold account_total. by intros ->. Qed.

Lemma account_total_mirrors a c ls rows :
  Forall2 mirrors ls rows -> account_total a c rows = - account_total a c ls.
Proof.
  unfold account_total. induction 1 as [|l r ls rows [] _ IH]; [done|].
  rewrite !filter_cons, mi_account0, mi_currency0.
  destruct (decide _); csimpl; [rewrite mi_amount0, IH; lia|exact IH].
Qed.

(** The two entries leave every account where it was. *)
Definition net_to_zero (db : Db) (x y : uuid) : Prop :=
  forall a c, account_total a c (entry_lines db x) + account_total a c (entry_lines db y) = 0.

Record reversals_ok (db : Db) : Prop := {
  rv_target e x : e ∈ db_entries db -> reverses e x ->
    je_status e = EntryPosted /\
    exists o, o ∈ db_entries db /\ je_id o = x /\ je_status o = EntryReversed /\
      je_reversesEntryId o = None /\ net_to_zero db x (je_id e);
  rv_once e f x : e ∈ db_entries db -> f ∈ db_entries db -> reverses e x -> reverses f x -> e = f;
  rv_reversed o : o ∈ db_entries db -> je_status o = EntryReversed ->
    exists e, e ∈ db_entries db /\ reverses e (je_id o);
}.

Definition same_reversal (x y : JournalEntry) : Prop :=
  je_id y = je_id x /\ je_status y = je_status x /\ je_reversesEntryId y = je_reversesEntryId x.
#[export] Instance same_reversal_reflexive : Reflexive same_reversal.
Proof. done. Qed.

(** The lines of the entries in the books are those of [db]. *)
Definition lines_kept (db db' : Db) : Prop :=
  forall e, e ∈ db_entries db -> in_books (je_status e) = true ->
    entry_lines db' (je_id e) = entry_lines db (je_id e).

Lemma evolves_lines_kept db db' :
  NoDup (je_id <$> db_entries db) -> evolves db db' -> lines_kept db db'.
Proof. intros Hn Hev e He Hb. by destruct (ev_entries _ _ Hev e Hn He Hb) as (? & _ & _ & ?). Qed.

Lemma net_to_zero_kept db db' o e :
  lines_kept db db' -> o ∈ db_entries db -> e ∈ db_entries db ->
  in_books (je_status o) = true -> in_books (je_status e) = true ->
  net_to_zero db (je_id o) (je_id e) -> net_to_zero db' (je_id o) (je_id e).
Proof. intros Hk Ho He Hbo Hbe Hn a c. rewrite !Hk by done. apply Hn. Qed.

Lemma reversals_same db db' :
  NoDup (je_id <$> db_entries db) -> NoDup (je_id <$> db_entries db') -> lines_kept db db' ->
  (forall x, x ∈ db_entries db' -> (je_reversesEntryId x = None /\ je_status x <> EntryReversed) \/
     exists y, y ∈ db_entries db /\ same_reversal y x) ->
  (forall y, y ∈ db_entries db -> in_books (je_status y) = true ->
     exists x, x ∈ db_entries db' /\ same_reversal y x) ->
  reversals_ok db -> reversals_ok db'.
Proof.
  intros Hn Hn' Hk Hold Hkeep []. split.
  - intros e' x He' Hr. destruct (Hold e' He') as [[H _]|(e & He & E1 & E2 & E3)].
    { unfold reverses in Hr. congruence. }
    unfold reverses in Hr. rewrite E3 in Hr.
    destruct (rv_target0 e x He Hr) as (Hs & o & Ho & <- & Hos & Hor & Hnet).
    split; [congruence|]. destruct (Hkeep o Ho) as (o' & Ho' & F1 & F2 & F3); [by rewrite Hos|].
    exists o'. split; [done|]. split; [done|]. split; [congruence|]. split; [congruence|].
    rewrite E1. by apply (net_to_zero_kept db); rewrite ?Hos, ?Hs.
  - intros e' f' x He' Hf' Hre Hrf. unfold reverses in *.
    destruct (Hold e' He') as [[H _]|(e & He & E1 & E2 & E3)]; [congruence|].
    destruct (Hold f' Hf') as [[H _]|(f & Hf & F1 & F2 & F3)]; [congruence|].
    rewrite E3 in Hre. rewrite F3 in Hrf. pose proof (rv_once0 e f x He Hf Hre Hrf) as ->.
    eapply (NoDup_keys_inj je_id); [exact Hn'|done..|congruence].
  - intros o' Ho' Hs. destruct (Hold o' Ho') as [[_ H]|(o & Ho & E1 & E2 & _)]; [done|].
    rewrite E2 in Hs. destruct (rv_reversed0 o Ho Hs) as (e & He & Hr).
    destruct (rv_target0 e _ He Hr) as (Hes & _).
    destruct (Hkeep e He) as (e' & He' & F1 & F2 & F3); [by rewrite Hes|].
    exists e'. split; [done|]. unfold reverses in *. congruence.
Qed.

(** The move that reverses. *)
Lemma reversals_reverse db db' now book hd p b actor lines e rows o mid :
  ledger_ok db -> NoDup (je_id <$> db_entries db') -> lines_kept db db' ->
  o ∈ db_entries db -> je_status o = EntryPosted -> je_reversesEntryId o = None ->
  (forall f, f ∈ db_entries db -> ~ reverses f (je_id o)) ->
  written db mid now book hd p b actor lines e rows ->
  hd_reversesEntryId hd = Some (je_id o) ->
  Forall2 mirrors (order_by jl_lineNumber (entry_lines db (je_id o))) rows ->
  db_entries db' = on_entry (je_id o) (entry_status EntryReversed now) (db_entries mid) ->
  db_lines db' = db_lines mid ->
  reversals_ok db -> reversals_ok db'.
Proof.
  intros Hok Hn' Hk Ho Hos Hor Hno Hw Hr Hm E1 E2 [].
  pose proof (ok_entry_ids _ Hok) as Hn.
  pose proof (written_lines _ _ _ _ _ _ _ _ _ _ _ Hok Hw) as Hel.
  assert (je_reversesEntryId e = Some (je_id o) /\ je_status e = EntryPosted) as [Her Hes].
  { pose proof (wr_entry _ _ _ _ _ _ _ _ _ _ _ Hw) as He. rewrite He. done. }
  assert (je_id e <> je_id o) as Hne.
  { intros E. apply (wr_fresh _ _ _ _ _ _ _ _ _ _ _ Hw). rewrite E. by apply list_elem_of_fmap_2. }
  rewrite (wr_entries _ _ _ _ _ _ _ _ _ _ _ Hw) in E1.
  assert (e ∈ db_entries db') as He.
  { rewrite E1. apply on_entry_other; [|done]. apply elem_of_app. right.
    by apply list_elem_of_singleton. }
  assert (forall y, y ∈ db_entries db -> je_id y <> je_id o -> y ∈ db_entries db') as Hold'.
  { intros y Hy Hi. rewrite E1. apply on_entry_other; [|done]. apply elem_of_app. by left. }
  set (o' := entry_status EntryReversed now o).
  assert (o' ∈ db_entries db') as Ho'.
  { rewrite E1. apply (on_entry_hit (entry_status EntryReversed now)). apply elem_of_app. by left. }
  assert (forall x, x ∈ db_entries db' -> x = e \/ x = o' \/ (x ∈ db_entries db /\ je_id x <> je_id o)) as Hcase.
  { intros x Hx. rewrite E1 in Hx. apply on_entry_elem in Hx as (y & Hy & [[Hi ->]|[Hi ->]]).
    - right. left. apply elem_of_app in Hy as [Hy|Hy%list_elem_of_singleton]; [|by subst].
      unfold o'. f_equal. by eapply (NoDup_keys_inj je_id).
    - apply elem_of_app in Hy as [Hy|Hy%list_elem_of_singleton]; [right; by right|by left]. }
  assert (forall f x, f ∈ db_entries db -> reverses f x -> je_id f <> je_id o) as Hfo.
  { intros f x Hf Hrf Hi. unfold reverses in Hrf.
    assert (f = o) as -> by (by eapply (NoDup_keys_inj je_id)). congruence. }
  split.
  - intros f x Hf Hrf. destruct (Hcase f Hf) as [->|[->|[Hf0 Hfi]]].
    + split; [done|]. unfold reverses in Hrf. rewrite Her in Hrf. injection Hrf as <-.
      exists o'. split; [done|]. split; [done|]. split; [done|]. split; [done|].
      intros a c. rewrite (Hk o Ho) by (by rewrite Hos).
      assert (entry_lines db' (je_id e) = rows) as ->.
      { rewrite <- Hel. unfold entry_lines. by rewrite E2. }
      rewrite (account_total_mirrors a c _ _ Hm).
      rewrite (account_total_perm a c _ _ (order_by_perm jl_lineNumber (entry_lines db (je_id o)))). lia.
    + unfold reverses in Hrf. cbn in Hrf. congruence.
    + destruct (rv_target0 f x Hf0 Hrf) as (Hfs & t & Ht & <- & Hts & Htr & Hnet).
      split; [done|]. exists t. split; [apply Hold'; [done|]|].
      { intros Hi. assert (t = o) as -> by (by eapply (NoDup_keys_inj je_id)). congruence. }
      split; [done|]. split; [done|]. split; [done|].
      by apply (net_to_zero_kept db); rewrite ?Hfs, ?Hts.
  - intros f g x Hf Hg Hrf Hrg.
    assert (forall h, h ∈ db_entries db' -> reverses h x ->
      (h = e /\ x = je_id o) \/ (h ∈ db_entries db /\ x <> je_id o)) as Hcls.
    { intros h Hh Hrh. destruct (Hcase h Hh) as [->|[->|[Hh0 _]]].
      - left. unfold reverses in Hrh. split; congruence.
      - unfold reverses in Hrh. cbn in Hrh. congruence.
      - right. split; [done|]. intros ->. by apply (Hno h). }
    destruct (Hcls f Hf Hrf) as [[-> Hx]|[Hf0 Hx]], (Hcls g Hg Hrg) as [[-> Hx']|[Hg0 Hx']]; try done.
    eauto.
  - intros t Ht Hts. destruct (Hcase t Ht) as [->|[->|[Ht0 Hti]]]; [congruence| |].
    + exists e. split; [done|]. exact Her.
    + destruct (rv_reversed0 t Ht0 Hts) as (f & Hf & Hrf). exists f. split; [|done]. eauto.
Qed.

Lemma step_reversals db db' :
  ledger_ok db -> evolves db db' -> ledger_step db db' -> reversals_ok db -> reversals_ok db'.
Proof.
  intros Hok Hev Hstep Hrv. pose proof (ok_entry_ids _ Hok) as Hn.
  pose proof (ev_ids _ _ Hev Hn) as Hn'. pose proof (evolves_lines_kept _ _ Hn Hev) as Hk.
  assert (forall e es, je_reversesEntryId e = None /\ je_status e <> EntryReversed ->
    forall x, x ∈ es ++ [e] -> (je_reversesEntryId x = None /\ je_status x <> EntryReversed) \/
      exists y, y ∈ es /\ same_reversal y x) as Hsnoc.
  { intros e es He x [->|Hx]%(snoc_old same_reversal); [by left|by right]. }
  assert (forall d f, d ∈ db_entries db -> je_status d = EntryDraft ->
    (forall e, je_reversesEntryId (f e) = je_reversesEntryId e) ->
    (forall e, je_status (f e) <> EntryReversed) ->
    (forall x, x ∈ on_entry (je_id d) f (db_entries db) ->
       (je_reversesEntryId x = None /\ je_status x <> EntryReversed) \/
       exists y, y ∈ db_entries db /\ same_reversal y x) /\
    (forall y, y ∈ db_entries db -> in_books (je_status y) = true ->
       exists x, x ∈ on_entry (je_id d) f (db_entries db) /\ same_reversal y x)) as Hdraft.
  { intros d f Hd Hs Hf1 Hf2. split.
    - intros x (y & Hy & [[Hi ->]|[Hi ->]])%on_entry_elem; [left|right; by exists y].
      assert (y = d) as -> by (by eapply (NoDup_keys_inj je_id (db_entries db))). rewrite Hf1. split; [|done].
      destruct (je_reversesEntryId d) as [x|] eqn:E; [|done].
      destruct (rv_target _ Hrv d x Hd E) as [H _]. congruence.
    - intros y Hy Hb. exists y. split; [|done]. apply on_entry_other; [done|]. intros Hi.
      assert (y = d) as -> by (by eapply (NoDup_keys_inj je_id (db_entries db))). by rewrite Hs in Hb. }
  destruct Hstep as [[E1 _ _] | now book hd p b actor lines e rows Hf Hw Hr
    | now book hd e rows Hf He Hr Hfr E1 _ _ _ | now book d p b actor Hf Hin Hs _ _ E1 _ _
    | now d Hin Hs E1 _ _
    | now book hd p b actor lines e rows o mid Hf Hin Hs Ho Hb Hno Hw Hr Hm E1 E2 E3].
  - eapply reversals_same; [exact Hn|exact Hn'|exact Hk| | |exact Hrv]; rewrite E1.
    + intros x Hx. right. by exists x.
    + intros y Hy _. by exists y.
  - eapply reversals_same; [exact Hn|exact Hn'|exact Hk| | |exact Hrv];
      rewrite (wr_entries _ _ _ _ _ _ _ _ _ _ _ Hw).
    + apply Hsnoc. pose proof (wr_entry _ _ _ _ _ _ _ _ _ _ _ Hw) as He.
      rewrite He. cbn. by rewrite Hr.
    + intros y Hy _. by apply (snoc_keep same_reversal).
  - eapply reversals_same; [exact Hn|exact Hn'|exact Hk| | |exact Hrv]; rewrite E1.
    + apply Hsnoc. rewrite He. cbn. by rewrite Hr.
    + intros y Hy _. by apply (snoc_keep same_reversal).
  - destruct (Hdraft d (entry_posted (bk_nextEntryNumber book) p b actor now) Hin Hs) as [H1 H2];
      [done..|]. eapply reversals_same; [exact Hn|exact Hn'|exact Hk| | |exact Hrv]; by rewrite E1.
  - destruct (Hdraft d (entry_status EntryVoid now) Hin Hs) as [H1 H2]; [done..|].
    eapply reversals_same; [exact Hn|exact Hn'|exact Hk| | |exact Hrv]; by rewrite E1.
  - by eapply reversals_reverse.
Qed.

(** ** Sound stores *)
Record sound (db : Db) : Prop := {
  sd_committed : committed db;
  sd_numbering : numbering_ok (db_entries db) (db_books db);
  sd_reversals : reversals_ok db;
}.

(** What any call of a service may do. *)
Definition sound_step (db db' : Db) : Prop := sound db -> sound db' /\ evolves db db'.
#[export] Instance sound_step_preorder : PreOrder sound_step.
Proof.
  split; [intros db H; split; [done|reflexivity]|].
  intros a b c H1 H2 Ha. destruct (H1 Ha) as [Hb ?]. destruct (H2 Hb). split; [done|by etrans].
Qed.

Lemma sound_of_step db db' : tx_ok db db' -> (committed db -> ledger_step db db') -> sound_step db db'.
Proof.
  intros Htx Hst [Hc Hnum Hrev]. destruct (Htx Hc) as [Hc' Hev]. specialize (Hst Hc).
  split; [|done]. destruct Hc as [Hok _]. split; [done| |].
  - by eapply step_numbering; [apply Hok|..].
  - by eapply step_reversals.
Qed.

Lemma sound_of_quiet {A} (m : run A) : always tx_ok m -> always quiet m -> always sound_step m.
Proof. intros H1 H2 db. apply sound_of_step; [apply H1|]. intros _. by apply step_quiet. Qed.

Lemma postEntry_sound i : always sound_step (postEntry i).
Proof. intros db. apply sound_of_step; [apply postEntry_tx_ok|apply postEntry_step]. Qed.
Lemma createDraft_sound i : always sound_step (createDraft i).
Proof. intros db. apply sound_of_step; [apply createDraft_tx_ok|apply createDraft_step]. Qed.
Lemma postDraft_sound id b actor request : always sound_step (postDraft id b actor request).
Proof. intros db. apply sound_of_step; [apply postDraft_tx_ok|apply postDraft_step]. Qed.
Lemma voidDraft_sound id reason actor request : always sound_step (voidDraft id reason actor request).
Proof. intros db. apply sound_of_step; [apply voidDraft_tx_ok|apply voidDraft_always_step]. Qed.
Lemma reverseEntry_sound id t reason b actor request :
  always sound_step (reverseEntry id t reason b actor request).
Proof. intros db. apply sound_of_step; [apply reverseEntry_tx_ok|apply reverseEntry_step]. Qed.

Lemma installation_sound users entities books :
  NoDup (bk_id <$> books) -> Forall (fun b => bk_nextEntryNumber b = 1) books ->
  sound (installation users entities books).
Proof.
  intros Hn Hb. rewrite Forall_forall in Hb. split; [apply installation_committed| |].
  - split; cbn; try done.
    + intros b Hin. rewrite (Hb b Hin). lia.
    + intros e He. by apply not_elem_of_nil in He.
    + intros e He. by apply not_elem_of_nil in He.
    + intros e n b He. by apply not_elem_of_nil in He.
    + intros b n Hin. rewrite (Hb b Hin). lia.
  - split; cbn.
    + intros e x He. by apply not_elem_of_nil in He.
    + intros e f x He. by apply not_elem_of_nil in He.
    + intros e He. by apply not_elem_of_nil in He.
Qed.

(** ** The theorems *)

(** C3. Refinement: whatever it is given and whether it returns or throws, every
    verb of the journal ([postEntry], [createDraft], [postDraft], [voidDraft],
    [reverseEntry]) is one move of the abstract ledger, and every verb of the
    periods ([setStatus], [generateFiscalYear]), of the books ([createBook],
    [archiveBook], [linkEntity], [endLink]) and of the chart ([seedDefaultChart],
    [createAccount], [updateAccount], [archiveAccount], [reactivateAccount])
    leaves the entries, the lines and the numbering of the books alone. *)
Theorem journal_refines (db : Db) : committed db ->
  (forall i, ledger_step db (snd (postEntry i db))) /\
  (forall i, ledger_step db (snd (createDraft i db))) /\
  (forall id backdated actor request,
     ledger_step db (snd (postDraft id backdated actor request db))) /\
  (forall id reason actor request, ledger_step db (snd (voidDraft id reason actor request db))) /\
  (forall id t reason backdated actor request,
     ledger_step db (snd (reverseEntry id t reason backdated actor request db))) /\
  (forall i, quiet db (snd (setStatus i db))) /\
  (forall i, quiet db (snd (generateFiscalYear i db))) /\
  (forall i, quiet db (snd (createBook i db))) /\
  (forall id actor request, quiet db (snd (archiveBook id actor request db))) /\
  (forall i, quiet db (snd (linkEntity i db))) /\
  (forall id t actor request, quiet db (snd (endLink id t actor request db))) /\
  (forall book template actor request,
     quiet db (snd (seedDefaultChart book template actor request db))) /\
  (forall i, quiet db (snd (createAccount i db))) /\
  (forall i, quiet db (snd (Chart.updateAccount i db))) /\
  (forall id actor request, quiet db (snd (archiveAccount id actor request db))) /\
  (forall id actor request, quiet db (snd (reactivateAccount id actor request db))).
Proof.
  intros Hc. repeat split_and; intros.
  - by apply postEntry_step.
  - by apply createDraft_step.
  - by apply postDraft_step.
  - by apply voidDraft_always_step.
  - by apply reverseEntry_step.
  - apply setStatus_quiet.
  - apply generateFiscalYear_quiet.
  - apply createBook_quiet.
  - apply archiveBook_quiet.
  - apply linkEntity_quiet.
  - apply endLink_quiet.
  - apply seedDefaultChart_quiet.
  - apply createAccount_quiet.
  - apply updateAccount_service_quiet.
  - apply archiveAccount_quiet.
  - apply reactivateAccount_quiet.
Qed.

Lemma journal_refines_witness :
  ledger_step ledger_db (snd (postEntry sample_posting ledger_db)) /\
  length (db_entries (snd (postEntry sample_posting ledger_db))) = 1%nat.
Proof.
  split; [|vm_compute; reflexivity].
  apply (proj1 (journal_refines ledger_db ledger_db_committed) sample_posting).
Defined.

Lemma on_entry_snoc_other id f es e :
  je_id e <> id -> on_entry id f (es ++ [e]) = on_entry id f es ++ [e].
Proof.
  intros Hi. unfold on_entry. rewrite update_rows_app. f_equal. unfold update_rows. csimpl.
  by rewrite bool_decide_false.
Qed.

Lemma reverseEntry_inv id t reason bd actor request db out db' :
  committed db -> reverseEntry id t reason bd actor request db = (Ok out, db') ->
  exists original, original ∈ db_entries db /\ je_id original = id /\
    in_books (je_status original) = true /\ je_reversesEntryId original = None /\
    ((unchanged db db' /\ po_reused out = true /\ find_reversal db id = Some (po_entry out) /\
      po_lines out = order_by jl_lineNumber (entry_lines db (je_id (po_entry out)))) \/
     (find_reversal db id = None /\ exists book period b lines rows mid,
      reversed_fresh original t (Text.trim reason) bd actor db db' (db_now db + 1) out book period
        b lines rows mid)).
Proof.
  intros [Hok Hd] H. unfold reverseEntry in H. cbv zeta in H.
  run_bind H u s Hu. apply st_lift_inv in Hu as [_ ->].
  apply transaction_inv in H as (db1 & H & _ & ->).
  apply reverseEntry_body_inv in H
    as (o & Hin & Hi & Hb & Hr & [(-> & H1 & H2 & H3)|(Hn & book & p & b & ls & rows & mid & Hf)]).
  - exists o. do 4 (split; [done|]). left. split; [by apply unchanged_tx|done].
  - exists o. do 4 (split; [done|]). right. split; [done|].
    exists book, p, b, ls, rows, mid. destruct Hf. split; try done. by apply written_begin.
  - by apply (begin_tx_step_ok db Hd).
Qed.

(** A reversal that is not a repetition posts a mirror image: the reversal is
    posted under the next number in the period covering its date and is tied to
    its original; line by line it has the original's accounts and the negated
    amounts, so the pair leaves every account in every currency where it was;
    and the original keeps its lines and everything but its status, which
    becomes [reversed]. *)
Theorem reverseEntry_nets_to_zero (id : uuid) (t : option date) (reason : string) (bd : bool)
    (actor request : option string) (db db' : Db) (out : PostedEntry) :
  committed db -> reverseEntry id t reason bd actor request db = (Ok out, db') ->
  po_reused out = false ->
  exists original book period,
    let e := po_entry out in
    let date := default (je_entryDate original) t in
    (original ∈ db_entries db /\ je_id original = id /\ je_status original = EntryPosted /\
     je_reversesEntryId original = None /\ je_accountingBookId original = bk_id book) /\
    (find_book (bk_id book) db = Some book /\
     je_entryNumber e = Some (bk_nextEntryNumber book) /\ je_status e = EntryPosted /\
     je_reversesEntryId e = Some id /\ je_entryDate e = date /\
     je_postingKey e = String.append "rev:" <$> je_postingKey original) /\
    (period_contains (bk_id book) date period = true /\
     assertPeriodAcceptsPosting period bd = Ok (je_isBackdated e) /\
     je_fiscalPeriodId e = Some (fp_id period)) /\
    db_entries db' = on_entry id (entry_status EntryReversed (db_now db + 1)) (db_entries db) ++ [e] /\
    entry_lines db' id = entry_lines db id /\
    Forall2 mirrors (order_by jl_lineNumber (entry_lines db id)) (entry_lines db' (je_id e)) /\
    net_to_zero db' id (je_id e).
Proof.
  intros Hc H Hr. pose proof (always_run _ _ _ _ _ (reverseEntry_tx_ok _ _ _ _ _ _) H Hc) as [_ Hev].
  destruct (reverseEntry_inv _ _ _ _ _ _ _ _ _ Hc H)
    as (o & Ho & <- & Hb & Hor & [(_ & Hre & _)|(_ & book & p & b & ls & rows & mid & Hf)]); [congruence|].
  destruct Hf as [Hbk Hown Hpost Hw Hm E1 E2 E3 _ Hper Hacc].
  assert (entry_lines db' (je_id (po_entry out)) = rows) as Hrows.
  { rewrite <- (written_lines _ _ _ _ _ _ _ _ _ _ _ (proj1 Hc) Hw). unfold entry_lines. by rewrite E2. }
  assert (je_id (po_entry out) <> je_id o) as Hne.
  { intros E. apply (wr_fresh _ _ _ _ _ _ _ _ _ _ _ Hw). rewrite E. by apply list_elem_of_fmap_2. }
  pose proof (evolves_lines_kept _ _ (ok_entry_ids _ (proj1 Hc)) Hev o Ho Hb) as Hl.
  pose proof (wr_entry _ _ _ _ _ _ _ _ _ _ _ Hw) as He.
  exists o, book, p. cbv zeta. split; [done|]. split; [by rewrite He|].
  split. { split; [by apply (stamped_period_contains db); [apply Hc|]|]. by rewrite He. }
  split. { by rewrite E1, (wr_entries _ _ _ _ _ _ _ _ _ _ _ Hw), on_entry_snoc_other. }
  split; [done|]. split; [by rewrite Hrows|]. intros a c.
  rewrite Hl, Hrows, (account_total_mirrors a c _ _ Hm).
  rewrite (account_total_perm a c _ _ (order_by_perm jl_lineNumber (entry_lines db (je_id o)))). lia.
Qed.

Lemma reverseEntry_nets_to_zero_witness :
  exists out, reverseEntry 135 None "entered twice" false (Some "u1"%string) None posted_db
      = (Ok out, reversed_db) /\
    length (entry_lines reversed_db 135) = 2%nat /\ net_to_zero reversed_db 135 (je_id (po_entry out)).
Proof.
  eexists. split; [vm_compute; reflexivity|]. split; [vm_compute; reflexivity|].
  edestruct (reverseEntry_nets_to_zero 135 None "entered twice" false (Some "u1"%string) None
    posted_db reversed_db) as (o & b & p & _ & _ & _ & _ & _ & _ & H);
    [apply posted_db_committed|vm_compute; reflexivity|reflexivity|exact H].
Defined.

(** The reversal of an entry stays the one reversal of it. *)
Lemma reversal_found db id e :
  reversals_ok db -> e ∈ db_entries db -> reverses e id -> find_reversal db id = Some e.
Proof.
  intros Hr He Hre. destruct (find_reversal db id) as [f|] eqn:E.
  - apply find_reversal_some in E as [Hf Hrf]. f_equal. by eapply (rv_once _ Hr).
  - by destruct (find_reversal_none _ _ E e He).
Qed.

Lemma reverseEntry_repeat original e t reason bd actor request db :
  sound db -> original ∈ db_entries db -> in_books (je_status original) = true ->
  je_reversesEntryId original = None -> e ∈ db_entries db -> reverses e (je_id original) ->
  Text.trim reason <> ""%string ->
  reverseEntry (je_id original) t reason bd actor request db =
    (Ok {| po_entry := e; po_lines := order_by jl_lineNumber (entry_lines db (je_id e));
           po_reused := true; po_routing := None |}, set_deferred [] (begin_tx db)).
Proof.
  intros [Hc _ Hrv] Ho Hb Hr He Hre Hreason. unfold reverseEntry. cbv zeta.
  rewrite (proj2 (String.eqb_neq _ _) Hreason). erewrite st_bind_run by done.
  apply transaction_run; [|done]. unfold reverseEntry_body.
  assert (loadEntry (je_id original) (begin_tx db) = (Ok original, begin_tx db)) as Hl.
  { unfold loadEntry. erewrite st_bind_run by done.
    rewrite (find_entry_unique (begin_tx db)); [done|apply (ok_entry_ids _ (proj1 Hc))|done]. }
  erewrite st_bind_run by exact Hl.
  rewrite (bool_decide_false (je_status original = EntryDraft)) by (intros E; by rewrite E in Hb).
  rewrite (bool_decide_false (je_status original = EntryVoid)) by (intros E; by rewrite E in Hb).
  erewrite st_bind_run by done. rewrite Hr. erewrite st_bind_run by done.
  erewrite st_bind_run by done. cbv beta.
  assert (find_reversal (begin_tx db) (je_id original) = Some e) as ->.
  { change (find_reversal db (je_id original) = Some e). by apply reversal_found. }
  erewrite st_bind_run by done. done.
Qed.

(** Reversal is idempotent: once a call has returned a reversal of an entry,
    every later call that reverses the entry - with whatever date and reason,
    whatever was committed in between - returns that reversal, marked reused,
    and leaves every table as it is.  So no entry is ever reversed twice. *)
Theorem reverseEntry_idempotent (id : uuid) (t t2 : option date) (reason reason2 : string)
    (bd bd2 : bool) (actor actor2 request request2 : option string) (db db1 db2 : Db)
    (out : PostedEntry) :
  sound db -> reverseEntry id t reason bd actor request db = (Ok out, db1) ->
  sound db2 -> evolves db1 db2 -> Text.trim reason2 <> ""%string ->
  exists again db3, reverseEntry id t2 reason2 bd2 actor2 request2 db2 = (Ok again, db3) /\
    po_reused again = true /\ same_or_reversed (po_entry out) (po_entry again) /\
    unchanged db2 db3 /\
    forall f, f ∈ db_entries db2 -> reverses f id -> f = po_entry again.
Proof.
  intros Hs H Hs2 Hev Hreason.
  pose proof (always_run _ _ _ _ _ (reverseEntry_sound _ _ _ _ _ _) H Hs) as [Hs1 Hev1].
  pose proof (ok_entry_ids _ (proj1 (sd_committed _ Hs))) as Hn.
  pose proof (ok_entry_ids _ (proj1 (sd_committed _ Hs1))) as Hn1.
  destruct (reverseEntry_inv _ _ _ _ _ _ _ _ _ (sd_committed _ Hs) H)
    as (o & Ho & Hi & Hb & Hor & Hcase).
  assert (po_entry out ∈ db_entries db1 /\ reverses (po_entry out) id) as [He Hre].
  { destruct Hcase as [(Hu & _ & Hf & _)|(_ & book & p & b & ls & rows & mid & [_ _ _ Hw _ E1 _ _ _ _ _])].
    - destruct (unchanged_fields _ _ Hu) as (-> & _). by apply find_reversal_some in Hf.
    - rewrite E1. split.
      + apply on_entry_other.
        * rewrite (wr_entries _ _ _ _ _ _ _ _ _ _ _ Hw). apply elem_of_app. right.
          by apply list_elem_of_singleton.
        * intros E. apply (wr_fresh _ _ _ _ _ _ _ _ _ _ _ Hw). rewrite E. by apply list_elem_of_fmap_2.
      + unfold reverses. rewrite (wr_entry _ _ _ _ _ _ _ _ _ _ _ Hw). cbn. by rewrite Hi. }
  assert (evolves db db2) as Hev2 by (by etrans).
  destruct (rv_target _ (sd_reversals _ Hs1) _ _ He Hre) as (Hes & _).
  destruct (ev_entries _ _ Hev _ Hn1 He) as (e2 & He2 & Hse & _); [by rewrite Hes|].
  destruct (ev_entries _ _ Hev2 _ Hn Ho Hb) as (o2 & Ho2 & Hso & _).
  assert (forall x y, same_or_reversed x y -> je_reversesEntryId y = je_reversesEntryId x) as Hrev.
  { intros x y [->|(_ & _ & F)]; [done|exact (f_equal je_reversesEntryId F)]. }
  assert (reverses e2 id) as Hre2 by (unfold reverses; rewrite (Hrev _ _ Hse); done).
  pose proof (same_or_reversed_id _ _ Hso) as Hio. rewrite Hi in Hio. subst id.
  eexists _, _. split.
  { rewrite <- Hio. apply (reverseEntry_repeat o2 e2); try done.
    - by eapply same_or_reversed_in_books.
    - by rewrite (Hrev _ _ Hso).
    - unfold reverses in *. by rewrite Hio. }
  split; [done|]. split; [done|]. split; [apply unchanged_tx, (sd_committed _ Hs2)|].
  intros f Hf Hrf. by eapply (rv_once _ (sd_reversals _ Hs2)).
Qed.

Lemma ledger_db_sound : sound ledger_db.
Proof.
  assert (sound sample_db_2026) as H.
  { apply (sound_of_quiet _ (generateFiscalYear_tx_ok sample_year) (generateFiscalYear_quiet sample_year)
      sample_db). apply installation_sound; [apply NoDup_singleton|by constructor]. }
  apply (sound_of_quiet _ (seedDefaultChart_tx_ok 1 None None None)
    (seedDefaultChart_quiet 1 None None None) sample_db_2026), H.
Qed.

Lemma posted_db_sound : sound posted_db.
Proof. apply (postEntry_sound sample_posting ledger_db), ledger_db_sound. Qed.

Lemma reverseEntry_idempotent_witness :
  exists out again db3,
    reverseEntry 135 None "entered twice" false (Some "u1"%string) None posted_db
      = (Ok out, reversed_db) /\ po_reused out = false /\
    reverseEntry 135 (Some 20260301) "again" true None None reversed_db = (Ok again, db3) /\
    po_reused again = true /\ same_or_reversed (po_entry out) (po_entry again) /\
    unchanged reversed_db db3.
Proof.
  eexists. edestruct (reverseEntry_idempotent 135 None (Some 20260301) "entered twice" "again" false
    true (Some "u1"%string) None None None posted_db reversed_db reversed_db)
    as (again & db3 & H1 & H2 & H3 & H4 & _);
    [apply posted_db_sound | vm_compute; reflexivity
    | apply (reverseEntry_sound 135 None "entered twice" false (Some "u1"%string) None posted_db),
        posted_db_sound
    | reflexivity | by vm_compute |].
  exists again, db3. split; [vm_compute; reflexivity|]. split; [reflexivity|].
  exact (conj H1 (conj H2 (conj H3 H4))).
Defined.

Lemma loadEntry_run db e :
  NoDup (je_id <$> db_entries db) -> e ∈ db_entries db -> loadEntry (je_id e) db = (Ok e, db).
Proof.
  intros Hn He. unfold loadEntry. erewrite st_bind_run by done. by rewrite find_entry_unique.
Qed.

Lemma transaction_throws {A} (body : run A) db e s :
  body (begin_tx db) = (Throw e, s) -> transaction body db = (Throw e, db).
Proof. unfold transaction. by intros ->. Qed.

(** What is in the books is not edited: posting or voiding an entry that is
    not a draft, and reversing a draft, a void entry or a reversal, is refused
    with the immutability error and changes nothing. *)
Theorem journal_verbs_refuse (db : Db) (e : JournalEntry) (reason : string) :
  committed db -> e ∈ db_entries db -> Text.trim reason <> ""%string ->
  (je_status e <> EntryDraft ->
     forall bd actor request,
       postDraft (je_id e) bd actor request db = (Throw LedgerImmutableError, db)) /\
  (je_status e <> EntryDraft -> je_status e <> EntryVoid ->
     forall actor request,
       voidDraft (je_id e) reason actor request db = (Throw LedgerImmutableError, db)) /\
  (je_status e = EntryDraft \/ je_status e = EntryVoid \/ je_reversesEntryId e <> None ->
     forall t bd actor request,
       reverseEntry (je_id e) t reason bd actor request db = (Throw LedgerImmutableError, db)).
Proof.
  intros [Hok _] He Hreason.
  pose proof (loadEntry_run (begin_tx db) e (ok_entry_ids _ Hok) He) as Hl.
  split; [|split].
  - intros Hs bd actor request. unfold postDraft. eapply transaction_throws. unfold postDraft_body.
    erewrite st_bind_run by exact Hl. rewrite bool_decide_true by done. by apply st_bind_throw.
  - intros Hs Hv actor request. unfold voidDraft. rewrite (proj2 (String.eqb_neq _ _) Hreason).
    erewrite st_bind_run by done. eapply transaction_throws. erewrite st_bind_run by exact Hl.
    rewrite (bool_decide_false (je_status e = EntryVoid)) by done.
    rewrite (bool_decide_true (je_status e <> EntryDraft)) by done. by apply st_bind_throw.
  - intros Hs t bd actor request. unfold reverseEntry. cbv zeta.
    rewrite (proj2 (String.eqb_neq _ _) Hreason). erewrite st_bind_run by done.
    eapply transaction_throws. unfold reverseEntry_body. erewrite st_bind_run by exact Hl.
    destruct (decide (je_status e = EntryDraft)) as [Ed|Ed].
    { rewrite (bool_decide_true (je_status e = EntryDraft)) by done. by apply st_bind_throw. }
    destruct (decide (je_status e = EntryVoid)) as [Ev|Ev].
    { rewrite (bool_decide_true (je_status e = EntryVoid)) by done. rewrite orb_true_r.
      by apply st_bind_throw. }
    rewrite (bool_decide_false (je_status e = EntryDraft)) by done.
    rewrite (bool_decide_false (je_status e = EntryVoid)) by done. erewrite st_bind_run by done.
    destruct (je_reversesEntryId e); [by apply st_bind_throw|]. naive_solver.
Qed.

Lemma journal_verbs_refuse_witness :
  reverseEntry 138 None "undo" true None None reversed_db = (Throw LedgerImmutableError, reversed_db).
Proof.
  edestruct (journal_verbs_refuse reversed_db
    (default (po_entry sample_posted) (find_entry reversed_db 138)) "undo") as (_ & _ & H).
  - apply (reverseEntry_tx_ok 135 None "entered twice" false (Some "u1"%string) None posted_db),
      posted_db_committed.
  - apply (proj1 (find_entry_some reversed_db 138 _ ltac:(vm_compute; reflexivity))).
  - by vm_compute.
  - exact (H ltac:(right; right; by vm_compute) None true None None).
Defined.

(** Posting a draft that succeeds numbers it, stamps it with the period that
    covers its date and accepts it, marks it posted, and changes no other
    entry and no line; the draft's lines balance. *)
Theorem postDraft_posts (id : uuid) (bd : bool) (actor request : option string) (db db' : Db)
    (out : PostedEntry) :
  committed db -> postDraft id bd actor request db = (Ok out, db') ->
  exists draft book period b,
    (draft ∈ db_entries db /\ je_id draft = id /\ je_status draft = EntryDraft) /\
    (find_book (bk_id book) db = Some book /\ je_accountingBookId draft = bk_id book) /\
    (period ∈ db_periods db /\ period_contains (bk_id book) (je_entryDate draft) period = true /\
     assertPeriodAcceptsPosting period bd = Ok b) /\
    po_entry out =
      entry_posted (bk_nextEntryNumber book) (fp_id period) b actor (db_now db + 1) draft /\
    db_entries db' = on_entry id (fun _ => po_entry out) (db_entries db) /\
    db_lines db' = db_lines db /\
    db_books db' = bump_book (db_now db + 1) book (db_books db) /\
    (2 <= length (entry_lines db id))%nat /\
    assertBalanced (row_balance <$> order_by jl_lineNumber (entry_lines db id)) = Ok tt.
Proof.
  intros [Hok Hd] H. unfold postDraft in H. apply transaction_inv in H as (db1 & H & _ & ->).
  apply postDraft_body_inv in H
    as (d & book & p & b & (H1 & <- & H2) & (H3 & H4) & _ & H5 & H6 & H7 & H8 & H9 & H10 & H11);
    [|apply Hok].
  exists d, book, p, b. split; [done|]. split; [done|].
  split. { split; [apply H10|]. split; [by apply (stamped_period_contains db)|done]. }
  split; [done|]. split.
  { cbn. rewrite H6. unfold on_entry, update_rows. apply list_fmap_ext. intros i x Hx.
    case_bool_decide as Hi; [|done]. rewrite H5. cbn. f_equal.
    eapply (NoDup_keys_inj je_id (db_entries db)); [apply Hok|..]; try done.
    by eapply list_elem_of_lookup_2. }
  split; [done|]. split; [done|]. split; [|done].
  apply assertBalanced_ok in H9 as [Hlen _]. rewrite length_fmap in Hlen.
  change (entry_lines (begin_tx db) (je_id d)) with (entry_lines db (je_id d)) in Hlen.
  by rewrite (Permutation_length (order_by_perm jl_lineNumber (entry_lines db (je_id d)))) in Hlen.
Qed.

Definition drafted_db : Db := snd (createDraft sample_posting ledger_db).
Lemma postDraft_posts_witness :
  exists out db', postDraft 135 false None None drafted_db = (Ok out, db') /\
    db_lines db' = db_lines drafted_db /\ je_status (po_entry out) = EntryPosted.
Proof.
  eexists _, _. split; [vm_compute; reflexivity|]. split; [|reflexivity].
  edestruct (postDraft_posts 135 false None None drafted_db) as (d & bk & p & b & _ & _ & _ & _ & _ & H & _);
    [apply (createDraft_tx_ok sample_posting ledger_db), ledger_db_committed
    | vm_compute; reflexivity | exact H].
Defined.
