(* ===== verification/Json.v ===== *)
(** * JSON text

    [JSON.stringify] on the values the packages serialise (text, null, arrays
    and objects with their keys in insertion order), and the theorem that the
    text determines the value: what is hashed is what was serialised. *)
From S2P Require Import Prelude.

Inductive Json : Type :=
  | JNull
  | JText (s : string)
  | JArray (items : list Json)
  | JObject (members : list (string * Json)).

(** The induction principle through the nested lists. *)
Section Json_ind.
Context (P : Json -> Prop).
Hypothesis on_null : P JNull.
Hypothesis on_text : forall s, P (JText s).
Hypothesis on_array : forall items, Forall P items -> P (JArray items).
Hypothesis on_object : forall members, Forall (fun m => P (snd m)) members -> P (JObject members).

Fixpoint Json_nested_ind (j : Json) : P j :=
  match j with
  | JNull => on_null
  | JText s => on_text s
  | JArray items => on_array items
      ((fix go l : Forall P l :=
          match l with
          | [] => Forall_nil_2 _
          | x :: l => Forall_cons_2 _ _ _ (Json_nested_ind x) (go l)
          end) items)
  | JObject members => on_object members
      ((fix go l : Forall (fun m => P (snd m)) l :=
          match l with
          | [] => Forall_nil_2 _
          | x :: l => Forall_cons_2 _ _ _ (Json_nested_ind (snd x)) (go l)
          end) members)
  end.
End Json_ind.

Definition dquote : ascii := ascii_of_nat 34.
Definition backslash : ascii := ascii_of_nat 92.

Definition hex_digit (n : nat) : ascii :=
  if (n <? 10)%nat then ascii_of_nat (48 + n) else ascii_of_nat (87 + n).

(** One character of a string literal. *)
Definition escape (c : ascii) : list ascii :=
  match nat_of_ascii c with
  | 8 => [backslash; "b"%char]
  | 9 => [backslash; "t"%char]
  | 10 => [backslash; "n"%char]
  | 12 => [backslash; "f"%char]
  | 13 => [backslash; "r"%char]
  | 34 => [backslash; dquote]
  | 92 => [backslash; backslash]
  | n => if (n <? 32)%nat
         then [backslash; "u"%char; "0"%char; "0"%char; hex_digit (n / 16); hex_digit (n mod 16)]
         else [c]
  end%nat.

Definition quote (s : string) : list ascii :=
  dquote :: (list_ascii_of_string s ≫= escape) ++ [dquote].

(** The encodings of the items, separated by commas. *)
Definition commas {A} (enc : A -> list ascii) (l : list A) : list ascii :=
  match l with
  | [] => []
  | x :: l => enc x ++ (l ≫= fun y => ","%char :: enc y)
  end.

Fixpoint stringify (j : Json) : list ascii :=
  match j with
  | JNull => list_ascii_of_string "null"
  | JText s => quote s
  | JArray items => "["%char :: commas stringify items ++ ["]"%char]
  | JObject members =>
      "{"%char :: commas (fun m => quote (fst m) ++ ":"%char :: stringify (snd m)) members ++ ["}"%char]
  end.

Definition JSON_stringify (j : Json) : string := string_of_list_ascii (stringify j).

(** ** The text determines the value *)

(** No encoding is a prefix of another: reading one off a text determines what
    was encoded and what follows. *)
Definition reads_off {A} (enc : A -> list ascii) (a : A) : Prop :=
  forall b x y, enc a ++ x = enc b ++ y -> a = b /\ x = y.

(** The character [escape c] stands for, and the text after it. *)
Definition unescape (l : list ascii) : option (ascii * list ascii) :=
  match l with
  | [] => None
  | b :: l =>
      if (b =? backslash)%char then
        match l with
        | c :: l =>
            if (c =? "u")%char then
              match l with
              | _ :: _ :: h :: k :: l =>
                  let value d := (if (nat_of_ascii d <? 58) then nat_of_ascii d - 48 else nat_of_ascii d - 87)%nat in
                  Some (ascii_of_nat (16 * value h + value k), l)
              | _ => None
              end
            else
              let plain := if (c =? "b")%char then ascii_of_nat 8 else if (c =? "t")%char then ascii_of_nat 9
                else if (c =? "n")%char then ascii_of_nat 10 else if (c =? "f")%char then ascii_of_nat 12
                else if (c =? "r")%char then ascii_of_nat 13 else c in
              Some (plain, l)
        | [] => None
        end
      else Some (b, l)
  end.

Lemma unescape_escape c x : unescape (escape c ++ x) = Some (c, x).
Proof. destruct c as [[] [] [] [] [] [] [] []]; reflexivity. Qed.

Lemma escape_reads_off c : reads_off escape c.
Proof.
  intros d x y E. apply (f_equal unescape) in E. rewrite !unescape_escape in E. by injection E.
Qed.

Lemma escape_head c : exists a l, escape c = a :: l /\ a <> dquote.
Proof. destruct c as [[] [] [] [] [] [] [] []]; (eexists _, _; split; [reflexivity|discriminate]). Qed.

Lemma escaped_reads_off s t x y :
  (s ≫= escape) ++ dquote :: x = (t ≫= escape) ++ dquote :: y -> s = t /\ x = y.
Proof.
  revert t. induction s as [|c s IH]; intros [|d t]; csimpl.
  - by intros [= ->].
  - destruct (escape_head d) as (a & l & -> & Ha). intros [= E _]. by destruct Ha.
  - destruct (escape_head c) as (a & l & -> & Ha). intros [= E _]. by destruct Ha.
  - rewrite <- !app_assoc. intros [-> E]%escape_reads_off. by apply IH in E as [-> ->].
Qed.

Lemma quote_reads_off s : reads_off quote s.
Proof.
  intros t x y. unfold quote. rewrite <- !app_comm_cons, <- !app_assoc. intros [= E].
  apply escaped_reads_off in E as [E ->]. split; [|done].
  by rewrite <- (string_of_list_ascii_of_string s), E, string_of_list_ascii_of_string.
Qed.

Section commas.
Context {A : Type} (enc : A -> list ascii) (close : ascii).
Hypothesis close_comma : close <> ","%char.
Hypothesis enc_head : forall a, exists c l, enc a = c :: l /\ c <> close.

Lemma separated_reads_off l l' x y :
  Forall (reads_off enc) l ->
  (l ≫= fun a => ","%char :: enc a) ++ close :: x = (l' ≫= fun a => ","%char :: enc a) ++ close :: y ->
  l = l' /\ x = y.
Proof.
  intros Hl. revert l'. induction Hl as [|a l Ha _ IH]; intros [|b l']; csimpl.
  - by intros [= ->].
  - intros [= E _]. by destruct close_comma.
  - intros [= E _]. by destruct close_comma.
  - rewrite <- !app_assoc. intros [= E]. apply Ha in E as [-> E]. by apply IH in E as [-> ->].
Qed.

Lemma commas_reads_off l l' x y :
  Forall (reads_off enc) l ->
  commas enc l ++ close :: x = commas enc l' ++ close :: y -> l = l' /\ x = y.
Proof.
  intros Hl. destruct l as [|a l], l' as [|b l']; csimpl.
  - by intros [= ->].
  - destruct (enc_head b) as (c & k & -> & Hc). intros [= E _]. by destruct Hc.
  - destruct (enc_head a) as (c & k & -> & Hc). intros [= E _]. by destruct Hc.
  - apply Forall_cons in Hl as [Ha Hl]. rewrite <- !app_assoc. intros [-> E]%Ha.
    by apply separated_reads_off in E as [-> ->].
Qed.
End commas.

Lemma stringify_head j : exists c l, stringify j = c :: l /\ c <> "]"%char.
Proof. destruct j; (eexists _, _; split; [reflexivity|discriminate]). Qed.

Lemma quote_head s : exists c l, quote s = c :: l /\ c <> "}"%char.
Proof. by eexists _, _. Qed.

#[local] Opaque quote.
Lemma stringify_reads_off j : reads_off stringify j.
Proof.
  induction j as [|s|items IH|members IH] using Json_nested_ind; intros [|t|items'|members'] x y;
    try (intros [= ?]; fail); cbn [stringify].
  - intros [= ->]. done.
  - intros [-> ->]%quote_reads_off. done.
  - rewrite <- !app_comm_cons, <- !app_assoc. intros [= E].
    apply commas_reads_off in E as [-> ->]; [done|discriminate|apply stringify_head|done].
  - rewrite <- !app_comm_cons, <- !app_assoc. intros [= E].
    apply commas_reads_off in E as [-> ->]; [done|discriminate|..].
    + intros m. destruct (quote_head (fst m)) as (c & l & E1 & Hc). rewrite E1. by eexists _, _.
    + eapply Forall_impl; [exact IH|]. intros [k v] Hv [k' v'] a b H.
      rewrite <- 2 (app_assoc (quote _)) in H. apply quote_reads_off in H as [E1 H].
      injection H as H. apply Hv in H as [H ->]. cbn [fst snd] in E1, H. by subst.
Qed.

Lemma string_of_list_ascii_inj l k : string_of_list_ascii l = string_of_list_ascii k -> l = k.
Proof.
  intros E. by rewrite <- (list_ascii_of_string_of_list_ascii l), E, list_ascii_of_string_of_list_ascii.
Qed.

(** Serialisation loses nothing: two values with the same JSON text are the
    same value, down to the order of their members and however their strings
    are made of quotes, backslashes and separators. *)
Theorem stringify_injective (i j : Json) : JSON_stringify i = JSON_stringify j <-> i = j.
Proof.
  split; [|by intros ->]. intros E%string_of_list_ascii_inj.
  apply (stringify_reads_off i j [] []). by rewrite !app_nil_r.
Qed.
