(* ===== verification/Facts.v ===== *)
(** * Source facts

    [packages/accounting/src/source-facts.ts]: what a posting rule sees of an
    operational fact, which amounts, predicates and placeholders each fact type
    has, and the readers.  The readers only read; an instant is turned into a
    calendar date in UTC. *)
From stdpp Require Import sorting.
From S2P Require Import Prelude Decimal Calendar Inputs Store Schema Ledger LedgerFacts.

Open Scope Z_scope.
#[local] Arguments String.append : simpl nomatch.

(** ** The closed sets *)
Definition READABLE_SOURCE_FACT_TYPES : list FactType :=
  [FactOrder; FactOrderFee; FactOrderRefund; FactExpense; FactAcquisitionCost; FactInventoryMovement].

(** [isReadableSourceFactType], returning the type it establishes. *)
Definition isReadableSourceFactType (value : string) : option FactType :=
  List.find (fun t => String.eqb (fact_type_text t) value) READABLE_SOURCE_FACT_TYPES.

Definition AMOUNT_SOURCES_BY_FACT_TYPE (t : FactType) : list AmountSource :=
  match t with
  | FactOrder => [AmtTotal; AmtSubtotal; AmtShipping; AmtDiscount; AmtTax; AmtFee; AmtRefund;
                  AmtNet; AmtRemainder]
  | FactOrderFee => [AmtFee; AmtTotal; AmtNet; AmtRemainder]
  | FactOrderRefund => [AmtRefund; AmtTotal; AmtNet; AmtRemainder]
  | FactExpense => [AmtTotal; AmtTax; AmtNet; AmtRemainder]
  | FactAcquisitionCost => [AmtTotal; AmtNet; AmtRemainder]
  | FactInventoryMovement => [AmtCostBasis; AmtQuantityTimesBasis; AmtTotal; AmtRemainder]
  | _ => []
  end.

Inductive SourceFactPredicate : Type :=
  | PredProvider | PredChannel | PredEconomicEntity | PredCurrency | PredAmount | PredFeeType
  | PredFeeDirection | PredMovementKind | PredSourceKind | PredExpenseCategory | PredCapitalize.
#[export] Instance SourceFactPredicate_eq_dec : EqDecision SourceFactPredicate.
Proof. solve_decision. Defined.

Definition PREDICATES_BY_FACT_TYPE (t : FactType) : list SourceFactPredicate :=
  match t with
  | FactOrder => [PredProvider; PredChannel; PredEconomicEntity; PredCurrency; PredAmount]
  | FactOrderFee => [PredProvider; PredChannel; PredEconomicEntity; PredCurrency; PredAmount;
                     PredFeeType; PredFeeDirection]
  | FactOrderRefund => [PredProvider; PredChannel; PredEconomicEntity; PredCurrency; PredAmount]
  | FactExpense => [PredEconomicEntity; PredCurrency; PredAmount; PredExpenseCategory]
  | FactAcquisitionCost => [PredEconomicEntity; PredCurrency; PredAmount; PredCapitalize; PredSourceKind]
  | FactInventoryMovement => [PredEconomicEntity; PredCurrency; PredAmount; PredMovementKind; PredSourceKind]
  | _ => []
  end.

Definition PLACEHOLDERS_BY_FACT_TYPE (t : FactType) : list string :=
  match t with
  | FactOrder => ["external_order_number"; "provider"; "channel"]
  | FactOrderFee => ["external_order_number"; "fee_type"; "provider"; "channel"]
  | FactOrderRefund => ["external_order_number"; "provider"; "channel"]
  | FactExpense => ["reference_code"; "payee_name"; "category"]
  | FactAcquisitionCost => ["reference_code"; "cost_type"; "vendor_name"]
  | FactInventoryMovement => ["item_code"; "movement_kind"; "reference_code"]
  | _ => []
  end%string.

(** ** A fact as a rule sees it *)
Record RelatedFact : Type := {
  rf_sourceFactType : string;
  rf_sourceFactId : uuid;
  rf_role : SourceLinkRole;
}.

(** Absent and null attributes both match nothing; they are [None]. *)
Record FactAttributes : Type := {
  at_provider : option string;
  at_channel : option string;
  at_feeType : option string;
  at_feeDirection : option string;
  at_movementKind : option string;
  at_sourceKind : option string;
  at_expenseCategory : option string;
  at_capitalize : option bool;
}.
Definition no_attributes : FactAttributes :=
  {| at_provider := None; at_channel := None; at_feeType := None; at_feeDirection := None;
     at_movementKind := None; at_sourceKind := None; at_expenseCategory := None;
     at_capitalize := None |}.

Record FactAllocation : Type := {
  fa_ledgerAccountId : option uuid;
  fa_amount : string;
  fa_economicEntityId : option uuid;
  fa_dimensionValueId : option uuid;
}.

Record SourceFact : Type := {
  sf_sourceFactType : FactType;
  sf_sourceFactId : uuid;
  sf_accountingDate : date;
  sf_economicEntityId : option uuid;
  sf_currency : string;
  sf_amounts : list (AmountSource * string);
  sf_attributes : FactAttributes;
  sf_matchAmount : string;
  sf_placeholders : list (string * string);
  sf_description : string;
  sf_relatedFacts : list RelatedFact;
  sf_accountingBookIdOverride : option uuid;
  sf_allocations : list FactAllocation;
  sf_ineligibleReason : option string;
}.

(** [fact.amounts[source]] and [placeholders[name]] *)
Definition assoc {K V} `{EqDecision K} (k : K) (l : list (K * V)) : option V :=
  snd <$> List.find (fun p => bool_decide (fst p = k)) l.

(** [money]: a [numeric] column as text, at money scale; a missing one is
    zero. *)
Definition money (column : option Z) : result string :=
  match column with Some z => toMoneyString (fromUnits z) | None => Ok "0.000000"%string end.

Definition UNPOSTABLE_LOT_STATUSES : list string := ["draft"; "void"; "cancelled"]%string.

Definition concat_text (l : list string) : string := foldr String.append "" l.

Definition acquisitionCostIneligibility (lotStatus : string) (capitalize : bool)
    (currency lotCurrency : string) : option string :=
  if bool_decide (lotStatus ∈ UNPOSTABLE_LOT_STATUSES)
  then Some (concat_text ["the acquisition is "; lotStatus; ": only a recorded lot's costs post"])
  else if capitalize && negb (String.eqb (Text.toUpperCase currency) (Text.toUpperCase lotCurrency))
  then Some (concat_text
    ["this capitalized cost is in "; currency; " while the lot is in "; lotCurrency;
     ". @loxep/inventory excludes a foreign-currency ";
     "capitalized cost from landed cost rather than converting it, so no ";
     "item's basis carries this money and no depletion would ever relieve ";
     "it — posting it to inventory would create an asset that only grows."])
  else None.

Definition movementIneligibility (movementKind : string) (reversedKind : option string)
    : option string :=
  if String.eqb movementKind "depletion_sale" then None
  else if String.eqb movementKind "reversal" then
    (if opt_eqb reversedKind "depletion_sale"%string then None
     else Some (concat_text
       ["this reversal undoes a "; default "missing" reversedKind; " movement, which ";
        "posted nothing: reversing it in the ledger would invent an entry ";
        "to cancel an entry that never existed"]))
  else if String.eqb movementKind "receipt" || String.eqb movementKind "found" then
    Some (concat_text
      ["an intake movement carries no dollar of its own: the lot's ";
       "capitalized acquisition_costs are what debit inventory, and posting ";
       "the receipt as well would count the same purchase twice"])
  else if String.eqb movementKind "transfer_in" || String.eqb movementKind "transfer_out"
  then Some "a transfer moves stock between locations and changes no value"%string
  else if String.eqb movementKind "return_in" then
    Some (concat_text
      ["a returned unit's basis is not a Phase 5 decision: nothing in the ";
       "product writes a return_in movement yet, and whether the restored ";
       "asset carries the depleted basis or a re-valuation has to be stated ";
       "before it can post"])
  else
    Some (concat_text
      ["a "; movementKind; " movement writes stock off, and the value of a ";
       "write-off is a valuation judgement Phase 5 deliberately does not ";
       "form — it is a named backlog item, not an invented loss account"]).

Lemma fact_type_text_inj t u : fact_type_text t = fact_type_text u -> t = u.
Proof. by destruct t, u. Qed.

(** ** The readers *)
Definition find_id {A} (key : A -> uuid) (id : uuid) (rows : list A) : option A :=
  find_row (fun r => bool_decide (key r = id)) rows.

Definition external_number (o : Order) : string :=
  default (o_externalOrderId o) (o_externalOrderNumber o).

Definition readOrder (id : uuid) : run (option SourceFact) :=
  db ← st_get;
  match find_id o_id id (ft_orders (db_facts db)) with
  | None => mret None
  | Some row =>
      total ← st_lift (money (Some (o_totalAmount row)));
      refund ← st_lift (money (Some (o_refundedAmount row)));
      subtotal ← st_lift (money (Some (o_subtotalAmount row)));
      shipping ← st_lift (money (Some (o_shippingAmount row)));
      discount ← st_lift (money (Some (o_discountAmount row)));
      tax ← st_lift (money (Some (o_taxAmount row)));
      fee ← st_lift (money (Some (o_feeAmount row)));
      net ← st_lift (subtractDecimals total refund);
      mret (Some
        {| sf_sourceFactType := FactOrder; sf_sourceFactId := id;
           sf_accountingDate := utc_date (o_placedAt row);
           sf_economicEntityId := o_economicEntityId row; sf_currency := o_currency row;
           sf_amounts := [(AmtTotal, total); (AmtSubtotal, subtotal); (AmtShipping, shipping);
                          (AmtDiscount, discount); (AmtTax, tax); (AmtFee, fee);
                          (AmtRefund, refund); (AmtNet, net)];
           sf_attributes :=
             {| at_provider := Some (o_provider row); at_channel := Some (o_channel row);
                at_feeType := None; at_feeDirection := None; at_movementKind := None;
                at_sourceKind := None; at_expenseCategory := None; at_capitalize := None |};
           sf_matchAmount := total;
           sf_placeholders := [("external_order_number"%string, external_number row);
                               ("provider"%string, o_provider row);
                               ("channel"%string, o_channel row)];
           sf_description :=
             Text.trim (concat_text [o_provider row; " sale "; external_number row]);
           sf_relatedFacts := []; sf_accountingBookIdOverride := None; sf_allocations := [];
           sf_ineligibleReason :=
             if String.eqb (o_status row) "cancelled" then Some "the order is cancelled: nothing was earned to recognize"%string else None |})
  end.

Definition order_evidence (orderId : uuid) : RelatedFact :=
  {| rf_sourceFactType := "order"; rf_sourceFactId := orderId; rf_role := RoleEvidence |}.

Definition readOrderFee (id : uuid) : run (option SourceFact) :=
  db ← st_get;
  match (f ← find_id of_id id (ft_orderFees (db_facts db));
         o ← find_id o_id (of_orderId f) (ft_orders (db_facts db)); mret (f, o)) with
  | None => mret None
  | Some (row, o) =>
      amount ← st_lift (money (Some (of_amount row)));
      mret (Some
        {| sf_sourceFactType := FactOrderFee; sf_sourceFactId := id;
           sf_accountingDate := default (utc_date (o_placedAt o)) (utc_date <$> of_chargedAt row);
           sf_economicEntityId := o_economicEntityId o; sf_currency := of_currency row;
           sf_amounts := [(AmtFee, amount); (AmtTotal, amount); (AmtNet, amount)];
           sf_attributes :=
             {| at_provider := Some (o_provider o); at_channel := Some (o_channel o);
                at_feeType := Some (of_feeType row); at_feeDirection := Some (of_feeDirection row);
                at_movementKind := None; at_sourceKind := None; at_expenseCategory := None;
                at_capitalize := None |};
           sf_matchAmount := amount;
           sf_placeholders := [("external_order_number"%string, external_number o);
                               ("fee_type"%string, of_feeType row);
                               ("provider"%string, o_provider o); ("channel"%string, o_channel o)];
           sf_description :=
             Text.trim (concat_text [of_feeType row; " fee on "; external_number o]);
           sf_relatedFacts := [order_evidence (of_orderId row)];
           sf_accountingBookIdOverride := None; sf_allocations := [];
           sf_ineligibleReason := None |})
  end.

Definition readOrderRefund (id : uuid) : run (option SourceFact) :=
  db ← st_get;
  match (r ← find_id orf_id id (ft_orderRefunds (db_facts db));
         o ← find_id o_id (orf_orderId r) (ft_orders (db_facts db)); mret (r, o)) with
  | None => mret None
  | Some (row, o) =>
      amount ← st_lift (money (Some (orf_amount row)));
      mret (Some
        {| sf_sourceFactType := FactOrderRefund; sf_sourceFactId := id;
           sf_accountingDate := default (utc_date (o_placedAt o)) (utc_date <$> orf_refundedAt row);
           sf_economicEntityId := o_economicEntityId o; sf_currency := orf_currency row;
           sf_amounts := [(AmtRefund, amount); (AmtTotal, amount); (AmtNet, amount)];
           sf_attributes :=
             {| at_provider := Some (o_provider o); at_channel := Some (o_channel o);
                at_feeType := None; at_feeDirection := None; at_movementKind := None;
                at_sourceKind := None; at_expenseCategory := None; at_capitalize := None |};
           sf_matchAmount := amount;
           sf_placeholders := [("external_order_number"%string, external_number o);
                               ("provider"%string, o_provider o); ("channel"%string, o_channel o)];
           sf_description := Text.trim (concat_text ["Refund on "; external_number o]);
           sf_relatedFacts := [order_evidence (orf_orderId row)];
           sf_accountingBookIdOverride := None; sf_allocations := [];
           sf_ineligibleReason :=
             if bool_decide (orf_status row ∈ ["pending"; "failed"; "cancelled"]%string)
             then Some (concat_text ["the refund is "; orf_status row; ": no money has moved"]) else None |})
  end.

Definition read_allocation (a : ExpenseAllocation) : result FactAllocation :=
  amount ← money (Some (ea_amount a));
  mret {| fa_ledgerAccountId := ea_ledgerAccountId a; fa_amount := amount;
          fa_economicEntityId := ea_economicEntityId a;
          fa_dimensionValueId := ea_dimensionValueId a |}.

Definition readExpense (id : uuid) : run (option SourceFact) :=
  db ← st_get;
  match find_id ex_id id (db_expenses db) with
  | None => mret None
  | Some row =>
      amount ← st_lift (money (Some (ex_amount row)));
      tax ← st_lift (money (Some (ex_taxAmount row)));
      net ← st_lift (subtractDecimals amount tax);
      allocations ← st_lift (res_mapM read_allocation
        (order_by ea_lineNumber
           (List.filter (fun a => bool_decide (ea_expenseId a = id) && is_some (ea_ledgerAccountId a))
              (db_allocations db))));
      mret (Some
        {| sf_sourceFactType := FactExpense; sf_sourceFactId := id;
           sf_accountingDate := ex_expenseDate row;
           sf_economicEntityId := ex_economicEntityId row; sf_currency := ex_currency row;
           sf_amounts := [(AmtTotal, amount); (AmtTax, tax); (AmtNet, net)];
           sf_attributes :=
             {| at_provider := None; at_channel := None; at_feeType := None;
                at_feeDirection := None; at_movementKind := None; at_sourceKind := None;
                at_expenseCategory := Some (ex_category row); at_capitalize := None |};
           sf_matchAmount := amount;
           sf_placeholders := [("reference_code"%string, ex_referenceCode row);
                               ("payee_name"%string, default "" (ex_payeeName row));
                               ("category"%string, ex_category row)];
           sf_description := Text.trim (concat_text
             [ex_category row; " — "; default (ex_referenceCode row) (ex_payeeName row)]);
           sf_relatedFacts := []; sf_accountingBookIdOverride := ex_accountingBookId row;
           sf_allocations := allocations;
           sf_ineligibleReason :=
             match ex_status row with
             | ExpenseDraft => Some "the expense is draft: only a recorded expense posts"%string
             | ExpenseVoid => Some "the expense is void: only a recorded expense posts"%string
             | _ => None
             end |})
  end.

(** The first expense, by creation, that names this cost as what superseded it. *)
Definition superseded_expense (cost : uuid) (db : Db) : option uuid :=
  ex_id <$> head (order_by ex_createdAt
    (List.filter (fun e => opt_eqb (ex_acquisitionCostId e) cost) (db_expenses db))).

Definition readAcquisitionCost (id : uuid) : run (option SourceFact) :=
  db ← st_get;
  match (c ← find_id ac_id id (ft_acquisitionCosts (db_facts db));
         a ← find_id aq_id (ac_acquisitionId c) (ft_acquisitions (db_facts db)); mret (c, a)) with
  | None => mret None
  | Some (row, lot) =>
      amount ← st_lift (money (Some (ac_amount row)));
      mret (Some
        {| sf_sourceFactType := FactAcquisitionCost; sf_sourceFactId := id;
           sf_accountingDate := default (utc_date (aq_acquiredAt lot)) (utc_date <$> ac_incurredAt row);
           sf_economicEntityId := aq_economicEntityId lot; sf_currency := ac_currency row;
           sf_amounts := [(AmtTotal, amount); (AmtNet, amount)];
           sf_attributes :=
             {| at_provider := None; at_channel := None; at_feeType := None;
                at_feeDirection := None; at_movementKind := None;
                at_sourceKind := Some (aq_sourceKind lot); at_expenseCategory := None;
                at_capitalize := Some (ac_capitalize row) |};
           sf_matchAmount := amount;
           sf_placeholders := [("reference_code"%string, aq_referenceCode lot);
             ("cost_type"%string, ac_costType row);
             ("vendor_name"%string,
              default (default "" (aq_vendorName lot)) (ac_vendorName row))];
           sf_description := Text.trim (concat_text [ac_costType row; " on "; aq_referenceCode lot]);
           sf_relatedFacts :=
             match superseded_expense id db with
             | None => []
             | Some e => [{| rf_sourceFactType := "expense"; rf_sourceFactId := e;
                             rf_role := RoleEvidence |}]
             end;
           sf_accountingBookIdOverride := None; sf_allocations := [];
           sf_ineligibleReason := acquisitionCostIneligibility (aq_status lot) (ac_capitalize row)
             (ac_currency row) (aq_currency lot) |})
  end.

(** [(p.occurred_at, p.id) < (m.occurred_at, m.id)] *)
Definition before (p m : InventoryMovement) : bool :=
  (im_occurredAt p <? im_occurredAt m)
  || ((im_occurredAt p =? im_occurredAt m) && (Zpos (im_id p) <? Zpos (im_id m))).

Definition depletes (m p : InventoryMovement) : bool :=
  bool_decide (im_inventoryItemId p = im_inventoryItemId m)
  && String.eqb (im_movementKind p) "depletion_sale".

(** [priorDepleted]: what every earlier depletion of the item took. *)
Definition prior_depleted (movements : list InventoryMovement) (m : InventoryMovement) : Z :=
  sumZ ((fun p => Z.abs (im_quantity p)) <$>
    List.filter (fun p => depletes m p && before p m) movements).

(** The basis a depletion of [quantity], after [prior], takes of an item. *)
Definition depletion_basis (landedCost prior quantity itemQuantity : string) : result string :=
  after ← sumDecimals [prior; quantity];
  upTo ← proRataShare landedCost after itemQuantity;
  before ← proRataShare landedCost prior itemQuantity;
  subtractDecimals upTo before.

(** The amount of a movement: a reversal carries the basis of the movement it
    undoes. *)
Definition movement_basis (movements : list InventoryMovement) (row : InventoryMovement)
    (item : InventoryItem) (reversed : option InventoryMovement) : run string :=
  priorDepleted ← numeric_cast (prior_depleted movements row);
  reversedPriorDepleted ← match reversed with
                          | None => mret None
                          | Some r => z ← numeric_cast (prior_depleted movements r); mret (Some z)
                          end;
  let reversing := String.eqb (im_movementKind row) "reversal" && is_some reversed in
  quantityText ← st_lift (money (if reversing then im_quantity <$> reversed else Some (im_quantity row)));
  quantity ← st_lift (absDecimal quantityText);
  priorQuantity ← st_lift (money (if reversing then reversedPriorDepleted else Some priorDepleted));
  itemQuantity ← st_lift (money (Some (ii_quantity item)));
  landedCost ← st_lift (money (Some (ii_landedCostAmount item)));
  st_lift (depletion_basis landedCost priorQuantity quantity itemQuantity).

Definition movement_fact (row : InventoryMovement) (item : InventoryItem)
    (lot : option Acquisition) (orderLine : option OrderLine) (reversed : option InventoryMovement)
    (basis : string) : SourceFact :=
  {| sf_sourceFactType := FactInventoryMovement; sf_sourceFactId := im_id row;
     sf_accountingDate := utc_date (im_occurredAt row);
     sf_economicEntityId := ii_economicEntityId item; sf_currency := ii_currency item;
     sf_amounts := [(AmtCostBasis, basis); (AmtQuantityTimesBasis, basis); (AmtTotal, basis)];
     sf_attributes :=
       {| at_provider := None; at_channel := None; at_feeType := None;
          at_feeDirection := None; at_movementKind := Some (im_movementKind row);
          at_sourceKind := aq_sourceKind <$> lot; at_expenseCategory := None;
          at_capitalize := None |};
     sf_matchAmount := basis;
     sf_placeholders := [("item_code"%string, ii_itemCode item);
                         ("movement_kind"%string, im_movementKind row);
                         ("reference_code"%string, default "" (aq_referenceCode <$> lot))];
     sf_description := Text.trim (concat_text
       [if String.eqb (im_movementKind row) "reversal" then "Reversed depletion of " else
          "Cost of goods sold — "; ii_itemCode item]%string);
     sf_relatedFacts := match orderLine with
                        | None => []
                        | Some l => [order_evidence (oln_orderId l)]
                        end;
     sf_accountingBookIdOverride := None; sf_allocations := [];
     sf_ineligibleReason := movementIneligibility (im_movementKind row) (im_movementKind <$> reversed) |}.

Definition readInventoryMovement (id : uuid) : run (option SourceFact) :=
  db ← st_get;
  let facts := db_facts db in
  match (m ← find_id im_id id (ft_movements facts);
         i ← find_id ii_id (im_inventoryItemId m) (ft_items facts); mret (m, i)) with
  | None => mret None
  | Some (row, item) =>
      let lot := a ← ii_acquisitionId item; find_id aq_id a (ft_acquisitions facts) in
      let orderLine := l ← im_orderLineId row; find_id oln_id l (ft_orderLines facts) in
      let reversed := r ← im_reversesMovementId row; find_id im_id r (ft_movements facts) in
      basis ← movement_basis (ft_movements facts) row item reversed;
      mret (Some (movement_fact row item lot orderLine reversed basis))
  end.

Definition read (sourceFactType : string) (sourceFactId : uuid) : run (option SourceFact) :=
  match isReadableSourceFactType sourceFactType with
  | Some FactOrder => readOrder sourceFactId
  | Some FactOrderFee => readOrderFee sourceFactId
  | Some FactOrderRefund => readOrderRefund sourceFactId
  | Some FactExpense => readExpense sourceFactId
  | Some FactAcquisitionCost => readAcquisitionCost sourceFactId
  | Some FactInventoryMovement => readInventoryMovement sourceFactId
  | _ => st_throw AccountingValidationError
  end.

(** ** [unpostedFacts] *)
Definition fact_ids (t : FactType) (db : Db) : list uuid :=
  let facts := db_facts db in
  match t with
  | FactOrder => o_id <$> ft_orders facts
  | FactOrderFee => of_id <$> ft_orderFees facts
  | FactOrderRefund => orf_id <$> ft_orderRefunds facts
  | FactExpense => ex_id <$> List.filter (fun e => negb (bool_decide (ex_status e = ExpenseVoid))) (db_expenses db)
  | FactAcquisitionCost => ac_id <$> ft_acquisitionCosts facts
  | FactInventoryMovement =>
      im_id <$> List.filter (fun m => bool_decide (im_movementKind m ∈ ["depletion_sale"; "reversal"]%string))
                  (ft_movements facts)
  | _ => []
  end.

(** An entry in the books carries the fact's identity. *)
Definition has_entry (t : FactType) (id : uuid) (db : Db) : bool :=
  existsb (fun e => opt_eqb (je_sourceFactType e) (fact_type_text t)
             && opt_eqb (je_sourceFactId e) id && in_books (je_status e)) (db_entries db).

(** The place of a fact type in the text order of the discriminators. *)
Definition type_rank (t : FactType) : Z :=
  match t with
  | FactAcquisitionCost => 0 | FactExpense => 1 | FactInventoryMovement => 2 | FactOrder => 3
  | FactOrderFee => 4 | _ => 5
  end.

Definition unpostedFacts (sourceFactTypes : option (list FactType)) (limit : option Z)
    : run (list (FactType * uuid)) :=
  st_gets (fun db =>
    let types := default READABLE_SOURCE_FACT_TYPES sourceFactTypes in
    let rows := types ≫= fun t => (fun id => (t, id)) <$> fact_ids t db in
    let unposted := List.filter (fun f => negb (has_entry (fst f) (snd f) db)) rows in
    take (Z.to_nat (Z.max 1 (default 500 limit)))
      (order_by (fun f => type_rank (fst f)) (order_by (fun f => Zpos (snd f)) unposted))).

(** ** The basis of depletions *)
Lemma money_units z : money (Some z) = Ok (fromUnits z).
Proof. apply toMoneyString_units, toUnits_fromUnits. Qed.

Lemma depletion_basis_units L p q Q :
  depletion_basis (fromUnits L) (fromUnits p) (fromUnits q) (fromUnits Q) =
  Ok (fromUnits (share_units L (p + q) Q - share_units L p Q)).
Proof.
  unfold depletion_basis. rewrite (sumDecimals_units _ [p; q]) by auto using toUnits_fromUnits.
  replace (sumZ [p; q]) with (p + q) by (simpl; lia). cbn [mbind result_bind].
  erewrite proRataShare_units by apply toUnits_fromUnits. cbn [mbind result_bind].
  erewrite proRataShare_units by apply toUnits_fromUnits. cbn [mbind result_bind].
  by erewrite subtractDecimals_units by apply toUnits_fromUnits.
Qed.

(** What a depletion [m] relieves of an item of landed cost [L] and quantity
    [Q]. *)
Definition basis_units (movements : list InventoryMovement) (L Q : Z) (m : InventoryMovement) : Z :=
  let prior := prior_depleted movements m in
  share_units L (prior + Z.abs (im_quantity m)) Q - share_units L prior Q.

(** A movement is valued where it, or the movement it reverses, stands. *)
Definition valued (row : InventoryMovement) (reversed : option InventoryMovement) : InventoryMovement :=
  match reversed with
  | Some r => if String.eqb (im_movementKind row) "reversal" then r else row
  | None => row
  end.

Lemma movement_basis_units movements row item reversed db :
  Z.abs (prior_depleted movements row) < 10 ^ 20 ->
  (forall r, reversed = Some r -> Z.abs (prior_depleted movements r) < 10 ^ 20) ->
  movement_basis movements row item reversed db =
  (Ok (fromUnits (basis_units movements (ii_landedCostAmount item) (ii_quantity item)
                    (valued row reversed))), db).
Proof.
  intros Hp Hr. unfold movement_basis, numeric_cast.
  rewrite (proj2 (Z.ltb_lt _ _) Hp). erewrite st_bind_run by done.
  destruct reversed as [r|]; cbn [valued is_some fmap option_fmap option_map].
  - rewrite (proj2 (Z.ltb_lt _ _) (Hr r eq_refl)). erewrite st_bind_run by done.
    destruct (String.eqb _ _); cbn [andb]; cbv zeta; rewrite !money_units;
      (erewrite st_bind_run by done);
      (erewrite absDecimal_units by apply toUnits_fromUnits);
      do 4 (erewrite st_bind_run by done); unfold st_lift; by rewrite depletion_basis_units.
  - erewrite st_bind_run by done. rewrite andb_false_r. cbv zeta. rewrite !money_units.
    erewrite st_bind_run by done. erewrite absDecimal_units by apply toUnits_fromUnits.
    do 4 (erewrite st_bind_run by done). unfold st_lift. by rewrite depletion_basis_units.
Qed.

Lemma readInventoryMovement_basis id db m item :
  let movements := ft_movements (db_facts db) in
  let reversed := r ← im_reversesMovementId m; find_id im_id r movements in
  find_id im_id id movements = Some m ->
  find_id ii_id (im_inventoryItemId m) (ft_items (db_facts db)) = Some item ->
  (forall p, Z.abs (prior_depleted movements p) < 10 ^ 20) ->
  exists f, readInventoryMovement id db = (Ok (Some f), db) /\
    sf_ineligibleReason f = movementIneligibility (im_movementKind m) (im_movementKind <$> reversed) /\
    assoc AmtCostBasis (sf_amounts f) =
      Some (fromUnits (basis_units movements (ii_landedCostAmount item) (ii_quantity item)
                         (valued m reversed))).
Proof.
  cbv zeta. intros Hm Hi Hp. unfold readInventoryMovement. erewrite st_bind_run by done.
  cbv zeta. rewrite Hm. cbn [mbind option_bind]. rewrite Hi. cbn [mbind option_bind mret option_ret].
  erewrite st_bind_run by (apply movement_basis_units; [apply Hp|intros; apply Hp]).
  eexists. split; [done|]. by split.
Qed.

(** *** Telescoping *)
Lemma before_total p m : im_id p <> im_id m -> before p m = negb (before m p).
Proof.
  intros Hi. unfold before.
  destruct (Z.ltb_spec (im_occurredAt p) (im_occurredAt m)), (Z.ltb_spec (im_occurredAt m) (im_occurredAt p)),
    (Z.eqb_spec (im_occurredAt p) (im_occurredAt m)), (Z.eqb_spec (im_occurredAt m) (im_occurredAt p));
    cbn; try lia; try done.
Qed.

Definition not_after (p m : InventoryMovement) : Prop := before m p = false.
#[export] Instance not_after_dec : RelDecision not_after.
Proof. intros p m. unfold not_after. apply _. Defined.
Lemma not_after_trans : Transitive not_after.
Proof.
  intros a b c. unfold not_after, before. rewrite !orb_false_iff, !andb_false_iff.
  rewrite !Z.ltb_ge, !Z.eqb_neq. lia.
Qed.
Lemma not_after_total : Total not_after.
Proof. intros a b. unfold not_after, before. rewrite !orb_false_iff, !andb_false_iff, !Z.ltb_ge, !Z.eqb_neq. lia. Qed.

Definition taken (ms : list InventoryMovement) : Z := sumZ ((fun p => Z.abs (im_quantity p)) <$> ms).
Definition prior_in (ds : list InventoryMovement) (m : InventoryMovement) : Z :=
  taken (List.filter (fun p => before p m) ds).

Lemma list_filter_perm {A} (p : A -> bool) l k : l ≡ₚ k -> List.filter p l ≡ₚ List.filter p k.
Proof. induction 1; simpl; repeat case_match; eauto using Permutation; by constructor. Qed.

Lemma taken_perm l k : l ≡ₚ k -> taken l = taken k.
Proof. unfold taken. by intros ->. Qed.

(** In the order of the depletions, what came before is what stands before. *)
Lemma prior_sorted l1 m l2 :
  StronglySorted not_after (l1 ++ m :: l2) -> NoDup (im_id <$> l1 ++ m :: l2) ->
  List.filter (fun p => before p m) (l1 ++ m :: l2) = l1.
Proof.
  intros Hs Hn. assert (before m m = false) as Hmm.
  { unfold before. rewrite orb_false_iff, andb_false_iff, !Z.ltb_ge. lia. }
  rewrite List.filter_app. cbn [List.filter]. rewrite Hmm.
  assert (List.filter (fun p => before p m) l2 = []) as ->.
  { apply StronglySorted_app_1_r in Hs. apply StronglySorted_inv in Hs as [_ Hall].
    clear - Hall. induction Hall as [|p l Hp _ IH]; [done|]. cbn. by rewrite Hp. }
  rewrite app_nil_r. rewrite fmap_app, NoDup_app in Hn. destruct Hn as (_ & Hdis & _).
  induction l1 as [|p l1 IH]; [done|]. cbn. inversion Hs as [|? ? Hs' Hall]; subst.
  rewrite before_total.
  - rewrite Forall_app, Forall_cons in Hall. destruct Hall as (_ & Hpm & _).
    unfold not_after in Hpm. rewrite Hpm. cbn. f_equal. apply IH; [done|].
    intros x Hx. apply Hdis. csimpl. set_solver.
  - intros E. apply (Hdis (im_id p)); csimpl; [set_solver|]. rewrite E. set_solver.
Qed.

Lemma telescope (f : Z -> Z) s l1 l2 :
  s = l1 ++ l2 -> StronglySorted not_after s -> NoDup (im_id <$> s) ->
  sumZ ((fun m => f (prior_in s m + Z.abs (im_quantity m)) - f (prior_in s m)) <$> l2)
  = f (taken s) - f (taken l1).
Proof.
  intros E Hs Hn. revert l1 E. induction l2 as [|m l2 IH]; intros l1 E; csimpl.
  { rewrite app_nil_r in E. subst. simpl. lia. }
  rewrite (IH (l1 ++ [m])) by (by rewrite E, <- (assoc_L (++))).
  unfold prior_in at 1 2. rewrite E in Hs, Hn. rewrite E at 1 2. rewrite prior_sorted by done.
  unfold taken. rewrite fmap_app, sumZ_app. csimpl. replace (Z.abs (im_quantity m) + 0) with (Z.abs (im_quantity m)) by lia.
  lia.
Qed.

Lemma telescope_perm (f : Z -> Z) ds :
  NoDup (im_id <$> ds) ->
  sumZ ((fun m => f (prior_in ds m + Z.abs (im_quantity m)) - f (prior_in ds m)) <$> ds)
  = f (taken ds) - f 0.
Proof.
  intros Hn. set (s := merge_sort not_after ds).
  assert (s ≡ₚ ds) as Hp by apply merge_sort_Permutation.
  assert (StronglySorted not_after s) as Hs.
  { apply StronglySorted_merge_sort; [apply not_after_trans|apply not_after_total]. }
  assert (forall m, prior_in ds m = prior_in s m) as Hpr.
  { intros m. unfold prior_in. apply taken_perm, list_filter_perm. by rewrite Hp. }
  rewrite (list_fmap_ext _ (fun m => f (prior_in s m + Z.abs (im_quantity m)) - f (prior_in s m)))
    by (intros; by rewrite Hpr).
  rewrite <- Hp at 1. rewrite (telescope f s [] s); [|done|done|by rewrite Hp].
  by rewrite (taken_perm s ds).
Qed.

Lemma prior_depleted_in movements item m :
  im_inventoryItemId m = item ->
  prior_depleted movements m =
  prior_in (List.filter (fun p => bool_decide (im_inventoryItemId p = item)
              && String.eqb (im_movementKind p) "depletion_sale") movements) m.
Proof.
  intros <-. unfold prior_depleted, prior_in, taken, depletes. do 2 f_equal.
  induction movements as [|p l IH]; [done|]. cbn. destruct (bool_decide _ && _); cbn; [|done].
  destruct (before p m); cbn; by rewrite IH.
Qed.

(** The depletions of an item. *)
Definition depletions (item : uuid) (movements : list InventoryMovement) : list InventoryMovement :=
  List.filter (fun p => bool_decide (im_inventoryItemId p = item)
    && String.eqb (im_movementKind p) "depletion_sale") movements.

Lemma taken_nonneg ms : 0 <= taken ms.
Proof. unfold taken. apply sumZ_nonneg, Forall_fmap, Forall_true. intros m. cbn. lia. Qed.

Lemma taken_filter p ms : taken (List.filter p ms) <= taken ms.
Proof.
  unfold taken. induction ms as [|m ms IH]; [done|]. cbn [List.filter].
  destruct (p m); csimpl; cbn [sumZ foldr]; unfold sumZ in *; lia.
Qed.

Lemma find_id_unique {A} (key : A -> uuid) rows x :
  NoDup (key <$> rows) -> x ∈ rows -> find_id key (key x) rows = Some x.
Proof.
  intros Hn Hx. unfold find_id. destruct (find_row _ rows) as [y|] eqn:E.
  - apply find_row_some in E as [Hy ?%bool_decide_eq_true]. f_equal. by eapply NoDup_keys_inj.
  - apply find_row_none with (r := x) in E; [|done]. by apply bool_decide_eq_false in E.
Qed.

Lemma depletions_elem item movements m :
  m ∈ depletions item movements <->
  m ∈ movements /\ im_inventoryItemId m = item /\ im_movementKind m = "depletion_sale"%string.
Proof.
  unfold depletions. rewrite list_elem_of_In, filter_In, <- list_elem_of_In, andb_true_iff,
    bool_decide_eq_true, String.eqb_eq. done.
Qed.

Lemma NoDup_filter_keys {A} (key : A -> uuid) (p : A -> bool) rows :
  NoDup (key <$> rows) -> NoDup (key <$> List.filter p rows).
Proof.
  induction rows as [|x rows IH]; [done|]. csimpl. rewrite NoDup_cons. intros [Hx Hn].
  cbn. destruct (p x); [|auto]. csimpl. apply NoDup_cons. split; [|auto].
  intros Hin. apply Hx. apply list_elem_of_fmap in Hin as (y & -> & Hy).
  apply list_elem_of_fmap_2. rewrite list_elem_of_In, filter_In, <- list_elem_of_In in Hy. apply Hy.
Qed.

Lemma share_units_0 L Q : share_units L 0 Q = 0.
Proof. unfold share_units. by destruct (Q <=? 0). Qed.

(** The depletions of an item relieve its frozen landed cost exactly: each
    can be read, and the bases they carry - each the difference of two rounded
    cumulative shares - add up to the share of the landed cost that the total
    depleted quantity earns; so once the item is depleted they add up to the
    landed cost itself, to the micro-unit, however the quantity was divided. *)
Theorem depletions_relieve_landed_cost (db : Db) (item : InventoryItem) :
  let movements := ft_movements (db_facts db) in
  let ds := depletions (ii_id item) movements in
  NoDup (im_id <$> movements) -> NoDup (ii_id <$> ft_items (db_facts db)) ->
  item ∈ ft_items (db_facts db) ->
  (forall p, Z.abs (prior_depleted movements p) < 10 ^ 20) ->
  exists bases,
    Forall2 (fun m b => exists f, readInventoryMovement (im_id m) db = (Ok (Some f), db) /\
      assoc AmtCostBasis (sf_amounts f) = Some (fromUnits b) /\
      (im_reversesMovementId m = None -> sf_ineligibleReason f = None)) ds bases /\
    sumZ bases = share_units (ii_landedCostAmount item) (taken ds) (ii_quantity item) /\
    (0 < ii_quantity item <= taken ds -> sumZ bases = ii_landedCostAmount item).
Proof.
  cbv zeta. intros Hn Hni Hit Hp.
  set (movements := ft_movements (db_facts db)). set (ds := depletions (ii_id item) movements).
  set (f := fun p => share_units (ii_landedCostAmount item) p (ii_quantity item)).
  set (bases := (fun m => f (prior_in ds m + Z.abs (im_quantity m)) - f (prior_in ds m)) <$> ds).
  assert (sumZ bases = f (taken ds)) as Hsum.
  { unfold bases. rewrite telescope_perm by (by apply NoDup_filter_keys).
    assert (f 0 = 0) by apply share_units_0. lia. }
  exists bases. split; [|split; [done|]].
  - unfold bases. apply Forall2_fmap_r, Forall_Forall2_diag, Forall_forall. intros m Hm.
    apply depletions_elem in Hm as (Hm & Hmi & Hmk).
    destruct (readInventoryMovement_basis (im_id m) db m item) as (fact & Hr & Hin & Ha).
    + by apply find_id_unique.
    + rewrite Hmi. by apply find_id_unique.
    + done.
    + exists fact. split; [done|]. split.
      * rewrite Ha. do 2 f_equal. unfold basis_units, valued. rewrite Hmk.
        replace (match im_reversesMovementId m ≫= _ with Some _ => _ | None => m end) with m
          by (by destruct (im_reversesMovementId m ≫= _)).
        fold movements. by rewrite (prior_depleted_in movements (ii_id item) m Hmi).
      * intros _. by rewrite Hin, Hmk.
  - intros HQ. rewrite Hsum. unfold f, share_units.
    rewrite (proj2 (Z.leb_gt _ _)) by lia. rewrite (proj2 (Z.leb_gt _ _)) by lia.
    rewrite Z.geb_leb. by rewrite (proj2 (Z.leb_le _ _)) by lia.
Qed.

(** A lot of ten at 100.000001, sold three, three and four at a time. *)
Definition sample_item : InventoryItem :=
  {| ii_id := 5; ii_itemCode := "LOT-1"; ii_acquisitionId := None; ii_economicEntityId := None;
     ii_quantity := 10000000; ii_currency := "USD"; ii_landedCostAmount := 100000001 |}.
Definition sample_depletion (id : uuid) (quantity at_ : Z) : InventoryMovement :=
  {| im_id := id; im_inventoryItemId := 5; im_movementKind := "depletion_sale";
     im_quantity := quantity; im_orderLineId := None; im_reversesMovementId := None;
     im_occurredAt := at_ |}.
Definition sample_facts : FactTables :=
  {| ft_orders := []; ft_orderFees := []; ft_orderRefunds := []; ft_orderLines := [];
     ft_acquisitions := []; ft_acquisitionCosts := []; ft_items := [sample_item];
     ft_movements := [sample_depletion 32 (-4000000) 90; sample_depletion 30 (-3000000) 10;
                      sample_depletion 31 (-3000000) 20];
     ft_candidates := []; ft_catalogItems := []; ft_counterparties := [] |}.
Definition stock_db : Db := set_facts sample_facts (installation [] [] []).

Lemma prior_depleted_bound movements B p : taken movements < B -> Z.abs (prior_depleted movements p) < B.
Proof.
  intros H. unfold prior_depleted. fold (taken (List.filter (fun q => depletes p q && before q p) movements)).
  pose proof (taken_nonneg (List.filter (fun q => depletes p q && before q p) movements)).
  pose proof (taken_filter (fun q => depletes p q && before q p) movements). lia.
Qed.

Lemma depletions_relieve_landed_cost_witness :
  exists bases,
    Forall2 (fun m b => exists f, readInventoryMovement (im_id m) stock_db = (Ok (Some f), stock_db) /\
      assoc AmtCostBasis (sf_amounts f) = Some (fromUnits b) /\
      (im_reversesMovementId m = None -> sf_ineligibleReason f = None))
      (ft_movements sample_facts) bases /\
    sumZ bases = 100000001.
Proof.
  destruct (depletions_relieve_landed_cost stock_db sample_item) as (bases & Hb & _ & Hs).
  - by apply (bool_decide_unpack _); vm_compute.
  - apply NoDup_singleton.
  - by apply list_elem_of_singleton.
  - intros p. apply prior_depleted_bound. vm_compute. reflexivity.
  - exists bases. split; [exact Hb|]. apply Hs. vm_compute. split; [reflexivity|intros [=]].
Defined.

(** ** The readers only read *)
Lemma movement_basis_reads ms row item r : reads (movement_basis ms row item r).
Proof. unfold movement_basis. solve_respects. Qed.
#[export] Hint Resolve movement_basis_reads : store.
Lemma read_reads t id : reads (read t id).
Proof.
  unfold read, readOrder, readOrderFee, readOrderRefund, readExpense, readAcquisitionCost,
    readInventoryMovement. solve_respects.
Qed.
#[export] Hint Resolve read_reads : store.
