(* ===== verification/PostingRules.v ===== *)
(** * Posting rules

    [packages/accounting/src/posting-rules.ts]: rules, their immutable versions
    and line templates; the validation of a template, the symbolic balance
    check, and the resolution of a rule for a fact.  The statements on the
    three tables come first, with the constraints of [db/src/schema/accounting.ts]
    and the triggers of migration 0010. *)
From stdpp Require Import sorting.
From S2P Require Import Prelude Decimal Calendar Inputs Store Schema Ledger LedgerFacts Facts.
From S2P Require Import Periods Chart Books Journal JournalFacts JournalMachine.

Open Scope Z_scope.

(** ** Statements *)
Definition insertRuleRow (values : uuid -> Z -> PostingRule) : run PostingRule :=
  id ← next_id;
  db ← st_get;
  let row := values id (db_now db) in
  _ ← ensure (int4 (pr_priority row)) "22003";
  _ ← ensure (negb (exists_id pr_id id (db_rules db)) &&
              forallb (fun r => bool_decide (pr_code r <> pr_code row)) (db_rules db)) "23505";
  _ ← ensure (exists_opt bk_id (pr_accountingBookId row) (db_books db)
              && exists_opt pv_id (pr_currentVersionId row) (db_versions db)
              && user_exists db (pr_createdByUserId row)) "23503";
  _ ← st_modify (fun db => set_rules (db_rules db ++ [row]) db);
  mret row.

Definition version_checks (v : PostingRuleVersion) : bool :=
  match pv_effectiveFrom v, pv_effectiveTo v with Some f, Some t => f <=? t | _, _ => true end
  && match pv_matchMinAmount v, pv_matchMaxAmount v with Some a, Some b => a <=? b | _, _ => true end
  && (0 <? pv_version v).

Definition insertVersionRow (values : uuid -> Z -> PostingRuleVersion) : run PostingRuleVersion :=
  id ← next_id;
  db ← st_get;
  let row := values id (db_now db) in
  _ ← ensure (int4 (pv_version row)) "22003";
  _ ← ensure (version_checks row) "23514";
  _ ← ensure (negb (exists_id pv_id id (db_versions db)) &&
              forallb (fun r => negb (bool_decide (pv_postingRuleId r = pv_postingRuleId row)
                                      && (pv_version r =? pv_version row))) (db_versions db)) "23505";
  _ ← ensure (exists_id pr_id (pv_postingRuleId row) (db_rules db)
              && exists_opt ent_id (pv_matchEconomicEntityId row) (db_entities db)
              && user_exists db (pv_createdByUserId row)) "23503";
  _ ← st_modify (fun db => set_versions (db_versions db ++ [row]) db);
  mret row.

(** [loxep_posting_rule_lines_immutable], on insert: the version is unknown or
    no entry references it. *)
Definition rule_line_insert_allowed (db : Db) (l : PostingRuleLine) : bool :=
  negb (exists_id pv_id (pl_postingRuleVersionId l) (db_versions db))
  || negb (existsb (fun e => opt_eqb (je_postingRuleVersionId e) (pl_postingRuleVersionId l))
             (db_entries db)).

Definition rule_line_checks (l : PostingRuleLine) : bool :=
  xorb (is_some (pl_accountSystemKey l)) (is_some (pl_ledgerAccountId l))
  && negb (pl_amountMultiplier l =? 0) && (0 <? pl_lineNumber l).

Definition rule_lines_conflict (l k : PostingRuleLine) : bool :=
  bool_decide (pl_postingRuleVersionId l = pl_postingRuleVersionId k)
  && ((pl_lineNumber l =? pl_lineNumber k)
      || (bool_decide (pl_amountSource l = AmtRemainder) && bool_decide (pl_amountSource k = AmtRemainder))).

Definition insertRuleLineRow (values : uuid -> Z -> PostingRuleLine) : run PostingRuleLine :=
  id ← next_id;
  db ← st_get;
  let row := values id (db_now db) in
  _ ← ensure (int4 (pl_lineNumber row)) "22003";
  _ ← ensure (rule_line_insert_allowed db row) "P0001";
  _ ← ensure (rule_line_checks row) "23514";
  _ ← ensure (negb (exists_id pl_id id (db_rule_lines db)) &&
              forallb (fun r => negb (rule_lines_conflict r row)) (db_rule_lines db)) "23505";
  _ ← st_modify (fun db => set_rule_lines (db_rule_lines db ++ [row]) db);
  mret row.

Definition insertRuleLines (values : list (uuid -> Z -> PostingRuleLine)) : run (list PostingRuleLine) :=
  rows ← st_mapM insertRuleLineRow values;
  db ← st_get;
  _ ← ensure (forallb (fun l => exists_id pv_id (pl_postingRuleVersionId l) (db_versions db)
                         && exists_opt la_id (pl_ledgerAccountId l) (db_accounts db)
                         && exists_opt dv_id (pl_dimensionValueId l) (db_dimension_values db)) rows)
        "23503";
  mret rows.

(** The columns the immutability trigger of a referenced version protects: all
    but [status] and [effective_to]. *)
Definition version_status (st : VersionStatus) (v : PostingRuleVersion) : PostingRuleVersion :=
  {| pv_id := pv_id v; pv_postingRuleId := pv_postingRuleId v; pv_version := pv_version v;
     pv_status := st; pv_effectiveFrom := pv_effectiveFrom v; pv_effectiveTo := pv_effectiveTo v;
     pv_matchProvider := pv_matchProvider v; pv_matchChannel := pv_matchChannel v;
     pv_matchEconomicEntityId := pv_matchEconomicEntityId v; pv_matchFeeType := pv_matchFeeType v;
     pv_matchFeeDirection := pv_matchFeeDirection v; pv_matchMovementKind := pv_matchMovementKind v;
     pv_matchSourceKind := pv_matchSourceKind v; pv_matchExpenseCategory := pv_matchExpenseCategory v;
     pv_matchCapitalize := pv_matchCapitalize v; pv_matchCurrency := pv_matchCurrency v;
     pv_matchMinAmount := pv_matchMinAmount v; pv_matchMaxAmount := pv_matchMaxAmount v;
     pv_note := pv_note v; pv_createdByUserId := pv_createdByUserId v; pv_createdAt := pv_createdAt v |}.

(** [update posting_rule_versions set status = st where p]; only the status
    moves, so the trigger lets every row through. *)
Definition updateVersionStatus (p : PostingRuleVersion -> bool) (st : VersionStatus) : run unit :=
  st_modify (fun db => set_versions (update_rows p (version_status st) (db_versions db)) db).

Definition rule_with (status : RuleStatus) (current : option uuid) (now : Z) (r : PostingRule) : PostingRule :=
  {| pr_id := pr_id r; pr_code := pr_code r; pr_name := pr_name r;
     pr_sourceFactType := pr_sourceFactType r; pr_accountingBookId := pr_accountingBookId r;
     pr_priority := pr_priority r; pr_status := status; pr_currentVersionId := current;
     pr_description := pr_description r; pr_createdByUserId := pr_createdByUserId r;
     pr_createdAt := pr_createdAt r; pr_updatedAt := now |}.

Definition updateRule (id : uuid) (f : Z -> PostingRule -> PostingRule) : run unit :=
  db ← st_get;
  let p r := bool_decide (pr_id r = id) in
  _ ← ensure (forallb (fun r => negb (p r) ||
        exists_opt pv_id (pr_currentVersionId (f (db_now db) r)) (db_versions db)) (db_rules db)) "23503";
  st_modify (fun db => set_rules (update_rows p (f (db_now db)) (db_rules db)) db).

(** ** Inputs *)
Record PostingRuleLineInput : Type := {
  ti_lineNumber : option Z;
  ti_accountSystemKey : option string;
  ti_ledgerAccountId : option uuid;
  ti_amountSource : AmountSource;
  ti_amountMultiplier : option string;
  ti_inheritEntity : option bool;
  ti_dimensionValueId : option uuid;
  ti_descriptionTemplate : option string;
}.

Definition lineSchema (l : PostingRuleLineInput) : result PostingRuleLineInput :=
  _ ← z_check (match ti_lineNumber l with None => true | Some n => 0 <? n end);
  key ← z_opt z_text (ti_accountSystemKey l);
  multiplier ← z_decimal (default "1"%string (ti_amountMultiplier l));
  description ← z_opt z_text (ti_descriptionTemplate l);
  _ ← z_check (xorb (negb (is_some key)) (negb (is_some (ti_ledgerAccountId l))));
  mret {| ti_lineNumber := ti_lineNumber l; ti_accountSystemKey := key;
          ti_ledgerAccountId := ti_ledgerAccountId l; ti_amountSource := ti_amountSource l;
          ti_amountMultiplier := Some multiplier;
          ti_inheritEntity := Some (default true (ti_inheritEntity l));
          ti_dimensionValueId := ti_dimensionValueId l; ti_descriptionTemplate := description |}.

Record Predicates : Type := {
  pd_effectiveFrom : option date;
  pd_effectiveTo : option date;
  pd_matchProvider : option string;
  pd_matchChannel : option string;
  pd_matchEconomicEntityId : option uuid;
  pd_matchFeeType : option string;
  pd_matchFeeDirection : option string;
  pd_matchMovementKind : option string;
  pd_matchSourceKind : option string;
  pd_matchExpenseCategory : option string;
  pd_matchCapitalize : option bool;
  pd_matchCurrency : option string;
  pd_matchMinAmount : option string;
  pd_matchMaxAmount : option string;
  pd_note : option string;
}.

Definition predicateSchema (p : Predicates) : result Predicates :=
  from ← z_opt z_date (pd_effectiveFrom p);
  to ← z_opt z_date (pd_effectiveTo p);
  provider ← z_opt z_text (pd_matchProvider p);
  channel ← z_opt z_text (pd_matchChannel p);
  feeType ← z_opt z_text (pd_matchFeeType p);
  _ ← z_check (match pd_matchFeeDirection p with
               | None => true
               | Some d => bool_decide (d ∈ ["seller_charge"; "buyer_surcharge"]%string) end);
  movementKind ← z_opt z_text (pd_matchMovementKind p);
  sourceKind ← z_opt z_text (pd_matchSourceKind p);
  category ← z_opt z_text (pd_matchExpenseCategory p);
  _ ← z_check (match pd_matchCurrency p with None => true | Some c => Text.three_letters c end);
  minAmount ← z_opt z_decimal (pd_matchMinAmount p);
  maxAmount ← z_opt z_decimal (pd_matchMaxAmount p);
  note ← z_opt z_text (pd_note p);
  mret {| pd_effectiveFrom := from; pd_effectiveTo := to; pd_matchProvider := provider;
          pd_matchChannel := channel; pd_matchEconomicEntityId := pd_matchEconomicEntityId p;
          pd_matchFeeType := feeType; pd_matchFeeDirection := pd_matchFeeDirection p;
          pd_matchMovementKind := movementKind; pd_matchSourceKind := sourceKind;
          pd_matchExpenseCategory := category; pd_matchCapitalize := pd_matchCapitalize p;
          pd_matchCurrency := pd_matchCurrency p; pd_matchMinAmount := minAmount;
          pd_matchMaxAmount := maxAmount; pd_note := note |}.

Record CreateRuleInput : Type := {
  cr_predicates : Predicates;
  cr_code : string;
  cr_name : string;
  cr_sourceFactType : string;
  cr_accountingBookId : option uuid;
  cr_priority : option Z;
  cr_description : option string;
  cr_lines : list PostingRuleLineInput;
  cr_activate : bool;
  cr_createdByUserId : option string;
  cr_requestId : option string;
}.

Definition createRuleSchema (i : CreateRuleInput) : result CreateRuleInput :=
  predicates ← predicateSchema (cr_predicates i);
  code ← z_text (cr_code i);
  _ ← z_check (String.length code <=? 120)%nat;
  name ← z_text (cr_name i);
  type ← z_text (cr_sourceFactType i);
  description ← z_opt z_text (cr_description i);
  lines ← res_mapM lineSchema (cr_lines i);
  _ ← z_check (2 <=? length lines)%nat;
  createdBy ← z_user (cr_createdByUserId i);
  request ← z_user (cr_requestId i);
  mret {| cr_predicates := predicates; cr_code := code; cr_name := name;
          cr_sourceFactType := type; cr_accountingBookId := cr_accountingBookId i;
          cr_priority := Some (default 100 (cr_priority i)); cr_description := description;
          cr_lines := lines; cr_activate := cr_activate i; cr_createdByUserId := createdBy;
          cr_requestId := request |}.

Record AddVersionInput : Type := {
  av_predicates : Predicates;
  av_postingRuleId : uuid;
  av_lines : list PostingRuleLineInput;
  av_activate : bool;
  av_createdByUserId : option string;
  av_requestId : option string;
}.

Definition addVersionSchema (i : AddVersionInput) : result AddVersionInput :=
  predicates ← predicateSchema (av_predicates i);
  lines ← res_mapM lineSchema (av_lines i);
  _ ← z_check (2 <=? length lines)%nat;
  createdBy ← z_user (av_createdByUserId i);
  request ← z_user (av_requestId i);
  mret {| av_predicates := predicates; av_postingRuleId := av_postingRuleId i; av_lines := lines;
          av_activate := av_activate i; av_createdByUserId := createdBy; av_requestId := request |}.

Definition predicatesUsed (p : Predicates) : list SourceFactPredicate :=
  let used {A} (o : option A) (pred : SourceFactPredicate) := if is_some o then [pred] else [] in
  used (pd_matchProvider p) PredProvider ++ used (pd_matchChannel p) PredChannel ++
  used (pd_matchEconomicEntityId p) PredEconomicEntity ++ used (pd_matchFeeType p) PredFeeType ++
  used (pd_matchFeeDirection p) PredFeeDirection ++ used (pd_matchMovementKind p) PredMovementKind ++
  used (pd_matchSourceKind p) PredSourceKind ++ used (pd_matchExpenseCategory p) PredExpenseCategory ++
  used (pd_matchCapitalize p) PredCapitalize ++ used (pd_matchCurrency p) PredCurrency ++
  (if is_some (pd_matchMinAmount p) || is_some (pd_matchMaxAmount p) then [PredAmount] else []).

(** ** Description templates *)

(** A template taken apart at the matches of [/\{([a-z0-9_]+)\}/g]: literal
    characters and placeholders. *)
Inductive token : Type := Literal (c : ascii) | Placeholder (name : list ascii).

Definition name_char (c : ascii) : bool :=
  let n := nat_of_ascii c in
  ((97 <=? n)%nat && (n <=? 122)%nat) || ((48 <=? n)%nat && (n <=? 57)%nat) || (c =? "_")%char.

(** [pending] is what has been read since the last unmatched brace, reversed. *)
Fixpoint tokens (pending : option (list ascii)) (l : list ascii) : list token :=
  match pending, l with
  | None, [] => []
  | Some acc, [] => Literal "{" :: (Literal <$> reverse acc)
  | None, c :: l => if (c =? "{")%char then tokens (Some []) l else Literal c :: tokens None l
  | Some acc, c :: l =>
      if (c =? "{")%char then Literal "{" :: (Literal <$> reverse acc) ++ tokens (Some []) l
      else if name_char c then tokens (Some (c :: acc)) l
      else match acc, (c =? "}")%char with
           | _ :: _, true => Placeholder (reverse acc) :: tokens None l
           | _, _ => Literal "{" :: (Literal <$> reverse acc) ++ Literal c :: tokens None l
           end
  end.

Definition template_tokens (template : string) : list token :=
  tokens None (list_ascii_of_string template).

Definition placeholdersIn (template : string) : list string :=
  template_tokens template ≫= fun t =>
    match t with Literal _ => [] | Placeholder name => [string_of_list_ascii name] end.

Definition renderTemplate (template : string) (placeholders : list (string * string)) : string :=
  Text.trim (string_of_list_ascii (template_tokens template ≫= fun t =>
    match t with
    | Literal c => [c]
    | Placeholder name =>
        list_ascii_of_string (default "" (assoc (string_of_list_ascii name) placeholders))
    end)).

(** ** The symbolic balance check *)

(** The independent components an amount is made of. *)
Inductive component : Type :=
  | CSubtotal | CShipping | CTax | CDiscount | CFee | CRefund | CNet | CAmount | CBasis.
#[export] Instance component_eq_dec : EqDecision component.
Proof. solve_decision. Defined.

Definition basis (t : FactType) (s : AmountSource) : option (list (component * Z)) :=
  match t, s with
  | FactOrder, AmtTotal => Some [(CSubtotal, 1); (CShipping, 1); (CTax, 1); (CDiscount, -1)]
  | FactOrder, AmtSubtotal => Some [(CSubtotal, 1)]
  | FactOrder, AmtShipping => Some [(CShipping, 1)]
  | FactOrder, AmtTax => Some [(CTax, 1)]
  | FactOrder, AmtDiscount => Some [(CDiscount, 1)]
  | FactOrder, AmtFee => Some [(CFee, 1)]
  | FactOrder, AmtRefund => Some [(CRefund, 1)]
  | FactOrder, AmtNet =>
      Some [(CSubtotal, 1); (CShipping, 1); (CTax, 1); (CDiscount, -1); (CRefund, -1)]
  | FactOrderFee, (AmtFee | AmtTotal | AmtNet) => Some [(CFee, 1)]
  | FactOrderRefund, (AmtRefund | AmtTotal | AmtNet) => Some [(CRefund, 1)]
  | FactExpense, AmtTotal => Some [(CNet, 1); (CTax, 1)]
  | FactExpense, AmtTax => Some [(CTax, 1)]
  | FactExpense, AmtNet => Some [(CNet, 1)]
  | FactAcquisitionCost, (AmtTotal | AmtNet) => Some [(CAmount, 1)]
  | FactInventoryMovement, (AmtCostBasis | AmtQuantityTimesBasis | AmtTotal) => Some [(CBasis, 1)]
  | _, _ => None
  end.

(** [totals.set(component, (totals.get(component) ?? 0n) + coefficient)] *)
Fixpoint add_total (c : component) (k : Z) (m : list (component * Z)) : list (component * Z) :=
  match m with
  | [] => [(c, k)]
  | (c', k') :: m => if decide (c' = c) then (c', k' + k) :: m else (c', k') :: add_total c k m
  end.

Definition add_line (t : FactType) (totals : list (component * Z)) (l : PostingRuleLineInput)
    : result (list (component * Z)) :=
  match basis t (ti_amountSource l) with
  | None => mret totals
  | Some decomposition =>
      multiplier ← toUnits (default "1"%string (ti_amountMultiplier l));
      mret (fold_left (fun m '(c, k) => add_total c (k * multiplier) m) decomposition totals)
  end.

Fixpoint template_totals (t : FactType) (totals : list (component * Z))
    (lines : list PostingRuleLineInput) : result (list (component * Z)) :=
  match lines with
  | [] => mret totals
  | l :: lines => m ← add_line t totals l; template_totals t m lines
  end.

Definition assertTemplateBalances (t : FactType) (lines : list PostingRuleLineInput) : result unit :=
  totals ← template_totals t [] lines;
  throw_if (existsb (fun '(_, k) => negb (k =? 0)) totals) AccountingValidationError.

(** ** [validatePostingRuleTemplate] *)
Definition check_line (t : FactType) (l : PostingRuleLineInput) : result unit :=
  _ ← z_check (match ti_descriptionTemplate l with
               | None => true
               | Some d => forallb (fun p => bool_decide (p ∈ PLACEHOLDERS_BY_FACT_TYPE t)) (placeholdersIn d)
               end);
  if bool_decide (ti_amountSource l = AmtRemainder) then mret tt
  else
    _ ← z_check (bool_decide (ti_amountSource l ∈ AMOUNT_SOURCES_BY_FACT_TYPE t));
    z_check (match ti_accountSystemKey l with
             | None => true
             | Some k => bool_decide (k ∈ LEDGER_SYSTEM_KEYS)
             end).

(** The loop over the lines: the index of the next line, the line numbers seen
    and the remainder lines counted; the count at the end. *)
Fixpoint check_lines (t : FactType) (index : Z) (seen : list Z) (remainders : nat)
    (lines : list PostingRuleLineInput) : result nat :=
  match lines with
  | [] => mret remainders
  | l :: lines =>
      let lineNumber := default (index + 1) (ti_lineNumber l) in
      _ ← z_check (negb (bool_decide (lineNumber ∈ seen)));
      _ ← check_line t l;
      let remainders := if bool_decide (ti_amountSource l = AmtRemainder) then S remainders else remainders in
      _ ← z_check (remainders <=? 1)%nat;
      check_lines t (index + 1) (lineNumber :: seen) remainders lines
  end.

Definition validatePostingRuleTemplate (sourceFactType : string) (lines : list PostingRuleLineInput)
    (predicates : list SourceFactPredicate) : result unit :=
  match isReadableSourceFactType sourceFactType with
  | None => Throw AccountingValidationError
  | Some t =>
      _ ← z_check (forallb (fun p => bool_decide (p ∈ PREDICATES_BY_FACT_TYPE t)) predicates);
      remainders ← check_lines t 0 [] 0 lines;
      if (remainders =? 0)%nat then assertTemplateBalances t lines else mret tt
  end.

(** ** Matching a version *)

(** The reasons [versionMatches] gives; all but the last say "no". *)
Inductive MatchReason : Type :=
  | Predates | Postdates | OtherProvider | OtherChannel | OtherEntity | OtherFeeType
  | OtherFeeDirection | OtherMovementKind | OtherSourceKind | OtherCategory | OtherCapitalize
  | OtherCurrency | BelowMinimum | AboveMaximum | EveryPredicateHolds.
#[export] Instance MatchReason_eq_dec : EqDecision MatchReason.
Proof. solve_decision. Defined.

(** [predicate !== null && predicate !== attribute] *)
Definition differs {A} `{EqDecision A} (predicate attribute : option A) : bool :=
  is_some predicate && negb (bool_decide (predicate = attribute)).

Definition versionMatches (version : PostingRuleVersion) (fact : SourceFact) : result MatchReason :=
  let a := sf_attributes fact in
  if match pv_effectiveFrom version with None => false | Some f => sf_accountingDate fact <? f end
  then mret Predates
  else if match pv_effectiveTo version with None => false | Some t => t <? sf_accountingDate fact end
  then mret Postdates
  else if differs (pv_matchProvider version) (at_provider a) then mret OtherProvider
  else if differs (pv_matchChannel version) (at_channel a) then mret OtherChannel
  else if differs (pv_matchEconomicEntityId version) (sf_economicEntityId fact) then mret OtherEntity
  else if differs (pv_matchFeeType version) (at_feeType a) then mret OtherFeeType
  else if differs (pv_matchFeeDirection version) (at_feeDirection a) then mret OtherFeeDirection
  else if differs (pv_matchMovementKind version) (at_movementKind a) then mret OtherMovementKind
  else if differs (pv_matchSourceKind version) (at_sourceKind a) then mret OtherSourceKind
  else if differs (pv_matchExpenseCategory version) (at_expenseCategory a) then mret OtherCategory
  else if differs (pv_matchCapitalize version) (at_capitalize a) then mret OtherCapitalize
  else if match pv_matchCurrency version with
          | None => false
          | Some c => negb (String.eqb (Text.toUpperCase c) (Text.toUpperCase (sf_currency fact)))
          end then mret OtherCurrency
  else
    low ← match pv_matchMinAmount version with
          | None => mret false
          | Some m => c ← compareDecimals (sf_matchAmount fact) (fromUnits m); mret (c <? 0)
          end;
    if low : bool then mret BelowMinimum
    else
      high ← match pv_matchMaxAmount version with
             | None => mret false
             | Some m => c ← compareDecimals (sf_matchAmount fact) (fromUnits m); mret (0 <? c)
             end;
      if high : bool then mret AboveMaximum else mret EveryPredicateHolds.

(** ** The service *)
Definition loadRule (postingRuleId : uuid) : run PostingRule :=
  db ← st_get;
  match find_id pr_id postingRuleId (db_rules db) with
  | None => st_throw AccountingNotFoundError
  | Some row => mret row
  end.

Definition date_in_opt (t : option date) : run (option date) :=
  match t with None => mret None | Some t => d ← date_in t; mret (Some d) end.

Definition version_row (postingRuleId : uuid) (version : Z) (p : Predicates)
    (minAmount maxAmount : option Z) (createdBy : option string) (id : uuid) (now : Z)
    : PostingRuleVersion :=
  {| pv_id := id; pv_postingRuleId := postingRuleId; pv_version := version;
     pv_status := VersionDraft; pv_effectiveFrom := pd_effectiveFrom p;
     pv_effectiveTo := pd_effectiveTo p; pv_matchProvider := pd_matchProvider p;
     pv_matchChannel := pd_matchChannel p; pv_matchEconomicEntityId := pd_matchEconomicEntityId p;
     pv_matchFeeType := pd_matchFeeType p; pv_matchFeeDirection := pd_matchFeeDirection p;
     pv_matchMovementKind := pd_matchMovementKind p; pv_matchSourceKind := pd_matchSourceKind p;
     pv_matchExpenseCategory := pd_matchExpenseCategory p;
     pv_matchCapitalize := pd_matchCapitalize p;
     pv_matchCurrency := Text.toUpperCase <$> pd_matchCurrency p;
     pv_matchMinAmount := minAmount; pv_matchMaxAmount := maxAmount; pv_note := pd_note p;
     pv_createdByUserId := createdBy; pv_createdAt := now |}.

Definition rule_line_row (version : uuid) (index : Z) (l : PostingRuleLineInput) (multiplier : Z)
    (id : uuid) (now : Z) : PostingRuleLine :=
  {| pl_id := id; pl_postingRuleVersionId := version;
     pl_lineNumber := default (index + 1) (ti_lineNumber l);
     pl_accountSystemKey := ti_accountSystemKey l; pl_ledgerAccountId := ti_ledgerAccountId l;
     pl_amountSource := ti_amountSource l; pl_amountMultiplier := multiplier;
     pl_inheritEntity := default true (ti_inheritEntity l);
     pl_dimensionValueId := ti_dimensionValueId l;
     pl_descriptionTemplate := ti_descriptionTemplate l; pl_createdAt := now |}.

Definition rule_line_values (version : uuid) (line : Z * PostingRuleLineInput)
    : run (uuid -> Z -> PostingRuleLine) :=
  text ← st_lift (toMoneyString (default "1"%string (ti_amountMultiplier (snd line))));
  multiplier ← numeric_in text;
  mret (rule_line_row version (fst line) (snd line) multiplier).

Definition money_in_opt (amount : option string) : run (option Z) :=
  text ← st_lift (z_opt toMoneyString amount);
  numeric_in_opt text.

Definition insertVersion (postingRuleId : uuid) (version : Z) (p : Predicates)
    (lines : list PostingRuleLineInput) (createdBy : option string) : run PostingRuleVersion :=
  minAmount ← money_in_opt (pd_matchMinAmount p);
  maxAmount ← money_in_opt (pd_matchMaxAmount p);
  _ ← date_in_opt (pd_effectiveFrom p);
  _ ← date_in_opt (pd_effectiveTo p);
  row ← insertVersionRow (version_row postingRuleId version p minAmount maxAmount createdBy);
  values ← st_mapM (rule_line_values (pv_id row)) (zip_with pair (seqZ 0 (Z.of_nat (length lines))) lines);
  _ ← insertRuleLines values;
  mret row.

Definition activate (version : PostingRuleVersion) : run unit :=
  _ ← updateVersionStatus (fun v => bool_decide (pv_postingRuleId v = pv_postingRuleId version)
        && negb (bool_decide (pv_id v = pv_id version)) && bool_decide (pv_status v = VersionActive))
        VersionSuperseded;
  _ ← updateVersionStatus (fun v => bool_decide (pv_id v = pv_id version)) VersionActive;
  updateRule (pv_postingRuleId version) (fun now => rule_with RuleActive (Some (pv_id version)) now).

Definition rule_audit (action : string) (id : uuid) (actor request : option string) : AuditEvent :=
  {| ae_actorUserId := actor; ae_action := action; ae_resourceType := "posting_rule";
     ae_resourceId := Some id; ae_requestId := request |}.

Definition rule_row (value : CreateRuleInput) (t : FactType) (id : uuid) (now : Z) : PostingRule :=
  {| pr_id := id; pr_code := cr_code value; pr_name := cr_name value; pr_sourceFactType := t;
     pr_accountingBookId := cr_accountingBookId value;
     pr_priority := default 100 (cr_priority value); pr_status := RuleDraft;
     pr_currentVersionId := None; pr_description := cr_description value;
     pr_createdByUserId := cr_createdByUserId value; pr_createdAt := now; pr_updatedAt := now |}.

Definition createRule_body (value : CreateRuleInput) (t : FactType)
    : run (PostingRule * PostingRuleVersion) :=
  rule ← insertRuleRow (rule_row value t);
  version ← insertVersion (pr_id rule) 1 (cr_predicates value) (cr_lines value)
              (cr_createdByUserId value);
  _ ← (if cr_activate value then activate version else mret tt);
  _ ← audit_append (rule_audit "accounting.posting_rule.created" (pr_id rule)
                      (cr_createdByUserId value) (cr_requestId value));
  after ← (if cr_activate value then loadRule (pr_id rule) else mret rule);
  mret (after, version).

Definition createRule (input : CreateRuleInput) : run (PostingRule * PostingRuleVersion) :=
  value ← st_lift (createRuleSchema input);
  _ ← st_lift (validatePostingRuleTemplate (cr_sourceFactType value) (cr_lines value)
                 (predicatesUsed (cr_predicates value)));
  match isReadableSourceFactType (cr_sourceFactType value) with
  | None => st_throw AccountingValidationError
  | Some t => transaction (createRule_body value t)
  end.

Definition latest_version (rule : uuid) (db : Db) : Z :=
  foldr Z.max 0 (pv_version <$> List.filter (fun v => bool_decide (pv_postingRuleId v = rule)) (db_versions db)).

Definition addVersion_body (value : AddVersionInput) (rule : PostingRule)
    : run (PostingRule * PostingRuleVersion) :=
  latest ← st_gets (latest_version (pr_id rule));
  version ← insertVersion (pr_id rule) (latest + 1) (av_predicates value) (av_lines value)
              (av_createdByUserId value);
  _ ← (if av_activate value then activate version else mret tt);
  _ ← audit_append (rule_audit "accounting.posting_rule.versioned" (pr_id rule)
                      (av_createdByUserId value) (av_requestId value));
  after ← loadRule (pr_id rule);
  mret (after, version).

Definition addVersion (input : AddVersionInput) : run (PostingRule * PostingRuleVersion) :=
  value ← st_lift (addVersionSchema input);
  rule ← loadRule (av_postingRuleId value);
  _ ← st_lift (validatePostingRuleTemplate (fact_type_text (pr_sourceFactType rule))
                 (av_lines value) (predicatesUsed (av_predicates value)));
  transaction (addVersion_body value rule).

(** The result carries the version read before, with its status replaced. *)
Definition activateVersion (postingRuleVersionId : uuid) (actor request : option string)
    : run (PostingRule * PostingRuleVersion) :=
  db ← st_get;
  match find_id pv_id postingRuleVersionId (db_versions db) with
  | None => st_throw AccountingNotFoundError
  | Some version =>
      _ ← st_lift (throw_if (bool_decide (pv_status version = VersionSuperseded)) LedgerImmutableError);
      transaction (
        _ ← activate version;
        _ ← audit_append (rule_audit "accounting.posting_rule.activated" (pv_postingRuleId version)
                            actor request);
        rule ← loadRule (pv_postingRuleId version);
        mret (rule, version_status VersionActive version))
  end.

Definition setRuleStatus (postingRuleId : uuid) (status : RuleStatus) (actor request : option string)
    : run PostingRule :=
  rule ← loadRule postingRuleId;
  _ ← st_lift (throw_if (bool_decide (status = RuleActive) && negb (is_some (pr_currentVersionId rule)))
                 AccountingValidationError);
  transaction (
    _ ← updateRule (pr_id rule) (fun now r => rule_with status (pr_currentVersionId r) now r);
    _ ← audit_append (rule_audit "accounting.posting_rule.status_changed" (pr_id rule) actor request);
    loadRule (pr_id rule)).

Definition findRuleByCode (code : string) : run (option PostingRule) :=
  st_gets (fun db => find_row (fun r => String.eqb (pr_code r) code) (db_rules db)).

(** ** Resolution *)

(** [order by priority, code] *)
Definition rule_le (r s : PostingRule) : bool :=
  (pr_priority r <? pr_priority s)
  || ((pr_priority r =? pr_priority s) && String.leb (pr_code r) (pr_code s)).
Fixpoint insert_rule (r : PostingRule) (l : list PostingRule) : list PostingRule :=
  match l with
  | [] => [r]
  | s :: l' => if rule_le r s then r :: l else s :: insert_rule r l'
  end.
Definition order_rules (l : list PostingRule) : list PostingRule := foldr insert_rule [] l.

(** The active rules of a fact type, in evaluation order. *)
Definition active_rules (t : FactType) (db : Db) : list PostingRule :=
  order_rules (List.filter (fun r => bool_decide (pr_sourceFactType r = t)
                             && bool_decide (pr_status r = RuleActive)) (db_rules db)).

Definition rule_in_book (rule : PostingRule) (book : uuid) : bool :=
  match pr_accountingBookId rule with None => true | Some b => bool_decide (b = book) end.

Record ResolvedPostingRule : Type := {
  rp_rule : PostingRule;
  rp_version : PostingRuleVersion;
  rp_lines : list PostingRuleLine;
}.

Definition version_lines (version : uuid) (db : Db) : list PostingRuleLine :=
  order_by pl_lineNumber
    (List.filter (fun l => bool_decide (pl_postingRuleVersionId l = version)) (db_rule_lines db)).

(** One turn of the loop of [resolveForFact]: the rule, if it fires. *)
Definition rule_fires (db : Db) (fact : SourceFact) (book : uuid) (rule : PostingRule)
    : result (option ResolvedPostingRule) :=
  if negb (rule_in_book rule book) then mret None
  else match pr_currentVersionId rule with
       | None => mret None
       | Some current =>
           match find_id pv_id current (db_versions db) with
           | None => mret None
           | Some version =>
               if bool_decide (pv_status version <> VersionActive) then mret None
               else
                 reason ← versionMatches version fact;
                 if bool_decide (reason <> EveryPredicateHolds) then mret None
                 else mret (Some {| rp_rule := rule; rp_version := version;
                                    rp_lines := version_lines (pv_id version) db |})
           end
       end.

Fixpoint first_firing (db : Db) (fact : SourceFact) (book : uuid) (rules : list PostingRule)
    : result (option ResolvedPostingRule) :=
  match rules with
  | [] => mret None
  | rule :: rules =>
      r ← rule_fires db fact book rule;
      match r with Some r => mret (Some r) | None => first_firing db fact book rules end
  end.

Definition resolveForFact (fact : SourceFact) (accountingBookId : uuid)
    : run (option ResolvedPostingRule) :=
  db ← st_get;
  st_lift (first_firing db fact accountingBookId (active_rules (sf_sourceFactType fact) db)).

Inductive CandidateReason : Type :=
  | NarrowedToAnotherBook | NoActiveVersion | VersionMissing | Judged (r : MatchReason).

Definition candidate (db : Db) (fact : SourceFact) (book : uuid) (rule : PostingRule)
    : result (PostingRule * bool * CandidateReason) :=
  if negb (rule_in_book rule book) then mret (rule, false, NarrowedToAnotherBook)
  else match pr_currentVersionId rule with
       | None => mret (rule, false, NoActiveVersion)
       | Some current =>
           match find_id pv_id current (db_versions db) with
           | None => mret (rule, false, VersionMissing)
           | Some version =>
               reason ← versionMatches version fact;
               mret (rule, bool_decide (reason = EveryPredicateHolds), Judged reason)
           end
       end.

Definition candidatesForFact (fact : SourceFact) (accountingBookId : uuid)
    : run (list (PostingRule * bool * CandidateReason)) :=
  db ← st_get;
  st_lift (res_mapM (candidate db fact accountingBookId) (active_rules (sf_sourceFactType fact) db)).

(** * Theorems *)

(** ** Closure: rules are not the journal *)
Lemma insertRuleRow_step_ok v : respects step_ok (insertRuleRow v).
Proof. intros db r db' H. unfold insertRuleRow in H. inv_stmt. by_frame. Qed.
Lemma insertVersionRow_step_ok v : respects step_ok (insertVersionRow v).
Proof. intros db r db' H. unfold insertVersionRow in H. inv_stmt. by_frame. Qed.
Lemma insertRuleLineRow_step_ok v : respects step_ok (insertRuleLineRow v).
Proof. intros db r db' H. unfold insertRuleLineRow in H. inv_stmt. by_frame. Qed.
Lemma updateVersionStatus_step_ok p st : respects step_ok (updateVersionStatus p st).
Proof. intros db r db' H. unfold updateVersionStatus in H. inv_stmt. by_frame. Qed.
Lemma updateRule_step_ok id f : respects step_ok (updateRule id f).
Proof. intros db r db' H. unfold updateRule in H. inv_stmt. by_frame. Qed.
Lemma insertRuleRow_quiet v : respects quiet (insertRuleRow v).
Proof. intros db r db' H. unfold insertRuleRow in H. inv_stmt. by_quiet. Qed.
Lemma insertVersionRow_quiet v : respects quiet (insertVersionRow v).
Proof. intros db r db' H. unfold insertVersionRow in H. inv_stmt. by_quiet. Qed.
Lemma insertRuleLineRow_quiet v : respects quiet (insertRuleLineRow v).
Proof. intros db r db' H. unfold insertRuleLineRow in H. inv_stmt. by_quiet. Qed.
Lemma updateVersionStatus_quiet p st : respects quiet (updateVersionStatus p st).
Proof. intros db r db' H. unfold updateVersionStatus in H. inv_stmt. by_quiet. Qed.
Lemma updateRule_quiet id f : respects quiet (updateRule id f).
Proof. intros db r db' H. unfold updateRule in H. inv_stmt. by_quiet. Qed.
#[export] Hint Resolve insertRuleRow_step_ok insertVersionRow_step_ok insertRuleLineRow_step_ok
  updateVersionStatus_step_ok updateRule_step_ok insertRuleRow_quiet insertVersionRow_quiet
  insertRuleLineRow_quiet updateVersionStatus_quiet updateRule_quiet : store.

Lemma date_in_opt_reads t : reads (date_in_opt t).
Proof. unfold date_in_opt. solve_respects. Qed.
Lemma money_in_opt_reads t : reads (money_in_opt t).
Proof. unfold money_in_opt. solve_respects. Qed.
Lemma rule_line_values_reads v l : reads (rule_line_values v l).
Proof. unfold rule_line_values. solve_respects. Qed.
Lemma loadRule_reads id : reads (loadRule id).
Proof. unfold loadRule. solve_respects. Qed.
#[export] Hint Resolve date_in_opt_reads money_in_opt_reads rule_line_values_reads loadRule_reads : store.
Lemma resolveForFact_reads fact book : reads (resolveForFact fact book).
Proof. unfold resolveForFact. solve_respects. Qed.
Lemma candidatesForFact_reads fact book : reads (candidatesForFact fact book).
Proof. unfold candidatesForFact. solve_respects. Qed.
#[export] Hint Resolve resolveForFact_reads candidatesForFact_reads : store.

Lemma createRule_tx_ok i : always tx_ok (createRule i).
Proof.
  unfold createRule. solve_respects. apply transaction_tx_ok.
  unfold createRule_body, insertVersion, insertRuleLines, activate. solve_respects.
Qed.
Lemma addVersion_tx_ok i : always tx_ok (addVersion i).
Proof.
  unfold addVersion. solve_respects; [apply reads_tx_ok, loadRule_reads|]. apply transaction_tx_ok.
  unfold addVersion_body, insertVersion, insertRuleLines, activate. solve_respects.
Qed.
Lemma activateVersion_tx_ok id actor request : always tx_ok (activateVersion id actor request).
Proof.
  unfold activateVersion. solve_respects. apply transaction_tx_ok. unfold activate. solve_respects.
Qed.
Lemma setRuleStatus_tx_ok id st actor request : always tx_ok (setRuleStatus id st actor request).
Proof.
  unfold setRuleStatus. solve_respects; [apply reads_tx_ok, loadRule_reads|]. apply transaction_tx_ok.
  solve_respects.
Qed.
Lemma createRule_quiet i : always quiet (createRule i).
Proof.
  unfold createRule. solve_respects. apply transaction_quiet.
  unfold createRule_body, insertVersion, insertRuleLines, activate. solve_respects.
Qed.
Lemma addVersion_quiet i : always quiet (addVersion i).
Proof.
  unfold addVersion. solve_respects. apply transaction_quiet.
  unfold addVersion_body, insertVersion, insertRuleLines, activate. solve_respects.
Qed.
Lemma activateVersion_quiet id actor request : always quiet (activateVersion id actor request).
Proof.
  unfold activateVersion. solve_respects. apply transaction_quiet. unfold activate. solve_respects.
Qed.
Lemma setRuleStatus_quiet id st actor request : always quiet (setRuleStatus id st actor request).
Proof. unfold setRuleStatus. solve_respects. apply transaction_quiet. solve_respects. Qed.

(** ** The symbolic balance check is exact *)
Definition eval (v : component -> Z) (m : list (component * Z)) : Z :=
  sumZ ((fun '(c, k) => k * v c) <$> m).

(** The value of a named amount when its components have values [v]. *)
Definition amount_value (t : FactType) (v : component -> Z) (s : AmountSource) : option Z :=
  eval v <$> basis t s.

(** The line's multiplier, in micro-units. *)
Definition line_units (l : PostingRuleLineInput) : result Z :=
  toUnits (default "1"%string (ti_amountMultiplier l)).

Lemma eval_nil v : eval v [] = 0.
Proof. done. Qed.
Lemma eval_cons v c k m : eval v ((c, k) :: m) = k * v c + eval v m.
Proof. done. Qed.
Lemma eval_app v m n : eval v (m ++ n) = eval v m + eval v n.
Proof. unfold eval. by rewrite fmap_app, sumZ_app. Qed.

Lemma eval_add_total v c k m : eval v (add_total c k m) = eval v m + k * v c.
Proof.
  induction m as [|[c' k'] m IH]; cbn [add_total]; [rewrite eval_cons, eval_nil; lia|].
  destruct (decide (c' = c)) as [->|]; rewrite !eval_cons; lia.
Qed.

Lemma eval_fold v d u m :
  eval v (fold_left (fun m '(c, k) => add_total c (k * u) m) d m) = eval v m + u * eval v d.
Proof.
  revert m. induction d as [|[c k] d IH]; intros m; cbn [fold_left].
  - rewrite eval_nil. lia.
  - rewrite IH, eval_add_total, eval_cons. lia.
Qed.

Lemma add_total_keys c k m :
  NoDup (m.*1) -> NoDup ((add_total c k m).*1) /\ (forall x, x ∈ (add_total c k m).*1 -> x = c \/ x ∈ m.*1).
Proof.
  induction m as [|[c' k'] m IH]; csimpl.
  - intros _. split; [apply NoDup_singleton|set_solver].
  - rewrite NoDup_cons. intros [Hc Hn]. destruct (decide (c' = c)) as [->|Hne]; csimpl.
    + split; [by apply NoDup_cons|set_solver].
    + destruct (IH Hn) as [H1 H2]. split; [|set_solver]. apply NoDup_cons. split; [|done].
      intros Hin. destruct (H2 _ Hin); [congruence|done].
Qed.

Lemma fold_totals_keys u d m :
  NoDup (m.*1) -> NoDup ((fold_left (fun m '(c, k) => add_total c (k * u) m) d m).*1).
Proof.
  revert m. induction d as [|[c k] d IH]; intros m Hm; cbn [fold_left]; [done|].
  apply IH. by apply add_total_keys.
Qed.

(** Each line that names an amount with a decomposition, with its multiplier. *)
Definition weighted (t : FactType) (lines : list PostingRuleLineInput) (us : list Z)
    (v : component -> Z) : Z :=
  sumZ (zip_with (fun l u => u * default 0 (amount_value t v (ti_amountSource l))) lines us).

Lemma weighted_cons t l lines u us v :
  weighted t (l :: lines) (u :: us) v =
  u * default 0 (amount_value t v (ti_amountSource l)) + weighted t lines us v.
Proof. done. Qed.

Lemma template_totals_spec t lines m us :
  Forall2 (fun l u => line_units l = Ok u) lines us -> NoDup (m.*1) ->
  exists totals, template_totals t m lines = Ok totals /\ NoDup (totals.*1) /\
    forall v, eval v totals = eval v m + weighted t lines us v.
Proof.
  intros H. revert m. induction H as [|l u lines us Hu _ IH]; intros m Hm.
  - exists m. split; [done|]. split; [done|]. intros v. unfold weighted. cbn. lia.
  - cbn [template_totals]. unfold add_line.
    destruct (basis t (ti_amountSource l)) as [d|] eqn:Ed.
    + unfold line_units in Hu. rewrite Hu. cbn [mbind result_bind mret result_ret].
      destruct (IH (fold_left (fun m '(c, k) => add_total c (k * u) m) d m)) as (tot & Ht & Hn & He);
        [by apply fold_totals_keys|].
      exists tot. split; [done|]. split; [done|]. intros v.
      rewrite He, eval_fold, weighted_cons. unfold amount_value. rewrite Ed. cbn [fmap option_fmap option_map default].
      unfold id. lia.
    + destruct (IH m Hm) as (tot & Ht & Hn & He). exists tot. split; [done|]. split; [done|].
      intros v. rewrite He, weighted_cons. unfold amount_value. rewrite Ed. cbn [fmap option_fmap option_map default].
      lia.
Qed.

Lemma eval_zero v m : Forall (fun p => snd p = 0) m -> eval v m = 0.
Proof.
  induction 1 as [|[c k] m Hk _ IH]; [done|]. cbn in Hk. rewrite eval_cons. lia.
Qed.

Lemma eval_elsewhere c m : c ∉ m.*1 -> eval (fun x => if decide (x = c) then 1 else 0) m = 0.
Proof.
  induction m as [|[x y] m IH]; [done|]. csimpl. intros Hc. rewrite eval_cons, decide_False by set_solver.
  rewrite IH by set_solver. lia.
Qed.

Lemma eval_indicator c k m :
  NoDup (m.*1) -> (c, k) ∈ m -> eval (fun x => if decide (x = c) then 1 else 0) m = k.
Proof.
  induction m as [|[c' k'] m IH]; [set_solver|]. csimpl. rewrite NoDup_cons, eval_cons.
  intros [Hc Hn] [[= <- <-]|Hin]%elem_of_cons.
  - rewrite decide_True by done. rewrite eval_elsewhere by done. lia.
  - rewrite decide_False, (IH Hn Hin); [lia|].
    intros ->. apply Hc. apply list_elem_of_fmap. by exists (c, k).
Qed.

(** The save-time balance check decides exactly the templates that balance
    for every fact: it accepts a template without a plug if and only if,
    whatever the values of the independent components, the multipliers times
    the amounts they name cancel. *)
Theorem template_check_exact (t : FactType) (lines : list PostingRuleLineInput) (us : list Z) :
  Forall2 (fun l u => line_units l = Ok u) lines us ->
  (assertTemplateBalances t lines = Ok tt <-> forall v, weighted t lines us v = 0) /\
  (assertTemplateBalances t lines <> Ok tt ->
     assertTemplateBalances t lines = Throw AccountingValidationError).
Proof.
  intros H. destruct (template_totals_spec t lines [] us H) as (m & Hm & Hn & He); [constructor|].
  unfold assertTemplateBalances. rewrite Hm. cbn [mbind result_bind]. split.
  - unfold throw_if. destruct (existsb _ m) eqn:Ex.
    + split; [intros [=]|]. intros Hv. apply existsb_exists in Ex as ([c k] & Hin & Hk).
      apply negb_true_iff, Z.eqb_neq in Hk. destruct Hk. apply list_elem_of_In in Hin.
      rewrite <- (eval_indicator c k m Hn Hin), He, Hv. unfold eval. cbn. done.
    + split; [|done]. intros _ v. specialize (He v). rewrite eval_zero in He.
      * unfold eval in He. cbn in He. lia.
      * apply Forall_forall. intros [c k] Hin. cbn. destruct (Z.eqb_spec k 0) as [|Hk]; [done|].
        rewrite <- not_true_iff_false in Ex. destruct Ex. apply existsb_exists.
        exists (c, k). split; [by apply list_elem_of_In|]. by apply negb_true_iff, Z.eqb_neq.
  - unfold throw_if. by destruct (existsb _ m).
Qed.

Definition sample_template_line (key : string) (s : AmountSource) (multiplier : string)
    : PostingRuleLineInput :=
  {| ti_lineNumber := None; ti_accountSystemKey := Some key; ti_ledgerAccountId := None;
     ti_amountSource := s; ti_amountMultiplier := Some multiplier; ti_inheritEntity := None;
     ti_dimensionValueId := None; ti_descriptionTemplate := None |}.

(** A sale without its discount does not balance; with it, it does. *)
Lemma template_check_exact_witness :
  let lines := [sample_template_line "marketplace_clearing" AmtTotal "1";
                sample_template_line "sales_revenue" AmtSubtotal "-1";
                sample_template_line "shipping_income" AmtShipping "-1";
                sample_template_line "facilitator_tax_clearing" AmtTax "-1"] in
  let us := [1000000; -1000000; -1000000; -1000000] in
  ~ (forall v, weighted FactOrder lines us v = 0) /\
  forall v, weighted FactOrder (lines ++ [sample_template_line "sales_revenue" AmtDiscount "1"])
              (us ++ [1000000]) v = 0.
Proof.
  cbv zeta. split.
  - intros H. assert (assertTemplateBalances FactOrder
      [sample_template_line "marketplace_clearing" AmtTotal "1";
       sample_template_line "sales_revenue" AmtSubtotal "-1";
       sample_template_line "shipping_income" AmtShipping "-1";
       sample_template_line "facilitator_tax_clearing" AmtTax "-1"] = Ok tt) as E.
    { eapply (template_check_exact FactOrder _ _); [|exact H].
      repeat constructor; vm_compute; reflexivity. }
    vm_compute in E. discriminate E.
  - eapply (template_check_exact FactOrder); [|vm_compute; reflexivity].
    repeat constructor; vm_compute; reflexivity.
Defined.

(** ** Resolution *)

(** What a version selects: every predicate it states holds. *)
Definition holds {A} (predicate attribute : option A) : Prop :=
  forall x, predicate = Some x -> attribute = Some x.

Record selects (v : PostingRuleVersion) (f : SourceFact) : Prop := {
  sel_from t : pv_effectiveFrom v = Some t -> t <= sf_accountingDate f;
  sel_to t : pv_effectiveTo v = Some t -> sf_accountingDate f <= t;
  sel_provider : holds (pv_matchProvider v) (at_provider (sf_attributes f));
  sel_channel : holds (pv_matchChannel v) (at_channel (sf_attributes f));
  sel_entity : holds (pv_matchEconomicEntityId v) (sf_economicEntityId f);
  sel_feeType : holds (pv_matchFeeType v) (at_feeType (sf_attributes f));
  sel_feeDirection : holds (pv_matchFeeDirection v) (at_feeDirection (sf_attributes f));
  sel_movementKind : holds (pv_matchMovementKind v) (at_movementKind (sf_attributes f));
  sel_sourceKind : holds (pv_matchSourceKind v) (at_sourceKind (sf_attributes f));
  sel_category : holds (pv_matchExpenseCategory v) (at_expenseCategory (sf_attributes f));
  sel_capitalize : holds (pv_matchCapitalize v) (at_capitalize (sf_attributes f));
  sel_currency c : pv_matchCurrency v = Some c ->
    Text.toUpperCase c = Text.toUpperCase (sf_currency f);
  sel_min m : pv_matchMinAmount v = Some m -> exists u, toUnits (sf_matchAmount f) = Ok u /\ m <= u;
  sel_max m : pv_matchMaxAmount v = Some m -> exists u, toUnits (sf_matchAmount f) = Ok u /\ u <= m;
}.

Lemma differs_false {A} `{EqDecision A} (p a : option A) : differs p a = false <-> holds p a.
Proof.
  unfold differs, holds. destruct p as [x|]; cbn; [|naive_solver].
  rewrite negb_false_iff, bool_decide_eq_true. naive_solver.
Qed.

Lemma compare_min a u m : toUnits a = Ok u ->
  (c ← compareDecimals a (fromUnits m); mret (c <? 0)) = Ok (u <? m).
Proof.
  intros Hu. rewrite (compareDecimals_units _ _ u m) by (done || apply toUnits_fromUnits).
  cbn. f_equal. destruct (Z.eqb_spec u m) as [->|Hne]; cbn.
  - symmetry. apply Z.ltb_irrefl.
  - by destruct (u <? m).
Qed.

Lemma compare_max a u m : toUnits a = Ok u ->
  (c ← compareDecimals a (fromUnits m); mret (0 <? c)) = Ok (m <? u).
Proof.
  intros Hu. rewrite (compareDecimals_units _ _ u m) by (done || apply toUnits_fromUnits).
  cbn. f_equal. destruct (Z.eqb_spec u m) as [->|Hne]; cbn.
  - symmetry. apply Z.ltb_irrefl.
  - destruct (Z.ltb_spec u m), (Z.ltb_spec m u); cbn; try done; lia.
Qed.

(** The bounds of the amount, as one test. *)
Definition within (v : PostingRuleVersion) (u : Z) : bool :=
  match pv_matchMinAmount v with None => true | Some m => m <=? u end
  && match pv_matchMaxAmount v with None => true | Some m => u <=? m end.

Lemma predates_false (from : option date) t :
  match from with None => false | Some f => t <? f end = false <-> (forall f, from = Some f -> f <= t).
Proof. destruct from; [rewrite Z.ltb_ge|]; naive_solver. Qed.
Lemma postdates_false (to : option date) t :
  match to with None => false | Some e => e <? t end = false <-> (forall e, to = Some e -> t <= e).
Proof. destruct to; [rewrite Z.ltb_ge|]; naive_solver. Qed.
Lemma currency_false (currency : option string) c :
  match currency with
  | None => false
  | Some x => negb (String.eqb (Text.toUpperCase x) (Text.toUpperCase c))
  end = false <-> (forall x, currency = Some x -> Text.toUpperCase x = Text.toUpperCase c).
Proof. destruct currency; [rewrite negb_false_iff, String.eqb_eq|]; naive_solver. Qed.

(** [versionMatches] decides [selects], for a fact whose magnitude is a
    decimal. *)
Lemma versionMatches_selects v f u :
  toUnits (sf_matchAmount f) = Ok u ->
  exists reason, versionMatches v f = Ok reason /\ (reason = EveryPredicateHolds <-> selects v f).
Proof.
  intros Hu. unfold versionMatches. cbv zeta.
  repeat match goal with
  | |- exists reason, (if ?b then _ else _) = _ /\ _ =>
      let E := fresh "E" in
      destruct b eqn:E;
      [eexists; split; [reflexivity|]; split;
       [intros [=] | intros S; exfalso; apply not_false_iff_true in E; apply E;
        first [apply predates_false, (sel_from _ _ S) | apply postdates_false, (sel_to _ _ S)
              | apply currency_false, (sel_currency _ _ S)
              | apply differs_false; destruct S; assumption]]
      | first [rewrite predates_false in E | rewrite postdates_false in E
              | rewrite currency_false in E | rewrite differs_false in E]]
  end.
  assert (forall a : option Z, (match a with None => mret false
      | Some m => c ← compareDecimals (sf_matchAmount f) (fromUnits m); mret (c <? 0) end : result bool)
      = Ok (match a with None => false | Some m => u <? m end)) as ->
    by (intros [m|]; [by apply compare_min|done]).
  assert (forall a : option Z, (match a with None => mret false
      | Some m => c ← compareDecimals (sf_matchAmount f) (fromUnits m); mret (0 <? c) end : result bool)
      = Ok (match a with None => false | Some m => m <? u end)) as ->
    by (intros [m|]; [by apply compare_max|done]).
  cbn [mbind result_bind].
  destruct (match pv_matchMinAmount v with Some m => u <? m | None => false end) eqn:Emin.
  { exists BelowMinimum. split; [done|]. split; [intros [=]|]. intros S.
    destruct (pv_matchMinAmount v) as [m|] eqn:Em; [|done]. apply Z.ltb_lt in Emin.
    destruct (sel_min _ _ S m Em) as (u' & Hu' & Hle). assert (u' = u) by congruence. lia. }
  destruct (match pv_matchMaxAmount v with Some m => m <? u | None => false end) eqn:Emax.
  { exists AboveMaximum. split; [done|]. split; [intros [=]|]. intros S.
    destruct (pv_matchMaxAmount v) as [m|] eqn:Em; [|done]. apply Z.ltb_lt in Emax.
    destruct (sel_max _ _ S m Em) as (u' & Hu' & Hle). assert (u' = u) by congruence. lia. }
  exists EveryPredicateHolds. split; [done|]. split; [|done]. intros _. split; try assumption.
  - intros m Em. exists u. split; [done|]. rewrite Em in Emin. by apply Z.ltb_ge in Emin.
  - intros m Em. exists u. split; [done|]. rewrite Em in Emax. by apply Z.ltb_ge in Emax.
Qed.

(** ** First match wins *)
Definition fires (db : Db) (f : SourceFact) (book : uuid) (rule : PostingRule)
    (v : PostingRuleVersion) : Prop :=
  (forall b, pr_accountingBookId rule = Some b -> b = book) /\
  (exists current, pr_currentVersionId rule = Some current /\
     find_id pv_id current (db_versions db) = Some v) /\
  pv_status v = VersionActive /\ selects v f.

Lemma rule_fires_spec db f book rule u :
  toUnits (sf_matchAmount f) = Ok u ->
  (exists v, fires db f book rule v /\
     rule_fires db f book rule = Ok (Some {| rp_rule := rule; rp_version := v;
                                             rp_lines := version_lines (pv_id v) db |})) \/
  ((forall v, ~ fires db f book rule v) /\ rule_fires db f book rule = Ok None).
Proof.
  intros Hu. unfold rule_fires, fires. destruct (rule_in_book rule book) eqn:Eb; cbn.
  2:{ right. split; [|done]. intros v (Hb & _). unfold rule_in_book in Eb.
      destruct (pr_accountingBookId rule) as [b|]; [|done].
      apply bool_decide_eq_false in Eb. apply Eb. auto. }
  destruct (pr_currentVersionId rule) as [current|]; [|right; split; [naive_solver|done]].
  destruct (find_id pv_id current (db_versions db)) as [v|] eqn:Ev; [|right; split; [naive_solver|done]].
  case_bool_decide as Hs.
  { right. split; [|done]. intros w (_ & (c & [= <-] & Hw) & Hws & _). congruence. }
  destruct (versionMatches_selects v f u Hu) as (reason & -> & Hiff).
  cbn. case_bool_decide as Hr.
  - right. split; [|done]. intros w (_ & (c & [= <-] & Hw) & _ & Hsel).
    assert (w = v) as -> by congruence. by apply Hr, Hiff.
  - left. exists v. split; [|done]. split.
    + intros b Hb. unfold rule_in_book in Eb. rewrite Hb in Eb. by apply bool_decide_eq_true in Eb.
    + split; [by exists current|]. split; [done|]. by apply Hiff.
Qed.

Lemma first_firing_spec db f book rules u :
  toUnits (sf_matchAmount f) = Ok u ->
  exists o, first_firing db f book rules = Ok o /\
  match o with
  | Some r => exists before after, rules = before ++ rp_rule r :: after /\
      fires db f book (rp_rule r) (rp_version r) /\
      rp_lines r = version_lines (pv_id (rp_version r)) db /\
      forall rule v, rule ∈ before -> ~ fires db f book rule v
  | None => forall rule v, rule ∈ rules -> ~ fires db f book rule v
  end.
Proof.
  intros Hu. induction rules as [|rule rules IH]; cbn [first_firing].
  { exists None. split; [done|]. set_solver. }
  destruct (rule_fires_spec db f book rule u Hu) as [(v & Hf & ->)|[Hn ->]]; cbn [mbind result_bind].
  - eexists. split; [done|]. exists [], rules. split; [done|]. split; [done|]. split; [done|].
    set_solver.
  - destruct IH as (o & -> & Ho). exists o. split; [done|]. destruct o as [r|].
    + destruct Ho as (before & after & -> & Hf & Hl & Hb). exists (rule :: before), after.
      split; [done|]. split; [done|]. split; [done|]. intros x w [->|Hx]%elem_of_cons; eauto.
    + intros x w [->|Hx]%elem_of_cons; eauto.
Qed.

(** The evaluation order is a permutation of the active rules of the type,
    sorted by priority. *)
Lemma insert_rule_perm r l : insert_rule r l ≡ₚ r :: l.
Proof.
  induction l as [|s l IH]; [done|]. cbn. destruct (rule_le r s); [done|]. rewrite IH. constructor.
Qed.
Lemma order_rules_perm l : order_rules l ≡ₚ l.
Proof. induction l as [|r l IH]; [done|]. cbn. by rewrite insert_rule_perm, IH. Qed.

Lemma active_rules_elem t db r :
  r ∈ active_rules t db <-> r ∈ db_rules db /\ pr_sourceFactType r = t /\ pr_status r = RuleActive.
Proof.
  unfold active_rules. rewrite order_rules_perm, list_elem_of_In, filter_In, <- list_elem_of_In.
  by rewrite andb_true_iff, !bool_decide_eq_true.
Qed.

Definition priority_le (r s : PostingRule) : Prop := pr_priority r <= pr_priority s.
Lemma rule_le_priority r s : rule_le r s = true -> priority_le r s.
Proof.
  unfold rule_le, priority_le. rewrite orb_true_iff, andb_true_iff, Z.ltb_lt, Z.eqb_eq. lia.
Qed.
Lemma rule_le_false r s : rule_le r s = false -> priority_le s r.
Proof. unfold rule_le, priority_le. rewrite orb_false_iff, Z.ltb_ge. lia. Qed.

Lemma insert_rule_sorted r l :
  StronglySorted priority_le l -> StronglySorted priority_le (insert_rule r l).
Proof.
  induction 1 as [|s l Hs IH Hall]; [repeat constructor|]. cbn. destruct (rule_le r s) eqn:E.
  - apply rule_le_priority in E. constructor; [by constructor|]. constructor; [done|].
    eapply Forall_impl; [exact Hall|]. unfold priority_le in *. intros x Hx. cbn in Hx. lia.
  - apply rule_le_false in E. constructor; [done|]. apply Forall_forall. intros x Hx.
    rewrite insert_rule_perm in Hx. apply elem_of_cons in Hx as [->|Hx]; [done|].
    rewrite Forall_forall in Hall. by apply Hall.
Qed.
Lemma order_rules_sorted l : StronglySorted priority_le (order_rules l).
Proof. induction l as [|r l IH]; [constructor|]. by apply insert_rule_sorted. Qed.

(** First match wins: for a fact whose magnitude is a decimal, resolution
    returns a rule exactly when some active rule of the fact's type fires for
    it in the book; the rule returned fires, with the lines of the version it
    points at, and no rule of a lower priority number fires. *)
Theorem resolveForFact_first_match (db : Db) (fact : SourceFact) (book : uuid) (u : Z) :
  toUnits (sf_matchAmount fact) = Ok u ->
  exists o, resolveForFact fact book db = (Ok o, db) /\
  match o with
  | Some r =>
      rp_rule r ∈ db_rules db /\ pr_sourceFactType (rp_rule r) = sf_sourceFactType fact /\
      pr_status (rp_rule r) = RuleActive /\ fires db fact book (rp_rule r) (rp_version r) /\
      rp_lines r = version_lines (pv_id (rp_version r)) db /\
      forall rule v, rule ∈ db_rules db -> pr_sourceFactType rule = sf_sourceFactType fact ->
        pr_status rule = RuleActive -> fires db fact book rule v ->
        pr_priority (rp_rule r) <= pr_priority rule
  | None =>
      forall rule v, rule ∈ db_rules db -> pr_sourceFactType rule = sf_sourceFactType fact ->
        pr_status rule = RuleActive -> ~ fires db fact book rule v
  end.
Proof.
  intros Hu. destruct (first_firing_spec db fact book (active_rules (sf_sourceFactType fact) db) u Hu)
    as (o & Ho & Hspec).
  exists o. split. { unfold resolveForFact. erewrite st_bind_run by done. by rewrite Ho. }
  destruct o as [r|].
  - destruct Hspec as (bef & aft & E & Hf & Hl & Hb).
    assert (rp_rule r ∈ active_rules (sf_sourceFactType fact) db) as Hin.
    { rewrite E. apply elem_of_app. right. left. }
    apply active_rules_elem in Hin as (H1 & H2 & H3). do 5 (split; [done|]).
    intros rule v Hr Ht Hs Hfr.
    assert (rule ∈ active_rules (sf_sourceFactType fact) db) as Hin by (by apply active_rules_elem).
    pose proof (order_rules_sorted (List.filter (fun r => bool_decide (pr_sourceFactType r = sf_sourceFactType fact)
      && bool_decide (pr_status r = RuleActive)) (db_rules db))) as Hsort.
    fold (active_rules (sf_sourceFactType fact) db) in Hsort. rewrite E in Hin, Hsort.
    apply elem_of_app in Hin as [Hin|Hin]; [by destruct (Hb rule v Hin)|].
    apply StronglySorted_app_1_r, StronglySorted_inv in Hsort as [_ Hall].
    apply elem_of_cons in Hin as [->|Hin]; [lia|]. rewrite Forall_forall in Hall. by apply Hall.
  - intros rule v Hr Ht Hs. apply Hspec. by apply active_rules_elem.
Qed.

Definition sample_rule : CreateRuleInput :=
  {| cr_predicates :=
       {| pd_effectiveFrom := None; pd_effectiveTo := None; pd_matchProvider := Some "ebay"%string;
          pd_matchChannel := None; pd_matchEconomicEntityId := None; pd_matchFeeType := None;
          pd_matchFeeDirection := None; pd_matchMovementKind := None; pd_matchSourceKind := None;
          pd_matchExpenseCategory := None; pd_matchCapitalize := None; pd_matchCurrency := None;
          pd_matchMinAmount := Some "1"%string; pd_matchMaxAmount := None; pd_note := None |};
     cr_code := "ebay_refund"; cr_name := "eBay refund"; cr_sourceFactType := "order_refund";
     cr_accountingBookId := None; cr_priority := None; cr_description := None;
     cr_lines := [sample_template_line "sales_returns" AmtRefund "1";
                  sample_template_line "marketplace_clearing" AmtRefund "-1"];
     cr_activate := true; cr_createdByUserId := Some "u1"%string; cr_requestId := None |}.
Definition rules_db : Db := snd (createRule sample_rule ledger_db).

Definition sample_refund : SourceFact :=
  {| sf_sourceFactType := FactOrderRefund; sf_sourceFactId := 7; sf_accountingDate := 20260310;
     sf_economicEntityId := None; sf_currency := "USD";
     sf_amounts := [(AmtRefund, "12.5"%string); (AmtTotal, "12.5"%string); (AmtNet, "12.5"%string)];
     sf_attributes :=
       {| at_provider := Some "ebay"%string; at_channel := None; at_feeType := None;
          at_feeDirection := None; at_movementKind := None; at_sourceKind := None;
          at_expenseCategory := None; at_capitalize := None |};
     sf_matchAmount := "12.5"; sf_placeholders := []; sf_description := "Refund";
     sf_relatedFacts := []; sf_accountingBookIdOverride := None; sf_allocations := [];
     sf_ineligibleReason := None |}.

Lemma resolveForFact_first_match_witness :
  exists r, resolveForFact sample_refund 1 rules_db = (Ok (Some r), rules_db) /\
    fires rules_db sample_refund 1 (rp_rule r) (rp_version r) /\
    pr_code (rp_rule r) = "ebay_refund"%string /\ length (rp_lines r) = 2%nat.
Proof.
  destruct (resolveForFact_first_match rules_db sample_refund 1 12500000) as (o & Ho & Hs);
    [vm_compute; reflexivity|].
  assert (is_some (match fst (resolveForFact sample_refund 1 rules_db) with Ok o => o | Throw _ => None end)
    = true) as Hsome by (vm_compute; reflexivity).
  assert (option_map (fun r => (pr_code (rp_rule r), length (rp_lines r)))
    (match fst (resolveForFact sample_refund 1 rules_db) with Ok o => o | Throw _ => None end)
    = Some ("ebay_refund"%string, 2%nat)) as Hcode by (vm_compute; reflexivity).
  rewrite Ho in Hsome, Hcode. cbn [fst] in Hsome, Hcode. destruct o as [r|]; [|discriminate Hsome].
  injection Hcode as H1 H2. exists r. destruct Hs as (_ & _ & _ & Hf & _). auto.
Defined.

(** ** Versions are immutable *)
Record texts_kept (db db' : Db) : Prop := {
  tk_versions v : v ∈ db_versions db ->
    exists v', v' ∈ db_versions db' /\ v' = version_status (pv_status v') v;
  tk_lines v : v ∈ db_versions db -> version_lines (pv_id v) db' = version_lines (pv_id v) db;
}.

#[export] Instance texts_kept_preorder : PreOrder texts_kept.
Proof.
  split.
  - intros db. split; [|done]. intros v Hv. exists v. split; [done|]. by destruct v.
  - intros a b c [V1 L1] [V2 L2]. split.
    + intros v Hv. destruct (V1 v Hv) as (v1 & Hv1 & E1). destruct (V2 v1 Hv1) as (v2 & Hv2 & E2).
      exists v2. split; [done|]. rewrite E2, E1. done.
    + intros v Hv. destruct (V1 v Hv) as (v1 & Hv1 & E1).
      assert (pv_id v1 = pv_id v) as Ei by (by rewrite E1).
      rewrite <- (L1 v Hv), <- Ei. by apply L2.
Qed.

Lemma texts_kept_frame db db' :
  db_versions db' = db_versions db -> db_rule_lines db' = db_rule_lines db -> texts_kept db db'.
Proof.
  intros E1 E2. split.
  - intros v Hv. exists v. rewrite E1. split; [done|]. by destruct v.
  - intros v _. unfold version_lines. by rewrite E2.
Qed.
Ltac by_texts := apply texts_kept_frame; done.

Lemma reads_texts {A} (m : run A) : reads m -> respects texts_kept m.
Proof. apply reads_respects. apply _. Qed.
Lemma insertRuleRow_texts v : respects texts_kept (insertRuleRow v).
Proof. intros db r db' H. unfold insertRuleRow in H. inv_stmt. by_texts. Qed.
Lemma updateRule_texts id f : respects texts_kept (updateRule id f).
Proof. intros db r db' H. unfold updateRule in H. inv_stmt. by_texts. Qed.
Lemma audit_append_texts e : respects texts_kept (audit_append e).
Proof. intros db r db' H. unfold audit_append in H. inv_stmt. by_texts. Qed.
Lemma updateVersionStatus_texts p st : respects texts_kept (updateVersionStatus p st).
Proof.
  intros db r db' H. unfold updateVersionStatus in H. inv_stmt. split; [|done]. intros v Hv.
  eexists. split; [apply update_rows_elem; by exists v|]. destruct (p v); [done|by destruct v].
Qed.
#[local] Hint Resolve reads_texts insertRuleRow_texts updateRule_texts audit_append_texts
  updateVersionStatus_texts : store.

Lemma insertRuleLineRows_spec vs version db rows db' :
  Forall (fun v : uuid -> Z -> PostingRuleLine => forall id now, pl_postingRuleVersionId (v id now) = version) vs ->
  st_mapM insertRuleLineRow vs db = (Ok rows, db') ->
  db_versions db' = db_versions db /\
  exists ls, db_rule_lines db' = db_rule_lines db ++ ls /\
    Forall (fun l => pl_postingRuleVersionId l = version) ls.
Proof.
  intros Hv. revert db rows db'. induction Hv as [|v vs Hv _ IH]; intros db rows db' H; cbn [st_mapM] in H.
  - apply st_ret_inv in H as [-> ->]. split; [done|]. exists []. by rewrite app_nil_r.
  - run_bind H r s Hr. run_bind H rs s2 Hrs. apply st_ret_inv in H as [-> ->].
    unfold insertRuleLineRow in Hr. inv_stmt. apply IH in Hrs as (E & ls & El & Hls).
    split; [by rewrite E|]. exists (v (db_next db) (db_now db) :: ls). split.
    + rewrite El. cbn. by rewrite <- (assoc_L (++)).
    + constructor; [apply Hv|done].
Qed.

Lemma rule_line_values_inv version l db v db' :
  rule_line_values version l db = (Ok v, db') ->
  forall id now, pl_postingRuleVersionId (v id now) = version.
Proof.
  unfold rule_line_values. intros H. run_bind H t s1 H1. run_bind H m s2 H2.
  by apply st_ret_inv in H as [-> _].
Qed.

Lemma insertVersion_texts rule n p lines createdBy :
  respects texts_kept (insertVersion rule n p lines createdBy).
Proof.
  intros db row db' H. unfold insertVersion in H.
  run_bind H a s1 Ha. read_run Ha. run_bind H b s2 Hb. read_run Hb.
  run_bind H c s3 Hc. read_run Hc. run_bind H d s4 Hd. read_run Hd.
  run_bind H v s5 Hv. unfold insertVersionRow in Hv. inv_stmt.
  match goal with G : exists_id _ _ _ = false |- _ => apply exists_id_false in G as Hfresh end.
  match goal with G : st_mapM (rule_line_values _) _ _ = _ |- _ => rename G into Hvs end.
  match goal with G : insertRuleLines _ _ = _ |- _ => rename G into Hins end.
  apply st_mapM_reads_Forall2 in Hvs as [-> Hvs]; [|solve_respects].
  unfold insertRuleLines in Hins. run_bind Hins rows s6 Hrows. inv_stmt.
  apply (insertRuleLineRows_spec _ (db_next db)) in Hrows as (Ev & ls & El & Hls).
  2:{ apply Forall_forall. intros f Hf id now. destruct (list_elem_of_lookup_1 _ _ Hf) as [i Hi].
      destruct (Forall2_lookup_r _ _ _ _ _ Hvs Hi) as ([k l] & _ & Hkl).
      by apply (rule_line_values_inv _ _ _ _ _ Hkl). }
  split.
  - intros v Hv. exists v. rewrite Ev. cbn. split; [apply elem_of_app; by left|by destruct v].
  - intros v Hv. unfold version_lines. rewrite El. f_equal. cbn. rewrite List.filter_app.
    replace (List.filter _ ls) with (@nil PostingRuleLine); [apply app_nil_r|].
    assert (pv_id v <> db_next db) as Hne.
    { intros E. apply Hfresh. rewrite <- E. by apply list_elem_of_fmap_2. }
    clear - Hls Hne. induction Hls as [|l ls Hl _ IH]; [done|]. cbn.
    rewrite bool_decide_false by congruence. exact IH.
Qed.
#[local] Hint Resolve insertVersion_texts : store.

Lemma transaction_texts {A} (body : run A) : respects texts_kept body -> always texts_kept (transaction body).
Proof.
  intros Hb db. unfold transaction. destruct (body (begin_tx db)) as [[a|e] db1] eqn:E; [|reflexivity].
  destruct (commit_check db1); [|reflexivity]. destruct (Hb _ _ _ E) as [H1 H2]. by split.
Qed.

Lemma reads_texts_always {A} (m : run A) : reads m -> always texts_kept m.
Proof. apply reads_always. apply _. Qed.
#[local] Hint Resolve reads_texts_always : store.

(** The text of a version is immutable: whatever a verb of the rules service
    is given, and whether it returns or throws, every version there was keeps
    its predicates, its dates, its number and its rule - only its status may
    move - and its line template is exactly what it was. *)
Theorem rule_versions_immutable (db : Db) (v : PostingRuleVersion) :
  v ∈ db_versions db ->
  let kept db' :=
    (exists v', v' ∈ db_versions db' /\ v' = version_status (pv_status v') v) /\
    version_lines (pv_id v) db' = version_lines (pv_id v) db in
  (forall i, kept (snd (createRule i db))) /\
  (forall i, kept (snd (addVersion i db))) /\
  (forall id actor request, kept (snd (activateVersion id actor request db))) /\
  (forall id st actor request, kept (snd (setRuleStatus id st actor request db))).
Proof.
  intros Hv kept.
  assert (forall A (m : run A), always texts_kept m -> kept (snd (m db))) as Hk.
  { intros A m Hm. destruct (Hm db) as [H1 H2]. split; auto. }
  split; [|split; [|split]]; intros; apply Hk.
  - unfold createRule. solve_respects. apply transaction_texts. unfold createRule_body, activate. solve_respects.
  - unfold addVersion. solve_respects. apply transaction_texts. unfold addVersion_body, activate. solve_respects.
  - unfold activateVersion. solve_respects. apply transaction_texts. unfold activate. solve_respects.
  - unfold setRuleStatus. solve_respects. apply transaction_texts. solve_respects.
Qed.

Definition sample_version : PostingRuleVersion :=
  default (version_row 1 1 (cr_predicates sample_rule) None None None 1 0) (head (db_versions rules_db)).
Definition sample_new_version : AddVersionInput :=
  {| av_predicates := cr_predicates sample_rule; av_postingRuleId := pv_postingRuleId sample_version;
     av_lines := cr_lines sample_rule; av_activate := true; av_createdByUserId := None;
     av_requestId := None |}.

(** A second version is added and takes over; the first keeps its lines. *)
Lemma rule_versions_immutable_witness :
  is_ok (fst (addVersion sample_new_version rules_db)) = true /\
  version_lines (pv_id sample_version) (snd (addVersion sample_new_version rules_db))
    = version_lines (pv_id sample_version) rules_db /\
  length (version_lines (pv_id sample_version) rules_db) = 2%nat.
Proof.
  split; [vm_compute; reflexivity|]. split; [|vm_compute; reflexivity].
  assert (sample_version ∈ db_versions rules_db) as Hin.
  { assert (db_versions rules_db = [sample_version]) as -> by (vm_compute; reflexivity).
    by apply list_elem_of_singleton. }
  exact (proj2 (proj1 (proj2 (rule_versions_immutable rules_db sample_version Hin)) sample_new_version)).
Defined.
