(* ===== verification/DefaultRules.v ===== *)
(** * The default posting rules

    [packages/accounting/src/posting-rules-template.ts], as the inputs of
    [createRule]. *)
From S2P Require Import Prelude Decimal Calendar Inputs Store Schema Ledger LedgerFacts Facts PostingRules.

Open Scope Z_scope.

Definition no_predicates : Predicates :=
  {| pd_effectiveFrom := None; pd_effectiveTo := None; pd_matchProvider := None;
     pd_matchChannel := None; pd_matchEconomicEntityId := None; pd_matchFeeType := None;
     pd_matchFeeDirection := None; pd_matchMovementKind := None; pd_matchSourceKind := None;
     pd_matchExpenseCategory := None; pd_matchCapitalize := None; pd_matchCurrency := None;
     pd_matchMinAmount := None; pd_matchMaxAmount := None; pd_note := None |}.

Definition only_predicates (feeDirection movementKind category : option string)
    (capitalize : option bool) : Predicates :=
  {| pd_effectiveFrom := None; pd_effectiveTo := None; pd_matchProvider := None;
     pd_matchChannel := None; pd_matchEconomicEntityId := None; pd_matchFeeType := None;
     pd_matchFeeDirection := feeDirection; pd_matchMovementKind := movementKind;
     pd_matchSourceKind := None; pd_matchExpenseCategory := category;
     pd_matchCapitalize := capitalize; pd_matchCurrency := None; pd_matchMinAmount := None;
     pd_matchMaxAmount := None; pd_note := None |}.
Definition on_fee_direction (d : string) : Predicates := only_predicates (Some d) None None None.
Definition on_movement_kind (k : string) : Predicates := only_predicates None (Some k) None None.
Definition on_category (c : string) : Predicates := only_predicates None None (Some c) None.
Definition on_capitalize (b : bool) : Predicates := only_predicates None None None (Some b).

Definition default_line (n : Z) (key : string) (s : AmountSource) (multiplier template : option string)
    : PostingRuleLineInput :=
  {| ti_lineNumber := Some n; ti_accountSystemKey := Some key; ti_ledgerAccountId := None;
     ti_amountSource := s; ti_amountMultiplier := multiplier; ti_inheritEntity := None;
     ti_dimensionValueId := None; ti_descriptionTemplate := template |}.

Definition default_rule (code name type : string) (priority : Z) (p : Predicates)
    (description : option string) (lines : list PostingRuleLineInput) : CreateRuleInput :=
  {| cr_predicates := p; cr_code := code; cr_name := name; cr_sourceFactType := type;
     cr_accountingBookId := None; cr_priority := Some priority; cr_description := description;
     cr_lines := lines; cr_activate := true; cr_createdByUserId := None; cr_requestId := None |}.

Definition DEFAULT_POSTING_RULES : list CreateRuleInput :=
[ default_rule "order_sale" "Marketplace sale"
    "order" 100 no_predicates
    (Some "Revenue at sale. Debits marketplace clearing for the provider-asserted total and credits each component Loxep recognizes; the residue parks in suspense until a fee fact explains it."%string)
    [default_line 1 "marketplace_clearing" AmtTotal (Some "1"%string) (Some "{provider} sale {external_order_number}"%string);
     default_line 2 "sales_revenue" AmtSubtotal (Some "-1"%string) None;
     default_line 3 "shipping_income" AmtShipping (Some "-1"%string) None;
     default_line 4 "facilitator_tax_clearing" AmtTax (Some "-1"%string) None;
     default_line 5 "sales_revenue" AmtDiscount (Some "1"%string) None;
     default_line 9 "suspense" AmtRemainder None None];
  default_rule "order_fee_seller_charge" "Marketplace fee charged to the seller"
    "order_fee" 100 (on_fee_direction "seller_charge")
    (Some "A deduction from proceeds: an expense, and a reduction of what the marketplace owes."%string)
    [default_line 1 "marketplace_fees" AmtFee (Some "1"%string) (Some "{fee_type} fee on {external_order_number}"%string);
     default_line 2 "marketplace_clearing" AmtFee (Some "-1"%string) None];
  default_rule "order_fee_buyer_surcharge" "Surcharge the seller charged the buyer"
    "order_fee" 100 (on_fee_direction "buyer_surcharge")
    (Some "Handling, small-order, COD, and gift-wrap surcharges: income, never a fee expense, and already inside the order total — so it clears the sale's suspense residue rather than debiting clearing a second time."%string)
    [default_line 1 "suspense" AmtFee (Some "1"%string) (Some "{fee_type} surcharge on {external_order_number}"%string);
     default_line 2 "buyer_fee_income" AmtFee (Some "-1"%string) None];
  default_rule "order_refund" "Refund to the buyer"
    "order_refund" 100 no_predicates
    (Some "Contra revenue, and a reduction of what the marketplace owes. Sales returns is a contra flag on the ordinary revenue type rather than a sixth account type, which keeps statement grouping trivial."%string)
    [default_line 1 "sales_returns" AmtRefund (Some "1"%string) (Some "Refund on {external_order_number}"%string);
     default_line 2 "marketplace_clearing" AmtRefund (Some "-1"%string) None];
  default_rule "expense_postage" "Expense — postage"
    "expense" 50 (on_category "postage")
    None
    [default_line 1 "shipping_expense" AmtTotal (Some "1"%string) (Some "{category} — {payee_name}"%string);
     default_line 2 "opening_balance_equity" AmtTotal (Some "-1"%string) None];
  default_rule "expense_shipping_supplies" "Expense — shipping supplies"
    "expense" 50 (on_category "shipping_supplies")
    None
    [default_line 1 "shipping_expense" AmtTotal (Some "1"%string) (Some "{category} — {payee_name}"%string);
     default_line 2 "opening_balance_equity" AmtTotal (Some "-1"%string) None];
  default_rule "expense_marketplace_subscription" "Expense — marketplace subscription"
    "expense" 50 (on_category "marketplace_subscription")
    (Some "A store subscription is a marketplace fee that no single order caused. It lands in the same expense account as the per-order fees so the P&L line reads as one cost of selling there."%string)
    [default_line 1 "marketplace_fees" AmtTotal (Some "1"%string) (Some "{category} — {payee_name}"%string);
     default_line 2 "opening_balance_equity" AmtTotal (Some "-1"%string) None];
  default_rule "expense_bank_fees" "Expense — bank and processor fees"
    "expense" 50 (on_category "bank_fees")
    None
    [default_line 1 "payment_processing_fees" AmtTotal (Some "1"%string) (Some "{category} — {payee_name}"%string);
     default_line 2 "opening_balance_equity" AmtTotal (Some "-1"%string) None];
  default_rule "expense_uncategorized" "Expense — no mapped account"
    "expense" 900 no_predicates
    (Some "The catch-all. The shipped chart carries a handful of expense accounts and an operator's categories will outgrow them within a month, so an unmapped expense posts to suspense — visible in a named report, and replaced the moment the operator writes a rule naming their own account. Refusing to post it instead would leave the expense invisible in both the ledger AND the backlog."%string)
    [default_line 1 "suspense" AmtTotal (Some "1"%string) (Some "{category} — {payee_name}"%string);
     default_line 2 "opening_balance_equity" AmtTotal (Some "-1"%string) None];
  default_rule "acquisition_cost_capitalized" "Purchase of goods — capitalized into inventory"
    "acquisition_cost" 100 (on_capitalize true)
    (Some "Money spent on goods is an ASSET, not an expense: it becomes cost basis on the item and reaches the income statement only as COGS when the item depletes. Posting it as an expense here would deduct the same dollar twice."%string)
    [default_line 1 "inventory" AmtTotal (Some "1"%string) (Some "{cost_type} on {reference_code}"%string);
     default_line 2 "opening_balance_equity" AmtTotal (Some "-1"%string) None];
  default_rule "acquisition_cost_expensed" "Acquisition cost the operator chose not to capitalize"
    "acquisition_cost" 100 (on_capitalize false)
    (Some "Mileage to the estate sale, a buyer's premium the operator will not capitalize: real spend that never became basis. It posts from where it sits and is never copied into `expenses`. The account is `suspense` because this fact type carries no cost-type predicate to route on — the same honest catch-all the unmapped-expense rule uses."%string)
    [default_line 1 "suspense" AmtTotal (Some "1"%string) (Some "{cost_type} on {reference_code}"%string);
     default_line 2 "opening_balance_equity" AmtTotal (Some "-1"%string) None];
  default_rule "cogs_on_depletion" "Cost of goods sold, at depletion"
    "inventory_movement" 100 (on_movement_kind "depletion_sale")
    (Some "The design's own worked example: DR cogs / CR inventory at the item's FROZEN landed cost. This is the only way per-item realized contribution and the P&L can agree, because both read the same frozen number rather than each recomputing one."%string)
    [default_line 1 "cogs" AmtQuantityTimesBasis (Some "1"%string) (Some "Cost of goods sold — {item_code}"%string);
     default_line 2 "inventory" AmtQuantityTimesBasis (Some "-1"%string) None];
  default_rule "cogs_depletion_reversed" "Reversed depletion — cost of goods sold, returned"
    "inventory_movement" 100 (on_movement_kind "reversal")
    (Some "A `reversal` movement is how @loxep/inventory corrects an append-only ledger, and a depletion that did not happen must not leave COGS overstated while the stock comes back. The reader refuses to produce a basis for a reversal of anything other than a depletion_sale, so this rule can be unconditional on the kind it reverses."%string)
    [default_line 1 "inventory" AmtQuantityTimesBasis (Some "1"%string) (Some "Reversed depletion — {item_code}"%string);
     default_line 2 "cogs" AmtQuantityTimesBasis (Some "-1"%string) None] ]%string.

(** A whole multiplier. *)
Definition whole (l : PostingRuleLineInput) : bool :=
  match line_units l with Ok u => u mod 10 ^ 6 =? 0 | Throw _ => false end.
