(* ===== verification/PostingEngine.v ===== *)
(** * The posting engine: definitions

    [packages/accounting/src/posting-engine.ts]: one operational fact in, at
    most one journal entry out.  The theorems are in [EngineFacts].

    SHA-256 is [digest], a parameter.  Identifiers appear in the fingerprint
    and the posting key as text: [uuid_text].  The [explanation] sentences of an
    outcome are not kept; its status and its reason are. *)
From S2P Require Import Prelude Decimal Calendar Inputs Store Schema Ledger LedgerFacts Periods Chart.
From S2P Require Import Books Journal JournalFacts Json Facts PostingRules DefaultRules.

Open Scope Z_scope.
#[local] Arguments String.append : simpl nomatch.

(** ** Outcomes *)
Inductive UnpostableReason : Type :=
  | FactNotFound | FactIneligible | NoRoute | NoRule | NoPeriod | NothingToPost.
Inductive OutcomeStatus : Type := Posted | Unchanged | Reposted | Unpostable.
#[export] Instance UnpostableReason_eq_dec : EqDecision UnpostableReason.
Proof. solve_decision. Defined.
#[export] Instance OutcomeStatus_eq_dec : EqDecision OutcomeStatus.
Proof. solve_decision. Defined.

Record RuleStamp : Type := { rs_code : string; rs_version : Z; rs_postingRuleVersionId : uuid }.

Record PostingOutcome : Type := {
  oc_sourceFactType : string;
  oc_sourceFactId : uuid;
  oc_status : OutcomeStatus;
  oc_entry : option JournalEntry;
  oc_reversalEntry : option JournalEntry;
  oc_rule : option RuleStamp;
  oc_accountingBookId : option uuid;
  oc_reason : option UnpostableReason;
}.

Record EvaluateFactInput : Type := {
  ef_sourceFactType : string;
  ef_sourceFactId : uuid;
  ef_installationDefaultBookId : option uuid;
  ef_allowBackdated : bool;
  ef_actorUserId : option string;
  ef_requestId : option string;
}.

(** A rule line, resolved into the journal line it will become. *)
Record BuiltLine : Type := {
  bu_accountSystemKey : option string;
  bu_ledgerAccountId : option uuid;
  bu_amount : string;
  bu_description : option string;
  bu_economicEntityId : option uuid;
  bu_dimensionValueId : option uuid;
}.

(** ** The fingerprint *)
Definition uuid_text (id : uuid) : string := Js.bigint_to_string (Zpos id).

Definition iso_text (t : date) : string :=
  concat_text [Js.pad_start 4 "0" (Js.bigint_to_string (year_of t)); "-";
               Js.pad_start 2 "0" (Js.bigint_to_string (month_of t)); "-";
               Js.pad_start 2 "0" (Js.bigint_to_string (day_of t))].

Definition amount_source_text (s : AmountSource) : string :=
  match s with
  | AmtTotal => "total" | AmtSubtotal => "subtotal" | AmtShipping => "shipping"
  | AmtDiscount => "discount" | AmtTax => "tax" | AmtFee => "fee" | AmtRefund => "refund"
  | AmtNet => "net" | AmtCostBasis => "cost_basis"
  | AmtQuantityTimesBasis => "quantity_times_basis" | AmtRemainder => "remainder"
  end.

(** [.sort()] on the texts. *)
Fixpoint insert_source (s : AmountSource) (l : list AmountSource) : list AmountSource :=
  match l with
  | [] => [s]
  | t :: l' => if String.leb (amount_source_text s) (amount_source_text t) then s :: l
               else t :: insert_source s l'
  end.

(** [[...new Set(sources)].sort()], the plug left out. *)
Definition consumed_sources (lines : list PostingRuleLine) : list AmountSource :=
  foldr insert_source [] (remove_dups
    (List.filter (fun s => negb (bool_decide (s = AmtRemainder))) (pl_amountSource <$> lines))).

Definition ZERO_AMOUNT : string := "0.000000".

(** [String(attribute)], the attribute null when it is absent. *)
Definition attribute_text (a : option string) : string := default "null"%string a.
Definition boolean_text (b : bool) : string := if b then "true" else "false".

(** One entry of [matched], when the predicate is stated. *)
Definition matched_entry (name : string) (predicate attribute : option string)
    : list (string * string) :=
  match predicate with None => [] | Some _ => [(name, attribute_text attribute)] end.

Definition matched_attributes (v : PostingRuleVersion) (a : FactAttributes) : list (string * string) :=
  matched_entry "provider" (pv_matchProvider v) (at_provider a) ++
  matched_entry "channel" (pv_matchChannel v) (at_channel a) ++
  matched_entry "feeType" (pv_matchFeeType v) (at_feeType a) ++
  matched_entry "feeDirection" (pv_matchFeeDirection v) (at_feeDirection a) ++
  matched_entry "movementKind" (pv_matchMovementKind v) (at_movementKind a) ++
  matched_entry "sourceKind" (pv_matchSourceKind v) (at_sourceKind a) ++
  matched_entry "expenseCategory" (pv_matchExpenseCategory v) (at_expenseCategory a) ++
  matched_entry "capitalize" (boolean_text <$> pv_matchCapitalize v) (boolean_text <$> at_capitalize a).

(** What the rule consumed of the fact. *)
Record Consumed : Type := {
  cn_type : FactType;
  cn_id : uuid;
  cn_date : date;
  cn_entity : option uuid;
  cn_currency : string;
  cn_amounts : list (AmountSource * string);
  cn_matched : list (string * string);
  cn_allocations : list FactAllocation;
}.

Definition consumed (fact : SourceFact) (resolved : ResolvedPostingRule) : Consumed :=
  {| cn_type := sf_sourceFactType fact; cn_id := sf_sourceFactId fact;
     cn_date := sf_accountingDate fact; cn_entity := sf_economicEntityId fact;
     cn_currency := sf_currency fact;
     cn_amounts := (fun s => (s, default ZERO_AMOUNT (assoc s (sf_amounts fact)))) <$>
                     consumed_sources (rp_lines resolved);
     cn_matched := matched_attributes (rp_version resolved) (sf_attributes fact);
     cn_allocations := sf_allocations fact |}.

Definition json_opt (id : option uuid) : Json :=
  match id with None => JNull | Some i => JText (uuid_text i) end.

Definition json_allocation (a : FactAllocation) : Json :=
  JArray [json_opt (fa_ledgerAccountId a); JText (fa_amount a);
          json_opt (fa_economicEntityId a); json_opt (fa_dimensionValueId a)].

Definition canonical_json (c : Consumed) : Json :=
  JObject
    [("type"%string, JText (fact_type_text (cn_type c)));
     ("id"%string, JText (uuid_text (cn_id c)));
     ("date"%string, JText (iso_text (cn_date c)));
     ("entity"%string, json_opt (cn_entity c));
     ("currency"%string, JText (cn_currency c));
     ("amounts"%string, JObject ((fun p => (amount_source_text (fst p), JText (snd p))) <$> cn_amounts c));
     ("matched"%string, JObject ((fun p => (fst p, JText (snd p))) <$> cn_matched c));
     ("allocations"%string, JArray (json_allocation <$> cn_allocations c))].

Definition canonical (fact : SourceFact) (resolved : ResolvedPostingRule) : string :=
  JSON_stringify (canonical_json (consumed fact resolved)).

(** ** The posting key *)
Definition postingKeyFor (ruleCode : string) (version : Z) (sourceFactType : string)
    (sourceFactId : uuid) (fingerprint : string) : string :=
  concat_text ["pr"; ":"; ruleCode; ":"; "v"; Js.bigint_to_string version; ":"; sourceFactType; ":";
               uuid_text sourceFactId; ":"; Js.slice 0 12 fingerprint].

(** ** Building the lines *)
Definition built_line (fact : SourceFact) (line : PostingRuleLine) (amount : string) : BuiltLine :=
  {| bu_accountSystemKey := pl_accountSystemKey line; bu_ledgerAccountId := pl_ledgerAccountId line;
     bu_amount := amount;
     bu_description := (fun t => renderTemplate t (sf_placeholders fact)) <$> pl_descriptionTemplate line;
     bu_economicEntityId := if pl_inheritEntity line then sf_economicEntityId fact else None;
     bu_dimensionValueId := pl_dimensionValueId line |}.

(** The loop over the template: the lines built, and the plug line seen
    last. *)
Fixpoint build_loop (fact : SourceFact) (remainderTemplate : option PostingRuleLine)
    (lines : list PostingRuleLine) : result (list BuiltLine * option PostingRuleLine) :=
  match lines with
  | [] => mret ([], remainderTemplate)
  | line :: lines =>
      if bool_decide (pl_amountSource line = AmtRemainder) then build_loop fact (Some line) lines
      else
        match assoc (pl_amountSource line) (sf_amounts fact) with
        | None => Throw AccountingValidationError
        | Some source =>
            amount ← multiplyDecimals source (fromUnits (pl_amountMultiplier line));
            zero ← isZeroDecimal amount;
            rest ← build_loop fact remainderTemplate lines;
            mret (if zero : bool then rest
                  else (built_line fact line amount :: fst rest, snd rest))
        end
  end.

(** [line.amount.startsWith("-")] *)
Definition starts_with_minus (s : string) : bool :=
  match s with String c _ => (c =? "-")%char | EmptyString => false end.

Definition allocation_line (target : BuiltLine) (a : FactAllocation) : result BuiltLine :=
  amount ← toMoneyString (fa_amount a);
  mret {| bu_accountSystemKey := None; bu_ledgerAccountId := fa_ledgerAccountId a;
          bu_amount := amount; bu_description := bu_description target;
          bu_economicEntityId := or_else (fa_economicEntityId a) (bu_economicEntityId target);
          bu_dimensionValueId := fa_dimensionValueId a |}.

Definition with_amount (l : BuiltLine) (amount : string) : BuiltLine :=
  {| bu_accountSystemKey := bu_accountSystemKey l; bu_ledgerAccountId := bu_ledgerAccountId l;
     bu_amount := amount; bu_description := bu_description l;
     bu_economicEntityId := bu_economicEntityId l; bu_dimensionValueId := bu_dimensionValueId l |}.

(** The debit side of an expense entry, one line per allocation that names an
    account.  [target] is the only line that is not negative, so the lines
    other than it are the negative ones. *)
Definition splitByAllocations (fact : SourceFact) (lines : list BuiltLine) : result (list BuiltLine) :=
  let allocations := List.filter (fun a => is_some (fa_ledgerAccountId a)) (sf_allocations fact) in
  if bool_decide (sf_sourceFactType fact <> FactExpense) || (length allocations =? 0)%nat then mret lines
  else
    match List.filter (fun l => negb (starts_with_minus (bu_amount l))) lines with
    | [target] =>
        allocated ← sumDecimals (fa_amount <$> allocations);
        allocatedNegative ← isNegative allocated;
        targetNegative ← isNegative (bu_amount target);
        larger ← (if xorb allocatedNegative targetNegative then mret true
                  else
                    x ← absDecimal allocated; y ← absDecimal (bu_amount target);
                    c ← compareDecimals x y; mret (0 <? c));
        if larger : bool then mret lines
        else
          replacement ← res_mapM (allocation_line target) allocations;
          negated ← negateDecimal allocated;
          unallocated ← sumDecimals [bu_amount target; negated];
          zero ← isZeroDecimal unallocated;
          mret (List.filter (fun l => starts_with_minus (bu_amount l)) lines ++ replacement ++
                (if zero : bool then [] else [with_amount target unallocated]))
    | _ => mret lines
    end.

Definition buildLines (fact : SourceFact) (resolved : ResolvedPostingRule) : result (list BuiltLine) :=
  looped ← build_loop fact None (rp_lines resolved);
  split ← splitByAllocations fact (fst looped);
  match snd looped with
  | None => mret split
  | Some template =>
      total ← sumDecimals (bu_amount <$> split);
      residue ← negateDecimal total;
      zero ← isZeroDecimal residue;
      mret (if zero : bool then split else split ++ [built_line fact template residue])
  end.

(** ** Routing and posting *)
Definition routeBook (fact : SourceFact) (installationDefaultBookId : option uuid)
    : run (option AccountingBook) :=
  match sf_accountingBookIdOverride fact with
  | Some id => book ← loadBook id; mret (Some book)
  | None =>
      routing ← resolveBookForEntity (sf_economicEntityId fact) (sf_accountingDate fact)
                  installationDefaultBookId;
      match routing with
      | None => mret None
      | Some r => book ← loadBook (br_accountingBookId r); mret (Some book)
      end
  end.

(** The posted entry a rule wrote for the fact: what [existingEntryFor]
    selects. *)
Definition posted_for (t : string) (id : uuid) (e : JournalEntry) : bool :=
  opt_eqb (je_sourceFactType e) t && opt_eqb (je_sourceFactId e) id
  && bool_decide (je_entrySource e = SourcePostingRule) && bool_decide (je_status e = EntryPosted)
  && negb (is_some (je_reversesEntryId e)).

Definition existingEntryFor (fact : SourceFact) : run (option JournalEntry) :=
  db ← st_get;
  match order_by (fun e => - je_createdAt e)
          (List.filter (posted_for (fact_type_text (sf_sourceFactType fact)) (sf_sourceFactId fact))
             (db_entries db)) with
  | [] => mret None
  | found :: _ => e ← loadEntry (je_id found); mret (Some e)
  end.

(** [dimensionValueId] is not passed on. *)
Definition journal_line (currency : string) (index : Z) (l : BuiltLine) : JournalLineInput :=
  {| li_ledgerAccountId := bu_ledgerAccountId l; li_accountSystemKey := bu_accountSystemKey l;
     li_economicEntityId := bu_economicEntityId l; li_lineNumber := Some (index + 1);
     li_description := bu_description l; li_currency := Some currency; li_amount := bu_amount l;
     li_dimensions := [] |}.

Fixpoint journal_lines (currency : string) (index : Z) (lines : list BuiltLine) : list JournalLineInput :=
  match lines with
  | [] => []
  | l :: lines => journal_line currency index l :: journal_lines currency (index + 1) lines
  end.

Definition related_link (r : RelatedFact) : SourceLinkInput :=
  {| sk_sourceFactType := rf_sourceFactType r; sk_sourceFactId := rf_sourceFactId r;
     sk_role := rf_role r; sk_amountContributed := None; sk_currency := None |}.

Definition primary_link (fact : SourceFact) : SourceLinkInput :=
  {| sk_sourceFactType := fact_type_text (sf_sourceFactType fact);
     sk_sourceFactId := sf_sourceFactId fact; sk_role := RolePrimary;
     sk_amountContributed := None; sk_currency := None |}.

Definition posting_input (fact : SourceFact) (resolved : ResolvedPostingRule) (book : AccountingBook)
    (fingerprint : string) (input : EvaluateFactInput) (lines : list BuiltLine) : EntryInput :=
  {| en_accountingBookId := Some (bk_id book); en_economicEntityId := None;
     en_installationDefaultBookId := None; en_entryDate := sf_accountingDate fact;
     en_description := sf_description fact; en_memo := None;
     en_entrySource := Some SourcePostingRule;
     en_postingRuleVersionId := Some (pv_id (rp_version resolved));
     en_postingKey := Some (postingKeyFor (pr_code (rp_rule resolved)) (pv_version (rp_version resolved))
                              (fact_type_text (sf_sourceFactType fact)) (sf_sourceFactId fact) fingerprint);
     en_sourceFactType := Some (fact_type_text (sf_sourceFactType fact));
     en_sourceFactId := Some (sf_sourceFactId fact);
     en_sourceFactFingerprint := Some fingerprint;
     en_lines := journal_lines (sf_currency fact) 0 lines;
     en_sourceLinks := primary_link fact :: (related_link <$> sf_relatedFacts fact);
     en_createdByUserId := ef_actorUserId input; en_requestId := ef_requestId input;
     en_allowBackdated := ef_allowBackdated input; en_postedByUserId := ef_actorUserId input |}.

Definition post (fact : SourceFact) (resolved : ResolvedPostingRule) (book : AccountingBook)
    (fingerprint : string) (input : EvaluateFactInput) : run PostedEntry :=
  lines ← st_lift (buildLines fact resolved);
  postEntry (posting_input fact resolved book fingerprint input lines).

(** ** Evaluation *)
Definition unpostable (input : EvaluateFactInput) (reason : UnpostableReason)
    (book : option uuid) (reversal : option JournalEntry) : PostingOutcome :=
  {| oc_sourceFactType := ef_sourceFactType input; oc_sourceFactId := ef_sourceFactId input;
     oc_status := Unpostable; oc_entry := None; oc_reversalEntry := reversal; oc_rule := None;
     oc_accountingBookId := book; oc_reason := Some reason |}.

Definition rule_stamp (resolved : ResolvedPostingRule) : RuleStamp :=
  {| rs_code := pr_code (rp_rule resolved); rs_version := pv_version (rp_version resolved);
     rs_postingRuleVersionId := pv_id (rp_version resolved) |}.

Definition outcome (input : EvaluateFactInput) (status : OutcomeStatus) (entry : JournalEntry)
    (reversal : option JournalEntry) (resolved : ResolvedPostingRule) (book : uuid) : PostingOutcome :=
  {| oc_sourceFactType := ef_sourceFactType input; oc_sourceFactId := ef_sourceFactId input;
     oc_status := status; oc_entry := Some entry; oc_reversalEntry := reversal;
     oc_rule := Some (rule_stamp resolved); oc_accountingBookId := Some book; oc_reason := None |}.

Definition reverse_for (fact : SourceFact) (input : EvaluateFactInput) (entry : JournalEntry)
    (reason : string) : run PostedEntry :=
  reverseEntry (je_id entry) (Some (sf_accountingDate fact)) reason (ef_allowBackdated input)
    (ef_actorUserId input) (ef_requestId input).

Definition ineligible_reason (reason : string) : string :=
  concat_text ["the source fact is no longer postable: "; reason].

Definition repost_reason (existing : JournalEntry) (resolved : ResolvedPostingRule)
    (fingerprint : string) : string :=
  if opt_eqb (je_postingRuleVersionId existing) (pv_id (rp_version resolved))
  then concat_text ["the source fact changed after posting (fingerprint ";
                    default "none"%string (Js.slice 0 12 <$> je_sourceFactFingerprint existing);
                    " -> "; Js.slice 0 12 fingerprint; ")"]
  else concat_text ["re-posted under rule "; pr_code (rp_rule resolved); " v";
                    Js.bigint_to_string (pv_version (rp_version resolved))].

(** An ineligible fact: the entry it had produced, if any, is reversed. *)
Definition evaluate_ineligible (input : EvaluateFactInput) (fact : SourceFact) (reason : string)
    : run PostingOutcome :=
  posted ← existingEntryFor fact;
  match posted with
  | None => mret (unpostable input FactIneligible None None)
  | Some entry =>
      reversal ← reverse_for fact input entry (ineligible_reason reason);
      mret (unpostable input FactIneligible None (Some (po_entry reversal)))
  end.

(** The fact has a posted entry: nothing to do, or reverse it and post anew. *)
Definition evaluate_existing (input : EvaluateFactInput) (fact : SourceFact) (book : AccountingBook)
    (resolved : ResolvedPostingRule) (fingerprint : string) (existing : JournalEntry)
    : run PostingOutcome :=
  if opt_eqb (je_sourceFactFingerprint existing) fingerprint
     && opt_eqb (je_postingRuleVersionId existing) (pv_id (rp_version resolved))
  then mret (outcome input Unchanged existing None resolved (bk_id book))
  else
    reversal ← reverse_for fact input existing (repost_reason existing resolved fingerprint);
    posted ← post fact resolved book fingerprint input;
    mret (outcome input Reposted (po_entry posted) (Some (po_entry reversal)) resolved (bk_id book)).

(** It has none. *)
Definition evaluate_new (input : EvaluateFactInput) (fact : SourceFact) (book : AccountingBook)
    (resolved : ResolvedPostingRule) (fingerprint : string) : run PostingOutcome :=
  built ← st_lift (buildLines fact resolved);
  if (length built <? 2)%nat then mret (unpostable input NothingToPost (Some (bk_id book)) None)
  else
    posted ← post fact resolved book fingerprint input;
    mret (outcome input (if po_reused posted then Unchanged else Posted) (po_entry posted) None
            resolved (bk_id book)).

Section engine.
(** SHA-256, in hexadecimal. *)
Variable digest : string -> string.

Definition fingerprintFact (fact : SourceFact) (resolved : ResolvedPostingRule) : string :=
  digest (canonical fact resolved).

Definition evaluate_eligible (input : EvaluateFactInput) (fact : SourceFact) : run PostingOutcome :=
  routed ← routeBook fact (ef_installationDefaultBookId input);
  match routed with
  | None => mret (unpostable input NoRoute None None)
  | Some book =>
      if bool_decide (bk_status book <> BookActive) then mret (unpostable input NoRoute None None)
      else
        resolved ← resolveForFact fact (bk_id book);
        match resolved with
        | None => mret (unpostable input NoRule (Some (bk_id book)) None)
        | Some resolved =>
            let fingerprint := fingerprintFact fact resolved in
            existing ← existingEntryFor fact;
            match existing with
            | Some existing => evaluate_existing input fact book resolved fingerprint existing
            | None => evaluate_new input fact book resolved fingerprint
            end
        end
  end.

(** The inner [evaluateFact]. *)
Definition evaluateFact (input : EvaluateFactInput) : run PostingOutcome :=
  fact ← read (ef_sourceFactType input) (ef_sourceFactId input);
  match fact with
  | None => mret (unpostable input FactNotFound None None)
  | Some fact =>
      match sf_ineligibleReason fact with
      | Some reason => evaluate_ineligible input fact reason
      | None => evaluate_eligible input fact
      end
  end.

(** The member [evaluateFact] of the engine. *)
Definition engine_evaluateFact (input : EvaluateFactInput) : run PostingOutcome :=
  st_catch (evaluateFact input) (fun e =>
    if bool_decide (e = BookRoutingError) then mret (unpostable input NoRoute None None)
    else st_throw e).

(** The sweep calls the inner function. *)
Definition evaluateFacts (facts : list EvaluateFactInput) : run (list PostingOutcome) :=
  st_mapM evaluateFact facts.
End engine.

(** ** Seeding *)
Definition with_caller (actor request : option string) (i : CreateRuleInput) : CreateRuleInput :=
  {| cr_predicates := cr_predicates i; cr_code := cr_code i; cr_name := cr_name i;
     cr_sourceFactType := cr_sourceFactType i; cr_accountingBookId := cr_accountingBookId i;
     cr_priority := cr_priority i; cr_description := cr_description i; cr_lines := cr_lines i;
     cr_activate := cr_activate i; cr_createdByUserId := actor; cr_requestId := request |}.

(** The codes created and the codes found. *)
Fixpoint seed_rules (actor request : option string) (templates : list CreateRuleInput)
    : run (list string * list string) :=
  match templates with
  | [] => mret ([], [])
  | template :: templates =>
      found ← findRuleByCode (cr_code template);
      match found with
      | Some _ =>
          rest ← seed_rules actor request templates;
          mret (fst rest, cr_code template :: snd rest)
      | None =>
          _ ← createRule (with_caller actor request template);
          rest ← seed_rules actor request templates;
          mret (cr_code template :: fst rest, snd rest)
      end
  end.

Definition seedDefaultRules (actor request : option string) : run (list string * list string) :=
  seed_rules actor request DEFAULT_POSTING_RULES.

(** ** Read models *)
Definition backlog_input (f : FactType * uuid) : EvaluateFactInput :=
  {| ef_sourceFactType := fact_type_text (fst f); ef_sourceFactId := snd f;
     ef_installationDefaultBookId := None; ef_allowBackdated := false; ef_actorUserId := None;
     ef_requestId := None |}.

(** [.catch(() => null)] *)
Definition routeBook_quietly (fact : SourceFact) (installationDefaultBookId : option uuid)
    : run (option AccountingBook) :=
  st_catch (routeBook fact installationDefaultBookId) (fun _ => mret None).

Definition backlog_entry (installationDefaultBookId : option uuid) (candidate : FactType * uuid)
    : run (option PostingOutcome) :=
  let base := unpostable (backlog_input candidate) in
  fact ← read (fact_type_text (fst candidate)) (snd candidate);
  match fact with
  | None => mret None
  | Some fact =>
      if is_some (sf_ineligibleReason fact) then mret (Some (base FactIneligible None None))
      else
        routed ← routeBook_quietly fact installationDefaultBookId;
        match routed with
        | None => mret (Some (base NoRoute None None))
        | Some book =>
            resolved ← resolveForFact fact (bk_id book);
            mret (Some (base (if is_some resolved then NoPeriod else NoRule) (Some (bk_id book)) None))
        end
  end.

Definition unpostableBacklog (sourceFactTypes : option (list FactType))
    (installationDefaultBookId : option uuid) (limit : option Z) : run (list PostingOutcome) :=
  candidates ← unpostedFacts sourceFactTypes limit;
  out ← st_mapM (backlog_entry installationDefaultBookId) candidates;
  mret (omap id out).

Definition explainFact (sourceFactType : string) (sourceFactId : uuid)
    (installationDefaultBookId : option uuid)
    : run (option SourceFact * option uuid * list (string * bool * CandidateReason)) :=
  fact ← read sourceFactType sourceFactId;
  match fact with
  | None => mret (None, None, [])
  | Some fact =>
      routed ← routeBook_quietly fact installationDefaultBookId;
      match routed with
      | None => mret (Some fact, None, [])
      | Some book =>
          candidates ← candidatesForFact fact (bk_id book);
          mret (Some fact, Some (bk_id book),
                (fun '(rule, matched, reason) => (pr_code rule, matched, reason)) <$> candidates)
      end
  end.

(** ** An installation with an order and an expense to post *)
Definition day_instant (days : Z) : Z := days * 86400 * 10 ^ 6.

(** Sold on 2026-03-10: 100.00 and 5.00 shipping, less 1.50, plus 8.25 tax; the
    provider asserts a total three cents higher. *)
Definition sample_order (total : Z) : Order :=
  {| o_id := 900; o_provider := "ebay"; o_channel := "ebay_us"; o_economicEntityId := None;
     o_currency := "USD"; o_status := "completed"; o_subtotalAmount := 100000000;
     o_shippingAmount := 5000000; o_discountAmount := 1500000; o_taxAmount := 8250000;
     o_feeAmount := 0; o_refundedAmount := 0; o_totalAmount := total;
     o_externalOrderId := "x-1"; o_externalOrderNumber := Some "12-3456"%string;
     o_placedAt := day_instant 20522 |}.

Definition sample_expense (status : ExpenseStatus) (day : date) : Expense :=
  {| ex_id := 901; ex_economicEntityId := None; ex_entityAttributionSource := AttrUnattributed;
     ex_entityAttributedAt := None; ex_entityAttributedByUserId := None;
     ex_referenceCode := "EXP-2026-00001"; ex_expenseDate := day;
     ex_payeeName := Some "Packing Co"%string; ex_payeeCounterpartyId := None;
     ex_category := "shipping_supplies"; ex_description := None; ex_currency := "USD";
     ex_amount := 30000000; ex_taxAmount := 2000000; ex_paymentMethod := PayCard;
     ex_acquisitionCostId := None; ex_accountingBookId := None; ex_status := status;
     ex_reimbursable := false; ex_recurringGroupKey := None; ex_notes := None;
     ex_createdByUserId := None; ex_createdAt := 0; ex_updatedAt := 0 |}.

Definition order_facts (total : Z) : FactTables :=
  {| ft_orders := [sample_order total]; ft_orderFees := []; ft_orderRefunds := []; ft_orderLines := [];
     ft_acquisitions := []; ft_acquisitionCosts := []; ft_items := []; ft_movements := [];
     ft_candidates := []; ft_catalogItems := []; ft_counterparties := [] |}.

(** [ledger_db] with the default rules. *)
Definition seeded_db : Db := snd (seedDefaultRules (Some "u1"%string) None ledger_db).
Definition engine_db : Db := set_facts (order_facts 111780000) seeded_db.

Definition evaluate_order : EvaluateFactInput :=
  {| ef_sourceFactType := "order"; ef_sourceFactId := 900; ef_installationDefaultBookId := Some 1%positive;
     ef_allowBackdated := false; ef_actorUserId := Some "u1"%string; ef_requestId := None |}.

(** Stand-in digest: a polynomial hash, in decimal. *)
Definition sample_digest (s : string) : string :=
  Js.bigint_to_string (10 ^ 20 + fold_left (fun h c => (h * 257 + Z.of_nat (nat_of_ascii c)) mod (10 ^ 20 - 11))
                                   (list_ascii_of_string s) 7).
