(* ===== verification/LineBuilding.v ===== *)
(** * What the engine reads and what it builds

    The fingerprint covers exactly what the rule consumed; the lines a checked template
    builds, and when they balance. *)
From S2P Require Import Prelude Decimal Calendar Inputs Store Schema Ledger LedgerFacts Books Journal.
From S2P Require Import JournalFacts JournalMachine Json Facts PostingRules DefaultRules PostingEngine.

Open Scope Z_scope.

Lemma bigint_to_string_inj u v :
  0 <= u -> 0 <= v -> Js.bigint_to_string u = Js.bigint_to_string v -> u = v.
Proof.
  intros Hu Hv E. destruct (bigint_to_string_spec u Hu) as (_ & <- & _).
  destruct (bigint_to_string_spec v Hv) as (_ & <- & _). by rewrite E.
Qed.

Lemma uuid_text_inj a b : uuid_text a = uuid_text b -> a = b.
Proof. intros E%bigint_to_string_inj; [by injection E|done..]. Qed.

(** A number padded with zeros: digits, and the number. *)
Lemma padded_digits n u : 0 <= u ->
  Js.all_digits (Js.pad_start n "0" (Js.bigint_to_string u)) = true /\
  Js.bigint (Js.pad_start n "0" (Js.bigint_to_string u)) = u.
Proof.
  intros Hu. destruct (bigint_to_string_spec u Hu) as (H1 & H2 & _). unfold Js.pad_start.
  rewrite all_digits_append, all_digits_zeros, H1, bigint_zeros. done.
Qed.

(** Two texts of digits before the same separator. *)
Lemma digits_before a b x y :
  Js.all_digits a = true -> Js.all_digits b = true ->
  String.append a (String "-" x) = String.append b (String "-" y) -> a = b /\ x = y.
Proof.
  revert b. induction a as [|c a IH]; intros [|d b] Ha Hb E; cbn [Js.all_digits String.append] in *.
  - by injection E.
  - injection E as <- _. by apply andb_true_iff in Hb as [Hb _].
  - injection E as -> _. by apply andb_true_iff in Ha as [Ha _].
  - injection E as -> E. apply andb_true_iff in Ha as [_ Ha]. apply andb_true_iff in Hb as [_ Hb].
    destruct (IH b Ha Hb E) as [-> ->]. done.
Qed.

Lemma iso_text_inj t u : 0 <= t -> 0 <= u -> iso_text t = iso_text u -> t = u.
Proof.
  intros Ht Hu. unfold iso_text, concat_text. cbn [foldr].
  assert (forall x, 0 <= x -> 0 <= year_of x /\ 0 <= month_of x /\ 0 <= day_of x) as Hf.
  { intros x Hx. unfold year_of, month_of, day_of. repeat split; [by apply Z.div_pos| |]; by apply Z.mod_pos_bound. }
  destruct (Hf t Ht) as (Hy & Hm & Hd). destruct (Hf u Hu) as (Hy' & Hm' & Hd').
  destruct (padded_digits 4 _ Hy) as [Y1 Y2]. destruct (padded_digits 4 _ Hy') as [Y1' Y2'].
  destruct (padded_digits 2 _ Hm) as [M1 M2]. destruct (padded_digits 2 _ Hm') as [M1' M2'].
  destruct (padded_digits 2 _ Hd) as [D1 D2]. destruct (padded_digits 2 _ Hd') as [D1' D2'].
  rewrite !append_nil_r. intros E.
  apply digits_before in E as [EY E]; [|done..]. apply digits_before in E as [EM ED]; [|done..].
  assert (year_of t = year_of u) as E1 by (by rewrite <- Y2, <- Y2', EY).
  assert (month_of t = month_of u) as E2 by (by rewrite <- M2, <- M2', EM).
  assert (day_of t = day_of u) as E3 by (by rewrite <- D2, <- D2', ED).
  clear - E1 E2 E3. unfold year_of, month_of, day_of in *.
  assert (forall x, x = 10000 * (x / 10000) + 100 * ((x / 100) mod 100) + x mod 100) as H.
  { intros x. pose proof (Z.div_mod x 100 ltac:(done)) as H1.
    pose proof (Z.div_mod (x / 100) 100 ltac:(done)) as H2. rewrite Z.div_div in H2 by done.
    change (100 * 100) with 10000 in H2. lia. }
  rewrite (H t), (H u). congruence.
Qed.

Lemma amount_source_text_inj s t : amount_source_text s = amount_source_text t -> s = t.
Proof. by destruct s, t. Qed.
Lemma json_opt_inj a b : json_opt a = json_opt b -> a = b.
Proof. destruct a, b; cbn; [intros [= ->%uuid_text_inj]|..]; done. Qed.
Lemma json_allocation_inj a b : json_allocation a = json_allocation b -> a = b.
Proof.
  destruct a as [a1 a2 a3 a4], b as [b1 b2 b3 b4]. unfold json_allocation. cbn [fa_ledgerAccountId fa_amount fa_economicEntityId fa_dimensionValueId].
  intros E. injection E as E1 E2 E3 E4. apply json_opt_inj in E1, E3, E4. congruence.
Qed.

Lemma fmap_inj {A B} (f : A -> B) (l k : list A) :
  (forall x y, f x = f y -> x = y) -> f <$> l = f <$> k -> l = k.
Proof.
  intros Hf. revert k. induction l as [|x l IH]; intros [|y k]; csimpl; try done.
  intros E. injection E as ->%Hf E. f_equal. by apply IH.
Qed.

Lemma canonical_json_inj c d :
  0 <= cn_date c -> 0 <= cn_date d -> canonical_json c = canonical_json d -> c = d.
Proof.
  destruct c as [t i dt e cu am ma al], d as [t' i' dt' e' cu' am' ma' al'].
  cbn [cn_date]. intros Hc Hd. unfold canonical_json.
  cbn [cn_type cn_id cn_date cn_entity cn_currency cn_amounts cn_matched cn_allocations].
  intros E. injection E as E1 E2 E3 E4 E5 E6 E7 E8.
  apply fact_type_text_inj in E1. apply uuid_text_inj in E2. apply iso_text_inj in E3; [|done..].
  apply json_opt_inj in E4.
  assert (am = am') as ->.
  { revert E6. apply fmap_inj. intros [s x] [s' x'] [= ->%amount_source_text_inj ->]. done. }
  assert (ma = ma') as ->.
  { revert E7. apply fmap_inj. by intros [s x] [s' x'] [= -> ->]. }
  apply fmap_inj in E8; [|exact json_allocation_inj]. by subst.
Qed.

(** The fingerprint covers exactly what the rule consumed: the hashed texts
    of two facts under two rule versions coincide if and only if the facts have
    the same identity, date, entity and currency, the same values in every
    amount either version reads, the same matched attributes and the same
    allocations.  Nothing else of a fact can reverse an entry, and no two
    different readings share a text. *)
Theorem fingerprint_exact (f g : SourceFact) (r s : ResolvedPostingRule) :
  0 <= sf_accountingDate f -> 0 <= sf_accountingDate g ->
  (canonical f r = canonical g s <-> consumed f r = consumed g s).
Proof.
  intros Hf Hg. unfold canonical. split; [|by intros ->].
  intros E%string_of_list_ascii_inj.
  assert (canonical_json (consumed f r) = canonical_json (consumed g s)) as H.
  { apply (stringify_reads_off _ _ [] []). by rewrite !app_nil_r. }
  by apply canonical_json_inj in H.
Qed.

(** The rule of [rules_db] reads the refunded amount and the provider: neither
    the description nor the channel of a refund matters to it, the amount
    does. *)
Definition refund_as (description : string) (channel : option string) (amount : string) : SourceFact :=
  {| sf_sourceFactType := FactOrderRefund; sf_sourceFactId := 7; sf_accountingDate := 20260310;
     sf_economicEntityId := None; sf_currency := "USD"; sf_amounts := [(AmtRefund, amount)];
     sf_attributes :=
       {| at_provider := Some "ebay"%string; at_channel := channel; at_feeType := None;
          at_feeDirection := None; at_movementKind := None; at_sourceKind := None;
          at_expenseCategory := None; at_capitalize := None |};
     sf_matchAmount := amount; sf_placeholders := []; sf_description := description;
     sf_relatedFacts := []; sf_accountingBookIdOverride := None; sf_allocations := [];
     sf_ineligibleReason := None |}.
Definition sample_resolved : ResolvedPostingRule :=
  {| rp_rule := rule_row sample_rule FactOrderRefund 1 0; rp_version := sample_version;
     rp_lines := version_lines (pv_id sample_version) rules_db |}.

Lemma fingerprint_exact_witness :
  canonical (refund_as "a" None "12.500000") sample_resolved =
    canonical (refund_as "b" (Some "web"%string) "12.500000") sample_resolved /\
  canonical (refund_as "a" None "12.500000") sample_resolved <>
    canonical (refund_as "a" None "12.500001") sample_resolved.
Proof.
  split.
  - apply (fingerprint_exact (refund_as "a" None "12.500000")
      (refund_as "b" (Some "web"%string) "12.500000") sample_resolved sample_resolved); [done|done|].
    vm_compute. reflexivity.
  - intros E. apply (fingerprint_exact (refund_as "a" None "12.500000")
      (refund_as "a" None "12.500001") sample_resolved sample_resolved) in E; [|done|done].
    vm_compute in E. discriminate E.
Defined.

(** ** Line building

    What [buildLines] of [PostingEngine] makes of a template and a fact: it is
    total on the facts the readers produce and the templates the save-time
    check admits; the split by allocations moves no money; and what it builds
    adds up to zero, with a plug or without one. *)

(** ** Amounts of built lines *)
Definition text_units (s : string) : Z := match toUnits s with Ok u => u | Throw _ => 0 end.
Definition parses (s : string) : Prop := toUnits s = Ok (text_units s).

Definition amount_units (l : BuiltLine) : Z := text_units (bu_amount l).

(** Every amount is a literal, and they add up to [t] micro-units. *)
Definition adds_up (lines : list BuiltLine) (t : Z) : Prop :=
  Forall (fun l => parses (bu_amount l)) lines /\ sumZ (amount_units <$> lines) = t.

Lemma text_units_ok s u : toUnits s = Ok u -> text_units s = u.
Proof. unfold text_units. by intros ->. Qed.
Lemma parses_ok s u : toUnits s = Ok u -> parses s.
Proof. unfold parses, text_units. by intros ->. Qed.
Lemma text_units_fromUnits u : text_units (fromUnits u) = u.
Proof. apply text_units_ok, toUnits_fromUnits. Qed.
Lemma parses_fromUnits u : parses (fromUnits u).
Proof. eapply parses_ok, toUnits_fromUnits. Qed.
#[local] Hint Resolve parses_fromUnits toUnits_fromUnits : core.

Lemma parse_all {A} (f : A -> string) l :
  Forall (fun x => parses (f x)) l ->
  Forall2 (fun v u => toUnits v = Ok u) (f <$> l) ((fun x => text_units (f x)) <$> l).
Proof. induction 1; csimpl; constructor; done. Qed.

Lemma sum_texts {A} (f : A -> string) l :
  Forall (fun x => parses (f x)) l ->
  sumDecimals (f <$> l) = Ok (fromUnits (sumZ ((fun x => text_units (f x)) <$> l))).
Proof. intros H. by apply sumDecimals_units, parse_all. Qed.

Lemma adds_up_app l k t u : adds_up l t -> adds_up k u -> adds_up (l ++ k) (t + u).
Proof.
  intros [H1 E1] [H2 E2]. split; [by apply Forall_app|]. by rewrite fmap_app, sumZ_app, E1, E2.
Qed.

Lemma adds_up_one l u : toUnits (bu_amount l) = Ok u -> adds_up [l] u.
Proof.
  intros H. split; [by constructor; [eapply parses_ok|]|]. csimpl. unfold amount_units.
  rewrite (text_units_ok _ _ H). cbn. lia.
Qed.

Lemma adds_up_partition (p : BuiltLine -> bool) lines t :
  adds_up lines t ->
  adds_up (List.filter p lines) (t - sumZ (amount_units <$> List.filter (fun l => negb (p l)) lines)).
Proof.
  intros [H <-]. split.
  - induction H as [|l lines Hl _ IH]; [constructor|]. cbn. destruct (p l); [by constructor|done].
  - induction lines as [|l lines IH]; [done|]. apply Forall_cons in H as [_ H]. cbn.
    specialize (IH H). destruct (p l); csimpl; unfold sumZ in *; cbn [foldr] in *; lia.
Qed.

(** ** The split by allocations *)
Definition allocations_parse (fact : SourceFact) : Prop :=
  Forall (fun a => parses (fa_amount a)) (sf_allocations fact).

Lemma allocation_lines target allocations :
  Forall (fun a => parses (fa_amount a)) allocations ->
  exists lines, res_mapM (allocation_line target) allocations = Ok lines /\
    adds_up lines (sumZ ((fun a => text_units (fa_amount a)) <$> allocations)).
Proof.
  induction 1 as [|a l Ha _ (lines & Hl & Ht)]; cbn [res_mapM].
  { exists []. by split. }
  assert (exists b, allocation_line target a = Ok b /\ adds_up [b] (text_units (fa_amount a)))
    as (b & Hb & Hbt).
  { unfold allocation_line. rewrite (toMoneyString_units _ _ Ha). eexists. split; [reflexivity|].
    apply adds_up_one, toUnits_fromUnits. }
  rewrite Hb. cbn [mbind result_bind]. rewrite Hl. exists (b :: lines). split; [done|].
  csimpl. by apply (adds_up_app [b] lines).
Qed.

Lemma split_adds_up fact lines t :
  allocations_parse fact -> adds_up lines t ->
  exists split, splitByAllocations fact lines = Ok split /\ adds_up split t.
Proof.
  intros Hall Ht. unfold splitByAllocations. cbv zeta.
  destruct (bool_decide (sf_sourceFactType fact <> FactExpense) || _); [by exists lines|].
  set (p := fun l => starts_with_minus (bu_amount l)).
  destruct (List.filter (fun l => negb (starts_with_minus (bu_amount l))) lines) as [|target [|]] eqn:Ef;
    [by exists lines| |by exists lines].
  set (allocations := List.filter _ (sf_allocations fact)).
  assert (Forall (fun a => parses (fa_amount a)) allocations) as Ha.
  { unfold allocations, allocations_parse in *. clear - Hall. induction Hall as [|a l]; [constructor|].
    cbn. destruct (is_some _); [by constructor|done]. }
  assert (parses (bu_amount target)) as Htg.
  { destruct Ht as [Hl _]. rewrite Forall_forall in Hl. apply Hl.
    assert (target ∈ List.filter (fun l => negb (starts_with_minus (bu_amount l))) lines) as Hin
      by (rewrite Ef; left).
    by apply list_elem_of_In, filter_In, proj1, list_elem_of_In in Hin. }
  rewrite sum_texts by done. cbn [mbind result_bind].
  set (A := sumZ _). erewrite !isNegative_units by done. cbn [mbind result_bind].
  destruct (allocation_lines target allocations Ha) as (repl & Hr & Hra). fold A in Hra.
  match goal with |- context [mbind _ (if ?b then _ else _)] => destruct b end; cbn [mbind result_bind mret result_ret].
  { by exists lines. }
  erewrite !absDecimal_units by done. cbn [mbind result_bind].
  erewrite compareDecimals_units by done. cbn [mbind result_bind mret result_ret].
  match goal with |- context [if ?b then mret lines else _] => destruct b end; [by exists lines|].
  rewrite Hr. cbn [mbind result_bind]. erewrite negateDecimal_units by done. cbn [mbind result_bind].
  rewrite (sumDecimals_units _ [amount_units target; - A]) by (repeat constructor; done).
  cbn [mbind result_bind]. erewrite isZeroDecimal_units by done. cbn [mbind result_bind mret result_ret].
  eexists. split; [reflexivity|].
  pose proof (adds_up_partition p lines t Ht) as Hp. unfold p in Hp at 2. rewrite Ef in Hp.
  csimpl in Hp. cbn [sumZ foldr] in *.
  set (T := amount_units target) in *.
  assert (adds_up (if T + (- A + 0) =? 0 then [] else [with_amount target (fromUnits (T + (- A + 0)))]) (T - A)) as Hlast.
  { destruct (Z.eqb_spec (T + (- A + 0)) 0) as [E|_].
    - split; [constructor|]. cbn. lia.
    - replace (T - A) with (T + (- A + 0)) by lia. apply adds_up_one, toUnits_fromUnits. }
  pose proof (adds_up_app _ _ _ _ Hp (adds_up_app _ _ _ _ Hra Hlast)) as Hsum.
  replace (t - (T + 0) + (A + (T - A))) with t in Hsum by lia. exact Hsum.
Qed.

(** ** The loop *)
Definition is_plug (l : PostingRuleLine) : bool := bool_decide (pl_amountSource l = AmtRemainder).

(** What a template line contributes: the amount times the multiplier, rounded. *)
Definition line_value (fact : SourceFact) (l : PostingRuleLine) : Z :=
  if is_plug l then 0
  else match assoc (pl_amountSource l) (sf_amounts fact) with
       | Some s => round_away (text_units s * pl_amountMultiplier l) (pow10 MONEY_SCALE)
       | None => 0
       end.

(** The fact carries the amount the line names. *)
Definition carried (fact : SourceFact) (l : PostingRuleLine) : Prop :=
  pl_amountSource l = AmtRemainder \/
  exists s, assoc (pl_amountSource l) (sf_amounts fact) = Some s /\ parses s.

Lemma build_loop_ok fact lines plug :
  Forall (carried fact) lines ->
  exists out plug', build_loop fact plug lines = Ok (out, plug') /\
    adds_up out (sumZ (line_value fact <$> lines)) /\
    is_some plug' = is_some plug || existsb is_plug lines.
Proof.
  intros H. revert plug. induction H as [|l lines Hl _ IH]; intros plug; cbn [build_loop existsb].
  { exists [], plug. split; [done|]. split; [by split|]. by rewrite orb_false_r. }
  csimpl. unfold line_value at 1, is_plug at 1 2. case_bool_decide as Hp.
  { destruct (IH (Some l)) as (out & plug' & -> & Ht & Hs). exists out, plug'.
    split; [done|]. split; [done|]. rewrite Hs. by rewrite orb_true_r. }
  destruct Hl as [Hl|(s & -> & Hs)]; [done|].
  rewrite (multiplyDecimals_units s _ _ (pl_amountMultiplier l) Hs (toUnits_fromUnits _)).
  cbn [mbind result_bind]. erewrite isZeroDecimal_units by apply toUnits_fromUnits. cbn [mbind result_bind].
  set (v := round_away _ _). destruct (IH plug) as (out & plug' & -> & Ht & Hpl).
  cbn [mbind result_bind mret result_ret fst snd]. exists (if v =? 0 then out else built_line fact l (fromUnits v) :: out), plug'.
  split; [by destruct (v =? 0)|]. split; [|done].
  destruct (Z.eqb_spec v 0) as [E|_].
  - cbn [sumZ foldr]. fold (sumZ (line_value fact <$> lines)). rewrite E. exact Ht.
  - apply (adds_up_app [_] out v); [|done]. apply adds_up_one, toUnits_fromUnits.
Qed.

Lemma buildLines_adds_up fact resolved :
  allocations_parse fact -> Forall (carried fact) (rp_lines resolved) ->
  exists lines, buildLines fact resolved = Ok lines /\
    adds_up lines (if existsb is_plug (rp_lines resolved) then 0
                   else sumZ (line_value fact <$> rp_lines resolved)).
Proof.
  intros Ha Hc. unfold buildLines.
  destruct (build_loop_ok fact (rp_lines resolved) None Hc) as (out & plug & -> & Ht & Hp).
  cbn [mbind result_bind fst snd]. destruct (split_adds_up fact out _ Ha Ht) as (split & -> & Hs).
  cbn [mbind result_bind is_some orb] in *. rewrite <- Hp. destruct plug as [l|]; [|by exists split].
  cbn [is_some]. pose proof Hs as [Hall E].
  rewrite sum_texts by done. cbn [mbind result_bind].
  erewrite negateDecimal_units by apply toUnits_fromUnits. cbn [mbind result_bind].
  erewrite isZeroDecimal_units by apply toUnits_fromUnits. cbn [mbind result_bind mret result_ret].
  fold amount_units. change (fun x => text_units (bu_amount x)) with amount_units. rewrite E.
  set (t := sumZ (line_value fact <$> rp_lines resolved)) in *. eexists. split; [reflexivity|].
  destruct (Z.eqb_spec (- t) 0).
  - replace 0 with t by lia. done.
  - replace 0 with (t + - t) by lia. apply adds_up_app; [done|]. apply adds_up_one, toUnits_fromUnits.
Qed.

(** ** The facts the readers produce *)
Record readable (f : SourceFact) : Prop := {
  rd_amounts s : s ∈ AMOUNT_SOURCES_BY_FACT_TYPE (sf_sourceFactType f) ->
    s = AmtRemainder \/ exists x, assoc s (sf_amounts f) = Some x /\ parses x;
  rd_allocations : allocations_parse f;
  rd_placeholders p : p ∈ PLACEHOLDERS_BY_FACT_TYPE (sf_sourceFactType f) ->
    exists x, assoc p (sf_placeholders f) = Some x;
  (** Outside orders, whose total is the provider's, the amounts are made of
      their components. *)
  rd_consistent : sf_sourceFactType f <> FactOrder ->
    exists v, forall s x, assoc s (sf_amounts f) = Some x ->
      amount_value (sf_sourceFactType f) v s = Some (text_units x);
}.

Lemma read_allocations_parse l k :
  res_mapM read_allocation l = Ok k -> Forall (fun a => parses (fa_amount a)) k.
Proof.
  intros H%res_mapM_Forall2. induction H as [|a b l k Hab _ IH]; constructor; [|done].
  unfold read_allocation in Hab. rewrite money_units in Hab. cbn [mbind result_bind mret result_ret] in Hab. injection Hab as <-.
  cbn. apply parses_fromUnits.
Qed.

(** A fact whose amounts are all one component. *)
Ltac one_component z :=
  let s := fresh "s" in let x := fresh "x" in let E := fresh "E" in
  exists (fun _ => z); intros s x; destruct s; try discriminate;
  intros E; injection E as <-; cbn [amount_value basis fmap option_fmap option_map];
  rewrite text_units_fromUnits; f_equal; unfold eval; cbn [fmap list_fmap sumZ foldr]; lia.

Ltac each_member H :=
  repeat first
    [ apply elem_of_cons in H as [->|H];
      [first [left; reflexivity
             | right; eexists; split; [reflexivity|apply parses_fromUnits]
             | eexists; reflexivity]|]
    | by apply not_elem_of_nil in H ].

(** Run the reads and the conversions of a reader. *)
Ltac run_reader :=
  rewrite ?money_units; repeat (erewrite st_bind_run by reflexivity); cbv zeta.

Lemma readOrder_readable id db f db' : readOrder id db = (Ok (Some f), db') ->
  readable f /\ sf_sourceFactType f = FactOrder /\ sf_sourceFactId f = id.
Proof.
  unfold readOrder. erewrite st_bind_run by reflexivity.
  destruct (find_id o_id id _) as [row|]; [|intros [=]]. run_reader.
  erewrite subtractDecimals_units by apply toUnits_fromUnits. erewrite st_bind_run by reflexivity.
  intros [= <- _]. split; [|done]. split.
  - intros s Hs. cbn in Hs. each_member Hs.
  - constructor.
  - intros p Hp. cbn in Hp. each_member Hp.
  - done.
Qed.

Lemma readOrderFee_readable id db f db' : readOrderFee id db = (Ok (Some f), db') ->
  readable f /\ sf_sourceFactType f = FactOrderFee /\ sf_sourceFactId f = id.
Proof.
  unfold readOrderFee. erewrite st_bind_run by reflexivity.
  destruct (_ ≫= _) as [[row o]|]; [|intros [=]]. run_reader.
  intros [= <- _]. split; [|done]. split.
  - intros s Hs. cbn in Hs. each_member Hs.
  - constructor.
  - intros p Hp. cbn in Hp. each_member Hp.
  - intros _. cbn [sf_amounts sf_sourceFactType]. one_component (of_amount row).
Qed.

Lemma readOrderRefund_readable id db f db' : readOrderRefund id db = (Ok (Some f), db') ->
  readable f /\ sf_sourceFactType f = FactOrderRefund /\ sf_sourceFactId f = id.
Proof.
  unfold readOrderRefund. erewrite st_bind_run by reflexivity.
  destruct (_ ≫= _) as [[row o]|]; [|intros [=]]. run_reader.
  intros [= <- _]. split; [|done]. split.
  - intros s Hs. cbn in Hs. each_member Hs.
  - constructor.
  - intros p Hp. cbn in Hp. each_member Hp.
  - intros _. cbn [sf_amounts sf_sourceFactType]. one_component (orf_amount row).
Qed.

Lemma readExpense_readable id db f db' : readExpense id db = (Ok (Some f), db') ->
  readable f /\ sf_sourceFactType f = FactExpense /\ sf_sourceFactId f = id.
Proof.
  unfold readExpense. erewrite st_bind_run by reflexivity.
  destruct (find_id ex_id id _) as [row|]; [|intros [=]]. run_reader.
  erewrite subtractDecimals_units by apply toUnits_fromUnits. erewrite st_bind_run by reflexivity.
  intros H. run_bind H allocations s Ha. apply st_lift_inv in Ha as [Ha ->].
  injection H as <- _. split; [|done]. split.
  - intros a Hs. cbn in Hs. each_member Hs.
  - by apply read_allocations_parse in Ha.
  - intros p Hp. cbn in Hp. each_member Hp.
  - intros _. cbn [sf_amounts sf_sourceFactType].
    exists (fun c => match c with CTax => ex_taxAmount row | _ => ex_amount row - ex_taxAmount row end).
    intros a x. destruct a; try discriminate; intros E; injection E as <-;
      cbn [amount_value basis fmap option_fmap option_map]; rewrite text_units_fromUnits; f_equal;
      unfold eval; cbn [fmap list_fmap sumZ foldr]; lia.
Qed.

Lemma readAcquisitionCost_readable id db f db' : readAcquisitionCost id db = (Ok (Some f), db') ->
  readable f /\ sf_sourceFactType f = FactAcquisitionCost /\ sf_sourceFactId f = id.
Proof.
  unfold readAcquisitionCost. erewrite st_bind_run by reflexivity.
  destruct (_ ≫= _) as [[row lot]|]; [|intros [=]]. run_reader.
  intros [= <- _]. split; [|done]. split.
  - intros s Hs. cbn in Hs. each_member Hs.
  - constructor.
  - intros p Hp. cbn in Hp. each_member Hp.
  - intros _. cbn [sf_amounts sf_sourceFactType]. one_component (ac_amount row).
Qed.

Lemma depletion_basis_fromUnits L p q Q b : depletion_basis L p q Q = Ok b -> exists u, b = fromUnits u.
Proof. unfold depletion_basis, subtractDecimals. intros H. inv_ok. eauto. Qed.

Lemma readInventoryMovement_readable id db f db' : readInventoryMovement id db = (Ok (Some f), db') ->
  readable f /\ sf_sourceFactType f = FactInventoryMovement.
Proof.
  unfold readInventoryMovement. erewrite st_bind_run by reflexivity. cbv zeta.
  destruct (_ ≫= _) as [[row item]|] eqn:Er; [|intros [=]]. intros H. run_bind H b s Hb.
  apply st_ret_inv in H as [H _]. injection H as ->.
  unfold movement_basis in Hb. run_bind Hb p1 s1 H1. run_bind Hb p2 s2 H2. cbv zeta in Hb.
  run_bind Hb p3 s3 H3. run_bind Hb p4 s4 H4. run_bind Hb p5 s5 H5. run_bind Hb p6 s6 H6.
  run_bind Hb p7 s7 H7. apply st_lift_inv in Hb as [Hb _].
  apply depletion_basis_fromUnits in Hb as (u & ->). split; [|done]. split.
  - intros a Hs. cbn in Hs. each_member Hs.
  - constructor.
  - intros p Hp. cbn in Hp. each_member Hp.
  - intros _. cbn [sf_amounts sf_sourceFactType movement_fact]. one_component u.
Qed.

Lemma isReadable_text t ft : isReadableSourceFactType t = Some ft -> fact_type_text ft = t.
Proof. unfold isReadableSourceFactType. intros [_ H%String.eqb_eq]%find_some. done. Qed.

Lemma find_id_key {A} (key : A -> uuid) id rows x : find_id key id rows = Some x -> key x = id.
Proof. by intros [_ ?%bool_decide_eq_true]%find_row_some. Qed.

Lemma read_readable t id db f db' : read t id db = (Ok (Some f), db') ->
  readable f /\ fact_type_text (sf_sourceFactType f) = t.
Proof.
  unfold read. destruct (isReadableSourceFactType t) as [ft|] eqn:Et; [|intros [=]].
  apply isReadable_text in Et as <-. destruct ft; try (intros [=]; fail); intros H.
  - by apply readOrder_readable in H as (? & -> & _).
  - by apply readOrderFee_readable in H as (? & -> & _).
  - by apply readOrderRefund_readable in H as (? & -> & _).
  - by apply readInventoryMovement_readable in H as (? & ->).
  - by apply readAcquisitionCost_readable in H as (? & -> & _).
  - by apply readExpense_readable in H as (? & -> & _).
Qed.

(** ** Templates *)

(** The rows a template was stored as: the amounts it names, its multipliers
    at the scale of the column. *)
Definition instantiates (lines : list PostingRuleLineInput) (rows : list PostingRuleLine) : Prop :=
  Forall2 (fun l r => pl_amountSource r = ti_amountSource l /\
                      line_units l = Ok (pl_amountMultiplier r) /\
                      pl_descriptionTemplate r = ti_descriptionTemplate l) lines rows.
#[export] Instance instantiates_dec lines rows : Decision (instantiates lines rows).
Proof. unfold instantiates. apply _. Defined.

(** What the save-time check established of a line. *)
Definition line_admitted (t : FactType) (l : PostingRuleLineInput) : Prop :=
  (ti_amountSource l = AmtRemainder \/ ti_amountSource l ∈ AMOUNT_SOURCES_BY_FACT_TYPE t) /\
  forall d p, ti_descriptionTemplate l = Some d -> p ∈ placeholdersIn d -> p ∈ PLACEHOLDERS_BY_FACT_TYPE t.

Lemma z_check_ok b u : z_check b = Ok u -> b = true.
Proof. by destruct b. Qed.

Lemma check_lines_admitted t index seen n lines m :
  check_lines t index seen n lines = Ok m -> Forall (line_admitted t) lines.
Proof.
  revert index seen n. induction lines as [|l lines IH]; intros index seen n H; [constructor|].
  cbn [check_lines] in H. cbv zeta in H. inv_ok. constructor; [|by eapply IH].
  clear H H0 H2. unfold check_line in H1. apply bind_Ok in H1 as (u & Hp & Hs). apply z_check_ok in Hp. split.
  - case_bool_decide as Hr; [by left|]. right. apply bind_Ok in Hs as (u' & Hs & _).
    apply z_check_ok in Hs. by apply bool_decide_eq_true in Hs.
  - intros d p Hd Hin. rewrite Hd in Hp. rewrite forallb_elem in Hp.
    specialize (Hp p Hin). by apply bool_decide_eq_true in Hp.
Qed.

Lemma validated_admitted type lines predicates u :
  validatePostingRuleTemplate type lines predicates = Ok u ->
  exists t, isReadableSourceFactType type = Some t /\ Forall (line_admitted t) lines /\
    (assertTemplateBalances t lines = Ok tt \/ exists l, l ∈ lines /\ ti_amountSource l = AmtRemainder).
Proof.
  unfold validatePostingRuleTemplate. destruct (isReadableSourceFactType type) as [t|]; [|done].
  intros H. inv_ok. exists t. split; [done|]. split; [by eapply check_lines_admitted|].
  destruct a0 as [|n]; cbn [Nat.eqb] in H; [left; by destruct u|right].
  clear - H1. assert (forall lines index seen k n, check_lines t index seen k lines = Ok n ->
    (k < n)%nat -> exists l, l ∈ lines /\ ti_amountSource l = AmtRemainder) as Hind.
  { clear. induction lines as [|l lines IH]; intros index seen k n H Hk; cbn [check_lines] in H.
    - injection H as ->. lia.
    - cbv zeta in H. inv_ok. case_bool_decide as Hr; [exists l; split; [left|done]|].
      destruct (IH _ _ _ _ H Hk) as (x & Hx & Hxr). exists x. split; [by right|done]. }
  apply (Hind _ _ _ _ _ H1). lia.
Qed.

Lemma admitted_carried t fact lines rows :
  readable fact -> sf_sourceFactType fact = t -> Forall (line_admitted t) lines ->
  instantiates lines rows -> Forall (carried fact) rows.
Proof.
  intros Hr <- Hl Hi. induction Hi as [|l r lines rows (E & _) _ IH]; [constructor|].
  apply Forall_cons in Hl as [[Hl _] Hls]. constructor; [|by apply IH].
  unfold carried. rewrite E. destruct Hl as [Hl|Hl]; [by left|]. by apply rd_amounts.
Qed.

(** A whole multiplier loses nothing to rounding. *)
Lemma whole_values fact v lines rows :
  Forall (carried fact) rows ->
  (forall s x, assoc s (sf_amounts fact) = Some x ->
     amount_value (sf_sourceFactType fact) v s = Some (text_units x)) ->
  Forall (fun l => whole l = true) lines -> Forall (fun l => ti_amountSource l <> AmtRemainder) lines ->
  instantiates lines rows ->
  weighted (sf_sourceFactType fact) lines (pl_amountMultiplier <$> rows) v
    = 10 ^ 6 * sumZ (line_value fact <$> rows).
Proof.
  intros Hc Hv Hw Hn Hi. induction Hi as [|l r lines rows (E1 & E2 & _) _ IH]; [done|].
  apply Forall_cons in Hc as [Hc Hcs], Hw as [Hw Hws], Hn as [Hn Hns]. csimpl. rewrite weighted_cons.
  rewrite (IH Hcs Hws Hns). unfold whole in Hw. rewrite E2 in Hw. apply Z.eqb_eq in Hw.
  unfold line_value at 2, is_plug. rewrite bool_decide_false by congruence.
  destruct Hc as [Hc|(x & Hx & _)]; [congruence|]. rewrite Hx. rewrite E1 in Hx.
  rewrite (Hv _ _ Hx). cbn [default]. unfold id. fold (sumZ (line_value fact <$> rows)).
  set (m := pl_amountMultiplier r) in *. apply Z.mod_divide in Hw as [k Hk]; [|done].
  change (pow10 MONEY_SCALE) with (10 ^ 6). rewrite Hk.
  replace (text_units x * (k * 10 ^ 6)) with (text_units x * k * 10 ^ 6) by lia.
  rewrite round_away_exact by done. lia.
Qed.

(** * Theorems *)

(** Building never fails on what was checked: if the save-time check
    accepted a template, then on every fact of its type that a reader returns -
    of any store - the lines are built without an exception, every placeholder
    of its descriptions is bound, and with a plug line what is built adds up to
    zero to the micro-unit, whatever the fact's amounts and allocations. *)
Theorem validated_template_builds (lines : list PostingRuleLineInput) (rows : list PostingRuleLine)
    (predicates : list SourceFactPredicate) (type : string) (id : uuid) (db db' : Db) (f : SourceFact)
    (rule : PostingRule) (version : PostingRuleVersion) :
  validatePostingRuleTemplate type lines predicates = Ok tt -> instantiates lines rows ->
  read type id db = (Ok (Some f), db') ->
  exists built t, buildLines f {| rp_rule := rule; rp_version := version; rp_lines := rows |} = Ok built /\
    adds_up built t /\
    ((exists l, l ∈ lines /\ ti_amountSource l = AmtRemainder) -> t = 0) /\
    (forall r d p, r ∈ rows -> pl_descriptionTemplate r = Some d -> p ∈ placeholdersIn d ->
       is_some (assoc p (sf_placeholders f)) = true).
Proof.
  intros Hv Hi Hr. apply read_readable in Hr as [Hf Ht].
  apply validated_admitted in Hv as (t & Et & Hadm & _). apply isReadable_text in Et.
  rewrite <- Et in Ht. apply fact_type_text_inj in Ht.
  destruct (buildLines_adds_up f {| rp_rule := rule; rp_version := version; rp_lines := rows |})
    as (built & Hb & Hsum); [by apply rd_allocations|by eapply admitted_carried|].
  eexists built, _. split; [done|]. split; [exact Hsum|]. split.
  - intros (l & Hl & Hp). assert (existsb is_plug rows = true) as Hpl; [|cbn [rp_lines]; by rewrite Hpl].
    apply existsb_elem. apply list_elem_of_lookup in Hl as [i Hl].
    destruct (Forall2_lookup_l _ _ _ _ _ Hi Hl) as (r & Hlr & E & _). exists r.
    split; [by eapply list_elem_of_lookup_2|]. apply bool_decide_eq_true. congruence.
  - intros r d p Hin Hd Hp. apply list_elem_of_lookup in Hin as [i Hin].
    destruct (Forall2_lookup_r _ _ _ _ _ Hi Hin) as (l & Hll & _ & _ & E).
    rewrite Forall_forall in Hadm. destruct (Hadm l) as [_ Hpl]; [by eapply list_elem_of_lookup_2|].
    destruct (rd_placeholders f Hf p) as [x ->]; [|done]. rewrite Ht. eapply Hpl; [|exact Hp]. congruence.
Qed.

(** The rule for sales, and the order of [engine_db]: its five lines and a plug
    of three cents. *)
Definition order_rule_lines : list PostingRuleLineInput :=
  match DEFAULT_POSTING_RULES with i :: _ => cr_lines i | [] => [] end.
Definition order_rule_rows : list PostingRuleLine :=
  match db_rules engine_db with
  | r :: _ => match pr_currentVersionId r with Some v => version_lines v engine_db | None => [] end
  | [] => []
  end.
Definition no_fact : SourceFact :=
  {| sf_sourceFactType := FactOrder; sf_sourceFactId := 1; sf_accountingDate := 0;
     sf_economicEntityId := None; sf_currency := ""; sf_amounts := []; sf_attributes := no_attributes;
     sf_matchAmount := ""; sf_placeholders := []; sf_description := ""; sf_relatedFacts := [];
     sf_accountingBookIdOverride := None; sf_allocations := []; sf_ineligibleReason := None |}.
Definition order_fact : SourceFact :=
  match fst (read "order" 900 engine_db) with Ok (Some f) => f | _ => no_fact end.

Lemma order_fact_read : read "order" 900 engine_db = (Ok (Some order_fact), engine_db).
Proof.
  destruct (read "order" 900 engine_db) as [r db] eqn:E. pose proof (reads_run _ _ _ _ (read_reads _ _) E) as ->.
  f_equal. assert (is_ok r = true) as Hok.
  { change r with (fst (r, engine_db)). rewrite <- E. vm_compute. reflexivity. }
  unfold order_fact. rewrite E. cbn [fst]. destruct r as [[f|]|]; [done| |done].
  exfalso. apply (f_equal (fun x => match fst x with Ok None => true | _ => false end)) in E.
  vm_compute in E. discriminate E.
Qed.

Lemma order_rule_instantiates : instantiates order_rule_lines order_rule_rows.
Proof. apply (bool_decide_eq_true_1 (instantiates _ _)). vm_compute. reflexivity. Qed.

Lemma validated_template_builds_witness :
  exists built,
    buildLines order_fact {| rp_rule := rule_row sample_rule FactOrder 1 0; rp_version := sample_version;
                             rp_lines := order_rule_rows |} = Ok built /\
    adds_up built 0 /\ length built = 6%nat.
Proof.
  destruct (validated_template_builds order_rule_lines order_rule_rows [] "order" 900 engine_db engine_db
    order_fact (rule_row sample_rule FactOrder 1 0) sample_version) as (built & t & Hb & Ht & H0 & _);
    [vm_compute; reflexivity|exact order_rule_instantiates|exact order_fact_read|].
  exists built. split; [exact Hb|]. split.
  - rewrite <- H0; [exact Ht|].
    assert (existsb (fun l => bool_decide (ti_amountSource l = AmtRemainder)) order_rule_lines = true) as Hp
      by (vm_compute; reflexivity).
    apply existsb_elem in Hp as (l & Hl & Hr%bool_decide_eq_true). exact (ex_intro _ l (conj Hl Hr)).
  - assert (fmap (@length BuiltLine) (buildLines order_fact {| rp_rule := rule_row sample_rule FactOrder 1 0;
      rp_version := sample_version; rp_lines := order_rule_rows |}) = Ok 6%nat) as Hl by (vm_compute; reflexivity).
    rewrite Hb in Hl. by injection Hl.
Defined.

Lemma balanced_weighted t lines us v :
  Forall2 (fun l u => line_units l = Ok u) lines us -> assertTemplateBalances t lines = Ok tt ->
  weighted t lines us v = 0.
Proof.
  intros Hu Hb. destruct (template_totals_spec t lines [] us Hu) as (m & Hm & _ & He); [constructor|].
  unfold assertTemplateBalances in Hb. rewrite Hm in Hb. cbn [mbind result_bind] in Hb.
  apply throw_if_Ok in Hb. specialize (He v). rewrite eval_zero in He; [cbn in He; lia|].
  apply Forall_forall. intros [c k] Hin. cbn. destruct (Z.eqb_spec k 0) as [|Hk]; [done|].
  rewrite <- not_true_iff_false in Hb. destruct Hb. apply existsb_exists.
  exists (c, k). split; [by apply list_elem_of_In|]. by apply negb_true_iff, Z.eqb_neq.
Qed.

Lemma plugless_lines rows lines :
  instantiates lines rows -> Forall (fun l => ti_amountSource l <> AmtRemainder) lines ->
  existsb is_plug rows = false.
Proof.
  intros Hi Hn. induction Hi as [|l r lines rows (E & _) _ IH]; [done|].
  apply Forall_cons in Hn as [Hn Hns]. cbn. rewrite (IH Hns), orb_false_r.
  apply bool_decide_eq_false. congruence.
Qed.

(** Every shipped rule either has a plug, or is not about orders and has whole
    multipliers. *)
Definition plugged_or_exact (i : CreateRuleInput) : bool :=
  existsb (fun l => bool_decide (ti_amountSource l = AmtRemainder)) (cr_lines i)
  || (negb (String.eqb (cr_sourceFactType i) "order") && forallb whole (cr_lines i)).

Lemma default_rules_shape :
  Forall (fun i => plugged_or_exact i = true /\
    validatePostingRuleTemplate (cr_sourceFactType i) (cr_lines i) (predicatesUsed (cr_predicates i)) = Ok tt)
    DEFAULT_POSTING_RULES.
Proof. repeat (constructor; [split; vm_compute; reflexivity|]). constructor. Qed.

(** C35. The rules an installation ships with balance on every fact: for each of
    them, with its template stored as rows, and whatever fact of the rule's type
    a reader returns from whatever store, [buildLines] returns lines, and they are
    decimal amounts that add up to zero to the micro-unit - the orders through
    their plug, the other facts because their amounts are made of the components
    the check reasons with. *)
Theorem default_rules_balance (i : CreateRuleInput) (rows : list PostingRuleLine) (id : uuid)
    (db db' : Db) (f : SourceFact) (rule : PostingRule) (version : PostingRuleVersion) :
  i ∈ DEFAULT_POSTING_RULES -> instantiates (cr_lines i) rows ->
  read (cr_sourceFactType i) id db = (Ok (Some f), db') ->
  exists built, buildLines f {| rp_rule := rule; rp_version := version; rp_lines := rows |} = Ok built /\
    adds_up built 0.
Proof.
  intros Hin Hi Hr. apply read_readable in Hr as [Hf Ht].
  pose proof default_rules_shape as Hshape. rewrite Forall_forall in Hshape.
  destruct (Hshape i Hin) as [Hp Hv]. clear Hshape.
  apply validated_admitted in Hv as (t & Et & Hadm & Hbal). apply isReadable_text in Et.
  rewrite <- Et in Ht. apply fact_type_text_inj in Ht.
  assert (Forall (carried f) rows) as Hc by (by eapply admitted_carried).
  destruct (buildLines_adds_up f {| rp_rule := rule; rp_version := version; rp_lines := rows |})
    as (built & Hb & Hsum); [by apply rd_allocations|done|].
  exists built. split; [done|]. cbn [rp_lines] in Hsum.
  destruct (existsb is_plug rows) eqn:Epl; [done|].
  assert (Forall (fun l => ti_amountSource l <> AmtRemainder) (cr_lines i)) as Hn.
  { apply Forall_forall. intros l Hl El. apply list_elem_of_lookup in Hl as [k Hl].
    destruct (Forall2_lookup_l _ _ _ _ _ Hi Hl) as (r & Hlr & E & _).
    rewrite <- not_true_iff_false, existsb_elem in Epl. destruct Epl. exists r.
    split; [by eapply list_elem_of_lookup_2|]. apply bool_decide_eq_true. congruence. }
  apply orb_true_iff in Hp as [Hp|Hp].
  { apply existsb_elem in Hp as (l & Hl & Hlr%bool_decide_eq_true).
    rewrite Forall_forall in Hn. by destruct (Hn l Hl). }
  apply andb_true_iff in Hp as [Hord Hw]. apply negb_true_iff, String.eqb_neq in Hord.
  destruct (rd_consistent f Hf) as [v Hcons]; [intros E; apply Hord; rewrite <- Et, <- Ht, E; done|].
  assert (Forall (fun l => whole l = true) (cr_lines i)) as Hwl.
  { apply Forall_forall. intros l Hl. rewrite forallb_elem in Hw. auto. }
  pose proof (whole_values f v _ _ Hc Hcons Hwl Hn Hi) as Hsumw.
  destruct Hbal as [Hbal|(l & Hl & El)]; [|rewrite Forall_forall in Hn; by destruct (Hn l Hl)].
  rewrite Ht, (balanced_weighted t _ (pl_amountMultiplier <$> rows) v) in Hsumw; [|..|exact Hbal].
  - replace 0 with (sumZ (line_value f <$> rows)) by lia. done.
  - apply Forall2_fmap_r. eapply Forall2_impl; [exact Hi|]. naive_solver.
Qed.

Lemma default_rules_balance_witness :
  exists built,
    buildLines order_fact {| rp_rule := rule_row sample_rule FactOrder 1 0; rp_version := sample_version;
                             rp_lines := order_rule_rows |} = Ok built /\ adds_up built 0.
Proof.
  apply (default_rules_balance
    (match DEFAULT_POSTING_RULES with i :: _ => i | [] => sample_rule end) order_rule_rows 900 engine_db engine_db);
    [left|exact order_rule_instantiates|exact order_fact_read].
Defined.

(** What an allocation becomes. *)
Definition allocated_line (target : BuiltLine) (a : FactAllocation) (l : BuiltLine) : Prop :=
  bu_accountSystemKey l = None /\ bu_ledgerAccountId l = fa_ledgerAccountId a /\
  bu_amount l = fromUnits (text_units (fa_amount a)) /\ bu_description l = bu_description target /\
  bu_economicEntityId l = or_else (fa_economicEntityId a) (bu_economicEntityId target) /\
  bu_dimensionValueId l = fa_dimensionValueId a.

Lemma allocation_lines_shape target allocations lines :
  Forall (fun a => parses (fa_amount a)) allocations ->
  res_mapM (allocation_line target) allocations = Ok lines ->
  Forall2 (allocated_line target) allocations lines.
Proof.
  intros Ha H%res_mapM_Forall2. induction H as [|a l allocations lines Hl _ IH]; [constructor|].
  apply Forall_cons in Ha as [Ha Has]. constructor; [|by apply IH].
  unfold allocation_line in Hl. rewrite (toMoneyString_units _ _ Ha) in Hl.
  cbn [mbind result_bind mret result_ret] in Hl. injection Hl as <-. done.
Qed.

(** The split of an expense: when its one debit covers the allocations that
    name an account, the debit is replaced by one line per allocation - with
    the allocation's account and amount, and its entity or the debit's - and
    what is left over stays on the debit's own line; when the allocations
    exceed it, the lines are left as the rule made them. *)
Theorem split_by_allocations (fact : SourceFact) (lines : list BuiltLine) (target : BuiltLine) (T : Z) :
  let named := List.filter (fun a => is_some (fa_ledgerAccountId a)) (sf_allocations fact) in
  let A := sumZ ((fun a => text_units (fa_amount a)) <$> named) in
  sf_sourceFactType fact = FactExpense -> named <> [] -> allocations_parse fact ->
  List.filter (fun l => negb (starts_with_minus (bu_amount l))) lines = [target] ->
  toUnits (bu_amount target) = Ok T -> 0 <= T -> 0 <= A ->
  (A <= T -> exists replacement,
     splitByAllocations fact lines =
       Ok (List.filter (fun l => starts_with_minus (bu_amount l)) lines ++ replacement ++
           (if A =? T then [] else [with_amount target (fromUnits (T - A))])) /\
     Forall2 (allocated_line target) named replacement) /\
  (T < A -> splitByAllocations fact lines = Ok lines).
Proof.
  cbv zeta. set (named := List.filter _ (sf_allocations fact)). set (A := sumZ _).
  intros Ht Hne Hall Hd HT HT0 HA0.
  assert (Forall (fun a => parses (fa_amount a)) named) as Ha.
  { unfold named, allocations_parse in *. clear - Hall. induction Hall as [|a l]; [constructor|].
    cbn. destruct (is_some _); [by constructor|done]. }
  assert (splitByAllocations fact lines =
    if 0 <? (if A =? T then 0 else if A <? T then -1 else 1) then Ok lines
    else replacement ← res_mapM (allocation_line target) named;
         Ok (List.filter (fun l => starts_with_minus (bu_amount l)) lines ++ replacement ++
             (if T - A =? 0 then [] else [with_amount target (fromUnits (T - A))]))) as ->.
  { unfold splitByAllocations. cbv zeta. fold named. rewrite Hd, bool_decide_false by (by intros []).
    assert ((length named =? 0)%nat = false) as -> by (clear - Hne; by destruct named).
    cbn [orb].
    rewrite sum_texts by done. fold A. cbn [mbind result_bind].
    erewrite !isNegative_units by (exact HT || apply toUnits_fromUnits). cbn [mbind result_bind].
    rewrite !(proj2 (Z.ltb_ge _ 0)) by lia. cbn [xorb].
    erewrite !absDecimal_units by (exact HT || apply toUnits_fromUnits). cbn [mbind result_bind].
    erewrite compareDecimals_units by apply toUnits_fromUnits. rewrite !Z.abs_eq by lia.
    cbn [mbind result_bind mret result_ret]. destruct (0 <? _); [done|].
    destruct (res_mapM _ named) as [repl|]; [|done]. cbn [mbind result_bind].
    erewrite negateDecimal_units by apply toUnits_fromUnits. cbn [mbind result_bind].
    rewrite (sumDecimals_units _ [T; - A]) by (repeat constructor; [exact HT|apply toUnits_fromUnits]).
    replace (sumZ [T; - A]) with (T - A) by (cbn; lia). cbn [mbind result_bind].
    erewrite isZeroDecimal_units by apply toUnits_fromUnits. done. }
  destruct (allocation_lines target named Ha) as (repl & Hr & _). split.
  - intros Hle. exists repl. rewrite Hr. split; [|by apply allocation_lines_shape].
    replace (T - A =? 0) with (A =? T) by (destruct (Z.eqb_spec A T), (Z.eqb_spec (T - A) 0); lia || done).
    destruct (Z.eqb_spec A T); [done|]. by rewrite (proj2 (Z.ltb_lt A T)) by lia.
  - intros Hlt. rewrite (proj2 (Z.eqb_neq A T)), (proj2 (Z.ltb_ge A T)) by lia. done.
Qed.

Definition allocated_expense (allocations : list FactAllocation) : SourceFact :=
  {| sf_sourceFactType := FactExpense; sf_sourceFactId := 901; sf_accountingDate := 20260310;
     sf_economicEntityId := Some 40%positive; sf_currency := "USD";
     sf_amounts := [(AmtTotal, "30.000000"%string)]; sf_attributes := no_attributes;
     sf_matchAmount := "30.000000"; sf_placeholders := []; sf_description := "Supplies";
     sf_relatedFacts := []; sf_accountingBookIdOverride := None; sf_allocations := allocations;
     sf_ineligibleReason := None |}.
Definition plain_line (key amount : string) : BuiltLine :=
  {| bu_accountSystemKey := Some key; bu_ledgerAccountId := None; bu_amount := amount;
     bu_description := None; bu_economicEntityId := Some 40%positive; bu_dimensionValueId := None |}.

(** Twenty of thirty to an account of its own. *)
Lemma split_by_allocations_witness :
  exists l, splitByAllocations
    (allocated_expense [{| fa_ledgerAccountId := Some 105%positive; fa_amount := "20.000000";
                           fa_economicEntityId := None; fa_dimensionValueId := Some 7%positive |}])
    [plain_line "shipping_expense" "30.000000"; plain_line "suspense" "-30.000000"]
  = Ok [plain_line "suspense" "-30.000000"; l; plain_line "shipping_expense" "10.000000"] /\
    bu_ledgerAccountId l = Some 105%positive /\ bu_amount l = "20.000000"%string.
Proof.
  destruct (split_by_allocations
    (allocated_expense [{| fa_ledgerAccountId := Some 105%positive; fa_amount := "20.000000";
                           fa_economicEntityId := None; fa_dimensionValueId := Some 7%positive |}])
    [plain_line "shipping_expense" "30.000000"; plain_line "suspense" "-30.000000"]
    (plain_line "shipping_expense" "30.000000") 30000000) as [H _];
    [reflexivity|discriminate|repeat constructor|reflexivity|vm_compute; reflexivity|done|by vm_compute|].
  destruct H as (repl & Hs & Hf); [by vm_compute|].
  apply Forall2_cons_inv_l in Hf as (l & rest & (_ & H2 & H3 & _) & Hn & ->).
  apply Forall2_nil_inv_l in Hn as ->. exists l.
  split; [|split; [exact H2|exact H3]]. exact Hs.
Defined.

(** A template the check accepts and no fact can post: half of a fee to each
    of two accounts.  The symbolic check sees one half plus one half less one;
    on a fee of one micro-unit both halves round up, the lines differ by a
    micro-unit, and the posting is refused as unbalanced. *)
Theorem fractional_template_unbalanced :
  let lines := [sample_template_line "marketplace_fees" AmtFee "0.5";
                sample_template_line "payment_processing_fees" AmtFee "0.5";
                sample_template_line "marketplace_clearing" AmtFee "-1"] in
  validatePostingRuleTemplate "order_fee" lines [] = Ok tt /\
  exists rows fact built,
    instantiates lines rows /\ readable fact /\ sf_sourceFactType fact = FactOrderFee /\
    buildLines fact {| rp_rule := rule_row sample_rule FactOrderFee 1 0; rp_version := sample_version;
                       rp_lines := rows |} = Ok built /\
    adds_up built 1 /\
    assertBalanced (resolved_balance <$>
      ((fun l => {| rl_ledgerAccountId := 1; rl_economicEntityId := None; rl_lineNumber := 1;
                    rl_description := None; rl_currency := "USD"; rl_amount := bu_amount l;
                    rl_functionalCurrency := "USD"; rl_functionalAmount := bu_amount l;
                    rl_dimensions := [] |}) <$> built)) = Throw UnbalancedEntryError.
Proof.
  cbv zeta. split; [vm_compute; reflexivity|].
  set (row := fun n key m => {| pl_id := n; pl_postingRuleVersionId := 1; pl_lineNumber := Zpos n;
    pl_accountSystemKey := Some key; pl_ledgerAccountId := None; pl_amountSource := AmtFee;
    pl_amountMultiplier := m; pl_inheritEntity := true; pl_dimensionValueId := None;
    pl_descriptionTemplate := None; pl_createdAt := 0 |} : PostingRuleLine).
  set (fact := {| sf_sourceFactType := FactOrderFee; sf_sourceFactId := 1; sf_accountingDate := 20260310;
     sf_economicEntityId := None; sf_currency := "USD";
     sf_amounts := [(AmtFee, "0.000001"%string); (AmtTotal, "0.000001"%string); (AmtNet, "0.000001"%string)];
     sf_attributes := no_attributes; sf_matchAmount := "0.000001";
     sf_placeholders := [("external_order_number"%string, "x"%string); ("fee_type"%string, "x"%string);
                         ("provider"%string, "x"%string); ("channel"%string, "x"%string)];
     sf_description := "Fee"; sf_relatedFacts := []; sf_accountingBookIdOverride := None;
     sf_allocations := []; sf_ineligibleReason := None |}).
  exists [row 1%positive "marketplace_fees"%string 500000; row 2%positive "payment_processing_fees"%string 500000;
          row 3%positive "marketplace_clearing"%string (-1000000)], fact.
  eexists. split; [apply (bool_decide_eq_true_1 (instantiates _ _)); vm_compute; reflexivity|].
  split.
  { split.
    - intros s Hs. cbn in Hs. repeat (apply elem_of_cons in Hs as [->|Hs];
        [first [by left|right; eexists; split; reflexivity]|]). by apply not_elem_of_nil in Hs.
    - constructor.
    - intros p Hp. cbn in Hp. each_member Hp.
    - intros _. exists (fun _ => 1). intros s x. destruct s; try discriminate; intros E; injection E as <-; reflexivity. }
  split; [done|]. split; [vm_compute; reflexivity|].
  split; [split; [repeat constructor|reflexivity]|]. vm_compute. reflexivity.
Qed.
