(* ===== verification/EngineFacts.v ===== *)
(** * The posting engine: theorems

    At most one posted entry per fact, whatever is evaluated and however often;
    what each outcome means; evaluation is idempotent; and the two ways the
    code departs from its contract. *)
From S2P Require Import Prelude Decimal Calendar Inputs Store Schema Ledger LedgerFacts Periods Chart.
From S2P Require Import Books Journal JournalFacts JournalMachine Facts PostingRules DefaultRules.
From S2P Require Import PostingEngine LineBuilding.

Open Scope Z_scope.

(** ** Closure: the engine writes through the journal *)
Lemma reads_sound_step {A} (m : run A) : reads m -> always sound_step m.
Proof. apply reads_always. apply _. Qed.
Lemma resolveBookForEntity_reads a b c : reads (resolveBookForEntity a b c).
Proof. unfold resolveBookForEntity, routeThroughEntity. solve_respects. Qed.
#[export] Hint Resolve reads_sound_step resolveBookForEntity_reads postEntry_sound createDraft_sound
  postDraft_sound voidDraft_sound reverseEntry_sound : store.
Lemma routed_loadBook_reads id : reads (loadBook id).
Proof. unfold loadBook. solve_respects. Qed.
#[export] Hint Resolve routed_loadBook_reads : store.
Lemma engine_routeBook_reads f b : reads (PostingEngine.routeBook f b).
Proof. unfold PostingEngine.routeBook. solve_respects. Qed.
Lemma existingEntryFor_reads f : reads (existingEntryFor f).
Proof. unfold existingEntryFor. solve_respects. Qed.
#[export] Hint Resolve engine_routeBook_reads existingEntryFor_reads : store.

Lemma post_sound f r b h i : always sound_step (post f r b h i).
Proof. unfold post. solve_respects. Qed.
Lemma reverse_for_sound f i e reason : always sound_step (reverse_for f i e reason).
Proof. unfold reverse_for. solve_respects. Qed.
#[export] Hint Resolve post_sound reverse_for_sound : store.

Lemma evaluateFact_sound digest i : always sound_step (evaluateFact digest i).
Proof.
  unfold evaluateFact, evaluate_ineligible, evaluate_eligible, evaluate_existing, evaluate_new.
  cbv zeta. solve_respects.
Qed.
#[export] Hint Resolve evaluateFact_sound : store.
Lemma engine_evaluateFact_sound digest i : always sound_step (engine_evaluateFact digest i).
Proof. unfold engine_evaluateFact. solve_respects. Qed.
Lemma evaluateFacts_sound digest l : always sound_step (evaluateFacts digest l).
Proof. unfold evaluateFacts. solve_respects. Qed.

(** ** Runs that throw *)
Lemma postEntry_throw i db e db' : postEntry i db = (Throw e, db') -> db' = db.
Proof.
  unfold postEntry. intros H. apply st_bind_Throw in H as [H|(v & s & Hv & H)].
  { by injection H as _ <-. }
  apply st_lift_inv in Hv as [_ ->]. unfold st_catch in H.
  destruct (transaction (postEntry_body v) db) as [[o|er] s1] eqn:Et; [discriminate H|].
  apply transaction_throw in Et as ->.
  symmetry. eapply (always_run eq); [apply postEntry_handler_reads|exact H].
Qed.

Lemma reverseEntry_throw id t reason b actor request db e db' :
  reverseEntry id t reason b actor request db = (Throw e, db') -> db' = db.
Proof.
  unfold reverseEntry. cbv zeta. intros H. apply st_bind_Throw in H as [H|(v & s & Hv & H)].
  { by injection H as _ <-. }
  apply st_lift_inv in Hv as [_ ->]. by apply transaction_throw in H.
Qed.

(** ** What [existingEntryFor] finds *)
Definition of_fact (f : SourceFact) (e : JournalEntry) : bool :=
  posted_for (fact_type_text (sf_sourceFactType f)) (sf_sourceFactId f) e.

Lemma existingEntryFor_inv f db o db' :
  NoDup (je_id <$> db_entries db) -> existingEntryFor f db = (Ok o, db') ->
  db' = db /\
  match o with
  | Some e => e ∈ db_entries db /\ of_fact f e = true
  | None => forall e, e ∈ db_entries db -> of_fact f e = false
  end.
Proof.
  intros Hn H. pose proof (reads_run _ _ _ _ (existingEntryFor_reads f) H) as ->. split; [done|].
  unfold existingEntryFor in H. run_bind H d s Hd. apply st_get_inv in Hd as [-> ->].
  destruct (order_by _ _) as [|e l] eqn:E.
  - apply st_ret_inv in H as [-> _]. intros e He. destruct (of_fact f e) eqn:Ef; [|done].
    assert (e ∈ order_by (fun e => - je_createdAt e)
      (List.filter (posted_for (fact_type_text (sf_sourceFactType f)) (sf_sourceFactId f)) (db_entries db))) as Hin.
    { rewrite order_by_elem, list_elem_of_In, filter_In, <- list_elem_of_In. done. }
    rewrite E in Hin. by apply not_elem_of_nil in Hin.
  - run_bind H x s Hx. apply st_ret_inv in H as [-> _]. apply loadEntry_inv in Hx as (Hx & Hi & ->).
    assert (e ∈ e :: l) as Hin by left.
    rewrite <- E, order_by_elem, list_elem_of_In, filter_In, <- list_elem_of_In in Hin.
    destruct Hin as [Hin Hp]. assert (x = e) as -> by (by eapply (NoDup_keys_inj je_id (db_entries db))).
    done.
Qed.

Lemma posted_for_spec t id e : posted_for t id e = true <->
  je_sourceFactType e = Some t /\ je_sourceFactId e = Some id /\ je_entrySource e = SourcePostingRule /\
  je_status e = EntryPosted /\ je_reversesEntryId e = None.
Proof.
  unfold posted_for. rewrite !andb_true_iff, negb_true_iff, !bool_decide_eq_true. unfold opt_eqb.
  rewrite !bool_decide_eq_true. destruct (je_reversesEntryId e); naive_solver.
Qed.

(** ** One posting per fact *)
Definition single (db : Db) : Prop :=
  forall t id e f, e ∈ db_entries db -> f ∈ db_entries db ->
    posted_for t id e = true -> posted_for t id f = true -> e = f.

Lemma single_subset db db' :
  (forall t id e, e ∈ db_entries db' -> posted_for t id e = true -> e ∈ db_entries db) ->
  single db -> single db'.
Proof. intros H Hs t id e f He Hf Hpe Hpf. eapply Hs; eauto. Qed.

(** No posted entry of the fact is left. *)
Definition vacant (f : SourceFact) (db : Db) : Prop :=
  forall e, e ∈ db_entries db -> of_fact f e = false.

(** What a reversal leaves: entries that were there, the reversed one gone. *)
Lemma reverse_entries id t reason b actor request db out db' :
  sound db -> reverseEntry id t reason b actor request db = (Ok out, db') ->
  forall ty fid e, e ∈ db_entries db' -> posted_for ty fid e = true -> e ∈ db_entries db /\ je_id e <> id.
Proof.
  intros [Hc _ Hrv] H ty fid e He Hp. apply posted_for_spec in Hp as (_ & _ & _ & Hst & Hre).
  destruct (reverseEntry_inv _ _ _ _ _ _ _ _ _ Hc H)
    as (o & Ho & <- & Hb & Hor & [(Hu & _ & Hf & _)|(_ & book & p & bd & ls & rows & mid & Hf)]).
  - apply unchanged_fields in Hu as (Ee & _). rewrite Ee in He. split; [done|]. intros Ei.
    assert (e = o) as -> by (by eapply (NoDup_keys_inj je_id (db_entries db)); [apply Hc|..]).
    apply find_reversal_some in Hf as [Hf Hr]. destruct (rv_target _ Hrv _ _ Hf Hr) as (_ & x & Hx & Ei' & Hs & _).
    assert (x = o) as -> by (by eapply (NoDup_keys_inj je_id (db_entries db)); [apply Hc|..]). congruence.
  - destruct Hf as [_ _ _ Hw _ Ee _ _ _ _ _]. rewrite Ee in He. unfold on_entry in He.
    apply update_rows_elem in He as (x & Hx & ->).
    rewrite (wr_entries _ _ _ _ _ _ _ _ _ _ _ Hw) in Hx. case_bool_decide as Hi; [done|].
    apply elem_of_app in Hx as [Hx|Hx%list_elem_of_singleton]; [done|]. subst x.
    by rewrite (wr_entry _ _ _ _ _ _ _ _ _ _ _ Hw) in Hre.
Qed.

(** What the schema of [postEntry] does to the members that identify an entry. *)
Lemma z_opt_text o o' : z_opt z_text o = Ok o' -> o' = Text.trim <$> o.
Proof. destruct o; cbn; intros H; [unfold z_text in H|]; inv_ok; done. Qed.

Lemma postEntrySchema_inv input value : postEntrySchema input = Ok value ->
  en_accountingBookId value = en_accountingBookId input /\ en_entryDate value = en_entryDate input /\
  en_entrySource value = Some (default SourceManual (en_entrySource input)) /\
  en_postingRuleVersionId value = en_postingRuleVersionId input /\
  en_sourceFactId value = en_sourceFactId input /\
  en_postingKey value = Text.trim <$> en_postingKey input /\
  en_sourceFactType value = Text.trim <$> en_sourceFactType input /\
  en_sourceFactFingerprint value = Text.trim <$> en_sourceFactFingerprint input /\
  length (en_lines value) = length (en_lines input).
Proof.
  unfold postEntrySchema, z_date. intros H. inv_ok.
  repeat match goal with H : z_opt z_text _ = Ok _ |- _ => apply z_opt_text in H end.
  match goal with H : res_mapM Journal.lineSchema _ = Ok _ |- _ => apply res_mapM_length in H end.
  repeat split; assumption || reflexivity.
Qed.

Lemma trim_fact_type t : Text.trim (fact_type_text t) = fact_type_text t.
Proof. by destruct t. Qed.

(** The header of an entry [post] asks for. *)
Lemma posting_header f r book h i lines value :
  postEntrySchema (posting_input f r book h i lines) = Ok value ->
  hd_sourceFactType (input_header value) = Some (fact_type_text (sf_sourceFactType f)) /\
  hd_sourceFactId (input_header value) = Some (sf_sourceFactId f) /\
  hd_entrySource (input_header value) = SourcePostingRule /\
  hd_sourceFactFingerprint (input_header value) = Some (Text.trim h) /\
  hd_postingRuleVersionId (input_header value) = Some (pv_id (rp_version r)).
Proof.
  intros (_ & _ & Es & Ev & Ei & _ & Et & Ef & _)%postEntrySchema_inv. unfold input_header.
  cbn [hd_sourceFactType hd_sourceFactId hd_entrySource hd_sourceFactFingerprint hd_postingRuleVersionId].
  rewrite Es, Ev, Ei, Et, Ef. cbn [posting_input en_sourceFactType en_sourceFactId en_entrySource
    en_sourceFactFingerprint en_postingRuleVersionId fmap option_fmap option_map].
  by rewrite trim_fact_type.
Qed.

(** What a posting adds. *)
(** The row written for a built line: its amount, in the functional currency
    too, its entity, and the account it names. *)
Definition posts_as (accounts : list LedgerAccount) (book : uuid) (b : BuiltLine) (row : JournalLine) : Prop :=
  toUnits (bu_amount b) = Ok (jl_amount row) /\ jl_functionalAmount row = jl_amount row /\
  jl_economicEntityId row = bu_economicEntityId b /\
  exists a, a ∈ accounts /\ la_id a = jl_ledgerAccountId row /\ la_accountingBookId a = book /\
    match bu_ledgerAccountId b with
    | Some id => la_id a = id
    | None => la_systemKey a = Some (Text.trim (default "" (bu_accountSystemKey b)))%string
    end.

(** What the schema keeps of a line. *)
Definition same_line (l l' : JournalLineInput) : Prop :=
  li_amount l' = li_amount l /\ li_ledgerAccountId l' = li_ledgerAccountId l /\
  li_economicEntityId l' = li_economicEntityId l /\
  li_accountSystemKey l' = Text.trim <$> li_accountSystemKey l.

Lemma postEntrySchema_lines input value : postEntrySchema input = Ok value ->
  Forall2 same_line (en_lines input) (en_lines value).
Proof.
  unfold postEntrySchema. intros H. inv_ok. cbn [en_lines].
  match goal with H : res_mapM Journal.lineSchema _ = Ok _ |- _ => apply res_mapM_Forall2 in H as Hl end.
  eapply Forall2_impl; [exact Hl|]. intros l l' Hll. unfold Journal.lineSchema, z_decimal in Hll. inv_ok.
  match goal with H : z_opt z_text (li_accountSystemKey l) = Ok _ |- _ => apply z_opt_text in H end.
  by subst.
Qed.

Lemma journal_lines_built currency i built :
  Forall2 (fun b l => exists n, l = journal_line currency n b) built (journal_lines currency i built).
Proof. revert i. induction built as [|b l IH]; intros i; cbn; constructor; [by exists i|done]. Qed.

Lemma built_rows accounts book currency built lines rows :
  Forall2 same_line (journal_lines currency 0 built) lines ->
  Forall2 (row_for accounts book) lines rows -> Forall2 (posts_as accounts (bk_id book)) built rows.
Proof.
  intros H1 H2. eapply Forall2_compose; [|exact (journal_lines_built currency 0 built)|].
  2: { eapply (Forall2_compose _ _ (fun x z => exists y, same_line x y /\ row_for accounts book y z));
         [|exact H1|exact H2]. intros x y z Hx Hz. by exists y. }
  intros b l row (n & ->) (y & (E1 & E2 & E3 & E4) & Ha & Hf & _ & _ & He & a & Hin & Hi & Hb & _ & _ & Hn).
  cbn in E1, E2, E3, E4. unfold posts_as. rewrite <- E1, <- E3. do 3 (split; [done|]).
  exists a. split; [done|]. split; [done|]. split; [done|]. unfold named in Hn. rewrite E2, E4 in Hn. cbn in Hn.
  destruct (bu_ledgerAccountId b); [done|]. by destruct (bu_accountSystemKey b).
Qed.

Lemma post_entries f r book h i db out db' :
  committed db -> post f r book h i db = (Ok out, db') ->
  (po_reused out = true /\ unchanged db db') \/
  (po_reused out = false /\ db_entries db' = db_entries db ++ [po_entry out] /\
   of_fact f (po_entry out) = true /\
   je_sourceFactFingerprint (po_entry out) = Some (Text.trim h) /\
   je_postingRuleVersionId (po_entry out) = Some (pv_id (rp_version r)) /\
   je_accountingBookId (po_entry out) = bk_id book /\
   je_entryDate (po_entry out) = sf_accountingDate f /\
   exists built rows, buildLines f r = Ok built /\ entry_lines db' (je_id (po_entry out)) = rows /\
     Forall2 (posts_as (db_accounts db) (bk_id book)) built rows /\
     (2 <= length rows)%nat /\ lines_balanced rows = true).
Proof.
  intros Hc H. unfold post in H. run_bind H lines s Hl. apply st_lift_inv in Hl as [Hl ->].
  destruct (postEntry_inv _ _ _ _ Hc H)
    as (value & Hv & [[(_ & _ & _ & _ & Hre) Hu]|(_ & bk & period & b & ls & rows & Hp)]); [by left|right].
  pose proof (postEntrySchema_lines _ _ Hv) as Hsl. cbn [posting_input en_lines] in Hsl.
  pose proof Hv as (Ereq & Edate & _)%postEntrySchema_inv. cbn [posting_input en_accountingBookId en_entryDate] in Ereq, Edate.
  apply posting_header in Hv as (Et & Ei & Es & Ef & Ev).
  destruct Hp as [Hw _ Hre (_ & _ & Hreq) Hres Hbal _ _].
  pose proof (Hreq (bk_id book)) as Ebk. cbn in Ereq. specialize (Ebk Ereq).
  pose proof (built_rows _ _ _ _ _ _ Hsl (resolved_rows _ _ _ _ _ _ Hres (wr_rows _ _ _ _ _ _ _ _ _ _ _ Hw))) as Hrows.
  rewrite Ebk in Hrows.
  pose proof (written_lines _ _ _ _ _ _ _ _ _ _ _ (proj1 Hc) Hw) as Hel.
  pose proof (resolved_balance_row _ _ _ _ (wr_rows _ _ _ _ _ _ _ _ _ _ _ Hw)) as Hrb.
  apply (assertBalanced_rows _ rows Hrb) in Hbal as [Hlen Hlb].
  split; [done|]. split; [by apply Hw|].
  split. { rewrite (wr_entry _ _ _ _ _ _ _ _ _ _ _ Hw). by apply posted_for_spec. }
  split; [by rewrite (wr_entry _ _ _ _ _ _ _ _ _ _ _ Hw)|].
  split; [by rewrite (wr_entry _ _ _ _ _ _ _ _ _ _ _ Hw)|].
  split; [rewrite (wr_entry _ _ _ _ _ _ _ _ _ _ _ Hw); by apply (Hreq (bk_id book))|].
  split; [by rewrite (wr_entry _ _ _ _ _ _ _ _ _ _ _ Hw)|]. exists lines, rows. done.
Qed.

Lemma post_throw f r book h i db e db' : post f r book h i db = (Throw e, db') -> db' = db.
Proof.
  unfold post. intros H. apply st_bind_Throw in H as [H|(l & s & Hl & H)]; [by injection H as _ <-|].
  apply st_lift_inv in Hl as [_ ->]. by apply postEntry_throw in H.
Qed.

Lemma of_fact_other f e ty id :
  of_fact f e = true -> posted_for ty id e = true ->
  ty = fact_type_text (sf_sourceFactType f) /\ id = sf_sourceFactId f.
Proof. unfold of_fact. rewrite !posted_for_spec. naive_solver congruence. Qed.

(** A posting for a fact that has none keeps the ledger single. *)
Lemma post_single f r book h i db :
  committed db -> single db -> vacant f db -> single (snd (post f r book h i db)).
Proof.
  intros Hc Hs Hv. destruct (post f r book h i db) as [[out|e] db'] eqn:E; cbn.
  - destruct (post_entries _ _ _ _ _ _ _ _ Hc E) as [[_ Hu]|(_ & Ee & Hf & _)].
    + eapply single_subset; [|done]. intros ty id e He _.
      apply unchanged_fields in Hu as (<- & _). done.
    + intros ty id x y Hx Hy Hpx Hpy. rewrite Ee in Hx, Hy.
      assert (forall z, z ∈ db_entries db ++ [po_entry out] -> posted_for ty id z = true ->
        z ∈ db_entries db \/ z = po_entry out) as Hcase.
      { intros z Hz _. apply elem_of_app in Hz as [Hz|Hz%list_elem_of_singleton]; auto. }
      destruct (Hcase x Hx Hpx) as [Hx'| ->], (Hcase y Hy Hpy) as [Hy'| ->]; [by eapply Hs| | |done].
      * destruct (of_fact_other _ _ _ _ Hf Hpy) as [-> ->].
        specialize (Hv x Hx'). unfold of_fact in Hv. congruence.
      * destruct (of_fact_other _ _ _ _ Hf Hpx) as [-> ->].
        specialize (Hv y Hy'). unfold of_fact in Hv. congruence.
  - by apply post_throw in E as ->.
Qed.

(** A property of the final store, through a read. *)
Lemma after_read {A B} (P : Db -> Prop) (m : run A) (k : A -> run B) db :
  reads m -> P db -> (forall a, m db = (Ok a, db) -> P (snd (k a db))) -> P (snd ((m ≫= k) db)).
Proof.
  intros Hm Hp Hk. destruct (m db) as [[a|e] s] eqn:E.
  - rewrite (st_bind_run m k db a s E). pose proof (reads_run _ _ _ _ Hm E) as ->. by apply Hk.
  - rewrite (st_bind_throw m k db e s E). by pose proof (reads_run _ _ _ _ Hm E) as ->.
Qed.

(** The entry of a fact that the engine reverses was its only one. *)
Lemma reverse_vacates f e i reason db out db' :
  sound db -> single db -> e ∈ db_entries db -> of_fact f e = true ->
  reverse_for f i e reason db = (Ok out, db') -> single db' /\ vacant f db'.
Proof.
  intros Hs Hsg He Hf H. pose proof (reverse_entries _ _ _ _ _ _ _ _ _ Hs H) as Hr. split.
  - eapply single_subset; [|exact Hsg]. intros t id x Hx Hp. by eapply Hr.
  - intros x Hx. destruct (of_fact f x) eqn:Ef; [|done]. destruct (Hr _ _ _ Hx Ef) as [Hx' Hne].
    destruct Hne. f_equal. by eapply Hsg.
Qed.

Lemma existing_cases (P : Db -> Prop) {B} f (k : option JournalEntry -> run B) db :
  NoDup (je_id <$> db_entries db) -> P db -> (vacant f db -> P (snd (k None db))) ->
  (forall e, e ∈ db_entries db -> of_fact f e = true -> P (snd (k (Some e) db))) ->
  P (snd ((existingEntryFor f ≫= k) db)).
Proof.
  intros Hn Hp H0 H1. apply after_read; [apply existingEntryFor_reads|done|].
  intros o Ho. apply existingEntryFor_inv in Ho as [_ Ho]; [|done]. destruct o as [e|]; [|by apply H0].
  destruct Ho. by apply H1.
Qed.

Lemma evaluateFact_single digest i db :
  sound db -> single db -> single (snd (evaluateFact digest i db)).
Proof.
  intros Hs Hsg. pose proof (ok_entry_ids _ (proj1 (sd_committed _ Hs))) as Hn.
  unfold evaluateFact. apply after_read; [apply read_reads|done|]. intros [f|] _; [|done].
  assert (forall e reason, e ∈ db_entries db -> of_fact f e = true ->
    forall (B : Type) (k : PostedEntry -> run B),
      (forall out db1, committed db1 -> single db1 -> vacant f db1 -> single (snd (k out db1))) ->
      single (snd ((reverse_for f i e reason ≫= k) db))) as Hrev.
  { intros e reason He Hf B k Hk. destruct (reverse_for f i e reason db) as [[out|er] db1] eqn:E.
    - rewrite (st_bind_run _ _ _ _ _ E). destruct (reverse_vacates _ _ _ _ _ _ _ Hs Hsg He Hf E) as [H1 H2].
      apply Hk; [|done|done].
      apply (always_run _ _ _ _ _ (reverse_for_sound f i e reason) E Hs).
    - rewrite (st_bind_throw _ _ _ _ _ E). by apply reverseEntry_throw in E as ->. }
  destruct (sf_ineligibleReason f) as [reason|].
  - unfold evaluate_ineligible. apply existing_cases; [done|done|done|]. intros e He Hf.
    by apply (Hrev e (ineligible_reason reason) He Hf).
  - unfold evaluate_eligible. apply after_read; [apply engine_routeBook_reads|done|]. intros [book|] _; [|done].
    case_bool_decide; [done|]. apply after_read; [apply resolveForFact_reads|done|]. intros [r|] _; [|done].
    cbv zeta. apply existing_cases; [done|done| |].
    + intros Hv. unfold evaluate_new. apply after_read; [solve_respects|done|]. intros built _.
      destruct (_ <? _)%nat; [done|].
      pose proof (post_single f r book (fingerprintFact digest f r) i db (sd_committed _ Hs) Hsg Hv) as Hp.
      unfold mbind, St_bind. destruct (post _ _ _ _ _ db) as [[out|e] db1]; exact Hp.
    + intros e He Hf. unfold evaluate_existing. destruct (_ && _); [done|].
      apply (Hrev e _ He Hf). intros out db1 Hc1 Hs1 Hv1.
      pose proof (post_single f r book (fingerprintFact digest f r) i db1 Hc1 Hs1 Hv1) as Hp.
      unfold mbind, St_bind. destruct (post _ _ _ _ _ db1) as [[o|er] db2]; exact Hp.
Qed.

Lemma evaluateFacts_single digest l db :
  sound db -> single db -> single (snd (evaluateFacts digest l db)).
Proof.
  unfold evaluateFacts. revert db. induction l as [|i l IH]; intros db Hs Hsg; [done|]. cbn [st_mapM].
  pose proof (evaluateFact_single digest i db Hs Hsg) as H1.
  pose proof (evaluateFact_sound digest i db Hs) as [Hs1 _].
  unfold mbind at 1, St_bind at 1. destruct (evaluateFact digest i db) as [[o|e] db1]; [|done].
  specialize (IH db1 Hs1 H1). unfold mbind, St_bind. by destruct (st_mapM _ l db1) as [[os|e] db2].
Qed.

(** C1. At most one posted entry per fact: over a sound ledger in which no fact
    has two posted entries of the rules, evaluating any fact - or any list of
    facts, in any order, with repetitions, under any digest, whether or not an
    evaluation throws half way - leaves a sound ledger in which no fact has
    two, and nothing that was in the books is gone or changed but for the
    status of what was reversed. *)
Theorem engine_posts_once (digest : string -> string) (i : EvaluateFactInput)
    (facts : list EvaluateFactInput) (db : Db) :
  sound db -> single db ->
  let ok db' := sound db' /\ single db' /\ evolves db db' in
  ok (snd (evaluateFact digest i db)) /\ ok (snd (engine_evaluateFact digest i db)) /\
  ok (snd (evaluateFacts digest facts db)).
Proof.
  intros Hs Hsg ok. unfold ok. pose proof (evaluateFact_single digest i db Hs Hsg) as H1.
  destruct (evaluateFact_sound digest i db Hs) as [Hs1 He1].
  destruct (engine_evaluateFact_sound digest i db Hs) as [Hs2 He2].
  destruct (evaluateFacts_sound digest facts db Hs) as [Hs3 He3].
  split; [done|]. split; [|split; [done|]; split; [by apply evaluateFacts_single|done]].
  split; [done|]. split; [|done]. unfold engine_evaluateFact, st_catch.
  destruct (evaluateFact digest i db) as [[o|e] db1]; [done|]. by case_bool_decide.
Qed.

Lemma createRule_sound i : always sound_step (createRule i).
Proof. apply sound_of_quiet; [apply createRule_tx_ok|apply createRule_quiet]. Qed.
#[export] Hint Resolve createRule_sound : store.

Lemma seedDefaultRules_sound actor request : always sound_step (seedDefaultRules actor request).
Proof.
  unfold seedDefaultRules. generalize DEFAULT_POSTING_RULES as l.
  induction l as [|t l IH]; cbn [seed_rules]; unfold findRuleByCode; solve_respects.
Qed.

Lemma set_facts_sound v db : sound db -> sound (set_facts v db).
Proof.
  intros Hs. apply (sound_of_step db (set_facts v db)); [|intros _; apply step_quiet, quiet_frame; done|done].
  intros [Hok Hd]. assert (step_ok db (set_facts v db)) as [H1 H2] by by_frame.
  split; [|done]. split; [by apply H1|done].
Qed.

Lemma engine_db_sound : sound engine_db.
Proof.
  apply set_facts_sound. apply (seedDefaultRules_sound (Some "u1"%string) None ledger_db), ledger_db_sound.
Qed.

Lemma engine_db_entries : db_entries engine_db = [].
Proof. vm_compute. reflexivity. Qed.

Lemma engine_db_single : single engine_db.
Proof. intros t id e f He. rewrite engine_db_entries in He. by apply not_elem_of_nil in He. Qed.

(** The order of [engine_db], evaluated three times over: one entry. *)
Lemma engine_posts_once_witness :
  single (snd (evaluateFacts sample_digest [evaluate_order; evaluate_order; evaluate_order] engine_db)) /\
  length (db_entries (snd (evaluateFacts sample_digest [evaluate_order; evaluate_order; evaluate_order]
                             engine_db))) = 1%nat.
Proof.
  split; [|vm_compute; reflexivity].
  apply (proj2 (proj2 (engine_posts_once sample_digest evaluate_order
    [evaluate_order; evaluate_order; evaluate_order] engine_db engine_db_sound engine_db_single))).
Defined.

(** ** Evaluation reads what posting leaves alone *)
Definition book_face (b : AccountingBook) : uuid * BookStatus := (bk_id b, bk_status b).

Record same_operations (db db' : Db) : Prop := {
  so_facts : db_facts db' = db_facts db;
  so_expenses : db_expenses db' = db_expenses db;
  so_allocations : db_allocations db' = db_allocations db;
  so_links : db_links db' = db_links db;
  so_entities : db_entities db' = db_entities db;
  so_rules : db_rules db' = db_rules db;
  so_versions : db_versions db' = db_versions db;
  so_rule_lines : db_rule_lines db' = db_rule_lines db;
  so_books id : book_face <$> find_book id db' = book_face <$> find_book id db;
}.
#[export] Instance same_operations_preorder : PreOrder same_operations.
Proof. split; [done|]. intros ??? [] []. split; congruence. Qed.

(** What a computation returns depends on the operational tables only. *)
Definition operational {A} (m : run A) : Prop :=
  reads m /\ forall db db', same_operations db db' -> fst (m db') = fst (m db).

Lemma operational_ret {A} (a : A) : operational (mret a).
Proof. split; [solve_respects|done]. Qed.
Lemma operational_throw {A} e : operational (st_throw (A:=A) e).
Proof. split; [solve_respects|done]. Qed.
Lemma operational_lift {A} (m : result A) : operational (st_lift m).
Proof. split; [solve_respects|done]. Qed.
Lemma operational_bind {A B} (m : run A) (k : A -> run B) :
  operational m -> (forall a, operational (k a)) -> operational (m ≫= k).
Proof.
  intros [Hr Hd] Hk. split; [apply always_bind; [apply _|done|intros a; apply Hk]|].
  intros db db' Hs. specialize (Hd db db' Hs). unfold mbind, St_bind.
  destruct (m db) as [r s] eqn:E. destruct (m db') as [r' s'] eqn:E'. cbn in Hd. subst r'.
  pose proof (reads_run _ _ _ _ Hr E) as ->. pose proof (reads_run _ _ _ _ Hr E') as ->.
  destruct r as [a|e]; [|done]. by apply (proj2 (Hk a)).
Qed.
Lemma operational_get {B} (k : Db -> run B) :
  (forall db, operational (k db)) -> (forall db db', same_operations db db' -> k db' = k db) ->
  operational (st_get ≫= k).
Proof.
  intros Hk He. split; [apply always_bind; [apply _|solve_respects|intros a; apply Hk]|].
  intros db db' Hs. rewrite !(st_bind_run st_get k _ _ _ eq_refl). rewrite (He db db' Hs).
  by apply (proj2 (Hk db)).
Qed.

Ltac operational_step :=
  match goal with
  | |- operational (mret _) => apply operational_ret
  | |- operational (st_throw _) => apply operational_throw
  | |- operational (st_lift _) => apply operational_lift
  | |- operational (st_get ≫= _) => apply operational_get;
      [intros ?|let H := fresh in intros ? ? H;
       rewrite ?(so_facts _ _ H), ?(so_expenses _ _ H), ?(so_allocations _ _ H), ?(so_links _ _ H),
         ?(so_entities _ _ H), ?(so_rules _ _ H), ?(so_versions _ _ H), ?(so_rule_lines _ _ H);
       reflexivity]
  | |- operational (_ ≫= _) => apply operational_bind; [|intros ?]
  | |- operational (match ?x with _ => _ end) => destruct x
  | |- operational (let _ := _ in _) => cbv zeta
  end.
Ltac solve_operational := repeat operational_step.

Lemma read_operational t id : operational (read t id).
Proof.
  unfold read, readOrder, readOrderFee, readOrderRefund, readExpense, readAcquisitionCost, superseded_expense,
    readInventoryMovement, movement_basis, numeric_cast.
  solve_operational.
Qed.

Lemma resolveForFact_operational f b : operational (resolveForFact f b).
Proof.
  unfold resolveForFact. apply operational_get; [intros; apply operational_lift|].
  intros db db' Hs. f_equal. unfold active_rules. rewrite (so_rules _ _ Hs).
  generalize (order_rules (List.filter (fun r => bool_decide (pr_sourceFactType r = sf_sourceFactType f)
    && bool_decide (pr_status r = RuleActive)) (db_rules db))) as l.
  induction l as [|r l IH]; [done|]. cbn [first_firing].
  assert (rule_fires db' f b r = rule_fires db f b r) as ->.
  { unfold rule_fires, version_lines. by rewrite (so_versions _ _ Hs), (so_rule_lines _ _ Hs). }
  destruct (rule_fires db f b r) as [[|]|]; done.
Qed.

Lemma resolveBookForEntity_operational e t d : operational (resolveBookForEntity e t d).
Proof.
  unfold resolveBookForEntity. apply operational_bind; [|intros; apply operational_ret].
  destruct e as [id|]; [|apply operational_ret]. unfold routeThroughEntity, dateLiteral, date_in.
  apply operational_bind; [solve_operational|]. intros u. split; [solve_respects|].
  intros db db' Hs. cbn. by rewrite (so_links _ _ Hs), (so_entities _ _ Hs).
Qed.

(** *** Posting leaves the operational tables alone *)
Ltac by_operations := split; done.
Lemma insertJournalEntry_operations v : respects same_operations (insertJournalEntry v).
Proof. intros db r db' H. unfold insertJournalEntry in H. inv_stmt. by_operations. Qed.
Lemma updateJournalEntry_operations id f : respects same_operations (updateJournalEntry id f).
Proof. intros db r db' H. unfold updateJournalEntry in H. inv_stmt. by_operations. Qed.
Lemma insertJournalLineRow_operations v : respects same_operations (insertJournalLineRow v).
Proof. intros db r db' H. unfold insertJournalLineRow in H. inv_stmt. by_operations. Qed.
Lemma insertLineDimensionRow_operations v : respects same_operations (insertLineDimensionRow v).
Proof. intros db r db' H. unfold insertLineDimensionRow in H. inv_stmt. by_operations. Qed.
Lemma insertSourceLinkRow_operations v : respects same_operations (insertSourceLinkRow v).
Proof.
  intros db r db' H. unfold insertSourceLinkRow in H. inv_stmt. case_match; inv_stmt; by_operations.
Qed.
Lemma audit_append_operations e : respects same_operations (audit_append e).
Proof. intros db r db' H. unfold audit_append in H. inv_stmt. by_operations. Qed.
#[local] Hint Resolve insertJournalEntry_operations updateJournalEntry_operations
  insertJournalLineRow_operations insertLineDimensionRow_operations insertSourceLinkRow_operations
  audit_append_operations : store.

Lemma find_book_update_face id (p : AccountingBook -> bool) (f : AccountingBook -> AccountingBook) db db' :
  (forall b, book_face (f b) = book_face b) -> db_books db' = update_rows p f (db_books db) ->
  book_face <$> find_book id db' = book_face <$> find_book id db.
Proof.
  intros Hf. unfold find_book, find_row. intros ->. induction (db_books db) as [|b l IH]; [done|].
  cbn [update_rows map List.find]. assert (bk_id (if p b then f b else b) = bk_id b) as ->.
  { destruct (p b); [|done]. by specialize (Hf b) as [= E _]. }
  destruct (bool_decide (bk_id b = id)); [|exact IH]. cbn. destruct (p b); [by rewrite Hf|done].
Qed.

Lemma nextEntryNumber_operations id : respects same_operations (nextEntryNumber id).
Proof.
  intros db n db' H. unfold nextEntryNumber in H. run_bind H d s Hd. apply st_get_inv in Hd as [-> ->].
  run_bind H u s Hu. apply st_lift_inv in Hu as [_ ->]. run_bind H u2 s Hu2. apply st_ret_inv in H as [_ ->].
  unfold updateBook in Hu2. inv_stmt. split; try done. intros x.
  eapply find_book_update_face; [|reflexivity]. done.
Qed.
#[local] Hint Resolve nextEntryNumber_operations : store.

Lemma transaction_operations {A} (body : run A) :
  respects same_operations body -> always same_operations (transaction body).
Proof.
  intros Hb db. unfold transaction. destruct (body (begin_tx db)) as [[a|e] db1] eqn:E; [|reflexivity].
  destruct (commit_check db1); [|reflexivity]. destruct (Hb _ _ _ E). by split.
Qed.
Lemma reads_operations {A} (m : run A) : reads m -> respects same_operations m.
Proof. apply reads_respects. apply _. Qed.
Lemma reads_operations_always {A} (m : run A) : reads m -> always same_operations m.
Proof. apply reads_always. apply _. Qed.
#[local] Hint Resolve reads_operations reads_operations_always : store.

Lemma postEntry_operations i : always same_operations (postEntry i).
Proof.
  unfold postEntry. apply always_bind; [apply _|apply always_lift; apply _|]. intros value.
  apply always_catch; [apply _| |intros e; apply reads_operations_always, postEntry_handler_reads].
  apply transaction_operations. unfold postEntry_body, postEntry_fresh, insertHeader, insertLines,
    insertJournalLines, insertLineDimensions, insertSourceLinks, insertSourceLink, markPosted.
  solve_respects.
Qed.

Lemma post_operations f r b h i : always same_operations (post f r b h i).
Proof. unfold post. apply always_bind; [apply _|apply always_lift; apply _|intros l; apply postEntry_operations]. Qed.

Lemma routeBook_operations f d db db' book :
  same_operations db db' -> PostingEngine.routeBook f d db = (Ok (Some book), db) ->
  exists book', PostingEngine.routeBook f d db' = (Ok (Some book'), db') /\ book_face book' = book_face book.
Proof.
  intros Hs H.
  assert (forall id b s, loadBook id db = (Ok b, s) ->
    exists b', loadBook id db' = (Ok b', db') /\ book_face b' = book_face b) as Hl.
  { intros id b s Hb. unfold loadBook in *. run_bind Hb x s1 Hx. apply st_get_inv in Hx as [-> ->].
    destruct (find_book id db) as [y|] eqn:Ey; [|discriminate Hb]. apply st_ret_inv in Hb as [-> _].
    pose proof (so_books _ _ Hs id) as Hf. rewrite Ey in Hf.
    destruct (find_book id db') as [y'|] eqn:Ey'; [|discriminate Hf].
    exists y'. erewrite st_bind_run by done. rewrite Ey'. split; [done|]. by apply (inj Some (book_face y') (book_face y)) in Hf. }
  unfold PostingEngine.routeBook in *. destruct (sf_accountingBookIdOverride f) as [id|].
  - run_bind H b s Hb. apply st_ret_inv in H as [[= <-] _]. destruct (Hl _ _ _ Hb) as (b' & Hb' & Ef).
    exists b'. by rewrite (st_bind_run _ _ _ _ _ Hb').
  - run_bind H r s Hr. pose proof (resolveBookForEntity_reads (sf_economicEntityId f) (sf_accountingDate f) d) as Hrd.
    destruct (resolveBookForEntity_operational (sf_economicEntityId f) (sf_accountingDate f) d) as [_ Hd].
    specialize (Hd db db' Hs). rewrite Hr in Hd. cbn [fst] in Hd.
    destruct (resolveBookForEntity _ _ _ db') as [r' s'] eqn:Er. cbn in Hd. subst r'.
    pose proof (reads_run _ _ _ _ Hrd Er) as ->. rewrite (st_bind_run _ _ _ _ _ Er).
    pose proof (reads_run _ _ _ _ Hrd Hr) as ->.
    destruct r as [r|]; [|apply st_ret_inv in H as [[=] _]].
    run_bind H b s Hb. apply st_ret_inv in H as [[= <-] _]. destruct (Hl _ _ _ Hb) as (b' & Hb' & Ef).
    exists b'. by rewrite (st_bind_run _ _ _ _ _ Hb').
Qed.

(** ** Outcomes *)

(** The digest is text that trimming leaves alone, as hexadecimal is. *)
Definition trimmed_digest (digest : string -> string) : Prop :=
  forall s, Text.trim (digest s) = digest s.

(** What an evaluation read on the way to posting. *)
Record routed (digest : string -> string) (i : EvaluateFactInput) (db : Db) (f : SourceFact)
    (book : AccountingBook) (r : ResolvedPostingRule) : Prop := {
  ro_read : read (ef_sourceFactType i) (ef_sourceFactId i) db = (Ok (Some f), db);
  ro_eligible : sf_ineligibleReason f = None;
  ro_book : PostingEngine.routeBook f (ef_installationDefaultBookId i) db = (Ok (Some book), db);
  ro_active : bk_status book = BookActive;
  ro_rule : resolveForFact f (bk_id book) db = (Ok (Some r), db);
}.

Lemma routed_evaluate digest i db f book r :
  routed digest i db f book r ->
  evaluateFact digest i db =
    (existing ← existingEntryFor f;
     match existing with
     | Some e => evaluate_existing i f book r (fingerprintFact digest f r) e
     | None => evaluate_new i f book r (fingerprintFact digest f r)
     end) db.
Proof.
  intros [H1 H2 H3 H4 H5]. unfold evaluateFact. rewrite (st_bind_run _ _ _ _ _ H1), H2.
  unfold evaluate_eligible. rewrite (st_bind_run _ _ _ _ _ H3), bool_decide_false by (by intros []).
  by rewrite (st_bind_run _ _ _ _ _ H5).
Qed.

(** An evaluation that returns one of the three outcomes with an entry. *)
Lemma evaluate_routed digest i db o db' :
  evaluateFact digest i db = (Ok o, db') -> oc_status o <> Unpostable ->
  exists f book r, routed digest i db f book r.
Proof.
  intros H Hst. unfold evaluateFact in H. run_bind H ofact s Hf.
  pose proof (reads_run _ _ _ _ (read_reads _ _) Hf) as ->.
  destruct ofact as [f|]; [|by apply st_ret_inv in H as [-> _]].
  destruct (sf_ineligibleReason f) as [reason|] eqn:Ei.
  { unfold evaluate_ineligible in H. run_bind H p s Hp. destruct p as [e|].
    - run_bind H rev s2 Hr. by apply st_ret_inv in H as [-> _].
    - by apply st_ret_inv in H as [-> _]. }
  unfold evaluate_eligible in H. run_bind H ob s Hb.
  pose proof (reads_run _ _ _ _ (engine_routeBook_reads _ _) Hb) as ->.
  destruct ob as [book|]; [|by apply st_ret_inv in H as [-> _]].
  case_bool_decide as Ha; [by apply st_ret_inv in H as [-> _]|].
  run_bind H ores s Hr. pose proof (reads_run _ _ _ _ (resolveForFact_reads _ _) Hr) as ->.
  destruct ores as [r|]; [|by apply st_ret_inv in H as [-> _]].
  by exists f, book, r.
Qed.

Lemma evaluate_posted digest i db o db' :
  committed db -> evaluateFact digest i db = (Ok o, db') -> oc_status o = Posted ->
  exists f book r posted,
    routed digest i db f book r /\ vacant f db /\
    post f r book (fingerprintFact digest f r) i db = (Ok posted, db') /\ po_reused posted = false /\
    o = outcome i Posted (po_entry posted) None r (bk_id book).
Proof.
  intros Hc H Hst. destruct (evaluate_routed digest i db o db' H) as (f & book & r & Hr); [congruence|].
  rewrite (routed_evaluate _ _ _ _ _ _ Hr) in H. run_bind H ex s Hex.
  apply existingEntryFor_inv in Hex as [-> Hex]; [|apply Hc]. destruct ex as [e|].
  - unfold evaluate_existing in H. destruct (_ && _).
    + by apply st_ret_inv in H as [-> _].
    + run_bind H rev s1 H1. run_bind H p s2 H2. by apply st_ret_inv in H as [-> _].
  - unfold evaluate_new in H. run_bind H built s Hb. apply st_lift_inv in Hb as [_ ->].
    destruct (_ <? _)%nat; [by apply st_ret_inv in H as [-> _]|].
    run_bind H p s Hp. apply st_ret_inv in H as [-> <-].
    exists f, book, r, p. do 3 (split; [done|]). destruct (po_reused p); done.
Qed.

(** C30. Posting: when the outcome is [posted], exactly one entry was added; it is
    posted, in the routed book, under the resolved version, with the fact's
    identity and the digest of what the rule consumed; its lines are, one for one
    and in order, the lines [buildLines] computes from the fact and the version -
    amount, entity and the account each names; it balances; it is the
    only posted entry of the rules for the fact; and every entry there was is
    kept. *)
Theorem evaluateFact_posts (digest : string -> string) (i : EvaluateFactInput) (db db' : Db)
    (o : PostingOutcome) :
  sound db -> trimmed_digest digest ->
  evaluateFact digest i db = (Ok o, db') -> oc_status o = Posted ->
  exists f book r e,
    routed digest i db f book r /\ oc_entry o = Some e /\
    oc_accountingBookId o = Some (bk_id book) /\ oc_rule o = Some (rule_stamp r) /\
    db_entries db' = db_entries db ++ [e] /\
    je_accountingBookId e = bk_id book /\ je_entryDate e = sf_accountingDate f /\
    je_sourceFactFingerprint e = Some (digest (canonical f r)) /\
    je_postingRuleVersionId e = Some (pv_id (rp_version r)) /\
    (forall x, x ∈ db_entries db' -> of_fact f x = true <-> x = e) /\
    (exists built, buildLines f r = Ok built /\
       Forall2 (posts_as (db_accounts db) (bk_id book)) built (entry_lines db' (je_id e))) /\
    (2 <= length (entry_lines db' (je_id e)))%nat /\ lines_balanced (entry_lines db' (je_id e)) = true.
Proof.
  intros Hs Hd H Hst. pose proof (sd_committed _ Hs) as Hc.
  destruct (evaluate_posted _ _ _ _ _ Hc H Hst) as (f & book & r & p & Hr & Hv & Hp & Hre & ->).
  destruct (post_entries _ _ _ _ _ _ _ _ Hc Hp)
    as [[Hx _]|(_ & Ee & Hf & Hfp & Hver & Hbk & Hdt & built & rows & Hb & El & Hrows & Hlen & Hbal)]; [congruence|].
  exists f, book, r, (po_entry p). rewrite El. unfold fingerprintFact in Hfp. rewrite Hd in Hfp.
  do 9 (split; [done|]). split; [|split; [by exists built|done]]. intros x. rewrite Ee. intros Hx. split; [|by intros ->].
  intros Hfx. apply elem_of_app in Hx as [Hx|Hx%list_elem_of_singleton]; [|done].
  rewrite (Hv x Hx) in Hfx. discriminate Hfx.
Qed.

(** Decimal digits are not trimmed. *)
Lemma sample_digest_trimmed : trimmed_digest sample_digest.
Proof.
  intros s. apply trim_no_space, digits_no_space, bigint_to_string_spec.
  assert (forall l h, 0 <= h -> 0 <= fold_left (fun h c => (h * 257 + Z.of_nat (nat_of_ascii c)) mod (10 ^ 20 - 11)) l h) as H.
  { induction l as [|c l IH]; intros h Hh; cbn [fold_left]; [done|]. apply IH. by apply Z.mod_pos_bound. }
  specialize (H (list_ascii_of_string s) 7). lia.
Qed.

Definition evaluated_db : Db := snd (evaluateFact sample_digest evaluate_order engine_db).
Definition evaluated : option PostingOutcome :=
  match fst (evaluateFact sample_digest evaluate_order engine_db) with Ok o => Some o | Throw _ => None end.
Lemma evaluated_some : exists o, evaluated = Some o /\ oc_status o = Posted.
Proof.
  assert (match evaluated with Some o => bool_decide (oc_status o = Posted) | None => false end = true) as H
    by (vm_compute; reflexivity).
  destruct evaluated as [o|]; [|discriminate H]. exists o. by apply bool_decide_eq_true in H.
Qed.
Lemma evaluated_run o : evaluated = Some o ->
  evaluateFact sample_digest evaluate_order engine_db = (Ok o, evaluated_db).
Proof.
  unfold evaluated, evaluated_db. destruct (evaluateFact _ _ _) as [[x|e] s]; [|done].
  cbn. by intros [= ->].
Qed.

Lemma evaluateFact_posts_witness :
  exists o e, evaluateFact sample_digest evaluate_order engine_db = (Ok o, evaluated_db) /\
    oc_entry o = Some e /\ je_entryDate e = 20260310 /\
    db_entries evaluated_db = db_entries engine_db ++ [e] /\
    lines_balanced (entry_lines evaluated_db (je_id e)) = true.
Proof.
  destruct evaluated_some as (o & Ho & Hst). pose proof (evaluated_run o Ho) as Hr.
  destruct (evaluateFact_posts sample_digest evaluate_order engine_db evaluated_db o engine_db_sound
    sample_digest_trimmed Hr Hst)
    as (f & book & r & e & Hro & He & _ & _ & Hes & _ & Hd & _ & _ & _ & _ & _ & Hb).
  exists o, e. split; [exact Hr|]. split; [exact He|]. split; [|split; [exact Hes|exact Hb]].
  destruct Hro as [Hread _ _ _ _].
  assert (match fst (read "order" 900 engine_db) with Ok (Some f) => sf_accountingDate f | _ => 0 end = 20260310)
    as Hdate by (vm_compute; reflexivity).
  change (read "order" 900 engine_db = (Ok (Some f), engine_db)) in Hread.
  rewrite Hread in Hdate. rewrite Hd. exact Hdate.
Defined.

(** Evaluation is idempotent: after an evaluation that posted, evaluating the
    same fact again - by whoever, into whatever period, in any later store where
    the operational tables are the same and no entry of the fact was added,
    edited or reversed - answers [unchanged] with the entry that was posted,
    and writes nothing at all. *)
Theorem evaluateFact_idempotent (digest : string -> string) (i j : EvaluateFactInput)
    (db db1 db2 : Db) (o : PostingOutcome) :
  sound db -> trimmed_digest digest ->
  evaluateFact digest i db = (Ok o, db1) -> oc_status o = Posted ->
  ef_sourceFactType j = ef_sourceFactType i -> ef_sourceFactId j = ef_sourceFactId i ->
  ef_installationDefaultBookId j = ef_installationDefaultBookId i ->
  same_operations db1 db2 -> NoDup (je_id <$> db_entries db2) ->
  (forall f, List.filter (of_fact f) (db_entries db2) = List.filter (of_fact f) (db_entries db1)) ->
  exists again, evaluateFact digest j db2 = (Ok again, db2) /\
    oc_status again = Unchanged /\ oc_entry again = oc_entry o /\ oc_rule again = oc_rule o /\
    oc_accountingBookId again = oc_accountingBookId o.
Proof.
  intros Hs Hd H Hst Ej Ek El Hops Hn2 Hsame. pose proof (sd_committed _ Hs) as Hc.
  destruct (evaluate_posted _ _ _ _ _ Hc H Hst) as (f & book & r & p & Hr & Hv & Hp & Hre & ->).
  destruct (post_entries _ _ _ _ _ _ _ _ Hc Hp) as [[Hx _]|(_ & Ee & Hf & Hfp & Hver & _)]; [congruence|].
  pose proof (always_run _ _ _ _ _ (post_operations _ _ _ _ _) Hp) as Hops1.
  assert (same_operations db db2) as Hops2 by (by etrans).
  destruct Hr as [H1 H2 H3 H4 H5].
  assert (exists book', routed digest j db2 f book' r /\ bk_id book' = bk_id book) as (book' & Hr2 & Hbk).
  { destruct (routeBook_operations _ _ _ _ _ Hops2 H3) as (book' & Hb' & Hface).
    injection Hface as Hbi Hbs. exists book'. split; [|done]. split.
    - rewrite Ej, Ek. destruct (read_operational (ef_sourceFactType i) (ef_sourceFactId i)) as [Hrd Hdet].
      specialize (Hdet db db2 Hops2). rewrite H1 in Hdet. cbn [fst] in Hdet.
      destruct (read _ _ db2) as [x s] eqn:E. cbn [fst] in Hdet. subst x.
      by pose proof (reads_run _ _ _ _ Hrd E) as ->.
    - done.
    - by rewrite El.
    - congruence.
    - rewrite Hbi. destruct (resolveForFact_operational f (bk_id book)) as [Hrd Hdet].
      specialize (Hdet db db2 Hops2). rewrite H5 in Hdet. cbn [fst] in Hdet.
      destruct (resolveForFact _ _ db2) as [x s] eqn:E. cbn [fst] in Hdet. subst x.
      by pose proof (reads_run _ _ _ _ Hrd E) as ->. }
  assert (forall x, x ∈ db_entries db2 /\ of_fact f x = true <-> x = po_entry p) as Hmem.
  { intros x. etrans; [symmetry; rewrite !list_elem_of_In; apply filter_In|].
    rewrite <- list_elem_of_In.
    rewrite Hsame, list_elem_of_In, filter_In, <- list_elem_of_In, Ee. split.
    - intros [[Hx|Hx%list_elem_of_singleton]%elem_of_app Hfx]; [|done]. by rewrite (Hv x Hx) in Hfx.
    - intros ->. split; [|done]. apply elem_of_app. right. by apply list_elem_of_singleton. }
  exists (outcome j Unchanged (po_entry p) None r (bk_id book')).
  split; [|cbn; by rewrite Hbk].
  rewrite (routed_evaluate _ _ _ _ _ _ Hr2).
  destruct (existingEntryFor f db2) as [[ex|er] s] eqn:Eex.
  - rewrite (st_bind_run _ _ _ _ _ Eex). apply existingEntryFor_inv in Eex as [-> Hex]; [|done].
    destruct ex as [e|].
    + apply Hmem in Hex as ->. unfold evaluate_existing, fingerprintFact in *.
      rewrite Hfp, Hver, Hd. unfold opt_eqb. rewrite !bool_decide_true by done. done.
    + destruct (proj2 (Hmem (po_entry p)) eq_refl) as [Hin Hfe]. by rewrite (Hex _ Hin) in Hfe.
  - exfalso. unfold existingEntryFor in Eex.
    apply st_bind_Throw in Eex as [[=]|(d & s1 & [-> ->]%st_get_inv & Eex)].
    destruct (order_by _ _) as [|e l] eqn:Eo; [discriminate Eex|].
    assert (e ∈ db_entries db2) as Hin.
    { assert (e ∈ e :: l) as Hin by left. rewrite <- Eo, order_by_elem, list_elem_of_In, filter_In in Hin.
      by apply list_elem_of_In, Hin. }
    apply st_bind_Throw in Eex as [Eex|(x & s2 & _ & [=])].
    rewrite (loadEntry_run db2 e Hn2 Hin) in Eex. discriminate Eex.
Qed.

Lemma evaluateFact_idempotent_witness :
  exists again, evaluateFact sample_digest evaluate_order evaluated_db = (Ok again, evaluated_db) /\
    oc_status again = Unchanged.
Proof.
  destruct evaluated_some as (o & Ho & Hst).
  destruct (evaluateFact_idempotent sample_digest evaluate_order evaluate_order engine_db evaluated_db
    evaluated_db o engine_db_sound sample_digest_trimmed (evaluated_run o Ho) Hst eq_refl eq_refl eq_refl)
    as (again & H1 & H2 & _); [reflexivity| |reflexivity|].
  - apply (ok_entry_ids _ (proj1 (sd_committed _ (proj1
      (evaluateFact_sound sample_digest evaluate_order engine_db engine_db_sound))))).
  - exists again. split; [exact H1|exact H2].
Defined.

(** ** A fact that changes and changes back *)
Definition restate (total : Z) (db : Db) : Db := set_facts (order_facts total) db.
Definition reevaluate (db : Db) : result PostingOutcome * Db :=
  evaluateFact sample_digest evaluate_order db.

(** The status of an outcome, and of the entry it names. *)
Definition answer (r : result PostingOutcome) : option (OutcomeStatus * option EntryStatus) :=
  match r with Ok o => Some (oc_status o, je_status <$> oc_entry o) | Throw _ => None end.

(** A departure from the contract: an order is posted, restated and
    re-posted, then restated to what it was.  The third evaluation reverses the
    second entry and answers [reposted], but the posting key it mints is the
    first entry's, which is held by an entry already reversed; that entry is
    what it returns.  The fact is left with no posted entry, and every further
    evaluation answers [unchanged]. *)
Theorem restored_fact_stays_reversed :
  let db1 := snd (reevaluate engine_db) in
  let second := reevaluate (restate 111790000 db1) in
  let third := reevaluate (restate 111780000 (snd second)) in
  let fourth := reevaluate (snd third) in
  answer (fst (reevaluate engine_db)) = Some (Posted, Some EntryPosted) /\
  answer (fst second) = Some (Reposted, Some EntryPosted) /\
  answer (fst third) = Some (Reposted, Some EntryReversed) /\
  existsb (posted_for "order" 900) (db_entries (snd third)) = false /\
  answer (fst fourth) = Some (Unchanged, Some EntryReversed) /\
  existsb (posted_for "order" 900) (db_entries (snd fourth)) = false.
Proof. vm_compute. repeat split; reflexivity. Qed.
