(* ===== verification/PostingPump.v ===== *)
(** * The posting sweep

    [packages/app/src/accounting-posting.ts]: the recurring task that seeds the
    default rules and runs the unposted facts through the engine.  The setting
    [accounting.default_book_id] is an argument. *)
From S2P Require Import Prelude Decimal Calendar Inputs Store Schema Ledger LedgerFacts Periods Chart.
From S2P Require Import Books Journal JournalFacts JournalMachine Facts PostingRules DefaultRules.
From S2P Require Import PostingEngine LineBuilding EngineFacts.

Open Scope Z_scope.

Definition DEFAULT_POST_FACTS_LIMIT : Z := 500.

Record AccountingPostFactsResult : Type := {
  af_candidates : Z;
  af_posted : Z;
  af_unchanged : Z;
  af_reposted : Z;
  af_unpostable : Z;
  af_unpostableByReason : list (UnpostableReason * Z);
  af_more : bool;
}.

(** [counts[reason] = (counts[reason] ?? 0) + 1] *)
Fixpoint count_reason (r : UnpostableReason) (counts : list (UnpostableReason * Z))
    : list (UnpostableReason * Z) :=
  match counts with
  | [] => [(r, 1)]
  | (s, n) :: counts => if decide (s = r) then (s, n + 1) :: counts else (s, n) :: count_reason r counts
  end.

Definition tally_with (t : AccountingPostFactsResult) (posted unchanged reposted unpostable : Z)
    (reasons : list (UnpostableReason * Z)) : AccountingPostFactsResult :=
  {| af_candidates := af_candidates t; af_posted := af_posted t + posted;
     af_unchanged := af_unchanged t + unchanged; af_reposted := af_reposted t + reposted;
     af_unpostable := af_unpostable t + unpostable; af_unpostableByReason := reasons;
     af_more := af_more t |}.

(** One turn of the loop over the outcomes. *)
Definition tally (t : AccountingPostFactsResult) (o : PostingOutcome) : AccountingPostFactsResult :=
  let reasons := af_unpostableByReason t in
  match oc_status o with
  | Posted => tally_with t 1 0 0 0 reasons
  | Unchanged => tally_with t 0 1 0 0 reasons
  | Reposted => tally_with t 0 0 1 0 reasons
  | Unpostable =>
      tally_with t 0 0 0 1 (match oc_reason o with Some r => count_reason r reasons | None => reasons end)
  end.

Definition sweep_input (installationDefaultBookId : option uuid) (f : FactType * uuid) : EvaluateFactInput :=
  {| ef_sourceFactType := fact_type_text (fst f); ef_sourceFactId := snd f;
     ef_installationDefaultBookId := installationDefaultBookId; ef_allowBackdated := false;
     ef_actorUserId := None; ef_requestId := None |}.

Section sweep.
Variable digest : string -> string.

Definition runAccountingPostFactsSweep (limit : option Z) (installationDefaultBookId : option uuid)
    : run AccountingPostFactsResult :=
  let limit := default DEFAULT_POST_FACTS_LIMIT limit in
  _ ← seedDefaultRules None None;
  candidates ← unpostedFacts (Some READABLE_SOURCE_FACT_TYPES) (Some limit);
  outcomes ← evaluateFacts digest (sweep_input installationDefaultBookId <$> candidates);
  mret (fold_left tally outcomes
    {| af_candidates := Z.of_nat (length candidates); af_posted := 0; af_unchanged := 0;
       af_reposted := 0; af_unpostable := 0; af_unpostableByReason := [];
       af_more := limit <=? Z.of_nat (length candidates) |}).
End sweep.

(** * Theorems *)
Lemma unpostedFacts_reads t l : reads (unpostedFacts t l).
Proof. unfold unpostedFacts. solve_respects. Qed.
#[export] Hint Resolve unpostedFacts_reads seedDefaultRules_sound evaluateFacts_sound : store.

Lemma sweep_sound digest limit default : always sound_step (runAccountingPostFactsSweep digest limit default).
Proof. unfold runAccountingPostFactsSweep. cbv zeta. solve_respects. Qed.

(** Seeding writes no entry. *)
Lemma seedDefaultRules_quiet actor request : always quiet (seedDefaultRules actor request).
Proof.
  unfold seedDefaultRules. generalize DEFAULT_POSTING_RULES as l.
  induction l as [|t l IH]; cbn [seed_rules]; unfold findRuleByCode; solve_respects; apply createRule_quiet.
Qed.

Lemma sweep_single digest limit default db :
  sound db -> single db -> single (snd (runAccountingPostFactsSweep digest limit default db)).
Proof.
  intros Hs Hsg. unfold runAccountingPostFactsSweep. cbv zeta.
  pose proof (seedDefaultRules_sound None None db Hs) as [Hs1 _].
  pose proof (seedDefaultRules_quiet None None db) as [Hq _ _].
  unfold mbind at 1, St_bind at 1. destruct (seedDefaultRules None None db) as [[u|e] db1]; cbn [snd] in *.
  - assert (single db1) as Hsg1 by (eapply single_subset; [|exact Hsg]; intros t id e He _; by rewrite <- Hq).
    apply after_read; [apply unpostedFacts_reads|done|]. intros c _.
    pose proof (evaluateFacts_single digest (sweep_input default <$> c) db1 Hs1 Hsg1) as H.
    unfold mbind, St_bind. by destruct (evaluateFacts _ _ db1) as [[os|e] db2].
  - eapply single_subset; [|exact Hsg]. intros t id x Hx _. by rewrite <- Hq.
Qed.

(** An outcome has a reason when, and only when, it is unpostable. *)
Definition reasoned (o : PostingOutcome) : Prop := oc_status o = Unpostable <-> is_some (oc_reason o) = true.

Lemma evaluateFact_reasoned digest i db o db' : evaluateFact digest i db = (Ok o, db') -> reasoned o.
Proof.
  intros H. unfold evaluateFact in H. run_bind H of_ s Hf. destruct of_ as [f|].
  2: { by apply st_ret_inv in H as [-> _]. }
  destruct (sf_ineligibleReason f).
  { unfold evaluate_ineligible in H. run_bind H p s1 Hp. destruct p.
    - run_bind H q s2 Hq. by apply st_ret_inv in H as [-> _].
    - by apply st_ret_inv in H as [-> _]. }
  unfold evaluate_eligible in H. run_bind H ob s1 Hb. destruct ob as [b|]; [|by apply st_ret_inv in H as [-> _]].
  case_bool_decide; [by apply st_ret_inv in H as [-> _]|].
  run_bind H r s2 Hr. destruct r as [r|]; [|by apply st_ret_inv in H as [-> _]].
  cbv zeta in H. run_bind H ex s3 He. destruct ex as [e|].
  - unfold evaluate_existing in H. destruct (_ && _); [by apply st_ret_inv in H as [-> _]|].
    run_bind H p s4 H4. run_bind H q s5 H5. by apply st_ret_inv in H as [-> _].
  - unfold evaluate_new in H. run_bind H p s4 H4. destruct (_ <? _)%nat; [by apply st_ret_inv in H as [-> _]|].
    run_bind H q s5 H5. apply st_ret_inv in H as [-> _]. unfold reasoned, outcome. cbn.
    by destruct (po_reused q).
Qed.

Lemma evaluateFacts_outcomes digest l db os db' :
  evaluateFacts digest l db = (Ok os, db') -> length os = length l /\ Forall reasoned os.
Proof.
  unfold evaluateFacts. revert db os db'. induction l as [|i l IH]; intros db os db' H; cbn [st_mapM] in H.
  { by apply st_ret_inv in H as [-> _]. }
  run_bind H o s Ho. run_bind H rest s2 Hr. apply st_ret_inv in H as [-> _].
  destruct (IH _ _ _ Hr) as [H1 H2]. split; [cbn; by rewrite H1|].
  constructor; [by eapply evaluateFact_reasoned|done].
Qed.

Definition reason_total (counts : list (UnpostableReason * Z)) : Z := sumZ (snd <$> counts).

Lemma count_reason_total r counts : reason_total (count_reason r counts) = reason_total counts + 1.
Proof.
  unfold reason_total. induction counts as [|[s n] counts IH]; [done|]. cbn [count_reason].
  destruct (decide (s = r)); csimpl; cbn [sumZ foldr] in *; unfold sumZ in *; lia.
Qed.

Definition outcome_total (t : AccountingPostFactsResult) : Z :=
  af_posted t + af_unchanged t + af_reposted t + af_unpostable t.

Lemma tally_totals os t :
  Forall reasoned os ->
  let t' := fold_left tally os t in
  af_candidates t' = af_candidates t /\ af_more t' = af_more t /\
  outcome_total t' = outcome_total t + Z.of_nat (length os) /\
  reason_total (af_unpostableByReason t') - af_unpostable t'
    = reason_total (af_unpostableByReason t) - af_unpostable t.
Proof.
  intros H. revert t. induction H as [|o os Ho _ IH]; intros t; cbn [fold_left].
  { cbv zeta. cbn. split_and!; lia || done. }
  cbv zeta in *. destruct (IH (tally t o)) as (H1 & H2 & H3 & H4). rewrite H1, H2, H3, H4.
  cbn [length]. rewrite Nat2Z.inj_succ. unfold tally, outcome_total in *. unfold reasoned in Ho.
  destruct (oc_status o); cbn -[Z.add Z.sub Z.of_nat reason_total]; [split_and!; lia || done..|].
  destruct (oc_reason o) as [r|]; [|by pose proof (proj1 Ho eq_refl)].
  cbn -[Z.add Z.sub Z.of_nat reason_total]. rewrite count_reason_total. split_and!; lia || done.
Qed.

(** The sweep: over a sound ledger with at most one posted entry per fact, a
    sweep - finished, or aborted by an exception - leaves such a ledger; and
    when it finishes every candidate is accounted for once, every unpostable
    one under a reason, and no more candidates were read than the limit. *)
Theorem sweep_accounts (digest : string -> string) (limit : option Z) (installationDefault : option uuid)
    (db : Db) :
  sound db -> single db ->
  let run := runAccountingPostFactsSweep digest limit installationDefault db in
  (sound (snd run) /\ single (snd run) /\ evolves db (snd run)) /\
  (forall result, fst run = Ok result ->
     outcome_total result = af_candidates result /\
     reason_total (af_unpostableByReason result) = af_unpostable result /\
     0 <= af_candidates result <= Z.max 1 (default DEFAULT_POST_FACTS_LIMIT limit)).
Proof.
  intros Hs Hsg run. split.
  { destruct (sweep_sound digest limit installationDefault db Hs) as [H1 H2].
    split; [done|]. split; [by apply sweep_single|done]. }
  intros result H. unfold run in H.
  destruct (runAccountingPostFactsSweep digest limit installationDefault db) as [x s] eqn:E.
  cbn in H. subst x. unfold runAccountingPostFactsSweep in E. cbv zeta in E.
  run_bind E u s1 H1. run_bind E c s2 H2. run_bind E os s3 H3. apply st_ret_inv in E as [-> _].
  apply evaluateFacts_outcomes in H3 as [Hlen Hre]. rewrite length_fmap in Hlen.
  set (t0 := {| af_candidates := _ |}). destruct (tally_totals os t0 Hre) as (E1 & _ & E3 & E4).
  rewrite E1, E3. unfold t0 in *. cbn [af_candidates af_unpostableByReason af_unpostable outcome_total
    af_posted af_unchanged af_reposted] in *. unfold outcome_total in *. cbn in E4 |- *.
  split; [lia|]. split; [cbn in *; lia|].
  unfold unpostedFacts in H2. apply st_gets_inv in H2 as [-> _]. rewrite length_take. cbn [default].
  split; [lia|]. unfold id. lia.
Qed.

Lemma sweep_accounts_witness :
  exists result, fst (runAccountingPostFactsSweep sample_digest (Some 10) (Some 1%positive) engine_db) = Ok result /\
    outcome_total result = af_candidates result /\ af_posted result = 1.
Proof.
  destruct (fst (runAccountingPostFactsSweep sample_digest (Some 10) (Some 1%positive) engine_db)) as [r|e] eqn:E.
  - exists r. split; [done|]. split.
    + apply (proj2 (sweep_accounts sample_digest (Some 10) (Some 1%positive) engine_db engine_db_sound
        engine_db_single) r E).
    + assert (match fst (runAccountingPostFactsSweep sample_digest (Some 10) (Some 1%positive) engine_db) with
              | Ok r => af_posted r =? 1 | Throw _ => false end = true) as H by (vm_compute; reflexivity).
      rewrite E in H. by apply Z.eqb_eq in H.
  - exfalso. assert (is_ok (fst (runAccountingPostFactsSweep sample_digest (Some 10) (Some 1%positive) engine_db))
      = true) as H by (vm_compute; reflexivity). rewrite E in H. discriminate H.
Defined.

(** ** One fact stops the sweep *)

(** The order, and an expense recorded on a day of a year with no periods. *)
Definition stuck_db : Db := set_expenses [sample_expense ExpenseRecorded 20270110] engine_db.

(** A departure from the contract: a fact dated in no fiscal period is not an
    [unpostable] outcome - the engine throws, from the member function and from
    the sweep, and the sweep ends there.  Expenses are read before orders, so
    the order behind it is never reached, however often the sweep runs;
    evaluated by itself it posts. *)
Theorem sweep_stopped_by_one_fact :
  let sweep := runAccountingPostFactsSweep sample_digest None (Some 1%positive) in
  let expense := {| ef_sourceFactType := "expense"; ef_sourceFactId := 901;
                    ef_installationDefaultBookId := Some 1%positive; ef_allowBackdated := false;
                    ef_actorUserId := None; ef_requestId := None |} in
  fst (engine_evaluateFact sample_digest expense stuck_db) = Throw FiscalPeriodClosedError /\
  fst (sweep stuck_db) = Throw FiscalPeriodClosedError /\
  db_entries (snd (sweep stuck_db)) = [] /\
  fst (sweep (snd (sweep stuck_db))) = Throw FiscalPeriodClosedError /\
  db_entries (snd (sweep (snd (sweep stuck_db)))) = [] /\
  answer (fst (evaluateFact sample_digest evaluate_order stuck_db)) = Some (Posted, Some EntryPosted).
Proof. vm_compute. repeat split; reflexivity. Qed.
