(* ===== verification/LedgerReports.v ===== *)
(** * Ledger reports

    [packages/accounting/src/ledger-reports.ts]: the trial balance, account
    balances and account activity, as reads of the tables, and the theorems on
    the trial balance: over a committed store it balances for every window of
    dates, and an account's own balance is its row.

    [order by] on text is bytewise here, the C collation; no theorem depends on
    the order of rows. *)
From S2P Require Import Prelude Decimal Calendar Inputs Store Schema Ledger LedgerFacts Periods Chart.
From S2P Require Import Books Journal JournalFacts.

Open Scope Z_scope.

(** ** What the reports select *)
Record LedgerReportFilter : Type := {
  rf_from : option date;
  rf_to : option date;
  rf_economicEntityId : option uuid;
  rf_includeArchivedAccounts : option bool;
  rf_includeEmptyAccounts : option bool;
}.

Definition date_bound (t : option date) : run unit :=
  match t with None => mret tt | Some t => _ ← dateLiteral t; mret tt end.

Definition in_window (from to : option date) (entity : option uuid) (e : JournalEntry)
    (l : JournalLine) : bool :=
  in_books (je_status e)
  && match from with None => true | Some t => t <=? je_entryDate e end
  && match to with None => true | Some t => je_entryDate e <=? t end
  && match entity with None => true | Some id => opt_eqb (jl_economicEntityId l) id end.

(** The shape of a date literal is checked while the statement is built. *)
Definition bound_shape (t : option date) : result unit :=
  match t with
  | None => mret tt
  | Some t => throw_if (negb (iso_shape t)) AccountingValidationError
  end.

(** The predicates, once their date literals are read. *)
Definition entryPredicates (from to : option date) (entity : option uuid)
    : run (JournalEntry -> JournalLine -> bool) :=
  _ ← date_bound from; _ ← date_bound to; mret (in_window from to entity).

(** [journal_lines l join journal_entries e on e.id = l.journal_entry_id where
    l.accounting_book_id = ... and ...] *)
Definition selected_lines (db : Db) (book : uuid) (keep : JournalEntry -> JournalLine -> bool)
    : list JournalLine :=
  List.filter (fun l => bool_decide (jl_accountingBookId l = book)
    && match find_entry db (jl_journalEntryId l) with Some e => keep e l | None => false end)
    (db_lines db).

(** [... group by l.ledger_account_id] *)
Record Aggregate : Type := {
  ag_balance : Z;
  ag_debit : Z;
  ag_credit : Z;
  ag_lineCount : Z;
}.

Definition of_account (account : uuid) (lines : list JournalLine) : list JournalLine :=
  filter (fun l => jl_ledgerAccountId l = account) lines.

Definition aggregate (account : uuid) (lines : list JournalLine) : option Aggregate :=
  match of_account account lines with
  | [] => None
  | ls => Some {| ag_balance := sumZ (jl_functionalAmount <$> ls);
                  ag_debit := sumZ ((fun l => Z.max (jl_functionalAmount l) 0) <$> ls);
                  ag_credit := sumZ ((fun l => Z.max (- jl_functionalAmount l) 0) <$> ls);
                  ag_lineCount := Z.of_nat (length ls) |}
  end.

(** [coalesce(agg.column, 0)] *)
Definition coalesced (f : Aggregate -> Z) (agg : option Aggregate) : Z :=
  match agg with Some a => f a | None => 0 end.

Definition numeric_text (z : Z) : run string := v ← numeric_cast z; mret (fromUnits v).

Definition bookCurrency (accountingBookId : uuid) : run string :=
  db ← st_get;
  mret (match find_book accountingBookId db with Some b => bk_functionalCurrency b | None => ""%string end).

Definition by_code (a b : LedgerAccount) : bool := String.leb (la_code a) (la_code b).

(** ** The trial balance *)
Record TrialBalanceRow : Type := {
  tr_ledgerAccountId : uuid;
  tr_code : string;
  tr_name : string;
  tr_accountType : AccountType;
  tr_accountSubtype : option string;
  tr_isContra : bool;
  tr_systemKey : option string;
  tr_balance : string;
  tr_debit : string;
  tr_credit : string;
  tr_lineCount : Z;
}.

Record TrialBalance : Type := {
  tb_accountingBookId : uuid;
  tb_functionalCurrency : string;
  tb_rows : list TrialBalanceRow;
  tb_totalDebit : string;
  tb_totalCredit : string;
  tb_difference : string;
}.

Definition trial_row (lines : list JournalLine) (a : LedgerAccount) : run TrialBalanceRow :=
  let agg := aggregate (la_id a) lines in
  balance ← numeric_text (coalesced ag_balance agg);
  debit ← numeric_text (coalesced ag_debit agg);
  credit ← numeric_text (coalesced ag_credit agg);
  mret {| tr_ledgerAccountId := la_id a; tr_code := la_code a; tr_name := la_name a;
          tr_accountType := la_accountType a; tr_accountSubtype := la_accountSubtype a;
          tr_isContra := la_isContra a; tr_systemKey := la_systemKey a;
          tr_balance := balance; tr_debit := debit; tr_credit := credit;
          tr_lineCount := coalesced ag_lineCount agg |}.

(** [accountPredicates] *)
Definition trial_account (book : uuid) (filter : LedgerReportFilter) (lines : list JournalLine)
    (a : LedgerAccount) : bool :=
  bool_decide (la_accountingBookId a = book)
  && match rf_includeArchivedAccounts filter with
     | Some false => bool_decide (la_status a = AccountActive)
     | _ => true
     end
  && match rf_includeEmptyAccounts filter with
     | Some true => true
     | _ => is_some (aggregate (la_id a) lines)
     end.

Definition trialBalance (accountingBookId : uuid) (filter : LedgerReportFilter) : run TrialBalance :=
  keep ← entryPredicates (rf_from filter) (rf_to filter) (rf_economicEntityId filter);
  db ← st_get;
  let lines := selected_lines db accountingBookId keep in
  let accounts := List.filter (trial_account accountingBookId filter lines) (db_accounts db) in
  rows ← st_mapM (trial_row lines) (sort_with by_code accounts);
  totalDebit ← st_lift (sumDecimals (tr_debit <$> rows));
  totalCredit ← st_lift (sumDecimals (tr_credit <$> rows));
  currency ← bookCurrency accountingBookId;
  difference ← st_lift (sumDecimals [totalDebit; String.append "-" totalCredit]);
  mret {| tb_accountingBookId := accountingBookId; tb_functionalCurrency := currency;
          tb_rows := rows; tb_totalDebit := totalDebit; tb_totalCredit := totalCredit;
          tb_difference := difference |}.

(** ** One account *)
Record AccountBalance : Type := {
  ab_ledgerAccountId : uuid;
  ab_code : string;
  ab_name : string;
  ab_accountType : AccountType;
  ab_isContra : bool;
  ab_normalBalance : NormalBalance;
  ab_functionalCurrency : string;
  ab_balance : string;
  ab_debit : string;
  ab_credit : string;
  ab_lineCount : Z;
}.

(** Naming neither is a plain [Error], thrown while the statement is built. *)
Definition accountPredicate (ledgerAccountId : option uuid) (systemKey : option string)
    : result (LedgerAccount -> bool) :=
  match ledgerAccountId, systemKey with
  | Some id, _ => mret (fun a => bool_decide (la_id a = id))
  | None, Some key => key ← textLiteral key; mret (fun a => opt_eqb (la_systemKey a) key)
  | None, None => Throw PlainError
  end.

Definition natural_side (t : AccountType) : NormalBalance :=
  if bool_decide (t = Asset) || bool_decide (t = Expenditure) then Debit else Credit.

Definition accountBalance (accountingBookId : uuid) (ledgerAccountId : option uuid)
    (systemKey : option string) (filter : LedgerReportFilter) : run AccountBalance :=
  _ ← st_lift (bound_shape (rf_from filter));
  _ ← st_lift (bound_shape (rf_to filter));
  named ← st_lift (accountPredicate ledgerAccountId systemKey);
  keep ← entryPredicates (rf_from filter) (rf_to filter) (rf_economicEntityId filter);
  db ← st_get;
  let lines := selected_lines db accountingBookId keep in
  match find_account (fun a => bool_decide (la_accountingBookId a = accountingBookId) && named a) db with
  | None => st_throw PlainError
  | Some a =>
      row ← trial_row lines a;
      currency ← bookCurrency accountingBookId;
      let natural := natural_side (la_accountType a) in
      mret {| ab_ledgerAccountId := la_id a; ab_code := la_code a; ab_name := la_name a;
              ab_accountType := la_accountType a; ab_isContra := la_isContra a;
              ab_normalBalance := if la_isContra a
                                  then match natural with Debit => Credit | Credit => Debit end
                                  else natural;
              ab_functionalCurrency := currency; ab_balance := tr_balance row;
              ab_debit := tr_debit row; ab_credit := tr_credit row;
              ab_lineCount := tr_lineCount row |}
  end.

Record AccountActivityRow : Type := {
  ar_journalLineId : uuid;
  ar_journalEntryId : uuid;
  ar_entryNumber : option Z;
  ar_entryDate : date;
  ar_entryStatus : EntryStatus;
  ar_description : option string;
  ar_economicEntityId : option uuid;
  ar_currency : string;
  ar_amount : string;
  ar_functionalAmount : string;
}.

(** [order by e.entry_date, e.entry_number, l.line_number]: nulls last *)
Definition activity_le (x y : JournalEntry * JournalLine) : bool :=
  let '(e, l) := x in
  let '(f, m) := y in
  if je_entryDate e =? je_entryDate f then
    match je_entryNumber e, je_entryNumber f with
    | Some a, Some b => if a =? b then jl_lineNumber l <=? jl_lineNumber m else a <=? b
    | Some _, None => true
    | None, Some _ => false
    | None, None => jl_lineNumber l <=? jl_lineNumber m
    end
  else je_entryDate e <=? je_entryDate f.

Definition activity_row (x : JournalEntry * JournalLine) : AccountActivityRow :=
  let '(e, l) := x in
  {| ar_journalLineId := jl_id l; ar_journalEntryId := je_id e;
     ar_entryNumber := je_entryNumber e; ar_entryDate := je_entryDate e;
     ar_entryStatus := je_status e;
     ar_description := match jl_description l with Some d => Some d | None => Some (je_description e) end;
     ar_economicEntityId := jl_economicEntityId l; ar_currency := jl_currency l;
     ar_amount := fromUnits (jl_amount l); ar_functionalAmount := fromUnits (jl_functionalAmount l) |}.

(** [limit] counts whole rows: [Math.max(1, limit)] of them. *)
Definition accountActivity (accountingBookId : uuid) (ledgerAccountId : option uuid)
    (systemKey : option string) (filter : LedgerReportFilter) (limit : option Z)
    : run (list AccountActivityRow) :=
  named ← st_lift (accountPredicate ledgerAccountId systemKey);
  keep ← entryPredicates (rf_from filter) (rf_to filter) (rf_economicEntityId filter);
  db ← st_get;
  let joined := omap (fun l =>
      e ← find_entry db (jl_journalEntryId l);
      a ← find_account (fun a => bool_decide (la_id a = jl_ledgerAccountId l)) db;
      if named a : bool then Some (e, l) else None)
    (selected_lines db accountingBookId keep) in
  let rows := activity_row <$> sort_with activity_le joined in
  mret (match limit with None => rows | Some n => firstn (Z.to_nat (Z.max 1 n)) rows end).

Definition entityDimensionCoverage (accountingBookId : uuid) : run (Z * Z * bool) :=
  db ← st_get;
  let lines := selected_lines db accountingBookId (in_window None None None) in
  let total := Z.of_nat (length lines) in
  let withEntity := Z.of_nat (length (List.filter (fun l => is_some (jl_economicEntityId l)) lines)) in
  mret (total, withEntity, total =? withEntity).

(** ** The reports only read *)
Lemma entryPredicates_reads from to entity : reads (entryPredicates from to entity).
Proof. unfold entryPredicates, date_bound. solve_respects. Qed.
#[export] Hint Resolve entryPredicates_reads : store.
Lemma numeric_text_reads z : reads (numeric_text z).
Proof. unfold numeric_text. solve_respects. Qed.
#[export] Hint Resolve numeric_text_reads : store.
Lemma trial_row_reads lines a : reads (trial_row lines a).
Proof. unfold trial_row. solve_respects. Qed.
Lemma bookCurrency_reads book : reads (bookCurrency book).
Proof. unfold bookCurrency. solve_respects. Qed.
#[export] Hint Resolve trial_row_reads bookCurrency_reads : store.

(** ** Sums over the selected lines *)
Definition functional_sum (lines : list JournalLine) : Z := sumZ (jl_functionalAmount <$> lines).
Definition debits (lines : list JournalLine) : Z :=
  sumZ ((fun l => Z.max (jl_functionalAmount l) 0) <$> lines).
Definition credits (lines : list JournalLine) : Z :=
  sumZ ((fun l => Z.max (- jl_functionalAmount l) 0) <$> lines).
(** What passed through the lines, in micro-units. *)
Definition volume (lines : list JournalLine) : Z :=
  sumZ ((fun l => Z.abs (jl_functionalAmount l)) <$> lines).

Lemma debits_credits lines : debits lines - credits lines = functional_sum lines.
Proof.
  unfold debits, credits, functional_sum. induction lines as [|l ls IH]; [done|].
  rewrite !fmap_cons, !sumZ_cons. lia.
Qed.

Lemma credits_nonneg lines : 0 <= credits lines.
Proof. unfold credits. induction lines as [|l ls IH]; [done|]. rewrite fmap_cons, sumZ_cons. lia. Qed.

Lemma sides_bound lines :
  Z.abs (functional_sum lines) <= volume lines /\ Z.abs (debits lines) <= volume lines /\
  Z.abs (credits lines) <= volume lines.
Proof.
  unfold debits, credits, functional_sum, volume. induction lines as [|l ls IH]; [done|].
  rewrite !fmap_cons, !sumZ_cons. lia.
Qed.

Lemma volume_sublist k l : k `sublist_of` l -> volume k <= volume l.
Proof. apply sumZ_sublist. lia. Qed.

(** A balanced group of lines sums to zero over all its currencies. *)
Lemma balanced_sum lines : lines_balanced lines = true -> functional_sum lines = 0.
Proof.
  unfold lines_balanced. intros [_ H]%andb_true_iff. rewrite forallb_elem in H.
  unfold functional_sum.
  rewrite <- (sumZ_by_key jl_functionalCurrency _ _ (remove_dups (jl_functionalCurrency <$> lines))).
  - apply sumZ_zero. intros c Hc. rewrite elem_of_remove_dups, list_elem_of_fmap in Hc.
    destruct Hc as (l & -> & Hl). apply Z.eqb_eq. by apply H.
  - apply NoDup_remove_dups.
  - intros l Hl. rewrite elem_of_remove_dups. by apply list_elem_of_fmap_2.
Qed.

Lemma selected_sublist db book keep : selected_lines db book keep `sublist_of` db_lines db.
Proof. apply bool_filter_sublist. Qed.

(** The entries a window keeps. *)
Definition kept_entries (db : Db) (book : uuid) (from to : option date) : list JournalEntry :=
  List.filter (fun e => bool_decide (je_accountingBookId e = book)
    && in_books (je_status e)
    && match from with None => true | Some t => t <=? je_entryDate e end
    && match to with None => true | Some t => je_entryDate e <=? t end) (db_entries db).

Lemma line_entry db l :
  ledger_ok db -> l ∈ db_lines db ->
  exists e, e ∈ db_entries db /\ find_entry db (jl_journalEntryId l) = Some e /\
    je_id e = jl_journalEntryId l /\ je_accountingBookId e = jl_accountingBookId l.
Proof.
  intros Hok Hl. destruct (ok_lines _ Hok l Hl) as [_ Hf]. unfold line_fks in Hf.
  rewrite !andb_true_iff, existsb_elem in Hf. destruct Hf as [[(e & He & Hb) _] _].
  apply andb_true_iff in Hb as [Hi%bool_decide_eq_true Hb%bool_decide_eq_true].
  exists e. split; [done|]. split; [|done]. rewrite <- Hi. apply find_entry_unique; [apply Hok|done].
Qed.

Lemma selected_group db book from to e :
  ledger_ok db -> e ∈ kept_entries db book from to ->
  filter (fun l => jl_journalEntryId l = je_id e) (selected_lines db book (in_window from to None))
  = entry_lines db (je_id e).
Proof.
  intros Hok He. apply elem_of_bool_filter in He as [Hk He].
  rewrite !andb_true_iff in Hk. destruct Hk as [[[Hb Hi] Hf] Ht]. apply bool_decide_eq_true in Hb.
  assert (forall l, l ∈ db_lines db -> jl_journalEntryId l = je_id e ->
    bool_decide (jl_accountingBookId l = book)
    && match find_entry db (jl_journalEntryId l) with
       | Some x => in_window from to None x l | None => false end = true) as Hsel.
  { intros l Hl Hle. destruct (line_entry _ _ Hok Hl) as (x & Hx & Hfx & Hix & Hbx).
    assert (x = e) as -> by (eapply (NoDup_keys_inj je_id); [apply Hok|done|done|congruence]).
    rewrite Hfx. unfold in_window. rewrite Hi, Hf, Ht. rewrite bool_decide_true by congruence. done. }
  unfold selected_lines, entry_lines. revert Hsel. generalize (db_lines db). intros ls Hsel.
  induction ls as [|l ls IH]; [done|]. cbn [List.filter].
  specialize (IH ltac:(intros k Hk; apply Hsel; set_solver)).
  destruct (decide (jl_journalEntryId l = je_id e)) as [E|E].
  - rewrite (Hsel l) by (done || set_solver). rewrite !filter_cons_True by done. by rewrite IH.
  - rewrite (filter_cons_False _ l ls) by done. rewrite <- IH.
    destruct (_ && _); [|done]. by rewrite filter_cons_False.
Qed.

(** What every window of a committed store adds up to. *)
Lemma selected_zero db book from to :
  committed db -> functional_sum (selected_lines db book (in_window from to None)) = 0.
Proof.
  intros [Hok Hd]. unfold functional_sum.
  rewrite <- (sumZ_by_key jl_journalEntryId _ _ (je_id <$> kept_entries db book from to)).
  - rewrite <- list_fmap_compose. apply sumZ_zero. intros e He. cbn [compose].
    rewrite selected_group by done. apply balanced_sum.
    apply elem_of_bool_filter in He as [Hk He]. rewrite !andb_true_iff in Hk.
    apply (ok_balanced _ Hok); [done|tauto|]. rewrite Hd. apply not_elem_of_nil.
  - eapply NoDup_fmap_sublist; [apply bool_filter_sublist|apply Hok].
  - intros l Hl. apply elem_of_bool_filter in Hl as [Hs Hl].
    apply andb_true_iff in Hs as [Hb%bool_decide_eq_true Hs].
    destruct (line_entry _ _ Hok Hl) as (e & He & Hf & Hi & Hbe). rewrite Hf in Hs.
    rewrite <- Hi. apply list_elem_of_fmap_2, elem_of_bool_filter. split; [|done].
    unfold in_window in Hs. rewrite andb_true_r in Hs. rewrite bool_decide_true by congruence.
    exact Hs.
Qed.

(** ** Rows *)
Lemma aggregate_sums account lines :
  coalesced ag_balance (aggregate account lines) = functional_sum (of_account account lines) /\
  coalesced ag_debit (aggregate account lines) = debits (of_account account lines) /\
  coalesced ag_credit (aggregate account lines) = credits (of_account account lines) /\
  coalesced ag_lineCount (aggregate account lines) = Z.of_nat (length (of_account account lines)).
Proof. unfold aggregate. by destruct (of_account account lines). Qed.

Lemma numeric_text_run z db : Z.abs z < 10 ^ 20 -> numeric_text z db = (Ok (fromUnits z), db).
Proof. intros H. unfold numeric_text, numeric_cast. by rewrite (proj2 (Z.ltb_lt _ _) H). Qed.

Lemma numeric_text_inv z db s db' :
  numeric_text z db = (Ok s, db') -> s = fromUnits z /\ db' = db.
Proof.
  unfold numeric_text, numeric_cast. destruct (_ <? _); intros H; inv_st. done.
Qed.

(** The row of an account over the lines the window selects. *)
Definition row_of (lines : list JournalLine) (a : LedgerAccount) : TrialBalanceRow :=
  let ls := of_account (la_id a) lines in
  {| tr_ledgerAccountId := la_id a; tr_code := la_code a; tr_name := la_name a;
     tr_accountType := la_accountType a; tr_accountSubtype := la_accountSubtype a;
     tr_isContra := la_isContra a; tr_systemKey := la_systemKey a;
     tr_balance := fromUnits (functional_sum ls); tr_debit := fromUnits (debits ls);
     tr_credit := fromUnits (credits ls); tr_lineCount := Z.of_nat (length ls) |}.

Lemma trial_row_run lines a db :
  volume lines < 10 ^ 20 -> trial_row lines a db = (Ok (row_of lines a), db).
Proof.
  intros Hv. unfold trial_row. destruct (aggregate_sums (la_id a) lines) as (-> & -> & -> & ->).
  pose proof (sides_bound (of_account (la_id a) lines)) as (H1 & H2 & H3).
  pose proof (volume_sublist (of_account (la_id a) lines) lines (sublist_filter _ _)) as Hs.
  do 3 (erewrite st_bind_run by (apply numeric_text_run; lia)). done.
Qed.

Lemma trial_rows_run lines accounts db :
  volume lines < 10 ^ 20 ->
  st_mapM (trial_row lines) accounts db = (Ok (row_of lines <$> accounts), db).
Proof.
  intros Hv. induction accounts as [|a l IH]; [done|]. cbn [st_mapM].
  erewrite st_bind_run by by apply trial_row_run. by erewrite st_bind_run by exact IH.
Qed.

Lemma bound_run t db : (forall d, t = Some d -> valid_date d = true) -> date_bound t db = (Ok tt, db).
Proof.
  intros H. destruct t as [d|]; [|done]. cbn [date_bound].
  by erewrite st_bind_run by by apply dateLiteral_valid, H.
Qed.

Definition valid_bounds (from to : option date) : Prop :=
  (forall d, from = Some d -> valid_date d = true) /\ (forall d, to = Some d -> valid_date d = true).

Lemma entryPredicates_run from to entity db :
  valid_bounds from to -> entryPredicates from to entity db = (Ok (in_window from to entity), db).
Proof.
  intros [H1 H2]. unfold entryPredicates. erewrite st_bind_run by by apply bound_run.
  by erewrite st_bind_run by by apply bound_run.
Qed.

(** Sums over the accounts of a chart are sums over its lines. *)
Lemma chart_sum (f : JournalLine -> Z) accounts lines :
  NoDup (la_id <$> accounts) ->
  (forall l, l ∈ lines -> jl_ledgerAccountId l ∈ (la_id <$> accounts)) ->
  sumZ ((fun a => sumZ (f <$> of_account (la_id a) lines)) <$> accounts) = sumZ (f <$> lines).
Proof.
  intros Hn Hin. rewrite <- (sumZ_by_key jl_ledgerAccountId f lines (la_id <$> accounts) Hn Hin).
  rewrite <- list_fmap_compose. done.
Qed.

Lemma texts_sum {A} (g : A -> string) (f : A -> Z) l :
  (forall x, x ∈ l -> g x = fromUnits (f x)) -> sumDecimals (g <$> l) = Ok (fromUnits (sumZ (f <$> l))).
Proof.
  intros Hg. apply sumDecimals_units. induction l as [|x l IH]; csimpl; constructor.
  - rewrite Hg by set_solver. apply toUnits_fromUnits.
  - apply IH. intros y Hy. apply Hg. set_solver.
Qed.

(** The presentation's ["-" ++ totalCredit]. *)
Lemma toUnits_minus u : 0 <= u -> toUnits (String.append "-" (fromUnits u)) = Ok (- u).
Proof.
  intros Hu. destruct (decide (u = 0)) as [->|Hne]; [reflexivity|].
  rewrite <- (toUnits_fromUnits (- u)). f_equal. unfold fromUnits, format.
  rewrite (proj2 (Z.ltb_lt (- u) 0)) by lia. rewrite (proj2 (Z.ltb_ge u 0)) by lia.
  by rewrite Z.opp_involutive.
Qed.

(** The account of a line is an account of the line's book. *)
Lemma line_account db l :
  ledger_ok db -> l ∈ db_lines db ->
  exists a, a ∈ db_accounts db /\ la_id a = jl_ledgerAccountId l /\
    la_accountingBookId a = jl_accountingBookId l.
Proof.
  intros Hok Hl. destruct (ok_lines _ Hok l Hl) as [_ Hf]. unfold line_fks in Hf.
  rewrite !andb_true_iff, !existsb_elem in Hf. destruct Hf as [[_ (a & Ha & Hb)] _].
  apply andb_true_iff in Hb as [Hi%bool_decide_eq_true Hb%bool_decide_eq_true]. by exists a.
Qed.

(** Unless archived accounts are left out, every selected line has its row. *)
Lemma trial_accounts db book filter keep :
  ledger_ok db -> rf_includeArchivedAccounts filter <> Some false ->
  let lines := selected_lines db book keep in
  forall l, l ∈ lines ->
    jl_ledgerAccountId l ∈ (la_id <$> List.filter (trial_account book filter lines) (db_accounts db)).
Proof.
  intros Hok Harch lines l Hl. pose proof (elem_of_sublist _ _ _ Hl (selected_sublist db book keep)) as Hdb.
  destruct (line_account _ _ Hok Hdb) as (a & Ha & Hi & Hb). rewrite <- Hi.
  apply list_elem_of_fmap_2, elem_of_bool_filter. split; [|done].
  assert (jl_accountingBookId l = book) as Hlb.
  { apply elem_of_bool_filter in Hl as [Hs _]. apply andb_true_iff in Hs as [Hs _].
    by apply bool_decide_eq_true in Hs. }
  assert (l ∈ of_account (la_id a) lines) as Hof by by apply list_elem_of_filter.
  unfold trial_account, aggregate. rewrite bool_decide_true by congruence.
  destruct (of_account (la_id a) lines) as [|m ls] eqn:E; [by apply not_elem_of_nil in Hof|].
  destruct (rf_includeArchivedAccounts filter) as [[]|]; [|done|]; by destruct (rf_includeEmptyAccounts filter) as [[]|].
Qed.

(** What the report shows. *)
Lemma trialBalance_run (db : Db) (book : uuid) (filter : LedgerReportFilter) :
  committed db -> volume (db_lines db) < 10 ^ 20 ->
  valid_bounds (rf_from filter) (rf_to filter) -> rf_economicEntityId filter = None ->
  rf_includeArchivedAccounts filter <> Some false ->
  exists t, trialBalance book filter db = (Ok t, db) /\
    tb_difference t = "0.000000"%string /\ tb_totalDebit t = tb_totalCredit t /\
    tb_totalDebit t = fromUnits (debits (selected_lines db book
                        (in_window (rf_from filter) (rf_to filter) None))) /\
    forall r, r ∈ tb_rows t -> exists d c, tr_debit r = fromUnits d /\ tr_credit r = fromUnits c /\
      0 <= c /\ tr_balance r = fromUnits (d - c).
Proof.
  intros Hc Hv Hb He Ha. pose proof (ok_account_ids _ (proj1 Hc)) as Hn. unfold trialBalance.
  erewrite st_bind_run by by apply entryPredicates_run. rewrite He.
  erewrite st_bind_run by done. cbv zeta.
  set (lines := selected_lines db book _). set (accounts := List.filter _ (db_accounts db)).
  assert (Hvl : volume lines < 10 ^ 20).
  { pose proof (volume_sublist _ _ (selected_sublist db book (in_window (rf_from filter) (rf_to filter) None))).
    unfold lines. lia. }
  erewrite st_bind_run by by apply trial_rows_run.
  assert (Hsum : forall f, sumZ ((fun a => sumZ (f <$> of_account (la_id a) lines))
                            <$> sort_with by_code accounts) = sumZ (f <$> lines)).
  { intros f. rewrite sort_with_perm. apply chart_sum.
    - eapply NoDup_fmap_sublist; [apply bool_filter_sublist|done].
    - apply trial_accounts; [apply Hc|done]. }
  rewrite <- !list_fmap_compose.
  rewrite (texts_sum (tr_debit ∘ row_of lines) (fun a => debits (of_account (la_id a) lines))) by (intros; reflexivity).
  rewrite (texts_sum (tr_credit ∘ row_of lines) (fun a => credits (of_account (la_id a) lines))) by (intros; reflexivity).
  assert (sumZ ((fun a => debits (of_account (la_id a) lines)) <$> sort_with by_code accounts)
          = debits lines) as -> by apply Hsum.
  assert (sumZ ((fun a => credits (of_account (la_id a) lines)) <$> sort_with by_code accounts)
          = credits lines) as -> by apply Hsum.
  do 2 (erewrite st_bind_run by done).
  unfold bookCurrency. erewrite st_bind_run by done.
  pose proof (debits_credits lines) as Hdc. unfold lines at 3 in Hdc. rewrite selected_zero in Hdc by done.
  assert (debits lines = credits lines) as E by lia. rewrite E.
  erewrite st_bind_run; [|unfold st_lift; erewrite (sumDecimals_units _ [credits lines; - credits lines]);
    [reflexivity|]].
  2: { constructor; [apply toUnits_fromUnits|]. constructor; [apply toUnits_minus, credits_nonneg|constructor]. }
  eexists. split; [reflexivity|]. cbn [tb_difference tb_totalDebit tb_totalCredit tb_rows].
  split; [cbn [sumZ foldr]; by rewrite Z.add_0_r, Z.add_opp_diag_r|]. split; [done|]. split; [done|].
  intros r (a & -> & _)%list_elem_of_fmap. exists (debits (of_account (la_id a) lines)), (credits (of_account (la_id a) lines)).
  split; [done|]. split; [done|]. split; [apply credits_nonneg|]. cbn. by rewrite debits_credits.
Qed.

(** The trial balance balances: over a committed store, for every window of
    dates and whichever accounts are shown short of leaving archived ones out,
    the report is produced unless its total passes what a [numeric(20, 6)]
    holds; total debit equals total credit, the difference is exactly
    ["0.000000"], and each row's balance is its debit less its credit. *)
Theorem trialBalance_balances (db : Db) (book : uuid) (filter : LedgerReportFilter) :
  committed db -> volume (db_lines db) < 10 ^ 20 ->
  valid_bounds (rf_from filter) (rf_to filter) -> rf_economicEntityId filter = None ->
  rf_includeArchivedAccounts filter <> Some false ->
  exists t, trialBalance book filter db = (Ok t, db) /\
    tb_difference t = "0.000000"%string /\ tb_totalDebit t = tb_totalCredit t /\
    tb_totalDebit t = fromUnits (debits (selected_lines db book
                        (in_window (rf_from filter) (rf_to filter) None))) /\
    forall r, r ∈ tb_rows t -> exists d c, tr_debit r = fromUnits d /\ tr_credit r = fromUnits c /\
      0 <= c /\ tr_balance r = fromUnits (d - c).
Proof. apply trialBalance_run. Qed.

Lemma natural_side_spec t : natural_side t = normalBalanceOf t false.
Proof. by destruct t. Qed.

Lemma find_account_of_book db book a :
  NoDup (la_id <$> db_accounts db) -> a ∈ db_accounts db -> la_accountingBookId a = book ->
  find_account (fun x => bool_decide (la_accountingBookId x = book) && bool_decide (la_id x = la_id a)) db
  = Some a.
Proof.
  intros Hn Ha Hb. unfold find_account. destruct (find_row _ _) as [x|] eqn:E.
  - apply find_row_some in E as [Hx [_ Hxi%bool_decide_eq_true]%andb_true_iff].
    f_equal. by eapply (NoDup_keys_inj la_id).
  - pose proof (find_row_none _ _ E a Ha) as Hf. cbv beta in Hf. by rewrite !bool_decide_true in Hf.
Qed.

Lemma bound_shape_valid t : (forall d, t = Some d -> valid_date d = true) -> bound_shape t = Ok tt.
Proof.
  intros H. destruct t as [d|]; [|done]. specialize (H d eq_refl). unfold bound_shape.
  unfold valid_date in H. by destruct (iso_shape d).
Qed.

(** An account's own balance is its row of the trial balance: for the same
    filter, over a committed store, [accountBalance] of the account of a row returns
    the balance, debit, credit and line count the row shows, and the normal side
    the chart gives the account. *)
Theorem accountBalance_agrees (db : Db) (book : uuid) (filter : LedgerReportFilter) (t : TrialBalance)
    (r : TrialBalanceRow) :
  committed db -> valid_bounds (rf_from filter) (rf_to filter) ->
  trialBalance book filter db = (Ok t, db) -> r ∈ tb_rows t ->
  exists b, accountBalance book (Some (tr_ledgerAccountId r)) None filter db = (Ok b, db) /\
    ab_balance b = tr_balance r /\ ab_debit b = tr_debit r /\ ab_credit b = tr_credit r /\
    ab_lineCount b = tr_lineCount r /\ ab_functionalCurrency b = tb_functionalCurrency t /\
    ab_normalBalance b = normalBalanceOf (tr_accountType r) (tr_isContra r).
Proof.
  intros Hc Hb H Hr. pose proof (ok_account_ids _ (proj1 Hc)) as Hn. unfold trialBalance in H.
  erewrite st_bind_run in H by by apply entryPredicates_run. erewrite st_bind_run in H by done. cbv zeta in H.
  set (lines := selected_lines db book _) in H.
  run_bind H rows s Hrows. apply st_mapM_reads_Forall2 in Hrows as [-> Hrows]; [|intros; apply trial_row_reads].
  run_bind H d s H1. apply st_lift_inv in H1 as [_ ->]. run_bind H c s H1. apply st_lift_inv in H1 as [_ ->].
  run_bind H cur s Hcur. pose proof Hcur as Hcur'. apply reads_run in Hcur as ->; [|solve_respects].
  run_bind H df s H1. apply st_lift_inv in H1 as [_ ->]. apply st_ret_inv in H as [-> _].
  cbn [tb_rows] in Hr. apply list_elem_of_lookup in Hr as [i Hi].
  destruct (Forall2_lookup_r _ _ _ _ _ Hrows Hi) as (a & Hia & Hra).
  assert (Ha : a ∈ List.filter (trial_account book filter lines) (db_accounts db)).
  { rewrite <- (sort_with_perm by_code). by eapply list_elem_of_lookup_2. }
  apply elem_of_bool_filter in Ha as [Hta Ha].
  assert (Hbook : la_accountingBookId a = book).
  { unfold trial_account in Hta. rewrite !andb_true_iff in Hta. by destruct Hta as [[?%bool_decide_eq_true _] _]. }
  assert (Hid : tr_ledgerAccountId r = la_id a /\ tr_accountType r = la_accountType a /\
                tr_isContra r = la_isContra a).
  { unfold trial_row in Hra. inv_st. done. }
  destruct Hid as (Hid & Hty & Hcon).
  pose proof Hb as [Hb1 Hb2]. unfold accountBalance.
  rewrite (bound_shape_valid _ Hb1), (bound_shape_valid _ Hb2). do 3 (erewrite st_bind_run by done).
  erewrite st_bind_run by by apply entryPredicates_run.
  erewrite st_bind_run by done. cbv zeta. fold lines. rewrite Hid, (find_account_of_book _ _ _ Hn Ha Hbook).
  erewrite st_bind_run by exact Hra. erewrite st_bind_run by exact Hcur'.
  eexists. split; [reflexivity|]. cbn. repeat split_and; try done.
  rewrite Hty, Hcon, natural_side_spec. unfold normalBalanceOf. by destruct (la_isContra a).
Qed.

(** ** Samples *)
Definition every_date : LedgerReportFilter :=
  {| rf_from := None; rf_to := None; rf_economicEntityId := None;
     rf_includeArchivedAccounts := None; rf_includeEmptyAccounts := None |}.
Definition february : LedgerReportFilter :=
  {| rf_from := Some 20260201; rf_to := Some 20260228; rf_economicEntityId := None;
     rf_includeArchivedAccounts := None; rf_includeEmptyAccounts := None |}.
Definition february_trial : TrialBalance :=
  match fst (trialBalance 1 february posted_db) with
  | Ok t => t
  | Throw _ => {| tb_accountingBookId := 1; tb_functionalCurrency := EmptyString; tb_rows := [];
                  tb_totalDebit := EmptyString; tb_totalCredit := EmptyString; tb_difference := EmptyString |}
  end.

Lemma trialBalance_balances_witness :
  volume (db_lines posted_db) = 251000000 /\
  exists t, trialBalance 1 february posted_db = (Ok t, posted_db) /\
    tb_difference t = "0.000000"%string.
Proof.
  split; [vm_compute; reflexivity|].
  destruct (trialBalance_balances posted_db 1 february) as (t & Ht & Hd & _);
    [apply posted_db_committed|vm_compute; reflexivity| |done|done|].
  - split; intros d [= <-]; reflexivity.
  - exists t. by split.
Defined.

Lemma accountBalance_agrees_witness :
  exists r b, r ∈ tb_rows february_trial /\ tr_balance r = "125.500000"%string /\
    accountBalance 1 (Some (tr_ledgerAccountId r)) None february posted_db = (Ok b, posted_db) /\
    ab_balance b = "125.500000"%string.
Proof.
  assert (exists r, head (tb_rows february_trial) = Some r /\ tr_balance r = "125.500000"%string)
    as (r & Hr & E) by (vm_compute; eexists; split; reflexivity).
  assert (Hin : r ∈ tb_rows february_trial).
  { destruct (tb_rows february_trial) as [|x l]; [discriminate Hr|]. injection Hr as ->. apply list_elem_of_here. }
  destruct (accountBalance_agrees posted_db 1 february february_trial r) as (b & Hb & Eb & _);
    [apply posted_db_committed| |vm_compute; reflexivity|exact Hin|].
  - split; intros d [= <-]; reflexivity.
  - exists r, b. split; [exact Hin|]. split; [exact E|]. split; [exact Hb|]. by rewrite Eb.
Defined.

(** An account an operator made, used, and archived. *)
Definition petty_cash : CreateAccountInput :=
  {| ca_accountingBookId := 1; ca_code := "1099"; ca_name := "Petty cash"; ca_accountType := Asset;
     ca_accountSubtype := None; ca_systemKey := None; ca_parentAccountId := None;
     ca_isPostable := None; ca_isContra := None; ca_currency := None; ca_description := None;
     ca_actorUserId := None; ca_requestId := None |}.
Definition petty_account : LedgerAccount :=
  default {| la_id := 1; la_accountingBookId := 1; la_code := EmptyString; la_name := EmptyString;
             la_accountType := Asset; la_accountSubtype := None; la_parentAccountId := None;
             la_isPostable := true; la_isContra := false; la_systemKey := None; la_currency := None;
             la_description := None; la_status := AccountActive; la_createdAt := 0; la_updatedAt := 0 |}
    (match fst (createAccount petty_cash ledger_db) with Ok a => Some a | Throw _ => None end).
Definition petty_line : JournalLineInput :=
  {| li_ledgerAccountId := Some (la_id petty_account); li_accountSystemKey := None;
     li_economicEntityId := None; li_lineNumber := None; li_description := None; li_currency := None;
     li_amount := "40.00"; li_dimensions := [] |}.
Definition petty_db : Db :=
  snd (archiveAccount (la_id petty_account) None None
    (snd (postEntry (sample_entry None [petty_line; sample_line "opening_balance_equity" "-40.00"])
      (snd (createAccount petty_cash ledger_db))))).
Definition without_archived : LedgerReportFilter :=
  {| rf_from := None; rf_to := None; rf_economicEntityId := None;
     rf_includeArchivedAccounts := Some false; rf_includeEmptyAccounts := None |}.

(** A departure from the contract: with archived accounts left out the report
    drops the lines they carry, and a healthy book shows a difference. *)
Theorem trial_balance_without_archived :
  match fst (trialBalance 1 without_archived petty_db), fst (trialBalance 1 every_date petty_db) with
  | Ok t, Ok u => tb_difference t = "-40.000000"%string /\ tb_difference u = "0.000000"%string
  | _, _ => False
  end.
Proof. vm_compute. split; reflexivity. Qed.

Lemma trial_difference db book :
  committed db -> volume (db_lines db) < 10 ^ 20 ->
  exists t, trialBalance book every_date db = (Ok t, db) /\ tb_difference t = "0.000000"%string.
Proof.
  intros Hc Hv. destruct (trialBalance_run db book every_date Hc Hv) as (t & Ht & Hd & _); [by split|done..|].
  by exists t.
Qed.
