(* ===== verification/Statements.v ===== *)
(** * Statements

    [packages/accounting/src/statements.ts]: the income statement and the
    balance sheet.  The theorems: the balance sheet balances for every date,
    over a store whose lines are on postable accounts; its earnings are the
    income statement's; and what the gate of the entity filter does not give. *)
From S2P Require Import Prelude Decimal Calendar Inputs Store Schema Ledger LedgerFacts Periods Chart.
From S2P Require Import Books Journal JournalFacts LedgerReports.

Open Scope Z_scope.

Record StatementLine : Type := {
  sl_ledgerAccountId : uuid;
  sl_code : string;
  sl_name : string;
  sl_accountType : AccountType;
  sl_accountSubtype : option string;
  sl_isContra : bool;
  sl_systemKey : option string;
  sl_amount : string;
}.

Record StatementSection : Type := { sc_lines : list StatementLine; sc_total : string }.

Record IncomeStatement : Type := {
  is_accountingBookId : uuid;
  is_functionalCurrency : string;
  is_from : date;
  is_to : date;
  is_economicEntityId : option uuid;
  is_revenue : StatementSection;
  is_expense : StatementSection;
  is_netIncome : string;
}.

Record BalanceSheet : Type := {
  bs_accountingBookId : uuid;
  bs_functionalCurrency : string;
  bs_asOf : date;
  bs_economicEntityId : option uuid;
  bs_assets : StatementSection;
  bs_liabilities : StatementSection;
  bs_equityAccounts : StatementSection;
  bs_retainedEarnings : string;
  bs_currentEarnings : string;
  bs_totalEquity : string;
  bs_difference : string;
  bs_balanced : bool;
}.

Definition loadBook (accountingBookId : uuid) : run AccountingBook :=
  db ← st_get;
  match find_book accountingBookId db with
  | None => st_throw AccountingNotFoundError
  | Some book => mret book
  end.

(** One row of the query: [sum(functional_amount)] of a postable account. *)
Definition statement_account (book : uuid) (types : list AccountType) (includeEmptyAccounts : bool)
    (lines : list JournalLine) (a : LedgerAccount) : bool :=
  bool_decide (la_accountingBookId a = book)
  && bool_decide (la_accountType a ∈ types)
  && la_isPostable a
  && (includeEmptyAccounts || is_some (aggregate (la_id a) lines)).

Definition statement_line (lines : list JournalLine) (a : LedgerAccount) : run StatementLine :=
  amount ← numeric_text (coalesced ag_balance (aggregate (la_id a) lines));
  mret {| sl_ledgerAccountId := la_id a; sl_code := la_code a; sl_name := la_name a;
          sl_accountType := la_accountType a; sl_accountSubtype := la_accountSubtype a;
          sl_isContra := la_isContra a; sl_systemKey := la_systemKey a; sl_amount := amount |}.

Definition balancesByAccount (book : uuid) (types : list AccountType) (from to : option date)
    (entity : option uuid) (includeEmptyAccounts : bool) : run (list StatementLine) :=
  keep ← entryPredicates from to entity;
  db ← st_get;
  let lines := selected_lines db book keep in
  st_mapM (statement_line lines)
    (sort_with by_code
       (List.filter (statement_account book types includeEmptyAccounts lines) (db_accounts db))).

(** [join ledger_accounts a ... where a.account_type in ('revenue', 'expense')] *)
Definition income_line (db : Db) (l : JournalLine) : bool :=
  match find_account (fun a => bool_decide (la_id a = jl_ledgerAccountId l)) db with
  | Some a => bool_decide (la_accountType a ∈ [Revenue; Expenditure])
  | None => false
  end.

Definition netIncomeBetween (book : uuid) (from to : option date) (entity : option uuid) : run string :=
  keep ← entryPredicates from to entity;
  db ← st_get;
  total ← numeric_text (functional_sum (List.filter (income_line db) (selected_lines db book keep)));
  st_lift (negateDecimal total).

Definition with_text (line : StatementLine) (amount : string) : StatementLine :=
  {| sl_ledgerAccountId := sl_ledgerAccountId line; sl_code := sl_code line; sl_name := sl_name line;
     sl_accountType := sl_accountType line; sl_accountSubtype := sl_accountSubtype line;
     sl_isContra := sl_isContra line; sl_systemKey := sl_systemKey line; sl_amount := amount |}.

Definition present (flip : bool) (line : StatementLine) : result StatementLine :=
  amount ← (if flip then negateDecimal (sl_amount line) else mret (sl_amount line));
  mret (with_text line amount).

Definition section (lines : list StatementLine) (flip : bool) : result StatementSection :=
  presented ← res_mapM (present flip) lines;
  total ← sumDecimals (sl_amount <$> presented);
  mret {| sc_lines := presented; sc_total := total |}.

Definition section_of (book : uuid) (type : AccountType) (from to : option date) (entity : option uuid)
    (includeEmptyAccounts flip : bool) : run StatementSection :=
  lines ← balancesByAccount book [type] from to entity includeEmptyAccounts;
  st_lift (section lines flip).

Definition incomeStatement (book : uuid) (from to : date) (entity : option uuid)
    (includeEmptyAccounts : option bool) : run IncomeStatement :=
  meta ← loadBook book;
  let empty := default false includeEmptyAccounts in
  revenue ← section_of book Revenue (Some from) (Some to) entity empty true;
  expense ← section_of book Expenditure (Some from) (Some to) entity empty false;
  cost ← st_lift (negateDecimal (sc_total expense));
  netIncome ← st_lift (sumDecimals [sc_total revenue; cost]);
  mret {| is_accountingBookId := book; is_functionalCurrency := bk_functionalCurrency meta;
          is_from := from; is_to := to; is_economicEntityId := entity; is_revenue := revenue;
          is_expense := expense; is_netIncome := netIncome |}.

(** ** The balance sheet *)

(** [Date.UTC] reads the years 0 to 99 as 1900 to 1999. *)
Definition utc_year (year : Z) : Z := if (0 <=? year) && (year <=? 99) then 1900 + year else year.

(** [previousDay], on a day of a month of its year *)
Definition previousDay (t : date) : date :=
  pred_day (mk_date (utc_year (year_of t)) (month_of t) (day_of t)).

(** [fiscalYearFor] compares texts: before the year 1000 the start of the year
    prints without a leading zero and is the larger. *)
Definition fiscal_year_of (asOf : date) (month day : Z) : Z :=
  if year_of asOf <? 1000 then year_of asOf - 1 else fiscalYearFor asOf month day.

(** The text of a year before 1000 has not the shape of a date. *)
Definition year_shape (year : Z) : result unit := throw_if (year <? 1000) AccountingValidationError.

(** The gate of the entity filter: both halves of it. *)
Definition entity_gate (meta : AccountingBook) (book : uuid) : run unit :=
  _ ← st_lift (throw_if (negb (bk_requiresEntityDimension meta)) AccountingValidationError);
  coverage ← entityDimensionCoverage book;
  let '(total, withEntity, _) := coverage in
  st_lift (throw_if (negb (total =? withEntity)) AccountingValidationError).

Definition balanceSheet (book : uuid) (asOf : date) (entity : option uuid)
    (includeEmptyAccounts : option bool) : run BalanceSheet :=
  meta ← loadBook book;
  _ ← (if is_some entity then entity_gate meta book else mret tt);
  let empty := default false includeEmptyAccounts in
  assets ← section_of book Asset None (Some asOf) entity empty false;
  liabilities ← section_of book Liability None (Some asOf) entity empty true;
  equityAccounts ← section_of book Equity None (Some asOf) entity empty true;
  let month := bk_fiscalYearStartMonth meta in
  let day := bk_fiscalYearStartDay meta in
  let fiscalYear := fiscal_year_of asOf month day in
  let yearStart := fiscalYearStartDate fiscalYear month day in
  retainedEarnings ← netIncomeBetween book None (Some (previousDay yearStart)) entity;
  _ ← st_lift (year_shape fiscalYear);
  currentEarnings ← netIncomeBetween book (Some yearStart) (Some asOf) entity;
  totalEquity ← st_lift (sumDecimals [sc_total equityAccounts; retainedEarnings; currentEarnings]);
  lessLiabilities ← st_lift (negateDecimal (sc_total liabilities));
  lessEquity ← st_lift (negateDecimal totalEquity);
  difference ← st_lift (sumDecimals [sc_total assets; lessLiabilities; lessEquity]);
  mret {| bs_accountingBookId := book; bs_functionalCurrency := bk_functionalCurrency meta;
          bs_asOf := asOf; bs_economicEntityId := entity; bs_assets := assets;
          bs_liabilities := liabilities; bs_equityAccounts := equityAccounts;
          bs_retainedEarnings := retainedEarnings; bs_currentEarnings := currentEarnings;
          bs_totalEquity := totalEquity; bs_difference := difference;
          bs_balanced := String.eqb difference "0.000000" |}.

(** ** Sums over a selection *)
Definition fsum (p : JournalLine -> bool) (lines : list JournalLine) : Z :=
  sumZ ((fun l => if p l then jl_functionalAmount l else 0) <$> lines).

Lemma functional_sum_filter p lines : functional_sum (List.filter p lines) = fsum p lines.
Proof.
  unfold functional_sum, fsum. induction lines as [|l ls IH]; [done|]. cbn [List.filter].
  rewrite fmap_cons, sumZ_cons, <- IH. destruct (p l); [done|lia].
Qed.

Lemma fsum_ext p q lines : (forall l, l ∈ lines -> p l = q l) -> fsum p lines = fsum q lines.
Proof.
  intros H. unfold fsum. f_equal. apply list_fmap_ext. intros i l Hl. rewrite H; [done|].
  by eapply list_elem_of_lookup_2.
Qed.

Definition selects (db : Db) (book : uuid) (from to : option date) (l : JournalLine) : bool :=
  bool_decide (jl_accountingBookId l = book)
  && match find_entry db (jl_journalEntryId l) with
     | Some e => in_window from to None e l
     | None => false
     end.

Lemma selected_lines_selects db book from to :
  selected_lines db book (in_window from to None) = List.filter (selects db book from to) (db_lines db).
Proof. done. Qed.

(** The type of the account a line is on. *)
Definition line_type (db : Db) (l : JournalLine) : option AccountType :=
  la_accountType <$> find_account (fun a => bool_decide (la_id a = jl_ledgerAccountId l)) db.

Lemma line_type_of db l a :
  ledger_ok db -> a ∈ db_accounts db -> la_id a = jl_ledgerAccountId l ->
  line_type db l = Some (la_accountType a).
Proof.
  intros Hok Ha Hi. unfold line_type, find_account. destruct (find_row _ _) as [x|] eqn:E.
  - apply find_row_some in E as [Hx Hxi%bool_decide_eq_true]. cbn. do 2 f_equal.
    eapply (NoDup_keys_inj la_id); [apply Hok|done|done|congruence].
  - pose proof (find_row_none _ _ E a Ha) as Hf. cbv beta in Hf. by rewrite bool_decide_true in Hf.
Qed.

Lemma income_line_type db l :
  income_line db l = bool_decide (line_type db l = Some Revenue)
                     || bool_decide (line_type db l = Some Expenditure).
Proof.
  unfold income_line, line_type. destruct (find_account _ _) as [a|]; [|done]. cbn.
  by destruct (la_accountType a).
Qed.

(** Every line is on a postable account of its book. *)
Definition lines_postable (db : Db) : Prop :=
  forall l a, l ∈ db_lines db -> a ∈ db_accounts db -> la_id a = jl_ledgerAccountId l ->
    la_isPostable a = true.

(** What an account type carries within a window. *)
Definition type_sum (db : Db) (book : uuid) (type : AccountType) (from to : option date) : Z :=
  fsum (fun l => selects db book from to l && bool_decide (line_type db l = Some type)) (db_lines db).

Section one_section.
Context (db : Db) (book : uuid) (type : AccountType) (from to : option date) (empty : bool).
Context (Hok : ledger_ok db) (Hpost : lines_postable db).

Let lines := selected_lines db book (in_window from to None).
Let accounts := List.filter (statement_account book [type] empty lines) (db_accounts db).
Let of_type := List.filter (fun l => bool_decide (line_type db l = Some type)) lines.

Lemma of_type_account a :
  a ∈ accounts -> of_account (la_id a) of_type = of_account (la_id a) lines.
Proof using Hok.
  intros [Hs Ha]%elem_of_bool_filter. unfold statement_account in Hs. rewrite !andb_true_iff in Hs.
  destruct Hs as [[[_ Ht%bool_decide_eq_true] _] _]. apply list_elem_of_singleton in Ht.
  unfold of_account, of_type. generalize lines as ls. intros ls.
  induction ls as [|l ls IH]; [done|]. cbn [List.filter].
  destruct (decide (jl_ledgerAccountId l = la_id a)) as [E|E].
  - rewrite bool_decide_true by (rewrite (line_type_of _ _ a) by done; by rewrite Ht).
    rewrite !filter_cons_True by done. by rewrite IH.
  - rewrite (filter_cons_False _ l ls) by done. rewrite <- IH. destruct (bool_decide _); [|done].
    by rewrite filter_cons_False.
Qed.

Lemma of_type_in_accounts l : l ∈ of_type -> jl_ledgerAccountId l ∈ (la_id <$> accounts).
Proof using Hok Hpost.
  intros [Ht%bool_decide_eq_true Hl]%elem_of_bool_filter.
  pose proof (elem_of_sublist _ _ _ Hl (selected_sublist db book _)) as Hdb.
  destruct (line_account _ _ Hok Hdb) as (a & Ha & Hi & Hb). rewrite <- Hi.
  apply list_elem_of_fmap_2, elem_of_bool_filter. split; [|done].
  rewrite (line_type_of _ _ a) in Ht by done. injection Ht as Ht.
  assert (jl_accountingBookId l = book) as Hlb.
  { apply elem_of_bool_filter in Hl as [Hs _]. apply andb_true_iff in Hs as [Hs _].
    by apply bool_decide_eq_true in Hs. }
  assert (l ∈ of_account (la_id a) lines) as Hof by by apply list_elem_of_filter.
  unfold statement_account, aggregate. rewrite bool_decide_true by congruence.
  rewrite bool_decide_true by (rewrite Ht; apply list_elem_of_here). rewrite (Hpost l a) by done.
  destruct (of_account (la_id a) lines); [by apply not_elem_of_nil in Hof|]. by destruct empty.
Qed.

Lemma accounts_sum :
  sumZ ((fun a => functional_sum (of_account (la_id a) lines)) <$> sort_with by_code accounts)
  = type_sum db book type from to.
Proof using Hok Hpost.
  rewrite sort_with_perm. trans (functional_sum of_type).
  - unfold functional_sum at 2. rewrite <- (chart_sum _ accounts).
    + f_equal. apply list_fmap_ext. intros i a Hi. rewrite of_type_account; [done|].
      by eapply list_elem_of_lookup_2.
    + eapply NoDup_fmap_sublist; [apply bool_filter_sublist|apply Hok].
    + apply of_type_in_accounts.
  - unfold of_type, lines, type_sum. rewrite functional_sum_filter, selected_lines_selects.
    unfold fsum. generalize (db_lines db) as ls. intros ls. induction ls as [|l ls IH]; [done|].
    cbn [List.filter]. rewrite fmap_cons, sumZ_cons, <- IH.
    destruct (selects db book from to l); [by rewrite fmap_cons, sumZ_cons|cbn [andb]; lia].
Qed.
End one_section.

(** The text of the row and of the section. *)
Definition statement_row (lines : list JournalLine) (a : LedgerAccount) : StatementLine :=
  {| sl_ledgerAccountId := la_id a; sl_code := la_code a; sl_name := la_name a;
     sl_accountType := la_accountType a; sl_accountSubtype := la_accountSubtype a;
     sl_isContra := la_isContra a; sl_systemKey := la_systemKey a;
     sl_amount := fromUnits (functional_sum (of_account (la_id a) lines)) |}.

Lemma statement_rows_run lines accounts db :
  volume lines < 10 ^ 20 ->
  st_mapM (statement_line lines) accounts db = (Ok (statement_row lines <$> accounts), db).
Proof.
  intros Hv. induction accounts as [|a l IH]; [done|]. cbn [st_mapM].
  erewrite st_bind_run; [by erewrite st_bind_run by exact IH|].
  unfold statement_line. destruct (aggregate_sums (la_id a) lines) as (-> & _).
  pose proof (sides_bound (of_account (la_id a) lines)) as (H1 & _).
  pose proof (volume_sublist (of_account (la_id a) lines) lines (sublist_filter _ _)).
  by erewrite st_bind_run by (apply numeric_text_run; lia).
Qed.

Definition flipped (flip : bool) (z : Z) : Z := if flip then - z else z.

Lemma present_run flip line z :
  sl_amount line = fromUnits z -> present flip line = Ok (with_text line (fromUnits (flipped flip z))).
Proof.
  intros Hz. unfold present. rewrite Hz. destruct flip; [|done].
  by rewrite (negateDecimal_units _ z) by apply toUnits_fromUnits.
Qed.

Lemma section_total (f : LedgerAccount -> StatementLine) (g : LedgerAccount -> Z) accounts flip :
  (forall a, sl_amount (f a) = fromUnits (g a)) ->
  exists s, section (f <$> accounts) flip = Ok s /\
    sc_total s = fromUnits (flipped flip (sumZ (g <$> accounts))).
Proof.
  intros Hf. unfold section.
  assert (res_mapM (present flip) (f <$> accounts)
          = Ok ((fun a => with_text (f a) (fromUnits (flipped flip (g a)))) <$> accounts)) as ->.
  { induction accounts as [|a l IH]; [done|]. rewrite !fmap_cons. cbn [res_mapM].
    by rewrite (present_run _ _ (g a)), IH. }
  cbn [mbind result_bind]. rewrite <- list_fmap_compose.
  rewrite (texts_sum _ (fun a => flipped flip (g a))) by (intros; reflexivity).
  eexists. split; [reflexivity|]. cbn [sc_total]. f_equal. destruct flip; cbn [flipped]; [|done].
  rewrite <- sumZ_opp, <- list_fmap_compose. done.
Qed.

Lemma section_of_run db book type from to empty flip :
  committed db -> lines_postable db -> volume (db_lines db) < 10 ^ 20 -> valid_bounds from to ->
  exists s, section_of book type from to None empty flip db = (Ok s, db) /\
    sc_total s = fromUnits (flipped flip (type_sum db book type from to)).
Proof.
  intros Hc Hp Hv Hb. unfold section_of, balancesByAccount.
  pose proof (volume_sublist _ _ (selected_sublist db book (in_window from to None))) as Hvs.
  set (accounts := sort_with by_code (List.filter (statement_account book [type] empty
         (selected_lines db book (in_window from to None))) (db_accounts db))).
  destruct (section_total (statement_row (selected_lines db book (in_window from to None))) _ accounts flip
              (fun _ => eq_refl)) as (s & Hs & Ht).
  exists s. split.
  - erewrite st_bind_run; [unfold st_lift; by rewrite Hs|].
    erewrite st_bind_run by by apply entryPredicates_run. erewrite st_bind_run by done.
    cbv zeta. apply statement_rows_run. lia.
  - rewrite Ht. unfold accounts. rewrite accounts_sum; [done|apply Hc|done].
Qed.

(** ** Net income *)
Definition income_sum (db : Db) (book : uuid) (from to : option date) : Z :=
  type_sum db book Revenue from to + type_sum db book Expenditure from to.

Lemma income_sum_selected db book from to :
  functional_sum (List.filter (income_line db) (selected_lines db book (in_window from to None)))
  = income_sum db book from to.
Proof.
  rewrite selected_lines_selects, functional_sum_filter. unfold income_sum, type_sum, fsum.
  generalize (db_lines db) as ls. intros ls. induction ls as [|l ls IH]; [done|]. cbn [List.filter].
  rewrite !fmap_cons, !sumZ_cons. destruct (selects db book from to l); [|cbn [andb]; lia].
  rewrite fmap_cons, sumZ_cons, IH, income_line_type. cbn [andb].
  destruct (bool_decide_reflect (line_type db l = Some Revenue)) as [E|_];
    [rewrite bool_decide_false by (rewrite E; discriminate); cbn [orb]; lia|].
  destruct (bool_decide _); cbn [orb]; lia.
Qed.

Lemma netIncome_run db book from to :
  volume (db_lines db) < 10 ^ 20 -> valid_bounds from to ->
  netIncomeBetween book from to None db = (Ok (fromUnits (- income_sum db book from to)), db).
Proof.
  intros Hv Hb. unfold netIncomeBetween. erewrite st_bind_run by by apply entryPredicates_run.
  erewrite st_bind_run by done. rewrite income_sum_selected.
  erewrite st_bind_run.
  - unfold st_lift. by rewrite (negateDecimal_units _ (income_sum db book from to)) by apply toUnits_fromUnits.
  - apply numeric_text_run. rewrite <- income_sum_selected.
    destruct (sides_bound (List.filter (income_line db) (selected_lines db book (in_window from to None)))) as (H & _).
    pose proof (volume_sublist _ _ (bool_filter_sublist (income_line db) (selected_lines db book (in_window from to None)))).
    pose proof (volume_sublist _ _ (selected_sublist db book (in_window from to None))). lia.
Qed.

(** ** The fiscal year of a date *)
Lemma civil_valid t : civil t -> 1 <= year_of t -> t <= 99999999 -> valid_date t = true.
Proof.
  intros [Hm Hd] Hy Ht. pose proof (date_fields t) as E. unfold mk_date in E.
  unfold valid_date, iso_shape. rewrite !andb_true_iff, !Z.leb_le. lia.
Qed.

Lemma pred_day_civil t : civil t -> civil (pred_day t).
Proof.
  intros [Hm Hd]. pose proof (date_fields t) as E. pose proof (date_fields_range t) as [Rm Rd].
  pose proof (days_in_month_range (year_of t) (month_of t - 1)).
  unfold pred_day. destruct (Z.ltb_spec 1 (day_of t)) as [H1|H1].
  - replace (t - 1) with (mk_date (year_of t) (month_of t) (day_of t - 1)) by (unfold mk_date in *; lia).
    apply mk_date_civil; lia.
  - destruct (Z.ltb_spec 1 (month_of t)); apply mk_date_civil; try lia.
    change (days_in_month (year_of t - 1) 12) with 31. lia.
Qed.

Lemma pred_day_year t : civil t -> year_of t - 1 <= year_of (pred_day t) <= year_of t.
Proof.
  intros [Hm Hd]. pose proof (date_fields t) as E. pose proof (date_fields_range t) as [Rm Rd].
  pose proof (days_in_month_range (year_of t) (month_of t - 1)).
  unfold pred_day. destruct (Z.ltb_spec 1 (day_of t)) as [H1|H1].
  - replace (t - 1) with (mk_date (year_of t) (month_of t) (day_of t - 1)) by (unfold mk_date in *; lia).
    destruct (mk_date_fields (year_of t) (month_of t) (day_of t - 1)) as (-> & _); lia.
  - destruct (Z.ltb_spec 1 (month_of t)).
    + destruct (mk_date_fields (year_of t) (month_of t - 1) (days_in_month (year_of t) (month_of t - 1)))
        as (-> & _); lia.
    + destruct (mk_date_fields (year_of t - 1) 12 31) as (-> & _); lia.
Qed.

Section fiscal_year.
Context (month day : Z) (asOf : date).
Context (Hm : 1 <= month <= 12) (Hd : 1 <= day <= 31).
Context (Hv : valid_date asOf = true) (Hy : 1001 <= year_of asOf).

Let year := fiscal_year_of asOf month day.
Let start := fiscalYearStartDate year month day.

Lemma fiscal_year_for : year = fiscalYearFor asOf month day.
Proof using Hy. unfold year, fiscal_year_of. by rewrite (proj2 (Z.ltb_ge _ _)) by lia. Qed.

Lemma fiscal_year_shape : year_shape year = Ok tt.
Proof using Hy.
  rewrite fiscal_year_for. unfold year_shape, fiscalYearFor. cbv zeta.
  destruct (_ <=? _); by rewrite (proj2 (Z.ltb_ge _ _)) by lia.
Qed.

Lemma fiscal_start_year : year_of start = year /\ 1000 <= year.
Proof using Hm Hd Hy.
  split.
  - unfold start, fiscalYearStartDate. cbv zeta. pose proof (days_in_month_range year month).
    destruct (mk_date_fields year month (Z.min day (days_in_month year month))) as (-> & _); lia.
  - rewrite fiscal_year_for. unfold fiscalYearFor. cbv zeta. destruct (_ <=? _); lia.
Qed.

Lemma fiscal_start_before : civil start /\ start <= asOf /\ valid_date start = true.
Proof using Hm Hd Hv Hy.
  assert (civil start) as Hc by (apply fiscal_start_civil; done).
  assert (start <= asOf) as Hle.
  { unfold start. rewrite fiscal_year_for. by apply (fiscalYearFor_range month day Hm Hd asOf). }
  split; [done|]. split; [done|]. destruct fiscal_start_year. apply civil_valid; [done|lia|].
  unfold valid_date, iso_shape in Hv. rewrite !andb_true_iff, !Z.leb_le in Hv. lia.
Qed.

Lemma previous_day_valid :
  previousDay start = pred_day start /\ valid_date (pred_day start) = true.
Proof using Hm Hd Hv Hy.
  destruct fiscal_start_before as (Hc & Hle & Hvs), fiscal_start_year as [Ey Hy0]. split.
  - unfold previousDay, utc_year. rewrite Ey. rewrite (proj2 (Z.leb_gt year 99)) by lia.
    rewrite andb_false_r, <- Ey. by rewrite date_fields.
  - pose proof (pred_day_year start Hc). apply civil_valid; [by apply pred_day_civil|lia|].
    pose proof (pred_day_lt start Hc). unfold valid_date, iso_shape in Hvs.
    rewrite !andb_true_iff, !Z.leb_le in Hvs. lia.
Qed.

(** The prior years and the current one share the days up to [asOf] out. *)
Lemma days_shared t :
  valid_date t = true ->
  (if t <=? asOf then 1 else 0)
  = (if t <=? pred_day start then 1 else 0) + (if (start <=? t) && (t <=? asOf) then 1 else 0).
Proof using Hm Hd Hv Hy.
  intros Ht. apply valid_date_civil in Ht. destruct fiscal_start_before as (Hc & Hle & _).
  pose proof (pred_day_lt start Hc). pose proof (pred_day_adjacent start t Hc Ht).
  destruct (Z.leb_spec t asOf), (Z.leb_spec t (pred_day start)), (Z.leb_spec start t); cbn; lia.
Qed.
End fiscal_year.

(** The five figures of the sheet add up to what the books hold up to the date. *)
Lemma sheet_identity db book month day asOf :
  committed db -> 1 <= month <= 12 -> 1 <= day <= 31 ->
  valid_date asOf = true -> 1001 <= year_of asOf ->
  let start := fiscalYearStartDate (fiscal_year_of asOf month day) month day in
  type_sum db book Asset None (Some asOf) + type_sum db book Liability None (Some asOf)
  + type_sum db book Equity None (Some asOf) + income_sum db book None (Some (pred_day start))
  + income_sum db book (Some start) (Some asOf) = 0.
Proof.
  intros Hc Hm Hd Hv Hy start.
  trans (functional_sum (selected_lines db book (in_window None (Some asOf) None))); [|by apply selected_zero].
  rewrite selected_lines_selects, functional_sum_filter.
  unfold income_sum, type_sum, fsum. rewrite <- !sumZ_add. f_equal. apply list_fmap_ext.
  intros i l Hl%list_elem_of_lookup_2. destruct Hc as [Hok _].
  destruct (line_entry _ _ Hok Hl) as (e & He & Hf & _). destruct (line_account _ _ Hok Hl) as (a & Ha & Hi & _).
  assert (valid_date (je_entryDate e) = true) as Hve.
  { pose proof (ok_entry_checks _ Hok e He) as Hck. unfold entry_checks in Hck.
    by apply andb_true_iff in Hck as [_ ?]. }
  pose proof (days_shared month day asOf Hm Hd Hv Hy (je_entryDate e) Hve) as Hdays. fold start in Hdays.
  rewrite (line_type_of _ _ a) by done. unfold selects. rewrite Hf. unfold in_window.
  destruct (bool_decide (jl_accountingBookId l = book)); [|cbn [andb]; lia].
  destruct (in_books (je_status e)); [|cbn [andb]; lia]. cbn [andb]. rewrite !andb_true_r.
  destruct (je_entryDate e <=? asOf), (je_entryDate e <=? pred_day start), (start <=? je_entryDate e);
    cbn [andb] in Hdays |- *; try lia; destruct (la_accountType a);
    repeat match goal with |- context [bool_decide ?P] =>
      first [rewrite (bool_decide_true P) by done | rewrite (bool_decide_false P) by discriminate] end;
    lia.
Qed.

Lemma sumDecimals_texts us : sumDecimals (fromUnits <$> us) = Ok (fromUnits (sumZ us)).
Proof. rewrite (texts_sum fromUnits id us) by done. by rewrite list_fmap_id. Qed.

Lemma negateDecimal_text u : negateDecimal (fromUnits u) = Ok (fromUnits (- u)).
Proof. apply negateDecimal_units, toUnits_fromUnits. Qed.

(** [sum_texts] runs the next [sumDecimals] of micro-unit texts. *)
Ltac sum_texts :=
  match goal with
  | |- context [sumDecimals [fromUnits ?a; fromUnits ?b]] =>
      change [fromUnits a; fromUnits b] with (fromUnits <$> [a; b])
  | |- context [sumDecimals [fromUnits ?a; fromUnits ?b; fromUnits ?c]] =>
      change [fromUnits a; fromUnits b; fromUnits c] with (fromUnits <$> [a; b; c])
  end;
  rewrite sumDecimals_texts; erewrite st_bind_run by done.

(** What the sheet shows. *)
Lemma balanceSheet_run (db : Db) (book : AccountingBook) (asOf : date) (empty : option bool) :
  committed db -> lines_postable db -> volume (db_lines db) < 10 ^ 20 ->
  find_book (bk_id book) db = Some book ->
  1 <= bk_fiscalYearStartMonth book <= 12 -> 1 <= bk_fiscalYearStartDay book <= 31 ->
  valid_date asOf = true -> 1001 <= year_of asOf ->
  exists s, balanceSheet (bk_id book) asOf None empty db = (Ok s, db) /\
    bs_difference s = "0.000000"%string /\ bs_balanced s = true /\
    sc_total (bs_assets s) = fromUnits (type_sum db (bk_id book) Asset None (Some asOf)) /\
    (let start := fiscalYearStartDate (fiscalYearFor asOf (bk_fiscalYearStartMonth book)
                    (bk_fiscalYearStartDay book)) (bk_fiscalYearStartMonth book)
                    (bk_fiscalYearStartDay book) in
     bs_retainedEarnings s = fromUnits (- income_sum db (bk_id book) None (Some (pred_day start))) /\
     bs_currentEarnings s = fromUnits (- income_sum db (bk_id book) (Some start) (Some asOf))).
Proof.
  intros Hc Hp Hv Hf Hm Hd Hva Hy.
  assert (valid_bounds None (Some asOf)) as Hb by (split; [done|intros d [= <-]; done]).
  destruct (section_of_run db (bk_id book) Asset None (Some asOf) (default false empty) false Hc Hp Hv Hb) as (sa & Ra & Ta).
  destruct (section_of_run db (bk_id book) Liability None (Some asOf) (default false empty) true Hc Hp Hv Hb) as (sl & Rl & Tl).
  destruct (section_of_run db (bk_id book) Equity None (Some asOf) (default false empty) true Hc Hp Hv Hb) as (se & Re & Te).
  pose proof (sheet_identity db (bk_id book) _ _ asOf Hc Hm Hd Hva Hy) as Hid. cbv zeta in Hid.
  destruct (fiscal_start_before _ _ asOf Hm Hd Hva Hy) as (_ & _ & Hvs).
  destruct (previous_day_valid _ _ asOf Hm Hd Hva Hy) as [Epd Hvp].
  pose proof (fiscal_year_shape (bk_fiscalYearStartMonth book) (bk_fiscalYearStartDay book) asOf Hy) as Hsh.
  cbv zeta. rewrite <- (fiscal_year_for _ _ _ Hy).
  unfold balanceSheet. erewrite st_bind_run by (unfold loadBook; erewrite st_bind_run by done; by rewrite Hf).
  erewrite st_bind_run by done. cbv zeta.
  rewrite (st_bind_run _ _ _ _ _ Ra), (st_bind_run _ _ _ _ _ Rl), (st_bind_run _ _ _ _ _ Re).
  set (start := fiscalYearStartDate _ _ _) in *. rewrite Epd, Ta, Tl, Te, Hsh.
  erewrite st_bind_run by (apply netIncome_run; [done|split; [done|by intros d [= <-]]]).
  erewrite st_bind_run by done.
  erewrite st_bind_run by (apply netIncome_run; [done|by split; intros d [= <-]]).
  cbn [flipped]. rewrite !negateDecimal_text.
  sum_texts. erewrite st_bind_run by done. rewrite negateDecimal_text. erewrite st_bind_run by done.
  sum_texts.
  match goal with |- context [String.eqb (fromUnits (sumZ ?l)) _] => replace (sumZ l) with 0 by (cbn [sumZ foldr]; lia) end.
  eexists. split; [reflexivity|]. done.
Qed.

(** The balance sheet balances: over a committed store whose lines are on
    postable accounts, for every date from the year 1001 on and a book whose
    fiscal year starts on a real month and day, the sheet is produced unless its
    totals pass what a [numeric(20, 6)] holds, and assets equal liabilities plus
    equity to the last micro-unit: the difference is ["0.000000"].  Retained and
    current earnings are the net income of the days before and of the fiscal
    year's own days, which the computed start of the year separates exactly. *)
Theorem balanceSheet_balances (db : Db) (book : AccountingBook) (asOf : date) (empty : option bool) :
  committed db -> lines_postable db -> volume (db_lines db) < 10 ^ 20 ->
  find_book (bk_id book) db = Some book ->
  1 <= bk_fiscalYearStartMonth book <= 12 -> 1 <= bk_fiscalYearStartDay book <= 31 ->
  valid_date asOf = true -> 1001 <= year_of asOf ->
  exists s, balanceSheet (bk_id book) asOf None empty db = (Ok s, db) /\
    bs_difference s = "0.000000"%string /\ bs_balanced s = true /\
    sc_total (bs_assets s) = fromUnits (type_sum db (bk_id book) Asset None (Some asOf)) /\
    (let start := fiscalYearStartDate (fiscalYearFor asOf (bk_fiscalYearStartMonth book)
                    (bk_fiscalYearStartDay book)) (bk_fiscalYearStartMonth book)
                    (bk_fiscalYearStartDay book) in
     bs_retainedEarnings s = fromUnits (- income_sum db (bk_id book) None (Some (pred_day start))) /\
     bs_currentEarnings s = fromUnits (- income_sum db (bk_id book) (Some start) (Some asOf))).
Proof. apply balanceSheet_run. Qed.

(** The income statement and the balance sheet agree: over the same store and
    for any window, the statement is produced and its net income - revenue less
    expense, section by section - is the text [netIncomeBetween] computes by
    summing the revenue and expense lines at once, which is what the balance
    sheet shows as earnings. *)
Theorem incomeStatement_is_net_income (db : Db) (book : AccountingBook) (from to : date)
    (empty : option bool) :
  committed db -> lines_postable db -> volume (db_lines db) < 10 ^ 20 ->
  find_book (bk_id book) db = Some book -> valid_date from = true -> valid_date to = true ->
  exists s, incomeStatement (bk_id book) from to None empty db = (Ok s, db) /\
    netIncomeBetween (bk_id book) (Some from) (Some to) None db = (Ok (is_netIncome s), db) /\
    sc_total (is_revenue s)
    = fromUnits (- type_sum db (bk_id book) Revenue (Some from) (Some to)) /\
    sc_total (is_expense s)
    = fromUnits (type_sum db (bk_id book) Expenditure (Some from) (Some to)).
Proof.
  intros Hc Hp Hv Hf Hvf Hvt.
  assert (valid_bounds (Some from) (Some to)) as Hb by (by split; intros d [= <-]).
  destruct (section_of_run db (bk_id book) Revenue _ _ (default false empty) true Hc Hp Hv Hb) as (sr & Rr & Tr).
  destruct (section_of_run db (bk_id book) Expenditure _ _ (default false empty) false Hc Hp Hv Hb) as (se & Re & Te).
  rewrite netIncome_run by done.
  unfold incomeStatement. erewrite st_bind_run by (unfold loadBook; erewrite st_bind_run by done; by rewrite Hf).
  cbv zeta. rewrite (st_bind_run _ _ _ _ _ Rr), (st_bind_run _ _ _ _ _ Re), Tr, Te. cbn [flipped].
  rewrite negateDecimal_text. erewrite st_bind_run by done.
  sum_texts.
  eexists. split; [reflexivity|]. cbn [is_netIncome is_revenue is_expense]. split; [|done].
  do 3 f_equal. unfold income_sum. cbn [sumZ foldr]. lia.
Qed.

(** ** Samples *)
Lemma posted_lines_postable : lines_postable posted_db.
Proof.
  assert (Forall (fun l => Forall (fun a => la_id a = jl_ledgerAccountId l -> la_isPostable a = true)
    (db_accounts posted_db)) (db_lines posted_db)) as H.
  { apply (bool_decide_unpack (Forall _ _)). vm_compute. exact I. }
  rewrite Forall_forall in H. intros l a Hl. specialize (H l Hl). rewrite Forall_forall in H. apply H.
Qed.

Definition posted_book : AccountingBook := default sample_book (find_book 1 posted_db).

Lemma balanceSheet_balances_witness :
  exists s, balanceSheet 1 20260214 None None posted_db = (Ok s, posted_db) /\
    bs_difference s = "0.000000"%string /\ sc_total (bs_assets s) = "125.500000"%string.
Proof.
  destruct (balanceSheet_balances posted_db posted_book 20260214 None) as (s & Hs & Hd & _ & Ha & _);
    [apply posted_db_committed|apply posted_lines_postable|vm_compute; reflexivity|vm_compute; reflexivity
    |vm_compute; split; discriminate|vm_compute; split; discriminate|reflexivity|vm_compute; discriminate|].
  exists s. split; [exact Hs|]. split; [exact Hd|]. rewrite Ha. vm_compute. reflexivity.
Defined.

Lemma incomeStatement_is_net_income_witness :
  exists s, incomeStatement 1 20260101 20261231 None None posted_db = (Ok s, posted_db) /\
    sc_total (is_revenue s) = "0.000000"%string.
Proof.
  destruct (incomeStatement_is_net_income posted_db posted_book 20260101 20261231 None) as (s & Hs & _ & Hr & _);
    [apply posted_db_committed|apply posted_lines_postable|vm_compute; reflexivity|vm_compute; reflexivity
    |reflexivity|reflexivity|].
  exists s. split; [exact Hs|]. rewrite Hr. vm_compute. reflexivity.
Defined.

(** A book that requires the entity dimension, and an entry across two entities. *)
Definition strict_book : AccountingBook :=
  {| bk_id := 1; bk_code := "MAIN"; bk_name := "Main book"; bk_functionalCurrency := "USD";
     bk_accountingBasis := Accrual; bk_fiscalYearStartMonth := 1; bk_fiscalYearStartDay := 1;
     bk_requiresEntityDimension := true; bk_nextEntryNumber := 1; bk_status := BookActive;
     bk_openedOn := 20260101; bk_notes := None; bk_createdByUserId := None;
     bk_createdAt := 0; bk_updatedAt := 0 |}.
Definition entity_line (key amount : string) (entity : uuid) : JournalLineInput :=
  {| li_ledgerAccountId := None; li_accountSystemKey := Some key; li_economicEntityId := Some entity;
     li_lineNumber := None; li_description := None; li_currency := None; li_amount := amount;
     li_dimensions := [] |}.
Definition shared_db : Db :=
  snd (postEntry (sample_entry None [entity_line "undeposited_funds" "90.00" 11;
                                     entity_line "opening_balance_equity" "-90.00" 12])
    (snd (seedDefaultChart 1 None None None
      (snd (generateFiscalYear sample_year (installation ["u1"%string] sample_entities [strict_book])))))).

(** What the gate of the entity filter does not give: the book requires the
    entity dimension and every posted line carries an entity, so the filtered
    sheet is offered; but an entry across two entities leaves each entity's sheet
    out of balance. *)
Theorem gated_sheet_unbalanced :
  fst (entityDimensionCoverage 1 shared_db) = Ok (2, 2, true) /\
  match fst (balanceSheet 1 20261231 (Some 11%positive) None shared_db) with
  | Ok s => bs_difference s = "90.000000"%string /\ bs_balanced s = false
  | Throw _ => False
  end.
Proof. vm_compute. repeat split. Qed.

Lemma sheet_difference db book asOf empty :
  committed db -> lines_postable db -> volume (db_lines db) < 10 ^ 20 ->
  find_book (bk_id book) db = Some book ->
  1 <= bk_fiscalYearStartMonth book <= 12 -> 1 <= bk_fiscalYearStartDay book <= 31 ->
  valid_date asOf = true -> 1001 <= year_of asOf ->
  exists s, balanceSheet (bk_id book) asOf None empty db = (Ok s, db) /\
    bs_balanced s = true /\ bs_difference s = "0.000000"%string.
Proof.
  intros H1 H2 H3 H4 H5 H6 H7 H8.
  destruct (balanceSheet_run db book asOf empty H1 H2 H3 H4 H5 H6 H7 H8) as (s & Hs & Hd & Hb & _).
  exists s. done.
Qed.
