(* ===== verification/ExpenseTables.v ===== *)
(** * The expense tables

    The [insert], [update] and [delete] statements that [expenses.ts] and
    [lines.ts] issue on [expenses], [expense_allocations] and [expense_lines],
    with the constraints of [packages/db/src/schema/expenses.ts]. *)
From S2P Require Import Prelude Decimal Calendar Store Schema Ledger LedgerFacts Facts.

Open Scope Z_scope.

(** ** [expenses] *)

(** [expenses_amount_check]; the closed sets of the other checks are types. *)
Definition expense_checks (e : Expense) : bool := negb (ex_amount e =? 0).

Definition expense_fks (db : Db) (e : Expense) : bool :=
  exists_opt ent_id (ex_economicEntityId e) (db_entities db) &&
  user_exists db (ex_entityAttributedByUserId e) &&
  exists_opt cp_id (ex_payeeCounterpartyId e) (ft_counterparties (db_facts db)) &&
  exists_opt ac_id (ex_acquisitionCostId e) (ft_acquisitionCosts (db_facts db)) &&
  exists_opt bk_id (ex_accountingBookId e) (db_books db) &&
  user_exists db (ex_createdByUserId e).

Definition insertExpense (values : uuid -> Z -> Expense) : run Expense :=
  id ← next_id;
  db ← st_get;
  let row := values id (db_now db) in
  _ ← ensure (expense_checks row) "23514";
  _ ← ensure (negb (exists_id ex_id id (db_expenses db)) &&
              forallb (fun r => bool_decide (ex_referenceCode r <> ex_referenceCode row))
                (db_expenses db)) "23505";
  _ ← ensure (expense_fks db row) "23503";
  _ ← st_modify (fun db => set_expenses (db_expenses db ++ [row]) db);
  mret row.

(** A foreign key is looked up when the column changes. *)
Definition fk_kept {A} (key : A -> uuid) (old new : option uuid) (rows : list A) : bool :=
  bool_decide (new = old) || exists_opt key new rows.

Definition expense_update_fks (db : Db) (old new : Expense) : bool :=
  fk_kept ent_id (ex_economicEntityId old) (ex_economicEntityId new) (db_entities db) &&
  fk_kept cp_id (ex_payeeCounterpartyId old) (ex_payeeCounterpartyId new)
    (ft_counterparties (db_facts db)) &&
  fk_kept ac_id (ex_acquisitionCostId old) (ex_acquisitionCostId new)
    (ft_acquisitionCosts (db_facts db)).

(** [update expenses set ... where p]; no statement sets the code, the book
    or the users of an expense. *)
Definition updateExpenses (p : Expense -> bool) (f : Expense -> Expense) : run unit :=
  db ← st_get;
  _ ← ensure (forallb (fun e => negb (p e) || expense_checks (f e)) (db_expenses db)) "23514";
  _ ← ensure (forallb (fun e => negb (p e) || expense_update_fks db e (f e)) (db_expenses db)) "23503";
  st_modify (fun db => set_expenses (update_rows p f (db_expenses db)) db).

Definition is_expense (id : uuid) (e : Expense) : bool := bool_decide (ex_id e = id).

(** ** [expense_allocations] *)
Definition allocation_targets (a : ExpenseAllocation) : bool :=
  is_some (ea_economicEntityId a) || is_some (ea_acquisitionId a) || is_some (ea_catalogItemId a)
  || is_some (ea_channel a) || is_some (ea_ledgerAccountId a) || is_some (ea_dimensionValueId a).

Definition allocation_checks (a : ExpenseAllocation) : bool :=
  negb (ea_amount a =? 0) && (0 <? ea_lineNumber a) && allocation_targets a.

Definition allocation_fks (db : Db) (a : ExpenseAllocation) : bool :=
  exists_id ex_id (ea_expenseId a) (db_expenses db) &&
  exists_opt ent_id (ea_economicEntityId a) (db_entities db) &&
  exists_opt aq_id (ea_acquisitionId a) (ft_acquisitions (db_facts db)) &&
  match ea_catalogItemId a with
  | None => true
  | Some id => bool_decide (id ∈ ft_catalogItems (db_facts db))
  end &&
  exists_opt la_id (ea_ledgerAccountId a) (db_accounts db) &&
  exists_opt dv_id (ea_dimensionValueId a) (db_dimension_values db).

(** [expense_allocations_expense_line_uq] *)
Definition allocation_taken (a b : ExpenseAllocation) : bool :=
  bool_decide (ea_expenseId a = ea_expenseId b) && (ea_lineNumber a =? ea_lineNumber b).

Definition insertAllocationRow (values : uuid -> Z -> ExpenseAllocation) : run ExpenseAllocation :=
  id ← next_id;
  db ← st_get;
  let row := values id (db_now db) in
  _ ← ensure (int4 (ea_lineNumber row)) "22003";
  _ ← ensure (allocation_checks row) "23514";
  _ ← ensure (negb (exists_id ea_id id (db_allocations db)) &&
              forallb (fun r => negb (allocation_taken row r)) (db_allocations db)) "23505";
  _ ← ensure (allocation_fks db row) "23503";
  _ ← st_modify (fun db => set_allocations (db_allocations db ++ [row]) db);
  mret row.

(** [delete from expense_allocations where p] *)
Definition deleteAllocations (p : ExpenseAllocation -> bool) : run unit :=
  st_modify (fun db => set_allocations (List.filter (fun a => negb (p a)) (db_allocations db)) db).

Definition expense_allocations (db : Db) (id : uuid) : list ExpenseAllocation :=
  List.filter (fun a => bool_decide (ea_expenseId a = id)) (db_allocations db).

(** ** [expense_lines] *)
Definition EXPENSE_LINE_UNITS : list string :=
  ["each"; "pair"; "pack"; "box"; "case"; "lot"; "lb"; "oz"; "kg"; "g"; "ft"; "in"; "m"; "cm";
   "sqft"; "hr"; "day"; "mi"; "km"]%string.

Definition known_unit (u : option string) : bool :=
  match u with None => true | Some u => bool_decide (u ∈ EXPENSE_LINE_UNITS) end.

Definition expense_line_checks (l : ExpenseLine) : bool :=
  (0 <? el_lineNumber l) && known_unit (el_unit l).

(** [expense_lines_expense_line_uq], and the partial index on the candidate *)
Definition expense_line_taken (l k : ExpenseLine) : bool :=
  (bool_decide (el_expenseId l = el_expenseId k) && (el_lineNumber l =? el_lineNumber k))
  || match el_documentLineCandidateId l with
     | None => false
     | Some c => opt_eqb (el_documentLineCandidateId k) c
     end.

Definition expense_line_fks (db : Db) (l : ExpenseLine) : bool :=
  exists_id ex_id (el_expenseId l) (db_expenses db) &&
  match el_documentLineCandidateId l with
  | None => true
  | Some c => bool_decide (c ∈ ft_candidates (db_facts db))
  end.

Definition insertExpenseLineRow (values : uuid -> Z -> ExpenseLine) : run ExpenseLine :=
  id ← next_id;
  db ← st_get;
  let row := values id (db_now db) in
  _ ← ensure (int4 (el_lineNumber row)) "22003";
  _ ← ensure (expense_line_checks row) "23514";
  _ ← ensure (negb (exists_id el_id id (db_expense_lines db)) &&
              forallb (fun r => negb (expense_line_taken row r)) (db_expense_lines db)) "23505";
  _ ← ensure (expense_line_fks db row) "23503";
  _ ← st_modify (fun db => set_expense_lines (db_expense_lines db ++ [row]) db);
  mret row.

Definition deleteExpenseLines (p : ExpenseLine -> bool) : run unit :=
  st_modify (fun db => set_expense_lines (List.filter (fun l => negb (p l)) (db_expense_lines db)) db).

Definition expense_lines (db : Db) (id : uuid) : list ExpenseLine :=
  List.filter (fun l => bool_decide (el_expenseId l = id)) (db_expense_lines db).
