(* ===== verification/Expenses.v ===== *)
(** * Expenses

    [packages/accounting/src/expenses.ts] with what it calls: the reference
    codes of [codes.ts], the attribution ladder of [attribution.ts] and the
    posting seam of [posting.ts].  The lifecycle is draft, recorded, void; an
    expense and its allocations are edited as a draft only. *)
From S2P Require Import Prelude Decimal Calendar Inputs Store Schema Ledger LedgerFacts Facts.
From S2P Require Import Chart Journal ExpenseTables.

Open Scope Z_scope.
#[local] Arguments String.append : simpl nomatch.

(** ** Reference codes ([codes.ts]) *)
Definition code_prefix (year : Z) : string := concat_text ["EXP-"; Js.bigint_to_string year; "-"].

Definition expenseReferenceCode (year sequence : Z) : string :=
  String.append (code_prefix year) (Js.pad_start 4 "0" (Js.bigint_to_string sequence)).

(** [withCodeRetry]: the attempts left. *)
Fixpoint retry {A} (attempts : nat) (attempt : run A) : run A :=
  match attempts with
  | O => st_throw AccountingConflictError
  | S n => st_catch attempt (fun error =>
      if isUniqueViolation error then retry n attempt else st_throw error)
  end.
Definition withCodeRetry {A} (attempt : run A) : run A := retry 5 attempt.

(** [substring(code from '^EXP-[0-9]{4}-([0-9]+)$')] *)
Definition code_sequence (code : string) : option string :=
  let year := Js.slice 4 8 code in
  let digits := Js.slice_from 9 code in
  if String.eqb (Js.slice 0 4 code) "EXP-" && (String.length year =? 4)%nat && Js.all_digits year
     && String.eqb (Js.slice 8 9 code) "-" && Js.all_digits digits
     && negb (String.eqb digits "")
  then Some digits else None.

(** [::integer] *)
Definition integer_cast (digits : string) : run Z :=
  let n := Js.bigint digits in
  if int4 n then mret n else st_throw (SqlError "22003").

(** [coalesce(max(...), 0)] over the codes of the year; [max] skips nulls. *)
Definition generateReferenceCode (year : Z) : run string :=
  db ← st_get;
  let codes := List.filter (Js.starts_with (code_prefix year)) (ex_referenceCode <$> db_expenses db) in
  sequences ← st_mapM integer_cast (omap code_sequence codes);
  mret (expenseReferenceCode year (foldr Z.max 0 sequences + 1)).

(** ** Attribution ([attribution.ts]) *)
Definition REATTRIBUTABLE_SOURCES : list ExpenseEntityAttributionSource :=
  [AttrInstallationDefault; AttrUnattributed].

(** [None] is an absent key, [Some None] an explicit [null]. *)
Definition resolveExpenseAttribution (explicitEntityId : option (option uuid))
    (installationDefaultEntityId : option uuid) : option uuid * ExpenseEntityAttributionSource :=
  match explicitEntityId with
  | Some None => (None, AttrUnattributed)
  | Some (Some id) => (Some id, AttrManual)
  | None => match installationDefaultEntityId with
            | None => (None, AttrUnattributed)
            | Some id => (Some id, AttrInstallationDefault)
            end
  end.

(** ** The posting seam ([posting.ts]) *)
Definition EXPENSE_SOURCE_FACT_TYPE : string := "expense".

Record SourceFactIdentity : Type := { si_sourceFactType : string; si_sourceFactId : uuid }.

Definition expenseSourceFact (expenseId : uuid) : SourceFactIdentity :=
  {| si_sourceFactType := EXPENSE_SOURCE_FACT_TYPE; si_sourceFactId := expenseId |}.

Definition POSTED_STATUS : ExpenseStatus := ExpensePosted.
Definition isPostable (status : ExpenseStatus) : bool := bool_decide (status = ExpenseRecorded).

(** ** Arithmetic *)
Definition allocationsFit (amount allocated : string) : result bool :=
  negative ← isNegative amount;
  if negative : bool then
    c ← compareDecimals allocated ZERO;
    if c <=? 0 then d ← compareDecimals allocated amount; mret (0 <=? d) else mret false
  else
    c ← compareDecimals allocated ZERO;
    if 0 <=? c then d ← compareDecimals allocated amount; mret (d <=? 0) else mret false.

Definition unallocatedRemainder (amount allocated : string) : result string :=
  subtractDecimals amount allocated.

(** ** Inputs *)

(** The optional keys of the code, [undefined] or [null] alike where it reads
    them with [?? null]. *)
Record AllocationInput : Type := {
  ai_lineNumber : option Z;
  ai_amount : string;
  ai_economicEntityId : option uuid;
  ai_acquisitionId : option uuid;
  ai_catalogItemId : option uuid;
  ai_channel : option string;
  ai_ledgerAccountId : option uuid;
  ai_dimensionValueId : option uuid;
  ai_note : option string;
}.

(** [z.number().int().positive()] *)
Definition z_positive (n : Z) : result Z :=
  _ ← z_check ((0 <? n) && (n <=? MAX_SAFE_INTEGER)); mret n.

Definition allocationSchema (i : AllocationInput) : result AllocationInput :=
  line ← z_opt z_positive (ai_lineNumber i);
  amount ← z_decimal (ai_amount i);
  channel ← z_opt z_text (ai_channel i);
  note ← z_opt z_text (ai_note i);
  _ ← z_check (is_some (ai_economicEntityId i) || is_some (ai_acquisitionId i)
               || is_some (ai_catalogItemId i) || is_some channel
               || is_some (ai_ledgerAccountId i) || is_some (ai_dimensionValueId i));
  mret {| ai_lineNumber := line; ai_amount := amount;
          ai_economicEntityId := ai_economicEntityId i; ai_acquisitionId := ai_acquisitionId i;
          ai_catalogItemId := ai_catalogItemId i; ai_channel := channel;
          ai_ledgerAccountId := ai_ledgerAccountId i;
          ai_dimensionValueId := ai_dimensionValueId i; ai_note := note |}.

Record CreateExpenseInput : Type := {
  ce_economicEntityId : option (option uuid);
  ce_installationDefaultEntityId : option uuid;
  ce_referenceCode : option string;
  ce_expenseDate : date;
  ce_payeeName : option string;
  ce_payeeCounterpartyId : option uuid;
  ce_category : string;
  ce_description : option string;
  ce_currency : string;
  ce_amount : string;
  ce_taxAmount : option string;
  ce_paymentMethod : ExpensePaymentMethod;
  ce_acquisitionCostId : option uuid;
  ce_status : option ExpenseStatus;
  ce_reimbursable : option bool;
  ce_recurringGroupKey : option string;
  ce_notes : option string;
  ce_createdByUserId : option string;
  ce_requestId : option string;
  ce_allocations : list AllocationInput;
}.

Definition z_currency (s : string) : result string :=
  _ ← z_check (Text.three_letters s); mret s.

(** [z.enum(["draft", "recorded"]).default("draft")] *)
Definition z_created_status (s : option ExpenseStatus) : result ExpenseStatus :=
  let status := default ExpenseDraft s in
  _ ← z_check (bool_decide (status = ExpenseDraft) || bool_decide (status = ExpenseRecorded));
  mret status.

Definition createExpenseSchema (i : CreateExpenseInput) : result CreateExpenseInput :=
  code ← z_opt z_text (ce_referenceCode i);
  day ← z_date (ce_expenseDate i);
  payee ← z_opt z_text (ce_payeeName i);
  category ← z_text (ce_category i);
  description ← z_opt z_text (ce_description i);
  currency ← z_currency (ce_currency i);
  amount ← z_decimal (ce_amount i);
  tax ← z_decimal (default "0" (ce_taxAmount i))%string;
  status ← z_created_status (ce_status i);
  recurring ← z_opt z_text (ce_recurringGroupKey i);
  notes ← z_opt z_text (ce_notes i);
  created ← z_user (ce_createdByUserId i);
  request ← z_user (ce_requestId i);
  allocations ← res_mapM allocationSchema (ce_allocations i);
  mret {| ce_economicEntityId := ce_economicEntityId i;
          ce_installationDefaultEntityId := ce_installationDefaultEntityId i;
          ce_referenceCode := code; ce_expenseDate := day; ce_payeeName := payee;
          ce_payeeCounterpartyId := ce_payeeCounterpartyId i; ce_category := category;
          ce_description := description; ce_currency := currency; ce_amount := amount;
          ce_taxAmount := Some tax; ce_paymentMethod := ce_paymentMethod i;
          ce_acquisitionCostId := ce_acquisitionCostId i; ce_status := Some status;
          ce_reimbursable := Some (default false (ce_reimbursable i));
          ce_recurringGroupKey := recurring; ce_notes := notes;
          ce_createdByUserId := created; ce_requestId := request;
          ce_allocations := allocations |}.

(** [None] is an absent key, [Some None] an explicit [null]. *)
Record UpdateExpenseInput : Type := {
  ue_expenseId : uuid;
  ue_expenseDate : option date;
  ue_payeeName : option (option string);
  ue_payeeCounterpartyId : option (option uuid);
  ue_category : option string;
  ue_description : option (option string);
  ue_currency : option string;
  ue_amount : option string;
  ue_taxAmount : option string;
  ue_paymentMethod : option ExpensePaymentMethod;
  ue_acquisitionCostId : option (option uuid);
  ue_reimbursable : option bool;
  ue_recurringGroupKey : option (option string);
  ue_notes : option (option string);
  ue_actorUserId : option string;
  ue_requestId : option string;
}.

Definition updateExpenseSchema (i : UpdateExpenseInput) : result UpdateExpenseInput :=
  day ← z_opt z_date (ue_expenseDate i);
  payee ← z_opt (z_opt z_text) (ue_payeeName i);
  category ← z_opt z_text (ue_category i);
  description ← z_opt (z_opt z_text) (ue_description i);
  currency ← z_opt z_currency (ue_currency i);
  amount ← z_opt z_decimal (ue_amount i);
  tax ← z_opt z_decimal (ue_taxAmount i);
  recurring ← z_opt (z_opt z_text) (ue_recurringGroupKey i);
  notes ← z_opt (z_opt z_text) (ue_notes i);
  actor ← z_user (ue_actorUserId i);
  request ← z_user (ue_requestId i);
  mret {| ue_expenseId := ue_expenseId i; ue_expenseDate := day; ue_payeeName := payee;
          ue_payeeCounterpartyId := ue_payeeCounterpartyId i; ue_category := category;
          ue_description := description; ue_currency := currency; ue_amount := amount;
          ue_taxAmount := tax; ue_paymentMethod := ue_paymentMethod i;
          ue_acquisitionCostId := ue_acquisitionCostId i; ue_reimbursable := ue_reimbursable i;
          ue_recurringGroupKey := recurring; ue_notes := notes; ue_actorUserId := actor;
          ue_requestId := request |}.

(** ** The service *)
Definition loadExpense (expenseId : uuid) : run Expense :=
  db ← st_get;
  match find_id ex_id expenseId (db_expenses db) with
  | None => st_throw AccountingNotFoundError
  | Some row => mret row
  end.

Definition assertEditable (expense : Expense) : result unit :=
  throw_if (bool_decide (ex_status expense <> ExpenseDraft)) ExpenseNotEditableError.

(** The total and the count; a [numeric(20, 6)] reads as a decimal text. *)
Definition allocatedTotal (expenseId : uuid) : run (string * nat) :=
  db ← st_get;
  let amounts := (fun a => fromUnits (ea_amount a)) <$> expense_allocations db expenseId in
  total ← st_lift (sumDecimals amounts);
  mret (total, length amounts).

Definition assertFits (amount allocated : string) : result unit :=
  fits ← allocationsFit amount allocated;
  throw_if (negb fits) ExpenseOverAllocatedError.

Definition resolvePayeeDisplayName (payeeCounterpartyId : uuid) : run string :=
  db ← st_get;
  match find_id cp_id payeeCounterpartyId (ft_counterparties (db_facts db)) with
  | None => st_throw AccountingNotFoundError
  | Some c => mret (cp_displayName c)
  end.

Definition nextLineNumber (expenseId : uuid) : run Z :=
  st_gets (fun db => foldr Z.max 0 (ea_lineNumber <$> expense_allocations db expenseId) + 1).

Definition allocation_values (expense : Expense) (startingLine : Z) (index : nat)
    (allocation : AllocationInput) : result (string * (Z -> uuid -> Z -> ExpenseAllocation)) :=
  amount ← toMoneyString (ai_amount allocation);
  mret (amount, fun units id now =>
    {| ea_id := id; ea_expenseId := ex_id expense;
       ea_lineNumber := default (startingLine + Z.of_nat index) (ai_lineNumber allocation);
       ea_amount := units; ea_economicEntityId := ai_economicEntityId allocation;
       ea_acquisitionId := ai_acquisitionId allocation;
       ea_catalogItemId := ai_catalogItemId allocation;
       ea_ledgerAccountId := ai_ledgerAccountId allocation;
       ea_dimensionValueId := ai_dimensionValueId allocation;
       ea_channel := ai_channel allocation; ea_note := ai_note allocation;
       ea_createdAt := now |}).

(** One [insert] of all the rows. *)
Definition insertAllocations (expense : Expense) (allocations : list AllocationInput)
    (startingLine : Z) : run (list ExpenseAllocation) :=
  values ← st_lift (res_mapM (fun '(index, a) => allocation_values expense startingLine index a)
                      (imap pair allocations));
  st_mapM (fun '(amount, row) => units ← numeric_in amount; insertAllocationRow (row units)) values.

Definition expense_audit (action : string) (id : option uuid) (actor request : option string)
    : AuditEvent :=
  {| ae_actorUserId := actor; ae_action := action; ae_resourceType := "expense";
     ae_resourceId := id; ae_requestId := request |}.

Definition get (expenseId : uuid) : run Expense := loadExpense expenseId.

Definition getByReferenceCode (referenceCode : string) : run Expense :=
  code ← st_lift (textLiteral referenceCode);
  db ← st_get;
  match find_row (fun e => String.eqb (ex_referenceCode e) code) (db_expenses db) with
  | None => st_throw AccountingNotFoundError
  | Some row => mret row
  end.

(** *** [create] *)

(** The row written, over its code and its stored amounts. *)
Definition expense_values (value : CreateExpenseInput)
    (attribution : option uuid * ExpenseEntityAttributionSource)
    (referenceCode : string) (payeeName : option string) (day : date) (amount tax : Z)
    (id : uuid) (now : Z) : Expense :=
  {| ex_id := id; ex_economicEntityId := attribution.1;
     ex_entityAttributionSource := attribution.2;
     ex_entityAttributedAt := match attribution.1 with None => None | Some _ => Some now end;
     ex_entityAttributedByUserId :=
       if bool_decide (attribution.2 = AttrManual) then ce_createdByUserId value else None;
     ex_referenceCode := referenceCode; ex_expenseDate := day; ex_payeeName := payeeName;
     ex_payeeCounterpartyId := ce_payeeCounterpartyId value; ex_category := ce_category value;
     ex_description := ce_description value; ex_currency := Text.toUpperCase (ce_currency value);
     ex_amount := amount; ex_taxAmount := tax; ex_paymentMethod := ce_paymentMethod value;
     ex_acquisitionCostId := ce_acquisitionCostId value; ex_accountingBookId := None;
     ex_status := default ExpenseDraft (ce_status value);
     ex_reimbursable := default false (ce_reimbursable value);
     ex_recurringGroupKey := ce_recurringGroupKey value; ex_notes := ce_notes value;
     ex_createdByUserId := ce_createdByUserId value; ex_createdAt := now; ex_updatedAt := now |}.

Definition create_write (value : CreateExpenseInput)
    (attribution : option uuid * ExpenseEntityAttributionSource) (amount referenceCode : string)
    : run (Expense * list ExpenseAllocation) :=
  payeeName ← match ce_payeeCounterpartyId value with
              | Some id => name ← resolvePayeeDisplayName id; mret (Some name)
              | None => mret (ce_payeeName value)
              end;
  tax ← st_lift (toMoneyString (default "0"%string (ce_taxAmount value)));
  day ← date_in (ce_expenseDate value);
  amountUnits ← numeric_in amount;
  taxUnits ← numeric_in tax;
  expense ← insertExpense (expense_values value attribution referenceCode payeeName day
                             amountUnits taxUnits);
  allocations ← insertAllocations expense (ce_allocations value) 1;
  _ ← audit_append (expense_audit "accounting.expense.created" (Some (ex_id expense))
                      (ce_createdByUserId value) (ce_requestId value));
  mret (expense, allocations).

Definition create_code (value : CreateExpenseInput) : run string :=
  match ce_referenceCode value with
  | Some code => mret code
  | None => generateReferenceCode (year_of (ce_expenseDate value))
  end.

Definition create_body (value : CreateExpenseInput)
    (attribution : option uuid * ExpenseEntityAttributionSource) (amount : string)
    : run (Expense * list ExpenseAllocation) :=
  referenceCode ← create_code value;
  create_write value attribution amount referenceCode.

(** What is decided before the first attempt. *)
Definition create_checked (input : CreateExpenseInput)
    : result (CreateExpenseInput * (option uuid * ExpenseEntityAttributionSource) * string) :=
  value ← createExpenseSchema input;
  let attribution := resolveExpenseAttribution (ce_economicEntityId value)
                       (ce_installationDefaultEntityId value) in
  amount ← toMoneyString (ce_amount value);
  allocated ← sumDecimals (ai_amount <$> ce_allocations value);
  fits ← allocationsFit amount allocated;
  _ ← throw_if (negb fits) ExpenseOverAllocatedError;
  mret (value, attribution, amount).

Definition create (input : CreateExpenseInput) : run (Expense * list ExpenseAllocation) :=
  checked ← st_lift (create_checked input);
  let '(value, attribution, amount) := checked in
  withCodeRetry (transaction (create_body value attribution amount)).

(** *** [update] *)

(** The assignments of the statement, over the stored values. *)
Definition apply_expense_update (value : UpdateExpenseInput) (payeeName : option (option string))
    (currency : option string) (amount tax : option Z) (now : Z) (e : Expense) : Expense :=
  {| ex_id := ex_id e; ex_economicEntityId := ex_economicEntityId e;
     ex_entityAttributionSource := ex_entityAttributionSource e;
     ex_entityAttributedAt := ex_entityAttributedAt e;
     ex_entityAttributedByUserId := ex_entityAttributedByUserId e;
     ex_referenceCode := ex_referenceCode e;
     ex_expenseDate := default (ex_expenseDate e) (ue_expenseDate value);
     ex_payeeName := default (ex_payeeName e) payeeName;
     ex_payeeCounterpartyId := default (ex_payeeCounterpartyId e) (ue_payeeCounterpartyId value);
     ex_category := default (ex_category e) (ue_category value);
     ex_description := default (ex_description e) (ue_description value);
     ex_currency := default (ex_currency e) currency; ex_amount := default (ex_amount e) amount;
     ex_taxAmount := default (ex_taxAmount e) tax;
     ex_paymentMethod := default (ex_paymentMethod e) (ue_paymentMethod value);
     ex_acquisitionCostId := default (ex_acquisitionCostId e) (ue_acquisitionCostId value);
     ex_accountingBookId := ex_accountingBookId e; ex_status := ex_status e;
     ex_reimbursable := default (ex_reimbursable e) (ue_reimbursable value);
     ex_recurringGroupKey := default (ex_recurringGroupKey e) (ue_recurringGroupKey value);
     ex_notes := default (ex_notes e) (ue_notes value);
     ex_createdByUserId := ex_createdByUserId e; ex_createdAt := ex_createdAt e;
     ex_updatedAt := now |}.

(** The name snapshot of a chosen payee overrides the text. *)
Definition update_payee (value : UpdateExpenseInput) : run (option (option string)) :=
  match ue_payeeCounterpartyId value with
  | Some (Some id) => name ← resolvePayeeDisplayName id; mret (Some (Some name))
  | _ => mret (ue_payeeName value)
  end.

(** The literals of the texts. *)
Definition update_literals (value : UpdateExpenseInput) (payeeName : option (option string))
    : result unit :=
  _ ← z_opt textLiteral_opt payeeName;
  _ ← z_opt textLiteral (ue_category value);
  _ ← z_opt textLiteral_opt (ue_description value);
  _ ← z_opt textLiteral_opt (ue_recurringGroupKey value);
  _ ← z_opt textLiteral_opt (ue_notes value);
  mret tt.

Definition update_currency (before : Expense) (count : nat) (currency : option string)
    : result (option string) :=
  match currency with
  | None => mret None
  | Some c =>
      let c := Text.toUpperCase c in
      _ ← throw_if (negb (String.eqb c (ex_currency before)) && (0 <? count)%nat)
            AccountingValidationError;
      mret (Some c)
  end.

Definition update_amount (allocated : string) (amount : option string) : result (option string) :=
  match amount with
  | None => mret None
  | Some a => a ← toMoneyString a; _ ← assertFits a allocated; mret (Some a)
  end.

Definition update_body (value : UpdateExpenseInput) : run Expense :=
  before ← loadExpense (ue_expenseId value);
  _ ← st_lift (assertEditable before);
  payeeName ← update_payee value;
  _ ← st_lift (update_literals value payeeName);
  tax ← st_lift (z_opt toMoneyString (ue_taxAmount value));
  totals ← allocatedTotal (ex_id before);
  let '(allocated, count) := totals in
  currency ← st_lift (update_currency before count (ue_currency value));
  amount ← st_lift (update_amount allocated (ue_amount value));
  _ ← match ue_expenseDate value with None => mret tt | Some t => _ ← date_in t; mret tt end;
  taxUnits ← numeric_in_opt tax;
  amountUnits ← numeric_in_opt amount;
  now ← st_gets db_now;
  _ ← updateExpenses (is_expense (ex_id before))
        (apply_expense_update value payeeName currency amountUnits taxUnits now);
  after ← loadExpense (ex_id before);
  _ ← audit_append (expense_audit "accounting.expense.updated" (Some (ex_id before))
                      (ue_actorUserId value) (ue_requestId value));
  mret after.

Definition update (input : UpdateExpenseInput) : run Expense :=
  value ← st_lift (updateExpenseSchema input);
  transaction (update_body value).

(** *** [linkPayee], [submit], [voidExpense], [promoteToAcquisitionCost] *)
Definition with_payee (counterparty : option uuid) (name : option string) (now : Z) (e : Expense)
    : Expense :=
  {| ex_id := ex_id e; ex_economicEntityId := ex_economicEntityId e;
     ex_entityAttributionSource := ex_entityAttributionSource e;
     ex_entityAttributedAt := ex_entityAttributedAt e;
     ex_entityAttributedByUserId := ex_entityAttributedByUserId e;
     ex_referenceCode := ex_referenceCode e; ex_expenseDate := ex_expenseDate e;
     ex_payeeName := name; ex_payeeCounterpartyId := counterparty; ex_category := ex_category e;
     ex_description := ex_description e; ex_currency := ex_currency e; ex_amount := ex_amount e;
     ex_taxAmount := ex_taxAmount e; ex_paymentMethod := ex_paymentMethod e;
     ex_acquisitionCostId := ex_acquisitionCostId e; ex_accountingBookId := ex_accountingBookId e;
     ex_status := ex_status e; ex_reimbursable := ex_reimbursable e;
     ex_recurringGroupKey := ex_recurringGroupKey e; ex_notes := ex_notes e;
     ex_createdByUserId := ex_createdByUserId e; ex_createdAt := ex_createdAt e;
     ex_updatedAt := now |}.

(** [set status = ..., acquisition_cost_id = ...]; [None] leaves the column. *)
Definition with_status (status : ExpenseStatus) (cost : option uuid) (now : Z) (e : Expense)
    : Expense :=
  {| ex_id := ex_id e; ex_economicEntityId := ex_economicEntityId e;
     ex_entityAttributionSource := ex_entityAttributionSource e;
     ex_entityAttributedAt := ex_entityAttributedAt e;
     ex_entityAttributedByUserId := ex_entityAttributedByUserId e;
     ex_referenceCode := ex_referenceCode e; ex_expenseDate := ex_expenseDate e;
     ex_payeeName := ex_payeeName e; ex_payeeCounterpartyId := ex_payeeCounterpartyId e;
     ex_category := ex_category e; ex_description := ex_description e;
     ex_currency := ex_currency e; ex_amount := ex_amount e; ex_taxAmount := ex_taxAmount e;
     ex_paymentMethod := ex_paymentMethod e;
     ex_acquisitionCostId := match cost with None => ex_acquisitionCostId e | Some _ => cost end;
     ex_accountingBookId := ex_accountingBookId e; ex_status := status;
     ex_reimbursable := ex_reimbursable e; ex_recurringGroupKey := ex_recurringGroupKey e;
     ex_notes := ex_notes e; ex_createdByUserId := ex_createdByUserId e;
     ex_createdAt := ex_createdAt e; ex_updatedAt := now |}.

Definition linkPayee (expenseId : uuid) (payeeCounterpartyId : option uuid)
    (actor request : option string) : run Expense :=
  transaction (
    before ← loadExpense expenseId;
    _ ← st_lift (throw_if (bool_decide (ex_status before = ExpenseVoid)) ExpenseNotEditableError);
    payeeName ← match payeeCounterpartyId with
                | Some id => name ← resolvePayeeDisplayName id; mret (Some name)
                | None => mret (ex_payeeName before)
                end;
    _ ← st_lift (textLiteral_opt payeeName);
    now ← st_gets db_now;
    _ ← updateExpenses (is_expense (ex_id before)) (with_payee payeeCounterpartyId payeeName now);
    after ← loadExpense (ex_id before);
    _ ← audit_append (expense_audit "accounting.expense.payee_linked" (Some (ex_id before)) actor request);
    mret after).

Definition submit (expenseId : uuid) (actor request : option string) : run Expense :=
  transaction (
    before ← loadExpense expenseId;
    _ ← st_lift (throw_if (bool_decide (ex_status before <> ExpenseDraft)) ExpenseNotEditableError);
    now ← st_gets db_now;
    _ ← updateExpenses (is_expense (ex_id before)) (with_status ExpenseRecorded None now);
    after ← loadExpense (ex_id before);
    totals ← allocatedTotal (ex_id before);
    _ ← st_lift (unallocatedRemainder (fromUnits (ex_amount before)) totals.1);
    _ ← audit_append (expense_audit "accounting.expense.submitted" (Some (ex_id before)) actor request);
    mret after).

Definition voidExpense (expenseId : uuid) (reason : string) (actor request : option string)
    : run Expense :=
  let reason := Text.trim reason in
  _ ← st_lift (throw_if (String.eqb reason "") AccountingValidationError);
  transaction (
    before ← loadExpense expenseId;
    _ ← st_lift (throw_if (bool_decide (ex_status before = POSTED_STATUS)) ExpenseNotEditableError);
    if bool_decide (ex_status before = ExpenseVoid) then mret before
    else
      now ← st_gets db_now;
      _ ← updateExpenses (is_expense (ex_id before)) (with_status ExpenseVoid None now);
      after ← loadExpense (ex_id before);
      _ ← audit_append (expense_audit "accounting.expense.voided" (Some (ex_id before)) actor request);
      mret after).

Definition promoteToAcquisitionCost (expenseId acquisitionCostId : uuid) (reason : string)
    (actor request : option string) : run Expense :=
  let reason := Text.trim reason in
  _ ← st_lift (throw_if (String.eqb reason "") AccountingValidationError);
  transaction (
    before ← loadExpense expenseId;
    _ ← st_lift (throw_if (bool_decide (ex_status before = POSTED_STATUS)) ExpenseNotEditableError);
    _ ← st_lift (throw_if (bool_decide (ex_status before = ExpenseVoid)) ExpenseNotEditableError);
    now ← st_gets db_now;
    _ ← updateExpenses (is_expense (ex_id before))
          (with_status ExpenseVoid (Some acquisitionCostId) now);
    after ← loadExpense (ex_id before);
    _ ← audit_append (expense_audit "accounting.expense.promoted_to_acquisition_cost"
                        (Some (ex_id before)) actor request);
    mret after).

(** *** [reattributeDefaults] *)
Definition reattributed (economicEntityId : uuid) (now : Z) (e : Expense) : Expense :=
  {| ex_id := ex_id e; ex_economicEntityId := Some economicEntityId;
     ex_entityAttributionSource := AttrInstallationDefault;
     ex_entityAttributedAt := Some now;
     ex_entityAttributedByUserId := ex_entityAttributedByUserId e;
     ex_referenceCode := ex_referenceCode e; ex_expenseDate := ex_expenseDate e;
     ex_payeeName := ex_payeeName e; ex_payeeCounterpartyId := ex_payeeCounterpartyId e;
     ex_category := ex_category e; ex_description := ex_description e;
     ex_currency := ex_currency e; ex_amount := ex_amount e; ex_taxAmount := ex_taxAmount e;
     ex_paymentMethod := ex_paymentMethod e; ex_acquisitionCostId := ex_acquisitionCostId e;
     ex_accountingBookId := ex_accountingBookId e; ex_status := ex_status e;
     ex_reimbursable := ex_reimbursable e; ex_recurringGroupKey := ex_recurringGroupKey e;
     ex_notes := ex_notes e; ex_createdByUserId := ex_createdByUserId e;
     ex_createdAt := ex_createdAt e; ex_updatedAt := now |}.

Definition reattributable (economicEntityId : uuid) (from to : option date) (e : Expense) : bool :=
  bool_decide (ex_entityAttributionSource e ∈ REATTRIBUTABLE_SOURCES)
  && negb (opt_eqb (ex_economicEntityId e) economicEntityId)
  && match from with None => true | Some t => t <=? ex_expenseDate e end
  && match to with None => true | Some t => ex_expenseDate e <=? t end.

(** The shape of the bounds is checked before the transaction, the days by the
    statement. *)
Definition window_bound (t : option date) : run unit :=
  match t with None => mret tt | Some t => _ ← date_in t; mret tt end.

Definition reattributeDefaults (economicEntityId : uuid) (from to : option date)
    (actor request : option string) : run nat :=
  _ ← st_lift (throw_if (negb (match from with None => true | Some t => iso_shape t end))
                 AccountingValidationError);
  _ ← st_lift (throw_if (negb (match to with None => true | Some t => iso_shape t end))
                 AccountingValidationError);
  transaction (
    _ ← window_bound from;
    _ ← window_bound to;
    db ← st_get;
    let p := reattributable economicEntityId from to in
    let updated := length (List.filter p (db_expenses db)) in
    _ ← updateExpenses p (reattributed economicEntityId (db_now db));
    _ ← (if (0 <? updated)%nat
         then audit_append (expense_audit "accounting.expense.reattributed" None actor request)
         else mret tt);
    mret updated).

(** *** Allocations *)
Definition listAllocations (expenseId : uuid) : run (list ExpenseAllocation) :=
  st_gets (fun db => order_by ea_lineNumber (expense_allocations db expenseId)).

Definition setAllocations (expenseId : uuid) (allocations : list AllocationInput)
    (actor request : option string) : run (list ExpenseAllocation) :=
  transaction (
    expense ← loadExpense expenseId;
    _ ← st_lift (assertEditable expense);
    parsed ← st_lift (res_mapM allocationSchema allocations);
    allocated ← st_lift (sumDecimals (ai_amount <$> parsed));
    _ ← st_lift (assertFits (fromUnits (ex_amount expense)) allocated);
    _ ← deleteAllocations (fun a => bool_decide (ea_expenseId a = ex_id expense));
    rows ← insertAllocations expense parsed 1;
    _ ← st_lift (unallocatedRemainder (fromUnits (ex_amount expense)) allocated);
    _ ← audit_append (expense_audit "accounting.expense.allocations_set" (Some (ex_id expense)) actor request);
    mret rows).

Definition with_line (line : Z) (i : AllocationInput) : AllocationInput :=
  {| ai_lineNumber := Some line; ai_amount := ai_amount i;
     ai_economicEntityId := ai_economicEntityId i; ai_acquisitionId := ai_acquisitionId i;
     ai_catalogItemId := ai_catalogItemId i; ai_channel := ai_channel i;
     ai_ledgerAccountId := ai_ledgerAccountId i; ai_dimensionValueId := ai_dimensionValueId i;
     ai_note := ai_note i |}.

Definition addAllocation (expenseId : uuid) (input : AllocationInput) (actor request : option string)
    : run ExpenseAllocation :=
  transaction (
    expense ← loadExpense expenseId;
    _ ← st_lift (assertEditable expense);
    allocation ← st_lift (allocationSchema input);
    totals ← allocatedTotal (ex_id expense);
    allocated ← st_lift (sumDecimals [totals.1; ai_amount allocation]);
    _ ← st_lift (assertFits (fromUnits (ex_amount expense)) allocated);
    line ← match ai_lineNumber allocation with
           | Some n => mret n
           | None => nextLineNumber (ex_id expense)
           end;
    rows ← insertAllocations expense [with_line line allocation] line;
    row ← match rows with [] => st_throw AccountingConflictError | row :: _ => mret row end;
    _ ← audit_append (expense_audit "accounting.expense.allocation_added" (Some (ex_id expense)) actor request);
    mret row).

Definition removeAllocation (allocationId : uuid) (actor request : option string) : run unit :=
  transaction (
    db ← st_get;
    match find_id ea_id allocationId (db_allocations db) with
    | None => st_throw AccountingNotFoundError
    | Some row =>
        expense ← loadExpense (ea_expenseId row);
        _ ← st_lift (assertEditable expense);
        _ ← deleteAllocations (fun a => bool_decide (ea_id a = allocationId));
        audit_append (expense_audit "accounting.expense.allocation_removed" (Some (ex_id expense))
                        actor request)
    end).

Record AllocationSummary : Type := {
  as_expenseId : uuid;
  as_currency : string;
  as_amount : string;
  as_allocatedAmount : string;
  as_unallocatedAmount : string;
  as_allocationCount : nat;
  as_fullyAllocated : bool;
}.

Definition allocationSummary (expenseId : uuid) : run AllocationSummary :=
  expense ← loadExpense expenseId;
  totals ← allocatedTotal expenseId;
  unallocated ← st_lift (unallocatedRemainder (fromUnits (ex_amount expense)) totals.1);
  amount ← st_lift (toMoneyString (fromUnits (ex_amount expense)));
  c ← st_lift (compareDecimals unallocated ZERO);
  mret {| as_expenseId := ex_id expense; as_currency := ex_currency expense; as_amount := amount;
          as_allocatedAmount := totals.1; as_unallocatedAmount := unallocated;
          as_allocationCount := totals.2; as_fullyAllocated := c =? 0 |}.
