(* ===== verification/ExpenseLines.v ===== *)
(** * Expense lines

    [packages/accounting/src/lines.ts]: the lines of the receipt of an expense,
    under the over-transcription guard: their absolute amounts add up to at most
    the amount of the expense. *)
From S2P Require Import Prelude Decimal Calendar Inputs Store Schema Ledger LedgerFacts Facts.
From S2P Require Import Journal ExpenseTables Expenses.

Open Scope Z_scope.

(** ** Inputs *)
Record LineInput : Type := {
  ni_lineNumber : option Z;
  ni_description : option string;
  ni_quantity : option string;
  ni_unitAmount : option string;
  ni_lineAmount : string;
  ni_lineKind : option ExpenseLineKind;
  ni_unit : option string;
  ni_documentLineCandidateId : option uuid;
  ni_note : option string;
}.

(** [z.enum(EXPENSE_LINE_UNITS)] *)
Definition z_unit (u : string) : result string :=
  _ ← z_check (bool_decide (u ∈ EXPENSE_LINE_UNITS)); mret u.

Definition lineInputSchema (i : LineInput) : result LineInput :=
  line ← z_opt z_positive (ni_lineNumber i);
  description ← z_opt z_text (ni_description i);
  quantity ← z_opt z_decimal (ni_quantity i);
  unitAmount ← z_opt z_decimal (ni_unitAmount i);
  amount ← z_decimal (ni_lineAmount i);
  unit ← z_opt z_unit (ni_unit i);
  note ← z_opt z_text (ni_note i);
  mret {| ni_lineNumber := line; ni_description := description; ni_quantity := quantity;
          ni_unitAmount := unitAmount; ni_lineAmount := amount;
          ni_lineKind := Some (default KindItem (ni_lineKind i)); ni_unit := unit;
          ni_documentLineCandidateId := ni_documentLineCandidateId i; ni_note := note |}.

Record AddLineInput : Type := {
  nl_line : LineInput;
  nl_expenseId : uuid;
  nl_actorUserId : option string;
  nl_requestId : option string;
}.

Definition addLineSchema (i : AddLineInput) : result AddLineInput :=
  line ← lineInputSchema (nl_line i);
  actor ← z_user (nl_actorUserId i);
  request ← z_user (nl_requestId i);
  mret {| nl_line := line; nl_expenseId := nl_expenseId i; nl_actorUserId := actor;
          nl_requestId := request |}.

Record SetLinesInput : Type := {
  nt_expenseId : uuid;
  nt_lines : list LineInput;
  nt_actorUserId : option string;
  nt_requestId : option string;
}.

Definition setLinesSchema (i : SetLinesInput) : result SetLinesInput :=
  lines ← res_mapM lineInputSchema (nt_lines i);
  actor ← z_user (nt_actorUserId i);
  request ← z_user (nt_requestId i);
  mret {| nt_expenseId := nt_expenseId i; nt_lines := lines; nt_actorUserId := actor;
          nt_requestId := request |}.

(** ** Arithmetic *)
Definition absoluteLineTotal (lineAmounts : list string) : result string :=
  amounts ← res_mapM absDecimal lineAmounts;
  sumDecimals amounts.

Definition linesFit (expenseAmount absoluteTotal : string) : result bool :=
  bound ← absDecimal expenseAmount;
  c ← compareDecimals absoluteTotal bound;
  mret (c <=? 0).

(** ** Helpers *)

(** The columns of one row, over its stored amounts. *)
Definition expense_line_row (expenseId : uuid) (lineNumber : Z) (line : LineInput)
    (quantity unitAmount : option Z) (amount : Z) (id : uuid) (now : Z) : ExpenseLine :=
  {| el_id := id; el_expenseId := expenseId; el_lineNumber := lineNumber;
     el_description := ni_description line; el_quantity := quantity; el_unitAmount := unitAmount;
     el_lineAmount := amount; el_lineKind := default KindItem (ni_lineKind line);
     el_unit := ni_unit line; el_documentLineCandidateId := ni_documentLineCandidateId line;
     el_note := ni_note line; el_createdAt := now; el_updatedAt := now |}.

Definition insertExpenseLine (expenseId : uuid) (lineNumber : Z) (line : LineInput)
    (lineAmount : string) : run ExpenseLine :=
  quantity ← numeric_in_opt (ni_quantity line);
  unitAmount ← numeric_in_opt (ni_unitAmount line);
  amount ← numeric_in lineAmount;
  insertExpenseLineRow (expense_line_row expenseId lineNumber line quantity unitAmount amount).

(** The insert without checks; its callers check before. *)
Definition insertExpenseLinesRaw (expenseId : uuid) (lines : list LineInput) (startingLine : Z)
    : run (list ExpenseLine) :=
  values ← st_lift (res_mapM (fun '(index, line) =>
      amount ← toMoneyString (ni_lineAmount line);
      mret (default (startingLine + Z.of_nat index) (ni_lineNumber line), line, amount))
    (imap pair lines));
  st_mapM (fun '(lineNumber, line, amount) => insertExpenseLine expenseId lineNumber line amount) values.

Definition loadExpenseForLines (expenseId : uuid) : run Expense := loadExpense expenseId.

Definition assertDraft (expense : Expense) : result unit :=
  throw_if (bool_decide (ex_status expense <> ExpenseDraft)) ExpenseNotEditableError.

Definition existingLineAmounts (expenseId : uuid) : run (list string) :=
  st_gets (fun db => (fun l => fromUnits (el_lineAmount l)) <$> expense_lines db expenseId).

Definition nextLineNumber (expenseId : uuid) : run Z :=
  st_gets (fun db => foldr Z.max 0 (el_lineNumber <$> expense_lines db expenseId) + 1).

Definition assertFits (expense : Expense) (absoluteTotal : string) : result unit :=
  fits ← linesFit (fromUnits (ex_amount expense)) absoluteTotal;
  throw_if (negb fits) ExpenseLinesOverTranscribedError.

(** ** The service *)
Definition listLines (expenseId : uuid) : run (list ExpenseLine) :=
  st_gets (fun db => order_by el_lineNumber (expense_lines db expenseId)).

Definition numbered (lineNumber : Z) (i : LineInput) : LineInput :=
  {| ni_lineNumber := Some lineNumber; ni_description := ni_description i;
     ni_quantity := ni_quantity i; ni_unitAmount := ni_unitAmount i;
     ni_lineAmount := ni_lineAmount i; ni_lineKind := ni_lineKind i; ni_unit := ni_unit i;
     ni_documentLineCandidateId := ni_documentLineCandidateId i; ni_note := ni_note i |}.

Definition addLine_body (value : AddLineInput) : run ExpenseLine :=
  expense ← loadExpenseForLines (nl_expenseId value);
  _ ← st_lift (assertDraft expense);
  existing ← existingLineAmounts (nl_expenseId value);
  absoluteTotal ← st_lift (absoluteLineTotal (existing ++ [ni_lineAmount (nl_line value)]));
  _ ← st_lift (assertFits expense absoluteTotal);
  lineNumber ← match ni_lineNumber (nl_line value) with
               | Some n => mret n
               | None => nextLineNumber (nl_expenseId value)
               end;
  rows ← insertExpenseLinesRaw (nl_expenseId value) [numbered lineNumber (nl_line value)] lineNumber;
  row ← match rows with [] => st_throw AccountingConflictError | row :: _ => mret row end;
  _ ← audit_append (expense_audit "accounting.expense.line_added" (Some (nl_expenseId value))
                      (nl_actorUserId value) (nl_requestId value));
  mret row.

Definition addLine (input : AddLineInput) : run ExpenseLine :=
  value ← st_lift (addLineSchema input);
  transaction (addLine_body value).

Definition removeLine (lineId : uuid) (actor request : option string) : run unit :=
  transaction (
    db ← st_get;
    match find_id el_id lineId (db_expense_lines db) with
    | None => st_throw AccountingNotFoundError
    | Some row =>
        expense ← loadExpenseForLines (el_expenseId row);
        _ ← st_lift (assertDraft expense);
        _ ← deleteExpenseLines (fun l => bool_decide (el_id l = lineId));
        audit_append (expense_audit "accounting.expense.line_removed" (Some (ex_id expense)) actor request)
    end).

Definition setLines_body (value : SetLinesInput) : run (list ExpenseLine) :=
  expense ← loadExpenseForLines (nt_expenseId value);
  _ ← st_lift (assertDraft expense);
  absoluteTotal ← st_lift (absoluteLineTotal (ni_lineAmount <$> nt_lines value));
  _ ← st_lift (assertFits expense absoluteTotal);
  _ ← deleteExpenseLines (fun l => bool_decide (el_expenseId l = nt_expenseId value));
  rows ← insertExpenseLinesRaw (nt_expenseId value) (nt_lines value) 1;
  _ ← audit_append (expense_audit "accounting.expense.lines_set" (Some (nt_expenseId value))
                      (nt_actorUserId value) (nt_requestId value));
  mret rows.

Definition setLines (input : SetLinesInput) : run (list ExpenseLine) :=
  value ← st_lift (setLinesSchema input);
  transaction (setLines_body value).

Record ExpenseLineSummary : Type := {
  ls_expenseId : uuid;
  ls_currency : string;
  ls_expenseAmount : string;
  ls_absoluteLineTotal : string;
  ls_lineCount : nat;
  ls_fitsWithinExpense : bool;
}.

Definition lineSummary (expenseId : uuid) : run ExpenseLineSummary :=
  expense ← loadExpenseForLines expenseId;
  amounts ← existingLineAmounts expenseId;
  total ← st_lift (absoluteLineTotal amounts);
  amount ← st_lift (toMoneyString (fromUnits (ex_amount expense)));
  fits ← st_lift (linesFit (fromUnits (ex_amount expense)) total);
  mret {| ls_expenseId := ex_id expense; ls_currency := ex_currency expense;
          ls_expenseAmount := amount; ls_absoluteLineTotal := total;
          ls_lineCount := length amounts; ls_fitsWithinExpense := fits |}.
