(* ===== verification/ExpenseMachine.v ===== *)
(** * What the expense services do to their tables

    An abstract machine on the three tables of the expenses, its invariants, and
    the refinement: every call of [expenses.ts] and [lines.ts] is at most one move
    of the machine.  From it: the evidence of a recorded expense is never
    altered, and the allocations and lines of an expense stay within its amount,
    except for the two calls whose guards do not see to it. *)
From S2P Require Import Prelude Decimal Calendar Inputs Store Schema Ledger LedgerFacts Facts.
From S2P Require Import Journal ExpenseTables Expenses ExpenseLines.

Open Scope Z_scope.

(** ** States *)
Record ExpenseState : Type := {
  xs_expenses : list Expense;
  xs_allocations : list ExpenseAllocation;
  xs_lines : list ExpenseLine;
}.
Definition expense_state (db : Db) : ExpenseState :=
  {| xs_expenses := db_expenses db; xs_allocations := db_allocations db;
     xs_lines := db_expense_lines db |}.

(** A total that is a split of the amount: between zero and the amount. *)
Definition within (amount total : Z) : bool :=
  if amount <? 0 then (amount <=? total) && (total <=? 0) else (0 <=? total) && (total <=? amount).

Definition allocated (rows : list ExpenseAllocation) (id : uuid) : Z :=
  sumZ (ea_amount <$> List.filter (fun a => bool_decide (ea_expenseId a = id)) rows).
Definition transcribed (rows : list ExpenseLine) (id : uuid) : Z :=
  sumZ ((fun l => Z.abs (el_lineAmount l)) <$> List.filter (fun l => bool_decide (el_expenseId l = id)) rows).

(** ** Rows over time *)

(** draft, recorded, void; posted is a state no call enters or leaves. *)
Definition status_moves (a b : ExpenseStatus) : bool :=
  match a, b with
  | ExpenseDraft, (ExpenseDraft | ExpenseRecorded | ExpenseVoid)
  | ExpenseRecorded, (ExpenseRecorded | ExpenseVoid)
  | ExpensePosted, ExpensePosted | ExpenseVoid, ExpenseVoid => true
  | _, _ => false
  end.

(** What an expense is evidence of. *)
Definition evidence (e : Expense) :=
  (ex_expenseDate e, ex_category e, ex_description e, ex_currency e, ex_amount e, ex_taxAmount e,
   ex_paymentMethod e, ex_reimbursable e, ex_recurringGroupKey e, ex_notes e).
Definition origin (e : Expense) :=
  (ex_id e, ex_referenceCode e, ex_accountingBookId e, ex_createdByUserId e, ex_createdAt e).
Definition attribution (e : Expense) :=
  (ex_economicEntityId e, ex_entityAttributionSource e, ex_entityAttributedAt e,
   ex_entityAttributedByUserId e).
Definition payee (e : Expense) := (ex_payeeName e, ex_payeeCounterpartyId e).

Record row_kept (e e' : Expense) : Prop := {
  rk_origin : origin e' = origin e;
  rk_status : status_moves (ex_status e) (ex_status e') = true;
  rk_evidence : ex_status e <> ExpenseDraft -> evidence e' = evidence e;
  rk_void : ex_status e = ExpenseVoid ->
    payee e' = payee e /\ ex_acquisitionCostId e' = ex_acquisitionCostId e;
  rk_manual : ex_entityAttributionSource e = AttrManual -> attribution e' = attribution e;
}.
#[export] Instance row_kept_preorder : PreOrder row_kept.
Proof.
  split.
  - intros e. split; try done. by destruct (ex_status e).
  - intros e f g [O1 S1 E1 V1 M1] [O2 S2 E2 V2 M2]. split.
    + by rewrite O2.
    + by destruct (ex_status e), (ex_status f), (ex_status g).
    + intros H. rewrite <- (E1 H). apply E2. intros F. rewrite F in S1. by destruct (ex_status e).
    + intros H. destruct (V1 H) as [P1 C1]. rewrite H in S1.
      destruct V2 as [P2 C2]; [by destruct (ex_status f)|]. by rewrite P2, C2.
    + intros H. rewrite <- (M1 H). apply M2. specialize (M1 H). unfold attribution in M1.
      injection M1 as _ -> _ _. done.
Qed.

(** ** Moves *)
Definition allocation_key (a : ExpenseAllocation) := (ea_expenseId a, ea_lineNumber a).
Definition expense_line_key (l : ExpenseLine) := (el_expenseId l, el_lineNumber l).

Record new_rows {A K} (id key_id : A -> uuid) (key : A -> K) (expense : uuid) (kept rows : list A)
    : Prop := {
  nr_owner : Forall (fun r => key_id r = expense) rows;
  nr_ids : NoDup (id <$> kept) -> NoDup (id <$> kept ++ rows);
  nr_keys : NoDup (key <$> kept) -> NoDup (key <$> kept ++ rows);
}.
Definition new_allocations := new_rows ea_id ea_expenseId allocation_key.
Definition new_lines := new_rows el_id el_expenseId expense_line_key.

(** The rows a call keeps: all, or all but those of one expense. *)
Definition kept_rows {A} (key_id : A -> uuid) (replace : bool) (expense : uuid) (rows : list A) : list A :=
  if replace then List.filter (fun r => negb (bool_decide (key_id r = expense))) rows else rows.

(** The kinds of moves; [Mark] changes a row without touching its amount. *)
Inductive move : Type := Create | Edit | Mark | Allocate | Deallocate | Transcribe | Untranscribe.

Inductive expense_move (s : ExpenseState) : move -> ExpenseState -> Prop :=
  | move_idle m : expense_move s m s
  | move_create e rows :
      ex_id e ∉ (ex_id <$> xs_expenses s) -> ex_referenceCode e ∉ (ex_referenceCode <$> xs_expenses s) ->
      ex_amount e <> 0 -> ex_status e = ExpenseDraft \/ ex_status e = ExpenseRecorded ->
      new_allocations (ex_id e) (xs_allocations s) rows ->
      within (ex_amount e) (sumZ (ea_amount <$> rows)) = true ->
      expense_move s Create {| xs_expenses := xs_expenses s ++ [e]; xs_allocations := xs_allocations s ++ rows;
                        xs_lines := xs_lines s |}
  | move_update m f :
      m = Edit \/ m = Mark ->
      (forall e, e ∈ xs_expenses s -> row_kept e (f e)) ->
      (forall e, e ∈ xs_expenses s -> ex_amount (f e) = ex_amount e \/
         m = Edit /\ ex_amount (f e) <> 0 /\ within (ex_amount (f e)) (allocated (xs_allocations s) (ex_id e)) = true) ->
      expense_move s m {| xs_expenses := f <$> xs_expenses s; xs_allocations := xs_allocations s;
                        xs_lines := xs_lines s |}
  | move_allocate e replace rows :
      e ∈ xs_expenses s -> ex_status e = ExpenseDraft ->
      let kept := kept_rows ea_expenseId replace (ex_id e) (xs_allocations s) in
      new_allocations (ex_id e) kept rows ->
      within (ex_amount e) (allocated (kept ++ rows) (ex_id e)) = true ->
      expense_move s Allocate {| xs_expenses := xs_expenses s; xs_allocations := kept ++ rows;
                        xs_lines := xs_lines s |}
  | move_deallocate e a :
      e ∈ xs_expenses s -> ex_status e = ExpenseDraft -> a ∈ xs_allocations s ->
      ea_expenseId a = ex_id e ->
      expense_move s Deallocate {| xs_expenses := xs_expenses s;
                        xs_allocations := List.filter (fun r => negb (bool_decide (ea_id r = ea_id a)))
                                            (xs_allocations s);
                        xs_lines := xs_lines s |}
  | move_transcribe e replace rows :
      e ∈ xs_expenses s -> ex_status e = ExpenseDraft ->
      let kept := kept_rows el_expenseId replace (ex_id e) (xs_lines s) in
      new_lines (ex_id e) kept rows ->
      transcribed (kept ++ rows) (ex_id e) <= Z.abs (ex_amount e) ->
      expense_move s Transcribe {| xs_expenses := xs_expenses s; xs_allocations := xs_allocations s;
                        xs_lines := kept ++ rows |}
  | move_untranscribe e l :
      e ∈ xs_expenses s -> ex_status e = ExpenseDraft -> l ∈ xs_lines s -> el_expenseId l = ex_id e ->
      expense_move s Untranscribe {| xs_expenses := xs_expenses s; xs_allocations := xs_allocations s;
                        xs_lines := List.filter (fun r => negb (bool_decide (el_id r = el_id l)))
                                      (xs_lines s) |}.

(** ** Invariants of the tables *)
Record tables_ok (s : ExpenseState) : Prop := {
  to_ids : NoDup (ex_id <$> xs_expenses s);
  to_codes : NoDup (ex_referenceCode <$> xs_expenses s);
  to_amounts : Forall (fun e => ex_amount e <> 0) (xs_expenses s);
  to_allocation_ids : NoDup (ea_id <$> xs_allocations s);
  to_allocation_keys : NoDup (allocation_key <$> xs_allocations s);
  to_allocation_owner : Forall (fun a => ea_expenseId a ∈ (ex_id <$> xs_expenses s)) (xs_allocations s);
  to_line_ids : NoDup (el_id <$> xs_lines s);
  to_line_keys : NoDup (expense_line_key <$> xs_lines s);
  to_line_owner : Forall (fun l => el_expenseId l ∈ (ex_id <$> xs_expenses s)) (xs_lines s);
}.

Lemma kept_rows_sublist {A} (key_id : A -> uuid) replace id (rows : list A) :
  kept_rows key_id replace id rows `sublist_of` rows.
Proof. destruct replace; [apply bool_filter_sublist|reflexivity]. Qed.

Lemma Forall_sublist {A} (P : A -> Prop) k l : k `sublist_of` l -> Forall P l -> Forall P k.
Proof. rewrite !Forall_forall. intros Hs H x Hx. apply H. by eapply sublist_subseteq. Qed.

(** Rows of an expense appended to some of the old rows keep the keys unique. *)
Lemma new_rows_ok {A K} (id key_id : A -> uuid) (key : A -> K) owner kept rows old (ids : list uuid) :
  new_rows id key_id key owner kept rows -> kept `sublist_of` old -> owner ∈ ids ->
  NoDup (id <$> old) -> NoDup (key <$> old) -> Forall (fun r => key_id r ∈ ids) old ->
  NoDup (id <$> kept ++ rows) /\ NoDup (key <$> kept ++ rows) /\
  Forall (fun r => key_id r ∈ ids) (kept ++ rows).
Proof.
  intros [Ho Hi Hk] Hs Hin Hni Hnk Hf. split; [|split].
  - apply Hi. by eapply NoDup_fmap_sublist.
  - apply Hk. by eapply NoDup_fmap_sublist.
  - apply Forall_app. split; [by eapply Forall_sublist|].
    eapply Forall_impl; [exact Ho|]. by intros r ->.
Qed.

Lemma tables_ok_move s m s' : tables_ok s -> expense_move s m s' -> tables_ok s'.
Proof.
  intros Hok Hm. pose proof Hok as [].
  destruct Hm as [m|e rows Hi Hc Ha _ Hr _|m f _ Hf Ha|e replace rows He _ kept Hr _|e a He _ Hin _
    |e replace rows He _ kept Hr _|e l He _ Hin _]; cbn; [done|..].
  - destruct (new_rows_ok _ _ _ _ _ _ (xs_allocations s) (ex_id <$> xs_expenses s ++ [e]) Hr) as (H1 & H2 & H3);
      [done|set_solver|done|done| |].
    { eapply Forall_impl; [exact to_allocation_owner0|]. intros r. rewrite fmap_app. set_solver. }
    split; cbn; try done; [by apply NoDup_keys_snoc..|apply Forall_app; split; [done|by constructor]|].
    eapply Forall_impl; [exact to_line_owner0|]. intros r. rewrite fmap_app. set_solver.
  - assert (ex_id <$> (f <$> xs_expenses s) = ex_id <$> xs_expenses s) as Ei.
    { rewrite <- list_fmap_compose. apply list_fmap_ext. intros i x Hx%list_elem_of_lookup_2.
      pose proof (rk_origin _ _ (Hf x Hx)) as E. by injection E. }
    assert (ex_referenceCode <$> (f <$> xs_expenses s) = ex_referenceCode <$> xs_expenses s) as Ec.
    { rewrite <- list_fmap_compose. apply list_fmap_ext. intros i x Hx%list_elem_of_lookup_2.
      pose proof (rk_origin _ _ (Hf x Hx)) as E. by injection E. }
    split; cbn; rewrite ?Ei, ?Ec; try done.
    rewrite Forall_fmap, Forall_forall in *. intros x Hx. cbn.
    destruct (Ha x Hx) as [->|(_ & ? & _)]; [by apply to_amounts0|done].
  - destruct (new_rows_ok _ _ _ _ _ _ (xs_allocations s) (ex_id <$> xs_expenses s) Hr) as (H1 & H2 & H3);
      [apply kept_rows_sublist|by apply list_elem_of_fmap_2|done..|]. by split.
  - split; cbn; try done; [eapply NoDup_fmap_sublist; [apply bool_filter_sublist|done]..|].
    eapply Forall_sublist; [apply bool_filter_sublist|done].
  - destruct (new_rows_ok _ _ _ _ _ _ (xs_lines s) (ex_id <$> xs_expenses s) Hr) as (H1 & H2 & H3);
      [apply kept_rows_sublist|by apply list_elem_of_fmap_2|done..|]. by split.
  - split; cbn; try done; [eapply NoDup_fmap_sublist; [apply bool_filter_sublist|done]..|].
    eapply Forall_sublist; [apply bool_filter_sublist|done].
Qed.

(** ** Evidence is kept *)
Definition allocations_of (s : ExpenseState) (id : uuid) : list ExpenseAllocation :=
  List.filter (fun a => bool_decide (ea_expenseId a = id)) (xs_allocations s).
Definition lines_of (s : ExpenseState) (id : uuid) : list ExpenseLine :=
  List.filter (fun l => bool_decide (el_expenseId l = id)) (xs_lines s).

(** No expense is lost; each row moves as a row may; and what a recorded, posted
    or void expense is split and itemised into stays. *)
Definition evidence_kept (s s' : ExpenseState) : Prop :=
  forall e, e ∈ xs_expenses s -> exists e', e' ∈ xs_expenses s' /\ row_kept e e' /\
    (ex_status e <> ExpenseDraft -> allocations_of s' (ex_id e) = allocations_of s (ex_id e) /\
       lines_of s' (ex_id e) = lines_of s (ex_id e)).

Lemma row_kept_id e e' : row_kept e e' -> ex_id e' = ex_id e.
Proof. intros H. pose proof (rk_origin _ _ H) as E. by injection E. Qed.
Lemma row_kept_draft e e' : row_kept e e' -> ex_status e <> ExpenseDraft -> ex_status e' <> ExpenseDraft.
Proof. intros H Hd E. pose proof (rk_status _ _ H) as Hs. rewrite E in Hs. by destruct (ex_status e). Qed.

#[export] Instance evidence_kept_preorder : PreOrder evidence_kept.
Proof.
  split.
  - intros s e He. exists e. split; [done|]. split; [reflexivity|done].
  - intros s t u H1 H2 e He. destruct (H1 e He) as (f & Hf & Kf & Rf), (H2 f Hf) as (g & Hg & Kg & Rg).
    exists g. split; [done|]. split; [by etrans|]. intros Hd. destruct (Rf Hd) as [A1 L1].
    destruct (Rg (row_kept_draft _ _ Kf Hd)) as [A2 L2]. rewrite (row_kept_id _ _ Kf) in A2, L2.
    by rewrite A2, L2.
Qed.

Lemma filter_app_other {A} (p : A -> bool) l k :
  (forall x, x ∈ k -> p x = false) -> List.filter p (l ++ k) = List.filter p l.
Proof.
  intros H. rewrite List.filter_app. replace (List.filter p k) with (@nil A); [apply app_nil_r|].
  induction k as [|x k IH]; [done|]. cbn. rewrite (H x) by set_solver. apply IH.
  intros y Hy. apply H. set_solver.
Qed.

Lemma filter_filter_other {A} (p q : A -> bool) l :
  (forall x, x ∈ l -> p x = true -> q x = true) -> List.filter p (List.filter q l) = List.filter p l.
Proof.
  induction l as [|x l IH]; intros H; [done|]. cbn.
  destruct (q x) eqn:Eq; cbn; (destruct (p x) eqn:Ep; cbn; rewrite IH by (intros y Hy; apply H; set_solver)); try done.
  by rewrite (H x) in Eq by set_solver.
Qed.

(** Rows of one expense, replaced or added, leave those of another alone. *)
Lemma other_rows_kept {A} (key_id : A -> uuid) replace owner id rows new :
  id <> owner -> Forall (fun r => key_id r = owner) new ->
  List.filter (fun r => bool_decide (key_id r = id)) (kept_rows key_id replace owner rows ++ new)
  = List.filter (fun r => bool_decide (key_id r = id)) rows.
Proof.
  rewrite Forall_forall. intros Hne Hn. rewrite filter_app_other.
  - destruct replace; [|done]. apply filter_filter_other. intros x _ Hx%bool_decide_eq_true.
    apply negb_true_iff, bool_decide_eq_false. congruence.
  - intros x Hx. apply bool_decide_eq_false. rewrite (Hn x Hx). congruence.
Qed.

(** Taking a row of one expense out leaves those of another alone. *)
Lemma other_rows_without {A} (id key_id : A -> uuid) a other rows :
  NoDup (id <$> rows) -> a ∈ rows -> other <> key_id a ->
  List.filter (fun r => bool_decide (key_id r = other))
    (List.filter (fun r => negb (bool_decide (id r = id a))) rows)
  = List.filter (fun r => bool_decide (key_id r = other)) rows.
Proof.
  intros Hn Ha Hne. apply filter_filter_other. intros x Hx Hk%bool_decide_eq_true.
  apply negb_true_iff, bool_decide_eq_false. intros E.
  assert (x = a) as -> by (by eapply (NoDup_keys_inj id)). congruence.
Qed.

Lemma other_expense s e f :
  tables_ok s -> e ∈ xs_expenses s -> f ∈ xs_expenses s -> ex_status f = ExpenseDraft ->
  ex_status e <> ExpenseDraft -> ex_id e <> ex_id f.
Proof.
  intros Hok He Hf Hs Hd E. apply Hd.
  by assert (e = f) as -> by (eapply (NoDup_keys_inj ex_id); [apply Hok|done..]).
Qed.

Lemma move_keeps_evidence s m s' : tables_ok s -> expense_move s m s' -> evidence_kept s s'.
Proof.
  intros Hok Hm. destruct Hm as [m|f rows Hi Hc Ha Hs Hr _|m f _ Hf Ha|f replace rows Hf Hs kept Hr _
    |f a Hf Hs Hin Ho|f replace rows Hf Hs kept Hr _|f l Hf Hs Hin Ho]; [reflexivity|..];
    intros e He; [| |exists e; split; [done|]; split; [reflexivity|]; intros Hd;
      pose proof (other_expense _ _ _ Hok He Hf Hs Hd) as Hne..].
  - exists e. split; [cbn; set_solver|]. split; [reflexivity|]. intros _. split; [|done].
    unfold allocations_of. cbn. apply filter_app_other. intros a Hin. apply bool_decide_eq_false.
    pose proof (nr_owner _ _ _ _ _ _ Hr) as Ho. rewrite Forall_forall in Ho. rewrite (Ho a Hin). intros E.
    apply Hi. rewrite E. by apply list_elem_of_fmap_2.
  - exists (f e). split; [cbn; by apply list_elem_of_fmap_2|]. split; [by apply Hf|]. done.
  - split; [|done]. apply other_rows_kept; [done|apply Hr].
  - split; [|done]. apply (other_rows_without ea_id ea_expenseId); [apply Hok|done|congruence].
  - split; [done|]. apply other_rows_kept; [done|apply Hr].
  - split; [done|]. apply (other_rows_without el_id el_expenseId); [apply Hok|done|congruence].
Qed.

(** ** Totals stay within the amounts *)
Definition allocations_fit (s : ExpenseState) : Prop :=
  forall e, e ∈ xs_expenses s -> within (ex_amount e) (allocated (xs_allocations s) (ex_id e)) = true.
Definition lines_fit (s : ExpenseState) : Prop :=
  forall e, e ∈ xs_expenses s -> transcribed (xs_lines s) (ex_id e) <= Z.abs (ex_amount e).

Lemma allocated_fresh s id :
  tables_ok s -> id ∉ (ex_id <$> xs_expenses s) -> allocated (xs_allocations s) id = 0.
Proof.
  intros Hok Hi. unfold allocated.
  pose proof (to_allocation_owner _ Hok) as Ho. rewrite Forall_forall in Ho.
  rewrite <- (app_nil_l (xs_allocations s)), filter_app_other; [done|].
  intros a Ha. apply bool_decide_eq_false. intros E. apply Hi. rewrite <- E. by apply Ho.
Qed.

Lemma transcribed_fresh s id :
  tables_ok s -> id ∉ (ex_id <$> xs_expenses s) -> transcribed (xs_lines s) id = 0.
Proof.
  intros Hok Hi. unfold transcribed.
  pose proof (to_line_owner _ Hok) as Ho. rewrite Forall_forall in Ho.
  rewrite <- (app_nil_l (xs_lines s)), filter_app_other; [done|].
  intros l Hl. apply bool_decide_eq_false. intros E. apply Hi. rewrite <- E. by apply Ho.
Qed.

Lemma allocated_app rows new id : allocated (rows ++ new) id = allocated rows id + allocated new id.
Proof. unfold allocated. by rewrite List.filter_app, fmap_app, sumZ_app. Qed.

Lemma filter_all {A} (p : A -> bool) l : Forall (fun x => p x = true) l -> List.filter p l = l.
Proof. induction 1 as [|x l Hx _ IH]; [done|]. cbn. by rewrite Hx, IH. Qed.

Lemma allocated_own id rows :
  Forall (fun a => ea_expenseId a = id) rows -> allocated rows id = sumZ (ea_amount <$> rows).
Proof.
  intros H. unfold allocated. rewrite filter_all; [done|]. eapply Forall_impl; [exact H|].
  intros a Ha. by apply bool_decide_eq_true.
Qed.

Lemma allocations_fit_move s m s' :
  tables_ok s -> expense_move s m s' -> m <> Deallocate -> allocations_fit s -> allocations_fit s'.
Proof.
  intros Hok Hm Hd Hfit. destruct Hm as [m|f rows Hi Hc Ha Hs Hr Hw|m f _ Hf Ha|f replace rows Hf Hs kept Hr Hw
    |f a Hf Hs Hin Ho|f replace rows Hf Hs kept Hr _|f l Hf Hs Hin Ho]; intros e He;
    cbn [xs_expenses xs_allocations xs_lines] in *; try done;
    try (by apply Hfit).
  - rewrite allocated_app. apply elem_of_app in He as [He|He%list_elem_of_singleton].
    + unfold allocated at 2. rewrite <- (app_nil_l rows), filter_app_other; [cbn; rewrite Z.add_0_r; by apply Hfit|].
      intros a Hin. apply bool_decide_eq_false. pose proof (nr_owner _ _ _ _ _ _ Hr) as Ho.
      rewrite Forall_forall in Ho. rewrite (Ho a Hin). intros E. apply Hi. rewrite E.
      by apply list_elem_of_fmap_2.
    + subst e. rewrite (allocated_fresh s) by done. rewrite allocated_own by apply Hr. done.
  - apply list_elem_of_fmap in He as (x & -> & Hx). rewrite (row_kept_id _ _ (Hf x Hx)).
    destruct (Ha x Hx) as [->|(_ & _ & Hw)]; [by apply Hfit|done].
  - destruct (decide (ex_id e = ex_id f)) as [E|Hne].
    + by assert (e = f) as -> by (eapply (NoDup_keys_inj ex_id); [apply Hok|done..]).
    + unfold allocated, kept. rewrite other_rows_kept; [by apply Hfit|done|apply Hr].
Qed.

Lemma transcribed_sublist k l id : k `sublist_of` l -> transcribed k id <= transcribed l id.
Proof.
  intros H. unfold transcribed. apply sumZ_sublist; [lia|].
  induction H as [|x k l H IH|x k l H IH]; cbn; [constructor|by case_bool_decide; [constructor|]|].
  case_bool_decide; [by constructor|done].
Qed.

Lemma lines_fit_move s m s' :
  tables_ok s -> expense_move s m s' -> m <> Edit -> lines_fit s -> lines_fit s'.
Proof.
  intros Hok Hm Hd Hfit. destruct Hm as [m|f rows Hi Hc Ha Hs Hr Hw|m f _ Hf Ha|f replace rows Hf Hs kept Hr Hw
    |f a Hf Hs Hin Ho|f replace rows Hf Hs kept Hr Hw|f l Hf Hs Hin Ho]; intros e He;
    cbn [xs_expenses xs_allocations xs_lines] in *; try (by apply Hfit).
  - apply elem_of_app in He as [He|He%list_elem_of_singleton]; [by apply Hfit|].
    subst e. rewrite (transcribed_fresh s) by done. lia.
  - apply list_elem_of_fmap in He as (x & -> & Hx). rewrite (row_kept_id _ _ (Hf x Hx)).
    destruct (Ha x Hx) as [->|(? & _)]; [by apply Hfit|done].
  - destruct (decide (ex_id e = ex_id f)) as [E|Hne].
    + by assert (e = f) as -> by (eapply (NoDup_keys_inj ex_id); [apply Hok|done..]).
    + unfold transcribed, kept. rewrite other_rows_kept; [by apply Hfit|done|apply Hr].
  - etrans; [|by apply Hfit]. apply transcribed_sublist, bool_filter_sublist.
Qed.
