(* ===== verification/ExpenseRefinement.v ===== *)
(** * The expense services refine the expense machine

    Every call of the services is a move of [ExpenseMachine] under that move's guard, and
    leaves the tables of the ledger alone. *)
From S2P Require Import Prelude Decimal Calendar Inputs Store Schema Ledger LedgerFacts Journal Facts.
From S2P Require Import ExpenseTables Expenses ExpenseLines ExpenseMachine.

Open Scope Z_scope.

(** ** Arithmetic of the guards *)
Lemma allocationsFit_units a b u v :
  toUnits a = Ok u -> toUnits b = Ok v -> allocationsFit a b = Ok (within u v).
Proof.
  intros Ha Hb. unfold allocationsFit, within. rewrite (isNegative_units _ _ Ha). cbn.
  rewrite (compareDecimals_units _ _ _ _ Hb toUnits_ZERO), (compareDecimals_units _ _ _ _ Hb Ha).
  destruct (Z.ltb_spec u 0), (Z.eqb_spec v 0), (Z.ltb_spec v 0), (Z.eqb_spec v u), (Z.ltb_spec v u);
    cbn; f_equal; (destruct (Z.leb_spec u v), (Z.leb_spec v u), (Z.leb_spec v 0), (Z.leb_spec 0 v)); cbn; lia || done.
Qed.

Lemma linesFit_units a b u v :
  toUnits a = Ok u -> toUnits b = Ok v -> linesFit a b = Ok (v <=? Z.abs u).
Proof.
  intros Ha Hb. unfold linesFit. rewrite (absDecimal_units _ _ Ha). cbn.
  rewrite (compareDecimals_units _ _ _ _ Hb (toUnits_fromUnits _)). cbn. f_equal.
  destruct (Z.eqb_spec v (Z.abs u)), (Z.ltb_spec v (Z.abs u)), (Z.leb_spec v (Z.abs u)); cbn; lia || done.
Qed.

Lemma toMoneyString_ok a m : toMoneyString a = Ok m -> exists u, toUnits a = Ok u /\ m = fromUnits u.
Proof. unfold toMoneyString. rewrite bind_Ok. intros (u & Hu & [= <-]). by exists u. Qed.

Lemma absoluteLineTotal_units values us :
  Forall2 (fun v u => toUnits v = Ok u) values us ->
  absoluteLineTotal values = Ok (fromUnits (sumZ (Z.abs <$> us))).
Proof.
  intros H. unfold absoluteLineTotal.
  assert (res_mapM absDecimal values = Ok ((fun u => fromUnits (Z.abs u)) <$> us)) as ->.
  { apply res_mapM_Forall2. rewrite Forall2_fmap_r. eapply Forall2_impl; [exact H|].
    intros v u Hv. by apply absDecimal_units. }
  cbn. apply sumDecimals_units. rewrite Forall2_fmap. apply Forall_Forall2_diag.
  apply Forall_forall. intros u _. apply toUnits_fromUnits.
Qed.

Lemma absoluteLineTotal_ok values s :
  absoluteLineTotal values = Ok s ->
  exists us, Forall2 (fun v u => toUnits v = Ok u) values us /\ s = fromUnits (sumZ (Z.abs <$> us)).
Proof.
  intros H. pose proof H as H'. unfold absoluteLineTotal in H. apply bind_Ok in H as (ks & Hk & _).
  apply res_mapM_Forall2 in Hk.
  assert (exists us, Forall2 (fun v u => toUnits v = Ok u) values us) as [us Hus].
  { clear H'. induction Hk as [|v k vs ks Hv _ [us Hus]]; [by exists []|].
    unfold absDecimal in Hv. apply bind_Ok in Hv as (u & Hu & _). exists (u :: us). by constructor. }
  exists us. split; [done|]. rewrite (absoluteLineTotal_units _ us) in H' by done. by injection H'.
Qed.

(** The texts of stored amounts. *)
Lemma stored_units {A} (f : A -> Z) rows us :
  Forall2 (fun v u => toUnits v = Ok u) ((fun r => fromUnits (f r)) <$> rows) us -> us = f <$> rows.
Proof.
  rewrite Forall2_fmap_l. induction 1 as [|r u rows us Hr _ IH]; [done|].
  unfold compose in Hr. rewrite toUnits_fromUnits in Hr. injection Hr as <-. by rewrite IH.
Qed.

Lemma Forall2_imap_pair {A B} (P : A -> B -> Prop) (l : list A) k :
  Forall2 (fun p v => P p.2 v) (imap pair l) k -> Forall2 P l k.
Proof.
  rewrite !Forall2_lookup. intros H i. specialize (H i). rewrite list_lookup_imap in H.
  destruct (l !! i), (k !! i); cbn in H; inversion H; by constructor.
Qed.

Lemma fits_within amount allocated total u u' :
  Expenses.assertFits amount allocated = Ok u' -> toUnits amount = Ok u -> toUnits allocated = Ok total ->
  within u total = true.
Proof.
  unfold Expenses.assertFits. intros H Ha Hb. rewrite (allocationsFit_units _ _ _ _ Ha Hb) in H. cbn in H.
  apply throw_if_Ok in H. by apply negb_false_iff.
Qed.

(** ** Statements *)
Definition with_expenses (v : list Expense) (s : ExpenseState) : ExpenseState :=
  {| xs_expenses := v; xs_allocations := xs_allocations s; xs_lines := xs_lines s |}.
Definition with_allocations (v : list ExpenseAllocation) (s : ExpenseState) : ExpenseState :=
  {| xs_expenses := xs_expenses s; xs_allocations := v; xs_lines := xs_lines s |}.
Definition with_lines (v : list ExpenseLine) (s : ExpenseState) : ExpenseState :=
  {| xs_expenses := xs_expenses s; xs_allocations := xs_allocations s; xs_lines := v |}.

Lemma audit_append_state e db u db' :
  audit_append e db = (Ok u, db') -> expense_state db' = expense_state db.
Proof. by intros [= _ <-]. Qed.

Lemma loadExpense_inv id db e db' :
  loadExpense id db = (Ok e, db') -> e ∈ db_expenses db /\ ex_id e = id /\ db' = db.
Proof.
  unfold loadExpense. intros H. inv_stmt. destruct (find_id _ _ _) as [x|] eqn:E; inv_stmt.
  apply find_row_some in E as [Hx Hi%bool_decide_eq_true]. done.
Qed.

Lemma loadExpense_reads id : reads (loadExpense id).
Proof. unfold loadExpense. solve_respects. Qed.
Lemma allocatedTotal_reads id : reads (allocatedTotal id).
Proof. unfold allocatedTotal. solve_respects. Qed.
Lemma resolvePayeeDisplayName_reads id : reads (resolvePayeeDisplayName id).
Proof. unfold resolvePayeeDisplayName. solve_respects. Qed.
Lemma generateReferenceCode_reads y : reads (generateReferenceCode y).
Proof. unfold generateReferenceCode, integer_cast. solve_respects. Qed.
Lemma expense_nextLineNumber_reads id : reads (Expenses.nextLineNumber id).
Proof. unfold Expenses.nextLineNumber. solve_respects. Qed.
Lemma line_nextLineNumber_reads id : reads (ExpenseLines.nextLineNumber id).
Proof. unfold ExpenseLines.nextLineNumber. solve_respects. Qed.
Lemma existingLineAmounts_reads id : reads (existingLineAmounts id).
Proof. unfold existingLineAmounts. solve_respects. Qed.
#[export] Hint Resolve loadExpense_reads allocatedTotal_reads resolvePayeeDisplayName_reads
  generateReferenceCode_reads expense_nextLineNumber_reads line_nextLineNumber_reads
  existingLineAmounts_reads : store.

Lemma insertExpense_inv v db e db' :
  insertExpense v db = (Ok e, db') ->
  e = v (db_next db) (db_now db) /\ expense_state db' = with_expenses (db_expenses db ++ [e]) (expense_state db) /\
  ex_amount e <> 0 /\ db_next db ∉ (ex_id <$> db_expenses db) /\
  ex_referenceCode e ∉ (ex_referenceCode <$> db_expenses db).
Proof.
  intros H. unfold insertExpense in H. inv_stmt. split; [done|]. split; [done|].
  split; [|split; [by apply exists_id_false|]].
  - intros E. match goal with H : expense_checks _ = true |- _ => unfold expense_checks in H; rewrite E in H end. done.
  - intros (x & E & Hx)%list_elem_of_fmap.
    match goal with H : forallb _ _ = true |- _ => rewrite forallb_elem in H; specialize (H x Hx);
      apply bool_decide_eq_true in H; by destruct H end.
Qed.

Lemma updateExpenses_inv p f db u db' :
  updateExpenses p f db = (Ok u, db') ->
  expense_state db' = with_expenses ((fun e => if p e then f e else e) <$> db_expenses db) (expense_state db) /\
  (forall e, e ∈ db_expenses db -> p e = true -> ex_amount (f e) <> 0).
Proof.
  intros H. unfold updateExpenses in H. inv_stmt. split; [done|]. intros e He Hp.
  match goal with G : forallb (fun e => _ || expense_checks _) _ = true |- _ =>
    rewrite forallb_elem in G; specialize (G e He) end.
  cbv beta in *. rewrite Hp in *. unfold expense_checks in *. cbn in *.
  match goal with G : negb (_ =? 0) = true |- _ => by apply negb_true_iff, Z.eqb_neq in G end.
Qed.

Lemma insertAllocationRow_inv v db r db' :
  insertAllocationRow v db = (Ok r, db') ->
  r = v (db_next db) (db_now db) /\
  expense_state db' = with_allocations (db_allocations db ++ [r]) (expense_state db) /\
  db_next db ∉ (ea_id <$> db_allocations db) /\
  allocation_key r ∉ (allocation_key <$> db_allocations db) /\ ea_amount r <> 0.
Proof.
  intros H. unfold insertAllocationRow in H. inv_stmt. split; [done|]. split; [done|].
  split; [by apply exists_id_false|]. split.
  - intros (x & E & Hx)%list_elem_of_fmap. match goal with G : forallb _ _ = true |- _ =>
      rewrite forallb_elem in G; specialize (G x Hx); apply negb_true_iff in G end.
    unfold allocation_taken in *. injection E as E1 E2.
    match goal with G : _ && _ = false |- _ => apply andb_false_iff in G as [G|G];
      [apply bool_decide_eq_false in G|apply Z.eqb_neq in G]; by apply G end.
  - match goal with G : allocation_checks _ = true |- _ => unfold allocation_checks in G;
      rewrite !andb_true_iff, negb_true_iff, Z.eqb_neq in G; by destruct G as [[? _] _] end.
Qed.

Lemma insertExpenseLineRow_inv v db r db' :
  insertExpenseLineRow v db = (Ok r, db') ->
  r = v (db_next db) (db_now db) /\
  expense_state db' = with_lines (db_expense_lines db ++ [r]) (expense_state db) /\
  db_next db ∉ (el_id <$> db_expense_lines db) /\
  expense_line_key r ∉ (expense_line_key <$> db_expense_lines db).
Proof.
  intros H. unfold insertExpenseLineRow in H. inv_stmt. split; [done|]. split; [done|].
  split; [by apply exists_id_false|].
  intros (x & E & Hx)%list_elem_of_fmap. match goal with G : forallb _ _ = true |- _ =>
    rewrite forallb_elem in G; specialize (G x Hx); apply negb_true_iff in G end.
  unfold expense_line_taken in *. injection E as E1 E2.
  match goal with G : _ || _ = false |- _ => apply orb_false_iff in G as [G _];
    apply andb_false_iff in G as [G|G];
    [apply bool_decide_eq_false in G|apply Z.eqb_neq in G]; by apply G end.
Qed.

(** ** Inserting several rows *)
Section insert_rows.
Context {X R K T : Type} (step : X -> run R) (tbl : Db -> list R) (rest : Db -> T).
Context (id : R -> uuid) (key : R -> K) (good : X -> Prop) (P : X -> R -> Prop).
Hypothesis Hstep : forall x db r db', good x -> step x db = (Ok r, db') ->
  P x r /\ tbl db' = tbl db ++ [r] /\ rest db' = rest db /\
  id r ∉ (id <$> tbl db) /\ key r ∉ (key <$> tbl db).

Lemma insert_rows_inv xs db rows db' :
  Forall good xs -> st_mapM step xs db = (Ok rows, db') ->
  tbl db' = tbl db ++ rows /\ rest db' = rest db /\ Forall2 P xs rows /\
  (NoDup (id <$> tbl db) -> NoDup (id <$> tbl db ++ rows)) /\
  (NoDup (key <$> tbl db) -> NoDup (key <$> tbl db ++ rows)).
Proof using Hstep.
  intros Hg. revert db rows. induction Hg as [|x xs Hx _ IH]; intros db rows H; simpl in H.
  - inv_st. rewrite app_nil_r. repeat split; [|done..]. constructor.
  - run_bind H r s Hr. run_bind H rs s2 Hrs. apply st_ret_inv in H as [-> ->].
    apply Hstep in Hr as (Hp & Et & Er & Hi & Hk); [|done].
    apply IH in Hrs as (Et2 & Er2 & HF & Hn & Hkn). rewrite Et in *.
    replace (tbl db ++ r :: rs) with ((tbl db ++ [r]) ++ rs) by (by rewrite <- (assoc_L (++))).
    split; [done|]. split; [congruence|]. split; [by constructor|].
    split; intros H0; [apply Hn|apply Hkn]; by apply NoDup_keys_snoc.
Qed.
End insert_rows.

(** The rows written for the allocations of an expense. *)
Definition allocation_of (owner : uuid) (i : AllocationInput) (r : ExpenseAllocation) : Prop :=
  toUnits (ai_amount i) = Ok (ea_amount r) /\ ea_expenseId r = owner.

Lemma insertAllocations_inv e inputs start db rows db' :
  insertAllocations e inputs start db = (Ok rows, db') ->
  expense_state db' = with_allocations (db_allocations db ++ rows) (expense_state db) /\
  new_allocations (ex_id e) (db_allocations db) rows /\
  Forall2 (allocation_of (ex_id e)) inputs rows.
Proof.
  intros H. unfold insertAllocations in H. run_bind H values s Hv. apply st_lift_inv in Hv as [Hv ->].
  apply res_mapM_Forall2 in Hv.
  set (made := fun (p : nat * AllocationInput) (v : string * (Z -> uuid -> Z -> ExpenseAllocation)) =>
    allocation_values e start p.1 p.2 = Ok v) in *.
  assert (Forall2 made (imap pair inputs) values) as Hm by (eapply Forall2_impl; [exact Hv|by intros []]).
  eapply (insert_rows_inv _ db_allocations (fun db => (db_expenses db, db_expense_lines db)) ea_id allocation_key
    (fun v => exists p, made p v) (fun v r => exists u id now, toUnits v.1 = Ok u /\ r = v.2 u id now))
    in H as (Et & Er & HF & Hn & Hk).
  - injection Er as E1 E2. split; [unfold expense_state, with_allocations; cbn; by rewrite Et, E1, E2|].
    assert (Forall2 (allocation_of (ex_id e)) inputs rows) as HF'.
    { apply Forall2_imap_pair. eapply Forall2_compose; [|exact Hm|exact HF].
      intros [j i] v r Hmk (u & id & now & Hu & ->). unfold made, allocation_values in Hmk.
      apply bind_Ok in Hmk as (m & Hm' & [= <-]). apply toMoneyString_ok in Hm' as (u' & Hu' & ->).
      cbn in *. rewrite toUnits_fromUnits in Hu. injection Hu as ->. by split. }
    split; [split; [|done..]|done].
    eapply Forall2_Forall_r; [exact HF'|]. apply Forall_forall. by intros ? _ ? [].
  - intros [m mk] s r s' [[j i] Hmk] H'. run_bind H' u s1 Hu. apply numeric_in_inv in Hu as (Hu & _ & ->).
    apply insertAllocationRow_inv in H' as (Er & Es & Hi & Hk & _). injection Es as E1 E2 E3. rewrite E1, E2, E3.
    split; [by exists u, (db_next s), (db_now s)|]. split; [done|]. split; [done|]. split; [|done].
    unfold made, allocation_values in Hmk. apply bind_Ok in Hmk as (m' & _ & [= _ <-]). by rewrite Er.
  - apply Forall_forall. intros v Hin. apply list_elem_of_lookup in Hin as [k Hk].
    eapply Forall2_lookup_r in Hm as (p & _ & Hp); [|exact Hk]. by exists p.
Qed.

Definition line_of (owner : uuid) (i : LineInput) (r : ExpenseLine) : Prop :=
  toUnits (ni_lineAmount i) = Ok (el_lineAmount r) /\ el_expenseId r = owner.

Lemma insertExpenseLinesRaw_inv owner inputs start db rows db' :
  insertExpenseLinesRaw owner inputs start db = (Ok rows, db') ->
  expense_state db' = with_lines (db_expense_lines db ++ rows) (expense_state db) /\
  new_lines owner (db_expense_lines db) rows /\ Forall2 (line_of owner) inputs rows.
Proof.
  intros H. unfold insertExpenseLinesRaw in H. run_bind H values s Hv. apply st_lift_inv in Hv as [Hv ->].
  apply res_mapM_Forall2 in Hv.
  eapply (insert_rows_inv _ db_expense_lines (fun db => (db_expenses db, db_allocations db)) el_id
    expense_line_key (fun _ => True)
    (fun v r => toUnits v.2 = Ok (el_lineAmount r) /\ el_expenseId r = owner))
    in H as (Et & Er & HF & Hn & Hk).
  - injection Er as E1 E2. split; [unfold expense_state, with_lines; cbn; by rewrite Et, E1, E2|].
    assert (Forall2 (line_of owner) inputs rows) as HF'.
    { apply Forall2_imap_pair. eapply Forall2_compose; [|exact Hv|exact HF].
      intros [j i] v r Hmk [Hu Ho]. apply bind_Ok in Hmk as (m & Hm' & [= <-]).
      apply toMoneyString_ok in Hm' as (u' & Hu' & ->). cbn in *. rewrite toUnits_fromUnits in Hu.
      injection Hu as ->. by split. }
    split; [split; [|done..]|done].
    eapply Forall2_Forall_r; [exact HF'|]. apply Forall_forall. by intros ? _ ? [].
  - intros [[n i] m] s r s' _ H'. unfold insertExpenseLine in H'. run_bind H' q s1 Hq.
    apply reads_run in Hq as ->; [|solve_respects]. run_bind H' q2 s1 Hq. apply reads_run in Hq as ->; [|solve_respects].
    run_bind H' u s1 Hu. apply numeric_in_inv in Hu as (Hu & _ & ->).
    apply insertExpenseLineRow_inv in H' as (-> & Es & Hi & Hk). injection Es as E1 E2 E3. by rewrite E1, E2, E3.
  - by apply Forall_true.
Qed.

(** ** Calls as moves *)
Definition moves {A} (m : move) (body : run A) : Prop := forall db a db',
  tables_ok (expense_state db) -> body db = (Ok a, db') ->
  expense_move (expense_state db) m (expense_state db').
Definition always_moves {A} (m : move) (c : run A) : Prop := forall db,
  tables_ok (expense_state db) -> expense_move (expense_state db) m (expense_state (snd (c db))).

Lemma transaction_moves {A} m (body : run A) : moves m body -> always_moves m (transaction body).
Proof.
  intros Hb db Hok. unfold transaction. destruct (body (begin_tx db)) as [[a|e] db1] eqn:E; [|constructor].
  destruct (commit_check db1); [|constructor]. exact (Hb (begin_tx db) a db1 Hok E).
Qed.

Lemma lift_moves {A B} m (r : result A) (k : A -> run B) :
  (forall a, always_moves m (k a)) -> always_moves m (st_lift r ≫= k).
Proof. intros Hk db Hok. destruct r as [a|e]; [by apply Hk|constructor]. Qed.

Lemma retry_moves {A} m n (attempt : run A) :
  always_moves m attempt -> (forall db e db', attempt db = (Throw e, db') -> db' = db) ->
  always_moves m (retry n attempt).
Proof.
  intros Ha Ht. induction n as [|n IH]; intros db Hok; [constructor|]. cbn. unfold st_catch.
  specialize (Ha db Hok). destruct (attempt db) as [[a|e] db1] eqn:E; [done|].
  apply Ht in E as ->. destruct (isUniqueViolation e); [by apply IH|constructor].
Qed.

(** The rows of a statement whose predicate names one expense. *)
Lemma is_expense_row db e x :
  tables_ok (expense_state db) -> e ∈ db_expenses db -> x ∈ db_expenses db ->
  is_expense (ex_id e) x = true -> x = e.
Proof.
  intros Hok He Hx Hi%bool_decide_eq_true. by eapply (NoDup_keys_inj ex_id); [apply (to_ids _ Hok)|..].
Qed.

Lemma updateExpenses_moves m e f db u db' :
  m = Edit \/ m = Mark -> tables_ok (expense_state db) -> e ∈ db_expenses db -> row_kept e (f e) ->
  (ex_amount (f e) = ex_amount e \/
   m = Edit /\ within (ex_amount (f e)) (allocated (db_allocations db) (ex_id e)) = true) ->
  updateExpenses (is_expense (ex_id e)) f db = (Ok u, db') ->
  expense_move (expense_state db) m (expense_state db').
Proof.
  intros Hm Hok He Hf Ha H. apply updateExpenses_inv in H as [-> Hc]. apply move_update; [done|..].
  - intros x Hx. destruct (is_expense (ex_id e) x) eqn:E; [|reflexivity].
    by apply (is_expense_row db) in E as ->.
  - intros x Hx. destruct (is_expense (ex_id e) x) eqn:E; [|by left].
    specialize (Hc x Hx E). apply (is_expense_row db) in E as ->; [|done..].
    destruct Ha as [Ha|[Ha Hw]]; [by left|by right].
Qed.

(** ** The calls *)
Lemma create_moves value attr amount (u : Z) :
  toUnits amount = Ok u -> default ExpenseDraft (ce_status value) ∈ [ExpenseDraft; ExpenseRecorded] ->
  (exists us, Forall2 (fun i v => toUnits (ai_amount i) = Ok v) (ce_allocations value) us /\
     within u (sumZ us) = true) ->
  moves Create (create_body value attr amount).
Proof.
  intros Hu Hst (us & Hus & Hw) db out db' Hok H. unfold create_body in H. run_bind H code s Hc.
  assert (s = db) as ->.
  { unfold create_code in Hc. eapply reads_run; [|exact Hc]. destruct (ce_referenceCode value); solve_respects. }
  unfold create_write in H. run_bind H payee s Hp. apply reads_run in Hp as ->; [|solve_respects].
  run_bind H tax s Ht. apply st_lift_inv in Ht as [_ ->]. run_bind H day s Hd. apply date_in_inv in Hd as (_ & _ & ->).
  run_bind H a s Ha. apply numeric_in_inv in Ha as (Ha & _ & ->). rewrite Hu in Ha. injection Ha as <-.
  run_bind H t s Ht. apply reads_run in Ht as ->; [|solve_respects].
  run_bind H e s He. apply insertExpense_inv in He as (-> & Es & Hnz & Hi & Hcode).
  run_bind H rows s2 Hr. apply insertAllocations_inv in Hr as (Es2 & Hnew & HF).
  run_bind H x s3 Ha. apply audit_append_state in Ha. apply st_ret_inv in H as [-> ->]. rewrite Ha, Es2, Es.
  injection Es as E1 E2 E3. rewrite E2 in *.
  apply (move_create (expense_state db)); try done.
  - cbn. rewrite !elem_of_cons in Hst. destruct Hst as [->|[->|[]%not_elem_of_nil]]; [by left|by right].
  - cbn [ex_amount expense_values]. replace (sumZ (ea_amount <$> rows)) with (sumZ us); [done|].
    f_equal. clear -HF Hus. revert us Hus. induction HF as [|x r xs rs [Hi _] _ IH]; intros us Hus;
      inversion Hus as [|? v ? vs Hv Hvs]; subst; [done|]. rewrite Hi in Hv. injection Hv as <-.
    cbn. by rewrite (IH vs).
Qed.

Lemma created_status i value :
  createExpenseSchema i = Ok value -> default ExpenseDraft (ce_status value) ∈ [ExpenseDraft; ExpenseRecorded].
Proof.
  intros H. unfold createExpenseSchema, z_created_status, z_check in H. inv_ok. cbn.
  match goal with G : negb (_ || _) = false |- _ => apply negb_false_iff, orb_true_iff in G;
    rewrite !bool_decide_eq_true in G; destruct G as [->| ->] end; set_solver.
Qed.

Lemma create_call_moves i : always_moves Create (create i).
Proof.
  unfold create. intros db Hok. destruct (create_checked i) as [[[value attr] amount]|e] eqn:E; [|constructor].
  unfold create_checked in E. apply bind_Ok in E as (value' & Hv & E). apply bind_Ok in E as (m & Hm & E).
  apply bind_Ok in E as (al & Hal & E). apply bind_Ok in E as (fits & Hf & E). apply bind_Ok in E as (t & Ht & [= -> <- ->]).
  apply toMoneyString_ok in Hm as (u & _ & ->). apply sumDecimals_ok in Hal as (us & Hus & ->).
  rewrite (allocationsFit_units _ _ u (sumZ us)) in Hf by apply toUnits_fromUnits. injection Hf as <-.
  apply throw_if_Ok, negb_false_iff in Ht. revert db Hok. apply retry_moves.
  - apply transaction_moves, (create_moves _ _ _ u); [apply toUnits_fromUnits|by eapply created_status|].
    exists us. by rewrite Forall2_fmap_l in Hus.
  - intros db e db'. apply transaction_throw.
Qed.

Lemma allocatedTotal_inv id db out db' :
  allocatedTotal id db = (Ok out, db') ->
  toUnits out.1 = Ok (allocated (db_allocations db) id) /\ out.2 = length (expense_allocations db id) /\ db' = db.
Proof.
  intros H. unfold allocatedTotal in H. run_bind H d s Hd. apply st_get_inv in Hd as [-> ->].
  run_bind H t s Ht. apply st_lift_inv in Ht as [Ht ->]. apply st_ret_inv in H as [-> ->].
  apply sumDecimals_ok in Ht as (us & Hus & ->).
  apply stored_units in Hus as ->. cbn. split; [apply toUnits_fromUnits|]. split; [|done]. by rewrite length_fmap.
Qed.

(** [skip H]: the next part of the run [H] only reads. *)
Ltac skip H :=
  let u := fresh "u" in let s := fresh "s" in let Hu := fresh "Hu" in
  run_bind H u s Hu; apply reads_run in Hu; [subst s|by solve_respects].

Lemma row_kept_update value payeeName currency amount tax now e :
  ex_status e = ExpenseDraft -> row_kept e (apply_expense_update value payeeName currency amount tax now e).
Proof. intros Hd. split; cbn; rewrite ?Hd; done. Qed.
Lemma row_kept_payee id name now e : ex_status e <> ExpenseVoid -> row_kept e (with_payee id name now e).
Proof. intros Hd. split; cbn; try done. by destruct (ex_status e). Qed.
Lemma row_kept_status status cost now e :
  status_moves (ex_status e) status = true -> ex_status e <> ExpenseVoid ->
  row_kept e (with_status status cost now e).
Proof. intros Hs Hd. by split. Qed.
Lemma row_kept_reattributed id now e :
  ex_entityAttributionSource e <> AttrManual -> row_kept e (reattributed id now e).
Proof. intros Hd. split; cbn; try done. by destruct (ex_status e). Qed.

Lemma update_moves value :
  moves (if is_some (ue_amount value) then Edit else Mark) (update_body value).
Proof.
  intros db after db' Hok H. unfold update_body in H. run_bind H e s He.
  apply loadExpense_inv in He as (He & _ & ->). run_bind H t s Ht. apply st_lift_inv in Ht as [Ht ->].
  apply throw_if_Ok, bool_decide_eq_false, dec_stable in Ht.
  run_bind H payee s Hp. apply reads_run in Hp as ->; [|unfold update_payee; solve_respects].
  skip H. skip H. run_bind H totals s Htot. apply allocatedTotal_inv in Htot as (Htot & _ & ->).
  destruct totals as [total count]. cbn in Htot. skip H.
  run_bind H amount s Ha. apply st_lift_inv in Ha as [Ha ->].
  run_bind H x s Hx. apply reads_run in Hx as ->; [|destruct (ue_expenseDate value); solve_respects].
  skip H. run_bind H units s Hu.
  assert (s = db /\ (units = None \/ exists u, units = Some u /\ is_some (ue_amount value) = true /\
    within u (allocated (db_allocations db) (ex_id e)) = true)) as [-> Hunits].
  { destruct (ue_amount value) as [a|]; cbn in Ha; [|injection Ha as <-; cbn in Hu; inv_st; auto].
    apply bind_Ok in Ha as (m & Hm & Ha). apply bind_Ok in Ha as (y & Hf & [= <-]).
    apply toMoneyString_ok in Hm as (v & _ & ->). cbn in Hu. run_bind Hu z s1 Hz.
    apply numeric_in_inv in Hz as (Hz & _ & ->). apply st_ret_inv in Hu as [-> ->].
    rewrite toUnits_fromUnits in Hz. injection Hz as <-. split; [done|]. right. exists v. split; [done|]. split; [done|].
    eapply fits_within; [exact Hf|apply toUnits_fromUnits|done]. }
  skip H. run_bind H w s Hw. skip H. run_bind H z s2 Hz. apply audit_append_state in Hz.
  apply st_ret_inv in H as [_ ->]. rewrite Hz.
  eapply updateExpenses_moves; [|done|exact He|by apply row_kept_update| |exact Hw].
  - destruct (is_some _); auto.
  - cbn. destruct Hunits as [->|(v & -> & -> & Hwi)]; [by left|by right].
Qed.

(** [loaded H e]: the run [H] starts by loading the expense [e]. *)
Ltac loaded H e :=
  let s := fresh "s" in let He := fresh "He" in
  run_bind H e s He; apply loadExpense_inv in He; destruct He as (He & <- & ->).

(** A row changed by [f], read back and audited. *)
Lemma mark_moves e f (k : Expense -> run Expense) db after db' :
  tables_ok (expense_state db) -> e ∈ db_expenses db -> row_kept e (f e) -> ex_amount (f e) = ex_amount e ->
  (forall a, respects (fun d d' => expense_state d' = expense_state d) (k a)) ->
  (_ ← updateExpenses (is_expense (ex_id e)) f; a ← loadExpense (ex_id e); k a) db = (Ok after, db') ->
  expense_move (expense_state db) Mark (expense_state db').
Proof.
  intros Hok He Hf Ha Hk H. run_bind H u s Hu. skip H. apply Hk in H. rewrite H.
  eapply updateExpenses_moves; [by right|done|exact He|exact Hf|by left|exact Hu].
Qed.

#[local] Instance same_state_preorder : PreOrder (fun d d' : Db => expense_state d' = expense_state d).
Proof. split; [done|]. intros ??? E1 E2. congruence. Qed.
Lemma audit_append_respects ev : respects (fun d d' => expense_state d' = expense_state d) (audit_append ev).
Proof. intros d u d' H. by eapply audit_append_state. Qed.
Lemma reads_same_state {A} (c : run A) : reads c -> respects (fun d d' => expense_state d' = expense_state d) c.
Proof. apply reads_respects. done. Qed.
#[local] Hint Resolve audit_append_respects reads_same_state : store.

Lemma linkPayee_moves id p actor request : always_moves Mark (linkPayee id p actor request).
Proof.
  apply transaction_moves. intros db after db' Hok H. loaded H e. run_bind H t s Ht.
  apply st_lift_inv in Ht as [Ht ->]. apply throw_if_Ok, bool_decide_eq_false in Ht.
  run_bind H name s Hn. apply reads_run in Hn as ->; [|solve_respects]. skip H. skip H.
  eapply mark_moves; [..|exact H]; [done|done|by apply row_kept_payee|done|intros a; cbv beta; solve_respects].
Qed.

Lemma submit_moves id actor request : always_moves Mark (submit id actor request).
Proof.
  apply transaction_moves. intros db after db' Hok H. loaded H e. run_bind H t s Ht.
  apply st_lift_inv in Ht as [Ht ->]. apply throw_if_Ok, bool_decide_eq_false, dec_stable in Ht. skip H.
  eapply mark_moves; [..|exact H];
    [done|done|apply row_kept_status; by rewrite Ht|done|intros a; cbv beta; solve_respects].
Qed.

Lemma voidExpense_moves id reason actor request : always_moves Mark (voidExpense id reason actor request).
Proof.
  unfold voidExpense. cbv zeta. apply lift_moves. intros _. apply transaction_moves.
  intros db after db' Hok H. loaded H e. run_bind H t s Ht. apply st_lift_inv in Ht as [Ht ->].
  apply throw_if_Ok, bool_decide_eq_false in Ht. case_bool_decide as Hv.
  { apply st_ret_inv in H as [_ ->]. constructor. }
  skip H. eapply mark_moves; [..|exact H]; [done|done| |done|intros a; cbv beta; solve_respects].
  apply row_kept_status; [|done]. unfold POSTED_STATUS in Ht. by destruct (ex_status e).
Qed.

Lemma promote_moves id cost reason actor request :
  always_moves Mark (promoteToAcquisitionCost id cost reason actor request).
Proof.
  unfold promoteToAcquisitionCost. cbv zeta. apply lift_moves. intros _. apply transaction_moves.
  intros db after db' Hok H. loaded H e. run_bind H t s Ht. apply st_lift_inv in Ht as [Ht ->].
  apply throw_if_Ok, bool_decide_eq_false in Ht. run_bind H t2 s Hv. apply st_lift_inv in Hv as [Hv ->].
  apply throw_if_Ok, bool_decide_eq_false in Hv. skip H.
  eapply mark_moves; [..|exact H]; [done|done| |done|intros a; cbv beta; solve_respects].
  apply row_kept_status; [|done]. unfold POSTED_STATUS in Ht. by destruct (ex_status e).
Qed.

Lemma reattributeDefaults_moves entity from to actor request :
  always_moves Mark (reattributeDefaults entity from to actor request).
Proof.
  unfold reattributeDefaults. apply lift_moves. intros _. apply lift_moves. intros _.
  apply transaction_moves. intros db n db' Hok H. unfold window_bound in H. skip H. skip H.
  run_bind H d s Hd. apply st_get_inv in Hd as [-> ->]. cbv zeta in H. run_bind H w s Hw.
  run_bind H x s2 Hx.
  assert (expense_state s2 = expense_state s) as E.
  { destruct (0 <? _)%nat; [by eapply audit_append_state|by apply st_ret_inv in Hx as [_ ->]]. }
  apply st_ret_inv in H as [_ ->]. rewrite E. apply updateExpenses_inv in Hw as [-> _].
  apply move_update; [by right|..].
  - intros y _. destruct (reattributable _ _ _ y) eqn:Ey; [|reflexivity]. apply row_kept_reattributed.
    unfold reattributable in Ey. rewrite !andb_true_iff in Ey. destruct Ey as [[[Ey _] _] _].
    apply bool_decide_eq_true in Ey. intros Em. rewrite Em in Ey. unfold REATTRIBUTABLE_SOURCES in Ey. set_solver.
  - intros y _. left. by destruct (reattributable _ _ _ y).
Qed.

(** *** Allocations *)
Lemma allocated_rows owner inputs rows us :
  Forall2 (allocation_of owner) inputs rows -> Forall2 (fun i u => toUnits (ai_amount i) = Ok u) inputs us ->
  allocated rows owner = sumZ us.
Proof.
  intros HF Hus. rewrite allocated_own.
  - f_equal. revert us Hus. induction HF as [|x r xs rs [Hr _] _ IH]; intros us Hus;
      inversion Hus as [|? u ? us' Hu Hus']; subst; [done|].
    rewrite Hr in Hu. injection Hu as <-. csimpl. by rewrite (IH us').
  - eapply Forall2_Forall_r; [exact HF|]. apply Forall_forall. by intros ? _ ? [].
Qed.

Lemma allocated_none (rows : list ExpenseAllocation) (id : uuid) :
  allocated (kept_rows ea_expenseId true id rows) id = 0.
Proof.
  unfold allocated, kept_rows. induction rows as [|r rows IH]; [done|]. cbn.
  case_bool_decide; cbn; [done|]. by rewrite bool_decide_false.
Qed.

Lemma setAllocations_moves id inputs actor request :
  always_moves Allocate (setAllocations id inputs actor request).
Proof.
  apply transaction_moves. intros db rows db' Hok H. loaded H e. run_bind H t s Ht.
  apply st_lift_inv in Ht as [Ht ->]. apply throw_if_Ok, bool_decide_eq_false, dec_stable in Ht.
  run_bind H parsed s Hp. apply st_lift_inv in Hp as [_ ->]. run_bind H total s Hs.
  apply st_lift_inv in Hs as [Hs ->]. apply sumDecimals_ok in Hs as (us & Hus & ->).
  rewrite Forall2_fmap_l in Hus. run_bind H f s Hf. apply st_lift_inv in Hf as [Hf ->].
  eapply fits_within in Hf; [|apply toUnits_fromUnits..].
  run_bind H d s Hd. apply st_modify_inv in Hd as [_ ->].
  run_bind H new s Hn. apply insertAllocations_inv in Hn as (Es & Hnew & HF). skip H.
  run_bind H x s2 Ha. apply audit_append_state in Ha. apply st_ret_inv in H as [_ ->]. rewrite Ha, Es.
  apply (move_allocate (expense_state db) e true new); [done|done|exact Hnew|].
  by rewrite allocated_app, (allocated_rows _ _ _ _ HF Hus), (allocated_none _ (ex_id e)).
Qed.

Lemma addAllocation_moves id input actor request :
  always_moves Allocate (addAllocation id input actor request).
Proof.
  apply transaction_moves. intros db row db' Hok H. loaded H e. run_bind H t s Ht.
  apply st_lift_inv in Ht as [Ht ->]. apply throw_if_Ok, bool_decide_eq_false, dec_stable in Ht.
  run_bind H i s Hp. apply st_lift_inv in Hp as [_ ->]. run_bind H totals s Htot.
  apply allocatedTotal_inv in Htot as (Htot & _ & ->). run_bind H total s Hs.
  apply st_lift_inv in Hs as [Hs ->]. apply sumDecimals_ok in Hs as (us & Hus & ->).
  inversion Hus as [|? u ? us1 Hu Hus1]; subst. inversion Hus1 as [|? v ? us2 Hv Hus2]; subst.
  inversion Hus2; subst. rewrite Htot in Hu. injection Hu as <-.
  run_bind H f s Hf. apply st_lift_inv in Hf as [Hf ->]. eapply fits_within in Hf; [|apply toUnits_fromUnits..].
  run_bind H line s Hl. apply reads_run in Hl as ->; [|solve_respects].
  run_bind H new s Hn. apply insertAllocations_inv in Hn as (Es & Hnew & HF).
  run_bind H r s2 Hr. assert (s2 = s) as -> by (destruct new; [discriminate Hr|by apply st_ret_inv in Hr as [_ ->]]).
  run_bind H x s2 Ha. apply audit_append_state in Ha. apply st_ret_inv in H as [_ ->]. rewrite Ha, Es.
  apply (move_allocate (expense_state db) e false new); [done|done|exact Hnew|].
  rewrite allocated_app, (allocated_rows _ _ _ [v] HF) by (by constructor). done.
Qed.

Lemma removeAllocation_moves id actor request :
  always_moves Deallocate (removeAllocation id actor request).
Proof.
  apply transaction_moves. intros db u db' Hok H. run_bind H d s Hd. apply st_get_inv in Hd as [-> ->].
  destruct (find_id ea_id id (db_allocations db)) as [a|] eqn:Ea; [|discriminate H].
  apply find_row_some in Ea as [Ha <-%bool_decide_eq_true]. run_bind H e s He.
  apply loadExpense_inv in He as (He & Eo & ->). run_bind H t s Ht. apply st_lift_inv in Ht as [Ht ->].
  apply throw_if_Ok, bool_decide_eq_false, dec_stable in Ht. run_bind H x s Hx. apply st_modify_inv in Hx as [_ ->].
  apply audit_append_state in H. rewrite H. by apply (move_deallocate (expense_state db) e a).
Qed.

(** *** Lines *)
Lemma transcribed_app rows new id : transcribed (rows ++ new) id = transcribed rows id + transcribed new id.
Proof. unfold transcribed. by rewrite List.filter_app, fmap_app, sumZ_app. Qed.

Lemma transcribed_rows owner inputs rows us :
  Forall2 (line_of owner) inputs rows -> Forall2 (fun i u => toUnits (ni_lineAmount i) = Ok u) inputs us ->
  transcribed rows owner = sumZ (Z.abs <$> us).
Proof.
  intros HF Hus. unfold transcribed. rewrite filter_all.
  - f_equal. revert us Hus. induction HF as [|x r xs rs [Hr _] _ IH]; intros us Hus;
      inversion Hus as [|? u ? us' Hu Hus']; subst; [done|].
    rewrite Hr in Hu. injection Hu as <-. csimpl. by rewrite (IH us').
  - eapply Forall2_Forall_r; [exact HF|]. apply Forall_forall. intros ? _ ? [_ E]. by apply bool_decide_eq_true.
Qed.

Lemma transcribed_none (rows : list ExpenseLine) (id : uuid) :
  transcribed (kept_rows el_expenseId true id rows) id = 0.
Proof.
  unfold transcribed, kept_rows. induction rows as [|r rows IH]; [done|]. cbn.
  case_bool_decide; cbn; [done|]. by rewrite bool_decide_false.
Qed.

Lemma lines_within e us u :
  ExpenseLines.assertFits e (fromUnits (sumZ (Z.abs <$> us))) = Ok u ->
  sumZ (Z.abs <$> us) <= Z.abs (ex_amount e).
Proof.
  unfold ExpenseLines.assertFits. intros H. rewrite (linesFit_units _ _ (ex_amount e) (sumZ (Z.abs <$> us))) in H
    by apply toUnits_fromUnits. cbn in H. apply throw_if_Ok, negb_false_iff in H. by apply Z.leb_le.
Qed.

Lemma addLine_moves i : always_moves Transcribe (addLine i).
Proof.
  apply lift_moves. intros value. apply transaction_moves. intros db row db' Hok H. unfold addLine_body in H.
  run_bind H e s He. apply loadExpense_inv in He as (He & Hi & ->). rewrite <- Hi in H. run_bind H t s Ht. apply st_lift_inv in Ht as [Ht ->].
  apply throw_if_Ok, bool_decide_eq_false, dec_stable in Ht. run_bind H old s Ho. apply st_gets_inv in Ho as [-> ->].
  run_bind H total s Hs. apply st_lift_inv in Hs as [Hs ->]. apply absoluteLineTotal_ok in Hs as (us & Hus & ->).
  apply Forall2_app_inv_l in Hus as (us1 & us2 & Hus1 & Hus2 & ->). apply stored_units in Hus1 as ->.
  run_bind H f s Hf. apply st_lift_inv in Hf as [Hf ->]. apply lines_within in Hf.
  run_bind H line s Hl. apply reads_run in Hl as ->; [|solve_respects].
  run_bind H new s Hn. apply insertExpenseLinesRaw_inv in Hn as (Es & Hnew & HF).
  run_bind H r s2 Hr. assert (s2 = s) as -> by (destruct new; [discriminate Hr|by apply st_ret_inv in Hr as [_ ->]]).
  run_bind H x s2 Ha. apply audit_append_state in Ha. apply st_ret_inv in H as [_ ->]. rewrite Ha, Es.
  apply (move_transcribe (expense_state db) e false new); [done|done|exact Hnew|].
  assert (Forall2 (fun i u => toUnits (ni_lineAmount i) = Ok u) [numbered line (nl_line value)] us2) as Hus3.
  { inversion Hus2 as [|? v ? ? Hv Hnil]; subst. inversion Hnil; subst. by constructor. }
  rewrite transcribed_app, (transcribed_rows _ _ _ _ HF Hus3). rewrite fmap_app, sumZ_app in Hf.
  unfold transcribed, kept_rows, expense_lines in *. cbn [xs_lines expense_state].
  rewrite <- list_fmap_compose in Hf. exact Hf.
Qed.

Lemma removeLine_moves id actor request : always_moves Untranscribe (removeLine id actor request).
Proof.
  apply transaction_moves. intros db u db' Hok H. run_bind H d s Hd. apply st_get_inv in Hd as [-> ->].
  destruct (find_id el_id id (db_expense_lines db)) as [a|] eqn:Ea; [|discriminate H].
  apply find_row_some in Ea as [Ha <-%bool_decide_eq_true]. run_bind H e s He.
  apply loadExpense_inv in He as (He & Eo & ->). run_bind H t s Ht. apply st_lift_inv in Ht as [Ht ->].
  apply throw_if_Ok, bool_decide_eq_false, dec_stable in Ht. run_bind H x s Hx. apply st_modify_inv in Hx as [_ ->].
  apply audit_append_state in H. rewrite H. by apply (move_untranscribe (expense_state db) e a).
Qed.

Lemma setLines_moves i : always_moves Transcribe (setLines i).
Proof.
  apply lift_moves. intros value. apply transaction_moves. intros db rows db' Hok H. unfold setLines_body in H.
  run_bind H e s He. apply loadExpense_inv in He as (He & Hi & ->). rewrite <- Hi in H. run_bind H t s Ht. apply st_lift_inv in Ht as [Ht ->].
  apply throw_if_Ok, bool_decide_eq_false, dec_stable in Ht. run_bind H total s Hs.
  apply st_lift_inv in Hs as [Hs ->]. apply absoluteLineTotal_ok in Hs as (us & Hus & ->).
  rewrite Forall2_fmap_l in Hus. run_bind H f s Hf. apply st_lift_inv in Hf as [Hf ->]. apply lines_within in Hf.
  run_bind H d s Hd. apply st_modify_inv in Hd as [_ ->].
  run_bind H new s Hn. apply insertExpenseLinesRaw_inv in Hn as (Es & Hnew & HF).
  run_bind H x s2 Ha. apply audit_append_state in Ha. apply st_ret_inv in H as [_ ->]. rewrite Ha, Es.
  apply (move_transcribe (expense_state db) e true new); [done|done|exact Hnew|].
  by rewrite transcribed_app, (transcribed_rows _ _ _ _ HF Hus), (transcribed_none _ (ex_id e)).
Qed.

Lemma update_schema_amount i value :
  updateExpenseSchema i = Ok value -> is_some (ue_amount value) = is_some (ue_amount i).
Proof.
  intros H. unfold updateExpenseSchema in H. repeat (apply bind_Ok in H as (? & ? & H)).
  injection H as <-. cbn.
  match goal with G : z_opt z_decimal (ue_amount i) = Ok _ |- _ =>
    destruct (ue_amount i); [by apply bind_Ok in G as (? & _ & [= <-])|by injection G as <-] end.
Qed.

Lemma update_call_moves i :
  always_moves (if is_some (ue_amount i) then Edit else Mark) (update i).
Proof.
  unfold update. intros db Hok. destruct (updateExpenseSchema i) as [value|e] eqn:E; [|constructor].
  rewrite <- (update_schema_amount _ _ E). revert db Hok. apply transaction_moves, update_moves.
Qed.

(** ** All the calls *)
Inductive expense_call : Type :=
  | CreateExpense (i : CreateExpenseInput)
  | UpdateExpense (i : UpdateExpenseInput)
  | LinkPayee (id : uuid) (counterparty : option uuid) (actor request : option string)
  | SubmitExpense (id : uuid) (actor request : option string)
  | VoidExpense (id : uuid) (reason : string) (actor request : option string)
  | PromoteExpense (id cost : uuid) (reason : string) (actor request : option string)
  | ReattributeExpenses (entity : uuid) (from to : option date) (actor request : option string)
  | SetAllocations (id : uuid) (allocations : list AllocationInput) (actor request : option string)
  | AddAllocation (id : uuid) (allocation : AllocationInput) (actor request : option string)
  | RemoveAllocation (id : uuid) (actor request : option string)
  | AddLine (i : AddLineInput)
  | RemoveLine (id : uuid) (actor request : option string)
  | SetLines (i : SetLinesInput).

(** The store a call leaves, whether it returned or threw. *)
Definition perform_expense (c : expense_call) (db : Db) : Db :=
  match c with
  | CreateExpense i => snd (create i db)
  | UpdateExpense i => snd (update i db)
  | LinkPayee id p a r => snd (linkPayee id p a r db)
  | SubmitExpense id a r => snd (submit id a r db)
  | VoidExpense id reason a r => snd (voidExpense id reason a r db)
  | PromoteExpense id cost reason a r => snd (promoteToAcquisitionCost id cost reason a r db)
  | ReattributeExpenses e from to a r => snd (reattributeDefaults e from to a r db)
  | SetAllocations id l a r => snd (setAllocations id l a r db)
  | AddAllocation id i a r => snd (addAllocation id i a r db)
  | RemoveAllocation id a r => snd (removeAllocation id a r db)
  | AddLine i => snd (addLine i db)
  | RemoveLine id a r => snd (removeLine id a r db)
  | SetLines i => snd (setLines i db)
  end.
Definition perform_expenses (cs : list expense_call) (db : Db) : Db :=
  fold_left (fun db c => perform_expense c db) cs db.

Definition call_move (c : expense_call) : move :=
  match c with
  | CreateExpense _ => Create
  | UpdateExpense i => if is_some (ue_amount i) then Edit else Mark
  | LinkPayee _ _ _ _ | SubmitExpense _ _ _ | VoidExpense _ _ _ _ | PromoteExpense _ _ _ _ _
  | ReattributeExpenses _ _ _ _ _ => Mark
  | SetAllocations _ _ _ _ | AddAllocation _ _ _ _ => Allocate
  | RemoveAllocation _ _ _ => Deallocate
  | AddLine _ | SetLines _ => Transcribe
  | RemoveLine _ _ _ => Untranscribe
  end.

Lemma call_moves c db :
  tables_ok (expense_state db) ->
  expense_move (expense_state db) (call_move c) (expense_state (perform_expense c db)).
Proof.
  revert db. destruct c; cbn [call_move perform_expense].
  - apply create_call_moves.
  - apply update_call_moves.
  - apply linkPayee_moves.
  - apply submit_moves.
  - apply voidExpense_moves.
  - apply promote_moves.
  - apply reattributeDefaults_moves.
  - apply setAllocations_moves.
  - apply addAllocation_moves.
  - apply removeAllocation_moves.
  - apply addLine_moves.
  - apply removeLine_moves.
  - apply setLines_moves.
Qed.

(** A preorder every move respects is respected by every sequence of calls. *)
Lemma perform_expenses_ind (allowed : move -> Prop) (R : relation ExpenseState) `{!PreOrder R} cs db :
  (forall s m s', tables_ok s -> expense_move s m s' -> allowed m -> R s s') ->
  (forall c, c ∈ cs -> allowed (call_move c)) -> tables_ok (expense_state db) ->
  tables_ok (expense_state (perform_expenses cs db)) /\
  R (expense_state db) (expense_state (perform_expenses cs db)).
Proof.
  intros HR. revert db. induction cs as [|c cs IH]; intros db Hall Hok; [by split|]. cbn.
  pose proof (call_moves c db Hok) as Hm.
  destruct (IH (perform_expense c db)) as [H1 H2]; [intros d Hd; apply Hall; set_solver| |].
  - by eapply tables_ok_move.
  - split; [done|]. etrans; [|exact H2]. eapply HR; [done|exact Hm|]. apply Hall. set_solver.
Qed.

(** ** The expense calls leave the ledger alone

    Every statement of [expenses.ts] and [lines.ts] writes the three tables of
    the expenses and the audit log, and nothing else of the store. *)

(** Everything but the expense tables, the audit log and the counters. *)
Definition ledger_part (db : Db) :=
  (db_users db, db_entities db, db_books db, db_links db, db_accounts db, db_dimensions db,
   db_dimension_values db, db_periods db, db_rules db, db_versions db, db_rule_lines db,
   db_entries db, db_lines db, db_line_dims db, db_source_links db, db_facts db, db_deferred db).

Record aside (db db' : Db) : Prop := {
  as_ledger : ledger_part db' = ledger_part db;
  as_audit : db_audit db `prefix_of` db_audit db';
}.
#[export] Instance aside_preorder : PreOrder aside.
Proof. split; [by split|]. intros a b c [E1 P1] [E2 P2]. split; [congruence|by etrans]. Qed.

Ltac by_aside := split; [reflexivity|first [reflexivity|by apply prefix_app_r]].

Lemma reads_aside {A} (m : run A) : reads m -> respects aside m.
Proof. apply reads_respects. apply _. Qed.
Lemma audit_append_aside e : respects aside (audit_append e).
Proof. intros db u db' H. unfold audit_append in H. inv_stmt. by_aside. Qed.
Lemma insertExpense_aside v : respects aside (insertExpense v).
Proof. intros db u db' H. unfold insertExpense in H. inv_stmt. by_aside. Qed.
Lemma updateExpenses_aside p f : respects aside (updateExpenses p f).
Proof. intros db u db' H. unfold updateExpenses in H. inv_stmt. by_aside. Qed.
Lemma insertAllocationRow_aside v : respects aside (insertAllocationRow v).
Proof. intros db u db' H. unfold insertAllocationRow in H. inv_stmt. by_aside. Qed.
Lemma deleteAllocations_aside p : respects aside (deleteAllocations p).
Proof. intros db u db' H. unfold deleteAllocations in H. inv_stmt. by_aside. Qed.
Lemma insertExpenseLineRow_aside v : respects aside (insertExpenseLineRow v).
Proof. intros db u db' H. unfold insertExpenseLineRow in H. inv_stmt. by_aside. Qed.
Lemma deleteExpenseLines_aside p : respects aside (deleteExpenseLines p).
Proof. intros db u db' H. unfold deleteExpenseLines in H. inv_stmt. by_aside. Qed.
#[export] Hint Resolve reads_aside audit_append_aside insertExpense_aside updateExpenses_aside
  insertAllocationRow_aside deleteAllocations_aside insertExpenseLineRow_aside deleteExpenseLines_aside : store.

Lemma insertAllocations_aside e l n : respects aside (insertAllocations e l n).
Proof. unfold insertAllocations. solve_respects. Qed.
Lemma insertExpenseLinesRaw_aside e l n : respects aside (insertExpenseLinesRaw e l n).
Proof. unfold insertExpenseLinesRaw, insertExpenseLine. solve_respects. Qed.
#[export] Hint Resolve insertAllocations_aside insertExpenseLinesRaw_aside : store.

(** A transaction starts and ends with no deferred check. *)
Definition leaves_aside {A} (m : run A) : Prop := forall db, db_deferred db = [] -> aside db (snd (m db)).

Lemma transaction_aside {A} (body : run A) : respects aside body -> leaves_aside (transaction body).
Proof.
  intros Hb db Hd. unfold transaction. destruct (body (begin_tx db)) as [[a|e] db1] eqn:E; [|reflexivity].
  destruct (commit_check db1); [|reflexivity]. destruct (Hb _ _ _ E) as [El Ea].
  split; [|exact Ea]. unfold ledger_part in *. cbn in El |- *. rewrite Hd. congruence.
Qed.
Lemma lift_aside {A B} (r : result A) (k : A -> run B) :
  (forall a, leaves_aside (k a)) -> leaves_aside (st_lift r ≫= k).
Proof. intros Hk db Hd. destruct r as [a|e]; [by apply Hk|reflexivity]. Qed.
Lemma retry_aside {A} n (attempt : run A) :
  leaves_aside attempt -> (forall db e db', attempt db = (Throw e, db') -> db' = db) ->
  leaves_aside (retry n attempt).
Proof.
  intros Ha Ht. induction n as [|n IH]; intros db Hd; [reflexivity|]. cbn. unfold st_catch.
  specialize (Ha db Hd). destruct (attempt db) as [[a|e] db1] eqn:E; [done|].
  apply Ht in E as ->. destruct (isUniqueViolation e); [by apply IH|reflexivity].
Qed.

Lemma perform_expense_aside c db : db_deferred db = [] -> aside db (perform_expense c db).
Proof.
  revert db. destruct c; cbn [perform_expense].
  - apply lift_aside. intros [[v attr] am]. apply retry_aside; [|intros db e db'; apply transaction_throw].
    apply transaction_aside. unfold create_body, create_code, create_write. solve_respects.
  - apply lift_aside. intros v. apply transaction_aside. unfold update_body, update_payee. solve_respects.
  - apply transaction_aside. solve_respects.
  - apply transaction_aside. solve_respects.
  - unfold voidExpense. cbv zeta. apply lift_aside. intros _. apply transaction_aside. solve_respects.
  - unfold promoteToAcquisitionCost. cbv zeta. apply lift_aside. intros _. apply transaction_aside. solve_respects.
  - unfold reattributeDefaults. apply lift_aside. intros _. apply lift_aside. intros _.
    apply transaction_aside. unfold window_bound. solve_respects.
  - apply transaction_aside. solve_respects.
  - apply transaction_aside. solve_respects.
  - apply transaction_aside. solve_respects.
  - apply lift_aside. intros v. apply transaction_aside. unfold addLine_body, loadExpenseForLines. solve_respects.
  - apply transaction_aside. unfold loadExpenseForLines. solve_respects.
  - apply lift_aside. intros v. apply transaction_aside. unfold setLines_body, loadExpenseForLines. solve_respects.
Qed.
