(* ===== verification/ExpenseFacts.v ===== *)
(** * The expense services: what they guarantee

    The theorems on [expenses.ts] and [lines.ts] over the refinement of
    [ExpenseRefinement]; what two guards do not see to; the reference codes and
    two operators who create at once; bulk re-attribution. *)
From S2P Require Import Prelude Decimal Calendar Inputs Store Schema Ledger LedgerFacts Books Journal.
From S2P Require Import JournalFacts Facts ExpenseTables Expenses ExpenseLines ExpenseMachine.
From S2P Require Import ExpenseRefinement.

Open Scope Z_scope.

Definition preserves (P : ExpenseState -> Prop) : relation ExpenseState := fun s s' => P s -> P s'.
#[export] Instance preserves_preorder P : PreOrder (preserves P).
Proof. split; unfold preserves; [intros ?; done|intros ???; auto]. Qed.

(** C4. The expense services refine the machine: over consistent tables every call
    of [expenses.ts] and [lines.ts], returning or throwing, leaves the three
    tables as they are or makes one move of the kind of the call, under that
    move's guard - a new expense is a draft or recorded, has an unused code and
    a split within its amount; only a draft is edited, allocated or transcribed;
    allocations and lines are written within the amount; a status only moves
    forward - and the tables stay consistent. *)
Theorem expenses_refine (c : expense_call) (db : Db) :
  tables_ok (expense_state db) ->
  expense_move (expense_state db) (call_move c) (expense_state (perform_expense c db)) /\
  tables_ok (expense_state (perform_expense c db)).
Proof.
  intros Hok. pose proof (call_moves c db Hok) as Hm. split; [exact Hm|]. by eapply tables_ok_move.
Qed.

(** C5. Evidence is kept: whatever sequence of calls is made on the expenses, no
    expense disappears; its status only moves from draft to recorded to void;
    once it left draft, its date, amount, tax, currency, category and notes, its
    allocations and its lines are what they were; a void expense keeps its payee
    and its acquisition cost; and an attribution a person chose is never
    rewritten. *)
Theorem expense_evidence_is_kept (cs : list expense_call) (db : Db) :
  tables_ok (expense_state db) ->
  evidence_kept (expense_state db) (expense_state (perform_expenses cs db)).
Proof.
  intros Hok. apply (perform_expenses_ind (fun _ => True) evidence_kept); [|done..].
  intros s m s' H1 H2 _. by eapply move_keeps_evidence.
Qed.

(** Totals stay within the amounts: through any sequence of calls without a
    [removeAllocation], the allocations of every expense add up to between zero
    and its amount, sign included; and through any sequence without an [update]
    of an amount, the absolute amounts of its lines add up to at most the
    amount.  The two calls left out are the two whose guards do not see to it. *)
Theorem expense_totals_fit (cs : list expense_call) (db : Db) :
  tables_ok (expense_state db) ->
  ((forall c, c ∈ cs -> call_move c <> Deallocate) -> allocations_fit (expense_state db) ->
   allocations_fit (expense_state (perform_expenses cs db))) /\
  ((forall c, c ∈ cs -> call_move c <> Edit) -> lines_fit (expense_state db) ->
   lines_fit (expense_state (perform_expenses cs db))).
Proof.
  intros Hok. split; intros Hall.
  - apply (proj2 (perform_expenses_ind (fun m => m <> Deallocate) (preserves allocations_fit) cs db
      allocations_fit_move Hall Hok)).
  - apply (proj2 (perform_expenses_ind (fun m => m <> Edit) (preserves lines_fit) cs db
      lines_fit_move Hall Hok)).
Qed.

(** ** Samples *)
Definition sample_split (amount : string) (entity : uuid) : AllocationInput :=
  {| ai_lineNumber := None; ai_amount := amount; ai_economicEntityId := Some entity;
     ai_acquisitionId := None; ai_catalogItemId := None; ai_channel := None;
     ai_ledgerAccountId := None; ai_dimensionValueId := None; ai_note := None |}.
Definition sample_bill (code : option string) (amount : string) (splits : list AllocationInput)
    : CreateExpenseInput :=
  {| ce_economicEntityId := None; ce_installationDefaultEntityId := Some 11%positive;
     ce_referenceCode := code; ce_expenseDate := 20260310; ce_payeeName := Some "Packing Co"%string;
     ce_payeeCounterpartyId := None; ce_category := "supplies"; ce_description := None;
     ce_currency := "usd"; ce_amount := amount; ce_taxAmount := None; ce_paymentMethod := PayCard;
     ce_acquisitionCostId := None; ce_status := None; ce_reimbursable := None;
     ce_recurringGroupKey := None; ce_notes := None; ce_createdByUserId := Some "u1"%string;
     ce_requestId := None; ce_allocations := splits |}.
Definition sample_receipt_line (expense : uuid) (amount : string) : AddLineInput :=
  {| nl_line := {| ni_lineNumber := None; ni_description := Some "Boxes"%string; ni_quantity := None;
                   ni_unitAmount := None; ni_lineAmount := amount; ni_lineKind := None; ni_unit := None;
                   ni_documentLineCandidateId := None; ni_note := None |};
     nl_expenseId := expense; nl_actorUserId := Some "u1"%string; nl_requestId := None |}.
Definition new_amount (expense : uuid) (amount : string) : UpdateExpenseInput :=
  {| ue_expenseId := expense; ue_expenseDate := None; ue_payeeName := None;
     ue_payeeCounterpartyId := None; ue_category := None; ue_description := None; ue_currency := None;
     ue_amount := Some amount; ue_taxAmount := None; ue_paymentMethod := None;
     ue_acquisitionCostId := None; ue_reimbursable := None; ue_recurringGroupKey := None;
     ue_notes := None; ue_actorUserId := Some "u1"%string; ue_requestId := None |}.

Definition empty_db : Db := installation ["u1"%string] sample_entities [].

(** A bill of 100 split as 120 of supplies less a rebate of 20. *)
Definition rebate_bill : CreateExpenseInput :=
  sample_bill None "100.00" [sample_split "120.00" 11; sample_split "-20" 12].
Definition rebate_db : Db := snd (create rebate_bill empty_db).

Lemma empty_tables db :
  db_expenses db = [] -> db_allocations db = [] -> db_expense_lines db = [] -> tables_ok (expense_state db).
Proof. intros E1 E2 E3. split; cbn; rewrite ?E1, ?E2, ?E3; constructor. Qed.

Lemma rebate_reached : rebate_db = perform_expense (CreateExpense rebate_bill) empty_db.
Proof. unfold rebate_db, perform_expense. reflexivity. Qed.

Lemma rebate_tables : tables_ok (expense_state rebate_db).
Proof.
  rewrite rebate_reached. assert (tables_ok (expense_state empty_db)) as Hok by (by apply empty_tables).
  eapply tables_ok_move; [exact Hok|]. apply call_moves, Hok.
Qed.

Lemma expenses_refine_witness :
  expense_move (expense_state empty_db) Create (expense_state rebate_db) /\
  db_expenses rebate_db <> [] /\ length (db_allocations rebate_db) = 2%nat.
Proof.
  split; [|split; [vm_compute; discriminate|vm_compute; reflexivity]].
  rewrite rebate_reached. apply (expenses_refine (CreateExpense rebate_bill) empty_db).
  by apply empty_tables.
Defined.

(** The bill submitted, then an attempt on each of its parts. *)
Definition tampering : list expense_call :=
  [SubmitExpense 100 (Some "u1"%string) None; UpdateExpense (new_amount 100 "1.00");
   SetAllocations 100 [] (Some "u1"%string) None; AddLine (sample_receipt_line 100 "5.00");
   VoidExpense 100 "wrong receipt" (Some "u1"%string) None].

Lemma expense_evidence_is_kept_witness :
  evidence_kept (expense_state rebate_db) (expense_state (perform_expenses tampering rebate_db)) /\
  ((fun e => (ex_status e, ex_amount e)) <$> db_expenses (perform_expenses tampering rebate_db))
  = [(ExpenseVoid, 100000000)] /\
  length (db_allocations (perform_expenses tampering rebate_db)) = 2%nat.
Proof.
  split; [|split; vm_compute; reflexivity].
  apply (expense_evidence_is_kept tampering rebate_db), rebate_tables.
Defined.

Definition transcribing : list expense_call :=
  [AddLine (sample_receipt_line 100 "60"); AddLine (sample_receipt_line 100 "-30");
   AddLine (sample_receipt_line 100 "30")].

Lemma allocations_fit_check s :
  forallb (fun e => within (ex_amount e) (allocated (xs_allocations s) (ex_id e))) (xs_expenses s) = true ->
  allocations_fit s.
Proof. rewrite forallb_elem. done. Qed.
Lemma lines_fit_check s :
  forallb (fun e => transcribed (xs_lines s) (ex_id e) <=? Z.abs (ex_amount e)) (xs_expenses s) = true ->
  lines_fit s.
Proof. rewrite forallb_elem. intros H e He. by apply Z.leb_le, H. Qed.
Lemma transcribing_moves c : c ∈ transcribing -> call_move c = Transcribe.
Proof. intros Hc. repeat (apply elem_of_cons in Hc as [->|Hc]; [done|]). by apply not_elem_of_nil in Hc. Qed.

Lemma expense_totals_fit_witness :
  allocations_fit (expense_state (perform_expenses transcribing rebate_db)) /\
  lines_fit (expense_state (perform_expenses transcribing rebate_db)) /\
  transcribed (db_expense_lines (perform_expenses transcribing rebate_db)) 100 = 90000000.
Proof.
  destruct (expense_totals_fit transcribing rebate_db rebate_tables) as [H1 H2].
  split; [|split; [|vm_compute; reflexivity]].
  - apply H1; [intros c Hc; rewrite (transcribing_moves c Hc); discriminate|].
    apply allocations_fit_check. vm_compute. reflexivity.
  - apply H2; [intros c Hc; rewrite (transcribing_moves c Hc); discriminate|].
    apply lines_fit_check. vm_compute. reflexivity.
Defined.

(** ** What two guards do not see to *)

(** Removing an allocation can leave the expense over-allocated: of a bill of
    100 split as 120 and -20, the rebate is removed without a complaint; the
    allocations then add up to 120, and the expense is submitted, after which
    they can no longer be corrected. *)
Theorem removal_over_allocates :
  within 100000000 (allocated (db_allocations rebate_db) 100) = true /\
  let '(removed, db1) := removeAllocation 102 (Some "u1"%string) None rebate_db in
  let '(submitted, db2) := submit 100 (Some "u1"%string) None db1 in
  removed = Ok tt /\ is_ok submitted = true /\
  allocated (db_allocations db2) 100 = 120000000 /\
  fst (setAllocations 100 [] (Some "u1"%string) None db2) = Throw ExpenseNotEditableError.
Proof. vm_compute. repeat split. Qed.

Definition receipt_db : Db :=
  snd (addLine (sample_receipt_line 100 "100.00") (snd (create (sample_bill None "100.00" []) empty_db))).

(** Reducing the amount of an expense does not look at its lines: a receipt of
    100 fully transcribed is edited down to 60, its lines still add up to 100,
    and the summary reports that they no longer fit. *)
Theorem update_over_transcribes :
  transcribed (db_expense_lines receipt_db) 100 = 100000000 /\
  let '(updated, db1) := update (new_amount 100 "60.00") receipt_db in
  is_ok updated = true /\ transcribed (db_expense_lines db1) 100 = 100000000 /\
  match fst (lineSummary 100 db1) with
  | Ok s => ls_expenseAmount s = "60.000000"%string /\ ls_fitsWithinExpense s = false
  | Throw _ => False
  end.
Proof. vm_compute. repeat split. Qed.

(** ** Reference codes *)
Lemma sequence_text k : 0 <= k ->
  let s := Js.pad_start 4 "0" (Js.bigint_to_string k) in
  Js.all_digits s = true /\ Js.bigint s = k /\ s <> EmptyString.
Proof.
  intros Hk s. destruct (bigint_to_string_spec k Hk) as (H1 & H2 & H3). unfold s, Js.pad_start.
  split; [by rewrite all_digits_append, all_digits_zeros|]. split; [by rewrite bigint_zeros|].
  intros E. apply H3. revert E. by destruct (4 - _)%nat.
Qed.

Lemma year_text y : 1000 <= y <= 9999 -> String.length (Js.bigint_to_string y) = 4%nat.
Proof.
  intros Hy.
  assert (forallb (fun i => (String.length (Js.bigint_to_string (1000 + Z.of_nat i)) =? 4)%nat) (seq 0 (Z.to_nat 9000)) = true) as H
    by (vm_compute; reflexivity).
  rewrite forallb_elem in H. specialize (H (Z.to_nat (y - 1000))). rewrite Z2Nat.id in H by lia.
  replace (1000 + (y - 1000)) with y in H by lia. apply Nat.eqb_eq, H, elem_of_seq. lia.
Qed.

Lemma starts_with_append p s : Js.starts_with p (String.append p s) = true.
Proof.
  induction p as [|c p IH]; [done|]. change (String.append (String c p) s) with (String c (String.append p s)).
  cbn [Js.starts_with]. by rewrite Ascii.eqb_refl.
Qed.

(** The sequence of a generated code is read back. *)
Lemma code_sequence_spec year k : 1000 <= year <= 9999 -> 0 <= k ->
  exists digits, code_sequence (expenseReferenceCode year k) = Some digits /\ Js.bigint digits = k.
Proof.
  intros Hy Hk. destruct (sequence_text k Hk) as (H1 & H2 & H3).
  pose proof (year_text year Hy) as Hl. destruct (bigint_to_string_spec year ltac:(lia)) as (Hd & _ & _).
  exists (Js.pad_start 4 "0" (Js.bigint_to_string k)). split; [|done].
  unfold expenseReferenceCode, code_prefix, code_sequence, concat_text. cbn [foldr].
  set (digits := Js.pad_start 4 "0" (Js.bigint_to_string k)) in *. clearbody digits.
  destruct (Js.bigint_to_string year) as [|a [|b [|c [|d [|]]]]]; try discriminate Hl.
  change (String.append (String.append "EXP-" (String.append (String a (String b (String c (String d ""))))
    (String.append "-" ""))) digits)
    with (String.append (String "E" (String "X" (String "P" (String "-" (String a (String b (String c (String d
      "-")))))))) digits).
  set (prefix := String "E" _). assert (Js.slice_from 9 (String.append prefix digits) = digits) as ->
    by apply (slice_from_append prefix).
  change (Js.slice 4 8 (String.append prefix digits)) with (String a (String b (String c (String d "")))).
  change (Js.slice 0 4 (String.append prefix digits)) with "EXP-"%string.
  assert (Js.slice 8 9 (String.append prefix digits) = "-"%string) as -> by (by destruct digits).
  rewrite H1, Hd. by destruct digits.
Qed.

Lemma integer_cast_run ds db zs db' :
  st_mapM integer_cast ds db = (Ok zs, db') -> zs = Js.bigint <$> ds /\ db' = db.
Proof.
  revert db zs. induction ds as [|d ds IH]; intros db zs H; cbn in H; [by apply st_ret_inv in H|].
  run_bind H z s Hz. run_bind H zs1 s1 Hzs. apply st_ret_inv in H as [-> ->].
  unfold integer_cast in Hz. destruct (int4 _); [|discriminate Hz]. apply st_ret_inv in Hz as [-> ->].
  by apply IH in Hzs as [-> ->].
Qed.

Lemma foldr_max_le (l : list Z) x : x ∈ l -> x <= foldr Z.max 0 l.
Proof. induction 1 as [x l|x y l _ IH]; cbn [foldr]; lia. Qed.
Lemma foldr_max_nonneg (l : list Z) : 0 <= foldr Z.max 0 l.
Proof. induction l as [|x l IH]; cbn [foldr]; lia. Qed.

Lemma generated_code year db c db' :
  1000 <= year <= 9999 -> generateReferenceCode year db = (Ok c, db') ->
  exists n, 1 <= n /\ c = expenseReferenceCode year n /\
    forall e k, e ∈ db_expenses db -> 0 <= k -> ex_referenceCode e = expenseReferenceCode year k -> k < n.
Proof.
  intros Hy H. unfold generateReferenceCode in H. run_bind H d s Hd. apply st_get_inv in Hd as [-> ->].
  cbv zeta in H. run_bind H zs s Hz. apply st_ret_inv in H as [-> _]. apply integer_cast_run in Hz as [-> _].
  eexists. split; [|split; [reflexivity|]].
  { pose proof (foldr_max_nonneg (Js.bigint <$> omap code_sequence (List.filter (Js.starts_with (code_prefix year))
      (ex_referenceCode <$> db_expenses db)))). lia. }
  intros e k He Hk Hc. apply Z.lt_succ_r, foldr_max_le.
  destruct (code_sequence_spec year k Hy Hk) as (ds & Hs & <-). apply list_elem_of_fmap_2.
  apply list_elem_of_omap. exists (ex_referenceCode e). rewrite Hc. split; [|done].
  apply elem_of_bool_filter. split; [apply starts_with_append|]. rewrite <- Hc. by apply list_elem_of_fmap_2.
Qed.

Lemma integer_casts_run ds (db : Db) :
  (forall d, d ∈ ds -> int4 (Js.bigint d) = true) -> st_mapM integer_cast ds db = (Ok (Js.bigint <$> ds), db).
Proof.
  induction ds as [|d ds IH]; intros H; [done|]. cbn [st_mapM]. erewrite st_bind_run.
  - erewrite st_bind_run; [reflexivity|]. apply IH. intros x Hx. apply H. set_solver.
  - unfold integer_cast. by rewrite (H d) by set_solver.
Qed.

(** A generated reference code is the next one: for a year of four digits, and
    as long as the sequences in use fit an [integer], a code is generated, its
    sequence is above that of every code of the year, and no expense has it. *)
Theorem generated_code_is_next (year : Z) (db : Db) :
  1000 <= year <= 9999 ->
  (forall e digits, e ∈ db_expenses db -> code_sequence (ex_referenceCode e) = Some digits ->
     int4 (Js.bigint digits) = true) ->
  exists n, generateReferenceCode year db = (Ok (expenseReferenceCode year n), db) /\ 1 <= n /\
    (forall e k, e ∈ db_expenses db -> 0 <= k -> ex_referenceCode e = expenseReferenceCode year k -> k < n) /\
    expenseReferenceCode year n ∉ (ex_referenceCode <$> db_expenses db).
Proof.
  intros Hy Hr.
  assert (exists c, generateReferenceCode year db = (Ok c, db)) as [c Hc].
  { unfold generateReferenceCode. erewrite st_bind_run by done. cbv zeta. erewrite st_bind_run; [by eexists|].
    apply integer_casts_run. intros d (code & Hin & Hd)%list_elem_of_omap.
    apply elem_of_bool_filter in Hin as [_ (e & -> & He)%list_elem_of_fmap]. by apply (Hr e). }
  destruct (generated_code _ _ _ _ Hy Hc) as (n & Hn & -> & Hlt). exists n. split; [done|]. split; [done|].
  split; [done|]. intros (e & E & He)%list_elem_of_fmap. specialize (Hlt e n He ltac:(lia) (eq_sym E)). lia.
Qed.

Lemma generated_code_is_next_witness :
  exists n, generateReferenceCode 2026 rebate_db = (Ok (expenseReferenceCode 2026 n), rebate_db) /\ 1 < n.
Proof.
  destruct (generated_code_is_next 2026 rebate_db) as (n & Hn & _ & Hlt & _).
  - lia.
  - intros e digits He Hs. assert (forallb (fun e => match code_sequence (ex_referenceCode e) with
      | Some d => int4 (Js.bigint d) | None => true end) (db_expenses rebate_db) = true) as H by (vm_compute; reflexivity).
    rewrite forallb_elem in H. specialize (H e He). by rewrite Hs in H.
  - exists n. split; [exact Hn|].
    assert (existsb (fun e => String.eqb (ex_referenceCode e) (expenseReferenceCode 2026 1)) (db_expenses rebate_db)
            = true) as H by (vm_compute; reflexivity).
    rewrite existsb_elem in H. destruct H as (e & He & E%String.eqb_eq). apply (Hlt e 1 He ltac:(lia) E).
Defined.

(** A code an operator typed, whose sequence an [integer] does not hold. *)
Definition typed_code_db : Db := snd (create (sample_bill (Some "EXP-2026-9999999999"%string) "5.00" []) empty_db).

(** One typed code stops the generator: an operator may give an expense the
    code [EXP-2026-9999999999]; an expense of 2026 without a typed code is then
    refused, the generator's cast of that sequence overflowing. *)
Theorem typed_code_stops_generator :
  is_ok (fst (create (sample_bill (Some "EXP-2026-9999999999"%string) "5.00" []) empty_db)) = true /\
  fst (create (sample_bill None "5.00" []) typed_code_db) = Throw (SqlError "22003").
Proof. split; vm_compute; reflexivity. Qed.

(** ** Two operators at once *)

(** [create] when another transaction [env] commits between the read of the
    codes in use and the insert. *)
Definition create_raced (env : Db -> Db) (input : CreateExpenseInput)
    : run (Expense * list ExpenseAllocation) :=
  checked ← st_lift (create_checked input);
  let '(value, attribution, amount) := checked in
  code ← create_code value;
  _ ← st_modify env;
  st_catch (transaction (create_write value attribution amount code)) (fun error =>
    if isUniqueViolation error then retry 4 (transaction (create_body value attribution amount))
    else st_throw error).

Lemma retry_ok {A} n (attempt : run A) db a db' :
  (forall e s, attempt db = (Throw e, s) -> s = db) ->
  retry n attempt db = (Ok a, db') -> attempt db = (Ok a, db').
Proof.
  intros Ht. induction n as [|n IH]; [intros [=]|]. cbn. unfold st_catch.
  destruct (attempt db) as [[b|e] s] eqn:E; [done|]. rewrite (Ht e s) by done.
  destruct (isUniqueViolation e); [|intros [=]]. intros H. apply IH in H. discriminate H.
Qed.

Definition sequences (year : Z) (rows : list Expense) : list string :=
  omap code_sequence (List.filter (Js.starts_with (code_prefix year)) (ex_referenceCode <$> rows)).

Lemma generate_run year db :
  generateReferenceCode year db
  = (zs ← st_mapM integer_cast (sequences year (db_expenses db));
     mret (expenseReferenceCode year (foldr Z.max 0 zs + 1))) db.
Proof. reflexivity. Qed.

Lemma casts_same ds (db db' : Db) : fst (st_mapM integer_cast ds db') = fst (st_mapM integer_cast ds db).
Proof.
  induction ds as [|d ds IH]; [done|]. cbn [st_mapM]. unfold mbind, St_bind, integer_cast in *.
  destruct (int4 (Js.bigint d)); [|done]. cbn [mret St_ret].
  destruct (st_mapM _ ds db') as [[]], (st_mapM _ ds db) as [[]]; cbn [fst] in *; by simplify_eq.
Qed.

Lemma generate_same year db db' :
  db_expenses db' = db_expenses db -> fst (generateReferenceCode year db') = fst (generateReferenceCode year db).
Proof.
  intros E. rewrite !generate_run, E. pose proof (casts_same (sequences year (db_expenses db)) db db') as Hm.
  unfold mbind, St_bind.
  destruct (st_mapM _ _ db') as [[]], (st_mapM _ _ db) as [[]]; cbn [fst] in *; by simplify_eq.
Qed.

(** A write that succeeds with one code throws 23505 with a code in use. *)
Lemma create_write_taken value attr amount code code' db out db' :
  create_write value attr amount code' db = (Ok out, db') ->
  code ∈ (ex_referenceCode <$> db_expenses db) ->
  exists s, create_write value attr amount code db = (Throw (SqlError "23505"), s).
Proof.
  intros H Hc. unfold create_write in *. run_bind H payee s Hp. assert (s = db) as -> by
    (eapply reads_run; [|exact Hp]; solve_respects).
  run_bind H tax s Ht. assert (s = db) as -> by (by apply st_lift_inv in Ht as [_ ->]).
  run_bind H day s Hd. assert (s = db) as -> by (by apply date_in_inv in Hd as (_ & _ & ->)).
  run_bind H a s Ha. assert (s = db) as -> by (by apply numeric_in_inv in Ha as (_ & _ & ->)).
  run_bind H t s Ht2. assert (s = db) as -> by (by apply numeric_in_inv in Ht2 as (_ & _ & ->)).
  rewrite (st_bind_run _ _ _ _ _ Hp), (st_bind_run _ _ _ _ _ Ht), (st_bind_run _ _ _ _ _ Hd),
    (st_bind_run _ _ _ _ _ Ha), (st_bind_run _ _ _ _ _ Ht2).
  run_bind H e s He. apply insertExpense_inv in He as (-> & _ & Hnz & _ & _). cbn in Hnz.
  eexists. apply st_bind_throw. unfold insertExpense. erewrite !st_bind_run by done. cbv zeta.
  erewrite st_bind_run by (unfold expense_checks; cbn; by rewrite (proj2 (Z.eqb_neq _ _) Hnz)).
  apply st_bind_throw. unfold ensure. apply list_elem_of_fmap in Hc as (x & -> & Hx).
  assert (forallb (fun r => bool_decide (ex_referenceCode r <> ex_referenceCode x)) (db_expenses db) = false) as Hf.
  { apply not_true_iff_false. rewrite forallb_elem. intros Hall. specialize (Hall x Hx).
    by apply bool_decide_eq_true in Hall. }
  cbn. cbn in Hf. rewrite Hf, andb_false_r. reflexivity.
Qed.

Lemma create_checked_code i v attr am :
  create_checked i = Ok (v, attr, am) -> ce_referenceCode i = None ->
  ce_referenceCode v = None /\ ce_expenseDate v = ce_expenseDate i.
Proof.
  intros H Hc. unfold create_checked in H. apply bind_Ok in H as (v' & Hv & H).
  repeat (apply bind_Ok in H as (? & _ & H)). injection H as -> _ _.
  unfold createExpenseSchema in Hv. rewrite Hc in Hv. cbn [z_opt] in Hv.
  repeat (apply bind_Ok in Hv as (? & ? & Hv)).
  repeat match goal with G : mret _ = Ok _ |- _ => injection G as <- | G : z_date _ = Ok _ |- _ =>
    apply bind_Ok in G as (? & _ & G) end. done.
Qed.

(** What a [create] that returned did: its attempt returned, with a code free in
    the store it started from. *)
Lemma create_returned i db o db' :
  create i db = (Ok o, db') -> ce_referenceCode i = None ->
  exists v attr am code, create_checked i = Ok (v, attr, am) /\ ce_referenceCode v = None /\
    fst (generateReferenceCode (year_of (ce_expenseDate i)) db) = Ok code /\
    transaction (create_body v attr am) db = (Ok o, db') /\
    (exists s, create_write v attr am code (begin_tx db) = (Ok o, s)) /\
    ex_referenceCode o.1 = code /\ code ∉ (ex_referenceCode <$> db_expenses db) /\
    code ∈ (ex_referenceCode <$> db_expenses db').
Proof.
  intros H Hc. unfold create in H. run_bind H x s Hx. apply st_lift_inv in Hx as [Hx ->].
  destruct x as [[v attr] am]. destruct (create_checked_code _ _ _ _ Hx Hc) as [Hvc Hd].
  apply retry_ok in H; [|intros e s; apply transaction_throw]. pose proof H as Ht.
  apply transaction_inv in H as (s & Hb & _ & ->). unfold create_body, create_code in Hb. rewrite Hvc, Hd in Hb.
  run_bind Hb code s1 Hg. pose proof Hg as Hr. apply reads_run in Hr as ->; [|solve_respects].
  assert (fst (generateReferenceCode (year_of (ce_expenseDate i)) db) = Ok code) as Hg'.
  { rewrite (generate_same _ (begin_tx db) db) by done. by rewrite Hg. }
  exists v, attr, am, code. split; [done|]. split; [done|]. split; [done|]. split; [done|].
  split; [by exists s|]. unfold create_write in Hb.
  do 5 (skip Hb).
  run_bind Hb e s2 He. apply insertExpense_inv in He as (-> & Es & _ & _ & Hf).
  run_bind Hb rows s3 Hr. apply insertAllocations_inv in Hr as (Es2 & _ & _).
  run_bind Hb w s4 Hu. apply audit_append_state in Hu. apply st_ret_inv in Hb as [-> ->].
  split; [done|]. split; [exact Hf|]. rewrite Es2, Es in Hu. injection Hu as Hu _ _. cbn. rewrite Hu.
  rewrite fmap_app, elem_of_app. right. by apply list_elem_of_singleton.
Qed.

(** Two operators who create an expense of the same year at once both succeed:
    if one commits between the moment the other reads the codes in use and its
    insert, the other's insert fails on the unique code, the retry draws the
    next code, and it returns and leaves exactly what it would have had it
    started after the first. *)
Theorem create_race_serializable (first second : CreateExpenseInput) (db db1 db2 : Db)
    (o out : Expense * list ExpenseAllocation) :
  ce_referenceCode first = None -> ce_referenceCode second = None ->
  year_of (ce_expenseDate first) = year_of (ce_expenseDate second) ->
  create first db = (Ok o, db1) -> create second db1 = (Ok out, db2) ->
  create_raced (fun d => snd (create first d)) second db = (Ok out, db2) /\
  ex_referenceCode out.1 <> ex_referenceCode o.1.
Proof.
  intros H1 H2 Hy Hf Hs.
  destruct (create_returned _ _ _ _ Hf H1) as (_ & _ & _ & code & _ & _ & Hg & _ & _ & Eo & _ & Hin).
  destruct (create_returned _ _ _ _ Hs H2) as (v & attr & am & code' & Hc & Hvc & _ & Ht & (s & Hw) & Eo' & Hfree & _).
  split; [|rewrite Eo, Eo'; intros ->; by apply Hfree].
  unfold create_raced. rewrite Hc. erewrite st_bind_run by reflexivity. cbv beta iota.
  assert (create_code v db = (Ok code, db)) as Hcode.
  { unfold create_code. rewrite Hvc. destruct (create_checked_code _ _ _ _ Hc H2) as [_ ->]. rewrite <- Hy.
    destruct (generateReferenceCode (year_of (ce_expenseDate first)) db) as [r s'] eqn:E.
    assert (s' = db) as -> by (by eapply reads_run; [|exact E]; solve_respects). cbn in Hg. by rewrite Hg. }
  rewrite (st_bind_run _ _ _ _ _ Hcode).
  erewrite st_bind_run by (unfold st_modify; by rewrite Hf).
  cbn [snd]. unfold st_catch at 1. unfold transaction at 1.
  destruct (create_write_taken _ _ _ code _ _ _ _ Hw Hin) as [s' ->].
  change (isUniqueViolation (SqlError "23505")) with true. cbv iota beta. cbn [retry].
  unfold st_catch at 1. by rewrite Ht.
Qed.

Lemma create_race_serializable_witness :
  let bill := sample_bill None "5.00" [] in
  match fst (create_raced (fun d => snd (create bill d)) bill rebate_db) with
  | Ok out => ex_referenceCode out.1 = "EXP-2026-0003"%string
  | Throw _ => False
  end.
Proof.
  intros bill.
  destruct (create bill rebate_db) as [[o|e] db1] eqn:E1.
  2:{ exfalso. assert (is_ok (fst (create bill rebate_db)) = true) as H by (vm_compute; reflexivity).
      rewrite E1 in H. discriminate H. }
  destruct (create bill db1) as [[out|e] db2] eqn:E2.
  2:{ exfalso. assert (is_ok (fst (create bill (snd (create bill rebate_db)))) = true) as H by (vm_compute; reflexivity).
      rewrite E1 in H. cbn [snd] in H. rewrite E2 in H. discriminate H. }
  destruct (create_race_serializable bill bill rebate_db db1 db2 o out) as [H _]; [reflexivity..|exact E1|exact E2|].
  rewrite H. cbn [fst].
  assert (match fst (create bill (snd (create bill rebate_db))) with
    | Ok out => ex_referenceCode out.1 = "EXP-2026-0003"%string | Throw _ => False end) as Hc by (vm_compute; reflexivity).
  rewrite E1 in Hc. cbn [snd] in Hc. rewrite E2 in Hc. exact Hc.
Defined.

(** ** Bulk re-attribution *)
Definition bound_valid (t : option date) : Prop := match t with None => True | Some t => valid_date t = true end.

Lemma window_bound_run t db : bound_valid t -> window_bound t db = (Ok tt, db).
Proof.
  destruct t as [t|]; [|done]. cbn. intros Hv. unfold window_bound, date_in.
  erewrite st_bind_run by (rewrite Hv; reflexivity). done.
Qed.

Lemma window_shape_valid t :
  bound_valid t -> throw_if (negb (match t with None => true | Some t => iso_shape t end)) AccountingValidationError
                   = Ok tt.
Proof. destruct t as [t|]; [|done]. cbn. intros Hv. unfold valid_date in Hv. by destruct (iso_shape t). Qed.

Lemma length_filter_none {A} (p : A -> bool) l : (forall x, x ∈ l -> p x = false) -> List.filter p l = [].
Proof.
  induction l as [|x l IH]; intros H; [done|]. cbn. rewrite (H x) by set_solver. apply IH.
  intros y Hy. apply H. set_solver.
Qed.

(** What one run returns and does to the expenses. *)
Lemma reattribute_run entity from to actor request db :
  tables_ok (expense_state db) -> exists_id ent_id entity (db_entities db) = true ->
  bound_valid from -> bound_valid to ->
  exists db', reattributeDefaults entity from to actor request db
    = (Ok (length (List.filter (reattributable entity from to) (db_expenses db))), db') /\
    db_expenses db' = update_rows (reattributable entity from to) (reattributed entity (db_now db + 1)) (db_expenses db) /\
    db_entities db' = db_entities db /\ db_now db' = db_now db + 1.
Proof.
  intros Hok Hent Hf Ht. unfold reattributeDefaults. rewrite !window_shape_valid by done.
  erewrite !st_bind_run by reflexivity. set (p := reattributable entity from to).
  assert (updateExpenses p (reattributed entity (db_now db + 1)) (begin_tx db)
    = (Ok tt, set_expenses (update_rows p (reattributed entity (db_now db + 1)) (db_expenses db)) (begin_tx db))) as Hu.
  { unfold updateExpenses. erewrite st_bind_run by done. erewrite st_bind_run.
    2:{ unfold ensure. rewrite (proj2 (forallb_elem _ _)); [reflexivity|]. intros e He.
        pose proof (to_amounts _ Hok) as Hamt. rewrite Forall_forall in Hamt. specialize (Hamt e He).
        unfold expense_checks. cbn. rewrite (proj2 (Z.eqb_neq _ _) Hamt). by rewrite orb_true_r. }
    erewrite st_bind_run.
    2:{ unfold ensure. rewrite (proj2 (forallb_elem _ _)); [reflexivity|]. intros e He.
        apply orb_true_iff. right. unfold expense_update_fks, fk_kept. rewrite !andb_true_iff, !orb_true_iff.
        split; [split|]; [right; exact Hent|left; by apply bool_decide_eq_true..]. }
    reflexivity. }
  unfold transaction. erewrite st_bind_run by (by apply window_bound_run).
  erewrite st_bind_run by (by apply window_bound_run). erewrite st_bind_run by reflexivity. cbv zeta.
  erewrite st_bind_run by (exact Hu).
  change (db_expenses (begin_tx db)) with (db_expenses db).
  destruct (0 <? length (List.filter p (db_expenses db)))%nat; (erewrite st_bind_run by reflexivity); cbn [mret St_ret];
    (eexists; split; [reflexivity|]; done).
Qed.

(** Bulk re-attribution rewrites what it may and nothing else: for an existing
    entity and real dates it returns the number of expenses of the window whose
    attribution is a default or none and whose entity differs; exactly those
    carry the entity afterwards, marked [installation_default]; an attribution a
    person chose is not among them; and a second run finds none. *)
Theorem reattribution_spec (entity : uuid) (from to : option date) (actor request : option string) (db : Db) :
  tables_ok (expense_state db) -> exists_id ent_id entity (db_entities db) = true ->
  bound_valid from -> bound_valid to ->
  let p := reattributable entity from to in
  exists db', reattributeDefaults entity from to actor request db
    = (Ok (length (List.filter p (db_expenses db))), db') /\
    db_expenses db' = update_rows p (reattributed entity (db_now db + 1)) (db_expenses db) /\
    (forall e, ex_entityAttributionSource e = AttrManual -> p e = false) /\
    exists db2, reattributeDefaults entity from to actor request db' = (Ok 0%nat, db2) /\
      db_expenses db2 = db_expenses db'.
Proof.
  intros Hok Hent Hf Ht p.
  destruct (reattribute_run entity from to actor request db Hok Hent Hf Ht) as (db' & Hr & He & Hen & _).
  exists db'. split; [exact Hr|]. split; [exact He|]. split.
  { intros e Em. unfold p, reattributable. rewrite Em. cbn. done. }
  assert (forall e, e ∈ db_expenses db' -> p e = false) as Hnone.
  { rewrite He. intros e (x & _ & ->)%update_rows_elem. fold p. destruct (p x) eqn:Ep; [|exact Ep].
    unfold p, reattributable. cbn [ex_economicEntityId reattributed]. unfold opt_eqb.
    rewrite (bool_decide_true (Some entity = Some entity)) by done. cbn [negb]. by rewrite andb_false_r. }
  assert (tables_ok (expense_state db')) as Hok'.
  { pose proof (call_moves (ReattributeExpenses entity from to actor request) db Hok) as Hm.
    cbn [perform_expense] in Hm. rewrite Hr in Hm. by eapply tables_ok_move. }
  rewrite <- Hen in Hent.
  destruct (reattribute_run entity from to actor request db' Hok' Hent Hf Ht) as (db2 & Hr2 & He2 & _).
  exists db2. rewrite Hr2, He2. fold p. split; [by rewrite length_filter_none|].
  by apply update_rows_none.
Qed.

Lemma reattribution_spec_witness :
  exists db', reattributeDefaults 12 (Some 20260101) None (Some "u1"%string) None rebate_db = (Ok 1%nat, db') /\
    ex_economicEntityId <$> db_expenses db' = [Some 12%positive].
Proof.
  destruct (reattribution_spec 12 (Some 20260101) None (Some "u1"%string) None rebate_db rebate_tables)
    as (db' & Hr & He & _); [vm_compute; reflexivity|reflexivity|exact I|].
  exists db'. rewrite Hr, He. split; vm_compute; reflexivity.
Defined.

(** An operator's explicit [null] is recorded as [unattributed], which the bulk run
    rewrites like an omission. *)
Definition no_entity_bill : CreateExpenseInput :=
  let b := sample_bill None "5.00" [] in
  {| ce_economicEntityId := Some None; ce_installationDefaultEntityId := ce_installationDefaultEntityId b;
     ce_referenceCode := None; ce_expenseDate := ce_expenseDate b; ce_payeeName := None;
     ce_payeeCounterpartyId := None; ce_category := ce_category b; ce_description := None;
     ce_currency := "USD"; ce_amount := ce_amount b; ce_taxAmount := None; ce_paymentMethod := PayCash;
     ce_acquisitionCostId := None; ce_status := None; ce_reimbursable := None;
     ce_recurringGroupKey := None; ce_notes := None; ce_createdByUserId := Some "u1"%string;
     ce_requestId := None; ce_allocations := [] |}.
Example deliberate_none_is_claimed :
  let db1 := snd (create no_entity_bill empty_db) in
  (ex_economicEntityId <$> db_expenses db1) = [None] /\
  (ex_economicEntityId <$> db_expenses (snd (reattributeDefaults 11 None None None None db1)))
  = [Some 11%positive].
Proof. vm_compute. split; reflexivity. Qed.
