(* ===== verification/DnsDiff.v ===== *)
(** * The DNS reconciler's diff

    [packages/infrastructure/src/reconcile.ts] and the record shapes of
    [port.ts]: desired records against those the provider has, and the
    operations a difference implies.  A group is the records of one type and
    name; inside it contents are matched first and the rest by position. *)
From S2P Require Import Prelude Decimal Schema.

(** ** The records *)
Record ObservedDnsRecord : Type := {
  od_externalRecordId : string;
  od_type : string;
  od_name : string;
  od_content : string;
  od_ttlSeconds : option Z;
  od_priority : option Z;
  od_proxied : bool;
  od_proxiable : bool;
}.

Inductive DnsRecordOwner : Type :=
  | OwnerApex | OwnerWildcard | OwnerCaa | OwnerMail | OwnerProxyResource | OwnerManual.
#[export] Instance DnsRecordOwner_eq_dec : EqDecision DnsRecordOwner.
Proof. solve_decision. Defined.

Record IntentRecord : Type := {
  it_id : uuid;
  it_type : string;
  it_name : string;
  it_content : string;
  it_ttlSeconds : option Z;
  it_priority : option Z;
  it_proxied : bool;
  it_owner : DnsRecordOwner;
  it_externalRecordId : option string;
}.

#[export] Instance ObservedDnsRecord_eq_dec : EqDecision ObservedDnsRecord.
Proof. solve_decision. Defined.
#[export] Instance IntentRecord_eq_dec : EqDecision IntentRecord.
Proof. solve_decision. Defined.

Inductive DnsAttribute : Type := ContentDiffers | ProxiedDiffers | TtlDiffers | PriorityDiffers.

(** One list per kind of entry; [entries] is their concatenation. *)
Record DnsDiff : Type := {
  df_missing : list IntentRecord;
  df_modified : list (IntentRecord * ObservedDnsRecord * list DnsAttribute);
  df_unexpected : list ObservedDnsRecord;
  df_unchanged : list (IntentRecord * ObservedDnsRecord);
}.

Inductive DnsDiffEntry : Type :=
  | MissingDiff (intent : IntentRecord)
  | ModifiedDiff (intent : IntentRecord) (observed : ObservedDnsRecord) (changed : list DnsAttribute)
  | UnexpectedDiff (observed : ObservedDnsRecord)
  | UnchangedDiff (intent : IntentRecord) (observed : ObservedDnsRecord).

Definition entries (d : DnsDiff) : list DnsDiffEntry :=
  (MissingDiff <$> df_missing d)
  ++ ((fun '(i, o, changed) => ModifiedDiff i o changed) <$> df_modified d)
  ++ (UnexpectedDiff <$> df_unexpected d)
  ++ ((fun '(i, o) => UnchangedDiff i o) <$> df_unchanged d).

Definition pairKey (type name : string) : string := (type ++ " " ++ name)%string.
Definition intent_key (i : IntentRecord) : string := pairKey (it_type i) (it_name i).
Definition observed_key (o : ObservedDnsRecord) : string := pairKey (od_type o) (od_name o).

Definition changedAttributes (i : IntentRecord) (o : ObservedDnsRecord) : list DnsAttribute :=
  (if String.eqb (it_content i) (od_content o) then [] else [ContentDiffers])
  ++ (if Bool.eqb (it_proxied i) (od_proxied o) then [] else [ProxiedDiffers])
  ++ (if bool_decide (it_ttlSeconds i = od_ttlSeconds o) then [] else [TtlDiffers])
  ++ (if bool_decide (it_priority i = od_priority o) then [] else [PriorityDiffers]).

(** ** Grouping: a JavaScript [Map] of arrays, in insertion order *)
Section groups.
Context {A : Type}.

Fixpoint push_bucket (key : string) (x : A) (m : list (string * list A)) : list (string * list A) :=
  match m with
  | [] => [(key, [x])]
  | (k, bucket) :: m' =>
      if String.eqb k key then (k, bucket ++ [x]) :: m' else (k, bucket) :: push_bucket key x m'
  end.

Definition group_by (key : A -> string) (l : list A) : list (string * list A) :=
  fold_left (fun m x => push_bucket (key x) x m) l [].

Fixpoint bucket_get (key : string) (m : list (string * list A)) : list A :=
  match m with
  | [] => []
  | (k, bucket) :: m' => if String.eqb k key then bucket else bucket_get key m'
  end.

Definition bucket_delete (key : string) (m : list (string * list A)) : list (string * list A) :=
  List.filter (fun '(k, _) => negb (String.eqb k key)) m.

(** [findIndex] *)
Fixpoint find_index (p : nat -> A -> bool) (from : nat) (l : list A) : option nat :=
  match l with
  | [] => None
  | x :: l' => if p from x then Some from else find_index p (S from) l'
  end.

(** [filter((_, position) => p(position))] *)
Definition filter_positions (p : nat -> bool) (l : list A) : list A :=
  snd <$> List.filter (fun '(position, _) => p position) (imap pair l).
End groups.

(** ** The two passes over one group *)
Definition add_missing (i : IntentRecord) (d : DnsDiff) : DnsDiff :=
  {| df_missing := df_missing d ++ [i]; df_modified := df_modified d;
     df_unexpected := df_unexpected d; df_unchanged := df_unchanged d |}.
Definition add_modified (i : IntentRecord) (o : ObservedDnsRecord) (d : DnsDiff) : DnsDiff :=
  {| df_missing := df_missing d; df_modified := df_modified d ++ [(i, o, changedAttributes i o)];
     df_unexpected := df_unexpected d; df_unchanged := df_unchanged d |}.
Definition add_unexpected (os : list ObservedDnsRecord) (d : DnsDiff) : DnsDiff :=
  {| df_missing := df_missing d; df_modified := df_modified d;
     df_unexpected := df_unexpected d ++ os; df_unchanged := df_unchanged d |}.
Definition add_unchanged (i : IntentRecord) (o : ObservedDnsRecord) (d : DnsDiff) : DnsDiff :=
  {| df_missing := df_missing d; df_modified := df_modified d;
     df_unexpected := df_unexpected d; df_unchanged := df_unchanged d ++ [(i, o)] |}.

Record Pass : Type := {
  ps_taken : list nat;
  ps_unmatched : list IntentRecord;
  ps_diff : DnsDiff;
}.

Definition is_taken (taken : list nat) (position : nat) : bool := bool_decide (position ∈ taken).

(** Pass 1: the first free record of the same content. *)
Definition match_content (observedGroup : list ObservedDnsRecord) (p : Pass) (i : IntentRecord) : Pass :=
  match find_index (fun position o =>
          negb (is_taken (ps_taken p) position) && String.eqb (od_content o) (it_content i))
          0 observedGroup with
  | None => {| ps_taken := ps_taken p; ps_unmatched := ps_unmatched p ++ [i]; ps_diff := ps_diff p |}
  | Some index =>
      {| ps_taken := index :: ps_taken p; ps_unmatched := ps_unmatched p;
         ps_diff := match observedGroup !! index with
                    | None => ps_diff p
                    | Some o =>
                        match changedAttributes i o with
                        | [] => add_unchanged i o (ps_diff p)
                        | _ => add_modified i o (ps_diff p)
                        end
                    end |}
  end.

(** Pass 2: by position. *)
Definition match_position (leftover : list ObservedDnsRecord) (d : DnsDiff)
    (unmatched : nat * IntentRecord) : DnsDiff :=
  match leftover !! unmatched.1 with
  | None => add_missing unmatched.2 d
  | Some o => add_modified unmatched.2 o d
  end.

Definition diff_group (intentGroup : list IntentRecord) (observedGroup : list ObservedDnsRecord)
    (d : DnsDiff) : DnsDiff :=
  let p := fold_left (match_content observedGroup) intentGroup
             {| ps_taken := []; ps_unmatched := []; ps_diff := d |} in
  let leftover := filter_positions (fun position => negb (is_taken (ps_taken p) position)) observedGroup in
  let d := fold_left (match_position leftover) (imap pair (ps_unmatched p)) (ps_diff p) in
  add_unexpected (drop (length (ps_unmatched p)) leftover) d.

(** ** [diffDnsRecords] *)
Definition no_diff : DnsDiff :=
  {| df_missing := []; df_modified := []; df_unexpected := []; df_unchanged := [] |}.

Definition diff_key (acc : DnsDiff * list (string * list ObservedDnsRecord))
    (group : string * list IntentRecord) : DnsDiff * list (string * list ObservedDnsRecord) :=
  (diff_group group.2 (bucket_get group.1 acc.2) acc.1, bucket_delete group.1 acc.2).

Definition diffDnsRecords (intent : list IntentRecord) (observed : list ObservedDnsRecord) : DnsDiff :=
  let '(d, rest) := fold_left diff_key (group_by intent_key intent)
                      (no_diff, group_by observed_key observed) in
  fold_left (fun d group => add_unexpected group.2 d) rest d.

(** ** The operations *)
Record DnsRecordPayload : Type := {
  pd_type : string;
  pd_name : string;
  pd_content : string;
  pd_ttlSeconds : option Z;
  pd_priority : option Z;
  pd_proxied : bool;
}.

Inductive DnsApplyOperation : Type :=
  | CreateOp (record : DnsRecordPayload)
  | UpdateOp (externalRecordId : string) (record : DnsRecordPayload)
  | DeleteOp (externalRecordId : string) (type name content : string).

Definition payload (i : IntentRecord) : DnsRecordPayload :=
  {| pd_type := it_type i; pd_name := it_name i; pd_content := it_content i;
     pd_ttlSeconds := it_ttlSeconds i; pd_priority := it_priority i; pd_proxied := it_proxied i |}.

Definition is_manual (i : IntentRecord) : bool := bool_decide (it_owner i = OwnerManual).

Definition create_operation (i : IntentRecord) : list DnsApplyOperation :=
  if is_manual i then [] else [CreateOp (payload i)].
Definition update_operation (m : IntentRecord * ObservedDnsRecord * list DnsAttribute)
    : list DnsApplyOperation :=
  if is_manual m.1.1 then [] else [UpdateOp (od_externalRecordId m.1.2) (payload m.1.1)].
Definition delete_operation (t : IntentRecord * ObservedDnsRecord) : list DnsApplyOperation :=
  if is_manual t.1 then []
  else [DeleteOp (od_externalRecordId t.2) (it_type t.1) (it_name t.1) (it_content t.1)].

Definition applyOperationsFor (d : DnsDiff) (tombstones : list (IntentRecord * ObservedDnsRecord))
    : list DnsApplyOperation :=
  (df_missing d ≫= create_operation) ++ (df_modified d ≫= update_operation)
  ++ (tombstones ≫= delete_operation).

Definition deletes_unexpected (d : DnsDiff) (operation : DnsApplyOperation) : bool :=
  match operation with
  | DeleteOp id _ _ _ => bool_decide (id ∈ (od_externalRecordId <$> df_unexpected d))
  | _ => false
  end.

Definition assertNoUnexpectedDeletions (d : DnsDiff) (operations : list DnsApplyOperation)
    : result unit :=
  throw_if (existsb (deletes_unexpected d) operations) PlainError.
