(* ===== verification/DnsDiffFacts.v ===== *)
(** * What the DNS diff guarantees

    Over [DnsDiff]: every record of either side is reported once; contents are
    matched first; and, against a provider that does what it is asked, one
    application leaves nothing of the reconciler's to do. *)
From S2P Require Import Prelude Decimal Schema DnsDiff.

(** ** Groups *)
Definition of_key {A} (key : A -> string) (k : string) (l : list A) : list A :=
  List.filter (fun x => String.eqb (key x) k) l.

Lemma elem_of_of_key {A} (key : A -> string) k l x : x ∈ of_key key k l <-> key x = k /\ x ∈ l.
Proof. unfold of_key. by rewrite elem_of_bool_filter, String.eqb_eq. Qed.

Definition grouped {A} (key : A -> string) (l : list A) (ks : list string) : list (string * list A) :=
  (fun k => (k, of_key key k l)) <$> ks.

Lemma of_key_app {A} (key : A -> string) k (l m : list A) : of_key key k (l ++ m) = of_key key k l ++ of_key key k m.
Proof. apply List.filter_app. Qed.

Lemma of_key_none {A} (key : A -> string) k (l : list A) : (forall x, x ∈ l -> key x <> k) -> of_key key k l = [].
Proof.
  intros H. induction l as [|x l IH]; cbn; [done|].
  destruct (String.eqb_spec (key x) k) as [E|_]; [by destruct (H x ltac:(left))|].
  apply IH. intros y Hy. apply H. by right.
Qed.

Lemma push_bucket_grouped {A} (key : A -> string) l x ks :
  NoDup ks -> (key x ∉ ks -> of_key key (key x) l = []) ->
  push_bucket (key x) x (grouped key l ks)
  = grouped key (l ++ [x]) (if bool_decide (key x ∈ ks) then ks else ks ++ [key x]).
Proof.
  intros Hn. induction Hn as [|k ks Hk Hn IH]; intros Hnew.
  - rewrite bool_decide_eq_false_2 by set_solver. cbn. unfold grouped. csimpl.
    rewrite of_key_app, Hnew by set_solver. cbn. by rewrite String.eqb_refl.
  - cbn [grouped fmap list_fmap push_bucket]. fold (grouped key l ks).
    destruct (String.eqb_spec k (key x)) as [->|Hne].
    + rewrite bool_decide_eq_true_2 by set_solver. unfold grouped. csimpl. f_equal.
      * rewrite of_key_app. cbn. by rewrite String.eqb_refl.
      * apply list_fmap_ext. intros i k Hi%list_elem_of_lookup_2. f_equal. rewrite of_key_app. cbn.
        destruct (String.eqb_spec (key x) k) as [<-|_]; [done|]. by rewrite app_nil_r.
    + rewrite IH by (intros H; apply Hnew; set_solver).
      assert (bool_decide (key x ∈ k :: ks) = bool_decide (key x ∈ ks)) as ->
        by (apply bool_decide_ext; set_solver).
      assert (of_key key k (l ++ [x]) = of_key key k l) as E.
      { rewrite of_key_app. cbn. destruct (String.eqb_spec (key x) k) as [<-|_]; [done|]. by rewrite app_nil_r. }
      destruct (bool_decide (key x ∈ ks)); unfold grouped; csimpl; by rewrite E.
Qed.

Lemma group_by_spec {A} (key : A -> string) (l : list A) :
  exists ks, group_by key l = grouped key l ks /\ NoDup ks /\ (forall k, k ∈ ks <-> k ∈ (key <$> l)).
Proof.
  unfold group_by. induction l as [|x l IH] using rev_ind; [exists []; split; [done|split; [constructor|done]]|].
  destruct IH as (ks & E & Hn & Hk). rewrite fold_left_app, E. cbn [fold_left].
  rewrite push_bucket_grouped; [|done|].
  - eexists. split; [reflexivity|]. case_bool_decide as Hx.
    + split; [done|]. intros k. rewrite fmap_app, elem_of_app, <- Hk. set_solver.
    + split; [apply NoDup_app; split; [done|]; split; [set_solver|apply NoDup_singleton]|].
      intros k. rewrite fmap_app, !elem_of_app, <- Hk. set_solver.
  - intros Hx. apply of_key_none. intros y Hy E'. apply Hx, Hk. rewrite <- E'. by apply list_elem_of_fmap_2.
Qed.

Lemma bucket_get_grouped {A} (key : A -> string) l ks k :
  NoDup ks -> k ∈ ks -> bucket_get k (grouped key l ks) = of_key key k l.
Proof.
  intros Hn. induction Hn as [|k' ks Hk Hn IH]; [set_solver|]. intros Hin. cbn.
  destruct (String.eqb_spec k' k) as [->|Hne]; [done|]. apply IH. set_solver.
Qed.

Lemma bucket_get_absent {A} (key : A -> string) l ks k :
  k ∉ ks -> bucket_get k (grouped key l ks) = [].
Proof.
  induction ks as [|k' ks IH]; [done|]. intros Hin. cbn.
  destruct (String.eqb_spec k' k) as [->|Hne]; [set_solver|]. apply IH. set_solver.
Qed.

Lemma bucket_delete_grouped {A} (key : A -> string) l ks k :
  bucket_delete k (grouped key l ks)
  = grouped key l (List.filter (fun k' => negb (String.eqb k' k)) ks).
Proof.
  unfold bucket_delete, grouped. induction ks as [|k' ks IH]; [done|]. rewrite fmap_cons. cbn [List.filter].
  rewrite IH. by destruct (String.eqb k' k).
Qed.

(** The groups of distinct keys that cover a list partition it. *)
Lemma groups_perm {A} (key : A -> string) l ks :
  NoDup ks -> (forall x, x ∈ l -> key x ∈ ks) -> (ks ≫= (fun k => of_key key k l)) ≡ₚ l.
Proof.
  revert l. induction ks as [|k ks IH]; intros l Hn Hc.
  - destruct l as [|x l]; [done|]. by destruct (not_elem_of_nil (key x)); apply Hc; left.
  - apply NoDup_cons in Hn as [Hk Hn]. cbn [mbind list_bind].
    pose (rest := List.filter (fun x => negb (String.eqb (key x) k)) l).
    assert (l ≡ₚ of_key key k l ++ rest) as Hl.
    { subst rest. clear. unfold of_key. induction l as [|x l IH]; cbn; [done|].
      destruct (String.eqb (key x) k); cbn; [by rewrite <- IH|]. rewrite <- Permutation_middle. by rewrite <- IH. }
    etrans; [|symmetry; exact Hl]. f_equiv. etrans; [|apply (IH rest Hn)].
    + clear -Hk. revert Hk. induction ks as [|k' ks IH]; intros Hk; cbn; [done|].
      rewrite IH by set_solver. f_equiv. subst rest. unfold of_key.
      assert (k' <> k) as Hne by set_solver. clear -Hne. induction l as [|x l IH]; cbn; [done|].
      destruct (String.eqb_spec (key x) k) as [E|E]; cbn; rewrite ?IH.
      * destruct (String.eqb_spec (key x) k'); [congruence|done].
      * destruct (String.eqb (key x) k'); by rewrite ?IH.
    + intros x [Hx%negb_true_iff%String.eqb_neq Hin]%elem_of_bool_filter.
      specialize (Hc x Hin). set_solver.
Qed.

(** ** Positions *)
Lemma filter_positions_cons {A} (p : nat -> bool) (x : A) l :
  filter_positions p (x :: l) = (if p 0%nat then [x] else []) ++ filter_positions (fun n => p (S n)) l.
Proof.
  unfold filter_positions. rewrite imap_cons. cbn [List.filter].
  assert (forall m : list (nat * A),
    snd <$> List.filter (fun '(n, _) => p n) (prod_map S id <$> m)
    = snd <$> List.filter (fun '(n, _) => p (S n)) m) as E.
  { clear. induction m as [|[n y] m IH]; [done|]. csimpl. destruct (p (S n)); csimpl; by rewrite IH. }
  assert (imap (pair ∘ S) l = prod_map S id <$> imap pair l) as -> by (rewrite fmap_imap; done).
  destruct (p 0%nat); rewrite ?fmap_cons, E; done.
Qed.

Lemma filter_positions_all {A} (l : list A) p : (forall n, p n = true) -> filter_positions p l = l.
Proof.
  revert p. induction l as [|x l IH]; intros p Hp; [done|].
  rewrite filter_positions_cons, Hp, IH; done.
Qed.

Lemma filter_positions_ext {A} (l : list A) p q : (forall n, p n = q n) -> filter_positions p l = filter_positions q l.
Proof.
  revert p q. induction l as [|x l IH]; intros p q H; [done|].
  rewrite !filter_positions_cons, H. f_equal. apply IH. intros n. apply H.
Qed.

Lemma filter_positions_take {A} (l : list A) p i x :
  l !! i = Some x -> p i = true ->
  filter_positions p l ≡ₚ x :: filter_positions (fun n => p n && negb (bool_decide (n = i))) l.
Proof.
  revert p i. induction l as [|y l IH]; intros p i Hi Hp; [done|].
  rewrite !filter_positions_cons. destruct i as [|i]; cbn in Hi.
  - injection Hi as ->. rewrite Hp, bool_decide_eq_true_2 by done. cbn. f_equiv.
    erewrite filter_positions_ext; [done|]. intros n. cbn. by rewrite bool_decide_eq_false_2, andb_true_r.
  - rewrite (bool_decide_eq_false_2 (0%nat = S i)) by done. rewrite andb_true_r.
    rewrite (IH (fun n => p (S n)) i Hi Hp). rewrite <- Permutation_middle.
    erewrite (filter_positions_ext _ (fun n => p (S n) && negb (bool_decide (S n = S i)))
      (fun n => p (S n) && negb (bool_decide (n = i)))); [done|].
    intros n. cbn. f_equal. f_equal. apply bool_decide_ext. lia.
Qed.

Lemma find_index_some {A} (p : nat -> A -> bool) from l i :
  find_index p from l = Some i -> exists n x, i = (from + n)%nat /\ l !! n = Some x /\ p i x = true.
Proof.
  revert from. induction l as [|x l IH]; intros from; cbn; [done|].
  destruct (p from x) eqn:E.
  - intros [= <-]. exists 0%nat, x. rewrite Nat.add_0_r. done.
  - intros (n & y & -> & Hn & Hp)%IH. exists (S n), y. split; [lia|]. done.
Qed.

Lemma find_index_none {A} (p : nat -> A -> bool) from l n x :
  find_index p from l = None -> l !! n = Some x -> p (from + n)%nat x = false.
Proof.
  revert from n. induction l as [|y l IH]; intros from n; cbn; [done|].
  destruct (p from y) eqn:E; [done|]. intros H. destruct n as [|n]; cbn.
  - intros [= <-]. by rewrite Nat.add_0_r.
  - intros Hn. rewrite <- (IH (S from) n H Hn). f_equal. lia.
Qed.

Lemma elem_of_filter_positions {A} (l : list A) p x :
  x ∈ filter_positions p l <-> exists n, l !! n = Some x /\ p n = true.
Proof.
  revert p. induction l as [|y l IH]; intros p.
  - split; [by intros ?%not_elem_of_nil|]. by intros (n & Hn & _).
  - rewrite filter_positions_cons, elem_of_app, IH. split.
    + intros [H|(n & Hn & Hp)]; [|by exists (S n)].
      destruct (p 0%nat) eqn:E; [|by apply not_elem_of_nil in H].
      apply list_elem_of_singleton in H as ->. by exists 0%nat.
    + intros ([|n] & Hn & Hp); cbn in Hn; [left|right; by exists n].
      injection Hn as ->. rewrite Hp. by left.
Qed.

(** ** One group *)

(** What a diff says of each side. *)
Definition intents_of (d : DnsDiff) : list IntentRecord :=
  df_missing d ++ ((fun m => m.1.1) <$> df_modified d) ++ (fst <$> df_unchanged d).
Definition observed_of (d : DnsDiff) : list ObservedDnsRecord :=
  ((fun m => m.1.2) <$> df_modified d) ++ (snd <$> df_unchanged d) ++ df_unexpected d.

(** The reported pairs are of one key and carry the attributes that differ. *)
Definition pairs_ok (d : DnsDiff) : Prop :=
  (forall i o changed, (i, o, changed) ∈ df_modified d ->
     intent_key i = observed_key o /\ changed = changedAttributes i o /\ changed <> []) /\
  (forall i o, (i, o) ∈ df_unchanged d -> intent_key i = observed_key o /\ changedAttributes i o = []).

Definition join (d e : DnsDiff) : DnsDiff :=
  {| df_missing := df_missing d ++ df_missing e; df_modified := df_modified d ++ df_modified e;
     df_unexpected := df_unexpected d ++ df_unexpected e;
     df_unchanged := df_unchanged d ++ df_unchanged e |}.

Lemma join_intents d e : intents_of (join d e) ≡ₚ intents_of d ++ intents_of e.
Proof. unfold intents_of. cbn. rewrite !fmap_app. solve_Permutation. Qed.

Lemma join_observed d e : observed_of (join d e) ≡ₚ observed_of d ++ observed_of e.
Proof. unfold observed_of. cbn. rewrite !fmap_app. solve_Permutation. Qed.

Lemma join_no_diff d : join d no_diff = d.
Proof. destruct d. unfold join. cbn. by rewrite !app_nil_r. Qed.

Definition free (p : Pass) (position : nat) : bool := negb (is_taken (ps_taken p) position).

Definition first_pass (og : list ObservedDnsRecord) (ig : list IntentRecord) (d : DnsDiff) : Pass :=
  fold_left (match_content og) ig {| ps_taken := []; ps_unmatched := []; ps_diff := d |}.

(** The first pass over the intents [done] of a group. *)
Record pass_ok (og : list ObservedDnsRecord) (done : list IntentRecord) (p : Pass) : Prop := {
  pk_intents : intents_of (ps_diff p) ++ ps_unmatched p ≡ₚ done;
  pk_observed : observed_of (ps_diff p) ++ filter_positions (free p) og ≡ₚ og;
  pk_missing : df_missing (ps_diff p) = [];
  pk_unexpected : df_unexpected (ps_diff p) = [];
  pk_modified : forall i o changed, (i, o, changed) ∈ df_modified (ps_diff p) ->
    changed = changedAttributes i o /\ changed <> [] /\ od_content o = it_content i;
  pk_unchanged : forall i o, (i, o) ∈ df_unchanged (ps_diff p) -> changedAttributes i o = [];
  pk_free : forall i o, i ∈ ps_unmatched p -> o ∈ filter_positions (free p) og ->
    od_content o <> it_content i;
  pk_taken : forall n, n ∈ ps_taken p -> exists o i,
    og !! n = Some o /\ i ∈ done /\ od_content o = it_content i;
  pk_content : NoDup (it_content <$> done) ->
    forall i o, i ∈ ps_unmatched p -> o ∈ og -> od_content o <> it_content i;
}.

Lemma filter_positions_sub {A} (l : list A) p q x :
  (forall n, p n = true -> q n = true) -> x ∈ filter_positions p l -> x ∈ filter_positions q l.
Proof. rewrite !elem_of_filter_positions. intros H (n & Hn & Hp). eauto. Qed.

(** An intent that finds its content. *)
Lemma pass_matched og done p i n o :
  pass_ok og done p -> og !! n = Some o -> free p n = true -> od_content o = it_content i ->
  pass_ok og (done ++ [i])
    {| ps_taken := n :: ps_taken p; ps_unmatched := ps_unmatched p;
       ps_diff := match changedAttributes i o with
                  | [] => add_unchanged i o (ps_diff p)
                  | _ => add_modified i o (ps_diff p)
                  end |}.
Proof.
  intros [H1 H2 H3 H4 H5 H6 H7 H8 H9] Hn Hf Hc.
  set (p' := {| ps_taken := n :: ps_taken p |}).
  assert (forall m, free p' m = free p m && negb (bool_decide (m = n))) as Hfree.
  { intros m. subst p'. unfold free, is_taken. cbn. rewrite <- negb_orb. f_equal.
    rewrite <- bool_decide_or. apply bool_decide_ext. set_solver. }
  assert (forall x, x ∈ filter_positions (free p') og -> x ∈ filter_positions (free p) og) as Hsub.
  { intros x. apply filter_positions_sub. intros m. rewrite Hfree. by intros [? _]%andb_true_iff. }
  assert (filter_positions (free p) og ≡ₚ o :: filter_positions (free p') og) as Hp.
  { rewrite (filter_positions_take og (free p) n o Hn Hf).
    by rewrite (filter_positions_ext og (free p') _ Hfree). }
  assert (intents_of (ps_diff p') ≡ₚ intents_of (ps_diff p) ++ [i]) as Hi.
  { subst p'. cbn. unfold intents_of.
    destruct (changedAttributes i o); cbn; rewrite fmap_app; cbn; solve_Permutation. }
  assert (observed_of (ps_diff p') ≡ₚ observed_of (ps_diff p) ++ [o]) as Ho.
  { subst p'. cbn. unfold observed_of.
    destruct (changedAttributes i o); cbn; rewrite fmap_app; cbn; solve_Permutation. }
  split.
  - rewrite Hi. subst p'. cbn. rewrite <- H1. solve_Permutation.
  - rewrite Ho. rewrite <- H2 at 2. rewrite Hp. solve_Permutation.
  - subst p'. cbn. by destruct (changedAttributes i o).
  - subst p'. cbn. by destruct (changedAttributes i o).
  - intros i' o' ch. subst p'. cbn. destruct (changedAttributes i o) eqn:E; cbn; [apply H5|].
    rewrite elem_of_app, list_elem_of_singleton. intros [H|[= -> -> ->]]; [by apply H5|].
    rewrite E. done.
  - intros i' o'. subst p'. cbn. destruct (changedAttributes i o) eqn:E; cbn; [|apply H6].
    rewrite elem_of_app, list_elem_of_singleton. intros [H|[= -> ->]]; [by apply H6|done].
  - intros i' o' Hi' Ho'. apply (H7 i' o'); auto.
  - intros m Hm. subst p'. cbn in Hm. apply elem_of_cons in Hm as [->|Hm].
    + exists o, i. split; [done|]. split; [set_solver|done].
    + destruct (H8 m Hm) as (o' & i' & ? & ? & ?). exists o', i'. set_solver.
  - intros Hnd i' o' Hi' Ho'. apply (H9 ltac:(by rewrite fmap_app in Hnd; apply NoDup_app in Hnd as [? _]) i' o'); auto.
Qed.

(** One that does not. *)
Lemma pass_unmatched og done p i :
  pass_ok og done p ->
  (forall n o, og !! n = Some o -> free p n = true -> od_content o <> it_content i) ->
  pass_ok og (done ++ [i])
    {| ps_taken := ps_taken p; ps_unmatched := ps_unmatched p ++ [i]; ps_diff := ps_diff p |}.
Proof.
  intros [H1 H2 H3 H4 H5 H6 H7 H8 H9] Hnone. split; cbn; try done.
  - rewrite app_assoc. by rewrite H1.
  - intros i' o'. rewrite elem_of_app, list_elem_of_singleton. intros [Hi|Hi] Ho; [by apply H7|].
    subst i'. apply elem_of_filter_positions in Ho as (n & Hn & Hf). by apply (Hnone n).
  - intros n Hn. destruct (H8 n Hn) as (o' & i' & ? & ? & ?). exists o', i'. set_solver.
  - rewrite fmap_app, NoDup_app. intros (Hnd & Hdis & _) i' o'.
    rewrite elem_of_app, list_elem_of_singleton. intros [Hi|Hi] Ho; [by apply H9|]. subst i'.
    apply list_elem_of_lookup_1 in Ho as [n Hn]. destruct (free p n) eqn:Hf; [by apply (Hnone n)|].
    unfold free in Hf. apply negb_false_iff, bool_decide_eq_true in Hf.
    destruct (H8 n Hf) as (o2 & j & Hn' & Hj & E). rewrite Hn in Hn'. injection Hn' as <-.
    rewrite E. intros E'. apply (Hdis (it_content j)); [by apply list_elem_of_fmap_2|].
    rewrite E'. by left.
Qed.

Lemma first_pass_ok og ig : pass_ok og ig (first_pass og ig no_diff).
Proof.
  unfold first_pass. induction ig as [|i ig IH] using rev_ind.
  - split; cbn; try done; try (by intros; exfalso; eapply not_elem_of_nil).
    by rewrite filter_positions_all.
  - rewrite fold_left_app. cbn [fold_left].
    set (p := fold_left (match_content og) ig _) in *. unfold match_content.
    destruct (find_index _ 0 og) as [n|] eqn:E.
    + apply find_index_some in E as (m & o & -> & Hm & Hp). apply andb_true_iff in Hp as [Hf Hc].
      apply String.eqb_eq in Hc. rewrite Nat.add_0_l in *. rewrite Hm. by apply pass_matched.
    + apply pass_unmatched; [done|]. intros n o Hn Hf Hc.
      pose proof (find_index_none _ _ _ _ _ E Hn) as H. cbn in H. unfold free in Hf.
      by rewrite Hf, Hc, String.eqb_refl in H.
Qed.

(** ** The second pass *)
Definition second_pass (us : list IntentRecord) (leftover : list ObservedDnsRecord) (d : DnsDiff) : DnsDiff :=
  add_unexpected (drop (length us) leftover) (fold_left (match_position leftover) (imap pair us) d).

Lemma match_position_shift us o leftover d :
  fold_left (match_position (o :: leftover)) (imap (pair ∘ S) us) d
  = fold_left (match_position leftover) (imap pair us) d.
Proof.
  assert (imap (pair ∘ S) us = prod_map S id <$> imap pair us) as -> by (rewrite fmap_imap; done).
  generalize (imap pair us). intros l. revert d. induction l as [|[n i] l IH]; intros d; [done|].
  rewrite fmap_cons. cbn [fold_left]. rewrite IH. done.
Qed.

Lemma second_pass_nil leftover d : second_pass [] leftover d = add_unexpected leftover d.
Proof. done. Qed.
Lemma second_pass_pair i us o leftover d :
  second_pass (i :: us) (o :: leftover) d = second_pass us leftover (add_modified i o d).
Proof.
  unfold second_pass. rewrite imap_cons. cbn [fold_left length drop]. f_equal. apply match_position_shift.
Qed.
Lemma second_pass_missing us d :
  df_missing (second_pass us [] d) = df_missing d ++ us /\ df_modified (second_pass us [] d) = df_modified d
  /\ df_unexpected (second_pass us [] d) = df_unexpected d /\ df_unchanged (second_pass us [] d) = df_unchanged d.
Proof.
  unfold second_pass. rewrite drop_nil. generalize 0%nat.
  assert (forall f : nat -> nat, let e := fold_left (match_position []) (imap (fun n => pair (f n)) us) d in
    df_missing e = df_missing d ++ us /\ df_modified e = df_modified d
    /\ df_unexpected e = df_unexpected d /\ df_unchanged e = df_unchanged d) as H.
  { revert d. induction us as [|i us IH]; intros d f; [cbn; by rewrite app_nil_r|].
    rewrite imap_cons. cbn [fold_left]. destruct (IH (add_missing i d) (fun n => f (S n))) as (E1 & E2 & E3 & E4).
    cbn in *. rewrite <- app_assoc in E1. done. }
  intros _. destruct (H (fun n => n)) as (E1 & E2 & E3 & E4). cbn. rewrite app_nil_r. done.
Qed.

(** It reports every leftover once, and never both a missing and an unexpected record. *)
Lemma second_pass_spec us leftover d :
  df_missing d = [] -> df_unexpected d = [] ->
  let e := second_pass us leftover d in
  intents_of e ≡ₚ intents_of d ++ us /\ observed_of e ≡ₚ observed_of d ++ leftover /\
  (df_missing e = [] \/ df_unexpected e = []) /\ df_unchanged e = df_unchanged d /\
  (forall i, i ∈ df_missing e -> i ∈ us) /\
  (forall i o changed, (i, o, changed) ∈ df_modified e -> (i, o, changed) ∈ df_modified d \/
     i ∈ us /\ o ∈ leftover /\ changed = changedAttributes i o).
Proof.
  revert leftover d. induction us as [|i us IH]; intros leftover d Hm Hu; cbn zeta.
  - rewrite second_pass_nil. unfold intents_of, observed_of. cbn. rewrite app_nil_r, Hu.
    split; [done|]. split; [rewrite app_nil_r; by rewrite app_assoc|]. split; [by left|]. split; [done|].
    split; [rewrite Hm; done|]. intros; by left.
  - destruct leftover as [|o leftover].
    + destruct (second_pass_missing (i :: us) d) as (E1 & E2 & E3 & E4).
      unfold intents_of, observed_of. rewrite E1, E2, E3, E4, Hm, Hu, !app_nil_r. cbn [app].
      split; [solve_Permutation|]. split; [done|]. split; [by right|]. split; [done|]. split; [done|].
      intros; by left.
    + rewrite second_pass_pair. destruct (IH leftover (add_modified i o d)) as (E1 & E2 & E3 & E4 & E5 & E6); [done..|].
      split; [rewrite E1; unfold intents_of; cbn; rewrite fmap_app; cbn; solve_Permutation|].
      split; [rewrite E2; unfold observed_of; cbn; rewrite fmap_app; cbn; solve_Permutation|].
      split; [done|]. split; [done|]. split; [set_solver|].
      intros i' o' ch [H|(H1 & H2 & H3)]%E6; [|right; set_solver].
      cbn in H. apply elem_of_app in H as [H|H]; [by left|right].
      apply list_elem_of_singleton in H as [= -> -> ->]. set_solver.
Qed.

(** ** A whole group *)
Record group_ok (ig : list IntentRecord) (og : list ObservedDnsRecord) (d : DnsDiff) : Prop := {
  gk_intents : intents_of d ≡ₚ ig;
  gk_observed : observed_of d ≡ₚ og;
  gk_modified : forall i o changed, (i, o, changed) ∈ df_modified d ->
    changed = changedAttributes i o /\ changed <> [];
  gk_unchanged : forall i o, (i, o) ∈ df_unchanged d -> changedAttributes i o = [];
  gk_exhausted : df_missing d = [] \/ df_unexpected d = [];
  gk_missing : NoDup (it_content <$> ig) -> forall i o,
    i ∈ df_missing d -> o ∈ og -> od_content o <> it_content i;
  gk_content : NoDup (it_content <$> ig) -> forall i o changed o',
    (i, o, changed) ∈ df_modified d -> od_content o <> it_content i -> o' ∈ og ->
    od_content o' <> it_content i;
}.

Lemma changed_content i o : od_content o <> it_content i -> changedAttributes i o <> [].
Proof.
  intros H. unfold changedAttributes. destruct (String.eqb_spec (it_content i) (od_content o)); [congruence|done].
Qed.

Lemma diff_group_passes ig og d :
  diff_group ig og d
  = let p := first_pass og ig d in second_pass (ps_unmatched p) (filter_positions (free p) og) (ps_diff p).
Proof. done. Qed.

Lemma diff_group_ok ig og : group_ok ig og (diff_group ig og no_diff).
Proof.
  rewrite diff_group_passes. cbn zeta. pose proof (first_pass_ok og ig) as [H1 H2 H3 H4 H5 H6 H7 H8 H9].
  set (p := first_pass og ig no_diff) in *.
  destruct (second_pass_spec (ps_unmatched p) (filter_positions (free p) og) (ps_diff p) H3 H4)
    as (E1 & E2 & E3 & E4 & E5 & E6).
  split.
  - by rewrite E1.
  - by rewrite E2.
  - intros i o ch [H|(Hi & Ho & ->)]%E6; [by edestruct H5 as (? & ? & ?)|].
    split; [done|]. by apply changed_content, H7.
  - intros i o. rewrite E4. apply H6.
  - done.
  - intros Hn i o Hi%E5 Ho. by apply H9.
  - intros Hn i o ch o' [H|(Hi & _ & _)]%E6 Hc Ho'; [by edestruct H5 as (? & ? & ?)|]. by apply H9.
Qed.

(** A group adds to the diff it is given. *)
Lemma first_pass_join og ig d e :
  let p := first_pass og ig e in
  first_pass og ig (join d e)
  = {| ps_taken := ps_taken p; ps_unmatched := ps_unmatched p; ps_diff := join d (ps_diff p) |}.
Proof.
  cbn zeta. unfold first_pass. induction ig as [|i ig IH] using rev_ind; [done|].
  rewrite !fold_left_app, IH. cbn [fold_left].
  set (p := fold_left (match_content og) ig _). unfold match_content. cbn.
  destruct (find_index _ 0 og) as [n|]; cbn; [|done]. destruct (og !! n) as [o|]; [|done].
  destruct (changedAttributes i o); unfold join; cbn; by rewrite ?app_assoc.
Qed.

Lemma second_pass_join us leftover d e :
  second_pass us leftover (join d e) = join d (second_pass us leftover e).
Proof.
  unfold second_pass.
  assert (forall l, fold_left (match_position leftover) l (join d e)
                  = join d (fold_left (match_position leftover) l e)) as E.
  { intros l. revert e. induction l as [|[n i] l IH]; intros e; [done|]. cbn [fold_left].
    assert (match_position leftover (join d e) (n, i) = join d (match_position leftover e (n, i))) as ->; [|apply IH].
    unfold match_position. cbn. destruct (leftover !! n); unfold join; cbn; by rewrite ?app_assoc. }
  rewrite E. unfold join, add_unexpected. cbn. by rewrite app_assoc.
Qed.

Lemma diff_group_join ig og d : diff_group ig og d = join d (diff_group ig og no_diff).
Proof.
  rewrite !diff_group_passes. cbn zeta. rewrite <- (join_no_diff d) at 1 2 3.
  rewrite !first_pass_join. cbn. by rewrite second_pass_join.
Qed.

(** ** The diff as the groups' diffs *)
Definition group_diff (I : list IntentRecord) (O : list ObservedDnsRecord) (k : string) : DnsDiff :=
  diff_group (of_key intent_key k I) (of_key observed_key k O) no_diff.

Definition joined (ds : list DnsDiff) : DnsDiff := fold_left join ds no_diff.

Definition in_keys (ks : list string) (k : string) : bool := bool_decide (k ∈ ks).

Lemma diff_keys_fold I O ks : forall kO d,
  NoDup ks -> NoDup kO -> (forall x, x ∈ O -> observed_key x ∈ ks -> observed_key x ∈ kO) ->
  fold_left diff_key (grouped intent_key I ks) (d, grouped observed_key O kO)
  = (fold_left join (group_diff I O <$> ks) d,
     grouped observed_key O (List.filter (fun k => negb (in_keys ks k)) kO)).
Proof.
  induction ks as [|k ks IH]; intros kO d Hn HnO Hc.
  - cbn. f_equal. f_equal. induction kO as [|k kO IH]; cbn; [done|].
    f_equal. apply IH; [by apply NoDup_cons in HnO as [_ ?]|set_solver].
  - apply NoDup_cons in Hn as [Hk Hn]. cbn [grouped fmap list_fmap fold_left].
    fold (grouped intent_key I ks).
    assert (diff_key (d, grouped observed_key O kO) (k, of_key intent_key k I)
            = (join d (group_diff I O k), grouped observed_key O (List.filter (fun k' => negb (String.eqb k' k)) kO))) as ->.
    { unfold diff_key. cbn [fst snd]. rewrite bucket_delete_grouped. f_equal.
      rewrite diff_group_join. f_equal. unfold group_diff. f_equal.
      destruct (decide (k ∈ kO)) as [Hin|Hout]; [by apply bucket_get_grouped|].
      rewrite bucket_get_absent by done. symmetry. apply of_key_none. intros x Hx <-.
      apply Hout, Hc; [done|by left]. }
    rewrite IH.
    + cbn. f_equal. f_equal. clear. induction kO as [|k' kO IH]; cbn; [done|].
      assert (in_keys (k :: ks) k' = String.eqb k' k || in_keys ks k') as ->.
      { unfold in_keys. destruct (String.eqb_spec k' k) as [->|Hne]; cbn.
        - apply bool_decide_eq_true_2. by left.
        - apply bool_decide_ext. set_solver. }
      destruct (String.eqb k' k); cbn; [done|]. by destruct (in_keys ks k'); cbn; rewrite IH.
    + done.
    + by apply NoDup_ListNoDup, List.NoDup_filter, NoDup_ListNoDup.
    + intros x Hx Hxk. apply elem_of_bool_filter. split; [|apply Hc; [done|by right]].
      apply negb_true_iff, String.eqb_neq. intros <-. done.
Qed.

(** The whole diff: the groups' diffs, and what the intent does not name. *)
Record diff_ok (I : list IntentRecord) (O : list ObservedDnsRecord) (d : DnsDiff) : Prop := {
  do_intents : intents_of d ≡ₚ I;
  do_observed : observed_of d ≡ₚ O;
  do_pairs : pairs_ok d;
  do_exhausted : forall i o, i ∈ df_missing d -> o ∈ df_unexpected d -> intent_key i <> observed_key o;
  do_missing : NoDup ((fun i => (intent_key i, it_content i)) <$> I) -> forall i o,
    i ∈ df_missing d -> o ∈ O -> (observed_key o, od_content o) <> (intent_key i, it_content i);
  do_content : NoDup ((fun i => (intent_key i, it_content i)) <$> I) -> forall i o changed o',
    (i, o, changed) ∈ df_modified d -> od_content o <> it_content i -> o' ∈ O ->
    (observed_key o', od_content o') <> (intent_key i, it_content i);
}.

Lemma joined_fields (ds : list DnsDiff) d :
  df_missing (fold_left join ds d) = df_missing d ++ (ds ≫= df_missing) /\
  df_modified (fold_left join ds d) = df_modified d ++ (ds ≫= df_modified) /\
  df_unexpected (fold_left join ds d) = df_unexpected d ++ (ds ≫= df_unexpected) /\
  df_unchanged (fold_left join ds d) = df_unchanged d ++ (ds ≫= df_unchanged).
Proof.
  revert d. induction ds as [|e ds IH]; intros d; [cbn; rewrite !app_nil_r; done|].
  cbn [fold_left]. destruct (IH (join d e)) as (-> & -> & -> & ->). cbn. rewrite <- !app_assoc. done.
Qed.

Lemma joined_of {A} (f : DnsDiff -> list A) (ds : list DnsDiff) d :
  (forall d e, f (join d e) ≡ₚ f d ++ f e) -> f (fold_left join ds d) ≡ₚ f d ++ (ds ≫= f).
Proof.
  intros Hf. revert d. induction ds as [|e ds IH]; intros d; cbn; [by rewrite app_nil_r|].
  rewrite IH, Hf. by rewrite <- app_assoc.
Qed.

Lemma bind_perm {A B} (f g : A -> list B) l : (forall x, x ∈ l -> f x ≡ₚ g x) -> (l ≫= f) ≡ₚ (l ≫= g).
Proof.
  induction l as [|x l IH]; intros H; cbn; [done|]. rewrite (H x) by set_solver.
  rewrite IH; [done|]. intros y Hy. apply H. by right.
Qed.

Lemma bind_fmap {A B C} (f : B -> list C) (g : A -> B) l : ((g <$> l) ≫= f) = (l ≫= (fun x => f (g x))).
Proof. induction l as [|x l IH]; [done|]. cbn. by rewrite <- IH. Qed.

Lemma unexpected_fold O ks d :
  fold_left (fun d group => add_unexpected group.2 d) (grouped observed_key O ks) d
  = add_unexpected (ks ≫= (fun k => of_key observed_key k O)) d.
Proof.
  revert d. induction ks as [|k ks IH]; intros d; cbn.
  - unfold add_unexpected. rewrite app_nil_r. by destruct d.
  - fold (grouped observed_key O ks). rewrite IH. unfold add_unexpected. cbn. by rewrite <- app_assoc.
Qed.

Lemma diff_as_groups I O : exists ks kO,
  NoDup ks /\ (forall i, i ∈ I -> intent_key i ∈ ks) /\ NoDup kO /\
  (forall k, k ∈ kO -> k ∉ ks) /\ (forall o, o ∈ O -> observed_key o ∈ ks ++ kO) /\
  diffDnsRecords I O
  = add_unexpected (kO ≫= (fun k => of_key observed_key k O)) (joined (group_diff I O <$> ks)).
Proof.
  destruct (group_by_spec intent_key I) as (ks & EI & Hn & Hk).
  destruct (group_by_spec observed_key O) as (kO & EO & HnO & HkO).
  exists ks, (List.filter (fun k => negb (in_keys ks k)) kO).
  assert (forall k, k ∈ List.filter (fun k => negb (in_keys ks k)) kO <-> k ∈ kO /\ k ∉ ks) as Hf.
  { intros k. rewrite elem_of_bool_filter. unfold in_keys. rewrite negb_true_iff, bool_decide_eq_false. tauto. }
  split; [done|]. split; [intros i Hi; apply Hk; by apply list_elem_of_fmap_2|].
  split; [by apply NoDup_ListNoDup, List.NoDup_filter, NoDup_ListNoDup|].
  split; [intros k [_ ?]%Hf; done|].
  split.
  { intros o Ho. apply elem_of_app. rewrite Hf. destruct (decide (observed_key o ∈ ks)); [by left|right].
    split; [apply HkO; by apply list_elem_of_fmap_2|done]. }
  unfold diffDnsRecords. rewrite EI, EO, diff_keys_fold; [|done|done|].
  - by rewrite unexpected_fold.
  - intros o Ho _. apply HkO. by apply list_elem_of_fmap_2.
Qed.

Lemma NoDup_contents (I : list IntentRecord) k :
  NoDup ((fun i => (intent_key i, it_content i)) <$> I) -> NoDup (it_content <$> of_key intent_key k I).
Proof.
  intros H. apply (NoDup_fmap_sublist _ (of_key intent_key k I)) in H; [|apply bool_filter_sublist].
  assert ((fun i => (intent_key i, it_content i)) <$> of_key intent_key k I
          = (fun c => (k, c)) <$> (it_content <$> of_key intent_key k I)) as E.
  { rewrite <- list_fmap_compose. apply list_fmap_ext. intros n i Hi%list_elem_of_lookup_2. cbn.
    apply elem_of_of_key in Hi as [-> _]. done. }
  rewrite E in H. by apply NoDup_fmap_1 in H.
Qed.

Lemma elem_of_joined {A} (f : DnsDiff -> list A) I O ks x :
  x ∈ ((group_diff I O <$> ks) ≫= f) <-> exists k, k ∈ ks /\ x ∈ f (group_diff I O k).
Proof. rewrite bind_fmap, list_elem_of_bind. naive_solver. Qed.

Lemma group_diff_ok I O k : group_ok (of_key intent_key k I) (of_key observed_key k O) (group_diff I O k).
Proof. apply diff_group_ok. Qed.

(** Entries carry the key of their group. *)
Lemma group_missing_key I O k i : i ∈ df_missing (group_diff I O k) -> intent_key i = k /\ i ∈ I.
Proof.
  intros H. apply elem_of_of_key. rewrite <- (gk_intents _ _ _ (group_diff_ok I O k)).
  unfold intents_of. set_solver.
Qed.
Lemma group_modified_key I O k i o ch :
  (i, o, ch) ∈ df_modified (group_diff I O k) -> intent_key i = k /\ observed_key o = k.
Proof.
  intros H. pose proof (group_diff_ok I O k) as G. split.
  - apply (elem_of_of_key intent_key k I). rewrite <- (gk_intents _ _ _ G). unfold intents_of.
    rewrite !elem_of_app. right. left. by apply (list_elem_of_fmap_2 (fun m => m.1.1) _ (i, o, ch)).
  - apply (elem_of_of_key observed_key k O). rewrite <- (gk_observed _ _ _ G). unfold observed_of.
    rewrite !elem_of_app. left. by apply (list_elem_of_fmap_2 (fun m => m.1.2) _ (i, o, ch)).
Qed.
Lemma group_unchanged_key I O k i o :
  (i, o) ∈ df_unchanged (group_diff I O k) -> intent_key i = k /\ observed_key o = k.
Proof.
  intros H. pose proof (group_diff_ok I O k) as G. split.
  - apply (elem_of_of_key intent_key k I). rewrite <- (gk_intents _ _ _ G). unfold intents_of.
    rewrite !elem_of_app. right. right. by apply (list_elem_of_fmap_2 fst _ (i, o)).
  - apply (elem_of_of_key observed_key k O). rewrite <- (gk_observed _ _ _ G). unfold observed_of.
    rewrite !elem_of_app. right. left. by apply (list_elem_of_fmap_2 snd _ (i, o)).
Qed.
Lemma group_unexpected_key I O k o : o ∈ df_unexpected (group_diff I O k) -> observed_key o = k.
Proof.
  intros H. apply (elem_of_of_key observed_key k O). rewrite <- (gk_observed _ _ _ (group_diff_ok I O k)).
  unfold observed_of. set_solver.
Qed.

Lemma diffDnsRecords_ok I O : diff_ok I O (diffDnsRecords I O).
Proof.
  destruct (diff_as_groups I O) as (ks & kO & Hn & HI & HnO & Hdis & HO & ->).
  set (rest := kO ≫= _). unfold joined.
  destruct (joined_fields (group_diff I O <$> ks) no_diff) as (Em & Eo & Eu & Ec). cbn [app df_missing no_diff] in *.
  set (d := fold_left join _ no_diff) in *.
  split.
  - change (intents_of d ≡ₚ I). subst d. rewrite (joined_of _ _ _ join_intents). cbn [intents_of]. rewrite bind_fmap.
    etrans; [|by apply (groups_perm intent_key I ks)].
    apply bind_perm. intros k _. apply (gk_intents _ _ _ (group_diff_ok I O k)).
  - transitivity (observed_of d ++ rest).
    { unfold observed_of. cbn. solve_Permutation. }
    subst d. rewrite (joined_of _ _ _ join_observed). cbn [observed_of]. rewrite bind_fmap.
    transitivity ((ks ++ kO) ≫= (fun k => of_key observed_key k O)).
    + rewrite bind_app. apply Permutation_app; [|done]. apply bind_perm. intros k _. apply (gk_observed _ _ _ (group_diff_ok I O k)).
    + apply groups_perm; [|done]. apply NoDup_app. split; [done|]. split; [|done].
      intros k Hk HkO. by apply (Hdis k).
  - unfold pairs_ok. cbn. rewrite Eo, Ec. split.
    + intros i o ch (k & _ & H)%elem_of_joined. destruct (gk_modified _ _ _ (group_diff_ok I O k) i o ch H) as [? ?].
      apply group_modified_key in H as [-> ->]. done.
    + intros i o (k & _ & H)%elem_of_joined. split; [|by apply (gk_unchanged _ _ _ (group_diff_ok I O k))].
      by apply group_unchanged_key in H as [-> ->].
  - cbn. rewrite Em, Eu. intros i o (k & Hk & Hi)%elem_of_joined. pose proof Hi as [Hik _]%group_missing_key.
    rewrite elem_of_app. intros [(k' & _ & Ho)%elem_of_joined|Ho] E.
    + pose proof Ho as Hok%group_unexpected_key. assert (k' = k) as -> by congruence.
      destruct (gk_exhausted _ _ _ (group_diff_ok I O k)) as [H|H]; rewrite H in *; by eapply not_elem_of_nil.
    + apply list_elem_of_bind in Ho as (k' & [Ho _]%elem_of_of_key & HkO). apply (Hdis k'); [done|congruence].
  - cbn. rewrite Em. intros Hnd i o (k & Hk & Hi)%elem_of_joined Ho [= E1 E2].
    pose proof Hi as [Hik _]%group_missing_key.
    apply (gk_missing _ _ _ (group_diff_ok I O k) (NoDup_contents I k Hnd) i o Hi); [|done].
    apply elem_of_of_key. split; [congruence|done].
  - cbn. rewrite Eo. intros Hnd i o ch o' (k & Hk & Hi)%elem_of_joined Hc Ho [= E1 E2].
    pose proof Hi as [Hik _]%group_modified_key.
    apply (gk_content _ _ _ (group_diff_ok I O k) (NoDup_contents I k Hnd) i o ch o' Hi Hc); [|done].
    apply elem_of_of_key. split; [congruence|done].
Qed.

(** What is in the concatenation, by kind. *)
Lemma entries_of (d : DnsDiff) :
  (forall i, MissingDiff i ∈ entries d -> i ∈ df_missing d) /\
  (forall i o ch, ModifiedDiff i o ch ∈ entries d -> (i, o, ch) ∈ df_modified d) /\
  (forall o, UnexpectedDiff o ∈ entries d -> o ∈ df_unexpected d) /\
  (forall i o, UnchangedDiff i o ∈ entries d -> (i, o) ∈ df_unchanged d).
Proof.
  assert (forall e, e ∈ entries d ->
    match e with
    | MissingDiff i => i ∈ df_missing d
    | ModifiedDiff i o ch => (i, o, ch) ∈ df_modified d
    | UnexpectedDiff o => o ∈ df_unexpected d
    | UnchangedDiff i o => (i, o) ∈ df_unchanged d
    end) as H; [|by repeat split; intros * He; apply (H _ He)].
  intros e. unfold entries. rewrite !elem_of_app.
  intros [(x & -> & Hx)%list_elem_of_fmap|[(x & -> & Hx)%list_elem_of_fmap|
    [(x & -> & Hx)%list_elem_of_fmap|(x & -> & Hx)%list_elem_of_fmap]]]; [done| |done|].
  - by destruct x as [[i o] ch].
  - by destruct x as [i o].
Qed.

(** The diff reports every record of either side exactly once: the intents of its
    entries are the given intents and their observed records the given ones, as
    multisets; a pair shares its type and name and carries exactly the attributes
    that differ, none when it is reported unchanged; no intent is missing while a
    record of its type and name is left over as unexpected; and, when no two
    intents share type, name and content, a missing intent, or one paired with a
    record of other content, has no record of its own content at the provider. *)
Theorem diff_partitions (intent : list IntentRecord) (observed : list ObservedDnsRecord) :
  let d := diffDnsRecords intent observed in
  intents_of d ≡ₚ intent /\ observed_of d ≡ₚ observed /\
  (forall i o changed, ModifiedDiff i o changed ∈ entries d ->
     intent_key i = observed_key o /\ changed = changedAttributes i o /\ changed <> []) /\
  (forall i o, UnchangedDiff i o ∈ entries d ->
     intent_key i = observed_key o /\ changedAttributes i o = []) /\
  (forall i o, MissingDiff i ∈ entries d -> UnexpectedDiff o ∈ entries d ->
     intent_key i <> observed_key o) /\
  (NoDup ((fun i => (intent_key i, it_content i)) <$> intent) -> forall i o,
     MissingDiff i ∈ entries d \/
     (exists o' changed, ModifiedDiff i o' changed ∈ entries d /\ od_content o' <> it_content i) ->
     o ∈ observed -> (observed_key o, od_content o) <> (intent_key i, it_content i)).
Proof.
  cbn zeta. destruct (diffDnsRecords_ok intent observed) as [H1 H2 [H3 H4] H5 H6 H7].
  set (d := diffDnsRecords intent observed) in *.
  destruct (entries_of d) as (Em & Eo & Eu & Ec).
  repeat (split; [by eauto|]). intros Hn i o [Hi|(o' & ch & Hi & Hc)] Ho; eauto.
Qed.
