(* ===== verification/DnsPlan.v ===== *)
(** * What a record sync would do

    The part of [packages/infrastructure/src/sync.ts] between the provider read
    and the provider write: which observed records a soft-deleted row asks to
    remove, the diff of the rest, and the operations. *)
From S2P Require Import Prelude Decimal Schema DnsDiff.

#[local] Arguments String.append : simpl nomatch.

(** The key of [sync.ts] and [domains.ts]: three texts joined by spaces. *)
Definition naturalKey (type name content : string) : string :=
  (type ++ " " ++ name ++ " " ++ content)%string.
Definition intent_text (i : IntentRecord) : string := naturalKey (it_type i) (it_name i) (it_content i).
Definition observed_text (o : ObservedDnsRecord) : string := naturalKey (od_type o) (od_name o) (od_content o).

(** [new Map(pairs).get(key)]: the last pair of a key counts. *)
Fixpoint map_get {A} (key : string) (pairs : list (string * A)) : option A :=
  match pairs with
  | [] => None
  | (k, v) :: pairs =>
      match map_get key pairs with
      | Some w => Some w
      | None => if String.eqb k key then Some v else None
      end
  end.

Definition pending_removal (observed : list ObservedDnsRecord) (row : IntentRecord)
    : list (IntentRecord * ObservedDnsRecord) :=
  match map_get (intent_text row) ((fun record => (observed_text record, record)) <$> observed) with
  | None => []
  | Some record => [(row, record)]
  end.

Definition tombstonesFor (rows : list IntentRecord) (observed : list ObservedDnsRecord)
    : list (IntentRecord * ObservedDnsRecord) := rows ≫= pending_removal observed.

Definition observedForDiff (tombstones : list (IntentRecord * ObservedDnsRecord))
    (observed : list ObservedDnsRecord) : list ObservedDnsRecord :=
  List.filter (fun record =>
    negb (bool_decide (od_externalRecordId record ∈ ((fun t => od_externalRecordId t.2) <$> tombstones))))
    observed.

Record SyncPlan : Type := {
  sp_diff : DnsDiff;
  sp_tombstones : list (IntentRecord * ObservedDnsRecord);
}.

Definition planSync (live tombstoneRows : list IntentRecord) (observed : list ObservedDnsRecord) : SyncPlan :=
  let tombstones := tombstonesFor tombstoneRows observed in
  {| sp_diff := diffDnsRecords live (observedForDiff tombstones observed); sp_tombstones := tombstones |}.

Definition plan_operations (p : SyncPlan) : list DnsApplyOperation :=
  applyOperationsFor (sp_diff p) (sp_tombstones p).
