(* ===== verification/DnsConverge.v ===== *)
(** * Record sync converges

    What the operations of [DnsPlan] do to a provider's zone, for any provider
    that does what it is asked: they touch only what they may, a zone they were
    applied to in part stays well formed, and one complete application leaves
    nothing to do. *)
From S2P Require Import Prelude Decimal Schema DnsDiff DnsDiffFacts DnsPlan.

#[local] Arguments String.append : simpl nomatch.

(** ** Keys *)
Definition intent_triple (i : IntentRecord) : string * string * string :=
  (it_type i, it_name i, it_content i).
Definition observed_triple (o : ObservedDnsRecord) : string * string * string :=
  (od_type o, od_name o, od_content o).

Definition no_space (s : string) : Prop := Js.index_of " " s = None.

Lemma space_split (a b s t : string) :
  no_space a -> no_space b -> (a ++ " " ++ s)%string = (b ++ " " ++ t)%string -> a = b /\ s = t.
Proof.
  unfold no_space. revert b. induction a as [|c a IH]; intros [|c' b]; cbn [Js.index_of]; intros Ha Hb E.
  - by injection E.
  - injection E as <- E. by rewrite Ascii.eqb_refl in Hb.
  - injection E as -> E. by rewrite Ascii.eqb_refl in Ha.
  - injection E as -> E. destruct (" " =? c')%char; [done|].
    apply fmap_None in Ha, Hb. by destruct (IH b Ha Hb E) as [-> ->].
Qed.

Definition tidy (type name : string) : Prop := no_space type /\ no_space name.

Lemma pairKey_inj t n t' n' : tidy t n -> tidy t' n' -> pairKey t n = pairKey t' n' -> t = t' /\ n = n'.
Proof. intros [? _] [? _]. by apply space_split. Qed.

Lemma naturalKey_inj t n c t' n' c' : tidy t n -> tidy t' n' ->
  naturalKey t n c = naturalKey t' n' c' -> (t, n, c) = (t', n', c').
Proof.
  intros [??] [??] [-> E]%space_split; [|done..]. apply space_split in E as [-> ->]; done.
Qed.

(** What the tables and the provider keep: the natural key of [dns_records], and
    the identifiers and the distinct records of a zone. *)
Record desired_ok (live tombstoneRows : list IntentRecord) : Prop := {
  dk_keys : NoDup (intent_triple <$> live ++ tombstoneRows);
  dk_tidy : forall i, i ∈ live ++ tombstoneRows -> tidy (it_type i) (it_name i);
}.
Record zone_ok (zone : list ObservedDnsRecord) : Prop := {
  zk_ids : NoDup (od_externalRecordId <$> zone);
  zk_keys : NoDup (observed_triple <$> zone);
  zk_tidy : forall o, o ∈ zone -> tidy (od_type o) (od_name o);
}.

Lemma NoDup_fmap_inj {A B} (f : A -> B) l x y : NoDup (f <$> l) -> x ∈ l -> y ∈ l -> f x = f y -> x = y.
Proof.
  induction l as [|z l IH]; cbn; [by intros _ ?%not_elem_of_nil|].
  intros [Hz Hn]%NoDup_cons [->|Hx]%elem_of_cons [->|Hy]%elem_of_cons E; [done| | |by apply IH].
  - destruct Hz. rewrite E. by apply list_elem_of_fmap_2.
  - destruct Hz. rewrite <- E. by apply list_elem_of_fmap_2.
Qed.

Lemma NoDup_fmap_of {A B C} (f : A -> B) (g : A -> C) l :
  NoDup (f <$> l) -> (forall x y, x ∈ l -> y ∈ l -> g x = g y -> f x = f y) -> NoDup (g <$> l).
Proof.
  induction l as [|z l IH]; cbn; [constructor|]. intros [Hz Hn]%NoDup_cons H. constructor.
  - intros (y & E & Hy)%list_elem_of_fmap. apply Hz. rewrite (H z y); [by apply list_elem_of_fmap_2|by left|by right|done].
  - apply IH; [done|]. intros x y Hx Hy. apply H; by right.
Qed.

Lemma elem_of_sublist {A} (x : A) l k : l `sublist_of` k -> x ∈ l -> x ∈ k.
Proof. induction 1; [done|..]; rewrite ?elem_of_cons; naive_solver. Qed.

Lemma zone_ok_perm z z' : z ≡ₚ z' -> zone_ok z -> zone_ok z'.
Proof. intros E [H1 H2 H3]. split; [by rewrite <- E..|]. intros o. rewrite <- E. apply H3. Qed.

(** ** The provider *)
Definition payload_of (o : ObservedDnsRecord) : DnsRecordPayload :=
  {| pd_type := od_type o; pd_name := od_name o; pd_content := od_content o;
     pd_ttlSeconds := od_ttlSeconds o; pd_priority := od_priority o; pd_proxied := od_proxied o |}.
Definition payload_triple (p : DnsRecordPayload) : string * string * string :=
  (pd_type p, pd_name p, pd_content p).

Lemma payload_of_triple o i : payload_of o = payload i -> observed_triple o = intent_triple i.
Proof. intros E. exact (f_equal payload_triple E). Qed.

(** [PUT]: every field of the record, its identifier apart. *)
Definition overwrite (id : string) (p : DnsRecordPayload) (o : ObservedDnsRecord) : ObservedDnsRecord :=
  if String.eqb (od_externalRecordId o) id then
    {| od_externalRecordId := od_externalRecordId o; od_type := pd_type p; od_name := pd_name p;
       od_content := pd_content p; od_ttlSeconds := pd_ttlSeconds p; od_priority := pd_priority p;
       od_proxied := pd_proxied p; od_proxiable := od_proxiable o |}
  else o.

(** One operation at the provider.  A record that is already there is not
    created again, and one that is gone is not deleted again. *)
Inductive zone_step : list ObservedDnsRecord -> DnsApplyOperation -> list ObservedDnsRecord -> Prop :=
  | step_create zone p o :
      payload_of o = p -> od_externalRecordId o ∉ (od_externalRecordId <$> zone) ->
      zone_step zone (CreateOp p) (zone ++ [o])
  | step_present zone p o :
      o ∈ zone -> observed_triple o = payload_triple p -> zone_step zone (CreateOp p) zone
  | step_update zone id p :
      id ∈ (od_externalRecordId <$> zone) -> zone_step zone (UpdateOp id p) (overwrite id p <$> zone)
  | step_delete zone id t n c :
      zone_step zone (DeleteOp id t n c)
        (List.filter (fun o => negb (String.eqb (od_externalRecordId o) id)) zone).

Inductive zone_steps : list ObservedDnsRecord -> list DnsApplyOperation -> list ObservedDnsRecord -> Prop :=
  | steps_done zone : zone_steps zone [] zone
  | steps_next zone op zone1 ops zone2 :
      zone_step zone op zone1 -> zone_steps zone1 ops zone2 -> zone_steps zone (op :: ops) zone2.

Lemma zone_steps_app z ops1 ops2 z' :
  zone_steps z (ops1 ++ ops2) z' <-> exists z1, zone_steps z ops1 z1 /\ zone_steps z1 ops2 z'.
Proof.
  revert z. induction ops1 as [|op ops1 IH]; intros z; cbn.
  - split; [intros H; exists z; split; [constructor|done]|]. by intros (z1 & Hn & H); inversion Hn; subst.
  - split.
    + inversion 1 as [|? ? ? ? ? Hs Hr]; subst. apply IH in Hr as (z2 & ? & ?).
      exists z2. split; [by econstructor|done].
    + intros (z2 & H1 & H2). inversion H1 as [|? ? ? ? ? Hs Hr]; subst. econstructor; [done|].
      apply IH. by exists z2.
Qed.

(** ** The effect of a plan's operations, or of some of them *)
Abbreviation modification := (IntentRecord * ObservedDnsRecord * list DnsAttribute)%type (only parsing).
Abbreviation removal := (IntentRecord * ObservedDnsRecord)%type (only parsing).

Definition operations_of (missing : list IntentRecord) (modified : list modification)
    (removals : list removal) : list DnsApplyOperation :=
  (missing ≫= create_operation) ++ (modified ≫= update_operation) ++ (removals ≫= delete_operation).

Definition created (z : list ObservedDnsRecord) (p : IntentRecord * ObservedDnsRecord) : Prop :=
  is_manual p.1 = false /\ payload_of p.2 = payload p.1 /\
  od_externalRecordId p.2 ∉ (od_externalRecordId <$> z).

Lemma creates_effect missing : forall z z',
  zone_steps z (missing ≫= create_operation) z' ->
  NoDup (intent_triple <$> missing) ->
  (forall i o, i ∈ missing -> o ∈ z -> observed_triple o <> intent_triple i) ->
  exists pairs, z' = z ++ (snd <$> pairs) /\ (forall p, p ∈ pairs -> created z p /\ p.1 ∈ missing) /\
    (forall i, i ∈ missing -> is_manual i = false -> exists o, (i, o) ∈ pairs) /\
    NoDup (od_externalRecordId <$> (snd <$> pairs)) /\ NoDup (fst <$> pairs).
Proof.
  induction missing as [|i missing IH]; intros z z' Hs Hn Hd.
  - inversion Hs; subst. exists []. rewrite app_nil_r. split; [done|].
    repeat split; try constructor; intros; exfalso; by eapply not_elem_of_nil.
  - cbn [mbind list_bind] in Hs. apply NoDup_cons in Hn as [Hi Hn].
    assert (i ∉ missing) as Hni by (intros H; apply Hi; by apply list_elem_of_fmap_2).
    unfold create_operation at 1 in Hs. destruct (is_manual i) eqn:Em.
    + destruct (IH z z' Hs Hn) as (ps & -> & H1 & H2 & H3 & H4); [intros; apply Hd; [by right|done]|].
      exists ps. split; [done|]. split; [intros p Hp; destruct (H1 p Hp); split; [done|by right]|].
      split; [|done]. intros j [->|Hj]%elem_of_cons Hm; [congruence|auto].
    + cbn [app] in Hs. inversion Hs as [|? ? z1 ? ? H1 H2]; subst.
      inversion H1 as [? ? o Hp Hf|? ? o Ho Ht| |]; subst.
      2:{ destruct (Hd i o); [by left|done|done]. }
      apply IH in H2 as (ps & -> & P1 & P2 & P3 & P4); [|done|].
      2:{ intros j q Hj [Hq|Hq]%elem_of_app; [by apply Hd; [right|]|].
          apply list_elem_of_singleton in Hq as ->. intros E. apply Hi. apply list_elem_of_fmap. exists j. split; [|done].
          rewrite <- E. symmetry. by apply payload_of_triple. }
      exists ((i, o) :: ps). split; [by rewrite <- app_assoc|]. split; [|split; [|split]].
      * intros p [->|Hps]%elem_of_cons; [repeat split; [done..|by left]|].
        destruct (P1 p Hps) as [(? & ? & Hz) ?]. repeat split; [done..| |by right].
        intros Hin. apply Hz. rewrite fmap_app. apply elem_of_app. by left.
      * intros j [->|Hj]%elem_of_cons Hm; [exists o; by left|]. destruct (P2 j Hj Hm) as (q & Hq). exists q. by right.
      * csimpl. constructor; [|done]. intros (q & E & (p & -> & Hps)%list_elem_of_fmap)%list_elem_of_fmap.
        destruct (P1 p Hps) as [(_ & _ & Hz) _]. apply Hz. rewrite fmap_app. apply elem_of_app. right.
        rewrite <- E. by left.
      * csimpl. constructor; [|done]. intros (p & -> & Hps)%list_elem_of_fmap. destruct (P1 p Hps) as [_ ?]. done.
Qed.

Definition update_record (o : ObservedDnsRecord) (m : modification) : ObservedDnsRecord :=
  if is_manual m.1.1 then o else overwrite (od_externalRecordId m.1.2) (payload m.1.1) o.
Definition updated (modified : list modification) (o : ObservedDnsRecord) : ObservedDnsRecord :=
  fold_left update_record modified o.

Lemma updates_effect modified : forall z z',
  zone_steps z (modified ≫= update_operation) z' -> z' = updated modified <$> z.
Proof.
  induction modified as [|m modified IH]; intros z z' Hs.
  - inversion Hs; subst. by rewrite list_fmap_id.
  - cbn [mbind list_bind] in Hs. unfold update_operation at 1 in Hs.
    assert (updated (m :: modified) <$> z = updated modified <$> ((fun o => update_record o m) <$> z)) as ->
      by (by rewrite <- list_fmap_compose).
    unfold update_record. destruct (is_manual m.1.1).
    + rewrite list_fmap_id. by apply IH.
    + cbn [app] in Hs. inversion Hs as [|? ? ? ? ? H1 H2]; subst. inversion H1; subst. by apply IH.
Qed.

Lemma update_record_id o m : od_externalRecordId (update_record o m) = od_externalRecordId o.
Proof. unfold update_record, overwrite. destruct (is_manual _); [done|]. by destruct (String.eqb _ _). Qed.

Lemma updated_id modified o : od_externalRecordId (updated modified o) = od_externalRecordId o.
Proof.
  unfold updated. revert o. induction modified as [|m l IH]; intros o; cbn; [done|].
  by rewrite IH, update_record_id.
Qed.

Definition targets_record (o : ObservedDnsRecord) (m : modification) : Prop :=
  is_manual m.1.1 = false /\ od_externalRecordId m.1.2 = od_externalRecordId o.

Lemma updated_other modified : forall o,
  (forall m, m ∈ modified -> ~ targets_record o m) -> updated modified o = o.
Proof.
  induction modified as [|m l IH]; intros o H; [done|]. unfold updated. cbn.
  assert (update_record o m = o) as ->.
  { specialize (H m ltac:(left)). unfold targets_record in H. unfold update_record, overwrite.
    destruct (is_manual _); [done|]. destruct (String.eqb_spec (od_externalRecordId o) (od_externalRecordId m.1.2)); [|done].
    by destruct H. }
  apply IH. intros m' Hm'. apply H. by right.
Qed.

Lemma updated_hit modified : forall o m,
  NoDup ((fun m : modification => od_externalRecordId m.1.2) <$> modified) ->
  m ∈ modified -> targets_record o m -> payload_of (updated modified o) = payload m.1.1.
Proof.
  induction modified as [|m' l IH]; intros o m Hn Hm Ht; [by apply not_elem_of_nil in Hm|].
  csimpl in Hn. apply NoDup_cons in Hn as [Hnot Hn]. unfold updated. cbn.
  fold (updated l (update_record o m')). apply elem_of_cons in Hm as [->|Hm].
  - destruct Ht as [Hman Hid]. rewrite updated_other.
    + unfold update_record, overwrite. rewrite Hman, Hid, String.eqb_refl. done.
    + intros q Hq [_ E]. apply Hnot. apply list_elem_of_fmap. exists q. split; [|done].
      rewrite E, update_record_id. done.
  - apply (IH _ m Hn Hm). destruct Ht as [Hman Hid]. split; [done|]. by rewrite update_record_id.
Qed.

Definition removes_record (o : ObservedDnsRecord) (t : removal) : Prop :=
  is_manual t.1 = false /\ od_externalRecordId t.2 = od_externalRecordId o.

Lemma deletes_effect removals : forall z z' o,
  zone_steps z (removals ≫= delete_operation) z' ->
  (o ∈ z' <-> o ∈ z /\ forall t, t ∈ removals -> ~ removes_record o t).
Proof.
  induction removals as [|t l IH]; intros z z' o Hs.
  - inversion Hs; subst. split; [|by intros [? _]]. intros H. split; [done|]. intros t Ht. by apply not_elem_of_nil in Ht.
  - cbn [mbind list_bind] in Hs. unfold delete_operation at 1 in Hs. unfold removes_record.
    destruct (is_manual t.1) eqn:Em.
    + cbn [app] in Hs. rewrite (IH _ _ o Hs). unfold removes_record. split; intros [Hz H]; (split; [done|]).
      * intros t' [->|Ht']%elem_of_cons [E E']; [congruence|]. by apply (H t' Ht').
      * intros t' Ht'. apply H. by right.
    + cbn [app] in Hs. inversion Hs as [|? ? ? ? ? H1 H2]; subst. inversion H1; subst.
      rewrite (IH _ _ o H2), elem_of_bool_filter, negb_true_iff, String.eqb_neq. unfold removes_record. split.
      * intros [[Hne Hz] H]. split; [done|]. intros t' [->|Ht']%elem_of_cons [? E]; [by rewrite E in Hne|]. by apply (H t' Ht').
      * intros [Hz H]. split; [split; [|done]|intros t' Ht'; apply H; by right].
        intros E. apply (H t ltac:(left)). done.
Qed.

Lemma deletes_sublist removals : forall z z',
  zone_steps z (removals ≫= delete_operation) z' -> z' `sublist_of` z.
Proof.
  induction removals as [|t l IH]; intros z z' Hs; [by inversion Hs|].
  cbn [mbind list_bind] in Hs. unfold delete_operation at 1 in Hs. destruct (is_manual t.1); [by apply IH|].
  cbn [app] in Hs. inversion Hs as [|? ? ? ? ? H1 H2]; subst. inversion H1; subst.
  etrans; [by apply IH|]. apply bool_filter_sublist.
Qed.

(** ** What a plan says of a well-formed zone *)
Lemma map_get_fmap_some (k : string) (l : list ObservedDnsRecord) v :
  map_get k ((fun o => (observed_text o, o)) <$> l) = Some v -> v ∈ l /\ observed_text v = k.
Proof.
  induction l as [|o l IH]; csimpl; [done|]. cbn. destruct (map_get k _) as [w|] eqn:E.
  - intros [= ->]. destruct (IH eq_refl). split; [by right|done].
  - destruct (String.eqb_spec (observed_text o) k); [|done]. intros [= ->]. split; [by left|done].
Qed.

Lemma map_get_fmap_none (k : string) (l : list ObservedDnsRecord) o :
  map_get k ((fun o => (observed_text o, o)) <$> l) = None -> o ∈ l -> observed_text o <> k.
Proof.
  induction l as [|o' l IH]; csimpl; [by intros _ ?%not_elem_of_nil|]. cbn.
  destruct (map_get k _) as [w|] eqn:E; [done|].
  destruct (String.eqb_spec (observed_text o') k); [done|]. intros _ [->|Hin]%elem_of_cons; [done|by apply IH].
Qed.

Section plan.
Context (I T : list IntentRecord) (Z : list ObservedDnsRecord).
Hypothesis HI : desired_ok I T.
Hypothesis HZ : zone_ok Z.

#[local] Abbreviation ts := (tombstonesFor T Z).
#[local] Abbreviation O := (observedForDiff ts Z).
#[local] Abbreviation d := (diffDnsRecords I O).

Lemma same_record o o' : o ∈ Z -> o' ∈ Z -> od_externalRecordId o = od_externalRecordId o' -> o = o'.
Proof. apply NoDup_fmap_inj, (zk_ids _ HZ). Qed.
Lemma same_triple o o' : o ∈ Z -> o' ∈ Z -> observed_triple o = observed_triple o' -> o = o'.
Proof. apply NoDup_fmap_inj, (zk_keys _ HZ). Qed.
Lemma live_triples : NoDup (intent_triple <$> I).
Proof. destruct HI as [H _]. rewrite fmap_app in H. by apply NoDup_app in H as [? _]. Qed.
Lemma same_intent i j : i ∈ I -> j ∈ I -> intent_triple i = intent_triple j -> i = j.
Proof. apply NoDup_fmap_inj, live_triples. Qed.
Lemma live_not_tombstone i t : i ∈ I -> t ∈ T -> intent_triple i <> intent_triple t.
Proof.
  intros Hi Ht E. destruct HI as [H _]. rewrite fmap_app in H. apply NoDup_app in H as (_ & H & _).
  apply (H (intent_triple i)); [by apply list_elem_of_fmap_2|]. rewrite E. by apply list_elem_of_fmap_2.
Qed.

Lemma text_triple o t : o ∈ Z -> t ∈ I ++ T -> observed_text o = intent_text t -> observed_triple o = intent_triple t.
Proof. intros Ho Ht. apply naturalKey_inj; [by apply (zk_tidy _ HZ)|by apply (dk_tidy _ _ HI)]. Qed.

Lemma key_names i o : i ∈ I -> o ∈ Z -> intent_key i = observed_key o -> it_type i = od_type o /\ it_name i = od_name o.
Proof.
  intros Hi Ho. apply pairKey_inj; [|by apply (zk_tidy _ HZ)].
  apply (dk_tidy _ _ HI). apply elem_of_app. by left.
Qed.

(** The pending removals are the records of the soft-deleted rows. *)
Lemma elem_of_tombstones t o : (t, o) ∈ ts <-> t ∈ T /\ o ∈ Z /\ observed_triple o = intent_triple t.
Proof.
  unfold tombstonesFor. rewrite list_elem_of_bind. unfold pending_removal. split.
  - intros (t' & Hin & Ht'). destruct (map_get _ _) as [v|] eqn:E; [|by apply not_elem_of_nil in Hin].
    apply list_elem_of_singleton in Hin as [= -> ->]. apply map_get_fmap_some in E as [Hv E].
    split; [done|]. split; [done|]. apply text_triple; [done|apply elem_of_app; by right|done].
  - intros (Ht & Ho & E). exists t. split; [|done].
    assert (observed_text o = intent_text t) as Et.
    { unfold observed_text, intent_text. injection E as -> -> ->. done. }
    destruct (map_get _ _) as [v|] eqn:Em.
    + apply map_get_fmap_some in Em as [Hv Ev]. apply text_triple in Ev; [|done|apply elem_of_app; by right].
      rewrite (same_triple o v Ho Hv) by congruence. by left.
    + by destruct (map_get_fmap_none _ _ _ Em Ho).
Qed.

Lemma elem_of_observed o : o ∈ O <-> o ∈ Z /\ forall t, t ∈ T -> observed_triple o <> intent_triple t.
Proof.
  unfold observedForDiff. rewrite elem_of_bool_filter, negb_true_iff, bool_decide_eq_false. split.
  - intros [Hn Ho]. split; [done|]. intros t Ht E. apply Hn. apply list_elem_of_fmap. exists (t, o).
    split; [done|]. by apply elem_of_tombstones.
  - intros [Ho H]. split; [|done]. intros ([t o'] & E & Hin%elem_of_tombstones)%list_elem_of_fmap.
    destruct Hin as (Ht & Ho' & E'). cbn in E. rewrite (same_record o o' Ho Ho' E) in H. by apply (H t).
Qed.

Lemma observed_ids : NoDup (od_externalRecordId <$> O).
Proof. eapply NoDup_fmap_sublist; [apply bool_filter_sublist|apply (zk_ids _ HZ)]. Qed.

Lemma pair_keys : NoDup ((fun i => (intent_key i, it_content i)) <$> I).
Proof.
  apply (NoDup_fmap_of _ _ _ live_triples). intros i j Hi Hj [= E Ec].
  assert (forall x, x ∈ I -> tidy (it_type x) (it_name x)) as Ht.
  { intros x Hx. apply (dk_tidy _ _ HI), elem_of_app. by left. }
  apply pairKey_inj in E as [Et En]; [|by apply Ht..]. unfold intent_triple. congruence.
Qed.

(** No record of the zone, pending removals included, has the text of an intent
    whose own record the diff did not find. *)
Lemma unmatched_absent i o : i ∈ I -> (forall o', o' ∈ O -> (observed_key o', od_content o') <> (intent_key i, it_content i)) ->
  o ∈ Z -> observed_triple o <> intent_triple i.
Proof.
  intros Hi H Ho E. destruct (decide (o ∈ O)) as [Hin|Hout].
  - apply (H o Hin). injection E as E1 E2 E3. unfold observed_key, intent_key. by rewrite E1, E2, E3.
  - apply Hout, elem_of_observed. split; [done|]. intros t Ht E'. apply (live_not_tombstone i t Hi Ht). congruence.
Qed.

Lemma missing_facts i : i ∈ df_missing d -> i ∈ I /\ forall o, o ∈ Z -> observed_triple o <> intent_triple i.
Proof.
  pose proof (diffDnsRecords_ok I O) as D. intros Hi.
  assert (i ∈ I) as HiI by (rewrite <- (do_intents _ _ _ D); unfold intents_of; set_solver).
  split; [done|]. intros o Ho. apply unmatched_absent; [done| |done].
  intros o' Ho'. by apply (do_missing _ _ _ D pair_keys).
Qed.

Lemma modified_facts i o ch : (i, o, ch) ∈ df_modified d ->
  i ∈ I /\ o ∈ O /\ it_type i = od_type o /\ it_name i = od_name o /\
  (forall o', o' ∈ Z -> observed_triple o' = intent_triple i -> o' = o).
Proof.
  pose proof (diffDnsRecords_ok I O) as D. intros Hm.
  assert (i ∈ I) as Hi.
  { rewrite <- (do_intents _ _ _ D). unfold intents_of. rewrite !elem_of_app. right. left.
    by apply (list_elem_of_fmap_2 (fun m => m.1.1) _ (i, o, ch)). }
  assert (o ∈ O) as Ho.
  { rewrite <- (do_observed _ _ _ D). unfold observed_of. rewrite !elem_of_app. left.
    by apply (list_elem_of_fmap_2 (fun m => m.1.2) _ (i, o, ch)). }
  assert (o ∈ Z) as HoZ by (by apply elem_of_observed in Ho as [? _]).
  destruct (do_pairs _ _ _ D) as [Hp _]. destruct (Hp i o ch Hm) as (Ek & _ & _).
  destruct (key_names i o Hi HoZ Ek) as [Et En]. repeat (split; [done|]).
  intros o' Ho' E. destruct (decide (od_content o = it_content i)) as [Ec|Hc].
  - apply same_triple; [done..|]. rewrite E. unfold intent_triple, observed_triple. congruence.
  - destruct (unmatched_absent i o' Hi) with (2 := Ho') (3 := E).
    intros q Hq. by apply (do_content _ _ _ D pair_keys i o ch q Hm).
Qed.

Lemma unchanged_facts i o : (i, o) ∈ df_unchanged d -> i ∈ I /\ o ∈ O /\ payload_of o = payload i.
Proof.
  pose proof (diffDnsRecords_ok I O) as D. intros Hu.
  assert (i ∈ I) as Hi.
  { rewrite <- (do_intents _ _ _ D). unfold intents_of. rewrite !elem_of_app. right. right.
    by apply (list_elem_of_fmap_2 fst _ (i, o)). }
  assert (o ∈ O) as Ho.
  { rewrite <- (do_observed _ _ _ D). unfold observed_of. rewrite !elem_of_app. right. left.
    by apply (list_elem_of_fmap_2 snd _ (i, o)). }
  assert (o ∈ Z) as HoZ by (by apply elem_of_observed in Ho as [? _]).
  destruct (do_pairs _ _ _ D) as [_ Hp]. destruct (Hp i o Hu) as [Ek Ec].
  destruct (key_names i o Hi HoZ Ek) as [Et En]. split; [done|]. split; [done|].
  unfold changedAttributes in Ec.
  destruct (String.eqb_spec (it_content i) (od_content o)); [|done].
  destruct (Bool.eqb (it_proxied i) (od_proxied o)) eqn:Eq; [|done]. apply eqb_prop in Eq.
  case_bool_decide; [|done]. case_bool_decide; [|done].
  unfold payload_of, payload. congruence.
Qed.

(** The entries name each intent and each record once. *)
Lemma entries_once :
  NoDup (intents_of d) /\ NoDup ((fun m : modification => od_externalRecordId m.1.2) <$> df_modified d).
Proof.
  pose proof (diffDnsRecords_ok I O) as D. split.
  - rewrite (do_intents _ _ _ D). apply (NoDup_fmap_1 _ _ live_triples).
  - pose proof observed_ids as H. rewrite <- (do_observed _ _ _ D) in H. unfold observed_of in H.
    rewrite !fmap_app in H. apply NoDup_app in H as [H _]. by rewrite <- list_fmap_compose in H.
Qed.
End plan.

(** ** Running some of the operations of a plan *)
Section run.
Context (I T : list IntentRecord) (Z : list ObservedDnsRecord).
Hypothesis HI : desired_ok I T.
Hypothesis HZ : zone_ok Z.

#[local] Abbreviation ts := (tombstonesFor T Z).
#[local] Abbreviation O := (observedForDiff ts Z).
#[local] Abbreviation d := (diffDnsRecords I O).

Context (z z' : list ObservedDnsRecord) (missing : list IntentRecord)
  (modified : list modification) (removals : list removal).
Hypothesis Hz : Z ≡ₚ z.
Hypothesis Hmissing : missing `sublist_of` df_missing d.
Hypothesis Hmodified : modified `sublist_of` df_modified d.
Hypothesis Hremovals : removals `sublist_of` ts.
Hypothesis Hsteps : zone_steps z (operations_of missing modified removals) z'.

Lemma modified_in_zone m : m ∈ modified -> m.1.2 ∈ Z.
Proof.
  destruct m as [[i o] ch]. intros Hm. eapply elem_of_sublist in Hm; [|done].
  destruct (modified_facts I T Z HI HZ i o ch Hm) as (_ & Ho & _). cbn.
  by apply (elem_of_observed I T Z HI HZ) in Ho as [? _].
Qed.
Lemma removal_in_zone t : t ∈ removals -> t.2 ∈ Z /\ t.1 ∈ T /\ observed_triple t.2 = intent_triple t.1.
Proof.
  destruct t as [t o]. intros Hm. eapply elem_of_sublist in Hm; [|done].
  by apply (elem_of_tombstones I T Z HI HZ) in Hm as (? & ? & ?).
Qed.
Lemma missing_sub i : i ∈ missing -> i ∈ df_missing d.
Proof. by apply elem_of_sublist. Qed.
Lemma modified_sub m : m ∈ modified -> m ∈ df_modified d.
Proof. by apply elem_of_sublist. Qed.

Lemma modified_ids : NoDup ((fun m : modification => od_externalRecordId m.1.2) <$> modified).
Proof. eapply NoDup_fmap_sublist; [exact Hmodified|]. by apply (entries_once I T Z HI HZ). Qed.

Lemma id_in_zone o : o ∈ Z -> od_externalRecordId o ∈ (od_externalRecordId <$> z).
Proof. rewrite Hz. by apply list_elem_of_fmap_2. Qed.

(** The zone afterwards: what was created, and what was there and not removed. *)
Lemma run_zone : exists pairs,
  (forall p, p ∈ pairs -> created z p /\ p.1 ∈ missing) /\
  (forall i, i ∈ missing -> is_manual i = false -> exists o, (i, o) ∈ pairs) /\
  NoDup (fst <$> pairs) /\ NoDup (od_externalRecordId <$> z') /\
  (forall a, a ∈ z' <-> a ∈ (snd <$> pairs) \/
     exists o, o ∈ Z /\ a = updated modified o /\ forall t, t ∈ removals -> ~ removes_record o t).
Proof.
  unfold operations_of in Hsteps. apply zone_steps_app in Hsteps as (z1 & H1 & H2).
  apply zone_steps_app in H2 as (z2 & H2 & H3).
  apply creates_effect in H1 as (pairs & -> & P1 & P2 & P3 & P4).
  2:{ eapply (NoDup_fmap_sublist _ _ (intents_of d)).
      - etrans; [exact Hmissing|]. unfold intents_of. by apply sublist_inserts_r.
      - rewrite (do_intents _ _ _ (diffDnsRecords_ok I O)). by apply (live_triples I T). }
  2:{ intros i o Hi Ho. rewrite <- Hz in Ho. by apply (missing_facts I T Z HI HZ i (missing_sub i Hi)). }
  apply updates_effect in H2 as ->.
  assert (forall p m, p ∈ pairs -> m ∈ modified -> od_externalRecordId m.1.2 <> od_externalRecordId p.2) as Hfresh.
  { intros p m Hp Hm E. destruct (P1 p Hp) as [(_ & _ & Hf) _]. apply Hf. rewrite <- E.
    by apply id_in_zone, modified_in_zone. }
  exists pairs. split; [done|]. split; [done|]. split; [done|]. split.
  - eapply NoDup_fmap_sublist; [by eapply deletes_sublist|]. rewrite <- list_fmap_compose.
    rewrite (list_fmap_ext _ od_externalRecordId) by (intros; apply updated_id).
    rewrite fmap_app. apply NoDup_app. split; [rewrite <- Hz; apply (zk_ids _ HZ)|]. split; [|done].
    intros id Hid (o & -> & (p & -> & Hp)%list_elem_of_fmap)%list_elem_of_fmap.
    by destruct (P1 p Hp) as [(_ & _ & Hf) _].
  - intros a. rewrite (deletes_effect removals _ _ a H3), list_elem_of_fmap. split.
    + intros [(o & -> & [Ho|Ho]%elem_of_app) Hr].
      * right. exists o. rewrite Hz. split; [done|]. split; [done|]. intros t Ht [? E]. apply (Hr t Ht).
        split; [done|]. by rewrite updated_id.
      * left. apply list_elem_of_fmap in Ho as (p & -> & Hp). rewrite updated_other; [by apply list_elem_of_fmap_2|].
        intros m Hm [_ E]. by apply (Hfresh p m).
    + intros [(p & -> & Hp)%list_elem_of_fmap|(o & Ho & -> & Hr)].
      * split.
        -- exists p.2. split; [|apply elem_of_app; right; by apply list_elem_of_fmap_2].
           rewrite updated_other; [done|]. intros m Hm [_ E]. by apply (Hfresh p m).
        -- intros t Ht [_ E]. destruct (P1 p Hp) as [(_ & _ & Hf) _]. apply Hf. rewrite <- E.
           apply id_in_zone. by apply removal_in_zone.
      * split; [exists o; split; [done|]; apply elem_of_app; left; by rewrite <- Hz|].
        intros t Ht [? E]. apply (Hr t Ht). split; [done|]. by rewrite updated_id in E.
Qed.

(** Where a record of the zone afterwards comes from. *)
Inductive origin (pairs : list (IntentRecord * ObservedDnsRecord)) (a : ObservedDnsRecord) : Prop :=
  | was_created i : (i, a) ∈ pairs -> origin pairs a
  | was_updated i o ch : (i, o, ch) ∈ modified -> is_manual i = false -> payload_of a = payload i ->
      od_externalRecordId a = od_externalRecordId o -> origin pairs a
  | was_kept : a ∈ Z -> (forall m, m ∈ modified -> ~ targets_record a m) ->
      (forall t, t ∈ removals -> ~ removes_record a t) -> origin pairs a.

Lemma updated_cases o : o ∈ Z ->
  (exists i ch, (i, o, ch) ∈ modified /\ is_manual i = false /\ payload_of (updated modified o) = payload i) \/
  (forall m, m ∈ modified -> ~ targets_record o m).
Proof.
  intros Ho. destruct (decide (Exists (fun m : modification =>
    is_manual m.1.1 = false /\ od_externalRecordId m.1.2 = od_externalRecordId o) modified)) as [H|H].
  - left. apply Exists_exists in H as ([[i o'] ch] & Hm & Ht).
    assert (o' = o) as ->.
    { apply (same_record Z HZ); [apply (modified_in_zone _ Hm)|done|apply Ht]. }
    exists i, ch. split; [done|]. split; [apply Ht|]. by apply (updated_hit modified o (i, o, ch) modified_ids).
  - right. intros m Hm Ht. apply H, Exists_exists. by exists m.
Qed.

Lemma run_origin pairs a : (forall a, a ∈ z' <-> a ∈ (snd <$> pairs) \/
     exists o, o ∈ Z /\ a = updated modified o /\ forall t, t ∈ removals -> ~ removes_record o t) ->
  a ∈ z' -> origin pairs a.
Proof.
  intros Hx [([i o] & -> & Hp)%list_elem_of_fmap|(o & Ho & -> & Hr)]%Hx; [by eapply was_created|].
  destruct (updated_cases o Ho) as [(i & ch & Hm & Hman & Hp)|Hn].
  - eapply was_updated; [done..|]. apply updated_id.
  - rewrite updated_other by done. by apply was_kept.
Qed.

Lemma created_updated_apart i j o ch :
  i ∈ missing -> (j, o, ch) ∈ modified -> intent_triple i <> intent_triple j.
Proof.
  intros Hi%missing_sub Hj%modified_sub E.
  destruct (missing_facts I T Z HI HZ i Hi) as [HiI _].
  destruct (modified_facts I T Z HI HZ j o ch Hj) as [HjI _].
  rewrite (same_intent I T HI i j HiI HjI E) in Hi.
  pose proof (proj1 (entries_once I T Z HI HZ)) as Hn. unfold intents_of in Hn.
  apply NoDup_app in Hn as (_ & Hn & _). apply (Hn j Hi), elem_of_app. left.
  by apply (list_elem_of_fmap_2 (fun m => m.1.1) _ (j, o, ch)).
Qed.

Lemma updated_kept_apart i o ch b :
  (i, o, ch) ∈ modified -> is_manual i = false -> b ∈ Z ->
  (forall m, m ∈ modified -> ~ targets_record b m) -> observed_triple b <> intent_triple i.
Proof.
  intros Hm Hman Hb Hn E. destruct (modified_facts I T Z HI HZ i o ch (modified_sub _ Hm)) as (_ & _ & _ & _ & H).
  rewrite (H b Hb E) in Hn. by apply (Hn _ Hm).
Qed.

Lemma origins_agree pairs a b :
  (forall p, p ∈ pairs -> created z p /\ p.1 ∈ missing) -> NoDup (fst <$> pairs) ->
  origin pairs a -> origin pairs b -> observed_triple a = observed_triple b ->
  od_externalRecordId a = od_externalRecordId b.
Proof.
  intros P1 P4 Ha Hb E.
  assert (forall i x, (i, x) ∈ pairs -> observed_triple x = intent_triple i /\ i ∈ missing) as Hc.
  { intros i x H. destruct (P1 _ H) as [(_ & Hp & _) ?]. split; [by apply payload_of_triple|done]. }
  destruct Ha as [i Hi|i o ch Hi Hman Hp Hid|Ha Hna Hra]; destruct Hb as [j Hj|j q ch' Hj Hman' Hp' Hid'|Hb Hnb Hrb].
  - destruct (Hc _ _ Hi) as [Ei Hmi], (Hc _ _ Hj) as [Ej Hmj].
    assert (i = j) as ->.
    { apply (same_intent I T HI); [| |congruence]; by eapply (missing_facts I T Z HI HZ), missing_sub. }
    by injection (NoDup_fmap_inj fst pairs (j, a) (j, b) P4 Hi Hj eq_refl) as ->.
  - destruct (Hc _ _ Hi) as [Ei Hmi]. apply payload_of_triple in Hp'. destruct (created_updated_apart i j q ch' Hmi Hj). congruence.
  - destruct (Hc _ _ Hi) as [Ei Hmi]. destruct (proj2 (missing_facts I T Z HI HZ i (missing_sub i Hmi)) b Hb). congruence.
  - destruct (Hc _ _ Hj) as [Ej Hmj]. apply payload_of_triple in Hp. destruct (created_updated_apart j i o ch Hmj Hi). congruence.
  - apply payload_of_triple in Hp, Hp'. destruct (modified_facts I T Z HI HZ i o ch (modified_sub _ Hi)) as (HiI & _ & _).
    destruct (modified_facts I T Z HI HZ j q ch' (modified_sub _ Hj)) as (HjI & _ & _).
    assert (i = j) as -> by (apply (same_intent I T HI); congruence).
    pose proof (proj1 (entries_once I T Z HI HZ)) as Hn. unfold intents_of in Hn.
    apply NoDup_app in Hn as (_ & _ & Hn). apply NoDup_app in Hn as (Hn & _ & _).
    by injection (NoDup_fmap_inj _ _ _ _ Hn (modified_sub _ Hi) (modified_sub _ Hj) eq_refl) as -> _; rewrite Hid.
  - apply payload_of_triple in Hp. destruct (updated_kept_apart i o ch b Hi Hman Hb Hnb). congruence.
  - destruct (Hc _ _ Hj) as [Ej Hmj]. destruct (proj2 (missing_facts I T Z HI HZ j (missing_sub j Hmj)) a Ha). congruence.
  - apply payload_of_triple in Hp'. destruct (updated_kept_apart j q ch' a Hj Hman' Ha Hna). congruence.
  - by rewrite (same_triple Z HZ a b Ha Hb E).
Qed.

Lemma origin_tidy pairs a :
  (forall p, p ∈ pairs -> created z p /\ p.1 ∈ missing) -> origin pairs a -> tidy (od_type a) (od_name a).
Proof.
  assert (forall i, i ∈ I -> payload_of a = payload i -> tidy (od_type a) (od_name a)) as H.
  { intros i Hi E. injection E as -> -> _ _ _ _. apply (dk_tidy _ _ HI), elem_of_app. by left. }
  intros P1 [i Hi|i o ch Hi _ Hp _|Ha _ _].
  - destruct (P1 _ Hi) as [(_ & Hp & _) Hm]. apply (H i); [|done]. by apply (missing_facts I T Z HI HZ), missing_sub.
  - apply (H i); [|done]. by apply (modified_facts I T Z HI HZ i o ch), modified_sub.
  - by apply (zk_tidy _ HZ).
Qed.

Lemma run_zone_ok : zone_ok z'.
Proof.
  destruct run_zone as (pairs & P1 & P2 & P4 & Hn & Hx).
  split; [done| |].
  - apply (NoDup_fmap_of _ _ _ Hn). intros a b Ha Hb. apply (origins_agree pairs); [done..| |]; by apply run_origin.
  - intros a Ha. apply (origin_tidy pairs a P1). by apply run_origin.
Qed.

(** A record that nothing targets stays. *)
Lemma run_kept o : o ∈ Z -> (forall m, m ∈ modified -> ~ targets_record o m) ->
  (forall t, t ∈ removals -> ~ removes_record o t) -> o ∈ z'.
Proof.
  intros Ho Hm Hr. destruct run_zone as (pairs & _ & _ & _ & _ & Hx). apply Hx. right. exists o.
  split; [done|]. split; [|done]. symmetry. by apply updated_other.
Qed.

Lemma run_only_desired a : a ∈ z' ->
  a ∈ z \/ exists i, i ∈ I /\ is_manual i = false /\ payload_of a = payload i.
Proof.
  intros Ha. destruct run_zone as (pairs & P1 & _ & _ & _ & Hx).
  destruct (run_origin pairs a Hx Ha) as [i Hi|i o ch Hi Hman Hp _|HaZ _ _].
  - right. destruct (P1 _ Hi) as [(? & ? & _) Hm]. exists i. split; [|done].
    by apply (missing_facts I T Z HI HZ), missing_sub.
  - right. exists i. split; [|done]. by apply (modified_facts I T Z HI HZ i o ch), modified_sub.
  - left. by rewrite <- Hz.
Qed.

(** What removes a record of the zone is a soft-deleted row of its texts. *)
Lemma removes_tombstone o t : o ∈ Z -> t ∈ removals -> removes_record o t ->
  t.1 ∈ T /\ is_manual t.1 = false /\ observed_triple o = intent_triple t.1.
Proof.
  intros Ho Ht [Hman E]. destruct (removal_in_zone t Ht) as (H2 & H1 & E').
  rewrite (same_record Z HZ t.2 o H2 Ho E) in E'. done.
Qed.

Lemma targets_modified o m : o ∈ Z -> m ∈ modified -> targets_record o m -> m.1.2 = o.
Proof. intros Ho Hm [_ E]. apply (same_record Z HZ); [by apply modified_in_zone|done|done]. Qed.

Lemma run_or_touched o : o ∈ Z ->
  o ∈ z' \/ (exists i ch, (i, o, ch) ∈ modified /\ is_manual i = false) \/
  (exists t, t ∈ T /\ is_manual t = false /\ observed_triple o = intent_triple t).
Proof.
  intros Ho. destruct (updated_cases o Ho) as [(i & ch & Hm & Hman & _)|Hm]; [right; left; by exists i, ch|].
  destruct (decide (Exists (fun t : removal => is_manual t.1 = false /\
    od_externalRecordId t.2 = od_externalRecordId o) removals)) as [H|H].
  - right. right. apply Exists_exists in H as (t & Ht & Hr). exists t.1. by apply removes_tombstone.
  - left. apply run_kept; [done..|]. intros t Ht Hr. apply H, Exists_exists. by exists t.
Qed.

(** An observed record the diff pairs with nothing, or with a record that is not
    to be written, stays. *)
Lemma run_observed_kept o : o ∈ O -> (forall i ch, (i, o, ch) ∈ modified -> is_manual i = true) -> o ∈ z'.
Proof.
  intros Ho Hm. pose proof Ho as [HoZ Hn]%(elem_of_observed I T Z HI HZ).
  destruct (run_or_touched o HoZ) as [?|[(i & ch & Hi & Hman)|(t & Ht & _ & E)]]; [done| |by destruct (Hn t Ht)].
  specialize (Hm i ch Hi). congruence.
Qed.
End run.

(** ** Prefixes *)
Lemma bind_prefix {A B} (f : A -> list B) l a b :
  (forall x, (length (f x) <= 1)%nat) -> l ≫= f = a ++ b ->
  exists l1 l2, l = l1 ++ l2 /\ a = l1 ≫= f /\ b = l2 ≫= f.
Proof.
  intros Hf. revert a. induction l as [|x l IH]; intros a E.
  - symmetry in E. apply app_nil in E as [-> ->]. by exists [], [].
  - cbn in E. specialize (Hf x) as Hx. destruct (f x) as [|y [|]] eqn:Ex; cbn in E, Hx; [| |lia].
    + destruct (IH a E) as (l1 & l2 & -> & -> & ->). exists (x :: l1), l2. cbn. by rewrite Ex.
    + destruct a as [|y' a]; cbn in E.
      * exists [], (x :: l). cbn. by rewrite Ex.
      * injection E as <- E. destruct (IH a E) as (l1 & l2 & -> & -> & ->). exists (x :: l1), l2. cbn. by rewrite Ex.
Qed.

Lemma operations_length :
  (forall i, (length (create_operation i) <= 1)%nat) /\ (forall m, (length (update_operation m) <= 1)%nat) /\
  (forall t, (length (delete_operation t) <= 1)%nat).
Proof. repeat split; intros x; unfold create_operation, update_operation, delete_operation; destruct (is_manual _); cbn; lia. Qed.

Lemma operations_prefix missing modified removals a b :
  operations_of missing modified removals = a ++ b ->
  exists M U R, M `sublist_of` missing /\ U `sublist_of` modified /\ R `sublist_of` removals /\
    a = operations_of M U R.
Proof.
  destruct operations_length as (L1 & L2 & L3). unfold operations_of. intros E.
  apply app_eq_inv in E as [(k & E & ->)|(k & -> & E)].
  - apply bind_prefix in E as (l1 & l2 & -> & -> & ->); [|done]. exists l1, [], [].
    split; [apply sublist_inserts_r; done|]. split; [apply sublist_nil_l|]. split; [apply sublist_nil_l|].
    cbn. by rewrite app_nil_r.
  - apply app_eq_inv in E as [(k' & E & ->)|(k' & -> & E)].
    + apply bind_prefix in E as (l1 & l2 & -> & -> & ->); [|done]. exists missing, l1, [].
      split; [done|]. split; [apply sublist_inserts_r; done|]. split; [apply sublist_nil_l|].
      cbn. by rewrite app_nil_r.
    + apply bind_prefix in E as (l1 & l2 & -> & -> & ->); [|done]. exists missing, modified, l1.
      split; [done|]. split; [done|]. split; [apply sublist_inserts_r; done|]. done.
Qed.

Lemma plan_prefix live tombstoneRows observed a b :
  plan_operations (planSync live tombstoneRows observed) = a ++ b ->
  let d := sp_diff (planSync live tombstoneRows observed) in
  exists M U R, M `sublist_of` df_missing d /\ U `sublist_of` df_modified d /\
    R `sublist_of` tombstonesFor tombstoneRows observed /\ a = operations_of M U R.
Proof. apply operations_prefix. Qed.

(** The diff's unexpected records, and those it pairs with a manual row, are no
    operation's target. *)
Lemma unexpected_observed live tombstoneRows observed o :
  o ∈ df_unexpected (sp_diff (planSync live tombstoneRows observed)) ->
  o ∈ observedForDiff (tombstonesFor tombstoneRows observed) observed.
Proof.
  intros Ho. rewrite <- (do_observed _ _ _ (diffDnsRecords_ok live _)). unfold observed_of.
  rewrite !elem_of_app. right. by right.
Qed.

Lemma paired_observed live tombstoneRows observed i o ch :
  (i, o, ch) ∈ df_modified (sp_diff (planSync live tombstoneRows observed)) ->
  o ∈ observedForDiff (tombstonesFor tombstoneRows observed) observed.
Proof.
  intros Ho. rewrite <- (do_observed _ _ _ (diffDnsRecords_ok live _)). unfold observed_of.
  rewrite !elem_of_app. left. by apply (list_elem_of_fmap_2 (fun m => m.1.2) _ (i, o, ch)).
Qed.

Lemma guard_never_throws live tombstoneRows observed :
  desired_ok live tombstoneRows -> zone_ok observed ->
  let p := planSync live tombstoneRows observed in
  assertNoUnexpectedDeletions (sp_diff p) (plan_operations p) = Ok tt.
Proof.
  intros HI HZ p. unfold assertNoUnexpectedDeletions, throw_if.
  destruct (existsb _ _) eqn:E; [|done]. exfalso.
  apply existsb_exists in E as (op & Hop%list_elem_of_In & E). unfold plan_operations, applyOperationsFor in Hop.
  assert (exists t o, (t, o) ∈ sp_tombstones p /\ exists u, u ∈ df_unexpected (sp_diff p) /\
    od_externalRecordId o = od_externalRecordId u) as (t & o & Ht & u & Hu & Eid).
  { rewrite !elem_of_app, !list_elem_of_bind in Hop. destruct Hop as [(x & H & _)|[(x & H & _)|([t o] & H & Ht)]].
    - unfold create_operation in H. destruct (is_manual x); [by apply not_elem_of_nil in H|].
      by apply list_elem_of_singleton in H as ->.
    - unfold update_operation in H. destruct (is_manual x.1.1); [by apply not_elem_of_nil in H|].
      by apply list_elem_of_singleton in H as ->.
    - exists t, o. split; [done|]. unfold delete_operation in H. cbn in H.
      destruct (is_manual t); [by apply not_elem_of_nil in H|]. apply list_elem_of_singleton in H as ->.
      cbn in E. apply bool_decide_eq_true in E. apply list_elem_of_fmap in E as (u & E & Hu). by exists u. }
  apply unexpected_observed, (elem_of_observed _ _ _ HI HZ) in Hu as [HuZ Hu].
  apply (elem_of_tombstones _ _ _ HI HZ) in Ht as (Ht & HoZ & Et).
  apply (Hu t Ht). by rewrite <- (same_record _ HZ o u HoZ HuZ Eid).
Qed.

(** Whatever part of a plan's operations a provider gets to, it touches only what the
    reconciler owns: the zone stays well formed; a record that is gone or changed
    is one the diff paired with a live record that is not manual, or one a
    soft-deleted row that is not manual names; a new or changed record carries
    exactly what a live, non-manual record declares; and records the diff calls
    unexpected, or pairs with a manual row, are still there.  The guard against
    deleting unexpected records never fires. *)
Theorem partial_sync_safe (live tombstoneRows : list IntentRecord)
    (zone observed zone' : list ObservedDnsRecord) (applied rest : list DnsApplyOperation) :
  let p := planSync live tombstoneRows observed in
  desired_ok live tombstoneRows -> zone_ok zone -> observed ≡ₚ zone ->
  plan_operations p = applied ++ rest -> zone_steps zone applied zone' ->
  assertNoUnexpectedDeletions (sp_diff p) (plan_operations p) = Ok tt /\
  zone_ok zone' /\
  (forall o, o ∈ zone -> o ∈ zone' \/
     (exists i changed, (i, o, changed) ∈ df_modified (sp_diff p) /\ i ∈ live /\ is_manual i = false) \/
     (exists t, t ∈ tombstoneRows /\ is_manual t = false /\ observed_triple o = intent_triple t)) /\
  (forall o, o ∈ zone' -> o ∈ zone \/
     exists i, i ∈ live /\ is_manual i = false /\ payload_of o = payload i) /\
  (forall o, o ∈ df_unexpected (sp_diff p) -> o ∈ zone') /\
  (forall i o changed, (i, o, changed) ∈ df_modified (sp_diff p) -> is_manual i = true -> o ∈ zone').
Proof.
  intros p HI Hz Hperm Hops Hsteps.
  assert (zone_ok observed) as HZ by (by eapply zone_ok_perm; [symmetry|]).
  split; [by apply guard_never_throws|].
  pose proof (plan_prefix _ _ _ _ _ Hops) as (M & U & R & HM & HU & HR & ->). cbn zeta in *.
  pose proof (run_observed_kept live tombstoneRows observed HI HZ _ _ _ _ _ Hperm HM HU HR Hsteps) as Hkept.
  assert (forall i o ch, (i, o, ch) ∈ U -> (i, o, ch) ∈ df_modified (sp_diff p)) as HUd.
  { intros i o ch. by apply elem_of_sublist. }
  split; [by eapply run_zone_ok|]. split; [|split; [|split]].
  - intros o Ho. rewrite <- Hperm in Ho.
    destruct (run_or_touched live tombstoneRows observed HI HZ _ _ _ _ _ Hperm HM HU HR Hsteps o Ho)
      as [?|[(i & ch & Hi%HUd & Hm)|?]]; [by left| |by right; right].
    right. left. exists i, ch. split; [done|]. split; [|done].
    by apply (modified_facts live tombstoneRows observed HI HZ i o ch).
  - intros o Ho. by eapply (run_only_desired live tombstoneRows observed).
  - intros o Ho. apply Hkept; [by eapply unexpected_observed|]. intros i ch Hi%HUd. exfalso.
    pose proof (observed_ids tombstoneRows observed HZ) as Hn.
    rewrite <- (do_observed _ _ _ (diffDnsRecords_ok live _)) in Hn. unfold observed_of in Hn.
    rewrite !fmap_app in Hn. apply NoDup_app in Hn as (_ & Hn & _).
    apply (Hn (od_externalRecordId o)).
    + apply list_elem_of_fmap_2. by apply (list_elem_of_fmap_2 (fun m : modification => m.1.2) _ (i, o, ch)).
    + apply elem_of_app. right. by apply list_elem_of_fmap_2.
  - intros i o ch Ho Hman. apply Hkept; [by eapply paired_observed|]. intros j ch' Hj%HUd.
    pose proof (proj2 (entries_once live tombstoneRows observed HI HZ)) as Hn.
    by injection (NoDup_fmap_inj _ _ _ _ Hn Hj Ho eq_refl) as -> _.
Qed.

(** ** Convergence *)

(** The row says the same, whatever provider identifier it now carries. *)
Definition same_desire (i j : IntentRecord) : Prop := payload i = payload j /\ is_manual i = is_manual j.

Definition carried (zone : list ObservedDnsRecord) (live tombstoneRows : list IntentRecord) : Prop :=
  (forall i, i ∈ live -> is_manual i = false -> exists o, o ∈ zone /\ payload_of o = payload i) /\
  (forall t o, t ∈ tombstoneRows -> is_manual t = false -> o ∈ zone -> observed_triple o <> intent_triple t).

Lemma payload_intent_triple i j : payload i = payload j -> intent_triple i = intent_triple j.
Proof. intros E. exact (f_equal payload_triple E). Qed.

Lemma complete_run_carries live tombstoneRows observed zone zone' :
  desired_ok live tombstoneRows -> zone_ok observed -> observed ≡ₚ zone ->
  zone_steps zone (plan_operations (planSync live tombstoneRows observed)) zone' ->
  carried zone' live tombstoneRows.
Proof.
  intros HI HZ Hperm Hsteps. set (p := planSync live tombstoneRows observed) in *.
  set (ds := sp_diff p) in *. pose proof (diffDnsRecords_ok live (observedForDiff (tombstonesFor tombstoneRows observed) observed)) as D.
  change (zone_steps zone (operations_of (df_missing ds) (df_modified ds) (sp_tombstones p)) zone') in Hsteps.
  destruct (run_zone live tombstoneRows observed HI HZ _ _ _ _ _ Hperm
    (reflexivity _) (reflexivity _) (reflexivity _) Hsteps) as (pairs & P1 & P2 & P4 & Hn & Hx).
  assert (forall o t, o ∈ observedForDiff (tombstonesFor tombstoneRows observed) observed ->
    t ∈ sp_tombstones p -> ~ removes_record o t) as Hr.
  { intros o t Ho Ht Hr. apply (elem_of_observed _ _ _ HI HZ) in Ho as [HoZ Ho].
    destruct (removes_tombstone live tombstoneRows observed HI HZ (sp_tombstones p) (reflexivity _) o t HoZ Ht Hr) as (? & _ & E).
    by destruct (Ho t.1). }
  split.
  - intros i Hi Hman. rewrite <- (do_intents _ _ _ D) in Hi. unfold intents_of in Hi.
    apply elem_of_app in Hi as [Hi|Hi]; [|apply elem_of_app in Hi as [Hi|Hi]].
    + destruct (P2 i Hi Hman) as (o & Ho). exists o. split; [|by destruct (P1 _ Ho) as [(_ & ? & _) _]].
      apply Hx. left. by apply (list_elem_of_fmap_2 snd _ (i, o)).
    + apply list_elem_of_fmap in Hi as ([[i' o] ch] & -> & Hm). cbn in *.
      exists (updated (df_modified ds) o).
      destruct (modified_facts live tombstoneRows observed HI HZ i' o ch Hm) as (_ & Ho & _).
      split; [|by apply (updated_hit _ _ (i', o, ch) (proj2 (entries_once live tombstoneRows observed HI HZ)) Hm)].
      apply Hx. right. exists o. split; [by apply (elem_of_observed _ _ _ HI HZ) in Ho as [? _]|]. split; [done|]. auto.
    + apply list_elem_of_fmap in Hi as ([i' o] & -> & Hu). cbn in *. exists o.
      destruct (unchanged_facts live tombstoneRows observed HI HZ i' o Hu) as (_ & Ho & Hp). split; [|done].
      eapply (run_observed_kept live tombstoneRows observed HI HZ); [done| | | |exact Hsteps|done|]; [done..|].
      intros j ch Hj. exfalso. pose proof (observed_ids tombstoneRows observed HZ) as Hnd.
      rewrite <- (do_observed _ _ _ D) in Hnd. unfold observed_of in Hnd.
      rewrite !fmap_app in Hnd. apply NoDup_app in Hnd as (_ & Hnd & _). apply (Hnd (od_externalRecordId o)).
      * apply list_elem_of_fmap_2. by apply (list_elem_of_fmap_2 (fun m : modification => m.1.2) _ (j, o, ch)).
      * apply elem_of_app. left. apply list_elem_of_fmap_2. by apply (list_elem_of_fmap_2 snd _ (i', o)).
  - intros t a Ht Hman Ha E.
    assert (origin observed (df_modified ds) (sp_tombstones p) pairs a) as Ho.
    { by apply (run_origin live tombstoneRows observed HI HZ zone'). }
    destruct Ho as [i Hi|i o ch Hi _ Hp _|HaZ _ Hrem].
    + destruct (P1 _ Hi) as [(_ & Hp & _) Hm]. apply payload_of_triple in Hp. cbn in *.
      apply (live_not_tombstone live tombstoneRows HI i t); [|done|congruence].
      by apply (missing_facts live tombstoneRows observed HI HZ).
    + apply payload_of_triple in Hp. apply (live_not_tombstone live tombstoneRows HI i t); [|done|congruence].
      by apply (modified_facts live tombstoneRows observed HI HZ i o ch).
    + apply (Hrem (t, a)); [by apply (elem_of_tombstones _ _ _ HI HZ)|]. done.
Qed.

Lemma changed_none i o : payload_of o = payload i -> changedAttributes i o = [].
Proof.
  intros E. injection E as _ _ Ec Et Ep Eq. unfold changedAttributes.
  rewrite Ec, Et, Ep, Eq, String.eqb_refl, eqb_reflx, !bool_decide_eq_true_2; done.
Qed.

(** A plan over a zone that carries the desired records has no operations. *)
Lemma carried_plan live tombstoneRows observed :
  desired_ok live tombstoneRows -> zone_ok observed -> carried observed live tombstoneRows ->
  plan_operations (planSync live tombstoneRows observed) = [].
Proof.
  intros HI HZ [C1 C2]. set (p := planSync live tombstoneRows observed).
  assert (forall A B (f : A -> list B) l, (forall x, x ∈ l -> f x = []) -> l ≫= f = []) as Hnil.
  { intros A B f l. induction l as [|x l IH]; intros H; [done|]. cbn. rewrite (H x) by (by left). apply IH.
    intros y Hy. apply H. by right. }
  unfold plan_operations, applyOperationsFor.
  rewrite (Hnil _ _ create_operation), (Hnil _ _ update_operation), (Hnil _ _ delete_operation); [done|..].
  - intros [t o] Ht. unfold delete_operation. cbn. destruct (is_manual t) eqn:Em; [done|]. exfalso.
    apply (elem_of_tombstones _ _ _ HI HZ) in Ht as (Ht & Ho & E). by apply (C2 t o).
  - intros [[i o] ch] Hm. unfold update_operation. cbn. destruct (is_manual i) eqn:Em; [done|]. exfalso.
    destruct (modified_facts live tombstoneRows observed HI HZ i o ch Hm) as (Hi & _ & _ & _ & Huniq).
    destruct (C1 i Hi Em) as (r & Hr & Hp). rewrite (Huniq r Hr (payload_of_triple _ _ Hp)) in Hp.
    destruct (do_pairs _ _ _ (diffDnsRecords_ok live (observedForDiff (tombstonesFor tombstoneRows observed) observed))) as [Hd _].
    destruct (Hd i o ch Hm) as (_ & -> & Hne). by apply Hne, changed_none.
  - intros i Hi. unfold create_operation. destruct (is_manual i) eqn:Em; [done|]. exfalso.
    destruct (missing_facts live tombstoneRows observed HI HZ i Hi) as [HiI Hne].
    destruct (C1 i HiI Em) as (r & Hr & Hp). by apply (Hne r Hr), payload_of_triple.
Qed.

Lemma carried_same zone live tombstoneRows live' tombstoneRows' :
  carried zone live tombstoneRows ->
  (forall i, i ∈ live' -> exists j, j ∈ live /\ same_desire i j) ->
  (forall t, t ∈ tombstoneRows' -> exists j, j ∈ tombstoneRows /\ same_desire t j) ->
  carried zone live' tombstoneRows'.
Proof.
  intros [C1 C2] H1 H2. split.
  - intros i Hi Hman. destruct (H1 i Hi) as (j & Hj & Ep & Em). rewrite Ep. apply C1; [done|congruence].
  - intros t o Ht Hman Ho. destruct (H2 t Ht) as (j & Hj & Ep & Em).
    rewrite (payload_intent_triple t j Ep). apply C2; [done|congruence|done].
Qed.

(** Record sync converges, also after a run that stopped half way.  Let some of the
    operations of one plan be applied, by any provider that does what it is asked,
    and then all the operations of the next plan, made from a fresh read of the
    zone.  Then every live record that is not manual is carried by the zone, no
    record of a soft-deleted row that is not manual is left, and the plan made from
    the next read has no operation at all. *)
Theorem sync_converges (live tombstoneRows live' tombstoneRows' : list IntentRecord)
    (zone0 zone1 zone2 observed0 observed1 observed2 : list ObservedDnsRecord)
    (applied rest : list DnsApplyOperation) :
  desired_ok live tombstoneRows -> desired_ok live' tombstoneRows' -> zone_ok zone0 ->
  observed0 ≡ₚ zone0 ->
  plan_operations (planSync live tombstoneRows observed0) = applied ++ rest ->
  zone_steps zone0 applied zone1 ->
  observed1 ≡ₚ zone1 ->
  zone_steps zone1 (plan_operations (planSync live tombstoneRows observed1)) zone2 ->
  (forall i, i ∈ live' -> exists j, j ∈ live /\ same_desire i j) ->
  (forall t, t ∈ tombstoneRows' -> exists j, j ∈ tombstoneRows /\ same_desire t j) ->
  observed2 ≡ₚ zone2 ->
  zone_ok zone2 /\ carried zone2 live tombstoneRows /\
  plan_operations (planSync live' tombstoneRows' observed2) = [].
Proof.
  intros HI HI' Hz0 E0 Hops S1 E1 S2 H1 H2 E2.
  assert (forall z o, o ≡ₚ z -> zone_ok z -> zone_ok o) as Hp by (intros z o E; by apply zone_ok_perm).
  assert (forall z o a b z', o ≡ₚ z -> zone_ok z -> plan_operations (planSync live tombstoneRows o) = a ++ b ->
    zone_steps z a z' -> zone_ok z') as Hrun.
  { intros z o a b z' E Hz Ho Hs. pose proof (plan_prefix _ _ _ _ _ Ho) as (M & U & R & HM & HU & HR & ->).
    by eapply (run_zone_ok live tombstoneRows o HI (Hp _ _ E Hz)). }
  assert (zone_ok zone1) as Hz1 by (by apply (Hrun zone0 observed0 applied rest)).
  assert (zone_ok zone2) as Hz2.
  { eapply (Hrun zone1 observed1 _ []); [done|done| |exact S2]. by rewrite app_nil_r. }
  assert (carried zone2 live tombstoneRows) as C by (apply (complete_run_carries live tombstoneRows observed1 zone1); [done|by apply (Hp zone1)|done|done]).
  split; [done|]. split; [done|]. apply carried_plan; [done|by apply (Hp zone2)|].
  destruct (carried_same _ _ _ _ _ C H1 H2) as [C1 C2]. split.
  - intros i Hi Hman. destruct (C1 i Hi Hman) as (o & Ho & ?). exists o. by rewrite E2.
  - intros t o Ht Hman Ho. rewrite E2 in Ho. by apply C2.
Qed.

(** ** A zone mid-way *)
Definition sample_intent (id : uuid) (type content : string) (owner : DnsRecordOwner) : IntentRecord :=
  {| it_id := id; it_type := type; it_name := "@"; it_content := content; it_ttlSeconds := None;
     it_priority := None; it_proxied := false; it_owner := owner; it_externalRecordId := None |}.
Definition sample_observed (id type content : string) : ObservedDnsRecord :=
  {| od_externalRecordId := id; od_type := type; od_name := "@"; od_content := content;
     od_ttlSeconds := None; od_priority := None; od_proxied := false; od_proxiable := false |}.
Definition sample_live : list IntentRecord :=
  [sample_intent 1 "A" "203.0.113.7" OwnerApex; sample_intent 2 "AAAA" "2001:db8::7" OwnerApex;
   sample_intent 3 "NS" "ns9.example.net" OwnerManual].
Definition sample_deleted : list IntentRecord := [sample_intent 4 "TXT" "old" OwnerMail].
Definition sample_zone : list ObservedDnsRecord :=
  [sample_observed "r1" "A" "203.0.113.1"; sample_observed "r2" "TXT" "old"; sample_observed "r3" "MX" "mx.example.org";
   sample_observed "r5" "NS" "ns1.example.net"].
Definition sample_zone1 : list ObservedDnsRecord := sample_zone ++ [sample_observed "r4" "AAAA" "2001:db8::7"].
Definition sample_zone2 : list ObservedDnsRecord :=
  [sample_observed "r1" "A" "203.0.113.7"; sample_observed "r3" "MX" "mx.example.org";
   sample_observed "r5" "NS" "ns1.example.net"; sample_observed "r4" "AAAA" "2001:db8::7"].

Lemma sample_desired_ok : desired_ok sample_live sample_deleted.
Proof.
  split; [by apply (bool_decide_unpack _)|]. apply Forall_forall.
  repeat (apply Forall_cons; split; [by split|]). constructor.
Qed.
Lemma sample_zone_ok : zone_ok sample_zone.
Proof.
  split; [by apply (bool_decide_unpack _)..|]. apply Forall_forall.
  repeat (apply Forall_cons; split; [by split|]). constructor.
Qed.
Lemma sample_step0 : zone_steps sample_zone [CreateOp (payload (sample_intent 2 "AAAA" "2001:db8::7" OwnerApex))] sample_zone1.
Proof.
  econstructor; [|constructor]. apply step_create; [done|]. by apply (bool_decide_unpack _).
Qed.
Lemma sample_step1 :
  zone_steps sample_zone1 (plan_operations (planSync sample_live sample_deleted sample_zone1)) sample_zone2.
Proof.
  change (plan_operations _) with
    [UpdateOp "r1" (payload (sample_intent 1 "A" "203.0.113.7" OwnerApex)); DeleteOp "r2" "TXT" "@" "old"].
  econstructor; [apply step_update; by apply (bool_decide_unpack _)|].
  econstructor; [apply step_delete|]. apply steps_done.
Qed.

Lemma partial_sync_safe_witness :
  zone_ok sample_zone1 /\ sample_observed "r3" "MX" "mx.example.org" ∈ sample_zone1.
Proof.
  destruct (partial_sync_safe sample_live sample_deleted sample_zone sample_zone sample_zone1 _
    [UpdateOp "r1" (payload (sample_intent 1 "A" "203.0.113.7" OwnerApex)); DeleteOp "r2" "TXT" "@" "old"]
    sample_desired_ok sample_zone_ok (reflexivity _) eq_refl sample_step0) as (_ & H & _ & _ & Hu & _).
  split; [exact H|]. apply Hu. by apply (bool_decide_unpack _).
Defined.

Lemma sync_converges_witness :
  zone_ok sample_zone2 /\ plan_operations (planSync sample_live sample_deleted sample_zone2) = [].
Proof.
  destruct (sync_converges sample_live sample_deleted sample_live sample_deleted
    sample_zone sample_zone1 sample_zone2 sample_zone sample_zone1 sample_zone2 _
    [UpdateOp "r1" (payload (sample_intent 1 "A" "203.0.113.7" OwnerApex)); DeleteOp "r2" "TXT" "@" "old"]
    sample_desired_ok sample_desired_ok sample_zone_ok (reflexivity _) eq_refl sample_step0 (reflexivity _)
    sample_step1) as (H & _ & E).
  - intros i Hi. by exists i.
  - intros i Hi. by exists i.
  - reflexivity.
  - split; [exact H|exact E].
Defined.

(** C36. A foreign record is overwritten: when a record the reconciler wants is not there and
    the operator has one of the same type and name with other content (a
    verification TXT beside a wanted SPF record), the plan's only operation
    overwrites the operator's record with the wanted one, although nothing Loxep
    ever declared described it; after it the operator's content is gone. *)
Theorem foreign_record_overwritten (wanted : IntentRecord) (foreign : ObservedDnsRecord) :
  is_manual wanted = false -> it_type wanted = od_type foreign -> it_name wanted = od_name foreign ->
  it_content wanted <> od_content foreign ->
  plan_operations (planSync [wanted] [] [foreign])
    = [UpdateOp (od_externalRecordId foreign) (payload wanted)] /\
  forall zone, zone_steps [foreign] (plan_operations (planSync [wanted] [] [foreign])) zone ->
    foreign ∉ zone.
Proof.
  intros Hman Ht Hn Hc.
  assert (plan_operations (planSync [wanted] [] [foreign])
    = [UpdateOp (od_externalRecordId foreign) (payload wanted)]) as E.
  { unfold plan_operations, planSync. cbn [tombstonesFor mbind list_bind sp_diff sp_tombstones].
    assert (observedForDiff [] [foreign] = [foreign]) as -> by (unfold observedForDiff; cbn; by rewrite bool_decide_eq_false_2 by apply not_elem_of_nil).
    assert (observed_key foreign = intent_key wanted) as Ek by (unfold observed_key, intent_key; congruence).
    unfold diffDnsRecords, group_by. cbn. rewrite Ek. rewrite !String.eqb_refl. cbn.
    assert (String.eqb (od_content foreign) (it_content wanted) = false) as Ef by (by apply String.eqb_neq).
    unfold diff_group. cbn. unfold match_content. cbn [find_index]. rewrite Ef, andb_false_r.
    transitivity ((update_operation (wanted, foreign, changedAttributes wanted foreign) ++ []) ++ []); [reflexivity|].
    unfold update_operation. cbn. by rewrite Hman. }
  split; [done|]. rewrite E. intros zone Hs. inversion Hs as [|? ? ? ? ? H1 H2]; subst.
  inversion H2; subst. inversion H1; subst. csimpl. unfold overwrite. rewrite String.eqb_refl.
  intros H%list_elem_of_singleton. apply Hc. by rewrite H.
Qed.

Lemma foreign_record_overwritten_witness :
  plan_operations (planSync [sample_intent 1 "TXT" "v=spf1 -all" OwnerMail] []
    [sample_observed "r7" "TXT" "site-verification=abc"])
  = [UpdateOp "r7" (payload (sample_intent 1 "TXT" "v=spf1 -all" OwnerMail))].
Proof.
  apply (foreign_record_overwritten (sample_intent 1 "TXT" "v=spf1 -all" OwnerMail)
    (sample_observed "r7" "TXT" "site-verification=abc")); [reflexivity..|discriminate].
Defined.
