(* ===== verification/Tailnet.v ===== *)
(** * Private tailnet addresses

    [packages/infrastructure/src/tailnet-address.ts]: which address texts lie in
    Tailscale's two private ranges.  IPv4 values are JavaScript's 32-bit
    integers, with their wrap-around; IPv6 values are bigints. *)
From S2P Require Import Prelude Decimal Calendar Inputs.

Open Scope Z_scope.
#[local] Arguments String.append : simpl nomatch.

(** ** 32-bit integers *)
Definition to_int32 (z : Z) : Z := (z + 2 ^ 31) mod 2 ^ 32 - 2 ^ 31.
Definition to_uint32 (z : Z) : Z := z mod 2 ^ 32.
(** [a << n], [a | b] and [a & b] *)
Definition int_shl (a n : Z) : Z := to_int32 (Z.shiftl (to_int32 a) n).
Definition int_or (a b : Z) : Z := to_int32 (Z.lor (to_int32 a) (to_int32 b)).
Definition int_and (a b : Z) : Z := to_int32 (Z.land (to_int32 a) (to_int32 b)).

(** ** [s.split(separator)] for a separator that is not empty

    [skip] characters of a separator remain to be dropped; [acc] is the part
    read so far. *)
Fixpoint split_go (separator : string) (skip : nat) (acc s : string) : list string :=
  match s with
  | EmptyString => [acc]
  | String c s' =>
      match skip with
      | S skip => split_go separator skip acc s'
      | O => if Js.starts_with separator s
             then acc :: split_go separator (String.length separator - 1) "" s'
             else split_go separator 0 (acc ++ String c "")%string s'
      end
  end.
Definition split (separator s : string) : list string := split_go separator 0 "" s.

(** ** IPv4 *)
Definition TAILSCALE_CGNAT_V4_CIDR : string := "100.64.0.0/10".
Definition TAILSCALE_ULA_V6_CIDR : string := "fd7a:115c:a1e0::/48".

Inductive TailnetAddressKind : Type := CgnatV4 | TailscaleUlaV6.

(** [/^\d{1,3}$/] and the range check *)
Definition octet (part : string) : option Z :=
  if (1 <=? String.length part)%nat && (String.length part <=? 3)%nat && Js.all_digits part then
    let n := Js.bigint part in
    if (n <? 0) || (255 <? n) then None else Some n
  else None.

Fixpoint octets (value : Z) (parts : list string) : option Z :=
  match parts with
  | [] => Some value
  | part :: parts => n ← octet part; octets (int_or (int_shl value 8) n) parts
  end.

Definition parseIPv4 (address : string) : option Z :=
  let parts := split "." (Text.trim address) in
  if (length parts =? 4)%nat then to_uint32 <$> octets 0 parts else None.

(** The base and the length of [base/length]; the two constants are well formed. *)
Definition cidr_parts (cidr : string) : option string * Z :=
  match split "/" cidr with
  | base :: length :: _ => (Some base, Js.bigint length)
  | base :: [] => (Some base, 0)
  | [] => (None, 0)
  end.

Definition v4_mask (prefixLen : Z) : Z :=
  if prefixLen =? 0 then 0 else to_uint32 (int_shl 4294967295 (32 - prefixLen)).

Definition ipv4InCidr (address cidr : string) : bool :=
  let '(base, prefixLen) := cidr_parts cidr in
  match parseIPv4 address, base ≫= parseIPv4 with
  | Some addressValue, Some baseValue =>
      int_and addressValue (v4_mask prefixLen) =? int_and baseValue (v4_mask prefixLen)
  | _, _ => false
  end.

(** ** IPv6 *)
Definition hex_val (c : ascii) : option Z :=
  let n := Z.of_nat (nat_of_ascii c) in
  if (48 <=? n) && (n <=? 57) then Some (n - 48)
  else if (97 <=? n) && (n <=? 102) then Some (n - 87)
  else if (65 <=? n) && (n <=? 70) then Some (n - 55)
  else None.

Fixpoint hex_digits (value : Z) (s : string) : option Z :=
  match s with
  | EmptyString => Some value
  | String c s => n ← hex_val c; hex_digits (16 * value + n) s
  end.

(** [/^[0-9a-fA-F]{1,4}$/] and [Number.parseInt(group, 16)] *)
Definition hextet (group : string) : option Z :=
  if (1 <=? String.length group)%nat && (String.length group <=? 4)%nat
  then hex_digits 0 group else None.

Fixpoint hextets (value : Z) (groups : list string) : option Z :=
  match groups with
  | [] => Some value
  | group :: groups => n ← hextet group; hextets (Z.lor (Z.shiftl value 16) n) groups
  end.

Definition parseGroups (segment : string) : list string :=
  if String.eqb segment "" then [] else split ":" segment.

(** The eight groups, with what [::] elides. *)
Definition groups_of (trimmed : string) : option (list string) :=
  match split "::" trimmed with
  | [whole] => Some (parseGroups whole)
  | [first; second] =>
      let head := parseGroups first in
      let tail := parseGroups second in
      let missing := 8 - Z.of_nat (length head) - Z.of_nat (length tail) in
      if missing <? 1 then None
      else Some (head ++ replicate (Z.to_nat missing) "0"%string ++ tail)
  | _ => None
  end.

Definition has_dot (s : string) : bool := bool_decide (Js.index_of "." s <> None).

Definition parseIPv6 (address : string) : option Z :=
  let trimmed := Text.trim address in
  if (String.length trimmed =? 0)%nat || has_dot trimmed then None
  else
    groups ← groups_of trimmed;
    if (length groups =? 8)%nat then hextets 0 groups else None.

Definition v6_mask (prefixLen : Z) : Z :=
  Z.lxor (Z.shiftl 1 128 - 1) (Z.shiftl 1 (128 - prefixLen) - 1).

Definition ipv6InCidr (address cidr : string) : bool :=
  let '(base, prefixLen) := cidr_parts cidr in
  match parseIPv6 address, base ≫= parseIPv6 with
  | Some addressValue, Some baseValue =>
      (prefixLen =? 0)
      || (Z.land addressValue (v6_mask prefixLen) =? Z.land baseValue (v6_mask prefixLen))
  | _, _ => false
  end.

Definition tailnetAddressKind (address : string) : option TailnetAddressKind :=
  if ipv4InCidr address TAILSCALE_CGNAT_V4_CIDR then Some CgnatV4
  else if ipv6InCidr address TAILSCALE_ULA_V6_CIDR then Some TailscaleUlaV6
  else None.

Definition isPrivateTailnetAddress (address : string) : bool :=
  bool_decide (is_Some (tailnetAddressKind address)).

Example tailnet_samples :
  (isPrivateTailnetAddress <$>
     ["100.64.0.0"; "100.127.255.255"; "100.128.0.0"; "100.63.255.255"; "fd7a:115c:a1e0::1";
      "FD7A:115C:A1E0:0:0:0:0:1"; "fd7a:115c:a1e1::1"; "::"; "1:2:3:4:5:6:7::8"; ":::"; "100.64.0";
      " 100.100.1.2 "; "::ffff:100.64.0.1"]%string)
  = [true; true; false; false; true; true; false; false; false; false; false; true; false].
Proof. reflexivity. Qed.

(** ** The 32-bit arithmetic of [parseIPv4] *)
Lemma to_int32_mod z : to_int32 z mod 2 ^ 32 = z mod 2 ^ 32.
Proof. unfold to_int32. rewrite Zminus_mod_idemp_l. f_equal. lia. Qed.

Lemma to_int32_inj_mod a b : to_int32 a = to_int32 b <-> a mod 2 ^ 32 = b mod 2 ^ 32.
Proof.
  split; intros H; [by rewrite <- (to_int32_mod a), <- (to_int32_mod b), H|].
  unfold to_int32. rewrite <- (Zplus_mod_idemp_l a), <- (Zplus_mod_idemp_l b). by rewrite H.
Qed.

Lemma lor_low v k n : 0 <= k -> 0 <= n < 2 ^ k -> Z.lor (Z.shiftl v k) n = v * 2 ^ k + n.
Proof.
  intros Hk Hn. rewrite <- Z.shiftl_mul_pow2 by lia. symmetry. rewrite Z.add_nocarry_lxor, Z.lxor_lor; [done|..].
  all: apply Z.bits_inj'; intros i Hi; rewrite Z.land_spec, Z.bits_0, Z.shiftl_spec by lia.
  all: destruct (Z.ltb_spec i k); [by rewrite Z.testbit_neg_r by lia|].
  all: destruct (decide (n = 0)) as [->|]; [by rewrite Z.bits_0, andb_false_r|].
  all: rewrite (Z.bits_above_log2 n); [by rewrite andb_false_r|lia|].
  all: apply Z.log2_lt_pow2; [lia|]; apply (Z.lt_le_trans _ (2 ^ k)); [lia|]; apply Z.pow_le_mono_r; lia.
Qed.

Lemma octet_step v n :
  0 <= n < 256 -> int_or (int_shl v 8) n mod 2 ^ 32 = (256 * v + n) mod 2 ^ 32.
Proof.
  intros Hn. unfold int_or. rewrite to_int32_mod.
  assert (to_int32 n = n) as -> by (unfold to_int32; rewrite Z.mod_small by lia; lia).
  assert (exists k, to_int32 (int_shl v 8) = 256 * k /\ (256 * k) mod 2 ^ 32 = (256 * v) mod 2 ^ 32) as (k & -> & Hk).
  { assert (to_int32 (int_shl v 8) mod 2 ^ 32 = (256 * v) mod 2 ^ 32) as E.
    { rewrite to_int32_mod. unfold int_shl. rewrite to_int32_mod, Z.shiftl_mul_pow2 by lia.
      rewrite <- (Zmult_mod_idemp_l (to_int32 v)), to_int32_mod, Zmult_mod_idemp_l. f_equal. lia. }
    set (x := to_int32 (int_shl v 8)) in *. exists (x / 256).
    assert (x mod 256 = 0) as Hx.
    { rewrite <- (Z.mod_mod_divide x (2 ^ 32) 256), E by (exists (2 ^ 24); lia).
      rewrite Z.mod_mod_divide by (exists (2 ^ 24); lia). rewrite Z.mul_comm. apply Z.mod_mul. lia. }
    assert (x = 256 * (x / 256)) as Hx' by (pose proof (Z.div_mod x 256); lia).
    split; [done|]. by rewrite <- Hx'. }
  replace (256 * k) with (Z.shiftl k 8) at 1 by (rewrite Z.shiftl_mul_pow2 by lia; lia).
  rewrite lor_low by lia. replace (k * 2 ^ 8) with (256 * k) by lia. rewrite <- (Zplus_mod_idemp_l (256 * k)), Hk. by rewrite Zplus_mod_idemp_l.
Qed.

Lemma octet_step_mod x y n :
  x mod 2 ^ 32 = y mod 2 ^ 32 -> 0 <= n < 256 -> int_or (int_shl x 8) n mod 2 ^ 32 = (256 * y + n) mod 2 ^ 32.
Proof.
  intros H Hn. rewrite octet_step by done. rewrite <- (Zplus_mod_idemp_l (256 * x)), <- (Zmult_mod_idemp_r x), H.
  by rewrite Zmult_mod_idemp_r, Zplus_mod_idemp_l.
Qed.

Lemma octet_range part n : octet part = Some n -> 0 <= n <= 255.
Proof. unfold octet. repeat case_match; intros [=]; subst. apply orb_false_iff in H0 as [? ?]. lia. Qed.

Lemma parseIPv4_range address v : parseIPv4 address = Some v -> 0 <= v < 2 ^ 32.
Proof.
  unfold parseIPv4. destruct (_ =? _)%nat; [|done]. intros (x & _ & ->)%fmap_Some. apply Z.mod_pos_bound. lia.
Qed.

(** ** Containment is an interval *)
Lemma land_high w v n : 0 <= n <= w -> 0 <= v < 2 ^ w ->
  Z.land v (2 ^ w - 2 ^ n) = Z.shiftl (Z.shiftr v n) n.
Proof.
  intros Hn Hv.
  replace (2 ^ w - 2 ^ n) with (Z.shiftl (Z.ones (w - n)) n).
  2:{ rewrite Z.ones_equiv, Z.shiftl_mul_pow2 by lia.
      replace (2 ^ w) with (2 ^ (w - n) * 2 ^ n) by (rewrite <- Z.pow_add_r by lia; f_equal; lia). lia. }
  apply Z.bits_inj'. intros i Hi. rewrite Z.land_spec, !Z.shiftl_spec by lia.
  destruct (Z.ltb_spec i n); [by rewrite !(Z.testbit_neg_r _ (i - n)), andb_false_r by lia|].
  rewrite Z.shiftr_spec by lia. replace (i - n + n) with i by lia.
  destruct (Z.ltb_spec i w).
  - rewrite Z.ones_spec_low by lia. by rewrite andb_true_r.
  - rewrite Z.ones_spec_high by lia. rewrite andb_false_r. symmetry.
    destruct (decide (v = 0)) as [->|]; [apply Z.bits_0|].
    apply Z.bits_above_log2; [lia|]. apply Z.log2_lt_pow2; [lia|].
    apply (Z.lt_le_trans _ (2 ^ w)); [lia|]. apply Z.pow_le_mono_r; lia.
Qed.

Lemma land_int32 a b : Z.land (to_int32 a) (to_int32 b) mod 2 ^ 32 = Z.land (a mod 2 ^ 32) (b mod 2 ^ 32).
Proof.
  rewrite <- !Z.land_ones by lia.
  assert (forall z, Z.land (to_int32 z) (Z.ones 32) = Z.land z (Z.ones 32)) as E
    by (intros z; rewrite !Z.land_ones by lia; apply to_int32_mod).
  rewrite <- (E a), <- (E b). apply Z.bits_inj'. intros i Hi. rewrite !Z.land_spec.
  by repeat destruct (Z.testbit _ _).
Qed.

Lemma int_and_eq v w m : 0 <= v < 2 ^ 32 -> 0 <= w < 2 ^ 32 -> 0 <= m < 2 ^ 32 ->
  int_and v m = int_and w m <-> Z.land v m = Z.land w m.
Proof.
  intros Hv Hw Hm. unfold int_and. rewrite to_int32_inj_mod, !land_int32.
  by rewrite !(Z.mod_small _ (2 ^ 32)) by done.
Qed.

Lemma shifted_eq v w n : 0 <= n ->
  Z.shiftl (Z.shiftr v n) n = Z.shiftl (Z.shiftr w n) n <-> v / 2 ^ n = w / 2 ^ n.
Proof.
  intros Hn. rewrite !Z.shiftl_mul_pow2, !Z.shiftr_div_pow2 by done.
  split; [|by intros ->]. intros H. apply Z.mul_cancel_r in H; [done|]. pose proof (Z.pow_pos_nonneg 2 n). lia.
Qed.

Lemma cgnat_interval address :
  ipv4InCidr address TAILSCALE_CGNAT_V4_CIDR = true <->
  exists v, parseIPv4 address = Some v /\ 1681915904 <= v < 1686110208.
Proof.
  unfold ipv4InCidr.
  assert (cidr_parts TAILSCALE_CGNAT_V4_CIDR = (Some "100.64.0.0"%string, 10)) as -> by reflexivity.
  assert ((Some "100.64.0.0"%string ≫= parseIPv4) = Some 1681915904) as -> by reflexivity.
  assert (v4_mask 10 = 2 ^ 32 - 2 ^ 22) as -> by reflexivity.
  destruct (parseIPv4 address) as [v|] eqn:E; [|split; [done|by intros (? & ? & _)]].
  pose proof (parseIPv4_range _ _ E) as Hv. rewrite Z.eqb_eq, int_and_eq by lia.
  rewrite !(land_high 32 _ 22), shifted_eq by lia.
  change (1681915904 / 2 ^ 22) with 401.
  assert (v / 2 ^ 22 = 401 <-> 1681915904 <= v < 1686110208) as ->.
  { pose proof (Z.div_mod v (2 ^ 22)). pose proof (Z.mod_pos_bound v (2 ^ 22)). lia. }
  split; [by exists v|]. by intros (? & [= <-] & ?).
Qed.

Lemma hex_val_range c n : hex_val c = Some n -> 0 <= n < 16.
Proof. unfold hex_val. repeat case_match; intros [=]; subst; lia. Qed.

Lemma hex_digits_range s : forall v n, 0 <= v -> hex_digits v s = Some n ->
  v * 16 ^ Z.of_nat (String.length s) <= n < (v + 1) * 16 ^ Z.of_nat (String.length s).
Proof.
  induction s as [|c s IH]; intros v n Hv; cbn [hex_digits String.length].
  - intros [= <-]. cbn. lia.
  - intros (x & Hx & H)%bind_Some. apply hex_val_range in Hx. apply IH in H; [|lia].
    rewrite Nat2Z.inj_succ, Z.pow_succ_r by lia. nia.
Qed.

Lemma hextet_range g n : hextet g = Some n -> 0 <= n < 2 ^ 16.
Proof.
  unfold hextet. destruct (_ && _) eqn:E; [|done]. apply andb_true_iff in E as [_ E%Nat.leb_le].
  intros H%hex_digits_range; [|lia]. split; [lia|]. apply (Z.lt_le_trans _ _ _ (proj2 H)).
  change (2 ^ 16) with (16 ^ 4). rewrite Z.mul_1_l. apply Z.pow_le_mono_r; lia.
Qed.

Lemma hextets_range gs : forall v n, 0 <= v -> hextets v gs = Some n ->
  0 <= n < (v + 1) * 2 ^ (16 * Z.of_nat (length gs)).
Proof.
  induction gs as [|g gs IH]; intros v n Hv; cbn [hextets length].
  - intros [= <-]. cbn. lia.
  - intros (x & Hx & H)%bind_Some. apply hextet_range in Hx.
    rewrite lor_low in H by lia. apply IH in H; [|lia]. split; [lia|]. apply (Z.lt_le_trans _ _ _ (proj2 H)).
    rewrite Nat2Z.inj_succ. replace (16 * Z.succ (Z.of_nat (length gs))) with (16 + 16 * Z.of_nat (length gs)) by lia.
    rewrite Z.pow_add_r by lia. nia.
Qed.

Lemma parseIPv6_range address v : parseIPv6 address = Some v -> 0 <= v < 2 ^ 128.
Proof.
  unfold parseIPv6. destruct (_ || _); [done|]. intros (gs & _ & H)%bind_Some.
  destruct (length gs =? 8)%nat eqn:E; [|done]. apply Nat.eqb_eq in E.
  apply hextets_range in H; [|lia]. by rewrite E in H.
Qed.

Lemma ula_interval address :
  ipv6InCidr address TAILSCALE_ULA_V6_CIDR = true <->
  exists v, parseIPv6 address = Some v /\ v / 2 ^ 80 = 278700719120864.
Proof.
  unfold ipv6InCidr.
  assert (cidr_parts TAILSCALE_ULA_V6_CIDR = (Some "fd7a:115c:a1e0::"%string, 48)) as -> by reflexivity.
  assert ((Some "fd7a:115c:a1e0::"%string ≫= parseIPv6)
          = Some 336928495290377064170890405512231256064) as -> by (vm_compute; reflexivity).
  assert (v6_mask 48 = 2 ^ 128 - 2 ^ 80) as -> by reflexivity.
  destruct (parseIPv6 address) as [v|] eqn:E; [|split; [done|by intros (? & ? & _)]].
  pose proof (parseIPv6_range _ _ E) as Hv. change (48 =? 0) with false. rewrite orb_false_l, Z.eqb_eq.
  rewrite !(land_high 128 _ 80), shifted_eq by lia.
  change (336928495290377064170890405512231256064 / 2 ^ 80) with 278700719120864.
  split; [by exists v|]. by intros (? & [= <-] & ?).
Qed.

(** ** The texts *)
Lemma split_go_none c s acc : Js.index_of c s = None -> split_go (String c "") 0 acc s = [(acc ++ s)%string].
Proof.
  revert acc. induction s as [|d s IH]; intros acc; cbn [split_go Js.index_of]; [by rewrite append_nil_r|].
  destruct (c =? d)%char eqn:E; [done|]. intros H. destruct (Js.index_of c s) eqn:Ei; [done|].
  cbn [Js.starts_with]. rewrite E. cbn [andb]. rewrite IH by done. f_equal.
  rewrite <- append_assoc'. done.
Qed.

Lemma split_go_at c s t acc : Js.index_of c s = None ->
  split_go (String c "") 0 acc (s ++ String c t)%string
  = (acc ++ s)%string :: split (String c "") t.
Proof.
  revert acc. induction s as [|d s IH]; intros acc; cbn [split_go Js.index_of String.append].
  - intros _. cbn [Js.starts_with]. rewrite Ascii.eqb_refl, append_nil_r. done.
  - destruct (c =? d)%char eqn:E; [done|]. intros H. destruct (Js.index_of c s) eqn:Ei; [done|].
    cbn [Js.starts_with]. rewrite E. cbn [andb]. rewrite IH by done. f_equal. rewrite <- append_assoc'. done.
Qed.

Lemma v4_has_dot address v : parseIPv4 address = Some v -> has_dot (Text.trim address) = true.
Proof.
  unfold parseIPv4, has_dot. destruct (_ =? 4)%nat eqn:E; [|done]. intros _. apply bool_decide_eq_true. intros H.
  unfold split in E. rewrite split_go_none in E; done.
Qed.

Definition dotted (a b c d : Z) : string :=
  (Js.bigint_to_string a ++ "." ++ Js.bigint_to_string b ++ "." ++ Js.bigint_to_string c ++ "."
   ++ Js.bigint_to_string d)%string.

Lemma octet_text n : 0 <= n <= 255 ->
  octet (Js.bigint_to_string n) = Some n /\ Js.index_of "." (Js.bigint_to_string n) = None.
Proof.
  intros Hn.
  assert (forallb (fun k => let s := Js.bigint_to_string (Z.of_nat k) in
    bool_decide (octet s = Some (Z.of_nat k)) && bool_decide (Js.index_of "." s = None)) (seq 0 256) = true) as H
    by (vm_compute; reflexivity).
  rewrite forallb_forall in H. specialize (H (Z.to_nat n)). rewrite Z2Nat.id in H by lia.
  apply andb_true_iff in H as [H1%bool_decide_eq_true H2%bool_decide_eq_true]; [done|].
  apply in_seq. lia.
Qed.

Lemma trim_dotted a b c d :
  0 <= a -> 0 <= b -> 0 <= c -> 0 <= d -> Text.trim (dotted a b c d) = dotted a b c d.
Proof.
  intros Ha Hb Hc Hd. apply trim_no_space. unfold dotted.
  assert (forall s t, list_ascii_of_string (s ++ t)%string = list_ascii_of_string s ++ list_ascii_of_string t) as E
    by (induction s as [|x s IH]; intros t; cbn; [done|by rewrite IH]).
  rewrite !E, !forallb_app.
  assert (forall n, 0 <= n -> forallb (fun c => negb (Text.is_space c)) (list_ascii_of_string (Js.bigint_to_string n)) = true)
    as H by (intros n Hn; apply digits_no_space, bigint_to_string_spec; lia).
  by rewrite !H.
Qed.

Lemma parse_dotted a b c d :
  0 <= a <= 255 -> 0 <= b <= 255 -> 0 <= c <= 255 -> 0 <= d <= 255 ->
  parseIPv4 (dotted a b c d) = Some (a * 2 ^ 24 + b * 2 ^ 16 + c * 2 ^ 8 + d).
Proof.
  intros Ha Hb Hc Hd. unfold parseIPv4. rewrite trim_dotted by lia. unfold dotted, split.
  destruct (octet_text a Ha) as [Oa Ia], (octet_text b Hb) as [Ob Ib].
  destruct (octet_text c Hc) as [Oc Ic], (octet_text d Hd) as [Od Id].
  change "."%string with (String "." ""). cbn [String.append].
  rewrite (split_go_at "." _ _ "" Ia). unfold split. rewrite (split_go_at "." _ _ "" Ib). unfold split.
  rewrite (split_go_at "." _ _ "" Ic). unfold split. rewrite (split_go_none _ _ "" Id). cbn [String.append length Nat.eqb].
  cbn [octets]. rewrite Oa, Ob, Oc, Od. cbn [mbind option_bind fmap option_fmap option_map]. f_equal. unfold to_uint32.
  rewrite (octet_step_mod _ (256 * (256 * a + b) + c)); [rewrite Z.mod_small; lia| |lia].
  apply octet_step_mod; [|lia]. apply octet_step_mod; [|lia]. by rewrite octet_step by lia.
Qed.

(** The guard recognises exactly the two private ranges: a text is taken for
    CGNAT when it is an IPv4 address from 100.64.0.0 to 100.127.255.255, computed
    in 32-bit integers that wrap, and for Tailscale's ULA prefix when it is an
    IPv6 address whose first 48 bits are fd7a:115c:a1e0; every dotted quad is read
    as its value, so those of 100.64 to 100.127 are refused and no other. *)
Theorem tailnet_ranges_exact :
  (forall address, tailnetAddressKind address = Some CgnatV4 <->
     exists v, parseIPv4 address = Some v /\ 1681915904 <= v < 1686110208) /\
  (forall address, tailnetAddressKind address = Some TailscaleUlaV6 <->
     exists v, parseIPv6 address = Some v /\ v / 2 ^ 80 = 278700719120864) /\
  (forall a b c d, 0 <= a <= 255 -> 0 <= b <= 255 -> 0 <= c <= 255 -> 0 <= d <= 255 ->
     isPrivateTailnetAddress (dotted a b c d) = (a =? 100) && (64 <=? b) && (b <=? 127)).
Proof.
  assert (forall address, tailnetAddressKind address = Some CgnatV4 <->
     exists v, parseIPv4 address = Some v /\ 1681915904 <= v < 1686110208) as H4.
  { intros address. rewrite <- cgnat_interval. unfold tailnetAddressKind.
    destruct (ipv4InCidr _ _); [done|]. by destruct (ipv6InCidr _ _). }
  assert (forall address, tailnetAddressKind address = Some TailscaleUlaV6 <->
     exists v, parseIPv6 address = Some v /\ v / 2 ^ 80 = 278700719120864) as H6.
  { intros address. rewrite <- ula_interval. unfold tailnetAddressKind.
    destruct (ipv4InCidr _ _) eqn:E; [|by destruct (ipv6InCidr _ _)].
    apply cgnat_interval in E as (v & Hv%v4_has_dot & _). split; [done|].
    intros (w & Hw & _)%ula_interval. unfold parseIPv6 in Hw. by rewrite Hv, orb_true_r in Hw. }
  split; [done|]. split; [done|]. intros a b c d Ha Hb Hc Hd.
  pose proof (parse_dotted a b c d Ha Hb Hc Hd) as Hp. unfold isPrivateTailnetAddress.
  destruct ((a =? 100) && (64 <=? b) && (b <=? 127)) eqn:E.
  - apply bool_decide_eq_true. exists CgnatV4. apply H4. eexists. split; [exact Hp|lia].
  - apply bool_decide_eq_false. intros [[|] H].
    + apply H4 in H as (v & Hv & Hr). rewrite Hp in Hv. injection Hv as <-. lia.
    + apply H6 in H as (v & Hv & _). unfold parseIPv6 in Hv. by rewrite (v4_has_dot _ _ Hp), orb_true_r in Hv.
Qed.

Lemma tailnet_ranges_exact_witness :
  isPrivateTailnetAddress (dotted 100 99 1 2) = true /\ isPrivateTailnetAddress (dotted 203 0 113 7) = false.
Proof.
  destruct tailnet_ranges_exact as (_ & _ & H).
  split; [rewrite (H 100 99 1 2)|rewrite (H 203 0 113 7)]; (reflexivity || lia).
Defined.
