(* ===== verification/Materialize.v ===== *)
(** * Desired DNS records

    [packages/infrastructure/src/materialize.ts], with [wanAddressPair] of
    [host-addresses.ts]: the records a domain should have.  The walk along the
    fronting nodes is given the fuel of its own hop limit. *)
From S2P Require Import Prelude Decimal Calendar Inputs Schema Tailnet DnsDiff.

#[local] Arguments String.append : simpl nomatch.

(** ** Data *)
Inductive ControlSurface : Type := ProxyNode | TunnelClient | DirectReverseProxy | NoSurface.
#[export] Instance ControlSurface_eq_dec : EqDecision ControlSurface.
Proof. solve_decision. Defined.

Record HostingTargetNode : Type := {
  ht_id : uuid;
  ht_name : string;
  ht_controlSurface : ControlSurface;
  ht_addressV4 : option string;
  ht_addressV6 : option string;
  ht_frontedByTargetId : option uuid;
}.

Record CaaPolicy : Type := {
  ca_reviewed : bool;
  ca_issuers : list string;
  ca_wildcardIssuers : list string;
  ca_iodef : option string;
}.

Record DesiredRecord : Type := {
  de_type : string;
  de_name : string;
  de_content : string;
  de_ttlSeconds : option Z;
  de_priority : option Z;
  de_proxied : bool;
  de_owner : DnsRecordOwner;
}.

(** A record the mail provider requires. *)
Record MailRecord : Type := {
  mr_type : string;
  mr_name : string;
  mr_content : string;
  mr_ttlSeconds : option Z;
  mr_priority : option Z;
}.

Record Capabilities : Type := {
  cp_proxying : bool;
  cp_proxiedWildcards : bool;
  cp_proxiableTypes : list string;
}.

Record MaterializeInput : Type := {
  mi_apexTargetId : option uuid;
  mi_apexProxied : bool;
  mi_wildcardProxied : bool;
  mi_mailEnabled : bool;
  mi_targets : gmap positive HostingTargetNode;
  mi_caaPolicy : CaaPolicy;
  mi_mailRecords : option (list MailRecord);
  mi_capabilities : Capabilities;
}.

Record ResolvedHostingAddress : Type := {
  ra_addressV4 : option string;
  ra_addressV6 : option string;
  ra_sourceTargetId : uuid;
  ra_hops : nat;
}.

(** ** [resolveHostingAddress] *)
Definition MAX_FRONTING_HOPS : nat := 8.

Fixpoint fronting_walk (targets : gmap positive HostingTargetNode) (fuel : nat) (seen : list uuid)
    (current : HostingTargetNode) (hops : nat) : result (HostingTargetNode * nat) :=
  match ht_controlSurface current with
  | TunnelClient =>
      match ht_frontedByTargetId current with
      | None => Throw MaterializationError
      | Some nextId =>
          if bool_decide (nextId ∈ seen) then Throw MaterializationError
          else match targets !! nextId with
               | None => Throw MaterializationError
               | Some next =>
                   if (MAX_FRONTING_HOPS <? S hops)%nat then Throw MaterializationError
                   else match fuel with
                        | O => Throw MaterializationError
                        | S fuel => fronting_walk targets fuel (nextId :: seen) next (S hops)
                        end
               end
      end
  | _ => Ok (current, hops)
  end.

Definition private_address (address : option string) : bool :=
  match address with None => false | Some a => bool_decide (tailnetAddressKind a <> None) end.

Definition resolveHostingAddress (target : HostingTargetNode) (targets : gmap positive HostingTargetNode)
    : result ResolvedHostingAddress :=
  walked ← fronting_walk targets MAX_FRONTING_HOPS [ht_id target] target 0;
  let '(current, hops) := walked in
  _ ← throw_if (private_address (ht_addressV4 current) || private_address (ht_addressV6 current))
        MaterializationError;
  _ ← throw_if (bool_decide (ht_addressV4 current = None) && bool_decide (ht_addressV6 current = None))
        MaterializationError;
  mret {| ra_addressV4 := ht_addressV4 current; ra_addressV6 := ht_addressV6 current;
          ra_sourceTargetId := ht_id current; ra_hops := hops |}.

(** ** CAA *)
Definition quotation : string := String (ascii_of_nat 34) "".
Definition caaContent (tag value : string) : string :=
  ("0 " ++ tag ++ " " ++ quotation ++ value ++ quotation)%string.

Definition caa_record (tag value : string) : DesiredRecord :=
  {| de_type := "CAA"; de_name := "@"; de_content := caaContent tag value; de_ttlSeconds := None;
     de_priority := None; de_proxied := false; de_owner := OwnerCaa |}.

Definition materializeCaaRecords (policy : CaaPolicy) : list DesiredRecord :=
  if negb (ca_reviewed policy) then []
  else (caa_record "issue" <$> ca_issuers policy) ++ (caa_record "issuewild" <$> ca_wildcardIssuers policy)
       ++ match ca_iodef policy with None => [] | Some v => [caa_record "iodef" v] end.

(** ** The whole set *)
Definition assertProxyingSupported (proxied : bool) (capabilities : Capabilities) (wildcard : bool)
    (type : string) : result unit :=
  if negb proxied then mret tt
  else
    _ ← throw_if (negb (cp_proxying capabilities)) MaterializationError;
    _ ← throw_if (wildcard && negb (cp_proxiedWildcards capabilities)) MaterializationError;
    throw_if (negb (bool_decide (type ∈ cp_proxiableTypes capabilities))) MaterializationError.

Definition address_record (type name address : string) (proxied : bool) (owner : DnsRecordOwner)
    : DesiredRecord :=
  {| de_type := type; de_name := name; de_content := address; de_ttlSeconds := None;
     de_priority := None; de_proxied := proxied; de_owner := owner |}.

Definition address_pair (input : MaterializeInput) (type : string) (address : option string)
    : result (list DesiredRecord) :=
  match address with
  | None => mret []
  | Some address =>
      _ ← assertProxyingSupported (mi_apexProxied input) (mi_capabilities input) false type;
      _ ← assertProxyingSupported (mi_wildcardProxied input) (mi_capabilities input) true type;
      mret [address_record type "@" address (mi_apexProxied input) OwnerApex;
            address_record type "*" address (mi_wildcardProxied input) OwnerWildcard]
  end.

Definition apex_records (input : MaterializeInput) : result (list DesiredRecord) :=
  match mi_apexTargetId input with
  | None => mret []
  | Some id =>
      match mi_targets input !! id with
      | None => Throw MaterializationError
      | Some target =>
          _ ← throw_if (bool_decide (ht_controlSurface target = NoSurface)) MaterializationError;
          resolved ← resolveHostingAddress target (mi_targets input);
          v4 ← address_pair input "A" (ra_addressV4 resolved);
          v6 ← address_pair input "AAAA" (ra_addressV6 resolved);
          mret (v4 ++ v6)
      end
  end.

Definition mail_record (r : MailRecord) : DesiredRecord :=
  {| de_type := mr_type r; de_name := mr_name r; de_content := mr_content r;
     de_ttlSeconds := mr_ttlSeconds r; de_priority := mr_priority r; de_proxied := false;
     de_owner := OwnerMail |}.

Definition mail_records (input : MaterializeInput) : list DesiredRecord :=
  if mi_mailEnabled input then
    match mi_mailRecords input with None => [] | Some records => mail_record <$> records end
  else [].

Definition materializeDesiredRecords (input : MaterializeInput) : result (list DesiredRecord) :=
  records ← apex_records input;
  mret (records ++ mail_records input ++ materializeCaaRecords (mi_caaPolicy input)).

(** ** [wanAddressPair] *)
Record HostAddress : Type := {
  ha_id : uuid;
  ha_hostingTargetId : uuid;
  ha_kind : string;
  ha_family : string;
  ha_value : string;
  ha_provenance : string;
  ha_isPrimary : bool;
}.

Definition HOST_ADDRESS_OPERATOR_DECLARED_PROVENANCE : string := "operator_declared".

Definition declared_wan (a : HostAddress) : bool :=
  String.eqb (ha_kind a) "wan"
  && String.eqb (ha_provenance a) HOST_ADDRESS_OPERATOR_DECLARED_PROVENANCE.

Definition pick_address (declaredWan : list HostAddress) (family : string) : option string :=
  let candidates := List.filter (fun a => String.eqb (ha_family a) family) declaredWan in
  let primary := List.find ha_isPrimary candidates in
  ha_value <$> match primary with Some a => Some a | None => head candidates end.

Definition wanAddressPair (addresses : list HostAddress) : option string * option string :=
  let declaredWan := List.filter declared_wan addresses in
  (pick_address declaredWan "v4", pick_address declaredWan "v6").

(** ** The fronting chain *)
Section chain.
Context (targets : gmap positive HostingTargetNode).

(** [hop t id t']: the tunnel client [t] is fronted by [t'], stored under [id]. *)
Definition hop (t : HostingTargetNode) (id : uuid) (t' : HostingTargetNode) : Prop :=
  ht_controlSurface t = TunnelClient /\ ht_frontedByTargetId t = Some id /\ targets !! id = Some t'.

Inductive chain : HostingTargetNode -> list uuid -> HostingTargetNode -> Prop :=
  | chain_end t : ht_controlSurface t <> TunnelClient -> chain t [] t
  | chain_hop t id t' path last : hop t id t' -> chain t' path last -> chain t (id :: path) last.

Lemma fronting_walk_spec fuel : forall seen current hops last n,
  (MAX_FRONTING_HOPS <= fuel + hops)%nat -> (hops <= MAX_FRONTING_HOPS)%nat ->
  fronting_walk targets fuel seen current hops = Ok (last, n) <->
  exists path, chain current path last /\ n = (hops + length path)%nat /\ (n <= MAX_FRONTING_HOPS)%nat /\
    NoDup path /\ (forall id, id ∈ path -> id ∉ seen).
Proof.
  induction fuel as [|fuel IH]; intros seen current hops last n Hf Hh.
  all: assert (ht_controlSurface current <> TunnelClient ->
         Ok (current, hops) = Ok (last, n) <-> exists path, chain current path last /\
         n = (hops + length path)%nat /\ (n <= MAX_FRONTING_HOPS)%nat /\ NoDup path /\
         (forall id, id ∈ path -> id ∉ seen)) as Hend by
    (intros Hc; split;
     [intros [= <- <-]; exists []; split; [by constructor|]; split; [cbn; lia|]; split; [done|];
        split; [constructor|by intros ? ?%not_elem_of_nil]
     |intros (path & Hch & -> & _); destruct Hch as [|? ? ? ? ? [? _] _]; [|done]; by rewrite Nat.add_0_r]).
  all: cbn [fronting_walk]; destruct (ht_controlSurface current) eqn:Ec; try (apply Hend; congruence); clear Hend.
  all: destruct (ht_frontedByTargetId current) as [id|] eqn:Ei.
  2,4: (split; [done|]; intros (path & Hch & _); inversion Hch as [|? ? ? ? ? (_ & ? & _)]; congruence).
  all: case_bool_decide as Hseen.
  1,3: (split; [done|]; intros (path & Hch & _ & _ & _ & Hnew);
        inversion Hch as [|? ? ? ? ? (_ & Hid & _)]; subst; [congruence|];
        rewrite Ei in Hid; injection Hid as <-; destruct (Hnew id); [by left|done]).
  all: destruct (targets !! id) as [next|] eqn:En.
  2,4: (split; [done|]; intros (path & Hch & _); inversion Hch as [|? ? ? ? ? (_ & Hid & Hn)]; subst; congruence).
  all: destruct (MAX_FRONTING_HOPS <? S hops)%nat eqn:El.
  1,3: (apply Nat.ltb_lt in El; split; [done|]; intros (path & Hch & -> & Hle & _);
        inversion Hch; subst; [congruence|cbn in Hle; lia]).
  all: apply Nat.ltb_ge in El.
  - unfold MAX_FRONTING_HOPS in *. lia.
  - rewrite IH by (unfold MAX_FRONTING_HOPS in *; lia). split.
    + intros (path & Hch & -> & Hle & Hnd & Hnew). exists (id :: path).
      split; [by econstructor|]. split; [cbn; lia|]. split; [done|].
      split; [constructor; [intros H; apply (Hnew id H); by left|done]|].
      intros x [->|Hx]%elem_of_cons; [done|]. specialize (Hnew x Hx). set_solver.
    + intros (path & Hch & -> & Hle & Hnd & Hnew).
      inversion Hch as [|? id' next' path' ? (_ & Hid & Hn) Hch']; subst; [congruence|].
      rewrite Ei in Hid. injection Hid as <-. rewrite En in Hn. injection Hn as <-.
      apply NoDup_cons in Hnd as [Hni Hnd]. exists path'. split; [done|]. split; [cbn; lia|]. split; [done|].
      split; [done|]. intros x Hx [->|Hs]%elem_of_cons; [done|]. apply (Hnew x); [by right|done].
Qed.
End chain.

(** What may be published. *)
Definition publishable (t : HostingTargetNode) : Prop :=
  private_address (ht_addressV4 t) = false /\ private_address (ht_addressV6 t) = false /\
  (ht_addressV4 t <> None \/ ht_addressV6 t <> None).

Lemma resolved_chain (targets : gmap positive HostingTargetNode) target r :
  resolveHostingAddress target targets = Ok r ->
  exists path last, chain targets target path last /\ (length path <= 8)%nat /\
    NoDup (ht_id target :: path) /\ publishable last /\
    r = {| ra_addressV4 := ht_addressV4 last; ra_addressV6 := ht_addressV6 last;
           ra_sourceTargetId := ht_id last; ra_hops := length path |}.
Proof.
  unfold resolveHostingAddress, publishable. rewrite bind_Ok. intros ([last hops] & Hw & H).
  apply fronting_walk_spec in Hw; [|unfold MAX_FRONTING_HOPS; lia..].
  destruct Hw as (path & Hch & -> & Hle & Hnd & Hnew). inv_ok.
  apply orb_false_iff in H0 as [H0 H2]. apply andb_false_iff in H1. rewrite !bool_decide_eq_false in H1.
  exists path, last. split; [done|]. split; [done|]. split; [|done].
  constructor; [|done]. intros Hin. apply (Hnew _ Hin). by left.
Qed.

(** C33. Whose address is published: a target resolves exactly when the chain of
    its fronting nodes - through every tunnel client to the first target that is
    none - has at most eight hops, repeats no target, and ends in a target with
    an address and no private one; the answer is that target's addresses, so a
    tunnel client's own address is never published, and the walk always ends. *)
Theorem resolveHostingAddress_exact (targets : gmap positive HostingTargetNode)
    (target : HostingTargetNode) (r : ResolvedHostingAddress) :
  resolveHostingAddress target targets = Ok r <->
  exists path last, chain targets target path last /\ (length path <= 8)%nat /\
    NoDup (ht_id target :: path) /\ publishable last /\
    r = {| ra_addressV4 := ht_addressV4 last; ra_addressV6 := ht_addressV6 last;
           ra_sourceTargetId := ht_id last; ra_hops := length path |}.
Proof.
  split; [apply resolved_chain|]. unfold resolveHostingAddress, publishable. rewrite bind_Ok.
  intros (path & last & Hch & Hle & [Hni Hnd]%NoDup_cons & (H4 & H6 & Hsome) & ->).
  exists (last, length path). split.
  - apply fronting_walk_spec; [unfold MAX_FRONTING_HOPS; lia..|]. exists path. split; [done|]. split; [done|].
    split; [done|]. split; [done|]. set_solver.
  - rewrite H4, H6. cbn. destruct (_ && _) eqn:E; [|done].
    apply andb_true_iff in E. rewrite !bool_decide_eq_true in E. destruct E, Hsome; done.
Qed.

(** ** The records *)

(** The invariants of a desired record, given the input it comes from. *)
Definition record_ok (input : MaterializeInput) (r : DesiredRecord) : Prop :=
  (de_proxied r = true -> cp_proxying (mi_capabilities input) = true /\
     de_type r ∈ cp_proxiableTypes (mi_capabilities input) /\
     (de_name r = "*"%string -> cp_proxiedWildcards (mi_capabilities input) = true)) /\
  match de_owner r with
  | OwnerApex | OwnerWildcard => exists target path last,
      mi_apexTargetId input ≫= (fun id => mi_targets input !! id) = Some target /\
      chain (mi_targets input) target path last /\ ht_controlSurface last <> TunnelClient /\
      (ht_addressV4 last = Some (de_content r) \/ ht_addressV6 last = Some (de_content r)) /\
      tailnetAddressKind (de_content r) = None
  | OwnerMail => de_proxied r = false /\ mi_mailEnabled input = true
  | OwnerCaa => de_proxied r = false /\ ca_reviewed (mi_caaPolicy input) = true
  | OwnerProxyResource | OwnerManual => False
  end.

Lemma proxying_supported proxied cs wildcard type u :
  assertProxyingSupported proxied cs wildcard type = Ok u -> proxied = true ->
  cp_proxying cs = true /\ type ∈ cp_proxiableTypes cs /\ (wildcard = true -> cp_proxiedWildcards cs = true).
Proof.
  unfold assertProxyingSupported. intros H ->. cbn in H. inv_ok.
  apply negb_false_iff in H0. apply andb_false_iff in H1. rewrite negb_false_iff in H1.
  apply negb_false_iff, bool_decide_eq_true in H. split; [done|]. split; [done|]. intros ->. by destruct H1.
Qed.

Lemma chain_last targets t path last : chain targets t path last -> ht_controlSurface last <> TunnelClient.
Proof. by induction 1. Qed.

Lemma private_address_false address a : private_address address = false -> address = Some a -> tailnetAddressKind a = None.
Proof. intros H ->. cbn in H. apply bool_decide_eq_false in H. by destruct (tailnetAddressKind a); [destruct H|]. Qed.

Lemma address_pair_ok input type address rs target path last :
  mi_apexTargetId input ≫= (fun id => mi_targets input !! id) = Some target ->
  chain (mi_targets input) target path last -> private_address address = false ->
  (forall a, address = Some a -> ht_addressV4 last = Some a \/ ht_addressV6 last = Some a) ->
  address_pair input type address = Ok rs -> Forall (record_ok input) rs.
Proof.
  intros Ht Hch Hp Ha. destruct address as [a|]; cbn [address_pair].
  2:{ intros [= <-]. constructor. }
  intros H. inv_ok. pose proof (private_address_false _ a Hp eq_refl). specialize (Ha a eq_refl).
  pose proof (chain_last _ _ _ _ Hch).
  rewrite !Forall_cons, Forall_nil. unfold record_ok. cbn. split; [|split; [|done]]; split.
  - intros E. destruct (proxying_supported _ _ _ _ _ H0 E) as (? & ? & _). done.
  - exists target, path, last. done.
  - intros E. destruct (proxying_supported _ _ _ _ _ H1 E) as (? & ? & Hw). auto.
  - exists target, path, last. done.
Qed.

(** C34. Materialization publishes nothing it should not: every record of a
    computed set that is proxied is one the provider can proxy, wildcards
    included; the apex and wildcard records carry an address of the target that
    ends the fronting chain, never a tunnel client's and never a private one; a
    mail record is never proxied and needs mail to be enabled; and there is no CAA
    record before the policy has been reviewed. *)
Theorem materialized_records_safe (input : MaterializeInput) (records : list DesiredRecord) :
  materializeDesiredRecords input = Ok records -> Forall (record_ok input) records.
Proof.
  unfold materializeDesiredRecords. intros H. inv_ok. rewrite !Forall_app. split; [|split].
  - unfold apex_records in H0. destruct (mi_apexTargetId input) as [id|] eqn:Ei; [|inv_ok; constructor].
    destruct (mi_targets input !! id) as [target|] eqn:Et; [|inv_ok]. inv_ok.
    apply resolved_chain in H2 as (path & last & Hch & _ & _ & (P4 & P6 & _) & ->).
    assert (mi_apexTargetId input ≫= (fun id => mi_targets input !! id) = Some target) as Hin by (by rewrite Ei).
    cbn [ra_addressV4 ra_addressV6] in *. apply Forall_app. split.
    + eapply (address_pair_ok _ _ (ht_addressV4 last)); eauto.
    + eapply (address_pair_ok _ _ (ht_addressV6 last)); eauto.
  - unfold mail_records. destruct (mi_mailEnabled input) eqn:Em; [|constructor].
    destruct (mi_mailRecords input) as [rs|]; [|constructor]. apply Forall_fmap, Forall_true. done.
  - unfold materializeCaaRecords. destruct (ca_reviewed (mi_caaPolicy input)) eqn:Er; [|constructor]. cbn [negb].
    assert (forall tag v, record_ok input (caa_record tag v)) as Hc by done.
    rewrite !Forall_app. repeat split; [by apply Forall_fmap, Forall_true..|].
    destruct (ca_iodef _); [|constructor]. by apply Forall_singleton.
Qed.

(** A tunnel client with an address of its own, behind a public node. *)
Definition sample_node (id : uuid) (surface : ControlSurface) (v4 : option string) (fronted : option uuid)
    : HostingTargetNode :=
  {| ht_id := id; ht_name := "node"; ht_controlSurface := surface; ht_addressV4 := v4;
     ht_addressV6 := None; ht_frontedByTargetId := fronted |}.
Definition hidden_host : HostingTargetNode := sample_node 1 TunnelClient (Some "198.51.100.9"%string) (Some 2%positive).
Definition front_node : HostingTargetNode := sample_node 2 ProxyNode (Some "203.0.113.7"%string) None.
Definition sample_targets : gmap positive HostingTargetNode := {[ 1%positive := hidden_host; 2%positive := front_node ]}.

Definition sample_input : MaterializeInput :=
  {| mi_apexTargetId := Some 1%positive; mi_apexProxied := true; mi_wildcardProxied := false;
     mi_mailEnabled := true; mi_targets := sample_targets;
     mi_caaPolicy := {| ca_reviewed := true; ca_issuers := ["letsencrypt.org"%string];
                        ca_wildcardIssuers := []; ca_iodef := None |};
     mi_mailRecords := Some [{| mr_type := "MX"; mr_name := "@"; mr_content := "mail.example.net";
                                mr_ttlSeconds := None; mr_priority := Some 10%Z |}];
     mi_capabilities := {| cp_proxying := true; cp_proxiedWildcards := false;
                           cp_proxiableTypes := ["A"; "AAAA"; "CNAME"]%string |} |}.
Definition sample_records : list DesiredRecord :=
  match materializeDesiredRecords sample_input with Ok rs => rs | Throw _ => [] end.

Lemma resolveHostingAddress_exact_witness : exists path last,
  chain sample_targets hidden_host path last /\ ht_addressV4 last = Some "203.0.113.7"%string.
Proof.
  destruct (proj1 (resolveHostingAddress_exact sample_targets hidden_host
    {| ra_addressV4 := Some "203.0.113.7"%string; ra_addressV6 := None; ra_sourceTargetId := 2; ra_hops := 1 |})
    eq_refl) as (path & last & Hch & _ & _ & _ & [= E _ _ _]).
  exists path, last. split; [exact Hch|by rewrite <- E].
Defined.

Lemma materialized_records_safe_witness :
  length sample_records = 4%nat /\ Forall (record_ok sample_input) sample_records.
Proof. split; [reflexivity|]. apply (materialized_records_safe sample_input). reflexivity. Defined.
