(* ===== verification/WritePolicy.v ===== *)
(** * Write authorization

    [packages/infrastructure/src/write-policy.ts], with the tiers of
    [packages/domain/src/provider-write-policy.ts]: whether an apply may be
    attempted at all, and whether it would remove the operator's way in. *)
From S2P Require Import Prelude Decimal Schema.

(** ** The gate *)
Inductive ReconcileMode : Type := ModeApply | ModeCheck.
Inductive ReconcileTrigger : Type := TriggerIntentChange | TriggerSweep | TriggerManual | TriggerPoll.
#[export] Instance ReconcileMode_eq_dec : EqDecision ReconcileMode.
Proof. solve_decision. Defined.
#[export] Instance ReconcileTrigger_eq_dec : EqDecision ReconcileTrigger.
Proof. solve_decision. Defined.

Inductive ProviderWritePolicyTier : Type := ReadOnly | Additive | AccessAffecting | LockoutClass.

Definition providerWritePolicyTierRank (tier : ProviderWritePolicyTier) : nat :=
  match tier with ReadOnly => 0 | Additive => 1 | AccessAffecting => 2 | LockoutClass => 3 end.

(** [policies[connectionId] ?? "read_only"] *)
Definition resolveProviderWritePolicy (policies : gmap positive ProviderWritePolicyTier)
    (connectionId : uuid) : ProviderWritePolicyTier :=
  default ReadOnly (policies !! connectionId).

Inductive ProxyOperationKind : Type :=
  | CreateResource | CreateTarget | CreateRule | UpdateResource | UpdateTarget | UpdateRule.

Definition proxyOperationTier (kind : ProxyOperationKind) : nat :=
  match kind with
  | CreateResource | CreateTarget | CreateRule => 1
  | UpdateResource | UpdateTarget | UpdateRule => 2
  end.

Definition highestOperationTier (operations : list ProxyOperationKind) : option nat :=
  fold_left (fun highest operation =>
    let tier := proxyOperationTier operation in
    match highest with
    | None => Some tier
    | Some h => if (h <? tier)%nat then Some tier else highest
    end) operations None.

Definition WRITE_POLICY : string := "write_policy".

Record AssertWritePolicyInput : Type := {
  wp_mode : ReconcileMode;
  wp_trigger : ReconcileTrigger;
  wp_policyTier : ProviderWritePolicyTier;
  wp_operationTier : nat;
  wp_actorIsAdmin : option bool;
  wp_blockedReason : option string;
}.

Definition scheduled (trigger : ReconcileTrigger) : bool :=
  match trigger with TriggerSweep | TriggerPoll => true | _ => false end.

Definition assertWritePolicy (input : AssertWritePolicyInput) : result unit :=
  let refusal := WritePolicyError (default WRITE_POLICY (wp_blockedReason input)) in
  match wp_mode input with
  | ModeCheck => mret tt
  | ModeApply =>
      _ ← throw_if (scheduled (wp_trigger input) && (2 <=? wp_operationTier input)%nat) refusal;
      _ ← throw_if (bool_decide (wp_actorIsAdmin input = Some false)) refusal;
      throw_if (providerWritePolicyTierRank (wp_policyTier input) <? wp_operationTier input)%nat refusal
  end.

(** ** The self-lockout preflight *)
Record LockoutCheckRule : Type := {
  lr_action : string;
  lr_match : string;
  lr_value : string;
  lr_enabled : bool;
  lr_aliasName : option string;
}.

Record WouldLockOutInput : Type := {
  wl_isPangolinDashboard : bool;
  wl_isLoxepSelf : bool;
  wl_resultingRules : list LockoutCheckRule;
  wl_currentAddresses : list string;
  wl_heldAuthMethods : list string;
  wl_retiresAliasRuleNamed : option string;
}.

Inductive WouldLockOutReason : Type :=
  | LoxepSelf | PangolinDashboardSelf | NoOperatorAccess | RetiresOnlyLiveAliasRule.

Definition ends_with (suffix s : string) : bool :=
  (String.length suffix <=? String.length s)%nat
  && String.eqb (Js.slice_from (String.length s - String.length suffix) s) suffix.

Definition ruleValueMatchesAddress (value address : string) : bool :=
  let literal := if ends_with "/32" value then Js.slice 0 (String.length value - 3) value else value in
  String.eqb literal address.

Definition ruleGrantsAnyAddress (rule : LockoutCheckRule) (addresses : list string) : bool :=
  lr_enabled rule && String.eqb (lr_action rule) "ACCEPT"
  && (String.eqb (lr_match rule) "CIDR" || String.eqb (lr_match rule) "IP")
  && existsb (ruleValueMatchesAddress (lr_value rule)) addresses.

Definition live_alias_rule (alias : string) (rule : LockoutCheckRule) : bool :=
  lr_enabled rule && opt_eqb (lr_aliasName rule) alias.

Definition wouldLockOut (input : WouldLockOutInput) : option WouldLockOutReason :=
  if wl_isLoxepSelf input then Some LoxepSelf
  else if wl_isPangolinDashboard input then Some PangolinDashboardSelf
  else if negb (existsb (fun rule => ruleGrantsAnyAddress rule (wl_currentAddresses input))
                  (wl_resultingRules input))
          && (length (wl_heldAuthMethods input) =? 0)%nat
  then Some NoOperatorAccess
  else match wl_retiresAliasRuleNamed input with
       | None => None
       | Some alias =>
           if existsb (live_alias_rule alias) (wl_resultingRules input) then None
           else Some RetiresOnlyLiveAliasRule
       end.

Definition reason_text (reason : WouldLockOutReason) : string :=
  match reason with
  | LoxepSelf => "loxep_self"
  | PangolinDashboardSelf => "pangolin_dashboard_self"
  | NoOperatorAccess => "no_operator_access"
  | RetiresOnlyLiveAliasRule => "retires_only_live_alias_rule"
  end.

Definition assertWouldNotLockOut (input : WouldLockOutInput) : result unit :=
  match wouldLockOut input with
  | None => mret tt
  | Some reason => Throw (SelfLockoutError (reason_text reason))
  end.

(** An apply that both gates let through leaves the operator a way in and was
    nobody's but an authorised one's: a check is never refused; an apply passes the
    policy gate exactly when its tier is within the connection's, no known
    non-admin asks for it, and no scheduled trigger changes what exists; and a
    change that passes the preflight leaves an enabled rule that accepts the
    operator's address or another way to sign in, whatever the policy. *)
Theorem write_gates_exact (input : AssertWritePolicyInput) (change : WouldLockOutInput) :
  (assertWritePolicy input = Ok tt <->
   wp_mode input = ModeCheck \/
   (wp_operationTier input <= providerWritePolicyTierRank (wp_policyTier input))%nat /\
   wp_actorIsAdmin input <> Some false /\
   (scheduled (wp_trigger input) = true -> (wp_operationTier input <= 1)%nat)) /\
  (assertWouldNotLockOut change = Ok tt ->
   wl_heldAuthMethods change <> [] \/
   exists rule address, rule ∈ wl_resultingRules change /\ address ∈ wl_currentAddresses change /\
     lr_enabled rule = true /\ lr_action rule = "ACCEPT"%string /\
     ruleValueMatchesAddress (lr_value rule) address = true).
Proof.
  split.
  - unfold assertWritePolicy. destruct (wp_mode input); [|split; [by left|done]]. split.
    + intros H. right. inv_ok. apply andb_false_iff in H0 as [H0|H0]; apply Nat.ltb_ge in H;
        apply bool_decide_eq_false in H1; (split; [done|]; split; [done|]).
      * rewrite H0. done.
      * intros _. apply Nat.leb_gt in H0. lia.
    + intros [?|(Ht & Ha & Hs)]; [done|].
      rewrite (bool_decide_eq_false_2 (_ = Some false)) by done.
      destruct (scheduled _ && _) eqn:E.
      * apply andb_true_iff in E as [E1 E2%Nat.leb_le]. specialize (Hs E1). lia.
      * rewrite (proj2 (Nat.ltb_ge _ _) Ht). done.
  - unfold assertWouldNotLockOut, wouldLockOut.
    destruct (wl_isLoxepSelf change); [done|]. destruct (wl_isPangolinDashboard change); [done|].
    destruct (existsb (fun rule => ruleGrantsAnyAddress rule _) _) eqn:E.
    + intros _. right. apply existsb_exists in E as (rule & Hin%list_elem_of_In & Hg). exists rule.
      unfold ruleGrantsAnyAddress in Hg. rewrite !andb_true_iff in Hg.
      destruct Hg as [[[He Ha%String.eqb_eq] _] (a & Hb%list_elem_of_In & Hm)%existsb_exists].
      exists a. done.
    + destruct (wl_heldAuthMethods change); [done|]. by left.
Qed.

Lemma write_gates_exact_witness :
  let apply := {| wp_mode := ModeApply; wp_trigger := TriggerPoll; wp_policyTier := Additive;
                  wp_operationTier := 1; wp_actorIsAdmin := None; wp_blockedReason := None |} in
  let change := {| wl_isPangolinDashboard := false; wl_isLoxepSelf := false;
                   wl_resultingRules := [{| lr_action := "ACCEPT"; lr_match := "CIDR"; lr_value := "203.0.113.7/32";
                                            lr_enabled := true; lr_aliasName := None |}];
                   wl_currentAddresses := ["203.0.113.7"%string]; wl_heldAuthMethods := [];
                   wl_retiresAliasRuleNamed := None |} in
  assertWritePolicy apply = Ok tt /\ exists rule, rule ∈ wl_resultingRules change /\ lr_enabled rule = true.
Proof.
  intros apply change. destruct (write_gates_exact apply change) as [H1 H2]. split.
  - apply H1. right. cbn. split; [lia|]. split; [discriminate|]. intros _. lia.
  - destruct (H2 eq_refl) as [H|(rule & address & Hin & _ & He & _)]; [by destruct H|by exists rule].
Defined.
