(* ===== verification/DnsStore.v ===== *)
(** * Managed domains and desired records

    The infrastructure tables of [packages/db/src/schema/infrastructure.ts] that
    DNS reconciliation reads and writes, and the intent service of
    [packages/infrastructure/src/domains.ts].  Jobs are queued in the same
    transaction: the queue is a table of the store. *)
From S2P Require Import Prelude Decimal Calendar Inputs Store Schema Ledger LedgerFacts Facts Chart.
From S2P Require Import Tailnet DnsDiff DnsPlan Materialize WritePolicy.

Open Scope Z_scope.
#[local] Arguments String.append : simpl nomatch.

(** ** Rows *)
Inductive ManagedDomainState : Type :=
  | StateDraft | ZoneCreated | AwaitingDelegation | ZoneActive | RecordsSynced | MailPending | StateReady.

Record ManagedDomain : Type := {
  md_id : uuid;
  md_name : string;
  md_dnsConnectionId : uuid;
  md_registrar : option string;
  md_state : ManagedDomainState;
  md_externalZoneId : option string;
  md_zoneNameservers : option (list string);
  md_providerZoneStatus : option string;
  md_apexTargetId : option uuid;
  md_apexProxied : bool;
  md_wildcardProxied : bool;
  md_mailEnabled : bool;
  md_lastReconciledAt : option Z;
  md_driftDetectedAt : option Z;
  md_lastErrorAt : option Z;
  md_lastErrorCode : option string;
  md_consecutiveErrors : Z;
  md_notes : option string;
  md_createdByUserId : option string;
  md_createdAt : Z;
  md_updatedAt : Z;
}.

Record DnsRecord : Type := {
  dr_id : uuid;
  dr_domainId : uuid;
  dr_type : string;
  dr_name : string;
  dr_content : string;
  dr_priority : option Z;
  dr_ttlSeconds : option Z;
  dr_proxied : bool;
  dr_owner : DnsRecordOwner;
  dr_externalRecordId : option string;
  dr_lastSyncedAt : option Z;
  dr_desiredDeletedAt : option Z;
  dr_createdAt : Z;
  dr_updatedAt : Z;
}.
#[export] Instance DnsRecord_eq_dec : EqDecision DnsRecord.
Proof. solve_decision. Defined.

Record HostingTarget : Type := {
  hg_id : uuid;
  hg_name : string;
  hg_controlSurface : ControlSurface;
  hg_frontedByTargetId : option uuid;
}.

Record MailDomain : Type := {
  dm_domainId : uuid;
  dm_mailConnectionId : uuid;
  dm_ownershipCode : option string;
}.

Inductive RunStatus : Type := RunRunning | RunSucceeded | RunFailed | RunPartial.
#[export] Instance RunStatus_eq_dec : EqDecision RunStatus.
Proof. solve_decision. Defined.

Record ReconcileRun : Type := {
  rr_id : uuid;
  rr_kind : string;
  rr_subjectId : uuid;
  rr_mode : ReconcileMode;
  rr_status : RunStatus;
  rr_trigger : ReconcileTrigger;
  rr_actorUserId : option string;
  rr_startedAt : Z;
  rr_finishedAt : option Z;
  rr_stepCount : nat;
  rr_hasErrorSummary : bool;
}.

Inductive StepStatus : Type := StepSucceeded | StepFailed | StepSkipped | StepBlocked.

Record ReconcileRunStep : Type := {
  rs_runId : uuid;
  rs_sequence : nat;
  rs_step : string;
  rs_status : StepStatus;
  rs_errorCode : option string;
}.

Inductive DriftKind : Type := DriftMissing | DriftModified | DriftUnexpected.
#[export] Instance DriftKind_eq_dec : EqDecision DriftKind.
Proof. solve_decision. Defined.

Inductive DriftResolution : Type := ResolvedApplied | ResolvedAdopted | ResolvedDismissed | ResolvedDisappeared.
#[export] Instance DriftResolution_eq_dec : EqDecision DriftResolution.
Proof. solve_decision. Defined.

Record DriftFinding : Type := {
  dd_id : uuid;
  dd_domainId : uuid;
  dd_dnsRecordId : option uuid;
  dd_kind : DriftKind;
  dd_recordType : string;
  dd_recordName : string;
  dd_desiredContent : option string;
  dd_observedContent : option string;
  dd_desiredProxied : option bool;
  dd_observedProxied : option bool;
  dd_externalRecordId : option string;
  dd_firstDetectedAt : Z;
  dd_lastDetectedAt : Z;
  dd_resolvedAt : option Z;
  dd_resolution : option DriftResolution;
  dd_resolvedByUserId : option string;
  dd_firstSeenRunId : uuid;
  dd_lastSeenRunId : uuid;
}.

(** A queued job, under its key. *)
Record Job : Type := {
  jb_task : string;
  jb_domainId : uuid;
  jb_mode : option ReconcileMode;
  jb_key : string;
}.

(** ** The store *)
Record Infra : Type := {
  if_domains : list ManagedDomain;
  if_records : list DnsRecord;
  if_targets : list HostingTarget;
  if_addresses : list HostAddress;
  if_mailDomains : list MailDomain;
  if_runs : list ReconcileRun;
  if_steps : list ReconcileRunStep;
  if_findings : list DriftFinding;
  if_caaPolicy : CaaPolicy;
  if_writePolicies : gmap positive ProviderWritePolicyTier;
  if_connections : list uuid;
  if_users : list string;
  if_jobs : list Job;
  if_audit : list AuditEvent;
  if_next : uuid;
  if_now : Z;
}.

(** [set_<field> v s] *)
Definition put_domains (v : list ManagedDomain) (s : Infra) : Infra :=
  {| if_domains := v; if_records := if_records s; if_targets := if_targets s; if_addresses :=
     if_addresses s; if_mailDomains := if_mailDomains s; if_runs := if_runs s; if_steps :=
     if_steps s; if_findings := if_findings s; if_caaPolicy := if_caaPolicy s; if_writePolicies
     := if_writePolicies s; if_connections := if_connections s; if_users := if_users s; if_jobs
     := if_jobs s; if_audit := if_audit s; if_next := if_next s; if_now := if_now s |}.
Definition put_records (v : list DnsRecord) (s : Infra) : Infra :=
  {| if_domains := if_domains s; if_records := v; if_targets := if_targets s; if_addresses :=
     if_addresses s; if_mailDomains := if_mailDomains s; if_runs := if_runs s; if_steps :=
     if_steps s; if_findings := if_findings s; if_caaPolicy := if_caaPolicy s; if_writePolicies
     := if_writePolicies s; if_connections := if_connections s; if_users := if_users s; if_jobs
     := if_jobs s; if_audit := if_audit s; if_next := if_next s; if_now := if_now s |}.
Definition put_runs (v : list ReconcileRun) (s : Infra) : Infra :=
  {| if_domains := if_domains s; if_records := if_records s; if_targets := if_targets s;
     if_addresses := if_addresses s; if_mailDomains := if_mailDomains s; if_runs := v; if_steps
     := if_steps s; if_findings := if_findings s; if_caaPolicy := if_caaPolicy s;
     if_writePolicies := if_writePolicies s; if_connections := if_connections s; if_users :=
     if_users s; if_jobs := if_jobs s; if_audit := if_audit s; if_next := if_next s; if_now :=
     if_now s |}.
Definition put_steps (v : list ReconcileRunStep) (s : Infra) : Infra :=
  {| if_domains := if_domains s; if_records := if_records s; if_targets := if_targets s;
     if_addresses := if_addresses s; if_mailDomains := if_mailDomains s; if_runs := if_runs s;
     if_steps := v; if_findings := if_findings s; if_caaPolicy := if_caaPolicy s;
     if_writePolicies := if_writePolicies s; if_connections := if_connections s; if_users :=
     if_users s; if_jobs := if_jobs s; if_audit := if_audit s; if_next := if_next s; if_now :=
     if_now s |}.
Definition put_findings (v : list DriftFinding) (s : Infra) : Infra :=
  {| if_domains := if_domains s; if_records := if_records s; if_targets := if_targets s;
     if_addresses := if_addresses s; if_mailDomains := if_mailDomains s; if_runs := if_runs s;
     if_steps := if_steps s; if_findings := v; if_caaPolicy := if_caaPolicy s; if_writePolicies
     := if_writePolicies s; if_connections := if_connections s; if_users := if_users s; if_jobs
     := if_jobs s; if_audit := if_audit s; if_next := if_next s; if_now := if_now s |}.
Definition put_jobs (v : list Job) (s : Infra) : Infra :=
  {| if_domains := if_domains s; if_records := if_records s; if_targets := if_targets s;
     if_addresses := if_addresses s; if_mailDomains := if_mailDomains s; if_runs := if_runs s;
     if_steps := if_steps s; if_findings := if_findings s; if_caaPolicy := if_caaPolicy s;
     if_writePolicies := if_writePolicies s; if_connections := if_connections s; if_users :=
     if_users s; if_jobs := v; if_audit := if_audit s; if_next := if_next s; if_now := if_now s
     |}.
Definition put_audit (v : list AuditEvent) (s : Infra) : Infra :=
  {| if_domains := if_domains s; if_records := if_records s; if_targets := if_targets s;
     if_addresses := if_addresses s; if_mailDomains := if_mailDomains s; if_runs := if_runs s;
     if_steps := if_steps s; if_findings := if_findings s; if_caaPolicy := if_caaPolicy s;
     if_writePolicies := if_writePolicies s; if_connections := if_connections s; if_users :=
     if_users s; if_jobs := if_jobs s; if_audit := v; if_next := if_next s; if_now := if_now s
     |}.
Definition put_next (v : uuid) (s : Infra) : Infra :=
  {| if_domains := if_domains s; if_records := if_records s; if_targets := if_targets s;
     if_addresses := if_addresses s; if_mailDomains := if_mailDomains s; if_runs := if_runs s;
     if_steps := if_steps s; if_findings := if_findings s; if_caaPolicy := if_caaPolicy s;
     if_writePolicies := if_writePolicies s; if_connections := if_connections s; if_users :=
     if_users s; if_jobs := if_jobs s; if_audit := if_audit s; if_next := v; if_now := if_now s
     |}.

Abbreviation irun := (St Infra) (only parsing).

(** [db.transaction(body)] *)
Definition infra_transaction {A} (body : irun A) : irun A := fun s =>
  match body s with
  | (Ok a, s') => (Ok a, s')
  | (Throw e, _) => (Throw e, s)
  end.

Definition demand (b : bool) (code : string) : irun unit :=
  if b then mret tt else st_throw (SqlError code).
Definition fresh_id : irun uuid := fun s => (Ok (if_next s), put_next (Pos.succ (if_next s)) s).
Definition append_audit (e : AuditEvent) : irun unit :=
  st_modify (fun s => put_audit (if_audit s ++ [e]) s).
Definition domain_audit (action : string) (id : uuid) (actor : option string) : AuditEvent :=
  {| ae_actorUserId := actor; ae_action := action; ae_resourceType := "managed_domain";
     ae_resourceId := Some id; ae_requestId := None |}.

(** ** Jobs *)
Definition MATERIALIZE_RECORDS_TASK : string := "infrastructure.materialize-records".
Definition SYNC_RECORDS_TASK : string := "infrastructure.sync-records".

Definition id_text (id : uuid) : string := Js.bigint_to_string (Zpos id).
Definition domainJobKey (taskName : string) (domainId : uuid) : string :=
  (taskName ++ ":domain:" ++ id_text domainId)%string.

(** A key already queued is replaced. *)
Definition enqueue (taskName : string) (domainId : uuid) (mode : option ReconcileMode) : irun unit :=
  let key := domainJobKey taskName domainId in
  st_modify (fun s => put_jobs
    (List.filter (fun j => negb (String.eqb (jb_key j) key)) (if_jobs s)
     ++ [{| jb_task := taskName; jb_domainId := domainId; jb_mode := mode; jb_key := key |}]) s).

(** ** Reading a schema's failure as a [ZodError] *)
Definition zod {A} (m : result A) : result A := match m with Ok a => Ok a | Throw _ => Throw ZodError end.

Definition lower_char (c : ascii) : ascii :=
  let n := nat_of_ascii c in
  if (65 <=? n)%nat && (n <=? 90)%nat then ascii_of_nat (n + 32) else c.
Fixpoint toLowerCase (s : string) : string :=
  match s with EmptyString => EmptyString | String c s => String (lower_char c) (toLowerCase s) end.

(** [value.replace(/\.$/, "")] *)
Definition drop_final_dot (s : string) : string :=
  if ends_with "." s then Js.slice 0 (String.length s - 1) s else s.

Definition domainNameSchema (name : string) : result string :=
  let t := Text.trim name in
  _ ← throw_if (String.eqb t "" || (253 <? String.length t)%nat) ZodError;
  let value := toLowerCase (drop_final_dot t) in
  _ ← throw_if (bool_decide (Js.index_of "." value = None)) ZodError;
  _ ← throw_if (bool_decide (Js.index_of " " value <> None)) ZodError;
  mret value.

(** ** [managed_domains] *)
Definition is_domain (id : uuid) (d : ManagedDomain) : bool := bool_decide (md_id d = id).

Definition requireDomain (id : uuid) : irun ManagedDomain :=
  s ← st_get;
  match find_row (is_domain id) (if_domains s) with
  | None => st_throw InfrastructureNotFoundError
  | Some row => mret row
  end.

Definition domain_fks (s : Infra) (d : ManagedDomain) : bool :=
  bool_decide (md_dnsConnectionId d ∈ if_connections s)
  && exists_opt hg_id (md_apexTargetId d) (if_targets s)
  && match md_createdByUserId d with None => true | Some u => bool_decide (u ∈ if_users s) end.

(** [managed_domains_name_uq], and one domain per zone of a connection *)
Definition domain_taken (d e : ManagedDomain) : bool :=
  String.eqb (md_name d) (md_name e)
  || match md_externalZoneId d with
     | None => false
     | Some z => bool_decide (md_dnsConnectionId d = md_dnsConnectionId e)
                 && opt_eqb (md_externalZoneId e) z
     end.

Definition insertDomain (values : uuid -> Z -> ManagedDomain) : irun ManagedDomain :=
  id ← fresh_id;
  s ← st_get;
  let row := values id (if_now s) in
  _ ← demand (negb (exists_id md_id id (if_domains s)) && forallb (fun d => negb (domain_taken row d)) (if_domains s)) "23505";
  _ ← demand (domain_fks s row) "23503";
  _ ← st_modify (fun s => put_domains (if_domains s ++ [row]) s);
  mret row.

Definition updateDomain (id : uuid) (f : ManagedDomain -> ManagedDomain) : irun unit :=
  s ← st_get;
  let others := List.filter (fun d => negb (is_domain id d)) (if_domains s) in
  _ ← demand (forallb (fun d => negb (is_domain id d)
                 || forallb (fun e => negb (domain_taken (f d) e)) others) (if_domains s)) "23505";
  _ ← demand (forallb (fun d => negb (is_domain id d) || domain_fks s (f d)) (if_domains s)) "23503";
  st_modify (fun s => put_domains (update_rows (is_domain id) f (if_domains s)) s).

(** ** [dns_records] *)
Definition record_checks (r : DnsRecord) : bool :=
  negb (bool_decide (dr_owner r = OwnerMail) && dr_proxied r)
  && match dr_ttlSeconds r with None => true | Some t => (30 <=? t) && (t <=? 604800) end.

(** [integer] columns *)
Definition record_ranges (r : DnsRecord) : bool :=
  match dr_ttlSeconds r with None => true | Some t => int4 t end
  && match dr_priority r with None => true | Some p => int4 p end.

(** [dns_records_natural_key_uq] *)
Definition same_natural_key (r q : DnsRecord) : bool :=
  bool_decide (dr_domainId r = dr_domainId q) && String.eqb (dr_type r) (dr_type q)
  && String.eqb (dr_name r) (dr_name q) && String.eqb (dr_content r) (dr_content q).

(** [insert ... on conflict (natural key) do update set ... where ... returning]:
    the row written, or [None] when the condition holds the update back. *)
Definition upsertRecord (values : uuid -> Z -> DnsRecord) (condition : DnsRecord -> bool)
    (assignments : Z -> DnsRecord -> DnsRecord) : irun (option DnsRecord) :=
  id ← fresh_id;
  s ← st_get;
  let row := values id (if_now s) in
  _ ← demand (record_ranges row) "22003";
  _ ← demand (record_checks row) "23514";
  match find_row (same_natural_key row) (if_records s) with
  | Some existing =>
      if condition existing then
        let updated := assignments (if_now s) existing in
        _ ← demand (record_checks updated) "23514";
        _ ← st_modify (fun s => put_records
              (update_rows (fun r => bool_decide (dr_id r = dr_id existing)) (assignments (if_now s))
                 (if_records s)) s);
        mret (Some updated)
      else mret None
  | None =>
      _ ← demand (negb (exists_id dr_id id (if_records s))) "23505";
      _ ← demand (exists_id md_id (dr_domainId row) (if_domains s)) "23503";
      _ ← st_modify (fun s => put_records (if_records s ++ [row]) s);
      mret (Some row)
  end.

(** ** The intent service *)
Record CreateManagedDomainInput : Type := {
  cd_name : string;
  cd_dnsConnectionId : uuid;
  cd_registrar : option string;
  cd_apexTargetId : option uuid;
  cd_apexProxied : option bool;
  cd_wildcardProxied : option bool;
  cd_mailEnabled : option bool;
  cd_notes : option string;
  cd_createdByUserId : option string;
}.

Definition createDomainSchema (i : CreateManagedDomainInput) : result CreateManagedDomainInput :=
  name ← domainNameSchema (cd_name i);
  registrar ← zod (z_opt z_text (cd_registrar i));
  notes ← zod (z_opt z_text (cd_notes i));
  created ← zod (z_user (cd_createdByUserId i));
  mret {| cd_name := name; cd_dnsConnectionId := cd_dnsConnectionId i; cd_registrar := registrar;
          cd_apexTargetId := cd_apexTargetId i; cd_apexProxied := cd_apexProxied i;
          cd_wildcardProxied := cd_wildcardProxied i; cd_mailEnabled := cd_mailEnabled i;
          cd_notes := notes; cd_createdByUserId := created |}.

Definition domain_values (parsed : CreateManagedDomainInput) (id : uuid) (now : Z) : ManagedDomain :=
  {| md_id := id; md_name := cd_name parsed; md_dnsConnectionId := cd_dnsConnectionId parsed;
     md_registrar := cd_registrar parsed; md_state := StateDraft; md_externalZoneId := None;
     md_zoneNameservers := None; md_providerZoneStatus := None; md_apexTargetId :=
     cd_apexTargetId parsed; md_apexProxied := default true (cd_apexProxied parsed);
     md_wildcardProxied := default true (cd_wildcardProxied parsed); md_mailEnabled := default
     true (cd_mailEnabled parsed); md_lastReconciledAt := None; md_driftDetectedAt := None;
     md_lastErrorAt := None; md_lastErrorCode := None; md_consecutiveErrors := 0; md_notes :=
     cd_notes parsed; md_createdByUserId := cd_createdByUserId parsed; md_createdAt := now;
     md_updatedAt := now |}.

Definition createDomain (input : CreateManagedDomainInput) : irun ManagedDomain :=
  parsed ← st_lift (createDomainSchema input);
  infra_transaction (
    row ← insertDomain (domain_values parsed);
    _ ← append_audit (domain_audit "infrastructure.managed_domain.create" (md_id row) (cd_createdByUserId parsed));
    _ ← enqueue MATERIALIZE_RECORDS_TASK (md_id row) None;
    mret row).

Definition findByName (name : string) : irun (option ManagedDomain) :=
  parsed ← st_lift (domainNameSchema name);
  st_gets (fun s => find_row (fun d => String.eqb (md_name d) parsed) (if_domains s)).

(** [None] is an absent key, [Some None] an explicit [null]. *)
Record UpdateDomainIntentInput : Type := {
  ud_apexTargetId : option (option uuid);
  ud_apexProxied : option bool;
  ud_wildcardProxied : option bool;
  ud_mailEnabled : option bool;
  ud_registrar : option (option string);
  ud_notes : option (option string);
  ud_actorUserId : option string;
}.

Definition updateIntentSchema (i : UpdateDomainIntentInput) : result UpdateDomainIntentInput :=
  registrar ← zod (z_opt (z_opt z_text) (ud_registrar i));
  notes ← zod (z_opt (z_opt z_text) (ud_notes i));
  actor ← zod (z_user (ud_actorUserId i));
  _ ← throw_if (negb (is_some (ud_apexTargetId i) || is_some (ud_apexProxied i)
                      || is_some (ud_wildcardProxied i) || is_some (ud_mailEnabled i)
                      || is_some registrar || is_some notes)) ZodError;
  mret {| ud_apexTargetId := ud_apexTargetId i; ud_apexProxied := ud_apexProxied i;
          ud_wildcardProxied := ud_wildcardProxied i; ud_mailEnabled := ud_mailEnabled i;
          ud_registrar := registrar; ud_notes := notes; ud_actorUserId := actor |}.

Definition apply_intent (parsed : UpdateDomainIntentInput) (now : Z) (d : ManagedDomain) : ManagedDomain :=
  {| md_id := md_id d; md_name := md_name d; md_dnsConnectionId := md_dnsConnectionId d;
     md_registrar := default (md_registrar d) (ud_registrar parsed); md_state := md_state d;
     md_externalZoneId := md_externalZoneId d; md_zoneNameservers := md_zoneNameservers d;
     md_providerZoneStatus := md_providerZoneStatus d; md_apexTargetId := default
     (md_apexTargetId d) (ud_apexTargetId parsed); md_apexProxied := default (md_apexProxied d)
     (ud_apexProxied parsed); md_wildcardProxied := default (md_wildcardProxied d)
     (ud_wildcardProxied parsed); md_mailEnabled := default (md_mailEnabled d) (ud_mailEnabled
     parsed); md_lastReconciledAt := md_lastReconciledAt d; md_driftDetectedAt :=
     md_driftDetectedAt d; md_lastErrorAt := md_lastErrorAt d; md_lastErrorCode :=
     md_lastErrorCode d; md_consecutiveErrors := md_consecutiveErrors d; md_notes := default
     (md_notes d) (ud_notes parsed); md_createdByUserId := md_createdByUserId d; md_createdAt :=
     md_createdAt d; md_updatedAt := now |}.

Definition updateIntent (id : uuid) (input : UpdateDomainIntentInput) : irun ManagedDomain :=
  parsed ← st_lift (updateIntentSchema input);
  infra_transaction (
    before ← requireDomain id;
    now ← st_gets if_now;
    _ ← updateDomain id (apply_intent parsed now);
    _ ← append_audit (domain_audit "infrastructure.managed_domain.update_intent" id (ud_actorUserId parsed));
    _ ← enqueue MATERIALIZE_RECORDS_TASK id None;
    mret (apply_intent parsed now before)).

Record AttachZoneInput : Type := {
  az_externalZoneId : string;
  az_providerZoneStatus : option (option string);
  az_zoneNameservers : option (option (list string));
  az_replace : option bool;
  az_actorUserId : option string;
}.

Definition attachZoneSchema (i : AttachZoneInput) : result AttachZoneInput :=
  zone ← zod (z_text (az_externalZoneId i));
  status ← zod (z_opt (z_opt z_text) (az_providerZoneStatus i));
  nameservers ← zod (z_opt (z_opt (res_mapM z_text)) (az_zoneNameservers i));
  actor ← zod (z_user (az_actorUserId i));
  mret {| az_externalZoneId := zone; az_providerZoneStatus := status; az_zoneNameservers := nameservers;
          az_replace := az_replace i; az_actorUserId := actor |}.

Definition apply_zone (parsed : AttachZoneInput) (now : Z) (d : ManagedDomain) : ManagedDomain :=
  {| md_id := md_id d; md_name := md_name d; md_dnsConnectionId := md_dnsConnectionId d;
     md_registrar := md_registrar d; md_state := md_state d; md_externalZoneId := Some
     (az_externalZoneId parsed); md_zoneNameservers := default (md_zoneNameservers d)
     (az_zoneNameservers parsed); md_providerZoneStatus := default (md_providerZoneStatus d)
     (az_providerZoneStatus parsed); md_apexTargetId := md_apexTargetId d; md_apexProxied :=
     md_apexProxied d; md_wildcardProxied := md_wildcardProxied d; md_mailEnabled :=
     md_mailEnabled d; md_lastReconciledAt := md_lastReconciledAt d; md_driftDetectedAt :=
     md_driftDetectedAt d; md_lastErrorAt := md_lastErrorAt d; md_lastErrorCode :=
     md_lastErrorCode d; md_consecutiveErrors := md_consecutiveErrors d; md_notes := md_notes d;
     md_createdByUserId := md_createdByUserId d; md_createdAt := md_createdAt d; md_updatedAt :=
     now |}.

Definition attachZone (id : uuid) (input : AttachZoneInput) : irun ManagedDomain :=
  parsed ← st_lift (attachZoneSchema input);
  infra_transaction (
    before ← requireDomain id;
    let isReplace := match md_externalZoneId before with
                     | None => false
                     | Some z => negb (String.eqb z (az_externalZoneId parsed))
                     end in
    _ ← st_lift (throw_if (isReplace && negb (bool_decide (az_replace parsed = Some true)))
                   InfrastructureValidationError);
    now ← st_gets if_now;
    _ ← updateDomain id (apply_zone parsed now);
    _ ← append_audit (domain_audit "infrastructure.managed_domain.attach_zone" id (az_actorUserId parsed));
    mret (apply_zone parsed now before)).

Definition live (r : DnsRecord) : bool := bool_decide (dr_desiredDeletedAt r = None).
Definition of_domain (domainId : uuid) (r : DnsRecord) : bool := bool_decide (dr_domainId r = domainId).

Definition listRecords (domainId : uuid) : irun (list DnsRecord) :=
  st_gets (fun s => List.filter (fun r => of_domain domainId r && live r) (if_records s)).

Record ManualRecordInput : Type := {
  nr_type : string;
  nr_name : string;
  nr_content : string;
  nr_ttlSeconds : option Z;
  nr_priority : option Z;
  nr_proxied : option bool;
  nr_externalRecordId : option string;
}.

Definition manual_values (domainId : uuid) (i : ManualRecordInput) (id : uuid) (now : Z) : DnsRecord :=
  {| dr_id := id; dr_domainId := domainId; dr_type := nr_type i; dr_name := nr_name i;
     dr_content := nr_content i; dr_priority := nr_priority i; dr_ttlSeconds := nr_ttlSeconds i;
     dr_proxied := default false (nr_proxied i); dr_owner := OwnerManual; dr_externalRecordId :=
     nr_externalRecordId i; dr_lastSyncedAt := None; dr_desiredDeletedAt := None; dr_createdAt
     := now; dr_updatedAt := now |}.

(** The [set] of both upserts: the tombstone is cleared. *)
Definition declare_record (ttl priority : option Z) (proxied : bool) (owner : DnsRecordOwner) (now : Z)
    (r : DnsRecord) : DnsRecord :=
  {| dr_id := dr_id r; dr_domainId := dr_domainId r; dr_type := dr_type r; dr_name := dr_name r;
     dr_content := dr_content r; dr_priority := priority; dr_ttlSeconds := ttl; dr_proxied :=
     proxied; dr_owner := owner; dr_externalRecordId := dr_externalRecordId r; dr_lastSyncedAt
     := dr_lastSyncedAt r; dr_desiredDeletedAt := None; dr_createdAt := dr_createdAt r;
     dr_updatedAt := now |}.

Definition addManualRecord (domainId : uuid) (i : ManualRecordInput) (actor : option string) : irun DnsRecord :=
  _ ← st_lift (throw_if (bool_decide (nr_proxied i = Some true) && String.eqb (nr_type i) "TXT")
                 InfrastructureValidationError);
  infra_transaction (
    _ ← requireDomain domainId;
    row ← upsertRecord (manual_values domainId i) (fun _ => true)
            (declare_record (nr_ttlSeconds i) (nr_priority i) (default false (nr_proxied i)) OwnerManual);
    row ← match row with None => st_throw PlainError | Some row => mret row end;
    _ ← append_audit (domain_audit "infrastructure.dns_record.add_manual" domainId actor);
    _ ← enqueue SYNC_RECORDS_TASK domainId None;
    mret row).

(** ** [applyMaterializedRecords] *)
Definition desired_key (d : DesiredRecord) : string := naturalKey (de_type d) (de_name d) (de_content d).
Definition record_key (r : DnsRecord) : string := naturalKey (dr_type r) (dr_name r) (dr_content r).

Definition materialized_values (domainId : uuid) (d : DesiredRecord) (id : uuid) (now : Z) : DnsRecord :=
  {| dr_id := id; dr_domainId := domainId; dr_type := de_type d; dr_name := de_name d;
     dr_content := de_content d; dr_priority := de_priority d; dr_ttlSeconds := de_ttlSeconds d;
     dr_proxied := de_proxied d; dr_owner := de_owner d; dr_externalRecordId := None;
     dr_lastSyncedAt := None; dr_desiredDeletedAt := None; dr_createdAt := now; dr_updatedAt :=
     now |}.

Definition not_manual (r : DnsRecord) : bool := bool_decide (dr_owner r <> OwnerManual).

(** One desired record: it counts as updated when its key was there before,
    and not at all when a manual row holds it. *)
Definition declare_desired (domainId : uuid) (beforeKeys : list string) (counts : nat * nat)
    (d : DesiredRecord) : irun (nat * nat) :=
  row ← upsertRecord (materialized_values domainId d) not_manual
          (declare_record (de_ttlSeconds d) (de_priority d) (de_proxied d) (de_owner d));
  match row with
  | None => mret counts
  | Some _ => mret (if bool_decide (desired_key d ∈ beforeKeys) then (counts.1, S counts.2)
                    else (S counts.1, counts.2))
  end.

Fixpoint declare_all (domainId : uuid) (beforeKeys : list string) (desired : list DesiredRecord)
    (counts : nat * nat) : irun (nat * nat) :=
  match desired with
  | [] => mret counts
  | d :: desired =>
      counts ← declare_desired domainId beforeKeys counts d;
      declare_all domainId beforeKeys desired counts
  end.

Definition soft_delete (now : Z) (r : DnsRecord) : DnsRecord :=
  {| dr_id := dr_id r; dr_domainId := dr_domainId r; dr_type := dr_type r; dr_name := dr_name r;
     dr_content := dr_content r; dr_priority := dr_priority r; dr_ttlSeconds := dr_ttlSeconds r;
     dr_proxied := dr_proxied r; dr_owner := dr_owner r; dr_externalRecordId :=
     dr_externalRecordId r; dr_lastSyncedAt := dr_lastSyncedAt r; dr_desiredDeletedAt := Some
     now; dr_createdAt := dr_createdAt r; dr_updatedAt := now |}.

Definition forget_record (now : Z) (r : DnsRecord) : irun unit :=
  st_modify (fun s => put_records
    (update_rows (fun q => bool_decide (dr_id q = dr_id r)) (soft_delete now) (if_records s)) s).

Record AppliedCounts : Type := { ac_created : nat; ac_updated : nat; ac_softDeleted : nat }.

Definition applyMaterializedRecords (domainId : uuid) (desired : list DesiredRecord) : irun AppliedCounts :=
  now ← st_gets if_now;
  let desiredKeys := desired_key <$> desired in
  beforeRows ← st_gets (fun s => List.filter (of_domain domainId) (if_records s));
  counts ← declare_all domainId (record_key <$> beforeRows) desired (0, 0)%nat;
  existing ← st_gets (fun s =>
    List.filter (fun r => of_domain domainId r && live r && not_manual r) (if_records s));
  let stale := List.filter (fun r => negb (bool_decide (record_key r ∈ desiredKeys))) existing in
  _ ← st_mapM (forget_record now) stale;
  mret {| ac_created := counts.1; ac_updated := counts.2; ac_softDeleted := length stale |}.
