(* ===== verification/Drift.v ===== *)
(** * Drift findings

    [packages/infrastructure/src/drift.ts]: the findings a diff implies, and the
    table they are upserted into, under the partial unique index on the
    unresolved ones.  Notifications are not modelled: their failures are
    swallowed by the code. *)
From S2P Require Import Prelude Decimal Calendar Inputs Store Schema Ledger Facts Chart.
From S2P Require Import DnsDiff DnsPlan Materialize WritePolicy DnsStore.

Open Scope Z_scope.

(** ** [findingsFromDiff] *)
Record DriftFindingInput : Type := {
  fi_kind : DriftKind;
  fi_recordType : string;
  fi_recordName : string;
  fi_desiredContent : option string;
  fi_observedContent : option string;
  fi_desiredProxied : option bool;
  fi_observedProxied : option bool;
  fi_externalRecordId : option string;
  fi_dnsRecordId : option uuid;
}.

Definition missing_finding (i : IntentRecord) : DriftFindingInput :=
  {| fi_kind := DriftMissing; fi_recordType := it_type i; fi_recordName := it_name i;
     fi_desiredContent := Some (it_content i); fi_observedContent := None;
     fi_desiredProxied := Some (it_proxied i); fi_observedProxied := None;
     fi_externalRecordId := None; fi_dnsRecordId := Some (it_id i) |}.
Definition modified_finding (m : IntentRecord * ObservedDnsRecord * list DnsAttribute) : DriftFindingInput :=
  let i := m.1.1 in let o := m.1.2 in
  {| fi_kind := DriftModified; fi_recordType := it_type i; fi_recordName := it_name i;
     fi_desiredContent := Some (it_content i); fi_observedContent := Some (od_content o);
     fi_desiredProxied := Some (it_proxied i); fi_observedProxied := Some (od_proxied o);
     fi_externalRecordId := Some (od_externalRecordId o); fi_dnsRecordId := Some (it_id i) |}.
Definition unexpected_finding (o : ObservedDnsRecord) : DriftFindingInput :=
  {| fi_kind := DriftUnexpected; fi_recordType := od_type o; fi_recordName := od_name o;
     fi_desiredContent := None; fi_observedContent := Some (od_content o);
     fi_desiredProxied := None; fi_observedProxied := Some (od_proxied o);
     fi_externalRecordId := Some (od_externalRecordId o); fi_dnsRecordId := None |}.

Definition findingsFromDiff (d : DnsDiff) : list DriftFindingInput :=
  (missing_finding <$> df_missing d) ++ (modified_finding <$> df_modified d)
  ++ (unexpected_finding <$> df_unexpected d).

(** ** The table *)
Definition unresolved (f : DriftFinding) : bool := bool_decide (dd_resolvedAt f = None).

(** The key of [dns_drift_findings_unresolved_uq], [coalesce] included. *)
Definition finding_key (f : DriftFinding) : uuid * DriftKind * string * string * string :=
  (dd_domainId f, dd_kind f, dd_recordType f, dd_recordName f, default ""%string (dd_observedContent f)).
Definition input_key (domainId : uuid) (i : DriftFindingInput) : uuid * DriftKind * string * string * string :=
  (domainId, fi_kind i, fi_recordType i, fi_recordName i, default ""%string (fi_observedContent i)).

Definition unresolved_twin (domainId : uuid) (i : DriftFindingInput) (f : DriftFinding) : bool :=
  bool_decide (finding_key f = input_key domainId i) && unresolved f.

Definition seen_again (now : Z) (runId : uuid) (i : DriftFindingInput) (f : DriftFinding) : DriftFinding :=
  {| dd_id := dd_id f; dd_domainId := dd_domainId f; dd_dnsRecordId := dd_dnsRecordId f;
     dd_kind := dd_kind f; dd_recordType := dd_recordType f; dd_recordName := dd_recordName f;
     dd_desiredContent := fi_desiredContent i; dd_observedContent := dd_observedContent f;
     dd_desiredProxied := fi_desiredProxied i; dd_observedProxied := fi_observedProxied i;
     dd_externalRecordId := fi_externalRecordId i; dd_firstDetectedAt := dd_firstDetectedAt f;
     dd_lastDetectedAt := now; dd_resolvedAt := dd_resolvedAt f; dd_resolution := dd_resolution f;
     dd_resolvedByUserId := dd_resolvedByUserId f; dd_firstSeenRunId := dd_firstSeenRunId f;
     dd_lastSeenRunId := runId |}.

Definition new_finding (domainId runId id : uuid) (now : Z) (i : DriftFindingInput) : DriftFinding :=
  {| dd_id := id; dd_domainId := domainId; dd_dnsRecordId := fi_dnsRecordId i;
     dd_kind := fi_kind i; dd_recordType := fi_recordType i; dd_recordName := fi_recordName i;
     dd_desiredContent := fi_desiredContent i; dd_observedContent := fi_observedContent i;
     dd_desiredProxied := fi_desiredProxied i; dd_observedProxied := fi_observedProxied i;
     dd_externalRecordId := fi_externalRecordId i; dd_firstDetectedAt := now;
     dd_lastDetectedAt := now; dd_resolvedAt := None; dd_resolution := None;
     dd_resolvedByUserId := None; dd_firstSeenRunId := runId; dd_lastSeenRunId := runId |}.

Definition resolve (resolution : DriftResolution) (now : Z) (by_user : option string) (lastRun : option uuid)
    (f : DriftFinding) : DriftFinding :=
  {| dd_id := dd_id f; dd_domainId := dd_domainId f; dd_dnsRecordId := dd_dnsRecordId f;
     dd_kind := dd_kind f; dd_recordType := dd_recordType f; dd_recordName := dd_recordName f;
     dd_desiredContent := dd_desiredContent f; dd_observedContent := dd_observedContent f;
     dd_desiredProxied := dd_desiredProxied f; dd_observedProxied := dd_observedProxied f;
     dd_externalRecordId := dd_externalRecordId f; dd_firstDetectedAt := dd_firstDetectedAt f;
     dd_lastDetectedAt := dd_lastDetectedAt f; dd_resolvedAt := Some now;
     dd_resolution := Some resolution; dd_resolvedByUserId := by_user;
     dd_firstSeenRunId := dd_firstSeenRunId f;
     dd_lastSeenRunId := default (dd_lastSeenRunId f) lastRun |}.

(** [dns_drift_findings_unexpected_record_check] *)
Definition finding_check (f : DriftFinding) : bool :=
  Bool.eqb (bool_decide (dd_kind f = DriftUnexpected)) (bool_decide (dd_dnsRecordId f = None)).

Definition finding_fks (s : Infra) (f : DriftFinding) : bool :=
  exists_id md_id (dd_domainId f) (if_domains s)
  && exists_opt dr_id (dd_dnsRecordId f) (if_records s)
  && exists_id rr_id (dd_firstSeenRunId f) (if_runs s)
  && exists_id rr_id (dd_lastSeenRunId f) (if_runs s).

Definition insertFinding (domainId runId : uuid) (i : DriftFindingInput) : irun DriftFinding :=
  id ← fresh_id;
  s ← st_get;
  let row := new_finding domainId runId id (if_now s) i in
  _ ← demand (finding_check row) "23514";
  _ ← demand (negb (exists_id dd_id id (if_findings s))
              && negb (existsb (unresolved_twin domainId i) (if_findings s))) "23505";
  _ ← demand (finding_fks s row) "23503";
  _ ← st_modify (fun s => put_findings (if_findings s ++ [row]) s);
  mret row.

(** [update ... where p], [runId] being a [last_seen_run_id] written *)
Definition updateFindings (p : DriftFinding -> bool) (f : DriftFinding -> DriftFinding) (runId : option uuid)
    : irun (list DriftFinding) :=
  s ← st_get;
  let rows := List.filter p (if_findings s) in
  _ ← demand (exists_opt rr_id runId (if_runs s) || (length rows =? 0)%nat) "23503";
  _ ← st_modify (fun s => put_findings (update_rows p f (if_findings s)) s);
  mret (f <$> rows).

(** ** [recordRun] *)
Definition record_finding (domainId runId : uuid) (now : Z) (i : DriftFindingInput) : irun uuid :=
  existing ← st_gets (fun s => find_row (unresolved_twin domainId i) (if_findings s));
  match existing with
  | Some found =>
      _ ← updateFindings (fun f => bool_decide (dd_id f = dd_id found)) (seen_again now runId i) (Some runId);
      mret (dd_id found)
  | None =>
      row ← insertFinding domainId runId i;
      mret (dd_id row)
  end.

Definition rollup (now : Z) (drifted : bool) (d : ManagedDomain) : ManagedDomain :=
  {| md_id := md_id d; md_name := md_name d; md_dnsConnectionId := md_dnsConnectionId d;
     md_registrar := md_registrar d; md_state := md_state d; md_externalZoneId := md_externalZoneId d;
     md_zoneNameservers := md_zoneNameservers d; md_providerZoneStatus := md_providerZoneStatus d;
     md_apexTargetId := md_apexTargetId d; md_apexProxied := md_apexProxied d;
     md_wildcardProxied := md_wildcardProxied d; md_mailEnabled := md_mailEnabled d;
     md_lastReconciledAt := Some now; md_driftDetectedAt := if drifted then Some now else None;
     md_lastErrorAt := md_lastErrorAt d; md_lastErrorCode := md_lastErrorCode d;
     md_consecutiveErrors := md_consecutiveErrors d; md_notes := md_notes d;
     md_createdByUserId := md_createdByUserId d; md_createdAt := md_createdAt d; md_updatedAt := now |}.

Definition resolve_disappeared (now : Z) (runId : uuid) (f : DriftFinding) : DriftFinding :=
  resolve ResolvedDisappeared now (dd_resolvedByUserId f) (Some runId) f.

Record RecordedRun : Type := { re_unresolved : nat; re_disappeared : nat }.

Definition recordRun (domainId runId : uuid) (findings : list DriftFindingInput) : irun RecordedRun :=
  now ← st_gets if_now;
  infra_transaction (
    survivingIds ← st_mapM (record_finding domainId runId now) findings;
    disappearedRows ← updateFindings
      (fun f => bool_decide (dd_domainId f = domainId) && unresolved f
                && negb (bool_decide (dd_id f ∈ survivingIds)))
      (resolve_disappeared now runId) (Some runId);
    _ ← updateDomain domainId (rollup now (0 <? length survivingIds)%nat);
    mret {| re_unresolved := length survivingIds; re_disappeared := length disappearedRows |}).

Definition listUnresolved (domainId : uuid) : irun (list DriftFinding) :=
  st_gets (fun s => List.filter (fun f => bool_decide (dd_domainId f = domainId) && unresolved f) (if_findings s)).

Definition dismiss (findingId : uuid) (actor : option string) : irun DriftFinding :=
  infra_transaction (
    now ← st_gets if_now;
    s ← st_get;
    _ ← demand (negb (exists_id dd_id findingId (if_findings s)) ||
                match actor with None => true | Some u => bool_decide (u ∈ if_users s) end) "23503";
    rows ← updateFindings (fun f => bool_decide (dd_id f = findingId)) (resolve ResolvedDismissed now actor None) None;
    match rows with
    | [] => st_throw InfrastructureNotFoundError
    | row :: _ =>
        _ ← append_audit (domain_audit "infrastructure.dns_drift_finding.dismiss" (dd_domainId row) actor);
        mret row
    end).

Definition mark_applied (now : Z) (f : DriftFinding) : DriftFinding :=
  resolve ResolvedApplied now (dd_resolvedByUserId f) None f.

Definition markApplied (findingIds : list uuid) : irun nat :=
  match findingIds with
  | [] => mret 0%nat
  | _ =>
      now ← st_gets if_now;
      rows ← updateFindings (fun f => bool_decide (dd_id f ∈ findingIds)) (mark_applied now) None;
      mret (length rows)
  end.
