(* ===== verification/DnsSync.v ===== *)
(** * Record sync

    [packages/infrastructure/src/sync.ts]: the run that reads the intent and the
    provider, diffs them, applies what the gate allows and records findings, step
    by step.  Each statement commits on its own: a thrown error leaves what was
    written.  The provider is an instance of [DnsProvider], the port of
    [port.ts]. *)
From S2P Require Import Prelude Decimal Calendar Inputs Store Schema Ledger Facts Chart.
From S2P Require Import DnsDiff DnsPlan DnsConverge Materialize WritePolicy DnsStore Drift.

Open Scope Z_scope.

(** ** The port *)
Inductive OperationKind : Type := KindCreate | KindUpdate | KindDelete.
Inductive ApplyStatus : Type := Applied | AlreadyPresent | AlreadyAbsent.

Record DnsApplyResult : Type := {
  ap_kind : OperationKind;
  ap_type : string;
  ap_name : string;
  ap_status : ApplyStatus;
  ap_externalRecordId : option string;
}.

(** What a call of injected code does: return, or throw an error with or without
    a [kind]. *)
Inductive PortResult (A : Type) : Type := PortOk (a : A) | PortThrow (kind : option string).
Arguments PortOk {A} a.
Arguments PortThrow {A} kind.

Class DnsProvider (P : Type) : Type := {
  port_read : string -> string -> P -> PortResult (list ObservedDnsRecord);
  port_apply : string -> string -> list DnsApplyOperation -> P -> PortResult (list DnsApplyResult) * P;
}.

(** ** The run's state: the tables, the provider, and the step counter *)
Record World (P : Type) : Type := { w_db : Infra; w_provider : P; w_sequence : nat }.
Arguments w_db {P} w.
Arguments w_provider {P} w.
Arguments w_sequence {P} w.

Section sync.
Context {P : Type} `{DnsProvider P}.

#[local] Abbreviation srun := (St (World P)) (only parsing).

Definition on_db {A} (m : irun A) : srun A := fun w =>
  let '(r, db) := m (w_db w) in
  (r, {| w_db := db; w_provider := w_provider w; w_sequence := w_sequence w |}).
Definition set_sequence (n : nat) : srun unit :=
  st_modify (fun w => {| w_db := w_db w; w_provider := w_provider w; w_sequence := n |}).

Definition rethrown {A} (m : PortResult A) : result A :=
  match m with PortOk a => Ok a | PortThrow kind => Throw (AdapterError kind) end.
Definition call_apply (zoneId zoneName : string) (operations : list DnsApplyOperation)
    : srun (list DnsApplyResult) := fun w =>
  let '(r, p) := port_apply zoneId zoneName operations (w_provider w) in
  (rethrown r, {| w_db := w_db w; w_provider := p; w_sequence := w_sequence w |}).

(** ** Run and step rows *)
Record RunRecordSyncInput : Type := {
  rn_domainId : uuid;
  rn_mode : ReconcileMode;
  rn_trigger : ReconcileTrigger;
  rn_actorUserId : option string;
  rn_actorIsAdmin : option bool;
}.

Definition run_row (kind : string) (subjectId : uuid) (mode : ReconcileMode) (trigger : ReconcileTrigger)
    (actor : option string) (id : uuid) (now : Z) : ReconcileRun :=
  {| rr_id := id; rr_kind := kind; rr_subjectId := subjectId; rr_mode := mode; rr_status := RunRunning;
     rr_trigger := trigger; rr_actorUserId := actor; rr_startedAt := now; rr_finishedAt := None;
     rr_stepCount := 0; rr_hasErrorSummary := false |}.

Definition insertRun (values : uuid -> Z -> ReconcileRun) : irun ReconcileRun :=
  id ← fresh_id;
  s ← st_get;
  let row := values id (if_now s) in
  _ ← demand (negb (exists_id rr_id id (if_runs s))) "23505";
  _ ← demand (match rr_actorUserId row with None => true | Some u => bool_decide (u ∈ if_users s) end) "23503";
  _ ← st_modify (fun s => put_runs (if_runs s ++ [row]) s);
  mret row.

Definition insertStep (row : ReconcileRunStep) : irun unit :=
  s ← st_get;
  _ ← demand (forallb (fun q => negb (bool_decide (rs_runId q = rs_runId row)
                                      && (rs_sequence q =? rs_sequence row)%nat)) (if_steps s)) "23505";
  _ ← demand (exists_id rr_id (rs_runId row) (if_runs s)) "23503";
  st_modify (fun s => put_steps (if_steps s ++ [row]) s).

Definition step (runId : uuid) (name : string) (status : StepStatus) (errorCode : option string) : srun unit :=
  sequence ← st_gets w_sequence;
  _ ← set_sequence (S sequence);
  on_db (insertStep {| rs_runId := runId; rs_sequence := sequence; rs_step := name;
                       rs_status := status; rs_errorCode := errorCode |}).

Definition finished (status : RunStatus) (now : Z) (steps : nat) (summary : bool) (r : ReconcileRun)
    : ReconcileRun :=
  {| rr_id := rr_id r; rr_kind := rr_kind r; rr_subjectId := rr_subjectId r; rr_mode := rr_mode r;
     rr_status := status; rr_trigger := rr_trigger r; rr_actorUserId := rr_actorUserId r;
     rr_startedAt := rr_startedAt r; rr_finishedAt := Some now; rr_stepCount := steps;
     rr_hasErrorSummary := summary |}.

Definition finish (runId : uuid) (status : RunStatus) (summary : bool) : srun unit :=
  sequence ← st_gets w_sequence;
  on_db (st_modify (fun s => put_runs
    (update_rows (fun r => bool_decide (rr_id r = runId)) (finished status (if_now s) sequence summary)
       (if_runs s)) s)).

(** ** The parts of a run *)
Definition to_intent (r : DnsRecord) : IntentRecord :=
  {| it_id := dr_id r; it_type := dr_type r; it_name := dr_name r; it_content := dr_content r;
     it_ttlSeconds := dr_ttlSeconds r; it_priority := dr_priority r; it_proxied := dr_proxied r;
     it_owner := dr_owner r; it_externalRecordId := dr_externalRecordId r |}.

Definition live_intent (domainId : uuid) (s : Infra) : list IntentRecord :=
  to_intent <$> List.filter (fun r => of_domain domainId r && live r) (if_records s).
Definition deleted_intent (domainId : uuid) (s : Infra) : list IntentRecord :=
  to_intent <$> List.filter (fun r => of_domain domainId r && negb (live r)) (if_records s).

Definition with_health (errorAt : option Z) (errorCode : option string) (errors : Z) (now : Z)
    (d : ManagedDomain) : ManagedDomain :=
  {| md_id := md_id d; md_name := md_name d; md_dnsConnectionId := md_dnsConnectionId d;
     md_registrar := md_registrar d; md_state := md_state d; md_externalZoneId := md_externalZoneId d;
     md_zoneNameservers := md_zoneNameservers d; md_providerZoneStatus := md_providerZoneStatus d;
     md_apexTargetId := md_apexTargetId d; md_apexProxied := md_apexProxied d;
     md_wildcardProxied := md_wildcardProxied d; md_mailEnabled := md_mailEnabled d;
     md_lastReconciledAt := md_lastReconciledAt d; md_driftDetectedAt := md_driftDetectedAt d;
     md_lastErrorAt := errorAt; md_lastErrorCode := errorCode; md_consecutiveErrors := errors;
     md_notes := md_notes d; md_createdByUserId := md_createdByUserId d; md_createdAt := md_createdAt d;
     md_updatedAt := now |}.

(** The failed read is recorded, and counted on the domain. *)
Definition read_failed (domain : ManagedDomain) (runId : uuid) (kind : string)
    : srun (list ObservedDnsRecord) :=
  _ ← step runId "read-provider" StepFailed (Some kind);
  _ ← finish runId RunFailed true;
  now ← on_db (st_gets if_now);
  _ ← on_db (demand (int4 (md_consecutiveErrors domain + 1)) "22003");
  _ ← on_db (updateDomain (md_id domain)
               (with_health (Some now) (Some kind) (md_consecutiveErrors domain + 1) now));
  st_throw (ProviderCallError kind).

Definition read_provider (domain : ManagedDomain) (zoneId : string) (runId : uuid)
    : srun (list ObservedDnsRecord) :=
  provider ← st_gets w_provider;
  match port_read zoneId (md_name domain) provider with
  | PortThrow kind => read_failed domain runId (default "provider_unavailable"%string kind)
  | PortOk observed =>
      _ ← step runId "read-provider" StepSucceeded None;
      mret observed
  end.

(** The gate: the reason of a refusal. *)
Definition write_policy_blocked (connectionId : option uuid) (input : RunRecordSyncInput)
    : srun (option string) :=
  match rn_mode input, connectionId with
  | ModeApply, Some connection =>
      policies ← on_db (st_gets if_writePolicies);
      match assertWritePolicy
              {| wp_mode := rn_mode input; wp_trigger := rn_trigger input;
                 wp_policyTier := resolveProviderWritePolicy policies connection;
                 wp_operationTier := 1; wp_actorIsAdmin := rn_actorIsAdmin input;
                 wp_blockedReason := None |} with
      | Ok _ => mret None
      | Throw (WritePolicyError reason) => mret (Some reason)
      | Throw error => st_throw error
      end
  | _, _ => mret None
  end.

Definition kind_name (kind : OperationKind) : string :=
  match kind with KindCreate => "create" | KindUpdate => "update" | KindDelete => "delete" end.

Definition step_result (runId : uuid) (r : DnsApplyResult) : srun unit :=
  step runId ("apply." ++ kind_name (ap_kind r))%string StepSucceeded None.

Definition captured (externalRecordId : string) (now : Z) (r : DnsRecord) : DnsRecord :=
  {| dr_id := dr_id r; dr_domainId := dr_domainId r; dr_type := dr_type r; dr_name := dr_name r;
     dr_content := dr_content r; dr_priority := dr_priority r; dr_ttlSeconds := dr_ttlSeconds r;
     dr_proxied := dr_proxied r; dr_owner := dr_owner r; dr_externalRecordId := Some externalRecordId;
     dr_lastSyncedAt := Some now; dr_desiredDeletedAt := dr_desiredDeletedAt r;
     dr_createdAt := dr_createdAt r; dr_updatedAt := dr_updatedAt r |}.

(** Every row of the result's type and name takes the identifier. *)
Definition capture_id (domainId : uuid) (r : DnsApplyResult) : irun unit :=
  match ap_externalRecordId r with
  | None => mret tt
  | Some id =>
      st_modify (fun s => put_records
        (update_rows (fun q => of_domain domainId q && String.eqb (dr_type q) (ap_type r)
                               && String.eqb (dr_name q) (ap_name r)) (captured id (if_now s))
           (if_records s)) s)
  end.

Definition apply_operations (domain : ManagedDomain) (zoneId : string) (runId : uuid) (plan : SyncPlan)
    : srun nat :=
  let operations := plan_operations plan in
  _ ← st_lift (assertNoUnexpectedDeletions (sp_diff plan) operations);
  match operations with
  | [] => _ ← step runId "apply.none" StepSkipped None; mret 0%nat
  | _ =>
      results ← call_apply zoneId (md_name domain) operations;
      _ ← st_mapM (step_result runId) results;
      _ ← st_mapM (fun r => on_db (capture_id (md_id domain) r)) results;
      mret (length results)
  end.

Definition apply_or_not (domain : ManagedDomain) (zoneId : string) (runId : uuid) (mode : ReconcileMode)
    (blocked : option string) (plan : SyncPlan) : srun nat :=
  match blocked with
  | Some reason => _ ← step runId "apply.blocked" StepBlocked (Some reason); mret 0%nat
  | None =>
      match mode with
      | ModeApply => apply_operations domain zoneId runId plan
      | ModeCheck => _ ← step runId "apply.skipped-check-mode" StepSkipped None; mret 0%nat
      end
  end.

(** Everything unresolved but the unexpected records counts as fixed. *)
Definition resolve_applied (domainId : uuid) : irun unit :=
  unresolved ← listUnresolved domainId;
  _ ← markApplied (dd_id <$> List.filter (fun f => negb (bool_decide (dd_kind f = DriftUnexpected))) unresolved);
  mret tt.

Definition record_findings (domainId runId : uuid) (mode : ReconcileMode) (blocked : option string)
    (plan : SyncPlan) : srun RecordedRun :=
  recorded ← on_db (recordRun domainId runId (findingsFromDiff (sp_diff plan)));
  _ ← (match mode, blocked with
       | ModeApply, None => on_db (resolve_applied domainId)
       | _, _ => mret tt
       end);
  _ ← step runId "record-findings" StepSucceeded None;
  mret recorded.

(** ** [run] *)
Record RunRecordSyncResult : Type := {
  sr_runId : uuid;
  sr_status : RunStatus;
  sr_mode : ReconcileMode;
  sr_diff : DnsDiff;
  sr_applied : nat;
  sr_unresolvedFindings : nat;
  sr_disappearedFindings : nat;
  sr_writePolicyBlockedReason : option string;
}.

Definition final_status (blocked : option string) : RunStatus :=
  match blocked with Some _ => RunPartial | None => RunSucceeded end.

Definition run_body (connectionId : option uuid) (input : RunRecordSyncInput) (domain : ManagedDomain)
    (zoneId : string) (runId : uuid) : srun RunRecordSyncResult :=
  let domainId := md_id domain in
  intent ← on_db (st_gets (live_intent domainId));
  tombstoneRows ← on_db (st_gets (deleted_intent domainId));
  _ ← step runId "read-intent" StepSucceeded None;
  observed ← read_provider domain zoneId runId;
  let plan := planSync intent tombstoneRows observed in
  _ ← step runId "diff" StepSucceeded None;
  blocked ← write_policy_blocked connectionId input;
  applied ← apply_or_not domain zoneId runId (rn_mode input) blocked plan;
  recorded ← record_findings domainId runId (rn_mode input) blocked plan;
  now ← on_db (st_gets if_now);
  _ ← on_db (updateDomain domainId (with_health None None 0 now));
  _ ← finish runId (final_status blocked) false;
  mret {| sr_runId := runId; sr_status := final_status blocked; sr_mode := rn_mode input;
          sr_diff := sp_diff plan; sr_applied := applied; sr_unresolvedFindings := re_unresolved recorded;
          sr_disappearedFindings := re_disappeared recorded; sr_writePolicyBlockedReason := blocked |}.

(** The [catch]: a failed provider read has recorded itself. *)
Definition run_failed {A} (runId : uuid) (e : error) : srun A :=
  match e with
  | ProviderCallError _ => st_throw e
  | _ =>
      _ ← step runId "run" StepFailed None;
      _ ← finish runId RunFailed true;
      st_throw e
  end.

Definition run (connectionId : option uuid) (input : RunRecordSyncInput) : srun RunRecordSyncResult :=
  domain ← on_db (requireDomain (rn_domainId input));
  zoneId ← st_lift (match md_externalZoneId domain with
                    | None => Throw InfrastructureNotFoundError
                    | Some zone => Ok zone
                    end);
  row ← on_db (insertRun (run_row "sync-records" (md_id domain) (rn_mode input) (rn_trigger input)
                            (rn_actorUserId input)));
  _ ← set_sequence 0;
  st_catch (run_body connectionId input domain zoneId (rr_id row)) (run_failed (rr_id row)).

Definition listRuns (subjectId : uuid) : irun (list ReconcileRun) :=
  st_gets (fun s => List.filter (fun r => bool_decide (rr_subjectId r = subjectId)) (if_runs s)).
End sync.

(** ** What the provider promises

    [zone_of z p] is the content of the zone [z] of a provider in state [p].  The
    laws idealise one answer: a create that is reported already present has found
    the record itself, while the Cloudflare adapter
    ([integrations/cloudflare/src/adapter.ts], [errors.ts]) also takes a code that
    says only that the host has some address record. *)
Class DnsProviderLaws (P : Type) `{DnsProvider P} (zone_of : string -> P -> list ObservedDnsRecord) : Prop := {
  law_read zoneId name p observed :
    port_read zoneId name p = PortOk observed -> observed ≡ₚ zone_of zoneId p;
  (** A call that returns has done its operations; one that throws, some of
      them, in order. *)
  law_apply zoneId name operations p reply p' :
    port_apply zoneId name operations p = (reply, p') ->
    exists applied rest, operations = applied ++ rest /\
      zone_steps (zone_of zoneId p) applied (zone_of zoneId p') /\
      (forall results, reply = PortOk results -> rest = []);
  law_apply_other zoneId name operations p reply p' other :
    port_apply zoneId name operations p = (reply, p') -> other <> zoneId ->
    zone_of other p' = zone_of other p;
}.
