(* ===== verification/ZoneProvider.v ===== *)
(** * A provider that keeps the port's laws

    Zones in memory, changed one operation at a time: the laws of
    [DnsProviderLaws] can be kept, and the runs of [DnsSync] can be evaluated. *)
From S2P Require Import Prelude Decimal Calendar Inputs Store Schema Ledger Facts Chart.
From S2P Require Import DnsDiff DnsDiffFacts DnsPlan DnsConverge Materialize WritePolicy DnsStore Drift DnsSync.

Open Scope Z_scope.
#[local] Arguments String.append : simpl nomatch.

Definition Zones : Type := list (string * list ObservedDnsRecord).

Fixpoint zone_content (zoneId : string) (zones : Zones) : list ObservedDnsRecord :=
  match zones with
  | [] => []
  | (z, records) :: zones => if String.eqb z zoneId then records else zone_content zoneId zones
  end.
Definition set_zone (zoneId : string) (records : list ObservedDnsRecord) (zones : Zones) : Zones :=
  (zoneId, records) :: zones.

(** Longer than every identifier of the zone. *)
Definition unused_id (zone : list ObservedDnsRecord) : string :=
  ("r" ++ String.concat "" (od_externalRecordId <$> zone))%string.

Definition new_record (zone : list ObservedDnsRecord) (p : DnsRecordPayload) : ObservedDnsRecord :=
  {| od_externalRecordId := unused_id zone; od_type := pd_type p; od_name := pd_name p;
     od_content := pd_content p; od_ttlSeconds := pd_ttlSeconds p; od_priority := pd_priority p;
     od_proxied := pd_proxied p; od_proxiable := pd_proxied p |}.

Definition reply_to (kind : OperationKind) (type name : string) (status : ApplyStatus) (id : option string)
    : DnsApplyResult :=
  {| ap_kind := kind; ap_type := type; ap_name := name; ap_status := status; ap_externalRecordId := id |}.

Definition has_id (id : string) (zone : list ObservedDnsRecord) : bool :=
  bool_decide (id ∈ (od_externalRecordId <$> zone)).

(** One operation, or [None] for an update of a record that is gone. *)
Definition do_operation (op : DnsApplyOperation) (zone : list ObservedDnsRecord)
    : option (DnsApplyResult * list ObservedDnsRecord) :=
  match op with
  | CreateOp p =>
      if existsb (fun o => bool_decide (observed_triple o = payload_triple p)) zone
      then Some (reply_to KindCreate (pd_type p) (pd_name p) AlreadyPresent None, zone)
      else Some (reply_to KindCreate (pd_type p) (pd_name p) Applied (Some (unused_id zone)),
                 zone ++ [new_record zone p])
  | UpdateOp id p =>
      if has_id id zone
      then Some (reply_to KindUpdate (pd_type p) (pd_name p) Applied (Some id), overwrite id p <$> zone)
      else None
  | DeleteOp id type name _ =>
      Some (reply_to KindDelete type name (if has_id id zone then Applied else AlreadyAbsent) (Some id),
            List.filter (fun o => negb (String.eqb (od_externalRecordId o) id)) zone)
  end.

Fixpoint do_operations (ops : list DnsApplyOperation) (zone : list ObservedDnsRecord)
    : PortResult (list DnsApplyResult) * list ObservedDnsRecord :=
  match ops with
  | [] => (PortOk [], zone)
  | op :: ops =>
      match do_operation op zone with
      | None => (PortThrow (Some "not_found"%string), zone)
      | Some (result, zone) =>
          match do_operations ops zone with
          | (PortOk results, zone) => (PortOk (result :: results), zone)
          | (PortThrow kind, zone) => (PortThrow kind, zone)
          end
      end
  end.

#[export] Instance Zones_provider : DnsProvider Zones := {
  port_read := fun zoneId _ zones => PortOk (zone_content zoneId zones);
  port_apply := fun zoneId _ ops zones =>
    let '(reply, zone) := do_operations ops (zone_content zoneId zones) in
    (reply, set_zone zoneId zone zones);
}.

Lemma length_concat (l : list string) s : s ∈ l -> (String.length s <= String.length (String.concat "" l))%nat.
Proof.
  induction l as [|x l IH]; [by intros ?%not_elem_of_nil|]. intros H. destruct l as [|y l].
  - apply list_elem_of_singleton in H as ->. done.
  - change (String.concat "" (x :: y :: l)) with (x ++ "" ++ String.concat "" (y :: l))%string.
    rewrite length_append. cbn [String.append].
    apply elem_of_cons in H as [->|H]; [lia|]. specialize (IH H). lia.
Qed.

Lemma unused_id_fresh zone : unused_id zone ∉ (od_externalRecordId <$> zone).
Proof.
  intros H%length_concat. unfold unused_id in H. cbn [String.append String.length] in H. lia.
Qed.

Lemma do_operation_step op zone result zone' :
  do_operation op zone = Some (result, zone') -> zone_step zone op zone'.
Proof.
  destruct op as [p|id p|id t n c]; cbn.
  - destruct (existsb _ zone) eqn:E; intros [= _ <-].
    + apply existsb_exists in E as (o & Ho%list_elem_of_In & E%bool_decide_eq_true). by eapply step_present.
    + apply step_create; [by destruct p|apply unused_id_fresh].
  - unfold has_id. case_bool_decide; intros [= _ <-]. by apply step_update.
  - intros [= _ <-]. apply step_delete.
Qed.

Lemma do_operations_steps ops : forall zone reply zone',
  do_operations ops zone = (reply, zone') ->
  exists applied rest, ops = applied ++ rest /\ zone_steps zone applied zone' /\
    (forall results, reply = PortOk results -> rest = []).
Proof.
  induction ops as [|op ops IH]; intros zone reply zone'; cbn [do_operations].
  - intros [= <- <-]. exists [], []. split; [done|]. split; [constructor|done].
  - destruct (do_operation op zone) as [[result zone1]|] eqn:E1.
    + apply do_operation_step in E1. destruct (do_operations ops zone1) as [reply1 zone2] eqn:E2.
      destruct (IH _ _ _ E2) as (applied & rest & -> & Hs & Hr).
      intros E. exists (op :: applied), rest. split; [done|].
      destruct reply1 as [results|kind]; injection E as <- <-.
      * split; [by econstructor|]. intros _ _. by apply (Hr results).
      * split; [by econstructor|]. by intros ? [=].
    + intros [= <- <-]. exists [], (op :: ops). split; [done|]. split; [constructor|]. by intros ? [=].
Qed.

#[export] Instance Zones_laws : DnsProviderLaws Zones zone_content.
Proof.
  split.
  - by intros zoneId name p observed [= <-].
  - intros zoneId name operations p reply p'. cbn.
    destruct (do_operations operations (zone_content zoneId p)) as [reply1 zone1] eqn:E. intros [= <- <-].
    cbn. rewrite String.eqb_refl. by apply do_operations_steps.
  - intros zoneId name operations p reply p' other. cbn.
    destruct (do_operations operations (zone_content zoneId p)) as [reply1 zone1] eqn:E. intros [= <- <-] Hne.
    cbn. destruct (String.eqb_spec zoneId other); [congruence|done].
Qed.
