(* ===== verification/DnsSyncFacts.v ===== *)
(** * What a sync run does

    Whatever a run meets, what it does to the zone is bounded by the intent and the gate; a
    complete apply run leaves the zone as desired, and the next one finds nothing to do but
    on manual records.  Then: applying the materialized records leaves the live rows of a
    domain exactly the desired ones. *)
From S2P Require Import Prelude Decimal Calendar Inputs Store Schema Ledger LedgerFacts Chart Facts.
From S2P Require Import DnsDiff DnsDiffFacts DnsPlan DnsConverge Tailnet Materialize WritePolicy DnsStore.
From S2P Require Import Drift DnsSync ZoneProvider.

Open Scope Z_scope.

(** ** Statements of the tables leave the provider alone *)
Section facts.
Context {P : Type} `{DnsProvider P}.

Definition provider_kept (w w' : World P) : Prop := w_provider w' = w_provider w.
#[local] Instance provider_kept_refl : Reflexive provider_kept.
Proof. done. Qed.
#[local] Instance provider_kept_trans : Transitive provider_kept.
Proof. intros a b c E1 E2. unfold provider_kept in *. congruence. Qed.

(** Only runs and steps are written, and identifiers drawn. *)
Record log_only (s s' : Infra) : Prop := {
  lo_domains : if_domains s' = if_domains s;
  lo_records : if_records s' = if_records s;
  lo_findings : if_findings s' = if_findings s;
  lo_policies : if_writePolicies s' = if_writePolicies s;
  lo_now : if_now s' = if_now s;
}.
#[local] Instance log_only_refl : Reflexive log_only.
Proof. by constructor. Qed.
#[local] Instance log_only_trans : Transitive log_only.
Proof. intros a b c [] []. constructor; congruence. Qed.

Definition db_only (R : relation Infra) (w w' : World P) : Prop :=
  R (w_db w) (w_db w') /\ w_provider w' = w_provider w.
#[local] Instance db_only_refl R `{!Reflexive R} : Reflexive (db_only R).
Proof. by split. Qed.
#[local] Instance db_only_trans R `{!Transitive R} : Transitive (db_only R).
Proof. intros a b c [H1 E1] [H2 E2]. split; [by etrans|congruence]. Qed.

Lemma on_db_db {A} (R : relation Infra) (m : irun A) : always R m -> always (db_only R) (on_db (P:=P) m).
Proof.
  intros Hm w. specialize (Hm (w_db w)). unfold on_db. destruct (m (w_db w)) as [r db]. by split.
Qed.

Lemma on_db_provider {A} (m : irun A) : always provider_kept (on_db (P:=P) m).
Proof. intros w. unfold on_db. by destruct (m (w_db w)). Qed.

Lemma set_sequence_always (R : relation Infra) `{!Reflexive R} n : always (db_only R) (set_sequence (P:=P) n).
Proof. by intros w. Qed.

Lemma demand_always (R : relation Infra) `{!Reflexive R} b c : always R (demand b c).
Proof. unfold demand. destruct b; solve_respects. Qed.

Lemma always_modify {S} (R : relation S) f : (forall s, R s (f s)) -> always R (st_modify f).
Proof. by intros Hf s. Qed.

Lemma insertStep_log row : always log_only (insertStep row).
Proof.
  unfold insertStep. solve_respects; try (apply demand_always; exact _).
  apply always_modify. by constructor.
Qed.

Lemma step_log runId name status code : always (db_only log_only) (step (P:=P) runId name status code).
Proof.
  unfold step. solve_respects; [apply set_sequence_always, _|]. apply on_db_db, insertStep_log.
Qed.

Lemma finish_log runId status summary : always (db_only log_only) (finish (P:=P) runId status summary).
Proof. unfold finish. solve_respects. apply on_db_db, always_modify. by constructor. Qed.

Lemma insertRun_log values : always log_only (insertRun values).
Proof.
  unfold insertRun, fresh_id. apply always_bind; [exact _|by constructor|]. intros id.
  solve_respects; try (apply demand_always; exact _). apply always_modify. by constructor.
Qed.

Lemma db_provider {A} (R : relation Infra) (m : St (World P) A) : always (db_only R) m -> always provider_kept m.
Proof. intros Hm w. apply Hm. Qed.

Lemma step_provider runId name status code : always provider_kept (step (P:=P) runId name status code).
Proof. eapply db_provider, step_log. Qed.
Lemma finish_provider runId status summary : always provider_kept (finish (P:=P) runId status summary).
Proof. eapply db_provider, finish_log. Qed.
#[local] Hint Resolve on_db_provider step_provider finish_provider : store.

Lemma read_provider_kept domain zoneId runId : always provider_kept (read_provider (P:=P) domain zoneId runId).
Proof. unfold read_provider, read_failed. solve_respects. Qed.
Lemma write_policy_kept connectionId input : always provider_kept (write_policy_blocked (P:=P) connectionId input).
Proof. unfold write_policy_blocked. solve_respects. Qed.
Lemma record_findings_kept domainId runId mode blocked plan :
  always provider_kept (record_findings (P:=P) domainId runId mode blocked plan).
Proof. unfold record_findings. solve_respects. Qed.
Lemma run_failed_kept {A} runId e : always provider_kept (run_failed (P:=P) (A:=A) runId e).
Proof. unfold run_failed. solve_respects. Qed.
#[local] Hint Resolve read_provider_kept write_policy_kept record_findings_kept run_failed_kept : store.

(** ** What a run asks of the provider *)
Lemma bind_cases {S A B} (m : St S A) (f : A -> St S B) s r s' :
  (m ≫= f) s = (r, s') ->
  (exists e, r = Throw e /\ m s = (Throw e, s')) \/ exists a s1, m s = (Ok a, s1) /\ f a s1 = (r, s').
Proof.
  unfold mbind, St_bind. destruct (m s) as [[a|e] s1]; intros E; [right; by exists a, s1|].
  left. injection E as <- <-. by exists e.
Qed.

Lemma on_db_gets {A} (f : Infra -> A) (w : World P) : on_db (st_gets f) w = (Ok (f (w_db w)), w).
Proof. by destruct w. Qed.

Definition planned (s : Infra) (domainId : uuid) (observed : list ObservedDnsRecord) : SyncPlan :=
  planSync (live_intent domainId s) (deleted_intent domainId s) observed.

(** The write-policy gate lets an apply through. *)
Definition gate_open (connectionId : option uuid) (input : RunRecordSyncInput) (s : Infra) : Prop :=
  rn_mode input = ModeApply /\ forall connection, connectionId = Some connection ->
    resolveProviderWritePolicy (if_writePolicies s) connection <> ReadOnly /\
    rn_actorIsAdmin input <> Some false.

(** The provider was read, and asked for the operations of the plan. *)
Definition asked (s : Infra) (domain : ManagedDomain) (zoneId : string) (p p' : P)
    (reply : PortResult (list DnsApplyResult)) : Prop :=
  exists observed, port_read zoneId (md_name domain) p = PortOk observed /\
    plan_operations (planned s (md_id domain) observed) <> [] /\
    port_apply zoneId (md_name domain) (plan_operations (planned s (md_id domain) observed)) p = (reply, p').

Lemma apply_operations_asks domain zoneId runId plan (w w' : World P) r :
  apply_operations domain zoneId runId plan w = (r, w') ->
  (w_provider w' = w_provider w /\ (forall n, r = Ok n -> plan_operations plan = [] /\ n = 0%nat)) \/
  exists reply, plan_operations plan <> [] /\
    port_apply zoneId (md_name domain) (plan_operations plan) (w_provider w) = (reply, w_provider w') /\
    (forall n, r = Ok n -> exists results, reply = PortOk results /\ n = length results).
Proof.
  unfold apply_operations. intros E. apply bind_cases in E as [(e & -> & E)|([] & w1 & E1 & E)].
  - injection E as _ <-. left. split; [done|]. intros n [=].
  - injection E1 as _ <-. destruct (plan_operations plan) as [|op ops] eqn:Eops.
    + left. apply bind_cases in E as [(e & -> & E)|(a & w1 & E1 & [= <- <-])].
      * split; [by apply (always_run _ _ _ _ _ (step_provider _ _ _ _) E)|]. intros n [=].
      * split; [by apply (always_run _ _ _ _ _ (step_provider _ _ _ _) E1)|]. by intros n [= <-].
    + right. assert (forall w w1 r, call_apply zoneId (md_name domain) (op :: ops) w = (r, w1) ->
        exists reply, port_apply zoneId (md_name domain) (op :: ops) (w_provider w) = (reply, w_provider w1) /\
          r = rethrown reply) as Hcall.
      { intros w0 w1 r0. unfold call_apply. destruct (port_apply _ _ _ _) as [reply p']. intros [= <- <-].
        by exists reply. }
      apply bind_cases in E as [(e & -> & E)|(results & w1 & E1 & E)].
      * destruct (Hcall _ _ _ E) as (reply & Hr & _). exists reply. split; [done|]. split; [done|]. by intros n [=].
      * destruct (Hcall _ _ _ E1) as (reply & Hr & Eq). exists reply. split; [done|].
        assert (w_provider w' = w_provider w1) as ->.
        { eapply (always_run provider_kept); [|exact E]. solve_respects. }
        split; [done|]. intros n ->. exists results. split; [by destruct reply; cbn in Eq; congruence|]. inv_st. done.
Qed.

Lemma write_policy_open connectionId input (w w' : World P) :
  write_policy_blocked connectionId input w = (Ok None, w') ->
  rn_mode input = ModeCheck \/ gate_open connectionId input (w_db w).
Proof.
  unfold write_policy_blocked, gate_open. destruct (rn_mode input) eqn:Em; [right|by left]. split; [done|].
  intros connection ->. cbn in H0. inv_st. rewrite on_db_gets in H1. injection H1 as <- <-.
  unfold assertWritePolicy in H0. cbn [wp_mode wp_operationTier wp_trigger wp_actorIsAdmin wp_policyTier] in H0.
  destruct (resolveProviderWritePolicy _ _); destruct (rn_actorIsAdmin input) as [[]|];
    destruct (scheduled _); cbn in H0; done.
Qed.

Lemma apply_or_not_asks domain zoneId runId mode blocked plan (w w' : World P) r :
  apply_or_not domain zoneId runId mode blocked plan w = (r, w') ->
  (w_provider w' = w_provider w /\ (mode = ModeApply -> blocked = None -> forall n, r = Ok n ->
     plan_operations plan = [] /\ n = 0%nat)) \/
  mode = ModeApply /\ blocked = None /\ exists reply, plan_operations plan <> [] /\
    port_apply zoneId (md_name domain) (plan_operations plan) (w_provider w) = (reply, w_provider w') /\
    (forall n, r = Ok n -> exists results, reply = PortOk results /\ n = length results).
Proof.
  unfold apply_or_not. destruct blocked as [reason|]; [|destruct mode].
  - intros E. left. split; [|done]. eapply (always_run provider_kept); [|exact E]. solve_respects.
  - intros [?|?]%apply_operations_asks; [left|right]; naive_solver.
  - intros E. left. split; [|done]. eapply (always_run provider_kept); [|exact E]. solve_respects.
Qed.

Lemma read_provider_ok domain zoneId runId (w w' : World P) observed :
  read_provider domain zoneId runId w = (Ok observed, w') ->
  port_read zoneId (md_name domain) (w_provider w) = PortOk observed /\ db_only log_only w w'.
Proof.
  unfold read_provider. intros E. inv_st.
  destruct (port_read _ _ _) as [os|kind].
  - apply st_bind_Ok in E as ([] & w1 & E1 & E). inv_st. split; [done|].
    by apply (always_run _ _ _ _ _ (step_log _ _ _ _) E1).
  - unfold read_failed in E. inv_st.
Qed.

Lemma write_policy_log connectionId input : always (db_only log_only) (write_policy_blocked (P:=P) connectionId input).
Proof. unfold write_policy_blocked. solve_respects; apply on_db_db; solve_respects. Qed.

(** The parts of a run: the reads, the plan's application, the bookkeeping. *)
Lemma run_body_cases connectionId input domain zoneId runId (w w' : World P) r :
  run_body connectionId input domain zoneId runId w = (r, w') ->
  w_provider w' = w_provider w /\ (forall x, r <> Ok x) \/
  exists observed blocked (w1 w2 : World P) ra,
    let plan := planned (w_db w) (md_id domain) observed in
    port_read zoneId (md_name domain) (w_provider w) = PortOk observed /\ db_only log_only w w1 /\
    (blocked = None -> rn_mode input = ModeCheck \/ gate_open connectionId input (w_db w)) /\
    apply_or_not domain zoneId runId (rn_mode input) blocked plan w1 = (ra, w2) /\
    w_provider w' = w_provider w2 /\
    (forall x, r = Ok x -> ra = Ok (sr_applied x) /\ sr_diff x = sp_diff plan /\
       sr_mode x = rn_mode input /\ sr_writePolicyBlockedReason x = blocked /\ sr_status x = final_status blocked).
Proof.
  assert (forall w1 w2 : World P, db_only log_only w1 w2 -> provider_kept w1 w2) as Hk by (intros ? ? []; done).
  unfold run_body. intros E.
  apply bind_cases in E as [(e & -> & E)|(intent & w1 & E1 & E)]; [by rewrite on_db_gets in E|].
  rewrite on_db_gets in E1. injection E1 as <- <-.
  apply bind_cases in E as [(e & -> & E)|(deleted & w1 & E1 & E)]; [by rewrite on_db_gets in E|].
  rewrite on_db_gets in E1. injection E1 as <- <-.
  apply bind_cases in E as [(e & -> & E)|([] & w1 & E1 & E)].
  { left. split; [|done]. by apply (always_run _ _ _ _ _ (step_provider _ _ _ _) E). }
  pose proof (always_run _ _ _ _ _ (step_log _ _ _ _) E1) as L1.
  apply bind_cases in E as [(e & -> & E)|(observed & w2 & E2 & E)].
  { left. split; [|done]. etrans; [by apply (always_run _ _ _ _ _ (read_provider_kept _ _ _) E)|by apply Hk]. }
  apply read_provider_ok in E2 as [Hread L2]. rewrite (Hk _ _ L1) in Hread.
  apply bind_cases in E as [(e & -> & E)|([] & w3 & E3 & E)].
  { left. split; [|done]. pose proof (always_run _ _ _ _ _ (step_provider _ _ _ _) E) as K.
    pose proof (Hk _ _ L1). pose proof (Hk _ _ L2). unfold provider_kept in *. congruence. }
  pose proof (always_run _ _ _ _ _ (step_log _ _ _ _) E3) as L3.
  assert (db_only log_only w w3) as L by (etrans; [exact L1|etrans; [exact L2|exact L3]]).
  apply bind_cases in E as [(e & -> & E)|(blocked & w4 & E4 & E)].
  { left. split; [|done]. pose proof (always_run _ _ _ _ _ (write_policy_kept _ _) E) as K.
    pose proof (Hk _ _ L). unfold provider_kept in *. congruence. }
  pose proof (always_run _ _ _ _ _ (write_policy_log _ _) E4) as L4.
  right. exists observed, blocked, w4.
  assert (blocked = None -> rn_mode input = ModeCheck \/ gate_open connectionId input (w_db w)) as Hgate.
  { intros ->. apply write_policy_open in E4 as [?|[Hm Hg]]; [by left|right]. split; [done|].
    rewrite <- (lo_policies _ _ (proj1 L)). exact Hg. }
  assert (db_only log_only w w4) as L' by (by etrans).
  apply bind_cases in E as [(e & -> & E)|(applied & w5 & E5 & E)].
  { exists w', (Throw e). split; [done|]. split; [done|]. split; [done|]. by split. }
  exists w5, (Ok applied). cbn zeta. split; [done|]. split; [done|]. split; [done|]. split; [done|].
  split.
  - eapply (always_run provider_kept); [|exact E]. solve_respects.
  - intros x ->. inv_st. done.
Qed.

(** ** Runs of the whole verb *)
Lemma run_cases connectionId input (w w' : World P) r :
  run connectionId input w = (r, w') ->
  w_provider w' = w_provider w /\ (forall x, r <> Ok x) \/
  exists domain zoneId runId (w1 w2 : World P) rb,
    find_row (is_domain (rn_domainId input)) (if_domains (w_db w)) = Some domain /\
    md_externalZoneId domain = Some zoneId /\ db_only log_only w w1 /\
    run_body connectionId input domain zoneId runId w1 = (rb, w2) /\ w_provider w' = w_provider w2 /\
    (forall x, r = Ok x -> rb = Ok x /\ w' = w2).
Proof.
  unfold run. intros E.
  apply bind_cases in E as [(e & -> & E)|(domain & w1 & E1 & E)].
  { left. split; [|done]. by apply (always_run _ _ _ _ _ (on_db_provider _) E). }
  assert (find_row (is_domain (rn_domainId input)) (if_domains (w_db w)) = Some domain /\ w1 = w) as [Hd ->].
  { unfold on_db, requireDomain in E1. unfold mbind, St_bind, st_get in E1.
    destruct (find_row _ _); [|done]. destruct w. injection E1 as <- <-. done. }
  apply bind_cases in E as [(e & -> & E)|(zoneId & w1 & E2 & E)].
  { injection E as _ <-. by left. }
  apply st_lift_inv in E2 as [Ez ->]. destruct (md_externalZoneId domain) as [z|] eqn:Edz; [|done]. injection Ez as ->.
  apply bind_cases in E as [(e & -> & E)|(row & w1 & E3 & E)].
  { left. split; [|done]. by apply (always_run _ _ _ _ _ (on_db_provider _) E). }
  pose proof (always_run _ _ _ _ _ (on_db_db _ _ (insertRun_log _)) E3) as L1.
  apply bind_cases in E as [(e & -> & [=])|([] & w2 & E4 & E)].
  pose proof (always_run _ _ _ _ _ (set_sequence_always log_only 0) E4) as L2.
  right. exists domain, zoneId, (rr_id row), w2. unfold st_catch in E.
  destruct (run_body connectionId input domain zoneId (rr_id row) w2) as [[x|e] w3] eqn:Eb.
  - injection E as <- <-. exists w3, (Ok x).
    split; [done|]. split; [done|]. split; [by etrans|]. split; [done|]. split; [done|]. by intros y [= <-].
  - exists w3, (Throw e). split; [done|]. split; [done|]. split; [by etrans|]. split; [done|]. split.
    + by apply (always_run _ _ _ _ _ (run_failed_kept _ _) E).
    + intros x ->. unfold run_failed in E. exfalso. destruct e; inv_st.
Qed.

Lemma planned_log s s' domainId observed : log_only s s' -> planned s' domainId observed = planned s domainId observed.
Proof. intros [_ E _ _ _]. unfold planned, live_intent, deleted_intent. by rewrite E. Qed.

Lemma find_domain_id domainId s domain : find_row (is_domain domainId) (if_domains s) = Some domain -> md_id domain = domainId.
Proof. by intros [_ E%bool_decide_eq_true]%find_row_some. Qed.

(** ** What a run leaves alone in the tables

    A record keeps all that was declared of it, only the provider's identifier and
    the time of the last sync change; a domain keeps its name and zone. *)
Definition declared (r : DnsRecord) :=
  (dr_id r, dr_domainId r, dr_type r, dr_name r, dr_content r, dr_priority r, dr_ttlSeconds r,
   dr_proxied r, dr_owner r, dr_desiredDeletedAt r).
Definition zone_ref (d : ManagedDomain) := (md_id d, md_name d, md_externalZoneId d).

Definition desire_kept (s s' : Infra) : Prop :=
  declared <$> if_records s' = declared <$> if_records s /\
  zone_ref <$> if_domains s' = zone_ref <$> if_domains s.
#[local] Instance desire_kept_refl : Reflexive desire_kept.
Proof. done. Qed.
#[local] Instance desire_kept_trans : Transitive desire_kept.
Proof. intros a b c [? ?] [? ?]. split; congruence. Qed.

Lemma log_desire s s' : log_only s s' -> desire_kept s s'.
Proof. intros [E1 E2 _ _ _]. split; congruence. Qed.

Lemma transaction_always (R : relation Infra) `{!Reflexive R} {A} (m : irun A) :
  always R m -> always R (infra_transaction m).
Proof. intros Hm s. specialize (Hm s). unfold infra_transaction. by destruct (m s) as [[a|e] s']. Qed.

Lemma fresh_desire : always desire_kept fresh_id.
Proof. by intros s. Qed.
#[local] Hint Extern 1 (always _ (demand _ _)) => apply demand_always; exact _ : store.
#[local] Hint Resolve fresh_desire : store.

Lemma updateDomain_desire id f : (forall d, zone_ref (f d) = zone_ref d) -> always desire_kept (updateDomain id f).
Proof.
  intros Hf. unfold updateDomain. solve_respects. apply always_modify. intros s. split; [done|].
  by apply update_rows_keys.
Qed.

Lemma updateFindings_desire p f runId : always desire_kept (updateFindings p f runId).
Proof. unfold updateFindings. solve_respects. Qed.
Lemma insertFinding_desire domainId runId i : always desire_kept (insertFinding domainId runId i).
Proof. unfold insertFinding. solve_respects. Qed.
#[local] Hint Resolve updateFindings_desire insertFinding_desire : store.

Lemma recordRun_desire domainId runId findings : always desire_kept (recordRun domainId runId findings).
Proof.
  unfold recordRun. solve_respects. apply transaction_always; [exact _|].
  unfold record_finding. solve_respects. by apply updateDomain_desire.
Qed.

Lemma resolve_applied_desire domainId : always desire_kept (resolve_applied domainId).
Proof. unfold resolve_applied, listUnresolved, markApplied. solve_respects. Qed.

Lemma capture_desire domainId r : always desire_kept (capture_id domainId r).
Proof.
  unfold capture_id. destruct (ap_externalRecordId r) as [id|]; [|solve_respects].
  apply always_modify. intros s. split; [|done]. by apply update_rows_keys.
Qed.

#[local] Abbreviation keeps := (always (db_only desire_kept)) (only parsing).
Definition db_desire (w w' : World P) : Prop := desire_kept (w_db w) (w_db w').
#[local] Instance db_desire_refl : Reflexive db_desire.
Proof. done. Qed.
#[local] Instance db_desire_trans : Transitive db_desire.
Proof. intros a b c H1 H2. unfold db_desire in *. by etrans. Qed.

Lemma on_db_desire {A} (m : irun A) : always desire_kept m -> always db_desire (on_db (P:=P) m).
Proof. intros Hm w. by apply (on_db_db desire_kept m Hm). Qed.
Lemma log_db_desire {A} (m : St (World P) A) : always (db_only log_only) m -> always db_desire m.
Proof. intros Hm w. apply log_desire. by apply (Hm w). Qed.
Lemma call_apply_desire zoneId name ops : always db_desire (call_apply (P:=P) zoneId name ops).
Proof. intros w. unfold call_apply. by destruct (port_apply _ _ _ _). Qed.
Lemma step_desire runId name status code : always db_desire (step (P:=P) runId name status code).
Proof. apply log_db_desire, step_log. Qed.
Lemma finish_desire runId status summary : always db_desire (finish (P:=P) runId status summary).
Proof. apply log_db_desire, finish_log. Qed.
Lemma policy_desire c i : always db_desire (write_policy_blocked (P:=P) c i).
Proof. apply log_db_desire, write_policy_log. Qed.
Lemma gets_desire {A} (f : Infra -> A) : always db_desire (on_db (P:=P) (st_gets f)).
Proof. apply on_db_desire. solve_respects. Qed.
#[local] Hint Resolve on_db_desire recordRun_desire resolve_applied_desire capture_desire call_apply_desire
  step_desire finish_desire policy_desire gets_desire : store.
#[local] Hint Extern 1 (always db_desire (on_db (updateDomain _ _))) =>
  apply on_db_desire, updateDomain_desire; done : store.
#[local] Hint Extern 1 (always db_desire (on_db (demand _ _))) =>
  apply on_db_desire, demand_always; exact _ : store.

Lemma run_body_desire connectionId input domain zoneId runId :
  always db_desire (run_body (P:=P) connectionId input domain zoneId runId).
Proof.
  unfold run_body, read_provider, read_failed, apply_or_not, apply_operations, step_result, record_findings.
  solve_respects.
Qed.

Lemma run_desire connectionId input : always db_desire (run (P:=P) connectionId input).
Proof.
  unfold run. apply always_bind; [exact _| |].
  { apply on_db_desire. unfold requireDomain. solve_respects. }
  intros domain. apply always_bind; [exact _|solve_respects|]. intros zoneId.
  apply always_bind; [exact _|apply log_db_desire, on_db_db, insertRun_log|]. intros row.
  apply always_bind; [exact _|by intros w|]. intros _.
  apply always_catch; [exact _|apply run_body_desire|]. intros e. unfold run_failed. solve_respects.
Qed.

(** The intent read afterwards says the same. *)
Definition strip (i : IntentRecord) : IntentRecord :=
  {| it_id := it_id i; it_type := it_type i; it_name := it_name i; it_content := it_content i;
     it_ttlSeconds := it_ttlSeconds i; it_priority := it_priority i; it_proxied := it_proxied i;
     it_owner := it_owner i; it_externalRecordId := None |}.

Lemma fmap_ext_through {A B C} (g : A -> B) (h : A -> C) (l l' : list A) :
  (forall x y, g x = g y -> h x = h y) -> g <$> l = g <$> l' -> h <$> l = h <$> l'.
Proof.
  intros Hgh. revert l'. induction l as [|x l IH]; intros [|y l'] E; try done.
  csimpl. injection E as E1 E2. f_equal; [by apply Hgh|by apply IH].
Qed.

Lemma filter_ext_through {A B} (g : A -> B) (p : A -> bool) (l l' : list A) :
  (forall x y, g x = g y -> p x = p y) -> g <$> l = g <$> l' ->
  g <$> List.filter p l = g <$> List.filter p l'.
Proof.
  intros Hp. revert l'. induction l as [|x l IH]; intros [|y l'] E; try done.
  injection E as E1 E2. cbn [List.filter]. rewrite (Hp x y E1).
  destruct (p y); csimpl; rewrite (IH l' E2); congruence.
Qed.

Lemma intent_stripped s s' domainId : desire_kept s s' ->
  strip <$> live_intent domainId s' = strip <$> live_intent domainId s /\
  strip <$> deleted_intent domainId s' = strip <$> deleted_intent domainId s.
Proof.
  intros [E _]. unfold live_intent, deleted_intent. rewrite <- !list_fmap_compose.
  assert (forall x y, declared x = declared y -> (strip ∘ to_intent) x = (strip ∘ to_intent) y) as Hd.
  { intros x y [= E1 E2 E3 E4 E5 E6 E7 E8 E9 E10]. unfold strip, to_intent. cbn. congruence. }
  split; apply (fmap_ext_through declared _ _ _ Hd), filter_ext_through; try done;
    intros x y [= _ E1 _ _ _ _ _ _ _ E2]; unfold of_domain, live; by rewrite E1, E2.
Qed.

Lemma stripped_triples (l l' : list IntentRecord) : strip <$> l' = strip <$> l -> intent_triple <$> l' = intent_triple <$> l.
Proof. apply fmap_ext_through. intros x y E. exact (f_equal intent_triple E). Qed.

Lemma stripped_same (l l' : list IntentRecord) i : strip <$> l' = strip <$> l -> i ∈ l' -> exists j, j ∈ l /\ same_desire i j.
Proof.
  intros E Hi. assert (strip i ∈ strip <$> l) as (j & Ej & Hj)%list_elem_of_fmap.
  { rewrite <- E. by apply list_elem_of_fmap_2. }
  exists j. split; [done|]. split; [exact (f_equal payload Ej)|exact (f_equal is_manual Ej)].
Qed.

Lemma desired_kept s s' domainId : desire_kept s s' ->
  desired_ok (live_intent domainId s) (deleted_intent domainId s) ->
  desired_ok (live_intent domainId s') (deleted_intent domainId s').
Proof.
  intros K [Hk Ht]. destruct (intent_stripped s s' domainId K) as [E1 E2].
  assert (strip <$> live_intent domainId s' ++ deleted_intent domainId s'
          = strip <$> live_intent domainId s ++ deleted_intent domainId s) as E by (by rewrite !fmap_app, E1, E2).
  split.
  - by rewrite (stripped_triples _ _ E).
  - intros i Hi. destruct (stripped_same _ _ i E Hi) as (j & Hj & [= Et En _ _ _ _] & _). rewrite Et, En. by apply Ht.
Qed.

Lemma find_domain_kept s s' domainId domain zoneId : desire_kept s s' ->
  find_row (is_domain domainId) (if_domains s) = Some domain -> md_externalZoneId domain = Some zoneId ->
  exists domain', find_row (is_domain domainId) (if_domains s') = Some domain' /\
    md_externalZoneId domain' = Some zoneId /\ md_name domain' = md_name domain.
Proof.
  intros [_ E]. unfold find_row. revert E. generalize (if_domains s), (if_domains s').
  intros l. induction l as [|d l IH]; intros [|d' l'] E; try done. injection E as E1 E2 E3 E4.
  cbn [List.find]. unfold is_domain at 1 3. rewrite E1. case_bool_decide; [|by apply IH].
  intros [= ->] Hz. exists d'. by rewrite E2, E3.
Qed.

Lemma bind_nil_elem {A B} (f : A -> list B) l x : l ≫= f = [] -> x ∈ l -> f x <> [] -> False.
Proof.
  induction l as [|y l IH]; cbn; [by intros _ ?%not_elem_of_nil|].
  intros [E1 E2]%app_nil [->|Hx]%elem_of_cons Hne; [done|by apply IH].
Qed.

Section laws.
Context {zone_of : string -> P -> list ObservedDnsRecord} `{!DnsProviderLaws P zone_of}.

(** Every run, whatever its outcome, applies some of the operations of one plan,
    in order; a run that returns unblocked in apply mode applies them all. *)
Lemma run_steps connectionId input (w w' : World P) r domain zoneId :
  run connectionId input w = (r, w') ->
  find_row (is_domain (rn_domainId input)) (if_domains (w_db w)) = Some domain ->
  md_externalZoneId domain = Some zoneId ->
  exists observed applied rest, observed ≡ₚ zone_of zoneId (w_provider w) /\
    plan_operations (planned (w_db w) (rn_domainId input) observed) = applied ++ rest /\
    zone_steps (zone_of zoneId (w_provider w)) applied (zone_of zoneId (w_provider w')) /\
    (forall other, other <> zoneId -> zone_of other (w_provider w') = zone_of other (w_provider w)) /\
    (w_provider w' = w_provider w \/ gate_open connectionId input (w_db w) /\ applied ++ rest <> []) /\
    (forall x, r = Ok x -> sr_diff x = sp_diff (planned (w_db w) (rn_domainId input) observed) /\
       (rn_mode input = ModeApply -> sr_writePolicyBlockedReason x = None ->
          rest = [] /\ (applied = [] -> sr_applied x = 0%nat))).
Proof.
  intros Erun Hd Hz. pose proof (find_domain_id _ _ _ Hd) as Hid.
  apply run_cases in Erun as [[E Hr]|(domain' & zoneId' & runId & w1 & w2 & rb & Hd' & Hz' & L & Eb & Ep & Hr)].
  { exists (zone_of zoneId (w_provider w)), [], (plan_operations (planned (w_db w) (rn_domainId input) (zone_of zoneId (w_provider w)))).
    split; [done|]. split; [done|]. rewrite E. split; [constructor|]. split; [done|]. split; [by left|].
    intros x ->. by destruct (Hr x). }
  assert (domain' = domain) as -> by congruence. assert (zoneId' = zoneId) as -> by congruence.
  destruct L as [L E1]. rewrite Ep. apply run_body_cases in Eb as [[E Hb]|(observed & blocked & w3 & w4 & ra & Hread & [L2 E2] & Hg & Ea & E4 & Hb)].
  { exists (zone_of zoneId (w_provider w)), [], (plan_operations (planned (w_db w) (rn_domainId input) (zone_of zoneId (w_provider w)))).
    split; [done|]. split; [done|]. rewrite E, E1. split; [constructor|]. split; [done|]. split; [by left|].
    intros x ->. destruct (Hr x eq_refl) as [-> _]. by destruct (Hb x). }
  rewrite E1 in Hread. rewrite (planned_log _ _ _ _ L), Hid in *.
  exists observed. pose proof (law_read _ _ _ _ Hread) as Hperm.
  assert (gate_open connectionId input (w_db w1) -> gate_open connectionId input (w_db w)) as Hgw.
  { unfold gate_open. by rewrite (lo_policies _ _ L). }
  rewrite E4. apply apply_or_not_asks in Ea as [[E5 Hn]|(Hm & -> & reply & Hne & Hcall & Hn)].
  - exists [], (plan_operations (planned (w_db w) (rn_domainId input) observed)).
    split; [done|]. split; [done|]. rewrite E5, E2, E1. split; [constructor|]. split; [done|]. split; [by left|].
    intros x ->. destruct (Hr x eq_refl) as [-> _]. destruct (Hb x eq_refl) as (Ha & Hdiff & _ & Hbl & _).
    split; [done|]. intros Hm' Hbn. destruct (Hn Hm' ltac:(congruence) (sr_applied x) Ha) as [-> ?]. done.
  - rewrite E2, E1 in Hcall.
    destruct (law_apply _ _ _ _ _ _ Hcall) as (applied & rest & Eops & Hs & Hrest).
    exists applied, rest. split; [done|]. split; [done|]. split; [done|].
    split; [intros other Ho; by apply (law_apply_other _ _ _ _ _ _ other Hcall)|].
    split; [right; split; [|by rewrite <- Eops]|].
    { apply Hgw. destruct (Hg eq_refl); [congruence|done]. }
    intros x ->. destruct (Hr x eq_refl) as [-> _]. destruct (Hb x eq_refl) as (Ha & Hdiff & _).
    split; [done|]. intros _ _. destruct (Hn _ Ha) as (results & -> & _).
    rewrite (Hrest _ eq_refl) in *. split; [done|]. intros ->. by rewrite Eops in Hne.
Qed.

(** C24. What a run may do to the provider, whatever its outcome.  Unless the run is an
    apply, and the connection's policy allows writes and no known non-admin asked
    for it, the provider is not touched.  No other zone is.  In the domain's zone,
    also after a call that failed half way: a record that is gone or changed was of
    the type and name of a live record that is not manual, or was named by a
    soft-deleted row that is not manual; what is new carries exactly such a live
    record; and the zone is still well formed. *)
Theorem sync_run_safe connectionId (input : RunRecordSyncInput) (w w' : World P) r domain zoneId :
  let s := w_db w in
  let live := live_intent (rn_domainId input) s in
  let deleted := deleted_intent (rn_domainId input) s in
  let zone := zone_of zoneId (w_provider w) in
  let zone' := zone_of zoneId (w_provider w') in
  run connectionId input w = (r, w') ->
  find_row (is_domain (rn_domainId input)) (if_domains s) = Some domain ->
  md_externalZoneId domain = Some zoneId ->
  desired_ok live deleted -> zone_ok zone ->
  (w_provider w' = w_provider w \/
   rn_mode input = ModeApply /\ forall connection, connectionId = Some connection ->
     resolveProviderWritePolicy (if_writePolicies s) connection <> ReadOnly /\
     rn_actorIsAdmin input <> Some false) /\
  (forall other, other <> zoneId -> zone_of other (w_provider w') = zone_of other (w_provider w)) /\
  (forall o, o ∈ zone -> o ∈ zone' \/
     (exists i, i ∈ live /\ is_manual i = false /\ it_type i = od_type o /\ it_name i = od_name o) \/
     (exists t, t ∈ deleted /\ is_manual t = false /\ observed_triple o = intent_triple t)) /\
  (forall o, o ∈ zone' -> o ∈ zone \/
     exists i, i ∈ live /\ is_manual i = false /\ payload_of o = payload i) /\
  zone_ok zone'.
Proof.
  cbn zeta. intros Hrun Hd Hz HI HZ.
  destruct (run_steps connectionId input w w' r domain zoneId Hrun Hd Hz)
    as (observed & applied & rest & Hperm & Hops & Hs & Hother & Hw & _).
  destruct (partial_sync_safe _ _ _ _ _ _ _ HI HZ Hperm Hops Hs) as (_ & Hok & Hlost & Hnew & _ & _).
  assert (zone_ok observed) as HZo by (eapply zone_ok_perm; [symmetry; exact Hperm|done]).
  split; [destruct Hw as [?|[[? ?] _]]; [by left|by right]|]. split; [done|]. split; [|done].
  intros o Ho. destruct (Hlost o Ho) as [?|[(i & ch & Hm & Hi & Hman)|?]]; [by left| |by right; right].
  right. left. exists i. split; [done|]. split; [done|].
  destruct (modified_facts _ _ _ HI HZo i o ch Hm) as (_ & _ & ? & ? & _). done.
Qed.

(** C23. Runs converge.  Let any run of a domain, with any outcome, be followed by one that
    returns in apply mode without being refused.  Then the zone carries every live
    record that is not manual and no record of a soft-deleted row that is not
    manual, and a third run, whatever its outcome, leaves the provider alone; when
    it returns it has applied nothing, and only manual records are missing or
    modified in its diff. *)
Theorem sync_runs_converge connectionId0 connectionId1 connectionId2
    (input0 input1 input2 : RunRecordSyncInput) (w0 w1 w2 w3 : World P) r0 x1 r2 domain zoneId :
  let live := live_intent (rn_domainId input0) (w_db w0) in
  let deleted := deleted_intent (rn_domainId input0) (w_db w0) in
  rn_domainId input1 = rn_domainId input0 -> rn_domainId input2 = rn_domainId input0 ->
  find_row (is_domain (rn_domainId input0)) (if_domains (w_db w0)) = Some domain ->
  md_externalZoneId domain = Some zoneId ->
  desired_ok live deleted -> zone_ok (zone_of zoneId (w_provider w0)) ->
  run connectionId0 input0 w0 = (r0, w1) ->
  run connectionId1 input1 w1 = (Ok x1, w2) ->
  rn_mode input1 = ModeApply -> sr_writePolicyBlockedReason x1 = None ->
  run connectionId2 input2 w2 = (r2, w3) ->
  carried (zone_of zoneId (w_provider w2)) live deleted /\
  w_provider w3 = w_provider w2 /\
  (forall x2, r2 = Ok x2 ->
     (rn_mode input2 = ModeApply -> sr_writePolicyBlockedReason x2 = None -> sr_applied x2 = 0%nat) /\
     (forall i, i ∈ df_missing (sr_diff x2) -> is_manual i = true) /\
     (forall m, m ∈ df_modified (sr_diff x2) -> is_manual m.1.1 = true)).
Proof.
  cbn zeta. intros Eid1 Eid2 Hd Hz HI HZ R0 R1 Hm Hb R2.
  assert (desire_kept (w_db w0) (w_db w1)) as K1 by apply (always_run _ _ _ _ _ (run_desire _ _) R0).
  assert (desire_kept (w_db w1) (w_db w2)) as K2 by apply (always_run _ _ _ _ _ (run_desire _ _) R1).
  destruct (find_domain_kept _ _ _ _ _ K1 Hd Hz) as (d1 & Hd1 & Hz1 & _).
  destruct (find_domain_kept _ _ _ _ _ K2 Hd1 Hz1) as (d2 & Hd2 & Hz2 & _).
  destruct (run_steps _ _ _ _ _ _ _ R0 Hd Hz) as (os0 & ap0 & rest0 & P0 & O0 & S0 & _).
  rewrite <- Eid1 in Hd1. destruct (run_steps _ _ _ _ _ _ _ R1 Hd1 Hz1) as (os1 & ap1 & rest1 & P1 & O1 & S1 & _ & _ & F1).
  rewrite <- Eid2 in Hd2. destruct (run_steps _ _ _ _ _ _ _ R2 Hd2 Hz2) as (os2 & ap2 & rest2 & P2 & O2 & S2 & _ & W2 & F2).
  destruct (F1 x1 eq_refl) as [_ F1']. destruct (F1' Hm Hb) as [-> _]. rewrite app_nil_r in O1. subst ap1.
  rewrite Eid1 in S1. rewrite Eid2 in *.
  pose proof (desired_kept _ _ _ K1 HI) as HI1. pose proof (desired_kept _ _ _ K2 HI1) as HI2.
  assert (desire_kept (w_db w0) (w_db w2)) as K by (by etrans).
  destruct (intent_stripped _ _ (rn_domainId input0) K1) as [I1 D1].
  destruct (intent_stripped _ _ (rn_domainId input0) K2) as [I2 D2].
  pose proof (partial_sync_safe _ _ _ _ _ _ _ HI HZ P0 O0 S0) as (_ & HZ1 & _).
  assert (zone_ok os1) as HZo1 by (eapply zone_ok_perm; [symmetry; exact P1|done]).
  pose proof (complete_run_carries _ _ _ _ _ HI1 HZo1 P1 S1) as C.
  pose proof (partial_sync_safe _ _ _ _ _ _ [] HI1 HZ1 P1 (eq_sym (app_nil_r _)) S1) as (_ & HZ2 & _).
  assert (zone_ok os2) as HZo2 by (eapply zone_ok_perm; [symmetry; exact P2|done]).
  assert (carried (zone_of zoneId (w_provider w2)) (live_intent (rn_domainId input0) (w_db w2))
    (deleted_intent (rn_domainId input0) (w_db w2))) as C2.
  { apply (carried_same _ _ _ _ _ C); intros i Hi;
      [exact (stripped_same _ _ i I2 Hi)|exact (stripped_same _ _ i D2 Hi)]. }
  assert (carried os2 (live_intent (rn_domainId input0) (w_db w2)) (deleted_intent (rn_domainId input0) (w_db w2))) as C2'.
  { destruct C2 as [A1 A2]. split.
    - intros i Hi Hman. destruct (A1 i Hi Hman) as (o & Ho & ?). exists o. by rewrite P2.
    - intros t o Ht Hman Ho. rewrite P2 in Ho. by apply A2. }
  pose proof (carried_plan _ _ _ HI2 HZo2 C2') as Hnil.
  split; [|split].
  - apply (carried_same _ _ _ _ _ C); intros i Hi;
      [exact (stripped_same _ _ i (eq_sym I1) Hi)|exact (stripped_same _ _ i (eq_sym D1) Hi)].
  - destruct W2 as [?|[_ Hne]]; [done|]. by rewrite <- O2 in Hne.
  - intros x2 ->. destruct (F2 x2 eq_refl) as [Ediff F2'].
    assert (ap2 ++ rest2 = []) as [-> ->]%app_nil by (rewrite <- O2; exact Hnil). split; [naive_solver|].
    rewrite Ediff. clear O2. unfold plan_operations, applyOperationsFor in Hnil.
    apply app_nil in Hnil as [N1 N2]. apply app_nil in N2 as [N2 _]. split.
    + intros i Hi. destruct (is_manual i) eqn:E; [done|]. exfalso.
      eapply (bind_nil_elem create_operation); [exact N1|exact Hi|]. unfold create_operation. by rewrite E.
    + intros m Hi. destruct (is_manual m.1.1) eqn:E; [done|]. exfalso.
      eapply (bind_nil_elem update_operation); [exact N2|exact Hi|]. unfold update_operation. by rewrite E.
Qed.
End laws.
End facts.

(** ** A domain and its zone *)
Definition sample_domain : ManagedDomain :=
  {| md_id := 1; md_name := "example.net"; md_dnsConnectionId := 9; md_registrar := None;
     md_state := ZoneActive; md_externalZoneId := Some "zone1"%string; md_zoneNameservers := None;
     md_providerZoneStatus := Some "active"%string; md_apexTargetId := None; md_apexProxied := false;
     md_wildcardProxied := false; md_mailEnabled := false; md_lastReconciledAt := None;
     md_driftDetectedAt := None; md_lastErrorAt := None; md_lastErrorCode := None;
     md_consecutiveErrors := 0; md_notes := None; md_createdByUserId := None; md_createdAt := 0;
     md_updatedAt := 0 |}.
Definition sample_row (i : IntentRecord) (deletedAt : option Z) : DnsRecord :=
  {| dr_id := it_id i; dr_domainId := 1; dr_type := it_type i; dr_name := it_name i;
     dr_content := it_content i; dr_priority := it_priority i; dr_ttlSeconds := it_ttlSeconds i;
     dr_proxied := it_proxied i; dr_owner := it_owner i; dr_externalRecordId := None;
     dr_lastSyncedAt := None; dr_desiredDeletedAt := deletedAt; dr_createdAt := 0; dr_updatedAt := 0 |}.
Definition sample_db : Infra :=
  {| if_domains := [sample_domain];
     if_records := ((fun i => sample_row i None) <$> sample_live)
                   ++ ((fun i => sample_row i (Some 5)) <$> sample_deleted);
     if_targets := []; if_addresses := []; if_mailDomains := []; if_runs := []; if_steps := [];
     if_findings := []; if_caaPolicy := {| ca_reviewed := false; ca_issuers := []; ca_wildcardIssuers := [];
                                           ca_iodef := None |};
     if_writePolicies := {[ 9%positive := Additive ]}; if_connections := [9%positive]; if_users := [];
     if_jobs := []; if_audit := []; if_next := 100; if_now := 1000 |}.
Definition sample_world : World Zones :=
  {| w_db := sample_db; w_provider := [("zone1"%string, sample_zone)]; w_sequence := 0 |}.
Definition sample_input (mode : ReconcileMode) : RunRecordSyncInput :=
  {| rn_domainId := 1; rn_mode := mode; rn_trigger := TriggerPoll; rn_actorUserId := None; rn_actorIsAdmin := None |}.
Definition sample_run (mode : ReconcileMode) (w : World Zones) : result RunRecordSyncResult * World Zones :=
  run (Some 9%positive) (sample_input mode) w.
Definition sample_world1 : World Zones := (sample_run ModeCheck sample_world).2.
Definition sample_world2 : World Zones := (sample_run ModeApply sample_world1).2.
Definition sample_world3 : World Zones := (sample_run ModeApply sample_world2).2.
Definition sample_result (r : result RunRecordSyncResult) : option (RunStatus * nat * nat * nat) :=
  match r with
  | Ok x => Some (sr_status x, sr_applied x, sr_unresolvedFindings x, sr_disappearedFindings x)
  | Throw _ => None
  end.

Example sample_runs :
  sample_result (sample_run ModeCheck sample_world).1 = Some (RunSucceeded, 0, 4, 0)%nat /\
  sample_result (sample_run ModeApply sample_world1).1 = Some (RunSucceeded, 3, 4, 0)%nat /\
  sample_result (sample_run ModeApply sample_world2).1 = Some (RunSucceeded, 0, 2, 0)%nat.
Proof. vm_compute. done. Qed.

Lemma sample_intents : live_intent 1 sample_db = sample_live /\ deleted_intent 1 sample_db = sample_deleted.
Proof. by vm_compute. Qed.

Lemma sample_run_check : run (Some 9%positive) (sample_input ModeCheck) sample_world
  = ((sample_run ModeCheck sample_world).1, sample_world1).
Proof. unfold sample_world1, sample_run. apply surjective_pairing. Qed.
Lemma returned_unblocked {W} (r : result RunRecordSyncResult * W) :
  match r.1 with Ok x => sr_writePolicyBlockedReason x = None | Throw _ => False end ->
  exists x, r = (Ok x, r.2) /\ sr_writePolicyBlockedReason x = None.
Proof. destruct r as [[x|e] w]; [|done]. by exists x. Qed.
Lemma sample_run_apply : exists x1, run (Some 9%positive) (sample_input ModeApply) sample_world1 = (Ok x1, sample_world2)
  /\ sr_writePolicyBlockedReason x1 = None.
Proof.
  pose proof (returned_unblocked (run (Some 9%positive) (sample_input ModeApply) sample_world1)) as Hr.
  unfold sample_world2, sample_run. apply Hr. by vm_compute.
Qed.
Lemma sample_run_last : run (Some 9%positive) (sample_input ModeApply) sample_world2
  = ((sample_run ModeApply sample_world2).1, sample_world3).
Proof. unfold sample_world3, sample_run. apply surjective_pairing. Qed.

Lemma sample_world_ok :
  desired_ok (live_intent (rn_domainId (sample_input ModeCheck)) (w_db sample_world))
    (deleted_intent (rn_domainId (sample_input ModeCheck)) (w_db sample_world)) /\
  zone_ok (zone_content "zone1" (w_provider sample_world)).
Proof.
  split; [|exact sample_zone_ok]. change (rn_domainId (sample_input ModeCheck)) with 1%positive.
  change (w_db sample_world) with sample_db. destruct sample_intents as [-> ->]. apply sample_desired_ok.
Qed.

Lemma sync_run_safe_witness : zone_ok (zone_content "zone1" (w_provider sample_world1)).
Proof.
  destruct sample_world_ok as [HI HZ].
  pose proof (sync_run_safe (Some 9%positive) (sample_input ModeCheck) sample_world sample_world1
    (sample_run ModeCheck sample_world).1 sample_domain "zone1" sample_run_check eq_refl eq_refl HI HZ) as (_ & _ & _ & _ & Hok).
  exact Hok.
Defined.

Lemma sync_runs_converge_witness : w_provider sample_world3 = w_provider sample_world2.
Proof.
  destruct sample_world_ok as [HI HZ]. destruct sample_run_apply as (x1 & R1 & Hb).
  pose proof (sync_runs_converge (Some 9%positive) (Some 9%positive) (Some 9%positive)
    (sample_input ModeCheck) (sample_input ModeApply) (sample_input ModeApply)
    sample_world sample_world1 sample_world2 sample_world3 (sample_run ModeCheck sample_world).1 x1
    (sample_run ModeApply sample_world2).1 sample_domain "zone1" eq_refl eq_refl eq_refl eq_refl HI HZ
    sample_run_check R1 eq_refl Hb sample_run_last) as (_ & Hw & _).
  exact Hw.
Defined.

(** ** What materialization leaves in [dns_records]

    Over [DnsStore.applyMaterializedRecords]: afterwards the live rows of a domain
    that are not manual are exactly the desired ones, nothing is deleted, and
    manual rows and other domains are untouched. *)

Definition natural (r : DnsRecord) : uuid * string * string * string :=
  (dr_domainId r, dr_type r, dr_name r, dr_content r).
Definition desired_natural (domainId : uuid) (d : DesiredRecord) : uuid * string * string * string :=
  (domainId, de_type d, de_name d, de_content d).

(** What the table's constraints and the identifiers' generator keep. *)
Record rows_ok (rows : list DnsRecord) (next : uuid) : Prop := {
  ro_ids : NoDup (dr_id <$> rows);
  ro_natural : NoDup (natural <$> rows);
  ro_next : forall r, r ∈ rows -> (dr_id r < next)%positive;
}.

Lemma same_natural_key_iff r q : same_natural_key r q = true <-> natural q = natural r.
Proof.
  unfold same_natural_key, natural. rewrite !andb_true_iff, bool_decide_eq_true, !String.eqb_eq.
  split; [intros [[[-> ->] ->] ->]; done|]. by intros [= -> -> -> ->].
Qed.

Section apply.
Context (domainId : uuid) (now : Z).

Definition declared_by (d : DesiredRecord) (r : DnsRecord) : DnsRecord :=
  declare_record (de_ttlSeconds d) (de_priority d) (de_proxied d) (de_owner d) now r.

(** One upsert on the rows. *)
Definition declare_row (d : DesiredRecord) (id : uuid) (rows : list DnsRecord) : list DnsRecord :=
  match find_row (fun r => bool_decide (natural r = desired_natural domainId d)) rows with
  | Some existing =>
      if not_manual existing
      then update_rows (fun r => bool_decide (dr_id r = dr_id existing)) (declared_by d) rows
      else rows
  | None => rows ++ [materialized_values domainId d id now]
  end.

Lemma find_row_ext {A} (p q : A -> bool) rows : (forall x, p x = q x) -> find_row p rows = find_row q rows.
Proof. intros H. unfold find_row. induction rows as [|x rows IH]; cbn; [done|]. by rewrite H, IH. Qed.

(** Whether the row is left to its operator. *)
Definition held_back (d : DesiredRecord) (rows : list DnsRecord) : bool :=
  match find_row (fun r => bool_decide (natural r = desired_natural domainId d)) rows with
  | Some existing => negb (not_manual existing)
  | None => false
  end.

Definition counted (keys : list string) (d : DesiredRecord) (rows : list DnsRecord) (counts : nat * nat) : nat * nat :=
  if held_back d rows then counts
  else if bool_decide (desired_key d ∈ keys) then (counts.1, S counts.2) else (S counts.1, counts.2).

(** The row passes the table's checks and its columns' ranges. *)
Definition storable (d : DesiredRecord) : bool :=
  record_ranges (materialized_values domainId d 1%positive 0)
  && record_checks (materialized_values domainId d 1%positive 0).

Lemma put_records_same s : put_records (if_records s) s = s.
Proof. by destruct s. Qed.

Lemma demand_true b c (s : Infra) : b = true -> demand b c s = (Ok tt, s).
Proof. by intros ->. Qed.

Lemma upsert_run d s : storable d = true ->
  exists_id md_id domainId (if_domains s) = true -> exists_id dr_id (if_next s) (if_records s) = false ->
  upsertRecord (materialized_values domainId d) not_manual
      (declare_record (de_ttlSeconds d) (de_priority d) (de_proxied d) (de_owner d)) s =
  let s1 := put_next (Pos.succ (if_next s)) s in
  let row := materialized_values domainId d (if_next s) (if_now s) in
  match find_row (same_natural_key row) (if_records s) with
  | Some e =>
      if not_manual e then
        (Ok (Some (declare_record (de_ttlSeconds d) (de_priority d) (de_proxied d) (de_owner d) (if_now s) e)),
         put_records (update_rows (fun r => bool_decide (dr_id r = dr_id e))
           (declare_record (de_ttlSeconds d) (de_priority d) (de_proxied d) (de_owner d) (if_now s)) (if_records s)) s1)
      else (Ok None, s1)
  | None => (Ok (Some row), put_records (if_records s ++ [row]) s1)
  end.
Proof.
  intros [Hr Hc]%andb_true_iff Hd Hi. unfold upsertRecord. unfold fresh_id at 1.
  erewrite st_bind_run by reflexivity. erewrite st_bind_run by reflexivity.
  erewrite st_bind_run by (by apply demand_true). erewrite st_bind_run by (by apply demand_true).
  cbn [if_records put_next]. cbn zeta. change (if_now (put_next ?n s)) with (if_now s).
  destruct (find_row _ (if_records s)) as [e|].
  - destruct (not_manual e); [|done]. erewrite st_bind_run by (by apply demand_true). done.
  - erewrite st_bind_run by (apply demand_true; cbn [if_records put_next]; by rewrite Hi).
    erewrite st_bind_run by (by apply demand_true). done.
Qed.

Lemma declare_desired_run keys counts d s : if_now s = now -> storable d = true ->
  exists_id md_id domainId (if_domains s) = true -> exists_id dr_id (if_next s) (if_records s) = false ->
  declare_desired domainId keys counts d s =
    (Ok (counted keys d (if_records s) counts),
     put_records (declare_row d (if_next s) (if_records s)) (put_next (Pos.succ (if_next s)) s)).
Proof.
  intros Hnow Hs Hd Hi. unfold declare_desired. unfold mbind, St_bind.
  rewrite (upsert_run d s Hs Hd Hi). cbn zeta. unfold declare_row, counted, held_back. rewrite <- Hnow.
  assert (find_row (fun r => bool_decide (natural r = desired_natural domainId d)) (if_records s)
    = find_row (same_natural_key (materialized_values domainId d (if_next s) (if_now s))) (if_records s)) as ->.
  { apply find_row_ext. intros r. apply eq_bool_prop_intro.
    rewrite !Is_true_true, bool_decide_eq_true, same_natural_key_iff. split; intros Hn; exact Hn. }
  destruct (find_row _ (if_records s)) as [e|]; [destruct (not_manual e)|]; unfold declared_by; rewrite <- ?Hnow; [done| |done].
  change (if_records s) with (if_records (put_next (Pos.succ (if_next s)) s)). by rewrite put_records_same.
Qed.

(** ** The rows while they are declared *)
Definition owned (r : DnsRecord) : bool := of_domain domainId r && not_manual r.

Definition says (d : DesiredRecord) (r : DnsRecord) : Prop :=
  natural r = desired_natural domainId d /\ dr_ttlSeconds r = de_ttlSeconds d /\
  dr_priority r = de_priority d /\ dr_proxied r = de_proxied d /\ dr_owner r = de_owner d.

Record declared_ok (before : list DnsRecord) (done : list DesiredRecord) (rows : list DnsRecord) (next : uuid)
    : Prop := {
  dc_rows : rows_ok rows next;
  dc_others : forall r, owned r = false -> r ∈ rows <-> r ∈ before;
  dc_done : forall d, d ∈ done -> exists r, r ∈ rows /\ natural r = desired_natural domainId d /\
    (live r = true \/ not_manual r = false);
  dc_live : forall r, r ∈ rows -> owned r = true -> live r = true ->
    (exists d, d ∈ done /\ says d r) \/ (r ∈ before /\ forall d, d ∈ done -> natural r <> desired_natural domainId d);
  dc_kept : forall r, r ∈ before -> exists r', r' ∈ rows /\ dr_id r' = dr_id r /\ natural r' = natural r;
}.

Lemma declared_nothing before next : rows_ok before next -> declared_ok before [] before next.
Proof.
  intros Hro. split; [done|done| | |].
  - by intros d ?%not_elem_of_nil.
  - intros r Hr _ _. right. split; [done|]. by intros d ?%not_elem_of_nil.
  - intros r Hr. by exists r.
Qed.

Lemma find_natural_some rows d r :
  find_row (fun r => bool_decide (natural r = desired_natural domainId d)) rows = Some r ->
  r ∈ rows /\ natural r = desired_natural domainId d.
Proof. by intros [? ?%bool_decide_eq_true]%find_row_some. Qed.
Lemma find_natural_none rows d r :
  find_row (fun r => bool_decide (natural r = desired_natural domainId d)) rows = None ->
  r ∈ rows -> natural r <> desired_natural domainId d.
Proof. intros H Hr. by apply (bool_decide_eq_false _), (find_row_none _ _ H). Qed.

(** Replacing one row by its identifier. *)
Lemma elem_of_update_id (f : DnsRecord -> DnsRecord) rows e : NoDup (dr_id <$> rows) -> e ∈ rows ->
  forall x, x ∈ update_rows (fun r => bool_decide (dr_id r = dr_id e)) f rows <->
    x = f e \/ (x ∈ rows /\ x <> e).
Proof.
  intros Hn He x. unfold update_rows. rewrite list_elem_of_fmap. split.
  - intros (y & -> & Hy). case_bool_decide as E.
    + rewrite (NoDup_fmap_inj dr_id rows y e Hn Hy He E). by left.
    + right. split; [done|]. by intros ->.
  - intros [->|[Hx Hne]].
    + exists e. split; [|done]. by rewrite bool_decide_eq_true_2.
    + exists x. split; [|done]. rewrite bool_decide_eq_false_2; [done|].
      intros E. apply Hne. by apply (NoDup_fmap_inj dr_id rows).
Qed.

Lemma declare_ok before done rows next d :
  de_owner d <> OwnerManual -> declared_ok before done rows next ->
  declared_ok before (done ++ [d]) (declare_row d next rows) (Pos.succ next).
Proof.
  intros Hown [[Hids Hnat Hnext] Hoth Hdone Hlive Hkept].
  assert (forall r : DnsRecord, r ∈ rows -> (dr_id r < Pos.succ next)%positive) as Hlt.
  { intros r Hr. specialize (Hnext r Hr). lia. }
  unfold declare_row. destruct (find_row _ rows) as [e|] eqn:Ef.
  - apply find_natural_some in Ef as [He En]. destruct (not_manual e) eqn:Eman.
    + pose proof (elem_of_update_id (declared_by d) rows e Hids He) as Hu.
      assert (owned e = true) as Hoe.
      { unfold owned. rewrite Eman, andb_true_r. apply bool_decide_eq_true. by injection En. }
      assert (owned (declared_by d e) = true) as Hode.
      { apply andb_true_iff. split; apply bool_decide_eq_true; [by injection En|done]. }
      split.
      * split; [by rewrite update_rows_keys|by rewrite update_rows_keys|].
        intros r [->|[Hr _]]%Hu; [by apply Hlt in He|by apply Hlt].
      * intros r Hr. rewrite Hu, <- Hoth by done. split; [|intros H; right; split; [done|by intros ->; congruence]].
        intros [->|[? _]]; [congruence|done].
      * intros q [Hq|Hq]%elem_of_app; [|apply list_elem_of_singleton in Hq as ->].
        -- destruct (Hdone q Hq) as (r & Hr & E & Hl). destruct (decide (r = e)) as [->|Hne].
           ++ exists (declared_by d e). split; [apply Hu; by left|]. split; [exact E|by left].
           ++ exists r. split; [apply Hu; by right|done].
        -- exists (declared_by d e). split; [apply Hu; by left|]. split; [exact En|by left].
      * intros r [->|[Hr Hne]]%Hu Hor Hl.
        -- left. exists d. split; [apply elem_of_app; right; by left|]. by repeat split.
        -- destruct (Hlive r Hr Hor Hl) as [(q & Hq & Hs)|[Hb Hnone]].
           ++ left. exists q. split; [apply elem_of_app; by left|done].
           ++ right. split; [done|]. intros q [Hq|Hq]%elem_of_app; [by apply Hnone|].
              apply list_elem_of_singleton in Hq as ->. intros E. apply Hne.
              apply (NoDup_fmap_inj natural rows); [done..|congruence].
      * intros r Hr. destruct (Hkept r Hr) as (r' & Hr' & Ei & En'). destruct (decide (r' = e)) as [->|Hne].
        -- exists (declared_by d e). split; [apply Hu; by left|]. by split.
        -- exists r'. split; [apply Hu; by right|done].
    + split; [split; done|done| | |done].
      * intros q [Hq|Hq]%elem_of_app; [by apply Hdone|]. apply list_elem_of_singleton in Hq as ->.
        exists e. split; [done|]. split; [done|by right].
      * intros r Hr Hor Hl. destruct (Hlive r Hr Hor Hl) as [(q & Hq & Hs)|[Hb Hnone]].
        -- left. exists q. split; [apply elem_of_app; by left|done].
        -- right. split; [done|]. intros q [Hq|Hq]%elem_of_app; [by apply Hnone|].
           apply list_elem_of_singleton in Hq as ->. intros E.
           assert (r = e) as -> by (apply (NoDup_fmap_inj natural rows); [done..|congruence]).
           unfold owned in Hor. rewrite Eman, andb_false_r in Hor. done.
  - pose proof (fun r => find_natural_none rows d r Ef) as Hnew. set (n := materialized_values domainId d next now).
    assert (owned n = true) as Hon.
    { unfold owned, not_manual, of_domain. cbn. by rewrite !bool_decide_eq_true_2. }
    assert (n ∉ rows) as Hnn by (intros H; by apply (Hnew n H)).
    split.
    + split.
      * rewrite fmap_app. apply NoDup_app. split; [done|]. split; [|apply NoDup_singleton].
        intros i (r & -> & Hr)%list_elem_of_fmap Hi. apply list_elem_of_singleton in Hi. specialize (Hnext r Hr). cbn in Hi. lia.
      * rewrite fmap_app. apply NoDup_app. split; [done|]. split; [|apply NoDup_singleton].
        intros i (r & -> & Hr)%list_elem_of_fmap Hi. apply list_elem_of_singleton in Hi. by apply (Hnew r Hr).
      * intros r [Hr|Hr]%elem_of_app; [by apply Hlt|]. apply list_elem_of_singleton in Hr as ->. cbn. lia.
    + intros r Hr. rewrite elem_of_app, list_elem_of_singleton, <- Hoth by done. split; [|by left].
      intros [?| ->]; [done|congruence].
    + intros q [Hq|Hq]%elem_of_app.
      * destruct (Hdone q Hq) as (r & Hr & ?). exists r. split; [apply elem_of_app; by left|done].
      * apply list_elem_of_singleton in Hq as ->. exists n. split; [apply elem_of_app; right; by left|]. split; [done|by left].
    + intros r [Hr|Hr]%elem_of_app Hor Hl.
      * destruct (Hlive r Hr Hor Hl) as [(q & Hq & Hs)|[Hb Hnone]].
        -- left. exists q. split; [apply elem_of_app; by left|done].
        -- right. split; [done|]. intros q [Hq|Hq]%elem_of_app; [by apply Hnone|].
           apply list_elem_of_singleton in Hq as ->. by apply Hnew.
      * apply list_elem_of_singleton in Hr as ->. left. exists d. split; [apply elem_of_app; right; by left|]. by repeat split.
    + intros r Hr. destruct (Hkept r Hr) as (r' & Hr' & ?). exists r'. split; [apply elem_of_app; by left|done].
Qed.

Lemma fresh_unused rows next : rows_ok rows next -> exists_id dr_id next rows = false.
Proof.
  intros H. unfold exists_id. apply not_true_iff_false. rewrite existsb_exists. intros (r & Hr & E%bool_decide_eq_true).
  apply list_elem_of_In in Hr. apply (ro_next _ _ H) in Hr. lia.
Qed.

Definition declarable (d : DesiredRecord) : Prop :=
  storable d = true /\ de_owner d <> OwnerManual /\ tidy (de_type d) (de_name d).

Lemma declare_all_run keys desired : forall counts s done before,
  if_now s = now -> exists_id md_id domainId (if_domains s) = true -> Forall declarable desired ->
  declared_ok before done (if_records s) (if_next s) ->
  exists counts' rows next,
    declare_all domainId keys desired counts s = (Ok counts', put_records rows (put_next next s)) /\
    declared_ok before (done ++ desired) rows next /\
    ((forall d, d ∈ desired -> desired_key d ∈ keys) -> counts'.1 = counts.1).
Proof.
  induction desired as [|d desired IH]; intros counts s done before Hnow Hd Hall Hok; cbn [declare_all].
  - exists counts, (if_records s), (if_next s). rewrite app_nil_r. split; [by destruct s|done].
  - apply Forall_cons in Hall as [(Hst & Hown & _) Hall].
    erewrite st_bind_run by (apply declare_desired_run; [done..|by apply fresh_unused, Hok]).
    set (s1 := put_records _ _).
    destruct (IH (counted keys d (if_records s) counts) s1 (done ++ [d]) before Hnow Hd Hall) as (c & rows & next & E & H & Hc).
    { by apply declare_ok. }
    exists c, rows, next. rewrite <- app_assoc in H. split; [exact E|]. split; [exact H|].
    intros Hk. rewrite Hc by (intros q Hq; apply Hk; by right). unfold counted. destruct (held_back _ _); [done|].
    by rewrite bool_decide_eq_true_2 by (apply Hk; left).
Qed.

(** ** The records no longer wanted *)
Definition forgotten (ids : list uuid) (r : DnsRecord) : DnsRecord :=
  if bool_decide (dr_id r ∈ ids) then soft_delete now r else r.

Lemma forget_all_run stale : forall s,
  st_mapM (forget_record now) stale s
  = (Ok (replicate (length stale) tt), put_records (forgotten (dr_id <$> stale) <$> if_records s) s).
Proof.
  induction stale as [|r stale IH]; intros s; cbn [st_mapM].
  - assert (forgotten (dr_id <$> []) <$> if_records s = if_records s) as ->; [|by rewrite put_records_same].
    etransitivity; [|apply list_fmap_id]. apply list_fmap_ext. intros ? x _. unfold forgotten.
    by rewrite bool_decide_eq_false_2 by apply not_elem_of_nil.
  - erewrite st_bind_run by reflexivity. erewrite st_bind_run by apply IH. cbn [length replicate].
    assert (forgotten (dr_id <$> r :: stale) <$> if_records s = forgotten (dr_id <$> stale)
      <$> update_rows (fun q => bool_decide (dr_id q = dr_id r)) (soft_delete now) (if_records s)) as ->; [|done].
    symmetry. unfold update_rows. rewrite <- list_fmap_compose.
    apply list_fmap_ext. intros ? x _. unfold compose, forgotten. cbn [fmap list_fmap].
    destruct (decide (dr_id x = dr_id r)) as [E|E].
    + rewrite (bool_decide_eq_true_2 _ E), (bool_decide_eq_true_2 (dr_id x ∈ dr_id r :: _)) by (rewrite E; left).
      by case_bool_decide.
    + rewrite (bool_decide_eq_false_2 _ E). destruct (decide (dr_id x ∈ dr_id <$> stale)) as [H|H].
      * rewrite !bool_decide_eq_true_2; [done|by right|done].
      * rewrite !bool_decide_eq_false_2; [done|by intros [?|?]%elem_of_cons|done].
Qed.

(** What the rows must be afterwards. *)
Record materialized (before : list DnsRecord) (desired : list DesiredRecord) (rows : list DnsRecord) : Prop := {
  mz_others : forall r, owned r = false -> r ∈ rows <-> r ∈ before;
  mz_live : forall r, r ∈ rows -> owned r = true -> live r = true -> exists d, d ∈ desired /\ says d r;
  mz_desired : forall d, d ∈ desired -> exists r, r ∈ rows /\ natural r = desired_natural domainId d /\
    (live r = true \/ not_manual r = false);
  mz_kept : forall r, r ∈ before -> exists r', r' ∈ rows /\ dr_id r' = dr_id r /\ natural r' = natural r;
}.

Definition stale_rows (desired : list DesiredRecord) (rows : list DnsRecord) : list DnsRecord :=
  List.filter (fun r => negb (bool_decide (record_key r ∈ desired_key <$> desired)))
    (List.filter (fun r => of_domain domainId r && live r && not_manual r) rows).

Lemma elem_of_stale desired rows r : r ∈ stale_rows desired rows <->
  r ∈ rows /\ owned r = true /\ live r = true /\ ~ record_key r ∈ desired_key <$> desired.
Proof.
  unfold stale_rows, owned. rewrite !elem_of_bool_filter, !andb_true_iff, negb_true_iff, bool_decide_eq_false. tauto.
Qed.

Lemma key_desired (desired : list DesiredRecord) r d : d ∈ desired -> natural r = desired_natural domainId d ->
  record_key r ∈ desired_key <$> desired.
Proof. intros Hd [= _ E1 E2 E3]. apply list_elem_of_fmap. exists d. unfold record_key, desired_key. by rewrite E1, E2, E3. Qed.

Lemma key_natural desired r : owned r = true -> tidy (dr_type r) (dr_name r) -> Forall declarable desired ->
  record_key r ∈ desired_key <$> desired -> exists d, d ∈ desired /\ natural r = desired_natural domainId d.
Proof.
  intros [Ho%bool_decide_eq_true _]%andb_true_iff Ht Hall (d & E & Hd)%list_elem_of_fmap.
  exists d. split; [done|]. rewrite Forall_forall in Hall. destruct (Hall d Hd) as (_ & _ & Ht').
  apply naturalKey_inj in E; [|done..]. injection E as E1 E2 E3. unfold natural, desired_natural. congruence.
Qed.

Lemma forgotten_id ids r : dr_id (forgotten ids r) = dr_id r.
Proof. unfold forgotten. by case_bool_decide. Qed.
Lemma forgotten_natural ids r : natural (forgotten ids r) = natural r.
Proof. unfold forgotten. by case_bool_decide. Qed.
Lemma forgotten_owned ids r : owned (forgotten ids r) = owned r.
Proof. unfold forgotten. by case_bool_decide. Qed.

Lemma forgotten_stale rows desired r : NoDup (dr_id <$> rows) -> r ∈ rows ->
  dr_id r ∈ dr_id <$> stale_rows desired rows -> r ∈ stale_rows desired rows.
Proof.
  intros Hn Hr (q & E & Hq)%list_elem_of_fmap. pose proof Hq as [Hq' _]%elem_of_stale.
  by rewrite (NoDup_fmap_inj dr_id rows r q Hn Hr Hq' E).
Qed.

Lemma forgotten_spared rows desired r : NoDup (dr_id <$> rows) -> r ∈ rows -> ~ r ∈ stale_rows desired rows ->
  forgotten (dr_id <$> stale_rows desired rows) r = r.
Proof.
  intros Hn Hr Hs. unfold forgotten. rewrite bool_decide_eq_false_2; [done|].
  intros H. by apply Hs, (forgotten_stale rows).
Qed.

Lemma stale_materialized before desired rows next :
  declared_ok before desired rows next -> Forall declarable desired ->
  (forall r, r ∈ before -> owned r = true -> live r = true -> tidy (dr_type r) (dr_name r)) ->
  let rows' := forgotten (dr_id <$> stale_rows desired rows) <$> rows in
  rows_ok rows' next /\ materialized before desired rows'.
Proof.
  intros [[Hids Hnat Hnext] Hoth Hdone Hlive Hkept] Hall Htidy rows'.
  assert (forall r, r ∈ rows -> ~ r ∈ stale_rows desired rows -> r ∈ rows') as Hin.
  { intros r Hr Hs. apply list_elem_of_fmap. exists r. split; [|done]. symmetry. by apply forgotten_spared. }
  split; split.
  - unfold rows'. rewrite <- list_fmap_compose. rewrite (list_fmap_ext _ dr_id); [done|]. intros. apply forgotten_id.
  - unfold rows'. rewrite <- list_fmap_compose. rewrite (list_fmap_ext _ natural); [done|]. intros. apply forgotten_natural.
  - intros ? (r & -> & Hr)%list_elem_of_fmap. rewrite forgotten_id. by apply Hnext.
  - intros r Hr. rewrite <- (Hoth r Hr). split.
    + intros (x & -> & Hx)%list_elem_of_fmap. rewrite forgotten_owned in Hr.
      rewrite forgotten_spared; [done..|]. intros H%elem_of_stale. naive_solver congruence.
    + intros Hx. apply Hin; [done|]. intros H%elem_of_stale. naive_solver congruence.
  - intros ? (r & -> & Hr)%list_elem_of_fmap. rewrite forgotten_owned. intros Ho Hl.
    destruct (decide (r ∈ stale_rows desired rows)) as [Hs|Hs].
    { unfold forgotten in Hl. rewrite bool_decide_eq_true_2 in Hl by by apply list_elem_of_fmap_2. done. }
    rewrite forgotten_spared in * by done. destruct (Hlive r Hr Ho Hl) as [H|[Hb Hnone]]; [exact H|exfalso].
    destruct (decide (record_key r ∈ desired_key <$> desired)) as [Hk|Hk].
    + destruct (key_natural desired r Ho (Htidy r Hb Ho Hl) Hall Hk) as (d & Hd & E). by apply (Hnone d).
    + apply Hs, elem_of_stale. done.
  - intros d Hd. destruct (Hdone d Hd) as (r & Hr & E & H). exists r. split; [|done].
    apply Hin; [done|]. intros (_ & _ & _ & Hk)%elem_of_stale. apply Hk. by apply (key_desired desired r d).
  - intros r Hr. destruct (Hkept r Hr) as (r' & Hr' & Ei & En). eexists. split; [by apply list_elem_of_fmap_2|].
    by rewrite forgotten_id, forgotten_natural.
Qed.
End apply.

Lemma apply_run domainId desired s :
  rows_ok (if_records s) (if_next s) -> exists_id md_id domainId (if_domains s) = true ->
  Forall (declarable domainId) desired ->
  (forall r, r ∈ if_records s -> owned domainId r = true -> live r = true -> tidy (dr_type r) (dr_name r)) ->
  exists c rows next,
    applyMaterializedRecords domainId desired s = (Ok c, put_records rows (put_next next s)) /\
    rows_ok rows next /\ materialized domainId (if_records s) desired rows /\
    ((forall d, d ∈ desired -> exists r, r ∈ if_records s /\ natural r = desired_natural domainId d) -> ac_created c = 0%nat) /\
    ((forall r, r ∈ if_records s -> owned domainId r = true -> live r = true -> exists d, d ∈ desired /\ says domainId d r) ->
     ac_softDeleted c = 0%nat).
Proof.
  intros Hro Hd Hall Htidy. set (keys := record_key <$> List.filter (of_domain domainId) (if_records s)).
  destruct (declare_all_run domainId (if_now s) keys desired (0, 0)%nat s [] (if_records s) eq_refl Hd Hall) as (counts & rows & next & E & Hok & Hc).
  { by apply declared_nothing. }
  cbn [app] in Hok.
  pose proof (stale_materialized domainId (if_now s) _ _ _ _ Hok Hall Htidy) as [Hro' Hmz].
  exists {| ac_created := counts.1; ac_updated := counts.2; ac_softDeleted := length (stale_rows domainId desired rows) |},
    (forgotten (if_now s) (dr_id <$> stale_rows domainId desired rows) <$> rows), next.
  split; [|split; [exact Hro'|split; [exact Hmz|split]]].
  - unfold applyMaterializedRecords. erewrite st_bind_run by reflexivity. cbn zeta. erewrite st_bind_run by reflexivity.
    erewrite st_bind_run by exact E. erewrite st_bind_run by reflexivity. cbn zeta.
    change (List.filter _ (List.filter _ _)) with (stale_rows domainId desired rows).
    erewrite st_bind_run by apply forget_all_run. done.
  - intros Hk. cbn [ac_created]. rewrite Hc; [done|]. intros d Hdd. destruct (Hk d Hdd) as (r & Hr & En).
    apply list_elem_of_fmap. exists r. injection En as E0 E1 E2 E3. split.
    + unfold desired_key, record_key. by rewrite E1, E2, E3.
    + apply elem_of_bool_filter. split; [by apply bool_decide_eq_true|done].
  - intros Hk. cbn [ac_softDeleted]. destruct (stale_rows domainId desired rows) as [|r l] eqn:El; [done|exfalso].
    assert (r ∈ stale_rows domainId desired rows) as (Hr & Ho & Hl & Hn)%elem_of_stale by (rewrite El; left).
    destruct (dc_live _ _ _ _ _ Hok r Hr Ho Hl) as [(d & Hdd & En & _)|[Hb Hnone]].
    + apply Hn. by apply (key_desired domainId desired r d).
    + destruct (Hk r Hb Ho Hl) as (d & Hdd & En & _). by apply (Hnone d).
Qed.

(** Applying the materialized records of a domain succeeds when each can be
    stored, touches only its rows, and leaves the domain's live rows that are not
    manual exactly the desired ones (with their TTL, priority, proxying and owner);
    each desired record has a live row unless a manual row holds its key; no row
    disappears, its identifier and natural key are kept.  Doing it again creates
    and retires nothing. *)
Theorem applyMaterialized_exact domainId desired s :
  rows_ok (if_records s) (if_next s) -> exists_id md_id domainId (if_domains s) = true ->
  Forall (declarable domainId) desired ->
  (forall r, r ∈ if_records s -> owned domainId r = true -> live r = true -> tidy (dr_type r) (dr_name r)) ->
  exists c s', applyMaterializedRecords domainId desired s = (Ok c, s') /\
    s' = put_records (if_records s') (put_next (if_next s') s) /\
    rows_ok (if_records s') (if_next s') /\ materialized domainId (if_records s) desired (if_records s') /\
    exists c2 s2, applyMaterializedRecords domainId desired s' = (Ok c2, s2) /\
      ac_created c2 = 0%nat /\ ac_softDeleted c2 = 0%nat.
Proof.
  intros Hro Hd Hall Htidy.
  destruct (apply_run domainId desired s Hro Hd Hall Htidy) as (c & rows & next & E & Hro' & Hmz & _).
  exists c, (put_records rows (put_next next s)). repeat (split; [done|]).
  destruct (apply_run domainId desired (put_records rows (put_next next s)) Hro' Hd Hall) as (c2 & rows2 & next2 & E2 & _ & _ & Hc & Hs).
  { intros r Hr Ho Hl. destruct (mz_live _ _ _ _ Hmz r Hr Ho Hl) as (d & Hdd & [= _ -> -> _] & _).
    rewrite Forall_forall in Hall. by destruct (Hall d Hdd) as (_ & _ & ?). }
  exists c2, (put_records rows2 (put_next next2 (put_records rows (put_next next s)))). split; [exact E2|]. split.
  - apply Hc. intros d Hdd. destruct (mz_desired _ _ _ _ Hmz d Hdd) as (r & Hr & En & _). by exists r.
  - apply Hs. apply Hmz.
Qed.

(** ** A domain with a manual record, a stale one and two to declare *)
Definition sample_managed : ManagedDomain :=
  {| md_id := 1; md_name := "example.net"; md_dnsConnectionId := 9; md_registrar := None;
     md_state := ZoneActive; md_externalZoneId := Some "zone1"%string; md_zoneNameservers := None;
     md_providerZoneStatus := None; md_apexTargetId := None; md_apexProxied := false;
     md_wildcardProxied := false; md_mailEnabled := false; md_lastReconciledAt := None;
     md_driftDetectedAt := None; md_lastErrorAt := None; md_lastErrorCode := None;
     md_consecutiveErrors := 0; md_notes := None; md_createdByUserId := None; md_createdAt := 0;
     md_updatedAt := 0 |}.
Definition sample_record (id : uuid) (type name content : string) (owner : DnsRecordOwner) : DnsRecord :=
  {| dr_id := id; dr_domainId := 1; dr_type := type; dr_name := name; dr_content := content;
     dr_priority := None; dr_ttlSeconds := None; dr_proxied := false; dr_owner := owner;
     dr_externalRecordId := None; dr_lastSyncedAt := None; dr_desiredDeletedAt := None; dr_createdAt := 0;
     dr_updatedAt := 0 |}.
Definition sample_store : Infra :=
  {| if_domains := [sample_managed];
     if_records := [sample_record 10 "A" "@" "192.0.2.1" OwnerApex;
                    sample_record 11 "A" "*" "192.0.2.1" OwnerWildcard;
                    sample_record 12 "TXT" "@" "hello" OwnerManual];
     if_targets := []; if_addresses := []; if_mailDomains := []; if_runs := []; if_steps := [];
     if_findings := []; if_caaPolicy := {| ca_reviewed := false; ca_issuers := []; ca_wildcardIssuers := [];
                                           ca_iodef := None |};
     if_writePolicies := ∅; if_connections := [9%positive]; if_users := [];
     if_jobs := []; if_audit := []; if_next := 100; if_now := 1000 |}.
Definition sample_wanted (type name content : string) (proxied : bool) (owner : DnsRecordOwner) : DesiredRecord :=
  {| de_type := type; de_name := name; de_content := content; de_ttlSeconds := Some 300;
     de_priority := None; de_proxied := proxied; de_owner := owner |}.
Definition sample_desired : list DesiredRecord :=
  [sample_wanted "A" "@" "192.0.2.1" true OwnerApex; sample_wanted "A" "*" "192.0.2.7" false OwnerWildcard;
   sample_wanted "TXT" "@" "hello" false OwnerCaa].

(** The first record is updated, the second created, the third left to its
    operator; the old wildcard is retired. *)
Example sample_applied :
  (applyMaterializedRecords 1 sample_desired sample_store).1
  = Ok {| ac_created := 1; ac_updated := 1; ac_softDeleted := 1 |}.
Proof. vm_compute. reflexivity. Qed.

Lemma applyMaterialized_exact_witness :
  exists c s', applyMaterializedRecords 1 sample_desired sample_store = (Ok c, s') /\
    s' = put_records (if_records s') (put_next (if_next s') sample_store) /\
    rows_ok (if_records s') (if_next s') /\
    materialized 1 (if_records sample_store) sample_desired (if_records s') /\
    exists c2 s2, applyMaterializedRecords 1 sample_desired s' = (Ok c2, s2) /\
      ac_created c2 = 0%nat /\ ac_softDeleted c2 = 0%nat.
Proof.
  apply (applyMaterialized_exact 1 sample_desired sample_store).
  - split; [by apply (bool_decide_unpack _); vm_compute..|].
    intros r Hr. assert (Forall (fun r => (dr_id r < 100)%positive) (if_records sample_store)) as H by (repeat constructor).
    rewrite Forall_forall in H. by apply H.
  - reflexivity.
  - repeat apply Forall_cons_2; [..|apply Forall_nil_2]; (split; [reflexivity|split; [discriminate|split; reflexivity]]).
  - intros r Hr _ _. assert (Forall (fun r => tidy (dr_type r) (dr_name r)) (if_records sample_store)) as H by (repeat constructor).
    rewrite Forall_forall in H. by apply H.
Defined.
