(* ===== verification/System.v ===== *)
(** * The system: every call, in any order

    The verbs of all the services as one type of calls, the stores they reach
    from an installation, and what holds of every store reached: the accounting
    tables keep their keys, checks and foreign keys, the journal is sound, its lines are on postable accounts, the expenses are consistent, no
    call rewrites what was recorded, and both reports balance. *)
From S2P Require Import Prelude Decimal Calendar Inputs Store Schema Ledger LedgerFacts Periods Chart.
From S2P Require Import Books Journal JournalFacts JournalMachine Facts PostingRules DefaultRules.
From S2P Require Import PostingEngine LineBuilding EngineFacts PostingPump LedgerReports Statements.
From S2P Require Import ExpenseTables Expenses ExpenseLines ExpenseMachine ExpenseRefinement.

Open Scope Z_scope.

(** ** Leaving the chart alone *)
Definition books_checked (db : Db) : Prop := Forall (fun b => book_checks b = true) (db_books db).

Record calm (db db' : Db) : Prop := {
  cm_accounts : db_accounts db' = db_accounts db;
  cm_books : books_checked db -> books_checked db';
  cm_expenses : expense_state db' = expense_state db;
}.
#[export] Instance calm_preorder : PreOrder calm.
Proof. split; [done|]. intros ??? [] []. split; [congruence|auto|congruence]. Qed.

Lemma calm_frame db db' :
  db_accounts db' = db_accounts db -> db_books db' = db_books db -> expense_state db' = expense_state db ->
  calm db db'.
Proof. intros E1 E2 E3. split; [done| |done]. unfold books_checked. by rewrite E2. Qed.
Ltac by_calm := apply calm_frame; done.

Lemma reads_calm {A} (m : run A) : reads m -> respects calm m.
Proof. apply reads_respects. apply _. Qed.
Lemma reads_calm_always {A} (m : run A) : reads m -> always calm m.
Proof. apply reads_always. apply _. Qed.
#[export] Hint Resolve reads_calm reads_calm_always : store.

Lemma transaction_calm {A} (body : run A) : respects calm body -> always calm (transaction body).
Proof.
  intros Hb db. unfold transaction. destruct (body (begin_tx db)) as [[a|e] db1] eqn:E; [|reflexivity].
  destruct (commit_check db1); cbn; [|reflexivity].
  destruct (Hb _ _ _ E) as [E1 Hk Es]. split; [exact E1|exact Hk|exact Es].
Qed.

(** *** Statements *)
Lemma audit_append_calm e : respects calm (audit_append e).
Proof. intros db u db' H. unfold audit_append in H. inv_stmt. by_calm. Qed.
Lemma insertPeriodOnConflict_calm v : respects calm (insertPeriodOnConflict v).
Proof. intros db u db' H. unfold insertPeriodOnConflict in H. inv_stmt. case_match; inv_stmt; by_calm. Qed.
Lemma updatePeriodStatus_calm id st ca cb note : respects calm (updatePeriodStatus id st ca cb note).
Proof. intros db u db' H. unfold updatePeriodStatus in H. inv_stmt. by_calm. Qed.
Lemma insertLink_calm v : respects calm (insertLink v).
Proof. intros db u db' H. unfold insertLink in H. inv_stmt. by_calm. Qed.
Lemma updateLink_calm id f : respects calm (updateLink id f).
Proof. intros db u db' H. unfold updateLink in H. inv_stmt. by_calm. Qed.
Lemma insertRuleRow_calm v : respects calm (insertRuleRow v).
Proof. intros db r db' H. unfold insertRuleRow in H. inv_stmt. by_calm. Qed.
Lemma insertVersionRow_calm v : respects calm (insertVersionRow v).
Proof. intros db r db' H. unfold insertVersionRow in H. inv_stmt. by_calm. Qed.
Lemma insertRuleLineRow_calm v : respects calm (insertRuleLineRow v).
Proof. intros db r db' H. unfold insertRuleLineRow in H. inv_stmt. by_calm. Qed.
Lemma updateVersionStatus_calm p st : respects calm (updateVersionStatus p st).
Proof. intros db r db' H. unfold updateVersionStatus in H. inv_stmt. by_calm. Qed.
Lemma updateRule_calm id f : respects calm (updateRule id f).
Proof. intros db r db' H. unfold updateRule in H. inv_stmt. by_calm. Qed.
Lemma insertJournalEntry_calm v : respects calm (insertJournalEntry v).
Proof. intros db r db' H. unfold insertJournalEntry in H. inv_stmt. by_calm. Qed.
Lemma updateJournalEntry_calm id f : respects calm (updateJournalEntry id f).
Proof. intros db r db' H. unfold updateJournalEntry in H. inv_stmt. by_calm. Qed.
Lemma insertJournalLineRow_calm v : respects calm (insertJournalLineRow v).
Proof. intros db r db' H. unfold insertJournalLineRow in H. inv_stmt. by_calm. Qed.
Lemma insertLineDimensionRow_calm r : respects calm (insertLineDimensionRow r).
Proof. intros db u db' H. unfold insertLineDimensionRow in H. inv_stmt. by_calm. Qed.
Lemma insertSourceLinkRow_calm v : respects calm (insertSourceLinkRow v).
Proof. intros db u db' H. unfold insertSourceLinkRow in H. inv_stmt. repeat case_match; inv_stmt; by_calm. Qed.

Lemma insertBook_calm v : respects calm (insertBook v).
Proof.
  intros db r db' H. unfold insertBook in H. inv_stmt. split; [done| |done]. unfold books_checked. cbn.
  intros Hb. apply Forall_app. split; [done|]. by constructor.
Qed.
Lemma updateBook_calm id f : respects calm (updateBook id f).
Proof.
  intros db r db' H. unfold updateBook in H. inv_stmt. split; [done| |done]. unfold books_checked. cbn.
  rewrite !Forall_forall. intros Hb b' (b & Hbin & ->)%update_rows_elem.
  match goal with G : forallb _ _ = true |- _ => rewrite forallb_elem in G; specialize (G b Hbin) end.
  cbv beta in *. destruct (bool_decide (bk_id b = id)); [done|by apply Hb].
Qed.
#[export] Hint Resolve audit_append_calm insertPeriodOnConflict_calm updatePeriodStatus_calm
  insertLink_calm updateLink_calm insertRuleRow_calm insertVersionRow_calm insertRuleLineRow_calm
  updateVersionStatus_calm updateRule_calm insertJournalEntry_calm updateJournalEntry_calm
  insertJournalLineRow_calm insertLineDimensionRow_calm insertSourceLinkRow_calm insertBook_calm
  updateBook_calm : store.

(** *** Verbs *)
Lemma insertLines_calm book e lines : respects calm (insertLines book e lines).
Proof. unfold insertLines, insertJournalLines, insertLineDimensions. solve_respects. Qed.
Lemma insertSourceLinks_calm e links : respects calm (insertSourceLinks e links).
Proof. unfold insertSourceLinks, insertSourceLink. solve_respects. Qed.
Lemma nextEntryNumber_calm book : respects calm (nextEntryNumber book).
Proof. unfold nextEntryNumber. solve_respects. Qed.
Lemma insertHeader_calm book hd : respects calm (insertHeader book hd).
Proof. unfold insertHeader. solve_respects. Qed.
Lemma markPosted_calm d n p b actor : respects calm (markPosted d n p b actor).
Proof. unfold markPosted. solve_respects. Qed.
#[export] Hint Resolve insertLines_calm insertSourceLinks_calm nextEntryNumber_calm insertHeader_calm
  markPosted_calm : store.

Lemma postEntry_calm i : always calm (postEntry i).
Proof.
  unfold postEntry. solve_respects; [|apply reads_calm_always, postEntry_handler_reads].
  apply transaction_calm. unfold postEntry_body, postEntry_fresh. solve_respects.
Qed.
Lemma createDraft_calm i : always calm (createDraft i).
Proof. unfold createDraft. solve_respects. apply transaction_calm. unfold createDraft_body. solve_respects. Qed.
Lemma postDraft_calm id b actor request : always calm (postDraft id b actor request).
Proof. apply transaction_calm. unfold postDraft_body. solve_respects. Qed.
Lemma voidDraft_calm id reason actor request : always calm (voidDraft id reason actor request).
Proof. unfold voidDraft. cbv zeta. solve_respects. apply transaction_calm. solve_respects. Qed.
Lemma reverseEntry_calm id t reason b actor request : always calm (reverseEntry id t reason b actor request).
Proof.
  unfold reverseEntry. cbv zeta. solve_respects. apply transaction_calm.
  unfold reverseEntry_body, reverseEntry_write. solve_respects.
Qed.
Lemma setStatus_calm i : always calm (setStatus i).
Proof. unfold setStatus. solve_respects. apply transaction_calm. unfold setStatus_body. solve_respects. Qed.
Lemma generateFiscalYear_calm i : always calm (generateFiscalYear i).
Proof.
  unfold generateFiscalYear. solve_respects. apply transaction_calm.
  unfold generateFiscalYear_body. solve_respects.
  apply respects_rethrow; [unfold insertGeneratedPeriods; solve_respects|].
  intros e s r s'. by case_match.
Qed.
Lemma archiveBook_calm id actor request : always calm (archiveBook id actor request).
Proof. apply transaction_calm. solve_respects. Qed.
Lemma linkEntity_calm i : always calm (linkEntity i).
Proof.
  unfold linkEntity. solve_respects. apply transaction_calm.
  unfold linkEntity_body, insertLink_dated. solve_respects.
  apply respects_rethrow; [unfold insertLink_dated; solve_respects|].
  intros err s r s'. by destruct (isExclusionViolation err).
Qed.
Lemma endLink_calm id t actor request : always calm (endLink id t actor request).
Proof. apply transaction_calm. solve_respects. Qed.
Lemma createRule_calm i : always calm (createRule i).
Proof.
  unfold createRule. solve_respects. apply transaction_calm.
  unfold createRule_body, insertVersion, insertRuleLines, activate. solve_respects.
Qed.
Lemma addVersion_calm i : always calm (addVersion i).
Proof.
  unfold addVersion. solve_respects. apply transaction_calm.
  unfold addVersion_body, insertVersion, insertRuleLines, activate. solve_respects.
Qed.
Lemma activateVersion_calm id actor request : always calm (activateVersion id actor request).
Proof. unfold activateVersion. solve_respects. apply transaction_calm. unfold activate. solve_respects. Qed.
Lemma setRuleStatus_calm id st actor request : always calm (setRuleStatus id st actor request).
Proof. unfold setRuleStatus. solve_respects. apply transaction_calm. solve_respects. Qed.

(** ** Lines are on postable accounts *)
Record chart_ok (db : Db) : Prop := {
  ch_ids : NoDup (la_id <$> db_accounts db);
  ch_lines l : l ∈ db_lines db ->
    exists a, a ∈ db_accounts db /\ la_id a = jl_ledgerAccountId l /\ la_isPostable a = true;
  ch_books : books_checked db;
}.

Lemma chart_ok_postable db : chart_ok db -> lines_postable db.
Proof.
  intros [Hn Hl _] l a Hin Ha Hi. destruct (Hl l Hin) as (b & Hb & Hib & Hp).
  by assert (a = b) as -> by (eapply (NoDup_keys_inj la_id); [exact Hn|done|done|congruence]).
Qed.

Definition chart_step (db db' : Db) : Prop := chart_ok db -> chart_ok db'.
#[export] Instance chart_step_preorder : PreOrder chart_step.
Proof. split; unfold chart_step; [intros ?; done|intros ???; auto]. Qed.

(** New lines, on postable accounts, and the chart left alone. *)
Lemma chart_ok_lines db db' rows :
  calm db db' -> db_lines db' = db_lines db ++ rows ->
  (forall r, r ∈ rows -> chart_ok db ->
     exists a, a ∈ db_accounts db /\ la_id a = jl_ledgerAccountId r /\ la_isPostable a = true) ->
  chart_step db db'.
Proof.
  intros [E Hb _] El Hr Hc. pose proof Hc as [Hn Hl Hbk]. split; [by rewrite E| |auto].
  rewrite E, El. intros l [Hin|Hin]%elem_of_app; [by apply Hl|by apply Hr].
Qed.

Lemma chart_of_quiet db db' : calm db db' -> db_lines db' = db_lines db -> chart_step db db'.
Proof.
  intros Hc El. apply (chart_ok_lines _ _ [] Hc); [by rewrite app_nil_r|].
  intros r Hr. by apply not_elem_of_nil in Hr.
Qed.
Lemma respects_chart {A} (m : run A) : respects calm m -> respects quiet m -> respects chart_step m.
Proof. intros H1 H2 s a s' H. apply chart_of_quiet; [by eapply H1|apply (H2 _ _ _ H)]. Qed.
Lemma always_chart {A} (m : run A) : always calm m -> always quiet m -> always chart_step m.
Proof. intros H1 H2 s. apply chart_of_quiet; [apply H1|apply H2]. Qed.
#[export] Hint Resolve respects_chart always_chart : store.

Lemma reads_chart {A} (m : run A) : reads m -> respects chart_step m.
Proof. apply reads_respects. apply _. Qed.
#[export] Hint Resolve reads_chart : store.

Lemma transaction_chart {A} (body : run A) :
  respects chart_step body -> always chart_step (transaction body).
Proof.
  intros Hb db. unfold transaction. destruct (body (begin_tx db)) as [[a|e] db1] eqn:E; [|done].
  destruct (commit_check db1); cbn; [|done]. intros [H1 H2 H3].
  destruct (Hb _ _ _ E (Build_chart_ok (begin_tx db) H1 H2 H3)) as [K1 K2 K3]. by split.
Qed.

(** *** The chart's own verbs *)
Lemma insertAccount_chart v : (forall id now, la_id (v id now) = id) -> respects chart_step (insertAccount v).
Proof.
  intros V db r db' H. unfold insertAccount in H. inv_stmt. intros [Hn Hl Hb]. split; cbn; [| |done].
  - apply NoDup_keys_snoc. rewrite V. split; [done|]. by apply exists_id_false.
  - intros l Hin. destruct (Hl l Hin) as (a & Ha & ?). exists a. split; [|done].
    apply elem_of_app. by left.
Qed.

(** An edit that keeps the identity, of an account without lines or keeping it postable. *)
Lemma update_account_chart id f db u db' :
  (forall a, la_id (f a) = la_id a) ->
  (forall a, la_isPostable a = true -> la_isPostable (f a) = true) \/
  (forall l, l ∈ db_lines db -> jl_ledgerAccountId l <> id) ->
  Ledger.updateAccount id f db = (Ok u, db') -> chart_step db db'.
Proof.
  intros Hi Hp H. unfold Ledger.updateAccount in H. inv_stmt. intros [Hn Hl Hb]. split; cbn; [| |done].
  - by rewrite update_rows_keys.
  - intros l Hin. destruct (Hl l Hin) as (a & Ha & Hia & Hpa).
    exists (if bool_decide (la_id a = id) then f a else a).
    split; [apply update_rows_elem; by exists a|].
    destruct (bool_decide_reflect (la_id a = id)) as [E|_]; [|done]. rewrite Hi. split; [done|].
    destruct Hp as [Hp|Hp]; [by apply Hp|]. by destruct (Hp l Hin); congruence.
Qed.

Lemma updateAccount_chart id f :
  (forall a, la_id (f a) = la_id a) -> (forall a, la_isPostable (f a) = la_isPostable a) ->
  respects chart_step (Ledger.updateAccount id f).
Proof.
  intros H1 H2 db u db' H. eapply update_account_chart; [exact H1| |exact H]. left. intros a. by rewrite H2.
Qed.
#[export] Hint Resolve insertAccount_chart updateAccount_chart : store.

Lemma seed_loop_chart book ordered byCode : respects chart_step (seed_loop book ordered byCode).
Proof. revert byCode. induction ordered as [|a l IH]; intros; simpl; solve_respects. Qed.
#[export] Hint Resolve seed_loop_chart : store.
Lemma seedDefaultChart_chart book t actor request : always chart_step (seedDefaultChart book t actor request).
Proof. apply transaction_chart. unfold seedDefaultChart_body, seed. solve_respects. Qed.
Lemma createAccount_chart i : always chart_step (createAccount i).
Proof. unfold createAccount. solve_respects. apply transaction_chart. unfold createAccount_body. solve_respects. Qed.
Lemma archiveAccount_chart id actor request : always chart_step (archiveAccount id actor request).
Proof. apply transaction_chart. solve_respects. Qed.
Lemma reactivateAccount_chart id actor request : always chart_step (reactivateAccount id actor request).
Proof. apply transaction_chart. solve_respects. Qed.

(** Clearing [is_postable] is refused on an account that carries lines. *)
Lemma updateAccount_body_chart value : respects chart_step (updateAccount_body value).
Proof.
  intros db out db' H. unfold updateAccount_body in H. run_bind H before s Hb.
  apply loadAccount_inv in Hb as (Hbin & Hbi & ->).
  do 4 (run_bind H u s Hu; apply st_lift_inv in Hu as [_ ->]; clear u).
  run_bind H u1 s Hu. apply reads_run in Hu as ->; [|solve_respects].
  run_bind H u2 s Hpost. pose proof Hpost as Hrd. apply reads_run in Hrd as ->; [|solve_respects].
  run_bind H now s Hn. apply st_gets_inv in Hn as [-> ->].
  run_bind H u3 s Hup. run_bind H after s2 Ha. apply loadAccount_inv in Ha as (_ & _ & ->).
  run_bind H u4 s2 Hau. apply st_ret_inv in H as [_ ->].
  apply (respects_chart _ (audit_append_calm _) (audit_append_quiet _)) in Hau. trans s; [|exact Hau].
  eapply update_account_chart; [..|exact Hup]; [done|].
  destruct (ua_isPostable value) as [[]|] eqn:Ep.
  - left. intros a _. cbn. by rewrite Ep.
  - right. run_bind Hpost used s1 Hg. apply st_gets_inv in Hg as [-> ->].
    apply st_lift_inv in Hpost as [Hpost%throw_if_Ok _]. intros l Hl E.
    apply not_true_iff_false in Hpost. apply Hpost, existsb_elem. exists l. split; [done|].
    by apply bool_decide_true.
  - left. intros a Hp. cbn. by rewrite Ep.
Qed.
Lemma updateAccount_service_chart i : always chart_step (Chart.updateAccount i).
Proof.
  unfold Chart.updateAccount. solve_respects. apply transaction_chart, updateAccount_body_chart.
Qed.

Lemma createBook_chart i : always chart_step (createBook i).
Proof.
  unfold createBook. solve_respects.
  - apply transaction_chart. unfold createBook_row. solve_respects.
    apply respects_chart; [apply insertBook_calm|by apply insertBook_quiet].
  - apply seedDefaultChart_chart.
  - apply always_chart; [apply generateFiscalYear_calm|apply generateFiscalYear_quiet].
Qed.

(** *** The journal's verbs *)
Lemma resolves_postable db book l r row :
  line_row (bk_id book) r l row -> (exists i, resolves (db_accounts db) book i l) ->
  exists a, a ∈ db_accounts db /\ la_id a = jl_ledgerAccountId row /\ la_isPostable a = true.
Proof.
  intros Hr (i & Hi). destruct (rs_account _ _ _ _ Hi) as (a & Ha & Hia & _ & Hp & _).
  exists a. split; [done|]. split; [|done]. by rewrite (lr_account _ _ _ _ Hr).
Qed.

Lemma rows_postable db book e inputs lines rows row :
  Forall2 (resolves (db_accounts db) book) inputs lines ->
  Forall2 (line_row (bk_id book) e) lines rows -> row ∈ rows ->
  exists a, a ∈ db_accounts db /\ la_id a = jl_ledgerAccountId row /\ la_isPostable a = true.
Proof.
  intros H1 H2 [i Hi]%list_elem_of_lookup.
  destruct (Forall2_lookup_r _ _ _ _ _ H2 Hi) as (l & Hl & Hr).
  destruct (Forall2_lookup_r _ _ _ _ _ H1 Hl) as (x & _ & Hx).
  eapply resolves_postable; [exact Hr|by exists x].
Qed.

Lemma postEntry_chart i db : committed db -> chart_step db (snd (postEntry i db)).
Proof.
  intros Hc. pose proof (postEntry_calm i db) as Hcalm.
  destruct (postEntry i db) as [[out|e] db'] eqn:H; cbn in *; [|by apply postEntry_throw in H as ->].
  apply (postEntry_inv _ _ _ _ Hc) in H as (value & _ & [[_ Hu]|(_ & book & p & b & lines & rows & Hf)]).
  - apply chart_of_quiet; [done|]. by rewrite <- Hu.
  - destruct (pf_written _ _ _ _ _ _ _ _ _ _ Hf) as [_ _ _ _ Hrows Hl _ _ _ _ _].
    apply (chart_ok_lines _ _ rows Hcalm Hl). intros r Hr _.
    eapply rows_postable; [apply (pf_lines _ _ _ _ _ _ _ _ _ _ Hf)|exact Hrows|exact Hr].
Qed.

Lemma createDraft_body_chart value : respects chart_step (createDraft_body value).
Proof.
  intros db out db' H.
  assert (calm db db') as Hcalm.
  { revert H. apply (fun K : respects calm (createDraft_body value) => K db out db').
    unfold createDraft_body. solve_respects. }
  unfold createDraft_body in H. run_bind H routed s Hr. destruct routed as [book routing].
  apply routeBook_inv in Hr as (-> & _). run_bind H lines s Hl.
  pose proof (resolveLines_inv _ _ _ _ _ _ Hl) as Hres. read_run Hl.
  run_bind H d s1 Hd. apply insertHeader_inv in Hd as (_ & -> & _).
  run_bind H ins s2 Hi. apply insertLines_inv in Hi as (rows & _ & Hrows & _ & El & _).
  run_bind H u s3 Hs. apply insertSourceLinks_core in Hs.
  run_bind H v s4 Ha. apply audit_append_core in Ha. apply st_ret_inv in H as [_ ->].
  apply core_eq_fields in Hs as (_ & E2 & _), Ha as (_ & E5 & _).
  apply (chart_ok_lines _ _ rows Hcalm); [by rewrite E5, E2, El|]. intros r Hr _.
  eapply rows_postable; [exact Hres|exact Hrows|exact Hr].
Qed.
Lemma createDraft_chart i : always chart_step (createDraft i).
Proof. unfold createDraft. solve_respects. apply transaction_chart, createDraft_body_chart. Qed.

Lemma reverseEntry_chart id t reason b actor request db :
  committed db -> chart_step db (snd (reverseEntry id t reason b actor request db)).
Proof.
  intros Hc. pose proof (reverseEntry_calm id t reason b actor request db) as Hcalm.
  destruct (reverseEntry id t reason b actor request db) as [[out|e] db'] eqn:H; cbn in *;
    [|by apply reverseEntry_throw in H as ->].
  unfold reverseEntry in H. cbv zeta in H. run_bind H u s Hu. apply st_lift_inv in Hu as [_ ->].
  apply transaction_inv in H as (db1 & H & _ & ->).
  apply reverseEntry_body_inv in H as (o & _ & _ & _ & _ & [(-> & _)|(_ & book & p & bd & ls & rows & mid & Hf)]);
    [by apply chart_of_quiet| |by apply (begin_tx_step_ok db (proj2 Hc)), Hc].
  apply (chart_ok_lines _ _ rows Hcalm).
  { cbn. rewrite (vf_lines _ _ _ _ _ _ _ _ _ _ _ _ _ _ _ Hf).
    by rewrite (wr_lines _ _ _ _ _ _ _ _ _ _ _ (vf_written _ _ _ _ _ _ _ _ _ _ _ _ _ _ _ Hf)). }
  intros r [i Hi]%list_elem_of_lookup [_ Hl _].
  destruct (Forall2_lookup_r _ _ _ _ _ (vf_mirrors _ _ _ _ _ _ _ _ _ _ _ _ _ _ _ Hf) Hi) as (l & Hli & Hm).
  rewrite (mi_account _ _ Hm). apply Hl. apply list_elem_of_lookup_2 in Hli.
  rewrite order_by_perm in Hli. by apply list_elem_of_filter in Hli as [_ ?].
Qed.

Lemma updateJournalEntry_chart id f : respects chart_step (updateJournalEntry id f).
Proof.
  intros db u db' H. apply chart_of_quiet; [by eapply updateJournalEntry_calm|].
  by apply updateJournalEntry_inv in H as (_ & -> & _).
Qed.
Lemma updateBook_chart id f : respects chart_step (updateBook id f).
Proof.
  intros db u db' H. apply chart_of_quiet; [by eapply updateBook_calm|].
  unfold updateBook in H. by inv_stmt.
Qed.
#[export] Hint Resolve updateJournalEntry_chart updateBook_chart : store.
Lemma postDraft_chart id b actor request : always chart_step (postDraft id b actor request).
Proof. apply transaction_chart. unfold postDraft_body, nextEntryNumber, markPosted. solve_respects. Qed.
Lemma voidDraft_chart id reason actor request : always chart_step (voidDraft id reason actor request).
Proof. unfold voidDraft. cbv zeta. solve_respects. apply transaction_chart. solve_respects. Qed.

(** *** The verbs of the chart leave the expenses alone *)
Definition spares (db db' : Db) : Prop := expense_state db' = expense_state db.
#[export] Instance spares_preorder : PreOrder spares.
Proof. split; unfold spares; [done|]. intros ???. congruence. Qed.

Lemma calm_spares {A} (m : run A) : respects calm m -> respects spares m.
Proof. intros H db a db' E. exact (cm_expenses _ _ (H _ _ _ E)). Qed.
Lemma calm_spares_always {A} (m : run A) : always calm m -> always spares m.
Proof. intros H db. exact (cm_expenses _ _ (H db)). Qed.
Lemma transaction_spares {A} (body : run A) : respects spares body -> always spares (transaction body).
Proof.
  intros Hb db. unfold transaction. destruct (body (begin_tx db)) as [[a|e] db1] eqn:E; [|reflexivity].
  destruct (commit_check db1); [|reflexivity]. exact (Hb _ _ _ E).
Qed.
Lemma insertAccount_spares v : respects spares (insertAccount v).
Proof. intros db u db' H. unfold insertAccount in H. by inv_stmt. Qed.
Lemma updateAccount_spares id f : respects spares (Ledger.updateAccount id f).
Proof. intros db u db' H. unfold Ledger.updateAccount in H. by inv_stmt. Qed.
#[export] Hint Resolve calm_spares calm_spares_always insertAccount_spares updateAccount_spares : store.

Lemma seed_loop_spares book ordered byCode : respects spares (seed_loop book ordered byCode).
Proof. revert byCode. induction ordered as [|a l IH]; intros; simpl; solve_respects. Qed.
#[export] Hint Resolve seed_loop_spares : store.
Lemma seedDefaultChart_spares book t actor request : always spares (seedDefaultChart book t actor request).
Proof. apply transaction_spares. unfold seedDefaultChart_body, seed. solve_respects. Qed.
Lemma createAccount_spares i : always spares (createAccount i).
Proof. unfold createAccount. solve_respects. apply transaction_spares. unfold createAccount_body. solve_respects. Qed.
Lemma archiveAccount_spares id actor request : always spares (archiveAccount id actor request).
Proof. apply transaction_spares. solve_respects. Qed.
Lemma reactivateAccount_spares id actor request : always spares (reactivateAccount id actor request).
Proof. apply transaction_spares. solve_respects. Qed.
Lemma updateAccount_service_spares i : always spares (Chart.updateAccount i).
Proof.
  unfold Chart.updateAccount. solve_respects. apply transaction_spares. unfold updateAccount_body. solve_respects.
Qed.
Lemma createBook_spares i : always spares (createBook i).
Proof.
  unfold createBook. solve_respects.
  - apply transaction_spares. unfold createBook_row. solve_respects.
  - apply seedDefaultChart_spares.
  - apply calm_spares_always, generateFiscalYear_calm.
Qed.

(** ** The constraints of the accounting tables *)

(** No two rows of a table clash. *)
Definition apart {A} (clash : A -> A -> bool) (rows : list A) : Prop :=
  forall i j x y, rows !! i = Some x -> rows !! j = Some y -> i <> j -> clash x y = false.

Definition same_id {A} (key : A -> uuid) (conflict : A -> A -> bool) (x y : A) : bool :=
  bool_decide (key x = key y) || conflict x y.

Definition books_conflict (b c : AccountingBook) : bool := bool_decide (bk_code b = bk_code c).
Definition periods_conflict (p q : FiscalPeriod) : bool :=
  bool_decide (fp_accountingBookId p = fp_accountingBookId q)
  && (((fp_fiscalYear p =? fp_fiscalYear q) && (fp_sequence p =? fp_sequence q))
      || bool_decide (fp_periodCode p = fp_periodCode q)).
Definition lines_conflict (l k : JournalLine) : bool :=
  bool_decide (jl_journalEntryId l = jl_journalEntryId k) && (jl_lineNumber l =? jl_lineNumber k).
Definition tags_conflict (r s : JournalLineDimension) : bool :=
  bool_decide (ld_journalLineId r = ld_journalLineId s) && bool_decide (ld_dimensionId r = ld_dimensionId s).
Definition sources_conflict (r s : JournalEntrySourceLink) : bool :=
  bool_decide (sl_journalEntryId r = sl_journalEntryId s)
  && bool_decide (sl_sourceFactType r = sl_sourceFactType s)
  && bool_decide (sl_sourceFactId r = sl_sourceFactId s) && bool_decide (sl_role r = sl_role s).
Definition rules_conflict (r s : PostingRule) : bool := bool_decide (pr_code r = pr_code s).
Definition versions_conflict (v w : PostingRuleVersion) : bool :=
  bool_decide (pv_postingRuleId v = pv_postingRuleId w) && (pv_version v =? pv_version w).

(** The [CHECK]s and the foreign keys of a row. *)
Definition book_row_ok (db : Db) (b : AccountingBook) : bool := user_exists db (bk_createdByUserId b).
Definition link_row_ok (db : Db) (l : BookEntityLink) : bool :=
  link_checks l && (exists_id bk_id (lk_accountingBookId l) (db_books db)
    && exists_id ent_id (lk_economicEntityId l) (db_entities db) && user_exists db (lk_createdByUserId l)).
Definition account_row_ok (db : Db) (a : LedgerAccount) : bool := account_checks a && account_fks db a.
Definition period_row_ok (db : Db) (p : FiscalPeriod) : bool :=
  (fp_startsOn p <=? fp_endsOn p) && exists_id bk_id (fp_accountingBookId p) (db_books db)
  && user_exists db (fp_closedByUserId p).
Definition tag_row_ok (db : Db) (r : JournalLineDimension) : bool :=
  exists_id jl_id (ld_journalLineId r) (db_lines db) && exists_id dm_id (ld_dimensionId r) (db_dimensions db)
  && exists_id dv_id (ld_dimensionValueId r) (db_dimension_values db).
Definition source_row_ok (db : Db) (r : JournalEntrySourceLink) : bool :=
  exists_id je_id (sl_journalEntryId r) (db_entries db).
Definition rule_row_ok (db : Db) (r : PostingRule) : bool :=
  int4 (pr_priority r) && (exists_opt bk_id (pr_accountingBookId r) (db_books db)
    && exists_opt pv_id (pr_currentVersionId r) (db_versions db) && user_exists db (pr_createdByUserId r)).
Definition version_row_ok (db : Db) (v : PostingRuleVersion) : bool :=
  int4 (pv_version v) && version_checks v && (exists_id pr_id (pv_postingRuleId v) (db_rules db)
    && exists_opt ent_id (pv_matchEconomicEntityId v) (db_entities db) && user_exists db (pv_createdByUserId v)).
Definition rule_line_row_ok (db : Db) (l : PostingRuleLine) : bool :=
  int4 (pl_lineNumber l) && rule_line_checks l &&
  (exists_id pv_id (pl_postingRuleVersionId l) (db_versions db)
    && exists_opt la_id (pl_ledgerAccountId l) (db_accounts db)
    && exists_opt dv_id (pl_dimensionValueId l) (db_dimension_values db)).

(** A table: its unique keys, and the checks and foreign keys of its rows. *)
Record table_ok {A} (clash : A -> A -> bool) (row_ok : Db -> A -> bool) (rows : list A) (db : Db) : Prop := {
  tb_keys : apart clash rows;
  tb_rows r : r ∈ rows -> row_ok db r = true;
}.

(** What [ledger_ok] leaves out of [db/src/schema/accounting.ts]. *)
Record constraints_ok (db : Db) : Prop := {
  co_books : table_ok (same_id bk_id books_conflict) book_row_ok (db_books db) db;
  co_links : table_ok (same_id lk_id links_conflict) link_row_ok (db_links db) db;
  co_accounts : table_ok (same_id la_id accounts_conflict) account_row_ok (db_accounts db) db;
  co_periods : table_ok (same_id fp_id periods_conflict) period_row_ok (db_periods db) db;
  co_entries : table_ok (same_id je_id entries_conflict) entry_fks (db_entries db) db;
  co_lines : apart (same_id jl_id lines_conflict) (db_lines db);
  co_tags : table_ok tags_conflict tag_row_ok (db_line_dims db) db;
  co_sources : table_ok (same_id sl_id sources_conflict) source_row_ok (db_source_links db) db;
  co_rules : table_ok (same_id pr_id rules_conflict) rule_row_ok (db_rules db) db;
  co_versions : table_ok (same_id pv_id versions_conflict) version_row_ok (db_versions db) db;
  co_rule_lines : table_ok (same_id pl_id rule_lines_conflict) rule_line_row_ok (db_rule_lines db) db;
}.

(** *** Foreign keys stay valid while the keys they name stay *)
Definition held {A B} (key : A -> B) (rows rows' : list A) : Prop :=
  forall r, r ∈ rows -> exists r', r' ∈ rows' /\ key r' = key r.

Definition account_key (a : LedgerAccount) : uuid * uuid := (la_id a, la_accountingBookId a).
Definition period_key (p : FiscalPeriod) : uuid * uuid := (fp_id p, fp_accountingBookId p).

Record refs_kept (db db' : Db) : Prop := {
  rf_fixed : (db_users db', db_entities db', db_dimensions db', db_dimension_values db')
           = (db_users db, db_entities db, db_dimensions db, db_dimension_values db);
  rf_books : held bk_id (db_books db) (db_books db');
  rf_accounts : held account_key (db_accounts db) (db_accounts db');
  rf_periods : held period_key (db_periods db) (db_periods db');
  rf_rules : held pr_id (db_rules db) (db_rules db');
  rf_versions : held pv_id (db_versions db) (db_versions db');
  rf_entries : held je_id (db_entries db) (db_entries db');
  rf_lines : held jl_id (db_lines db) (db_lines db');
}.

Lemma held_refl {A B} (key : A -> B) rows : held key rows rows.
Proof. intros r Hr. by exists r. Qed.
Lemma held_app {A B} (key : A -> B) rows new : held key rows (rows ++ new).
Proof. intros r Hr. exists r. split; [|done]. apply elem_of_app. by left. Qed.
Lemma held_update {A B} (key : A -> B) (p : A -> bool) f rows :
  (forall r, key (f r) = key r) -> held key rows (update_rows p f rows).
Proof.
  intros Hk r Hr. exists (if p r then f r else r). split; [|by destruct (p r)].
  apply update_rows_elem. by exists r.
Qed.
#[local] Hint Resolve held_refl held_app held_update : core.

Lemma held_exists {A} (key : A -> uuid) rows rows' id :
  held key rows rows' -> exists_id key id rows = true -> exists_id key id rows' = true.
Proof.
  intros Hh. rewrite !exists_id_true. intros (r & Hr & <-). destruct (Hh r Hr) as (r' & ? & ?). by exists r'.
Qed.
Lemma held_exists_opt {A} (key : A -> uuid) rows rows' id :
  held key rows rows' -> exists_opt key id rows = true -> exists_opt key id rows' = true.
Proof. destruct id; [apply held_exists|done]. Qed.
Lemma held_pair {A} (key : A -> uuid * uuid) rows rows' k :
  held key rows rows' ->
  existsb (fun r => bool_decide ((key r).1 = k.1) && bool_decide ((key r).2 = k.2)) rows = true ->
  existsb (fun r => bool_decide ((key r).1 = k.1) && bool_decide ((key r).2 = k.2)) rows' = true.
Proof.
  intros Hh. rewrite !existsb_elem. intros (r & Hr & E). destruct (Hh r Hr) as (r' & Hr' & E').
  exists r'. by rewrite E'.
Qed.
Lemma held_account_id rows rows' id :
  held account_key rows rows' -> exists_opt la_id id rows = true -> exists_opt la_id id rows' = true.
Proof.
  intros Hh. apply held_exists_opt. intros r Hr. destruct (Hh r Hr) as (r' & ? & [= ? _]). by exists r'.
Qed.

Class RefsMono {A} (row_ok : Db -> A -> bool) : Prop :=
  refs_mono db db' r : refs_kept db db' -> row_ok db r = true -> row_ok db' r = true.

Ltac solve_mono :=
  intros db db' r [[= E1 E2 E3 E4] Hb Ha Hp Hr Hv He Hl]; revert Hb Ha Hp Hr Hv He Hl;
  unfold book_row_ok, link_row_ok, account_row_ok, account_fks, period_row_ok, entry_fks, tag_row_ok,
    source_row_ok, rule_row_ok, version_row_ok, rule_line_row_ok, user_exists;
  rewrite ?E1, ?E2, ?E3, ?E4, ?andb_true_iff; intros;
  repeat match goal with H : _ /\ _ |- _ => destruct H end;
  repeat split_and; try done;
  try (eapply held_exists; eassumption); try (eapply held_exists_opt; eassumption);
  try (eapply held_account_id; eassumption).
#[local] Instance book_mono : RefsMono book_row_ok.
Proof. solve_mono. Qed.
#[local] Instance link_mono : RefsMono link_row_ok.
Proof. solve_mono. Qed.
#[local] Instance account_mono : RefsMono account_row_ok.
Proof.
  solve_mono. destruct (la_parentAccountId r) as [p|]; [|done].
  by eapply (held_pair account_key _ _ (p, la_accountingBookId r)).
Qed.
#[local] Instance period_mono : RefsMono period_row_ok.
Proof. solve_mono. Qed.
#[local] Instance entry_mono : RefsMono entry_fks.
Proof.
  solve_mono. destruct (je_fiscalPeriodId r) as [p|]; [|done].
  by eapply (held_pair period_key _ _ (p, je_accountingBookId r)).
Qed.
#[local] Instance tag_mono : RefsMono tag_row_ok.
Proof. solve_mono. Qed.
#[local] Instance source_mono : RefsMono source_row_ok.
Proof. solve_mono. Qed.
#[local] Instance rule_mono : RefsMono rule_row_ok.
Proof. solve_mono. Qed.
#[local] Instance version_mono : RefsMono version_row_ok.
Proof. solve_mono. Qed.
#[local] Instance rule_line_mono : RefsMono rule_line_row_ok.
Proof. solve_mono. Qed.

(** *** Tables *)
Class SymClash {A} (clash : A -> A -> bool) : Prop := clash_sym x y : clash x y = clash y x.
#[local] Instance same_id_sym {A} (key : A -> uuid) conflict :
  SymClash conflict -> SymClash (same_id key conflict).
Proof.
  intros Hs x y. unfold same_id. rewrite Hs. f_equal. apply bool_decide_ext. naive_solver.
Qed.
Ltac solve_sym :=
  intros ??; apply eq_bool_prop_intro; repeat first [rewrite orb_True|rewrite andb_True];
  rewrite ?bool_decide_spec, ?Is_true_true, ?Z.eqb_eq; intuition congruence.
#[local] Instance books_sym : SymClash books_conflict.
Proof. unfold books_conflict. solve_sym. Qed.
#[local] Instance links_sym : SymClash links_conflict.
Proof. intros ??. apply links_conflict_sym. Qed.
#[local] Instance accounts_sym : SymClash accounts_conflict.
Proof.
  intros x y. unfold accounts_conflict.
  rewrite (bool_decide_ext (la_accountingBookId x = _) (la_accountingBookId y = la_accountingBookId x)) by naive_solver.
  rewrite (bool_decide_ext (la_code x = _) (la_code y = la_code x)) by naive_solver. do 2 f_equal.
  destruct (decide (la_systemKey x = la_systemKey y)) as [->|Hne]; [done|].
  rewrite !(bool_decide_false (_ = la_systemKey _)) by congruence. by rewrite !andb_false_r.
Qed.
#[local] Instance periods_sym : SymClash periods_conflict.
Proof. unfold periods_conflict. solve_sym. Qed.
#[local] Instance entries_sym : SymClash entries_conflict.
Proof. intros ??. apply entries_conflict_sym. Qed.
#[local] Instance lines_sym : SymClash lines_conflict.
Proof. unfold lines_conflict. solve_sym. Qed.
#[local] Instance tags_sym : SymClash tags_conflict.
Proof. unfold tags_conflict. solve_sym. Qed.
#[local] Instance sources_sym : SymClash sources_conflict.
Proof. unfold sources_conflict. solve_sym. Qed.
#[local] Instance rules_sym : SymClash rules_conflict.
Proof. unfold rules_conflict. solve_sym. Qed.
#[local] Instance versions_sym : SymClash versions_conflict.
Proof. unfold versions_conflict. solve_sym. Qed.
#[local] Instance rule_lines_sym : SymClash rule_lines_conflict.
Proof. unfold rule_lines_conflict. solve_sym. Qed.

Lemma apart_snoc {A} (clash : A -> A -> bool) `{!SymClash clash} rows row :
  apart clash rows -> (forall x, x ∈ rows -> clash x row = false) -> apart clash (rows ++ [row]).
Proof.
  intros Ha Hn i j x y Hi Hj Hij.
  apply lookup_snoc_Some in Hi as [[_ Hi]|[-> ->]]; apply lookup_snoc_Some in Hj as [[_ Hj]|[-> ->]].
  - by apply (Ha i j).
  - by eapply Hn, list_elem_of_lookup_2.
  - rewrite clash_sym. by eapply Hn, list_elem_of_lookup_2.
  - done.
Qed.

Lemma same_id_new {A} (key : A -> uuid) conflict id rows row :
  key row = id -> exists_id key id rows = false -> forallb (fun r => negb (conflict r row)) rows = true ->
  forall x, x ∈ rows -> same_id key conflict x row = false.
Proof.
  intros Hk Hi%exists_id_false Hc x Hx. unfold same_id.
  rewrite bool_decide_false; [cbn; by apply (no_conflict_new conflict rows)|]. intros E. apply Hi.
  rewrite <- Hk, <- E. by apply list_elem_of_fmap_2.
Qed.

Lemma apart_update {A} (key : A -> uuid) conflict `{!SymClash conflict} id f rows :
  (forall r, key (f r) = key r) ->
  (forall x y, x ∈ rows -> y ∈ rows -> key x = id -> key y <> id -> conflict y (f x) = false) ->
  apart (same_id key conflict) rows ->
  apart (same_id key conflict) (update_rows (fun r => bool_decide (key r = id)) f rows).
Proof.
  intros Hk Hc Ha i j x y Hi Hj Hij. unfold update_rows in Hi, Hj.
  rewrite list_lookup_fmap in Hi, Hj.
  destruct (rows !! i) as [x0|] eqn:Ei; [|done]. destruct (rows !! j) as [y0|] eqn:Ej; [|done].
  injection Hi as <-. injection Hj as <-. pose proof (Ha i j x0 y0 Ei Ej Hij) as Hxy.
  apply orb_false_iff in Hxy as [Hne%bool_decide_eq_false Hxy].
  pose proof (list_elem_of_lookup_2 _ _ _ Ei). pose proof (list_elem_of_lookup_2 _ _ _ Ej).
  unfold same_id. apply orb_false_iff. split.
  { apply bool_decide_eq_false. repeat case_bool_decide; rewrite ?Hk; done. }
  repeat case_bool_decide; [congruence| |auto|done]. rewrite clash_sym. auto.
Qed.

(** An edit of columns outside the unique keys. *)
Lemma apart_stable {A} (key : A -> uuid) conflict (p : A -> bool) f rows :
  (forall r, key (f r) = key r) -> (forall x y, conflict (f x) y = conflict x y) ->
  (forall x y, conflict x (f y) = conflict x y) ->
  apart (same_id key conflict) rows -> apart (same_id key conflict) (update_rows p f rows).
Proof.
  intros Hk H1 H2 Ha i j x y Hi Hj Hij. unfold update_rows in Hi, Hj. rewrite list_lookup_fmap in Hi, Hj.
  destruct (rows !! i) as [x0|] eqn:Ei; [|done]. destruct (rows !! j) as [y0|] eqn:Ej; [|done].
  injection Hi as <-. injection Hj as <-. pose proof (Ha i j x0 y0 Ei Ej Hij) as Hxy. unfold same_id in *.
  destruct (p x0), (p y0); by rewrite ?Hk, ?H1, ?H2.
Qed.

(** Books with distinct identifiers and distinct codes. *)
Lemma apart_keys books : NoDup (bk_id <$> books) -> NoDup (bk_code <$> books) ->
  apart (same_id bk_id books_conflict) books.
Proof.
  intros H1 H2 i j x y Hi Hj Hij. unfold same_id, books_conflict. apply orb_false_iff.
  rewrite !bool_decide_eq_false. rewrite NoDup_alt in H1. rewrite NoDup_alt in H2. split; intros E; apply Hij.
  - eapply H1; rewrite list_lookup_fmap; [by rewrite Hi|]. cbn. by rewrite Hj, E.
  - eapply H2; rewrite list_lookup_fmap; [by rewrite Hi|]. cbn. by rewrite Hj, E.
Qed.

Lemma table_kept {A} (clash : A -> A -> bool) row_ok `{!RefsMono row_ok} rows db db' :
  table_ok clash row_ok rows db -> refs_kept db db' -> table_ok clash row_ok rows db'.
Proof. intros [Hk Hr] R. split; [done|]. intros r Hin. eapply refs_mono; [exact R|auto]. Qed.

Lemma table_added {A} (clash : A -> A -> bool) row_ok `{!SymClash clash, !RefsMono row_ok} rows row db db' :
  table_ok clash row_ok rows db -> refs_kept db db' -> (forall x, x ∈ rows -> clash x row = false) ->
  row_ok db row = true -> table_ok clash row_ok (rows ++ [row]) db'.
Proof.
  intros [Hk Hr] R Hc Hok. split; [by apply apart_snoc|].
  intros r [Hin| ->%list_elem_of_singleton]%elem_of_app; (eapply refs_mono; [exact R|auto]).
Qed.

Lemma table_updated {A} (clash : A -> A -> bool) row_ok `{!RefsMono row_ok} (p : A -> bool) f rows db db' :
  table_ok clash row_ok rows db -> refs_kept db db' -> apart clash (update_rows p f rows) ->
  (forall r, r ∈ rows -> p r = true -> row_ok db r = true -> row_ok db (f r) = true) ->
  table_ok clash row_ok (update_rows p f rows) db'.
Proof.
  intros [Hk Hr] R Ha Hf. split; [done|]. intros y (r & Hin & ->)%update_rows_elem.
  eapply refs_mono; [exact R|]. destruct (p r) eqn:E; auto.
Qed.

(** *** Statements *)
Definition constrained (db db' : Db) : Prop := constraints_ok db -> constraints_ok db'.
#[export] Instance constrained_preorder : PreOrder constrained.
Proof. split; unfold constrained; [intros ?; done|intros ???; auto]. Qed.

(** The tables left alone keep their constraints; the changed one remains. *)
Ltac keep_tables :=
  match goal with |- constrained ?d ?d' =>
    let R := fresh "R" in
    assert (refs_kept d d') as R by (split; cbn; auto);
    intros []; split; cbn; first [done | eapply table_kept; [exact _|eassumption|exact R] | idtac]
  end.
Ltac row_ok_goal := rewrite ?andb_true_iff in *; repeat split_and; assumption.

Lemma audit_append_constrained e : respects constrained (audit_append e).
Proof. intros db u db' H. unfold audit_append in H. inv_stmt. keep_tables. Qed.

Lemma insertBook_constrained v : (forall id now, bk_id (v id now) = id) -> respects constrained (insertBook v).
Proof.
  intros V db r db' H. unfold insertBook in H. inv_stmt. keep_tables.
  eapply table_added; [exact _..|eassumption|exact R| |done].
  eapply same_id_new; [apply V|done|]. rewrite forallb_elem in *. intros b Hb.
  unfold books_conflict. apply negb_true_iff, bool_decide_eq_false. by apply (bool_decide_eq_true_1 (_ <> _)); auto.
Qed.
Lemma updateBook_constrained id f :
  (forall b, (bk_id (f b), bk_code (f b), bk_createdByUserId (f b)) = (bk_id b, bk_code b, bk_createdByUserId b)) ->
  respects constrained (updateBook id f).
Proof.
  intros F db r db' H. unfold updateBook in H. inv_stmt.
  assert (forall b, bk_id (f b) = bk_id b) as F1 by (intros b; by specialize (F b) as [= ? ? ?]).
  keep_tables. eapply table_updated; [exact _|eassumption|exact R| |].
  - apply apart_stable; [done|..|apply co_books0]; intros x y; unfold books_conflict.
    + specialize (F x) as [= _ -> _]. done.
    + specialize (F y) as [= _ -> _]. done.
  - intros b _ _. unfold book_row_ok. specialize (F b) as [= _ _ ->]. done.
Qed.

Lemma insertLink_constrained v : (forall id now, lk_id (v id now) = id) -> respects constrained (insertLink v).
Proof.
  intros V db r db' H. unfold insertLink in H. inv_stmt. keep_tables.
  eapply table_added; [exact _..|eassumption|exact R|eapply same_id_new; [apply V|done|done]|].
  unfold link_row_ok. row_ok_goal.
Qed.
Lemma updateLink_constrained id f :
  (forall l, (lk_id (f l), lk_accountingBookId (f l), lk_economicEntityId (f l), lk_createdByUserId (f l))
    = (lk_id l, lk_accountingBookId l, lk_economicEntityId l, lk_createdByUserId l)) ->
  respects constrained (updateLink id f).
Proof.
  intros F db r db' H. unfold updateLink in H. inv_stmt.
  assert (forall l, lk_id (f l) = lk_id l) as F1 by (intros l; by specialize (F l) as [= ? ? ? ?]).
  keep_tables. eapply table_updated; [exact _|eassumption|exact R| |].
  - apply apart_update; [exact _|done|by apply guarded_conflict|apply co_links0].
  - intros l Hl Hp%bool_decide_eq_true. unfold link_row_ok. specialize (F l) as [= _ -> -> ->].
    rewrite !andb_true_iff. intros [_ ?]. split; [|done].
    by eapply (guarded_row lk_id id (fun l => link_checks (f l))).
Qed.

Lemma insertAccount_constrained v :
  (forall id now, la_id (v id now) = id) -> respects constrained (insertAccount v).
Proof.
  intros V db r db' H. unfold insertAccount in H. inv_stmt. keep_tables.
  eapply table_added; [exact _..|eassumption|exact R|eapply same_id_new; [apply V|done|done]|].
  unfold account_row_ok. row_ok_goal.
Qed.
Lemma updateAccount_constrained id f :
  (forall a, account_key (f a) = account_key a) -> respects constrained (Ledger.updateAccount id f).
Proof.
  intros F db r db' H. unfold Ledger.updateAccount in H. inv_stmt.
  assert (forall l, la_id (f l) = la_id l) as F1 by (intros l; by specialize (F l) as [= ? ?]).
  keep_tables. eapply table_updated; [exact _|eassumption|exact R| |].
  - apply apart_update; [exact _|done|by apply guarded_conflict|apply co_accounts0].
  - intros a Ha Hp%bool_decide_eq_true _. unfold account_row_ok. apply andb_true_iff. split.
    + by eapply (guarded_row la_id id (fun a => account_checks (f a))).
    + by eapply (guarded_row la_id id (fun a => account_fks db (f a))).
Qed.

Lemma insertPeriodOnConflict_constrained v :
  (forall id now, fp_id (v id now) = id) -> (forall id now, fp_closedByUserId (v id now) = None) ->
  respects constrained (insertPeriodOnConflict v).
Proof.
  intros V V2 db r db' H. unfold insertPeriodOnConflict in H. inv_stmt.
  case_match eqn:Hdup; inv_stmt; keep_tables.
  eapply table_added; [exact _..|eassumption|exact R| |].
  - eapply same_id_new; [apply V|done|]. rewrite forallb_elem in *. intros p Hp.
    apply not_true_iff_false in Hdup. rewrite existsb_elem in Hdup.
    match goal with G : forall x, x ∈ _ -> negb (_ && bool_decide (fp_periodCode x = _)) = true |- _ =>
      specialize (G p Hp); rename G into Hcode end.
    unfold periods_conflict. destruct (bool_decide (fp_accountingBookId p = _)) eqn:Eb; [|done]. cbn in *.
    apply negb_true_iff in Hcode. rewrite Hcode, orb_false_r. apply negb_true_iff, not_true_iff_false.
    intros E. apply Hdup. exists p. split; [done|]. by rewrite Eb.
  - unfold period_row_ok. rewrite V2, !andb_true_iff. done.
Qed.
Lemma updatePeriodStatus_constrained id st ca cb note :
  respects constrained (updatePeriodStatus id st ca cb note).
Proof.
  intros db r db' H. unfold updatePeriodStatus in H. inv_stmt.
  keep_tables. eapply table_updated; [exact _|eassumption|exact R|by apply apart_stable; [..|apply co_periods0]|].
  intros p _ _. unfold period_row_ok. cbn. rewrite !andb_true_iff. intros [? _]. by split.
Qed.

Lemma insertJournalEntry_constrained v :
  (forall id now, je_id (v id now) = id) -> respects constrained (insertJournalEntry v).
Proof.
  intros V db r db' H. unfold insertJournalEntry in H. inv_stmt. keep_tables.
  by eapply table_added; [exact _..|eassumption|exact R|eapply same_id_new; [apply V|done|done]|].
Qed.
Lemma updateJournalEntry_constrained id f :
  (forall e, je_id (f e) = je_id e) -> respects constrained (updateJournalEntry id f).
Proof.
  intros F db r db' H. unfold updateJournalEntry in H. inv_stmt.
  keep_tables. eapply table_updated; [exact _|eassumption|exact R| |].
  - apply apart_update; [exact _|done|by apply guarded_conflict|apply co_entries0].
  - intros e He Hp%bool_decide_eq_true _. by eapply (guarded_row je_id id (fun e => entry_fks db (f e))).
Qed.
Lemma insertJournalLineRow_constrained v :
  (forall id now, jl_id (v id now) = id) -> respects constrained (insertJournalLineRow v).
Proof.
  intros V db r db' H. unfold insertJournalLineRow in H. inv_stmt. keep_tables.
  apply apart_snoc; [exact _|done|]. by eapply same_id_new; [apply V|..].
Qed.

Lemma insertLineDimensionRows_spec rows db us db' :
  st_mapM insertLineDimensionRow rows db = (Ok us, db') ->
  db' = set_line_dims (db_line_dims db ++ rows) db /\
  (apart tags_conflict (db_line_dims db) -> apart tags_conflict (db_line_dims db ++ rows)).
Proof.
  revert db us db'. induction rows as [|r rows IH]; intros db us db' H; simpl in H.
  { inv_st. rewrite app_nil_r. split; [by destruct db|done]. }
  run_bind H u s Hr. unfold insertLineDimensionRow in Hr. inv_stmt.
  match goal with G : st_mapM _ _ _ = _ |- _ => apply IH in G as [-> Ha] end. cbn in *.
  rewrite <- (assoc_L (++)) in *. split; [by destruct db|].
  intros Hk. apply Ha, apart_snoc; [exact _|done|]. by apply no_conflict_new.
Qed.
Lemma insertLineDimensions_constrained rows : respects constrained (insertLineDimensions rows).
Proof.
  intros db u db' H. unfold insertLineDimensions in H. inv_stmt.
  match goal with G : st_mapM _ _ _ = _ |- _ => apply insertLineDimensionRows_spec in G as [-> Ha] end.
  match goal with G : forallb _ _ = true |- _ => rewrite forallb_elem in G; rename G into Hfk end.
  keep_tables. destruct (table_kept _ _ _ _ _ co_tags0 R) as [Hk Hr]. split; [by apply Ha|].
  intros r [Hin|Hin]%elem_of_app; [by apply Hr|]. by apply Hfk.
Qed.

Lemma insertSourceLinkRow_constrained v :
  (forall id now, sl_id (v id now) = id) -> respects constrained (insertSourceLinkRow v).
Proof.
  intros V db u db' H. unfold insertSourceLinkRow in H. inv_stmt.
  case_match eqn:Hdup; inv_stmt; keep_tables. apply orb_false_iff in Hdup as [Hi Hdup].
  eapply table_added; [exact _..|eassumption|exact R|eapply same_id_new; [apply V|exact Hi|]|done].
  apply forallb_elem. intros x Hx. apply negb_true_iff, not_true_iff_false. intros E.
  apply not_true_iff_false in Hdup. apply Hdup, existsb_elem. by exists x.
Qed.

(** *** The posting rules *)
Lemma insertRuleRow_constrained v :
  (forall id now, pr_id (v id now) = id) -> respects constrained (insertRuleRow v).
Proof.
  intros V db r db' H. unfold insertRuleRow in H. inv_stmt. keep_tables.
  eapply table_added; [exact _..|eassumption|exact R| |unfold rule_row_ok; row_ok_goal].
  eapply same_id_new; [apply V|done|]. rewrite forallb_elem in *. intros x Hx.
  unfold rules_conflict. apply negb_true_iff, bool_decide_eq_false. by apply (bool_decide_eq_true_1 (_ <> _)); auto.
Qed.
Lemma updateRule_constrained id f :
  (forall now r, (pr_id (f now r), pr_code (f now r), pr_priority (f now r), pr_accountingBookId (f now r),
      pr_createdByUserId (f now r))
    = (pr_id r, pr_code r, pr_priority r, pr_accountingBookId r, pr_createdByUserId r)) ->
  respects constrained (updateRule id f).
Proof.
  intros F db u db' H. unfold updateRule in H. inv_stmt.
  assert (forall now r, pr_id (f now r) = pr_id r) as F1 by (intros n r; by specialize (F n r) as [= ? ? ? ? ?]).
  assert (forall now r, pr_code (f now r) = pr_code r) as F2 by (intros n r; by specialize (F n r) as [= ? ? ? ? ?]).
  keep_tables. eapply table_updated; [exact _|eassumption|exact R| |].
  - apply apart_stable; [done|..|apply co_rules0]; intros x y; unfold rules_conflict; by rewrite F2.
  - intros r Hr Hp%bool_decide_eq_true. unfold rule_row_ok. specialize (F (db_now db) r) as [= _ _ -> -> ->].
    rewrite !andb_true_iff. intros (? & [? _] & ?). repeat split_and; try done.
    by eapply (guarded_row pr_id id
      (fun r => exists_opt pv_id (pr_currentVersionId (f (db_now db) r)) (db_versions db))).
Qed.
Lemma insertVersionRow_constrained v :
  (forall id now, pv_id (v id now) = id) -> respects constrained (insertVersionRow v).
Proof.
  intros V db r db' H. unfold insertVersionRow in H. inv_stmt. keep_tables.
  eapply table_added; [exact _..|eassumption|exact R| |unfold version_row_ok; row_ok_goal].
  by eapply same_id_new; [apply V|..].
Qed.
Lemma updateVersionStatus_constrained p st : respects constrained (updateVersionStatus p st).
Proof.
  intros db u db' H. unfold updateVersionStatus in H. inv_stmt.
  keep_tables. by eapply table_updated; [exact _|eassumption|exact R|apply apart_stable; [..|apply co_versions0]|].
Qed.

Lemma insertRuleLineRows_added vs db rows db' :
  (forall v, v ∈ vs -> forall id now, pl_id (v id now) = id) ->
  st_mapM insertRuleLineRow vs db = (Ok rows, db') ->
  exists next, db' = set_next next (set_rule_lines (db_rule_lines db ++ rows) db) /\
    (apart (same_id pl_id rule_lines_conflict) (db_rule_lines db) ->
     apart (same_id pl_id rule_lines_conflict) (db_rule_lines db ++ rows)) /\
    forall l, l ∈ rows -> int4 (pl_lineNumber l) = true /\ rule_line_checks l = true.
Proof.
  revert db rows db'. induction vs as [|v vs IH]; intros db rows db' V H; simpl in H.
  { inv_st. exists (db_next db). rewrite app_nil_r. split; [by destruct db|]. split; [done|set_solver]. }
  run_bind H row s Hr. unfold insertRuleLineRow in Hr. inv_stmt.
  match goal with G : st_mapM _ _ _ = _ |- _ => apply IH in G as (next & -> & Ha & Hc); [|set_solver] end.
  cbn in *. rewrite <- (assoc_L (++)) in *. exists next. split; [by destruct db|]. split.
  - intros Hk. apply Ha, apart_snoc; [exact _|done|]. eapply same_id_new; [apply V; set_solver|done|done].
  - intros l [->|Hl]%elem_of_cons; [done|by apply Hc].
Qed.
Lemma insertRuleLines_constrained vs :
  (forall v, v ∈ vs -> forall id now, pl_id (v id now) = id) -> respects constrained (insertRuleLines vs).
Proof.
  intros V db rows db' H. unfold insertRuleLines in H. inv_stmt.
  match goal with G : st_mapM _ _ _ = _ |- _ => apply insertRuleLineRows_added in G as (next & -> & Ha & Hc); [|done] end.
  keep_tables. destruct (table_kept _ _ _ _ _ co_rule_lines0 R) as [Hk Hr]. split; [by apply Ha|].
  match goal with G : forallb _ _ = true |- _ => rewrite forallb_elem in G; rename G into Hfk end.
  intros l [Hin|Hin]%elem_of_app; [by apply Hr|]. unfold rule_line_row_ok.
  destruct (Hc l Hin) as [-> ->]. by apply Hfk.
Qed.
#[export] Hint Resolve audit_append_constrained insertBook_constrained updateBook_constrained
  insertLink_constrained updateLink_constrained insertAccount_constrained updateAccount_constrained
  insertPeriodOnConflict_constrained updatePeriodStatus_constrained insertJournalEntry_constrained
  updateJournalEntry_constrained insertJournalLineRow_constrained insertLineDimensions_constrained
  insertSourceLinkRow_constrained insertRuleRow_constrained updateRule_constrained insertVersionRow_constrained
  updateVersionStatus_constrained : store.

(** *** Verbs *)
Lemma reads_constrained {A} (m : run A) : reads m -> respects constrained m.
Proof. apply reads_respects. apply _. Qed.
Lemma reads_constrained_always {A} (m : run A) : reads m -> always constrained m.
Proof. apply reads_always. apply _. Qed.
#[export] Hint Resolve reads_constrained reads_constrained_always : store.
Lemma constrained_frame db db' :
  ledger_part (set_facts (db_facts db) (set_deferred (db_deferred db) db')) = ledger_part db ->
  constrained db db'.
Proof.
  unfold ledger_part. cbn. intros [= E1 E2 E3 E4 E5 E6 E7 E8 E9 E10 E11 E12 E13 E14 E15].
  assert (refs_kept db db') as R.
  { split; rewrite ?E1, ?E2, ?E3, ?E4, ?E5, ?E6, ?E7, ?E8, ?E9, ?E10, ?E11, ?E12, ?E13; auto. }
  intros []. split; rewrite ?E3, ?E4, ?E5, ?E8, ?E9, ?E10, ?E11, ?E12, ?E13, ?E14, ?E15;
    first [done|eapply table_kept; [exact _|eassumption|exact R]].
Qed.
Lemma transaction_constrained {A} (body : run A) :
  respects constrained body -> always constrained (transaction body).
Proof.
  intros Hb db. unfold transaction. destruct (body (begin_tx db)) as [[a|e] db1] eqn:E; [|done].
  destruct (commit_check db1); cbn; [|done]. trans (begin_tx db); [by apply constrained_frame|].
  trans db1; [exact (Hb _ _ _ E)|by apply constrained_frame].
Qed.

(** The values a loop of readers computes, and what each of them satisfies. *)
Lemma computed_values {A B} (f : A -> run B) (P : B -> Prop) l db vs db' :
  (forall x, reads (f x)) -> (forall x db v db', f x db = (Ok v, db') -> P v) ->
  st_mapM f l db = (Ok vs, db') -> db' = db /\ forall v, v ∈ vs -> P v.
Proof.
  intros Hr HP H. apply st_mapM_reads_Forall2 in H as [-> H]; [|done]. split; [done|].
  intros v [i Hi]%list_elem_of_lookup. destruct (Forall2_lookup_r _ _ _ _ _ H Hi) as (x & _ & Hx). by eapply HP.
Qed.

Lemma insertJournalLines_constrained vs :
  (forall v, v ∈ vs -> forall id now, jl_id (v id now) = id) -> respects constrained (insertJournalLines vs).
Proof.
  intros V. unfold insertJournalLines. apply (respects_bind constrained); [|intros rows; solve_respects].
  induction vs as [|v vs IH]; cbn [st_mapM]; [solve_respects|].
  apply (respects_bind constrained); [apply insertJournalLineRow_constrained, V; set_solver|intros row].
  apply (respects_bind constrained); [|intros rows; solve_respects]. apply IH. set_solver.
Qed.
Lemma insertLines_constrained book e lines : respects constrained (insertLines book e lines).
Proof.
  intros db out db' H. unfold insertLines in H. run_bind H vs s Hvs.
  apply (computed_values _ (fun v => forall id now, jl_id (v id now) = id)) in Hvs as [-> V];
    [|solve_respects|intros x s1 v s2 E id now; by apply (line_values_inv _ _ _ _ _ _ E)].
  run_bind H rows s Hrows. etrans; [by apply (insertJournalLines_constrained vs V _ _ _ Hrows)|].
  revert H. apply (respects_bind constrained); [|intros; solve_respects].
  solve_respects.
Qed.
Lemma insertSourceLinks_constrained e links : respects constrained (insertSourceLinks e links).
Proof. unfold insertSourceLinks, insertSourceLink. solve_respects. Qed.
Lemma nextEntryNumber_constrained book : respects constrained (nextEntryNumber book).
Proof. unfold nextEntryNumber. solve_respects. Qed.
Lemma insertHeader_constrained book hd : respects constrained (insertHeader book hd).
Proof. unfold insertHeader. solve_respects. Qed.
Lemma markPosted_constrained d n p b actor : respects constrained (markPosted d n p b actor).
Proof. unfold markPosted. solve_respects. Qed.
Lemma insertVersion_constrained rule n p lines createdBy :
  respects constrained (insertVersion rule n p lines createdBy).
Proof.
  unfold insertVersion. do 4 (apply (respects_bind constrained); [solve_respects|intros ?]).
  apply (respects_bind constrained); [solve_respects|intros row]. intros db out db' H. run_bind H vs s Hvs.
  apply (computed_values _ (fun v => forall id now, pl_id (v id now) = id)) in Hvs as [-> V]; [|solve_respects|].
  - revert H. apply (respects_bind constrained); [by apply insertRuleLines_constrained|intros; solve_respects].
  - intros x s1 v s2 E id now. unfold rule_line_values in E. inv_st. done.
Qed.
#[export] Hint Resolve insertLines_constrained insertSourceLinks_constrained nextEntryNumber_constrained
  insertHeader_constrained markPosted_constrained insertVersion_constrained transaction_constrained : store.

Lemma seed_loop_constrained book ordered byCode : respects constrained (seed_loop book ordered byCode).
Proof. revert byCode. induction ordered as [|a l IH]; intros; simpl; solve_respects. Qed.
#[export] Hint Resolve seed_loop_constrained : store.

Lemma postEntry_constrained i : always constrained (postEntry i).
Proof.
  unfold postEntry. solve_respects; [|apply reads_constrained_always, postEntry_handler_reads].
  apply transaction_constrained. unfold postEntry_body, postEntry_fresh. solve_respects.
Qed.
Lemma createDraft_constrained i : always constrained (createDraft i).
Proof.
  unfold createDraft. solve_respects. apply transaction_constrained. unfold createDraft_body. solve_respects.
Qed.
Lemma postDraft_constrained id b actor request : always constrained (postDraft id b actor request).
Proof. apply transaction_constrained. unfold postDraft_body. solve_respects. Qed.
Lemma voidDraft_constrained id reason actor request : always constrained (voidDraft id reason actor request).
Proof. unfold voidDraft. cbv zeta. solve_respects. apply transaction_constrained. solve_respects. Qed.
Lemma reverseEntry_constrained id t reason b actor request :
  always constrained (reverseEntry id t reason b actor request).
Proof.
  unfold reverseEntry. cbv zeta. solve_respects. apply transaction_constrained.
  unfold reverseEntry_body, reverseEntry_write. solve_respects.
Qed.
Lemma setStatus_constrained i : always constrained (setStatus i).
Proof. unfold setStatus. solve_respects. apply transaction_constrained. unfold setStatus_body. solve_respects. Qed.
Lemma generateFiscalYear_constrained i : always constrained (generateFiscalYear i).
Proof.
  unfold generateFiscalYear. solve_respects. apply transaction_constrained.
  unfold generateFiscalYear_body. solve_respects.
  apply respects_rethrow; [unfold insertGeneratedPeriods; solve_respects|].
  intros e s r s'. by case_match.
Qed.
Lemma seedDefaultChart_constrained book t actor request :
  always constrained (seedDefaultChart book t actor request).
Proof. apply transaction_constrained. unfold seedDefaultChart_body, seed. solve_respects. Qed.
Lemma createAccount_constrained i : always constrained (createAccount i).
Proof.
  unfold createAccount. solve_respects. apply transaction_constrained. unfold createAccount_body. solve_respects.
Qed.
Lemma updateAccount_service_constrained i : always constrained (Chart.updateAccount i).
Proof.
  unfold Chart.updateAccount. solve_respects. apply transaction_constrained.
  unfold updateAccount_body. solve_respects.
Qed.
Lemma archiveAccount_constrained id actor request : always constrained (archiveAccount id actor request).
Proof. apply transaction_constrained. solve_respects. Qed.
Lemma reactivateAccount_constrained id actor request : always constrained (reactivateAccount id actor request).
Proof. apply transaction_constrained. solve_respects. Qed.
Lemma archiveBook_constrained id actor request : always constrained (archiveBook id actor request).
Proof. apply transaction_constrained. solve_respects. Qed.
Lemma linkEntity_constrained i : always constrained (linkEntity i).
Proof.
  unfold linkEntity. solve_respects. apply transaction_constrained.
  unfold linkEntity_body, insertLink_dated. solve_respects.
  apply respects_rethrow; [unfold insertLink_dated; solve_respects|].
  intros err s r s'. by destruct (isExclusionViolation err).
Qed.
Lemma endLink_constrained id t actor request : always constrained (endLink id t actor request).
Proof. apply transaction_constrained. solve_respects. Qed.
Lemma createBook_constrained i : always constrained (createBook i).
Proof.
  unfold createBook. solve_respects.
  - apply transaction_constrained. unfold createBook_row. solve_respects.
  - apply seedDefaultChart_constrained.
  - apply generateFiscalYear_constrained.
Qed.
Lemma createRule_constrained i : always constrained (createRule i).
Proof.
  unfold createRule. solve_respects. apply transaction_constrained.
  unfold createRule_body, activate. solve_respects.
Qed.
Lemma addVersion_constrained i : always constrained (addVersion i).
Proof.
  unfold addVersion. solve_respects. apply transaction_constrained.
  unfold addVersion_body, activate. solve_respects.
Qed.
Lemma activateVersion_constrained id actor request : always constrained (activateVersion id actor request).
Proof. unfold activateVersion. solve_respects. apply transaction_constrained. unfold activate. solve_respects. Qed.
Lemma setRuleStatus_constrained id st actor request : always constrained (setRuleStatus id st actor request).
Proof. unfold setRuleStatus. solve_respects. apply transaction_constrained. solve_respects. Qed.

(** ** Healthy stores *)
Record healthy (db : Db) : Prop := {
  he_sound : sound db;
  he_chart : chart_ok db;
  he_expenses : tables_ok (expense_state db);
  he_constraints : constraints_ok db;
}.

(** What a call may do to a healthy store: keep it healthy, and neither rewrite
    the books nor the evidence of an expense. *)
Record kept (db db' : Db) : Prop := {
  kp_healthy : healthy db';
  kp_books : evolves db db';
  kp_evidence : evidence_kept (expense_state db) (expense_state db');
}.
Definition healthy_step (db db' : Db) : Prop := healthy db -> kept db db'.
#[export] Instance healthy_step_preorder : PreOrder healthy_step.
Proof.
  split; [intros db H; split; [done|reflexivity..]|].
  intros a b c H1 H2 Ha. destruct (H1 Ha) as [Hb ??]. destruct (H2 Hb). split; [done|by etrans..].
Qed.

Lemma healthy_of {A} (m : run A) :
  always sound_step m -> (forall db, committed db -> chart_step db (snd (m db))) -> always spares m ->
  always constrained m -> always healthy_step m.
Proof.
  intros Hs Hc He Hk db [H1 H2 H5 H6]. destruct (Hs db H1) as [H3 H4]. specialize (He db). unfold spares in He.
  split; [|done|by rewrite He]. split; [done| |by rewrite He|by apply Hk]. by apply Hc; [apply H1|].
Qed.
Lemma healthy_calm {A} (m : run A) :
  always tx_ok m -> always quiet m -> always calm m -> always constrained m -> always healthy_step m.
Proof.
  intros H1 H2 H3 H4. apply healthy_of; [by apply sound_of_quiet| |by apply calm_spares_always|done].
  intros db _. by apply always_chart.
Qed.
Lemma healthy_chart {A} (m : run A) :
  always tx_ok m -> always quiet m -> always chart_step m -> always spares m -> always constrained m ->
  always healthy_step m.
Proof. intros H1 H2 H3 H4 H5. apply healthy_of; [by apply sound_of_quiet| |done..]. intros db _. apply H3. Qed.

Lemma reads_healthy {A} (m : run A) : reads m -> always healthy_step m.
Proof. apply reads_always. apply _. Qed.
Lemma postEntry_healthy i : always healthy_step (postEntry i).
Proof.
  apply healthy_of; [apply postEntry_sound|apply postEntry_chart|apply calm_spares_always, postEntry_calm
    |apply postEntry_constrained].
Qed.
Lemma reverseEntry_healthy id t reason b actor request :
  always healthy_step (reverseEntry id t reason b actor request).
Proof.
  apply healthy_of; [apply reverseEntry_sound|apply reverseEntry_chart|apply calm_spares_always, reverseEntry_calm
    |apply reverseEntry_constrained].
Qed.
Lemma createRule_healthy i : always healthy_step (createRule i).
Proof. apply healthy_calm; [apply createRule_tx_ok|apply createRule_quiet|apply createRule_calm|apply createRule_constrained]. Qed.
#[export] Hint Resolve reads_healthy postEntry_healthy reverseEntry_healthy createRule_healthy : store.

Lemma post_healthy f r b h i : always healthy_step (post f r b h i).
Proof. unfold post. solve_respects. Qed.
Lemma reverse_for_healthy f i e reason : always healthy_step (reverse_for f i e reason).
Proof. unfold reverse_for. solve_respects. Qed.
#[export] Hint Resolve post_healthy reverse_for_healthy : store.
Lemma evaluateFact_healthy digest i : always healthy_step (evaluateFact digest i).
Proof.
  unfold evaluateFact, evaluate_ineligible, evaluate_eligible, evaluate_existing, evaluate_new.
  cbv zeta. solve_respects.
Qed.
#[export] Hint Resolve evaluateFact_healthy : store.
Lemma engine_evaluateFact_healthy digest i : always healthy_step (engine_evaluateFact digest i).
Proof. unfold engine_evaluateFact. solve_respects. Qed.
Lemma evaluateFacts_healthy digest l : always healthy_step (evaluateFacts digest l).
Proof. unfold evaluateFacts. solve_respects. Qed.
Lemma seedDefaultRules_healthy actor request : always healthy_step (seedDefaultRules actor request).
Proof.
  unfold seedDefaultRules. generalize DEFAULT_POSTING_RULES as l.
  induction l as [|t l IH]; cbn [seed_rules]; unfold findRuleByCode; solve_respects.
Qed.
#[export] Hint Resolve evaluateFacts_healthy seedDefaultRules_healthy : store.
Lemma sweep_healthy digest limit default :
  always healthy_step (runAccountingPostFactsSweep digest limit default).
Proof. unfold runAccountingPostFactsSweep. cbv zeta. solve_respects. Qed.

(** ** Calls *)
Inductive call : Type :=
  | CreateBook (i : CreateBookInput)
  | ArchiveBook (id : uuid) (actor request : option string)
  | LinkEntity (i : LinkEntityInput)
  | EndLink (id : uuid) (t : date) (actor request : option string)
  | SeedDefaultChart (book : uuid) (template : option (list ChartTemplateAccount)) (actor request : option string)
  | CreateAccount (i : CreateAccountInput)
  | UpdateAccount (i : UpdateAccountInput)
  | ArchiveAccount (id : uuid) (actor request : option string)
  | ReactivateAccount (id : uuid) (actor request : option string)
  | GenerateFiscalYear (i : GenerateFiscalYearInput)
  | SetStatus (i : SetStatusInput)
  | PostEntry (i : EntryInput)
  | CreateDraft (i : EntryInput)
  | PostDraft (id : uuid) (backdated : bool) (actor request : option string)
  | VoidDraft (id : uuid) (reason : string) (actor request : option string)
  | ReverseEntry (id : uuid) (t : option date) (reason : string) (backdated : bool) (actor request : option string)
  | CreateRule (i : CreateRuleInput)
  | AddVersion (i : AddVersionInput)
  | ActivateVersion (id : uuid) (actor request : option string)
  | SetRuleStatus (id : uuid) (st : RuleStatus) (actor request : option string)
  | SeedDefaultRules (actor request : option string)
  | EvaluateFact (i : EvaluateFactInput)
  | Sweep (limit : option Z) (default_book : option uuid)
  (** the other packages write the facts *)
  | RecordFacts (facts : FactTables)
  | Expenses (c : expense_call).

Section system.
Variable digest : string -> string.

(** The store a call leaves, whether it returned or threw. *)
Definition perform (c : call) (db : Db) : Db :=
  match c with
  | CreateBook i => snd (createBook i db)
  | ArchiveBook id a r => snd (archiveBook id a r db)
  | LinkEntity i => snd (linkEntity i db)
  | EndLink id t a r => snd (endLink id t a r db)
  | SeedDefaultChart b t a r => snd (seedDefaultChart b t a r db)
  | CreateAccount i => snd (createAccount i db)
  | UpdateAccount i => snd (Chart.updateAccount i db)
  | ArchiveAccount id a r => snd (archiveAccount id a r db)
  | ReactivateAccount id a r => snd (reactivateAccount id a r db)
  | GenerateFiscalYear i => snd (generateFiscalYear i db)
  | SetStatus i => snd (setStatus i db)
  | PostEntry i => snd (postEntry i db)
  | CreateDraft i => snd (createDraft i db)
  | PostDraft id b a r => snd (postDraft id b a r db)
  | VoidDraft id reason a r => snd (voidDraft id reason a r db)
  | ReverseEntry id t reason b a r => snd (reverseEntry id t reason b a r db)
  | CreateRule i => snd (createRule i db)
  | AddVersion i => snd (addVersion i db)
  | ActivateVersion id a r => snd (activateVersion id a r db)
  | SetRuleStatus id st a r => snd (setRuleStatus id st a r db)
  | SeedDefaultRules a r => snd (seedDefaultRules a r db)
  | EvaluateFact i => snd (engine_evaluateFact digest i db)
  | Sweep l b => snd (runAccountingPostFactsSweep digest l b db)
  | RecordFacts v => set_facts v db
  | Expenses c => perform_expense c db
  end.

(** The stores reached from an installation with books (that [accounting_books]
    admits) and no activity. *)
Inductive reachable : Db -> Prop :=
  | reach_installation users entities books :
      NoDup (bk_id <$> books) -> Forall (fun b => bk_nextEntryNumber b = 1) books ->
      Forall (fun b => book_checks b = true) books -> NoDup (bk_code <$> books) ->
      Forall (fun b => user_exists (installation users entities books) (bk_createdByUserId b) = true) books ->
      reachable (installation users entities books)
  | reach_call c db : reachable db -> reachable (perform c db).

(** A step that leaves the ledger's rows alone. *)
Lemma ledger_apart_healthy db db' :
  step_ok db db' -> db_entries db' = db_entries db -> db_lines db' = db_lines db ->
  db_books db' = db_books db -> db_accounts db' = db_accounts db -> db_deferred db' = db_deferred db ->
  (tables_ok (expense_state db) -> tables_ok (expense_state db') /\
     evidence_kept (expense_state db) (expense_state db')) -> constrained db db' -> healthy_step db db'.
Proof.
  intros [Hok Hev] E1 E2 E3 E4 E5 Hx Hk' [Hs [Hc1 Hc2 Hc3] He Hcs]. destruct (Hx He) as [Ho Hk].
  split; [|done|done]. split; [| |done|by apply Hk'].
  - destruct (sound_of_step db db') as [Hs' _]; [|intros _; by apply step_quiet, quiet_frame|done|done].
    intros [H1 H2]. split; [|done]. split; [by apply Hok|congruence].
  - split; [by rewrite E4| |unfold books_checked; by rewrite E3]. rewrite E2, E4. exact Hc2.
Qed.

Lemma facts_healthy v db : healthy_step db (set_facts v db).
Proof.
  apply ledger_apart_healthy; [by by_frame|done..| |by apply constrained_frame].
  intros H. split; [exact H|reflexivity].
Qed.

Lemma expenses_healthy c db : healthy_step db (perform_expense c db).
Proof.
  intros Hh. pose proof (he_expenses _ Hh) as Ht.
  destruct (perform_expense_aside c db (proj2 (sd_committed _ (he_sound _ Hh)))) as [El Ha].
  assert (constrained db (perform_expense c db)) as Hk.
  { apply constrained_frame. unfold ledger_part in *. cbn. injection El as. congruence. }
  unfold ledger_part in El. injection El as. revert Hh.
  apply ledger_apart_healthy; try done; [by by_frame|].
  intros _. pose proof (call_moves c db Ht) as Hm. split; [by eapply tables_ok_move|by eapply move_keeps_evidence].
Qed.

Lemma perform_healthy c db : healthy_step db (perform c db).
Proof.
  destruct c; cbn [perform].
  - apply healthy_chart; [apply createBook_tx_ok|apply createBook_quiet|apply createBook_chart|apply createBook_spares
    |apply createBook_constrained].
  - apply healthy_calm; [apply archiveBook_tx_ok|apply archiveBook_quiet|apply archiveBook_calm|apply archiveBook_constrained].
  - apply healthy_calm; [apply linkEntity_tx_ok|apply linkEntity_quiet|apply linkEntity_calm|apply linkEntity_constrained].
  - apply healthy_calm; [apply endLink_tx_ok|apply endLink_quiet|apply endLink_calm|apply endLink_constrained].
  - apply healthy_chart; [apply seedDefaultChart_tx_ok|apply seedDefaultChart_quiet|apply seedDefaultChart_chart|apply seedDefaultChart_spares
    |apply seedDefaultChart_constrained].
  - apply healthy_chart; [apply createAccount_tx_ok|apply createAccount_quiet|apply createAccount_chart|apply createAccount_spares
    |apply createAccount_constrained].
  - apply healthy_chart; [apply updateAccount_tx_ok|apply updateAccount_service_quiet|apply updateAccount_service_chart
    |apply updateAccount_service_spares
    |apply updateAccount_service_constrained].
  - apply healthy_chart; [apply archiveAccount_tx_ok|apply archiveAccount_quiet|apply archiveAccount_chart|apply archiveAccount_spares
    |apply archiveAccount_constrained].
  - apply healthy_chart; [apply reactivateAccount_tx_ok|apply reactivateAccount_quiet|apply reactivateAccount_chart|apply reactivateAccount_spares
    |apply reactivateAccount_constrained].
  - apply healthy_calm; [apply generateFiscalYear_tx_ok|apply generateFiscalYear_quiet|apply generateFiscalYear_calm|apply generateFiscalYear_constrained].
  - apply healthy_calm; [apply setStatus_tx_ok|apply setStatus_quiet|apply setStatus_calm|apply setStatus_constrained].
  - apply postEntry_healthy.
  - apply healthy_of; [apply createDraft_sound|intros s _; apply createDraft_chart|apply calm_spares_always, createDraft_calm
    |apply createDraft_constrained].
  - apply healthy_of; [apply postDraft_sound|intros s _; apply postDraft_chart|apply calm_spares_always, postDraft_calm
    |apply postDraft_constrained].
  - apply healthy_of; [apply voidDraft_sound|intros s _; apply voidDraft_chart|apply calm_spares_always, voidDraft_calm
    |apply voidDraft_constrained].
  - apply reverseEntry_healthy.
  - apply createRule_healthy.
  - apply healthy_calm; [apply addVersion_tx_ok|apply addVersion_quiet|apply addVersion_calm|apply addVersion_constrained].
  - apply healthy_calm; [apply activateVersion_tx_ok|apply activateVersion_quiet|apply activateVersion_calm|apply activateVersion_constrained].
  - apply healthy_calm; [apply setRuleStatus_tx_ok|apply setRuleStatus_quiet|apply setRuleStatus_calm|apply setRuleStatus_constrained].
  - apply seedDefaultRules_healthy.
  - apply engine_evaluateFact_healthy.
  - apply sweep_healthy.
  - apply facts_healthy.
  - apply expenses_healthy.
Qed.

Lemma installation_healthy users entities books :
  NoDup (bk_id <$> books) -> Forall (fun b => bk_nextEntryNumber b = 1) books ->
  Forall (fun b => book_checks b = true) books -> NoDup (bk_code <$> books) ->
  Forall (fun b => user_exists (installation users entities books) (bk_createdByUserId b) = true) books ->
  healthy (installation users entities books).
Proof.
  intros H1 H2 H3 H4 H5. split; [by apply installation_sound| |split; constructor|].
  { split; [constructor| |done]. intros l Hl. by apply not_elem_of_nil in Hl. }
  split; try (split; [by intros []|intros ? []%not_elem_of_nil]); [|by intros []]. split.
  - by apply apart_keys.
  - intros b Hb. rewrite Forall_forall in H5. by apply H5.
Qed.

Lemma reachable_is_healthy db : reachable db -> healthy db.
Proof.
  induction 1 as [users entities books H1 H2 H3 H4 H5|c db _ IH]; [by apply installation_healthy|].
  by apply perform_healthy.
Qed.

(** C2. Every store the system reaches, through any calls in any order, returning or
    throwing, is healthy.  The accounting tables keep the keys, checks and foreign
    keys of [constraints_ok] and [ledger_ok]: identifiers, book codes, account codes
    and system keys and period codes of a book, posting keys, entry numbers of a
    book, line numbers of an entry, source links, rule codes, versions and their
    lines are unique; no two periods of a book and no two primary links of an entity
    overlap; every reference of these rows leads to a row.  Entries in the books
    balance, carry the period of their day and are numbered without gaps; reversals
    are unique and mirror what they reverse; every line is on a postable account;
    expenses, their allocations and lines have keys and owners of their own.  And no
    call rewrites what was recorded: an entry in the books stays, unaltered but for
    being marked reversed, with its lines; a submitted expense keeps its amounts,
    splits and lines; the audit log only grows. *)
Theorem reachable_healthy (db : Db) : reachable db ->
  healthy db /\ forall c, kept db (perform c db).
Proof.
  intros Hh%reachable_is_healthy. split; [done|]. intros c. by apply perform_healthy.
Qed.

(** C6. The books always balance: in every store the system reaches, whatever
    was called before and in whatever order, every book has a trial balance whose
    difference is ["0.000000"] and, for every date from the year 1001 on, a
    balance sheet that balances, as long as what passed through the lines fits a
    [numeric(20, 6)]. *)
Theorem reachable_books_balance (db : Db) (book : AccountingBook) (asOf : date) :
  reachable db -> find_book (bk_id book) db = Some book -> volume (db_lines db) < 10 ^ 20 ->
  valid_date asOf = true -> 1001 <= year_of asOf ->
  exists t s,
    trialBalance (bk_id book) every_date db = (Ok t, db) /\ tb_difference t = "0.000000"%string /\
    balanceSheet (bk_id book) asOf None None db = (Ok s, db) /\ bs_balanced s = true /\
    bs_difference s = "0.000000"%string.
Proof.
  intros Hr Hf Hv Hd Hy. apply reachable_is_healthy in Hr as [Hs Hch]. pose proof (sd_committed _ Hs) as Hc.
  destruct (trial_difference db (bk_id book) Hc Hv) as (t & Ht & Hdt).
  assert (book_checks book = true) as Hb.
  { pose proof (ch_books _ Hch) as Hb. unfold books_checked in Hb. rewrite Forall_forall in Hb. apply Hb.
    by apply find_row_some in Hf as [? _]. }
  unfold book_checks in Hb. rewrite !andb_true_iff, !Z.leb_le in Hb.
  destruct (sheet_difference db book asOf None Hc (chart_ok_postable _ Hch) Hv Hf) as (s & Hbs & E1 & E2);
    [tauto..|done|done|].
  exists t, s. done.
Qed.
End system.

(** ** Samples *)
Lemma reached c db db' : perform sample_digest c db = db' -> reachable sample_digest db -> reachable sample_digest db'.
Proof. intros <-. apply reach_call. Qed.

Lemma reachable_posted : reachable sample_digest posted_db.
Proof.
  apply (reached (PostEntry sample_posting) ledger_db); [unfold posted_db, perform; reflexivity|].
  apply (reached (SeedDefaultChart 1 None None None) sample_db_2026); [unfold ledger_db, perform; reflexivity|].
  apply (reached (GenerateFiscalYear sample_year) sample_db); [unfold sample_db_2026, perform; reflexivity|].
  apply reach_installation; [apply NoDup_singleton|by repeat constructor|by repeat constructor
    |apply NoDup_singleton|by repeat constructor].
Qed.

Lemma reachable_healthy_witness :
  healthy posted_db /\ kept posted_db (perform sample_digest (PostEntry sample_posting) posted_db).
Proof.
  destruct (reachable_healthy sample_digest posted_db reachable_posted) as [H1 H2].
  split; [exact H1|]. apply H2.
Defined.

Lemma reachable_books_balance_witness :
  exists t s, trialBalance (bk_id posted_book) every_date posted_db = (Ok t, posted_db) /\
    tb_difference t = "0.000000"%string /\ tb_totalDebit t = "125.500000"%string /\
    balanceSheet (bk_id posted_book) 20261231 None None posted_db = (Ok s, posted_db) /\ bs_balanced s = true.
Proof.
  destruct (reachable_books_balance sample_digest posted_db posted_book 20261231 reachable_posted)
    as (t & s & Ht & Hd & Hs & Hb & _);
    [vm_compute; reflexivity|vm_compute; reflexivity|reflexivity|vm_compute; discriminate|].
  exists t, s. split; [exact Ht|]. split; [exact Hd|]. split; [|by split].
  assert (fst (trialBalance (bk_id posted_book) every_date posted_db) = Ok t) as E by (rewrite Ht; reflexivity).
  revert E. vm_compute. intros [= <-]. reflexivity.
Defined.
