(* ===== verification/Stock.v ===== *)
(** * The inventory tables

    The rows of [packages/db/src/schema/inventory.ts] that the inventory package
    keeps, with the constraints of that schema and the statements the package
    issues on them.  Columns that are written together are grouped in a record.
    A [numeric(20, 6)] column is an integer of micro-units, read back as
    [fromUnits]. *)
From S2P Require Import Prelude Decimal DecimalPackages Calendar Inputs Store Schema Ledger.

Open Scope Z_scope.
#[local] Arguments String.append : simpl nomatch.

(** ** The closed sets *)
Inductive MovementKind : Type :=
  | Receipt | TransferIn | ReturnIn | AdjustmentIn | Found
  | TransferOut | DepletionSale | AdjustmentOut | Shrinkage | Disposal | Consumption | Reversal.
#[export] Instance MovementKind_eq_dec : EqDecision MovementKind.
Proof. solve_decision. Defined.

Inductive AllocationKind : Type := OrderLineAllocation | ManualHold | TransferAllocation | ProjectAllocation.
#[export] Instance AllocationKind_eq_dec : EqDecision AllocationKind.
Proof. solve_decision. Defined.

Inductive AllocationStatus : Type := Reserved | Fulfilled | Released | Cancelled | Expired.
#[export] Instance AllocationStatus_eq_dec : EqDecision AllocationStatus.
Proof. solve_decision. Defined.

Inductive CostAllocationBasis : Type := BasisEqual | BasisRelativeValue | BasisWeight | BasisManual | BasisDirect.
#[export] Instance CostAllocationBasis_eq_dec : EqDecision CostAllocationBasis.
Proof. solve_decision. Defined.

Inductive CostAllocationStatus : Type := CostPending | CostProvisional | CostFinal.
Inductive CostClass : Type := Goods | Ancillary.
#[export] Instance CostClass_eq_dec : EqDecision CostClass.
Proof. solve_decision. Defined.
Inductive CostScope : Type := LotScope | ItemScope.
#[export] Instance CostScope_eq_dec : EqDecision CostScope.
Proof. solve_decision. Defined.

Inductive AttributionSource : Type :=
  | SourceManual | AcquisitionDefault | InstallationDefault | ConnectionDefault | Unattributed.
#[export] Instance AttributionSource_eq_dec : EqDecision AttributionSource.
Proof. solve_decision. Defined.

Inductive ItemSaleMode : Type := SaleUnit | SaleLot | SaleSet | PartsDonor | PartedOut | BundleComponent.
#[export] Instance ItemSaleMode_eq_dec : EqDecision ItemSaleMode.
Proof. solve_decision. Defined.

Inductive ConditionCode : Type :=
  | NewSealed | NewOpenBox | LikeNew | VeryGood | Good | Acceptable | ForParts | Damaged | UnknownCondition.

(** ** Rows *)
Record Attribution : Type := {
  at_economicEntityId : option uuid;
  at_source : AttributionSource;
  at_attributedAt : option Z;
  at_attributedByUserId : option string;
}.

Record AcquisitionRow : Type := {
  lot_id : uuid;
  lot_attribution : Attribution;
  lot_sourceKind : string;
  lot_status : string;
  lot_referenceCode : string;
  lot_title : string;
  lot_vendorName : option string;
  lot_vendorLocation : option string;
  lot_externalReference : option string;
  lot_connectionId : option uuid;
  lot_currency : string;
  lot_costAllocationBasis : CostAllocationBasis;
  lot_costAllocationStatus : CostAllocationStatus;
  lot_acquiredAt : Z;
  lot_receivedAt : option Z;
  lot_expectedItemCount : option Z;
  lot_notes : option string;
  lot_createdByUserId : option string;
}.

Record AcquisitionCostRow : Type := {
  lc_id : uuid;
  lc_acquisitionId : uuid;
  lc_inventoryItemId : option uuid;
  lc_costScope : CostScope;
  lc_costType : string;
  lc_costClass : CostClass;
  lc_capitalize : bool;
  lc_description : option string;
  lc_vendorName : option string;
  lc_externalReference : option string;
  lc_currency : string;
  lc_amount : Z;
  lc_incurredAt : option Z;
  lc_createdAt : Z;
}.

Record ItemGrade : Type := {
  gr_conditionCode : ConditionCode;
  gr_conditionNotes : option string;
  gr_gradingAuthority : option string;
  gr_gradeLabel : option string;
  gr_gradeNumeric : option Z;
  gr_certificateNumber : option string;
}.

(** What the movement ledger decides, and what listing adds. *)
Record ItemStock : Type := {
  st_status : string;
  st_quantityOnHand : Z;
  st_depletedAt : option Z;
  st_listedAt : option Z;
}.

Record ItemBasis : Type := {
  ba_acquisitionCostAmount : Z;
  ba_landedCostAmount : Z;
  ba_costAllocationBasis : option CostAllocationBasis;
  ba_costAllocationWeight : option Z;
  ba_costBasisLockedAt : option Z;
  ba_estimatedValueAmount : option Z;
}.

Record ItemParcel : Type := {
  pa_description : option string;
  pa_packageWeightGrams : option Z;
  pa_packageLengthMm : option Z;
  pa_packageWidthMm : option Z;
  pa_packageHeightMm : option Z;
}.

(** [ba_costAllocationBasis] is [None] for [unallocated]. *)
Record InventoryItemRow : Type := {
  ir_id : uuid;
  ir_itemCode : string;
  ir_acquisitionId : option uuid;
  ir_catalogItemId : option uuid;
  ir_originItemId : option uuid;
  ir_label : string;
  ir_lotReference : option string;
  ir_serialNumber : option string;
  ir_quantity : Z;
  ir_currency : string;
  ir_acquiredAt : Z;
  ir_receivedAt : option Z;
  ir_createdByUserId : option string;
  ir_createdAt : Z;
  ir_attribution : Attribution;
  ir_locationId : option uuid;
  ir_grade : ItemGrade;
  ir_stock : ItemStock;
  ir_basis : ItemBasis;
  ir_parcel : ItemParcel;
  ir_saleMode : ItemSaleMode;
  ir_updatedAt : Z;
}.

Record MovementRow : Type := {
  mo_id : uuid;
  mo_inventoryItemId : uuid;
  mo_movementKind : MovementKind;
  mo_quantity : Z;
  mo_locationId : option uuid;
  mo_transferGroupId : option uuid;
  mo_acquisitionId : option uuid;
  mo_inventoryAllocationId : option uuid;
  mo_orderLineId : option uuid;
  mo_orderFulfillmentId : option uuid;
  mo_shipmentId : option uuid;
  mo_reversesMovementId : option uuid;
  mo_reasonCode : option string;
  mo_note : option string;
  mo_deduplicationKey : string;
  mo_occurredAt : Z;
  mo_recordedAt : Z;
  mo_actorUserId : option string;
}.

Record InventoryAllocationRow : Type := {
  rv_id : uuid;
  rv_inventoryItemId : uuid;
  rv_allocationKind : AllocationKind;
  rv_orderLineId : option uuid;
  rv_quantity : Z;
  rv_status : AllocationStatus;
  rv_allocatedAt : Z;
  rv_expiresAt : option Z;
  rv_fulfilledAt : option Z;
  rv_releasedAt : option Z;
  rv_releaseReason : option string;
  rv_createdByUserId : option string;
}.

Inductive LocationKind : Type := Site | Room | Area | Shelf | Bin | Container | Vehicle | InTransit.

Record InventoryLocationRow : Type := {
  loc_id : uuid;
  loc_parentLocationId : option uuid;
  loc_code : string;
  loc_name : string;
  loc_kind : LocationKind;
  loc_path : string;
  loc_depth : Z;
  loc_isDefault : bool;
  loc_active : bool;
  loc_notes : option string;
}.

Record ConnectionRow : Type := { cn_id : uuid; cn_economicEntityId : option uuid }.

(** ** The store

    [sk_random] is the random source of the process: what the calls of [randomInt]
    of one generated code return. *)
Record Stock : Type := {
  sk_items : list InventoryItemRow;
  sk_movements : list MovementRow;
  sk_allocations : list InventoryAllocationRow;
  sk_acquisitions : list AcquisitionRow;
  sk_costs : list AcquisitionCostRow;
  sk_locations : list InventoryLocationRow;
  sk_orderLines : list uuid;
  sk_fulfillments : list uuid;
  sk_shipments : list uuid;
  sk_entities : list uuid;
  sk_connections : list ConnectionRow;
  sk_catalogItems : list uuid;
  sk_users : list string;
  sk_audit : list AuditEvent;
  sk_random : positive -> nat -> nat;
  sk_next : uuid;
  sk_now : Z;
}.

Definition put_items (v : list InventoryItemRow) (s : Stock) : Stock :=
  {| sk_items := v; sk_movements := sk_movements s; sk_allocations := sk_allocations s;
     sk_acquisitions := sk_acquisitions s; sk_costs := sk_costs s; sk_locations := sk_locations
     s; sk_orderLines := sk_orderLines s; sk_fulfillments := sk_fulfillments s; sk_shipments :=
     sk_shipments s; sk_entities := sk_entities s; sk_connections := sk_connections s;
     sk_catalogItems := sk_catalogItems s; sk_users := sk_users s; sk_audit := sk_audit s;
     sk_random := sk_random s; sk_next := sk_next s; sk_now := sk_now s |}.
Definition put_movements (v : list MovementRow) (s : Stock) : Stock :=
  {| sk_items := sk_items s; sk_movements := v; sk_allocations := sk_allocations s;
     sk_acquisitions := sk_acquisitions s; sk_costs := sk_costs s; sk_locations := sk_locations
     s; sk_orderLines := sk_orderLines s; sk_fulfillments := sk_fulfillments s; sk_shipments :=
     sk_shipments s; sk_entities := sk_entities s; sk_connections := sk_connections s;
     sk_catalogItems := sk_catalogItems s; sk_users := sk_users s; sk_audit := sk_audit s;
     sk_random := sk_random s; sk_next := sk_next s; sk_now := sk_now s |}.
Definition put_allocations (v : list InventoryAllocationRow) (s : Stock) : Stock :=
  {| sk_items := sk_items s; sk_movements := sk_movements s; sk_allocations := v;
     sk_acquisitions := sk_acquisitions s; sk_costs := sk_costs s; sk_locations := sk_locations
     s; sk_orderLines := sk_orderLines s; sk_fulfillments := sk_fulfillments s; sk_shipments :=
     sk_shipments s; sk_entities := sk_entities s; sk_connections := sk_connections s;
     sk_catalogItems := sk_catalogItems s; sk_users := sk_users s; sk_audit := sk_audit s;
     sk_random := sk_random s; sk_next := sk_next s; sk_now := sk_now s |}.
Definition put_acquisitions (v : list AcquisitionRow) (s : Stock) : Stock :=
  {| sk_items := sk_items s; sk_movements := sk_movements s; sk_allocations := sk_allocations s;
     sk_acquisitions := v; sk_costs := sk_costs s; sk_locations := sk_locations s; sk_orderLines
     := sk_orderLines s; sk_fulfillments := sk_fulfillments s; sk_shipments := sk_shipments s;
     sk_entities := sk_entities s; sk_connections := sk_connections s; sk_catalogItems :=
     sk_catalogItems s; sk_users := sk_users s; sk_audit := sk_audit s; sk_random := sk_random
     s; sk_next := sk_next s; sk_now := sk_now s |}.
Definition put_costs (v : list AcquisitionCostRow) (s : Stock) : Stock :=
  {| sk_items := sk_items s; sk_movements := sk_movements s; sk_allocations := sk_allocations s;
     sk_acquisitions := sk_acquisitions s; sk_costs := v; sk_locations := sk_locations s;
     sk_orderLines := sk_orderLines s; sk_fulfillments := sk_fulfillments s; sk_shipments :=
     sk_shipments s; sk_entities := sk_entities s; sk_connections := sk_connections s;
     sk_catalogItems := sk_catalogItems s; sk_users := sk_users s; sk_audit := sk_audit s;
     sk_random := sk_random s; sk_next := sk_next s; sk_now := sk_now s |}.
Definition put_locations (v : list InventoryLocationRow) (s : Stock) : Stock :=
  {| sk_items := sk_items s; sk_movements := sk_movements s; sk_allocations := sk_allocations s;
     sk_acquisitions := sk_acquisitions s; sk_costs := sk_costs s; sk_locations := v;
     sk_orderLines := sk_orderLines s; sk_fulfillments := sk_fulfillments s; sk_shipments :=
     sk_shipments s; sk_entities := sk_entities s; sk_connections := sk_connections s;
     sk_catalogItems := sk_catalogItems s; sk_users := sk_users s; sk_audit := sk_audit s;
     sk_random := sk_random s; sk_next := sk_next s; sk_now := sk_now s |}.
Definition put_audit (v : list AuditEvent) (s : Stock) : Stock :=
  {| sk_items := sk_items s; sk_movements := sk_movements s; sk_allocations := sk_allocations s;
     sk_acquisitions := sk_acquisitions s; sk_costs := sk_costs s; sk_locations := sk_locations
     s; sk_orderLines := sk_orderLines s; sk_fulfillments := sk_fulfillments s; sk_shipments :=
     sk_shipments s; sk_entities := sk_entities s; sk_connections := sk_connections s;
     sk_catalogItems := sk_catalogItems s; sk_users := sk_users s; sk_audit := v; sk_random :=
     sk_random s; sk_next := sk_next s; sk_now := sk_now s |}.
Definition put_next (v : uuid) (s : Stock) : Stock :=
  {| sk_items := sk_items s; sk_movements := sk_movements s; sk_allocations := sk_allocations s;
     sk_acquisitions := sk_acquisitions s; sk_costs := sk_costs s; sk_locations := sk_locations
     s; sk_orderLines := sk_orderLines s; sk_fulfillments := sk_fulfillments s; sk_shipments :=
     sk_shipments s; sk_entities := sk_entities s; sk_connections := sk_connections s;
     sk_catalogItems := sk_catalogItems s; sk_users := sk_users s; sk_audit := sk_audit s;
     sk_random := sk_random s; sk_next := v; sk_now := sk_now s |}.

Abbreviation srun := (St Stock) (only parsing).

Definition new_uuid : srun uuid := fun s => (Ok (sk_next s), put_next (Pos.succ (sk_next s)) s).
Definition append_audit (e : AuditEvent) : srun unit :=
  st_modify (fun s => put_audit (sk_audit s ++ [e]) s).

Definition check_violation : error := SqlError "23514".
Definition foreign_key_violation : error := SqlError "23503".

(** ** [numeric(p, s)] columns

    A decimal literal is rounded half away from zero to the column's scale. *)
Definition sql_numeric (precision sc : nat) (text : string) : result Z :=
  match parseScaled InventoryValidationError text with
  | Throw _ => Throw (SqlError "22P02")
  | Ok v =>
      let z := if (scale v <=? sc)%nat then units v * pow10 (sc - scale v)
               else round_away (units v) (pow10 (scale v - sc)) in
      if Z.abs z <? pow10 precision then Ok z else Throw (SqlError "22003")
  end.
Definition money_column (text : string) : result Z := sql_numeric 20 6 text.

(** A computed value cast to [numeric(20, 6)]. *)
Definition in_range (z : Z) : bool := Z.abs z <? pow10 20.
Definition numeric_20_6 (z : Z) : result Z := if in_range z then Ok z else Throw (SqlError "22003").

(** [numericLiteral] of [sql.ts], evaluated by the statement. *)
Definition numericLiteral (text : string) : result Z :=
  if DECIMAL_STRING text then money_column text else Throw InventoryValidationError.

(** ** Statements *)
Definition user_known (s : Stock) (u : option string) : bool :=
  match u with None => true | Some u => bool_decide (u ∈ sk_users s) end.
Definition known (id : option uuid) (ids : list uuid) : bool :=
  match id with None => true | Some id => bool_decide (id ∈ ids) end.

(** *** [inventory_items] *)
Definition is_item (id : uuid) (r : InventoryItemRow) : bool := bool_decide (ir_id r = id).

Definition grade_check (g : ItemGrade) : bool :=
  bool_decide (gr_gradeLabel g = None) || is_some (gr_gradingAuthority g).
Definition parcel_check (p : ItemParcel) : bool :=
  match pa_packageWeightGrams p with None => true | Some w => 0 <? w end
  && match pa_packageLengthMm p, pa_packageWidthMm p, pa_packageHeightMm p with
     | None, None, None | Some _, Some _, Some _ => true
     | _, _, _ => false
     end.
Definition item_checks (r : InventoryItemRow) : bool :=
  (0 <? ir_quantity r) && grade_check (ir_grade r) && parcel_check (ir_parcel r).

Definition item_fks (s : Stock) (r : InventoryItemRow) : bool :=
  exists_opt lot_id (ir_acquisitionId r) (sk_acquisitions s)
  && known (ir_catalogItemId r) (sk_catalogItems s)
  && known (at_economicEntityId (ir_attribution r)) (sk_entities s)
  && user_known s (at_attributedByUserId (ir_attribution r))
  && exists_opt loc_id (ir_locationId r) (sk_locations s)
  && exists_opt ir_id (ir_originItemId r) (sk_items s)
  && user_known s (ir_createdByUserId r).

Definition insertItem (values : uuid -> Z -> InventoryItemRow) : srun InventoryItemRow :=
  id ← new_uuid;
  s ← st_get;
  let row := values id (sk_now s) in
  _ ← demand (item_checks row) check_violation;
  _ ← demand (negb (exists_id ir_id id (sk_items s))) (UniqueViolation "inventory_items_pkey");
  _ ← demand (forallb (fun r => negb (String.eqb (ir_itemCode r) (ir_itemCode row))) (sk_items s))
        (UniqueViolation "inventory_items_item_code_uq");
  _ ← demand (item_fks s row) foreign_key_violation;
  _ ← st_modify (fun s => put_items (sk_items s ++ [row]) s);
  mret row.

(** [update inventory_items set ... where p], no key column being written *)
Definition updateItems (p : InventoryItemRow -> bool) (f : InventoryItemRow -> InventoryItemRow) : srun nat :=
  s ← st_get;
  let rows := List.filter p (sk_items s) in
  _ ← demand (forallb (fun r => item_checks (f r)) rows) check_violation;
  _ ← demand (forallb (fun r => item_fks s (f r)) rows) foreign_key_violation;
  _ ← st_modify (fun s => put_items (update_rows p f (sk_items s)) s);
  mret (length rows).

Definition find_item (id : uuid) (s : Stock) : option InventoryItemRow := find_row (is_item id) (sk_items s).

(** *** [inventory_movements]: rows are only ever inserted *)
Definition INBOUND (kind : MovementKind) : bool :=
  match kind with Receipt | TransferIn | ReturnIn | AdjustmentIn | Found => true | _ => false end.

Definition movement_checks (m : MovementRow) : bool :=
  negb (mo_quantity m =? 0)
  && (bool_decide (mo_movementKind m = Reversal) || Bool.eqb (INBOUND (mo_movementKind m)) (0 <? mo_quantity m))
  && Bool.eqb (is_some (mo_transferGroupId m))
       (bool_decide (mo_movementKind m = TransferIn) || bool_decide (mo_movementKind m = TransferOut))
  && Bool.eqb (is_some (mo_reversesMovementId m)) (bool_decide (mo_movementKind m = Reversal)).

Definition movement_fks (s : Stock) (m : MovementRow) : bool :=
  exists_id ir_id (mo_inventoryItemId m) (sk_items s)
  && exists_opt loc_id (mo_locationId m) (sk_locations s)
  && exists_opt lot_id (mo_acquisitionId m) (sk_acquisitions s)
  && exists_opt rv_id (mo_inventoryAllocationId m) (sk_allocations s)
  && known (mo_orderLineId m) (sk_orderLines s)
  && known (mo_orderFulfillmentId m) (sk_fulfillments s)
  && known (mo_shipmentId m) (sk_shipments s)
  && exists_opt mo_id (mo_reversesMovementId m) (sk_movements s)
  && user_known s (mo_actorUserId m).

Definition insertMovement (values : uuid -> Z -> MovementRow) : srun MovementRow :=
  id ← new_uuid;
  s ← st_get;
  let row := values id (sk_now s) in
  _ ← demand (movement_checks row) check_violation;
  _ ← demand (negb (exists_id mo_id id (sk_movements s))) (UniqueViolation "inventory_movements_pkey");
  _ ← demand (forallb (fun m => negb (String.eqb (mo_deduplicationKey m) (mo_deduplicationKey row))) (sk_movements s))
        (UniqueViolation "inventory_movements_deduplication_key_uq");
  _ ← demand (movement_fks s row) foreign_key_violation;
  _ ← st_modify (fun s => put_movements (sk_movements s ++ [row]) s);
  mret row.

Definition item_movements (item : uuid) (s : Stock) : list MovementRow :=
  List.filter (fun m => bool_decide (mo_inventoryItemId m = item)) (sk_movements s).
(** [coalesce(sum(quantity), 0)] *)
Definition ledger_total (item : uuid) (s : Stock) : Z := sumZ (mo_quantity <$> item_movements item s).

(** *** [inventory_allocations] *)
Definition is_allocation (id : uuid) (r : InventoryAllocationRow) : bool := bool_decide (rv_id r = id).

Definition open_allocation (r : InventoryAllocationRow) : bool :=
  bool_decide (rv_status r = Reserved) || bool_decide (rv_status r = Fulfilled).

Definition allocation_checks (r : InventoryAllocationRow) : bool :=
  (0 <? rv_quantity r)
  && Bool.eqb (bool_decide (rv_allocationKind r = OrderLineAllocation)) (is_some (rv_orderLineId r)).

(** [inventory_allocations_line_item_open_uq] *)
Definition allocation_taken (r q : InventoryAllocationRow) : bool :=
  match rv_orderLineId r with
  | None => false
  | Some line => opt_eqb (rv_orderLineId q) line && bool_decide (rv_inventoryItemId q = rv_inventoryItemId r)
                 && open_allocation r && open_allocation q
  end.

Definition insertAllocation (values : uuid -> Z -> InventoryAllocationRow) : srun InventoryAllocationRow :=
  id ← new_uuid;
  s ← st_get;
  let row := values id (sk_now s) in
  _ ← demand (allocation_checks row) check_violation;
  _ ← demand (negb (exists_id rv_id id (sk_allocations s))) (UniqueViolation "inventory_allocations_pkey");
  _ ← demand (forallb (fun q => negb (allocation_taken row q)) (sk_allocations s))
        (UniqueViolation "inventory_allocations_line_item_open_uq");
  _ ← demand (exists_id ir_id (rv_inventoryItemId row) (sk_items s) && known (rv_orderLineId row) (sk_orderLines s)
              && user_known s (rv_createdByUserId row)) foreign_key_violation;
  _ ← st_modify (fun s => put_allocations (sk_allocations s ++ [row]) s);
  mret row.

(** [update inventory_allocations set status = ... where p], closing rows or
    fulfilling reserved ones *)
Definition updateAllocations (p : InventoryAllocationRow -> bool)
    (f : InventoryAllocationRow -> InventoryAllocationRow) : srun nat :=
  s ← st_get;
  _ ← st_modify (fun s => put_allocations (update_rows p f (sk_allocations s)) s);
  mret (length (List.filter p (sk_allocations s))).

Definition find_allocation (id : uuid) (s : Stock) : option InventoryAllocationRow :=
  find_row (is_allocation id) (sk_allocations s).

(** *** [acquisitions] and [acquisition_costs] *)
Definition is_lot (id : uuid) (r : AcquisitionRow) : bool := bool_decide (lot_id r = id).

Definition insertAcquisition (values : uuid -> Z -> AcquisitionRow) : srun AcquisitionRow :=
  id ← new_uuid;
  s ← st_get;
  let row := values id (sk_now s) in
  _ ← demand (match lot_expectedItemCount row with None => true | Some n => int4 n end) (SqlError "22003");
  _ ← demand (negb (exists_id lot_id id (sk_acquisitions s))) (UniqueViolation "acquisitions_pkey");
  _ ← demand (forallb (fun r => negb (String.eqb (lot_referenceCode r) (lot_referenceCode row))) (sk_acquisitions s))
        (UniqueViolation "acquisitions_reference_code_uq");
  _ ← demand (match lot_connectionId row, lot_externalReference row with
              | Some c, Some e => forallb (fun r => negb (opt_eqb (lot_connectionId r) c
                                                          && opt_eqb (lot_externalReference r) e)) (sk_acquisitions s)
              | _, _ => true
              end) (UniqueViolation "acquisitions_connection_external_ref_uq");
  _ ← demand (known (at_economicEntityId (lot_attribution row)) (sk_entities s)
              && user_known s (at_attributedByUserId (lot_attribution row))
              && exists_opt cn_id (lot_connectionId row) (sk_connections s)
              && user_known s (lot_createdByUserId row)) foreign_key_violation;
  _ ← st_modify (fun s => put_acquisitions (sk_acquisitions s ++ [row]) s);
  mret row.

Definition updateAcquisitions (p : AcquisitionRow -> bool) (f : AcquisitionRow -> AcquisitionRow) : srun unit :=
  st_modify (fun s => put_acquisitions (update_rows p f (sk_acquisitions s)) s).

Definition find_lot (id : uuid) (s : Stock) : option AcquisitionRow := find_row (is_lot id) (sk_acquisitions s).

Definition insertCost (values : uuid -> Z -> AcquisitionCostRow) : srun AcquisitionCostRow :=
  id ← new_uuid;
  s ← st_get;
  let row := values id (sk_now s) in
  _ ← demand (Bool.eqb (bool_decide (lc_costScope row = ItemScope)) (is_some (lc_inventoryItemId row))) check_violation;
  _ ← demand (negb (exists_id lc_id id (sk_costs s))) (UniqueViolation "acquisition_costs_pkey");
  _ ← demand (exists_id lot_id (lc_acquisitionId row) (sk_acquisitions s)
              && exists_opt ir_id (lc_inventoryItemId row) (sk_items s)) foreign_key_violation;
  _ ← st_modify (fun s => put_costs (sk_costs s ++ [row]) s);
  mret row.

Definition lot_costs (lot : uuid) (s : Stock) : list AcquisitionCostRow :=
  List.filter (fun c => bool_decide (lc_acquisitionId c = lot)) (sk_costs s).
Definition lot_items (lot : uuid) (s : Stock) : list InventoryItemRow :=
  List.filter (fun r => opt_eqb (ir_acquisitionId r) lot) (sk_items s).

(** *** [inventory_locations] *)
Definition MAX_LOCATION_DEPTH : Z := 6.
Definition is_location (id : uuid) (r : InventoryLocationRow) : bool := bool_decide (loc_id r = id).
Definition find_location (id : uuid) (s : Stock) : option InventoryLocationRow :=
  find_row (is_location id) (sk_locations s).

Definition location_checks (r : InventoryLocationRow) : bool :=
  negb (opt_eqb (loc_parentLocationId r) (loc_id r)) && (0 <=? loc_depth r) && (loc_depth r <=? 6).

(** [inventory_locations_code_uq], and the names under one parent, root included *)
Definition same_code (r q : InventoryLocationRow) : bool := String.eqb (loc_code r) (loc_code q).
Definition same_name (r q : InventoryLocationRow) : bool :=
  bool_decide (loc_parentLocationId r = loc_parentLocationId q) && String.eqb (loc_name r) (loc_name q).

Definition insertLocation (values : uuid -> InventoryLocationRow) : srun InventoryLocationRow :=
  id ← new_uuid;
  s ← st_get;
  let row := values id in
  _ ← demand (location_checks row) check_violation;
  _ ← demand (negb (exists_id loc_id id (sk_locations s))) (UniqueViolation "inventory_locations_pkey");
  _ ← demand (forallb (fun r => negb (same_code row r)) (sk_locations s)) (UniqueViolation "inventory_locations_code_uq");
  _ ← demand (forallb (fun r => negb (same_name row r)) (sk_locations s))
        (UniqueViolation "inventory_locations_parent_name_uq");
  _ ← demand (exists_opt loc_id (loc_parentLocationId row) (sk_locations s)) foreign_key_violation;
  _ ← st_modify (fun s => put_locations (sk_locations s ++ [row]) s);
  mret row.

(** [update inventory_locations set ... where p]; codes and names are never written *)
Definition updateLocations (p : InventoryLocationRow -> bool) (f : InventoryLocationRow -> InventoryLocationRow)
    : srun unit :=
  s ← st_get;
  let rows := List.filter p (sk_locations s) in
  _ ← demand (forallb (fun r => location_checks (f r)) rows) check_violation;
  _ ← demand (forallb (fun r => forallb (fun q => bool_decide (loc_id q = loc_id r) || negb (same_name (f r) q))
                         (sk_locations s)) rows) (UniqueViolation "inventory_locations_parent_name_uq");
  _ ← demand (forallb (fun r => exists_opt loc_id (loc_parentLocationId (f r)) (sk_locations s)) rows)
        foreign_key_violation;
  st_modify (fun s => put_locations (update_rows p f (sk_locations s)) s).
