(* ===== verification/Movements.v ===== *)
(** * The movement ledger

    [packages/inventory/src/movements.ts]: the only writer of the movements and of
    the cached balance, status and locks they imply. *)
From S2P Require Import Prelude Decimal DecimalPackages Calendar Inputs Store Schema Ledger Stock.

Open Scope Z_scope.
#[local] Arguments String.append : simpl nomatch.

Abbreviation compareDecimals := Commerce.compareDecimals.

(** ** [movementKeys] *)
Definition id_text (id : uuid) : string := Js.bigint_to_string (Zpos id).
Definition text_of (parts : list string) : string := foldr String.append ""%string parts.

Module movementKeys.
Definition receipt (acquisitionId inventoryItemId : uuid) : string :=
  text_of ["acq:"; id_text acquisitionId; ":item:"; id_text inventoryItemId].
Definition found (sessionKey : string) (inventoryItemId : uuid) : string :=
  text_of ["found:"; sessionKey; ":item:"; id_text inventoryItemId].
Definition depletionSale (orderFulfillmentId orderLineId allocationId : uuid) : string :=
  text_of ["ffl:"; id_text orderFulfillmentId; ":"; id_text orderLineId; ":alloc:"; id_text allocationId].
Definition transfer (transferGroupId : uuid) (half : string) : string :=
  text_of ["xfer:"; id_text transferGroupId; ":"; half].
Definition reversal (reversesMovementId : uuid) : string := text_of ["rev:"; id_text reversesMovementId].
Definition event (kind sessionKey : string) (inventoryItemId : uuid) : string :=
  text_of [kind; ":"; sessionKey; ":item:"; id_text inventoryItemId].
End movementKeys.

(** ** Inputs *)
Record RecordMovementInput : Type := {
  rm_inventoryItemId : uuid;
  rm_movementKind : MovementKind;
  rm_quantity : string;
  rm_locationId : option uuid;
  rm_transferGroupId : option uuid;
  rm_acquisitionId : option uuid;
  rm_inventoryAllocationId : option uuid;
  rm_orderLineId : option uuid;
  rm_orderFulfillmentId : option uuid;
  rm_shipmentId : option uuid;
  rm_reversesMovementId : option uuid;
  rm_reasonCode : option string;
  rm_note : option string;
  rm_deduplicationKey : string;
  rm_occurredAt : option Z;
  rm_actorUserId : option string;
}.

Definition not_empty (s : option string) : bool := negb (opt_eqb s ""%string).

(** [recordMovementSchema]; a failed parse is one [InventoryValidationError]. *)
Definition recordMovementSchema (i : RecordMovementInput) : bool :=
  DECIMAL_STRING (rm_quantity i) && not_empty (rm_reasonCode i)
  && negb (String.eqb (rm_deduplicationKey i) "") && not_empty (rm_actorUserId i).

(** ** Signs and statuses *)
Definition assertSign (kind : MovementKind) (quantity : string) : result unit :=
  if bool_decide (kind = Reversal) then mret tt
  else
    c ← compareDecimals quantity "0";
    throw_if (negb (Bool.eqb (INBOUND kind) (0 <? c))) InventoryValidationError.

Definition deriveItemStatus (current quantityOnHand quantity : string) : result string :=
  if String.eqb current "written_off" || String.eqb current "archived" then mret current
  else
    z ← compareDecimals quantityOnHand "0";
    if z <=? 0 then mret "depleted"%string
    else
      q ← compareDecimals quantityOnHand quantity;
      if q <? 0 then mret "partially_depleted"%string
      else if String.eqb current "listed" || String.eqb current "reserved" || String.eqb current "intake"
      then mret current
      else mret "available"%string.

(** ** Writing a movement *)
Definition require_item (id : uuid) : srun InventoryItemRow :=
  s ← st_get;
  match find_item id s with
  | None => st_throw InventoryNotFoundError
  | Some row => mret row
  end.

(** [readOnHand] *)
Definition readOnHand (id : uuid) : srun string :=
  st_gets (fun s => match find_item id s with
                    | None => ZERO
                    | Some row => fromUnits (st_quantityOnHand (ir_stock row))
                    end).

Definition coalesce {A} (o : option A) (d : A) : option A := Some (default d o).

(** The assignments of [refreshItemBalance]. *)
Definition refreshed (onHand : Z) (status : string) (depleted lockBasis : bool) (now : Z)
    (r : InventoryItemRow) : InventoryItemRow :=
  let st := ir_stock r in
  let ba := ir_basis r in
  {| ir_id := ir_id r; ir_itemCode := ir_itemCode r; ir_acquisitionId := ir_acquisitionId r;
     ir_catalogItemId := ir_catalogItemId r; ir_originItemId := ir_originItemId r; ir_label := ir_label r;
     ir_lotReference := ir_lotReference r; ir_serialNumber := ir_serialNumber r; ir_quantity :=
     ir_quantity r; ir_currency := ir_currency r; ir_acquiredAt := ir_acquiredAt r; ir_receivedAt :=
     ir_receivedAt r; ir_createdByUserId := ir_createdByUserId r; ir_createdAt := ir_createdAt r;
     ir_attribution := ir_attribution r; ir_locationId := ir_locationId r; ir_grade := ir_grade r;
     ir_stock :=
       {| st_status := status; st_quantityOnHand := onHand;
          st_depletedAt := if depleted then coalesce (st_depletedAt st) now else None;
          st_listedAt := st_listedAt st |};
     ir_basis :=
       {| ba_acquisitionCostAmount := ba_acquisitionCostAmount ba;
          ba_landedCostAmount := ba_landedCostAmount ba;
          ba_costAllocationBasis := ba_costAllocationBasis ba;
          ba_costAllocationWeight := ba_costAllocationWeight ba;
          ba_costBasisLockedAt :=
            if lockBasis then coalesce (ba_costBasisLockedAt ba) now else ba_costBasisLockedAt ba;
          ba_estimatedValueAmount := ba_estimatedValueAmount ba |};
     ir_parcel := ir_parcel r; ir_saleMode := ir_saleMode r; ir_updatedAt := now |}.

(** The new balance, as text. *)
Definition refreshItemBalance (itemId : uuid) (lockBasis : bool) : srun string :=
  item ← require_item itemId;
  total ← st_gets (ledger_total itemId);
  sum ← st_lift (numeric_20_6 total);
  let onHand := fromUnits sum in
  status ← st_lift (deriveItemStatus (st_status (ir_stock item)) onHand (fromUnits (ir_quantity item)));
  c ← st_lift (compareDecimals onHand "0");
  now ← st_gets sk_now;
  z ← st_lift (numericLiteral onHand);
  _ ← updateItems (is_item itemId) (refreshed z status (c <=? 0) lockBasis now);
  mret onHand.

Record RecordMovementResult : Type := {
  re_movement : MovementRow;
  re_created : bool;
  re_quantityOnHand : string;
  re_oversell : bool;
}.

Definition movement_values (i : RecordMovementInput) (quantity : Z) (id : uuid) (now : Z) : MovementRow :=
  {| mo_id := id; mo_inventoryItemId := rm_inventoryItemId i; mo_movementKind := rm_movementKind i;
     mo_quantity := quantity; mo_locationId := rm_locationId i; mo_transferGroupId :=
     rm_transferGroupId i; mo_acquisitionId := rm_acquisitionId i; mo_inventoryAllocationId :=
     rm_inventoryAllocationId i; mo_orderLineId := rm_orderLineId i; mo_orderFulfillmentId :=
     rm_orderFulfillmentId i; mo_shipmentId := rm_shipmentId i; mo_reversesMovementId :=
     rm_reversesMovementId i; mo_reasonCode := rm_reasonCode i; mo_note := rm_note i;
     mo_deduplicationKey := rm_deduplicationKey i; mo_occurredAt := default now (rm_occurredAt i);
     mo_recordedAt := now; mo_actorUserId := rm_actorUserId i |}.

Definition has_key (key : string) (m : MovementRow) : bool := String.eqb (mo_deduplicationKey m) key.

Definition recordMovement (i : RecordMovementInput) : srun RecordMovementResult :=
  _ ← st_lift (throw_if (negb (recordMovementSchema i)) InventoryValidationError);
  c ← st_lift (compareDecimals (rm_quantity i) "0");
  _ ← st_lift (throw_if (c =? 0) InventoryValidationError);
  _ ← st_lift (assertSign (rm_movementKind i) (rm_quantity i));
  _ ← require_item (rm_inventoryItemId i);
  existing ← st_gets (fun s => find_row (has_key (rm_deduplicationKey i)) (sk_movements s));
  match existing with
  | Some movement =>
      onHand ← readOnHand (rm_inventoryItemId i);
      o ← st_lift (compareDecimals onHand "0");
      mret {| re_movement := movement; re_created := false; re_quantityOnHand := onHand; re_oversell := o <? 0 |}
  | None =>
      quantity ← st_lift (money_column (rm_quantity i));
      movement ← insertMovement (movement_values i quantity);
      onHand ← refreshItemBalance (rm_inventoryItemId i) (bool_decide (rm_movementKind i = DepletionSale));
      o ← st_lift (compareDecimals onHand "0");
      mret {| re_movement := movement; re_created := true; re_quantityOnHand := onHand; re_oversell := o <? 0 |}
  end.

(** ** Reconciliation *)
Record QuantityDrift : Type := {
  qd_inventoryItemId : uuid;
  qd_itemCode : string;
  qd_cachedQuantityOnHand : string;
  qd_ledgerQuantityOnHand : string;
  qd_difference : string;
}.
Record ReconcileResult : Type := { rc_itemsChecked : nat; rc_drift : list QuantityDrift; rc_repaired : bool }.

Definition in_scope (item : option uuid) (r : InventoryItemRow) : bool :=
  match item with None => true | Some id => is_item id r end.

Definition drift_row (s : Stock) (r : InventoryItemRow) : result QuantityDrift :=
  let cached := st_quantityOnHand (ir_stock r) in
  ledger ← numeric_20_6 (ledger_total (ir_id r) s);
  difference ← numeric_20_6 (ledger_total (ir_id r) s - cached);
  mret {| qd_inventoryItemId := ir_id r; qd_itemCode := ir_itemCode r;
          qd_cachedQuantityOnHand := fromUnits cached; qd_ledgerQuantityOnHand := fromUnits ledger;
          qd_difference := fromUnits difference |}.

Definition drifted (s : Stock) (r : InventoryItemRow) : bool :=
  negb (ledger_total (ir_id r) s =? st_quantityOnHand (ir_stock r)).

(** The drift rows come in item-code order; the order is left out. *)
Definition reconcileQuantityOnHand (apply : bool) (item : option uuid) : srun ReconcileResult :=
  counted ← st_gets (fun s => length (List.filter (in_scope item) (sk_items s)));
  s ← st_get;
  drift ← st_lift (res_mapM (drift_row s) (List.filter (fun r => drifted s r && in_scope item r) (sk_items s)));
  let repair := apply && negb (bool_decide (drift = [])) in
  _ ← (if repair then
         atomically (_ ← st_mapM (fun d => refreshItemBalance (qd_inventoryItemId d) false) drift; mret tt)
       else mret tt);
  mret {| rc_itemsChecked := counted; rc_drift := drift; rc_repaired := repair |}.

(** ** The service *)
Definition record (i : RecordMovementInput) : srun RecordMovementResult := atomically (recordMovement i).

Record ReverseInput : Type := {
  rx_movementId : uuid;
  rx_reasonCode : option string;
  rx_note : option string;
  rx_actorUserId : option string;
  rx_occurredAt : option Z;
}.

(** The sign of the text flipped. *)
Definition flip_sign (quantity : string) : string :=
  if Js.starts_with "-" quantity then Js.slice_from 1 quantity else String.append "-" quantity.

Definition reversal_input (i : ReverseInput) (original : MovementRow) : RecordMovementInput :=
  {| rm_inventoryItemId := mo_inventoryItemId original; rm_movementKind := Reversal;
     rm_quantity := flip_sign (fromUnits (mo_quantity original)); rm_locationId := mo_locationId original;
     rm_transferGroupId := None; rm_acquisitionId := mo_acquisitionId original;
     rm_inventoryAllocationId := None; rm_orderLineId := mo_orderLineId original;
     rm_orderFulfillmentId := None; rm_shipmentId := None; rm_reversesMovementId := Some (mo_id original);
     rm_reasonCode := rx_reasonCode i; rm_note := rx_note i;
     rm_deduplicationKey := movementKeys.reversal (mo_id original); rm_occurredAt := rx_occurredAt i;
     rm_actorUserId := rx_actorUserId i |}.

Definition reverse (i : ReverseInput) : srun RecordMovementResult :=
  atomically (
    original ← st_gets (fun s => find_row (fun m => bool_decide (mo_id m = rx_movementId i)) (sk_movements s));
    match original with
    | None => st_throw InventoryNotFoundError
    | Some original => recordMovement (reversal_input i original)
    end).

Definition ledgerBalance (inventoryItemId : uuid) : srun string :=
  total ← st_gets (ledger_total inventoryItemId);
  sum ← st_lift (numeric_20_6 total);
  mret (fromUnits sum).
