(* ===== verification/Reservations.v ===== *)
(** * Reservations and depletion on fulfillment

    [packages/inventory/src/allocations.ts]: holds against order lines, and the
    [depletion_sale] movements a fulfillment turns them into. *)
From S2P Require Import Prelude Decimal DecimalPackages Calendar Inputs Store Schema Ledger Stock Movements.

Open Scope Z_scope.
#[local] Arguments String.append : simpl nomatch.

Abbreviation subtractDecimals := Commerce.subtractDecimals.
Abbreviation toMoneyString := Commerce.toMoneyString.

(** ** Inputs *)
Record ReserveInput : Type := {
  rs_inventoryItemId : uuid;
  rs_allocationKind : option AllocationKind;
  rs_orderLineId : option uuid;
  rs_quantity : option string;
  rs_expiresAt : option Z;
  rs_createdByUserId : option string;
  rs_allowOverAllocation : option bool;
}.

(** The defaults of the schema. *)
Definition reserve_kind (i : ReserveInput) : AllocationKind := default OrderLineAllocation (rs_allocationKind i).
Definition reserve_quantity (i : ReserveInput) : string := default "1"%string (rs_quantity i).

Definition reserveSchema (i : ReserveInput) : bool :=
  DECIMAL_STRING (reserve_quantity i) && not_empty (rs_createdByUserId i)
  && Bool.eqb (bool_decide (reserve_kind i = OrderLineAllocation)) (is_some (rs_orderLineId i)).

(** ** Sums over the tables *)
Definition reserved_for (item : uuid) (r : InventoryAllocationRow) : bool :=
  bool_decide (rv_inventoryItemId r = item) && bool_decide (rv_status r = Reserved).
Definition reserved_total (item : uuid) (s : Stock) : Z :=
  sumZ (rv_quantity <$> List.filter (reserved_for item) (sk_allocations s)).

Definition reservedQuantityFor (item : uuid) : srun string :=
  total ← st_gets (reserved_total item);
  sum ← st_lift (numeric_20_6 total);
  mret (fromUnits sum).

Definition reversed_of (movement : uuid) (s : Stock) : Z :=
  sumZ (mo_quantity <$> List.filter (fun m => bool_decide (mo_movementKind m = Reversal)
                                              && opt_eqb (mo_reversesMovementId m) movement) (sk_movements s)).
Definition depletion_of (allocation : uuid) (m : MovementRow) : bool :=
  opt_eqb (mo_inventoryAllocationId m) allocation && bool_decide (mo_movementKind m = DepletionSale).
Definition depleted_total (allocation : uuid) (s : Stock) : Z :=
  - sumZ ((fun m => mo_quantity m + reversed_of (mo_id m) s)
            <$> List.filter (depletion_of allocation) (sk_movements s)).

Definition depletedAgainstAllocation (allocation : uuid) : srun string :=
  total ← st_gets (depleted_total allocation);
  sum ← st_lift (numeric_20_6 total);
  mret (fromUnits sum).

(** ** [reserve] *)
Definition open_hold (line item : uuid) (r : InventoryAllocationRow) : bool :=
  opt_eqb (rv_orderLineId r) line && bool_decide (rv_inventoryItemId r = item) && open_allocation r.

Definition reserve_values (i : ReserveInput) (quantity : Z) (id : uuid) (now : Z) : InventoryAllocationRow :=
  {| rv_id := id; rv_inventoryItemId := rs_inventoryItemId i; rv_allocationKind := reserve_kind i;
     rv_orderLineId := rs_orderLineId i; rv_quantity := quantity; rv_status := Reserved; rv_allocatedAt := now;
     rv_expiresAt := rs_expiresAt i; rv_fulfilledAt := None; rv_releasedAt := None; rv_releaseReason := None;
     rv_createdByUserId := rs_createdByUserId i |}.

Definition reserve_new (i : ReserveInput) (item : InventoryItemRow) : srun InventoryAllocationRow :=
  reserved ← reservedQuantityFor (rs_inventoryItemId i);
  available ← st_lift (subtractDecimals (fromUnits (st_quantityOnHand (ir_stock item))) reserved);
  c ← st_lift (compareDecimals (reserve_quantity i) available);
  _ ← st_lift (throw_if (negb (default false (rs_allowOverAllocation i)) && (0 <? c)) InventoryAllocationError);
  quantity ← st_lift (money_column (reserve_quantity i));
  insertAllocation (reserve_values i quantity).

Definition reserve (i : ReserveInput) : srun InventoryAllocationRow :=
  _ ← st_lift (throw_if (negb (reserveSchema i)) InventoryValidationError);
  c ← st_lift (compareDecimals (reserve_quantity i) "0");
  _ ← st_lift (throw_if (c <=? 0) InventoryValidationError);
  atomically (
    item ← require_item (rs_inventoryItemId i);
    open ← st_gets (fun s => match rs_orderLineId i with
                             | None => None
                             | Some line => find_row (open_hold line (rs_inventoryItemId i)) (sk_allocations s)
                             end);
    match open with
    | Some row => mret row
    | None => reserve_new i item
    end).

(** ** [release] *)
Definition require_allocation (id : uuid) : srun InventoryAllocationRow :=
  s ← st_get;
  match find_allocation id s with
  | None => st_throw InventoryNotFoundError
  | Some row => mret row
  end.

Definition closed_as (status : AllocationStatus) (reason : option string) (now : Z) (r : InventoryAllocationRow)
    : InventoryAllocationRow :=
  {| rv_id := rv_id r; rv_inventoryItemId := rv_inventoryItemId r; rv_allocationKind := rv_allocationKind r;
     rv_orderLineId := rv_orderLineId r; rv_quantity := rv_quantity r; rv_status := status;
     rv_allocatedAt := rv_allocatedAt r; rv_expiresAt := rv_expiresAt r; rv_fulfilledAt := rv_fulfilledAt r;
     rv_releasedAt := Some now; rv_releaseReason := reason; rv_createdByUserId := rv_createdByUserId r |}.

(** The statuses a release may write. *)
Inductive ReleaseStatus : Type := ToReleased | ToCancelled | ToExpired.
Definition release_status (t : ReleaseStatus) : AllocationStatus :=
  match t with ToReleased => Released | ToCancelled => Cancelled | ToExpired => Expired end.

Definition release (allocationId : uuid) (reason : option string) (status : option ReleaseStatus)
    : srun InventoryAllocationRow :=
  atomically (
    allocation ← require_allocation allocationId;
    _ ← st_lift (throw_if (negb (bool_decide (rv_status allocation = Reserved))) InventoryAllocationError);
    now ← st_gets sk_now;
    _ ← updateAllocations (is_allocation allocationId)
          (closed_as (release_status (default ToReleased status)) reason now);
    require_allocation allocationId).

(** ** [depleteOnFulfillment] *)
Record DepleteOnFulfillmentInput : Type := {
  df_orderFulfillmentId : uuid;
  df_orderLineId : uuid;
  df_quantity : string;
  df_occurredAt : option Z;
  df_shipmentId : option uuid;
  df_actorUserId : option string;
}.

Record Depletion : Type := {
  de_allocationId : uuid;
  de_inventoryItemId : uuid;
  de_quantity : string;
  de_movementId : uuid;
  de_created : bool;
  de_oversell : bool;
}.
Record DepletionResult : Type := {
  dr_depletions : list Depletion;
  dr_unmatchedQuantity : string;
  dr_unmatched : bool;
}.

Definition fulfilled_at (now : Z) (r : InventoryAllocationRow) : InventoryAllocationRow :=
  {| rv_id := rv_id r; rv_inventoryItemId := rv_inventoryItemId r; rv_allocationKind := rv_allocationKind r;
     rv_orderLineId := rv_orderLineId r; rv_quantity := rv_quantity r; rv_status := Fulfilled;
     rv_allocatedAt := rv_allocatedAt r; rv_expiresAt := rv_expiresAt r; rv_fulfilledAt := Some now;
     rv_releasedAt := rv_releasedAt r; rv_releaseReason := rv_releaseReason r;
     rv_createdByUserId := rv_createdByUserId r |}.

Definition depletion_input (i : DepleteOnFulfillmentInput) (allocation : InventoryAllocationRow) (take : string)
    : RecordMovementInput :=
  {| rm_inventoryItemId := rv_inventoryItemId allocation; rm_movementKind := DepletionSale;
     rm_quantity := String.append "-" take; rm_locationId := None; rm_transferGroupId := None;
     rm_acquisitionId := None; rm_inventoryAllocationId := Some (rv_id allocation);
     rm_orderLineId := Some (df_orderLineId i); rm_orderFulfillmentId := Some (df_orderFulfillmentId i);
     rm_shipmentId := df_shipmentId i; rm_reversesMovementId := None; rm_reasonCode := None; rm_note := None;
     rm_deduplicationKey :=
       movementKeys.depletionSale (df_orderFulfillmentId i) (df_orderLineId i) (rv_id allocation);
     rm_occurredAt := df_occurredAt i; rm_actorUserId := df_actorUserId i |}.

(** One allocation: what it depletes, if anything is outstanding, and what remains. *)
Definition deplete_one (i : DepleteOnFulfillmentInput) (remaining : string) (allocation : InventoryAllocationRow)
    : srun (option Depletion * string) :=
  alreadyDepleted ← depletedAgainstAllocation (rv_id allocation);
  outstanding ← st_lift (subtractDecimals (fromUnits (rv_quantity allocation)) alreadyDepleted);
  c ← st_lift (compareDecimals outstanding "0");
  if c <=? 0 then mret (None, remaining)
  else
    less ← st_lift (compareDecimals outstanding remaining);
    take ← st_lift (toMoneyString (if less <=? 0 then outstanding else remaining));
    result ← recordMovement (depletion_input i allocation take);
    consumed ← st_lift (Commerce.sumDecimals [alreadyDepleted; take]);
    done ← st_lift (compareDecimals consumed (fromUnits (rv_quantity allocation)));
    now ← st_gets sk_now;
    _ ← (if 0 <=? done then
           _ ← updateAllocations (is_allocation (rv_id allocation)) (fulfilled_at now); mret tt
         else mret tt);
    rest ← st_lift (subtractDecimals remaining take);
    mret (Some {| de_allocationId := rv_id allocation; de_inventoryItemId := rv_inventoryItemId allocation;
                  de_quantity := take; de_movementId := mo_id (re_movement result);
                  de_created := re_created result; de_oversell := re_oversell result |}, rest).

Fixpoint deplete_loop (i : DepleteOnFulfillmentInput) (remaining : string)
    (allocations : list InventoryAllocationRow) : srun (list Depletion * string) :=
  match allocations with
  | [] => mret ([], remaining)
  | allocation :: allocations =>
      c ← st_lift (compareDecimals remaining "0");
      if c <=? 0 then mret ([], remaining)
      else
        step ← deplete_one i remaining allocation;
        rest ← deplete_loop i step.2 allocations;
        mret (option_list step.1 ++ rest.1, rest.2)
  end.

(** Oldest first, then by identifier. *)
Definition line_reserved (line : uuid) (r : InventoryAllocationRow) : bool :=
  opt_eqb (rv_orderLineId r) line && bool_decide (rv_status r = Reserved).
Definition oldest_first (rows : list InventoryAllocationRow) : list InventoryAllocationRow :=
  order_by rv_allocatedAt (order_by (fun r => Zpos (rv_id r)) rows).

Definition depleteOnFulfillment (i : DepleteOnFulfillmentInput) : srun DepletionResult :=
  c ← st_lift (compareDecimals (df_quantity i) "0");
  _ ← st_lift (throw_if (c <=? 0) InventoryValidationError);
  atomically (
    allocations ← st_gets (fun s =>
      oldest_first (List.filter (line_reserved (df_orderLineId i)) (sk_allocations s)));
    done ← deplete_loop i (df_quantity i) allocations;
    r ← st_lift (compareDecimals done.2 "0");
    unmatched ← st_lift (if 0 <? r then toMoneyString done.2 else mret ZERO);
    mret {| dr_depletions := done.1; dr_unmatchedQuantity := unmatched;
            dr_unmatched := bool_decide (length done.1 = 0%nat) |}).

(** ** [expireStaleHolds] *)
Definition stale_hold (cutoff : Z) (r : InventoryAllocationRow) : bool :=
  bool_decide (rv_status r = Reserved) && bool_decide (rv_allocationKind r = ManualHold)
  && match rv_expiresAt r with None => false | Some t => t <? cutoff end.

Definition expireStaleHolds (asOf : option Z) : srun nat :=
  now ← st_gets sk_now;
  updateAllocations (stale_hold (default now asOf)) (closed_as Expired (Some "expired"%string) now).

Definition reservedQuantity (inventoryItemId : uuid) : srun string := reservedQuantityFor inventoryItemId.
