(* ===== verification/LotCosts.v ===== *)
(** * Acquisitions and the lot cost engine

    [packages/inventory/src/acquisitions.ts], with [codes.ts] and
    [attribution.ts]: lots, their cost rows, and the allocation of a lot's
    capitalized costs to its items. *)
From S2P Require Import Prelude Decimal DecimalPackages Calendar Inputs Store Schema Ledger Stock Movements.
From S2P Require Import Reservations.

Open Scope Z_scope.
#[local] Arguments String.append : simpl nomatch.

(** ** [codes.ts] *)
Definition ALPHABET : string := "23456789ABCDEFGHJKMNPQRSTVWXYZ".
Definition alphabet_char (n : nat) : string := Js.slice (n mod 30) (n mod 30 + 1) ALPHABET.

(** [randomCode], over the integers its draw returns *)
Definition randomCode (length : nat) (draw : nat -> nat) : string :=
  text_of ((fun i => alphabet_char (draw i)) <$> seq 0 length).

Definition itemCode : srun string :=
  id ← new_uuid;
  s ← st_get;
  mret (String.append "ITM-" (randomCode 5 (sk_random s id))).

Definition code_prefix (year : Z) : string := text_of ["ACQ-"; Js.bigint_to_string year; "-"].
Definition acquisitionReferenceCode (year sequence : Z) : string :=
  String.append (code_prefix year) (Js.pad_start 4 "0" (Js.bigint_to_string sequence)).

(** [isUniqueViolation] with a constraint's name *)
Definition isUniqueViolation (error : error) (constraintName : string) : bool :=
  bool_decide (error = UniqueViolation constraintName).

(** [withCodeRetry] on statements that commit on their own: the attempts left, and
    the index of the next one. *)
Fixpoint retry {A} (attempts : nat) (index : Z) (onConstraint : string) (attempt : Z -> srun A) : srun A :=
  match attempts with
  | O => st_throw InventoryConflictError
  | S n => st_catch (attempt index) (fun error =>
      if isUniqueViolation error onConstraint then retry n (index + 1) onConstraint attempt else st_throw error)
  end.
Definition withCodeRetry {A} (onConstraint : string) (attempt : Z -> srun A) : srun A :=
  retry 5 0 onConstraint attempt.

(** ** [attribution.ts] *)
Definition default_attribution (entity : option uuid) (source : AttributionSource) : Attribution :=
  {| at_economicEntityId := entity; at_source := source; at_attributedAt := None;
     at_attributedByUserId := None |}.
Definition manual_attribution (entity : uuid) (actor : option string) (now : Z) : Attribution :=
  {| at_economicEntityId := Some entity; at_source := SourceManual; at_attributedAt := Some now;
     at_attributedByUserId := actor |}.

Definition resolveAcquisitionAttribution (explicit installationDefault connection : option uuid)
    (actor : option string) (now : Z) : Attribution :=
  match explicit, installationDefault, connection with
  | Some e, _, _ => manual_attribution e actor now
  | None, Some e, _ => default_attribution (Some e) InstallationDefault
  | None, None, Some e => default_attribution (Some e) ConnectionDefault
  | None, None, None => default_attribution None Unattributed
  end.

Definition resolveItemAttribution (explicit acquisition installationDefault connection : option uuid)
    (actor : option string) (now : Z) : Attribution :=
  match explicit, acquisition with
  | Some e, _ => manual_attribution e actor now
  | None, Some e => default_attribution (Some e) AcquisitionDefault
  | None, None => resolveAcquisitionAttribution None installationDefault connection actor now
  end.

Definition REATTRIBUTABLE_SOURCES : list AttributionSource :=
  [InstallationDefault; AcquisitionDefault; ConnectionDefault; Unattributed].

(** ** [create] *)
Record CreateAcquisitionInput : Type := {
  ca_title : string;
  ca_sourceKind : string;
  ca_currency : string;
  ca_referenceCode : option string;
  ca_status : option string;
  ca_economicEntityId : option uuid;
  ca_installationDefaultEntityId : option uuid;
  ca_connectionId : option uuid;
  ca_vendorName : option string;
  ca_vendorLocation : option string;
  ca_externalReference : option string;
  ca_costAllocationBasis : option CostAllocationBasis;
  ca_acquiredAt : option Z;
  ca_receivedAt : option Z;
  ca_expectedItemCount : option Z;
  ca_notes : option string;
  ca_createdByUserId : option string;
}.

Definition sourceKinds : list string :=
  ["auction_lot"; "estate_sale"; "thrift_retail"; "retail_arbitrage"; "liquidation_pallet";
   "wholesale_purchase"; "online_marketplace"; "trade_in"; "consignment_intake"; "personal_conversion";
   "customer_return"; "found_stock"; "other"]%string.

(** A failed schema is one [InventoryValidationError]. *)
Definition parse {A} (m : result A) : result A :=
  match m with Ok a => Ok a | Throw _ => Throw InventoryValidationError end.
Definition z_max64 (s : string) : result string :=
  t ← z_text s;
  _ ← throw_if (64 <? String.length t)%nat InventoryValidationError;
  mret t.

Definition createAcquisitionSchema (i : CreateAcquisitionInput) : result CreateAcquisitionInput :=
  title ← z_text (ca_title i);
  _ ← throw_if (negb (bool_decide (ca_sourceKind i ∈ sourceKinds))) InventoryValidationError;
  _ ← throw_if (negb (Text.three_letters (ca_currency i))) InventoryValidationError;
  reference ← z_opt z_max64 (ca_referenceCode i);
  _ ← throw_if (opt_eqb (ca_status i) ""%string) InventoryValidationError;
  vendor ← z_opt z_text (ca_vendorName i);
  place ← z_opt z_text (ca_vendorLocation i);
  external ← z_opt z_text (ca_externalReference i);
  _ ← throw_if (match ca_expectedItemCount i with None => false | Some n => n <=? 0 end) InventoryValidationError;
  actor ← z_user (ca_createdByUserId i);
  mret {| ca_title := title; ca_sourceKind := ca_sourceKind i; ca_currency := ca_currency i;
          ca_referenceCode := reference; ca_status := ca_status i; ca_economicEntityId :=
          ca_economicEntityId i; ca_installationDefaultEntityId := ca_installationDefaultEntityId i;
          ca_connectionId := ca_connectionId i; ca_vendorName := vendor; ca_vendorLocation := place;
          ca_externalReference := external; ca_costAllocationBasis := ca_costAllocationBasis i;
          ca_acquiredAt := ca_acquiredAt i; ca_receivedAt := ca_receivedAt i; ca_expectedItemCount :=
          ca_expectedItemCount i; ca_notes := ca_notes i; ca_createdByUserId := actor |}.

Definition connection_entity (connection : option uuid) (s : Stock) : option uuid :=
  match connection with
  | None => None
  | Some id => find_row (fun c => bool_decide (cn_id c = id)) (sk_connections s) ≫= cn_economicEntityId
  end.

(** The codes of the year, counted; the next number is one more. *)
Definition nextSequence (year : Z) : srun Z :=
  st_gets (fun s => Z.of_nat (length (List.filter (fun r => Js.starts_with (code_prefix year) (lot_referenceCode r))
                                        (sk_acquisitions s))) + 1).

Definition acquisition_values (value : CreateAcquisitionInput) (attribution : Attribution) (code : string)
    (acquiredAt : Z) (id : uuid) (now : Z) : AcquisitionRow :=
  {| lot_id := id; lot_attribution := attribution; lot_sourceKind := ca_sourceKind value; lot_status :=
     default "open"%string (ca_status value); lot_referenceCode := code; lot_title := ca_title value;
     lot_vendorName := ca_vendorName value; lot_vendorLocation := ca_vendorLocation value;
     lot_externalReference := ca_externalReference value; lot_connectionId := ca_connectionId value;
     lot_currency := Text.toUpperCase (ca_currency value); lot_costAllocationBasis := default
     BasisRelativeValue (ca_costAllocationBasis value); lot_costAllocationStatus := CostPending;
     lot_acquiredAt := acquiredAt; lot_receivedAt := ca_receivedAt value; lot_expectedItemCount :=
     ca_expectedItemCount value; lot_notes := ca_notes value; lot_createdByUserId :=
     ca_createdByUserId value |}.

(** [getUTCFullYear] of a timestamp in milliseconds *)
Definition utc_full_year (t : Z) : Z := year_of (utc_date t).

Definition create_attempt (value : CreateAcquisitionInput) (attribution : Attribution) (acquiredAt : Z)
    (attempt : Z) : srun AcquisitionRow :=
  code ← match ca_referenceCode value with
         | Some code => mret code
         | None =>
             next ← nextSequence (utc_full_year acquiredAt);
             mret (acquisitionReferenceCode (utc_full_year acquiredAt) (next + attempt))
         end;
  insertAcquisition (acquisition_values value attribution code acquiredAt).

Definition create (input : CreateAcquisitionInput) : srun AcquisitionRow :=
  value ← st_lift (parse (createAcquisitionSchema input));
  now ← st_gets sk_now;
  connectionEntityId ← st_gets (connection_entity (ca_connectionId value));
  let attribution := resolveAcquisitionAttribution (ca_economicEntityId value)
        (ca_installationDefaultEntityId value) connectionEntityId (ca_createdByUserId value) now in
  withCodeRetry "acquisitions_reference_code_uq"
    (create_attempt value attribution (default now (ca_acquiredAt value))).

(** ** Costs *)
Definition get (id : uuid) : srun AcquisitionRow :=
  s ← st_get;
  match find_lot id s with
  | None => st_throw InventoryNotFoundError
  | Some row => mret row
  end.

Record AddCostInput : Type := {
  ad_acquisitionId : uuid;
  ad_costType : string;
  ad_costClass : CostClass;
  ad_amount : string;
  ad_currency : option string;
  ad_inventoryItemId : option uuid;
  ad_capitalize : option bool;
  ad_description : option string;
  ad_vendorName : option string;
  ad_externalReference : option string;
  ad_incurredAt : option Z;
  ad_createdByUserId : option string;
}.

Definition addCostSchema (i : AddCostInput) : result AddCostInput :=
  type ← z_text (ad_costType i);
  amount ← z_decimal (ad_amount i);
  _ ← throw_if (match ad_currency i with None => false | Some c => negb (Text.three_letters c) end)
        InventoryValidationError;
  vendor ← z_opt z_text (ad_vendorName i);
  external ← z_opt z_text (ad_externalReference i);
  actor ← z_user (ad_createdByUserId i);
  mret {| ad_acquisitionId := ad_acquisitionId i; ad_costType := type; ad_costClass := ad_costClass i;
          ad_amount := amount; ad_currency := ad_currency i; ad_inventoryItemId := ad_inventoryItemId i;
          ad_capitalize := ad_capitalize i; ad_description := ad_description i; ad_vendorName := vendor;
          ad_externalReference := external; ad_incurredAt := ad_incurredAt i; ad_createdByUserId := actor |}.

Definition cost_values (value : AddCostInput) (scope : CostScope) (currency : string) (amount : Z)
    (id : uuid) (now : Z) : AcquisitionCostRow :=
  {| lc_id := id; lc_acquisitionId := ad_acquisitionId value; lc_inventoryItemId := ad_inventoryItemId value;
     lc_costScope := scope; lc_costType := ad_costType value; lc_costClass := ad_costClass value;
     lc_capitalize := default true (ad_capitalize value); lc_description := ad_description value;
     lc_vendorName := ad_vendorName value; lc_externalReference := ad_externalReference value;
     lc_currency := currency; lc_amount := amount; lc_incurredAt := ad_incurredAt value; lc_createdAt := now |}.

(** The item of an item-scoped cost must exist; it need not be of the lot. *)
Definition addCost (input : AddCostInput) : srun AcquisitionCostRow :=
  value ← st_lift (parse (addCostSchema input));
  acquisition ← get (ad_acquisitionId value);
  scope ← match ad_inventoryItemId value with
          | None => mret LotScope
          | Some item => _ ← require_item item; mret ItemScope
          end;
  amount ← st_lift (money_column (ad_amount value));
  insertCost (cost_values value scope
    (Text.toUpperCase (default (lot_currency acquisition) (ad_currency value))) amount).

Definition listCosts (acquisitionId : uuid) : srun (list AcquisitionCostRow) :=
  st_gets (fun s => order_by lc_createdAt (lot_costs acquisitionId s)).

Record LandedCostGroup : Type := {
  lg_currency : string;
  lg_goodsAmount : string;
  lg_ancillaryAmount : string;
  lg_landedCostAmount : string;
  lg_nonCapitalizedAmount : string;
}.

(** [sum(amount) filter (where p)]: a sum over no row is null, read as zero. *)
Definition filtered_sum (p : AcquisitionCostRow -> bool) (costs : list AcquisitionCostRow) : result string :=
  match List.filter p costs with
  | [] => mret ZERO
  | rows => sum ← numeric_20_6 (sumZ (lc_amount <$> rows)); mret (fromUnits sum)
  end.

Definition is_class (class : CostClass) (c : AcquisitionCostRow) : bool := bool_decide (lc_costClass c = class).

Definition landed_group (costs : list AcquisitionCostRow) (currency : string) : result LandedCostGroup :=
  let rows := List.filter (fun c => String.eqb (lc_currency c) currency) costs in
  goods ← filtered_sum (fun c => lc_capitalize c && is_class Goods c) rows;
  ancillary ← filtered_sum (fun c => lc_capitalize c && is_class Ancillary c) rows;
  landed ← filtered_sum lc_capitalize rows;
  rest ← filtered_sum (fun c => negb (lc_capitalize c)) rows;
  mret {| lg_currency := currency; lg_goodsAmount := goods; lg_ancillaryAmount := ancillary;
          lg_landedCostAmount := landed; lg_nonCapitalizedAmount := rest |}.

(** [group by currency order by currency] *)
Fixpoint insert_text (x : string) (l : list string) : list string :=
  match l with
  | [] => [x]
  | y :: l' => if String.eqb x y then l else if String.leb x y then x :: l else y :: insert_text x l'
  end.
Definition groups (l : list string) : list string := foldr insert_text [] l.

Definition landedCost (acquisitionId : uuid) : srun (list LandedCostGroup) :=
  costs ← st_gets (lot_costs acquisitionId);
  st_lift (res_mapM (landed_group costs) (groups (lc_currency <$> costs))).

(** ** The allocation engine *)
Record AllocationItem : Type := {
  ai_id : uuid;
  ai_itemCode : string;
  ai_quantity : string;
  ai_estimatedValueAmount : option string;
  ai_costAllocationWeight : option string;
  ai_landedCostAmount : string;
  ai_acquisitionCostAmount : string;
  ai_locked : bool;
}.

Definition to_allocation_item (r : InventoryItemRow) : AllocationItem :=
  let ba := ir_basis r in
  {| ai_id := ir_id r; ai_itemCode := ir_itemCode r; ai_quantity := fromUnits (ir_quantity r);
     ai_estimatedValueAmount := fromUnits <$> ba_estimatedValueAmount ba;
     ai_costAllocationWeight := fromUnits <$> ba_costAllocationWeight ba;
     ai_landedCostAmount := fromUnits (ba_landedCostAmount ba);
     ai_acquisitionCostAmount := fromUnits (ba_acquisitionCostAmount ba);
     ai_locked := is_some (ba_costBasisLockedAt ba) |}.

(** [order by created_at, item_code] *)
Definition item_le (r q : InventoryItemRow) : bool :=
  (ir_createdAt r <? ir_createdAt q)
  || ((ir_createdAt r =? ir_createdAt q) && String.leb (ir_itemCode r) (ir_itemCode q)).
Definition in_lot_order : list InventoryItemRow -> list InventoryItemRow := sort_with item_le.

(** [sumDecimals(values, ZERO)] *)
Definition sumDecimals (values : list string) : result string :=
  match values with [] => mret ZERO | _ => Commerce.sumDecimals values end.

(** The buckets of the local costs: an item's own costs, and the lot's. *)
Definition item_scoped (c : AcquisitionCostRow) : bool :=
  bool_decide (lc_costScope c = ItemScope) && is_some (lc_inventoryItemId c).
Definition amounts (p : AcquisitionCostRow -> bool) (costs : list AcquisitionCostRow) : list string :=
  (fun c => fromUnits (lc_amount c)) <$> List.filter p costs.
Definition directs (class : CostClass) (costs : list AcquisitionCostRow) (item : uuid) : list string :=
  amounts (fun c => item_scoped c && opt_eqb (lc_inventoryItemId c) item && is_class class c) costs.
Definition lot_amounts (class : CostClass) (costs : list AcquisitionCostRow) : list string :=
  amounts (fun c => negb (item_scoped c) && is_class class c) costs.
Definition direct_of (costs : list AcquisitionCostRow) (item : uuid) : list string :=
  directs Goods costs item ++ directs Ancillary costs item.

Definition weightFor (basis : CostAllocationBasis) (item : AllocationItem) : result string :=
  match basis with
  | BasisEqual => Inventory.clampNonNegative (ai_quantity item)
  | BasisRelativeValue => Inventory.clampNonNegative (default ZERO (ai_estimatedValueAmount item))
  | BasisWeight => Inventory.clampNonNegative (default ZERO (ai_costAllocationWeight item))
  | BasisManual | BasisDirect => mret ZERO
  end.

Record Share : Type := {
  sh_inventoryItemId : uuid;
  sh_itemCode : string;
  sh_directAmount : string;
  sh_lotShareAmount : string;
  sh_acquisitionCostAmount : string;
  sh_landedCostAmount : string;
}.

(** What the run distributes. *)
Record Pools : Type := {
  po_lotPool : string;
  po_lockedLotShare : string;
  po_allocatable : string;
  po_goodsAllocatable : string;
  po_ancillaryAllocatable : string;
}.

(** The part of a locked item's basis that came from the lot. *)
Definition locked_share (costs : list AcquisitionCostRow) (item : AllocationItem) : result string :=
  direct ← sumDecimals (direct_of costs (ai_id item));
  subtractDecimals (ai_landedCostAmount item) direct.

Definition pools (basis : CostAllocationBasis) (costs : list AcquisitionCostRow) (locked : list AllocationItem)
    : result Pools :=
  goods ← sumDecimals (lot_amounts Goods costs);
  ancillary ← sumDecimals (lot_amounts Ancillary costs);
  lotPool ← sumDecimals [goods; ancillary];
  c ← compareDecimals lotPool "0";
  _ ← throw_if (bool_decide (basis = BasisDirect) && negb (c =? 0)) InventoryConflictError;
  shares ← res_mapM (locked_share costs) locked;
  lockedLotShare ← sumDecimals shares;
  allocatable ← subtractDecimals lotPool lockedLotShare;
  negative ← Inventory.isNegative allocatable;
  _ ← throw_if negative InventoryConflictError;
  goodsAllocatable ← (if c =? 0 then mret ZERO
                      else d ← Inventory.distributeByWeights allocatable [goods; ancillary] MONEY_SCALE;
                           mret (default ZERO (Inventory.shares d !! 0%nat)));
  ancillaryAllocatable ← subtractDecimals allocatable goodsAllocatable;
  mret {| po_lotPool := lotPool; po_lockedLotShare := lockedLotShare; po_allocatable := allocatable;
          po_goodsAllocatable := goodsAllocatable; po_ancillaryAllocatable := ancillaryAllocatable |}.

(** The operator's amounts: a later entry of an item replaces an earlier one. *)
Definition supplied (amounts : list (uuid * string)) (item : uuid) : option string :=
  snd <$> List.find (fun e => bool_decide (fst e = item)) (rev amounts).

Definition manual_share (costs : list AcquisitionCostRow) (amounts : list (uuid * string)) (item : AllocationItem)
    : result Share :=
  landed ← toMoneyString (default ZERO (supplied amounts (ai_id item)));
  direct ← sumDecimals (direct_of costs (ai_id item));
  directMoney ← toMoneyString direct;
  share ← subtractDecimals landed direct;
  mret {| sh_inventoryItemId := ai_id item; sh_itemCode := ai_itemCode item; sh_directAmount := directMoney;
          sh_lotShareAmount := share; sh_acquisitionCostAmount := landed; sh_landedCostAmount := landed |}.

Definition manual_outcome (costs : list AcquisitionCostRow) (amounts : list (uuid * string)) (allocatable : string)
    (locked unlocked : list AllocationItem) : result (list Share) :=
  _ ← throw_if (existsb (fun i => is_some (supplied amounts (ai_id i))) locked) InventoryImmutableFactError;
  _ ← throw_if (existsb (fun i => negb (is_some (supplied amounts (ai_id i)))) unlocked) InventoryValidationError;
  total ← sumDecimals ((fun i => default ZERO (supplied amounts (ai_id i))) <$> unlocked);
  direct ← res_mapM (fun i => sumDecimals (direct_of costs (ai_id i))) unlocked;
  expected ← sumDecimals (allocatable :: direct);
  c ← compareDecimals total expected;
  _ ← throw_if (negb (c =? 0)) InventoryConflictError;
  res_mapM (manual_share costs amounts) unlocked.

Definition weighted_share (costs : list AcquisitionCostRow) (goodsShares ancillaryShares : list string)
    (e : nat * AllocationItem) : result Share :=
  let item := e.2 in
  goodsDirect ← sumDecimals (directs Goods costs (ai_id item));
  ancillaryDirect ← sumDecimals (directs Ancillary costs (ai_id item));
  let goodsShare := default ZERO (goodsShares !! e.1) in
  let ancillaryShare := default ZERO (ancillaryShares !! e.1) in
  goods ← sumDecimals [goodsDirect; goodsShare];
  landed ← sumDecimals [goods; ancillaryDirect; ancillaryShare];
  direct ← sumDecimals [goodsDirect; ancillaryDirect];
  directMoney ← toMoneyString direct;
  share ← sumDecimals [goodsShare; ancillaryShare];
  shareMoney ← toMoneyString share;
  goodsMoney ← toMoneyString goods;
  landedMoney ← toMoneyString landed;
  mret {| sh_inventoryItemId := ai_id item; sh_itemCode := ai_itemCode item; sh_directAmount := directMoney;
          sh_lotShareAmount := shareMoney; sh_acquisitionCostAmount := goodsMoney;
          sh_landedCostAmount := landedMoney |}.

Definition weighted_outcome (basis : CostAllocationBasis) (costs : list AcquisitionCostRow) (p : Pools)
    (unlocked : list AllocationItem) : result (list Share * string) :=
  weights ← res_mapM (weightFor basis) unlocked;
  goods ← Inventory.distributeByWeights (po_goodsAllocatable p) weights MONEY_SCALE;
  ancillary ← Inventory.distributeByWeights (po_ancillaryAllocatable p) weights MONEY_SCALE;
  unallocated ← sumDecimals [Inventory.unallocated goods; Inventory.unallocated ancillary];
  outcome ← res_mapM (weighted_share costs (Inventory.shares goods) (Inventory.shares ancillary))
    (imap (fun index item => (index, item)) unlocked);
  mret (outcome, unallocated).

(** The shares, and what no weight took. *)
Definition distribute (basis : CostAllocationBasis) (costs : list AcquisitionCostRow)
    (amounts : list (uuid * string)) (p : Pools) (locked unlocked : list AllocationItem)
    : result (list Share * string) :=
  if bool_decide (basis = BasisManual)
  then outcome ← manual_outcome costs amounts (po_allocatable p) locked unlocked; mret (outcome, ZERO)
  else weighted_outcome basis costs p unlocked.

Definition costed (basis : CostAllocationBasis) (landed goods : Z) (now : Z) (r : InventoryItemRow)
    : InventoryItemRow :=
  let ba := ir_basis r in
  {| ir_id := ir_id r; ir_itemCode := ir_itemCode r; ir_acquisitionId := ir_acquisitionId r;
     ir_catalogItemId := ir_catalogItemId r; ir_originItemId := ir_originItemId r; ir_label := ir_label r;
     ir_lotReference := ir_lotReference r; ir_serialNumber := ir_serialNumber r; ir_quantity :=
     ir_quantity r; ir_currency := ir_currency r; ir_acquiredAt := ir_acquiredAt r; ir_receivedAt :=
     ir_receivedAt r; ir_createdByUserId := ir_createdByUserId r; ir_createdAt := ir_createdAt r;
     ir_attribution := ir_attribution r; ir_locationId := ir_locationId r; ir_grade := ir_grade r;
     ir_stock := ir_stock r;
     ir_basis :=
       {| ba_acquisitionCostAmount := goods; ba_landedCostAmount := landed;
          ba_costAllocationBasis := Some basis; ba_costAllocationWeight := ba_costAllocationWeight ba;
          ba_costBasisLockedAt := ba_costBasisLockedAt ba;
          ba_estimatedValueAmount := ba_estimatedValueAmount ba |};
     ir_parcel := ir_parcel r; ir_saleMode := ir_saleMode r; ir_updatedAt := now |}.

Definition unlocked_item (id : uuid) (r : InventoryItemRow) : bool :=
  is_item id r && negb (is_some (ba_costBasisLockedAt (ir_basis r))).

Definition write_share (basis : CostAllocationBasis) (share : Share) : srun unit :=
  now ← st_gets sk_now;
  landed ← st_lift (numericLiteral (sh_landedCostAmount share));
  goods ← st_lift (numericLiteral (sh_acquisitionCostAmount share));
  _ ← updateItems (unlocked_item (sh_inventoryItemId share)) (costed basis landed goods now);
  mret tt.

Definition allocation_status (items : list AllocationItem) (finalize : bool) (unallocated : string)
    : result CostAllocationStatus :=
  match items with
  | [] => mret CostPending
  | _ =>
      if finalize then
        c ← compareDecimals unallocated "0";
        if c =? 0 then mret CostFinal else Throw InventoryConflictError
      else mret CostProvisional
  end.

Definition lot_allocated (basis : CostAllocationBasis) (status : CostAllocationStatus) (r : AcquisitionRow)
    : AcquisitionRow :=
  {| lot_id := lot_id r; lot_attribution := lot_attribution r; lot_sourceKind := lot_sourceKind r;
     lot_status := lot_status r; lot_referenceCode := lot_referenceCode r; lot_title := lot_title r;
     lot_vendorName := lot_vendorName r; lot_vendorLocation := lot_vendorLocation r;
     lot_externalReference := lot_externalReference r; lot_connectionId := lot_connectionId r;
     lot_currency := lot_currency r; lot_costAllocationBasis := basis;
     lot_costAllocationStatus := status; lot_acquiredAt := lot_acquiredAt r;
     lot_receivedAt := lot_receivedAt r; lot_expectedItemCount := lot_expectedItemCount r;
     lot_notes := lot_notes r; lot_createdByUserId := lot_createdByUserId r |}.

Record AllocateCostsInput : Type := {
  ac_acquisitionId : uuid;
  ac_basis : option CostAllocationBasis;
  ac_manualAmounts : list (uuid * string);
  ac_finalize : bool;
}.

Record AllocationOutcome : Type := {
  ao_acquisitionId : uuid;
  ao_basis : CostAllocationBasis;
  ao_currency : string;
  ao_lotPoolAmount : string;
  ao_lockedAmount : string;
  ao_allocatablePoolAmount : string;
  ao_allocations : list Share;
  ao_lockedItems : list (uuid * string * string);
  ao_unallocatedAmount : string;
  ao_foreignCurrencyCostCount : nat;
  ao_costAllocationStatus : CostAllocationStatus;
}.

Definition locked_row (item : AllocationItem) : result (uuid * string * string) :=
  landed ← toMoneyString (ai_landedCostAmount item);
  mret (ai_id item, ai_itemCode item, landed).

Definition allocateCosts_body (input : AllocateCostsInput) : srun AllocationOutcome :=
  acquisition ← get (ac_acquisitionId input);
  let basis := default (lot_costAllocationBasis acquisition) (ac_basis input) in
  let currency := lot_currency acquisition in
  items ← st_gets (fun s => to_allocation_item <$> in_lot_order (lot_items (ac_acquisitionId input) s));
  costs ← st_gets (lot_costs (ac_acquisitionId input));
  let capitalized := List.filter lc_capitalize costs in
  let foreign := List.filter (fun c => negb (String.eqb (lc_currency c) currency)) capitalized in
  let local := List.filter (fun c => String.eqb (lc_currency c) currency) capitalized in
  let unlocked := List.filter (fun i => negb (ai_locked i)) items in
  let locked := List.filter ai_locked items in
  p ← st_lift (pools basis local locked);
  outcome ← st_lift (distribute basis local (ac_manualAmounts input) p locked unlocked);
  _ ← st_mapM (write_share basis) outcome.1;
  status ← st_lift (allocation_status items (ac_finalize input) outcome.2);
  _ ← updateAcquisitions (is_lot (ac_acquisitionId input)) (lot_allocated basis status);
  lotPool ← st_lift (toMoneyString (po_lotPool p));
  lockedAmount ← st_lift (toMoneyString (po_lockedLotShare p));
  allocatable ← st_lift (toMoneyString (po_allocatable p));
  lockedItems ← st_lift (res_mapM locked_row locked);
  unallocated ← st_lift (toMoneyString outcome.2);
  mret {| ao_acquisitionId := ac_acquisitionId input; ao_basis := basis; ao_currency := currency;
          ao_lotPoolAmount := lotPool; ao_lockedAmount := lockedAmount;
          ao_allocatablePoolAmount := allocatable; ao_allocations := outcome.1;
          ao_lockedItems := lockedItems; ao_unallocatedAmount := unallocated;
          ao_foreignCurrencyCostCount := length foreign; ao_costAllocationStatus := status |}.

Definition allocateCosts (input : AllocateCostsInput) : srun AllocationOutcome :=
  atomically (allocateCosts_body input).
