(* ===== verification/Items.v ===== *)
(** * Inventory items

    [packages/inventory/src/items.ts]: intake, condition, enrichment, part-out,
    the two paired-movement transfers, attribution and basis correction. *)
From S2P Require Import Prelude Decimal DecimalPackages Calendar Inputs Store Schema Ledger Stock Movements.
From S2P Require Import Reservations LotCosts.

Open Scope Z_scope.
#[local] Arguments String.append : simpl nomatch.

(** ** Schema pieces *)

(** [positiveDecimal]: the refinement also runs on a string the pattern refused,
    and [compareDecimals] then throws out of the parse. *)
Definition positiveDecimal (s : string) : result string :=
  c ← compareDecimals s "0";
  _ ← throw_if (c <=? 0) InventoryValidationError;
  mret s.
Definition plain_decimal (s : string) : result string :=
  _ ← throw_if (negb (DECIMAL_STRING s)) InventoryValidationError; mret s.

(** A column written when the key is present, [null] included. *)
Definition merged {A} (field : option (option A)) (current : option A) : option A := default current field.

(** ** Row updates, one group of columns each *)
Definition with_groups (grade : ItemGrade) (stock : ItemStock) (basis : ItemBasis) (parcel : ItemParcel)
    (attribution : Attribution) (location : option uuid) (mode : ItemSaleMode) (now : Z)
    (r : InventoryItemRow) : InventoryItemRow :=
  {| ir_id := ir_id r; ir_itemCode := ir_itemCode r; ir_acquisitionId := ir_acquisitionId r;
     ir_catalogItemId := ir_catalogItemId r; ir_originItemId := ir_originItemId r; ir_label := ir_label r;
     ir_lotReference := ir_lotReference r; ir_serialNumber := ir_serialNumber r; ir_quantity :=
     ir_quantity r; ir_currency := ir_currency r; ir_acquiredAt := ir_acquiredAt r; ir_receivedAt :=
     ir_receivedAt r; ir_createdByUserId := ir_createdByUserId r; ir_createdAt := ir_createdAt r;
     ir_attribution := attribution; ir_locationId := location; ir_grade := grade; ir_stock := stock;
     ir_basis := basis; ir_parcel := parcel; ir_saleMode := mode; ir_updatedAt := now |}.

Definition set_grade (g : ItemGrade) (now : Z) (r : InventoryItemRow) : InventoryItemRow :=
  with_groups g (ir_stock r) (ir_basis r) (ir_parcel r) (ir_attribution r) (ir_locationId r) (ir_saleMode r) now r.
Definition set_parcel (p : ItemParcel) (now : Z) (r : InventoryItemRow) : InventoryItemRow :=
  with_groups (ir_grade r) (ir_stock r) (ir_basis r) p (ir_attribution r) (ir_locationId r) (ir_saleMode r) now r.
Definition set_mode (m : ItemSaleMode) (now : Z) (r : InventoryItemRow) : InventoryItemRow :=
  with_groups (ir_grade r) (ir_stock r) (ir_basis r) (ir_parcel r) (ir_attribution r) (ir_locationId r) m now r.
Definition set_location (location : uuid) (now : Z) (r : InventoryItemRow) : InventoryItemRow :=
  with_groups (ir_grade r) (ir_stock r) (ir_basis r) (ir_parcel r) (ir_attribution r) (Some location)
    (ir_saleMode r) now r.
Definition set_attribution (a : Attribution) (now : Z) (r : InventoryItemRow) : InventoryItemRow :=
  with_groups (ir_grade r) (ir_stock r) (ir_basis r) (ir_parcel r) a (ir_locationId r) (ir_saleMode r) now r.
Definition set_costs (landed goods : Z) (now : Z) (r : InventoryItemRow) : InventoryItemRow :=
  let ba := ir_basis r in
  with_groups (ir_grade r) (ir_stock r)
    {| ba_acquisitionCostAmount := goods; ba_landedCostAmount := landed;
       ba_costAllocationBasis := ba_costAllocationBasis ba;
       ba_costAllocationWeight := ba_costAllocationWeight ba;
       ba_costBasisLockedAt := ba_costBasisLockedAt ba;
       ba_estimatedValueAmount := ba_estimatedValueAmount ba |}
    (ir_parcel r) (ir_attribution r) (ir_locationId r) (ir_saleMode r) now r.
(** Status, and [listed_at] when it is still null. *)
Definition set_listing (status : string) (listed : bool) (now : Z) (r : InventoryItemRow) : InventoryItemRow :=
  let st := ir_stock r in
  with_groups (ir_grade r)
    {| st_status := status; st_quantityOnHand := st_quantityOnHand st; st_depletedAt := st_depletedAt st;
       st_listedAt := if listed then coalesce (st_listedAt st) now else st_listedAt st |}
    (ir_basis r) (ir_parcel r) (ir_attribution r) (ir_locationId r) (ir_saleMode r) now r.

Definition on_hand (r : InventoryItemRow) : string := fromUnits (st_quantityOnHand (ir_stock r)).
Definition status_of (r : InventoryItemRow) : string := st_status (ir_stock r).

(** [loadItem] *)
Definition loadItem (id : uuid) : srun InventoryItemRow := require_item id.

Definition getByCode (code : string) : srun InventoryItemRow :=
  row ← st_gets (fun s => find_row (fun r => String.eqb (ir_itemCode r) code) (sk_items s));
  match row with None => st_throw InventoryNotFoundError | Some row => mret row end.

(** [withCodeRetry] inside a transaction: the statement that failed aborted it, so
    the next attempt throws 25P02, which is rethrown. *)
Definition codeRetry_in_tx {A} (attempt : srun A) : srun A :=
  st_catch attempt (fun error =>
    if isUniqueViolation error "inventory_items_item_code_uq" then st_throw (SqlError "25P02")
    else st_throw error).

(** ** [create] *)
Record CreateItemInput : Type := {
  ci_label : string;
  ci_currency : string;
  ci_acquisitionId : option uuid;
  ci_catalogItemId : option uuid;
  ci_locationId : option uuid;
  ci_economicEntityId : option uuid;
  ci_itemCode : option string;
  ci_lotReference : option string;
  ci_serialNumber : option string;
  ci_conditionCode : option ConditionCode;
  ci_conditionNotes : option string;
  ci_gradingAuthority : option string;
  ci_gradeLabel : option string;
  ci_gradeNumeric : option string;
  ci_certificateNumber : option string;
  ci_quantity : option string;
  ci_acquisitionCostAmount : option string;
  ci_landedCostAmount : option string;
  ci_costAllocationWeight : option string;
  ci_estimatedValueAmount : option string;
  ci_acquiredAt : option Z;
  ci_receivedAt : option Z;
  ci_status : option string;
  ci_receive : option bool;
  ci_receiptSessionKey : option string;
  ci_createdByUserId : option string;
  ci_installationDefaultEntityId : option uuid;
}.

Definition createItemSchema (i : CreateItemInput) : result CreateItemInput :=
  quantity ← positiveDecimal (default "1"%string (ci_quantity i));
  label ← parse (z_text (ci_label i));
  _ ← throw_if (negb (Text.three_letters (ci_currency i))) InventoryValidationError;
  code ← parse (z_opt z_max64 (ci_itemCode i));
  lot ← parse (z_opt z_text (ci_lotReference i));
  serial ← parse (z_opt z_text (ci_serialNumber i));
  authority ← parse (z_opt z_text (ci_gradingAuthority i));
  grade ← parse (z_opt z_text (ci_gradeLabel i));
  numeric ← z_opt plain_decimal (ci_gradeNumeric i);
  certificate ← parse (z_opt z_text (ci_certificateNumber i));
  goods ← z_opt plain_decimal (ci_acquisitionCostAmount i);
  landed ← z_opt plain_decimal (ci_landedCostAmount i);
  weight ← z_opt plain_decimal (ci_costAllocationWeight i);
  estimate ← z_opt plain_decimal (ci_estimatedValueAmount i);
  _ ← throw_if (opt_eqb (ci_status i) ""%string || opt_eqb (ci_receiptSessionKey i) ""%string)
        InventoryValidationError;
  actor ← parse (z_user (ci_createdByUserId i));
  _ ← throw_if (is_some grade && negb (is_some authority)) InventoryValidationError;
  mret {| ci_label := label; ci_currency := ci_currency i; ci_acquisitionId := ci_acquisitionId i;
          ci_catalogItemId := ci_catalogItemId i; ci_locationId := ci_locationId i; ci_economicEntityId :=
          ci_economicEntityId i; ci_itemCode := code; ci_lotReference := lot; ci_serialNumber := serial;
          ci_conditionCode := ci_conditionCode i; ci_conditionNotes := ci_conditionNotes i;
          ci_gradingAuthority := authority; ci_gradeLabel := grade; ci_gradeNumeric := numeric;
          ci_certificateNumber := certificate; ci_quantity := Some quantity; ci_acquisitionCostAmount :=
          goods; ci_landedCostAmount := landed; ci_costAllocationWeight := weight;
          ci_estimatedValueAmount := estimate; ci_acquiredAt := ci_acquiredAt i; ci_receivedAt :=
          ci_receivedAt i; ci_status := ci_status i; ci_receive := ci_receive i; ci_receiptSessionKey :=
          ci_receiptSessionKey i; ci_createdByUserId := actor; ci_installationDefaultEntityId :=
          ci_installationDefaultEntityId i |}.

(** The numeric columns of the row, as PostgreSQL stores them. *)
Record ItemNumbers : Type := {
  nu_quantity : Z;
  nu_gradeNumeric : option Z;
  nu_acquisitionCostAmount : Z;
  nu_landedCostAmount : Z;
  nu_costAllocationWeight : option Z;
  nu_estimatedValueAmount : option Z;
}.
Definition item_numbers (value : CreateItemInput) : result ItemNumbers :=
  quantity ← money_column (default "1"%string (ci_quantity value));
  numeric ← z_opt (sql_numeric 4 1) (ci_gradeNumeric value);
  goods ← money_column (default ZERO (ci_acquisitionCostAmount value));
  landed ← money_column (default ZERO (ci_landedCostAmount value));
  weight ← z_opt money_column (ci_costAllocationWeight value);
  estimate ← z_opt money_column (ci_estimatedValueAmount value);
  mret {| nu_quantity := quantity; nu_gradeNumeric := numeric; nu_acquisitionCostAmount := goods;
          nu_landedCostAmount := landed; nu_costAllocationWeight := weight; nu_estimatedValueAmount := estimate |}.

Definition no_parcel : ItemParcel :=
  {| pa_description := None; pa_packageWeightGrams := None; pa_packageLengthMm := None;
     pa_packageWidthMm := None; pa_packageHeightMm := None |}.
Definition nothing_on_hand (status : string) : ItemStock :=
  {| st_status := status; st_quantityOnHand := 0; st_depletedAt := None; st_listedAt := None |}.

Definition item_values (value : CreateItemInput) (n : ItemNumbers) (code : string) (attribution : Attribution)
    (acquiredAt : Z) (id : uuid) (now : Z) : InventoryItemRow :=
  {| ir_id := id; ir_itemCode := code; ir_acquisitionId := ci_acquisitionId value; ir_catalogItemId :=
     ci_catalogItemId value; ir_originItemId := None; ir_label := ci_label value; ir_lotReference :=
     ci_lotReference value; ir_serialNumber := ci_serialNumber value; ir_quantity := nu_quantity n;
     ir_currency := Text.toUpperCase (ci_currency value); ir_acquiredAt := acquiredAt; ir_receivedAt :=
     ci_receivedAt value; ir_createdByUserId := ci_createdByUserId value; ir_createdAt := now;
     ir_attribution := attribution; ir_locationId := ci_locationId value;
     ir_grade :=
       {| gr_conditionCode := default UnknownCondition (ci_conditionCode value);
          gr_conditionNotes := ci_conditionNotes value; gr_gradingAuthority := ci_gradingAuthority value;
          gr_gradeLabel := ci_gradeLabel value; gr_gradeNumeric := nu_gradeNumeric n;
          gr_certificateNumber := ci_certificateNumber value |};
     ir_stock := nothing_on_hand (default "intake"%string (ci_status value));
     ir_basis :=
       {| ba_acquisitionCostAmount := nu_acquisitionCostAmount n; ba_landedCostAmount := nu_landedCostAmount n;
          ba_costAllocationBasis := None; ba_costAllocationWeight := nu_costAllocationWeight n;
          ba_costBasisLockedAt := None; ba_estimatedValueAmount := nu_estimatedValueAmount n |};
     ir_parcel := no_parcel; ir_saleMode := SaleUnit; ir_updatedAt := now |}.

(** The fields every movement of this module leaves null. *)
Definition plain_movement (item : uuid) (kind : MovementKind) (quantity : string) (location group lot : option uuid)
    (reason note : option string) (key : string) (occurredAt : Z) (actor : option string) : RecordMovementInput :=
  {| rm_inventoryItemId := item; rm_movementKind := kind; rm_quantity := quantity; rm_locationId := location;
     rm_transferGroupId := group; rm_acquisitionId := lot; rm_inventoryAllocationId := None;
     rm_orderLineId := None; rm_orderFulfillmentId := None; rm_shipmentId := None;
     rm_reversesMovementId := None; rm_reasonCode := reason; rm_note := note; rm_deduplicationKey := key;
     rm_occurredAt := Some occurredAt; rm_actorUserId := actor |}.

Definition receipt_input (value : CreateItemInput) (acquisition : option AcquisitionRow) (item : uuid)
    (acquiredAt : Z) : RecordMovementInput :=
  plain_movement item (if is_some acquisition then Receipt else Found)
    (default "1"%string (ci_quantity value)) (ci_locationId value) None (lot_id <$> acquisition) None None
    (match acquisition with
     | None => movementKeys.found (default (id_text item) (ci_receiptSessionKey value)) item
     | Some lot => movementKeys.receipt (lot_id lot) item
     end)
    (default acquiredAt (ci_receivedAt value)) (ci_createdByUserId value).

Definition create_body (value : CreateItemInput) (now : Z) : srun InventoryItemRow :=
  acquisition ← match ci_acquisitionId value with
                | None => mret None
                | Some id => lot ← LotCosts.get id; mret (Some lot)
                end;
  let attribution := resolveItemAttribution (ci_economicEntityId value)
        (acquisition ≫= (fun lot => at_economicEntityId (lot_attribution lot)))
        (ci_installationDefaultEntityId value) None (ci_createdByUserId value) now in
  let acquiredAt := default (default now (lot_acquiredAt <$> acquisition)) (ci_acquiredAt value) in
  code ← match ci_itemCode value with Some code => mret code | None => itemCode end;
  item ← codeRetry_in_tx (n ← st_lift (item_numbers value);
                          insertItem (item_values value n code attribution acquiredAt));
  if default true (ci_receive value) then
    _ ← recordMovement (receipt_input value acquisition (ir_id item) acquiredAt);
    loadItem (ir_id item)
  else mret item.

Definition create (input : CreateItemInput) : srun InventoryItemRow :=
  value ← st_lift (createItemSchema input);
  now ← st_gets sk_now;
  atomically (create_body value now).

(** ** [setCondition] *)
Record SetConditionInput : Type := {
  sc_inventoryItemId : uuid;
  sc_conditionCode : option ConditionCode;
  sc_conditionNotes : option (option string);
  sc_gradingAuthority : option (option string);
  sc_gradeLabel : option (option string);
  sc_gradeNumeric : option (option string);
  sc_certificateNumber : option (option string);
}.

Definition gradingSchema (i : SetConditionInput) : result SetConditionInput :=
  authority ← parse (z_opt (z_opt z_text) (sc_gradingAuthority i));
  grade ← parse (z_opt (z_opt z_text) (sc_gradeLabel i));
  numeric ← z_opt (z_opt plain_decimal) (sc_gradeNumeric i);
  certificate ← parse (z_opt (z_opt z_text) (sc_certificateNumber i));
  mret {| sc_inventoryItemId := sc_inventoryItemId i; sc_conditionCode := sc_conditionCode i;
          sc_conditionNotes := sc_conditionNotes i; sc_gradingAuthority := authority; sc_gradeLabel := grade;
          sc_gradeNumeric := numeric; sc_certificateNumber := certificate |}.

(** A [numeric(20, 6)] literal assigned to the [numeric(4, 1)] column *)
Definition grade_column (text : string) : result Z :=
  z ← numericLiteral text;
  let tenths := round_away z (pow10 5) in
  if Z.abs tenths <? pow10 4 then mret tenths else Throw (SqlError "22003").

Definition setCondition (input : SetConditionInput) : srun InventoryItemRow :=
  value ← st_lift (gradingSchema input);
  atomically (
    item ← loadItem (sc_inventoryItemId value);
    let g := ir_grade item in
    let authority := merged (sc_gradingAuthority value) (gr_gradingAuthority g) in
    let grade := merged (sc_gradeLabel value) (gr_gradeLabel g) in
    _ ← st_lift (throw_if (is_some grade && negb (is_some authority)) InventoryValidationError);
    numeric ← st_lift (z_opt (z_opt grade_column) (sc_gradeNumeric value));
    now ← st_gets sk_now;
    _ ← updateItems (is_item (sc_inventoryItemId value)) (set_grade
          {| gr_conditionCode := default (gr_conditionCode g) (sc_conditionCode value);
             gr_conditionNotes := merged (sc_conditionNotes value) (gr_conditionNotes g);
             gr_gradingAuthority := authority; gr_gradeLabel := grade;
             gr_gradeNumeric := merged numeric (gr_gradeNumeric g);
             gr_certificateNumber := merged (sc_certificateNumber value) (gr_certificateNumber g) |} now);
    loadItem (sc_inventoryItemId value)).

(** ** [update] *)
Record UpdateItemInput : Type := {
  up_inventoryItemId : uuid;
  up_description : option (option string);
  up_packageWeightGrams : option (option string);
  up_packageLengthMm : option (option string);
  up_packageWidthMm : option (option string);
  up_packageHeightMm : option (option string);
}.

Definition updateSchema (i : UpdateItemInput) : result unit :=
  _ ← z_opt (z_opt plain_decimal) (up_packageWeightGrams i);
  _ ← z_opt (z_opt plain_decimal) (up_packageLengthMm i);
  _ ← z_opt (z_opt plain_decimal) (up_packageWidthMm i);
  _ ← z_opt (z_opt plain_decimal) (up_packageHeightMm i);
  mret tt.

Definition count_present {A} (l : list (option A)) : nat := length (List.filter is_some l).

Definition update (input : UpdateItemInput) : srun InventoryItemRow :=
  _ ← st_lift (updateSchema input);
  atomically (
    item ← loadItem (up_inventoryItemId input);
    let p := ir_parcel item in
    let weight := merged (up_packageWeightGrams input) (fromUnits <$> pa_packageWeightGrams p) in
    let len := merged (up_packageLengthMm input) (fromUnits <$> pa_packageLengthMm p) in
    let width := merged (up_packageWidthMm input) (fromUnits <$> pa_packageWidthMm p) in
    let height := merged (up_packageHeightMm input) (fromUnits <$> pa_packageHeightMm p) in
    c ← st_lift (match weight with None => mret 1 | Some w => compareDecimals w "0" end);
    _ ← st_lift (throw_if (c <=? 0) InventoryValidationError);
    let dimsPresent := count_present [len; width; height] in
    _ ← st_lift (throw_if (negb (dimsPresent =? 0)%nat && negb (dimsPresent =? 3)%nat) InventoryValidationError);
    w ← st_lift (z_opt numericLiteral weight);
    l ← st_lift (z_opt numericLiteral len);
    b ← st_lift (z_opt numericLiteral width);
    h ← st_lift (z_opt numericLiteral height);
    now ← st_gets sk_now;
    _ ← updateItems (is_item (up_inventoryItemId input)) (set_parcel
          {| pa_description := merged (up_description input) (pa_description p); pa_packageWeightGrams := w;
             pa_packageLengthMm := l; pa_packageWidthMm := b; pa_packageHeightMm := h |} now);
    loadItem (up_inventoryItemId input)).

(** ** [setSaleMode] *)
Inductive SettableSaleMode : Type := SetUnit | SetLot | SetSet | SetPartsDonor | SetBundleComponent.
Definition sale_mode (m : SettableSaleMode) : ItemSaleMode :=
  match m with
  | SetUnit => SaleUnit | SetLot => SaleLot | SetSet => SaleSet | SetPartsDonor => PartsDonor
  | SetBundleComponent => BundleComponent
  end.

Definition setSaleMode (inventoryItemId : uuid) (saleMode : SettableSaleMode) (actor : option string)
    : srun InventoryItemRow :=
  _ ← st_lift (parse (z_user actor));
  atomically (
    item ← loadItem inventoryItemId;
    _ ← st_lift (throw_if (bool_decide (ir_saleMode item = PartedOut)) InventoryImmutableFactError);
    now ← st_gets sk_now;
    _ ← updateItems (is_item inventoryItemId) (set_mode (sale_mode saleMode) now);
    loadItem inventoryItemId).

(** ** [partOut] *)
Record PartOutChild : Type := {
  pc_label : string;
  pc_quantity : option string;
  pc_conditionCode : option ConditionCode;
  pc_locationId : option uuid;
  pc_saleMode : option SettableSaleMode;
  pc_weight : option string;
}.
Record PartOutInput : Type := {
  po_inventoryItemId : uuid;
  po_children : list PartOutChild;
  po_occurredAt : option Z;
  po_note : option string;
  po_actorUserId : option string;
}.

Definition child_quantity (c : PartOutChild) : string := default "1"%string (pc_quantity c).

Definition partOutChildSchema (c : PartOutChild) : result PartOutChild :=
  quantity ← positiveDecimal (child_quantity c);
  weight ← z_opt positiveDecimal (pc_weight c);
  label ← parse (z_text (pc_label c));
  mret {| pc_label := label; pc_quantity := Some quantity; pc_conditionCode := pc_conditionCode c;
          pc_locationId := pc_locationId c; pc_saleMode := pc_saleMode c; pc_weight := weight |}.

Definition partOutSchema (i : PartOutInput) : result PartOutInput :=
  children ← res_mapM partOutChildSchema (po_children i);
  _ ← throw_if ((length children =? 0)%nat || (200 <? length children)%nat) InventoryValidationError;
  actor ← parse (z_user (po_actorUserId i));
  mret {| po_inventoryItemId := po_inventoryItemId i; po_children := children; po_occurredAt := po_occurredAt i;
          po_note := po_note i; po_actorUserId := actor |}.

Definition child_values (value : PartOutInput) (parent : InventoryItemRow) (spec : PartOutChild)
    (quantity landed goods : Z) (code : string) (id : uuid) (now : Z) : InventoryItemRow :=
  {| ir_id := id; ir_itemCode := code; ir_acquisitionId := ir_acquisitionId parent; ir_catalogItemId := None;
     ir_originItemId := Some (ir_id parent); ir_label := pc_label spec; ir_lotReference := None;
     ir_serialNumber := None; ir_quantity := quantity; ir_currency := ir_currency parent; ir_acquiredAt :=
     ir_acquiredAt parent; ir_receivedAt := None; ir_createdByUserId := po_actorUserId value; ir_createdAt :=
     now; ir_attribution := ir_attribution parent;
     ir_locationId := match pc_locationId spec with None => ir_locationId parent | Some l => Some l end;
     ir_grade :=
       {| gr_conditionCode := default (gr_conditionCode (ir_grade parent)) (pc_conditionCode spec);
          gr_conditionNotes := None; gr_gradingAuthority := None; gr_gradeLabel := None; gr_gradeNumeric := None;
          gr_certificateNumber := None |};
     ir_stock := nothing_on_hand "intake";
     ir_basis :=
       {| ba_acquisitionCostAmount := goods; ba_landedCostAmount := landed; ba_costAllocationBasis := None;
          ba_costAllocationWeight := None; ba_costBasisLockedAt := None; ba_estimatedValueAmount := None |};
     ir_parcel := no_parcel; ir_saleMode := sale_mode (default SetUnit (pc_saleMode spec)); ir_updatedAt := now |}.

(** One child: its row with its shares of the basis, and its stock. *)
Definition part_out_child (value : PartOutInput) (parent : InventoryItemRow) (groupKey : uuid) (occurredAt : Z)
    (landedShares goodsShares : list string) (e : nat * PartOutChild) : srun InventoryItemRow :=
  let spec := e.2 in
  code ← itemCode;
  created ← codeRetry_in_tx (
    quantity ← st_lift (money_column (child_quantity spec));
    landed ← st_lift (money_column (default ZERO (landedShares !! e.1)));
    goods ← st_lift (money_column (default ZERO (goodsShares !! e.1)));
    insertItem (child_values value parent spec quantity landed goods code));
  _ ← recordMovement (plain_movement (ir_id created) Found (child_quantity spec)
        (match pc_locationId spec with None => ir_locationId parent | Some l => Some l end) None
        (ir_acquisitionId parent) (Some "part_out"%string) (po_note value)
        (movementKeys.found (String.append "partout:" (id_text groupKey)) (ir_id created)) occurredAt
        (po_actorUserId value));
  loadItem (ir_id created).

Definition partOut_body (value : PartOutInput) : srun (InventoryItemRow * list InventoryItemRow) :=
  parent ← loadItem (po_inventoryItemId value);
  _ ← st_lift (throw_if (bool_decide (ir_saleMode parent = PartedOut)) InventoryImmutableFactError);
  c ← st_lift (compareDecimals (on_hand parent) "0");
  _ ← st_lift (throw_if (c <=? 0) InventoryConflictError);
  groupKey ← new_uuid;
  now ← st_gets sk_now;
  let occurredAt := default now (po_occurredAt value) in
  let weights := (fun child => default (child_quantity child) (pc_weight child)) <$> po_children value in
  landed ← st_lift (Inventory.distributeByWeights (fromUnits (ba_landedCostAmount (ir_basis parent))) weights MONEY_SCALE);
  goods ← st_lift (Inventory.distributeByWeights (fromUnits (ba_acquisitionCostAmount (ir_basis parent))) weights MONEY_SCALE);
  children ← st_mapM (part_out_child value parent groupKey occurredAt (Inventory.shares landed) (Inventory.shares goods))
               (imap (fun index spec => (index, spec)) (po_children value));
  _ ← recordMovement (plain_movement (ir_id parent) Consumption (String.append "-" (on_hand parent))
        (ir_locationId parent) None None (Some "part_out"%string) (po_note value)
        (movementKeys.event "consumption" (String.append "partout:" (id_text groupKey)) (ir_id parent)) occurredAt
        (po_actorUserId value));
  _ ← updateItems (is_item (ir_id parent)) (fun r => set_costs 0 0 now (set_mode PartedOut now r));
  row ← loadItem (ir_id parent);
  mret (row, children).

Definition partOut (input : PartOutInput) : srun (InventoryItemRow * list InventoryItemRow) :=
  value ← st_lift (partOutSchema input);
  atomically (partOut_body value).

(** ** Splits and transfers *)
Definition assertMovable (onHand moveQuantity : string) : result unit :=
  c ← compareDecimals moveQuantity "0";
  _ ← throw_if (c <=? 0) InventoryValidationError;
  o ← compareDecimals moveQuantity onHand;
  throw_if (0 <? o) InventoryConflictError.

Definition proRata (amount moved quantity : string) : result string :=
  q ← compareDecimals quantity "0";
  if q =? 0 then mret ZERO
  else
    c ← compareDecimals moved quantity;
    if 0 <=? c then toMoneyString amount
    else
      rest ← subtractDecimals quantity moved;
      d ← Inventory.distributeByWeights amount [moved; rest] MONEY_SCALE;
      mret (default ZERO (Inventory.shares d !! 0%nat)).
Definition proRataBasis (item : InventoryItemRow) (moved : string) : result string :=
  proRata (fromUnits (ba_landedCostAmount (ir_basis item))) moved (fromUnits (ir_quantity item)).
Definition proRataAcquisitionCost (item : InventoryItemRow) (moved : string) : result string :=
  proRata (fromUnits (ba_acquisitionCostAmount (ir_basis item))) moved (fromUnits (ir_quantity item)).

Record SplitOverrides : Type := {
  so_locationId : option uuid;
  so_attribution : Attribution;
  so_landedCostAmount : string;
  so_acquisitionCostAmount : string;
  so_removeLandedCostAmount : string;
  so_removeAcquisitionCostAmount : string;
}.

Definition split_values (source : InventoryItemRow) (o : SplitOverrides) (quantity landed goods : Z) (code : string)
    (id : uuid) (now : Z) : InventoryItemRow :=
  {| ir_id := id; ir_itemCode := code; ir_acquisitionId := ir_acquisitionId source; ir_catalogItemId :=
     ir_catalogItemId source; ir_originItemId := Some (ir_id source); ir_label := ir_label source;
     ir_lotReference := ir_lotReference source; ir_serialNumber := ir_serialNumber source; ir_quantity :=
     quantity; ir_currency := ir_currency source; ir_acquiredAt := ir_acquiredAt source; ir_receivedAt :=
     ir_receivedAt source; ir_createdByUserId := None; ir_createdAt := now; ir_attribution :=
     so_attribution o; ir_locationId := so_locationId o; ir_grade := ir_grade source;
     ir_stock := nothing_on_hand "intake";
     ir_basis :=
       {| ba_acquisitionCostAmount := goods; ba_landedCostAmount := landed;
          ba_costAllocationBasis := ba_costAllocationBasis (ir_basis source);
          ba_costAllocationWeight := ba_costAllocationWeight (ir_basis source);
          ba_costBasisLockedAt := None;
          ba_estimatedValueAmount := ba_estimatedValueAmount (ir_basis source) |};
     ir_parcel := no_parcel; ir_saleMode := SaleUnit; ir_updatedAt := now |}.

Definition splitItem (source : InventoryItemRow) (moved : string) (o : SplitOverrides) : srun InventoryItemRow :=
  code ← itemCode;
  created ← codeRetry_in_tx (
    quantity ← st_lift (money_column moved);
    landed ← st_lift (money_column (so_landedCostAmount o));
    goods ← st_lift (money_column (so_acquisitionCostAmount o));
    insertItem (split_values source o quantity landed goods code));
  removedLanded ← st_lift (numericLiteral (so_removeLandedCostAmount o));
  removedGoods ← st_lift (numericLiteral (so_removeAcquisitionCostAmount o));
  now ← st_gets sk_now;
  current ← loadItem (ir_id source);
  landed ← st_lift (numeric_20_6 (ba_landedCostAmount (ir_basis current) - removedLanded));
  goods ← st_lift (numeric_20_6 (ba_acquisitionCostAmount (ir_basis current) - removedGoods));
  _ ← updateItems (is_item (ir_id source)) (set_costs landed goods now);
  mret created.

Record TransferResult : Type := {
  tr_transferGroupId : uuid;
  tr_sourceItem : InventoryItemRow;
  tr_destinationItem : InventoryItemRow;
  tr_outMovementId : uuid;
  tr_inMovementId : uuid;
}.

(** The two halves, under one group. *)
Definition transfer_pair (group item : uuid) (from : option uuid) (destination : uuid) (to : option uuid)
    (moved : string) (reason note : option string) (occurredAt : Z) (actor : option string)
    : srun (uuid * uuid) :=
  out ← recordMovement (plain_movement item TransferOut (String.append "-" moved) from (Some group) None reason note
          (movementKeys.transfer group "out") occurredAt actor);
  into ← recordMovement (plain_movement destination TransferIn moved to (Some group) None reason note
          (movementKeys.transfer group "in") occurredAt actor);
  mret (mo_id (re_movement out), mo_id (re_movement into)).

Record MoveToLocationInput : Type := {
  ml_inventoryItemId : uuid;
  ml_toLocationId : uuid;
  ml_quantity : option string;
  ml_occurredAt : option Z;
  ml_note : option string;
  ml_actorUserId : option string;
}.

(** A location move carries the entity and its source, not who attributed it when. *)
Definition carried_attribution (item : InventoryItemRow) : Attribution :=
  {| at_economicEntityId := at_economicEntityId (ir_attribution item);
     at_source := at_source (ir_attribution item); at_attributedAt := None; at_attributedByUserId := None |}.

Definition move_split (item : InventoryItemRow) (to : uuid) (moved : string) : srun InventoryItemRow :=
  landed ← st_lift (proRataBasis item moved);
  goods ← st_lift (proRataAcquisitionCost item moved);
  splitItem item moved
    {| so_locationId := Some to; so_attribution := carried_attribution item; so_landedCostAmount := landed;
       so_acquisitionCostAmount := goods; so_removeLandedCostAmount := landed;
       so_removeAcquisitionCostAmount := goods |}.

Definition moveToLocation (input : MoveToLocationInput) : srun TransferResult :=
  atomically (
    item ← loadItem (ml_inventoryItemId input);
    _ ← st_lift (throw_if (opt_eqb (ir_locationId item) (ml_toLocationId input)) InventoryValidationError);
    let moved := default (on_hand item) (ml_quantity input) in
    _ ← st_lift (assertMovable (on_hand item) moved);
    group ← new_uuid;
    now ← st_gets sk_now;
    c ← st_lift (compareDecimals moved (on_hand item));
    destination ← (if c =? 0 then mret item else move_split item (ml_toLocationId input) moved);
    pair ← transfer_pair group (ir_id item) (ir_locationId item) (ir_id destination) (Some (ml_toLocationId input))
             moved None (ml_note input) (default now (ml_occurredAt input)) (ml_actorUserId input);
    _ ← (if c =? 0 then
           _ ← updateItems (is_item (ir_id item)) (set_location (ml_toLocationId input) now); mret tt
         else mret tt);
    sourceItem ← loadItem (ir_id item);
    destinationItem ← loadItem (ir_id destination);
    mret {| tr_transferGroupId := group; tr_sourceItem := sourceItem; tr_destinationItem := destinationItem;
            tr_outMovementId := pair.1; tr_inMovementId := pair.2 |}).

Inductive BasisTreatment : Type := Carryover | FairMarketValue.
#[export] Instance BasisTreatment_eq_dec : EqDecision BasisTreatment.
Proof. solve_decision. Defined.

Record TransferEntityInput : Type := {
  te_inventoryItemId : uuid;
  te_toEconomicEntityId : uuid;
  te_basisTreatment : BasisTreatment;
  te_fairMarketValueAmount : option string;
  te_quantity : option string;
  te_toLocationId : option (option uuid);
  te_occurredAt : option Z;
  te_note : option string;
  te_actorUserId : option string;
}.

Definition transferEntity_body (input : TransferEntityInput) : srun TransferResult :=
  item ← loadItem (te_inventoryItemId input);
  _ ← st_lift (throw_if (opt_eqb (at_economicEntityId (ir_attribution item)) (te_toEconomicEntityId input))
                 InventoryValidationError);
  _ ← st_lift (throw_if (bool_decide (te_basisTreatment input = FairMarketValue)
                         && negb (is_some (te_fairMarketValueAmount input))) InventoryValidationError);
  let moved := default (on_hand item) (te_quantity input) in
  _ ← st_lift (assertMovable (on_hand item) moved);
  group ← new_uuid;
  now ← st_gets sk_now;
  let occurredAt := default now (te_occurredAt input) in
  carriedBasis ← st_lift (proRataBasis item moved);
  carriedGoods ← st_lift (proRataAcquisitionCost item moved);
  landed ← st_lift (match te_basisTreatment input with
                    | Carryover => mret carriedBasis
                    | FairMarketValue => toMoneyString (default ZERO (te_fairMarketValueAmount input))
                    end);
  let goods := match te_basisTreatment input with Carryover => carriedGoods | FairMarketValue => landed end in
  destination ← splitItem item moved
    {| so_locationId := merged (te_toLocationId input) (ir_locationId item);
       so_attribution := manual_attribution (te_toEconomicEntityId input) (te_actorUserId input) occurredAt;
       so_landedCostAmount := landed; so_acquisitionCostAmount := goods;
       so_removeLandedCostAmount := carriedBasis; so_removeAcquisitionCostAmount := carriedGoods |};
  pair ← transfer_pair group (ir_id item) (ir_locationId item) (ir_id destination) (ir_locationId destination)
           moved (Some "entity_transfer"%string) (te_note input) occurredAt (te_actorUserId input);
  sourceItem ← loadItem (ir_id item);
  destinationItem ← loadItem (ir_id destination);
  mret {| tr_transferGroupId := group; tr_sourceItem := sourceItem; tr_destinationItem := destinationItem;
          tr_outMovementId := pair.1; tr_inMovementId := pair.2 |}.

Definition transferEntity (input : TransferEntityInput) : srun TransferResult :=
  atomically (transferEntity_body input).

(** ** Attribution and basis *)
Definition reattributable (acquisitionId : option uuid) (acquiredBefore : option Z) (r : InventoryItemRow) : bool :=
  bool_decide (at_source (ir_attribution r) ∈ REATTRIBUTABLE_SOURCES)
  && match acquisitionId with None => true | Some lot => opt_eqb (ir_acquisitionId r) lot end
  && match acquiredBefore with None => true | Some t => ir_acquiredAt r <? t end.

Definition reattribute (economicEntityId acquisitionId : option uuid) (acquiredBefore : option Z)
    (actor : option string) : srun nat :=
  now ← st_gets sk_now;
  updateItems (reattributable acquisitionId acquiredBefore)
    (set_attribution {| at_economicEntityId := economicEntityId; at_source := SourceManual;
                        at_attributedAt := Some now; at_attributedByUserId := actor |} now).

Record CorrectCostBasisInput : Type := {
  cb_inventoryItemId : uuid;
  cb_landedCostAmount : string;
  cb_acquisitionCostAmount : option string;
  cb_reason : string;
  cb_actorUserId : option string;
  cb_requestId : option string;
}.

Definition correctCostBasis (input : CorrectCostBasisInput) : srun InventoryItemRow :=
  _ ← st_lift (throw_if (String.eqb (Text.trim (cb_reason input)) "") InventoryImmutableFactError);
  _ ← st_lift (plain_decimal (cb_landedCostAmount input));
  atomically (
    before ← loadItem (cb_inventoryItemId input);
    landed ← st_lift (toMoneyString (cb_landedCostAmount input));
    goods ← st_lift (toMoneyString (default (cb_landedCostAmount input) (cb_acquisitionCostAmount input)));
    landedUnits ← st_lift (numericLiteral landed);
    goodsUnits ← st_lift (numericLiteral goods);
    now ← st_gets sk_now;
    _ ← updateItems (is_item (cb_inventoryItemId input)) (set_costs landedUnits goodsUnits now);
    _ ← append_audit {| ae_actorUserId := cb_actorUserId input; ae_action := "inventory.item.cost_basis_corrected";
                        ae_resourceType := "inventory_item"; ae_resourceId := Some (ir_id before);
                        ae_requestId := cb_requestId input |};
    loadItem (cb_inventoryItemId input)).

Definition availableToSell (inventoryItemId : uuid) : srun string :=
  s ← st_get;
  match find_item inventoryItemId s with
  | None => st_throw InventoryNotFoundError
  | Some row =>
      available ← st_lift (numeric_20_6 (st_quantityOnHand (ir_stock row) - reserved_total inventoryItemId s));
      mret (fromUnits available)
  end.

Definition completeIntakeReview (inventoryItemId : uuid) : srun InventoryItemRow :=
  atomically (
    item ← loadItem inventoryItemId;
    _ ← st_lift (throw_if (negb (String.eqb (status_of item) "intake")) InventoryValidationError);
    now ← st_gets sk_now;
    _ ← updateItems (is_item inventoryItemId) (set_listing "available" false now);
    loadItem inventoryItemId).

Definition markListed (inventoryItemId : uuid) : srun InventoryItemRow :=
  atomically (
    item ← loadItem inventoryItemId;
    _ ← st_lift (throw_if (String.eqb (status_of item) "intake") InventoryValidationError);
    _ ← st_lift (throw_if (String.eqb (status_of item) "written_off" || String.eqb (status_of item) "archived"
                           || String.eqb (status_of item) "depleted") InventoryConflictError);
    now ← st_gets sk_now;
    let nextStatus := if String.eqb (status_of item) "available" then "listed"%string else status_of item in
    _ ← updateItems (is_item inventoryItemId) (set_listing nextStatus true now);
    loadItem inventoryItemId).
