(* ===== verification/Locations.v ===== *)
(** * The location tree

    [packages/inventory/src/locations.ts]: the tree, its cached paths and depths,
    and the checks a re-parent makes. *)
From S2P Require Import Prelude Decimal DecimalPackages Calendar Inputs Store Schema Ledger Stock.
From S2P Require Import Movements LotCosts.

Open Scope Z_scope.
#[local] Arguments String.append : simpl nomatch.

(** ** [like]

    A pattern that ends in [%]: [_] stands for any character, [%] for any text and
    a backslash quotes what follows. *)
Fixpoint like (pattern text : string) {struct pattern} : bool :=
  match pattern with
  | EmptyString => String.eqb text ""
  | String c pattern' =>
      if (c =? "%")%char then
        (fix any (text : string) : bool :=
           like pattern' text || match text with EmptyString => false | String _ text' => any text' end) text
      else
        match text with
        | EmptyString => false
        | String d text' =>
            if (c =? "_")%char then like pattern' text'
            else if (c =? "\")%char then
              match pattern' with
              | EmptyString => false
              | String q pattern'' => (q =? d)%char && like pattern'' text'
              end
            else (c =? d)%char && like pattern' text'
        end
  end.

(** ** Inputs *)
Definition code_char (c : ascii) : bool :=
  Text.is_letter c || Js.is_digit c || (c =? ".")%char || (c =? "_")%char || (c =? "-")%char.
Definition code_start (c : ascii) : bool := Text.is_letter c || Js.is_digit c.

(** [codeSchema] *)
Definition codeSchema (value : string) : result string :=
  let code := Text.trim value in
  match code with
  | EmptyString => Throw InventoryValidationError
  | String c rest =>
      _ ← throw_if ((64 <? String.length code)%nat || negb (code_start c && Text.all_chars code_char rest))
            InventoryValidationError;
      mret code
  end.

Record CreateLocationInput : Type := {
  cl_code : string;
  cl_name : string;
  cl_kind : LocationKind;
  cl_parentLocationId : option uuid;
  cl_isDefault : option bool;
  cl_active : option bool;
  cl_notes : option string;
}.

Definition createLocationSchema (i : CreateLocationInput) : result CreateLocationInput :=
  code ← codeSchema (cl_code i);
  name ← parse (z_text (cl_name i));
  mret {| cl_code := code; cl_name := name; cl_kind := cl_kind i; cl_parentLocationId := cl_parentLocationId i;
          cl_isDefault := cl_isDefault i; cl_active := cl_active i; cl_notes := cl_notes i |}.

(** ** Reads and creation *)
Definition get (id : uuid) : srun InventoryLocationRow :=
  s ← st_get;
  match find_location id s with
  | None => st_throw InventoryNotFoundError
  | Some row => mret row
  end.

Definition child_path (parentPath code : string) : string := text_of [parentPath; "/"%string; code].

Definition location_values (value : CreateLocationInput) (path : string) (depth : Z) (id : uuid)
    : InventoryLocationRow :=
  {| loc_id := id; loc_parentLocationId := cl_parentLocationId value; loc_code := cl_code value; loc_name :=
     cl_name value; loc_kind := cl_kind value; loc_path := path; loc_depth := depth; loc_isDefault :=
     default false (cl_isDefault value); loc_active := default true (cl_active value); loc_notes :=
     cl_notes value |}.

Definition create (input : CreateLocationInput) : srun InventoryLocationRow :=
  value ← st_lift (createLocationSchema input);
  place ← match cl_parentLocationId value with
          | None => mret (cl_code value, 0)
          | Some id =>
              parent ← get id;
              let depth := loc_depth parent + 1 in
              _ ← st_lift (throw_if (MAX_LOCATION_DEPTH <? depth) InventoryConflictError);
              mret (child_path (loc_path parent) (cl_code value), depth)
          end;
  insertLocation (location_values value place.1 place.2).

(** ** [setParent] *)

(** The recursive query [up]: the location and its ancestors, over [level < 8]. *)
Fixpoint ancestors (fuel : nat) (s : Stock) (id : uuid) : list uuid :=
  match find_location id s with
  | None => []
  | Some row =>
      id :: match fuel, loc_parentLocationId row with
            | S fuel, Some parent => ancestors fuel s parent
            | _, _ => []
            end
  end.
Definition chain (s : Stock) (id : uuid) : list uuid := ancestors 8 s id.

Definition moved_location (parent : option uuid) (path : string) (depth : Z) (r : InventoryLocationRow)
    : InventoryLocationRow :=
  {| loc_id := loc_id r; loc_parentLocationId := parent; loc_code := loc_code r; loc_name := loc_name r;
     loc_kind := loc_kind r; loc_path := path; loc_depth := depth; loc_isDefault := loc_isDefault r;
     loc_active := loc_active r; loc_notes := loc_notes r |}.

(** [path like '<path>/' || '%'] *)
Definition below (path : string) (r : InventoryLocationRow) : bool :=
  like (text_of [path; "/"%string; "%"%string]) (loc_path r).
Definition at_or_below (path : string) (r : InventoryLocationRow) : bool :=
  String.eqb (loc_path r) path || below path r.

(** [coalesce(max(depth), ...)] *)
Definition deepest (location : InventoryLocationRow) (s : Stock) : Z :=
  match List.filter (at_or_below (loc_path location)) (sk_locations s) with
  | [] => loc_depth location
  | r :: rows => foldr (fun q d => Z.max (loc_depth q) d) (loc_depth r) rows
  end.

(** The parent a move names: its path and depth, or those above the root. *)
Definition move_target (location : InventoryLocationRow) (parent : option uuid) : srun (string * Z) :=
  match parent with
  | None => mret (""%string, -1)
  | Some parentId =>
      _ ← st_lift (throw_if (bool_decide (parentId = loc_id location)) InventoryConflictError);
      up ← st_gets (fun s => chain s parentId);
      _ ← st_lift (throw_if (bool_decide (up = [])) InventoryNotFoundError);
      _ ← st_lift (throw_if (bool_decide (loc_id location ∈ up)) InventoryConflictError);
      row ← get parentId;
      mret (loc_path row, loc_depth row)
  end.

(** Every row below keeps its own suffix under the new prefix. *)
Definition rebased (newPath : string) (oldLength : nat) (shift : Z) (r : InventoryLocationRow)
    : InventoryLocationRow :=
  moved_location (loc_parentLocationId r) (String.append newPath (Js.slice_from oldLength (loc_path r)))
    (loc_depth r + shift) r.

Definition setParent (locationId : uuid) (parentLocationId : option uuid) : srun InventoryLocationRow :=
  atomically (
    location ← get locationId;
    target ← move_target location parentLocationId;
    let newPath := if String.eqb target.1 "" then loc_code location else child_path target.1 (loc_code location) in
    let newDepth := target.2 + 1 in
    subtreeDepth ← st_gets (deepest location);
    _ ← st_lift (throw_if (MAX_LOCATION_DEPTH <? newDepth + (subtreeDepth - loc_depth location))
                   InventoryConflictError);
    _ ← updateLocations (is_location (loc_id location)) (moved_location parentLocationId newPath newDepth);
    _ ← updateLocations (below (loc_path location))
          (rebased newPath (String.length (loc_path location)) (newDepth - loc_depth location));
    get locationId).

(** ** Reads *)
Definition by_path : list InventoryLocationRow -> list InventoryLocationRow :=
  sort_with (fun r q => String.leb (loc_path r) (loc_path q)).

Definition subtree (locationId : uuid) : srun (list InventoryLocationRow) :=
  location ← get locationId;
  st_gets (fun s => by_path (List.filter (at_or_below (loc_path location)) (sk_locations s))).

Definition getDefault : srun (option InventoryLocationRow) :=
  st_gets (fun s => head (by_path (List.filter (fun r => loc_isDefault r && loc_active r) (sk_locations s)))).

(** ** [reconcilePaths] *)
Record PathMismatch : Type := {
  pm_locationId : uuid;
  pm_code : string;
  pm_storedPath : string;
  pm_computedPath : string;
  pm_storedDepth : Z;
  pm_computedDepth : Z;
}.
Record PathReport : Type := { pr_checked : nat; pr_mismatched : list PathMismatch; pr_repaired : bool }.

(** The recursive query [tree], level by level below the roots. *)
Definition children_of (parent : option uuid) (s : Stock) : list InventoryLocationRow :=
  List.filter (fun r => bool_decide (loc_parentLocationId r = parent)) (sk_locations s).
Fixpoint tree_below (fuel : nat) (s : Stock) (path : string) (depth : Z) (r : InventoryLocationRow)
    : list (InventoryLocationRow * string * Z) :=
  (r, path, depth) ::
  match fuel with
  | O => []
  | S fuel => children_of (Some (loc_id r)) s ≫= (fun c => tree_below fuel s (child_path path (loc_code c)) (depth + 1) c)
  end.
Definition tree (s : Stock) : list (InventoryLocationRow * string * Z) :=
  children_of None s ≫= (fun r => tree_below (length (sk_locations s)) s (loc_code r) 0 r).

Definition mismatch (e : InventoryLocationRow * string * Z) : option PathMismatch :=
  let '(r, path, depth) := e in
  if String.eqb (loc_path r) path && (loc_depth r =? depth) then None
  else Some {| pm_locationId := loc_id r; pm_code := loc_code r; pm_storedPath := loc_path r;
               pm_computedPath := path; pm_storedDepth := loc_depth r; pm_computedDepth := depth |}.

Definition repair (m : PathMismatch) : srun unit :=
  updateLocations (is_location (pm_locationId m))
    (fun r => moved_location (loc_parentLocationId r) (pm_computedPath m) (pm_computedDepth m) r).

(** The mismatches come in path order; the order is left out. *)
Definition reconcilePaths (apply : bool) : srun PathReport :=
  mismatched ← st_gets (fun s => omap mismatch (tree s));
  counted ← st_gets (fun s => length (sk_locations s));
  let repaired := apply && negb (bool_decide (length mismatched = 0%nat)) in
  _ ← (if repaired then atomically (_ ← st_mapM repair mismatched; mret tt) else mret tt);
  mret {| pr_checked := counted; pr_mismatched := mismatched; pr_repaired := repaired |}.
