(* ===== verification/StockNumbers.v ===== *)
(** * Amounts of the inventory package

    A text denotes an amount of micro-units when it is a decimal of at most six
    places; what the commerce operations and the column casts do to the amounts
    their operands denote. *)
From S2P Require Import Prelude Decimal DecimalPackages Calendar Inputs Store Schema Ledger Stock Movements.
From S2P Require Import Reservations LotCosts.

Open Scope Z_scope.
#[local] Arguments String.append : simpl nomatch.

Definition amount (text : string) (u : Z) : Prop := toUnits text = Ok u.

Lemma amount_fromUnits u : amount (fromUnits u) u.
Proof. apply toUnits_fromUnits. Qed.
Lemma amount_ZERO : amount ZERO 0.
Proof. done. Qed.
Lemma amount_zero : amount "0" 0.
Proof. done. Qed.
Lemma amount_fun a x y : amount a x -> amount a y -> x = y.
Proof. unfold amount. congruence. Qed.
Create HintDb amounts.
#[export] Hint Resolve amount_fromUnits amount_ZERO amount_zero : amounts.

Lemma amount_parse e a x : amount a x <->
  exists p, Decimal.parseScaled e a = Ok p /\ (scale p <= 6)%nat /\ x = units p * pow10 (6 - scale p).
Proof.
  unfold amount, toUnits. rewrite toUnitsAt_parse. split; intros (p & Hp & H); exists p; (split; [|done]).
  - by eapply parseScaled_any.
  - by eapply parseScaled_any.
Qed.

Lemma amount_format u sc : (sc <= 6)%nat -> amount (format u sc) (u * pow10 (6 - sc)).
Proof.
  intros H. apply (amount_parse AccountingValidationError). exists (mk_scaled u sc).
  split; [apply parseScaled_format|done].
Qed.

Lemma pow10_scale n sc x : (n <= sc)%nat -> (sc <= 6)%nat ->
  x * pow10 (sc - n) * pow10 (6 - sc) = x * pow10 (6 - n).
Proof. intros H1 H2. rewrite <- Z.mul_assoc. f_equal. unfold pow10. rewrite <- Z.pow_add_r by lia. f_equal. lia. Qed.

(** ** Columns and literals *)
Lemma money_column_fromUnits z : in_range z = true -> money_column (fromUnits z) = Ok z.
Proof.
  intros H. unfold money_column, sql_numeric, fromUnits. rewrite parseScaled_format. cbn [scale units].
  change (MONEY_SCALE <=? 6)%nat with true. cbv iota. change (pow10 (6 - MONEY_SCALE)) with 1. rewrite Z.mul_1_r.
  unfold in_range in H. by rewrite H.
Qed.
Lemma DECIMAL_STRING_fromUnits z : DECIMAL_STRING (fromUnits z) = true.
Proof.
  pose proof (parseScaled_format InventoryValidationError z MONEY_SCALE) as H. unfold fromUnits, parseScaled in *.
  by destruct (DECIMAL_STRING _).
Qed.
Lemma numericLiteral_fromUnits z : in_range z = true -> numericLiteral (fromUnits z) = Ok z.
Proof. intros H. unfold numericLiteral. by rewrite DECIMAL_STRING_fromUnits, money_column_fromUnits. Qed.
Lemma numeric_20_6_inv z x : numeric_20_6 z = Ok x -> x = z /\ in_range z = true.
Proof. unfold numeric_20_6. destruct (in_range z); [by intros [= <-]|by intros [=]]. Qed.


(** ** Operations of the commerce package *)
Section two.
Context (a b : string) (x y : Z) (Ha : amount a x) (Hb : amount b y).

Lemma common_scale : exists p q,
  Commerce.parseScaled a = Ok p /\ Commerce.parseScaled b = Ok q /\
  let sc := Nat.max (scale p) (scale q) in
  (sc <= 6)%nat /\ x = units p * pow10 (sc - scale p) * pow10 (6 - sc) /\
  y = units q * pow10 (sc - scale q) * pow10 (6 - sc).
Proof using Ha Hb.
  apply (amount_parse CommerceValidationError) in Ha as (p & Hp & Lp & ->).
  apply (amount_parse CommerceValidationError) in Hb as (q & Hq & Lq & ->).
  exists p, q. split; [done|]. split; [done|]. cbv zeta. split; [lia|]. split; rewrite pow10_scale; lia.
Qed.

Lemma compare_amounts : Commerce.compareDecimals a b = Ok (Z.sgn (x - y)).
Proof using Ha Hb.
  destruct common_scale as (p & q & Hp & Hq & Hs & -> & ->). unfold Commerce.compareDecimals.
  rewrite Hp, Hq. cbn [mbind result_bind]. unfold Commerce.rescale.
  rewrite !(proj2 (rescale_Ok _ _ _ _)) by (split; [|reflexivity]; lia). cbn [mbind result_bind mret result_ret].
  pose proof (pow10_pos (6 - Nat.max (scale p) (scale q))). f_equal.
  rewrite <- Z.mul_sub_distr_r, Z.sgn_mul, (Z.sgn_pos (pow10 _)), Z.mul_1_r by done.
  repeat case_match; symmetry; [apply Z.sgn_neg|apply Z.sgn_pos|apply Z.sgn_null_iff]; lia.
Qed.

Lemma subtract_amounts : exists s, Commerce.subtractDecimals a b = Ok s /\ amount s (x - y).
Proof using Ha Hb.
  destruct common_scale as (p & q & Hp & Hq & Hs & -> & ->). unfold Commerce.subtractDecimals.
  rewrite Hp, Hq. cbn [mbind result_bind]. unfold Commerce.rescale.
  rewrite !(proj2 (rescale_Ok _ _ _ _)) by (split; [|reflexivity]; lia). cbn [mbind result_bind mret result_ret].
  eexists. split; [done|]. rewrite <- Z.mul_sub_distr_r. by apply amount_format.
Qed.
End two.

Lemma toMoneyString_amount a x : amount a x -> Commerce.toMoneyString a = Ok (fromUnits x).
Proof.
  intros (p & Hp & Hs & ->)%(amount_parse CommerceValidationError).
  unfold Commerce.toMoneyString, Commerce.parseScaled. rewrite Hp. cbn [mbind result_bind].
  unfold MONEY_SCALE. destruct (Nat.ltb_spec 6 (scale p)); [lia|]. unfold Commerce.rescale.
  by rewrite (proj2 (rescale_Ok _ _ _ _)) by (split; [|reflexivity]; lia).
Qed.

Lemma money_string_inv a m : Commerce.toMoneyString a = Ok m -> exists x, amount a x /\ m = fromUnits x.
Proof.
  unfold Commerce.toMoneyString, Commerce.parseScaled, MONEY_SCALE. rewrite bind_Ok. intros (p & Hp & H).
  destruct (Nat.ltb_spec 6 (scale p)); [done|]. apply bind_Ok in H as (u & Hu & [= <-]).
  apply rescale_Ok in Hu as [Hs ->]. eexists. split; [|done].
  apply (amount_parse CommerceValidationError). by exists p.
Qed.

Lemma sum_amounts vs us : Forall2 amount vs us -> exists s, LotCosts.sumDecimals vs = Ok s /\ amount s (sumZ us).
Proof.
  intros H. destruct H as [|v u vs us Hv H]; [by exists ZERO|]. unfold LotCosts.sumDecimals, Commerce.sumDecimals.
  assert (exists ps, res_mapM Commerce.parseScaled (v :: vs) = Ok ps /\ Forall (fun p => scale p <= 6)%nat ps /\
            u :: us = (fun p => units p * pow10 (6 - scale p)) <$> ps) as (ps & Hps & Hf & ->).
  { apply Forall2_cons_2 with (x := v) (y := u) in H; [|done]. revert H. generalize (v :: vs) (u :: us). clear.
    induction 1 as [|v u vs us Hv _ (ps & Hps & Hf & ->)]; [by exists []|].
    apply (amount_parse CommerceValidationError) in Hv as (p & Hp & Hs & ->). exists (p :: ps).
    cbn [res_mapM]. unfold Commerce.parseScaled in *. rewrite Hp. cbn [mbind result_bind]. rewrite Hps.
    split; [done|]. split; [by constructor|done]. }
  rewrite Hps. cbn [mbind result_bind]. unfold Commerce.rescale. rewrite rescale_all_ok. cbn [mbind result_bind].
  eexists. split; [done|]. rewrite fold_left_add_sumZ, Z.add_0_l.
  pose proof (max_scale_bound 6 ps Hf) as Hm. set (sc := Commerce.max_scale ps) in *.
  replace (sumZ ((fun p => units p * pow10 (6 - scale p)) <$> ps))
    with (sumZ ((fun p => units p * pow10 (sc - scale p)) <$> ps) * pow10 (6 - sc)); [by apply amount_format|].
  rewrite Z.mul_comm, <- sumZ_scale, <- list_fmap_compose. f_equal. apply list_fmap_ext. intros i p Hp. cbn.
  rewrite Z.mul_comm. apply pow10_scale; [|done]. by apply max_scale_le, list_elem_of_lookup_2 with i.
Qed.

(** A text compared with zero: its sign. *)
Lemma compare_zero a x : amount a x -> Commerce.compareDecimals a "0" = Ok (Z.sgn x).
Proof. intros Ha. rewrite (compare_amounts a "0" x 0), Z.sub_0_r; done. Qed.

Lemma sgn_leb z : (Z.sgn z <=? 0) = (z <=? 0).
Proof. by destruct z. Qed.
Lemma sgn_ltb z : (Z.sgn z <? 0) = (z <? 0).
Proof. by destruct z. Qed.
Lemma sgn_gtb z : (0 <? Z.sgn z) = (0 <? z).
Proof. by destruct z. Qed.
Lemma sgn_eqb z : (Z.sgn z =? 0) = (z =? 0).
Proof. by destruct z. Qed.
Lemma sgn_geb z : (0 <=? Z.sgn z) = (0 <=? z).
Proof. by destruct z. Qed.

Lemma money_column_amount a x : amount a x -> money_column a = if in_range x then Ok x else Throw (SqlError "22003").
Proof.
  intros (p & Hp & Hs & ->)%(amount_parse InventoryValidationError). unfold money_column, sql_numeric.
  rewrite Hp. destruct (Nat.leb_spec (scale p) 6); [|lia]. cbv zeta. unfold in_range. done.
Qed.

Lemma numericLiteral_amount a x : amount a x -> numericLiteral a = if in_range x then Ok x else Throw (SqlError "22003").
Proof.
  intros Ha. rewrite <- (money_column_amount a x Ha). unfold numericLiteral.
  apply (amount_parse InventoryValidationError) in Ha as (p & Hp & _). unfold Decimal.parseScaled in Hp.
  by destruct (DECIMAL_STRING a).
Qed.

(** ** Signs *)
Lemma amount_render a x : amount a x -> exists negative w f,
  a = render negative w f /\ Js.all_digits w = true /\ w <> ""%string /\ Js.all_digits f = true /\
  (String.length f <= 6)%nat /\
  x = (if negative : bool then -1 else 1) * Js.bigint (String.append w f) * pow10 (6 - String.length f).
Proof.
  intros H. pose proof H as (p & Hp & _)%(amount_parse InventoryValidationError).
  assert (DECIMAL_STRING a = true) as (negative & w & f & -> & Hw & Hne & Hf)%DECIMAL_STRING_inv.
  { unfold Decimal.parseScaled in Hp. by destruct (DECIMAL_STRING a). }
  exists negative, w, f. unfold amount, toUnits in H. rewrite toUnitsAt_render in H by done.
  destruct (Nat.leb_spec (String.length f) MONEY_SCALE) as [Hl|]; [|done]. injection H as <-. done.
Qed.

Lemma render_amount negative w f : Js.all_digits w = true -> w <> ""%string -> Js.all_digits f = true ->
  (String.length f <= 6)%nat ->
  amount (render negative w f)
    ((if negative : bool then -1 else 1) * Js.bigint (String.append w f) * pow10 (6 - String.length f)).
Proof.
  intros Hw Hne Hf Hl. unfold amount, toUnits. rewrite toUnitsAt_render by done.
  by destruct (Nat.leb_spec (String.length f) MONEY_SCALE); [|unfold MONEY_SCALE in *; lia].
Qed.

Lemma flip_amount a x : amount a x -> amount (flip_sign a) (- x).
Proof.
  intros (negative & w & f & -> & Hw & Hne & Hf & Hl & ->)%amount_render. unfold flip_sign.
  destruct (render_unsigned negative w f Hw Hne) as [Hs Hu]. rewrite Hs.
  replace (if negative then _ else _) with (render (negb negative) w f).
  - replace (- _) with ((if negb negative then -1 else 1) * Js.bigint (String.append w f) * pow10 (6 - String.length f)).
    + by apply render_amount.
    + destruct negative; cbn [negb]; ring.
  - destruct negative; [by rewrite Hu|done].
Qed.

Lemma minus_amount a x : amount a x -> 0 < x -> amount (String.append "-" a) (- x).
Proof.
  intros Ha Hx. pose proof (flip_amount a x Ha) as Hf. unfold flip_sign in Hf.
  destruct (Js.starts_with "-" a) eqn:E; [|done]. exfalso.
  apply amount_render in Ha as (negative & w & f & -> & Hw & Hne & Hd & Hl & ->).
  destruct (render_unsigned negative w f Hw Hne) as [Hs _]. rewrite Hs in E. subst negative.
  pose proof (bigint_bounds (String.append w f)) as Hb. rewrite all_digits_append, Hw, Hd in Hb.
  pose proof (pow10_pos (6 - String.length f)). specialize (Hb eq_refl). nia.
Qed.
#[export] Hint Resolve flip_amount minus_amount : amounts.

(** ** Distributions *)
Lemma distribute_amounts total weights x d :
  amount total x -> Inventory.distributeByWeights total weights MONEY_SCALE = Ok d ->
  exists us u, Forall2 amount (Inventory.shares d) us /\ amount (Inventory.unallocated d) u /\
    length us = length weights /\ sumZ us + u = x.
Proof.
  intros Hx Hd. assert (exists ps, res_mapM Inventory.parse_weight weights = Ok ps) as (ps & Hps).
  { unfold Inventory.distributeByWeights in Hd. apply bind_Ok in Hd as (p & _ & Hd). apply bind_Ok in Hd as (t & _ & Hd).
    destruct weights as [|w weights]; [by exists []|]. apply bind_Ok in Hd as (ps & Hps & _). by exists ps. }
  assert (forall a u, toUnitsAt InventoryValidationError a MONEY_SCALE = Ok u <-> amount a u) as Hany.
  { intros a u. rewrite (amount_parse InventoryValidationError). apply toUnitsAt_parse. }
  destruct (distributeByWeights_exact total weights MONEY_SCALE x ps) as (d' & us & u & E & Hs & Hu & Hl & Hsum);
    [by apply Hany|done|].
  rewrite E in Hd. injection Hd as ->. exists us, u. split; [|split; [by apply Hany|done]].
  eapply Forall2_impl; [exact Hs|]. intros a v. apply Hany.
Qed.

Lemma sum_inv vs s : LotCosts.sumDecimals vs = Ok s -> forall us, Forall2 amount vs us -> amount s (sumZ us).
Proof. intros E us (s' & E' & Ha)%sum_amounts. rewrite E in E'. by injection E' as ->. Qed.
Lemma subtract_inv a b s x y : Commerce.subtractDecimals a b = Ok s -> amount a x -> amount b y -> amount s (x - y).
Proof. intros E Ha Hb. destruct (subtract_amounts a b x y Ha Hb) as (s' & E' & Hs). rewrite E in E'. by injection E' as ->. Qed.
Lemma money_inv a m x : Commerce.toMoneyString a = Ok m -> amount a x -> m = fromUnits x.
Proof. intros E Ha. rewrite (toMoneyString_amount a x Ha) in E. by injection E as <-. Qed.
