(* ===== verification/StockFacts.v ===== *)
(** * The stock ledger as an invariant

    The cached balance of every item is the sum of its movements, whatever calls
    of the package ran in whatever order, and nothing the ledger holds changes. *)
From S2P Require Import Prelude Decimal DecimalPackages Calendar Inputs Store Schema Ledger LedgerFacts Stock Movements.
From S2P Require Import Reservations LotCosts Items Locations StockNumbers.

Open Scope Z_scope.
#[local] Arguments String.append : simpl nomatch.

(** ** Statements *)
Lemma new_uuid_inv (s s' : Stock) id :
  new_uuid s = (Ok id, s') -> id = sk_next s /\ s' = put_next (Pos.succ (sk_next s)) s.
Proof. by intros [= <- <-]. Qed.

Ltac inv_stock_step :=
  match goal with
  | H : demand _ _ _ = (Ok _, _) |- _ => apply demand_inv in H; destruct H as [H ?]; subst
  | H : new_uuid _ = (Ok _, _) |- _ => apply new_uuid_inv in H; destruct H; subst
  | H : negb _ = true |- _ => apply negb_true_iff in H
  | H : _ && _ = true |- _ => apply andb_true_iff in H; destruct H
  end.
Ltac inv_stock := repeat (inv_st_step || inv_stock_step).

Lemma require_item_inv id s row s' :
  require_item id s = (Ok row, s') -> s' = s /\ row ∈ sk_items s /\ ir_id row = id.
Proof.
  unfold require_item. intros H. inv_stock. destruct (find_item id _) as [r|] eqn:E; inv_stock.
  by apply find_row_some in E as [? ?%bool_decide_eq_true].
Qed.
Lemma require_item_reads id : reads (require_item id).
Proof. intros s. unfold require_item, mbind, St_bind, st_get. by destruct (find_item id s). Qed.
#[export] Hint Resolve require_item_reads : store.

(** ** The invariant *)
Record stock_ok (s : Stock) : Prop := {
  so_item_ids : NoDup (ir_id <$> sk_items s);
  so_item_codes : NoDup (ir_itemCode <$> sk_items s);
  so_item_next : forall r, r ∈ sk_items s -> (ir_id r < sk_next s)%positive;
  so_move_ids : NoDup (mo_id <$> sk_movements s);
  so_move_next : forall m, m ∈ sk_movements s -> (mo_id m < sk_next s)%positive;
  so_keys : NoDup (mo_deduplicationKey <$> sk_movements s);
  so_moves : forall m, m ∈ sk_movements s ->
    movement_checks m = true /\ exists r, r ∈ sk_items s /\ ir_id r = mo_inventoryItemId m;
  so_balance : forall r, r ∈ sk_items s -> st_quantityOnHand (ir_stock r) = ledger_total (ir_id r) s;
}.

(** What no call changes of an item: the row is a cost layer. *)
Record same_layer (r r' : InventoryItemRow) : Prop := {
  sl_id : ir_id r' = ir_id r;
  sl_code : ir_itemCode r' = ir_itemCode r;
  sl_quantity : ir_quantity r' = ir_quantity r;
  sl_currency : ir_currency r' = ir_currency r;
  sl_lot : ir_acquisitionId r' = ir_acquisitionId r;
  sl_origin : ir_originItemId r' = ir_originItemId r;
  sl_locked : forall t, ba_costBasisLockedAt (ir_basis r) = Some t -> ba_costBasisLockedAt (ir_basis r') = Some t;
}.
#[export] Instance same_layer_preorder : PreOrder same_layer.
Proof. split; [by split; auto|]. intros ??? [] []. split; try congruence. auto. Qed.

(** Append-only: the movements and the audit log grow at their end, items stay. *)
Record extends (s s' : Stock) : Prop := {
  ex_movements : exists new, sk_movements s' = sk_movements s ++ new;
  ex_audit : exists new, sk_audit s' = sk_audit s ++ new;
  ex_items : forall r, r ∈ sk_items s -> exists r', r' ∈ sk_items s' /\ same_layer r r';
}.
#[export] Instance extends_preorder : PreOrder extends.
Proof.
  split.
  - intros s. split; [by exists []; rewrite app_nil_r..|]. intros r Hr. by exists r.
  - intros s1 s2 s3 [[m1 E1] [a1 F1] H1] [[m2 E2] [a2 F2] H2]. split.
    + exists (m1 ++ m2). by rewrite E2, E1, app_assoc.
    + exists (a1 ++ a2). by rewrite F2, F1, app_assoc.
    + intros r (r' & Hr' & L1)%H1. destruct (H2 r' Hr') as (r'' & ? & L2). exists r''. split; [done|by etrans].
Qed.

Record sound (s s' : Stock) : Prop := {
  sd_ok : stock_ok s -> stock_ok s';
  sd_extends : extends s s';
}.
#[export] Instance sound_preorder : PreOrder sound.
Proof. split; [by split|]. intros ??? [] []. split; [auto|by etrans]. Qed.

Lemma reads_sound {A} (m : srun A) : reads m -> respects sound m.
Proof. apply reads_respects. apply _. Qed.
Lemma reads_sound_always {A} (m : srun A) : reads m -> always sound m.
Proof. apply reads_always. apply _. Qed.
Lemma reads_extends {A} (m : srun A) : reads m -> respects extends m.
Proof. apply reads_respects. apply _. Qed.
#[export] Hint Resolve reads_sound reads_sound_always reads_extends : store.

(** Steps that leave the items, the movements and the audit log alone. *)
Lemma sound_frame s s' : sk_items s' = sk_items s -> sk_movements s' = sk_movements s ->
  sk_audit s' = sk_audit s -> (sk_next s <= sk_next s')%positive -> sound s s'.
Proof.
  intros Ei Em Ea Hn. split.
  - intros []. split; unfold ledger_total, item_movements in *; rewrite ?Ei, ?Em; try done.
    + intros r Hr. specialize (so_item_next0 r Hr). lia.
    + intros m Hm. specialize (so_move_next0 m Hm). lia.
  - split; [by exists []; rewrite app_nil_r..|]. rewrite Ei. intros r Hr. by exists r.
Qed.
Ltac by_frame := apply sound_frame; [done..|cbn; lia].

Lemma new_uuid_sound : always sound new_uuid.
Proof. intros s. by_frame. Qed.
Lemma append_audit_sound e : always sound (append_audit e).
Proof.
  intros s. split; [by intros []; split|]. split; [by exists []; rewrite app_nil_r|by eexists|].
  intros r Hr. by exists r.
Qed.
#[export] Hint Resolve new_uuid_sound append_audit_sound always_respects : store.

(** *** Updates of items *)
Definition layer_kept (f : InventoryItemRow -> InventoryItemRow) : Prop := forall r, same_layer r (f r).
Definition balance_kept (f : InventoryItemRow -> InventoryItemRow) : Prop :=
  forall r, st_quantityOnHand (ir_stock (f r)) = st_quantityOnHand (ir_stock r).

Lemma put_items_extends p f s : layer_kept f -> extends s (put_items (update_rows p f (sk_items s)) s).
Proof.
  intros Hf. split; [by exists []; rewrite app_nil_r..|]. intros r Hr.
  exists (if p r then f r else r). split; [by apply (list_elem_of_fmap_2 (fun r => if p r then f r else r))|].
  by destruct (p r).
Qed.

(** An update that writes the ledger's balance, or none. *)
Lemma put_items_ok p f s : layer_kept f ->
  (forall r, r ∈ sk_items s -> p r = true -> st_quantityOnHand (ir_stock (f r)) = ledger_total (ir_id r) s) ->
  stock_ok s -> stock_ok (put_items (update_rows p f (sk_items s)) s).
Proof.
  intros Hf Hb []. split; cbn; try done.
  - rewrite update_rows_keys; [done|]. intros r. apply Hf.
  - rewrite update_rows_keys; [done|]. intros r. apply Hf.
  - intros r (q & Hq & ->)%update_rows_elem. destruct (p q); [rewrite (sl_id _ _ (Hf q))|]; by apply so_item_next0.
  - intros m Hm. destruct (so_moves0 m Hm) as (Hc & r & Hr & E). split; [done|].
    exists (if p r then f r else r). split; [by apply (list_elem_of_fmap_2 (fun r => if p r then f r else r))|].
    destruct (p r); [by rewrite (sl_id _ _ (Hf r))|done].
  - intros r (q & Hq & ->)%update_rows_elem. change (ledger_total ?i (put_items _ s)) with (ledger_total i s).
    destruct (p q) eqn:E; [rewrite (sl_id _ _ (Hf q)); by apply Hb|by apply so_balance0].
Qed.

Lemma put_items_sound p f s : layer_kept f -> balance_kept f -> sound s (put_items (update_rows p f (sk_items s)) s).
Proof.
  intros Hf Hb. split; [|by apply put_items_extends]. intros Hs. apply put_items_ok; [done| |done].
  intros r Hr _. rewrite Hb. by apply (so_balance s Hs).
Qed.

Lemma updateItems_inv p f s n s' : updateItems p f s = (Ok n, s') ->
  s' = put_items (update_rows p f (sk_items s)) s.
Proof. unfold updateItems. intros H. inv_stock. done. Qed.

Lemma updateItems_restores p f : restores (updateItems p f).
Proof.
  unfold updateItems. apply restores_bind; [done|]. intros s. apply restores_bind; [apply demand_reads|]. intros _.
  apply restores_bind; [apply demand_reads|]. intros _. apply restores_modify. by eexists.
Qed.

Lemma updateItems_sound p f : layer_kept f -> balance_kept f -> always sound (updateItems p f).
Proof.
  intros Hf Hb. apply restores_always; [apply _| |apply updateItems_restores].
  intros s n s' ->%updateItems_inv. by apply put_items_sound.
Qed.

(** *** Inserts *)
Lemma ledger_total_nil item s :
  (forall m, m ∈ sk_movements s -> mo_inventoryItemId m <> item) -> ledger_total item s = 0.
Proof.
  intros H. unfold ledger_total, item_movements.
  replace (List.filter _ _) with (@nil MovementRow); [done|]. symmetry. apply elem_of_nil_inv. intros m.
  rewrite elem_of_bool_filter. intros [E%bool_decide_eq_true Hm]. by apply (H m).
Qed.

(** No row of a text column holds the value. *)
Lemma text_fresh {A} (f : A -> string) x rows :
  forallb (fun r => negb (String.eqb (f r) x)) rows = true -> x ∉ f <$> rows.
Proof.
  rewrite forallb_forall. intros H (r & -> & Hr)%list_elem_of_fmap. specialize (H r (proj1 (list_elem_of_In _ _) Hr)).
  by rewrite String.eqb_refl in H.
Qed.

(** [stock_ok] only reads the items, the movements and the sequence. *)
Lemma stock_ok_put_next n s : (sk_next s <= n)%positive -> stock_ok s -> stock_ok (put_next n s).
Proof. intros Hn. apply (sd_ok s). by apply sound_frame. Qed.

Record inserted {A} (col : Stock -> list A) (values : uuid -> Z -> A) (put : list A -> Stock -> Stock)
    (s : Stock) (row : A) (s' : Stock) : Prop := {
  is_row : row = values (sk_next s) (sk_now s);
  is_store : s' = put (col s ++ [row]) (put_next (Pos.succ (sk_next s)) s);
}.

Lemma insertItem_inv values s row s' : insertItem values s = (Ok row, s') ->
  inserted sk_items values put_items s row s' /\ item_checks row = true /\
  sk_next s ∉ ir_id <$> sk_items s /\ ir_itemCode row ∉ ir_itemCode <$> sk_items s /\
  item_fks s row = true.
Proof.
  unfold insertItem. intros H. inv_stock. split; [by split|]. split; [done|].
  split; [by apply exists_id_false|]. split; [by apply text_fresh|done].
Qed.

Lemma insertItem_throw values s e s' : insertItem values s = (Throw e, s') ->
  s' = put_next (Pos.succ (sk_next s)) s.
Proof.
  unfold insertItem. intros [[=]|(id & s1 & [-> ->]%new_uuid_inv & H)]%st_bind_Throw. revert H.
  refine (restores_bind _ _ _ _ _ e s'); [done|]. intros t.
  do 4 (apply restores_bind; [apply demand_reads|]; intros []). apply restores_modify. by eexists.
Qed.

(** A new item: an identifier of the store, and nothing on hand. *)
Record fresh_item (values : uuid -> Z -> InventoryItemRow) : Prop := {
  fi_id : forall id now, ir_id (values id now) = id;
  fi_stock : forall id now, st_quantityOnHand (ir_stock (values id now)) = 0;
}.

Lemma insertItem_ok values s row s' : fresh_item values -> insertItem values s = (Ok row, s') ->
  stock_ok s -> stock_ok s'.
Proof.
  intros [Hid Hst] ([-> ->] & _ & Hf & Hc & _)%insertItem_inv []. split; cbn; try done.
  - apply NoDup_keys_snoc. by rewrite Hid.
  - apply NoDup_keys_snoc. done.
  - intros r [Hr| ->%list_elem_of_singleton]%elem_of_app; [|rewrite Hid; lia]. specialize (so_item_next0 r Hr). lia.
  - intros m Hm. specialize (so_move_next0 m Hm). lia.
  - intros m Hm. destruct (so_moves0 m Hm) as (Hk & r & Hr & E). split; [done|]. exists r.
    rewrite elem_of_app. by split; [left|].
  - intros r [Hr| ->%list_elem_of_singleton]%elem_of_app; [by apply so_balance0|]. rewrite Hst, Hid. symmetry.
    apply ledger_total_nil. intros m (_ & q & Hq & <-)%so_moves0 E. specialize (so_item_next0 q Hq).
    rewrite E in so_item_next0. lia.
Qed.

Lemma insertItem_sound values : fresh_item values -> always sound (insertItem values).
Proof.
  intros Hv s. destruct (insertItem values s) as [[row|e] s'] eqn:E; cbn.
  - split; [by eapply insertItem_ok|]. apply insertItem_inv in E as ([-> ->] & _).
    split; [by exists []; rewrite app_nil_r..|]. intros r Hr. exists r. cbn. rewrite elem_of_app. by split; [left|].
  - apply insertItem_throw in E as ->. by_frame.
Qed.
#[export] Hint Resolve insertItem_sound updateItems_sound : store.

(** *** The other tables *)
Record framed (s s' : Stock) : Prop := {
  fr_items : sk_items s' = sk_items s;
  fr_movements : sk_movements s' = sk_movements s;
  fr_audit : sk_audit s' = sk_audit s;
  fr_next : (sk_next s <= sk_next s')%positive;
}.
#[export] Instance framed_preorder : PreOrder framed.
Proof. split; [by split|]. intros ??? [] []. split; try congruence. lia. Qed.

Lemma framed_sound {A} (m : srun A) : always framed m -> always sound m.
Proof. apply always_weaken. intros s s' []. by apply sound_frame. Qed.

Lemma modify_framed f : (forall s, framed s (f s)) -> always framed (st_modify f).
Proof. intros H s. apply H. Qed.
Lemma reads_framed {A} (m : srun A) : reads m -> always framed m.
Proof. apply reads_always. apply _. Qed.
Lemma new_uuid_framed : always framed new_uuid.
Proof. intros s. split; try done. cbn. lia. Qed.
#[export] Hint Resolve reads_framed new_uuid_framed : store.
Ltac by_framed := solve_respects; apply modify_framed; by split.

Lemma insertAllocation_framed values : always framed (insertAllocation values).
Proof. unfold insertAllocation. by_framed. Qed.
Lemma updateAllocations_framed p f : always framed (updateAllocations p f).
Proof. unfold updateAllocations. by_framed. Qed.
Lemma insertAcquisition_framed values : always framed (insertAcquisition values).
Proof. unfold insertAcquisition. by_framed. Qed.
Lemma updateAcquisitions_framed p f : always framed (updateAcquisitions p f).
Proof. unfold updateAcquisitions. by_framed. Qed.
Lemma insertCost_framed values : always framed (insertCost values).
Proof. unfold insertCost. by_framed. Qed.
Lemma insertLocation_framed values : always framed (insertLocation values).
Proof. unfold insertLocation. by_framed. Qed.
Lemma updateLocations_framed p f : always framed (updateLocations p f).
Proof. unfold updateLocations. by_framed. Qed.
#[export] Hint Resolve framed_sound insertAllocation_framed updateAllocations_framed insertAcquisition_framed
  updateAcquisitions_framed insertCost_framed insertLocation_framed updateLocations_framed : store.

(** ** Writing a movement *)
Lemma insertMovement_inv values s row s' : insertMovement values s = (Ok row, s') ->
  inserted sk_movements values put_movements s row s' /\ movement_checks row = true /\
  sk_next s ∉ mo_id <$> sk_movements s /\
  mo_deduplicationKey row ∉ mo_deduplicationKey <$> sk_movements s /\ movement_fks s row = true.
Proof.
  unfold insertMovement. intros H. inv_stock. split; [by split|]. split; [done|].
  split; [by apply exists_id_false|]. split; [by apply text_fresh|done].
Qed.

Lemma refreshItemBalance_inv id lock s onHand s' : refreshItemBalance id lock s = (Ok onHand, s') ->
  onHand = fromUnits (ledger_total id s) /\ in_range (ledger_total id s) = true /\
  exists item status, item ∈ sk_items s /\ ir_id item = id /\
    deriveItemStatus (status_of item) onHand (fromUnits (ir_quantity item)) = Ok status /\
    s' = put_items (update_rows (is_item id)
           (refreshed (ledger_total id s) status (ledger_total id s <=? 0) lock (sk_now s)) (sk_items s)) s.
Proof.
  unfold refreshItemBalance. intros H. run_bind H item t Hi. apply require_item_inv in Hi as (-> & Hin & Hid).
  inv_stock. match goal with H : numeric_20_6 _ = _ |- _ => apply numeric_20_6_inv in H as [-> Hr] end.
  match goal with H : numericLiteral _ = _ |- _ => rewrite numericLiteral_fromUnits in H by done; injection H as <- end.
  match goal with H : updateItems _ _ _ = _ |- _ => apply updateItems_inv in H as -> end.
  match goal with H : Commerce.compareDecimals _ _ = _ |- _ =>
    rewrite (compare_zero _ _ (amount_fromUnits _)) in H; injection H as <- end.
  split; [done|]. split; [done|]. exists item. eexists. split; [done|]. split; [done|]. split; [done|].
  by rewrite sgn_leb.
Qed.

Lemma recordMovement_inv i s r s' : recordMovement i s = (Ok r, s') ->
  (re_created r = false /\ s' = s /\
   find_row (has_key (rm_deduplicationKey i)) (sk_movements s) = Some (re_movement r)) \/
  exists q s1, re_created r = true /\
    find_row (has_key (rm_deduplicationKey i)) (sk_movements s) = None /\
    money_column (rm_quantity i) = Ok q /\
    insertMovement (movement_values i q) s = (Ok (re_movement r), s1) /\
    refreshItemBalance (rm_inventoryItemId i) (bool_decide (rm_movementKind i = DepletionSale)) s1
      = (Ok (re_quantityOnHand r), s').
Proof.
  unfold recordMovement. intros H.
  do 4 (let a := fresh in let b := fresh in run_bind H a b Hx; apply st_lift_inv in Hx as [_ ->]).
  run_bind H x t Hx. apply require_item_inv in Hx as (-> & _). run_bind H o t Hx. apply st_gets_inv in Hx as [-> ->].
  destruct (find_row _ _) as [m|] eqn:E.
  - left. unfold readOnHand in H. inv_st. done.
  - right. run_bind H q t Hq. apply st_lift_inv in Hq as [Hq ->]. run_bind H m s1 Hm. run_bind H b s2 Hb. inv_st.
    by exists q, s1.
Qed.

Lemma refreshed_layer z status d lock now : layer_kept (refreshed z status d lock now).
Proof. intros r. split; try done. cbn. intros t ->. by destruct lock. Qed.
Lemma refreshItemBalance_extends id lock : respects extends (refreshItemBalance id lock).
Proof.
  intros s b s' (_ & _ & item & status & _ & _ & _ & ->)%refreshItemBalance_inv.
  by apply put_items_extends, refreshed_layer.
Qed.

Lemma ledger_total_snoc item m s s1 : sk_movements s1 = sk_movements s ++ [m] ->
  ledger_total item s1 = ledger_total item s + if bool_decide (mo_inventoryItemId m = item) then mo_quantity m else 0.
Proof.
  intros E. unfold ledger_total, item_movements. rewrite E, List.filter_app, fmap_app, sumZ_app. f_equal. cbn [List.filter].
  case_bool_decide; cbn; lia.
Qed.

(** The ledger with one movement more, its item's balance still to refresh. *)
Lemma balance_refreshed s s1 row values lock onHand s' :
  inserted sk_movements values put_movements s row s1 ->
  (forall id now, mo_id (values id now) = id) -> movement_checks row = true ->
  sk_next s ∉ mo_id <$> sk_movements s ->
  mo_deduplicationKey row ∉ mo_deduplicationKey <$> sk_movements s ->
  refreshItemBalance (mo_inventoryItemId row) lock s1 = (Ok onHand, s') -> stock_ok s -> stock_ok s'.
Proof.
  intros [-> ->] Hid Hc Hn Hk (-> & _ & item & status & Hin & Hi & _ & ->)%refreshItemBalance_inv [].
  set (row := values _ _) in *. set (s1 := put_movements _ _) in *. set (item0 := mo_inventoryItemId row) in *.
  pose proof (refreshed_layer (ledger_total item0 s1) status (ledger_total item0 s1 <=? 0) lock (sk_now s1)) as Hl.
  assert (forall r, st_quantityOnHand (ir_stock (refreshed (ledger_total item0 s1) status (ledger_total item0 s1 <=? 0)
    lock (sk_now s1) r)) = ledger_total item0 s1) as Hf by done.
  revert Hl Hf. generalize (refreshed (ledger_total item0 s1) status (ledger_total item0 s1 <=? 0) lock (sk_now s1)).
  intros f Hl Hf.
  assert (forall r, r ∈ sk_items s -> exists r', r' ∈ update_rows (is_item item0) f (sk_items s) /\ ir_id r' = ir_id r)
    as Hex.
  { intros r Hr. eexists. split; [by apply (list_elem_of_fmap_2 (fun r => if is_item item0 r then f r else r))|].
    cbv beta. destruct (is_item item0 r); [apply Hl|done]. }
  split; cbn [sk_items sk_movements sk_next put_items put_movements put_next s1];
    rewrite ?update_rows_keys by (intros; apply Hl); try done.
  - intros r (q & Hq & ->)%update_rows_elem. specialize (so_item_next0 q Hq).
    destruct (is_item _ q); [rewrite (sl_id _ _ (Hl q))|]; lia.
  - apply NoDup_keys_snoc. unfold row. by rewrite Hid.
  - intros m [Hm| ->%list_elem_of_singleton]%elem_of_app; [|unfold row; rewrite Hid; lia].
    specialize (so_move_next0 m Hm). lia.
  - by apply NoDup_keys_snoc.
  - intros m [Hm| ->%list_elem_of_singleton]%elem_of_app.
    + destruct (so_moves0 m Hm) as (Hk' & r & (r' & Hr' & E)%Hex & <-). eauto.
    + destruct (Hex item Hin) as (r' & Hr' & E). split; [done|]. exists r'. by rewrite E, Hi.
  - intros r (q & Hq & ->)%update_rows_elem. change (ledger_total ?i (put_items _ s1)) with (ledger_total i s1).
    unfold is_item. case_bool_decide as Hqi.
    + rewrite (sl_id _ _ (Hl q)), Hf. by rewrite Hqi.
    + rewrite (ledger_total_snoc _ row s s1 eq_refl), bool_decide_eq_false_2, Z.add_0_r by (intros E; by apply Hqi).
      by apply so_balance0.
Qed.

Lemma recordMovement_sound i : respects sound (recordMovement i).
Proof.
  intros s r s' [(_ & -> & _)|(q & s1 & _ & _ & _ & Hm & Hb)]%recordMovement_inv; [done|].
  apply insertMovement_inv in Hm as (Hins & Hc & Hn & Hk & _). split.
  - eapply balance_refreshed; [done|by intros|done..|]. rewrite (is_row _ _ _ _ _ _ Hins). exact Hb.
  - etrans; [|by eapply refreshItemBalance_extends]. rewrite (is_store _ _ _ _ _ _ Hins).
    split; [by eexists|by exists []; rewrite app_nil_r|]. intros x Hx. by exists x.
Qed.
#[export] Hint Resolve recordMovement_sound : store.

Lemma refreshItemBalance_sound id lock : respects sound (refreshItemBalance id lock).
Proof.
  intros s b s' H. split; [|by eapply refreshItemBalance_extends]. intros Hs.
  apply refreshItemBalance_inv in H as (_ & _ & item & status & _ & _ & _ & ->).
  apply put_items_ok; [apply refreshed_layer| |done]. intros r _ <-%bool_decide_eq_true. done.
Qed.
#[export] Hint Resolve refreshItemBalance_sound : store.
#[export] Hint Extern 1 (layer_kept _) => intros ?; split; solve [done | intros ? ->; done] : store.
#[export] Hint Extern 1 (balance_kept _) => intros ?; done : store.
#[export] Hint Extern 1 (fresh_item _) => split; done : store.
