(* ===== verification/StockServices.v ===== *)
(** * The calls of the inventory package

    Every service keeps the invariant [stock_ok] and extends the tables; the calls as one
    type and the stores they reach; and a small stock the witnesses run on. *)
From S2P Require Import Prelude Decimal DecimalPackages Calendar Inputs Store Schema Ledger LedgerFacts.
From S2P Require Import Stock Movements Reservations LotCosts Items Locations StockNumbers StockFacts.

Open Scope Z_scope.
#[local] Arguments String.append : simpl nomatch.

(** ** One service at a time *)
Ltac by_transaction := apply (always_atomically sound); solve_respects.

Lemma record_sound i : always sound (record i).
Proof. unfold record. by_transaction. Qed.
Lemma reverse_sound i : always sound (reverse i).
Proof. unfold reverse. by_transaction. Qed.

Lemma mapM_refresh_sound l : respects sound (st_mapM (fun d => refreshItemBalance (qd_inventoryItemId d) false) l).
Proof. solve_respects. Qed.
Lemma reconcile_sound apply item : always sound (reconcileQuantityOnHand apply item).
Proof. unfold reconcileQuantityOnHand. solve_respects. by_transaction. Qed.

(** *** Reservations *)
Lemma reservedQuantityFor_reads item : reads (reservedQuantityFor item).
Proof. unfold reservedQuantityFor. solve_respects. Qed.
Lemma depletedAgainstAllocation_reads a : reads (depletedAgainstAllocation a).
Proof. unfold depletedAgainstAllocation. solve_respects. Qed.
Lemma require_allocation_reads a : reads (require_allocation a).
Proof. unfold require_allocation. solve_respects. Qed.
#[export] Hint Resolve reservedQuantityFor_reads depletedAgainstAllocation_reads require_allocation_reads : store.

Lemma reserve_sound i : always sound (reserve i).
Proof. unfold reserve, reserve_new. solve_respects. by_transaction. Qed.
Lemma release_sound a reason status : always sound (release a reason status).
Proof. unfold release. by_transaction. Qed.
Lemma deplete_loop_sound i remaining l : respects sound (deplete_loop i remaining l).
Proof. revert remaining. induction l as [|a l IH]; intros remaining; cbn; unfold deplete_one; solve_respects. Qed.
#[export] Hint Resolve deplete_loop_sound : store.
Lemma deplete_sound i : always sound (depleteOnFulfillment i).
Proof. unfold depleteOnFulfillment. solve_respects. by_transaction. Qed.
Lemma expire_sound t : always sound (expireStaleHolds t).
Proof. unfold expireStaleHolds. solve_respects. Qed.

(** *** Lots *)
Lemma lot_get_reads id : reads (LotCosts.get id).
Proof. unfold LotCosts.get. solve_respects. Qed.
#[export] Hint Resolve lot_get_reads : store.

Lemma retry_always (R : relation Stock) `{!PreOrder R} {A} attempts index constraint (attempt : Z -> srun A) :
  (forall i, always R (attempt i)) -> always R (retry attempts index constraint attempt).
Proof.
  intros Ha. revert index. induction attempts as [|n IH]; intros index; cbn; [apply always_throw; apply _|].
  apply always_catch; [apply _|done|]. intros e. destruct (isUniqueViolation _ _); [done|]. apply always_throw; apply _.
Qed.

Lemma lot_create_sound i : always sound (LotCosts.create i).
Proof.
  unfold LotCosts.create. solve_respects. apply retry_always; [apply _|]. intros n. unfold create_attempt, nextSequence.
  solve_respects.
Qed.
Lemma addCost_sound i : always sound (addCost i).
Proof. unfold addCost. solve_respects. Qed.
Lemma write_share_sound basis share : respects sound (write_share basis share).
Proof. unfold write_share. solve_respects. Qed.
#[export] Hint Resolve write_share_sound : store.
Lemma allocateCosts_sound i : always sound (allocateCosts i).
Proof. unfold allocateCosts. apply (always_atomically sound). unfold allocateCosts_body. solve_respects. Qed.

(** *** Items *)
Lemma codeRetry_in_tx_sound {A} (attempt : srun A) : respects sound attempt -> respects sound (codeRetry_in_tx attempt).
Proof.
  intros H. apply respects_rethrow; [done|]. intros e s a s'. by destruct (isUniqueViolation _ _).
Qed.
Lemma itemCode_sound : always sound itemCode.
Proof. unfold itemCode. solve_respects. Qed.
Lemma loadItem_reads id : reads (loadItem id).
Proof. apply require_item_reads. Qed.
#[export] Hint Resolve codeRetry_in_tx_sound itemCode_sound loadItem_reads : store.

Lemma item_create_sound i : always sound (Items.create i).
Proof.
  unfold Items.create. solve_respects. apply (always_atomically sound). unfold create_body.
  solve_respects; apply codeRetry_in_tx_sound; solve_respects.
Qed.
Lemma setCondition_sound i : always sound (setCondition i).
Proof. unfold setCondition. solve_respects. by_transaction. Qed.
Lemma update_sound i : always sound (Items.update i).
Proof. unfold Items.update. solve_respects. by_transaction. Qed.
Lemma setSaleMode_sound id m actor : always sound (setSaleMode id m actor).
Proof. unfold setSaleMode. solve_respects. by_transaction. Qed.
Lemma part_out_child_sound value parent groupKey t ls gs e :
  respects sound (part_out_child value parent groupKey t ls gs e).
Proof. unfold part_out_child. solve_respects; apply codeRetry_in_tx_sound; solve_respects. Qed.
Lemma transfer_pair_sound group item from destination to moved reason note t actor :
  respects sound (transfer_pair group item from destination to moved reason note t actor).
Proof. unfold transfer_pair. solve_respects. Qed.
Lemma splitItem_sound source moved o : respects sound (splitItem source moved o).
Proof. unfold splitItem. solve_respects; apply codeRetry_in_tx_sound; solve_respects. Qed.
#[export] Hint Resolve part_out_child_sound transfer_pair_sound splitItem_sound : store.
Lemma partOut_sound i : always sound (partOut i).
Proof. unfold partOut. solve_respects. apply (always_atomically sound). unfold partOut_body. solve_respects. Qed.
Lemma moveToLocation_sound i : always sound (moveToLocation i).
Proof. unfold moveToLocation. apply (always_atomically sound). unfold move_split. solve_respects. Qed.
Lemma transferEntity_sound i : always sound (transferEntity i).
Proof. unfold transferEntity. apply (always_atomically sound). unfold transferEntity_body. solve_respects. Qed.
Lemma reattribute_sound entity lot before actor : always sound (reattribute entity lot before actor).
Proof. unfold reattribute. solve_respects. Qed.
Lemma correctCostBasis_sound i : always sound (correctCostBasis i).
Proof. unfold correctCostBasis. solve_respects. by_transaction. Qed.
Lemma completeIntakeReview_sound id : always sound (completeIntakeReview id).
Proof. unfold completeIntakeReview. by_transaction. Qed.
Lemma markListed_sound id : always sound (markListed id).
Proof. unfold markListed. by_transaction. Qed.

(** *** Locations *)
Lemma location_get_reads id : reads (Locations.get id).
Proof. unfold Locations.get. solve_respects. Qed.
#[export] Hint Resolve location_get_reads : store.
Lemma move_target_reads location parent : reads (move_target location parent).
Proof. unfold move_target. solve_respects. Qed.
#[export] Hint Resolve move_target_reads : store.
Lemma location_create_sound i : always sound (Locations.create i).
Proof. unfold Locations.create. solve_respects. Qed.
Lemma setParent_sound id parent : always sound (setParent id parent).
Proof. unfold setParent. by_transaction. Qed.
Lemma reconcilePaths_sound apply : always sound (reconcilePaths apply).
Proof. unfold reconcilePaths, repair. solve_respects. by_transaction. Qed.

(** ** Calls and the stores they reach *)
Inductive call : Type :=
  | CallRecord (i : RecordMovementInput)
  | CallReverse (i : ReverseInput)
  | CallReconcile (apply : bool) (item : option uuid)
  | CallReserve (i : ReserveInput)
  | CallRelease (allocationId : uuid) (reason : option string) (status : option ReleaseStatus)
  | CallDeplete (i : DepleteOnFulfillmentInput)
  | CallExpire (asOf : option Z)
  | CallCreateLot (i : CreateAcquisitionInput)
  | CallAddCost (i : AddCostInput)
  | CallAllocateCosts (i : AllocateCostsInput)
  | CallCreateItem (i : CreateItemInput)
  | CallSetCondition (i : SetConditionInput)
  | CallUpdate (i : UpdateItemInput)
  | CallSetSaleMode (inventoryItemId : uuid) (saleMode : SettableSaleMode) (actor : option string)
  | CallPartOut (i : PartOutInput)
  | CallMove (i : MoveToLocationInput)
  | CallTransfer (i : TransferEntityInput)
  | CallReattribute (entity lot : option uuid) (before : option Z) (actor : option string)
  | CallCorrectBasis (i : CorrectCostBasisInput)
  | CallCompleteReview (inventoryItemId : uuid)
  | CallMarkListed (inventoryItemId : uuid)
  | CallCreateLocation (i : CreateLocationInput)
  | CallSetParent (locationId : uuid) (parent : option uuid)
  | CallReconcilePaths (apply : bool).

(** The store a call leaves, whether it returns or throws. *)
Definition after (c : call) (s : Stock) : Stock :=
  match c with
  | CallRecord i => (record i s).2
  | CallReverse i => (reverse i s).2
  | CallReconcile apply item => (reconcileQuantityOnHand apply item s).2
  | CallReserve i => (reserve i s).2
  | CallRelease a reason status => (release a reason status s).2
  | CallDeplete i => (depleteOnFulfillment i s).2
  | CallExpire asOf => (expireStaleHolds asOf s).2
  | CallCreateLot i => (LotCosts.create i s).2
  | CallAddCost i => (addCost i s).2
  | CallAllocateCosts i => (allocateCosts i s).2
  | CallCreateItem i => (Items.create i s).2
  | CallSetCondition i => (setCondition i s).2
  | CallUpdate i => (Items.update i s).2
  | CallSetSaleMode id m actor => (setSaleMode id m actor s).2
  | CallPartOut i => (partOut i s).2
  | CallMove i => (moveToLocation i s).2
  | CallTransfer i => (transferEntity i s).2
  | CallReattribute entity lot before actor => (reattribute entity lot before actor s).2
  | CallCorrectBasis i => (correctCostBasis i s).2
  | CallCompleteReview id => (completeIntakeReview id s).2
  | CallMarkListed id => (markListed id s).2
  | CallCreateLocation i => (Locations.create i s).2
  | CallSetParent id parent => (setParent id parent s).2
  | CallReconcilePaths apply => (reconcilePaths apply s).2
  end.

Lemma after_sound c s : sound s (after c s).
Proof.
  destruct c;
    [apply record_sound|apply reverse_sound|apply reconcile_sound|apply reserve_sound|apply release_sound
    |apply deplete_sound|apply expire_sound|apply lot_create_sound|apply addCost_sound|apply allocateCosts_sound
    |apply item_create_sound|apply setCondition_sound|apply update_sound|apply setSaleMode_sound|apply partOut_sound
    |apply moveToLocation_sound|apply transferEntity_sound|apply reattribute_sound|apply correctCostBasis_sound
    |apply completeIntakeReview_sound|apply markListed_sound|apply location_create_sound|apply setParent_sound
    |apply reconcilePaths_sound].
Qed.

(** What the rest of the program does between two calls: it keeps its own tables
    and the clock, and leaves the items and the movements to this package. *)
Record elsewhere (s s' : Stock) : Prop := {
  el_items : sk_items s' = sk_items s;
  el_movements : sk_movements s' = sk_movements s;
  el_next : (sk_next s <= sk_next s')%positive;
}.

Inductive reachable : Stock -> Prop :=
  | reach_empty s : sk_items s = [] -> sk_movements s = [] -> reachable s
  | reach_call c s : reachable s -> reachable (after c s)
  | reach_elsewhere s s' : reachable s -> elsewhere s s' -> reachable s'.

Lemma empty_ok s : sk_items s = [] -> sk_movements s = [] -> stock_ok s.
Proof.
  intros Hi Hm. split; rewrite ?Hi, ?Hm; try apply NoDup_nil_2; try (by intros ? ?%not_elem_of_nil).
Qed.

Lemma elsewhere_ok s s' : elsewhere s s' -> stock_ok s -> stock_ok s'.
Proof.
  intros [Ei Em Hn] Hs. pose proof (so_item_next s Hs) as Hi. pose proof (so_move_next s Hs) as Hm. destruct Hs.
  split; unfold ledger_total, item_movements in *; rewrite ?Ei, ?Em; try done.
  - intros r Hr. specialize (Hi r Hr). lia.
  - intros m H. specialize (Hm m H). lia.
Qed.

Lemma reachable_ok s : reachable s -> stock_ok s.
Proof.
  induction 1 as [s Hi Hm|c s _ IH|s s' _ IH He]; [by apply empty_ok|by apply (after_sound c s)|by eapply elsewhere_ok].
Qed.

(** No item drifts, so there is nothing to repair. *)
Lemma reconcile_quiet apply item s : stock_ok s ->
  reconcileQuantityOnHand apply item s =
    (Ok {| rc_itemsChecked := length (List.filter (in_scope item) (sk_items s)); rc_drift := []; rc_repaired := false |}, s).
Proof.
  intros Hs. assert (List.filter (fun r => drifted s r && in_scope item r) (sk_items s) = []) as Hnil.
  { apply elem_of_nil_inv. intros r. rewrite elem_of_bool_filter. unfold drifted.
    intros [[Hd _]%andb_true_iff Hr]. by rewrite (so_balance s Hs r Hr), Z.eqb_refl in Hd. }
  unfold reconcileQuantityOnHand. erewrite st_bind_run by done. erewrite st_bind_run by done.
  rewrite Hnil. by destruct apply.
Qed.

(** ** A small stock to evaluate on

    One lot, one item of ten with a basis of 100, two locations, two order lines:
    the concrete store the witnesses of the inventory theorems use. *)

Definition nothing : Stock :=
  {| sk_items := []; sk_movements := []; sk_allocations := []; sk_acquisitions := []; sk_costs := [];
     sk_locations := []; sk_orderLines := [1; 2]%positive; sk_fulfillments := [3; 4]%positive; sk_shipments := [];
     sk_entities := [5; 6]%positive; sk_connections := []; sk_catalogItems := []; sk_users := ["ann"];
     sk_audit := []; sk_random := fun id i => (Pos.to_nat id + i)%nat; sk_next := 10; sk_now := 1735689600000 |}.

Definition lot_input : CreateAcquisitionInput :=
  {| ca_title := "Estate lot"; ca_sourceKind := "estate_sale"; ca_currency := "usd"; ca_referenceCode := None;
     ca_status := None; ca_economicEntityId := Some 5%positive; ca_installationDefaultEntityId := None;
     ca_connectionId := None; ca_vendorName := None; ca_vendorLocation := None; ca_externalReference := None;
     ca_costAllocationBasis := Some BasisEqual; ca_acquiredAt := None; ca_receivedAt := None;
     ca_expectedItemCount := None; ca_notes := None; ca_createdByUserId := Some "ann"%string |}.

Definition cost_input (lot : uuid) (class : CostClass) (value : string) (item : option uuid) : AddCostInput :=
  {| ad_acquisitionId := lot; ad_costType := "hammer"; ad_costClass := class; ad_amount := value; ad_currency := None;
     ad_inventoryItemId := item; ad_capitalize := None; ad_description := None; ad_vendorName := None;
     ad_externalReference := None; ad_incurredAt := None; ad_createdByUserId := Some "ann"%string |}.

Definition item_input (lot : option uuid) (quantity basis : string) (location : option uuid) : CreateItemInput :=
  {| ci_label := "Lens"; ci_currency := "usd"; ci_acquisitionId := lot; ci_catalogItemId := None; ci_locationId := location;
     ci_economicEntityId := None; ci_itemCode := None; ci_lotReference := None; ci_serialNumber := None;
     ci_conditionCode := None; ci_conditionNotes := None; ci_gradingAuthority := None; ci_gradeLabel := None;
     ci_gradeNumeric := None; ci_certificateNumber := None; ci_quantity := Some quantity;
     ci_acquisitionCostAmount := Some basis; ci_landedCostAmount := Some basis; ci_costAllocationWeight := None;
     ci_estimatedValueAmount := None; ci_acquiredAt := None; ci_receivedAt := None; ci_status := None; ci_receive := None;
     ci_receiptSessionKey := None; ci_createdByUserId := Some "ann"%string; ci_installationDefaultEntityId := None |}.

Definition location_input (code : string) (parent : option uuid) : CreateLocationInput :=
  {| cl_code := code; cl_name := code; cl_kind := Shelf; cl_parentLocationId := parent; cl_isDefault := None;
     cl_active := None; cl_notes := None |}.

Definition hold_input (item line : uuid) (quantity : string) : ReserveInput :=
  {| rs_inventoryItemId := item; rs_allocationKind := None; rs_orderLineId := Some line; rs_quantity := Some quantity;
     rs_expiresAt := None; rs_createdByUserId := None; rs_allowOverAllocation := None |}.

Definition movement_input (item : uuid) (kind : MovementKind) (quantity key : string) : RecordMovementInput :=
  {| rm_inventoryItemId := item; rm_movementKind := kind; rm_quantity := quantity; rm_locationId := None;
     rm_transferGroupId := None; rm_acquisitionId := None; rm_inventoryAllocationId := None; rm_orderLineId := None;
     rm_orderFulfillmentId := None; rm_shipmentId := None; rm_reversesMovementId := None; rm_reasonCode := None;
     rm_note := None; rm_deduplicationKey := key; rm_occurredAt := None; rm_actorUserId := None |}.

(** The lot is 10, the shelves 11 and 12, the item 14 (13 drew its code). *)
Definition LOT : uuid := 10.
Definition ITEM : uuid := 14.
Definition with_lot : Stock := after (CallCreateLot lot_input) nothing.
Definition with_shelf : Stock := after (CallCreateLocation (location_input "A" None)) with_lot.
Definition with_shelves : Stock := after (CallCreateLocation (location_input "B" None)) with_shelf.
Definition stocked : Stock := after (CallCreateItem (item_input (Some LOT) "10" "100" (Some 11%positive))) with_shelves.

Lemma stocked_reachable : reachable stocked.
Proof. unfold stocked, with_shelves, with_shelf, with_lot. do 4 apply reach_call. by apply reach_empty. Qed.

Example stocked_item :
  (fun r => (ir_id r, ir_itemCode r, st_quantityOnHand (ir_stock r), status_of r, ba_landedCostAmount (ir_basis r)))
    <$> sk_items stocked = [(ITEM, "ITM-FGHJK"%string, 10000000, "intake"%string, 100000000)].
Proof. vm_compute. reflexivity. Qed.

(** A second item of the lot, sold in part, and costs to allocate. *)
Definition costed_lot : Stock :=
  let s1 := after (CallCreateItem (item_input (Some LOT) "5" "20" (Some 11%positive))) stocked in
  let s2 := after (CallRecord (movement_input 17 DepletionSale "-1" "sale-1")) s1 in
  let s3 := after (CallCreateItem (item_input (Some LOT) "3" "0" (Some 11%positive))) s2 in
  let s4 := after (CallAddCost (cost_input LOT Goods "100.01" None)) s3 in
  let s5 := after (CallAddCost (cost_input LOT Ancillary "10" None)) s4 in
  after (CallAddCost (cost_input LOT Goods "5" (Some ITEM))) s5.

Lemma costed_lot_reachable : reachable costed_lot.
Proof. unfold costed_lot. cbv zeta. do 6 apply reach_call. apply stocked_reachable. Qed.

Definition allocate_lot (finalize : bool) : AllocateCostsInput :=
  {| ac_acquisitionId := LOT; ac_basis := None; ac_manualAmounts := []; ac_finalize := finalize |}.
Example costed_lot_landed :
  (fun r => (ir_id r, ba_landedCostAmount (ir_basis r))) <$> sk_items (after (CallAllocateCosts (allocate_lot true)) costed_lot)
  = [(14%positive, 74238461); (17%positive, 20000000); (21%positive, 20771539)].
Proof. vm_compute. reflexivity. Qed.
