(* ===== verification/MovementFacts.v ===== *)
(** * What recording, reversing and depleting do

    The exact outcome of the movement ledger's writers, and of the depletion of
    a fulfillment, in micro-units. *)
From S2P Require Import Prelude Decimal DecimalPackages Calendar Inputs Store Schema Ledger LedgerFacts Stock Movements.
From S2P Require Import Reservations LotCosts Items Locations StockNumbers StockFacts StockServices.

Open Scope Z_scope.
#[local] Arguments String.append : simpl nomatch.

(** ** The status a balance implies *)
Definition derived_status (current : string) (onHand quantity : Z) : string :=
  if String.eqb current "written_off" || String.eqb current "archived" then current
  else if onHand <=? 0 then "depleted"
  else if onHand <? quantity then "partially_depleted"
  else if String.eqb current "listed" || String.eqb current "reserved" || String.eqb current "intake" then current
  else "available".

Lemma deriveItemStatus_units current z q :
  deriveItemStatus current (fromUnits z) (fromUnits q) = Ok (derived_status current z q).
Proof.
  unfold deriveItemStatus, derived_status. destruct (String.eqb current "written_off" || _); [done|].
  rewrite (compare_zero _ z) by apply amount_fromUnits. cbn [mbind result_bind]. rewrite sgn_leb.
  destruct (z <=? 0); [done|].
  rewrite (compare_amounts _ _ z q) by apply amount_fromUnits. cbn [mbind result_bind]. rewrite sgn_ltb.
  replace (z - q <? 0) with (z <? q) by (destruct (Z.ltb_spec z q), (Z.ltb_spec (z - q) 0); lia).
  by repeat case_match.
Qed.

(** ** One item of the table *)
Section item.
Context (s : Stock) (Hs : stock_ok s) (id : uuid) (item : InventoryItemRow) (Hfind : find_item id s = Some item).

Lemma item_found : item ∈ sk_items s /\ ir_id item = id.
Proof using Hfind. by apply find_row_some in Hfind as [? ?%bool_decide_eq_true]. Qed.

Lemma item_only r : r ∈ sk_items s -> is_item id r = true -> r = item.
Proof using Hs Hfind.
  destruct item_found as [Hi He]. intros Hr Hid%bool_decide_eq_true.
  apply (NoDup_keys_inj ir_id (sk_items s)); [apply Hs|done|done|congruence].
Qed.

Lemma item_filter : List.filter (is_item id) (sk_items s) = [item].
Proof using Hs Hfind.
  pose proof (so_item_ids s Hs) as Hn. pose proof item_only as Ho. revert Hn Ho Hfind. unfold find_item.
  generalize (sk_items s) as l. induction l as [|r l IH]; [done|]. cbn [fmap list_fmap find_row List.find List.filter].
  rewrite NoDup_cons. intros [Hr Hn] Ho. destruct (is_item id r) eqn:E.
  - intros [= ->]. f_equal. apply elem_of_nil_inv. intros q [Hq Hql]%elem_of_bool_filter.
    apply Hr. rewrite <- (Ho q) by (set_solver || done). by apply list_elem_of_fmap_2.
  - intros Hf. apply IH; [done|set_solver|done].
Qed.

Lemma item_balance : st_quantityOnHand (ir_stock item) = ledger_total id s.
Proof using Hs Hfind. destruct item_found as [Hi <-]. by apply (so_balance s Hs). Qed.
End item.

(** ** Runs that return *)
Lemma demand_run (s : Stock) e b : b = true -> demand b e s = (Ok tt, s).
Proof. by intros ->. Qed.
Lemma lift_run {A} (s : Stock) (m : result A) a : m = Ok a -> st_lift m s = (Ok a, s).
Proof. by intros ->. Qed.
Lemma throw_if_run (s : Stock) e b : b = false -> st_lift (throw_if b e) s = (Ok tt, s).
Proof. by intros ->. Qed.

Definition row_valid (s : Stock) (r : InventoryItemRow) : bool := item_checks r && item_fks s r.

Lemma updateItems_one id f s item :
  List.filter (is_item id) (sk_items s) = [item] -> row_valid s (f item) = true ->
  updateItems (is_item id) f s = (Ok 1%nat, put_items (update_rows (is_item id) f (sk_items s)) s).
Proof.
  intros Hf [Hc Hk]%andb_true_iff. unfold updateItems. erewrite st_bind_run by done. rewrite Hf. cbv zeta.
  erewrite st_bind_run by (apply demand_run; cbn; by rewrite Hc).
  erewrite st_bind_run by (apply demand_run; cbn; by rewrite Hk). done.
Qed.

Lemma require_item_run id s item : find_item id s = Some item -> require_item id s = (Ok item, s).
Proof. intros H. unfold require_item. erewrite st_bind_run by done. by rewrite H. Qed.

(** The item with its balance refreshed. *)
Definition at_balance (z : Z) (lock : bool) (now : Z) (item : InventoryItemRow) : InventoryItemRow -> InventoryItemRow :=
  refreshed z (derived_status (status_of item) z (ir_quantity item)) (z <=? 0) lock now.

Lemma refresh_run id lock s item :
  find_item id s = Some item -> List.filter (is_item id) (sk_items s) = [item] -> row_valid s item = true ->
  in_range (ledger_total id s) = true ->
  refreshItemBalance id lock s =
    (Ok (fromUnits (ledger_total id s)),
     put_items (update_rows (is_item id) (at_balance (ledger_total id s) lock (sk_now s) item) (sk_items s)) s).
Proof.
  intros Hi Hf Hv Hr. unfold refreshItemBalance. erewrite st_bind_run by by apply require_item_run.
  erewrite st_bind_run by done. unfold numeric_20_6. rewrite Hr. erewrite st_bind_run by by apply lift_run.
  cbv zeta. erewrite st_bind_run by apply lift_run, deriveItemStatus_units.
  erewrite st_bind_run by apply lift_run, compare_zero, amount_fromUnits.
  erewrite st_bind_run by done. erewrite st_bind_run by by apply lift_run, numericLiteral_fromUnits.
  rewrite sgn_leb. erewrite st_bind_run by by eapply updateItems_one. done.
Qed.

Lemma insertMovement_run values s :
  let row := values (sk_next s) (sk_now s) in
  movement_checks row = true -> sk_next s ∉ mo_id <$> sk_movements s ->
  find_row (has_key (mo_deduplicationKey row)) (sk_movements s) = None -> movement_fks s row = true ->
  insertMovement values s = (Ok row, put_movements (sk_movements s ++ [row]) (put_next (Pos.succ (sk_next s)) s)).
Proof.
  intros row Hc Hn Hk Hf. unfold insertMovement. do 2 erewrite st_bind_run by done. cbv zeta.
  erewrite st_bind_run by by apply demand_run.
  erewrite st_bind_run by by apply demand_run, negb_true_iff, exists_id_false.
  erewrite st_bind_run.
  2: { apply demand_run, forallb_forall. intros m Hm%list_elem_of_In.
       apply negb_true_iff. exact (find_row_none _ _ Hk m Hm). }
  erewrite st_bind_run by by apply demand_run. done.
Qed.

(** ** Recording a movement *)
Definition next_movement (i : RecordMovementInput) (x : Z) (s : Stock) : MovementRow :=
  movement_values i x (sk_next s) (sk_now s).

Lemma movement_next s : stock_ok s -> sk_next s ∉ mo_id <$> sk_movements s.
Proof. intros Hs (m & E & Hm)%list_elem_of_fmap. pose proof (so_move_next s Hs m Hm). lia. Qed.

Lemma assertSign_ok kind text x : amount text x ->
  bool_decide (kind = Reversal) || Bool.eqb (INBOUND kind) (0 <? x) = true -> assertSign kind text = Ok tt.
Proof.
  intros Ha. unfold assertSign. case_bool_decide; [done|]. cbn [orb]. intros E.
  rewrite (compare_zero _ x) by done. cbn [mbind result_bind]. by rewrite sgn_gtb, E.
Qed.

(** The inputs the guards accept. *)
Record acceptable (i : RecordMovementInput) (x : Z) : Prop := {
  ra_schema : recordMovementSchema i = true;
  ra_amount : amount (rm_quantity i) x;
  ra_checks : forall id now, movement_checks (movement_values i x id now) = true;
}.

(** What the statements need: the item, its constraints, the references and the ranges. *)
Record recordable (i : RecordMovementInput) (x : Z) (item : InventoryItemRow) (s : Stock) : Prop := {
  rd_input : acceptable i x;
  rd_item : find_item (rm_inventoryItemId i) s = Some item;
  rd_valid : row_valid s item = true;
  rd_fks : movement_fks s (next_movement i x s) = true;
  rd_range : in_range x = true;
  rd_sum : in_range (ledger_total (rm_inventoryItemId i) s + x) = true;
}.

(** The store with the movement in the ledger and the balance refreshed. *)
Definition recorded (i : RecordMovementInput) (x : Z) (item : InventoryItemRow) (s : Stock) : Stock :=
  let total := ledger_total (rm_inventoryItemId i) s + x in
  put_items
    (update_rows (is_item (rm_inventoryItemId i))
       (at_balance total (bool_decide (rm_movementKind i = DepletionSale)) (sk_now s) item) (sk_items s))
    (put_movements (sk_movements s ++ [next_movement i x s]) (put_next (Pos.succ (sk_next s)) s)).

Definition record_result (m : MovementRow) (created : bool) (total : Z) : RecordMovementResult :=
  {| re_movement := m; re_created := created; re_quantityOnHand := fromUnits total; re_oversell := total <? 0 |}.

Lemma recordMovement_guards {B} i x s (k : srun B) :
  acceptable i x ->
  (_ ← st_lift (throw_if (negb (recordMovementSchema i)) InventoryValidationError);
   c ← st_lift (compareDecimals (rm_quantity i) "0");
   _ ← st_lift (throw_if (c =? 0) InventoryValidationError);
   _ ← st_lift (assertSign (rm_movementKind i) (rm_quantity i));
   k) s = k s.
Proof.
  intros [Hschema Ha Hc]. specialize (Hc xH 0). unfold movement_checks in Hc.
  repeat apply andb_true_iff in Hc as [Hc ?].
  erewrite st_bind_run by (apply throw_if_run; by rewrite Hschema).
  erewrite st_bind_run by by apply lift_run, compare_zero.
  rewrite sgn_eqb. erewrite st_bind_run by by apply throw_if_run, negb_true_iff.
  by erewrite st_bind_run by by eapply lift_run, assertSign_ok.
Qed.

Lemma recordMovement_new i x item s :
  stock_ok s -> recordable i x item s ->
  find_row (has_key (rm_deduplicationKey i)) (sk_movements s) = None ->
  recordMovement i s =
    (Ok (record_result (next_movement i x s) true (ledger_total (rm_inventoryItemId i) s + x)), recorded i x item s).
Proof.
  intros Hs Hr Hk. unfold recordMovement. rewrite (recordMovement_guards i x s _ (rd_input _ _ _ _ Hr)). destruct Hr.
  erewrite st_bind_run by by apply require_item_run. erewrite st_bind_run by done. rewrite Hk.
  erewrite st_bind_run. 2: { apply lift_run. rewrite (money_column_amount _ x), rd_range0; [done|apply rd_input0]. }
  erewrite st_bind_run by by apply (insertMovement_run _ _ (ra_checks _ _ rd_input0 _ _) (movement_next s Hs)).
  set (s1 := put_movements _ _).
  assert (ledger_total (rm_inventoryItemId i) s1 = ledger_total (rm_inventoryItemId i) s + x) as Et.
  { rewrite (ledger_total_snoc _ (next_movement i x s) s s1 eq_refl). cbn. by rewrite bool_decide_eq_true_2. }
  erewrite st_bind_run.
  2: { apply refresh_run with (item := item); [done|exact (item_filter s Hs _ _ rd_item0)|done|by rewrite Et]. }
  rewrite Et. erewrite st_bind_run by apply lift_run, compare_zero, amount_fromUnits. by rewrite sgn_ltb.
Qed.

Lemma recordMovement_known i x item m s :
  stock_ok s -> acceptable i x -> find_item (rm_inventoryItemId i) s = Some item ->
  find_row (has_key (rm_deduplicationKey i)) (sk_movements s) = Some m ->
  recordMovement i s = (Ok (record_result m false (ledger_total (rm_inventoryItemId i) s)), s).
Proof.
  intros Hs Ha Hi Hk. unfold recordMovement. rewrite (recordMovement_guards i x s _ Ha).
  erewrite st_bind_run by by apply require_item_run. erewrite st_bind_run by done. rewrite Hk.
  unfold readOnHand. erewrite st_bind_run by done. rewrite Hi, (item_balance s Hs _ _ Hi).
  erewrite st_bind_run by apply lift_run, compare_zero, amount_fromUnits. by rewrite sgn_ltb.
Qed.

(** The row of one item after an update of it. *)
Lemma find_item_update id f s : (forall r, ir_id (f r) = ir_id r) ->
  find_item id (put_items (update_rows (is_item id) f (sk_items s)) s) = f <$> find_item id s.
Proof.
  intros Hf. unfold find_item. cbn [sk_items put_items]. induction (sk_items s) as [|r l IH]; [done|].
  unfold find_row in *. cbn [update_rows map List.find]. destruct (is_item id r) eqn:E.
  - unfold is_item in *. by rewrite Hf, E.
  - by rewrite E.
Qed.

Lemma recorded_item i x item s : recordable i x item s ->
  find_item (rm_inventoryItemId i) (recorded i x item s) =
    Some (at_balance (ledger_total (rm_inventoryItemId i) s + x) (bool_decide (rm_movementKind i = DepletionSale))
            (sk_now s) item item).
Proof.
  intros [_ Hi _ _ _ _]. unfold recorded. etrans; [by apply (find_item_update _ _ (put_movements _ (put_next _ s)))|].
  change (find_item _ (put_movements _ _)) with (find_item (rm_inventoryItemId i) s). by rewrite Hi.
Qed.

Lemma recorded_total i x item s :
  ledger_total (rm_inventoryItemId i) (recorded i x item s) = ledger_total (rm_inventoryItemId i) s + x.
Proof.
  rewrite (ledger_total_snoc _ (next_movement i x s) s (recorded i x item s) eq_refl). cbn.
  by rewrite bool_decide_eq_true_2.
Qed.

(** ** Reversing *)
Lemma find_movement s m : stock_ok s -> m ∈ sk_movements s ->
  find_row (fun q => bool_decide (mo_id q = mo_id m)) (sk_movements s) = Some m.
Proof.
  intros Hs Hm. destruct (find_row _ _) as [q|] eqn:E.
  - apply find_row_some in E as [Hq Hid%bool_decide_eq_true]. f_equal.
    by apply (NoDup_keys_inj mo_id (sk_movements s)); [apply Hs|..].
  - apply find_row_none with (r := m) in E; [|done]. by apply bool_decide_eq_false in E.
Qed.

Lemma flip_decimal u : DECIMAL_STRING (flip_sign (fromUnits u)) = true.
Proof.
  pose proof (flip_amount _ _ (amount_fromUnits u)) as (p & Hp & _)%(amount_parse InventoryValidationError).
  unfold Decimal.parseScaled in Hp. by destruct (DECIMAL_STRING _).
Qed.

Lemma reversal_acceptable i m : not_empty (rx_reasonCode i) = true -> not_empty (rx_actorUserId i) = true ->
  mo_quantity m <> 0 -> acceptable (reversal_input i m) (- mo_quantity m).
Proof.
  intros Hr Ha Hq. split.
  - unfold recordMovementSchema. cbn [reversal_input rm_quantity rm_reasonCode rm_deduplicationKey rm_actorUserId].
    by rewrite flip_decimal, Hr, Ha.
  - apply flip_amount, amount_fromUnits.
  - intros id now. unfold movement_checks. cbn [movement_values reversal_input mo_quantity mo_movementKind mo_transferGroupId mo_reversesMovementId].
    replace (- mo_quantity m =? 0) with false by (symmetry; apply Z.eqb_neq; lia). done.
Qed.

Lemma in_range_opp z : in_range (- z) = in_range z.
Proof. unfold in_range. by rewrite Z.abs_opp. Qed.

Lemma reversed_of_snoc id m s s1 : sk_movements s1 = sk_movements s ++ [m] ->
  reversed_of id s1 = reversed_of id s +
    if bool_decide (mo_movementKind m = Reversal) && opt_eqb (mo_reversesMovementId m) id then mo_quantity m else 0.
Proof.
  intros E. unfold reversed_of. rewrite E, List.filter_app, fmap_app, sumZ_app. f_equal. cbn [List.filter].
  destruct (bool_decide _ && _); cbn; lia.
Qed.

(** * Theorems *)

(** C7. Whatever calls of the package ran, in whatever order, returning or
    throwing, with the rest of the program writing its own tables in between: the
    cached balance of every item is the sum of its movements, identifiers, item
    codes and deduplication keys are unique, every movement satisfies the schema's
    checks, and reconciliation finds no drift and writes nothing.  Whatever call
    comes next, the ledger is append-only: its movements and the audit log are those
    of before with new rows at the end, every item is still there with its code,
    quantity, currency, lot and origin, and a basis lock stays. *)
Theorem stock_reachable s apply item :
  reachable s ->
  stock_ok s /\ (forall c, extends s (after c s)) /\
  reconcileQuantityOnHand apply item s =
    (Ok {| rc_itemsChecked := length (List.filter (in_scope item) (sk_items s)); rc_drift := []; rc_repaired := false |}, s).
Proof. intros Hs%reachable_ok. split; [done|]. split; [intros c; apply after_sound|by apply reconcile_quiet]. Qed.

Example stock_reachable_witness :
  reachable stocked /\
  reconcileQuantityOnHand true None stocked =
    (Ok {| rc_itemsChecked := 1; rc_drift := []; rc_repaired := false |}, stocked).
Proof. split; [exact stocked_reachable|]. exact (proj2 (proj2 (stock_reachable stocked true None stocked_reachable))). Defined.

(** C25. Recording a movement, on both branches.  A key the ledger does not hold
    appends exactly the movement of the input, moves the item's balance by its
    quantity, derives the status, sets or clears the depletion time and locks the
    basis when it is a sale; no other row changes.  A key it holds writes nothing
    and returns the movement that holds it.  Either way the same call made again
    writes nothing and returns the same movement and balance. *)
Theorem record_exact i x item s :
  stock_ok s -> recordable i x item s ->
  let total := ledger_total (rm_inventoryItemId i) s in
  exists r s', record i s = (Ok r, s') /\
    match find_row (has_key (rm_deduplicationKey i)) (sk_movements s) with
    | Some m => r = record_result m false total /\ s' = s
    | None => r = record_result (next_movement i x s) true (total + x) /\ s' = recorded i x item s
    end /\
    (exists u, amount (re_quantityOnHand r) u /\
       record i s' = (Ok (record_result (re_movement r) false u), s')).
Proof.
  intros Hs Hr total. unfold record, atomically. destruct (find_row _ _) as [m|] eqn:Hk.
  - pose proof (recordMovement_known i x item m s Hs (rd_input _ _ _ _ Hr) (rd_item _ _ _ _ Hr) Hk) as E.
    rewrite E. eexists _, _. split; [done|]. split; [done|]. exists total. split; [apply amount_fromUnits|].
    by rewrite E.
  - pose proof (recordMovement_new i x item s Hs Hr Hk) as E. rewrite E. eexists _, _. split; [done|].
    split; [done|]. exists (total + x). split; [apply amount_fromUnits|].
    erewrite recordMovement_known; [by rewrite recorded_total| |apply Hr|by apply recorded_item|].
    + by apply (recordMovement_sound i s _ _ E).
    + apply find_row_app_new; [by apply find_row_none|]. apply String.eqb_refl.
Qed.

Example record_exact_witness :
  exists r s', record (movement_input ITEM Shrinkage "-2.5" "count-1") stocked = (Ok r, s') /\
    match find_row (has_key "count-1") (sk_movements stocked) with
    | Some m => r = record_result m false 10000000 /\ s' = stocked
    | None => r = record_result (next_movement (movement_input ITEM Shrinkage "-2.5" "count-1") (-2500000) stocked) true
                    7500000 /\ True
    end.
Proof.
  destruct (record_exact (movement_input ITEM Shrinkage "-2.5" "count-1") (-2500000)
    (default (item_values (item_input None "1" "1" None) {| nu_quantity := 1; nu_gradeNumeric := None;
       nu_acquisitionCostAmount := 0; nu_landedCostAmount := 0; nu_costAllocationWeight := None;
       nu_estimatedValueAmount := None |} "" (default_attribution None Unattributed) 0 1 0) (head (sk_items stocked)))
    stocked) as (r & s' & E & H & _).
  - apply reachable_ok, stocked_reachable.
  - split; [split|..]; vm_compute; reflexivity.
  - exists r, s'. split; [exact E|]. revert H. vm_compute. intros [-> _]. split; reflexivity.
Defined.

(** Reversing a movement appends one movement of the opposite quantity that
    names it: the item's balance returns to what it was without the movement, what
    has been reversed of it grows by exactly its quantity, and reversing it again
    writes nothing and returns the same reversal. *)
Theorem reverse_exact i m item s :
  stock_ok s -> m ∈ sk_movements s -> mo_id m = rx_movementId i ->
  not_empty (rx_reasonCode i) = true -> not_empty (rx_actorUserId i) = true ->
  find_item (mo_inventoryItemId m) s = Some item -> row_valid s item = true ->
  movement_fks s (next_movement (reversal_input i m) (- mo_quantity m) s) = true ->
  in_range (mo_quantity m) = true -> in_range (ledger_total (mo_inventoryItemId m) s - mo_quantity m) = true ->
  find_row (has_key (movementKeys.reversal (mo_id m))) (sk_movements s) = None ->
  let total := ledger_total (mo_inventoryItemId m) s - mo_quantity m in
  exists r s', reverse i s = (Ok r, s') /\ re_created r = true /\
    sk_movements s' = sk_movements s ++ [re_movement r] /\
    mo_quantity (re_movement r) = - mo_quantity m /\ mo_reversesMovementId (re_movement r) = Some (mo_id m) /\
    ledger_total (mo_inventoryItemId m) s' = total /\
    (st_quantityOnHand ∘ ir_stock) <$> find_item (mo_inventoryItemId m) s' = Some total /\
    reversed_of (mo_id m) s' = reversed_of (mo_id m) s - mo_quantity m /\
    reverse i s' = (Ok (record_result (re_movement r) false total), s').
Proof.
  intros Hs Hm Hid Hre Hac Hi Hv Hfk Hq Hsum Hk total. destruct (so_moves s Hs m Hm) as [Hc _].
  assert (mo_quantity m <> 0) as Hnz.
  { unfold movement_checks in Hc. repeat apply andb_true_iff in Hc as [Hc ?]. by apply negb_true_iff, Z.eqb_neq in Hc. }
  pose proof (reversal_acceptable i m Hre Hac Hnz) as Ha.
  assert (recordable (reversal_input i m) (- mo_quantity m) item s) as Hr.
  { split; try done. by rewrite in_range_opp. }
  pose proof (recordMovement_new _ _ item s Hs Hr Hk) as E. set (s' := recorded _ _ _ _) in E.
  exists (record_result (next_movement (reversal_input i m) (- mo_quantity m) s) true total), s'.
  assert (forall t, m ∈ sk_movements t -> stock_ok t ->
    reverse i t = atomically (recordMovement (reversal_input i m)) t) as Hrev.
  { intros t Ht Hok. unfold reverse, atomically. erewrite st_bind_run by done. rewrite <- Hid.
    by rewrite (find_movement t m Hok Ht). }
  assert (stock_ok s') as Hs' by by apply (recordMovement_sound _ s _ _ E).
  assert (ledger_total (mo_inventoryItemId m) s' = total) as Et by apply (recorded_total (reversal_input i m)).
  split; [by rewrite Hrev; [unfold atomically; rewrite E|..]|]. do 4 (split; [done|]). split; [done|].
  pose proof (recorded_item (reversal_input i m) _ item s Hr : find_item (mo_inventoryItemId m) s' = _) as Hi'.
  split; [by rewrite Hi'|]. split.
  - rewrite (reversed_of_snoc _ _ s s' eq_refl). cbn. unfold opt_eqb. rewrite !bool_decide_eq_true_2 by done. unfold reversed_of. cbn. lia.
  - rewrite Hrev; [|cbn; rewrite elem_of_app; by left|done]. unfold atomically.
    erewrite recordMovement_known; [change (rm_inventoryItemId (reversal_input i m)) with (mo_inventoryItemId m); by rewrite Et|done|done|exact Hi'|].
    apply find_row_app_new; [by apply find_row_none|]. apply String.eqb_refl.
Qed.

Definition take_back (movement : uuid) : ReverseInput :=
  {| rx_movementId := movement; rx_reasonCode := Some "error"%string; rx_note := None; rx_actorUserId := None;
     rx_occurredAt := None |}.

Example reverse_exact_witness :
  exists r s', reverse (take_back 15) stocked = (Ok r, s') /\ mo_quantity (re_movement r) = -10000000 /\
    ledger_total ITEM s' = 0 /\ reverse (take_back 15) s' = (Ok (record_result (re_movement r) false 0), s').
Proof.
  pose proof (reachable_ok _ stocked_reachable) as Hs.
  destruct (sk_movements stocked) as [|m l] eqn:E; [by vm_compute in E|].
  destruct (sk_items stocked) as [|item items] eqn:F; [by vm_compute in F|].
  assert (m ∈ sk_movements stocked) as Hm by (rewrite E; left).
  vm_compute in E. injection E as <- <-. vm_compute in F. injection F as <- <-.
  destruct (reverse_exact (take_back 15) _ _ stocked Hs Hm eq_refl eq_refl eq_refl
    ltac:(vm_compute; reflexivity) ltac:(vm_compute; reflexivity) ltac:(vm_compute; reflexivity)
    ltac:(vm_compute; reflexivity) ltac:(vm_compute; reflexivity) ltac:(vm_compute; reflexivity))
    as (r & s' & Hr & _ & _ & Hq & _ & Ht & _ & _ & Hagain).
  exists r, s'. split; [exact Hr|]. split; [exact Hq|]. split; [|exact Hagain].
  etransitivity; [exact Ht|]. vm_compute. reflexivity.
Defined.
