(* ===== verification/DepletionFacts.v ===== *)
(** * What a fulfillment depletes

    [depleteOnFulfillment] against the greedy matching it implements: the oldest
    reserved allocation first, each for what it still has outstanding. *)
From S2P Require Import Prelude Decimal DecimalPackages Calendar Inputs Store Schema Ledger LedgerFacts Stock Movements.
From S2P Require Import Reservations LotCosts Items Locations StockNumbers StockFacts StockServices MovementFacts.

Open Scope Z_scope.
#[local] Arguments String.append : simpl nomatch.

(** ** The matching *)
Fixpoint greedy (remaining : Z) (open : list (uuid * Z)) : list (uuid * Z) * Z :=
  match open with
  | [] => ([], remaining)
  | (allocation, outstanding) :: open =>
      if remaining <=? 0 then ([], remaining)
      else if outstanding <=? 0 then greedy remaining open
      else
        let take := Z.min outstanding remaining in
        let rest := greedy (remaining - take) open in
        ((allocation, take) :: rest.1, rest.2)
  end.

Lemma greedy_sum remaining open :
  let g := greedy remaining open in sumZ (snd <$> g.1) + g.2 = remaining.
Proof.
  revert remaining. induction open as [|[a o] open IH]; intros r; [done|]. cbn [greedy].
  destruct (r <=? 0); [done|]. destruct (o <=? 0); [apply IH|]. specialize (IH (r - Z.min o r)). cbv zeta in *.
  change (sumZ (Z.min o r :: (snd <$> (greedy (r - Z.min o r) open).1)) + (greedy (r - Z.min o r) open).2 = r).
  rewrite sumZ_cons. lia.
Qed.

Lemma greedy_bounds remaining open : 0 <= remaining ->
  let g := greedy remaining open in 0 <= g.2 /\ Forall (fun p => 0 < p.2) g.1.
Proof.
  revert remaining. induction open as [|[a o] open IH]; intros r Hr; cbn; [by split|].
  destruct (Z.leb_spec r 0); [by split|]. destruct (Z.leb_spec o 0); [by apply IH|].
  destruct (IH (r - Z.min o r)) as [H1 H2]; [lia|]. cbn. split; [done|]. constructor; [cbn; lia|done].
Qed.

(** What an allocation still has to deplete. *)
Definition outstanding (s : Stock) (a : InventoryAllocationRow) : uuid * Z :=
  (rv_id a, rv_quantity a - depleted_total (rv_id a) s).

(** ** One movement more *)
Lemma depleted_total_snoc b m s s1 : sk_movements s1 = sk_movements s ++ [m] ->
  mo_movementKind m <> Reversal ->
  depleted_total b s1 = depleted_total b s - (if depletion_of b m then mo_quantity m + reversed_of (mo_id m) s else 0).
Proof.
  intros E Hk. unfold depleted_total.
  assert (forall id, reversed_of id s1 = reversed_of id s) as Hr.
  { intros id. rewrite (reversed_of_snoc _ m s s1 E), bool_decide_eq_false_2 by done. cbn. lia. }
  rewrite E, List.filter_app, fmap_app, sumZ_app.
  rewrite (list_fmap_ext (fun m => mo_quantity m + reversed_of (mo_id m) s1)
             (fun m => mo_quantity m + reversed_of (mo_id m) s)) by (intros; by rewrite Hr).
  cbn [List.filter]. destruct (depletion_of b m); cbn; rewrite ?Hr; lia.
Qed.

(** A depletion of an allocation, against the store it left. *)
Record depleted (s : Stock) (d : Depletion) (p : uuid * Z) : Prop := {
  dp_allocation : de_allocationId d = p.1;
  dp_quantity : amount (de_quantity d) p.2;
  dp_movement : de_created d = true -> exists m, m ∈ sk_movements s /\ mo_id m = de_movementId d /\
    mo_movementKind m = DepletionSale /\ mo_inventoryAllocationId m = Some p.1 /\
    mo_inventoryItemId m = de_inventoryItemId d /\ mo_quantity m = - p.2;
}.

Lemma depleted_extends s s' d p : extends s s' -> depleted s d p -> depleted s' d p.
Proof.
  intros [[new E] _ _] [Ha Hq Hm]. split; [done|done|]. intros (m & Hin & H)%Hm. exists m.
  rewrite E, elem_of_app. by split; [left|].
Qed.

Definition same_sales (a : uuid) (s s' : Stock) : Prop := forall b, b <> a -> depleted_total b s' = depleted_total b s.

Lemma updateAllocations_movements p f s n s' : updateAllocations p f s = (Ok n, s') -> sk_movements s' = sk_movements s.
Proof. unfold updateAllocations. intros H. by inv_stock. Qed.

Lemma depleted_total_movements s s' : sk_movements s' = sk_movements s ->
  forall b, depleted_total b s' = depleted_total b s.
Proof. intros E b. unfold depleted_total, reversed_of. by rewrite E. Qed.

(** The movement one allocation's sale records, if its key was free. *)
Lemma record_sale_inv i a take x s r s' :
  amount take x -> 0 < x -> recordMovement (depletion_input i a take) s = (Ok r, s') ->
  same_sales (rv_id a) s s' /\
  (re_created r = true -> re_movement r ∈ sk_movements s' /\ mo_movementKind (re_movement r) = DepletionSale /\
     mo_inventoryAllocationId (re_movement r) = Some (rv_id a) /\
     mo_inventoryItemId (re_movement r) = rv_inventoryItemId a /\ mo_quantity (re_movement r) = - x).
Proof.
  intros Hx Hpos [(Hc & -> & _)|(q & s1 & Hc & _ & Hq & Hm & Hb)]%recordMovement_inv.
  - split; [by intros b _|]. rewrite Hc. done.
  - apply insertMovement_inv in Hm as ([Erow ->] & _).
    apply refreshItemBalance_inv in Hb as (_ & _ & item & status & _ & _ & _ & ->).
    cbn [depletion_input rm_quantity] in Hq.
    rewrite (money_column_amount _ (- x)) in Hq by by apply minus_amount.
    destruct (in_range (- x)); [|done]. injection Hq as <-. rewrite Erow. split.
    + intros b Hb. etrans; [apply (depleted_total_snoc b (re_movement r) s); [by rewrite Erow|by rewrite Erow]|].
      rewrite Erow. unfold depletion_of. cbn. unfold opt_eqb. rewrite bool_decide_eq_false_2 by congruence. cbn. lia.
    + intros _. cbn. rewrite elem_of_app. repeat split; try done. right. by apply list_elem_of_singleton.
Qed.

Lemma depletedAgainstAllocation_inv a s text s' :
  depletedAgainstAllocation a s = (Ok text, s') -> text = fromUnits (depleted_total a s) /\ s' = s.
Proof.
  unfold depletedAgainstAllocation. intros H. inv_stock.
  by match goal with H : numeric_20_6 _ = _ |- _ => apply numeric_20_6_inv in H as [-> _] end.
Qed.

Lemma deplete_one_inv i remaining a q s d rest s' :
  amount remaining q -> 0 < q -> deplete_one i remaining a s = (Ok (d, rest), s') ->
  let o := rv_quantity a - depleted_total (rv_id a) s in
  (o <= 0 /\ d = None /\ rest = remaining /\ s' = s) \/
  (0 < o /\ exists t, d = Some t /\ depleted s' t (rv_id a, Z.min o q) /\ amount rest (q - Z.min o q) /\
     same_sales (rv_id a) s s').
Proof.
  intros Hq Hpos H o. unfold deplete_one in H. run_bind H ad s1 Had. apply depletedAgainstAllocation_inv in Had as [-> ->].
  run_bind H ou s1 Hou. apply st_lift_inv in Hou as [Hou ->].
  pose proof (subtract_amounts _ _ _ _ (amount_fromUnits (rv_quantity a)) (amount_fromUnits (depleted_total (rv_id a) s)))
    as (ou' & E & Ho). rewrite E in Hou. injection Hou as ->. fold o in Ho. clear E.
  run_bind H c s1 Hc. apply st_lift_inv in Hc as [Hc ->]. rewrite (compare_zero _ _ Ho) in Hc. injection Hc as <-.
  rewrite sgn_leb in H. destruct (Z.leb_spec o 0) as [Hle|Hgt]; [left; inv_st; simplify_eq; done|right].
  run_bind H less s1 Hl. apply st_lift_inv in Hl as [Hl ->]. rewrite (compare_amounts _ _ _ _ Ho Hq) in Hl.
  injection Hl as <-. rewrite sgn_leb in H. run_bind H take s1 Ht. apply st_lift_inv in Ht as [Ht ->].
  set (x := Z.min o q). assert (take = fromUnits x) as ->.
  { destruct (Z.leb_spec (o - q) 0).
    - rewrite (toMoneyString_amount _ _ Ho) in Ht. injection Ht as <-. f_equal. unfold x. lia.
    - rewrite (toMoneyString_amount _ _ Hq) in Ht. injection Ht as <-. f_equal. unfold x. lia. }
  assert (0 < x) as Hx by (unfold x; lia).
  run_bind H r s1 Hr. apply (record_sale_inv i a _ x) in Hr as [Hsame Hrow]; [|apply amount_fromUnits|done].
  run_bind H consumed s2 Hco. apply st_lift_inv in Hco as [_ ->].
  run_bind H fin s2 Hfin. apply st_lift_inv in Hfin as [_ ->]. run_bind H now s2 Hnow. apply st_gets_inv in Hnow as [_ ->].
  run_bind H u s2 Hu. assert (sk_movements s2 = sk_movements s1) as Em.
  { destruct (0 <=? fin); [|by inv_st]. run_bind Hu n s3 Hn. apply updateAllocations_movements in Hn. by inv_st. }
  run_bind H left s3 Hleft. apply st_lift_inv in Hleft as [Hleft ->].
  pose proof (subtract_amounts _ _ _ _ Hq (amount_fromUnits x)) as (left' & E & Hl'). rewrite E in Hleft.
  injection Hleft as ->. inv_st. simplify_eq. split; [done|]. eexists. split; [done|]. split; [|split; [done|]].
  - split; [done|apply amount_fromUnits|]. cbn. intros Hcr. destruct (Hrow Hcr) as (Hin & Hk & Ha & Hi & Hqm).
    exists (re_movement r). by rewrite Em.
  - intros b Hb. rewrite (depleted_total_movements s1 s2 Em). by apply Hsame.
Qed.

Lemma deplete_loop_inv i allocations remaining q s ds rest s' :
  NoDup (rv_id <$> allocations) -> amount remaining q ->
  deplete_loop i remaining allocations s = (Ok (ds, rest), s') ->
  let g := greedy q (outstanding s <$> allocations) in
  Forall2 (depleted s') ds g.1 /\ amount rest g.2 /\ (g.1 = [] -> s' = s).
Proof.
  revert remaining q s ds rest. induction allocations as [|a allocations IH]; intros remaining q s ds rest Hn Hq H.
  { cbn in H. inv_st. simplify_eq. by split; [constructor|]. }
  cbn [deplete_loop] in H. run_bind H c s1 Hc. apply st_lift_inv in Hc as [Hc ->]. rewrite (compare_zero _ _ Hq) in Hc.
  injection Hc as <-. rewrite sgn_leb in H. cbn [fmap list_fmap greedy outstanding]. unfold outstanding at 1.
  destruct (Z.leb_spec q 0) as [Hle|Hpos]; [inv_st; simplify_eq; by split; [constructor|]|].
  run_bind H one s1 Hone. destruct one as [d left]. run_bind H more s2 Hmore. destruct more as [ds' rest']. inv_st.
  simplify_eq. apply NoDup_cons in Hn as [Ha Hn].
  apply (deplete_one_inv _ _ _ q) in Hone as [(Ho & -> & -> & ->)|(Ho & t & -> & Ht & Hl & Hsame)]; [| |done..].
  - rewrite (proj2 (Z.leb_le _ _)) by done. by eapply IH.
  - rewrite (proj2 (Z.leb_gt _ _)) by done. pose proof Hmore as Hext. apply deplete_loop_sound in Hext as [_ Hext].
    apply (IH _ _ _ _ _ Hn Hl) in Hmore.
    replace (outstanding s1 <$> allocations) with (outstanding s <$> allocations) in Hmore.
    { destruct Hmore as (H2 & Hr & _). cbv zeta. cbn [fst snd]. split; [|by split].
      constructor; [by eapply depleted_extends|done]. }
    apply list_fmap_ext. intros n b Hb. unfold outstanding. rewrite Hsame; [done|]. intros E. apply Ha. rewrite <- E.
    apply list_elem_of_fmap_2. by eapply list_elem_of_lookup_2.
Qed.

(** ** The order *)
Lemma oldest_first_perm rows : oldest_first rows ≡ₚ rows.
Proof. unfold oldest_first. by rewrite !order_by_perm. Qed.

Lemma line_allocations_NoDup line rows : NoDup (rv_id <$> rows) ->
  NoDup (rv_id <$> oldest_first (List.filter (line_reserved line) rows)).
Proof.
  intros Hn. rewrite oldest_first_perm. eapply NoDup_fmap_sublist; [apply bool_filter_sublist|done].
Qed.

Lemma depletion_acceptable i a x : 0 < x -> not_empty (df_actorUserId i) = true ->
  acceptable (depletion_input i a (fromUnits x)) (- x).
Proof.
  intros Hx Ha. pose proof (minus_amount _ _ (amount_fromUnits x) Hx) as Hm. split.
  - unfold recordMovementSchema. cbn [depletion_input rm_quantity rm_reasonCode rm_deduplicationKey rm_actorUserId].
    rewrite Ha. pose proof Hm as (p & Hp & _)%(amount_parse InventoryValidationError).
    unfold Decimal.parseScaled in Hp. by destruct (DECIMAL_STRING _).
  - done.
  - intros id now. unfold movement_checks.
    cbn [movement_values depletion_input mo_quantity mo_movementKind mo_transferGroupId mo_reversesMovementId].
    rewrite (proj2 (Z.eqb_neq (- x) 0)) by lia. cbn [INBOUND]. by rewrite (proj2 (Z.ltb_ge 0 (- x))) by lia.
Qed.

(** One allocation whose movement the ledger already holds. *)
Lemma deplete_one_again i a m item remaining q s :
  stock_ok s -> amount remaining q -> not_empty (df_actorUserId i) = true ->
  find_item (rv_inventoryItemId a) s = Some item ->
  find_row (has_key (movementKeys.depletionSale (df_orderFulfillmentId i) (df_orderLineId i) (rv_id a))) (sk_movements s)
    = Some m ->
  in_range (depleted_total (rv_id a) s) = true ->
  0 < rv_quantity a - depleted_total (rv_id a) s <= q ->
  exists d rest, deplete_one i remaining a s =
      (Ok (Some d, rest), put_allocations (update_rows (is_allocation (rv_id a)) (fulfilled_at (sk_now s)) (sk_allocations s)) s) /\
    de_quantity d = fromUnits (rv_quantity a - depleted_total (rv_id a) s) /\ de_created d = false /\
    amount rest (q - (rv_quantity a - depleted_total (rv_id a) s)).
Proof.
  intros Hs Hq Hac Hi Hk Hr Ho. set (t := depleted_total (rv_id a) s) in *. unfold deplete_one.
  erewrite st_bind_run.
  2: { unfold depletedAgainstAllocation. erewrite st_bind_run by done. fold t. unfold numeric_20_6. rewrite Hr.
       by erewrite st_bind_run by by apply lift_run. }
  destruct (subtract_amounts _ _ _ _ (amount_fromUnits (rv_quantity a)) (amount_fromUnits t)) as (ou & E & Hou).
  erewrite st_bind_run by by apply lift_run. erewrite st_bind_run by by apply lift_run, compare_zero.
  rewrite sgn_leb, (proj2 (Z.leb_gt _ _)) by lia.
  erewrite st_bind_run by by apply lift_run, compare_amounts. rewrite sgn_leb, (proj2 (Z.leb_le _ _)) by lia.
  erewrite st_bind_run by by apply lift_run, toMoneyString_amount.
  erewrite st_bind_run. 2: { by apply (recordMovement_known _ _ item m s Hs (depletion_acceptable i a _ (proj1 Ho) Hac)). }
  destruct (sum_amounts [fromUnits t; fromUnits (rv_quantity a - t)] [t; rv_quantity a - t]) as (co & Eco & Hco).
  { repeat constructor; apply amount_fromUnits. }
  erewrite st_bind_run by by apply lift_run, Eco.
  erewrite st_bind_run by by apply lift_run, compare_amounts; [exact Hco|apply amount_fromUnits].
  erewrite st_bind_run by done. rewrite sgn_geb. cbn [sumZ foldr].
  rewrite (proj2 (Z.leb_le 0 _)) by lia. erewrite st_bind_run by done.
  destruct (subtract_amounts _ _ _ _ Hq (amount_fromUnits (rv_quantity a - t))) as (re & Ere & Hre).
  erewrite st_bind_run by by apply lift_run. eexists _, _. split; [done|]. done.
Qed.

(** * Theorems *)

(** C26. A fulfillment depletes by greedy matching: the reserved allocations of its
    order line, oldest first, each gives the smaller of what it has outstanding and
    what the fulfillment still needs.  What is taken and what stays unmatched add up
    to the fulfilled quantity, no share is zero or negative, every movement it
    creates is a sale of exactly that share against that allocation, and a
    fulfillment that matches nothing says so and writes nothing. *)
Theorem depletion_is_greedy i q s r s' :
  NoDup (rv_id <$> sk_allocations s) -> amount (df_quantity i) q ->
  depleteOnFulfillment i s = (Ok r, s') ->
  let g := greedy q (outstanding s <$> oldest_first (List.filter (line_reserved (df_orderLineId i)) (sk_allocations s))) in
  0 < q /\ Forall2 (depleted s') (dr_depletions r) g.1 /\ amount (dr_unmatchedQuantity r) g.2 /\
  sumZ (snd <$> g.1) + g.2 = q /\ 0 <= g.2 /\ Forall (fun p => 0 < p.2) g.1 /\
  (dr_unmatched r = true <-> g.1 = []) /\ (g.1 = [] -> s' = s).
Proof.
  intros Hn Hq H g. unfold depleteOnFulfillment in H. run_bind H c s1 Hc. apply st_lift_inv in Hc as [Hc ->].
  rewrite (compare_zero _ _ Hq) in Hc. injection Hc as <-. run_bind H u s1 Hu. apply st_lift_inv in Hu as [Hu ->].
  rewrite sgn_leb in Hu. assert (0 < q) as Hpos by (destruct (Z.leb_spec q 0); [by destruct u|lia]).
  apply atomically_Ok in H. run_bind H allocations s1 Ha. apply st_gets_inv in Ha as [-> ->].
  run_bind H got s1 Hloop. destruct got as [ds rest].
  apply (deplete_loop_inv _ _ _ q) in Hloop as (Hds & Hr & Hnil); [|by apply line_allocations_NoDup|done].
  fold g in Hds, Hr, Hnil. cbn [fst snd] in H. run_bind H z s2 Hz. apply st_lift_inv in Hz as [Hz ->]. rewrite (compare_zero _ _ Hr) in Hz.
  injection Hz as <-. run_bind H text s2 Ht. apply st_lift_inv in Ht as [Ht ->]. inv_st. simplify_eq.
  rewrite sgn_gtb in Ht. destruct (greedy_bounds q (outstanding s <$> oldest_first
    (List.filter (line_reserved (df_orderLineId i)) (sk_allocations s)))) as [Hge Hall]; [lia|]. fold g in Hge, Hall.
  split; [done|]. split; [done|]. split.
  { cbn [dr_unmatchedQuantity]. destruct (Z.ltb_spec 0 g.2).
    - rewrite (toMoneyString_amount _ _ Hr) in Ht. injection Ht as <-. apply amount_fromUnits.
    - injection Ht as <-. replace g.2 with 0 by lia. apply amount_ZERO. }
  split; [apply greedy_sum|]. split; [done|]. split; [done|]. split; [|done].
  cbn [dr_unmatched]. apply Forall2_length in Hds. rewrite bool_decide_eq_true, Hds. apply length_zero_iff_nil.
Qed.

Definition fulfil (quantity : string) : DepleteOnFulfillmentInput :=
  {| df_orderFulfillmentId := 3; df_orderLineId := 1; df_quantity := quantity; df_occurredAt := None;
     df_shipmentId := None; df_actorUserId := None |}.
Definition held : Stock := after (CallReserve (hold_input ITEM 1 "5")) stocked.

Example depletion_is_greedy_witness :
  exists r s', depleteOnFulfillment (fulfil "7.5") held = (Ok r, s') /\
    Forall2 (depleted s') (dr_depletions r) [(16%positive, 5000000)] /\ amount (dr_unmatchedQuantity r) 2500000.
Proof.
  destruct (depleteOnFulfillment (fulfil "7.5") held) as [[r|e] s'] eqn:E; [|exfalso; vm_compute in E; discriminate E].
  exists r, s'. split; [reflexivity|].
  destruct (depletion_is_greedy (fulfil "7.5") 7500000 held r s') as (_ & Hd & Hu & _).
  - vm_compute. apply NoDup_singleton.
  - reflexivity.
  - exact E.
  - clear E. revert Hd Hu. vm_compute greedy. intros Hd Hu. split; [exact Hd|exact Hu].
Defined.

(** C37. A fulfillment that already took a part of an allocation, run again: the
    second run asks for what the allocation still has outstanding, finds the
    movement of the first run under the same deduplication key and records
    nothing, but counts the share as taken.  When that share would exhaust the
    allocation it is marked fulfilled, the result reports the share as depleted,
    and the ledger still owes it. *)
Theorem retried_partial_closes i a m item q s :
  stock_ok s -> amount (df_quantity i) q -> not_empty (df_actorUserId i) = true ->
  List.filter (line_reserved (df_orderLineId i)) (sk_allocations s) = [a] ->
  find_item (rv_inventoryItemId a) s = Some item ->
  find_row (has_key (movementKeys.depletionSale (df_orderFulfillmentId i) (df_orderLineId i) (rv_id a))) (sk_movements s)
    = Some m ->
  in_range (depleted_total (rv_id a) s) = true ->
  0 < rv_quantity a - depleted_total (rv_id a) s <= q ->
  exists r, depleteOnFulfillment i s =
      (Ok r, put_allocations (update_rows (is_allocation (rv_id a)) (fulfilled_at (sk_now s)) (sk_allocations s)) s) /\
    (de_quantity <$> dr_depletions r) = [fromUnits (rv_quantity a - depleted_total (rv_id a) s)] /\
    (de_created <$> dr_depletions r) = [false].
Proof.
  intros Hs Hq Hac Hf Hi Hk Hr Ho. unfold depleteOnFulfillment.
  erewrite st_bind_run by by apply lift_run, compare_zero.
  erewrite st_bind_run by (apply throw_if_run; rewrite sgn_leb; apply Z.leb_gt; lia).
  destruct (deplete_one_again i a m item _ q s Hs Hq Hac Hi Hk Hr Ho) as (d & rest & E & Hd & Hc & Hrest).
  unfold atomically. erewrite st_bind_run by done. rewrite Hf. cbn [oldest_first order_by foldr insert_by deplete_loop].
  erewrite st_bind_run.
  2: { erewrite st_bind_run by by apply lift_run, compare_zero. rewrite sgn_leb, (proj2 (Z.leb_gt _ _)) by lia.
       erewrite st_bind_run by exact E. by erewrite st_bind_run by done. }
  cbn [fst snd]. erewrite st_bind_run by by apply lift_run, compare_zero. rewrite sgn_gtb.
  erewrite st_bind_run.
  2: { apply lift_run with (a := fromUnits (q - (rv_quantity a - depleted_total (rv_id a) s))).
       destruct (Z.ltb_spec 0 (q - (rv_quantity a - depleted_total (rv_id a) s))); [by apply toMoneyString_amount|].
       by replace (q - (rv_quantity a - depleted_total (rv_id a) s)) with 0 by lia. }
  eexists. split; [done|]. cbn. by rewrite Hd, Hc.
Qed.

Definition part_fulfilled : Stock := after (CallDeplete (fulfil "3")) held.

Example retried_partial_closes_witness :
  exists r s', depleteOnFulfillment (fulfil "3") part_fulfilled = (Ok r, s') /\
    (de_created <$> dr_depletions r) = [false] /\ (rv_status <$> sk_allocations part_fulfilled) = [Reserved] /\
    (rv_status <$> sk_allocations s') = [Fulfilled] /\ depleted_total 16 s' = 3000000.
Proof.
  pose proof (reachable_ok _ (reach_call (CallDeplete (fulfil "3")) held (reach_call (CallReserve (hold_input ITEM 1 "5")) _
    stocked_reachable))) as Hs.
  destruct (sk_allocations part_fulfilled) as [|a l] eqn:F; [by vm_compute in F|].
  destruct (sk_items part_fulfilled) as [|item items] eqn:G; [by vm_compute in G|].
  vm_compute in F. injection F as <- <-. vm_compute in G. injection G as <- <-.
  edestruct (retried_partial_closes (fulfil "3")) as (r & E & _ & Hc);
    [exact Hs|reflexivity|reflexivity|vm_compute; reflexivity|vm_compute; reflexivity|vm_compute; reflexivity
    |vm_compute; reflexivity| |].
  2: { exists r. eexists. split; [exact E|]. split; [exact Hc|]. vm_compute. repeat split. }
  vm_compute. split; [reflexivity|discriminate].
Defined.
