(* ===== verification/CostFacts.v ===== *)
(** * What an allocation of costs writes

    [allocateCosts] neither loses nor invents a micro-unit of a lot's capitalized
    costs. *)
From S2P Require Import Prelude Decimal DecimalPackages Calendar Inputs Store Schema Ledger LedgerFacts Stock Movements.
From S2P Require Import Reservations LotCosts Items Locations StockNumbers StockFacts StockServices.

Open Scope Z_scope.
#[local] Arguments String.append : simpl nomatch.

(** ** Lists *)
Lemma filter_fmap_bool {A B} (f : A -> B) (p : B -> bool) l :
  List.filter p (f <$> l) = f <$> List.filter (fun x => p (f x)) l.
Proof. induction l as [|x l IH]; [done|]. cbn in *. rewrite IH. by destruct (p (f x)). Qed.

Lemma sumZ_filter_split {A} (f : A -> Z) (p q : A -> bool) l :
  sumZ (f <$> List.filter (fun x => p x && q x) l) + sumZ (f <$> List.filter (fun x => p x && negb (q x)) l)
  = sumZ (f <$> List.filter p l).
Proof.
  induction l as [|x l IH]; [done|]. cbn [List.filter].
  destruct (p x), (q x); cbn [andb negb]; rewrite ?fmap_cons, ?sumZ_cons; lia.
Qed.

Lemma sumZ_zip_add l k : length l = length k -> sumZ (zip_with Z.add l k) = sumZ l + sumZ k.
Proof.
  revert k. induction l as [|x l IH]; intros [|y k]; try done. cbn [zip_with length]. intros [= E].
  rewrite !sumZ_cons, IH by done. lia.
Qed.

Lemma sumZ_sub {A} (f g : A -> Z) l : sumZ ((fun x => f x - g x) <$> l) = sumZ (f <$> l) - sumZ (g <$> l).
Proof. induction l as [|x l IH]; csimpl; lia. Qed.

(** ** The costs an allocation reads *)
Definition direct_units (costs : list AcquisitionCostRow) (item : uuid) : Z :=
  sumZ (lc_amount <$> List.filter (fun c => item_scoped c && opt_eqb (lc_inventoryItemId c) item) costs).
Definition lot_units (costs : list AcquisitionCostRow) : Z :=
  sumZ (lc_amount <$> List.filter (fun c => negb (item_scoped c)) costs).

Lemma amounts_units p costs : Forall2 amount (amounts p costs) (lc_amount <$> List.filter p costs).
Proof. unfold amounts. induction (List.filter p costs); constructor; [apply amount_fromUnits|done]. Qed.

Lemma is_ancillary c : is_class Ancillary c = negb (is_class Goods c).
Proof. unfold is_class. by destruct (lc_costClass c). Qed.

Lemma class_units p costs :
  sumZ (lc_amount <$> List.filter (fun c => p c && is_class Goods c) costs) +
  sumZ (lc_amount <$> List.filter (fun c => p c && is_class Ancillary c) costs) = sumZ (lc_amount <$> List.filter p costs).
Proof.
  rewrite <- (sumZ_filter_split lc_amount p (is_class Goods)). do 3 f_equal. apply filter_ext. intros c.
  by rewrite is_ancillary.
Qed.

Lemma direct_sum costs item s : LotCosts.sumDecimals (direct_of costs item) = Ok s -> amount s (direct_units costs item).
Proof.
  intros H. unfold direct_of in H.
  pose proof (sum_inv _ _ H _ (Forall2_app (amounts_units _ costs) (amounts_units _ costs))) as Ha.
  rewrite sumZ_app in Ha. by rewrite (class_units (fun c => item_scoped c && opt_eqb (lc_inventoryItemId c) item)) in Ha.
Qed.

Lemma directs_sum costs item g a :
  LotCosts.sumDecimals (directs Goods costs item) = Ok g -> LotCosts.sumDecimals (directs Ancillary costs item) = Ok a ->
  exists x y, amount g x /\ amount a y /\ x + y = direct_units costs item.
Proof.
  intros Hg Ha. pose proof (sum_inv _ _ Hg _ (amounts_units _ costs)). pose proof (sum_inv _ _ Ha _ (amounts_units _ costs)).
  eexists _, _. split; [done|]. split; [done|].
  apply (class_units (fun c => item_scoped c && opt_eqb (lc_inventoryItemId c) item)).
Qed.

(** ** The pools *)
Definition landed (r : InventoryItemRow) : Z := ba_landedCostAmount (ir_basis r).
Definition is_locked (r : InventoryItemRow) : bool := is_some (ba_costBasisLockedAt (ir_basis r)).

Lemma locked_shares costs rows ss : res_mapM (locked_share costs) (to_allocation_item <$> rows) = Ok ss ->
  Forall2 amount ss ((fun r => landed r - direct_units costs (ir_id r)) <$> rows).
Proof.
  rewrite res_mapM_Forall2, Forall2_fmap_l, Forall2_fmap_r. intros H. apply Forall2_flip. eapply Forall2_impl; [exact H|].
  intros r s Hs. apply bind_Ok in Hs as (d & Hd & Hs). apply direct_sum in Hd.
  eapply subtract_inv; [exact Hs|apply amount_fromUnits|exact Hd].
Qed.

Lemma pools_inv basis costs locked p : pools basis costs (to_allocation_item <$> locked) = Ok p ->
  exists g a, amount (po_goodsAllocatable p) g /\ amount (po_ancillaryAllocatable p) a /\
    amount (po_allocatable p) (g + a) /\
    g + a = lot_units costs - sumZ ((fun r => landed r - direct_units costs (ir_id r)) <$> locked).
Proof.
  unfold pools. intros (goods & Hg & H)%bind_Ok. apply bind_Ok in H as (anc & Ha & H).
  pose proof (sum_inv _ _ Hg _ (amounts_units _ costs)) as Ug. pose proof (sum_inv _ _ Ha _ (amounts_units _ costs)) as Ua.
  set (x := sumZ _) in Ug. set (y := sumZ _) in Ua.
  assert (x + y = lot_units costs) as Exy by apply (class_units (fun c => negb (item_scoped c))).
  apply bind_Ok in H as (pool & Hp & H).
  apply sum_inv with (us := [x; y]) in Hp; [|by repeat constructor]. cbn [sumZ foldr] in Hp.
  replace (x + (y + 0)) with (lot_units costs) in Hp by lia.
  apply bind_Ok in H as (c & Hc & H). apply bind_Ok in H as (u1 & _ & H).
  apply bind_Ok in H as (ss & Hss & H). apply locked_shares in Hss. apply bind_Ok in H as (ls & Hls & H).
  apply sum_inv with (1 := Hls) in Hss. apply bind_Ok in H as (al & Hal & H).
  apply (subtract_inv _ _ _ _ _ Hal Hp) in Hss. clear Hal. set (z := _ - _) in Hss.
  apply bind_Ok in H as (neg & _ & H). apply bind_Ok in H as (u2 & _ & H). apply bind_Ok in H as (ga & Hga & H).
  apply bind_Ok in H as (aa & Haa & [= <-]). cbn.
  assert (exists w, amount ga w) as (w & Hw).
  { destruct (c =? 0); [injection Hga as <-; by exists 0; apply amount_ZERO|]. apply bind_Ok in Hga as (d & Hd & [= <-]).
    apply (distribute_amounts _ _ _ _ Hss) in Hd as (us & u & Hus & _ & Hl & _).
    destruct us as [|v us]; [done|]. inversion Hus; simplify_eq. eexists. cbn. done. }
  exists w, (z - w). split; [done|]. split; [by apply (subtract_inv _ _ _ _ _ Haa)|].
  replace (w + (z - w)) with z by lia. by split.
Qed.

(** ** The shares *)
Definition directs_of (costs : list AcquisitionCostRow) (rows : list InventoryItemRow) : list Z :=
  (fun r => direct_units costs (ir_id r)) <$> rows.

(** Shares of the rows, their landed amounts and what was left over. *)
Record outcome_of (costs : list AcquisitionCostRow) (rows : list InventoryItemRow) (pool : Z)
    (shares : list Share) (unallocated : string) (lv : list Z) (u : Z) : Prop := {
  oc_ids : sh_inventoryItemId <$> shares = ir_id <$> rows;
  oc_landed : Forall2 amount (sh_landedCostAmount <$> shares) lv;
  oc_goods : Forall (fun sh => exists g, amount (sh_acquisitionCostAmount sh) g) shares;
  oc_unallocated : amount unallocated u;
  oc_sum : sumZ lv + u = sumZ (directs_of costs rows) + pool;
}.

Lemma weighted_share_inv costs gs xs ys i r share :
  Forall2 amount gs.1 xs -> Forall2 amount gs.2 ys ->
  weighted_share costs gs.1 gs.2 (i, to_allocation_item r) = Ok share ->
  forall x y, xs !! i = Some x -> ys !! i = Some y ->
  sh_inventoryItemId share = ir_id r /\ amount (sh_landedCostAmount share) (direct_units costs (ir_id r) + x + y) /\
  exists g, amount (sh_acquisitionCostAmount share) g.
Proof.
  destruct gs as [gs as_]. cbn [fst snd]. intros Hg Ha H x y Hx Hy. unfold weighted_share in H. cbv zeta in H.
  cbn [fst snd ai_id to_allocation_item] in H.
  destruct (Forall2_lookup_r _ _ _ _ _ Hg Hx) as (gt & Egt & Hgt).
  destruct (Forall2_lookup_r _ _ _ _ _ Ha Hy) as (at_ & Eat & Hat). rewrite Egt, Eat in H. cbn [default] in H.
  apply bind_Ok in H as (gd & Hgd & H). apply bind_Ok in H as (ad & Had & H).
  destruct (directs_sum _ _ _ _ Hgd Had) as (v & w & Hv & Hw & Evw).
  apply bind_Ok in H as (goods & Hgoods & H). apply sum_inv with (us := [v; x]) in Hgoods; [|by repeat constructor].
  apply bind_Ok in H as (landed & Hl & H).
  apply sum_inv with (us := [sumZ [v; x]; w; y]) in Hl; [|by repeat constructor].
  apply bind_Ok in H as (d & _ & H). apply bind_Ok in H as (dm & _ & H). apply bind_Ok in H as (sh & _ & H).
  apply bind_Ok in H as (sm & _ & H). apply bind_Ok in H as (gm & Hgm & H). apply bind_Ok in H as (lm & Hlm & [= <-]).
  apply (money_inv _ _ _ Hlm) in Hl as Em. subst lm. cbn [sh_inventoryItemId sh_landedCostAmount sh_acquisitionCostAmount].
  split; [done|]. split; [|eexists; rewrite (money_inv _ _ _ Hgm Hgoods); apply amount_fromUnits].
  replace (direct_units costs (ir_id r) + x + y) with (sumZ [sumZ [v; x]; w; y]) by (cbn; lia). apply amount_fromUnits.
Qed.

Lemma weighted_outcome_inv basis costs p rows shares unallocated g a :
  amount (po_goodsAllocatable p) g -> amount (po_ancillaryAllocatable p) a ->
  weighted_outcome basis costs p (to_allocation_item <$> rows) = Ok (shares, unallocated) ->
  exists lv u, outcome_of costs rows (g + a) shares unallocated lv u.
Proof.
  intros Hg Ha H. unfold weighted_outcome in H. apply bind_Ok in H as (ws & Hws & H).
  apply res_mapM_length in Hws. rewrite length_fmap in Hws.
  apply bind_Ok in H as (gd & Hgd & H). apply bind_Ok in H as (ad & Had & H).
  destruct (distribute_amounts _ _ _ _ Hg Hgd) as (xs & ux & Hxs & Hux & Lx & Sx).
  destruct (distribute_amounts _ _ _ _ Ha Had) as (ys & uy & Hys & Huy & Ly & Sy).
  apply bind_Ok in H as (un & Hun & H). apply sum_inv with (us := [ux; uy]) in Hun; [|by repeat constructor].
  apply bind_Ok in H as (out & Hout & [= <- <-]). apply res_mapM_Forall2 in Hout.
  assert (forall i r share, rows !! i = Some r -> out !! i = Some share -> exists x y, xs !! i = Some x /\ ys !! i = Some y /\
    sh_inventoryItemId share = ir_id r /\ amount (sh_landedCostAmount share) (direct_units costs (ir_id r) + x + y) /\
    exists g, amount (sh_acquisitionCostAmount share) g) as Hat.
  { intros i r share Hr Hs. pose proof (lookup_lt_Some _ _ _ Hr).
    destruct (lookup_lt_is_Some_2 xs i) as [x Hx]; [lia|]. destruct (lookup_lt_is_Some_2 ys i) as [y Hy]; [lia|].
    exists x, y. split; [done|]. split; [done|].
    eapply Forall2_lookup_lr with (i := i) in Hout; [| |exact Hs].
    2: { rewrite list_lookup_imap, list_lookup_fmap, Hr. reflexivity. }
    by eapply (weighted_share_inv costs (Inventory.shares gd, Inventory.shares ad) xs ys). }
  pose proof (Forall2_length _ _ _ Hout) as Lo. rewrite length_imap, length_fmap in Lo.
  exists (zip_with Z.add (zip_with Z.add (directs_of costs rows) xs) ys), (ux + uy).
  assert (length (directs_of costs rows) = length rows) as Ld by apply length_fmap.
  split.
  - apply list_eq_same_length with (length rows); rewrite ?length_fmap; try lia. intros i x y Hi Hx Hy.
    apply list_lookup_fmap_Some in Hx as (sh & -> & Hsh). apply list_lookup_fmap_Some in Hy as (r & -> & Hr).
    by destruct (Hat i r sh Hr Hsh) as (? & ? & _ & _ & ? & _ & _).
  - apply Forall2_fmap_l, Forall2_same_length_lookup_2; [rewrite !length_zip_with; lia|].
    intros i sh z Hsh Hz. apply lookup_zip_with_Some in Hz as (w & y & -> & Hw & Hy).
    apply lookup_zip_with_Some in Hw as (d & x & -> & Hd & Hx).
    apply list_lookup_fmap_Some in Hd as (r & -> & Hr). destruct (Hat i r sh Hr Hsh) as (x' & y' & Hx' & Hy' & _ & Hm & _).
    by simplify_eq.
  - apply Forall_forall. intros sh [i Hsh]%list_elem_of_lookup.
    destruct (lookup_lt_is_Some_2 rows i) as [r Hr]; [pose proof (lookup_lt_Some _ _ _ Hsh); lia|].
    by destruct (Hat i r sh Hr Hsh) as (? & ? & _ & _ & _ & _ & ?).
  - cbn [sumZ foldr] in Hun. by rewrite Z.add_0_r in Hun.
  - rewrite !sumZ_zip_add by (rewrite ?length_zip_with; lia). lia.
Qed.

Lemma manual_outcome_inv costs entries allocatable locked rows shares pool :
  amount allocatable pool ->
  manual_outcome costs entries allocatable locked (to_allocation_item <$> rows) = Ok shares ->
  exists lv, outcome_of costs rows pool shares ZERO lv 0.
Proof.
  intros Hpool H. unfold manual_outcome in H. apply bind_Ok in H as (u1 & _ & H). apply bind_Ok in H as (u2 & _ & H).
  apply bind_Ok in H as (total & Ht & H). apply bind_Ok in H as (ds & Hds & H). apply bind_Ok in H as (ex & Hex & H).
  apply bind_Ok in H as (c & Hc & H). apply bind_Ok in H as (u3 & Hu3 & H). apply throw_if_Ok, negb_false_iff, Z.eqb_eq in Hu3.
  apply res_mapM_Forall2, Forall2_fmap_l in Hds. apply res_mapM_Forall2, Forall2_fmap_l in H.
  assert (exists lv, Forall2 amount ((fun i => default ZERO (supplied entries (ai_id i))) <$> (to_allocation_item <$> rows)) lv /\
    Forall2 amount (sh_landedCostAmount <$> shares) lv /\ sh_inventoryItemId <$> shares = ir_id <$> rows /\
    Forall (fun sh => exists g, amount (sh_acquisitionCostAmount sh) g) shares)
    as (lv & Hsup & Hlv & Hids & Hgv).
  { clear -H. induction H as [|r sh rows shares Hr _ (lv & H1 & H2 & H3 & H4)]; [by exists []|].
    unfold manual_share in Hr. apply bind_Ok in Hr as (l & Hl & Hr). apply bind_Ok in Hr as (d & _ & Hr).
    apply bind_Ok in Hr as (dm & _ & Hr). apply bind_Ok in Hr as (s & _ & [= <-]).
    apply money_string_inv in Hl as (x & Hx & ->). exists (x :: lv).
    split; [by constructor|]. split; [constructor; [apply amount_fromUnits|done]|].
    split; [csimpl; by rewrite H3|]. constructor; [eexists; apply amount_fromUnits|done]. }
  assert (Forall2 amount ds (directs_of costs rows)) as Hd.
  { apply Forall2_fmap_r, Forall2_flip. eapply Forall2_impl; [exact Hds|]. intros r s Hs. by apply direct_sum. }
  exists lv. split; [done|done|done|apply amount_ZERO|].
  apply sum_inv with (1 := Ht) in Hsup. apply sum_inv with (us := pool :: directs_of costs rows) in Hex; [|by constructor].
  rewrite (compare_amounts _ _ _ _ Hsup Hex), sumZ_cons in Hc. injection Hc as <-. apply Z.sgn_null_iff in Hu3. lia.
Qed.

Lemma distribute_inv basis costs entries p locked rows shares unallocated g a :
  amount (po_goodsAllocatable p) g -> amount (po_ancillaryAllocatable p) a -> amount (po_allocatable p) (g + a) ->
  distribute basis costs entries p locked (to_allocation_item <$> rows) = Ok (shares, unallocated) ->
  exists lv u, outcome_of costs rows (g + a) shares unallocated lv u.
Proof.
  intros Hg Ha Hp H. unfold distribute in H. case_bool_decide.
  - apply bind_Ok in H as (out & Hout & [= <- <-]). by apply (manual_outcome_inv _ _ _ _ _ _ _ Hp) in Hout as (lv & Ho); eauto.
  - by eapply weighted_outcome_inv.
Qed.

(** ** The writes *)
Definition entry (entries : list (uuid * (Z * Z))) (id : uuid) : option (Z * Z) :=
  snd <$> List.find (fun e => bool_decide (fst e = id)) entries.

Definition costed_by (basis : CostAllocationBasis) (now : Z) (entries : list (uuid * (Z * Z))) (r : InventoryItemRow)
    : InventoryItemRow :=
  match entry entries (ir_id r) with
  | Some (l, g) => if is_locked r then r else costed basis l g now r
  | None => r
  end.

Lemma entry_none entries id : id ∉ entries.*1 -> entry entries id = None.
Proof.
  induction entries as [|e entries IH]; [done|]. rewrite fmap_cons, not_elem_of_cons. intros [Hne Hn].
  unfold entry. cbn [List.find]. rewrite bool_decide_eq_false_2 by congruence. by apply IH.
Qed.

Lemma entry_some entries k e : NoDup entries.*1 -> entries !! k = Some e -> entry entries e.1 = Some e.2.
Proof.
  revert k. induction entries as [|f entries IH]; intros k; [done|]. rewrite fmap_cons, NoDup_cons. intros [Hf Hn].
  unfold entry. cbn [List.find]. destruct k as [|k]; cbn [lookup list_lookup].
  - intros [= ->]. by rewrite bool_decide_eq_true_2.
  - intros Hk. rewrite bool_decide_eq_false_2; [by eapply IH|]. intros E. apply Hf. rewrite E.
    by eapply list_elem_of_fmap_2, list_elem_of_lookup_2.
Qed.

Lemma costed_by_cons basis now id l g entries r : id ∉ entries.*1 ->
  costed_by basis now entries (if unlocked_item id r then costed basis l g now r else r)
  = costed_by basis now ((id, (l, g)) :: entries) r.
Proof.
  intros Hn. unfold costed_by, unlocked_item, is_item, entry. cbn [List.find fst]. case_bool_decide as Hid.
  - subst id. rewrite bool_decide_eq_true_2 by done. cbn [andb fmap option_fmap option_map snd].
    fold (entry entries). pose proof (entry_none entries (ir_id r) Hn) as E. unfold is_locked.
    destruct (is_some (ba_costBasisLockedAt (ir_basis r))) eqn:El; cbn [negb]; change (ir_id (costed _ _ _ _ r)) with (ir_id r);
      unfold entry in E; by rewrite E.
  - by rewrite bool_decide_eq_false_2 by congruence.
Qed.

Lemma write_share_inv basis share s u s' l g : amount (sh_landedCostAmount share) l ->
  amount (sh_acquisitionCostAmount share) g -> write_share basis share s = (Ok u, s') ->
  s' = put_items (update_rows (unlocked_item (sh_inventoryItemId share)) (costed basis l g (sk_now s)) (sk_items s)) s.
Proof.
  intros Hl Hg H. unfold write_share in H. inv_stock.
  match goal with H : updateItems _ _ _ = _ |- _ => apply updateItems_inv in H as -> end.
  match goal with H : numericLiteral (sh_landedCostAmount share) = _ |- _ =>
    rewrite (numericLiteral_amount _ _ Hl) in H; destruct (in_range l); [injection H as <-|discriminate H] end.
  match goal with H : numericLiteral (sh_acquisitionCostAmount share) = _ |- _ =>
    rewrite (numericLiteral_amount _ _ Hg) in H; destruct (in_range g); [injection H as <-|discriminate H] end.
  done.
Qed.

Lemma put_items_same s : put_items (sk_items s) s = s.
Proof. by destruct s. Qed.

(** What a write takes from a share. *)
Definition written_share (sh : Share) (e : uuid * (Z * Z)) : Prop :=
  e.1 = sh_inventoryItemId sh /\ amount (sh_landedCostAmount sh) e.2.1 /\ amount (sh_acquisitionCostAmount sh) e.2.2.

Lemma writes_inv basis shares s us s' lv :
  NoDup (sh_inventoryItemId <$> shares) -> Forall2 amount (sh_landedCostAmount <$> shares) lv ->
  Forall (fun sh => exists g, amount (sh_acquisitionCostAmount sh) g) shares ->
  st_mapM (write_share basis) shares s = (Ok us, s') ->
  exists entries, entries.*1 = sh_inventoryItemId <$> shares /\ (fun e => e.2.1) <$> entries = lv /\
    Forall2 written_share shares entries /\
    s' = put_items (costed_by basis (sk_now s) entries <$> sk_items s) s.
Proof.
  revert s us lv. induction shares as [|sh shares IH]; intros s us lv Hn Hlv Hgv H.
  { apply Forall2_nil_inv_l in Hlv as ->. cbn in H. inv_st. exists []. do 3 (split; [done|]).
    change (costed_by _ _ []) with (fun r : InventoryItemRow => r). by rewrite list_fmap_id, put_items_same. }
  apply Forall2_cons_inv_l in Hlv as (l & lv' & Hl & Hlv & ->). apply Forall_cons in Hgv as [[g Hg] Hgv]. rewrite fmap_cons, NoDup_cons in Hn. destruct Hn as [Hsh Hn].
  cbn [st_mapM] in H. run_bind H u s1 Hu. run_bind H us' s2 Hus. inv_st.
  apply (write_share_inv _ _ _ _ _ l g Hl Hg) in Hu as ->.
  apply (IH _ _ _ Hn Hlv Hgv) in Hus as (entries & E1 & E2 & E3 & ->).
  exists ((sh_inventoryItemId sh, (l, g)) :: entries). split; [csimpl; by rewrite E1|]. split; [csimpl; by rewrite E2|].
  split; [by constructor|].
  change (put_items ?v (put_items ?w s)) with (put_items v s). f_equal. cbn [sk_now sk_items put_items]. unfold update_rows. change (map ?f ?x) with (f <$> x).
  rewrite <- list_fmap_compose. apply list_fmap_ext. intros k r _. apply costed_by_cons. by rewrite E1.
Qed.

(** ** The order of the lot's items *)
Lemma in_lot_order_perm l : in_lot_order l ≡ₚ l.
Proof. apply sort_with_perm. Qed.

(** ** The lot after the run *)
Lemma costed_by_locked basis now entries r : is_locked r = true -> costed_by basis now entries r = r.
Proof. intros H. unfold costed_by. rewrite H. by destruct (entry _ _) as [[l g]|]. Qed.

Lemma landed_costed basis now entries rows :
  entries.*1 = ir_id <$> rows -> NoDup (ir_id <$> rows) -> (forall r, r ∈ rows -> is_locked r = false) ->
  (fun r => landed (costed_by basis now entries r)) <$> rows = (fun e => e.2.1) <$> entries.
Proof.
  intros E Hn Hu. assert (length entries = length rows) as Hl by by rewrite <- (length_fmap fst), E, length_fmap.
  apply list_eq_same_length with (length rows); rewrite ?length_fmap; [lia|lia|]. intros k x y Hk Hx Hy.
  apply list_lookup_fmap_Some in Hx as (r & -> & Hr). apply list_lookup_fmap_Some in Hy as (e & -> & He).
  assert (e.1 = ir_id r) as Hid.
  { assert (entries.*1 !! k = Some e.1) as H1 by by rewrite list_lookup_fmap, He.
    rewrite E, list_lookup_fmap, Hr in H1. by injection H1 as ->. }
  unfold costed_by. rewrite <- Hid, (entry_some entries k e) by (rewrite ?E; done). destruct e as [id [l g]]. cbn.
  by rewrite (Hu r) by by eapply list_elem_of_lookup_2.
Qed.

Lemma sumZ_split_locked (f : InventoryItemRow -> Z) l :
  sumZ (f <$> l) = sumZ (f <$> List.filter is_locked l) + sumZ (f <$> List.filter (fun r => negb (is_locked r)) l).
Proof.
  induction l as [|r l IH]; [done|]. cbn [List.filter]. destruct (is_locked r); cbn [negb];
    rewrite !fmap_cons, !sumZ_cons; lia.
Qed.

Lemma lot_items_map F s lot : (forall r, ir_acquisitionId (F r) = ir_acquisitionId r) ->
  lot_items lot (put_items (F <$> sk_items s) s) = F <$> lot_items lot s.
Proof.
  intros HF. unfold lot_items. cbn [sk_items put_items]. rewrite filter_fmap_bool. f_equal. apply filter_ext. intros r.
  by rewrite HF.
Qed.

(** A cost that reaches a basis: the lot's own, or one of an item of the lot. *)
Definition reaches (rows : list InventoryItemRow) (c : AcquisitionCostRow) : bool :=
  negb (item_scoped c) || existsb (fun r => opt_eqb (lc_inventoryItemId c) (ir_id r)) rows.

Lemma reaching_costs costs rows : NoDup (ir_id <$> rows) ->
  lot_units costs + sumZ (directs_of costs rows) = sumZ (lc_amount <$> List.filter (reaches rows) costs).
Proof.
  intros Hn. unfold reaches. induction rows as [|r rows IH].
  - cbn [directs_of fmap list_fmap sumZ foldr existsb]. rewrite Z.add_0_r. unfold lot_units. do 2 f_equal.
    apply filter_ext. intros c. by rewrite orb_false_r.
  - apply NoDup_cons in Hn as [Hr Hn]. specialize (IH Hn). unfold directs_of in *. rewrite fmap_cons, sumZ_cons.
    rewrite <- (sumZ_filter_split lc_amount _ (fun c => item_scoped c && opt_eqb (lc_inventoryItemId c) (ir_id r))).
    rewrite Z.add_assoc, (Z.add_comm (lot_units _)), <- Z.add_assoc, IH. unfold direct_units. f_equal; do 2 f_equal;
      apply filter_ext; intros c; cbn [existsb]; unfold opt_eqb.
    + destruct (item_scoped c); cbn [negb orb andb]; [|done]. by case_bool_decide; [|destruct (existsb _ _)].
    + destruct (item_scoped c); cbn [negb orb andb]; [|done]. case_bool_decide as E; cbn [orb negb andb];
        [|by destruct (existsb _ _)].
      apply not_true_iff_false. intros (q & Hq & Eq%bool_decide_eq_true)%existsb_exists. apply Hr. rewrite E in Eq.
      injection Eq as ->. by apply list_elem_of_fmap_2, list_elem_of_In.
Qed.

Lemma lot_get_run id s lot : find_lot id s = Some lot -> LotCosts.get id s = (Ok lot, s).
Proof. intros H. unfold LotCosts.get. erewrite st_bind_run by done. by rewrite H. Qed.

(** *** What may change *)

(** Every column of an item but its basis and the update stamp. *)
Definition item_apart_from_basis (r : InventoryItemRow) :=
  (ir_id r, ir_itemCode r, ir_acquisitionId r, ir_catalogItemId r, ir_originItemId r, ir_label r,
   ir_lotReference r, ir_serialNumber r, ir_quantity r, ir_currency r, ir_acquiredAt r, ir_receivedAt r,
   ir_createdByUserId r, ir_createdAt r, ir_attribution r, ir_locationId r, ir_grade r, ir_stock r,
   ir_parcel r, ir_saleMode r).

(** The item [r] after a share: the two costs, the basis of the split and the
    stamp are written, the weight, the lock and the estimate are not. *)
Record recosted (basis : CostAllocationBasis) (now : Z) (share : Share) (r r' : InventoryItemRow) : Prop := {
  rc_rest : item_apart_from_basis r' = item_apart_from_basis r;
  rc_landed : amount (sh_landedCostAmount share) (ba_landedCostAmount (ir_basis r'));
  rc_goods : amount (sh_acquisitionCostAmount share) (ba_acquisitionCostAmount (ir_basis r'));
  rc_basis : ba_costAllocationBasis (ir_basis r') = Some basis;
  rc_kept : (ba_costAllocationWeight (ir_basis r'), ba_costBasisLockedAt (ir_basis r'),
             ba_estimatedValueAmount (ir_basis r'))
          = (ba_costAllocationWeight (ir_basis r), ba_costBasisLockedAt (ir_basis r),
             ba_estimatedValueAmount (ir_basis r));
  rc_stamp : ir_updatedAt r' = now;
}.

(** Every column of an acquisition but the basis and the status of its split. *)
Definition lot_apart_from_split (l : AcquisitionRow) :=
  (lot_id l, lot_attribution l, lot_sourceKind l, lot_status l, lot_referenceCode l, lot_title l,
   lot_vendorName l, lot_vendorLocation l, lot_externalReference l, lot_connectionId l, lot_currency l,
   lot_acquiredAt l, lot_receivedAt l, lot_expectedItemCount l, lot_notes l, lot_createdByUserId l).

(** Every table but the items and the acquisitions. *)
Definition apart_from_lots (s : Stock) :=
  (sk_movements s, sk_allocations s, sk_costs s, sk_locations s, sk_orderLines s, sk_fulfillments s,
   sk_shipments s, sk_entities s, sk_connections s, sk_catalogItems s, sk_users s, sk_audit s,
   sk_random s, sk_next s, sk_now s).

(** An unlocked item of the lot. *)
Definition open_item (lot : uuid) (r : InventoryItemRow) : Prop :=
  ir_acquisitionId r = Some lot /\ is_locked r = false.

Lemma costed_by_recosted basis now entries shares r k sh :
  NoDup entries.*1 -> Forall2 written_share shares entries -> shares !! k = Some sh ->
  sh_inventoryItemId sh = ir_id r -> is_locked r = false -> recosted basis now sh r (costed_by basis now entries r).
Proof.
  intros Hn Hw Hk Hid Hl. destruct (Forall2_lookup_l _ _ _ _ _ Hw Hk) as ([id [l g]] & He & E1 & E2 & E3).
  cbn in *. unfold costed_by. rewrite <- Hid, <- E1. apply (entry_some entries k) in He as Ee; [|done]. cbn in Ee.
  by rewrite Ee, Hl.
Qed.

Lemma costed_by_other basis now entries r : ir_id r ∉ entries.*1 -> costed_by basis now entries r = r.
Proof. intros H. unfold costed_by. by rewrite entry_none. Qed.


(** The status the run gives the lot, and what it says of the remainder. *)
Lemma allocation_status_inv rows finalize un u st :
  allocation_status (to_allocation_item <$> in_lot_order rows) finalize un = Ok st -> amount un u ->
  st = match rows with [] => CostPending | _ => if finalize then CostFinal else CostProvisional end /\
  (finalize = true -> rows <> [] -> u = 0).
Proof.
  intros H Hu. destruct rows as [|r rows]; [by injection H as <-|].
  pose proof (Permutation_length (in_lot_order_perm (r :: rows))) as Hl.
  destruct (in_lot_order (r :: rows)) as [|x xs]; [done|]. cbn [fmap list_fmap allocation_status] in H.
  destruct finalize; [|by injection H as <-]. apply bind_Ok in H as (c & Hc & H).
  rewrite (compare_zero _ _ Hu) in Hc. injection Hc as <-. rewrite sgn_eqb in H.
  destruct (Z.eqb_spec u 0); [by injection H as <-|done].
Qed.

(** The landed costs of the lot once the shares of its open items are written. *)
Lemma landed_after basis now entries lot s lv :
  let rows := lot_items lot s in
  let unlocked := List.filter (fun r => negb (is_locked r)) (in_lot_order rows) in
  NoDup (ir_id <$> unlocked) -> entries.*1 = ir_id <$> unlocked -> (fun e => e.2.1) <$> entries = lv ->
  sumZ (landed <$> lot_items lot (put_items (costed_by basis now entries <$> sk_items s) s))
  = sumZ (landed <$> List.filter is_locked (in_lot_order rows)) + sumZ lv.
Proof.
  intros rows unlocked Hnu E1 E2.
  rewrite lot_items_map by (intros r; unfold costed_by; by destruct (entry _ _) as [[??]|]; [destruct (is_locked r)|]).
  fold rows. rewrite <- list_fmap_compose, <- (sumZ_perm _ _ (fmap_Permutation _ _ _ (in_lot_order_perm rows))).
  rewrite sumZ_split_locked. fold unlocked.
  change (landed ∘ ?f) with (fun r => landed (f r)). rewrite (landed_costed _ _ _ unlocked), E2; [|done|done|].
  2: { intros r [Hr _]%elem_of_bool_filter. by apply negb_true_iff in Hr. }
  do 2 f_equal. apply list_fmap_ext. intros i r [Hr _]%list_elem_of_lookup_2%elem_of_bool_filter.
  by rewrite costed_by_locked.
Qed.

Lemma directs_of_split costs rows :
  sumZ (directs_of costs rows) = sumZ (directs_of costs (List.filter is_locked (in_lot_order rows)))
    + sumZ (directs_of costs (List.filter (fun r => negb (is_locked r)) (in_lot_order rows))).
Proof.
  unfold directs_of. rewrite <- (sumZ_perm _ _ (fmap_Permutation _ _ _ (in_lot_order_perm rows))).
  apply sumZ_split_locked.
Qed.

Lemma open_item_elem lot s r : r ∈ sk_items s ->
  r ∈ List.filter (fun r => negb (is_locked r)) (in_lot_order (lot_items lot s)) <-> open_item lot r.
Proof.
  intros Hr. rewrite elem_of_bool_filter, in_lot_order_perm. unfold lot_items. rewrite elem_of_bool_filter.
  unfold open_item, opt_eqb. rewrite negb_true_iff, bool_decide_eq_true. tauto.
Qed.

(** The open items of the lot are written, each from its share, and no others. *)
Lemma items_recosted basis now entries shares lot s :
  let unlocked := List.filter (fun r => negb (is_locked r)) (in_lot_order (lot_items lot s)) in
  NoDup (ir_id <$> sk_items s) -> NoDup (ir_id <$> unlocked) -> entries.*1 = ir_id <$> unlocked ->
  sh_inventoryItemId <$> shares = ir_id <$> unlocked -> Forall2 written_share shares entries ->
  Forall2 (fun r r' =>
    (open_item lot r -> exists share, share ∈ shares /\ sh_inventoryItemId share = ir_id r /\
      recosted basis now share r r') /\
    (~ open_item lot r -> r' = r)) (sk_items s) (costed_by basis now entries <$> sk_items s).
Proof.
  intros unlocked Hn Hnu E1 Hids Hw. apply Forall2_fmap_r, Forall2_same_length_lookup_2; [done|].
  intros i r r' Hr Hr'. simplify_eq. pose proof (list_elem_of_lookup_2 _ _ _ Hr) as Hin. split; intros Ho.
  - apply (open_item_elem _ _ _ Hin), list_elem_of_lookup in Ho as [k Hk]. fold unlocked in Hk.
    assert ((sh_inventoryItemId <$> shares) !! k = Some (ir_id r)) as Hsh by by rewrite Hids, list_lookup_fmap, Hk.
    apply list_lookup_fmap_Some in Hsh as (sh & Hid & Hsh). exists sh.
    split; [by eapply list_elem_of_lookup_2|]. split; [done|].
    eapply costed_by_recosted; [by rewrite E1|exact Hw|exact Hsh|done|].
    apply list_elem_of_lookup_2, elem_of_bool_filter in Hk as [Hk _]. by apply negb_true_iff in Hk.
  - apply costed_by_other. rewrite E1. intros (q & Eq & Hq)%list_elem_of_fmap. apply Ho.
    assert (q ∈ sk_items s) as Hqi.
    { apply elem_of_bool_filter in Hq as [_ Hq]. rewrite in_lot_order_perm in Hq. by apply elem_of_bool_filter in Hq as [_ ?]. }
    assert (r = q) as -> by (by apply (NoDup_keys_inj ir_id (sk_items s))). by apply (open_item_elem _ s).
Qed.

Lemma lots_reallocated basis status lot lots :
  Forall2 (fun l l' =>
    (lot_id l = lot -> lot_apart_from_split l' = lot_apart_from_split l /\
      lot_costAllocationBasis l' = basis /\ lot_costAllocationStatus l' = status) /\
    (lot_id l <> lot -> l' = l)) lots (update_rows (is_lot lot) (lot_allocated basis status) lots).
Proof.
  unfold update_rows, is_lot. apply Forall2_fmap_r, Forall2_same_length_lookup_2; [done|].
  intros i l l' Hl Hl'. simplify_eq. unfold compose. by case_bool_decide.
Qed.

(** * Theorems *)

(** C12. Allocating a lot's costs is exact: afterwards the landed costs of the lot's items,
    locked ones included, plus what the run reports as unallocated are, to the
    micro-unit, the capitalized costs of the lot in its own currency - its own costs
    and those that name one of its items.  It writes this and nothing else: an unlocked
    item of the lot gets the landed and the goods amount of the share reported for it,
    the basis and the time of the run, and keeps every other column; locked items and
    those of other lots keep all of theirs; the acquisition gets the basis (the one
    asked for, or its own) and the status (pending without items, else final or
    provisional as asked) and keeps the rest; other acquisitions and every other table
    are as before.  A run that finalizes a lot that has items leaves nothing
    unallocated. *)
Theorem allocateCosts_exact input lot s out s' :
  stock_ok s -> find_lot (ac_acquisitionId input) s = Some lot -> allocateCosts input s = (Ok out, s') ->
  let rows := lot_items (ac_acquisitionId input) s in
  let costs := List.filter (fun c => String.eqb (lc_currency c) (lot_currency lot))
                 (List.filter lc_capitalize (lot_costs (ac_acquisitionId input) s)) in
  let basis := default (lot_costAllocationBasis lot) (ac_basis input) in
  let status := match rows with [] => CostPending | _ => if ac_finalize input then CostFinal else CostProvisional end in
  (exists u,
    amount (ao_unallocatedAmount out) u /\
    sumZ (landed <$> lot_items (ac_acquisitionId input) s') + u = sumZ (lc_amount <$> List.filter (reaches rows) costs) /\
    (ac_finalize input = true -> rows <> [] -> u = 0)) /\
  Forall2 (fun r r' =>
    (open_item (ac_acquisitionId input) r ->
      exists share, share ∈ ao_allocations out /\ sh_inventoryItemId share = ir_id r /\
        recosted basis (sk_now s) share r r') /\
    (~ open_item (ac_acquisitionId input) r -> r' = r)) (sk_items s) (sk_items s') /\
  Forall2 (fun l l' =>
    (lot_id l = ac_acquisitionId input ->
      lot_apart_from_split l' = lot_apart_from_split l /\
      lot_costAllocationBasis l' = basis /\ lot_costAllocationStatus l' = status) /\
    (lot_id l <> ac_acquisitionId input -> l' = l)) (sk_acquisitions s) (sk_acquisitions s') /\
  apart_from_lots s' = apart_from_lots s /\
  ao_basis out = basis /\ ao_costAllocationStatus out = status.
Proof.
  intros Hs Hlot H rows costs basis0 status0. unfold allocateCosts in H. apply atomically_Ok in H. unfold allocateCosts_body in H.
  run_bind H lot0 s1 Hget. rewrite (lot_get_run _ _ _ Hlot) in Hget. injection Hget as <- <-.
  run_bind H items s1 Hi. apply st_gets_inv in Hi as [-> ->]. run_bind H costs0 s1 Hc. apply st_gets_inv in Hc as [-> ->].
  cbv zeta in H. fold basis0 in H. set (basis := basis0) in H. fold costs in H. fold rows in H.
  rewrite !filter_fmap_bool in H. change (fun x => ai_locked (to_allocation_item x)) with is_locked in H.
  change (fun x => negb (ai_locked (to_allocation_item x))) with (fun r => negb (is_locked r)) in H.
  set (locked := List.filter is_locked _) in H. set (unlocked := List.filter (fun r => negb (is_locked r)) _) in H.
  run_bind H p s1 Hp. apply st_lift_inv in Hp as [Hp ->]. apply pools_inv in Hp as (g & a & Hg & Ha & Hal & Hpool).
  run_bind H oc s1 Hoc. apply st_lift_inv in Hoc as [Hoc ->]. destruct oc as [shares un].
  apply (distribute_inv _ _ _ _ _ _ _ _ g a Hg Ha Hal) in Hoc as (lv & u & [Hids Hlv Hgv Hun Hsum]). cbn [fst snd] in H.
  assert (NoDup (ir_id <$> in_lot_order rows)) as Hn.
  { rewrite in_lot_order_perm. eapply NoDup_fmap_sublist; [apply bool_filter_sublist|apply Hs]. }
  assert (NoDup (ir_id <$> unlocked)) as Hnu by (eapply NoDup_fmap_sublist; [apply bool_filter_sublist|done]).
  run_bind H ws s1 Hws. apply (writes_inv _ _ _ _ _ lv) in Hws as (entries & E1 & E2 & E3 & ->); [|by rewrite Hids|done|done].
  run_bind H st s1 Hst. apply st_lift_inv in Hst as [Hst ->]. run_bind H u0 s1 Hup. apply st_modify_inv in Hup as [_ ->].
  do 4 (let x := fresh in let t := fresh in let Hx := fresh in run_bind H x t Hx; apply st_lift_inv in Hx as [_ ->]).
  run_bind H unt s1 Hunt. apply st_lift_inv in Hunt as [Hunt ->]. inv_st.
  fold rows. apply (allocation_status_inv _ _ _ u) in Hst as [-> Hfin]; [|done].
  split; [|split; [|split; [apply lots_reallocated|done]]].
  - exists u. cbn [ao_unallocatedAmount]. split; [|split; [|done]].
    + rewrite (money_inv _ _ _ Hunt Hun). apply amount_fromUnits.
    + change (lot_items ?l (put_acquisitions _ ?t)) with (lot_items l t).
      rewrite (landed_after _ _ _ _ _ _ Hnu (eq_trans E1 Hids) eq_refl). fold rows. fold locked.
      rewrite sumZ_sub in Hpool. rewrite <- (reaching_costs costs rows) by (by rewrite <- in_lot_order_perm).
      pose proof (directs_of_split costs rows) as Ed. fold locked unlocked in Ed. unfold directs_of in *. lia.
  - apply items_recosted; [apply Hs|done|by rewrite E1|done|done].
Qed.

Example allocateCosts_exact_witness :
  exists out s' u, allocateCosts (allocate_lot true) costed_lot = (Ok out, s') /\
    amount (ao_unallocatedAmount out) u /\ sumZ (landed <$> lot_items LOT s') + u = 115010000.
Proof.
  destruct (allocateCosts (allocate_lot true) costed_lot) as [[out|e] s'] eqn:E; [|exfalso; vm_compute in E; discriminate E].
  destruct (sk_acquisitions costed_lot) as [|lot l] eqn:F; [by vm_compute in F|]. vm_compute in F. injection F as <- <-.
  pose proof (reachable_ok _ costed_lot_reachable) as Hs.
  destruct (allocateCosts_exact (allocate_lot true) _ costed_lot out s' Hs ltac:(vm_compute; reflexivity) E)
    as ((u & Hu & Hsum & _) & _).
  exists out, s', u. split; [reflexivity|]. split; [exact Hu|]. etransitivity; [exact Hsum|]. clear. vm_compute. reflexivity.
Defined.
