(* ===== verification/BasisFacts.v ===== *)
(** * Where the basis of the stock goes

    Which calls can change the total basis of the items: moves, carryover
    transfers and part-outs divide it between rows without losing a micro-unit. *)
From S2P Require Import Prelude Decimal DecimalPackages Calendar Inputs Store Schema Ledger LedgerFacts Stock Movements.
From S2P Require Import Reservations LotCosts Items Locations StockNumbers StockFacts StockServices.
From S2P Require Import MovementFacts CostFacts.

Open Scope Z_scope.
#[local] Arguments String.append : simpl nomatch.

(** ** Totals *)
Definition goods (r : InventoryItemRow) : Z := ba_acquisitionCostAmount (ir_basis r).
Definition total (f : InventoryItemRow -> Z) (s : Stock) : Z := sumZ (f <$> sk_items s).

Lemma total_update f p g s :
  total f (put_items (update_rows p g (sk_items s)) s) =
    total f s - sumZ (f <$> List.filter p (sk_items s)) + sumZ ((fun r => f (g r)) <$> List.filter p (sk_items s)).
Proof.
  unfold total. cbn [sk_items put_items]. induction (sk_items s) as [|r l IH]; [done|].
  cbn [update_rows map List.filter] in *. change (map ?h l) with (update_rows p g l). rewrite !fmap_cons, !sumZ_cons, IH.
  destruct (p r); rewrite ?fmap_cons, ?sumZ_cons; lia.
Qed.

(** The columns a basis consists of. *)
Definition costs_kept (g : InventoryItemRow -> InventoryItemRow) : Prop :=
  forall r, landed (g r) = landed r /\ goods (g r) = goods r.

Record same_basis (s s' : Stock) : Prop := {
  sb_landed : total landed s' = total landed s;
  sb_goods : total goods s' = total goods s;
}.
#[export] Instance same_basis_preorder : PreOrder same_basis.
Proof. split; [by split|]. intros ??? [] []. split; congruence. Qed.

Lemma same_items_basis s s' : sk_items s' = sk_items s -> same_basis s s'.
Proof. intros E. split; unfold total; by rewrite E. Qed.

Lemma framed_basis {A} (m : srun A) : always framed m -> always same_basis m.
Proof. apply always_weaken. intros s s' []. by apply same_items_basis. Qed.
Lemma reads_basis {A} (m : srun A) : reads m -> always same_basis m.
Proof. apply reads_always. apply _. Qed.
Lemma always_respects_basis {A} (m : srun A) : always same_basis m -> respects same_basis m.
Proof. apply always_respects. Qed.
Lemma append_audit_basis e : always same_basis (append_audit e).
Proof. intros s. by apply same_items_basis. Qed.
#[export] Hint Resolve framed_basis reads_basis append_audit_basis : store.
#[export] Hint Extern 1 (costs_kept _) => intros ?; done : store.

Lemma update_basis p g s : costs_kept g -> same_basis s (put_items (update_rows p g (sk_items s)) s).
Proof.
  intros Hg. split; rewrite total_update;
    match goal with |- _ - sumZ ?x + sumZ ?y = _ => replace y with x; [lia|] end;
    apply list_fmap_ext; intros i r _; by destruct (Hg r).
Qed.

Lemma updateItems_basis p g : costs_kept g -> always same_basis (updateItems p g).
Proof.
  intros Hg. apply restores_always; [apply _| |apply updateItems_restores].
  intros s n s' ->%updateItems_inv. by apply update_basis.
Qed.

Lemma refreshItemBalance_basis id lock : respects same_basis (refreshItemBalance id lock).
Proof. intros s b s' (_ & _ & item & status & _ & _ & _ & ->)%refreshItemBalance_inv. by apply update_basis. Qed.

Lemma recordMovement_basis i : respects same_basis (recordMovement i).
Proof.
  intros s r s' [(_ & -> & _)|(q & s1 & _ & _ & _ & Hm & Hb)]%recordMovement_inv; [done|].
  apply insertMovement_inv in Hm as ([_ ->] & _). apply refreshItemBalance_basis in Hb. etrans; [|exact Hb].
  by apply same_items_basis.
Qed.
#[export] Hint Resolve updateItems_basis refreshItemBalance_basis recordMovement_basis : store.

(** ** Rows that give and rows that take *)
Lemma codeRetry_Ok {A} (attempt : srun A) s a s' : codeRetry_in_tx attempt s = (Ok a, s') -> attempt s = (Ok a, s').
Proof.
  unfold codeRetry_in_tx, st_catch. destruct (attempt s) as [[b|e] s1]; [done|]. by destruct (isUniqueViolation _ _).
Qed.

Lemma insert_total f values s row s' : insertItem values s = (Ok row, s') -> total f s' = total f s + f row.
Proof.
  intros ([_ ->] & _)%insertItem_inv. unfold total. cbn [sk_items put_items]. rewrite fmap_app, sumZ_app. cbn. lia.
Qed.

Lemma update_one_total f id g s r n s' : stock_ok s -> find_item id s = Some r ->
  updateItems (is_item id) g s = (Ok n, s') -> total f s' = total f s - f r + f (g r).
Proof.
  intros Hs Hr ->%updateItems_inv. rewrite total_update, (item_filter s Hs id r Hr). cbn. lia.
Qed.

Lemma require_item_Ok id s r s' : require_item id s = (Ok r, s') -> find_item id s = Some r /\ s' = s.
Proof.
  unfold require_item. intros H. run_bind H t u Ht. apply st_get_inv in Ht as [-> ->].
  destruct (find_item id s) as [q|]; [|discriminate H]. by apply st_ret_inv in H as [-> ->].
Qed.

Lemma money_literal text a b : money_column text = Ok a -> numericLiteral text = Ok b -> a = b.
Proof. intros Ha. unfold numericLiteral. destruct (DECIMAL_STRING text); [|done]. rewrite Ha. by intros [= ->]. Qed.

(** A split adds the destination's basis and takes the removed one off the source. *)
Lemma splitItem_total source moved o s r s' : stock_ok s -> splitItem source moved o s = (Ok r, s') ->
  exists l g lr gr,
    money_column (so_landedCostAmount o) = Ok l /\ money_column (so_acquisitionCostAmount o) = Ok g /\
    numericLiteral (so_removeLandedCostAmount o) = Ok lr /\ numericLiteral (so_removeAcquisitionCostAmount o) = Ok gr /\
    total landed s' = total landed s + l - lr /\ total goods s' = total goods s + g - gr.
Proof.
  intros Hs H. unfold splitItem in H. run_bind H code s1 Hcode. pose proof (always_run _ _ _ _ _ itemCode_sound Hcode) as [Hs1 _].
  specialize (Hs1 Hs). assert (same_basis s s1) as Hb1.
  { eapply always_run; [|exact Hcode]. unfold itemCode. solve_respects. }
  run_bind H created s2 Hins. apply codeRetry_Ok in Hins. run_bind Hins q t Hq. apply st_lift_inv in Hq as [_ ->].
  run_bind Hins l t Hl. apply st_lift_inv in Hl as [Hl ->]. run_bind Hins g t Hg. apply st_lift_inv in Hg as [Hg ->].
  assert (stock_ok s2) as Hs2 by (refine (insertItem_ok _ _ _ _ _ Hins Hs1); by split).
  pose proof (insert_total landed _ _ _ _ Hins) as El. pose proof (insert_total goods _ _ _ _ Hins) as Eg.
  apply insertItem_inv in Hins as ([-> _] & _). change (landed (split_values _ _ _ _ _ _ _ _)) with l in El.
  change (goods (split_values _ _ _ _ _ _ _ _)) with g in Eg.
  run_bind H lr t Hlr. apply st_lift_inv in Hlr as [Hlr ->]. run_bind H gr t Hgr. apply st_lift_inv in Hgr as [Hgr ->].
  run_bind H now t Hnow. apply st_gets_inv in Hnow as [-> ->]. run_bind H current t Hcur.
  apply require_item_Ok in Hcur as [Hcur ->]. run_bind H nl t Hnl. apply st_lift_inv in Hnl as [Hnl ->].
  apply numeric_20_6_inv in Hnl as [-> _]. run_bind H ng t Hng. apply st_lift_inv in Hng as [Hng ->].
  apply numeric_20_6_inv in Hng as [-> _]. run_bind H n t Hup. inv_st.
  pose proof (update_one_total landed _ _ _ _ _ _ Hs2 Hcur Hup) as Ul.
  pose proof (update_one_total goods _ _ _ _ _ _ Hs2 Hcur Hup) as Ug. cbn in Ul, Ug. destruct Hb1.
  exists l, g, lr, gr. do 4 (split; [done|]). fold (landed current) in Ul. fold (goods current) in Ug. lia.
Qed.

Lemma split_even source moved o s r s' : stock_ok s ->
  so_removeLandedCostAmount o = so_landedCostAmount o -> so_removeAcquisitionCostAmount o = so_acquisitionCostAmount o ->
  splitItem source moved o s = (Ok r, s') -> same_basis s s'.
Proof.
  intros Hs E1 E2 (l & g & lr & gr & Hl & Hg & Hlr & Hgr & Tl & Tg)%splitItem_total; [|done]. rewrite E1 in Hlr. rewrite E2 in Hgr.
  pose proof (money_literal _ _ _ Hl Hlr). pose proof (money_literal _ _ _ Hg Hgr). split; lia.
Qed.

(** ** Moves and transfers *)
Lemma transfer_pair_basis group item from destination to moved reason note t actor :
  respects same_basis (transfer_pair group item from destination to moved reason note t actor).
Proof. unfold transfer_pair. solve_respects. Qed.
#[export] Hint Resolve transfer_pair_basis always_respects_basis : store.

Lemma moveToLocation_basis i s : stock_ok s -> same_basis s (moveToLocation i s).2.
Proof.
  intros Hs. unfold moveToLocation. apply atomically_case; [done|]. intros r s' H.
  run_bind H item s1 Hi. apply require_item_Ok in Hi as [_ ->]. run_bind H u1 s1 Hu. apply st_lift_inv in Hu as [_ ->].
  cbv zeta in H. run_bind H u2 s1 Hu. apply st_lift_inv in Hu as [_ ->]. run_bind H group s1 Hg.
  apply new_uuid_inv in Hg as [-> ->]. run_bind H now s1 Hn. apply st_gets_inv in Hn as [-> ->].
  run_bind H c s1 Hc. apply st_lift_inv in Hc as [_ ->]. set (s1 := put_next _ s) in H.
  assert (same_basis s s1) as Hb1 by by apply same_items_basis.
  assert (stock_ok s1) as Hs1 by (apply stock_ok_put_next; [lia|done]).
  run_bind H destination s2 Hd. assert (same_basis s1 s2) as Hb2.
  { destruct (c =? 0); [by apply st_ret_inv in Hd as [_ ->]|]. unfold move_split in Hd.
    run_bind Hd l t Hl. apply st_lift_inv in Hl as [_ ->]. run_bind Hd g t Hg. apply st_lift_inv in Hg as [_ ->].
    by eapply split_even in Hd. }
  etrans; [exact Hb1|]. etrans; [exact Hb2|]. revert H. set (k := _ ≫= _). enough (respects same_basis k) as Hk by eauto.
  subst k. solve_respects.
Qed.

(** A transfer at fair market value replaces the carried basis by the stated one. *)
Lemma transferEntity_total i s r s' : stock_ok s -> transferEntity i s = (Ok r, s') ->
  if bool_decide (te_basisTreatment i = Carryover) then same_basis s s'
  else exists v cl cg, amount (default ZERO (te_fairMarketValueAmount i)) v /\
    total landed s' = total landed s + v - cl /\ total goods s' = total goods s + v - cg.
Proof.
  intros Hs H. apply atomically_Ok in H. unfold transferEntity_body in H.
  run_bind H item s1 Hi. apply require_item_Ok in Hi as [_ ->].
  do 2 (run_bind H u1 s1 Hu; apply st_lift_inv in Hu as [_ ->]; clear u1). cbv zeta in H.
  run_bind H u2 s1 Hu. apply st_lift_inv in Hu as [_ ->].
  run_bind H group s1 Hg. apply new_uuid_inv in Hg as [-> ->]. run_bind H now s1 Hn. apply st_gets_inv in Hn as [-> ->].
  set (s1 := put_next _ s) in H. assert (same_basis s s1) as Hb1 by by apply same_items_basis.
  assert (stock_ok s1) as Hs1 by (apply stock_ok_put_next; [lia|done]).
  run_bind H cb t Hcb. apply st_lift_inv in Hcb as [_ ->]. run_bind H cg t Hcg. apply st_lift_inv in Hcg as [_ ->].
  run_bind H l t Hl. apply st_lift_inv in Hl as [Hl ->]. run_bind H destination s2 Hd.
  assert (same_basis s2 s') as Hb3.
  { revert H. set (k := _ ≫= _). enough (respects same_basis k) as Hk by eauto. subst k. solve_respects. }
  destruct Hb1 as [B1 B2], Hb3 as [B5 B6]. destruct (te_basisTreatment i) eqn:E.
  - rewrite bool_decide_eq_true_2 by done. injection Hl as <-. apply split_even in Hd as [B3 B4]; [|done..]. split; congruence.
  - rewrite bool_decide_eq_false_2 by done. apply money_string_inv in Hl as (v & Hv & ->).
    apply splitItem_total in Hd as (a & b & x & y & Ha & Hb & _ & _ & Tl & Tg); [|done]. cbn in Ha, Hb.
    rewrite (money_column_amount _ v) in Ha, Hb by apply amount_fromUnits. destruct (in_range v); [|done].
    injection Ha as <-. injection Hb as <-. exists v, x, y. split; [done|]. lia.
Qed.

(** ** Part-outs *)
Lemma positive_weights ps : Forall (fun p => 0 < units p) ps -> ps <> [] ->
  0 < sumZ ((fun p => units p * pow10 (Commerce.max_scale ps - scale p)) <$> ps).
Proof.
  intros Hp Hne. generalize (Commerce.max_scale ps) as n. intros n.
  assert (forall qs, Forall (fun p => 0 < units p) qs -> 0 <= sumZ ((fun p => units p * pow10 (n - scale p)) <$> qs)) as Hnn.
  { intros qs Hq. apply sumZ_nonneg, Forall_fmap. eapply Forall_impl; [exact Hq|]. intros p H.
    change (0 < units p) in H. change (0 <= units p * pow10 (n - scale p)). pose proof (pow10_pos (n - scale p)). nia. }
  destruct Hp as [|p ps Hp Hps]; [done|]. rewrite fmap_cons, sumZ_cons. specialize (Hnn ps Hps).
  pose proof (pow10_pos (n - scale p)). nia.
Qed.

(** Positive weights leave nothing unallocated. *)
Lemma distribute_positive text weights x d :
  amount text x -> weights <> [] ->
  Forall (fun w => exists p, Decimal.parseScaled InventoryValidationError w = Ok p /\ 0 < units p) weights ->
  Inventory.distributeByWeights text weights MONEY_SCALE = Ok d ->
  exists us, Forall2 amount (Inventory.shares d) us /\ length us = length weights /\ sumZ us = x.
Proof.
  intros Hx Hne Hw Hd. destruct (distribute_amounts _ _ _ _ Hx Hd) as (us & u & Hus & Hu & Hl & Hsum).
  exists us. split; [done|]. split; [done|]. enough (u = 0) by lia.
  assert (exists ps, res_mapM Inventory.parse_weight weights = Ok ps /\ Forall (fun p => 0 < units p) ps /\ ps <> [])
    as (ps & Hps & Hpos & Hpn).
  { assert (exists ps, Forall2 (fun w p => Inventory.parse_weight w = Ok p) weights ps /\ Forall (fun p => 0 < units p) ps)
      as (ps & HF & Hp).
    { clear -Hw. induction Hw as [|w ws (p & Hp & Hu) Hw (ps & HF & Hps)]; [by exists []|]. exists (p :: ps).
      split; [|by constructor]. constructor; [|done]. unfold Inventory.parse_weight, Inventory.parseScaled. rewrite Hp.
      cbn [mbind result_bind]. by rewrite (proj2 (Z.ltb_ge _ _)) by lia. }
    exists ps. split; [by apply res_mapM_Forall2|]. split; [done|]. intros ->. by apply Forall2_nil_inv_r in HF. }
  rewrite (distributeByWeights_units text weights MONEY_SCALE x ps) in Hd; [|apply toUnitsAt_parse|done].
  2: { by apply (amount_parse InventoryValidationError) in Hx. }
  cbv zeta in Hd. pose proof (positive_weights ps Hpos Hpn). set (W := sumZ _) in *.
  destruct (Z.eqb_spec W 0); [lia|]. injection Hd as <-. eapply amount_fun; [exact Hu|]. apply amount_ZERO.
Qed.

Lemma part_out_child_total value parent groupKey t ls gs lus gus e s r s' :
  Forall2 amount ls lus -> Forall2 amount gs gus -> stock_ok s ->
  part_out_child value parent groupKey t ls gs e s = (Ok r, s') ->
  stock_ok s' /\
  total landed s' = total landed s + default 0 (lus !! e.1) /\ total goods s' = total goods s + default 0 (gus !! e.1).
Proof.
  intros Hl Hg Hs H. split; [by apply (part_out_child_sound _ _ _ _ _ _ _ _ _ _ H)|].
  assert (forall texts us k z, Forall2 amount texts us -> money_column (default ZERO (texts !! k)) = Ok z ->
    z = default 0 (us !! k)) as Hcol.
  { intros texts us k z HF Hz. destruct (texts !! k) as [a|] eqn:E.
    - destruct (Forall2_lookup_l _ _ _ _ _ HF E) as (u & -> & Ha). cbn in *.
      rewrite (money_column_amount _ u Ha) in Hz. destruct (in_range u); [by injection Hz as <-|done].
    - rewrite (proj2 (lookup_ge_None us k)); [by injection Hz as <-|]. apply Forall2_length in HF. rewrite <- HF.
      by apply lookup_ge_None. }
  unfold part_out_child in H. cbv zeta in H. run_bind H code s1 Hc. assert (same_basis s s1) as [B1 B2].
  { eapply always_run; [|exact Hc]. unfold itemCode. solve_respects. }
  run_bind H created s2 Hins. apply codeRetry_Ok in Hins. run_bind Hins q u Hq. apply st_lift_inv in Hq as [_ ->].
  run_bind Hins l u Hlz. apply st_lift_inv in Hlz as [Hlz ->]. run_bind Hins g u Hgz. apply st_lift_inv in Hgz as [Hgz ->].
  apply (Hcol _ _ _ _ Hl) in Hlz. apply (Hcol _ _ _ _ Hg) in Hgz.
  pose proof (insert_total landed _ _ _ _ Hins) as El. pose proof (insert_total goods _ _ _ _ Hins) as Eg.
  apply insertItem_inv in Hins as ([-> _] & _). cbn in El, Eg.
  assert (same_basis s2 s') as [B3 B4].
  { revert H. set (k := _ ≫= _). enough (respects same_basis k) as Hk by eauto. subst k. solve_respects. }
  lia.
Qed.

(** Rows keep their costs while others are added. *)
Definition keeps_costs (s s' : Stock) : Prop :=
  forall r, r ∈ sk_items s -> exists r', r' ∈ sk_items s' /\ ir_id r' = ir_id r /\ landed r' = landed r /\ goods r' = goods r.
#[export] Instance keeps_costs_preorder : PreOrder keeps_costs.
Proof.
  split; [intros s r Hr; by exists r|]. intros s1 s2 s3 H1 H2 r (r' & Hr' & ? & ? & ?)%H1.
  destruct (H2 r' Hr') as (r'' & ? & ? & ? & ?). exists r''. split; [done|]. repeat split; congruence.
Qed.

Lemma same_items_keep s s' : sk_items s' = sk_items s -> keeps_costs s s'.
Proof. intros E r Hr. exists r. by rewrite E. Qed.
Lemma framed_keeps {A} (m : srun A) : always framed m -> always keeps_costs m.
Proof. apply always_weaken. intros s s' []. by apply same_items_keep. Qed.

Lemma recordMovement_keeps i : respects keeps_costs (recordMovement i).
Proof.
  intros s r s' [(_ & -> & _)|(q & s1 & _ & _ & _ & Hm & Hb)]%recordMovement_inv; [done|].
  apply insertMovement_inv in Hm as ([_ ->] & _).
  apply refreshItemBalance_inv in Hb as (_ & _ & item & status & _ & _ & _ & ->). intros x Hx.
  eexists. split; [by apply (list_elem_of_fmap_2 (fun r => if is_item _ r then _ else r))|]. cbv beta.
  by destruct (is_item _ x).
Qed.
Lemma insertItem_keeps values : respects keeps_costs (insertItem values).
Proof.
  intros s row s' ([_ ->] & _)%insertItem_inv r Hr. exists r. cbn. rewrite elem_of_app. by split; [left|].
Qed.
Lemma codeRetry_keeps {A} (attempt : srun A) : respects keeps_costs attempt -> respects keeps_costs (codeRetry_in_tx attempt).
Proof. intros H s a s' E%codeRetry_Ok. by eapply H. Qed.
Lemma reads_keeps {A} (m : srun A) : reads m -> respects keeps_costs m.
Proof. apply reads_respects. apply _. Qed.
Lemma framed_keeps_respects {A} (m : srun A) : always framed m -> respects keeps_costs m.
Proof. intros H. by apply always_respects, framed_keeps. Qed.

Lemma part_out_child_keeps value parent groupKey t ls gs e : respects keeps_costs (part_out_child value parent groupKey t ls gs e).
Proof.
  assert (always framed itemCode) as Hc by (unfold itemCode; solve_respects).
  pose proof (framed_keeps_respects _ Hc). pose proof recordMovement_keeps. pose proof @codeRetry_keeps.
  pose proof insertItem_keeps. unfold part_out_child. cbv zeta.
  repeat (respects_step || solve [eauto using reads_keeps with store] || (apply codeRetry_keeps)).
Qed.

Lemma children_total value parent groupKey t ls gs lus gus l s rs s' :
  Forall2 amount ls lus -> Forall2 amount gs gus -> stock_ok s ->
  st_mapM (part_out_child value parent groupKey t ls gs) l s = (Ok rs, s') ->
  stock_ok s' /\ keeps_costs s s' /\
  total landed s' = total landed s + sumZ ((fun e => default 0 (lus !! e.1)) <$> l) /\
  total goods s' = total goods s + sumZ ((fun e => default 0 (gus !! e.1)) <$> l).
Proof.
  intros Hl Hg. revert s rs. induction l as [|e l IH]; intros s rs Hs H.
  { cbn in H. inv_st. cbn. split; [done|]. split; [done|]. lia. }
  cbn [st_mapM] in H. run_bind H r s1 Hr. run_bind H rs' s2 Hrs. inv_st.
  pose proof (part_out_child_keeps _ _ _ _ _ _ _ _ _ _ Hr) as Hk.
  apply (part_out_child_total _ _ _ _ _ _ lus gus) in Hr as (Hs1 & T1 & T2); [|done..].
  apply IH in Hrs as (Hs2 & Hk2 & T3 & T4); [|done]. split; [done|]. split; [by etrans|]. rewrite !fmap_cons, !sumZ_cons. lia.
Qed.

Lemma sumZ_indexed {B} (us : list Z) (l : list B) : length us = length l ->
  sumZ ((fun e : nat * B => default 0 (us !! e.1)) <$> imap (fun i x => (i, x)) l) = sumZ us.
Proof.
  intros Hlen. f_equal. apply list_eq_same_length with (length l); rewrite ?length_fmap, ?length_imap; try done.
  intros i x y Hi Hx Hy. rewrite list_lookup_fmap, list_lookup_imap in Hx.
  destruct (l !! i); [|done]. cbn in Hx. rewrite Hy in Hx. by injection Hx as <-.
Qed.

Lemma positiveDecimal_inv text t : positiveDecimal text = Ok t ->
  t = text /\ exists p, Decimal.parseScaled InventoryValidationError text = Ok p /\ 0 < units p.
Proof.
  unfold positiveDecimal. intros (c & Hc & H)%bind_Ok. apply bind_Ok in H as (u & Hu & [= <-]). split; [done|].
  apply throw_if_Ok, Z.leb_gt in Hu. unfold Commerce.compareDecimals in Hc. apply bind_Ok in Hc as (p & Hp & Hc).
  exists p. split; [by eapply parseScaled_any|]. apply bind_Ok in Hc as (z & [= <-] & Hc). cbv zeta in Hc.
  apply bind_Ok in Hc as (l & Hl & Hc). apply rescale_Ok in Hl as [_ ->]. apply bind_Ok in Hc as (r & Hr & Hc).
  apply rescale_Ok in Hr as [_ ->]. cbn [units scale] in Hc. rewrite Z.mul_0_l in Hc.
  pose proof (pow10_pos (Nat.max (scale p) 0 - scale p)). destruct (Z.ltb_spec (units p * pow10 (Nat.max (scale p) 0 - scale p)) 0).
  { by injection Hc as <-. }
  destruct (Z.ltb_spec 0 (units p * pow10 (Nat.max (scale p) 0 - scale p))); [nia|]. by injection Hc as <-.
Qed.

Definition child_weight (child : PartOutChild) : string := default (child_quantity child) (pc_weight child).

Lemma partOutSchema_weights i value : partOutSchema i = Ok value ->
  po_children value <> [] /\
  Forall (fun w => exists p, Decimal.parseScaled InventoryValidationError w = Ok p /\ 0 < units p)
    (child_weight <$> po_children value).
Proof.
  unfold partOutSchema. intros (children & Hc & H)%bind_Ok. apply bind_Ok in H as (u & Hu & H).
  apply bind_Ok in H as (actor & _ & [= <-]). cbn [po_children]. split.
  - intros ->. apply throw_if_Ok, orb_false_iff in Hu as [Hu _]. discriminate Hu.
  - apply Forall_fmap. apply res_mapM_Forall2 in Hc. clear -Hc. induction Hc as [|c d cs ds Hcd _ IH]; [done|].
    constructor; [|done]. unfold partOutChildSchema in Hcd. apply bind_Ok in Hcd as (q & Hq & Hcd).
    apply bind_Ok in Hcd as (w & Hw & Hcd). apply bind_Ok in Hcd as (label & _ & [= <-]).
    apply positiveDecimal_inv in Hq as [-> Hq]. unfold child_weight. cbn.
    destruct (pc_weight c) as [t|]; cbn in Hw; [|by injection Hw as <-].
    apply bind_Ok in Hw as (t' & Ht & [= <-]). by apply positiveDecimal_inv in Ht as [-> Ht].
Qed.

Lemma partOut_basis i s : stock_ok s -> same_basis s (partOut i s).2.
Proof.
  intros Hs. unfold partOut. destruct (partOutSchema i) as [value|e] eqn:Hv; [|done].
  change (same_basis s (atomically (partOut_body value) s).2). apply partOutSchema_weights in Hv as [Hne Hpos].
  apply atomically_case; [done|]. intros r s' H. unfold partOut_body in H.
  run_bind H parent s1 Hp. apply require_item_Ok in Hp as [Hp ->]. destruct (item_found s _ _ Hp) as [Hin Hid].
  run_bind H u s1 Hu. apply st_lift_inv in Hu as [_ ->]. run_bind H c s1 Hc. apply st_lift_inv in Hc as [_ ->].
  run_bind H u2 s1 Hu. apply st_lift_inv in Hu as [_ ->]. run_bind H group s1 Hg. apply new_uuid_inv in Hg as [-> ->].
  run_bind H now s1 Hn. apply st_gets_inv in Hn as [-> ->]. cbv zeta in H. set (s1 := put_next _ s) in H.
  assert (stock_ok s1) as Hs1 by (apply stock_ok_put_next; [lia|done]).
  run_bind H ld s2 Hld. apply st_lift_inv in Hld as [Hld ->]. run_bind H gd s2 Hgd. apply st_lift_inv in Hgd as [Hgd ->].
  assert (child_weight <$> po_children value <> []) as Hwne by (by intros ?%fmap_nil_inv).
  destruct (distribute_positive _ _ _ _ (amount_fromUnits _) Hwne Hpos Hld) as (lus & Hlus & Ll & Sl).
  destruct (distribute_positive _ _ _ _ (amount_fromUnits _) Hwne Hpos Hgd) as (gus & Hgus & Lg & Sg).
  rewrite length_fmap in Ll, Lg. run_bind H cs s2 Hcs.
  apply (children_total _ _ _ _ _ _ lus gus) in Hcs as (Hs2 & Hk2 & T1 & T2); [|done..].
  rewrite !sumZ_indexed in T1, T2 by done. run_bind H m s3 Hm.
  pose proof (recordMovement_basis _ _ _ _ Hm) as [B1 B2]. pose proof (recordMovement_keeps _ _ _ _ Hm) as Hk3.
  assert (stock_ok s3) as Hs3 by by apply (recordMovement_sound _ _ _ _ Hm).
  run_bind H n s4 Hup. assert (exists parent', find_item (ir_id parent) s3 = Some parent' /\ landed parent' = landed parent /\
    goods parent' = goods parent) as (parent' & Hf & El & Eg).
  { destruct (Hk2 parent Hin) as (p2 & H2 & I2 & L2 & G2). destruct (Hk3 p2 H2) as (p3 & H3 & I3 & L3 & G3).
    exists p3. split; [|split; congruence]. destruct (find_item (ir_id parent) s3) as [q|] eqn:Ef.
    - apply find_row_some in Ef as [Hq Hqi%bool_decide_eq_true]. f_equal.
      apply (NoDup_keys_inj ir_id (sk_items s3)); [apply Hs3|done|done|congruence].
    - apply find_row_none with (r := p3) in Ef; [|done]. apply bool_decide_eq_false in Ef. congruence. }
  pose proof (update_one_total landed _ _ _ _ _ _ Hs3 Hf Hup) as U1.
  pose proof (update_one_total goods _ _ _ _ _ _ Hs3 Hf Hup) as U2. cbn in U1, U2.
  run_bind H row s5 Hr. apply require_item_Ok in Hr as [_ ->]. inv_st.
  fold (landed parent) in Sl. fold (goods parent) in Sg.
  change (total landed s1) with (total landed s) in T1. change (total goods s1) with (total goods s) in T2.
  split; lia.
Qed.

Lemma transferEntity_basis i s : stock_ok s -> bool_decide (te_basisTreatment i = FairMarketValue) = false ->
  same_basis s (transferEntity i s).2.
Proof.
  intros Hs Hc. destruct (transferEntity i s) as [[r|e] s'] eqn:E; cbn [snd].
  - apply transferEntity_total in E; [|done]. apply bool_decide_eq_false in Hc. by destruct (te_basisTreatment i).
  - by apply atomically_Throw in E as ->.
Qed.

(** ** What a later partial transfer leaves behind *)
Lemma proRata_units a moved quantity B h Q :
  amount a B -> amount moved h -> amount quantity Q -> 0 < h < Q ->
  exists s, proRata a moved quantity = Ok s /\ amount s (round_away (B * h) Q).
Proof.
  intros Ha Hm Hq Hh. unfold proRata. rewrite (compare_zero _ _ Hq). cbn [mbind result_bind].
  rewrite sgn_eqb, (proj2 (Z.eqb_neq Q 0)) by lia. rewrite (compare_amounts _ _ _ _ Hm Hq). cbn [mbind result_bind].
  rewrite sgn_geb, (proj2 (Z.leb_gt _ _)) by lia.
  destruct (subtract_amounts _ _ _ _ Hq Hm) as (rest & E & Hr). rewrite E. cbn [mbind result_bind].
  destruct (proRataShare_is_distribution a moved rest quantity B h (Q - h)) as (s & s' & Hd & Hs); try done; try lia.
  { by replace (h + (Q - h)) with Q by lia. }
  rewrite Hd. cbn. exists s. split; [done|]. rewrite (proRataShare_units _ _ _ B h Q Ha Hm Hq) in Hs.
  injection Hs as <-. unfold share_units. rewrite Z.geb_leb. destruct (Z.leb_spec Q 0); [lia|].
  destruct (Z.leb_spec h 0); [lia|]. destruct (Z.leb_spec Q h); [lia|]. apply amount_fromUnits.
Qed.

Lemma splitItem_source source moved o s c s' item x :
  stock_ok s -> find_item (ir_id source) s = Some item -> amount (so_removeLandedCostAmount o) x ->
  splitItem source moved o s = (Ok c, s') ->
  stock_ok s' /\ sk_movements s' = sk_movements s /\ ir_id c <> ir_id source /\
  exists item', find_item (ir_id source) s' = Some item' /\ landed item' = landed item - x.
Proof.
  intros Hs Hf Hx H. split; [by apply (splitItem_sound _ _ _ _ _ _ H)|]. unfold splitItem in H.
  run_bind H code s1 Hcode. pose proof (always_run _ _ _ _ _ itemCode_sound Hcode) as [Hs1 _]. specialize (Hs1 Hs).
  assert (framed s s1) as Hfr by (eapply always_run; [|exact Hcode]; unfold itemCode; solve_respects).
  run_bind H created s2 Hins. apply codeRetry_Ok in Hins. run_bind Hins q t Hq. apply st_lift_inv in Hq as [_ ->].
  run_bind Hins l t Hl. apply st_lift_inv in Hl as [Hl ->]. run_bind Hins g t Hg. apply st_lift_inv in Hg as [Hg ->].
  assert (stock_ok s2) as Hs2 by (refine (insertItem_ok _ _ _ _ _ Hins Hs1); by split).
  pose proof Hins as ([-> ->] & _ & Hnew & _)%insertItem_inv.
  run_bind H lr t Hlr. apply st_lift_inv in Hlr as [Hlr ->]. rewrite (numericLiteral_amount _ x Hx) in Hlr.
  destruct (in_range x); [injection Hlr as <-|discriminate Hlr].
  run_bind H gr t Hgr. apply st_lift_inv in Hgr as [_ ->].
  run_bind H now t Hnow. apply st_gets_inv in Hnow as [-> ->]. run_bind H current t Hcur.
  apply require_item_Ok in Hcur as [Hcur ->]. run_bind H nl t Hnl. apply st_lift_inv in Hnl as [Hnl ->].
  apply numeric_20_6_inv in Hnl as [-> _]. run_bind H ng t Hng. apply st_lift_inv in Hng as [_ ->].
  run_bind H n t Hup. apply updateItems_inv in Hup as ->. inv_st. destruct Hfr as [Fi Fm _ _].
  assert (current = item) as ->.
  { symmetry. apply (item_only _ Hs2 _ _ Hcur); [|by apply find_row_some in Hf as [_ ?]].
    cbn. rewrite Fi, elem_of_app. left. by apply find_row_some in Hf as [? _]. }
  split; [by rewrite <- Fm|]. split.
  - cbn. intros E. apply Hnew. rewrite Fi. cbn in E. rewrite E. apply find_row_some in Hf as [Hin Hid%bool_decide_eq_true].
    rewrite <- Hid. by apply list_elem_of_fmap_2.
  - eexists. split; [by rewrite (find_item_update (ir_id source)), Hcur|]. done.
Qed.

(** What a movement does to the balances, by its key. *)
Lemma recordMovement_totals i x s r s' : recordMovement i s = (Ok r, s') -> amount (rm_quantity i) x ->
  (forall b, b <> rm_inventoryItemId i -> ledger_total b s' = ledger_total b s) /\
  (find_row (has_key (rm_deduplicationKey i)) (sk_movements s) = None ->
     ledger_total (rm_inventoryItemId i) s' = ledger_total (rm_inventoryItemId i) s + x).
Proof.
  intros [(_ & -> & Hk)|(q & s1 & _ & _ & Hq & Hm & Hb)]%recordMovement_inv Hx.
  { split; [done|]. by rewrite Hk. }
  rewrite (money_column_amount _ x Hx) in Hq. destruct (in_range x); [injection Hq as <-|discriminate Hq].
  apply insertMovement_inv in Hm as ([Er ->] & _). apply refreshItemBalance_inv in Hb as (_ & _ & item & status & _ & _ & _ & ->).
  set (t := put_items _ _).
  assert (forall b, ledger_total b t = ledger_total b s + if bool_decide (rm_inventoryItemId i = b) then x else 0) as Et.
  { intros b. rewrite (ledger_total_snoc b (re_movement r) s t eq_refl), Er. done. }
  split; [intros b Hb|intros _]; rewrite Et.
  - rewrite bool_decide_eq_false_2 by congruence. lia.
  - by rewrite bool_decide_eq_true_2.
Qed.

Lemma transfer_pair_totals group item from destination to moved reason note t actor h s p s' :
  destination <> item -> amount moved h -> 0 < h ->
  find_row (has_key (movementKeys.transfer group "out")) (sk_movements s) = None ->
  transfer_pair group item from destination to moved reason note t actor s = (Ok p, s') ->
  ledger_total item s' = ledger_total item s - h /\ keeps_costs s s'.
Proof.
  intros Hne Hm Hh Hk H. split.
  - unfold transfer_pair in H. run_bind H out s1 Hout. run_bind H into s2 Hinto. inv_st.
    apply (recordMovement_totals _ (- h)) in Hout as [_ Ho]; [|by apply minus_amount].
    apply (recordMovement_totals _ h) in Hinto as [Hi _]; [|done].
    specialize (Ho Hk). specialize (Hi item). cbn [plain_movement rm_inventoryItemId] in Hi, Ho.
    rewrite Hi by done. lia.
  - assert (respects keeps_costs (transfer_pair group item from destination to moved reason note t actor)) as Hc
      by (pose proof recordMovement_keeps; unfold transfer_pair; solve_respects).
    by eapply Hc.
Qed.

(** ** Every other call *)
Ltac by_basis := repeat (respects_step || (apply always_atomically; [exact _|]) || solve [eauto with store]).

Lemma deplete_loop_basis i remaining l : respects same_basis (deplete_loop i remaining l).
Proof. revert remaining. induction l as [|a l IH]; intros remaining; cbn; unfold deplete_one; solve_respects. Qed.
#[export] Hint Resolve deplete_loop_basis : store.

(** The calls that state a basis: a new item, an allocation of costs, a correction,
    a transfer at fair market value. *)
Definition states_basis (c : call) : bool :=
  match c with
  | CallCreateItem _ | CallAllocateCosts _ | CallCorrectBasis _ => true
  | CallTransfer i => bool_decide (te_basisTreatment i = FairMarketValue)
  | _ => false
  end.

(** * Theorems *)

(** C22. Only the calls that state a basis change the total basis of the stock: new
    items, cost allocations, corrections, and transfers at fair market value.  Every
    other call, returning or throwing, leaves both totals - landed and goods - to the
    micro-unit: moves and carryover transfers split an item's basis between two rows,
    a part-out divides all of it over the children, and no movement touches it. *)
Theorem basis_conserved c s : stock_ok s -> states_basis c = false -> same_basis s (after c s).
Proof.
  intros Hs. destruct c; cbn [states_basis after]; intros Hc; try done;
    try solve [by apply moveToLocation_basis | by apply partOut_basis | by apply transferEntity_basis].
  all: try match goal with |- same_basis ?s (snd (?m ?s)) => enough (always same_basis m) as H by apply H end.
  all: try (unfold record, reverse, reconcileQuantityOnHand, reserve, reserve_new, release, depleteOnFulfillment,
    expireStaleHolds, LotCosts.create, addCost, setCondition, Items.update, setSaleMode, reattribute, completeIntakeReview,
    markListed, Locations.create, setParent, reconcilePaths, repair; by_basis).
  apply retry_always; [apply _|]. intros n. unfold create_attempt, nextSequence. by_basis.
Qed.

Definition part_out_input : PartOutInput :=
  {| po_inventoryItemId := ITEM;
     po_children := [{| pc_label := "Barrel"; pc_quantity := None; pc_conditionCode := None; pc_locationId := None;
                        pc_saleMode := None; pc_weight := Some "2"%string |};
                     {| pc_label := "Glass"; pc_quantity := Some "3"%string; pc_conditionCode := None;
                        pc_locationId := None; pc_saleMode := None; pc_weight := None |}];
     po_occurredAt := None; po_note := None; po_actorUserId := None |}.

Example basis_conserved_witness :
  same_basis stocked (after (CallPartOut part_out_input) stocked) /\
  (landed <$> sk_items (after (CallPartOut part_out_input) stocked)) = [0; 40000000; 60000000].
Proof.
  split; [|vm_compute; reflexivity].
  exact (basis_conserved (CallPartOut part_out_input) stocked (reachable_ok _ stocked_reachable) eq_refl).
Defined.

(** C38. Emptying an item in a second transfer strands basis.  The carried share is
    taken of what the basis still is but by the quantity the row started with, so
    when an item from which part has already gone transfers everything it has left
    (carryover, default quantity), the source gives up only that fraction of the
    remaining basis and, with nothing on hand, keeps the rest. *)
Theorem last_transfer_strands_basis i item s r s' :
  stock_ok s -> find_item (te_inventoryItemId i) s = Some item ->
  te_basisTreatment i = Carryover -> te_quantity i = None ->
  find_row (has_key (movementKeys.transfer (sk_next s) "out")) (sk_movements s) = None ->
  let h := st_quantityOnHand (ir_stock item) in
  let Q := ir_quantity item in
  0 < h < Q -> Q < 2 * landed item * (Q - h) ->
  transferEntity i s = (Ok r, s') ->
  st_quantityOnHand (ir_stock (tr_sourceItem r)) = 0 /\
  landed (tr_sourceItem r) = landed item - round_away (landed item * h) Q /\ 0 < landed (tr_sourceItem r).
Proof.
  intros Hs Hf Ht Hq Hkey h Q Hh HB H. apply atomically_Ok in H. unfold transferEntity_body in H.
  destruct (item_found s _ _ Hf) as [Hin Hid].
  run_bind H item0 s1 Hi. apply require_item_Ok in Hi as [Hi ->]. rewrite Hf in Hi. injection Hi as <-.
  do 2 (run_bind H u1 s1 Hu; apply st_lift_inv in Hu as [_ ->]; clear u1). rewrite Hq in H. cbv zeta in H. cbn [default] in H.
  run_bind H u2 s1 Hu. apply st_lift_inv in Hu as [_ ->].
  run_bind H group s1 Hg. apply new_uuid_inv in Hg as [-> ->]. run_bind H now s1 Hn. apply st_gets_inv in Hn as [-> ->].
  set (s1 := put_next _ s) in H. assert (stock_ok s1) as Hs1 by (apply stock_ok_put_next; [lia|done]).
  run_bind H cb t Hcb. apply st_lift_inv in Hcb as [Hcb ->].
  destruct (proRata_units _ _ _ (landed item) h Q (amount_fromUnits _) (amount_fromUnits _) (amount_fromUnits _) Hh)
    as (text & Etext & Hx). unfold proRataBasis, on_hand in Hcb. fold (landed item) h Q in Hcb. rewrite Etext in Hcb.
  injection Hcb as <-. set (x := round_away _ _) in *.
  run_bind H cg t Hcg. apply st_lift_inv in Hcg as [_ ->]. run_bind H l t Hl. apply st_lift_inv in Hl as [_ ->].
  run_bind H destination s2 Hd. rewrite <- Hid in Hf.
  apply (splitItem_source _ _ _ _ _ _ item x) in Hd as (Hs2 & Em & Hne & item2 & Hf2 & El2); [|done|exact Hf|exact Hx].
  run_bind H pair s3 Hp. destruct (item_found s2 _ _ Hf2) as [Hin2 Hid2].
  pose proof (transfer_pair_sound _ _ _ _ _ _ _ _ _ _ _ _ _ Hp) as [Hs3 _]. specialize (Hs3 Hs2).
  apply (transfer_pair_totals _ _ _ _ _ _ _ _ _ _ h) in Hp as [Et Hk];
    [|done|apply amount_fromUnits|lia|by rewrite Em].
  destruct (Hk item2 Hin2) as (item3 & Hin3 & Hid3 & El3 & _).
  run_bind H a t Ha. apply require_item_Ok in Ha as [Ha ->]. run_bind H b t Hb. inv_st. cbn [tr_sourceItem].
  assert (a = item3) as -> by (symmetry; apply (item_only _ Hs3 _ _ Ha); [done|apply bool_decide_eq_true; congruence]).
  rewrite (item_balance _ Hs3 _ _ Ha), Et, El3, El2.
  assert (ledger_total (ir_id item) s2 = h) as ->.
  { unfold ledger_total, item_movements. rewrite Em. symmetry. exact (item_balance s Hs _ _ Hf). }
  pose proof (round_away_bound (landed item * h) Q ltac:(lia)) as Hb'. fold x in Hb'. split; [lia|]. split; [done|]. nia.
Qed.

Definition transfer_input (quantity : option string) : TransferEntityInput :=
  {| te_inventoryItemId := ITEM; te_toEconomicEntityId := 6; te_basisTreatment := Carryover;
     te_fairMarketValueAmount := None; te_quantity := quantity; te_toLocationId := None; te_occurredAt := None;
     te_note := None; te_actorUserId := None |}.
Definition part_transferred : Stock := after (CallTransfer (transfer_input (Some "4"%string))) stocked.

Example last_transfer_strands_basis_witness :
  exists r s', transferEntity (transfer_input None) part_transferred = (Ok r, s') /\
    st_quantityOnHand (ir_stock (tr_sourceItem r)) = 0 /\ landed (tr_sourceItem r) = 24000000 /\
    landed (tr_destinationItem r) = 36000000.
Proof.
  destruct (transferEntity (transfer_input None) part_transferred) as [[r|e] s'] eqn:E;
    [|exfalso; vm_compute in E; discriminate E].
  destruct (find_item ITEM part_transferred) as [item|] eqn:G; [|by vm_compute in G].
  pose proof G as G'. vm_compute in G'. injection G' as G'. subst item.
  assert (stock_ok part_transferred) as Hs by (unfold part_transferred; apply reachable_ok, reach_call, stocked_reachable).
  destruct (last_transfer_strands_basis (transfer_input None) _ part_transferred r s' Hs G eq_refl eq_refl
    ltac:(vm_compute; reflexivity) ltac:(vm_compute; split; reflexivity) ltac:(vm_compute; reflexivity) E)
    as (H1 & H2 & _).
  exists r, s'. split; [reflexivity|]. split; [exact H1|]. split; [rewrite H2; vm_compute; reflexivity|].
  vm_compute in E. injection E as <- _. reflexivity.
Defined.
