(* ===== verification/LocationFacts.v ===== *)
(** * The location tree

    Every cached path and depth is that of its place in the tree, while no code
    holds a character [like] reads as a wildcard; and what a move does when one
    does. *)
From S2P Require Import Prelude Decimal DecimalPackages Calendar Inputs Store Schema Ledger LedgerFacts Stock Movements.
From S2P Require Import LotCosts Items Locations StockNumbers StockFacts StockServices.

Open Scope Z_scope.
#[local] Arguments String.append : simpl nomatch.

(** ** Texts *)
Fixpoint all_of (p : ascii -> bool) (s : string) : bool :=
  match s with EmptyString => true | String c s => p c && all_of p s end.

Lemma all_of_append p a b : all_of p (String.append a b) = all_of p a && all_of p b.
Proof. induction a as [|c a IH]; [done|]. cbn [String.append all_of]. by rewrite IH, andb_assoc. Qed.

Definition literal (c : ascii) : bool := negb ((c =? "%")%char || (c =? "_")%char || (c =? "\")%char).
Definition no_slash (c : ascii) : bool := negb (c =? "/")%char.

Lemma like_any text : like "%" text = true.
Proof. induction text as [|c text IH]; [done|]. cbn in *. exact IH. Qed.

(** A pattern of literals and a closing [%] is a prefix. *)
Lemma like_prefix w text : all_of literal w = true ->
  like (String.append w "%") text = true <-> exists u, text = String.append w u.
Proof.
  revert text. induction w as [|c w IH]; intros text Hw.
  - cbn [String.append]. rewrite like_any. split; [by exists text|done].
  - cbn [all_of] in Hw. apply andb_true_iff in Hw as [Hc Hw]. unfold literal in Hc.
    apply negb_true_iff, orb_false_iff in Hc as [[Hc1 Hc2]%orb_false_iff Hc3]. cbn [String.append like].
    rewrite Hc1. destruct text as [|d text]; [split; [done|by intros (u & ?)]|]. rewrite Hc2, Hc3.
    destruct (Ascii.eqb_spec c d) as [->|Hne]; cbn [andb].
    + rewrite (IH text Hw). split; intros (u & E); exists u; [by rewrite E|by injection E].
    + split; [done|]. intros (u & E). by injection E.
Qed.

Lemma append_inj_l a b c : String.append a b = String.append a c -> b = c.
Proof. induction a as [|x a IH]; [done|]. cbn [String.append]. intros [= H]. by apply IH. Qed.

(** The last segment of a path. *)
Lemma last_slash a c p u : all_of no_slash c = true ->
  String.append a (String "/" c) = String.append p (String "/" u) ->
  (a = p /\ c = u) \/ exists v, a = String.append p (String "/" v).
Proof.
  intros Hc. revert p. induction a as [|x a IH]; intros [|y p]; cbn [String.append].
  - intros [= ->]. by left.
  - intros [= <- E]. exfalso. subst c. rewrite all_of_append in Hc. cbn in Hc. by rewrite andb_false_r in Hc.
  - intros [= -> E]. right. by exists a.
  - intros [= <- E]. apply IH in E as [[-> ->]|[v ->]]; [by left|right; by exists v].
Qed.

Lemma slash_free a c : all_of no_slash (String.append a (String "/" c)) = false.
Proof. rewrite all_of_append. cbn. by rewrite andb_false_r. Qed.

Lemma append_not_self p v : p <> String.append p (String "/" v).
Proof. intros E. apply (f_equal String.length) in E. rewrite length_append in E. cbn in E. lia. Qed.

Lemma child_path_eq path code : child_path path code = String.append path (String "/" code).
Proof. unfold child_path, text_of. cbn [foldr]. by rewrite append_nil_r. Qed.

(** ** Places in the tree *)
Definition plain_code (code : string) : bool :=
  negb (String.eqb code "") && all_of literal code && all_of no_slash code.

(** The row's path and depth are those of its parent, and its code. *)
Definition placed (rows : list InventoryLocationRow) (r : InventoryLocationRow) : Prop :=
  match loc_parentLocationId r with
  | None => loc_path r = loc_code r /\ loc_depth r = 0
  | Some id => exists q, q ∈ rows /\ loc_id q = id /\ loc_path r = child_path (loc_path q) (loc_code r) /\
      loc_depth r = loc_depth q + 1
  end.

Record tree_ok (s : Stock) : Prop := {
  to_ids : NoDup (loc_id <$> sk_locations s);
  to_next : forall r, r ∈ sk_locations s -> (loc_id r < sk_next s)%positive;
  to_codes : NoDup (loc_code <$> sk_locations s);
  to_plain : forall r, r ∈ sk_locations s -> plain_code (loc_code r) = true /\ all_of literal (loc_path r) = true;
  to_checks : forall r, r ∈ sk_locations s -> location_checks r = true;
  to_placed : forall r, r ∈ sk_locations s -> placed (sk_locations s) r;
}.

Section tree.
Context (s : Stock) (Hs : tree_ok s).
#[local] Abbreviation rows := (sk_locations s).

Lemma code_plain r : r ∈ rows -> loc_code r <> ""%string /\ all_of no_slash (loc_code r) = true.
Proof using Hs.
  intros [Hp _]%(to_plain s Hs). unfold plain_code in Hp. apply andb_true_iff in Hp as [[H1 _]%andb_true_iff H2].
  by apply negb_true_iff, String.eqb_neq in H1.
Qed.

Lemma same_location r q : r ∈ rows -> q ∈ rows -> loc_code r = loc_code q -> r = q.
Proof using Hs. intros. by apply (NoDup_keys_inj loc_code rows); [apply Hs|..]. Qed.
Lemma location_by_id r q : r ∈ rows -> q ∈ rows -> loc_id r = loc_id q -> r = q.
Proof using Hs. intros. by apply (NoDup_keys_inj loc_id rows); [apply Hs|..]. Qed.

(** A path ends in the row's code. *)
Lemma path_shape r : r ∈ rows ->
  (loc_parentLocationId r = None /\ loc_path r = loc_code r /\ loc_depth r = 0) \/
  exists q, q ∈ rows /\ loc_parentLocationId r = Some (loc_id q) /\
    loc_path r = String.append (loc_path q) (String "/" (loc_code r)) /\ loc_depth r = loc_depth q + 1.
Proof using Hs.
  intros Hr. pose proof (to_placed s Hs r Hr) as Hp. unfold placed in Hp.
  destruct (loc_parentLocationId r) as [id|]; [|left; by destruct Hp].
  destruct Hp as (q & Hq & <- & Hpath & Hd). right. exists q. by rewrite <- child_path_eq.
Qed.

Lemma path_inj r q : r ∈ rows -> q ∈ rows -> loc_path r = loc_path q -> r = q.
Proof using Hs.
  intros Hr Hq E. apply same_location; [done..|]. destruct (code_plain r Hr) as [_ Cr], (code_plain q Hq) as [_ Cq].
  destruct (path_shape r Hr) as [(_ & Er & _)|(a & _ & _ & Er & _)],
    (path_shape q Hq) as [(_ & Eq & _)|(b & _ & _ & Eq & _)]; rewrite Er, Eq in E.
  - done.
  - by rewrite E, slash_free in Cr.
  - by rewrite <- E, slash_free in Cq.
  - destruct (last_slash _ _ _ _ Cr E) as [[_ ?]|[v Ev]]; [done|].
    rewrite Ev, <- append_assoc' in E. apply append_inj_l in E. cbn [String.append] in E. injection E as E.
    by rewrite <- E, slash_free in Cq.
Qed.

Lemma path_nonempty r : r ∈ rows -> loc_path r <> ""%string.
Proof using Hs.
  intros Hr E. destruct (path_shape r Hr) as [(_ & Er & _)|(q & _ & _ & Er & _)]; rewrite E in Er.
  - by destruct (code_plain r Hr).
  - by destruct (loc_path q).
Qed.

(** *** Below a row *)
Definition under (top r : InventoryLocationRow) : Prop := exists u, loc_path r = String.append (loc_path top) (String "/" u).

Lemma below_under top r : top ∈ rows -> below (loc_path top) r = true <-> under top r.
Proof using Hs.
  intros Ht. unfold below, under.
  replace (text_of [loc_path top; "/"%string; "%"%string]) with (String.append (String.append (loc_path top) "/") "%").
  - rewrite like_prefix.
    + split; intros (u & E); exists u; rewrite E; by rewrite <- append_assoc'.
    + rewrite all_of_append. by rewrite (proj2 (to_plain s Hs top Ht)).
  - by rewrite <- append_assoc'.
Qed.

Lemma under_parent top r : top ∈ rows -> r ∈ rows -> under top r ->
  exists q, q ∈ rows /\ loc_parentLocationId r = Some (loc_id q) /\ loc_depth r = loc_depth q + 1 /\ (q = top \/ under top q).
Proof using Hs.
  intros Ht Hr (u & E). destruct (code_plain r Hr) as [_ Cr].
  destruct (path_shape r Hr) as [(_ & Er & _)|(q & Hq & Hpar & Er & Hd)].
  - by rewrite <- Er, E, slash_free in Cr.
  - exists q. split; [done|]. split; [done|]. split; [done|]. rewrite Er in E.
    destruct (last_slash _ _ _ _ Cr E) as [[Ep _]|[v Ev]]; [left; by apply path_inj|right; by exists v].
Qed.

Lemma child_under top r : r ∈ rows -> top ∈ rows -> loc_parentLocationId r = Some (loc_id top) -> under top r.
Proof using Hs.
  intros Hr Ht Hp. destruct (path_shape r Hr) as [(E & _)|(q & Hq & E & Er & _)]; [congruence|].
  rewrite Hp in E. injection E as E. rewrite (location_by_id q top) in Er by done. by exists (loc_code r).
Qed.

Lemma under_child top q r : r ∈ rows -> q ∈ rows -> loc_parentLocationId r = Some (loc_id q) -> under top q -> under top r.
Proof using Hs.
  intros Hr Hq Hp (u & Eu). destruct (child_under q r Hr Hq Hp) as (w & Ew). exists (String.append u (String "/" w)).
  rewrite Ew, Eu. by rewrite <- append_assoc'.
Qed.

Lemma find_location_some r : r ∈ rows -> find_location (loc_id r) s = Some r.
Proof using Hs.
  intros Hr. unfold find_location. destruct (find_row _ _) as [q|] eqn:E.
  - apply find_row_some in E as [Hq Hid%bool_decide_eq_true]. f_equal. by apply location_by_id.
  - apply find_row_none with (r := r) in E; [|done]. by apply bool_decide_eq_false in E.
Qed.

Lemma depth_bounds r : r ∈ rows -> 0 <= loc_depth r <= 6.
Proof using Hs.
  intros Hr%(to_checks s Hs). unfold location_checks in Hr. apply andb_true_iff in Hr as [[_ H1]%andb_true_iff H2].
  apply Z.leb_le in H1, H2. lia.
Qed.

(** A row is among the ancestors of every row below it. *)
Lemma under_ancestor top r n : top ∈ rows -> r ∈ rows -> under top r -> loc_depth r <= Z.of_nat n ->
  loc_id top ∈ ancestors n s (loc_id r).
Proof using Hs.
  revert r. induction n as [|n IH]; intros r Ht Hr Hu Hd;
    destruct (under_parent top r Ht Hr Hu) as (q & Hq & Hp & Hdq & Hc); pose proof (depth_bounds q Hq); [lia|].
  cbn [ancestors]. rewrite (find_location_some r Hr), Hp. right. destruct Hc as [->|Hc].
  - destruct n; cbn [ancestors]; rewrite (find_location_some top Ht); left.
  - apply IH; [done..|lia].
Qed.
End tree.

(** ** Moving a row *)
Section move.
Context (s : Stock) (Hs : tree_ok s) (top : InventoryLocationRow) (Htop : top ∈ sk_locations s).
Context (parent : option uuid) (path : string) (depth : Z).
#[local] Abbreviation rows := (sk_locations s).

(** Where the row goes: to the root, or below a row that is not below it. *)
Context (Htarget :
  (parent = None /\ path = loc_code top /\ depth = 0) \/
  exists q, q ∈ rows /\ parent = Some (loc_id q) /\ q <> top /\ ~ under top q /\
    path = child_path (loc_path q) (loc_code top) /\ depth = loc_depth q + 1).

Definition relocated (r : InventoryLocationRow) : InventoryLocationRow :=
  if bool_decide (loc_id r = loc_id top) then moved_location parent path depth r
  else if below (loc_path top) r then rebased path (String.length (loc_path top)) (depth - loc_depth top) r
  else r.

Lemma relocated_columns r : loc_id (relocated r) = loc_id r /\ loc_code (relocated r) = loc_code r.
Proof using. unfold relocated. case_bool_decide; [done|]. by destruct (below _ r). Qed.

Lemma target_literal : all_of literal path = true.
Proof using Hs Htop Htarget.
  destruct (to_plain s Hs top Htop) as [Hc _]. unfold plain_code in Hc.
  apply andb_true_iff in Hc as [[_ Hc]%andb_true_iff _].
  destruct Htarget as [(_ & -> & _)|(q & Hq & _ & _ & _ & -> & _)]; [done|].
  rewrite child_path_eq, all_of_append. cbn. by rewrite Hc, (proj2 (to_plain s Hs q Hq)).
Qed.

(** The new path is not below the old one. *)
Lemma target_not_below : like (text_of [loc_path top; "/"%string; "%"%string]) path = false.
Proof using Hs Htop Htarget.
  apply not_true_iff_false. intros H.
  assert (under top (moved_location parent path depth top)) as (u & E) by by apply (below_under s Hs). cbn in E.
  destruct (code_plain s Hs top Htop) as [_ Cc].
  destruct Htarget as [(_ & -> & _)|(q & Hq & _ & Hne & Hu & -> & _)].
  - by rewrite E, slash_free in Cc.
  - rewrite child_path_eq in E. destruct (last_slash _ _ _ _ Cc E) as [[Ep _]|Hv]; [|by apply Hu].
    by apply Hne, (path_inj s Hs).
Qed.

Lemma relocated_top : relocated top = moved_location parent path depth top.
Proof using. unfold relocated. by rewrite bool_decide_eq_true_2. Qed.

Lemma relocated_under r : r ∈ rows -> under top r ->
  relocated r = rebased path (String.length (loc_path top)) (depth - loc_depth top) r.
Proof using Hs Htop.
  intros Hr Hu. unfold relocated. rewrite bool_decide_eq_false_2.
  - by rewrite (proj2 (below_under s Hs top r Htop)).
  - intros E. destruct Hu as (u & Eu). rewrite (location_by_id s Hs r top) in Eu by done. by apply append_not_self in Eu.
Qed.

Lemma relocated_other r : r ∈ rows -> r <> top -> ~ under top r -> relocated r = r.
Proof using Hs Htop.
  intros Hr Hne Hu. unfold relocated. rewrite bool_decide_eq_false_2 by (intros E; apply Hne; by apply (location_by_id s Hs)).
  destruct (below (loc_path top) r) eqn:E; [|done]. by apply (below_under s Hs) in E.
Qed.

Lemma under_dec r : r ∈ rows -> under top r \/ ~ under top r.
Proof using Hs Htop.
  intros Hr. destruct (below (loc_path top) r) eqn:E; [left; by apply (below_under s Hs)|right].
  intros Hu%(below_under s Hs); [|done]. by rewrite E in Hu.
Qed.

Lemma same_row r : r ∈ rows -> r = top \/ r <> top.
Proof using Hs Htop.
  intros Hr. destruct (decide (loc_id r = loc_id top)) as [E|E]; [left; by apply (location_by_id s Hs)|right; congruence].
Qed.

Lemma relocated_placed r : r ∈ rows -> placed (relocated <$> rows) (relocated r).
Proof using Hs Htop Htarget.
  intros Hr. destruct (same_row r Hr) as [->|Hne].
  - rewrite relocated_top. unfold placed. cbn [moved_location loc_parentLocationId loc_path loc_code loc_depth].
    destruct Htarget as [(-> & -> & ->)|(q & Hq & -> & Hqt & Hu & -> & ->)]; [done|].
    exists (relocated q). split; [by apply list_elem_of_fmap_2|]. by rewrite relocated_other.
  - destruct (under_dec r Hr) as [Hu|Hu].
    + destruct (under_parent s Hs top r Htop Hr Hu) as (q & Hq & Hp & Hd & Hc). rewrite relocated_under by done.
      unfold placed. cbn [rebased moved_location loc_parentLocationId loc_path loc_code loc_depth]. rewrite Hp.
      exists (relocated q). split; [by apply list_elem_of_fmap_2|]. split; [apply relocated_columns|].
      destruct (child_under s Hs q r Hr Hq Hp) as (w & Ew). rewrite child_path_eq.
      assert (w = loc_code r) as ->.
      { destruct (path_shape s Hs r Hr) as [(E & _)|(q' & Hq' & E & Er & _)]; [congruence|]. rewrite Hp in E.
        injection E as E. rewrite (location_by_id s Hs q' q), Ew in Er by done. apply append_inj_l in Er. by injection Er. }
      rewrite Ew. destruct Hc as [->|Hc].
      * rewrite relocated_top. cbn [moved_location loc_path loc_depth]. rewrite slice_from_append. split; [done|lia].
      * rewrite relocated_under by done. cbn [rebased moved_location loc_path loc_depth].
        destruct Hc as (v & Ev). rewrite Ev, <- append_assoc', !slice_from_append. split; [by rewrite <- append_assoc'|lia].
    + rewrite relocated_other by done. destruct (path_shape s Hs r Hr) as [(Hp & Ep & Hd)|(q & Hq & Hp & Ep & Hd)].
      * unfold placed. by rewrite Hp.
      * unfold placed. rewrite Hp. exists (relocated q). split; [by apply list_elem_of_fmap_2|].
        rewrite relocated_other; [by rewrite child_path_eq|done|..].
        -- intros ->. apply Hu. by apply (child_under s Hs).
        -- intros Huq. apply Hu. by apply (under_child s Hs top q).
Qed.

Lemma relocated_ok : (forall r, r ∈ rows -> location_checks (relocated r) = true) ->
  tree_ok (put_locations (relocated <$> rows) s).
Proof using Hs Htop Htarget.
  intros Hc. split; cbn [sk_locations put_locations sk_next].
  - rewrite <- list_fmap_compose, (list_fmap_ext _ loc_id rows); [apply Hs|]. intros. apply relocated_columns.
  - intros r' (r & -> & Hr)%list_elem_of_fmap. rewrite (proj1 (relocated_columns r)). by apply Hs.
  - rewrite <- list_fmap_compose, (list_fmap_ext _ loc_code rows); [apply Hs|]. intros. apply relocated_columns.
  - intros r' (r & -> & Hr)%list_elem_of_fmap. rewrite (proj2 (relocated_columns r)).
    destruct (to_plain s Hs r Hr) as [H1 H2]. split; [done|]. pose proof target_literal as Ht. unfold relocated.
    case_bool_decide; [done|]. destruct (below (loc_path top) r) eqn:E; [|done]. apply (below_under s Hs) in E as (u & Eu); [|done].
    cbn. rewrite Eu, slice_from_append, all_of_append, Ht. rewrite Eu, all_of_append in H2. by apply andb_true_iff in H2 as [_ ?].
  - intros r' (r & -> & Hr)%list_elem_of_fmap. by apply Hc.
  - intros r' (r & -> & Hr)%list_elem_of_fmap. by apply relocated_placed.
Qed.
End move.

(** ** The calls *)
Lemma updateLocations_inv p f s u s' : updateLocations p f s = (Ok u, s') ->
  s' = put_locations (update_rows p f (sk_locations s)) s /\
  forall r, r ∈ sk_locations s -> p r = true -> location_checks (f r) = true.
Proof.
  unfold updateLocations. intros H. inv_stock. split; [done|]. intros r Hr Hp.
  match goal with H : forallb (fun r => location_checks (f r)) _ = true |- _ =>
    rewrite forallb_forall in H; apply (H r), list_elem_of_In, elem_of_bool_filter; by split end.
Qed.

Lemma location_get_inv id s r s' : Locations.get id s = (Ok r, s') -> s' = s /\ r ∈ sk_locations s /\ loc_id r = id.
Proof.
  unfold Locations.get. intros H. run_bind H t u Ht. apply st_get_inv in Ht as [-> ->].
  destruct (find_location id s) as [q|] eqn:E; [|discriminate H]. apply st_ret_inv in H as [-> ->].
  by apply find_row_some in E as [? ?%bool_decide_eq_true].
Qed.

Definition target_of (s : Stock) (top : InventoryLocationRow) (parent : option uuid) (path : string) (depth : Z) : Prop :=
  (parent = None /\ path = loc_code top /\ depth = 0) \/
  exists q, q ∈ sk_locations s /\ parent = Some (loc_id q) /\ q <> top /\ ~ under top q /\
    path = child_path (loc_path q) (loc_code top) /\ depth = loc_depth q + 1.

Lemma move_target_inv s top parent target s' : tree_ok s -> top ∈ sk_locations s ->
  move_target top parent s = (Ok target, s') ->
  s' = s /\ target_of s top parent
    (if String.eqb target.1 "" then loc_code top else child_path target.1 (loc_code top)) (target.2 + 1).
Proof.
  intros Hs Ht H. unfold move_target in H. destruct parent as [id|]; [|inv_st; split; [done|by left]].
  run_bind H u1 t Hu. apply st_lift_inv in Hu as [Hu1 ->]. run_bind H up t Hup. apply st_gets_inv in Hup as [-> ->].
  run_bind H u2 t Hu. apply st_lift_inv in Hu as [_ ->]. run_bind H u3 t Hu. apply st_lift_inv in Hu as [Hu3 ->].
  run_bind H q t Hq. apply location_get_inv in Hq as (-> & Hq & <-). inv_st. split; [done|]. right. exists q. cbn [fst snd].
  destruct u1, u3. case_bool_decide as E3; [done|]. case_bool_decide as E1; [done|].
  split; [done|]. split; [done|]. split; [congruence|]. split; [|].
  - intros Hu. apply E3. unfold chain. apply (under_ancestor s Hs); [done..|]. pose proof (depth_bounds s Hs q Hq). lia.
  - destruct (String.eqb_spec (loc_path q) "") as [E|]; [by apply (path_nonempty s Hs) in E|done].
Qed.

Lemma setParent_inv s id parent r s' : tree_ok s -> setParent id parent s = (Ok r, s') ->
  exists top path depth, top ∈ sk_locations s /\ loc_id top = id /\ target_of s top parent path depth /\
    s' = put_locations (relocated top parent path depth <$> sk_locations s) s /\ tree_ok s' /\
    r ∈ sk_locations s' /\ loc_id r = id.
Proof.
  intros Hs H. unfold setParent in H. apply atomically_Ok in H. run_bind H top t Htop.
  apply location_get_inv in Htop as (-> & Htop & Hid). run_bind H target t Htg.
  apply (move_target_inv s top parent target) in Htg as [-> Htg]; [|done..]. cbv zeta in H.
  set (path := if String.eqb target.1 "" then _ else _) in *. set (depth := target.2 + 1) in *.
  run_bind H sd t Hsd. apply st_gets_inv in Hsd as [_ ->]. run_bind H u t Hu. apply st_lift_inv in Hu as [_ ->]. clear u.
  run_bind H u1 s1 H1. run_bind H u2 s2 H2. apply location_get_inv in H as (-> & Hr & Hrid).
  apply updateLocations_inv in H1 as [-> C1]. apply updateLocations_inv in H2 as [E2 C2].
  cbn [sk_locations put_locations] in C2.
  set (F := relocated top parent path depth).
  assert (update_rows (below (loc_path top)) (rebased path (String.length (loc_path top)) (depth - loc_depth top))
    (update_rows (is_location (loc_id top)) (moved_location parent path depth) (sk_locations s)) = F <$> sk_locations s) as EF.
  { unfold update_rows. change (map ?f ?x) with (f <$> x). rewrite <- list_fmap_compose. apply list_fmap_ext.
    intros k q _. unfold compose, F, relocated, is_location. case_bool_decide; [|done].
    assert (below (loc_path top) (moved_location parent path depth q) = false) as ->; [|done].
    exact (target_not_below s Hs top Htop parent path depth Htg). }
  assert (s2 = put_locations (F <$> sk_locations s) s) as -> by (rewrite E2, <- EF; done). clear E2.
  exists top, path, depth. split; [done|]. split; [done|]. split; [done|]. split; [done|]. split; [|by split].
  apply relocated_ok; [done..|]. intros q Hq.
  pose proof (to_checks s Hs q Hq) as Hc0. unfold relocated. case_bool_decide as E.
  - apply C1; [done|]. by apply bool_decide_eq_true.
  - destruct (below (loc_path top) q) eqn:Eb; [|done]. apply C2; [|done]. apply update_rows_elem. exists q. split; [done|].
    unfold is_location. by rewrite bool_decide_eq_false_2.
Qed.

Lemma code_char_no_slash c : code_char c = true -> no_slash c = true.
Proof. destruct c as [[] [] [] [] [] [] [] []]; vm_compute; congruence. Qed.
Lemma code_start_no_slash c : code_start c = true -> no_slash c = true.
Proof. destruct c as [[] [] [] [] [] [] [] []]; vm_compute; congruence. Qed.

Lemma all_chars_of p q s : (forall c, p c = true -> q c = true) -> Text.all_chars p s = true -> all_of q s = true.
Proof.
  intros Hpq. unfold Text.all_chars. induction s as [|c s IH]; [done|]. cbn. intros [Hc Hs]%andb_true_iff.
  by rewrite (Hpq c Hc), IH.
Qed.

Lemma codeSchema_plain text code : codeSchema text = Ok code -> all_of literal code = true -> plain_code code = true.
Proof.
  unfold codeSchema. cbv zeta. destruct (Text.trim text) as [|c rest] eqn:E; [done|]. intros (u & Hu & [= <-])%bind_Ok Hl.
  destruct ((64 <? String.length (String c rest))%nat); [done|]. cbn [orb] in Hu.
  destruct (code_start c && Text.all_chars code_char rest) eqn:Hc; [|done]. apply andb_true_iff in Hc as [Hc Hr].
  unfold plain_code. rewrite Hl. cbn [all_of]. rewrite (code_start_no_slash c Hc).
  by rewrite (all_chars_of _ no_slash rest code_char_no_slash Hr).
Qed.

Lemma tree_ok_framed s s' : sk_locations s' = sk_locations s -> (sk_next s <= sk_next s')%positive -> tree_ok s -> tree_ok s'.
Proof.
  intros E Hn Hs. pose proof (to_next s Hs) as Hx. destruct Hs. split; rewrite ?E; try done.
  intros r Hr. specialize (Hx r Hr). lia.
Qed.

Lemma placed_app rows new r : placed rows r -> placed (rows ++ new) r.
Proof.
  unfold placed. destruct (loc_parentLocationId r) as [id|]; [|done]. intros (q & Hq & H). exists q.
  rewrite elem_of_app. by split; [left|].
Qed.

Lemma insertLocation_inv values s row s' : insertLocation values s = (Ok row, s') ->
  row = values (sk_next s) /\ s' = put_locations (sk_locations s ++ [row]) (put_next (Pos.succ (sk_next s)) s) /\
  location_checks row = true /\ loc_code row ∉ loc_code <$> sk_locations s.
Proof.
  unfold insertLocation. intros H. inv_stock. split; [done|]. split; [done|]. split; [done|].
  intros (r & E & Hr)%list_elem_of_fmap.
  match goal with H : forallb (fun r => negb (same_code _ r)) _ = true |- _ =>
    rewrite forallb_forall in H; specialize (H r (proj1 (list_elem_of_In _ _) Hr)); unfold same_code in H;
    rewrite E, String.eqb_refl in H; done end.
Qed.

Lemma create_placed i s r s' : tree_ok s -> Locations.create i s = (Ok r, s') ->
  all_of literal (loc_code r) = true -> tree_ok s'.
Proof.
  intros Hs H Hl. unfold Locations.create in H. run_bind H value t Hv. apply st_lift_inv in Hv as [Hv ->].
  assert (codeSchema (cl_code i) = Ok (cl_code value)) as Hcs.
  { unfold createLocationSchema in Hv. apply bind_Ok in Hv as (c & Hc & Hv). by apply bind_Ok in Hv as (n & _ & [= <-]). }
  run_bind H place t Hp. assert (t = s /\ ((cl_parentLocationId value = None /\ place = (cl_code value, 0)) \/
    exists q, q ∈ sk_locations s /\ cl_parentLocationId value = Some (loc_id q) /\
      place = (child_path (loc_path q) (cl_code value), loc_depth q + 1))) as [-> Hplace].
  { destruct (cl_parentLocationId value) as [id|]; [|inv_st; split; [done|by left]].
    run_bind Hp q u Hq. apply location_get_inv in Hq as (-> & Hq & <-). cbv zeta in Hp. run_bind Hp w u Hw.
    apply st_lift_inv in Hw as [_ ->]. inv_st. split; [done|]. right. by exists q. }
  apply insertLocation_inv in H as (-> & -> & Hc & Hcode). set (row := location_values _ _ _ _) in *.
  pose proof (codeSchema_plain _ _ Hcs Hl) as Hplain.
  assert (placed (sk_locations s ++ [row]) row /\ all_of literal (loc_path row) = true) as [Hrow Hlit].
  { unfold placed.
    destruct Hplace as [(E & ->)|(q & Hq & E & ->)].
    - cbn. rewrite E. by split.
    - cbn [row location_values loc_parentLocationId]. rewrite E. split.
      + exists q. rewrite elem_of_app. by split; [left|].
      + change (all_of literal (child_path (loc_path q) (cl_code value)) = true). rewrite child_path_eq, all_of_append.
        rewrite (proj2 (to_plain s Hs q Hq)). exact Hl. }
  pose proof (to_next s Hs) as Hn.
  split; cbn [sk_locations put_locations put_next sk_next].
  - apply NoDup_keys_snoc. split; [apply Hs|]. intros (q & E & Hq)%list_elem_of_fmap. specialize (Hn q Hq). cbn in E. lia.
  - intros q [Hq| ->%list_elem_of_singleton]%elem_of_app; [specialize (Hn q Hq); lia|cbn; lia].
  - apply NoDup_keys_snoc. split; [apply Hs|done].
  - intros q [Hq| ->%list_elem_of_singleton]%elem_of_app; [by apply Hs|done].
  - intros q [Hq| ->%list_elem_of_singleton]%elem_of_app; [by apply Hs|done].
  - intros q [Hq| ->%list_elem_of_singleton]%elem_of_app; [by apply placed_app, Hs|done].
Qed.

(** ** Reconciling *)
Lemma mismatch_none r : mismatch (r, loc_path r, loc_depth r) = None.
Proof. unfold mismatch. by rewrite String.eqb_refl, Z.eqb_refl. Qed.

Lemma tree_below_quiet s n r e : tree_ok s -> r ∈ sk_locations s ->
  e ∈ tree_below n s (loc_path r) (loc_depth r) r -> mismatch e = None.
Proof.
  intros Hs. revert r. induction n as [|n IH]; intros r Hr; cbn [tree_below]; rewrite elem_of_cons;
    (intros [->|He]; [apply mismatch_none|]); [by apply not_elem_of_nil in He|].
  apply list_elem_of_bind in He as (c & He & [Hp Hc]%elem_of_bool_filter). apply bool_decide_eq_true in Hp.
  destruct (path_shape s Hs c Hc) as [(E & _)|(q & Hq & E & Ep & Ed)]; [congruence|]. rewrite Hp in E. injection E as E.
  rewrite (location_by_id s Hs q r) in Ep, Ed by done. rewrite child_path_eq, <- Ep, <- Ed in He. by apply (IH c Hc).
Qed.

Lemma reconcile_paths_quiet s apply : tree_ok s ->
  reconcilePaths apply s =
    (Ok {| pr_checked := length (sk_locations s); pr_mismatched := []; pr_repaired := false |}, s).
Proof.
  intros Hs. assert (omap mismatch (tree s) = []) as E.
  { apply elem_of_nil_inv. intros m (e & He & Hm)%list_elem_of_omap. unfold tree in He.
    apply list_elem_of_bind in He as (r & He & [Hp Hr]%elem_of_bool_filter). apply bool_decide_eq_true in Hp.
    destruct (path_shape s Hs r Hr) as [(_ & Ep & Ed)|(q & _ & E & _)]; [|congruence].
    rewrite <- Ep, <- Ed in He. apply (tree_below_quiet s _ r e Hs Hr) in He. congruence. }
  unfold reconcilePaths. erewrite st_bind_run by done. erewrite st_bind_run by done. rewrite E. by destruct apply.
Qed.

(** * Theorems *)

(** C29. While no location code holds a character [like] reads as a wildcard, every
    cached path and depth is that of the row's place in the tree: a new location
    whose code has none keeps it so, and so does every re-parent, which puts the row
    where it was asked to, moves its whole subtree with it and never makes a cycle;
    and the path repair, which recomputes the tree from its roots, then finds nothing
    to correct and writes nothing. *)
Theorem tree_paths_kept s : tree_ok s ->
  (forall i r s', Locations.create i s = (Ok r, s') -> all_of literal (loc_code r) = true -> tree_ok s') /\
  (forall id parent, tree_ok (setParent id parent s).2) /\
  (forall id parent r s', setParent id parent s = (Ok r, s') -> loc_id r = id /\ loc_parentLocationId r = parent) /\
  (forall apply, reconcilePaths apply s =
     (Ok {| pr_checked := length (sk_locations s); pr_mismatched := []; pr_repaired := false |}, s)).
Proof.
  intros Hs. split; [intros i r s' H; by apply (create_placed i s r s')|]. split; [|split].
  - intros id parent. destruct (setParent id parent s) as [[r|e] s'] eqn:E; cbn [snd].
    + by apply setParent_inv in E as (? & ? & ? & _ & _ & _ & _ & ? & _).
    + unfold setParent, atomically in E. destruct (_ ≫= _) as [[a|e'] s1] in E; [discriminate E|]. by injection E as _ <-.
  - intros id parent r s' E. apply setParent_inv in E as (top & path & depth & Htop & Hid & _ & -> & Hs' & Hr & Hrid); [|done].
    split; [done|]. cbn in Hr.
    assert (r = relocated top parent path depth top) as ->; [|by rewrite relocated_top].
    apply (location_by_id _ Hs'); cbn [sk_locations put_locations]; [done|by apply list_elem_of_fmap_2|].
    rewrite (proj1 (relocated_columns top parent path depth top)). congruence.
  - intros apply. by apply reconcile_paths_quiet.
Qed.

(** A shelf with a bin, to be moved under the other shelf. *)
Definition shelved : Stock :=
  (Locations.create (location_input "BIN" (Some 11%positive)) with_shelves).2.

Lemma empty_tree_ok s : sk_locations s = [] -> tree_ok s.
Proof. intros E. split; rewrite ?E; try apply NoDup_nil_2; by intros ? ?%not_elem_of_nil. Qed.

Lemma create_literal i s : tree_ok s ->
  match Locations.create i s with (Ok r, s') => all_of literal (loc_code r) = true | _ => False end ->
  tree_ok (Locations.create i s).2.
Proof.
  intros Hs H. destruct (Locations.create i s) as [[r|e] s'] eqn:E; [|done]. by apply (create_placed i s r s').
Qed.

Lemma shelved_ok : tree_ok shelved.
Proof.
  unfold shelved. apply create_literal; [|vm_compute; reflexivity].
  apply (create_literal (location_input "B" None) with_shelf); [|vm_compute; reflexivity].
  apply (create_literal (location_input "A" None) with_lot); [|vm_compute; reflexivity].
  apply empty_tree_ok. vm_compute. reflexivity.
Qed.

Definition place (r : InventoryLocationRow) : string * Z := (loc_path r, loc_depth r).

Example tree_paths_kept_witness :
  tree_ok (setParent 11 (Some 12%positive) shelved).2 /\
  place <$> sk_locations (setParent 11 (Some 12%positive) shelved).2
    = [("B/A"%string, 1); ("B"%string, 0); ("B/A/BIN"%string, 2)].
Proof.
  split; [|vm_compute; reflexivity]. exact (proj1 (proj2 (tree_paths_kept shelved shelved_ok)) 11%positive (Some 12%positive)).
Defined.

(** A code with an underscore moves strangers: the subtree of the moved row is
    selected by [like] on its path, where an underscore stands for any character.  A
    row elsewhere in the tree whose path only matches that way is rewritten too: it
    keeps its parent and takes the path and the depth of a row below the moved one. *)
Theorem wildcard_moves_strangers s id parent r s' top q :
  setParent id parent s = (Ok r, s') -> NoDup (loc_id <$> sk_locations s) ->
  find_location id s = Some top -> q ∈ sk_locations s -> loc_id q <> id ->
  below (loc_path top) q = true ->
  exists path depth,
    rebased path (String.length (loc_path top)) (depth - loc_depth top) q ∈ sk_locations s'.
Proof.
  intros H Hn Hf Hq Hne Hb. unfold setParent in H. apply atomically_Ok in H.
  run_bind H top' t Ht. unfold Locations.get in Ht. erewrite st_bind_run in Ht by done. rewrite Hf in Ht. injection Ht as <- <-.
  run_bind H target t Htg. assert (t = s) as ->.
  { unfold move_target in Htg. destruct parent as [p|]; [|by inv_st].
    do 4 (let x := fresh in let u := fresh in let Hx := fresh in run_bind Htg x u Hx; (apply st_lift_inv in Hx || apply st_gets_inv in Hx);
          destruct Hx as [_ ->]).
    run_bind Htg x u Hx. apply location_get_inv in Hx as [-> _]. by inv_st. }
  cbv zeta in H. set (path := if String.eqb target.1 "" then _ else _) in H.
  run_bind H sd t Hsd. apply st_gets_inv in Hsd as [_ ->]. run_bind H u t Hu. apply st_lift_inv in Hu as [_ ->].
  run_bind H u1 s1 H1. run_bind H u2 s2 H2. apply location_get_inv in H as (-> & _).
  apply updateLocations_inv in H1 as [-> _]. apply updateLocations_inv in H2 as [-> _].
  exists path, (target.2 + 1). apply update_rows_elem. exists q. rewrite Hb. split; [|done].
  apply update_rows_elem. exists q. split; [done|]. unfold is_location. rewrite bool_decide_eq_false_2; [done|].
  apply find_row_some in Hf as [_ Hid%bool_decide_eq_true]. congruence.
Qed.

Definition underscored : Stock :=
  let s1 := (Locations.create (location_input "A_1" None) nothing).2 in
  let s2 := (Locations.create (location_input "AB1" None) s1).2 in
  let s3 := (Locations.create (location_input "BIN" (Some 11%positive)) s2).2 in
  (Locations.create (location_input "X" None) s3).2.

Example wildcard_moves_strangers_witness :
  exists r s', setParent 10 (Some 13%positive) underscored = (Ok r, s') /\
    place <$> sk_locations underscored
      = [("A_1"%string, 0); ("AB1"%string, 0); ("AB1/BIN"%string, 1); ("X"%string, 0)] /\
    (exists path depth q, rebased path 3 depth q ∈ sk_locations s' /\ loc_parentLocationId q = Some 11%positive) /\
    place <$> sk_locations s'
      = [("X/A_1"%string, 1); ("AB1"%string, 0); ("X/A_1/BIN"%string, 2); ("X"%string, 0)].
Proof.
  destruct (setParent 10 (Some 13%positive) underscored) as [[r|e] s'] eqn:E; [|exfalso; vm_compute in E; discriminate E].
  exists r, s'. split; [reflexivity|]. split; [vm_compute; reflexivity|]. split.
  - destruct (find_location 10 underscored) as [top|] eqn:Ft; [|vm_compute in Ft; discriminate Ft].
    destruct (find_location 12 underscored) as [q|] eqn:Fq; [|vm_compute in Fq; discriminate Fq].
    assert (q ∈ sk_locations underscored) as Hq by by apply find_row_some in Fq as [? _].
    assert (NoDup (loc_id <$> sk_locations underscored)) as Hn by (refine (proj1 (bool_decide_eq_true _) _); vm_compute; reflexivity).
    pose proof Ft as Et. vm_compute in Et. injection Et as Et. subst top. vm_compute in Fq. injection Fq as <-.
    destruct (wildcard_moves_strangers underscored 10 (Some 13%positive) r s' _ _ E Hn Ft Hq ltac:(discriminate)
      ltac:(vm_compute; reflexivity)) as (path & depth & Hin).
    eexists _, _, _. split; [exact Hin|reflexivity].
  - vm_compute in E. injection E as _ <-. reflexivity.
Defined.
