(* ===== verification/WorkTables.v ===== *)
(** * The tables of projects, time and materials

    The rows of [packages/db/src/schema/projects.ts] that the work package keeps,
    with the constraints of that schema and the statements the package issues on
    them.  What the work package reads of the inventory tables is read from
    [Stock]. *)
From S2P Require Import Prelude Decimal DecimalPackages Calendar Inputs Store Schema Ledger Stock.

Open Scope Z_scope.
#[local] Arguments String.append : simpl nomatch.

(** ** The closed sets *)
Inductive ProjectEntityAttributionSource : Type :=
  | ProjectManual | CounterpartyRoleDefault | ProjectInstallationDefault | ProjectUnattributed.
#[export] Instance ProjectEntityAttributionSource_eq_dec : EqDecision ProjectEntityAttributionSource.
Proof. solve_decision. Defined.

Inductive ProjectBillingMethod : Type :=
  | TimeAndMaterials | FixedPrice | Milestone | Subscription | NonBillable | InternalWork.
#[export] Instance ProjectBillingMethod_eq_dec : EqDecision ProjectBillingMethod.
Proof. solve_decision. Defined.

Inductive BillingRateScopeKind : Type :=
  | ScopeProjectPerson | ScopeProject | ScopeCounterparty | ScopePerson | ScopeActivity | ScopeInstallation.
#[export] Instance BillingRateScopeKind_eq_dec : EqDecision BillingRateScopeKind.
Proof. solve_decision. Defined.

(** The sources of a rate: a scope, an amount typed by the operator, or none. *)
Inductive RateSource : Type := RateManual | RateOfScope (scope : BillingRateScopeKind) | RateUnresolved.
#[export] Instance RateSource_eq_dec : EqDecision RateSource.
Proof. solve_decision. Defined.

Inductive RateKind : Type := BillRate | CostRate.
#[export] Instance RateKind_eq_dec : EqDecision RateKind.
Proof. solve_decision. Defined.

Inductive RateUnit : Type := PerHour | PerDay | FixedAmount.
#[export] Instance RateUnit_eq_dec : EqDecision RateUnit.
Proof. solve_decision. Defined.

Inductive CostBasisSource : Type := InventoryBasis | ManualBasis | PurchasedForJob | NoBasis.
#[export] Instance CostBasisSource_eq_dec : EqDecision CostBasisSource.
Proof. solve_decision. Defined.

(** ** Rows *)
Record ProjectAttribution : Type := {
  pn_economicEntityId : option uuid;
  pn_source : ProjectEntityAttributionSource;
  pn_attributedAt : option Z;
  pn_attributedByUserId : option string;
}.

Record ProjectRow : Type := {
  pj_id : uuid;
  pj_referenceCode : string;
  pj_parentProjectId : option uuid;
  pj_counterpartyId : option uuid;
  pj_counterpartySiteId : option uuid;
  pj_attribution : ProjectAttribution;
  pj_name : string;
  pj_description : option string;
  pj_projectKind : string;
  pj_status : string;
  pj_billingMethod : ProjectBillingMethod;
  pj_currency : string;
  pj_estimateAmount : option Z;
  pj_budgetAmount : option Z;
  pj_fixedPriceAmount : option Z;
  pj_notToExceedAmount : option Z;
  pj_depth : Z;
  pj_startsOn : option date;
  pj_targetEndOn : option date;
  pj_completedOn : option date;
  pj_closedAt : option Z;
  pj_createdByUserId : option string;
  pj_createdAt : Z;
  pj_updatedAt : Z;
}.

Record BillingRateRow : Type := {
  br_id : uuid;
  br_scopeKind : BillingRateScopeKind;
  br_projectId : option uuid;
  br_counterpartyId : option uuid;
  br_subjectUserId : option string;
  br_subjectCounterpartyId : option uuid;
  br_activityCode : option string;
  br_economicEntityId : option uuid;
  br_rateKind : RateKind;
  br_currency : string;
  br_amount : Z;
  br_unit : RateUnit;
  br_effectiveFrom : date;
  br_effectiveTo : option date;
  br_note : option string;
  br_createdByUserId : option string;
  br_updatedAt : Z;
}.

(** The frozen columns of a time entry. *)
Record EntryRates : Type := {
  er_currency : option string;
  er_billRateAmount : option Z;
  er_billRateSource : RateSource;
  er_costRateAmount : option Z;
  er_costRateSource : RateSource;
  er_billingRateId : option uuid;
}.

Record TimeEntryRow : Type := {
  tn_id : uuid;
  tn_projectId : option uuid;
  tn_counterpartyId : option uuid;
  tn_economicEntityId : option uuid;
  tn_workedByUserId : option string;
  tn_workedByCounterpartyId : option uuid;
  tn_workedByLabel : string;
  tn_activityCode : option string;
  tn_description : option string;
  tn_workedOn : date;
  tn_startedAt : option Z;
  tn_endedAt : option Z;
  tn_minutes : Z;
  tn_billable : bool;
  tn_billableMinutes : Z;
  tn_rates : EntryRates;
  tn_approvedAt : option Z;
  tn_approvedByUserId : option string;
  tn_lockedAt : option Z;
  tn_createdByUserId : option string;
  tn_createdAt : Z;
  tn_updatedAt : Z;
}.

Record ProjectMaterialUseRow : Type := {
  mu_id : uuid;
  mu_projectId : uuid;
  mu_inventoryItemId : option uuid;
  mu_catalogItemId : option uuid;
  mu_inventoryAllocationId : option uuid;
  mu_inventoryMovementId : option uuid;
  mu_description : string;
  mu_quantity : Z;
  mu_consumedOn : date;
  mu_currency : string;
  mu_unitCostAmount : Z;
  mu_costBasisSource : CostBasisSource;
  mu_billable : bool;
  mu_markupPercent : option Z;
  mu_unitChargeAmount : option Z;
  mu_lockedAt : option Z;
  mu_createdByUserId : option string;
  mu_createdAt : Z;
  mu_updatedAt : Z;
}.

(** A row of [counterparty_entity_roles], by the columns the package reads. *)
Record EntityRoleRow : Type := {
  ro_counterpartyId : uuid;
  ro_role : string;
  ro_status : string;
  ro_economicEntityId : option uuid;
}.

(** ** The store *)
Record Work : Type := {
  wk_projects : list ProjectRow;
  wk_rates : list BillingRateRow;
  wk_entries : list TimeEntryRow;
  wk_uses : list ProjectMaterialUseRow;
  wk_roles : list EntityRoleRow;
  wk_counterparties : list uuid;
  wk_sites : list uuid;
  wk_stock : Stock;
  wk_next : uuid;
  wk_now : Z;
}.

Definition with_tables (projects : list ProjectRow) (rates : list BillingRateRow) (entries : list TimeEntryRow)
    (uses : list ProjectMaterialUseRow) (s : Work) : Work :=
  {| wk_projects := projects; wk_rates := rates; wk_entries := entries; wk_uses := uses; wk_roles := wk_roles s;
     wk_counterparties := wk_counterparties s; wk_sites := wk_sites s; wk_stock := wk_stock s;
     wk_next := wk_next s; wk_now := wk_now s |}.
Definition put_projects (v : list ProjectRow) (s : Work) : Work :=
  with_tables v (wk_rates s) (wk_entries s) (wk_uses s) s.
Definition put_rates (v : list BillingRateRow) (s : Work) : Work :=
  with_tables (wk_projects s) v (wk_entries s) (wk_uses s) s.
Definition put_entries (v : list TimeEntryRow) (s : Work) : Work :=
  with_tables (wk_projects s) (wk_rates s) v (wk_uses s) s.
Definition put_uses (v : list ProjectMaterialUseRow) (s : Work) : Work :=
  with_tables (wk_projects s) (wk_rates s) (wk_entries s) v s.

Abbreviation wrun := (St Work) (only parsing).

Definition work_uuid : wrun uuid := fun s =>
  (Ok (wk_next s),
   {| wk_projects := wk_projects s; wk_rates := wk_rates s; wk_entries := wk_entries s; wk_uses := wk_uses s;
      wk_roles := wk_roles s; wk_counterparties := wk_counterparties s; wk_sites := wk_sites s;
      wk_stock := wk_stock s; wk_next := Pos.succ (wk_next s); wk_now := wk_now s |}).

(** A failed schema is one [WorkValidationError]. *)
Definition checked {A} (m : result A) : result A :=
  match m with Ok a => Ok a | Throw _ => Throw WorkValidationError end.

(** A [date] cast of text that has the shape of a date. *)
Definition date_column (t : date) : result date := if valid_date t then Ok t else Throw (SqlError "22008").

(** ** [Number(text)] of a plain decimal string, compared

    The nearest double of a decimal is zero when its magnitude is at most [2 ^ -1075],
    and [-100] when the decimal is at most [2 ^ -47] below [-100]. *)
Definition vanishes (v : Scaled) : bool := Z.abs (units v) * 2 ^ 1075 <=? pow10 (scale v).
Definition number_nonneg (text : string) : bool :=
  match parseScaled WorkValidationError text with
  | Ok v => (0 <=? units v) || vanishes v
  | Throw _ => false
  end.
Definition number_positive (text : string) : bool :=
  match parseScaled WorkValidationError text with
  | Ok v => (0 <? units v) && negb (vanishes v)
  | Throw _ => false
  end.
Definition number_ge_minus_100 (text : string) : bool :=
  match parseScaled WorkValidationError text with
  | Ok v => - units v * 2 ^ 47 <=? (100 * 2 ^ 47 + 1) * pow10 (scale v)
  | Throw _ => false
  end.

(** [isUniqueViolation] of the package: a 23505, whatever the constraint. *)
Definition isUniqueViolation (error : error) : bool := match error with UniqueViolation _ => true | _ => false end.

(** ** Statements *)
Definition count_some {A B} (a : option A) (b : option B) : nat := (Nat.b2n (is_some a) + Nat.b2n (is_some b))%nat.
Definition order_ok (from to : option Z) : bool :=
  match from, to with Some f, Some t => f <=? t | _, _ => true end.
Definition wk_entities (s : Work) : list uuid := sk_entities (wk_stock s).
Definition wk_user_known (s : Work) (u : option string) : bool := user_known (wk_stock s) u.

(** *** [projects] *)
Definition is_project (id : uuid) (r : ProjectRow) : bool := bool_decide (pj_id r = id).
Definition find_project (id : uuid) (s : Work) : option ProjectRow := find_row (is_project id) (wk_projects s).

Definition needs_no_counterparty (m : ProjectBillingMethod) : bool :=
  bool_decide (m = InternalWork) || bool_decide (m = NonBillable).
Definition project_checks (r : ProjectRow) : bool :=
  negb (opt_eqb (pj_parentProjectId r) (pj_id r)) && (0 <=? pj_depth r) && (pj_depth r <=? 1)
  && Bool.eqb (bool_decide (pj_billingMethod r = FixedPrice)) (is_some (pj_fixedPriceAmount r))
  && negb (bool_decide (pj_billingMethod r = InternalWork) && is_some (pj_counterpartyId r))
  && (needs_no_counterparty (pj_billingMethod r) || is_some (pj_counterpartyId r))
  && order_ok (pj_startsOn r) (pj_targetEndOn r).

Definition project_fks (s : Work) (r : ProjectRow) : bool :=
  exists_opt pj_id (pj_parentProjectId r) (wk_projects s)
  && known (pj_counterpartyId r) (wk_counterparties s)
  && known (pj_counterpartySiteId r) (wk_sites s)
  && known (pn_economicEntityId (pj_attribution r)) (wk_entities s)
  && wk_user_known s (pn_attributedByUserId (pj_attribution r))
  && wk_user_known s (pj_createdByUserId r).

Definition insertProject (values : uuid -> Z -> ProjectRow) : wrun ProjectRow :=
  id ← work_uuid;
  s ← st_get;
  let row := values id (wk_now s) in
  _ ← demand (project_checks row) check_violation;
  _ ← demand (negb (exists_id pj_id id (wk_projects s))) (UniqueViolation "projects_pkey");
  _ ← demand (forallb (fun r => negb (String.eqb (pj_referenceCode r) (pj_referenceCode row))) (wk_projects s))
        (UniqueViolation "projects_reference_code_uq");
  _ ← demand (project_fks s row) foreign_key_violation;
  _ ← st_modify (fun s => put_projects (wk_projects s ++ [row]) s);
  mret row.

(** [update projects set ... where id = ...]; the key columns are never written. *)
Definition updateProject (id : uuid) (f : ProjectRow -> ProjectRow) : wrun unit :=
  s ← st_get;
  let rows := List.filter (is_project id) (wk_projects s) in
  _ ← demand (forallb (fun r => project_checks (f r)) rows) check_violation;
  _ ← demand (forallb (fun r => project_fks s (f r)) rows) foreign_key_violation;
  st_modify (fun s => put_projects (update_rows (is_project id) f (wk_projects s)) s).

(** *** [billing_rates] *)
Definition is_rate (id : uuid) (r : BillingRateRow) : bool := bool_decide (br_id r = id).
Definition find_rate (id : uuid) (s : Work) : option BillingRateRow := find_row (is_rate id) (wk_rates s).

Definition scope_of_project (k : BillingRateScopeKind) : bool :=
  bool_decide (k = ScopeProjectPerson) || bool_decide (k = ScopeProject).
Definition scope_of_person (k : BillingRateScopeKind) : bool :=
  bool_decide (k = ScopeProjectPerson) || bool_decide (k = ScopePerson).

Definition rate_checks (r : BillingRateRow) : bool :=
  (0 <=? br_amount r)
  && Bool.eqb (scope_of_project (br_scopeKind r)) (is_some (br_projectId r))
  && Bool.eqb (bool_decide (br_scopeKind r = ScopeCounterparty)) (is_some (br_counterpartyId r))
  && Bool.eqb (scope_of_person (br_scopeKind r))
       (count_some (br_subjectUserId r) (br_subjectCounterpartyId r) =? 1)%nat
  && Bool.eqb (bool_decide (br_scopeKind r = ScopeActivity)) (is_some (br_activityCode r))
  && order_ok (Some (br_effectiveFrom r)) (br_effectiveTo r).

Definition rate_fks (s : Work) (r : BillingRateRow) : bool :=
  exists_opt pj_id (br_projectId r) (wk_projects s)
  && known (br_counterpartyId r) (wk_counterparties s)
  && wk_user_known s (br_subjectUserId r)
  && known (br_subjectCounterpartyId r) (wk_counterparties s)
  && known (br_economicEntityId r) (wk_entities s)
  && wk_user_known s (br_createdByUserId r).

Definition insertRate (values : uuid -> Z -> BillingRateRow) : wrun BillingRateRow :=
  id ← work_uuid;
  s ← st_get;
  let row := values id (wk_now s) in
  _ ← demand (rate_checks row) check_violation;
  _ ← demand (negb (exists_id br_id id (wk_rates s))) (UniqueViolation "billing_rates_pkey");
  _ ← demand (rate_fks s row) foreign_key_violation;
  _ ← st_modify (fun s => put_rates (wk_rates s ++ [row]) s);
  mret row.

Definition updateRate (id : uuid) (f : BillingRateRow -> BillingRateRow) : wrun unit :=
  s ← st_get;
  _ ← demand (forallb (fun r => rate_checks (f r)) (List.filter (is_rate id) (wk_rates s))) check_violation;
  st_modify (fun s => put_rates (update_rows (is_rate id) f (wk_rates s)) s).

(** *** [time_entries] *)
Definition is_entry (id : uuid) (r : TimeEntryRow) : bool := bool_decide (tn_id r = id).
Definition find_entry (id : uuid) (s : Work) : option TimeEntryRow := find_row (is_entry id) (wk_entries s).

Definition unresolved (source : RateSource) : bool := bool_decide (source = RateUnresolved).
Definition rates_checks (e : EntryRates) : bool :=
  Bool.eqb (negb (is_some (er_billRateAmount e))) (unresolved (er_billRateSource e))
  && Bool.eqb (negb (is_some (er_costRateAmount e))) (unresolved (er_costRateSource e))
  && Bool.eqb (negb (is_some (er_currency e)))
       (negb (is_some (er_billRateAmount e)) && negb (is_some (er_costRateAmount e))).
Definition entry_checks (r : TimeEntryRow) : bool :=
  (0 <? tn_minutes r) && (0 <=? tn_billableMinutes r)
  && (tn_billable r || (tn_billableMinutes r =? 0))
  && (negb (tn_billable r) || (1 <=? count_some (tn_projectId r) (tn_counterpartyId r))%nat)
  && (count_some (tn_workedByUserId r) (tn_workedByCounterpartyId r) <=? 1)%nat
  && order_ok (tn_startedAt r) (tn_endedAt r)
  && Bool.eqb (is_some (tn_startedAt r)) (is_some (tn_endedAt r))
  && rates_checks (tn_rates r).

Definition entry_fks (s : Work) (r : TimeEntryRow) : bool :=
  exists_opt pj_id (tn_projectId r) (wk_projects s)
  && known (tn_counterpartyId r) (wk_counterparties s)
  && known (tn_economicEntityId r) (wk_entities s)
  && wk_user_known s (tn_workedByUserId r)
  && known (tn_workedByCounterpartyId r) (wk_counterparties s)
  && exists_opt br_id (er_billingRateId (tn_rates r)) (wk_rates s)
  && wk_user_known s (tn_approvedByUserId r)
  && wk_user_known s (tn_createdByUserId r).

Definition entry_ints (r : TimeEntryRow) : bool := int4 (tn_minutes r) && int4 (tn_billableMinutes r).

Definition insertEntry (values : uuid -> Z -> TimeEntryRow) : wrun TimeEntryRow :=
  id ← work_uuid;
  s ← st_get;
  let row := values id (wk_now s) in
  _ ← demand (entry_ints row) (SqlError "22003");
  _ ← demand (entry_checks row) check_violation;
  _ ← demand (negb (exists_id tn_id id (wk_entries s))) (UniqueViolation "time_entries_pkey");
  _ ← demand (entry_fks s row) foreign_key_violation;
  _ ← st_modify (fun s => put_entries (wk_entries s ++ [row]) s);
  mret row.

Definition updateEntry (id : uuid) (f : TimeEntryRow -> TimeEntryRow) : wrun unit :=
  s ← st_get;
  let rows := List.filter (is_entry id) (wk_entries s) in
  _ ← demand (forallb (fun r => entry_ints (f r)) rows) (SqlError "22003");
  _ ← demand (forallb (fun r => entry_checks (f r)) rows) check_violation;
  _ ← demand (forallb (fun r => entry_fks s (f r)) rows) foreign_key_violation;
  st_modify (fun s => put_entries (update_rows (is_entry id) f (wk_entries s)) s).

(** *** [project_material_uses] *)
Definition is_use (id : uuid) (r : ProjectMaterialUseRow) : bool := bool_decide (mu_id r = id).
Definition find_use (id : uuid) (s : Work) : option ProjectMaterialUseRow := find_row (is_use id) (wk_uses s).

Definition use_checks (r : ProjectMaterialUseRow) : bool :=
  (0 <? mu_quantity r)
  && Bool.eqb (bool_decide (mu_costBasisSource r = InventoryBasis)) (is_some (mu_inventoryItemId r))
  && (mu_billable r || negb (is_some (mu_unitChargeAmount r)))
  && match mu_markupPercent r with None => true | Some m => - (100 * pow10 4) <=? m end.

Definition use_fks (s : Work) (r : ProjectMaterialUseRow) : bool :=
  exists_id pj_id (mu_projectId r) (wk_projects s)
  && exists_opt ir_id (mu_inventoryItemId r) (sk_items (wk_stock s))
  && known (mu_catalogItemId r) (sk_catalogItems (wk_stock s))
  && exists_opt rv_id (mu_inventoryAllocationId r) (sk_allocations (wk_stock s))
  && exists_opt mo_id (mu_inventoryMovementId r) (sk_movements (wk_stock s))
  && wk_user_known s (mu_createdByUserId r).

(** [project_material_uses_movement_uq] *)
Definition movement_backs (r q : ProjectMaterialUseRow) : bool :=
  match mu_inventoryMovementId r with None => false | Some m => opt_eqb (mu_inventoryMovementId q) m end.

Definition insertUse (values : uuid -> Z -> ProjectMaterialUseRow) : wrun ProjectMaterialUseRow :=
  id ← work_uuid;
  s ← st_get;
  let row := values id (wk_now s) in
  _ ← demand (use_checks row) check_violation;
  _ ← demand (negb (exists_id mu_id id (wk_uses s))) (UniqueViolation "project_material_uses_pkey");
  _ ← demand (forallb (fun q => negb (movement_backs row q)) (wk_uses s))
        (UniqueViolation "project_material_uses_movement_uq");
  _ ← demand (use_fks s row) foreign_key_violation;
  _ ← st_modify (fun s => put_uses (wk_uses s ++ [row]) s);
  mret row.

Definition updateUse (id : uuid) (f : ProjectMaterialUseRow -> ProjectMaterialUseRow) : wrun unit :=
  s ← st_get;
  _ ← demand (forallb (fun r => use_checks (f r)) (List.filter (is_use id) (wk_uses s))) check_violation;
  st_modify (fun s => put_uses (update_rows (is_use id) f (wk_uses s)) s).
