(* ===== verification/Rates.v ===== *)
(** * The rate card and the rate ladder

    [packages/work/src/billing-rates.ts] writes the rates, and
    [packages/work/src/rates.ts] finds the one that applies to a time entry. *)
From S2P Require Import Prelude Decimal DecimalPackages Calendar Inputs Store Schema Ledger Stock WorkTables.

Open Scope Z_scope.
#[local] Arguments String.append : simpl nomatch.

(** [textLiteral] of the package's [sql.ts] *)
Definition text_literal (s : string) : result string :=
  _ ← throw_if (Text.has_nul s) WorkValidationError; mret s.

(** [limit ${Math.max(1, Math.trunc(limit))}] *)
Definition limited {A} (limit : option Z) (rows : list A) : list A :=
  match limit with None => rows | Some n => take (Z.to_nat (Z.max 1 n)) rows end.

(** ** [rates.ts] *)
Record RateResolutionInput : Type := {
  rr_rateKind : RateKind;
  rr_projectId : option uuid;
  rr_counterpartyId : option uuid;
  rr_workedByUserId : option string;
  rr_workedByCounterpartyId : option uuid;
  rr_activityCode : option string;
  rr_workedOn : date;
}.

Record RateResolutionResult : Type := {
  rs_amount : option string;
  rs_currency : option string;
  rs_source : RateSource;
  rs_billingRateId : option uuid;
}.

(** The worker: a user, or else a counterparty. *)
Definition subjectPredicate (input : RateResolutionInput) : option (BillingRateRow -> bool) :=
  match rr_workedByUserId input, rr_workedByCounterpartyId input with
  | Some user, _ => Some (fun r => opt_eqb (br_subjectUserId r) user)
  | None, Some counterparty => Some (fun r => opt_eqb (br_subjectCounterpartyId r) counterparty)
  | None, None => None
  end.

(** The rungs in order, with the clause each adds; [None] skips the rung. *)
Definition buildRungs (input : RateResolutionInput)
    : list (BillingRateScopeKind * option (BillingRateRow -> bool)) :=
  let subject := subjectPredicate input in
  let project := (fun id r => opt_eqb (br_projectId r) id) <$> rr_projectId input in
  [(ScopeProjectPerson,
    match project, subject with Some p, Some w => Some (fun r => p r && w r) | _, _ => None end);
   (ScopeProject, project);
   (ScopeCounterparty, (fun id r => opt_eqb (br_counterpartyId r) id) <$> rr_counterpartyId input);
   (ScopePerson, subject);
   (ScopeActivity, (fun code r => opt_eqb (br_activityCode r) code) <$> rr_activityCode input);
   (ScopeInstallation, Some (fun _ => true))].

Definition covers (on : date) (r : BillingRateRow) : bool :=
  (br_effectiveFrom r <=? on) && match br_effectiveTo r with None => true | Some to => on <=? to end.

(** [order by effective_from desc, id desc] *)
Definition rate_before (r q : BillingRateRow) : bool :=
  (br_effectiveFrom q <? br_effectiveFrom r)
  || ((br_effectiveFrom q =? br_effectiveFrom r) && (br_id q <=? br_id r)%positive).

(** The row a rung's query returns. *)
Definition rung_row (input : RateResolutionInput) (scope : BillingRateScopeKind) (predicate : BillingRateRow -> bool)
    (rates : list BillingRateRow) : option BillingRateRow :=
  head (sort_with rate_before
    (List.filter (fun r => bool_decide (br_rateKind r = rr_rateKind input) && bool_decide (br_scopeKind r = scope)
                           && covers (rr_workedOn input) r && predicate r) rates)).

Definition resolved (r : BillingRateRow) (scope : BillingRateScopeKind) : RateResolutionResult :=
  {| rs_amount := Some (fromUnits (br_amount r)); rs_currency := Some (br_currency r);
     rs_source := RateOfScope scope; rs_billingRateId := Some (br_id r) |}.
Definition no_rate : RateResolutionResult :=
  {| rs_amount := None; rs_currency := None; rs_source := RateUnresolved; rs_billingRateId := None |}.

(** The loop over the rungs, one query each. *)
Fixpoint resolve_rungs (input : RateResolutionInput)
    (rungs : list (BillingRateScopeKind * option (BillingRateRow -> bool))) : wrun RateResolutionResult :=
  match rungs with
  | [] => mret no_rate
  | (scope, None) :: rungs => resolve_rungs input rungs
  | (scope, Some predicate) :: rungs =>
      _ ← st_lift (date_column (rr_workedOn input));
      row ← st_gets (fun s => rung_row input scope predicate (wk_rates s));
      match row with
      | Some r => mret (resolved r scope)
      | None => resolve_rungs input rungs
      end
  end.

Definition resolveRate (input : RateResolutionInput) : wrun RateResolutionResult :=
  _ ← st_lift (z_opt text_literal (rr_workedByUserId input));
  _ ← st_lift (z_opt text_literal (rr_activityCode input));
  resolve_rungs input (buildRungs input).

(** ** [billing-rates.ts] *)
Record CreateBillingRateInput : Type := {
  cr_scopeKind : BillingRateScopeKind;
  cr_projectId : option uuid;
  cr_counterpartyId : option uuid;
  cr_subjectUserId : option string;
  cr_subjectCounterpartyId : option uuid;
  cr_activityCode : option string;
  cr_economicEntityId : option uuid;
  cr_rateKind : RateKind;
  cr_currency : string;
  cr_amount : string;
  cr_unit : option RateUnit;
  cr_effectiveFrom : date;
  cr_effectiveTo : option date;
  cr_note : option string;
  cr_createdByUserId : option string;
}.

Definition currency_code (s : string) : result unit := throw_if (negb (Text.three_letters s)) WorkValidationError.
Definition decimal_text (s : string) : result unit := throw_if (negb (isDecimalString s)) WorkValidationError.
Definition iso_date (t : date) : result unit := throw_if (negb (iso_shape t)) WorkValidationError.

Definition createSchema (i : CreateBillingRateInput) : result CreateBillingRateInput :=
  user ← checked (z_user (cr_subjectUserId i));
  activity ← checked (z_opt z_text (cr_activityCode i));
  _ ← currency_code (cr_currency i);
  _ ← decimal_text (cr_amount i);
  _ ← throw_if (negb (number_nonneg (cr_amount i))) WorkValidationError;
  _ ← iso_date (cr_effectiveFrom i);
  _ ← z_opt iso_date (cr_effectiveTo i);
  note ← checked (z_opt z_text (cr_note i));
  actor ← checked (z_user (cr_createdByUserId i));
  _ ← throw_if (negb (Bool.eqb (scope_of_project (cr_scopeKind i)) (is_some (cr_projectId i)))) WorkValidationError;
  _ ← throw_if (negb (Bool.eqb (bool_decide (cr_scopeKind i = ScopeCounterparty)) (is_some (cr_counterpartyId i))))
        WorkValidationError;
  _ ← throw_if (negb (count_some (cr_subjectUserId i) (cr_subjectCounterpartyId i)
                      =? (if scope_of_person (cr_scopeKind i) then 1 else 0))%nat) WorkValidationError;
  _ ← throw_if (negb (Bool.eqb (bool_decide (cr_scopeKind i = ScopeActivity)) (is_some (cr_activityCode i))))
        WorkValidationError;
  _ ← throw_if (negb (order_ok (Some (cr_effectiveFrom i)) (cr_effectiveTo i))) WorkValidationError;
  mret {| cr_scopeKind := cr_scopeKind i; cr_projectId := cr_projectId i; cr_counterpartyId := cr_counterpartyId i;
          cr_subjectUserId := user; cr_subjectCounterpartyId := cr_subjectCounterpartyId i;
          cr_activityCode := activity; cr_economicEntityId := cr_economicEntityId i; cr_rateKind := cr_rateKind i;
          cr_currency := cr_currency i; cr_amount := cr_amount i; cr_unit := cr_unit i;
          cr_effectiveFrom := cr_effectiveFrom i; cr_effectiveTo := cr_effectiveTo i; cr_note := note;
          cr_createdByUserId := actor |}.

Definition rate_values (value : CreateBillingRateInput) (amount : Z) (id : uuid) (now : Z) : BillingRateRow :=
  {| br_id := id; br_scopeKind := cr_scopeKind value; br_projectId := cr_projectId value;
     br_counterpartyId := cr_counterpartyId value; br_subjectUserId := cr_subjectUserId value;
     br_subjectCounterpartyId := cr_subjectCounterpartyId value; br_activityCode := cr_activityCode value;
     br_economicEntityId := cr_economicEntityId value; br_rateKind := cr_rateKind value;
     br_currency := Text.toUpperCase (cr_currency value); br_amount := amount;
     br_unit := default PerHour (cr_unit value); br_effectiveFrom := cr_effectiveFrom value;
     br_effectiveTo := cr_effectiveTo value; br_note := cr_note value;
     br_createdByUserId := cr_createdByUserId value; br_updatedAt := now |}.

Definition create (input : CreateBillingRateInput) : wrun BillingRateRow :=
  value ← st_lift (createSchema input);
  amount ← st_lift (money_column (cr_amount value));
  _ ← st_lift (date_column (cr_effectiveFrom value));
  _ ← st_lift (z_opt date_column (cr_effectiveTo value));
  insertRate (rate_values value amount).

Definition get (billingRateId : uuid) : wrun BillingRateRow :=
  row ← st_gets (find_rate billingRateId);
  match row with None => st_throw WorkNotFoundError | Some row => mret row end.

Definition ended (effectiveTo : date) (now : Z) (r : BillingRateRow) : BillingRateRow :=
  {| br_id := br_id r; br_scopeKind := br_scopeKind r; br_projectId := br_projectId r;
     br_counterpartyId := br_counterpartyId r; br_subjectUserId := br_subjectUserId r;
     br_subjectCounterpartyId := br_subjectCounterpartyId r; br_activityCode := br_activityCode r;
     br_economicEntityId := br_economicEntityId r; br_rateKind := br_rateKind r; br_currency := br_currency r;
     br_amount := br_amount r; br_unit := br_unit r; br_effectiveFrom := br_effectiveFrom r;
     br_effectiveTo := Some effectiveTo; br_note := br_note r; br_createdByUserId := br_createdByUserId r;
     br_updatedAt := now |}.

Definition endDate (billingRateId : uuid) (effectiveTo : date) : wrun BillingRateRow :=
  _ ← st_lift (throw_if (negb (iso_shape effectiveTo)) ZodError);
  atomically (
    before ← get billingRateId;
    _ ← st_lift (throw_if (effectiveTo <? br_effectiveFrom before) WorkValidationError);
    _ ← st_lift (date_column effectiveTo);
    now ← st_gets wk_now;
    _ ← updateRate billingRateId (ended effectiveTo now);
    get billingRateId).

(** The scopes in the order of their names. *)
Definition scope_order (k : BillingRateScopeKind) : Z :=
  match k with
  | ScopeActivity => 0 | ScopeCounterparty => 1 | ScopeInstallation => 2 | ScopePerson => 3 | ScopeProject => 4
  | ScopeProjectPerson => 5
  end.
Definition listed_before (r q : BillingRateRow) : bool :=
  (scope_order (br_scopeKind r) <? scope_order (br_scopeKind q))
  || ((scope_order (br_scopeKind r) =? scope_order (br_scopeKind q)) && (br_effectiveFrom q <=? br_effectiveFrom r)).

Record BillingRateListFilter : Type := {
  lf_scopeKind : option BillingRateScopeKind;
  lf_rateKind : option RateKind;
  lf_projectId : option uuid;
  lf_counterpartyId : option uuid;
  lf_limit : option Z;
}.

Definition wanted {A} `{EqDecision A} (filter : option A) (value : A) : bool :=
  match filter with None => true | Some x => bool_decide (value = x) end.
Definition wanted_opt {A} `{EqDecision A} (filter : option A) (value : option A) : bool :=
  match filter with None => true | Some x => opt_eqb value x end.

Definition list_rates (f : BillingRateListFilter) : wrun (list BillingRateRow) :=
  st_gets (fun s => limited (lf_limit f) (sort_with listed_before
    (List.filter (fun r => wanted (lf_scopeKind f) (br_scopeKind r) && wanted (lf_rateKind f) (br_rateKind r)
                           && wanted_opt (lf_projectId f) (br_projectId r)
                           && wanted_opt (lf_counterpartyId f) (br_counterpartyId r)) (wk_rates s)))).
