(* ===== verification/TimeEntries.v ===== *)
(** * Time entries

    [packages/work/src/time.ts]: recording work against a project, with the rates
    resolved once and frozen on the row. *)
From S2P Require Import Prelude Decimal DecimalPackages Calendar Inputs Store Schema Ledger Stock WorkTables Rates.

Open Scope Z_scope.
#[local] Arguments String.append : simpl nomatch.

Record RecordTimeEntryInput : Type := {
  rt_projectId : option uuid;
  rt_counterpartyId : option uuid;
  rt_economicEntityId : option uuid;
  rt_workedByUserId : option string;
  rt_workedByCounterpartyId : option uuid;
  rt_workedByLabel : string;
  rt_activityCode : option string;
  rt_description : option string;
  rt_workedOn : date;
  rt_startedAt : option Z;
  rt_endedAt : option Z;
  rt_minutes : Z;
  rt_billable : option bool;
  rt_billableMinutes : option Z;
  rt_billRateAmount : option string;
  rt_costRateAmount : option string;
  rt_currency : option string;
  rt_createdByUserId : option string;
}.

(** [z.number().int()] with its bound *)
Definition safe_int (low n : Z) : bool := (low <=? n) && (n <=? 2 ^ 53 - 1).
Definition billable (i : RecordTimeEntryInput) : bool := default true (rt_billable i).

Definition recordSchema (i : RecordTimeEntryInput) : result RecordTimeEntryInput :=
  user ← checked (z_user (rt_workedByUserId i));
  label ← checked (z_text (rt_workedByLabel i));
  activity ← checked (z_opt z_text (rt_activityCode i));
  description ← checked (z_opt z_text (rt_description i));
  _ ← iso_date (rt_workedOn i);
  _ ← throw_if (negb (safe_int 1 (rt_minutes i))) WorkValidationError;
  _ ← throw_if (negb (match rt_billableMinutes i with None => true | Some n => safe_int 0 n end)) WorkValidationError;
  _ ← z_opt decimal_text (rt_billRateAmount i);
  _ ← z_opt decimal_text (rt_costRateAmount i);
  _ ← z_opt currency_code (rt_currency i);
  actor ← checked (z_user (rt_createdByUserId i));
  _ ← throw_if (negb (Bool.eqb (is_some (rt_startedAt i)) (is_some (rt_endedAt i)))) WorkValidationError;
  _ ← throw_if (negb (order_ok (rt_startedAt i) (rt_endedAt i))) WorkValidationError;
  _ ← throw_if (is_some (rt_workedByUserId i) && is_some (rt_workedByCounterpartyId i)) WorkValidationError;
  _ ← throw_if (billable i && negb (is_some (rt_projectId i)) && negb (is_some (rt_counterpartyId i)))
        WorkValidationError;
  _ ← throw_if (negb (billable i) && match rt_billableMinutes i with None => false | Some n => negb (n =? 0) end)
        WorkValidationError;
  _ ← throw_if ((is_some (rt_billRateAmount i) || is_some (rt_costRateAmount i)) && negb (is_some (rt_currency i)))
        WorkValidationError;
  mret {| rt_projectId := rt_projectId i; rt_counterpartyId := rt_counterpartyId i;
          rt_economicEntityId := rt_economicEntityId i; rt_workedByUserId := user;
          rt_workedByCounterpartyId := rt_workedByCounterpartyId i; rt_workedByLabel := label;
          rt_activityCode := activity; rt_description := description; rt_workedOn := rt_workedOn i;
          rt_startedAt := rt_startedAt i; rt_endedAt := rt_endedAt i; rt_minutes := rt_minutes i;
          rt_billable := rt_billable i; rt_billableMinutes := rt_billableMinutes i;
          rt_billRateAmount := rt_billRateAmount i; rt_costRateAmount := rt_costRateAmount i;
          rt_currency := rt_currency i; rt_createdByUserId := actor |}.

(** ** What an entry is worth *)
Definition timeEntryBillableAmount (row : TimeEntryRow) : result (option string) :=
  match er_billRateAmount (tn_rates row) with
  | Some rate =>
      if negb (tn_billable row) || (tn_billableMinutes row <=? 0) then mret None
      else
        scaled ← Work.multiplyDecimals (Js.bigint_to_string (tn_billableMinutes row)) (fromUnits rate) 6;
        hours ← Work.divideByInteger scaled.1 60 6;
        mret (Some hours.1)
  | None => mret None
  end.

Definition timeEntryCostAmount (row : TimeEntryRow) : result (option string) :=
  match er_costRateAmount (tn_rates row) with
  | Some rate =>
      scaled ← Work.multiplyDecimals (Js.bigint_to_string (tn_minutes row)) (fromUnits rate) 6;
      hours ← Work.divideByInteger scaled.1 60 6;
      mret (Some hours.1)
  | None => mret None
  end.

(** ** The service *)
Definition get (timeEntryId : uuid) : wrun TimeEntryRow :=
  row ← st_gets (find_entry timeEntryId);
  match row with None => st_throw WorkNotFoundError | Some row => mret row end.

Definition loadProjectDefaults (projectId : uuid) : wrun (option uuid * option uuid) :=
  row ← st_gets (find_project projectId);
  match row with
  | None => st_throw WorkNotFoundError
  | Some row => mret (pj_counterpartyId row, pn_economicEntityId (pj_attribution row))
  end.

(** A project's client and entity, where the caller names no client. *)
Definition attributed (value : RecordTimeEntryInput) : wrun (option uuid * option uuid) :=
  match rt_projectId value, rt_counterpartyId value with
  | Some project, None =>
      defaults ← loadProjectDefaults project;
      mret (defaults.1, match rt_economicEntityId value with None => defaults.2 | Some e => Some e end)
  | _, _ => mret (rt_counterpartyId value, rt_economicEntityId value)
  end.

(** A typed amount, or the ladder's. *)
Definition rate_outcome (manual currency : option string) (ladder : RateResolutionInput) : wrun RateResolutionResult :=
  match manual with
  | Some amount => mret {| rs_amount := Some amount; rs_currency := currency; rs_source := RateManual;
                           rs_billingRateId := None |}
  | None => resolveRate ladder
  end.

Definition either {A} (a b : option A) : option A := match a with Some _ => a | None => b end.

(** The rates of an entry, from both outcomes. *)
Definition entry_rates (bill cost : RateResolutionResult) (billAmount costAmount : option Z) : EntryRates :=
  {| er_currency := either (rs_currency bill) (rs_currency cost); er_billRateAmount := billAmount;
     er_billRateSource := rs_source bill; er_costRateAmount := costAmount; er_costRateSource := rs_source cost;
     er_billingRateId := rs_billingRateId bill |}.

Definition mismatched (a b : option string) : bool :=
  match a, b with Some x, Some y => negb (String.eqb x y) | _, _ => false end.

Definition entry_values (value : RecordTimeEntryInput) (counterparty entity : option uuid) (rates : EntryRates)
    (id : uuid) (now : Z) : TimeEntryRow :=
  {| tn_id := id; tn_projectId := rt_projectId value; tn_counterpartyId := counterparty;
     tn_economicEntityId := entity; tn_workedByUserId := rt_workedByUserId value;
     tn_workedByCounterpartyId := rt_workedByCounterpartyId value; tn_workedByLabel := rt_workedByLabel value;
     tn_activityCode := rt_activityCode value; tn_description := rt_description value;
     tn_workedOn := rt_workedOn value; tn_startedAt := rt_startedAt value; tn_endedAt := rt_endedAt value;
     tn_minutes := rt_minutes value; tn_billable := billable value;
     tn_billableMinutes := default (if billable value then rt_minutes value else 0) (rt_billableMinutes value);
     tn_rates := rates; tn_approvedAt := None; tn_approvedByUserId := None; tn_lockedAt := None;
     tn_createdByUserId := rt_createdByUserId value; tn_createdAt := now; tn_updatedAt := now |}.

Definition ladder_input (value : RecordTimeEntryInput) (counterparty : option uuid) (kind : RateKind)
    : RateResolutionInput :=
  {| rr_rateKind := kind; rr_projectId := rt_projectId value; rr_counterpartyId := counterparty;
     rr_workedByUserId := rt_workedByUserId value; rr_workedByCounterpartyId := rt_workedByCounterpartyId value;
     rr_activityCode := rt_activityCode value; rr_workedOn := rt_workedOn value |}.

Definition record_body (value : RecordTimeEntryInput) : wrun TimeEntryRow :=
  target ← attributed value;
  bill ← rate_outcome (rt_billRateAmount value) (rt_currency value) (ladder_input value target.1 BillRate);
  cost ← rate_outcome (rt_costRateAmount value) (rt_currency value) (ladder_input value target.1 CostRate);
  _ ← st_lift (throw_if (mismatched (rs_currency bill) (rs_currency cost)) WorkValidationError);
  _ ← st_lift (throw_if ((is_some (rs_amount bill) || is_some (rs_amount cost))
                         && negb (is_some (either (rs_currency bill) (rs_currency cost)))) WorkValidationError);
  billAmount ← st_lift (z_opt money_column (rs_amount bill));
  costAmount ← st_lift (z_opt money_column (rs_amount cost));
  _ ← st_lift (date_column (rt_workedOn value));
  insertEntry (entry_values value target.1 target.2 (entry_rates bill cost billAmount costAmount)).

Definition record (input : RecordTimeEntryInput) : wrun TimeEntryRow :=
  value ← st_lift (recordSchema input);
  atomically (record_body value).

(** *** [update] *)
Record UpdateTimeEntryInput : Type := {
  ut_timeEntryId : uuid;
  ut_description : option (option string);
  ut_activityCode : option (option string);
  ut_minutes : option Z;
  ut_billable : option bool;
  ut_billableMinutes : option Z;
  ut_startedAt : option (option Z);
  ut_endedAt : option (option Z);
}.

Definition updateSchema (i : UpdateTimeEntryInput) : result UpdateTimeEntryInput :=
  description ← checked (z_opt (z_opt z_text) (ut_description i));
  activity ← checked (z_opt (z_opt z_text) (ut_activityCode i));
  _ ← throw_if (negb (match ut_minutes i with None => true | Some n => safe_int 1 n end)) WorkValidationError;
  _ ← throw_if (negb (match ut_billableMinutes i with None => true | Some n => safe_int 0 n end)) WorkValidationError;
  mret {| ut_timeEntryId := ut_timeEntryId i; ut_description := description; ut_activityCode := activity;
          ut_minutes := ut_minutes i; ut_billable := ut_billable i; ut_billableMinutes := ut_billableMinutes i;
          ut_startedAt := ut_startedAt i; ut_endedAt := ut_endedAt i |}.

Definition next_billable_minutes (value : UpdateTimeEntryInput) (before : TimeEntryRow) : Z :=
  default (if opt_eqb (ut_billable value) false then 0 else tn_billableMinutes before) (ut_billableMinutes value).

(** The assignments of the statement. *)
Definition edited (value : UpdateTimeEntryInput) (billableMinutes : Z) (now : Z) (r : TimeEntryRow) : TimeEntryRow :=
  {| tn_id := tn_id r; tn_projectId := tn_projectId r; tn_counterpartyId := tn_counterpartyId r;
     tn_economicEntityId := tn_economicEntityId r; tn_workedByUserId := tn_workedByUserId r;
     tn_workedByCounterpartyId := tn_workedByCounterpartyId r; tn_workedByLabel := tn_workedByLabel r;
     tn_activityCode := default (tn_activityCode r) (ut_activityCode value);
     tn_description := default (tn_description r) (ut_description value);
     tn_workedOn := tn_workedOn r; tn_startedAt := default (tn_startedAt r) (ut_startedAt value);
     tn_endedAt := default (tn_endedAt r) (ut_endedAt value); tn_minutes := default (tn_minutes r) (ut_minutes value);
     tn_billable := default (tn_billable r) (ut_billable value); tn_billableMinutes := billableMinutes;
     tn_rates := tn_rates r; tn_approvedAt := tn_approvedAt r; tn_approvedByUserId := tn_approvedByUserId r;
     tn_lockedAt := tn_lockedAt r; tn_createdByUserId := tn_createdByUserId r; tn_createdAt := tn_createdAt r;
     tn_updatedAt := now |}.

(** Refused on an entry an issued invoice line holds. *)
Definition unlocked_entry (timeEntryId : uuid) : wrun TimeEntryRow :=
  before ← get timeEntryId;
  _ ← st_lift (throw_if (is_some (tn_lockedAt before)) WorkBoundaryError);
  mret before.

Definition update_body (value : UpdateTimeEntryInput) : wrun TimeEntryRow :=
  before ← unlocked_entry (ut_timeEntryId value);
  let nextBillable := default (tn_billable before) (ut_billable value) in
  let nextBillableMinutes := next_billable_minutes value before in
  _ ← st_lift (throw_if (negb nextBillable && negb (nextBillableMinutes =? 0)) WorkValidationError);
  let nextStartedAt := default (tn_startedAt before) (ut_startedAt value) in
  let nextEndedAt := default (tn_endedAt before) (ut_endedAt value) in
  _ ← st_lift (throw_if (negb (Bool.eqb (is_some nextStartedAt) (is_some nextEndedAt))) WorkValidationError);
  _ ← st_lift (throw_if (negb (order_ok nextStartedAt nextEndedAt)) WorkValidationError);
  _ ← st_lift (z_opt (z_opt text_literal) (ut_description value));
  _ ← st_lift (z_opt (z_opt text_literal) (ut_activityCode value));
  now ← st_gets wk_now;
  _ ← updateEntry (tn_id before) (edited value nextBillableMinutes now);
  get (tn_id before).

Definition update (input : UpdateTimeEntryInput) : wrun TimeEntryRow :=
  value ← st_lift (updateSchema input);
  atomically (update_body value).

(** *** [approve] and [reresolveRates] *)
Definition with_state (rates : EntryRates) (approvedAt : option Z) (approvedBy : option string) (now : Z)
    (r : TimeEntryRow) : TimeEntryRow :=
  {| tn_id := tn_id r; tn_projectId := tn_projectId r; tn_counterpartyId := tn_counterpartyId r;
     tn_economicEntityId := tn_economicEntityId r; tn_workedByUserId := tn_workedByUserId r;
     tn_workedByCounterpartyId := tn_workedByCounterpartyId r; tn_workedByLabel := tn_workedByLabel r;
     tn_activityCode := tn_activityCode r; tn_description := tn_description r; tn_workedOn := tn_workedOn r;
     tn_startedAt := tn_startedAt r; tn_endedAt := tn_endedAt r; tn_minutes := tn_minutes r;
     tn_billable := tn_billable r; tn_billableMinutes := tn_billableMinutes r; tn_rates := rates;
     tn_approvedAt := approvedAt; tn_approvedByUserId := approvedBy; tn_lockedAt := tn_lockedAt r;
     tn_createdByUserId := tn_createdByUserId r; tn_createdAt := tn_createdAt r; tn_updatedAt := now |}.

Definition approve (timeEntryId : uuid) (approvedByUserId : string) : wrun TimeEntryRow :=
  atomically (
    before ← unlocked_entry timeEntryId;
    _ ← st_lift (text_literal approvedByUserId);
    now ← st_gets wk_now;
    _ ← updateEntry (tn_id before) (fun r => with_state (tn_rates r) (Some now) (Some approvedByUserId) now r);
    get (tn_id before)).

Definition ladder_of (row : TimeEntryRow) (kind : RateKind) : RateResolutionInput :=
  {| rr_rateKind := kind; rr_projectId := tn_projectId row; rr_counterpartyId := tn_counterpartyId row;
     rr_workedByUserId := tn_workedByUserId row; rr_workedByCounterpartyId := tn_workedByCounterpartyId row;
     rr_activityCode := tn_activityCode row; rr_workedOn := tn_workedOn row |}.

Definition reresolveRates (timeEntryId : uuid) : wrun TimeEntryRow :=
  atomically (
    before ← unlocked_entry timeEntryId;
    bill ← resolveRate (ladder_of before BillRate);
    cost ← resolveRate (ladder_of before CostRate);
    _ ← st_lift (throw_if (is_some (rs_amount bill) && is_some (rs_amount cost)
                           && mismatched (rs_currency bill) (rs_currency cost)) WorkValidationError);
    billAmount ← st_lift (z_opt money_column (rs_amount bill));
    costAmount ← st_lift (z_opt money_column (rs_amount cost));
    now ← st_gets wk_now;
    _ ← updateEntry (tn_id before)
          (fun r => with_state (entry_rates bill cost billAmount costAmount) (tn_approvedAt r) (tn_approvedByUserId r)
                      now r);
    get (tn_id before)).

(** *** Lists *)
Record TimeEntryListFilter : Type := {
  tf_billableOnly : bool;
  tf_unlockedOnly : bool;
  tf_fromWorkedOn : option date;
  tf_toWorkedOn : option date;
  tf_limit : option Z;
}.

Definition applyListFilter (f : TimeEntryListFilter) (r : TimeEntryRow) : bool :=
  (negb (tf_billableOnly f) || tn_billable r)
  && (negb (tf_unlockedOnly f) || negb (is_some (tn_lockedAt r)))
  && match tf_fromWorkedOn f with None => true | Some t => t <=? tn_workedOn r end
  && match tf_toWorkedOn f with None => true | Some t => tn_workedOn r <=? t end.

(** [order by worked_on desc, created_at desc] *)
Definition latest_first (r q : TimeEntryRow) : bool :=
  (tn_workedOn q <? tn_workedOn r) || ((tn_workedOn q =? tn_workedOn r) && (tn_createdAt q <=? tn_createdAt r)).

(** [dateLiteral] and the cast of its literal *)
Definition date_bound (t : date) : result date :=
  _ ← iso_date t; date_column t.

Definition list_entries (p : TimeEntryRow -> bool) (f : TimeEntryListFilter) : wrun (list TimeEntryRow) :=
  _ ← st_lift (z_opt date_bound (tf_fromWorkedOn f));
  _ ← st_lift (z_opt date_bound (tf_toWorkedOn f));
  st_gets (fun s => limited (tf_limit f)
                      (sort_with latest_first (List.filter (fun r => p r && applyListFilter f r) (wk_entries s)))).

Definition listForProject (projectId : uuid) (f : TimeEntryListFilter) : wrun (list TimeEntryRow) :=
  list_entries (fun r => opt_eqb (tn_projectId r) projectId) f.
Definition listForWorker (workedByUserId : string) (f : TimeEntryListFilter) : wrun (list TimeEntryRow) :=
  _ ← st_lift (text_literal workedByUserId);
  list_entries (fun r => opt_eqb (tn_workedByUserId r) workedByUserId) f.
