(* ===== verification/Materials.v ===== *)
(** * Materials used on a project

    [packages/work/src/materials.ts]: uses of stock or of bought material, with the
    cost snapshotted when they are recorded. *)
From S2P Require Import Prelude Decimal DecimalPackages Calendar Inputs Store Schema Ledger Stock WorkTables Rates.

Open Scope Z_scope.
#[local] Arguments String.append : simpl nomatch.

Record RecordMaterialUseInput : Type := {
  rm_projectId : uuid;
  rm_inventoryItemId : option uuid;
  rm_catalogItemId : option uuid;
  rm_inventoryAllocationId : option uuid;
  rm_inventoryMovementId : option uuid;
  rm_description : string;
  rm_quantity : string;
  rm_consumedOn : date;
  rm_costBasisSource : CostBasisSource;
  rm_unitCostAmount : option string;
  rm_currency : option string;
  rm_billable : option bool;
  rm_markupPercent : option string;
  rm_unitChargeAmount : option string;
  rm_createdByUserId : option string;
}.

Definition billable (i : RecordMaterialUseInput) : bool := default true (rm_billable i).
Definition markup_text (s : string) : result unit :=
  _ ← decimal_text s; throw_if (negb (number_ge_minus_100 s)) WorkValidationError.

Definition recordSchema (i : RecordMaterialUseInput) : result RecordMaterialUseInput :=
  description ← checked (z_text (rm_description i));
  _ ← decimal_text (rm_quantity i);
  _ ← throw_if (negb (number_positive (rm_quantity i))) WorkValidationError;
  _ ← iso_date (rm_consumedOn i);
  _ ← z_opt decimal_text (rm_unitCostAmount i);
  _ ← z_opt currency_code (rm_currency i);
  _ ← z_opt markup_text (rm_markupPercent i);
  _ ← z_opt decimal_text (rm_unitChargeAmount i);
  actor ← checked (z_user (rm_createdByUserId i));
  _ ← throw_if (negb (Bool.eqb (bool_decide (rm_costBasisSource i = InventoryBasis)) (is_some (rm_inventoryItemId i))))
        WorkValidationError;
  _ ← throw_if (negb (billable i) && is_some (rm_unitChargeAmount i)) WorkValidationError;
  mret {| rm_projectId := rm_projectId i; rm_inventoryItemId := rm_inventoryItemId i;
          rm_catalogItemId := rm_catalogItemId i; rm_inventoryAllocationId := rm_inventoryAllocationId i;
          rm_inventoryMovementId := rm_inventoryMovementId i; rm_description := description;
          rm_quantity := rm_quantity i; rm_consumedOn := rm_consumedOn i;
          rm_costBasisSource := rm_costBasisSource i; rm_unitCostAmount := rm_unitCostAmount i;
          rm_currency := rm_currency i; rm_billable := rm_billable i; rm_markupPercent := rm_markupPercent i;
          rm_unitChargeAmount := rm_unitChargeAmount i; rm_createdByUserId := actor |}.

(** ** Amounts *)
Definition applyMarkupPercent (unitCostAmount markupPercent : string) : result string :=
  rawMarkup ← Work.multiplyDecimals unitCostAmount markupPercent 6;
  markupAmount ← Work.divideByInteger rawMarkup.1 100 6;
  Work.sumDecimals [unitCostAmount; markupAmount.1] 6.

Definition materialUseLineAmount (row : ProjectMaterialUseRow) : result (option string) :=
  match mu_unitChargeAmount row with
  | None => mret None
  | Some charge =>
      amount ← Work.multiplyDecimals (fromUnits (mu_quantity row)) (fromUnits charge) 6;
      mret (Some amount.1)
  end.

(** ** The service *)
Definition get (materialUseId : uuid) : wrun ProjectMaterialUseRow :=
  row ← st_gets (find_use materialUseId);
  match row with None => st_throw WorkNotFoundError | Some row => mret row end.

Definition requireProject (projectId : uuid) : wrun unit :=
  row ← st_gets (find_project projectId);
  match row with None => st_throw WorkNotFoundError | Some _ => mret tt end.

(** The item's currency and landed cost. *)
Definition loadInventoryItem (inventoryItemId : uuid) : wrun (string * string) :=
  row ← st_gets (fun s => find_item inventoryItemId (wk_stock s));
  match row with
  | None => st_throw WorkNotFoundError
  | Some row => mret (ir_currency row, fromUnits (ba_landedCostAmount (ir_basis row)))
  end.

(** The currency and the unit cost of a use. *)
Definition cost_snapshot (value : RecordMaterialUseInput) : wrun (string * string) :=
  match rm_costBasisSource value, rm_inventoryItemId value with
  | InventoryBasis, Some itemId =>
      item ← loadInventoryItem itemId;
      _ ← st_lift (throw_if (match rm_currency value with
                             | None => false
                             | Some currency => negb (String.eqb (Text.toUpperCase currency) item.1)
                             end) WorkValidationError);
      mret (default item.1 (rm_currency value), default item.2 (rm_unitCostAmount value))
  | _, _ =>
      match rm_currency value with
      | None => st_throw WorkValidationError
      | Some currency => mret (currency, default "0"%string (rm_unitCostAmount value))
      end
  end.

(** The charge given, or the cost with its markup. *)
Definition unit_charge (value : RecordMaterialUseInput) (unitCostAmount : string) : result (option string) :=
  match rm_unitChargeAmount value, rm_markupPercent value with
  | None, Some markup => if billable value then charge ← applyMarkupPercent unitCostAmount markup; mret (Some charge)
                         else mret None
  | charge, _ => mret charge
  end.

Definition use_values (value : RecordMaterialUseInput) (currency : string) (quantity unitCost : Z)
    (markup charge : option Z) (id : uuid) (now : Z) : ProjectMaterialUseRow :=
  {| mu_id := id; mu_projectId := rm_projectId value; mu_inventoryItemId := rm_inventoryItemId value;
     mu_catalogItemId := rm_catalogItemId value; mu_inventoryAllocationId := rm_inventoryAllocationId value;
     mu_inventoryMovementId := rm_inventoryMovementId value; mu_description := rm_description value;
     mu_quantity := quantity; mu_consumedOn := rm_consumedOn value; mu_currency := Text.toUpperCase currency;
     mu_unitCostAmount := unitCost; mu_costBasisSource := rm_costBasisSource value; mu_billable := billable value;
     mu_markupPercent := markup; mu_unitChargeAmount := charge; mu_lockedAt := None;
     mu_createdByUserId := rm_createdByUserId value; mu_createdAt := now; mu_updatedAt := now |}.

Definition insert_use (value : RecordMaterialUseInput) (currency unitCost : string) (charge : option string)
    : wrun ProjectMaterialUseRow :=
  quantity ← st_lift (money_column (rm_quantity value));
  _ ← st_lift (date_column (rm_consumedOn value));
  cost ← st_lift (money_column unitCost);
  markup ← st_lift (z_opt (sql_numeric 10 4) (rm_markupPercent value));
  price ← st_lift (z_opt money_column charge);
  insertUse (use_values value currency quantity cost markup price).

Definition record_body (value : RecordMaterialUseInput) : wrun ProjectMaterialUseRow :=
  _ ← requireProject (rm_projectId value);
  snapshot ← cost_snapshot value;
  charge ← st_lift (unit_charge value snapshot.2);
  st_catch (insert_use value snapshot.1 snapshot.2 charge)
    (fun error => if isUniqueViolation error then st_throw WorkConflictError else st_throw error).

Definition record (input : RecordMaterialUseInput) : wrun ProjectMaterialUseRow :=
  value ← st_lift (recordSchema input);
  atomically (record_body value).

(** *** [update] *)
Record UpdateMaterialUseInput : Type := {
  um_materialUseId : uuid;
  um_description : option string;
  um_billable : option bool;
  um_markupPercent : option (option string);
  um_unitChargeAmount : option (option string);
}.

Definition updateSchema (i : UpdateMaterialUseInput) : result UpdateMaterialUseInput :=
  description ← checked (z_opt z_text (um_description i));
  _ ← z_opt (z_opt markup_text) (um_markupPercent i);
  _ ← z_opt (z_opt decimal_text) (um_unitChargeAmount i);
  _ ← throw_if (opt_eqb (um_billable i) false
                && match um_unitChargeAmount i with Some (Some _) => true | _ => false end) WorkValidationError;
  mret {| um_materialUseId := um_materialUseId i; um_description := description; um_billable := um_billable i;
          um_markupPercent := um_markupPercent i; um_unitChargeAmount := um_unitChargeAmount i |}.

Definition edited (value : UpdateMaterialUseInput) (markup charge : option (option Z)) (now : Z)
    (r : ProjectMaterialUseRow) : ProjectMaterialUseRow :=
  {| mu_id := mu_id r; mu_projectId := mu_projectId r; mu_inventoryItemId := mu_inventoryItemId r;
     mu_catalogItemId := mu_catalogItemId r; mu_inventoryAllocationId := mu_inventoryAllocationId r;
     mu_inventoryMovementId := mu_inventoryMovementId r;
     mu_description := default (mu_description r) (um_description value); mu_quantity := mu_quantity r;
     mu_consumedOn := mu_consumedOn r; mu_currency := mu_currency r; mu_unitCostAmount := mu_unitCostAmount r;
     mu_costBasisSource := mu_costBasisSource r; mu_billable := default (mu_billable r) (um_billable value);
     mu_markupPercent := default (mu_markupPercent r) markup;
     mu_unitChargeAmount := default (mu_unitChargeAmount r) charge; mu_lockedAt := mu_lockedAt r;
     mu_createdByUserId := mu_createdByUserId r; mu_createdAt := mu_createdAt r; mu_updatedAt := now |}.

Definition update_body (value : UpdateMaterialUseInput) : wrun ProjectMaterialUseRow :=
  before ← get (um_materialUseId value);
  _ ← st_lift (throw_if (is_some (mu_lockedAt before)) WorkBoundaryError);
  let nextBillable := default (mu_billable before) (um_billable value) in
  let nextUnitCharge := default (fromUnits <$> mu_unitChargeAmount before) (um_unitChargeAmount value) in
  _ ← st_lift (throw_if (negb nextBillable && is_some nextUnitCharge) WorkValidationError);
  _ ← st_lift (z_opt text_literal (um_description value));
  markup ← st_lift (z_opt (z_opt (sql_numeric 10 4)) (um_markupPercent value));
  charge ← st_lift (z_opt (z_opt money_column) (um_unitChargeAmount value));
  now ← st_gets wk_now;
  _ ← updateUse (mu_id before) (edited value markup charge now);
  get (mu_id before).

Definition update (input : UpdateMaterialUseInput) : wrun ProjectMaterialUseRow :=
  value ← st_lift (updateSchema input);
  atomically (update_body value).

(** [order by consumed_on desc, created_at desc] *)
Definition latest_first (r q : ProjectMaterialUseRow) : bool :=
  (mu_consumedOn q <? mu_consumedOn r)
  || ((mu_consumedOn q =? mu_consumedOn r) && (mu_createdAt q <=? mu_createdAt r)).

Definition listForProject (projectId : uuid) (billableOnly : bool) (limit : option Z)
    : wrun (list ProjectMaterialUseRow) :=
  st_gets (fun s => limited limit (sort_with latest_first
    (List.filter (fun r => bool_decide (mu_projectId r = projectId) && (negb billableOnly || mu_billable r))
       (wk_uses s)))).
