(* ===== verification/Unbilled.v ===== *)
(** * What has not been billed

    [packages/work/src/unbilled.ts]: the billable time and materials no invoice
    holds, and their totals by currency. *)
From S2P Require Import Prelude Decimal DecimalPackages Calendar Inputs Store Schema Ledger Stock WorkTables Rates.
From S2P Require Import TimeEntries Materials.

Open Scope Z_scope.
#[local] Arguments String.append : simpl nomatch.

Inductive SourceFactType : Type := TimeEntryFact | MaterialUseFact.

(** The seam to invoices: whether an active invoice line holds a fact.  The
    source awaits a promise for each row; here it is a function, so a resolver
    that rejects (the read then rejects with its error) is not modelled. *)
Definition BilledResolver : Type := SourceFactType -> uuid -> bool.
Definition alwaysUnbilledResolver : BilledResolver := fun _ _ => false.

Record UnbilledWorkFilter : Type := {
  uf_projectId : option uuid;
  uf_counterpartyId : option uuid;
  uf_economicEntityId : option uuid;
  uf_limit : option Z;
}.

Definition timeFilterPredicates (f : UnbilledWorkFilter) (r : TimeEntryRow) : bool :=
  wanted_opt (uf_projectId f) (tn_projectId r)
  && wanted_opt (uf_counterpartyId f) (tn_counterpartyId r)
  && wanted_opt (uf_economicEntityId f) (tn_economicEntityId r).
(** A use carries its project only: the other filters do not constrain it. *)
Definition materialFilterPredicates (f : UnbilledWorkFilter) (r : ProjectMaterialUseRow) : bool :=
  wanted (uf_projectId f) (mu_projectId r).

Definition open_entry (f : UnbilledWorkFilter) (r : TimeEntryRow) : bool :=
  tn_billable r && negb (is_some (tn_lockedAt r)) && timeFilterPredicates f r.
Definition open_use (f : UnbilledWorkFilter) (r : ProjectMaterialUseRow) : bool :=
  mu_billable r && negb (is_some (mu_lockedAt r)) && materialFilterPredicates f r.

Definition fetchCandidateTime (f : UnbilledWorkFilter) (s : Work) : list TimeEntryRow :=
  limited (uf_limit f) (sort_with TimeEntries.latest_first (List.filter (open_entry f) (wk_entries s))).
Definition fetchCandidateMaterials (f : UnbilledWorkFilter) (s : Work) : list ProjectMaterialUseRow :=
  limited (uf_limit f) (sort_with Materials.latest_first (List.filter (open_use f) (wk_uses s))).

Definition listUnratedBillableTime (f : UnbilledWorkFilter) : wrun (list TimeEntryRow) :=
  st_gets (fun s => limited (uf_limit f) (sort_with TimeEntries.latest_first
    (List.filter (fun r => open_entry f r && unresolved (er_billRateSource (tn_rates r))) (wk_entries s)))).

(** ** Totals by currency *)
Record Bucket : Type := { bk_amounts : list string; bk_count : nat; bk_hasGap : bool }.
Record CurrencyTotal : Type := { ct_currency : string; ct_count : nat; ct_totalAmount : option string }.

(** One row added to its currency's bucket; the map keeps the order of insertion. *)
Fixpoint add_to (currency : string) (amount : option string) (m : list (string * Bucket)) : list (string * Bucket) :=
  match m with
  | [] => [(currency, {| bk_amounts := option_list amount; bk_count := 1; bk_hasGap := negb (is_some amount) |})]
  | (k, b) :: m =>
      if String.eqb k currency
      then (k, {| bk_amounts := bk_amounts b ++ option_list amount; bk_count := S (bk_count b);
                  bk_hasGap := bk_hasGap b || negb (is_some amount) |}) :: m
      else (k, b) :: add_to currency amount m
  end.

(** [localeCompare] of currency codes and of the dash that stands for none: the dash
    first, then by letter, and a small letter before its capital where only the case
    differs. *)
Definition no_currency : string := "—".
Definition collation_keys (s : string) : list Z * list Z :=
  let codes := Z.of_nat ∘ nat_of_ascii <$> list_ascii_of_string s in
  let upper := Z.of_nat ∘ nat_of_ascii ∘ Text.upper_char <$> list_ascii_of_string s in
  if String.eqb s no_currency then ([], []) else (upper, Z.opp <$> codes).
Fixpoint lex_le (a b : list Z) : bool :=
  match a, b with
  | [], _ => true
  | _, [] => false
  | x :: a, y :: b => (x <? y) || ((x =? y) && lex_le a b)
  end.
Definition locale_le (a b : string) : bool :=
  let '(p, c) := collation_keys a in
  let '(q, d) := collation_keys b in
  if bool_decide (p = q) then lex_le c d else lex_le p q.

Definition to_total (e : string * Bucket) : result CurrencyTotal :=
  let '(currency, bucket) := e in
  if bk_hasGap bucket then mret {| ct_currency := currency; ct_count := bk_count bucket; ct_totalAmount := None |}
  else
    total ← Work.sumDecimals (bk_amounts bucket) 6;
    mret {| ct_currency := currency; ct_count := bk_count bucket; ct_totalAmount := Some total |}.
Definition toTotals (m : list (string * Bucket)) : result (list CurrencyTotal) :=
  totals ← res_mapM to_total m;
  mret (sort_with (fun a b => locale_le (ct_currency a) (ct_currency b)) totals).

(** A currency and an amount for each row. *)
Definition bucketed {A} (currency : A -> string) (amount : A -> result (option string)) (rows : list A)
    : result (list (string * Bucket)) :=
  amounts ← res_mapM amount rows;
  mret (foldl (fun m e => add_to e.1 e.2 m) [] (zip (currency <$> rows) amounts)).

Definition entry_currency (r : TimeEntryRow) : string := default no_currency (er_currency (tn_rates r)).

Record UnbilledWorkSummary : Type := {
  us_timeByCurrency : list CurrencyTotal;
  us_unratedCount : nat;
  us_materialsByCurrency : list CurrencyTotal;
  us_unpricedCount : nat;
}.

Section service.
Context (billedResolver : BilledResolver).

Definition excludeBilled {A} (id : A -> uuid) (type : SourceFactType) (rows : list A) : list A :=
  List.filter (fun row => negb (billedResolver type (id row))) rows.

Definition unbilled_time (f : UnbilledWorkFilter) (s : Work) : list TimeEntryRow :=
  excludeBilled tn_id TimeEntryFact (fetchCandidateTime f s).
Definition unbilled_materials (f : UnbilledWorkFilter) (s : Work) : list ProjectMaterialUseRow :=
  excludeBilled mu_id MaterialUseFact (fetchCandidateMaterials f s).

Definition listUnbilledTime (f : UnbilledWorkFilter) : wrun (list TimeEntryRow) := st_gets (unbilled_time f).
Definition listUnbilledMaterials (f : UnbilledWorkFilter) : wrun (list ProjectMaterialUseRow) :=
  st_gets (unbilled_materials f).

Definition summarize (f : UnbilledWorkFilter) : wrun UnbilledWorkSummary :=
  time ← listUnbilledTime f;
  materials ← listUnbilledMaterials f;
  timeByCurrency ← st_lift (bucketed entry_currency timeEntryBillableAmount time);
  materialsByCurrency ← st_lift (bucketed mu_currency materialUseLineAmount materials);
  timeTotals ← st_lift (toTotals timeByCurrency);
  materialTotals ← st_lift (toTotals materialsByCurrency);
  mret {| us_timeByCurrency := timeTotals;
          us_unratedCount := length (List.filter (fun r => unresolved (er_billRateSource (tn_rates r))) time);
          us_materialsByCurrency := materialTotals;
          us_unpricedCount := length (List.filter (fun r => negb (is_some (mu_unitChargeAmount r))) materials) |}.
End service.
