(* ===== verification/Projects.v ===== *)
(** * Projects

    [packages/work/src/projects.ts] and [codes.ts]: jobs in a hierarchy of two
    levels, their reference codes and their attribution to an entity. *)
From S2P Require Import Prelude Decimal DecimalPackages Calendar Inputs Store Schema Ledger Stock WorkTables Rates.
From S2P Require Import Movements Locations.

Open Scope Z_scope.
#[local] Arguments String.append : simpl nomatch.

(** ** [codes.ts] *)
Definition code_prefix (year : Z) : string := text_of ["PRJ-"; Js.bigint_to_string year; "-"].
Definition projectReferenceCode (year sequence : Z) : string :=
  String.append (code_prefix year) (Js.pad_start 4 "0" (Js.bigint_to_string sequence)).

(** [withCodeRetry], over the attempts left: any unique violation is retried. *)
Fixpoint retry {A} (attempts : nat) (attempt : wrun A) : wrun A :=
  match attempts with
  | O => st_throw WorkConflictError
  | S n => st_catch attempt (fun error => if isUniqueViolation error then retry n attempt else st_throw error)
  end.
Definition withCodeRetry {A} (attempt : wrun A) : wrun A := retry 5 attempt.

(** ** [create] *)
Record CreateProjectInput : Type := {
  cp_referenceCode : option string;
  cp_parentProjectId : option uuid;
  cp_counterpartyId : option uuid;
  cp_counterpartySiteId : option uuid;
  cp_economicEntityId : option uuid;
  cp_entityAttributionSource : option ProjectEntityAttributionSource;
  cp_name : string;
  cp_description : option string;
  cp_projectKind : string;
  cp_status : option string;
  cp_billingMethod : ProjectBillingMethod;
  cp_currency : string;
  cp_estimateAmount : option string;
  cp_budgetAmount : option string;
  cp_fixedPriceAmount : option string;
  cp_notToExceedAmount : option string;
  cp_startsOn : option date;
  cp_targetEndOn : option date;
  cp_createdByUserId : option string;
}.

Definition createSchema (i : CreateProjectInput) : result CreateProjectInput :=
  code ← checked (z_opt z_text (cp_referenceCode i));
  name ← checked (z_text (cp_name i));
  description ← checked (z_opt z_text (cp_description i));
  kind ← checked (z_text (cp_projectKind i));
  status ← checked (z_opt z_text (cp_status i));
  _ ← currency_code (cp_currency i);
  _ ← z_opt decimal_text (cp_estimateAmount i);
  _ ← z_opt decimal_text (cp_budgetAmount i);
  _ ← z_opt decimal_text (cp_fixedPriceAmount i);
  _ ← z_opt decimal_text (cp_notToExceedAmount i);
  _ ← z_opt iso_date (cp_startsOn i);
  _ ← z_opt iso_date (cp_targetEndOn i);
  actor ← checked (z_user (cp_createdByUserId i));
  _ ← throw_if (negb (Bool.eqb (bool_decide (cp_billingMethod i = FixedPrice)) (is_some (cp_fixedPriceAmount i))))
        WorkValidationError;
  _ ← throw_if (bool_decide (cp_billingMethod i = InternalWork) && is_some (cp_counterpartyId i)) WorkValidationError;
  _ ← throw_if (negb (needs_no_counterparty (cp_billingMethod i)) && negb (is_some (cp_counterpartyId i)))
        WorkValidationError;
  _ ← throw_if (negb (order_ok (cp_startsOn i) (cp_targetEndOn i))) WorkValidationError;
  _ ← throw_if (opt_eqb (cp_entityAttributionSource i) ProjectManual && negb (is_some (cp_economicEntityId i)))
        WorkValidationError;
  mret {| cp_referenceCode := code; cp_parentProjectId := cp_parentProjectId i;
          cp_counterpartyId := cp_counterpartyId i; cp_counterpartySiteId := cp_counterpartySiteId i;
          cp_economicEntityId := cp_economicEntityId i; cp_entityAttributionSource := cp_entityAttributionSource i;
          cp_name := name; cp_description := description; cp_projectKind := kind; cp_status := status;
          cp_billingMethod := cp_billingMethod i; cp_currency := cp_currency i;
          cp_estimateAmount := cp_estimateAmount i; cp_budgetAmount := cp_budgetAmount i;
          cp_fixedPriceAmount := cp_fixedPriceAmount i; cp_notToExceedAmount := cp_notToExceedAmount i;
          cp_startsOn := cp_startsOn i; cp_targetEndOn := cp_targetEndOn i; cp_createdByUserId := actor |}.

Definition get (projectId : uuid) : wrun ProjectRow :=
  row ← st_gets (find_project projectId);
  match row with None => st_throw WorkNotFoundError | Some row => mret row end.

Definition getByReferenceCode (referenceCode : string) : wrun ProjectRow :=
  _ ← st_lift (text_literal referenceCode);
  row ← st_gets (fun s => find_row (fun r => String.eqb (pj_referenceCode r) referenceCode) (wk_projects s));
  match row with None => st_throw WorkNotFoundError | Some row => mret row end.

(** [substring(reference_code from '^PRJ-[0-9]{4}-([0-9]+)$')] *)
Definition code_sequence (code : string) : option string :=
  let year := Js.slice 4 8 code in
  let digits := Js.slice_from 9 code in
  if Js.starts_with "PRJ-" code && (String.length year =? 4)%nat && Js.all_digits year
     && String.eqb (Js.slice 8 9 code) "-" && Js.all_digits digits && negb (String.eqb digits "")
  then Some digits else None.

(** [::integer] *)
Definition integer_cast (digits : string) : result Z :=
  let n := Js.bigint digits in if int4 n then Ok n else Throw (SqlError "22003").

Definition generateReferenceCode (year : Z) : wrun string :=
  codes ← st_gets (fun s => List.filter (Js.starts_with (code_prefix year)) (pj_referenceCode <$> wk_projects s));
  sequences ← st_lift (res_mapM integer_cast (omap code_sequence codes));
  mret (projectReferenceCode year (foldr Z.max 0 sequences + 1)).

(** The entities of the counterparty's active customer roles, one row each. *)
Definition role_entities (counterparty : uuid) (s : Work) : list uuid :=
  remove_dups (omap ro_economicEntityId
    (List.filter (fun r => bool_decide (ro_counterpartyId r = counterparty) && String.eqb (ro_role r) "customer"
                           && String.eqb (ro_status r) "active") (wk_roles s))).
Definition resolveCounterpartyRoleEntity (counterparty : uuid) : wrun (option uuid) :=
  entities ← st_gets (role_entities counterparty);
  mret (match entities with [e] => Some e | _ => None end).

Definition parent_depth (value : CreateProjectInput) : wrun Z :=
  match cp_parentProjectId value with
  | None => mret 0
  | Some id =>
      parent ← get id;
      _ ← st_lift (throw_if (negb (pj_depth parent =? 0)) WorkBoundaryError);
      mret 1
  end.

(** The rungs of the attribution. *)
Definition attribution_of (value : CreateProjectInput) : wrun (option uuid * ProjectEntityAttributionSource) :=
  match cp_entityAttributionSource value, cp_economicEntityId value, cp_counterpartyId value with
  | Some source, entity, _ => mret (entity, source)
  | None, Some entity, _ => mret (Some entity, ProjectManual)
  | None, None, Some counterparty =>
      resolved ← resolveCounterpartyRoleEntity counterparty;
      mret (match resolved with
            | Some entity => (Some entity, CounterpartyRoleDefault)
            | None => (None, ProjectUnattributed)
            end)
  | None, None, None => mret (None, ProjectUnattributed)
  end.

(** The numeric and date columns of the row, as PostgreSQL stores them. *)
Record ProjectNumbers : Type := {
  pr_estimateAmount : option Z;
  pr_budgetAmount : option Z;
  pr_fixedPriceAmount : option Z;
  pr_notToExceedAmount : option Z;
}.
Definition project_numbers (value : CreateProjectInput) : result ProjectNumbers :=
  estimate ← z_opt money_column (cp_estimateAmount value);
  budget ← z_opt money_column (cp_budgetAmount value);
  fixed ← z_opt money_column (cp_fixedPriceAmount value);
  cap ← z_opt money_column (cp_notToExceedAmount value);
  _ ← z_opt date_column (cp_startsOn value);
  _ ← z_opt date_column (cp_targetEndOn value);
  mret {| pr_estimateAmount := estimate; pr_budgetAmount := budget; pr_fixedPriceAmount := fixed;
          pr_notToExceedAmount := cap |}.

Definition project_values (value : CreateProjectInput) (n : ProjectNumbers) (depth : Z) (entity : option uuid)
    (source : ProjectEntityAttributionSource) (code : string) (id : uuid) (now : Z) : ProjectRow :=
  {| pj_id := id; pj_referenceCode := code; pj_parentProjectId := cp_parentProjectId value;
     pj_counterpartyId := cp_counterpartyId value; pj_counterpartySiteId := cp_counterpartySiteId value;
     pj_attribution :=
       {| pn_economicEntityId := entity; pn_source := source;
          pn_attributedAt := if bool_decide (source = ProjectUnattributed) then None else Some now;
          pn_attributedByUserId := if bool_decide (source = ProjectManual) then cp_createdByUserId value else None |};
     pj_name := cp_name value; pj_description := cp_description value; pj_projectKind := cp_projectKind value;
     pj_status := default "lead"%string (cp_status value); pj_billingMethod := cp_billingMethod value;
     pj_currency := Text.toUpperCase (cp_currency value); pj_estimateAmount := pr_estimateAmount n;
     pj_budgetAmount := pr_budgetAmount n; pj_fixedPriceAmount := pr_fixedPriceAmount n;
     pj_notToExceedAmount := pr_notToExceedAmount n; pj_depth := depth; pj_startsOn := cp_startsOn value;
     pj_targetEndOn := cp_targetEndOn value; pj_completedOn := None; pj_closedAt := None;
     pj_createdByUserId := cp_createdByUserId value; pj_createdAt := now; pj_updatedAt := now |}.

Definition create_body (value : CreateProjectInput) (year : Z) : wrun ProjectRow :=
  depth ← parent_depth value;
  attribution ← attribution_of value;
  code ← match cp_referenceCode value with Some code => mret code | None => generateReferenceCode year end;
  n ← st_lift (project_numbers value);
  insertProject (project_values value n depth attribution.1 attribution.2 code).

Definition create (input : CreateProjectInput) : wrun ProjectRow :=
  value ← st_lift (createSchema input);
  year ← st_gets (fun s => year_of (utc_date (wk_now s)));
  withCodeRetry (atomically (create_body value year)).

(** ** [update] *)
Record UpdateProjectInput : Type := {
  upr_projectId : uuid;
  upr_name : option string;
  upr_description : option (option string);
  upr_projectKind : option string;
  upr_counterpartySiteId : option (option uuid);
  upr_estimateAmount : option (option string);
  upr_budgetAmount : option (option string);
  upr_notToExceedAmount : option (option string);
  upr_startsOn : option (option date);
  upr_targetEndOn : option (option date);
  upr_completedOn : option (option date);
}.

Definition updateSchema (i : UpdateProjectInput) : result UpdateProjectInput :=
  name ← checked (z_opt z_text (upr_name i));
  description ← checked (z_opt (z_opt z_text) (upr_description i));
  kind ← checked (z_opt z_text (upr_projectKind i));
  _ ← z_opt (z_opt decimal_text) (upr_estimateAmount i);
  _ ← z_opt (z_opt decimal_text) (upr_budgetAmount i);
  _ ← z_opt (z_opt decimal_text) (upr_notToExceedAmount i);
  _ ← z_opt (z_opt iso_date) (upr_startsOn i);
  _ ← z_opt (z_opt iso_date) (upr_targetEndOn i);
  _ ← z_opt (z_opt iso_date) (upr_completedOn i);
  _ ← throw_if (negb (order_ok (default None (upr_startsOn i)) (default None (upr_targetEndOn i)))) WorkValidationError;
  mret {| upr_projectId := upr_projectId i; upr_name := name; upr_description := description;
          upr_projectKind := kind; upr_counterpartySiteId := upr_counterpartySiteId i;
          upr_estimateAmount := upr_estimateAmount i; upr_budgetAmount := upr_budgetAmount i;
          upr_notToExceedAmount := upr_notToExceedAmount i; upr_startsOn := upr_startsOn i;
          upr_targetEndOn := upr_targetEndOn i; upr_completedOn := upr_completedOn i |}.

(** The columns an edit may write. *)
Definition project_edit (name : string) (description : option string) (kind : string) (site : option uuid)
    (estimate budget cap : option Z) (startsOn targetEndOn completedOn : option date) (now : Z) (r : ProjectRow)
    : ProjectRow :=
  {| pj_id := pj_id r; pj_referenceCode := pj_referenceCode r; pj_parentProjectId := pj_parentProjectId r;
     pj_counterpartyId := pj_counterpartyId r; pj_counterpartySiteId := site; pj_attribution := pj_attribution r;
     pj_name := name; pj_description := description; pj_projectKind := kind; pj_status := pj_status r;
     pj_billingMethod := pj_billingMethod r; pj_currency := pj_currency r; pj_estimateAmount := estimate;
     pj_budgetAmount := budget; pj_fixedPriceAmount := pj_fixedPriceAmount r; pj_notToExceedAmount := cap;
     pj_depth := pj_depth r; pj_startsOn := startsOn; pj_targetEndOn := targetEndOn; pj_completedOn := completedOn;
     pj_closedAt := pj_closedAt r; pj_createdByUserId := pj_createdByUserId r; pj_createdAt := pj_createdAt r;
     pj_updatedAt := now |}.

Definition update_body (value : UpdateProjectInput) : wrun ProjectRow :=
  before ← get (upr_projectId value);
  _ ← st_lift (z_opt text_literal (upr_name value));
  _ ← st_lift (z_opt (z_opt text_literal) (upr_description value));
  _ ← st_lift (z_opt text_literal (upr_projectKind value));
  let nextStartsOn := default (pj_startsOn before) (upr_startsOn value) in
  let nextTargetEndOn := default (pj_targetEndOn before) (upr_targetEndOn value) in
  _ ← st_lift (throw_if (negb (order_ok nextStartsOn nextTargetEndOn)) WorkValidationError);
  estimate ← st_lift (z_opt (z_opt money_column) (upr_estimateAmount value));
  budget ← st_lift (z_opt (z_opt money_column) (upr_budgetAmount value));
  cap ← st_lift (z_opt (z_opt money_column) (upr_notToExceedAmount value));
  _ ← st_lift (z_opt (z_opt date_column) (upr_startsOn value));
  _ ← st_lift (z_opt (z_opt date_column) (upr_targetEndOn value));
  _ ← st_lift (z_opt (z_opt date_column) (upr_completedOn value));
  now ← st_gets wk_now;
  _ ← updateProject (pj_id before) (fun r =>
        project_edit (default (pj_name r) (upr_name value)) (default (pj_description r) (upr_description value))
          (default (pj_projectKind r) (upr_projectKind value))
          (default (pj_counterpartySiteId r) (upr_counterpartySiteId value))
          (default (pj_estimateAmount r) estimate) (default (pj_budgetAmount r) budget)
          (default (pj_notToExceedAmount r) cap) nextStartsOn nextTargetEndOn
          (default (pj_completedOn r) (upr_completedOn value)) now r);
  get (pj_id before).

Definition update (input : UpdateProjectInput) : wrun ProjectRow :=
  value ← st_lift (updateSchema input);
  atomically (update_body value).

(** ** [updateStatus] *)
Definition closedLike : list string := ["completed"; "cancelled"; "closed"]%string.

Definition project_state (attribution : ProjectAttribution) (status : string) (completedOn : option date)
    (closedAt : option Z) (now : Z) (r : ProjectRow) : ProjectRow :=
  {| pj_id := pj_id r; pj_referenceCode := pj_referenceCode r; pj_parentProjectId := pj_parentProjectId r;
     pj_counterpartyId := pj_counterpartyId r; pj_counterpartySiteId := pj_counterpartySiteId r;
     pj_attribution := attribution; pj_name := pj_name r; pj_description := pj_description r;
     pj_projectKind := pj_projectKind r; pj_status := status; pj_billingMethod := pj_billingMethod r;
     pj_currency := pj_currency r; pj_estimateAmount := pj_estimateAmount r; pj_budgetAmount := pj_budgetAmount r;
     pj_fixedPriceAmount := pj_fixedPriceAmount r; pj_notToExceedAmount := pj_notToExceedAmount r;
     pj_depth := pj_depth r; pj_startsOn := pj_startsOn r; pj_targetEndOn := pj_targetEndOn r;
     pj_completedOn := completedOn; pj_closedAt := closedAt; pj_createdByUserId := pj_createdByUserId r;
     pj_createdAt := pj_createdAt r; pj_updatedAt := now |}.

(** [completedOn] given, or today when the project completes without one. *)
Definition completion (completedOn : option (option date)) (status : string) (today : date) (before : ProjectRow)
    : option date :=
  match completedOn with
  | Some d => d
  | None => if String.eqb status "completed" && negb (is_some (pj_completedOn before)) then Some today
            else pj_completedOn before
  end.

Definition updateStatus (projectId : uuid) (status : string) (completedOn : option (option date)) : wrun ProjectRow :=
  trimmed ← st_lift (checked (z_text status));
  _ ← st_lift (z_opt (z_opt iso_date) completedOn);
  atomically (
    before ← get projectId;
    _ ← st_lift (text_literal trimmed);
    now ← st_gets wk_now;
    let completed := completion completedOn trimmed (utc_date now) before in
    _ ← st_lift (z_opt (z_opt date_column) completedOn);
    let closedAt := if bool_decide (trimmed ∈ closedLike) && negb (is_some (pj_closedAt before)) then Some now
                    else pj_closedAt before in
    _ ← updateProject (pj_id before) (fun r => project_state (pj_attribution r) trimmed completed closedAt now r);
    get (pj_id before)).

(** ** [reattributeEntity]: the sources are those its type allows *)
Inductive ReattributionSource : Type := ReattributeManual | ReattributeInstallation | ReattributeNone.
Definition attribution_source (s : ReattributionSource) : ProjectEntityAttributionSource :=
  match s with
  | ReattributeManual => ProjectManual
  | ReattributeInstallation => ProjectInstallationDefault
  | ReattributeNone => ProjectUnattributed
  end.

Definition reattributeEntity (projectId : uuid) (economicEntityId : option uuid) (source : option ReattributionSource)
    (actorUserId : option string) : wrun ProjectRow :=
  let by_default := if is_some economicEntityId then ReattributeManual else ReattributeNone in
  let source := attribution_source (default by_default source) in
  atomically (
    before ← get projectId;
    let actor := if bool_decide (source = ProjectManual) then actorUserId else None in
    _ ← st_lift (z_opt text_literal actor);
    now ← st_gets wk_now;
    _ ← updateProject (pj_id before) (fun r =>
          project_state
            {| pn_economicEntityId := economicEntityId; pn_source := source;
               pn_attributedAt := if bool_decide (source = ProjectUnattributed) then None else Some now;
               pn_attributedByUserId := actor |}
            (pj_status r) (pj_completedOn r) (pj_closedAt r) now r);
    get (pj_id before)).

(** ** Lists *)
Record ProjectListFilter : Type := {
  pf_counterpartyId : option uuid;
  pf_economicEntityId : option uuid;
  pf_parentProjectId : option (option uuid);
  pf_statuses : list string;
  pf_billingMethods : list ProjectBillingMethod;
  pf_search : option string;
  pf_limit : option Z;
}.

Definition lower_char (c : ascii) : ascii :=
  let n := nat_of_ascii c in if (65 <=? n)%nat && (n <=? 90)%nat then ascii_of_nat (n + 32) else c.
Definition lower (s : string) : string := string_of_list_ascii (lower_char <$> list_ascii_of_string s).
(** [text ilike '%needle%'] *)
Definition ilike (needle text : string) : bool :=
  like (text_of ["%"; lower needle; "%"]) (lower text).

Definition in_list {A} `{EqDecision A} (l : list A) (x : A) : bool :=
  match l with [] => true | _ => bool_decide (x ∈ l) end.
Definition searched (search : option string) (r : ProjectRow) : bool :=
  match search with
  | None => true
  | Some text => String.eqb (Text.trim text) ""
                 || ilike (Text.trim text) (pj_name r) || ilike (Text.trim text) (pj_referenceCode r)
  end.
Definition listed (f : ProjectListFilter) (r : ProjectRow) : bool :=
  wanted_opt (pf_counterpartyId f) (pj_counterpartyId r)
  && wanted_opt (pf_economicEntityId f) (pn_economicEntityId (pj_attribution r))
  && wanted (pf_parentProjectId f) (pj_parentProjectId r)
  && in_list (pf_statuses f) (pj_status r) && in_list (pf_billingMethods f) (pj_billingMethod r)
  && searched (pf_search f) r.

(** [order by created_at desc, reference_code] *)
Definition newest_first (r q : ProjectRow) : bool :=
  (pj_createdAt q <? pj_createdAt r)
  || ((pj_createdAt q =? pj_createdAt r) && String.leb (pj_referenceCode r) (pj_referenceCode q)).

Definition list_projects (f : ProjectListFilter) : wrun (list ProjectRow) :=
  _ ← st_lift (res_mapM text_literal (pf_statuses f));
  _ ← st_lift (z_opt text_literal (pf_search f));
  st_gets (fun s => limited (pf_limit f) (sort_with newest_first (List.filter (listed f) (wk_projects s)))).

(** [order by depth, created_at] *)
Definition shallow_first (r q : ProjectRow) : bool :=
  (pj_depth r <? pj_depth q) || ((pj_depth r =? pj_depth q) && (pj_createdAt r <=? pj_createdAt q)).
Definition listWithChildren (projectId : uuid) : wrun (list ProjectRow) :=
  rows ← st_gets (fun s => sort_with shallow_first
           (List.filter (fun r => opt_eqb (pj_parentProjectId r) projectId || is_project projectId r) (wk_projects s)));
  match rows with [] => st_throw WorkNotFoundError | _ => mret rows end.
