(* ===== verification/WorkMachine.v ===== *)
(** * Every call of the work package keeps its tables

    The invariant [work_ok] of the tables and the [history] of their rows, for each
    statement and each service; then the calls as one type, the stores they
    reach, and what holds in all of them. *)
From S2P Require Import Prelude Decimal DecimalPackages Calendar Inputs Store Schema Ledger LedgerFacts.
From S2P Require Import Stock StockFacts StockServices WorkTables Rates TimeEntries Materials Projects.

Open Scope Z_scope.
#[local] Arguments String.append : simpl nomatch.

(** ** The invariant *)

(** A project is at the top, or below a project that is. *)
Definition placed (projects : list ProjectRow) (r : ProjectRow) : Prop :=
  match pj_parentProjectId r with
  | None => pj_depth r = 0
  | Some id => pj_depth r = 1 /\ exists q, q ∈ projects /\ pj_id q = id /\ pj_depth q = 0
  end.

Record work_ok (s : Work) : Prop := {
  wo_project_ids : NoDup (pj_id <$> wk_projects s);
  wo_codes : NoDup (pj_referenceCode <$> wk_projects s);
  wo_projects : forall r, r ∈ wk_projects s -> project_checks r = true /\ placed (wk_projects s) r;
  wo_rate_ids : NoDup (br_id <$> wk_rates s);
  wo_rates : forall r, r ∈ wk_rates s ->
    rate_checks r = true /\ exists_opt pj_id (br_projectId r) (wk_projects s) = true;
  wo_entry_ids : NoDup (tn_id <$> wk_entries s);
  wo_entries : forall r, r ∈ wk_entries s ->
    entry_checks r = true /\ exists_opt pj_id (tn_projectId r) (wk_projects s) = true /\
    exists_opt br_id (er_billingRateId (tn_rates r)) (wk_rates s) = true;
  wo_use_ids : NoDup (mu_id <$> wk_uses s);
  wo_backed : NoDup (omap mu_inventoryMovementId (wk_uses s));
  wo_uses : forall r, r ∈ wk_uses s ->
    use_checks r = true /\ exists_id pj_id (mu_projectId r) (wk_projects s) = true;
}.

(** ** What stays of a row *)
Record project_kept (r r' : ProjectRow) : Prop := {
  pk_id : pj_id r' = pj_id r;
  pk_code : pj_referenceCode r' = pj_referenceCode r;
  pk_parent : pj_parentProjectId r' = pj_parentProjectId r;
  pk_depth : pj_depth r' = pj_depth r;
  pk_counterparty : pj_counterpartyId r' = pj_counterpartyId r;
  pk_currency : pj_currency r' = pj_currency r;
  pk_method : pj_billingMethod r' = pj_billingMethod r;
  pk_fixed : pj_fixedPriceAmount r' = pj_fixedPriceAmount r;
  pk_closed : forall t, pj_closedAt r = Some t -> pj_closedAt r' = Some t;
}.
#[export] Instance project_kept_preorder : PreOrder project_kept.
Proof. split; [by split|]. intros ??? [] []. split; try congruence. auto. Qed.

(** A rate only ends. *)
Definition rate_kept (r r' : BillingRateRow) : Prop :=
  r' = r \/ exists t now, br_effectiveFrom r <= t /\ r' = ended t now r.
#[export] Instance rate_kept_preorder : PreOrder rate_kept.
Proof.
  split; [by left|]. intros r1 r2 r3 [->|(t & n & Ht & ->)] [->|(u & m & Hu & ->)]; [by left|right; eauto..].
Qed.

Section frozen.
(** Whether the rates of an entry stay as they are. *)
Context (frozen : bool).

Record entry_kept (r r' : TimeEntryRow) : Prop := {
  ek_id : tn_id r' = tn_id r;
  ek_target : (tn_projectId r', tn_counterpartyId r', tn_economicEntityId r')
              = (tn_projectId r, tn_counterpartyId r, tn_economicEntityId r);
  ek_worker : (tn_workedByUserId r', tn_workedByCounterpartyId r', tn_workedByLabel r')
              = (tn_workedByUserId r, tn_workedByCounterpartyId r, tn_workedByLabel r);
  ek_on : tn_workedOn r' = tn_workedOn r;
  ek_lock : tn_lockedAt r' = tn_lockedAt r;
  ek_locked : tn_lockedAt r <> None -> r' = r;
  ek_rates : frozen = true -> tn_rates r' = tn_rates r;
}.
#[export] Instance entry_kept_preorder : PreOrder entry_kept.
Proof.
  split; [by split|]. intros r1 r2 r3 [] []. split; try congruence.
  - intros H. rewrite ek_locked1, ek_locked0 by congruence. done.
  - intros H. rewrite ek_rates1, ek_rates0 by done. done.
Qed.
End frozen.

Record use_kept (r r' : ProjectMaterialUseRow) : Prop := {
  uk_id : mu_id r' = mu_id r;
  uk_project : mu_projectId r' = mu_projectId r;
  uk_movement : mu_inventoryMovementId r' = mu_inventoryMovementId r;
  uk_snapshot : (mu_quantity r', mu_currency r', mu_unitCostAmount r', mu_costBasisSource r')
                = (mu_quantity r, mu_currency r, mu_unitCostAmount r, mu_costBasisSource r);
  uk_lock : mu_lockedAt r' = mu_lockedAt r;
  uk_locked : mu_lockedAt r <> None -> r' = r;
}.
#[export] Instance use_kept_preorder : PreOrder use_kept.
Proof.
  split; [by split|]. intros r1 r2 r3 [] []. split; try congruence.
  intros H. rewrite uk_locked1, uk_locked0 by congruence. done.
Qed.

(** The tables only grow, and their rows are kept. *)
Record history (frozen : bool) (s s' : Work) : Prop := {
  hi_projects : grows project_kept (wk_projects s) (wk_projects s');
  hi_rates : grows rate_kept (wk_rates s) (wk_rates s');
  hi_entries : grows (entry_kept frozen) (wk_entries s) (wk_entries s');
  hi_uses : grows use_kept (wk_uses s) (wk_uses s');
}.
#[export] Instance history_preorder frozen : PreOrder (history frozen).
Proof. split; [by split|]. intros ??? [] []. split; by etrans. Qed.

(** A step keeps the invariant, and from there the history. *)
Definition sound (frozen : bool) (s s' : Work) : Prop := work_ok s -> work_ok s' /\ history frozen s s'.
#[export] Instance sound_preorder frozen : PreOrder (sound frozen).
Proof.
  split; [by intros s Hs|]. intros s1 s2 s3 H1 H2 (Ho & Hh)%H1. destruct (H2 Ho) as [? ?]. split; [done|by etrans].
Qed.

(** ** The tables, one at a time *)
Lemma exists_opt_grows {A} (f : A -> uuid) (R : relation A) id l l' :
  (forall x y, R x y -> f y = f x) -> grows R l l' -> exists_opt f id l = true -> exists_opt f id l' = true.
Proof.
  intros Hf Hg. destruct id as [id|]; [cbn|done]. rewrite !exists_id_true. intros (x & Hx & <-).
  destruct (grows_elem _ _ _ _ Hg Hx) as (y & Hy & HR). eauto.
Qed.

Lemma placed_grows l l' r r' : grows project_kept l l' -> project_kept r r' -> placed l r -> placed l' r'.
Proof.
  intros Hg []. unfold placed. rewrite pk_parent0, pk_depth0. destruct (pj_parentProjectId r) as [id|]; [|done].
  intros (Hd & q & Hq & Hi & H0). split; [done|]. destruct (grows_elem _ _ _ _ Hg Hq) as (q' & Hq' & []).
  exists q'. split; [done|]. split; congruence.
Qed.

Section tables.
Context (frozen : bool).

Lemma put_projects_sound s ps : grows project_kept (wk_projects s) ps ->
  (work_ok s -> NoDup (pj_id <$> ps) /\ NoDup (pj_referenceCode <$> ps) /\
     forall r, r ∈ ps -> project_checks r = true /\ placed ps r) ->
  sound frozen s (put_projects ps s).
Proof.
  intros Hg Hp Hs. destruct (Hp Hs) as (Hi & Hc & Hr). split; [|by split]. destruct Hs. split; cbn; try done.
  - intros r (Hk & He)%wo_rates0. split; [done|]. eapply exists_opt_grows; [|done..]. by intros ?? [].
  - intros r (Hk & He & Hb)%wo_entries0. split; [done|]. split; [|done]. eapply exists_opt_grows; [|done..]. by intros ?? [].
  - intros r (Hk & He)%wo_uses0. split; [done|].
    eapply (exists_opt_grows pj_id project_kept (Some (mu_projectId r))); [|done..]. by intros ?? [].
Qed.

Lemma put_rates_sound s ps : grows rate_kept (wk_rates s) ps ->
  (work_ok s -> NoDup (br_id <$> ps) /\
     forall r, r ∈ ps -> rate_checks r = true /\ exists_opt pj_id (br_projectId r) (wk_projects s) = true) ->
  sound frozen s (put_rates ps s).
Proof.
  intros Hg Hp Hs. destruct (Hp Hs) as (Hi & Hr). split; [|by split]. destruct Hs. split; cbn; try done.
  intros r (Hk & He & Hb)%wo_entries0. split; [done|]. split; [done|]. eapply exists_opt_grows; [|done..].
  by intros ?? [->|(t & n & _ & ->)].
Qed.

Lemma put_entries_sound s ps :
  (work_ok s -> grows (entry_kept frozen) (wk_entries s) ps /\ NoDup (tn_id <$> ps) /\
     forall r, r ∈ ps -> entry_checks r = true /\ exists_opt pj_id (tn_projectId r) (wk_projects s) = true /\
       exists_opt br_id (er_billingRateId (tn_rates r)) (wk_rates s) = true) ->
  sound frozen s (put_entries ps s).
Proof. intros Hp Hs. destruct (Hp Hs) as (Hg & Hi & Hr). split; [|by split]. destruct Hs. by split. Qed.

Lemma put_uses_sound s ps :
  (work_ok s -> grows use_kept (wk_uses s) ps /\ NoDup (mu_id <$> ps) /\ NoDup (omap mu_inventoryMovementId ps) /\
     forall r, r ∈ ps -> use_checks r = true /\ exists_id pj_id (mu_projectId r) (wk_projects s) = true) ->
  sound frozen s (put_uses ps s).
Proof. intros Hp Hs. destruct (Hp Hs) as (Hg & Hi & Hm & Hr). split; [|by split]. destruct Hs. by split. Qed.

(** Steps that leave the four tables alone. *)
Record same_tables (s s' : Work) : Prop := {
  st_projects : wk_projects s' = wk_projects s;
  st_rates : wk_rates s' = wk_rates s;
  st_entries : wk_entries s' = wk_entries s;
  st_uses : wk_uses s' = wk_uses s;
}.
Lemma same_rows_sound s s' : same_tables s s' -> sound frozen s s'.
Proof.
  intros [Ep Er Ee Eu] []. split; split; unfold placed in *; rewrite ?Ep, ?Er, ?Ee, ?Eu; done.
Qed.
End tables.

(** *** Rows rewritten in place *)
Lemma updated_rows {A} (p : A -> bool) f (P : A -> Prop) rows :
  (forall r, r ∈ rows -> p r = true -> P (f r)) -> (forall r, r ∈ rows -> P r) ->
  forall r, r ∈ update_rows p f rows -> P r.
Proof. intros Hf Hr r (q & Hq & ->)%update_rows_elem. destruct (p q) eqn:E; auto. Qed.

Lemma checked_rows {A} (p chk : A -> bool) f rows r :
  forallb (fun r => chk (f r)) (List.filter p rows) = true -> r ∈ rows -> p r = true -> chk (f r) = true.
Proof. rewrite forallb_elem. intros H Hr Hp. by apply (H r), elem_of_bool_filter. Qed.

Lemma update_rows_keys_on {A B} (key : A -> B) (p : A -> bool) f rows :
  (forall x, x ∈ rows -> p x = true -> key (f x) = key x) -> key <$> update_rows p f rows = key <$> rows.
Proof.
  induction rows as [|x rows IH]; intros H; csimpl; [done|]. rewrite IH by (intros; apply H; [by right|done]).
  destruct (p x) eqn:E; [|done]. f_equal. apply H; [by left|done].
Qed.
Lemma update_rows_omap {A B} (key : A -> option B) (p : A -> bool) f rows :
  (forall x, x ∈ rows -> p x = true -> key (f x) = key x) -> omap key (update_rows p f rows) = omap key rows.
Proof.
  induction rows as [|x rows IH]; intros H; [done|].
  change (update_rows p f (x :: rows)) with ((if p x then f x else x) :: update_rows p f rows). cbn [omap list_omap].
  rewrite IH by (intros; apply H; [by right|done]).
  destruct (p x) eqn:E; [|done]. by rewrite H by (done || by left).
Qed.

(** ** The statements *)
Lemma work_uuid_inv s id s' : work_uuid s = (Ok id, s') -> id = wk_next s /\ same_tables s s'.
Proof. intros [= <- <-]. by split. Qed.
Lemma work_uuid_sound frozen : always (sound frozen) work_uuid.
Proof. intros s. apply same_rows_sound. by split. Qed.
#[export] Hint Resolve work_uuid_sound : store.

Ltac inv_work_step :=
  match goal with
  | H : demand _ _ _ = (Ok _, _) |- _ => apply demand_inv in H; destruct H as [H ?]; subst
  | H : negb _ = true |- _ => apply negb_true_iff in H
  end.
Ltac inv_work := repeat (inv_st_step || inv_work_step).

(** A row is not inserted: the sequence alone moves. *)
Lemma failed_insert frozen {A} (k : uuid -> wrun A) :
  (forall id, restores (k id)) -> (forall id, respects (sound frozen) (k id)) ->
  always (sound frozen) (id ← work_uuid; k id).
Proof. intros Hk Hs. apply always_bind; [apply _|auto with store|]. intros id. apply restores_always; auto. apply _. Qed.

Ltac restores_step :=
  match goal with
  | |- restores (st_modify _ ≫= _) => apply restores_modify; by eexists
  | |- restores (st_modify _) => by intros ??? [=]
  | |- restores (_ ≫= _) => apply restores_bind; [first [done|apply demand_reads]|intros ?]
  end.
Ltac solve_restores := cbv zeta; repeat restores_step.

Ltac split_checks := repeat match goal with H : _ && _ = true |- _ => apply andb_true_iff in H; destruct H end.
(** The inserting statement [H], from the store [t] with the next identifier. *)
Tactic Notation "work_insert" hyp(H) ident(t) :=
  let id := fresh "id" in let Hu := fresh "Hu" in let Hst := fresh "Hst" in
  apply st_bind_Ok in H; destruct H as (id & t & Hu & H); apply work_uuid_inv in Hu as [-> Hst]; inv_work;
  etrans; [exact (same_rows_sound _ _ _ Hst)|]; destruct Hst as [Ep Er Ee Eu].

(** The rows of a table with one row more. *)
Lemma snoc_rows {A} (P : A -> Prop) rows row : (forall r, r ∈ rows -> P r) -> P row -> forall r, r ∈ rows ++ [row] -> P r.
Proof. intros Hr Hn r [H| ->%list_elem_of_singleton]%elem_of_app; auto. Qed.

Lemma assuming_ok frozen s {A} (m : wrun A) : (work_ok s -> moves (sound frozen) s m) -> moves (sound frozen) s m.
Proof. intros H a s' E Hs. by apply (H Hs a s' E). Qed.

Lemma insertProject_moves frozen values s :
  (forall id now, pj_id (values id now) = id) -> (forall id now, placed (wk_projects s) (values id now)) ->
  moves (sound frozen) s (insertProject values).
Proof.
  intros Hid Hp row s' H. unfold insertProject in H. work_insert H t.
  pose proof (grows_app project_kept (wk_projects t) [values (wk_next s) (wk_now t)]) as Hg.
  apply put_projects_sound; [done|]. intros []. rewrite !NoDup_keys_snoc, Hid.
  split_and!; try done; [by apply exists_id_false|by apply text_fresh|]. apply snoc_rows.
  - intros r Hr. destruct (wo_projects0 r Hr) as [? Hpl]. split; [done|]. by eapply placed_grows.
  - split; [done|]. rewrite Ep in *. by eapply placed_grows.
Qed.

Lemma insertRate_sound frozen values :
  (forall id now, br_id (values id now) = id) -> always (sound frozen) (insertRate values).
Proof.
  intros Hid. apply failed_insert; [intros id; solve_restores|]. intros id t row s' H. cbv zeta in H. inv_work.
  match goal with H : rate_fks _ _ = true |- _ => unfold rate_fks in H end. split_checks.
  apply put_rates_sound; [by apply grows_app, _|]. intros []. rewrite NoDup_keys_snoc, Hid.
  split_and!; [done|by apply exists_id_false|]. by apply snoc_rows.
Qed.

Lemma insertEntry_sound frozen values :
  (forall id now, tn_id (values id now) = id) -> respects (sound frozen) (insertEntry values).
Proof.
  intros Hid s row s' H. unfold insertEntry in H. work_insert H t.
  match goal with H : entry_fks _ _ = true |- _ => unfold entry_fks in H end. split_checks.
  apply put_entries_sound. intros []. rewrite NoDup_keys_snoc, Hid.
  split_and!; [by apply grows_app, _|done|by apply exists_id_false|]. by apply snoc_rows.
Qed.

Lemma backed_fresh row rows : forallb (fun q => negb (movement_backs row q)) rows = true ->
  NoDup (omap mu_inventoryMovementId rows) -> NoDup (omap mu_inventoryMovementId (rows ++ [row])).
Proof.
  rewrite forallb_elem, omap_app. intros H Hn. cbn. unfold movement_backs in H.
  destruct (mu_inventoryMovementId row) as [m|]; cbn; [|by rewrite app_nil_r]. apply NoDup_app. split; [done|].
  split; [|by apply NoDup_singleton]. intros x (q & Hq & E)%list_elem_of_omap ->%list_elem_of_singleton.
  specialize (H q Hq). unfold opt_eqb in H. by rewrite E, bool_decide_eq_true_2 in H.
Qed.

Lemma insertUse_sound frozen values :
  (forall id now, mu_id (values id now) = id) -> respects (sound frozen) (insertUse values).
Proof.
  intros Hid s row s' H. unfold insertUse in H. work_insert H t.
  match goal with H : use_fks _ _ = true |- _ => unfold use_fks in H end. split_checks.
  apply put_uses_sound. intros []. rewrite NoDup_keys_snoc, Hid.
  split_and!; [by apply grows_app, _|done|by apply exists_id_false|by apply backed_fresh|]. by apply snoc_rows.
Qed.

(** *** Updates *)
Lemma updateProject_moves frozen id f s :
  (work_ok s -> forall r, r ∈ wk_projects s -> is_project id r = true -> project_kept r (f r)) ->
  moves (sound frozen) s (updateProject id f).
Proof.
  intros Hk u s' H Hs. unfold updateProject in H. inv_work. revert Hs. intros Hs. pose proof (Hk Hs) as Hf.
  assert (grows project_kept (wk_projects s) (update_rows (is_project id) f (wk_projects s))) as Hg
    by (apply update_rows_grows; [apply _|done]).
  refine (put_projects_sound frozen s _ Hg _ Hs). intros []. rewrite !update_rows_keys_on by (intros; by apply Hf).
  split_and!; [done..|]. apply updated_rows; intros r Hr.
  - intros Hp. split; [by eapply checked_rows|]. eapply placed_grows; [done|by apply Hf|]. by apply wo_projects0.
  - destruct (wo_projects0 r Hr) as [? Hpl]. split; [done|]. by eapply placed_grows.
Qed.

Lemma updateRate_moves frozen id f s :
  (work_ok s -> forall r, r ∈ wk_rates s -> is_rate id r = true -> rate_kept r (f r)) ->
  (forall r, br_id (f r) = br_id r /\ br_projectId (f r) = br_projectId r) ->
  moves (sound frozen) s (updateRate id f).
Proof.
  intros Hk Hf u s' H Hs. unfold updateRate in H. inv_work. revert Hs.
  intros Hs. refine (put_rates_sound frozen s _ _ _ Hs); [apply update_rows_grows; [apply _|by apply Hk]|].
  intros []. rewrite update_rows_keys by apply Hf. split; [done|]. apply updated_rows; intros r Hr.
  - intros Hp. split; [by eapply checked_rows|]. destruct (Hf r) as (_ & ->). by apply wo_rates0.
  - by apply wo_rates0.
Qed.

Lemma updateEntry_moves frozen id f s :
  (work_ok s -> forall r, r ∈ wk_entries s -> is_entry id r = true -> entry_kept frozen r (f r)) ->
  moves (sound frozen) s (updateEntry id f).
Proof.
  intros Hf u s' H. unfold updateEntry in H. inv_work. apply put_entries_sound. intros Hs.
  specialize (Hf Hs). pose proof Hs as [].
  rewrite update_rows_keys_on by (intros r Hr Hp; by destruct (Hf r Hr Hp)).
  split_and!; [apply update_rows_grows; [apply _|done]|done|]. apply updated_rows; [|done]. intros r Hr Hp.
  match goal with H : forallb (fun r => entry_fks _ _) _ = true |- _ =>
    eapply (checked_rows _ (entry_fks s)) in H; [|exact Hr|exact Hp]; unfold entry_fks in H end.
  split_checks. split; [|done]. by eapply checked_rows.
Qed.

Lemma updateUse_moves frozen id f s :
  (work_ok s -> forall r, r ∈ wk_uses s -> is_use id r = true -> use_kept r (f r)) ->
  moves (sound frozen) s (updateUse id f).
Proof.
  intros Hf u s' H. unfold updateUse in H. inv_work. apply put_uses_sound. intros Hs.
  specialize (Hf Hs). pose proof Hs as [].
  rewrite update_rows_keys_on by (intros r Hr Hp; by destruct (Hf r Hr Hp)).
  split_and!; [apply update_rows_grows; [apply _|done]|done| |].
  - rewrite update_rows_omap by (intros r Hr Hp; by destruct (Hf r Hr Hp)). done.
  - apply updated_rows; [|done]. intros r Hr Hp. split; [by eapply checked_rows|].
    destruct (Hf r Hr Hp) as [_ -> _ _ _ _]. by apply wo_uses0.
Qed.

(** ** Reads *)
Lemma resolve_rungs_reads input rungs : reads (resolve_rungs input rungs).
Proof. induction rungs as [|[scope [p|]] rungs IH]; cbn; solve_respects. Qed.
#[export] Hint Resolve resolve_rungs_reads : store.
Lemma resolveRate_reads input : reads (resolveRate input).
Proof. unfold resolveRate. solve_respects. Qed.
Lemma rate_get_reads id : reads (Rates.get id).
Proof. unfold Rates.get. solve_respects. Qed.
Lemma entry_get_reads id : reads (TimeEntries.get id).
Proof. unfold TimeEntries.get. solve_respects. Qed.
Lemma use_get_reads id : reads (Materials.get id).
Proof. unfold Materials.get. solve_respects. Qed.
Lemma project_get_reads id : reads (Projects.get id).
Proof. unfold Projects.get. solve_respects. Qed.
#[export] Hint Resolve resolveRate_reads rate_get_reads entry_get_reads use_get_reads project_get_reads : store.
Lemma unlocked_entry_reads id : reads (unlocked_entry id).
Proof. unfold unlocked_entry. solve_respects. Qed.
Lemma attributed_reads value : reads (attributed value).
Proof. unfold attributed, loadProjectDefaults. solve_respects. Qed.
Lemma rate_outcome_reads manual currency ladder : reads (rate_outcome manual currency ladder).
Proof. unfold rate_outcome. solve_respects. Qed.
Lemma requireProject_reads id : reads (requireProject id).
Proof. unfold requireProject. solve_respects. Qed.
Lemma cost_snapshot_reads value : reads (cost_snapshot value).
Proof. unfold cost_snapshot, loadInventoryItem. solve_respects. Qed.
Lemma parent_depth_reads value : reads (parent_depth value).
Proof. unfold parent_depth. solve_respects. Qed.
Lemma attribution_of_reads value : reads (attribution_of value).
Proof. unfold attribution_of, resolveCounterpartyRoleEntity. solve_respects. Qed.
Lemma projectCode_reads year : reads (generateReferenceCode year).
Proof. unfold generateReferenceCode. solve_respects. Qed.
#[export] Hint Resolve unlocked_entry_reads attributed_reads rate_outcome_reads requireProject_reads
  cost_snapshot_reads parent_depth_reads attribution_of_reads projectCode_reads : store.
Lemma work_reads frozen {A} (m : wrun A) : reads m -> always (sound frozen) m.
Proof. apply reads_always. apply _. Qed.
Lemma work_reads_respects frozen {A} (m : wrun A) : reads m -> respects (sound frozen) m.
Proof. apply reads_respects. apply _. Qed.
#[export] Hint Resolve work_reads work_reads_respects : store.

(** ** The services *)

(** The row a query by identifier returned is the only one with it. *)
Lemma only_row {A} (key : A -> uuid) id rows b r :
  find_row (fun r => bool_decide (key r = id)) rows = Some b -> NoDup (key <$> rows) ->
  r ∈ rows -> key r = id -> r = b.
Proof. intros [Hb E%bool_decide_eq_true]%find_row_some Hn Hr <-. by eapply NoDup_keys_inj. Qed.

Ltac moves_step :=
  match goal with
  | |- moves _ _ (let _ := _ in _) => cbv zeta
  | |- moves _ _ (_ ≫= _) => apply moves_read; [by solve_respects|let Ha := fresh "Ha" in intros ? Ha]
  end.
(** Up to the statement that writes, which a read follows. *)
Ltac to_write := repeat moves_step; apply moves_then; [|intros; by solve_respects].

Lemma rate_create_sound frozen i : always (sound frozen) (Rates.create i).
Proof. unfold Rates.create. solve_respects. by apply insertRate_sound. Qed.

Lemma rate_get_inv id s b s' : Rates.get id s = (Ok b, s') -> find_rate id s = Some b.
Proof. unfold Rates.get. intros H. inv_st. destruct (find_rate id _) eqn:E; by inv_st. Qed.
Lemma endDate_sound frozen id t : always (sound frozen) (endDate id t).
Proof.
  unfold endDate. solve_respects. apply always_atomically; [apply _|]. apply respects_moves. intros s. to_write.
  apply updateRate_moves; [|done]. intros Hs r Hr Hp%bool_decide_eq_true.
  rewrite (only_row br_id id (wk_rates s) a0 r (rate_get_inv _ _ _ _ Ha) (wo_rate_ids s Hs) Hr Hp).
  apply st_lift_inv in Ha0 as [Ht%throw_if_Ok _]. right. exists t, a3. split; [lia|done].
Qed.

(** *** Time *)
Lemma entry_get_inv id s b s' : TimeEntries.get id s = (Ok b, s') -> find_entry id s = Some b.
Proof. unfold TimeEntries.get. intros H. inv_st. destruct (find_entry id _) eqn:E; by inv_st. Qed.

(** What a service writes on an entry it found unlocked. *)
Lemma unlocked_entry_moves frozen id f s b : unlocked_entry id s = (Ok b, s) ->
  (forall r, tn_lockedAt r = None -> entry_kept frozen r (f r)) ->
  moves (sound frozen) s (updateEntry (tn_id b) f).
Proof.
  unfold unlocked_entry. intros H Hf. run_bind H c t Hc. inv_st.
  match goal with H : throw_if _ _ = _ |- _ => apply throw_if_Ok in H as Hl end.
  apply entry_get_inv in Hc. apply updateEntry_moves. intros Hs r Hr Hp%bool_decide_eq_true. apply Hf.
  assert (tn_id c = id) as Hb by (by apply find_row_some in Hc as [_ ?%bool_decide_eq_true]).
  assert (r = c) as -> by (eapply only_row; [exact Hc|apply Hs|done|congruence]). by destruct (tn_lockedAt c).
Qed.
Ltac keeps_entry := intros r Hl; split; try done; intros E; congruence.

Lemma record_body_sound frozen value : respects (sound frozen) (TimeEntries.record_body value).
Proof. unfold TimeEntries.record_body. solve_respects. by apply insertEntry_sound. Qed.
Lemma time_record_sound frozen i : always (sound frozen) (TimeEntries.record i).
Proof.
  unfold TimeEntries.record. solve_respects. apply always_atomically; [apply _|]. apply record_body_sound.
Qed.
Lemma time_update_sound frozen i : always (sound frozen) (TimeEntries.update i).
Proof.
  unfold TimeEntries.update. solve_respects. apply always_atomically; [apply _|]. apply respects_moves. intros s.
  unfold TimeEntries.update_body. to_write. eapply unlocked_entry_moves; [done|]. keeps_entry.
Qed.
Lemma approve_sound frozen id user : always (sound frozen) (approve id user).
Proof.
  unfold approve. apply always_atomically; [apply _|]. apply respects_moves. intros s.
  to_write. eapply unlocked_entry_moves; [done|]. keeps_entry.
Qed.
(** The one call that writes the rates of an entry. *)
Lemma reresolve_sound id : always (sound false) (reresolveRates id).
Proof.
  unfold reresolveRates. apply always_atomically; [apply _|]. apply respects_moves. intros s.
  to_write. eapply unlocked_entry_moves; [done|]. keeps_entry.
Qed.

(** *** Materials *)
Lemma use_get_inv id s b s' : Materials.get id s = (Ok b, s') -> find_use id s = Some b.
Proof. unfold Materials.get. intros H. inv_st. destruct (find_use id _) eqn:E; by inv_st. Qed.

Lemma use_record_sound frozen i : always (sound frozen) (Materials.record i).
Proof.
  unfold Materials.record. solve_respects. apply always_atomically; [apply _|]. unfold Materials.record_body.
  solve_respects. apply respects_rethrow.
  - unfold insert_use. solve_respects. by apply insertUse_sound.
  - intros e s r s'. by destruct (isUniqueViolation e).
Qed.
Lemma use_update_sound frozen i : always (sound frozen) (Materials.update i).
Proof.
  unfold Materials.update. solve_respects. apply always_atomically; [apply _|]. apply respects_moves. intros s.
  unfold Materials.update_body. to_write.
  apply updateUse_moves. intros Hs r Hr Hp%bool_decide_eq_true. apply use_get_inv in Ha.
  assert (mu_id a0 = um_materialUseId a) as Hb by (by apply find_row_some in Ha as [_ ?%bool_decide_eq_true]).
  assert (r = a0) as -> by (eapply only_row; [exact Ha|apply Hs|done|congruence]).
  apply st_lift_inv in Ha0 as [Hl%throw_if_Ok _]. split; try done. intros E. by destruct (mu_lockedAt a0).
Qed.

(** *** Projects *)
Lemma project_get_inv id s b s' : Projects.get id s = (Ok b, s') -> find_project id s = Some b.
Proof. unfold Projects.get. intros H. inv_st. destruct (find_project id _) eqn:E; by inv_st. Qed.

Lemma parent_depth_placed value s d entity source n code id now :
  parent_depth value s = (Ok d, s) -> placed (wk_projects s) (project_values value n d entity source code id now).
Proof.
  unfold parent_depth, placed. cbn. destruct (cp_parentProjectId value) as [p|]; intros H; [|by inv_st].
  run_bind H q t Hq. apply project_get_inv in Hq. inv_st.
  match goal with H : throw_if _ _ = _ |- _ => apply throw_if_Ok, negb_false_iff, Z.eqb_eq in H as Hd end.
  apply find_row_some in Hq as [Hq Hp%bool_decide_eq_true]. split; [done|]. by exists q.
Qed.

Lemma create_body_sound frozen value year : respects (sound frozen) (create_body value year).
Proof.
  apply respects_moves. intros s. unfold create_body. do 4 moves_step.
  apply insertProject_moves; [done|]. intros id now. by apply parent_depth_placed.
Qed.
Lemma retry_sound frozen {A} attempts (attempt : wrun A) : always (sound frozen) attempt -> always (sound frozen) (retry attempts attempt).
Proof.
  intros Ha. induction attempts as [|n IH]; cbn; [apply always_throw; apply _|].
  apply always_catch; [apply _|done|]. intros e. destruct (isUniqueViolation e); [done|]. apply always_throw; apply _.
Qed.
Lemma project_create_sound frozen i : always (sound frozen) (create i).
Proof.
  unfold create. solve_respects. apply retry_sound, always_atomically; [apply _|]. apply create_body_sound.
Qed.

(** What a service writes on the project it read. *)
Lemma read_project_moves frozen id f s b : Projects.get id s = (Ok b, s) -> project_kept b (f b) ->
  moves (sound frozen) s (updateProject (pj_id b) f).
Proof.
  intros Hb%project_get_inv Hf. apply updateProject_moves. intros Hs r Hr Hp%bool_decide_eq_true.
  assert (pj_id b = id) as E by (by apply find_row_some in Hb as [_ ?%bool_decide_eq_true]).
  assert (r = b) as -> by (eapply only_row; [exact Hb|apply Hs|done|congruence]). done.
Qed.
Ltac by_project_write :=
  apply always_atomically; [apply _|]; apply respects_moves; intros s; to_write;
  eapply read_project_moves; [done|]; split; try done.

Lemma project_update_sound frozen i : always (sound frozen) (Projects.update i).
Proof. unfold Projects.update, Projects.update_body. solve_respects. by_project_write. Qed.
Lemma updateStatus_sound frozen id status completedOn : always (sound frozen) (updateStatus id status completedOn).
Proof.
  unfold updateStatus. solve_respects. by_project_write. intros t E. cbn. rewrite E. by rewrite andb_false_r.
Qed.
Lemma reattributeEntity_sound frozen id entity source actor :
  always (sound frozen) (reattributeEntity id entity source actor).
Proof. unfold reattributeEntity. by_project_write. Qed.

(** ** Calls and the stores they reach *)
Inductive work_call : Type :=
  | CallCreateRate (i : CreateBillingRateInput)
  | CallEndRate (billingRateId : uuid) (effectiveTo : date)
  | CallRecordTime (i : RecordTimeEntryInput)
  | CallUpdateTime (i : UpdateTimeEntryInput)
  | CallApprove (timeEntryId : uuid) (approvedByUserId : string)
  | CallReresolve (timeEntryId : uuid)
  | CallRecordUse (i : RecordMaterialUseInput)
  | CallUpdateUse (i : UpdateMaterialUseInput)
  | CallCreateProject (i : CreateProjectInput)
  | CallUpdateProject (i : UpdateProjectInput)
  | CallUpdateStatus (projectId : uuid) (status : string) (completedOn : option (option date))
  | CallReattributeEntity (projectId : uuid) (economicEntityId : option uuid) (source : option ReattributionSource)
      (actorUserId : option string).

(** The store a call leaves, whether it returns or throws. *)
Definition after_work (c : work_call) (s : Work) : Work :=
  match c with
  | CallCreateRate i => (Rates.create i s).2
  | CallEndRate id t => (endDate id t s).2
  | CallRecordTime i => (TimeEntries.record i s).2
  | CallUpdateTime i => (TimeEntries.update i s).2
  | CallApprove id user => (approve id user s).2
  | CallReresolve id => (reresolveRates id s).2
  | CallRecordUse i => (Materials.record i s).2
  | CallUpdateUse i => (Materials.update i s).2
  | CallCreateProject i => (create i s).2
  | CallUpdateProject i => (Projects.update i s).2
  | CallUpdateStatus id status completedOn => (updateStatus id status completedOn s).2
  | CallReattributeEntity id entity source actor => (reattributeEntity id entity source actor s).2
  end.

Definition keeps_rates (c : work_call) : bool := match c with CallReresolve _ => false | _ => true end.

Lemma after_work_sound c s : sound (keeps_rates c) s (after_work c s).
Proof.
  destruct c; cbn -[sound];
    [apply rate_create_sound|apply endDate_sound|apply time_record_sound|apply time_update_sound|apply approve_sound
    |apply reresolve_sound|apply use_record_sound|apply use_update_sound|apply project_create_sound
    |apply project_update_sound|apply updateStatus_sound|apply reattributeEntity_sound].
Qed.

(** ** Every call of the work package keeps its tables

    The stores the calls reach, whatever the rest of the program does in between. *)

(** ** Between two calls

    The rest of the program keeps its own tables and the clock; of this package's it
    may lock an entry or a use, which an issued invoice does. *)
Definition lock_entry (lockedAt : option Z) (r : TimeEntryRow) : TimeEntryRow :=
  {| tn_id := tn_id r; tn_projectId := tn_projectId r; tn_counterpartyId := tn_counterpartyId r;
     tn_economicEntityId := tn_economicEntityId r; tn_workedByUserId := tn_workedByUserId r;
     tn_workedByCounterpartyId := tn_workedByCounterpartyId r; tn_workedByLabel := tn_workedByLabel r;
     tn_activityCode := tn_activityCode r; tn_description := tn_description r; tn_workedOn := tn_workedOn r;
     tn_startedAt := tn_startedAt r; tn_endedAt := tn_endedAt r; tn_minutes := tn_minutes r;
     tn_billable := tn_billable r; tn_billableMinutes := tn_billableMinutes r; tn_rates := tn_rates r;
     tn_approvedAt := tn_approvedAt r; tn_approvedByUserId := tn_approvedByUserId r; tn_lockedAt := lockedAt;
     tn_createdByUserId := tn_createdByUserId r; tn_createdAt := tn_createdAt r; tn_updatedAt := tn_updatedAt r |}.
Definition lock_use (lockedAt : option Z) (r : ProjectMaterialUseRow) : ProjectMaterialUseRow :=
  {| mu_id := mu_id r; mu_projectId := mu_projectId r; mu_inventoryItemId := mu_inventoryItemId r;
     mu_catalogItemId := mu_catalogItemId r; mu_inventoryAllocationId := mu_inventoryAllocationId r;
     mu_inventoryMovementId := mu_inventoryMovementId r; mu_description := mu_description r;
     mu_quantity := mu_quantity r; mu_consumedOn := mu_consumedOn r; mu_currency := mu_currency r;
     mu_unitCostAmount := mu_unitCostAmount r; mu_costBasisSource := mu_costBasisSource r;
     mu_billable := mu_billable r; mu_markupPercent := mu_markupPercent r;
     mu_unitChargeAmount := mu_unitChargeAmount r; mu_lockedAt := lockedAt;
     mu_createdByUserId := mu_createdByUserId r; mu_createdAt := mu_createdAt r; mu_updatedAt := mu_updatedAt r |}.

Record work_elsewhere (s s' : Work) : Prop := {
  we_projects : wk_projects s' = wk_projects s;
  we_rates : wk_rates s' = wk_rates s;
  we_entries : exists lock, wk_entries s' = (fun r => lock_entry (lock r) r) <$> wk_entries s;
  we_uses : exists lock, wk_uses s' = (fun r => lock_use (lock r) r) <$> wk_uses s;
}.

Inductive work_reachable : Work -> Prop :=
  | wreach_empty s : wk_projects s = [] -> wk_rates s = [] -> wk_entries s = [] -> wk_uses s = [] -> work_reachable s
  | wreach_call c s : work_reachable s -> work_reachable (after_work c s)
  | wreach_elsewhere s s' : work_reachable s -> work_elsewhere s s' -> work_reachable s'.

Lemma work_empty_ok s : wk_projects s = [] -> wk_rates s = [] -> wk_entries s = [] -> wk_uses s = [] -> work_ok s.
Proof.
  intros Ep Er Ee Eu. split; rewrite ?Ep, ?Er, ?Ee, ?Eu; try apply NoDup_nil_2; by intros ? ?%not_elem_of_nil.
Qed.

Lemma fmap_omap_same {A B} (key : A -> option B) (f : A -> A) (l : list A) :
  (forall x, key (f x) = key x) -> omap key (f <$> l) = omap key l.
Proof. intros H. induction l as [|x l IH]; [done|]. cbn. by rewrite H, <- IH. Qed.

Lemma work_elsewhere_ok s s' : work_elsewhere s s' -> work_ok s -> work_ok s'.
Proof.
  intros [Ep Er [f Ee] [g Eu]] []. split; rewrite ?Ep, ?Er, ?Ee, ?Eu, <- ?list_fmap_compose; try done.
  - by intros r (q & -> & Hq%wo_entries)%list_elem_of_fmap.
  - by rewrite fmap_omap_same.
  - by intros r (q & -> & Hq%wo_uses)%list_elem_of_fmap.
Qed.

Lemma reachable_work_ok s : work_reachable s -> work_ok s.
Proof.
  induction 1 as [s ? ? ? ?|c s _ IH|s s' _ IH He]; [by apply work_empty_ok| |by eapply work_elsewhere_ok].
  by apply (after_work_sound c s).
Qed.

(** ** A small practice to evaluate on: one client, one job, a rate and an hour *)
Definition no_work : Work :=
  {| wk_projects := []; wk_rates := []; wk_entries := []; wk_uses := []; wk_roles := [];
     wk_counterparties := [7]%positive; wk_sites := []; wk_stock := stocked; wk_next := 30; wk_now := 1735689600000000 |}.

Definition project_input (code : option string) (parent : option uuid) : CreateProjectInput :=
  {| cp_referenceCode := code; cp_parentProjectId := parent; cp_counterpartyId := Some 7%positive;
     cp_counterpartySiteId := None; cp_economicEntityId := None; cp_entityAttributionSource := None;
     cp_name := "Rewire"; cp_description := None; cp_projectKind := "install"; cp_status := None;
     cp_billingMethod := TimeAndMaterials; cp_currency := "usd"; cp_estimateAmount := None; cp_budgetAmount := None;
     cp_fixedPriceAmount := None; cp_notToExceedAmount := None; cp_startsOn := None; cp_targetEndOn := None;
     cp_createdByUserId := Some "ann"%string |}.

Definition rate_input (unit : RateUnit) (amount : string) (from : date) : CreateBillingRateInput :=
  {| cr_scopeKind := ScopeInstallation; cr_projectId := None; cr_counterpartyId := None; cr_subjectUserId := None;
     cr_subjectCounterpartyId := None; cr_activityCode := None; cr_economicEntityId := None;
     cr_rateKind := BillRate; cr_currency := "usd"; cr_amount := amount; cr_unit := Some unit;
     cr_effectiveFrom := from; cr_effectiveTo := None; cr_note := None; cr_createdByUserId := None |}.

Definition time_input (project : uuid) (on : date) (minutes : Z) (billableMinutes : option Z) : RecordTimeEntryInput :=
  {| rt_projectId := Some project; rt_counterpartyId := None; rt_economicEntityId := None;
     rt_workedByUserId := Some "ann"%string; rt_workedByCounterpartyId := None; rt_workedByLabel := "Ann";
     rt_activityCode := None; rt_description := None; rt_workedOn := on; rt_startedAt := None; rt_endedAt := None;
     rt_minutes := minutes; rt_billable := None; rt_billableMinutes := billableMinutes; rt_billRateAmount := None;
     rt_costRateAmount := None; rt_currency := None; rt_createdByUserId := Some "ann"%string |}.

Definition use_input (project : uuid) (item : option uuid) (source : CostBasisSource) (markup : option string)
    : RecordMaterialUseInput :=
  {| rm_projectId := project; rm_inventoryItemId := item; rm_catalogItemId := None; rm_inventoryAllocationId := None;
     rm_inventoryMovementId := None; rm_description := "Cable"; rm_quantity := "2"; rm_consumedOn := 20250106;
     rm_costBasisSource := source; rm_unitCostAmount := None; rm_currency := Some "USD"%string; rm_billable := None;
     rm_markupPercent := markup; rm_unitChargeAmount := None; rm_createdByUserId := None |}.

(** The job is 30, the rate 31; an hour is recorded, then priced again at a later rate. *)
Definition JOB : uuid := 30.
Definition RATE : uuid := 31.
Definition HOUR : uuid := 32.
Definition with_job : Work := after_work (CallCreateProject (project_input None None)) no_work.
Definition with_rate : Work := after_work (CallCreateRate (rate_input PerHour "60" 20250101)) with_job.
Definition with_hour : Work := after_work (CallRecordTime (time_input JOB 20250106 90 None)) with_rate.
Definition with_raise : Work := after_work (CallCreateRate (rate_input PerHour "80" 20250105)) with_hour.

Lemma with_raise_reachable : work_reachable with_raise.
Proof. unfold with_raise, with_hour, with_rate, with_job. do 4 apply wreach_call. by apply wreach_empty. Qed.

(** C8. Whatever calls of the work package ran, in whatever order, and whether they
    returned or threw: identifiers and reference codes are unique; a project is at the
    top with depth 0, or at depth 1 below a project of depth 0; every row satisfies the
    constraints of its table (a fixed price exactly on a fixed-price project, a rate's
    columns exactly those of its scope, a source on every amount and a currency on
    every rated entry, a basis item exactly on inventory basis); a rate, an entry and a
    use name a project that exists, an entry's rate exists; and no stock movement backs
    two uses. *)
Theorem work_tables_ok s : work_reachable s -> work_ok s.
Proof. apply reachable_work_ok. Qed.
Lemma work_tables_ok_witness : work_ok with_raise /\ tn_id <$> wk_entries with_raise = [HOUR].
Proof. split; [exact (work_tables_ok with_raise with_raise_reachable)|]. vm_compute. reflexivity. Defined.

(** C9. What a call leaves of the rows that were there, whether it returns or throws:
    no row is deleted or reordered.  A project keeps its code, place, client, currency,
    billing method and fixed price, and the instant it first closed; a rate keeps every
    column but its end, which is not before its start, and the time of its update; an entry keeps its target, its
    worker and its day, and the rates frozen on it unless the call is [reresolveRates];
    a use keeps the quantity and the cost snapshotted on it; and a locked entry or use
    does not change at all. *)
Theorem work_history_kept c s : work_reachable s -> history (keeps_rates c) s (after_work c s).
Proof. intros Hs. by apply after_work_sound, reachable_work_ok. Qed.
Lemma work_history_kept_witness :
  history false with_raise (after_work (CallReresolve HOUR) with_raise) /\
  history true with_raise (after_work (CallApprove HOUR "ann") with_raise) /\
  er_billingRateId ∘ tn_rates <$> wk_entries (after_work (CallReresolve HOUR) with_raise) = [Some 33%positive] /\
  er_billingRateId ∘ tn_rates <$> wk_entries (after_work (CallApprove HOUR "ann") with_raise) = [Some RATE].
Proof.
  split; [exact (work_history_kept (CallReresolve HOUR) with_raise with_raise_reachable)|].
  split; [exact (work_history_kept (CallApprove HOUR "ann") with_raise with_raise_reachable)|].
  split; vm_compute; reflexivity.
Defined.
