(* ===== verification/WorkAmounts.v ===== *)
(** * Rates and amounts of billable work

    What the arithmetic of the work package does to the numbers its decimal strings
    denote; then the rate ladder, the totals of unbilled work, and the costs and
    markups of materials. *)
From stdpp Require Import sorting.
From S2P Require Import Prelude Decimal DecimalPackages Calendar Inputs Store Schema Ledger LedgerFacts.
From S2P Require Import Stock StockNumbers StockFacts StockServices WorkTables Rates TimeEntries Materials.
From S2P Require Import Unbilled WorkMachine.

Open Scope Z_scope.
#[local] Arguments String.append : simpl nomatch.

(** An integer of [sc] places brought to six. *)
Definition at_six (n : Z) (sc : nat) : Z :=
  if (sc <=? 6)%nat then n * pow10 (6 - sc) else round_away n (pow10 (sc - 6)).

Lemma Work_rescale p : (scale p <= 6)%nat -> Work.rescale p 6 = Ok (units p * pow10 (6 - scale p)).
Proof. intros H. unfold Work.rescale. by rewrite (proj2 (rescale_Ok _ _ _ _)) by (split; [|reflexivity]; lia). Qed.

Lemma multiply_scaled a b p q :
  Work.parseScaled a = Ok p -> Work.parseScaled b = Ok q ->
  exists exact, Work.multiplyDecimals a b 6 =
    Ok (fromUnits (at_six (units p * units q) (scale p + scale q)), exact).
Proof.
  intros Hp Hq. unfold Work.multiplyDecimals, at_six. rewrite Hp, Hq. cbn [mbind result_bind].
  destruct (Nat.leb_spec (scale p + scale q) 6) as [H|H].
  - rewrite Work_rescale by done. cbn [mbind result_bind units scale]. by eexists.
  - eexists. unfold fromUnits. by rewrite half_up_away by apply pow10_pos.
Qed.

Lemma divide_amount a x d : amount a x -> 0 < d ->
  exists exact, Work.divideByInteger a d 6 = Ok (fromUnits (round_away x d), exact).
Proof.
  intros (p & Hp & Hs & ->)%(amount_parse WorkValidationError) Hd. unfold Work.divideByInteger.
  destruct (Z.leb_spec d 0); [lia|]. unfold Work.parseScaled. rewrite Hp. cbn [mbind result_bind].
  rewrite Work_rescale by done. cbn [mbind result_bind]. eexists. unfold fromUnits. by rewrite half_up_away.
Qed.

Lemma sum_loop_amounts vs us total : Forall2 amount vs us -> Work.sum_loop total vs 6 = Ok (total + sumZ us).
Proof.
  intros H. revert total. induction H as [|v u vs us Hv _ IH]; intros total; cbn [Work.sum_loop]; [f_equal; cbn; lia|].
  apply (amount_parse WorkValidationError) in Hv as (p & Hp & Hs & ->).
  unfold Work.toUnits, toUnitsAt. rewrite Hp. cbn [mbind result_bind]. fold (Work.rescale p 6).
  rewrite Work_rescale by done. cbn [mbind result_bind]. rewrite IH, sumZ_cons. f_equal. lia.
Qed.
Lemma sum_amounts_exact vs us : Forall2 amount vs us -> Work.sumDecimals vs 6 = Ok (fromUnits (sumZ us)).
Proof. intros H. unfold Work.sumDecimals. by rewrite (sum_loop_amounts _ us). Qed.

(** ** Counts and columns *)
Lemma format_count n : 0 <= n -> format n 0 = Js.bigint_to_string n.
Proof.
  intros Hn. destruct (bigint_to_string_spec n Hn) as (_ & _ & He). unfold format.
  destruct (Z.ltb_spec n 0); [lia|]. unfold Js.pad_start, Js.slice.
  destruct (Js.bigint_to_string n) as [|c t] eqn:E; [done|].
  replace (0 + 1 - String.length (String c t))%nat with 0%nat by (cbn; lia). cbn [Js.repeat_char].
  cbn [String.append Nat.eqb]. rewrite !Nat.sub_0_r, append_nil_r.
  by rewrite substring_0_length.
Qed.

Lemma parse_count e n : 0 <= n -> Decimal.parseScaled e (Js.bigint_to_string n) = Ok (mk_scaled n 0).
Proof. intros H. rewrite <- format_count by done. apply parseScaled_format. Qed.
Lemma parse_column e u : Decimal.parseScaled e (fromUnits u) = Ok (mk_scaled u 6).
Proof. apply parseScaled_format. Qed.

(** The product of two decimals at six places, near the exact one. *)
Lemma at_six_near n a b : (a <= 6)%nat -> 2 * Z.abs (at_six n (a + b) * pow10 b - n * pow10 (6 - a)) <= pow10 b.
Proof.
  intros Ha. unfold at_six. pose proof (pow10_pos b). destruct (Nat.leb_spec (a + b) 6) as [H1|H1].
  - replace (n * pow10 (6 - (a + b)) * pow10 b) with (n * pow10 (6 - a)); [lia|].
    rewrite <- Z.mul_assoc, <- pow10_add. do 2 f_equal. lia.
  - pose proof (round_away_bound n (pow10 (a + b - 6)) (pow10_pos _)) as Hr.
    replace (pow10 b) with (pow10 (a + b - 6) * pow10 (6 - a)) by (rewrite <- pow10_add; f_equal; lia).
    set (k := pow10 (a + b - 6)) in *. pose proof (pow10_pos (6 - a)) as Hp. set (l := pow10 (6 - a)) in *.
    replace (round_away n k * (k * l) - n * l) with (- (n - round_away n k * k) * l) by ring.
    rewrite Z.abs_mul, Z.abs_opp, (Z.abs_eq l) by lia. nia.
Qed.

(** ** The rate ladder

    The six queries of [resolveRate] find the row that one ordering of all the
    applicable rates puts first, and what an hour is then worth. *)

(** ** One ordering for the whole card *)
Definition same_as {A} `{EqDecision A} (a b : option A) : bool := is_some b && bool_decide (a = b).

Definition worker_is (input : RateResolutionInput) (r : BillingRateRow) : bool :=
  if is_some (rr_workedByUserId input) then same_as (br_subjectUserId r) (rr_workedByUserId input)
  else same_as (br_subjectCounterpartyId r) (rr_workedByCounterpartyId input).

(** A rate applies when its kind, its dates and its scope all fit. *)
Definition applies (input : RateResolutionInput) (r : BillingRateRow) : bool :=
  bool_decide (br_rateKind r = rr_rateKind input) && covers (rr_workedOn input) r &&
  match br_scopeKind r with
  | ScopeProjectPerson => same_as (br_projectId r) (rr_projectId input) && worker_is input r
  | ScopeProject => same_as (br_projectId r) (rr_projectId input)
  | ScopeCounterparty => same_as (br_counterpartyId r) (rr_counterpartyId input)
  | ScopePerson => worker_is input r
  | ScopeActivity => same_as (br_activityCode r) (rr_activityCode input)
  | ScopeInstallation => true
  end.

(** The narrowest scope first, then the latest start, then the highest identifier. *)
Definition place (k : BillingRateScopeKind) : nat :=
  match k with
  | ScopeProjectPerson => 0 | ScopeProject => 1 | ScopeCounterparty => 2 | ScopePerson => 3 | ScopeActivity => 4
  | ScopeInstallation => 5
  end.
Definition rank (k : BillingRateScopeKind) : Z := Z.of_nat (place k).
Definition precedes (r q : BillingRateRow) : bool :=
  (rank (br_scopeKind r) <? rank (br_scopeKind q))
  || ((rank (br_scopeKind r) =? rank (br_scopeKind q)) && rate_before r q).

Definition best_rate (input : RateResolutionInput) (rates : list BillingRateRow) : RateResolutionResult :=
  match head (sort_with precedes (List.filter (applies input) rates)) with
  | Some r => resolved r (br_scopeKind r)
  | None => no_rate
  end.

(** ** The queries *)
Definition qualifies (input : RateResolutionInput) (scope : BillingRateScopeKind) (p : BillingRateRow -> bool)
    (r : BillingRateRow) : bool :=
  bool_decide (br_rateKind r = rr_rateKind input) && bool_decide (br_scopeKind r = scope)
  && covers (rr_workedOn input) r && p r.

Lemma qualifies_scope input scope p r : qualifies input scope p r = true -> br_scopeKind r = scope.
Proof. unfold qualifies. rewrite !andb_true_iff, !bool_decide_eq_true. tauto. Qed.

Fixpoint first_hit (input : RateResolutionInput) (rates : list BillingRateRow)
    (rungs : list (BillingRateScopeKind * option (BillingRateRow -> bool))) : option BillingRateRow :=
  match rungs with
  | [] => None
  | (_, None) :: rungs => first_hit input rates rungs
  | (scope, Some p) :: rungs =>
      match rung_row input scope p rates with Some r => Some r | None => first_hit input rates rungs end
  end.

Lemma rate_before_iff r q : rate_before r q = true <->
  br_effectiveFrom q < br_effectiveFrom r \/
  (br_effectiveFrom q = br_effectiveFrom r /\ (br_id q <= br_id r)%positive).
Proof. unfold rate_before. rewrite orb_true_iff, andb_true_iff, Z.ltb_lt, Z.eqb_eq, Pos.leb_le. done. Qed.
Lemma precedes_iff r q : precedes r q = true <->
  rank (br_scopeKind r) < rank (br_scopeKind q) \/
  (rank (br_scopeKind r) = rank (br_scopeKind q) /\ rate_before r q = true).
Proof. unfold precedes. rewrite orb_true_iff, andb_true_iff, Z.ltb_lt, Z.eqb_eq. done. Qed.
Lemma rate_before_total r q : rate_before r q = true \/ rate_before q r = true.
Proof. rewrite !rate_before_iff. lia. Qed.
Lemma rate_before_trans r q t : rate_before r q = true -> rate_before q t = true -> rate_before r t = true.
Proof. rewrite !rate_before_iff. lia. Qed.
Lemma precedes_total r q : precedes r q = true \/ precedes q r = true.
Proof. rewrite !precedes_iff, !rate_before_iff. lia. Qed.
Lemma precedes_trans r q t : precedes r q = true -> precedes q t = true -> precedes r t = true.
Proof. rewrite !precedes_iff, !rate_before_iff. lia. Qed.
Lemma precedes_antisym r q : precedes r q = true -> precedes q r = true -> br_id r = br_id q.
Proof. rewrite !precedes_iff, !rate_before_iff. lia. Qed.

Lemma rung_row_spec input scope p rates r : rung_row input scope p rates = Some r ->
  r ∈ rates /\ qualifies input scope p r = true /\
  forall q, q ∈ rates -> qualifies input scope p q = true -> rate_before r q = true.
Proof.
  intros [Hr Hm]%sort_with_head; [|apply rate_before_total|apply rate_before_trans].
  apply elem_of_bool_filter in Hr as [Hq Hr]. split; [done|]. split; [done|].
  intros q H1 H2. by apply Hm, elem_of_bool_filter.
Qed.
Lemma rung_row_none input scope p rates r :
  rung_row input scope p rates = None -> r ∈ rates -> qualifies input scope p r = false.
Proof.
  intros H%sort_with_nil Hr. apply not_true_iff_false. intros Hq.
  assert (r ∈ @nil BillingRateRow) as []%not_elem_of_nil. rewrite <- H. by apply elem_of_bool_filter.
Qed.

(** The rate found, when its scope is the one of its rung. *)
Lemma resolve_rungs_run input rungs s : valid_date (rr_workedOn input) = true ->
  resolve_rungs input rungs s =
    (Ok (match first_hit input (wk_rates s) rungs with Some r => resolved r (br_scopeKind r) | None => no_rate end), s).
Proof.
  intros Hd. induction rungs as [|[scope [p|]] rungs IH]; cbn [resolve_rungs first_hit]; [done| |done].
  erewrite st_bind_run; [|unfold date_column; by rewrite Hd]. erewrite st_bind_run by done. cbv beta.
  destruct (rung_row input scope p (wk_rates s)) as [r|] eqn:E; [|done].
  apply rung_row_spec in E as (_ & Hq & _). by rewrite (qualifies_scope _ _ _ _ Hq).
Qed.

(** The rungs of a ladder whose scopes widen. *)
Lemma first_hit_best input rates rungs :
  StronglySorted (fun a b => rank a.1 < rank b.1) rungs ->
  match first_hit input rates rungs with
  | Some r => r ∈ rates /\ (exists p, (br_scopeKind r, Some p) ∈ rungs /\ qualifies input (br_scopeKind r) p r = true) /\
      forall q scope p, (scope, Some p) ∈ rungs -> q ∈ rates -> qualifies input scope p q = true -> precedes r q = true
  | None => forall q scope p, (scope, Some p) ∈ rungs -> q ∈ rates -> qualifies input scope p q = false
  end.
Proof.
  induction 1 as [|[scope [p|]] rungs _ IH Hf]; cbn [first_hit]; [by intros ??? ?%not_elem_of_nil| |].
  - rewrite Forall_forall in Hf. destruct (rung_row input scope p rates) as [r|] eqn:E.
    + apply rung_row_spec in E as (Hr & Hq & Hm). pose proof (qualifies_scope _ _ _ _ Hq) as Es.
      split; [done|]. split; [exists p; by rewrite Es; split; [left|]|]. intros q sc p' [[= -> ->]|Hin]%elem_of_cons Hr' Hq'.
      * apply precedes_iff. right. rewrite (qualifies_scope _ _ _ _ Hq'), Es. auto.
      * apply precedes_iff. left. rewrite (qualifies_scope _ _ _ _ Hq'), Es. by apply (Hf _ Hin).
    + assert (forall q sc p', (sc, Some p') ∈ (scope, Some p) :: rungs -> q ∈ rates -> qualifies input sc p' q = true ->
        (sc, Some p') ∈ rungs) as Hin.
      { intros q sc p' [[= -> ->]|Hin]%elem_of_cons Hr Hq; [|done]. by rewrite (rung_row_none _ _ _ _ _ E Hr) in Hq. }
      destruct (first_hit input rates rungs) as [r|].
      * destruct IH as (Hr & (p' & Hp & Hq) & Hm). split; [done|]. split; [exists p'; by split; [right|]|]. eauto.
      * intros q sc p' Hs Hr. apply not_true_iff_false. intros Hq. specialize (IH q sc p' (Hin q sc p' Hs Hr Hq) Hr). congruence.
  - destruct (first_hit input rates rungs) as [r|].
    + destruct IH as (Hr & (p' & Hp & Hq) & Hm). split; [done|]. split; [exists p'; by split; [right|]|].
      intros q sc p'' [[=]|Hin]%elem_of_cons; eauto.
    + intros q sc p'' [[=]|Hin]%elem_of_cons; eauto.
Qed.

(** The clause of the rung of a scope. *)
Definition clause (input : RateResolutionInput) (scope : BillingRateScopeKind) : option (BillingRateRow -> bool) :=
  match buildRungs input !! place scope with Some e => e.2 | None => None end.
Lemma clause_rung input scope p : (scope, Some p) ∈ buildRungs input <-> clause input scope = Some p.
Proof.
  unfold clause, buildRungs. cbv zeta. rewrite !elem_of_cons. destruct scope; cbn -[subjectPredicate];
    (split; [intros H; destruct_or!; try discriminate; try (by apply not_elem_of_nil in H);
      (injection H as H; first [exact (eq_sym H)|by rewrite H])|intros ->; tauto]).
Qed.
Lemma clause_applies input r :
  applies input r =
  match clause input (br_scopeKind r) with Some p => qualifies input (br_scopeKind r) p r | None => false end.
Proof.
  unfold applies, qualifies, clause, buildRungs, place, subjectPredicate, worker_is, same_as. cbv zeta.
  rewrite (bool_decide_eq_true_2 (br_scopeKind r = br_scopeKind r)) by done. rewrite andb_true_r.
  destruct input as [kind project client user worker activity on]; cbn -[bool_decide covers].
  destruct (br_scopeKind r); cbn -[bool_decide covers];
    destruct project, client, user, worker, activity; cbn -[bool_decide covers]; rewrite ?andb_false_r; done.
Qed.

Lemma ladder_widens input : StronglySorted (fun a b => rank a.1 < rank b.1) (buildRungs input).
Proof. unfold buildRungs. repeat constructor. Qed.

Lemma applies_rung input r : applies input r = true <->
  exists p, (br_scopeKind r, Some p) ∈ buildRungs input /\ qualifies input (br_scopeKind r) p r = true.
Proof.
  rewrite clause_applies. setoid_rewrite clause_rung. destruct (clause input (br_scopeKind r)); naive_solver.
Qed.
Lemma rung_applies input scope p r :
  (scope, Some p) ∈ buildRungs input -> qualifies input scope p r = true -> applies input r = true.
Proof. intros Hs Hq. apply applies_rung. exists p. by rewrite (qualifies_scope _ _ _ _ Hq). Qed.

(** The six queries and the one ordering agree. *)
Lemma first_hit_head input rates : NoDup (br_id <$> rates) ->
  first_hit input rates (buildRungs input) = head (sort_with precedes (List.filter (applies input) rates)).
Proof.
  intros Hn. pose proof (first_hit_best input rates _ (ladder_widens input)) as H.
  destruct (head (sort_with _ _)) as [q|] eqn:Eq.
  - apply sort_with_head in Eq as [[Ha Hq]%elem_of_bool_filter Hm]; [|apply precedes_total|apply precedes_trans].
    apply applies_rung in Ha as (p & Hp & Hqq). destruct (first_hit _ _ _) as [r|].
    + destruct H as (Hr & (p' & Hp' & Hqr) & Hb). f_equal. eapply NoDup_keys_inj; [done..|].
      apply precedes_antisym; [exact (Hb q _ p Hp Hq Hqq)|]. apply Hm, elem_of_bool_filter. split; [exact (rung_applies _ _ _ _ Hp' Hqr)|done].
    + by rewrite (H q _ p Hp Hq) in Hqq.
  - apply sort_with_nil in Eq. destruct (first_hit _ _ _) as [r|]; [|done].
    destruct H as (Hr & (p & Hp & Hq) & _). assert (r ∈ @nil BillingRateRow) as []%not_elem_of_nil.
    rewrite <- Eq. apply elem_of_bool_filter. split; [exact (rung_applies _ _ _ _ Hp Hq)|done].
Qed.

(** Texts that can be written as a literal. *)
Definition literal (o : option string) : bool := match o with None => true | Some t => negb (Text.has_nul t) end.
Lemma literal_run o (s : Work) : literal o = true -> st_lift (z_opt text_literal o) s = (Ok o, s).
Proof.
  destruct o as [t|]; [|done]. cbn. intros H%negb_true_iff. unfold st_lift, z_opt, text_literal. by rewrite H.
Qed.

Lemma resolveRate_run input s : literal (rr_workedByUserId input) = true -> literal (rr_activityCode input) = true ->
  valid_date (rr_workedOn input) = true -> NoDup (br_id <$> wk_rates s) ->
  resolveRate input s = (Ok (best_rate input (wk_rates s)), s).
Proof.
  intros Hu Ha Hd Hn. unfold resolveRate. erewrite st_bind_run by (by apply literal_run).
  erewrite st_bind_run by (by apply literal_run). rewrite resolve_rungs_run by done. unfold best_rate.
  by rewrite first_hit_head.
Qed.

(** C27. The ladder is one ordering: for a date of the calendar and texts a literal can
    hold, [resolveRate] returns without touching the store, and its six queries find
    what sorting the whole card once would put first: among the rates of the kind whose
    dates cover the day and whose scope fits, the one of the narrowest scope, then of
    the latest start, then of the highest identifier; and no rate exactly when none
    applies. *)
Theorem rate_ladder input s :
  work_reachable s -> literal (rr_workedByUserId input) = true -> literal (rr_activityCode input) = true ->
  valid_date (rr_workedOn input) = true ->
  resolveRate input s = (Ok (best_rate input (wk_rates s)), s).
Proof. intros Hs%reachable_work_ok Hu Ha Hd. apply resolveRate_run; [done..|]. apply Hs. Qed.

Definition ladder_sample : RateResolutionInput :=
  {| rr_rateKind := BillRate; rr_projectId := Some JOB; rr_counterpartyId := Some 7%positive;
     rr_workedByUserId := Some "ann"%string; rr_workedByCounterpartyId := None; rr_activityCode := None;
     rr_workedOn := 20250106 |}.
Lemma rate_ladder_witness :
  resolveRate ladder_sample with_raise = (Ok (best_rate ladder_sample (wk_rates with_raise)), with_raise) /\
  rs_billingRateId (best_rate ladder_sample (wk_rates with_raise)) = Some 33%positive.
Proof.
  split; [|vm_compute; reflexivity].
  apply (rate_ladder ladder_sample with_raise with_raise_reachable); vm_compute; reflexivity.
Defined.

(** ** The unit of a rate *)
Definition with_unit (unit : RateUnit) (r : BillingRateRow) : BillingRateRow :=
  {| br_id := br_id r; br_scopeKind := br_scopeKind r; br_projectId := br_projectId r;
     br_counterpartyId := br_counterpartyId r; br_subjectUserId := br_subjectUserId r;
     br_subjectCounterpartyId := br_subjectCounterpartyId r; br_activityCode := br_activityCode r;
     br_economicEntityId := br_economicEntityId r; br_rateKind := br_rateKind r; br_currency := br_currency r;
     br_amount := br_amount r; br_unit := unit; br_effectiveFrom := br_effectiveFrom r;
     br_effectiveTo := br_effectiveTo r; br_note := br_note r; br_createdByUserId := br_createdByUserId r;
     br_updatedAt := br_updatedAt r |}.

Lemma insert_with_fmap {A} (le : A -> A -> bool) (f : A -> A) x l :
  (forall y z, le (f y) (f z) = le y z) -> insert_with le (f x) (f <$> l) = f <$> insert_with le x l.
Proof.
  intros Hf. induction l as [|y l IH]; [done|]. cbn [fmap list_fmap insert_with]. rewrite Hf.
  destruct (le x y); [done|]. by rewrite IH.
Qed.
Lemma sort_with_fmap {A} (le : A -> A -> bool) (f : A -> A) l :
  (forall y z, le (f y) (f z) = le y z) -> sort_with le (f <$> l) = f <$> sort_with le l.
Proof.
  intros Hf. induction l as [|x l IH]; [done|]. change (sort_with le (f <$> x :: l)) with
    (insert_with le (f x) (sort_with le (f <$> l))). rewrite IH, insert_with_fmap by done. done.
Qed.
Lemma filter_fmap {A} (p : A -> bool) (f : A -> A) l :
  (forall x, p (f x) = p x) -> List.filter p (f <$> l) = f <$> List.filter p l.
Proof. intros Hf. induction l as [|x l IH]; [done|]. csimpl. rewrite Hf, IH. by destruct (p x). Qed.

Lemma best_rate_units (unit : BillingRateRow -> RateUnit) input rates :
  best_rate input ((fun r => with_unit (unit r) r) <$> rates) = best_rate input rates.
Proof.
  unfold best_rate. rewrite filter_fmap by done. rewrite sort_with_fmap by done.
  by destruct (sort_with precedes _).
Qed.

Lemma billable_amount_exact row rate :
  er_billRateAmount (tn_rates row) = Some rate -> tn_billable row = true -> 0 < tn_billableMinutes row ->
  timeEntryBillableAmount row = Ok (Some (fromUnits (round_away (tn_billableMinutes row * rate) 60))).
Proof.
  intros Hr Hb Hm. unfold timeEntryBillableAmount. rewrite Hr, Hb. destruct (Z.leb_spec (tn_billableMinutes row) 0); [lia|].
  cbn [negb orb].
  destruct (multiply_scaled (Js.bigint_to_string (tn_billableMinutes row)) (fromUnits rate)
    (mk_scaled (tn_billableMinutes row) 0) (mk_scaled rate 6)) as [e ->]; [by apply parse_count; lia|apply parse_column|].
  cbn [mbind result_bind fst units scale]. unfold at_six. cbn [Nat.add Nat.leb Nat.sub].
  change (pow10 0) with 1. rewrite Z.mul_1_r.
  destruct (divide_amount (fromUnits (tn_billableMinutes row * rate)) (tn_billableMinutes row * rate) 60)
    as [e' ->]; [apply amount_fromUnits|lia|done].
Qed.

(** A day rate is charged by the hour.  Whatever the units of the rates on the card,
    [resolveRate] finds the same row and returns the same amount; and an entry with a
    rate is worth its billable minutes times that amount over sixty, to the micro-unit,
    half away from zero. *)
Theorem rate_unit_is_ignored (unit : BillingRateRow -> RateUnit) input s row rate :
  work_reachable s -> literal (rr_workedByUserId input) = true -> literal (rr_activityCode input) = true ->
  valid_date (rr_workedOn input) = true ->
  er_billRateAmount (tn_rates row) = Some rate -> tn_billable row = true -> 0 < tn_billableMinutes row ->
  let rates := (fun r => with_unit (unit r) r) <$> wk_rates s in
  (resolveRate input (put_rates rates s)).1 = (resolveRate input s).1 /\
  timeEntryBillableAmount row = Ok (Some (fromUnits (round_away (tn_billableMinutes row * rate) 60))).
Proof.
  intros Hs%reachable_work_ok Hu Ha Hd Hr Hb Hm rates. split; [|by apply billable_amount_exact].
  rewrite !resolveRate_run; try done; [|apply Hs|cbn; unfold rates; rewrite <- list_fmap_compose; apply Hs].
  cbn [fst wk_rates put_rates with_tables]. unfold rates. by rewrite best_rate_units.
Qed.

(** Eight hours at 800 a day come to 6400. *)
Definition day_rated : Work := after_work (CallCreateRate (rate_input PerDay "800" 20250101)) with_job.
Definition full_day : Work := after_work (CallRecordTime (time_input JOB 20250106 480 None)) day_rated.
Lemma day_rated_reachable : work_reachable day_rated.
Proof. unfold day_rated, with_job. do 2 apply wreach_call. by apply wreach_empty. Qed.
Lemma rate_unit_is_ignored_witness :
  exists row, wk_entries full_day = [row] /\ br_unit <$> wk_rates day_rated = [PerDay] /\
  ((resolveRate ladder_sample (put_rates (with_unit PerHour <$> wk_rates day_rated) day_rated)).1
     = (resolveRate ladder_sample day_rated).1 /\
   timeEntryBillableAmount row = Ok (Some (fromUnits (round_away (480 * 800000000) 60)))) /\
  fromUnits (round_away (480 * 800000000) 60) = "6400.000000"%string.
Proof.
  eexists. split; [vm_compute; reflexivity|]. split; [vm_compute; reflexivity|].
  split; [|vm_compute; reflexivity].
  match goal with |- _ /\ timeEntryBillableAmount ?row = _ =>
    apply (rate_unit_is_ignored (fun _ => PerHour) ladder_sample day_rated row 800000000 day_rated_reachable)
  end; vm_compute; reflexivity.
Defined.

(** ** The totals of unbilled work

    What [summarize] answers: exact counts and sums by currency, or no sum. *)

(** ** What a row is worth, in micro-units *)
Definition worth (row : TimeEntryRow) : option Z :=
  match er_billRateAmount (tn_rates row) with
  | Some rate => if tn_billable row && (0 <? tn_billableMinutes row)
                 then Some (round_away (tn_billableMinutes row * rate) 60) else None
  | None => None
  end.
Definition line_worth (row : ProjectMaterialUseRow) : option Z :=
  (fun charge => round_away (mu_quantity row * charge) (pow10 6)) <$> mu_unitChargeAmount row.

Lemma worth_exact row : timeEntryBillableAmount row = Ok (fromUnits <$> worth row).
Proof.
  unfold worth. destruct (er_billRateAmount (tn_rates row)) as [rate|] eqn:E.
  - destruct (tn_billable row) eqn:Eb; cbn [andb]; [destruct (Z.ltb_spec 0 (tn_billableMinutes row))|].
    + by apply billable_amount_exact.
    + unfold timeEntryBillableAmount. rewrite E, Eb. destruct (Z.leb_spec (tn_billableMinutes row) 0); [done|lia].
    + unfold timeEntryBillableAmount. by rewrite E, Eb.
  - unfold timeEntryBillableAmount. by rewrite E.
Qed.

Lemma line_worth_exact row : materialUseLineAmount row = Ok (fromUnits <$> line_worth row).
Proof.
  unfold materialUseLineAmount, line_worth. destruct (mu_unitChargeAmount row) as [c|]; [|done].
  destruct (multiply_scaled (fromUnits (mu_quantity row)) (fromUnits c) (mk_scaled (mu_quantity row) 6) (mk_scaled c 6))
    as [e ->]; [apply parse_column..|]. done.
Qed.

(** ** The total of a currency *)
Definition of_key {A} (key : A -> string) (c : string) : list A -> list A :=
  List.filter (fun x => String.eqb (key x) c).

(** The number of its rows, and their sum where each is worth something. *)
Definition currency_total {A} (key : A -> string) (value : A -> option Z) (rows : list A) (c : string) : CurrencyTotal :=
  {| ct_currency := c; ct_count := length (of_key key c rows);
     ct_totalAmount := fromUnits ∘ sumZ <$> mapM value (of_key key c rows) |}.

(** ** Buckets *)
Definition bucket_of (es : list (string * option string)) (c : string) : Bucket :=
  let mine := of_key fst c es in
  {| bk_amounts := omap snd mine; bk_count := length mine; bk_hasGap := existsb (fun e => negb (is_some e.2)) mine |}.

Record represents (es : list (string * option string)) (m : list (string * Bucket)) : Prop := {
  rp_keys : NoDup (fst <$> m);
  rp_dom : forall c, c ∈ fst <$> m <-> c ∈ fst <$> es;
  rp_bucket : forall c b, (c, b) ∈ m -> b = bucket_of es c;
}.

Lemma of_key_snoc {A} (key : A -> string) c l x :
  of_key key c (l ++ [x]) = of_key key c l ++ if String.eqb (key x) c then [x] else [].
Proof. unfold of_key. rewrite List.filter_app. cbn. by destruct (String.eqb (key x) c). Qed.

Lemma bucket_other es c k a : k <> c -> bucket_of (es ++ [(c, a)]) k = bucket_of es k.
Proof.
  intros H. unfold bucket_of. rewrite of_key_snoc. cbn [fst]. destruct (String.eqb_spec c k); [congruence|].
  by rewrite app_nil_r.
Qed.
Lemma bucket_same es c a : bucket_of (es ++ [(c, a)]) c =
  let b := bucket_of es c in
  {| bk_amounts := bk_amounts b ++ option_list a; bk_count := S (bk_count b);
     bk_hasGap := bk_hasGap b || negb (is_some a) |}.
Proof.
  unfold bucket_of. rewrite of_key_snoc. cbn [fst]. rewrite String.eqb_refl. cbv zeta. cbn [bk_amounts bk_count bk_hasGap].
  rewrite omap_app, length_app, existsb_app. cbn. rewrite orb_false_r, Nat.add_1_r. by destruct a.
Qed.
Lemma bucket_fresh es c a : c ∉ fst <$> es -> bucket_of (es ++ [(c, a)]) c =
  {| bk_amounts := option_list a; bk_count := 1; bk_hasGap := negb (is_some a) |}.
Proof.
  intros Hc. rewrite bucket_same. cbv zeta. assert (of_key fst c es = []) as E.
  { apply elem_of_nil_inv. intros e. unfold of_key. rewrite elem_of_bool_filter. intros [E%String.eqb_eq He].
    apply Hc, list_elem_of_fmap. by exists e. }
  unfold bucket_of. by rewrite E.
Qed.

Lemma add_to_keys c a m : fst <$> add_to c a m = if decide (c ∈ fst <$> m) then fst <$> m else (fst <$> m) ++ [c].
Proof.
  induction m as [|[k b] m IH]; [done|]. cbn [add_to]. destruct (String.eqb_spec k c) as [->|Hk].
  - csimpl. rewrite decide_True by (by left). done.
  - csimpl. rewrite IH. repeat case_decide; set_solver.
Qed.
Lemma add_to_elem c a m k b : NoDup (fst <$> m) -> (k, b) ∈ add_to c a m ->
  (k <> c /\ (k, b) ∈ m) \/
  (k = c /\ ((c ∉ fst <$> m /\ b = {| bk_amounts := option_list a; bk_count := 1; bk_hasGap := negb (is_some a) |}) \/
    exists b0, (c, b0) ∈ m /\ b = {| bk_amounts := bk_amounts b0 ++ option_list a; bk_count := S (bk_count b0);
                                    bk_hasGap := bk_hasGap b0 || negb (is_some a) |})).
Proof.
  induction m as [|[k0 b0] m IH]; cbn [add_to].
  - intros _ [= -> ->]%list_elem_of_singleton. right. split; [done|]. left. split; [apply not_elem_of_nil|done].
  - csimpl. rewrite NoDup_cons. intros [Hk0 Hn]. destruct (String.eqb_spec k0 c) as [->|Hk].
    + intros [[= -> ->]|H]%elem_of_cons.
      * right. split; [done|]. right. exists b0. split; [by left|done].
      * left. split; [|by right]. intros ->. apply Hk0, list_elem_of_fmap. by exists (c, b).
    + intros [[= -> ->]|H]%elem_of_cons; [left; split; [done|by left]|].
      destruct (IH Hn H) as [[? ?]|(-> & [[? ->]|(b1 & ? & ->)])]; [left; split; [done|by right]|right; split; [done|]..].
      * left. split; [set_solver|done].
      * right. exists b1. split; [by right|done].
Qed.

Lemma add_to_represents es m c a : represents es m -> represents (es ++ [(c, a)]) (add_to c a m).
Proof.
  intros [Hn Hd Hb]. split.
  - rewrite add_to_keys. case_decide as E; [done|]. apply NoDup_app. split; [done|]. split; [set_solver|apply NoDup_singleton].
  - intros k. rewrite add_to_keys, fmap_app, elem_of_app, <- Hd. csimpl. rewrite list_elem_of_singleton. case_decide; set_solver.
  - intros k b [[Hk H]|(-> & [[H ->]|(b0 & H & ->)])]%add_to_elem; [..|done].
    + rewrite bucket_other by done. by apply Hb.
    + rewrite bucket_fresh; [done|]. by rewrite <- Hd.
    + rewrite bucket_same. by rewrite <- (Hb _ _ H).
Qed.
Lemma buckets_represent es : represents es (foldl (fun m e => add_to e.1 e.2 m) [] es).
Proof.
  induction es as [|[c a] es IH] using rev_ind; [by split; [apply NoDup_nil_2| |intros ?? ?%not_elem_of_nil]|].
  rewrite foldl_snoc. by apply add_to_represents.
Qed.

(** ** From rows to totals *)
Section totals.
Context {A : Type} (key : A -> string) (value : A -> option Z) (amount_of : A -> result (option string)).
Hypothesis amount_exact : forall r, amount_of r = Ok (fromUnits <$> value r).

#[local] Abbreviation entry := (fun r => (key r, fromUnits <$> value r)).

Lemma bucketed_run rows :
  bucketed key amount_of rows = Ok (foldl (fun m e => add_to e.1 e.2 m) [] (entry <$> rows)).
Proof using amount_exact.
  unfold bucketed. assert (res_mapM amount_of rows = Ok ((fun r => fromUnits <$> value r) <$> rows)) as ->.
  { apply res_mapM_Forall2, Forall2_fmap_r, Forall_Forall2_diag, Forall_forall. intros r _. apply amount_exact. }
  cbn [mbind result_bind]. f_equal. f_equal. induction rows as [|r rows IH]; [done|]. csimpl. by rewrite IH.
Qed.

Lemma of_key_entries c rows : of_key fst c (entry <$> rows) = entry <$> of_key key c rows.
Proof. unfold of_key. induction rows as [|r rows IH]; [done|]. csimpl. rewrite IH. by destruct (String.eqb (key r) c). Qed.

Lemma gapless l : existsb (fun e : string * option string => negb (is_some e.2)) (entry <$> l) = false ->
  exists us, mapM value l = Some us /\ omap snd (entry <$> l) = fromUnits <$> us.
Proof.
  induction l as [|r l IH]; [by exists []|]. cbn. destruct (value r) as [u|]; [|done]. cbn.
  intros (us & -> & E)%IH. exists (u :: us). split; [done|]. cbn. f_equal. exact E.
Qed.
Lemma gap l : existsb (fun e : string * option string => negb (is_some e.2)) (entry <$> l) = true -> mapM value l = None.
Proof.
  induction l as [|r l IH]; [done|]. cbn. destruct (value r) as [u|]; [|done]. cbn. intros H%IH. by rewrite H.
Qed.

Lemma to_total_run rows c :
  to_total (c, bucket_of (entry <$> rows) c) = Ok (currency_total key value rows c).
Proof.
  unfold to_total, bucket_of, currency_total. rewrite of_key_entries. cbn [bk_hasGap bk_amounts bk_count].
  rewrite length_fmap. destruct (existsb _ _) eqn:E; cbn [mbind result_bind].
  - by rewrite gap.
  - destruct (gapless _ E) as (us & -> & ->). rewrite (sum_amounts_exact _ us); [done|].
    apply Forall2_fmap_l, Forall_Forall2_diag, Forall_forall. intros u _. apply amount_fromUnits.
Qed.

(** One total for each currency that occurs. *)
Lemma totals_run rows : exists totals m,
  bucketed key amount_of rows = Ok m /\ toTotals m = Ok totals /\
  totals ≡ₚ currency_total key value rows <$> remove_dups (key <$> rows).
Proof using amount_exact.
  destruct (buckets_represent (entry <$> rows)) as [Hn Hd Hb]. set (m := foldl _ _ _) in *.
  eexists _, m. split; [apply bucketed_run|]. unfold toTotals.
  assert (res_mapM to_total m = Ok (currency_total key value rows <$> (fst <$> m))) as ->.
  { apply res_mapM_Forall2. rewrite <- list_fmap_compose. apply Forall2_fmap_r, Forall_Forall2_diag, Forall_forall.
    intros [c b] H. rewrite (Hb c b H). apply to_total_run. }
  cbn [mbind result_bind]. split; [reflexivity|]. rewrite sort_with_perm. apply fmap_Permutation.
  apply NoDup_Permutation; [done|apply NoDup_remove_dups|]. intros c. rewrite elem_of_remove_dups, Hd.
  rewrite <- list_fmap_compose. done.
Qed.
End totals.

Lemma summarize_run billed f s :
  let time := unbilled_time billed f s in
  let materials := unbilled_materials billed f s in
  exists out, summarize billed f s = (Ok out, s) /\
    us_timeByCurrency out ≡ₚ currency_total entry_currency worth time <$> remove_dups (entry_currency <$> time) /\
    us_unratedCount out = length (List.filter (fun r => unresolved (er_billRateSource (tn_rates r))) time) /\
    us_materialsByCurrency out
      ≡ₚ currency_total mu_currency line_worth materials <$> remove_dups (mu_currency <$> materials) /\
    us_unpricedCount out = length (List.filter (fun r => negb (is_some (mu_unitChargeAmount r))) materials).
Proof.
  intros time materials.
  destruct (totals_run entry_currency worth _ worth_exact time) as (ts & m & Hm & Ht & Hp).
  destruct (totals_run mu_currency line_worth _ line_worth_exact materials) as (us & n & Hn & Hu & Hq).
  eexists. split.
  - unfold summarize, listUnbilledTime, listUnbilledMaterials. do 2 (erewrite st_bind_run by done).
    fold time materials. erewrite st_bind_run by (unfold st_lift; by rewrite Hm).
    erewrite st_bind_run by (unfold st_lift; by rewrite Hn). erewrite st_bind_run by (unfold st_lift; by rewrite Ht).
    erewrite st_bind_run by (unfold st_lift; by rewrite Hu). reflexivity.
  - cbn. split; [exact Hp|]. split; [done|]. by split.
Qed.

(** C28. What [summarize] answers, whatever seam tells which facts are billed: it always
    returns and changes nothing; over the billable, unlocked, unbilled entries the
    filter keeps there is one total for each currency, in some order, with the number of
    its entries and the sum of what each is worth - its billable minutes times its rate
    over sixty, to the micro-unit - or no sum when one of them is worth nothing yet;
    likewise for the uses, each worth its quantity times its charge; and the counts of
    unrated entries and of uses without a charge are exact. *)
Theorem summary_exact billed f s :
  let time := unbilled_time billed f s in
  let materials := unbilled_materials billed f s in
  exists out, summarize billed f s = (Ok out, s) /\
    us_timeByCurrency out ≡ₚ currency_total entry_currency worth time <$> remove_dups (entry_currency <$> time) /\
    us_unratedCount out = length (List.filter (fun r => unresolved (er_billRateSource (tn_rates r))) time) /\
    us_materialsByCurrency out
      ≡ₚ currency_total mu_currency line_worth materials <$> remove_dups (mu_currency <$> materials) /\
    us_unpricedCount out = length (List.filter (fun r => negb (is_some (mu_unitChargeAmount r))) materials).
Proof. apply summarize_run. Qed.

Lemma mapM_gap {A B} (f : A -> option B) l x : x ∈ l -> f x = None -> mapM f l = None.
Proof.
  intros Hx Hf. induction l as [|y l IH]; [by apply not_elem_of_nil in Hx|]. cbn.
  apply elem_of_cons in Hx as [<-|Hx]; [by rewrite Hf|]. destruct (f y); [|done]. cbn. by rewrite IH.
Qed.

(** One entry written down to nothing hides its currency's total: while a billable
    entry of zero billable minutes is unbilled, [summarize] answers no sum for the
    currency, however many priced entries it has, although the entry is rated and is not
    counted among the unrated ones. *)
Theorem written_down_hides_total billed f s row :
  row ∈ unbilled_time billed f s -> tn_billableMinutes row = 0 -> er_billRateSource (tn_rates row) <> RateUnresolved ->
  row ∉ List.filter (fun r => unresolved (er_billRateSource (tn_rates r))) (unbilled_time billed f s) /\
  exists out total, summarize billed f s = (Ok out, s) /\ total ∈ us_timeByCurrency out /\
    ct_currency total = entry_currency row /\ ct_totalAmount total = None.
Proof.
  intros Hr Hm Hs. set (time := unbilled_time billed f s) in *. split.
  { rewrite elem_of_bool_filter. intros [H%bool_decide_eq_true _]. done. }
  destruct (summarize_run billed f s) as (out & Hrun & Hp & _). fold time in Hp.
  exists out, (currency_total entry_currency worth time (entry_currency row)). split; [done|]. split.
  - rewrite Hp. apply list_elem_of_fmap_2, elem_of_remove_dups, list_elem_of_fmap_2. done.
  - split; [done|]. cbn. rewrite (mapM_gap _ _ row); [done| |].
    + apply elem_of_bool_filter. by rewrite String.eqb_refl.
    + unfold worth. rewrite Hm. destruct (er_billRateAmount _); [|done]. by rewrite andb_false_r.
Qed.

Definition all_work : UnbilledWorkFilter :=
  {| uf_projectId := None; uf_counterpartyId := None; uf_economicEntityId := None; uf_limit := None |}.
Definition written_down : Work := after_work (CallRecordTime (time_input JOB 20250107 30 (Some 0))) with_hour.
Lemma written_down_hides_total_witness :
  exists row, head (unbilled_time alwaysUnbilledResolver all_work written_down) = Some row /\
  (row ∉ List.filter (fun r => unresolved (er_billRateSource (tn_rates r)))
           (unbilled_time alwaysUnbilledResolver all_work written_down) /\
   exists out total, summarize alwaysUnbilledResolver all_work written_down = (Ok out, written_down) /\
     total ∈ us_timeByCurrency out /\ ct_currency total = entry_currency row /\ ct_totalAmount total = None) /\
  us_timeByCurrency <$> (summarize alwaysUnbilledResolver all_work with_hour).1
    = Ok [{| ct_currency := "USD"; ct_count := 1; ct_totalAmount := Some "90.000000"%string |}].
Proof.
  eexists. split; [vm_compute; reflexivity|]. split; [|vm_compute; reflexivity].
  apply written_down_hides_total; [|reflexivity|vm_compute; discriminate].
  assert (forall (r : TimeEntryRow) l, head l = Some r -> r ∈ l) as Hh by (intros r [|x l] [= ->]; by left).
  apply Hh. vm_compute. reflexivity.
Defined.

(** ** What a material use costs and charges *)

(** The charge computed from a markup is the marked-up cost to within half a
    micro-unit and a hundredth of it: for any cost of at most six places and any markup
    text, [applyMarkupPercent] returns a money amount [x] that differs from
    [u * (1 + markup / 100)] by at most 101/200 of a micro-unit. *)
Theorem markup_within cost markup u m :
  amount cost u -> Decimal.parseScaled WorkValidationError markup = Ok m ->
  exists x, applyMarkupPercent cost markup = Ok (fromUnits x) /\
    2 * Z.abs (100 * pow10 (scale m) * x - u * (100 * pow10 (scale m) + units m)) <= 101 * pow10 (scale m).
Proof.
  intros Hu Hm. pose proof Hu as (p & Hp & Hs & Eu)%(amount_parse WorkValidationError).
  destruct (multiply_scaled cost markup p m Hp Hm) as [e He]. set (raw := at_six _ _) in *.
  destruct (divide_amount (fromUnits raw) raw 100) as [e' He']; [apply amount_fromUnits|lia|].
  exists (u + round_away raw 100). split.
  - unfold applyMarkupPercent. rewrite He. cbn [mbind result_bind fst]. rewrite He'. cbn [mbind result_bind fst].
    rewrite (sum_amounts_exact _ [u; round_away raw 100]); [|by repeat constructor; auto with amounts].
    by rewrite sumZ_cons, sumZ_cons, Z.add_0_r.
  - pose proof (at_six_near (units p * units m) (scale p) (scale m) Hs) as Hn. fold raw in Hn.
    replace (units p * units m * pow10 (6 - scale p)) with (u * units m) in Hn by (rewrite Eu; ring).
    pose proof (round_away_bound raw 100 ltac:(lia)) as Hr. pose proof (pow10_pos (scale m)).
    set (d := pow10 (scale m)) in *. set (y := round_away raw 100) in *.
    replace (100 * d * (u + y) - u * (100 * d + units m)) with ((raw * d - u * units m) - (raw - y * 100) * d) by ring.
    assert (Z.abs ((raw - y * 100) * d) = Z.abs (raw - y * 100) * d) as Ha by (rewrite Z.abs_mul; f_equal; lia).
    nia.
Qed.
Lemma markup_within_witness :
  (exists x, applyMarkupPercent "0.10" "33.335" = Ok (fromUnits x) /\
     2 * Z.abs (100 * pow10 3 * x - 100000 * (100 * pow10 3 + 33335)) <= 101 * pow10 3) /\
  applyMarkupPercent "0.10" "33.335" = Ok "0.133335"%string.
Proof.
  split; [|vm_compute; reflexivity]. apply (markup_within "0.10" "33.335" 100000 (mk_scaled 33335 3)); reflexivity.
Defined.

(** ** The cost of stock *)
Lemma money_column_exact z c : money_column (fromUnits z) = Ok c -> c = z.
Proof.
  intros H. destruct (in_range z) eqn:E; [rewrite money_column_fromUnits in H by done; congruence|].
  exfalso. revert H. unfold money_column, sql_numeric, fromUnits. rewrite parseScaled_format. cbn [scale units].
  change (MONEY_SCALE <=? 6)%nat with true. cbv iota. change (pow10 (6 - MONEY_SCALE)) with 1. rewrite Z.mul_1_r.
  unfold in_range in E. by rewrite E.
Qed.

Lemma recordSchema_inv i v : recordSchema i = Ok v ->
  rm_costBasisSource v = rm_costBasisSource i /\ rm_inventoryItemId v = rm_inventoryItemId i /\
  rm_unitCostAmount v = rm_unitCostAmount i.
Proof. unfold recordSchema. intros H. inv_ok. done. Qed.

Lemma insertUse_inv values s row s' : insertUse values s = (Ok row, s') -> exists id now, row = values id now.
Proof. unfold insertUse. intros H. run_bind H id t Ht. inv_work. eauto. Qed.

Lemma insert_use_cost value currency cost charge s row s' :
  insert_use value currency cost charge s = (Ok row, s') ->
  exists z, money_column cost = Ok z /\ mu_unitCostAmount row = z.
Proof.
  unfold insert_use. intros H. do 5 (let a := fresh "a" in let b := fresh "b" in run_bind H a b Hx; apply st_lift_inv in Hx as [? ->]).
  apply insertUse_inv in H as (id & now & ->). cbn. eauto.
Qed.

Lemma cost_snapshot_item value id s snap s' :
  rm_costBasisSource value = InventoryBasis -> rm_inventoryItemId value = Some id -> rm_unitCostAmount value = None ->
  cost_snapshot value s = (Ok snap, s') ->
  exists item, item ∈ sk_items (wk_stock s) /\ ir_id item = id /\
    snap.2 = fromUnits (ba_landedCostAmount (ir_basis item)).
Proof.
  intros Hb Hi Hu H. unfold cost_snapshot in H. rewrite Hb, Hi, Hu in H. run_bind H item t Hx. inv_st.
  unfold loadInventoryItem in Hx. inv_st. destruct (find_item id (wk_stock _)) as [r|] eqn:E; inv_st.
  apply find_row_some in E as [? ?%bool_decide_eq_true]. by exists r.
Qed.

(** A use of stock is costed at its row's whole basis: [record] with an inventory
    basis and no cost of its own writes, as the cost of one unit, the landed cost of the
    entire inventory row, whatever quantity the row holds. *)
Theorem whole_row_cost_per_unit i id s row s' :
  rm_costBasisSource i = InventoryBasis -> rm_inventoryItemId i = Some id -> rm_unitCostAmount i = None ->
  record i s = (Ok row, s') ->
  exists item, item ∈ sk_items (wk_stock s) /\ ir_id item = id /\
    mu_unitCostAmount row = ba_landedCostAmount (ir_basis item).
Proof.
  intros Hb Hi Hu H. unfold record in H. run_bind H v t Hv. apply st_lift_inv in Hv as [Hv ->].
  apply recordSchema_inv in Hv as (Eb & Ei & Eu). apply atomically_Ok in H. unfold record_body in H.
  run_bind H u t Hx. apply reads_run in Hx as ->; [|auto with store]. run_bind H snap t Hs.
  pose proof Hs as Ht. apply reads_run in Ht as ->; [|auto with store].
  apply (cost_snapshot_item _ id) in Hs as (item & Hin & Hid & Hc); [|congruence..].
  run_bind H charge t Hx. apply st_lift_inv in Hx as [_ ->]. exists item. split; [done|]. split; [done|].
  unfold st_catch in H. destruct (insert_use _ _ _ _ s) as [[r|e] t] eqn:E; [|by destruct (isUniqueViolation e)].
  injection H as <- <-. apply insert_use_cost in E as (z & Hz & ->). rewrite Hc in Hz. by apply money_column_exact.
Qed.

Definition cable : RecordMaterialUseInput := use_input JOB (Some ITEM) InventoryBasis (Some "25"%string).
(** Two of the ten units of a row that cost 100 in all are recorded at 100 each. *)
Lemma whole_row_cost_per_unit_witness :
  exists row, (record cable with_job).1 = Ok row /\
  (exists item, item ∈ sk_items (wk_stock with_job) /\ ir_id item = ITEM /\
     mu_unitCostAmount row = ba_landedCostAmount (ir_basis item)) /\
  fromUnits (mu_unitCostAmount row) = "100.000000"%string /\
  materialUseLineAmount row = Ok (Some "250.000000"%string).
Proof.
  assert (is_ok (record cable with_job).1 = true) as H by (vm_compute; reflexivity).
  destruct (record cable with_job) as [[row|e] s'] eqn:E; [|done]. exists row. split; [reflexivity|]. split.
  - by apply (whole_row_cost_per_unit cable ITEM with_job row s').
  - assert ((record cable with_job).1 = Ok row) as E' by (by rewrite E). clear E. vm_compute in E'.
    injection E' as <-. split; vm_compute; reflexivity.
Defined.
