(* ===== verification/Config.v ===== *)
(** * Instants and jsonb values

    [Date.prototype.toISOString] of an instant in milliseconds since the epoch, and the
    theorem that the text determines the instant; then the values of a jsonb column and the
    strict Zod objects over them. *)
From Stdlib Require Export QArith.
From Stdlib Require Export Qround.
From S2P Require Import Prelude Decimal Calendar Inputs Store Schema Ledger LedgerFacts Journal.
From S2P Require Import JournalFacts JournalMachine Json Facts PostingRules PostingEngine LineBuilding.

Open Scope Z_scope.
#[local] Arguments String.append : simpl nomatch.

Definition padded (n : nat) (u : Z) : string := Js.pad_start n "0" (Js.bigint_to_string u).

(** Four digits, or a sign and six. *)
Definition year_text (y : Z) : string :=
  if (0 <=? y) && (y <=? 9999) then padded 4 y
  else if y <? 0 then String "-" (padded 6 (- y)) else String "+" (padded 6 y).

Definition toISOString (t : Z) : string :=
  let d := utc_date (t * 1000) in
  let ms := t mod 86400000 in
  concat_text
    [year_text (year_of d); "-"; padded 2 (month_of d); "-"; padded 2 (day_of d); "T";
     padded 2 (ms / 3600000); ":"; padded 2 (ms / 60000 mod 60); ":"; padded 2 (ms / 1000 mod 60); ".";
     padded 3 (ms mod 1000); "Z"]%string.

Example iso_epoch : toISOString 0 = "1970-01-01T00:00:00.000Z"%string.
Proof. reflexivity. Qed.
Example iso_sample : toISOString 1786453200123 = "2026-08-11T13:00:00.123Z"%string.
Proof. vm_compute. reflexivity. Qed.

(** ** The day of an instant *)

(** The fields of a day number counted from 1 March of year 0. *)
Lemma era_fields doe :
  0 <= doe < 146097 ->
  let yoe := (doe - doe / 1460 + doe / 36524 - doe / 146096) / 365 in
  let doy := doe - (365 * yoe + yoe / 4 - yoe / 100) in
  0 <= yoe < 400 /\ 0 <= doy <= 365.
Proof.
  intros H. cbv zeta.
  assert (doe / 36524 = 0 \/ doe / 36524 = 1 \/ doe / 36524 = 2 \/ doe / 36524 = 3 \/ doe / 36524 = 4) as Hb
    by (Z.to_euclidean_division_equations; lia).
  destruct (decide (doe = 146096)) as [->|Hn]; [by vm_compute|].
  rewrite (Z.div_small doe 146096) by lia.
  destruct Hb as [E|[E|[E|[E|E]]]]; rewrite E; Z.to_euclidean_division_equations; lia.
Qed.

(** The day number of an instant in microseconds, from its date. *)
Lemma utc_date_day (s t : Z) : utc_date s = utc_date t -> s / 86400000000 = t / 86400000000.
Proof.
  unfold utc_date. cbv zeta.
  set (z := s / 86400000000 + 719468). set (w := t / 86400000000 + 719468).
  pose proof (Z.mod_pos_bound z 146097 ltac:(done)) as Hz. pose proof (Z.mod_pos_bound w 146097 ltac:(done)) as Hw.
  pose proof (Z.div_mod z 146097 ltac:(done)) as Dz. pose proof (Z.div_mod w 146097 ltac:(done)) as Dw.
  destruct (era_fields _ Hz) as [Yz Oz]. destruct (era_fields _ Hw) as [Yw Ow]. cbv zeta in Yz, Oz, Yw, Ow.
  set (a := z mod 146097) in *. set (b := w mod 146097) in *.
  set (ya := (a - a / 1460 + a / 36524 - a / 146096) / 365) in *.
  set (yb := (b - b / 1460 + b / 36524 - b / 146096) / 365) in *.
  set (oa := a - (365 * ya + ya / 4 - ya / 100)) in *. set (ob := b - (365 * yb + yb / 4 - yb / 100)) in *.
  assert (a = oa + (365 * ya + ya / 4 - ya / 100)) as Ea by (unfold oa; lia).
  assert (b = ob + (365 * yb + yb / 4 - yb / 100)) as Eb by (unfold ob; lia).
  clearbody oa ob ya yb.
  set (ma := (5 * oa + 2) / 153). set (mb := (5 * ob + 2) / 153).
  assert (0 <= ma <= 11 /\ 1 <= oa - (153 * ma + 2) / 5 + 1 <= 31) as [Ma Da]
    by (unfold ma; Z.to_euclidean_division_equations; lia).
  assert (0 <= mb <= 11 /\ 1 <= ob - (153 * mb + 2) / 5 + 1 <= 31) as [Mb Db]
    by (unfold mb; Z.to_euclidean_division_equations; lia).
  intros E.
  assert (1 <= (if ma <? 10 then ma + 3 else ma - 9) <= 12) as Na by (destruct (Z.ltb_spec ma 10); lia).
  assert (1 <= (if mb <? 10 then mb + 3 else mb - 9) <= 12) as Nb by (destruct (Z.ltb_spec mb 10); lia).
  match type of E with mk_date ?y1 ?m1 ?d1 = mk_date ?y2 ?m2 ?d2 =>
    destruct (mk_date_fields y1 m1 d1 ltac:(lia) ltac:(lia)) as (F1 & F2 & F3);
    destruct (mk_date_fields y2 m2 d2 ltac:(lia) ltac:(lia)) as (G1 & G2 & G3) end.
  rewrite E in F1, F2, F3. rewrite G1 in F1. rewrite G2 in F2. rewrite G3 in F3.
  assert (ma = mb) as Em by (destruct (Z.ltb_spec ma 10), (Z.ltb_spec mb 10); lia).
  rewrite Em in *. clearbody mb.
  assert (oa = ob) as Eo by lia.
  assert (yb + w / 146097 * 400 = ya + z / 146097 * 400) as Ey by lia.
  assert (z / 146097 = w / 146097) as Eera by lia. assert (ya = yb) as Ey' by lia. subst ya oa. lia.
Qed.

(** ** The text determines the instant *)
Lemma padded_spec n u : 0 <= u -> Js.all_digits (padded n u) = true /\ Js.bigint (padded n u) = u.
Proof. apply padded_digits. Qed.

(** Two texts of digits before the same separator. *)
Lemma digits_then c a b x y :
  Js.is_digit c = false -> Js.all_digits a = true -> Js.all_digits b = true ->
  String.append a (String c x) = String.append b (String c y) -> a = b /\ x = y.
Proof.
  intros Hc. revert b. induction a as [|d a IH]; intros [|e b] Ha Hb E; cbn [Js.all_digits String.append] in *.
  - by injection E.
  - injection E as <- _. apply andb_true_iff in Hb as [Hb _]. congruence.
  - injection E as -> _. apply andb_true_iff in Ha as [Ha _]. congruence.
  - injection E as -> E. apply andb_true_iff in Ha as [_ Ha]. apply andb_true_iff in Hb as [_ Hb].
    destruct (IH b Ha Hb E) as [-> ->]. done.
Qed.

Lemma padded_then c n u v x y :
  Js.is_digit c = false -> 0 <= u -> 0 <= v ->
  String.append (padded n u) (String c x) = String.append (padded n v) (String c y) -> u = v /\ x = y.
Proof.
  intros Hc Hu Hv E. destruct (padded_spec n u Hu) as [U1 U2]. destruct (padded_spec n v Hv) as [V1 V2].
  apply digits_then in E as [E ->]; [|done..]. split; [|done]. by rewrite <- U2, <- V2, E.
Qed.

Lemma padded_head n u : 0 <= u -> exists c s, padded n u = String c s /\ Js.is_digit c = true.
Proof.
  intros Hu. destruct (padded_spec n u Hu) as [H _]. destruct (bigint_to_string_spec u Hu) as (_ & _ & Hne).
  unfold padded in *. destruct (Js.pad_start n "0" (Js.bigint_to_string u)) as [|c s] eqn:E.
  - unfold Js.pad_start in E. destruct (Js.repeat_char _ _); [|discriminate E]. by apply Hne in E.
  - exists c, s. cbn in H. by apply andb_true_iff in H as [H _].
Qed.

(** A sign is no digit. *)
Lemma sign_not_padded c x n u y : Js.is_digit c = false -> 0 <= u -> String c x <> String.append (padded n u) y.
Proof.
  intros Hc Hu. destruct (padded_head n u Hu) as (d & s & -> & Hd). cbn [String.append]. intros [= -> _]. congruence.
Qed.

Lemma year_then y y' x x' :
  String.append (year_text y) (String "-" x) = String.append (year_text y') (String "-" x') -> y = y' /\ x = x'.
Proof.
  unfold year_text.
  destruct (Z.leb_spec 0 y), (Z.leb_spec y 9999), (Z.ltb_spec y 0), (Z.leb_spec 0 y'), (Z.leb_spec y' 9999), (Z.ltb_spec y' 0);
    try lia; cbn [andb String.append]; intros E;
    first
      [ discriminate E
      | apply (padded_then "-") in E as [E ->]; [split; [lia|done]|done|lia|lia]
      | injection E as E; apply (padded_then "-") in E as [E ->]; [split; [lia|done]|done|lia|lia]
      | apply sign_not_padded in E; [done|done|lia]
      | symmetry in E; apply sign_not_padded in E; [done|done|lia] ].
Qed.

(** [toISOString] is injective. *)
Lemma toISOString_inj s t : toISOString s = toISOString t -> s = t.
Proof.
  unfold toISOString, concat_text. cbn [foldr]. rewrite !append_nil_r.
  assert (forall x, 0 <= month_of (utc_date x) /\ 0 <= day_of (utc_date x)) as Hf.
  { intros x. pose proof (date_fields_range (utc_date x)). lia. }
  destruct (Hf (s * 1000)) as [M1 D1]. destruct (Hf (t * 1000)) as [M2 D2].
  intros E. cbn [String.append] in E.
  apply year_then in E as [EY E].
  apply padded_then in E as [EM E]; [|done..]. apply padded_then in E as [ED E]; [|done..].
  pose proof (Z.mod_pos_bound s 86400000 ltac:(done)) as Hs. pose proof (Z.mod_pos_bound t 86400000 ltac:(done)) as Ht.
  assert (forall x k, 0 <= x -> 0 < k -> 0 <= x / k) as Hd by (intros; by apply Z.div_pos).
  assert (forall x k, 0 < k -> 0 <= x mod k) as Hm by (intros; by apply Z.mod_pos_bound).
  apply padded_then in E as [E1 E]; [|done|apply Hd; lia..].
  apply padded_then in E as [E2 E]; [|done|apply Hm; lia..].
  apply padded_then in E as [E3 E]; [|done|apply Hm; lia..].
  apply padded_then in E as [E4 _]; [|done|apply Hm; lia..].
  assert (utc_date (s * 1000) = utc_date (t * 1000)) as Ed by
    (rewrite <- (date_fields (utc_date (s * 1000))), <- (date_fields (utc_date (t * 1000))); congruence).
  apply utc_date_day in Ed.
  clear - Hs Ht E1 E2 E3 E4 Ed. Z.to_euclidean_division_equations. lia.
Qed.

(** ** Monitor configurations

    The [jsonb] values of [monitor_targets.config] and the strict object
    schemas of [packages/market/src/monitors.ts] that check them.  An object
    is kept as its members; [jsonb] has one member per key.

    The instant and identifier formats of Zod are not code of the repository:
    [Formats] is what the schemas use of them, and no theorem assumes anything
    about it. *)

#[global] Set Default Goal Selector "!".


Inductive jsonb : Type :=
  | BNull
  | BBool (b : bool)
  | BNum (q : Q)
  | BText (s : string)
  | BArray (items : list jsonb)
  | BObject (members : list (string * jsonb)).

Record Formats : Type := {
  iso_datetime : string -> bool;
  uuid_shape : string -> bool;
}.

(** ** Numbers *)
Definition MAX_SAFE_INTEGER : Z := 9007199254740991.
Definition isSafeInteger (z : Z) : bool := (- MAX_SAFE_INTEGER <=? z) && (z <=? MAX_SAFE_INTEGER).

(** The integer a number is, when it is one. *)
Definition integer_of (q : Q) : option Z :=
  if Qnum q mod Zpos (Qden q) =? 0 then Some (Qnum q / Zpos (Qden q)) else None.

(** [z.number().int()] *)
Definition z_int (j : jsonb) : option Z :=
  match j with
  | BNum q => match integer_of q with Some z => if isSafeInteger z then Some z else None | None => None end
  | _ => None
  end.
Definition int_within (lo : Z) (hi : option Z) (j : jsonb) : bool :=
  match z_int j with
  | Some z => (lo <=? z) && match hi with None => true | Some h => z <=? h end
  | None => false
  end.

(** ** Texts *)
Definition z_bool (j : jsonb) : bool := match j with BBool _ => true | _ => false end.
Definition text_with (p : string -> bool) (j : jsonb) : bool := match j with BText s => p s | _ => false end.
Definition nonempty (s : string) : bool := negb (String.eqb s "").
Definition z_enum (values : list string) : jsonb -> bool := text_with (fun s => bool_decide (s ∈ values)).
Definition array_of (p : jsonb -> bool) (j : jsonb) : bool :=
  match j with BArray items => negb (bool_decide (items = [] :> list jsonb)) && forallb p items | _ => false end.
Definition nullable (p : jsonb -> bool) (j : jsonb) : bool := match j with BNull => true | _ => p j end.

(** ** Objects *)
Definition lookup_member (key : string) (members : list (string * jsonb)) : option jsonb :=
  snd <$> List.find (fun m => String.eqb (fst m) key) members.

(** [config[key]] of a value that may be no object. *)
Definition member (key : string) (j : jsonb) : option jsonb :=
  match j with BObject members => lookup_member key members | _ => None end.
Definition is_object (j : jsonb) : bool := match j with BObject _ => true | _ => false end.

Definition set_member (key : string) (v : jsonb) (members : list (string * jsonb)) : list (string * jsonb) :=
  List.filter (fun m => negb (String.eqb (fst m) key)) members ++ [(key, v)].

(** [a || b] of two objects: the members of [b] win. *)
Definition merge_members (a b : list (string * jsonb)) : list (string * jsonb) :=
  fold_left (fun ms m => set_member (fst m) (snd m) ms) b a.

Record Field : Type := { fd_key : string; fd_required : bool; fd_check : jsonb -> bool }.
Definition required (key : string) (check : jsonb -> bool) : Field :=
  {| fd_key := key; fd_required := true; fd_check := check |}.
Definition optional (key : string) (check : jsonb -> bool) : Field :=
  {| fd_key := key; fd_required := false; fd_check := check |}.

(** [z.strictObject(fields)] *)
Definition strictObject (fields : list Field) (j : jsonb) : bool :=
  match j with
  | BObject members =>
      forallb (fun m => match List.find (fun f => String.eqb (fd_key f) (fst m)) fields with
                        | Some f => fd_check f (snd m)
                        | None => false
                        end) members
      && forallb (fun f => negb (fd_required f) || match lookup_member (fd_key f) members with Some _ => true | None => false end) fields
  | _ => false
  end.

(** ** Lemmas *)
Lemma lookup_set_member key v members : lookup_member key (set_member key v members) = Some v.
Proof.
  unfold lookup_member, set_member. induction members as [|m ms IH]; cbn.
  - by rewrite String.eqb_refl.
  - destruct (String.eqb (fst m) key) eqn:E; cbn; [exact IH|]. rewrite E. exact IH.
Qed.

Lemma lookup_set_other key key' v members :
  key <> key' -> lookup_member key' (set_member key v members) = lookup_member key' members.
Proof.
  intros Hk. unfold lookup_member, set_member. induction members as [|m ms IH]; cbn.
  - by rewrite (proj2 (String.eqb_neq key key') Hk).
  - destruct (String.eqb (fst m) key) eqn:E; cbn.
    + rewrite IH. apply String.eqb_eq in E as ->. by rewrite (proj2 (String.eqb_neq key key') Hk).
    + destruct (String.eqb (fst m) key'); [done|exact IH].
Qed.

Lemma integer_of_Z z : integer_of (inject_Z z) = Some z.
Proof. unfold integer_of. cbn. by rewrite Z.mod_1_r, Z.div_1_r. Qed.
