(* ===== verification/Adaptive.v ===== *)
(** * The adaptive polling cadence

    [packages/market/src/adaptive.ts]: the pure policy that turns activity
    signals into the seconds until the next poll, and the codec of the state it
    keeps under [config.adaptive].

    Numbers are rationals: every finite double is one, and the policy only
    compares, scales by powers of two and rounds, which is exact on them. *)
From S2P Require Import Prelude Decimal Inputs Config.
#[global] Set Default Goal Selector "!".

Open Scope Z_scope.

Definition ADAPTIVE_CONFIG_KEY : string := "adaptive".
Definition AUCTION_ENDGAME_SECONDS : Z := 300.
Definition AUCTION_NEAR_END_SECONDS : Z := 1800.
Definition AUCTION_APPROACHING_END_SECONDS : Z := 21600.
Definition ACTIVITY_HOT_COUNT : Z := 8.
Definition ACTIVITY_WARM_COUNT : Z := 3.
Definition IDLE_STREAK_RELAXED : Z := 6.
Definition IDLE_STREAK_LONG : Z := 12.
Definition IDLE_STREAK_VERY_LONG : Z := 24.
Definition MAX_STEP_FACTOR : Q := 4.
Definition DEFAULT_ADAPTIVE_MIN_SECONDS : Q := 30.
Definition DEFAULT_ADAPTIVE_MAX_SECONDS : Q := 86400.
Definition DEFAULT_ADAPTIVE_SIGNAL_WINDOW_SECONDS : Z := 3600.

Inductive AdaptiveTier : Type :=
  | auction_endgame | auction_near_end | auction_approaching_end | activity_hot | activity_warm | steady
  | idle_relaxed | idle_long | idle_very_long.
#[export] Instance AdaptiveTier_eq_dec : EqDecision AdaptiveTier.
Proof. solve_decision. Defined.

Definition ADAPTIVE_TIERS : list AdaptiveTier :=
  [auction_endgame; auction_near_end; auction_approaching_end; activity_hot; activity_warm; steady;
   idle_relaxed; idle_long; idle_very_long].

Definition tier_text (t : AdaptiveTier) : string :=
  match t with
  | auction_endgame => "auction_endgame" | auction_near_end => "auction_near_end"
  | auction_approaching_end => "auction_approaching_end" | activity_hot => "activity_hot"
  | activity_warm => "activity_warm" | steady => "steady" | idle_relaxed => "idle_relaxed"
  | idle_long => "idle_long" | idle_very_long => "idle_very_long"
  end.

Definition ADAPTIVE_TIER_FACTORS (t : AdaptiveTier) : Q :=
  match t with
  | auction_endgame => 1 # 8 | auction_near_end => 1 # 4 | auction_approaching_end => 1 # 2
  | activity_hot => 1 # 4 | activity_warm => 1 # 2 | steady => 1
  | idle_relaxed => 2 | idle_long => 4 | idle_very_long => 8
  end.

(** A number a caller passes: finite, or one of the values [Number.isFinite] refuses. *)
Inductive number : Type := Finite (q : Q) | NotFinite.

Record AdaptiveBounds : Type := { ab_minSeconds : Z; ab_maxSeconds : Z }.
Record BoundsInput : Type := { bi_minSeconds : option number; bi_maxSeconds : option number }.

Record AdaptiveIntervalInput : Type := {
  ai_baseIntervalSeconds : number;
  ai_recentEventCount : option number;
  ai_recentChangeCount : option number;
  ai_unchangedStreak : option number;
  ai_secondsUntilListingEnd : option number;
  ai_previousIntervalSeconds : option Q;
  ai_bounds : option BoundsInput;
}.

Inductive ClampedBy : Type := ClampMin | ClampMax | ClampStep.

Record AdaptiveDecision : Type := {
  ad_intervalSeconds : Z;
  ad_tier : AdaptiveTier;
  ad_factor : Q;
  ad_clampedBy : option ClampedBy;
  ad_bounds : AdaptiveBounds;
}.

Definition lt_bool (a b : Q) : bool := negb (Qle_bool b a).

Definition nonNegativeCount (value : option number) : result Z :=
  match value with
  | None => mret 0
  | Some NotFinite => Throw MarketValidationError
  | Some (Finite q) => mret (Z.max 0 (Qfloor q))
  end.

Definition bound_given (value : option number) (otherwise : Q) : number := default (Finite otherwise) value.
Definition bound_ok (n : number) : result Q :=
  match n with
  | NotFinite => Throw MarketValidationError
  | Finite q => if lt_bool q 1 then Throw MarketValidationError else mret q
  end.

Definition resolveBounds (bounds : option BoundsInput) : result AdaptiveBounds :=
  minSeconds ← bound_ok (bound_given (b ← bounds; bi_minSeconds b) DEFAULT_ADAPTIVE_MIN_SECONDS);
  maxSeconds ← bound_ok (bound_given (b ← bounds; bi_maxSeconds b) DEFAULT_ADAPTIVE_MAX_SECONDS);
  mret {| ab_minSeconds := Qceiling minSeconds; ab_maxSeconds := Qfloor maxSeconds |}.

Definition auction_tier (secondsUntilListingEnd : option Q) : option AdaptiveTier :=
  match secondsUntilListingEnd with
  | None => None
  | Some s =>
      if lt_bool s (inject_Z AUCTION_ENDGAME_SECONDS) then Some auction_endgame
      else if lt_bool s (inject_Z AUCTION_NEAR_END_SECONDS) then Some auction_near_end
      else if lt_bool s (inject_Z AUCTION_APPROACHING_END_SECONDS) then Some auction_approaching_end
      else None
  end.
Definition activity_tier (activity : Z) : option AdaptiveTier :=
  if ACTIVITY_HOT_COUNT <=? activity then Some activity_hot
  else if ACTIVITY_WARM_COUNT <=? activity then Some activity_warm
  else None.

Definition selectAdaptiveTier (activity unchangedStreak : Z) (secondsUntilListingEnd : option Q) : AdaptiveTier :=
  match auction_tier secondsUntilListingEnd, activity_tier activity with
  | Some auction, Some active =>
      if Qle_bool (ADAPTIVE_TIER_FACTORS auction) (ADAPTIVE_TIER_FACTORS active) then auction else active
  | Some auction, None => auction
  | None, Some active => active
  | None, None =>
      if activity =? 0 then
        if IDLE_STREAK_VERY_LONG <=? unchangedStreak then idle_very_long
        else if IDLE_STREAK_LONG <=? unchangedStreak then idle_long
        else if IDLE_STREAK_RELAXED <=? unchangedStreak then idle_relaxed
        else steady
      else steady
  end.

(** [Math.round] *)
Definition round (q : Q) : Z := Qfloor (q + (1 # 2)).

(** The step damping and the bounds, in the order of the code. *)
Definition damp (previous : option Q) (seconds : Q) : Q * option ClampedBy :=
  match previous with
  | Some p =>
      if lt_bool 0 p then
        let floor := (p / MAX_STEP_FACTOR)%Q in
        let ceiling := (p * MAX_STEP_FACTOR)%Q in
        if lt_bool seconds floor then (floor, Some ClampStep)
        else if lt_bool ceiling seconds then (ceiling, Some ClampStep)
        else (seconds, None)
      else (seconds, None)
  | None => (seconds, None)
  end.
Definition clamp_max (bounds : AdaptiveBounds) (s : Q * option ClampedBy) : Q * option ClampedBy :=
  if lt_bool (inject_Z (ab_maxSeconds bounds)) (fst s) then (inject_Z (ab_maxSeconds bounds), Some ClampMax) else s.
Definition clamp_min (bounds : AdaptiveBounds) (s : Q * option ClampedBy) : Q * option ClampedBy :=
  if lt_bool (fst s) (inject_Z (ab_minSeconds bounds)) then (inject_Z (ab_minSeconds bounds), Some ClampMin) else s.

(** An end that is absent, not finite or past carries no signal. *)
Definition listing_end (raw : option number) : option Q :=
  match raw with
  | Some (Finite q) => if lt_bool q 0 then None else Some q
  | _ => None
  end.

Definition evaluateAdaptiveInterval (input : AdaptiveIntervalInput) : result AdaptiveDecision :=
  base ← match ai_baseIntervalSeconds input with
         | Finite q => if Qle_bool q 0 then Throw MarketValidationError else mret q
         | NotFinite => Throw MarketValidationError
         end;
  bounds ← resolveBounds (ai_bounds input);
  events ← nonNegativeCount (ai_recentEventCount input);
  changes ← nonNegativeCount (ai_recentChangeCount input);
  unchangedStreak ← nonNegativeCount (ai_unchangedStreak input);
  let tier := selectAdaptiveTier (events + changes) unchangedStreak (listing_end (ai_secondsUntilListingEnd input)) in
  let factor := ADAPTIVE_TIER_FACTORS tier in
  let '(seconds, clampedBy) :=
    clamp_min bounds (clamp_max bounds (damp (ai_previousIntervalSeconds input) (base * factor)%Q)) in
  mret {| ad_intervalSeconds := Z.max 1 (round seconds); ad_tier := tier; ad_factor := factor;
          ad_clampedBy := clampedBy; ad_bounds := bounds |}.

Definition computeAdaptiveInterval (input : AdaptiveIntervalInput) : result Z :=
  d ← evaluateAdaptiveInterval input; mret (ad_intervalSeconds d).

(** ** The state under [config.adaptive] *)
Definition adaptiveConfigSchema : jsonb -> bool := strictObject
  [optional "enabled" z_bool;
   optional "unchangedStreak" (int_within 0 None);
   optional "lastComputedInterval" (int_within 1 None);
   optional "lastTier" (z_enum (tier_text <$> ADAPTIVE_TIERS));
   optional "updatedAt" (text_with (fun _ => true))].

Record AdaptiveState : Type := {
  as_enabled : bool;
  as_unchangedStreak : Z;
  as_lastComputedInterval : option Z;
  as_lastTier : option AdaptiveTier;
  as_updatedAt : option string;
}.

Definition tier_of_text (s : string) : option AdaptiveTier :=
  List.find (fun t => String.eqb (tier_text t) s) ADAPTIVE_TIERS.
Definition text_of (j : jsonb) : option string := match j with BText s => Some s | _ => None end.
Definition fallback : AdaptiveState :=
  {| as_enabled := true; as_unchangedStreak := 0; as_lastComputedInterval := None; as_lastTier := None;
     as_updatedAt := None |}.

Definition readAdaptiveState (config : jsonb) : AdaptiveState :=
  match member ADAPTIVE_CONFIG_KEY config with
  | Some raw =>
      if adaptiveConfigSchema raw then
        {| as_enabled := match member "enabled" raw with Some (BBool false) => false | _ => true end;
           as_unchangedStreak := default 0 (j ← member "unchangedStreak" raw; z_int j);
           as_lastComputedInterval := (j ← member "lastComputedInterval" raw; z_int j);
           as_lastTier := (j ← member "lastTier" raw; s ← text_of j; tier_of_text s);
           as_updatedAt := (j ← member "updatedAt" raw; text_of j) |}
      else fallback
  | None => fallback
  end.

Definition nextUnchangedStreak (state : AdaptiveState) (changed : bool) (at_ : Z) : Z :=
  if bool_decide (as_updatedAt state = Some (toISOString at_)) then as_unchangedStreak state
  else if changed then 0 else as_unchangedStreak state + 1.

(** The members of the patch: [enabled] is not among them. *)
Definition adaptiveStatePatch (unchangedStreak : Z) (decision : AdaptiveDecision) (at_ : Z) : list (string * jsonb) :=
  [("unchangedStreak", BNum (inject_Z unchangedStreak));
   ("lastComputedInterval", BNum (inject_Z (ad_intervalSeconds decision)));
   ("lastTier", BText (tier_text (ad_tier decision)));
   ("updatedAt", BText (toISOString at_))]%string.
