(* ===== verification/MarketTables.v ===== *)
(** * The tables of market monitoring

    The rows of [packages/db/src/schema/monitoring.ts], [events.ts] and
    [observations.ts] the market package keeps, with the constraints of those
    schemas and the statements the package issues on them.  Instants are whole
    milliseconds: the package writes every one of them from a [Date]. *)
From S2P Require Import Prelude Decimal Inputs Config Store Schema Ledger Stock.
From S2P Require Import PostingEngine Facts.
#[global] Set Default Goal Selector "!".

Open Scope Z_scope.
#[local] Arguments String.append : simpl nomatch.

(** ** Rows *)
Record MonitorTargetRow : Type := {
  mt_id : uuid;
  mt_connectionId : option uuid;
  mt_targetType : string;
  mt_name : string;
  mt_enabled : bool;
  mt_intervalSeconds : Z;
  mt_priority : Z;
  mt_nextPollAt : option Z;
  mt_lastPollAt : option Z;
  mt_lastSuccessAt : option Z;
  mt_backoffUntil : option Z;
  mt_consecutiveErrors : Z;
  mt_config : jsonb;
  mt_createdByUserId : option string;
  mt_createdAt : Z;
  mt_updatedAt : Z;
}.

Record MarketplaceItemRow : Type := {
  mi_id : uuid;
  mi_provider : string;
  mi_marketplace : string;
  mi_externalItemId : string;
  mi_sellerExternalId : option string;
  mi_canonicalUrl : option string;
  mi_title : option string;
  mi_conditionCode : option string;
  mi_categoryExternalId : option string;
  mi_listingType : option string;
  mi_listingStartedAt : option Z;
  mi_listingEndsAt : option Z;
  mi_firstSeenAt : Z;
  mi_lastSeenAt : Z;
  mi_currentState : string;
  mi_createdAt : Z;
  mi_updatedAt : Z;
}.

Record MonitorItemRow : Type := {
  ml_monitorTargetId : uuid;
  ml_marketplaceItemId : uuid;
  ml_firstDiscoveredAt : Z;
  ml_lastMatchedAt : Z;
  ml_active : bool;
}.

Inductive MarketEventType : Type :=
  | price_changed | price_dropped | restocked | sold_out | quantity_changed | listing_ended | new_listing.
#[export] Instance MarketEventType_eq_dec : EqDecision MarketEventType.
Proof. solve_decision. Defined.

Definition event_text (t : MarketEventType) : string :=
  match t with
  | price_changed => "price_changed" | price_dropped => "price_dropped" | restocked => "restocked"
  | sold_out => "sold_out" | quantity_changed => "quantity_changed" | listing_ended => "listing_ended"
  | new_listing => "new_listing"
  end.

Record MarketEventRow : Type := {
  me_id : uuid;
  me_marketplaceItemId : uuid;
  me_monitorTargetId : option uuid;
  me_eventType : MarketEventType;
  me_detectedAt : Z;
  me_fromObservedAt : option Z;
  me_toObservedAt : Z;
  me_payload : jsonb;
  (** The rule that made the event an opportunity; no foreign key. *)
  me_ruleId : option uuid;
  me_deduplicationKey : string;
}.

(** The [numeric(20, 6)] and [numeric(10, 6)] columns, in millionths. *)
Record ObservationRow : Type := {
  ob_marketplaceItemId : uuid;
  ob_observedAt : Z;
  ob_observationBatchId : uuid;
  ob_connectionId : option uuid;
  ob_source : string;
  ob_currency : option string;
  ob_price : option Z;
  ob_shippingPrice : option Z;
  ob_quantityAvailable : option Z;
  ob_quantitySold : option Z;
  ob_availability : option string;
  ob_listingState : option string;
  ob_watchCount : option Z;
  ob_sellerFeedbackScore : option Z;
  ob_sellerFeedbackPct : option Z;
  ob_listingEndsAt : option Z;
  ob_rawStateHash : option string;
}.

(** [numeric(10, 4)] as ten-thousandths. *)
Record OpportunityRuleRow : Type := {
  or_id : uuid;
  or_name : string;
  or_enabled : bool;
  or_priority : Z;
  or_conditions : jsonb;
  or_scoreWeight : Z;
  or_createdByUserId : option string;
  or_createdAt : Z;
  or_updatedAt : Z;
}.

(** ** The store *)
Record Market : Type := {
  mk_targets : list MonitorTargetRow;
  mk_items : list MarketplaceItemRow;
  mk_links : list MonitorItemRow;
  mk_events : list MarketEventRow;
  mk_observations : list ObservationRow;
  mk_rules : list OpportunityRuleRow;
  mk_connections : list uuid;
  mk_users : list string;
  (** The targets a [notification_rules] or [managed_domains] row refers to. *)
  mk_referenced : list uuid;
  mk_next : uuid;
  mk_now : Z;
}.

Definition with_market (targets : list MonitorTargetRow) (items : list MarketplaceItemRow)
    (links : list MonitorItemRow) (events : list MarketEventRow) (observations : list ObservationRow)
    (s : Market) : Market :=
  {| mk_targets := targets; mk_items := items; mk_links := links; mk_events := events;
     mk_observations := observations; mk_rules := mk_rules s; mk_connections := mk_connections s;
     mk_users := mk_users s; mk_referenced := mk_referenced s; mk_next := mk_next s; mk_now := mk_now s |}.
Definition put_targets (v : list MonitorTargetRow) (s : Market) : Market :=
  with_market v (mk_items s) (mk_links s) (mk_events s) (mk_observations s) s.
Definition put_items (v : list MarketplaceItemRow) (s : Market) : Market :=
  with_market (mk_targets s) v (mk_links s) (mk_events s) (mk_observations s) s.
Definition put_links (v : list MonitorItemRow) (s : Market) : Market :=
  with_market (mk_targets s) (mk_items s) v (mk_events s) (mk_observations s) s.
Definition put_events (v : list MarketEventRow) (s : Market) : Market :=
  with_market (mk_targets s) (mk_items s) (mk_links s) v (mk_observations s) s.
Definition put_observations (v : list ObservationRow) (s : Market) : Market :=
  with_market (mk_targets s) (mk_items s) (mk_links s) (mk_events s) v s.

Definition put_rules (v : list OpportunityRuleRow) (s : Market) : Market :=
  {| mk_targets := mk_targets s; mk_items := mk_items s; mk_links := mk_links s; mk_events := mk_events s;
     mk_observations := mk_observations s; mk_rules := v; mk_connections := mk_connections s;
     mk_users := mk_users s; mk_referenced := mk_referenced s; mk_next := mk_next s; mk_now := mk_now s |}.

Abbreviation mrun := (St Market) (only parsing).

Definition market_uuid : mrun uuid := fun s =>
  (Ok (mk_next s),
   {| mk_targets := mk_targets s; mk_items := mk_items s; mk_links := mk_links s; mk_events := mk_events s;
      mk_observations := mk_observations s; mk_rules := mk_rules s; mk_connections := mk_connections s;
      mk_users := mk_users s; mk_referenced := mk_referenced s; mk_next := Pos.succ (mk_next s); mk_now := mk_now s |}).

(** A literal of [sql.ts] that carries text. *)
Definition market_text (s : string) : result unit := throw_if (Text.has_nul s) MarketValidationError.
Definition int_literal (z : Z) : result unit :=
  throw_if (negb (isSafeInteger z) || (z <? 0)) MarketValidationError.

Definition opt_known {A} `{EqDecision A} (id : option A) (ids : list A) : bool :=
  match id with None => true | Some i => bool_decide (i ∈ ids) end.

(** ** [monitor_targets] *)
Definition is_target (id : uuid) (r : MonitorTargetRow) : bool := bool_decide (mt_id r = id).
Definition find_target (id : uuid) (s : Market) : option MonitorTargetRow := find_row (is_target id) (mk_targets s).

Definition target_fks (s : Market) (r : MonitorTargetRow) : bool :=
  opt_known (mt_connectionId r) (mk_connections s) && opt_known (mt_createdByUserId r) (mk_users s).
Definition target_ints (r : MonitorTargetRow) : bool :=
  int4 (mt_intervalSeconds r) && int4 (mt_priority r) && int4 (mt_consecutiveErrors r).

Definition insertTarget (values : uuid -> Z -> MonitorTargetRow) : mrun MonitorTargetRow :=
  id ← market_uuid;
  s ← st_get;
  let row := values id (mk_now s) in
  _ ← demand (target_ints row) (SqlError "22003");
  _ ← demand (negb (exists_id mt_id id (mk_targets s))) (UniqueViolation "monitor_targets_pkey");
  _ ← demand (target_fks s row) foreign_key_violation;
  _ ← st_modify (fun s => put_targets (mk_targets s ++ [row]) s);
  mret row.

(** [update monitor_targets set ... where id = ... returning ...] *)
Definition updateTargets (p : MonitorTargetRow -> bool) (f : MonitorTargetRow -> MonitorTargetRow)
    : mrun (list MonitorTargetRow) :=
  s ← st_get;
  let rows := List.filter p (mk_targets s) in
  _ ← demand (forallb (fun r => target_ints (f r)) rows) (SqlError "22003");
  _ ← demand (forallb (fun r => target_fks s (f r)) rows) foreign_key_violation;
  _ ← st_modify (fun s => put_targets (update_rows p f (mk_targets s)) s);
  mret (f <$> rows).

(** [delete from monitor_targets where id = ...]: every reference restricts it. *)
Definition deleteTargetRow (id : uuid) : mrun unit :=
  s ← st_get;
  _ ← demand (forallb (fun l => negb (bool_decide (ml_monitorTargetId l = id))) (mk_links s)
              && forallb (fun e => negb (opt_eqb (me_monitorTargetId e) id)) (mk_events s)
              && negb (bool_decide (id ∈ mk_referenced s))) foreign_key_violation;
  st_modify (fun s => put_targets (List.filter (fun r => negb (is_target id r)) (mk_targets s)) s).

(** ** The clock of a schedule

    [at + n * interval '1 second']: the interval and the sum may leave their
    types.  A [Date] and an [integer] column never do. *)
Definition LAST_INSTANT : Z := 9224318015999999.
Definition LONGEST_INTERVAL : Z := 9223372036854.
Definition plus_seconds (at_ seconds : Z) : Z := at_ + seconds * 1000.
Definition advance (at_ seconds : Z) : result Z :=
  if (seconds <=? LONGEST_INTERVAL) && (plus_seconds at_ seconds <=? LAST_INSTANT)
  then mret (plus_seconds at_ seconds) else Throw (SqlError "22008").
