(* ===== verification/Monitors.v ===== *)
(** * Monitor targets and their schedule

    [packages/market/src/monitors.ts]: the configuration schemas, the service
    over [monitor_targets], the claim of due targets, the signals of the
    adaptive cadence and the recording of poll outcomes. *)
From S2P Require Import Prelude Decimal Inputs Config Store Schema Ledger Stock Adaptive MarketTables.
#[global] Set Default Goal Selector "!".

Open Scope Z_scope.
#[local] Arguments String.append : simpl nomatch.

Inductive MonitorTargetType : Type :=
  | ebay_watchlist | ebay_item | ebay_search | ebay_seller | woo_orders | ebay_orders | medusa_orders
  | etsy_listing | etsy_shop | reverb_listing | reverb_shop | ebay_purchases | infrastructure_domain_reconcile.
#[export] Instance MonitorTargetType_eq_dec : EqDecision MonitorTargetType.
Proof. solve_decision. Defined.

Definition type_text (t : MonitorTargetType) : string :=
  match t with
  | ebay_watchlist => "ebay_watchlist" | ebay_item => "ebay_item" | ebay_search => "ebay_search"
  | ebay_seller => "ebay_seller" | woo_orders => "woo_orders" | ebay_orders => "ebay_orders"
  | medusa_orders => "medusa_orders" | etsy_listing => "etsy_listing" | etsy_shop => "etsy_shop"
  | reverb_listing => "reverb_listing" | reverb_shop => "reverb_shop" | ebay_purchases => "ebay_purchases"
  | infrastructure_domain_reconcile => "infrastructure_domain_reconcile"
  end.
Definition MONITOR_TARGET_TYPES : list MonitorTargetType :=
  [ebay_watchlist; ebay_item; ebay_search; ebay_seller; woo_orders; ebay_orders; medusa_orders; etsy_listing;
   etsy_shop; reverb_listing; reverb_shop; ebay_purchases; infrastructure_domain_reconcile].
Definition type_of_text (s : string) : option MonitorTargetType :=
  List.find (fun t => String.eqb (type_text t) s) MONITOR_TARGET_TYPES.

Definition MAX_BACKOFF_SECONDS : Z := 3600.
Definition backoffSeconds (intervalSeconds consecutiveErrors : Z) : Z :=
  let exponent := Z.min (Z.max consecutiveErrors 0) 20 in
  Z.min (intervalSeconds * 2 ^ exponent) MAX_BACKOFF_SECONDS.

(** ** The configuration of each type *)
Section formats.
Context (formats : Formats).

Definition decimalString : jsonb -> bool := text_with isDecimalString.
Definition min1 : jsonb -> bool := text_with nonempty.
Definition datetime : jsonb -> bool := text_with (iso_datetime formats).
Definition digits (s : string) : bool := nonempty s && Js.all_digits s.

Definition ebaySearchFiltersSchema : jsonb -> bool := strictObject
  [optional "priceMin" decimalString; optional "priceMax" decimalString;
   optional "priceCurrency" (text_with Text.three_upper);
   optional "buyingOptions" (array_of (z_enum ["FIXED_PRICE"; "AUCTION"; "BEST_OFFER"; "CLASSIFIED_AD"]));
   optional "conditions" (array_of (z_enum
     ["NEW"; "USED"; "UNSPECIFIED"; "CERTIFIED_REFURBISHED"; "EXCELLENT_REFURBISHED"; "VERY_GOOD_REFURBISHED";
      "GOOD_REFURBISHED"; "SELLER_REFURBISHED"]));
   optional "conditionIds" (array_of (text_with digits));
   optional "sellers" (array_of min1);
   optional "listedAfter" datetime]%string.

Definition COMMERCE_SYNC_CONFIG_KEY : string := "commerceSync".
Definition INFRA_SYNC_CONFIG_KEY : string := "infraSync".
Definition PURCHASE_SYNC_CONFIG_KEY : string := "purchaseSync".

Definition infraSyncStateSchema : jsonb -> bool := strictObject
  [optional "lastSweptAt" datetime; optional "lastRunId" (text_with (uuid_shape formats));
   optional "lastDriftCount" (int_within 0 None); optional "mode" (z_enum ["apply"; "check"])]%string.
Definition commerceSyncStateSchema : jsonb -> bool := strictObject
  [optional "modifiedAfter" (nullable datetime); optional "lastSyncedAt" datetime;
   optional "lastOrderCount" (int_within 0 None); optional "perPage" (int_within 1 (Some 100));
   optional "maxPages" (int_within 1 (Some 100))]%string.
Definition purchaseSyncStateSchema : jsonb -> bool := strictObject
  [optional "lastPurchasedAt" (nullable datetime); optional "lastSyncedAt" datetime;
   optional "lastPurchaseCount" (int_within 0 None); optional "maxPages" (int_within 1 (Some 100));
   optional "entriesPerPage" (int_within 1 (Some 200))]%string.

Definition adaptive_field : Field := optional ADAPTIVE_CONFIG_KEY adaptiveConfigSchema.
Definition max_items : Field := optional "maxItems" (int_within 1 (Some 1000)).

Definition monitorTargetConfigSchemas (t : MonitorTargetType) : jsonb -> bool :=
  match t with
  | ebay_watchlist => strictObject [adaptive_field]
  | ebay_item => strictObject [required "externalItemId" min1; optional "marketplace" min1; adaptive_field]
  | ebay_search => fun config =>
      strictObject [optional "query" min1; optional "categoryId" min1; optional "filters" ebaySearchFiltersSchema;
                    max_items; adaptive_field] config
      && match member "query" config, member "categoryId" config with None, None => false | _, _ => true end
  | ebay_seller => strictObject
      [required "sellerUsername" min1; optional "query" min1; optional "categoryId" min1; max_items; adaptive_field]
  | woo_orders | ebay_orders | medusa_orders =>
      strictObject [optional COMMERCE_SYNC_CONFIG_KEY commerceSyncStateSchema; adaptive_field]
  | etsy_listing | reverb_listing => strictObject [required "externalItemId" min1; adaptive_field]
  | etsy_shop => strictObject [required "shopExternalId" min1; max_items; adaptive_field]
  | reverb_shop => strictObject [max_items; adaptive_field]
  | ebay_purchases => strictObject [optional PURCHASE_SYNC_CONFIG_KEY purchaseSyncStateSchema; adaptive_field]
  | infrastructure_domain_reconcile =>
      strictObject [optional INFRA_SYNC_CONFIG_KEY infraSyncStateSchema; adaptive_field]
  end.

Definition given (config : option jsonb) : option jsonb :=
  match config with Some BNull | None => None | Some j => Some j end.
Definition validateConfig (targetType : MonitorTargetType) (config : option jsonb) : result jsonb :=
  let j := default (BObject []) (given config) in
  if monitorTargetConfigSchemas targetType j then mret j else Throw MarketValidationError.

(** ** The service *)
Record CreateMonitorTargetInput : Type := {
  ct_targetType : MonitorTargetType;
  ct_name : string;
  ct_connectionId : option uuid;
  ct_enabled : option bool;
  ct_intervalSeconds : Z;
  ct_priority : option Z;
  ct_config : option jsonb;
  ct_nextPollAt : option Z;
  ct_createdByUserId : option string;
}.
(** In a patch [None] leaves a column and [Some None] clears it. *)
Record UpdateMonitorTargetInput : Type := {
  ut_targetType : option MonitorTargetType;
  ut_name : option string;
  ut_connectionId : option (option uuid);
  ut_enabled : option bool;
  ut_intervalSeconds : option Z;
  ut_priority : option Z;
  ut_config : option jsonb;
  ut_nextPollAt : option (option Z);
}.

Definition zod (b : bool) : result unit := throw_if (negb b) ZodError.
Definition opt_all {A} (p : A -> bool) (o : option A) : bool := match o with None => true | Some a => p a end.
Definition positive_int (z : Z) : bool := (0 <? z) && isSafeInteger z.

Definition createTargetSchema (i : CreateMonitorTargetInput) : result unit :=
  zod (nonempty (ct_name i) && positive_int (ct_intervalSeconds i) && opt_all isSafeInteger (ct_priority i)
       && opt_all nonempty (ct_createdByUserId i)).
Definition updateTargetSchema (p : UpdateMonitorTargetInput) : result unit :=
  _ ← zod (opt_all nonempty (ut_name p) && opt_all positive_int (ut_intervalSeconds p)
           && opt_all isSafeInteger (ut_priority p));
  zod (is_some (ut_targetType p) || is_some (ut_name p) || is_some (ut_connectionId p) || is_some (ut_enabled p)
       || is_some (ut_intervalSeconds p) || is_some (ut_priority p) || is_some (ut_config p)
       || is_some (ut_nextPollAt p)).

Definition getTarget (targetId : uuid) : mrun MonitorTargetRow :=
  row ← st_gets (find_target targetId);
  match row with None => st_throw MarketNotFoundError | Some row => mret row end.

Definition target_values (i : CreateMonitorTargetInput) (config : jsonb) (id : uuid) (now : Z) : MonitorTargetRow :=
  {| mt_id := id; mt_connectionId := ct_connectionId i; mt_targetType := type_text (ct_targetType i);
     mt_name := ct_name i; mt_enabled := default true (ct_enabled i);
     mt_intervalSeconds := ct_intervalSeconds i; mt_priority := default 0 (ct_priority i);
     mt_nextPollAt := Some (default now (ct_nextPollAt i)); mt_lastPollAt := None; mt_lastSuccessAt := None;
     mt_backoffUntil := None; mt_consecutiveErrors := 0; mt_config := config;
     mt_createdByUserId := ct_createdByUserId i; mt_createdAt := now; mt_updatedAt := now |}.

Definition createTarget (input : CreateMonitorTargetInput) : mrun MonitorTargetRow :=
  _ ← st_lift (createTargetSchema input);
  config ← st_lift (validateConfig (ct_targetType input) (ct_config input));
  insertTarget (target_values input config).

Definition listed_before (r q : MonitorTargetRow) : bool :=
  (mt_createdAt r <? mt_createdAt q) || ((mt_createdAt r =? mt_createdAt q) && (mt_id r <=? mt_id q)%positive).
Definition listTargets (enabled : option bool) (targetType : option MonitorTargetType)
    : mrun (list MonitorTargetRow) :=
  st_gets (fun s => sort_with listed_before
    (List.filter (fun r => opt_all (Bool.eqb (mt_enabled r)) enabled
                           && opt_all (fun t => String.eqb (mt_targetType r) (type_text t)) targetType)
       (mk_targets s))).

(** What [updateTarget] read before it writes: the row and the new configuration. *)
Definition updateTarget_read (targetId : uuid) (patch : UpdateMonitorTargetInput)
    : mrun (MonitorTargetRow * option jsonb) :=
  existing ← getTarget targetId;
  targetType ← st_lift (match ut_targetType patch with
                        | Some t => mret t
                        | None => match type_of_text (mt_targetType existing) with
                                  | Some t => mret t
                                  | None => Throw MarketValidationError
                                  end
                        end);
  config ← (if is_some (ut_config patch) || is_some (ut_targetType patch)
            then c ← st_lift (validateConfig targetType
                                (match given (ut_config patch) with Some j => Some j | None => Some (mt_config existing) end));
                 mret (Some c)
            else mret None);
  mret (existing, config).

Definition target_set (patch : UpdateMonitorTargetInput) (config : option jsonb) (now : Z) (r : MonitorTargetRow)
    : MonitorTargetRow :=
  {| mt_id := mt_id r; mt_connectionId := default (mt_connectionId r) (ut_connectionId patch);
     mt_targetType := default (mt_targetType r) (type_text <$> ut_targetType patch);
     mt_name := default (mt_name r) (ut_name patch); mt_enabled := default (mt_enabled r) (ut_enabled patch);
     mt_intervalSeconds := default (mt_intervalSeconds r) (ut_intervalSeconds patch);
     mt_priority := default (mt_priority r) (ut_priority patch);
     mt_nextPollAt := default (mt_nextPollAt r) (ut_nextPollAt patch); mt_lastPollAt := mt_lastPollAt r;
     mt_lastSuccessAt := mt_lastSuccessAt r; mt_backoffUntil := mt_backoffUntil r;
     mt_consecutiveErrors := mt_consecutiveErrors r; mt_config := default (mt_config r) config;
     mt_createdByUserId := mt_createdByUserId r; mt_createdAt := mt_createdAt r; mt_updatedAt := now |}.

(** The row the statement inserts when the key is no longer there. *)
Definition upserted (existing : MonitorTargetRow) (now : Z) : MonitorTargetRow :=
  {| mt_id := mt_id existing; mt_connectionId := None; mt_targetType := mt_targetType existing;
     mt_name := mt_name existing; mt_enabled := true; mt_intervalSeconds := mt_intervalSeconds existing;
     mt_priority := 0; mt_nextPollAt := None; mt_lastPollAt := None; mt_lastSuccessAt := None;
     mt_backoffUntil := None; mt_consecutiveErrors := 0; mt_config := BObject [];
     mt_createdByUserId := None; mt_createdAt := now; mt_updatedAt := now |}.

(** [insert ... on conflict (id) do update set ...] and the read of the result. *)
Definition updateTarget_write (patch : UpdateMonitorTargetInput) (read : MonitorTargetRow * option jsonb)
    : mrun MonitorTargetRow :=
  let '(existing, config) := read in
  now ← st_gets mk_now;
  found ← st_gets (find_target (mt_id existing));
  _ ← (if is_some found
       then _ ← updateTargets (is_target (mt_id existing)) (target_set patch config now); mret tt
       else st_modify (fun s => put_targets (mk_targets s ++ [upserted existing now]) s));
  getTarget (mt_id existing).

Definition updateTarget (targetId : uuid) (patch : UpdateMonitorTargetInput) : mrun MonitorTargetRow :=
  _ ← st_lift (updateTargetSchema patch);
  read ← updateTarget_read targetId patch;
  updateTarget_write patch read.

Definition deleteTarget (targetId : uuid) : mrun unit :=
  _ ← getTarget targetId;
  deleteTargetRow targetId.
End formats.

(** ** The claim *)
Record ClaimedTarget : Type := {
  cl_id : uuid;
  cl_connectionId : option uuid;
  cl_targetType : string;
  cl_name : string;
  cl_intervalSeconds : Z;
  cl_priority : Z;
  cl_config : jsonb;
  cl_nextPollAt : Z;
}.

Definition due (now : Z) (r : MonitorTargetRow) : bool :=
  mt_enabled r
  && match mt_nextPollAt r with Some t => t <=? now | None => false end
  && match mt_backoffUntil r with Some t => t <=? now | None => true end.

(** [order by priority asc, next_poll_at asc] among due rows *)
Definition claim_before (r q : MonitorTargetRow) : bool :=
  (mt_priority r <? mt_priority q)
  || ((mt_priority r =? mt_priority q) && (default 0 (mt_nextPollAt r) <=? default 0 (mt_nextPollAt q))).

(** The rows the subquery locks: those another transaction holds are skipped. *)
Definition claim_rows (locked : list uuid) (now limit : Z) (rows : list MonitorTargetRow) : list MonitorTargetRow :=
  take (Z.to_nat limit)
    (sort_with claim_before (List.filter (fun r => due now r && negb (bool_decide (mt_id r ∈ locked))) rows)).

Definition advanced (now updatedAt : Z) (r : MonitorTargetRow) : MonitorTargetRow :=
  {| mt_id := mt_id r; mt_connectionId := mt_connectionId r; mt_targetType := mt_targetType r;
     mt_name := mt_name r; mt_enabled := mt_enabled r; mt_intervalSeconds := mt_intervalSeconds r;
     mt_priority := mt_priority r; mt_nextPollAt := Some (plus_seconds now (mt_intervalSeconds r));
     mt_lastPollAt := mt_lastPollAt r; mt_lastSuccessAt := mt_lastSuccessAt r;
     mt_backoffUntil := mt_backoffUntil r; mt_consecutiveErrors := mt_consecutiveErrors r;
     mt_config := mt_config r; mt_createdByUserId := mt_createdByUserId r; mt_createdAt := mt_createdAt r;
     mt_updatedAt := updatedAt |}.

Definition claimed_of (r : MonitorTargetRow) : ClaimedTarget :=
  {| cl_id := mt_id r; cl_connectionId := mt_connectionId r; cl_targetType := mt_targetType r;
     cl_name := mt_name r; cl_intervalSeconds := mt_intervalSeconds r; cl_priority := mt_priority r;
     cl_config := match mt_config r with BNull => BObject [] | j => j end;
     cl_nextPollAt := default 0 (mt_nextPollAt r) |}.

(** The deterministic dispatch order. *)
Definition dispatch_before (a b : ClaimedTarget) : bool :=
  (cl_priority a <? cl_priority b)
  || ((cl_priority a =? cl_priority b)
      && ((cl_nextPollAt a <? cl_nextPollAt b)
          || ((cl_nextPollAt a =? cl_nextPollAt b) && (cl_id a <=? cl_id b)%positive))).

Definition claimDueTargets (locked : list uuid) (now limit : Z) : mrun (list ClaimedTarget) :=
  _ ← st_lift (int_literal limit);
  s ← st_get;
  let ids := mt_id <$> claim_rows locked now limit (mk_targets s) in
  rows ← updateTargets (fun r => bool_decide (mt_id r ∈ ids)) (advanced now (mk_now s));
  mret (sort_with dispatch_before (claimed_of <$> rows)).
