(* ===== verification/Polls.v ===== *)
(** * Recording poll outcomes

    The second half of [packages/market/src/monitors.ts]: the signals of the
    adaptive cadence read from stored history, and the statements that record
    a poll's success or failure. *)
From S2P Require Import Prelude Decimal Inputs Config Store Schema Ledger Stock Adaptive MarketTables Monitors.
#[global] Set Default Goal Selector "!".

Open Scope Z_scope.
#[local] Arguments String.append : simpl nomatch.

Definition LISTING_STATE_ENDED : string := "ended".

(** ** Signals *)
Record AdaptiveSignals : Type := {
  sg_recentEventCount : Z;
  sg_recentChangeCount : Z;
  sg_secondsUntilListingEnd : option Q;
  sg_windowSeconds : Z;
}.

(** The instants a [Date] holds. *)
Definition valid_instant (t : Z) : bool := Z.abs t <=? 8640000000000000.
Definition date_literal (t : Z) : result unit := throw_if (negb (valid_instant t)) MarketValidationError.

Definition linked_items (targetId : uuid) (links : list MonitorItemRow) : list uuid :=
  ml_marketplaceItemId <$> List.filter (fun l => bool_decide (ml_monitorTargetId l = targetId) && ml_active l) links.

Definition in_window (since now t : Z) : bool := (since <? t) && (t <=? now).

Definition event_count (targetId : uuid) (linked : list uuid) (since now : Z) (events : list MarketEventRow) : Z :=
  Z.of_nat (length (List.filter (fun e =>
    (opt_eqb (me_monitorTargetId e) targetId || bool_decide (me_marketplaceItemId e ∈ linked))
    && in_window since now (me_detectedAt e)) events)).

(** Hashes that differ from the hash of the row before, both present. *)
Fixpoint hash_deltas (previous : option string) (rows : list ObservationRow) : Z :=
  match rows with
  | [] => 0
  | r :: rows =>
      (match previous, ob_rawStateHash r with
       | Some p, Some h => if String.eqb h p then 0 else 1
       | _, _ => 0
       end) + hash_deltas (ob_rawStateHash r) rows
  end.

Definition observed_before (r q : ObservationRow) : bool := ob_observedAt r <=? ob_observedAt q.
Definition item_window (item : uuid) (since now : Z) (observations : list ObservationRow) : list ObservationRow :=
  sort_with observed_before
    (List.filter (fun o => bool_decide (ob_marketplaceItemId o = item) && in_window since now (ob_observedAt o))
       observations).
Definition change_count (linked : list uuid) (since now : Z) (observations : list ObservationRow) : Z :=
  sumZ ((fun item => hash_deltas None (item_window item since now observations)) <$> linked).

Definition min_opt (l : list Z) : option Z :=
  foldr (fun x m => Some (match m with None => x | Some y => Z.min x y end)) None l.
Definition soonest_end (linked : list uuid) (now : Z) (items : list MarketplaceItemRow) : option Z :=
  min_opt (omap mi_listingEndsAt (List.filter (fun i =>
    bool_decide (mi_id i ∈ linked)
    && match mi_listingEndsAt i with Some e => now <=? e | None => false end
    && negb (String.eqb (mi_currentState i) LISTING_STATE_ENDED)) items)).

(** Milliseconds as seconds. *)
Definition as_seconds (ms : Z) : Q := ms # 1000.

Definition collectAdaptiveSignals (monitorTargetId : uuid) (now : Z) (window : option Z) : mrun AdaptiveSignals :=
  let windowSeconds := default DEFAULT_ADAPTIVE_SIGNAL_WINDOW_SECONDS window in
  _ ← st_lift (throw_if (negb (isSafeInteger windowSeconds) || (windowSeconds <? 1)) MarketValidationError);
  let since := now - windowSeconds * 1000 in
  _ ← st_lift (date_literal since);
  st_gets (fun s =>
    let linked := linked_items monitorTargetId (mk_links s) in
    {| sg_recentEventCount := event_count monitorTargetId linked since now (mk_events s);
       sg_recentChangeCount := change_count linked since now (mk_observations s);
       sg_secondsUntilListingEnd := (fun e => as_seconds (e - now)) <$> soonest_end linked now (mk_items s);
       sg_windowSeconds := windowSeconds |}).

(** ** Success *)
Record RecordPollSuccessOptions : Type := {
  ro_at : option Z;
  ro_changed : option bool;
  (** [undefined], [null] or a number. *)
  ro_secondsUntilListingEnd : option (option number);
  ro_recentEventCount : option number;
  ro_recentChangeCount : option number;
  ro_bounds : option BoundsInput;
  ro_deriveSignals : bool;
  ro_signalWindowSeconds : option Z;
}.

Record PollSuccessResult : Type := {
  ps_adaptive : option (AdaptiveDecision * Z);
  ps_nextPollAt : option Z;
}.
Definition flat_result : PollSuccessResult := {| ps_adaptive := None; ps_nextPollAt := None |}.

Definition succeeded (at_ now : Z) (nextPollAt : option Z) (config : jsonb) (r : MonitorTargetRow) : MonitorTargetRow :=
  {| mt_id := mt_id r; mt_connectionId := mt_connectionId r; mt_targetType := mt_targetType r;
     mt_name := mt_name r; mt_enabled := mt_enabled r; mt_intervalSeconds := mt_intervalSeconds r;
     mt_priority := mt_priority r; mt_nextPollAt := nextPollAt; mt_lastPollAt := Some at_;
     mt_lastSuccessAt := Some at_; mt_backoffUntil := None; mt_consecutiveErrors := 0; mt_config := config;
     mt_createdByUserId := mt_createdByUserId r; mt_createdAt := mt_createdAt r; mt_updatedAt := now |}.

Definition recordFlatPollSuccess (targetId : uuid) (at_ : Z) : mrun unit :=
  now ← st_gets mk_now;
  rows ← updateTargets (is_target targetId) (fun r => succeeded at_ now (mt_nextPollAt r) (mt_config r) r);
  match rows with [] => st_throw MarketNotFoundError | _ => mret tt end.

(** The [case] of the statement: merge under [adaptive], keep the rest. *)
Definition merged_config (patch : list (string * jsonb)) (config : jsonb) : jsonb :=
  match config with
  | BObject members =>
      match lookup_member ADAPTIVE_CONFIG_KEY members with
      | Some (BObject old) => BObject (set_member ADAPTIVE_CONFIG_KEY (BObject (merge_members old patch)) members)
      | _ => BObject (set_member ADAPTIVE_CONFIG_KEY (BObject patch) members)
      end
  | _ => BObject [(ADAPTIVE_CONFIG_KEY, BObject patch)]
  end.

(** The signals the options leave out, from the store when the caller asks. *)
Definition poll_signals (targetId : uuid) (at_ : Z) (o : RecordPollSuccessOptions)
    : mrun (option number * option number * option (option number)) :=
  let given := (ro_recentEventCount o, ro_recentChangeCount o, ro_secondsUntilListingEnd o) in
  if ro_deriveSignals o
     && negb (is_some (ro_recentEventCount o) && is_some (ro_recentChangeCount o)
              && is_some (ro_secondsUntilListingEnd o))
  then
    signals ← collectAdaptiveSignals targetId at_ (ro_signalWindowSeconds o);
    mret (Some (default (Finite (inject_Z (sg_recentEventCount signals))) (ro_recentEventCount o)),
          Some (default (Finite (inject_Z (sg_recentChangeCount signals))) (ro_recentChangeCount o)),
          Some (match ro_secondsUntilListingEnd o with
                | Some (Some n) => Some n
                | _ => Finite <$> sg_secondsUntilListingEnd signals
                end))
  else mret given.

Definition poll_input (target : MonitorTargetRow) (state : AdaptiveState) (changed : bool) (streak : Z)
    (signals : option number * option number * option (option number)) (bounds : option BoundsInput)
    : AdaptiveIntervalInput :=
  let '(events, changes, ends) := signals in
  {| ai_baseIntervalSeconds := Finite (inject_Z (mt_intervalSeconds target));
     ai_recentEventCount := Some (default (Finite 0) events);
     ai_recentChangeCount := Some (default (Finite (if changed then 1 else 0)) changes);
     ai_unchangedStreak := Some (Finite (inject_Z streak));
     ai_secondsUntilListingEnd := (e ← ends; e);
     ai_previousIntervalSeconds := inject_Z <$> as_lastComputedInterval state;
     ai_bounds := bounds |}.

Definition recordPollSuccess (targetId : uuid) (o : RecordPollSuccessOptions) : mrun PollSuccessResult :=
  clock ← st_gets mk_now;
  let at_ := default clock (ro_at o) in
  match ro_changed o with
  | None => _ ← recordFlatPollSuccess targetId at_; mret flat_result
  | Some changed =>
      target ← getTarget targetId;
      let state := readAdaptiveState (mt_config target) in
      if negb (as_enabled state) then _ ← recordFlatPollSuccess targetId at_; mret flat_result
      else
        signals ← poll_signals targetId at_ o;
        let unchangedStreak := nextUnchangedStreak state changed at_ in
        decision ← st_lift (evaluateAdaptiveInterval
                              (poll_input target state changed unchangedStreak signals (ro_bounds o)));
        _ ← st_lift (int_literal (ad_intervalSeconds decision));
        next ← st_lift (advance at_ (ad_intervalSeconds decision));
        let patch := adaptiveStatePatch unchangedStreak decision at_ in
        rows ← updateTargets (is_target targetId)
                 (fun r => succeeded at_ clock (Some next) (merged_config patch (mt_config r)) r);
        match rows with
        | [] => st_throw MarketNotFoundError
        | row :: _ => mret {| ps_adaptive := Some (decision, unchangedStreak); ps_nextPollAt := mt_nextPollAt row |}
        end
  end.

(** ** Failure *)

(** [least(interval_seconds * power(2, least(consecutive_errors + 1, 20)), 3600)] *)
Definition failure_backoff (r : MonitorTargetRow) : Z :=
  Z.min (mt_intervalSeconds r * 2 ^ Z.min (mt_consecutiveErrors r + 1) 20) MAX_BACKOFF_SECONDS.

Definition failed (at_ now : Z) (r : MonitorTargetRow) : MonitorTargetRow :=
  {| mt_id := mt_id r; mt_connectionId := mt_connectionId r; mt_targetType := mt_targetType r;
     mt_name := mt_name r; mt_enabled := mt_enabled r; mt_intervalSeconds := mt_intervalSeconds r;
     mt_priority := mt_priority r; mt_nextPollAt := mt_nextPollAt r; mt_lastPollAt := Some at_;
     mt_lastSuccessAt := mt_lastSuccessAt r;
     mt_backoffUntil := Some (plus_seconds at_ (failure_backoff r));
     mt_consecutiveErrors := mt_consecutiveErrors r + 1; mt_config := mt_config r;
     mt_createdByUserId := mt_createdByUserId r; mt_createdAt := mt_createdAt r; mt_updatedAt := now |}.

Definition recordPollFailure (targetId : uuid) (at_ : option Z) : mrun (Z * Z) :=
  clock ← st_gets mk_now;
  rows ← updateTargets (is_target targetId) (failed (default clock at_) clock);
  match rows with
  | [] => st_throw MarketNotFoundError
  | r :: _ => mret (mt_consecutiveErrors r, default 0 (mt_backoffUntil r))
  end.
