(* ===== verification/MarketEvents.v ===== *)
(** * Market events: [market/src/events.ts]

    The comparison of two observations, the keys of events, their insertion and the paged
    read; then what a comparison detects. *)
From S2P Require Import Prelude Decimal Inputs Store Schema Ledger LedgerFacts Facts PostingEngine Stock.
From S2P Require Import Config MarketTables Polls.

#[global] Set Default Goal Selector "!".

Open Scope Z_scope.
#[local] Arguments String.append : simpl nomatch.

Definition AVAILABILITY_IN_STOCK : string := "in_stock".
Definition AVAILABILITY_OUT_OF_STOCK : string := "out_of_stock".

(** ** Decimal strings *)
Record DecimalParts : Type := { dp_negative : bool; dp_int : string; dp_frac : string }.

(** [/^(-?)(\d+)(?:\.(\d+))?$/] *)
Definition decimal_parts (value : string) : result DecimalParts :=
  if negb (isDecimalString value) then Throw MarketValidationError
  else
    let negative := Js.starts_with "-" value in
    let '(w, rest) := span_digits (if negative then Js.slice_from 1 value else value) in
    mret {| dp_negative := negative; dp_int := w;
            dp_frac := match rest with EmptyString => EmptyString | String _ f => f end |}.

(** [s.padEnd(n, "0")] *)
Definition pad_end (n : nat) (s : string) : string := String.append s (Js.repeat_char (n - String.length s) "0").

Definition scaled_value (scale : nat) (p : DecimalParts) : Z :=
  let v := Js.bigint (String.append (dp_int p) (pad_end scale (dp_frac p))) in
  if dp_negative p then - v else v.

Definition compareDecimalStrings (a b : string) : result Z :=
  pa ← decimal_parts a;
  pb ← decimal_parts b;
  let scale := Nat.max (String.length (dp_frac pa)) (String.length (dp_frac pb)) in
  let va := scaled_value scale pa in
  let vb := scaled_value scale pb in
  mret (if va <? vb then -1 else if vb <? va then 1 else 0).

(** ** Comparison *)
Record ObservationSnapshot : Type := {
  os_observedAt : Z;
  os_price : option string;
  os_currency : option string;
  os_quantityAvailable : option Z;
  os_availability : option string;
  os_listingState : option string;
}.
Record DetectedMarketEvent : Type := { de_eventType : MarketEventType; de_payload : jsonb }.

Definition detected (t : MarketEventType) (payload : list (string * jsonb)) : DetectedMarketEvent :=
  {| de_eventType := t; de_payload := BObject payload |}.
Definition json_text (o : option string) : jsonb := match o with None => BNull | Some s => BText s end.
Definition json_int (o : option Z) : jsonb := match o with None => BNull | Some z => BNum (inject_Z z) end.

Definition price_events (previous current : ObservationSnapshot) : result (list DetectedMarketEvent) :=
  match os_price previous, os_price current with
  | Some p, Some c =>
      cmp ← compareDecimalStrings c p;
      let payload := [("from", BText p); ("to", BText c);
        ("currency", json_text (match os_currency current with Some x => Some x | None => os_currency previous end))]%string in
      mret (if cmp =? 0 then []
            else detected price_changed payload :: (if cmp <? 0 then [detected price_dropped payload] else []))
  | _, _ => mret []
  end.

Definition quantity_events (previous current : ObservationSnapshot) : list DetectedMarketEvent :=
  match os_quantityAvailable previous, os_quantityAvailable current with
  | Some p, Some c =>
      if p =? c then []
      else [detected quantity_changed [("from", BNum (inject_Z p)); ("to", BNum (inject_Z c))]%string]
  | _, _ => []
  end.

Definition stock_payload (previous current : ObservationSnapshot) : list (string * jsonb) :=
  [("fromQuantity", json_int (os_quantityAvailable previous)); ("toQuantity", json_int (os_quantityAvailable current));
   ("fromAvailability", json_text (os_availability previous));
   ("toAvailability", json_text (os_availability current))]%string.
Definition availability_moved (from to : string) (previous current : ObservationSnapshot) : bool :=
  opt_eqb (os_availability previous) from && opt_eqb (os_availability current) to.

Definition restocked_now (previous current : ObservationSnapshot) : bool :=
  match os_quantityAvailable previous, os_quantityAvailable current with
  | Some p, Some c => (p =? 0) && (0 <? c)
  | _, _ => false
  end || availability_moved AVAILABILITY_OUT_OF_STOCK AVAILABILITY_IN_STOCK previous current.
Definition sold_out_now (previous current : ObservationSnapshot) : bool :=
  match os_quantityAvailable previous, os_quantityAvailable current with
  | Some p, Some c => (0 <? p) && (c =? 0)
  | _, _ => false
  end || availability_moved AVAILABILITY_IN_STOCK AVAILABILITY_OUT_OF_STOCK previous current.
Definition stock_events (previous current : ObservationSnapshot) : list DetectedMarketEvent :=
  (if restocked_now previous current then [detected restocked (stock_payload previous current)] else [])
  ++ (if sold_out_now previous current then [detected sold_out (stock_payload previous current)] else []).

Definition ended_events (previous current : ObservationSnapshot) : list DetectedMarketEvent :=
  match os_listingState previous with
  | Some p =>
      if negb (String.eqb p LISTING_STATE_ENDED) && opt_eqb (os_listingState current) LISTING_STATE_ENDED
      then [detected listing_ended [("from", BText p); ("to", BText LISTING_STATE_ENDED)]%string] else []
  | None => []
  end.

Definition compareObservations (previous current : ObservationSnapshot) : result (list DetectedMarketEvent) :=
  prices ← price_events previous current;
  mret (prices ++ quantity_events previous current ++ stock_events previous current
        ++ ended_events previous current).

Definition deduplicationKeyFor (marketplaceItemId : uuid) (eventType : MarketEventType) (toObservedAt : Z) : string :=
  concat_text [uuid_text marketplaceItemId; ":"; event_text eventType; ":"; toISOString toObservedAt]%string.

(** ** Insertion *)
Definition has_key (key : string) (events : list MarketEventRow) : bool :=
  existsb (fun e => String.eqb (me_deduplicationKey e) key) events.

Definition event_fks (s : Market) (e : MarketEventRow) : bool :=
  exists_id mi_id (me_marketplaceItemId e) (mk_items s)
  && match me_monitorTargetId e with None => true | Some t => exists_id mt_id t (mk_targets s) end.

(** [insert into market_events ... on conflict (deduplication_key) do nothing returning], one row. *)
Definition insertEvent (values : uuid -> MarketEventRow) : mrun (list MarketEventRow) :=
  id ← market_uuid;
  s ← st_get;
  let row := values id in
  if has_key (me_deduplicationKey row) (mk_events s) then mret []
  else
    _ ← demand (negb (exists_id me_id id (mk_events s))) (UniqueViolation "market_events_pkey");
    _ ← demand (event_fks s row) foreign_key_violation;
    _ ← st_modify (fun s => put_events (mk_events s ++ [row]) s);
    mret [row].

Definition insertEvents (values : list (uuid -> MarketEventRow)) : mrun (list MarketEventRow) :=
  atomically (rows ← st_mapM insertEvent values; mret (concat rows)).

Definition event_values (marketplaceItemId : uuid) (monitorTargetId : option uuid) (detectedAt : Z)
    (previous current : ObservationSnapshot) (event : DetectedMarketEvent) (id : uuid) : MarketEventRow :=
  {| me_id := id; me_marketplaceItemId := marketplaceItemId; me_monitorTargetId := monitorTargetId;
     me_eventType := de_eventType event; me_detectedAt := detectedAt;
     me_fromObservedAt := Some (os_observedAt previous); me_toObservedAt := os_observedAt current;
     me_payload := de_payload event; me_ruleId := None;
     me_deduplicationKey := deduplicationKeyFor marketplaceItemId (de_eventType event) (os_observedAt current) |}.

Definition deriveMarketEvents (marketplaceItemId : uuid) (previous : option ObservationSnapshot)
    (current : ObservationSnapshot) (monitorTargetId : option uuid) (detectedAt : option Z)
    : mrun (list DetectedMarketEvent * list MarketEventRow) :=
  match previous with
  | None => mret ([], [])
  | Some previous =>
      events ← st_lift (compareObservations previous current);
      clock ← st_gets mk_now;
      inserted ← (match events with
                  | [] => mret []
                  | _ => insertEvents
                           (event_values marketplaceItemId monitorTargetId (default clock detectedAt) previous current <$> events)
                  end);
      mret (events, inserted)
  end.

(** ** One page of an item's events *)
Record ItemEventsPageOptions : Type := {
  pg_marketplaceItemId : uuid;
  pg_page : option Z;
  pg_pageSize : option Z;
  pg_ascending : option bool;
}.
Definition DEFAULT_ITEM_EVENTS_PAGE_SIZE : Z := 25.
Definition itemEventsPageOptionsSchema (o : ItemEventsPageOptions) : result unit :=
  throw_if (negb (match pg_page o with None => true | Some p => (0 <=? p) && isSafeInteger p end
                  && match pg_pageSize o with None => true | Some n => (0 <? n) && isSafeInteger n end)) ZodError.

Definition page_of {A} (page pageSize : Z) (rows : list A) : list A :=
  take (Z.to_nat pageSize) (drop (Z.to_nat (page * pageSize)) rows).
Definition oldest_first (r q : MarketEventRow) : bool := me_detectedAt r <=? me_detectedAt q.
Definition newest_first (r q : MarketEventRow) : bool := me_detectedAt q <=? me_detectedAt r.

Definition listItemEventsPage (o : ItemEventsPageOptions) : mrun (list MarketEventRow * Z) :=
  _ ← st_lift (itemEventsPageOptionsSchema o);
  st_gets (fun s =>
    let rows := List.filter (fun e => bool_decide (me_marketplaceItemId e = pg_marketplaceItemId o)) (mk_events s) in
    let order := if default false (pg_ascending o) then oldest_first else newest_first in
    (page_of (default 0 (pg_page o)) (default DEFAULT_ITEM_EVENTS_PAGE_SIZE (pg_pageSize o)) (sort_with order rows),
     Z.of_nat (length rows))).

(** ** What a comparison detects

    [compareDecimalStrings] orders decimal strings by their values, and the events of a
    comparison are exactly those the module documents. *)

#[global] Set Default Goal Selector "!".


(** ** Values *)
Abbreviation parse := (parseScaled MarketValidationError).

(** The order of two decimals of any scales. *)
Definition value_compare (x y : Scaled) : comparison := units x * pow10 (scale y) ?= units y * pow10 (scale x).

Lemma decimal_parts_render negative w f :
  Js.all_digits w = true -> w <> ""%string -> Js.all_digits f = true ->
  decimal_parts (render negative w f) = Ok {| dp_negative := negative; dp_int := w; dp_frac := f |}.
Proof.
  intros Hw Hne Hf. destruct (render_unsigned negative w f Hw Hne) as [Hs Hu].
  unfold decimal_parts, isDecimalString. rewrite DECIMAL_STRING_render by done. cbn [negb].
  rewrite Hs, Hu. rewrite span_digits_append; [|done|by destruct f]. destruct f; done.
Qed.

Lemma bigint_append a b : Js.bigint (String.append a b) = Js.bigint a * pow10 (String.length b) + Js.bigint b.
Proof.
  unfold Js.bigint. rewrite bigint_acc_append, (bigint_acc_shift (Js.bigint_acc 0 a)). done.
Qed.

Lemma scaled_value_units n (negative : bool) w f : (String.length f <= n)%nat ->
  scaled_value n {| dp_negative := negative; dp_int := w; dp_frac := f |}
  = (let u := Js.bigint (String.append w f) in if negative then - u else u) * pow10 (n - String.length f).
Proof.
  intros Hn. unfold scaled_value, pad_end. cbn [dp_int dp_frac dp_negative].
  rewrite append_assoc', bigint_append, length_repeat_char.
  pose proof (bigint_zeros (n - String.length f) "") as Hz. rewrite append_nil_r in Hz. rewrite Hz.
  change (Js.bigint "") with 0. destruct negative; ring.
Qed.

Definition sign_of (c : comparison) : Z := match c with Lt => -1 | Eq => 0 | Gt => 1 end.

Lemma compareDecimalStrings_value a b :
  compareDecimalStrings a b = (x ← parse a; y ← parse b; mret (sign_of (value_compare x y))).
Proof.
  destruct (DECIMAL_STRING a) eqn:Ea; [|unfold compareDecimalStrings, decimal_parts, parseScaled, isDecimalString; by rewrite Ea].
  apply DECIMAL_STRING_inv in Ea as (na & wa & fa & -> & Hwa & Hnea & Hfa).
  unfold compareDecimalStrings. rewrite decimal_parts_render, parseScaled_render by done. cbn [mbind result_bind].
  destruct (DECIMAL_STRING b) eqn:Eb; [|unfold decimal_parts, parseScaled, isDecimalString; by rewrite Eb].
  apply DECIMAL_STRING_inv in Eb as (nb & wb & fb & -> & Hwb & Hneb & Hfb).
  rewrite decimal_parts_render, parseScaled_render by done. cbn [mbind result_bind dp_frac]. cbv zeta.
  set (n := Nat.max _ _). rewrite !scaled_value_units by (subst n; lia). cbv zeta.
  set (u := if na then _ else _). set (v := if nb then _ else _).
  unfold value_compare. cbn [units scale].
  set (la := String.length fa) in *. set (lb := String.length fb) in *.
  unfold mret, result_ret. f_equal.
  pose proof (pow10_pos (n - la)). pose proof (pow10_pos (n - lb)).
  assert (pow10 n = pow10 (n - la) * pow10 la /\ pow10 n = pow10 (n - lb) * pow10 lb) as [E1 E2]
    by (rewrite <- !pow10_add; split; f_equal; lia).
  pose proof (pow10_pos la). pose proof (pow10_pos lb).
  assert (pow10 (n - la) * pow10 la = pow10 (n - lb) * pow10 lb) as E by congruence.
  assert ((u * pow10 (n - la) < v * pow10 (n - lb) <-> u * pow10 lb < v * pow10 la)
    /\ (v * pow10 (n - lb) < u * pow10 (n - la) <-> v * pow10 la < u * pow10 lb)) as [L1 L2].
  { assert ((u * pow10 (n - la)) * (pow10 la * pow10 lb) = (u * pow10 lb) * (pow10 (n - la) * pow10 la)
      /\ (v * pow10 (n - lb)) * (pow10 la * pow10 lb) = (v * pow10 la) * (pow10 (n - la) * pow10 la)) as [F1 F2]
      by (split; [ring|rewrite E; ring]).
    assert (0 < pow10 la * pow10 lb /\ 0 < pow10 (n - la) * pow10 la) as [P Q] by (split; by apply Z.mul_pos_pos).
    rewrite (Z.mul_lt_mono_pos_r _ (u * pow10 (n - la)) _ P), (Z.mul_lt_mono_pos_r _ (v * pow10 (n - lb)) _ P), F1, F2.
    by rewrite <- !(Z.mul_lt_mono_pos_r _ _ _ Q). }
  destruct (Z.ltb_spec (u * pow10 (n - la)) (v * pow10 (n - lb))), (Z.ltb_spec (v * pow10 (n - lb)) (u * pow10 (n - la)));
    destruct (Z.compare_spec (u * pow10 lb) (v * pow10 la)); cbn [sign_of]; try done; lia.
Qed.

(** ** The events *)
Definition kinds (es : list DetectedMarketEvent) : list MarketEventType := de_eventType <$> es.

Lemma kinds_app l k : kinds (l ++ k) = kinds l ++ kinds k.
Proof. apply fmap_app. Qed.

(** Both prices known, and how the newer compares with the older. *)
Definition price_moved (p c : ObservationSnapshot) (ok : comparison -> Prop) : Prop :=
  exists a b x y, os_price p = Some a /\ os_price c = Some b /\ parse a = Ok x /\ parse b = Ok y /\ ok (value_compare y x).
Definition quantity_moved (p c : ObservationSnapshot) (ok : Z -> Z -> Prop) : Prop :=
  exists m n, os_quantityAvailable p = Some m /\ os_quantityAvailable c = Some n /\ ok m n.
Definition availability_went (p c : ObservationSnapshot) (from to : string) : Prop :=
  os_availability p = Some from /\ os_availability c = Some to.

Lemma availability_moved_spec from to p c : availability_moved from to p c = true <-> availability_went p c from to.
Proof.
  unfold availability_moved, availability_went, opt_eqb. rewrite andb_true_iff. split; intros [H1 H2]; split.
  - destruct (os_availability p); [|done]. by apply bool_decide_eq_true in H1 as ->.
  - destruct (os_availability c); [|done]. by apply bool_decide_eq_true in H2 as ->.
  - rewrite H1. by apply bool_decide_eq_true.
  - rewrite H2. by apply bool_decide_eq_true.
Qed.

Lemma quantity_moved_spec p c (q : Z -> Z -> bool) (P : Z -> Z -> Prop) : (forall m n, q m n = true <-> P m n) ->
  match os_quantityAvailable p, os_quantityAvailable c with Some m, Some n => q m n | _, _ => false end = true
  <-> quantity_moved p c P.
Proof.
  intros H. unfold quantity_moved. destruct (os_quantityAvailable p) as [m|], (os_quantityAvailable c) as [n|];
    (split; [try done|by intros (? & ? & ? & ? & ?); simplify_eq; try apply H]).
  intros Hq. exists m, n. split; [done|]. split; [done|]. by apply H.
Qed.

Lemma restocked_spec p c : restocked_now p c = true <->
  quantity_moved p c (fun m n => m = 0 /\ 0 < n) \/ availability_went p c AVAILABILITY_OUT_OF_STOCK AVAILABILITY_IN_STOCK.
Proof.
  unfold restocked_now. rewrite orb_true_iff, availability_moved_spec.
  by rewrite (quantity_moved_spec p c (fun m n => (m =? 0) && (0 <? n)) (fun m n => m = 0 /\ 0 < n))
    by (intros; by rewrite andb_true_iff, Z.eqb_eq, Z.ltb_lt).
Qed.
Lemma sold_out_spec p c : sold_out_now p c = true <->
  quantity_moved p c (fun m n => 0 < m /\ n = 0) \/ availability_went p c AVAILABILITY_IN_STOCK AVAILABILITY_OUT_OF_STOCK.
Proof.
  unfold sold_out_now. rewrite orb_true_iff, availability_moved_spec.
  by rewrite (quantity_moved_spec p c (fun m n => (0 <? m) && (n =? 0)) (fun m n => 0 < m /\ n = 0))
    by (intros; by rewrite andb_true_iff, Z.eqb_eq, Z.ltb_lt).
Qed.

(** One optional event: its kind is there exactly when its condition holds. *)
Definition when (b : bool) (k : MarketEventType) : list MarketEventType := if b then [k] else [].
Lemma elem_of_when b k j : j ∈ when b k <-> b = true /\ j = k.
Proof. destruct b; cbn; [rewrite list_elem_of_singleton|rewrite elem_of_nil]; naive_solver. Qed.

Definition prices_differ (p c : ObservationSnapshot) (d l : bool) : Prop :=
  (d = true <-> price_moved p c (fun o => o <> Eq)) /\ (l = true <-> price_moved p c (fun o => o = Lt)).

Lemma price_kinds p c es : price_events p c = Ok es ->
  exists d l, prices_differ p c d l /\ kinds es = when d price_changed ++ when l price_dropped.
Proof.
  unfold price_events, prices_differ, price_moved.
  destruct (os_price p) as [a|] eqn:Ea, (os_price c) as [b|] eqn:Eb;
    try (intros [= <-]; exists false, false; split; [|done]; split; (split; [done|]); by intros (? & ? & ? & ? & ? & ? & _)).
  rewrite compareDecimalStrings_value. rewrite !bind_Ok. intros (z & Hz & He).
  rewrite bind_Ok in Hz. destruct Hz as (y & Hy & Hz). rewrite bind_Ok in Hz. destruct Hz as (x & Hx & [= <-]).
  cbv zeta in He. injection He as <-.
  exists (negb (sign_of (value_compare y x) =? 0)), (sign_of (value_compare y x) <? 0).
  assert (forall ok : comparison -> Prop,
    (exists a0 b0 x0 y0, Some a = Some a0 /\ Some b = Some b0 /\ parse a0 = Ok x0 /\ parse b0 = Ok y0 /\ ok (value_compare y0 x0))
    <-> ok (value_compare y x)) as Hok.
  { intros ok. split; [|intros; by exists a, b, x, y]. intros (? & ? & ? & ? & [= <-] & [= <-] & H1 & H2 & H). congruence. }
  rewrite (Hok (fun o => o <> Eq)), (Hok (fun o => o = Lt)). destruct (value_compare y x); cbn; done.
Qed.

Lemma ended_spec p c : kinds (ended_events p c) = when (negb (bool_decide (kinds (ended_events p c) = []))) listing_ended
  /\ (kinds (ended_events p c) <> [] <-> exists q, os_listingState p = Some q /\ q <> LISTING_STATE_ENDED
        /\ os_listingState c = Some LISTING_STATE_ENDED).
Proof.
  unfold ended_events. destruct (os_listingState p) as [q|]; [|split; [done|split; [done|by intros (? & ? & _)]]].
  destruct (negb (String.eqb q LISTING_STATE_ENDED) && opt_eqb (os_listingState c) LISTING_STATE_ENDED) eqn:E.
  - split; [done|]. split; [|done]. intros _. apply andb_true_iff in E as [E1%negb_true_iff%String.eqb_neq E2].
    apply bool_decide_eq_true in E2. by exists q.
  - split; [done|]. split; [done|]. intros (x & [= <-] & H1 & H2). apply andb_false_iff in E as [E|E].
    + apply negb_false_iff, String.eqb_eq in E. done.
    + by apply bool_decide_eq_false in E.
Qed.

Lemma comparison_kinds p c es : compareObservations p c = Ok es ->
  exists d l, prices_differ p c d l /\
    kinds es = when d price_changed ++ when l price_dropped
      ++ when (match os_quantityAvailable p, os_quantityAvailable c with Some m, Some n => negb (m =? n) | _, _ => false end) quantity_changed
      ++ when (restocked_now p c) restocked ++ when (sold_out_now p c) sold_out
      ++ when (negb (bool_decide (kinds (ended_events p c) = []))) listing_ended.
Proof.
  unfold compareObservations. rewrite bind_Ok. intros (ps & Hps & [= <-]).
  destruct (price_kinds p c ps Hps) as (d & l & Hd & Hk). exists d, l. split; [done|].
  rewrite !kinds_app, Hk, <- (proj1 (ended_spec p c)), <- !app_assoc. unfold stock_events. rewrite kinds_app, <- app_assoc.
  do 2 f_equal. f_equal; [|f_equal; [|f_equal]].
  - unfold quantity_events. destruct (os_quantityAvailable p), (os_quantityAvailable c); try done. by destruct (_ =? _).
  - by destruct (restocked_now p c).
  - by destruct (sold_out_now p c).
Qed.

Lemma when_NoDup_app b k l : k ∉ l -> NoDup l -> NoDup (when b k ++ l).
Proof. destruct b; cbn; [by constructor|done]. Qed.

(** C17. A comparison detects exactly the documented events, each kind once.  A price change
    is reported when both prices are known and their values differ - whatever their
    scales, never as floating-point numbers - and a drop when the newer value is smaller; a
    quantity change when both are known and differ; a restock when the quantity leaves zero or
    the availability turns from out of stock to in stock; a sell-out the other way round; an
    ended listing when a known state other than ended becomes ended.  Nothing unobserved takes
    part, and a comparison never discovers a listing. *)
Theorem comparison_exact p c es : compareObservations p c = Ok es ->
  NoDup (kinds es)
  /\ (price_changed ∈ kinds es <-> price_moved p c (fun o => o <> Eq))
  /\ (price_dropped ∈ kinds es <-> price_moved p c (fun o => o = Lt))
  /\ (quantity_changed ∈ kinds es <-> quantity_moved p c (fun m n => m <> n))
  /\ (restocked ∈ kinds es <->
        quantity_moved p c (fun m n => m = 0 /\ 0 < n)
        \/ availability_went p c AVAILABILITY_OUT_OF_STOCK AVAILABILITY_IN_STOCK)
  /\ (sold_out ∈ kinds es <->
        quantity_moved p c (fun m n => 0 < m /\ n = 0)
        \/ availability_went p c AVAILABILITY_IN_STOCK AVAILABILITY_OUT_OF_STOCK)
  /\ (listing_ended ∈ kinds es <-> exists q, os_listingState p = Some q /\ q <> LISTING_STATE_ENDED
        /\ os_listingState c = Some LISTING_STATE_ENDED)
  /\ new_listing ∉ kinds es.
Proof.
  intros (d & l & [Hd Hl] & ->)%comparison_kinds.
  rewrite <- Hd, <- Hl, <- restocked_spec, <- sold_out_spec, <- (proj2 (ended_spec p c)).
  rewrite <- (quantity_moved_spec p c (fun m n => negb (m =? n)) (fun m n => m <> n))
    by (intros; by rewrite negb_true_iff, Z.eqb_neq).
  assert (kinds (ended_events p c) <> [] <-> negb (bool_decide (kinds (ended_events p c) = [])) = true) as ->
    by (by rewrite negb_true_iff, bool_decide_eq_false).
  split.
  { repeat (apply when_NoDup_app; [rewrite ?elem_of_app, !elem_of_when; intuition discriminate|]).
    rewrite <- (app_nil_r (when _ listing_ended)). apply when_NoDup_app; [apply not_elem_of_nil|constructor]. }
  rewrite !elem_of_app, !elem_of_when. repeat split; intuition (discriminate || auto).
Qed.

Definition seen (at_ : Z) (price : string) (quantity : Z) : ObservationSnapshot :=
  {| os_observedAt := at_; os_price := Some price; os_currency := None; os_quantityAvailable := Some quantity;
     os_availability := None; os_listingState := Some "active"%string |}.
Lemma comparison_exact_witness :
  exists es, compareObservations (seen 0 "10.00" 3) (seen 1 "9.5" 0) = Ok es
    /\ kinds es = [price_changed; price_dropped; quantity_changed; sold_out] /\ NoDup (kinds es).
Proof.
  destruct (compareObservations (seen 0 "10.00" 3) (seen 1 "9.5" 0)) as [es|e] eqn:E; [|by vm_compute in E].
  exists es. split; [done|]. split; [vm_compute in E; by injection E as <-|].
  exact (proj1 (comparison_exact (seen 0 "10.00" 3) (seen 1 "9.5" 0) es E)).
Defined.
