(* ===== verification/Observations.v ===== *)
(** * Observations and discovered identities

    [packages/market/src/observations.ts] and [discovery.ts]: the idempotent
    observation batch, the canonical item, the discovery link and its
    deactivation, the diff of a fetched page, and the [new_listing] event of a
    first discovery. *)
From S2P Require Import Prelude Decimal DecimalPackages Inputs Config Store Schema Ledger Stock.
From S2P Require Import PostingEngine MarketTables Monitors Polls MarketEvents.
#[global] Set Default Goal Selector "!".

Open Scope Z_scope.
#[local] Arguments String.append : simpl nomatch.

(** ** The batch *)
Record ObservationItemInput : Type := {
  oi_marketplaceItemId : uuid;
  oi_currency : option string;
  oi_price : option string;
  oi_shippingPrice : option string;
  oi_quantityAvailable : option Z;
  oi_quantitySold : option Z;
  oi_availability : option string;
  oi_listingState : option string;
  oi_watchCount : option Z;
  oi_sellerFeedbackScore : option Z;
  oi_sellerFeedbackPct : option string;
  oi_listingEndsAt : option Z;
  oi_rawStateHash : option string;
}.
Record ObservationBatchInput : Type := {
  bt_observationBatchId : uuid;
  bt_observedAt : Z;
  bt_connectionId : option uuid;
  bt_source : string;
  bt_items : list ObservationItemInput;
}.

Definition count_ok (z : Z) : bool := (0 <=? z) && isSafeInteger z.
Definition observationItemSchema (i : ObservationItemInput) : bool :=
  opt_all (fun s => (String.length s =? 3)%nat) (oi_currency i) && opt_all isDecimalString (oi_price i)
  && opt_all isDecimalString (oi_shippingPrice i) && opt_all count_ok (oi_quantityAvailable i)
  && opt_all count_ok (oi_quantitySold i) && opt_all nonempty (oi_availability i)
  && opt_all nonempty (oi_listingState i) && opt_all count_ok (oi_watchCount i)
  && opt_all isSafeInteger (oi_sellerFeedbackScore i) && opt_all isDecimalString (oi_sellerFeedbackPct i)
  && opt_all nonempty (oi_rawStateHash i).
Definition observationBatchSchema (b : ObservationBatchInput) : result unit :=
  zod (nonempty (bt_source b) && forallb observationItemSchema (bt_items b)).

Definition int_column (o : option Z) : result (option Z) :=
  z_opt (fun z => if int4 z then mret z else Throw (SqlError "22003")) o.

Definition observation_row (b : ObservationBatchInput) (i : ObservationItemInput) : result ObservationRow :=
  price ← z_opt money_column (oi_price i);
  shipping ← z_opt money_column (oi_shippingPrice i);
  available ← int_column (oi_quantityAvailable i);
  sold ← int_column (oi_quantitySold i);
  watchers ← int_column (oi_watchCount i);
  pct ← z_opt (sql_numeric 10 6) (oi_sellerFeedbackPct i);
  mret {| ob_marketplaceItemId := oi_marketplaceItemId i; ob_observedAt := bt_observedAt b;
          ob_observationBatchId := bt_observationBatchId b; ob_connectionId := bt_connectionId b;
          ob_source := bt_source b; ob_currency := oi_currency i; ob_price := price; ob_shippingPrice := shipping;
          ob_quantityAvailable := available; ob_quantitySold := sold; ob_availability := oi_availability i;
          ob_listingState := oi_listingState i; ob_watchCount := watchers;
          ob_sellerFeedbackScore := oi_sellerFeedbackScore i; ob_sellerFeedbackPct := pct;
          ob_listingEndsAt := oi_listingEndsAt i; ob_rawStateHash := oi_rawStateHash i |}.

(** The retry identity of an observation. *)
Definition identity (o : ObservationRow) : uuid * uuid * Z :=
  (ob_observationBatchId o, ob_marketplaceItemId o, ob_observedAt o).

(** [on conflict (observation_batch_id, marketplace_item_id, observed_at) do nothing], row by row. *)
Fixpoint fresh_rows (rows stored : list ObservationRow) : list ObservationRow :=
  match rows with
  | [] => []
  | r :: rows =>
      if bool_decide (identity r ∈ identity <$> stored) then fresh_rows rows stored
      else r :: fresh_rows rows (stored ++ [r])
  end.

Definition recordObservationBatch (b : ObservationBatchInput) : mrun Z :=
  _ ← st_lift (observationBatchSchema b);
  rows ← st_lift (res_mapM (observation_row b) (bt_items b));
  s ← st_get;
  let fresh := fresh_rows rows (mk_observations s) in
  _ ← st_modify (fun s => put_observations (mk_observations s ++ fresh) s);
  mret (Z.of_nat (length fresh)).

(** [order by observed_at desc limit n] *)
Definition later_observation (r q : ObservationRow) : bool := ob_observedAt q <=? ob_observedAt r.
Definition observations_of (item : uuid) (rows : list ObservationRow) : list ObservationRow :=
  List.filter (fun o => bool_decide (ob_marketplaceItemId o = item)) rows.
Definition latestObservations (marketplaceItemId : uuid) (n : Z) : mrun (list ObservationRow) :=
  _ ← st_lift (throw_if (negb (isSafeInteger n) || (n <? 1)) MarketValidationError);
  st_gets (fun s => take (Z.to_nat n) (sort_with later_observation (observations_of marketplaceItemId (mk_observations s)))).

(** *** The watched items, ordered *)
Record WatchedItemIdsOptions : Type := {
  wo_allowedItemIds : option (list uuid);
  wo_lastObserved : bool;
  wo_ascending : bool;
}.
Definition last_observed (s : Market) (item : uuid) : option Z :=
  ob_observedAt <$> head (sort_with later_observation (observations_of item (mk_observations s))).
Definition seen_before (r q : MarketplaceItemRow) : bool := mi_lastSeenAt q <=? mi_lastSeenAt r.
(** [order by lo.observed_at dir nulls last, mi.id asc] *)
Definition observed_order (s : Market) (ascending : bool) (r q : MarketplaceItemRow) : bool :=
  let by_id := (mi_id r <=? mi_id q)%positive in
  match last_observed s (mi_id r), last_observed s (mi_id q) with
  | Some a, Some b => (if ascending then a <? b else b <? a) || ((a =? b) && by_id)
  | Some _, None => true
  | None, Some _ => false
  | None, None => by_id
  end.
Definition listWatchedItemIds (o : WatchedItemIdsOptions) : mrun (list uuid) :=
  match wo_allowedItemIds o with
  | Some [] => mret []
  | allowed =>
      st_gets (fun s =>
        let items := List.filter (fun i => match allowed with None => true | Some ids => bool_decide (mi_id i ∈ ids) end)
                       (mk_items s) in
        mi_id <$> sort_with (if wo_lastObserved o then observed_order s (wo_ascending o) else seen_before) items)
  end.

(** ** The canonical item *)
Record MarketplaceItemInput : Type := {
  im_provider : string;
  im_marketplace : string;
  im_externalItemId : string;
  im_seenAt : Z;
  im_currentState : option string;
  im_sellerExternalId : option string;
  im_canonicalUrl : option string;
  im_title : option string;
  im_conditionCode : option string;
  im_categoryExternalId : option string;
  im_listingType : option string;
  im_listingStartedAt : option Z;
  im_listingEndsAt : option Z;
}.
Definition marketplaceItemInputSchema (i : MarketplaceItemInput) : result unit :=
  zod (nonempty (im_provider i) && nonempty (im_marketplace i) && nonempty (im_externalItemId i)
       && opt_all nonempty (im_currentState i) && opt_all nonempty (im_sellerExternalId i)
       && opt_all nonempty (im_canonicalUrl i) && opt_all nonempty (im_title i)
       && opt_all nonempty (im_conditionCode i) && opt_all nonempty (im_categoryExternalId i)
       && opt_all nonempty (im_listingType i)).
Definition item_texts (i : MarketplaceItemInput) : list string :=
  [im_provider i; im_marketplace i; im_externalItemId i; default "active"%string (im_currentState i)]
  ++ omap id [im_sellerExternalId i; im_canonicalUrl i; im_title i; im_conditionCode i; im_categoryExternalId i;
              im_listingType i].

Definition same_identity (i : MarketplaceItemInput) (r : MarketplaceItemRow) : bool :=
  String.eqb (mi_provider r) (im_provider i) && String.eqb (mi_marketplace r) (im_marketplace i)
  && String.eqb (mi_externalItemId r) (im_externalItemId i).

Definition item_values (i : MarketplaceItemInput) (id : uuid) (now : Z) : MarketplaceItemRow :=
  {| mi_id := id; mi_provider := im_provider i; mi_marketplace := im_marketplace i;
     mi_externalItemId := im_externalItemId i; mi_sellerExternalId := im_sellerExternalId i;
     mi_canonicalUrl := im_canonicalUrl i; mi_title := im_title i; mi_conditionCode := im_conditionCode i;
     mi_categoryExternalId := im_categoryExternalId i; mi_listingType := im_listingType i;
     mi_listingStartedAt := im_listingStartedAt i; mi_listingEndsAt := im_listingEndsAt i;
     mi_firstSeenAt := im_seenAt i; mi_lastSeenAt := im_seenAt i;
     mi_currentState := default "active"%string (im_currentState i); mi_createdAt := now; mi_updatedAt := now |}.

Definition coalesce {A} (a b : option A) : option A := match a with Some _ => a | None => b end.
Definition seen_again (i : MarketplaceItemInput) (now : Z) (r : MarketplaceItemRow) : MarketplaceItemRow :=
  {| mi_id := mi_id r; mi_provider := mi_provider r; mi_marketplace := mi_marketplace r;
     mi_externalItemId := mi_externalItemId r;
     mi_sellerExternalId := coalesce (im_sellerExternalId i) (mi_sellerExternalId r);
     mi_canonicalUrl := coalesce (im_canonicalUrl i) (mi_canonicalUrl r);
     mi_title := coalesce (im_title i) (mi_title r);
     mi_conditionCode := coalesce (im_conditionCode i) (mi_conditionCode r);
     mi_categoryExternalId := coalesce (im_categoryExternalId i) (mi_categoryExternalId r);
     mi_listingType := coalesce (im_listingType i) (mi_listingType r);
     mi_listingStartedAt := coalesce (im_listingStartedAt i) (mi_listingStartedAt r);
     mi_listingEndsAt := coalesce (im_listingEndsAt i) (mi_listingEndsAt r);
     mi_firstSeenAt := Z.min (mi_firstSeenAt r) (im_seenAt i); mi_lastSeenAt := Z.max (mi_lastSeenAt r) (im_seenAt i);
     mi_currentState := default "active"%string (im_currentState i); mi_createdAt := mi_createdAt r;
     mi_updatedAt := now |}.

Definition upsertMarketplaceItem (i : MarketplaceItemInput) : mrun MarketplaceItemRow :=
  _ ← st_lift (marketplaceItemInputSchema i);
  _ ← st_lift (res_mapM market_text (item_texts i));
  id ← market_uuid;
  s ← st_get;
  match find_row (same_identity i) (mk_items s) with
  | Some r =>
      _ ← st_modify (fun s => put_items (update_rows (same_identity i) (seen_again i (mk_now s)) (mk_items s)) s);
      mret (seen_again i (mk_now s) r)
  | None =>
      let row := item_values i id (mk_now s) in
      _ ← demand (negb (exists_id mi_id id (mk_items s))) (UniqueViolation "marketplace_items_pkey");
      _ ← st_modify (fun s => put_items (mk_items s ++ [row]) s);
      mret row
  end.

(** ** The discovery link *)
Definition is_link (targetId item : uuid) (l : MonitorItemRow) : bool :=
  bool_decide (ml_monitorTargetId l = targetId) && bool_decide (ml_marketplaceItemId l = item).
Definition matched_again (at_ : Z) (l : MonitorItemRow) : MonitorItemRow :=
  {| ml_monitorTargetId := ml_monitorTargetId l; ml_marketplaceItemId := ml_marketplaceItemId l;
     ml_firstDiscoveredAt := ml_firstDiscoveredAt l; ml_lastMatchedAt := Z.max (ml_lastMatchedAt l) at_;
     ml_active := true |}.

Definition linkItemToMonitor (monitorTargetId marketplaceItemId : uuid) (at_ : option Z) : mrun unit :=
  s ← st_get;
  let t := default (mk_now s) at_ in
  if existsb (is_link monitorTargetId marketplaceItemId) (mk_links s)
  then st_modify (fun s => put_links (update_rows (is_link monitorTargetId marketplaceItemId) (matched_again t) (mk_links s)) s)
  else
    _ ← demand (exists_id mt_id monitorTargetId (mk_targets s) && exists_id mi_id marketplaceItemId (mk_items s))
          foreign_key_violation;
    st_modify (fun s => put_links (mk_links s ++
      [{| ml_monitorTargetId := monitorTargetId; ml_marketplaceItemId := marketplaceItemId;
          ml_firstDiscoveredAt := t; ml_lastMatchedAt := t; ml_active := true |}]) s).

Definition absent (monitorTargetId : uuid) (present : list uuid) (at_ : Z) (l : MonitorItemRow) : bool :=
  bool_decide (ml_monitorTargetId l = monitorTargetId) && ml_active l && (ml_lastMatchedAt l <? at_)
  && negb (bool_decide (ml_marketplaceItemId l ∈ present)).
Definition deactivated (l : MonitorItemRow) : MonitorItemRow :=
  {| ml_monitorTargetId := ml_monitorTargetId l; ml_marketplaceItemId := ml_marketplaceItemId l;
     ml_firstDiscoveredAt := ml_firstDiscoveredAt l; ml_lastMatchedAt := ml_lastMatchedAt l; ml_active := false |}.
Definition deactivateAbsentMonitorItems (monitorTargetId : uuid) (present : list uuid) (at_ : option Z) : mrun Z :=
  s ← st_get;
  let gone := absent monitorTargetId present (default (mk_now s) at_) in
  _ ← st_modify (fun s => put_links (update_rows gone deactivated (mk_links s)) s);
  mret (Z.of_nat (length (List.filter gone (mk_links s)))).

(** ** [discovery.ts] *)
Section diff.
Context {T : Type} (externalItemId : T -> string).

Fixpoint diff_loop (known : list string) (fetched : list T) : result (list T * list T) :=
  match fetched with
  | [] => mret ([], [])
  | summary :: fetched =>
      let id := externalItemId summary in
      if String.eqb id "" then Throw MarketValidationError
      else if bool_decide (id ∈ known)
      then r ← diff_loop known fetched; mret (fst r, summary :: snd r)
      else r ← diff_loop (id :: known) fetched; mret (summary :: fst r, snd r)
  end.
Definition diffDiscoveredItems (knownExternalIds : list string) (fetchedSummaries : list T)
    : result (list T * list T) := diff_loop knownExternalIds fetchedSummaries.
End diff.

Definition knownExternalItemIds (provider marketplace : string) (externalItemIds : list string) : mrun (list string) :=
  match externalItemIds with
  | [] => mret []
  | _ =>
      _ ← st_lift (res_mapM market_text (provider :: marketplace :: externalItemIds));
      st_gets (fun s => mi_externalItemId <$>
        List.filter (fun i => String.eqb (mi_provider i) provider && String.eqb (mi_marketplace i) marketplace
                              && bool_decide (mi_externalItemId i ∈ externalItemIds)) (mk_items s))
  end.

Record NewlyLinkedItem : Type := {
  nl_marketplaceItemId : uuid;
  nl_externalItemId : option string;
  nl_title : option string;
  nl_price : option string;
  nl_currency : option string;
  nl_canonicalUrl : option string;
  nl_sellerExternalId : option string;
  nl_listingEndsAt : option Z;
}.

Definition text_member (key : string) (value : option string) : list (string * jsonb) :=
  match value with Some s => [(key, BText s)] | None => [] end.
Definition payloadFor (item : NewlyLinkedItem) (monitorTargetId : uuid) : list (string * jsonb) :=
  [("discoveredByMonitorTargetId"%string, BText (uuid_text monitorTargetId))]
   ++ text_member "externalItemId" (nl_externalItemId item) ++ text_member "title" (nl_title item)
   ++ text_member "price" (nl_price item) ++ text_member "currency" (nl_currency item)
   ++ text_member "canonicalUrl" (nl_canonicalUrl item)
   ++ text_member "sellerExternalId" (nl_sellerExternalId item)
   ++ text_member "listingEndsAt" (toISOString <$> nl_listingEndsAt item).

(** The first of the items of each id, in the order given. *)
Fixpoint by_item_id (seen : list uuid) (items : list NewlyLinkedItem) : list NewlyLinkedItem :=
  match items with
  | [] => []
  | i :: items =>
      if bool_decide (nl_marketplaceItemId i ∈ seen) then by_item_id seen items
      else i :: by_item_id (nl_marketplaceItemId i :: seen) items
  end.

(** [min(first_discovered_at)] over every monitor's link of the item. *)
Definition global_first (item : uuid) (links : list MonitorItemRow) : option Z :=
  min_opt (ml_firstDiscoveredAt <$> List.filter (fun l => bool_decide (ml_marketplaceItemId l = item)) links).

Definition new_listing_values (monitorTargetId : uuid) (detectedAt first : Z) (item : NewlyLinkedItem) (id : uuid)
    : MarketEventRow :=
  {| me_id := id; me_marketplaceItemId := nl_marketplaceItemId item; me_monitorTargetId := Some monitorTargetId;
     me_eventType := new_listing; me_detectedAt := detectedAt; me_fromObservedAt := None; me_toObservedAt := first;
     me_payload := BObject (set_member "firstDiscoveredAt" (BText (toISOString first)) (payloadFor item monitorTargetId));
     me_ruleId := None;
     me_deduplicationKey := deduplicationKeyFor (nl_marketplaceItemId item) new_listing first |}.

(** The join and the predicate of the statement. *)
Definition candidate_values (s : Market) (monitorTargetId : uuid) (detectedAt : Z) (item : NewlyLinkedItem)
    : list (uuid -> MarketEventRow) :=
  match find_row (is_link monitorTargetId (nl_marketplaceItemId item)) (mk_links s) with
  | Some mine =>
      match global_first (nl_marketplaceItemId item) (mk_links s) with
      | Some first => if ml_firstDiscoveredAt mine =? first
                      then [new_listing_values monitorTargetId detectedAt first item] else []
      | None => []
      end
  | None => []
  end.

Definition timeline_order (r q : MarketEventRow) : bool :=
  (me_toObservedAt r <? me_toObservedAt q)
  || ((me_toObservedAt r =? me_toObservedAt q) && (me_id r <=? me_id q)%positive).

Definition deriveNewListingEvents (monitorTargetId : uuid) (newlyLinkedItems : list NewlyLinkedItem)
    (detectedAt : option Z) : mrun (list MarketEventRow * list uuid) :=
  match newlyLinkedItems with
  | [] => mret ([], [])
  | _ =>
      s ← st_get;
      let items := by_item_id [] newlyLinkedItems in
      inserted ← insertEvents (items ≫= candidate_values s monitorTargetId (default (mk_now s) detectedAt));
      let ids := me_marketplaceItemId <$> inserted in
      mret (sort_with timeline_order inserted,
            List.filter (fun i => negb (bool_decide (i ∈ ids))) (nl_marketplaceItemId <$> items))
  end.
