(* ===== verification/Opportunities.v ===== *)
(** * Opportunity rules: [market/src/opportunities.ts]

    The closed grammar of conditions over an event and the two observations it
    was derived from, the evaluation of a rule with its score and reasons, the
    stamp that attributes an event to its first matching rule, and the service
    over [opportunity_rules].  The issues of an invalid condition are not kept. *)
From S2P Require Import DnsStore.
From S2P Require Import Prelude Decimal Inputs Store Schema Ledger Json Facts PostingEngine Stock Config.
From S2P Require Import Adaptive MarketTables Monitors Polls MarketEvents Observations.
#[global] Set Default Goal Selector "!".

Open Scope Z_scope.
#[local] Arguments String.append : simpl nomatch.

Definition OPPORTUNITY_PAYLOAD_KEY : string := "opportunity".
Definition SCORE_SCALE : nat := 4.
Definition SCORE_UNIT : Z := 10000.
Definition PRICE_SCALE : nat := 12.

Definition MARKET_EVENT_TYPES : list MarketEventType :=
  [price_changed; price_dropped; restocked; sold_out; quantity_changed; listing_ended; new_listing].
Definition event_of_text (s : string) : option MarketEventType :=
  List.find (fun t => String.eqb (event_text t) s) MARKET_EVENT_TYPES.

(** [/^\d{1,6}(\.\d{1,4})?$/] *)
Definition scoreWeightSchema (s : string) : bool :=
  let '(w, rest) := span_digits s in
  ((1 <=? String.length w) && (String.length w <=? 6))%nat
  && match rest with
     | EmptyString => true
     | String c f => (c =? ".")%char && Js.all_digits f && ((1 <=? String.length f) && (String.length f <=? 4))%nat
     end.

(** ** The grammar *)
Record PriceConditions : Type := {
  pc_maxPrice : option string;
  pc_minDropAmount : option string;
  pc_minDropPercent : option Q;
}.
Record QuantityConditions : Type := {
  qc_minAvailable : option Z;
  qc_maxAvailable : option Z;
  qc_minIncrease : option Z;
}.
Record ListingConditions : Type := {
  lc_stateIn : option (list string);
  lc_stateNotIn : option (list string);
  lc_availabilityIn : option (list string);
  lc_transitionedTo : option string;
}.
Record ScopeConditions : Type := {
  sc_monitorTargetIds : option (list string);
  sc_marketplaceItemIds : option (list string);
}.
Record OpportunityConditions : Type := {
  oc_eventTypes : option (list MarketEventType);
  oc_price : option PriceConditions;
  oc_quantity : option QuantityConditions;
  oc_listing : option ListingConditions;
  oc_scope : option ScopeConditions;
}.

(** [.refine((group) => Object.keys(group).length > 0)] *)
Definition declares (j : jsonb) : bool := match j with BObject (_ :: _) => true | _ => false end.
Definition nonEmptyStrings : jsonb -> bool := array_of min1.
(** [z.number().gt(0).lte(100)] *)
Definition percent (j : jsonb) : bool := match j with BNum q => lt_bool 0 q && Qle_bool q 100 | _ => false end.

Definition priceConditionsSchema (j : jsonb) : bool := strictObject
  [optional "maxPrice" decimalString; optional "minDropAmount" decimalString;
   optional "minDropPercent" percent] j && declares j.
Definition quantityConditionsSchema (j : jsonb) : bool := strictObject
  [optional "minAvailable" (int_within 0 None); optional "maxAvailable" (int_within 0 None);
   optional "minIncrease" (int_within 1 None)] j && declares j.
Definition listingConditionsSchema (j : jsonb) : bool := strictObject
  [optional "stateIn" nonEmptyStrings; optional "stateNotIn" nonEmptyStrings;
   optional "availabilityIn" nonEmptyStrings; optional "transitionedTo" min1] j && declares j.

Section formats.
Context (formats : Formats).

Definition scopeConditionsSchema (j : jsonb) : bool := strictObject
  [optional "monitorTargetIds" (array_of (text_with (uuid_shape formats)));
   optional "marketplaceItemIds" (array_of (text_with (uuid_shape formats)))] j && declares j.

(** [new Set(conditions.eventTypes).size === conditions.eventTypes.length] *)
Definition unrepeated (j : jsonb) : bool :=
  match member "eventTypes" j with
  | Some (BArray items) => bool_decide (NoDup (omap text_of items))
  | _ => true
  end.

Definition opportunityConditionsSchema (j : jsonb) : bool := strictObject
  [optional "eventTypes" (array_of (z_enum (event_text <$> MARKET_EVENT_TYPES)));
   optional "price" priceConditionsSchema; optional "quantity" quantityConditionsSchema;
   optional "listing" listingConditionsSchema; optional "scope" scopeConditionsSchema] j
  && declares j && unrepeated j.
End formats.

(** *** What a valid value declares *)
Definition text_member_of (key : string) (j : jsonb) : option string := v ← member key j; text_of v.
Definition int_member_of (key : string) (j : jsonb) : option Z := v ← member key j; z_int v.
Definition number_member_of (key : string) (j : jsonb) : option Q :=
  v ← member key j; match v with BNum q => Some q | _ => None end.
Definition texts_member_of (key : string) (j : jsonb) : option (list string) :=
  v ← member key j; match v with BArray items => Some (omap text_of items) | _ => None end.

Definition price_of (j : jsonb) : PriceConditions :=
  {| pc_maxPrice := text_member_of "maxPrice" j; pc_minDropAmount := text_member_of "minDropAmount" j;
     pc_minDropPercent := number_member_of "minDropPercent" j |}.
Definition quantity_of (j : jsonb) : QuantityConditions :=
  {| qc_minAvailable := int_member_of "minAvailable" j; qc_maxAvailable := int_member_of "maxAvailable" j;
     qc_minIncrease := int_member_of "minIncrease" j |}.
Definition listing_of (j : jsonb) : ListingConditions :=
  {| lc_stateIn := texts_member_of "stateIn" j; lc_stateNotIn := texts_member_of "stateNotIn" j;
     lc_availabilityIn := texts_member_of "availabilityIn" j; lc_transitionedTo := text_member_of "transitionedTo" j |}.
Definition scope_of (j : jsonb) : ScopeConditions :=
  {| sc_monitorTargetIds := texts_member_of "monitorTargetIds" j;
     sc_marketplaceItemIds := texts_member_of "marketplaceItemIds" j |}.
Definition event_types (texts : list string) : list MarketEventType := omap event_of_text texts.
Definition conditions_of (j : jsonb) : OpportunityConditions :=
  {| oc_eventTypes := event_types <$> texts_member_of "eventTypes" j; oc_price := price_of <$> member "price" j;
     oc_quantity := quantity_of <$> member "quantity" j; oc_listing := listing_of <$> member "listing" j;
     oc_scope := scope_of <$> member "scope" j |}.

(** ** Exact decimals *)

(** More fraction digits than the working scale are cut off. *)
Definition toScaled (value : option string) (sc : nat) : option Z :=
  v ← value;
  match decimal_parts v with
  | Throw _ => None
  | Ok p =>
      let frac := if (sc <? String.length (dp_frac p))%nat then Js.slice 0 sc (dp_frac p) else pad_end sc (dp_frac p) in
      let magnitude := Js.bigint (String.append (dp_int p) frac) in
      Some (if dp_negative p then - magnitude else magnitude)
  end.

(** [s.replace(/0+$/, "")] *)
Fixpoint trim_zeros (s : string) : string :=
  match s with
  | EmptyString => EmptyString
  | String c rest =>
      let t := trim_zeros rest in
      if (c =? "0")%char && String.eqb t "" then EmptyString else String c t
  end.

Definition fromScaled (value : Z) (sc : nat) : string :=
  let negative := value <? 0 in
  let digits := Js.pad_start (sc + 1) "0" (Js.bigint_to_string (if negative then - value else value)) in
  let int := Js.slice 0 (String.length digits - sc) digits in
  let frac := trim_zeros (Js.slice_from (String.length digits - sc) digits) in
  let body := if String.eqb frac "" then int else concat_text [int; "."%string; frac] in
  if negative then String.append "-" body else body.

(** ** [String(n)] of a positive number below [10 ^ 21]

    Every number of JavaScript has finitely many decimals; [places] counts
    them, with more fuel than a denominator can need. *)
Fixpoint places (fuel : nat) (q : Q) : nat :=
  match fuel with
  | O => O
  | S fuel => if integer_of q then O else S (places fuel (q * 10))
  end.

Definition number_text (q : Q) : string :=
  let k := places (Pos.size_nat (Qden q)) q in
  let s := Js.bigint_to_string (Qfloor (q * inject_Z (pow10 k))) in
  let n := Z.of_nat (String.length s) - Z.of_nat k in
  if (k =? 0)%nat then s
  else if 0 <? n then concat_text [Js.slice 0 (Z.to_nat n) s; "."%string; Js.slice_from (Z.to_nat n) s]
  else if -6 <? n then concat_text ["0."%string; Js.repeat_char (Z.to_nat (- n)) "0"; s]
  else concat_text
    [Js.slice 0 1 s; if (1 <? String.length s)%nat then String.append "." (Js.slice_from 1 s) else ""%string;
     "e-"%string; Js.bigint_to_string (1 - n)].

Example number_texts : number_text <$> [100; 25 # 2; 1 # 10; 1 # 100000; 125 # 1000000000]%Q =
  ["100"; "12.5"; "0.1"; "0.00001"; "1.25e-7"]%string.
Proof. vm_compute. reflexivity. Qed.

(** ** Evaluation *)
Record OpportunityEventContext : Type := {
  ec_eventType : string;
  ec_marketplaceItemId : uuid;
  ec_monitorTargetId : option uuid;
}.
Record OpportunityContext : Type := {
  cx_event : OpportunityEventContext;
  cx_currentObservation : option ObservationSnapshot;
  cx_previousObservation : option ObservationSnapshot;
}.
Record PredicateResult : Type := {
  pr_label : string;
  pr_satisfied : bool;
  pr_detail : string;
  (** In units of [SCORE_UNIT]. *)
  pr_contribution : Z;
}.
Definition graded (label : string) (satisfied : bool) (detail : string) (contribution : Z) : PredicateResult :=
  {| pr_label := label; pr_satisfied := satisfied; pr_detail := detail; pr_contribution := contribution |}.
Definition predicate (label : string) (satisfied : bool) (detail : string) : PredicateResult :=
  graded label satisfied detail SCORE_UNIT.

Definition inSet (value : option string) (set : list string) : bool :=
  match value with Some v => bool_decide (v ∈ set) | None => false end.
Definition shown (set : list string) : string := concat_text ["["; String.concat ", " set; "]"]%string.

(** The predicate of a declared condition. *)
Definition when_given {A} (given : option A) (f : A -> PredicateResult) : list PredicateResult :=
  match given with Some a => [f a] | None => [] end.

Definition event_predicates (c : OpportunityConditions) (e : OpportunityEventContext) : list PredicateResult :=
  when_given (oc_eventTypes c) (fun set =>
    predicate "eventTypes" (bool_decide (ec_eventType e ∈ event_text <$> set))
      (concat_text [ec_eventType e; " vs "; shown (event_text <$> set)])).

Definition max_price (current : option Z) (maxPrice : string) : PredicateResult :=
  match current, toScaled (Some maxPrice) PRICE_SCALE with
  | Some c, Some threshold =>
      predicate "price.maxPrice" (c <=? threshold) (concat_text [fromScaled c PRICE_SCALE; " <= "; maxPrice])
  | _, _ => predicate "price.maxPrice" false "current price is unknown"
  end.
Definition min_drop_amount (current previous : option Z) (amount : string) : PredicateResult :=
  match current, previous, toScaled (Some amount) PRICE_SCALE with
  | Some c, Some p, Some threshold =>
      predicate "price.minDropAmount" (threshold <=? p - c)
        (concat_text ["drop "; fromScaled (p - c) PRICE_SCALE; " >= "; amount])
  | _, _, _ => predicate "price.minDropAmount" false "both observations must carry a price"
  end.
Definition percent_scaled (previous current : Z) : Z := Z.quot ((previous - current) * 100 * 1000000) previous.
Definition drop_bonus (percentScaled : Z) : Z :=
  let cappedPercent := if 100000000 <? percentScaled then 100000000 else percentScaled in
  if cappedPercent <? 0 then 0 else Z.quot cappedPercent 10000.
Definition min_drop_percent (current previous : option Z) (threshold : Q) : PredicateResult :=
  match current, previous with
  | Some c, Some p =>
      if p <=? 0 then predicate "price.minDropPercent" false "previous price is not positive"
      else
        let percentScaled := percent_scaled p c in
        graded "price.minDropPercent" (Adaptive.round (threshold * 1000000) <=? percentScaled)
          (concat_text [fromScaled percentScaled 6; "% >= "; number_text threshold; "%"])
          (SCORE_UNIT + drop_bonus percentScaled)
  | _, _ => predicate "price.minDropPercent" false "both observations must carry a price"
  end.
Definition price_predicates (g : PriceConditions) (current previous : option Z) : list PredicateResult :=
  when_given (pc_maxPrice g) (max_price current)
  ++ when_given (pc_minDropAmount g) (min_drop_amount current previous)
  ++ when_given (pc_minDropPercent g) (min_drop_percent current previous).

Definition int_text (z : Z) : string :=
  if z <? 0 then String.append "-" (Js.bigint_to_string (- z)) else Js.bigint_to_string z.
Definition quantity_predicates (g : QuantityConditions) (current previous : option Z) : list PredicateResult :=
  when_given (qc_minAvailable g) (fun n =>
    match current with
    | Some c => predicate "quantity.minAvailable" (n <=? c) (concat_text [int_text c; " >= "; int_text n])
    | None => predicate "quantity.minAvailable" false "current quantity is unknown"
    end)
  ++ when_given (qc_maxAvailable g) (fun n =>
    match current with
    | Some c => predicate "quantity.maxAvailable" (c <=? n) (concat_text [int_text c; " <= "; int_text n])
    | None => predicate "quantity.maxAvailable" false "current quantity is unknown"
    end)
  ++ when_given (qc_minIncrease g) (fun n =>
    match current, previous with
    | Some c, Some p =>
        predicate "quantity.minIncrease" (n <=? c - p)
          (concat_text ["increase "; int_text (c - p); " >= "; int_text n])
    | _, _ => predicate "quantity.minIncrease" false "both observations must carry a quantity"
    end).

Definition listing_predicates (g : ListingConditions) (state previousState availability : option string)
    : list PredicateResult :=
  when_given (lc_stateIn g) (fun set =>
    predicate "listing.stateIn" (inSet state set) (concat_text [default "unknown"%string state; " vs "; shown set]))
  ++ when_given (lc_stateNotIn g) (fun set =>
    match state with
    | Some s => predicate "listing.stateNotIn" (negb (bool_decide (s ∈ set))) (concat_text [s; " not in "; shown set])
    | None => predicate "listing.stateNotIn" false "current listing state is unknown"
    end)
  ++ when_given (lc_availabilityIn g) (fun set =>
    predicate "listing.availabilityIn" (inSet availability set)
      (concat_text [default "unknown"%string availability; " vs "; shown set]))
  ++ when_given (lc_transitionedTo g) (fun target =>
    match state, previousState with
    | Some s, Some p =>
        predicate "listing.transitionedTo" (negb (String.eqb p target) && String.eqb s target)
          (concat_text [p; " -> "; s; " (target "; target; ")"]%string)
    | _, _ => predicate "listing.transitionedTo" false "both observations must carry a listing state"
    end).

Definition id_count (ids : list string) : string :=
  concat_text [Js.bigint_to_string (Z.of_nat (length ids)); " id(s)"%string].
Definition scope_predicates (g : ScopeConditions) (e : OpportunityEventContext) : list PredicateResult :=
  when_given (sc_monitorTargetIds g) (fun ids =>
    let value := uuid_text <$> ec_monitorTargetId e in
    predicate "scope.monitorTargetIds" (inSet value ids)
      (concat_text [default "unattributed"%string value; " vs "; id_count ids]))
  ++ when_given (sc_marketplaceItemIds g) (fun ids =>
    let value := uuid_text (ec_marketplaceItemId e) in
    predicate "scope.marketplaceItemIds" (inSet (Some value) ids) (concat_text [value; " vs "; id_count ids])).

Definition of_group {A} (group : option A) (f : A -> list PredicateResult) : list PredicateResult :=
  match group with Some g => f g | None => [] end.

Definition evaluatePredicates (c : OpportunityConditions) (cx : OpportunityContext) : list PredicateResult :=
  let current := cx_currentObservation cx in
  let previous := cx_previousObservation cx in
  let price o := toScaled (s ← o; os_price s) PRICE_SCALE in
  event_predicates c (cx_event cx)
  ++ of_group (oc_price c) (fun g => price_predicates g (price current) (price previous))
  ++ of_group (oc_quantity c) (fun g =>
       quantity_predicates g (s ← current; os_quantityAvailable s) (s ← previous; os_quantityAvailable s))
  ++ of_group (oc_listing c) (fun g =>
       listing_predicates g (s ← current; os_listingState s) (s ← previous; os_listingState s)
         (s ← current; os_availability s))
  ++ of_group (oc_scope c) (fun g => scope_predicates g (cx_event cx)).

Definition roundToScoreScale (productScaled : Z) : Z := Z.quot (productScaled + SCORE_UNIT / 2) SCORE_UNIT.

Record OpportunityRuleDefinition : Type := {
  rd_id : uuid;
  rd_name : string;
  rd_priority : Z;
  rd_conditions : jsonb;
  rd_scoreWeight : string;
}.
Record OpportunityEvaluation : Type := { ev_matched : bool; ev_score : Q; ev_reasons : list string }.
Definition unmatched (reasons : list string) : OpportunityEvaluation :=
  {| ev_matched := false; ev_score := 0; ev_reasons := reasons |}.
Definition reason_of (r : PredicateResult) : string := concat_text [pr_label r; ": "%string; pr_detail r].

Definition evaluateRule (formats : Formats) (rule : OpportunityRuleDefinition) (cx : OpportunityContext)
    : OpportunityEvaluation :=
  if negb (opportunityConditionsSchema formats (rd_conditions rule)) then unmatched ["invalid conditions"%string]
  else if negb (scoreWeightSchema (rd_scoreWeight rule)) then 
    unmatched [concat_text ["invalid score_weight: "%string; String dquote (rd_scoreWeight rule); String dquote ""]]
  else
    let results := evaluatePredicates (conditions_of (rd_conditions rule)) cx in
    let failed := List.filter (fun r => negb (pr_satisfied r)) results in
    match failed with
    | _ :: _ => unmatched (reason_of <$> failed)
    | [] =>
        let contributions := sumZ (pr_contribution <$> results) in
        let weightScaled := default 0 (toScaled (Some (rd_scoreWeight rule)) SCORE_SCALE) in
        {| ev_matched := true; ev_score := roundToScoreScale (weightScaled * contributions) # 10000;
           ev_reasons := reason_of <$> results |}
    end.

(** ** [opportunity_rules] *)
Definition is_rule (id : uuid) (r : OpportunityRuleRow) : bool := bool_decide (or_id r = id).
Definition evaluation_order (r q : OpportunityRuleRow) : bool :=
  (or_priority r <? or_priority q)
  || ((or_priority r =? or_priority q)
      && ((or_createdAt r <? or_createdAt q)
          || ((or_createdAt r =? or_createdAt q) && (or_id r <=? or_id q)%positive))).

Definition listEnabledRulesForEvaluation : mrun (list OpportunityRuleRow) :=
  st_gets (fun s => sort_with evaluation_order (List.filter or_enabled (mk_rules s))).

(** The column prints with its four places. *)
Definition definition_of (r : OpportunityRuleRow) : OpportunityRuleDefinition :=
  {| rd_id := or_id r; rd_name := or_name r; rd_priority := or_priority r; rd_conditions := or_conditions r;
     rd_scoreWeight := format (or_scoreWeight r) SCORE_SCALE |}.

(** ** Stamping *)
Record OpportunityMatch : Type := {
  om_ruleId : uuid;
  om_ruleName : string;
  om_priority : Z;
  om_score : Q;
  om_reasons : list string;
}.
Record EvaluableMarketEvent : Type := {
  ee_id : uuid;
  ee_marketplaceItemId : uuid;
  ee_monitorTargetId : option uuid;
  ee_eventType : string;
  ee_fromObservedAt : option Z;
  ee_toObservedAt : Z;
}.
(** An observation that is not given is [None]; [null] is [Some None]. *)
Record EvaluateRulesForEventOptions : Type := {
  eo_currentObservation : option (option ObservationSnapshot);
  eo_previousObservation : option (option ObservationSnapshot);
  eo_evaluatedAt : option Z;
}.
Record EvaluateRulesForEventResult : Type := {
  er_matches : list OpportunityMatch;
  er_ruleId : option uuid;
  er_stamped : bool;
  er_evaluatedRuleCount : Z;
}.

Definition snapshotFromObservationRow (o : ObservationRow) : ObservationSnapshot :=
  {| os_observedAt := ob_observedAt o; os_price := fromUnits <$> ob_price o; os_currency := ob_currency o;
     os_quantityAvailable := ob_quantityAvailable o; os_availability := ob_availability o;
     os_listingState := ob_listingState o |}.

(** [order by observed_at asc, observation_batch_id asc] *)
Definition observation_order (r q : ObservationRow) : bool :=
  (ob_observedAt r <? ob_observedAt q)
  || ((ob_observedAt r =? ob_observedAt q) && (ob_observationBatchId r <=? ob_observationBatchId q)%positive).
Definition load_step (event : EvaluableMarketEvent) (found : option ObservationSnapshot * option ObservationSnapshot)
    (row : ObservationRow) : option ObservationSnapshot * option ObservationSnapshot :=
  let snapshot := snapshotFromObservationRow row in
  if ob_observedAt row =? ee_toObservedAt event then (Some snapshot, snd found)
  else if opt_eqb (ee_fromObservedAt event) (ob_observedAt row) then (fst found, Some snapshot)
  else found.
Definition loadObservationsForEvent (event : EvaluableMarketEvent)
    : mrun (option ObservationSnapshot * option ObservationSnapshot) :=
  st_gets (fun s =>
    let rows := List.filter (fun o =>
      bool_decide (ob_marketplaceItemId o = ee_marketplaceItemId event)
      && ((ob_observedAt o =? ee_toObservedAt event) || opt_eqb (ee_fromObservedAt event) (ob_observedAt o)))
      (mk_observations s) in
    fold_left (load_step event) (sort_with observation_order rows) (None, None)).

(** [given ??= loaded] *)
Definition or_loaded (given : option (option ObservationSnapshot)) (loaded : option ObservationSnapshot)
    : option ObservationSnapshot := match given with Some (Some o) => Some o | _ => loaded end.
Definition observations_for (event : EvaluableMarketEvent) (options : EvaluateRulesForEventOptions)
    : mrun (option ObservationSnapshot * option ObservationSnapshot) :=
  match eo_currentObservation options, eo_previousObservation options with
  | Some current, Some previous => mret (current, previous)
  | current, previous =>
      loaded ← loadObservationsForEvent event;
      mret (or_loaded current (fst loaded), or_loaded previous (snd loaded))
  end.

Definition match_of (formats : Formats) (cx : OpportunityContext) (rule : OpportunityRuleRow)
    : list OpportunityMatch :=
  let evaluation := evaluateRule formats (definition_of rule) cx in
  if ev_matched evaluation
  then [{| om_ruleId := or_id rule; om_ruleName := or_name rule; om_priority := or_priority rule;
           om_score := ev_score evaluation; om_reasons := ev_reasons evaluation |}] else [].

Definition stamp_block (m : OpportunityMatch) (matchCount evaluatedAt : Z) : list (string * jsonb) :=
  [(OPPORTUNITY_PAYLOAD_KEY, BObject
    [("ruleId", BText (uuid_text (om_ruleId m))); ("ruleName", BText (om_ruleName m));
     ("priority", BNum (inject_Z (om_priority m))); ("score", BNum (om_score m));
     ("reasons", BArray (BText <$> om_reasons m)); ("matchCount", BNum (inject_Z matchCount));
     ("evaluatedAt", BText (toISOString evaluatedAt))]%string)].
Definition is_unstamped (id : uuid) (e : MarketEventRow) : bool :=
  bool_decide (me_id e = id) && negb (is_some (me_ruleId e)).
Definition with_stamp (ruleId : option uuid) (payload : jsonb) (e : MarketEventRow) : MarketEventRow :=
  {| me_id := me_id e; me_marketplaceItemId := me_marketplaceItemId e; me_monitorTargetId := me_monitorTargetId e;
     me_eventType := me_eventType e; me_detectedAt := me_detectedAt e; me_fromObservedAt := me_fromObservedAt e;
     me_toObservedAt := me_toObservedAt e; me_payload := payload; me_ruleId := ruleId;
     me_deduplicationKey := me_deduplicationKey e |}.
Definition stamped_with (m : OpportunityMatch) (block : list (string * jsonb)) (e : MarketEventRow) : MarketEventRow :=
  with_stamp (Some (om_ruleId m))
    (match me_payload e with BObject ms => BObject (merge_members ms block) | _ => BObject block end) e.

Definition find_event (id : uuid) (s : Market) : option MarketEventRow :=
  find_row (fun e => bool_decide (me_id e = id)) (mk_events s).

(** [update ... where id = $1 and rule_id is null returning rule_id], else the rule already there. *)
Definition stampEventWithRule (marketEventId : uuid) (m : OpportunityMatch) (evaluatedAt matchCount : Z)
    : mrun (option uuid * bool) :=
  s ← st_get;
  match find_row (is_unstamped marketEventId) (mk_events s) with
  | Some _ =>
      _ ← st_modify (fun s => put_events
            (update_rows (is_unstamped marketEventId) (stamped_with m (stamp_block m matchCount evaluatedAt)) (mk_events s)) s);
      mret (Some (om_ruleId m), true)
  | None =>
      match find_event marketEventId s with
      | None => st_throw MarketNotFoundError
      | Some existing => mret (me_ruleId existing, false)
      end
  end.

Definition evaluateRulesForEvent (formats : Formats) (event : EvaluableMarketEvent)
    (options : EvaluateRulesForEventOptions) : mrun EvaluateRulesForEventResult :=
  rules ← listEnabledRulesForEvaluation;
  let result matches ruleId stamped :=
    {| er_matches := matches; er_ruleId := ruleId; er_stamped := stamped;
       er_evaluatedRuleCount := Z.of_nat (length rules) |} in
  match rules with
  | [] => mret (result [] None false)
  | _ =>
      found ← observations_for event options;
      let cx := {| cx_event := {| ec_eventType := ee_eventType event;
                                  ec_marketplaceItemId := ee_marketplaceItemId event;
                                  ec_monitorTargetId := ee_monitorTargetId event |};
                   cx_currentObservation := fst found; cx_previousObservation := snd found |} in
      let matches := rules ≫= match_of formats cx in
      match matches with
      | [] => mret (result [] None false)
      | winner :: _ =>
          clock ← st_gets mk_now;
          stamp ← stampEventWithRule (ee_id event) winner (default clock (eo_evaluatedAt options))
                    (Z.of_nat (length matches));
          mret (result matches (fst stamp) (snd stamp))
      end
  end.

(** ** The service *)
Record CreateOpportunityRuleInput : Type := {
  cr_name : string;
  cr_enabled : option bool;
  cr_priority : option Z;
  cr_conditions : jsonb;
  cr_scoreWeight : option string;
  cr_createdByUserId : option string;
}.
Record UpdateOpportunityRuleInput : Type := {
  up_name : option string;
  up_enabled : option bool;
  up_priority : option Z;
  up_conditions : option jsonb;
  up_scoreWeight : option string;
}.
Record OpportunityRuleSnapshot : Type := {
  rs_id : uuid;
  rs_name : string;
  rs_enabled : bool;
  rs_priority : Z;
  rs_conditions : jsonb;
  rs_scoreWeight : string;
  rs_createdByUserId : option string;
}.
Definition opportunityRuleSnapshot (r : OpportunityRuleRow) : OpportunityRuleSnapshot :=
  {| rs_id := or_id r; rs_name := or_name r; rs_enabled := or_enabled r; rs_priority := or_priority r;
     rs_conditions := or_conditions r; rs_scoreWeight := format (or_scoreWeight r) SCORE_SCALE;
     rs_createdByUserId := or_createdByUserId r |}.

(** A weight the schema let through, as the column keeps it. *)
Definition weight_column (s : string) : Z := default 0 (toScaled (Some s) SCORE_SCALE).

Section service.
Context (formats : Formats).

Definition createRuleSchema (i : CreateOpportunityRuleInput) : result unit :=
  throw_if (negb (nonempty (cr_name i) && opt_all isSafeInteger (cr_priority i)
                  && opportunityConditionsSchema formats (cr_conditions i) && opt_all scoreWeightSchema (cr_scoreWeight i)
                  && opt_all nonempty (cr_createdByUserId i))) MarketValidationError.
Definition updateRuleSchema (p : UpdateOpportunityRuleInput) : result unit :=
  throw_if (negb (opt_all nonempty (up_name p) && opt_all isSafeInteger (up_priority p)
                  && opt_all (opportunityConditionsSchema formats) (up_conditions p)
                  && opt_all scoreWeightSchema (up_scoreWeight p)
                  && (is_some (up_name p) || is_some (up_enabled p) || is_some (up_priority p)
                      || is_some (up_conditions p) || is_some (up_scoreWeight p)))) MarketValidationError.

Definition getRule (ruleId : uuid) : mrun OpportunityRuleRow :=
  row ← st_gets (fun s => find_row (is_rule ruleId) (mk_rules s));
  match row with None => st_throw MarketNotFoundError | Some row => mret row end.

Definition rule_values (i : CreateOpportunityRuleInput) (id : uuid) (now : Z) : OpportunityRuleRow :=
  {| or_id := id; or_name := cr_name i; or_enabled := default true (cr_enabled i);
     or_priority := default 0 (cr_priority i); or_conditions := cr_conditions i;
     or_scoreWeight := weight_column (default "1.0000"%string (cr_scoreWeight i));
     or_createdByUserId := cr_createdByUserId i; or_createdAt := now; or_updatedAt := now |}.

Definition createRule (input : CreateOpportunityRuleInput)
    : mrun (OpportunityRuleRow * option OpportunityRuleSnapshot * OpportunityRuleSnapshot) :=
  _ ← st_lift (createRuleSchema input);
  id ← market_uuid;
  s ← st_get;
  let row := rule_values input id (mk_now s) in
  _ ← demand (int4 (or_priority row)) (SqlError "22003");
  _ ← demand (negb (exists_id or_id id (mk_rules s))) (UniqueViolation "opportunity_rules_pkey");
  _ ← demand (opt_known (or_createdByUserId row) (mk_users s)) foreign_key_violation;
  _ ← st_modify (fun s => put_rules (mk_rules s ++ [row]) s);
  mret (row, None, opportunityRuleSnapshot row).

Definition listRules (enabled : option bool) : mrun (list OpportunityRuleRow) :=
  st_gets (fun s => sort_with evaluation_order
    (List.filter (fun r => opt_all (Bool.eqb (or_enabled r)) enabled) (mk_rules s))).

Definition rule_set (p : UpdateOpportunityRuleInput) (now : Z) (r : OpportunityRuleRow) : OpportunityRuleRow :=
  {| or_id := or_id r; or_name := default (or_name r) (up_name p); or_enabled := default (or_enabled r) (up_enabled p);
     or_priority := default (or_priority r) (up_priority p);
     or_conditions := default (or_conditions r) (up_conditions p);
     or_scoreWeight := default (or_scoreWeight r) (weight_column <$> up_scoreWeight p);
     or_createdByUserId := or_createdByUserId r; or_createdAt := or_createdAt r; or_updatedAt := now |}.

Definition updateRule (ruleId : uuid) (patch : UpdateOpportunityRuleInput)
    : mrun (OpportunityRuleRow * OpportunityRuleSnapshot * OpportunityRuleSnapshot) :=
  _ ← st_lift (updateRuleSchema patch);
  existing ← getRule ruleId;
  _ ← st_lift (match up_name patch with Some name => market_text name | None => mret tt end);
  now ← st_gets mk_now;
  _ ← demand (int4 (or_priority (rule_set patch now existing))) (SqlError "22003");
  _ ← st_modify (fun s => put_rules (update_rows (is_rule ruleId) (rule_set patch now) (mk_rules s)) s);
  updated ← getRule ruleId;
  mret (updated, opportunityRuleSnapshot existing, opportunityRuleSnapshot updated).

(** Stamped events keep the identifier. *)
Definition deleteRule (ruleId : uuid) : mrun OpportunityRuleSnapshot :=
  existing ← getRule ruleId;
  _ ← st_modify (fun s => put_rules (List.filter (fun r => negb (is_rule ruleId r)) (mk_rules s)) s);
  mret (opportunityRuleSnapshot existing).
End service.

(** ** One page of the opportunities *)
Inductive OpportunityEventsSortKey : Type := SortDetectedAt | SortScore | SortRule.
Record OpportunityEventsPageOptions : Type := {
  op_page : option Z;
  op_pageSize : option Z;
  op_sortBy : option OpportunityEventsSortKey;
  op_ascending : option bool;
  op_detectedAtFrom : option Z;
  op_detectedAtTo : option Z;
}.
Definition opportunityEventsPageOptionsSchema (o : OpportunityEventsPageOptions) : result unit :=
  zod (opt_all (fun p => (0 <=? p) && isSafeInteger p) (op_page o)
       && opt_all (fun n => (0 <? n) && isSafeInteger n) (op_pageSize o)).
Definition DEFAULT_OPPORTUNITY_EVENTS_PAGE_SIZE : Z := 25.

Record OpportunityEventRow : Type := {
  oe_id : uuid;
  oe_eventType : string;
  oe_detectedAt : Z;
  oe_marketplaceItemId : uuid;
  oe_ruleId : option uuid;
  oe_currentRuleName : option string;
  oe_payload : jsonb;
}.

(** [coalesce((payload -> 'opportunity' ->> 'score')::numeric, 0)]; of the texts a cast takes,
    the plain decimals. *)
Definition score_of (e : MarketEventRow) : result Q :=
  match (o ← member OPPORTUNITY_PAYLOAD_KEY (me_payload e); member "score" o) with
  | None | Some BNull => mret 0%Q
  | Some (BNum q) => mret q
  | Some (BText s) =>
      match parseScaled (SqlError "22P02") s with
      | Ok p => mret (inject_Z (units p) / inject_Z (pow10 (scale p)))%Q
      | Throw e => Throw e
      end
  | Some _ => Throw (SqlError "22P02")
  end.
Definition current_rule_name (s : Market) (e : MarketEventRow) : option string :=
  id ← me_ruleId e; or_name <$> find_row (is_rule id) (mk_rules s).
(** [lower(coalesce(r.name, payload -> 'opportunity' ->> 'ruleName', 'unknown rule'))]; the stamp
    writes a text there. *)
Definition rule_label (s : Market) (e : MarketEventRow) : string :=
  toLowerCase (default "unknown rule"%string (coalesce (current_rule_name s e)
    (o ← member OPPORTUNITY_PAYLOAD_KEY (me_payload e); text_member_of "ruleName" o))).

(** [order by expr dir, id dir] *)
Definition by_expression {K} (lt eq : K -> K -> bool) (ascending : bool) (a b : K * MarketEventRow) : bool :=
  let '(x, y) := if ascending then (a, b) else (b, a) in
  lt (fst x) (fst y) || (eq (fst x) (fst y) && (me_id (snd x) <=? me_id (snd y))%positive).
Definition ordered {K} (key : MarketEventRow -> K) (lt eq : K -> K -> bool) (ascending : bool)
    (rows : list MarketEventRow) : list MarketEventRow :=
  snd <$> sort_with (by_expression lt eq ascending) ((fun e => (key e, e)) <$> rows).

Definition sorted_events (s : Market) (key : OpportunityEventsSortKey) (ascending : bool) (rows : list MarketEventRow)
    : result (list MarketEventRow) :=
  match key with
  | SortDetectedAt => mret (ordered me_detectedAt Z.ltb Z.eqb ascending rows)
  | SortScore =>
      scores ← res_mapM score_of rows;
      mret (snd <$> sort_with (by_expression lt_bool Qeq_bool ascending) (zip scores rows))
  | SortRule => mret (ordered (rule_label s) String.ltb String.eqb ascending rows)
  end.

Definition listOpportunityEventsPage (o : OpportunityEventsPageOptions) : mrun (list OpportunityEventRow * Z) :=
  _ ← st_lift (opportunityEventsPageOptionsSchema o);
  let page := default 0 (op_page o) in
  let pageSize := default DEFAULT_OPPORTUNITY_EVENTS_PAGE_SIZE (op_pageSize o) in
  s ← st_get;
  let rows := List.filter (fun e =>
    is_some (me_ruleId e) && opt_all (fun t => t <=? me_detectedAt e) (op_detectedAtFrom o)
    && opt_all (fun t => me_detectedAt e <? t) (op_detectedAtTo o)) (mk_events s) in
  match rows with
  | [] => mret ([], 0)
  | _ =>
      _ ← st_lift (int_literal (page * pageSize));
      sorted ← st_lift (sorted_events s (default SortDetectedAt (op_sortBy o)) (default false (op_ascending o)) rows);
      mret ((fun e => {| oe_id := me_id e; oe_eventType := event_text (me_eventType e); oe_detectedAt := me_detectedAt e;
                         oe_marketplaceItemId := me_marketplaceItemId e; oe_ruleId := me_ruleId e;
                         oe_currentRuleName := current_rule_name s e; oe_payload := me_payload e |})
              <$> page_of page pageSize sorted, Z.of_nat (length rows))
  end.
