(* ===== verification/MarketTasks.v ===== *)
(** * The polling jobs

    [packages/market/src/tasks.ts]: the dispatcher that claims due targets and
    queues one poll per target, and the poll that runs the provider's executor
    and records its outcome.  The executor is a provider adapter: a parameter,
    which may write the market tables and may throw. *)
From S2P Require Import Prelude Decimal Inputs Config Store Schema Ledger Stock.
From S2P Require Import PostingEngine Facts Adaptive MarketTables Monitors Polls.
#[global] Set Default Goal Selector "!".

Open Scope Z_scope.
#[local] Arguments String.append : simpl nomatch.

Definition DISPATCH_TASK_NAME : string := "market.dispatch-due-monitors".
Definition POLL_TARGET_TASK_NAME : string := "market.poll-target".

(** The job of one poll: its payload and the specification handed to [addJob]. *)
Record QueuedPoll : Type := {
  qp_monitorTargetId : uuid;
  qp_jobKey : string;
  qp_priority : Z;
}.

(** [addJob] with [jobKeyMode: replace]: a queued job of the same key is replaced. *)
Definition replace_job (job : QueuedPoll) (queue : list QueuedPoll) : list QueuedPoll :=
  List.filter (fun q => negb (String.eqb (qp_jobKey q) (qp_jobKey job))) queue ++ [job].

(** [jobKeyFor] of [packages/jobs/src/conventions.ts] *)
Definition jobKeyFor (taskName stableId : string) : string := concat_text [taskName; ":"; stableId]%string.

Definition poll_job (target : ClaimedTarget) : QueuedPoll :=
  {| qp_monitorTargetId := cl_id target; qp_jobKey := jobKeyFor POLL_TARGET_TASK_NAME (uuid_text (cl_id target));
     qp_priority := cl_priority target |}.

(** The dispatcher: the queue it leaves and the store. *)
Definition dispatchDueMonitors (locked : list uuid) (limit : option Z) (queue : list QueuedPoll)
    : mrun (list QueuedPoll) :=
  now ← st_gets mk_now;
  claimed ← claimDueTargets locked now (default 100 limit);
  mret (fold_left (fun q t => replace_job (poll_job t) q) claimed queue).

(** ** The poll *)
Record PollOutcome : Type := { po_observations : Z; po_adaptive : option RecordPollSuccessOptions }.
Definition no_facts : RecordPollSuccessOptions :=
  {| ro_at := None; ro_changed := None; ro_secondsUntilListingEnd := None; ro_recentEventCount := None;
     ro_recentChangeCount := None; ro_bounds := None; ro_deriveSignals := false; ro_signalWindowSeconds := None |}.

Definition defaultPollExecutor (target : MonitorTargetRow) : mrun PollOutcome :=
  mret {| po_observations := 0; po_adaptive := None |}.

Inductive PollResult : Type := PollSkipped | PollSucceeded (recorded : PollSuccessResult) | PollFailed.

Definition pollTarget (executor : MonitorTargetRow -> mrun PollOutcome) (monitorTargetId : uuid) : mrun PollResult :=
  found ← st_gets (find_target monitorTargetId);
  match found with
  | None => mret PollSkipped
  | Some target =>
      if negb (mt_enabled target) then mret PollSkipped
      else
        st_catch
          (outcome ← executor target;
           recorded ← recordPollSuccess (mt_id target) (default no_facts (po_adaptive outcome));
           mret (PollSucceeded recorded))
          (fun _ => _ ← recordPollFailure (mt_id target) None; mret PollFailed)
  end.
