(* ===== verification/MarketMachine.v ===== *)
(** * Every call of the market package keeps its tables

    The invariant [market_ok] of the tables and the [history] of their rows, for each
    statement and each service; then the calls as one type, the stores they reach in any
    order, and what holds in all of them. *)
From S2P Require Import Prelude Decimal Inputs Store Schema Ledger LedgerFacts Facts PostingEngine.
From S2P Require Import LineBuilding Stock Config Adaptive MarketTables Monitors Polls MarketEvents.
From S2P Require Import Observations Opportunities MarketTasks.

#[global] Set Default Goal Selector "!".

Open Scope Z_scope.
#[local] Arguments String.append : simpl nomatch.

(** ** The invariant *)
Record target_ok (r : MonitorTargetRow) : Prop := {
  to_interval : 0 < mt_intervalSeconds r;
  to_errors : 0 <= mt_consecutiveErrors r;
  to_backoff : mt_backoffUntil r = None <-> mt_consecutiveErrors r = 0;
}.

Definition item_identity (r : MarketplaceItemRow) : string * string * string :=
  (mi_provider r, mi_marketplace r, mi_externalItemId r).
Definition link_key (l : MonitorItemRow) : uuid * uuid := (ml_monitorTargetId l, ml_marketplaceItemId l).

Definition link_ok (s : Market) (l : MonitorItemRow) : Prop :=
  ml_firstDiscoveredAt l <= ml_lastMatchedAt l
  /\ exists_id mt_id (ml_monitorTargetId l) (mk_targets s) = true
  /\ exists_id mi_id (ml_marketplaceItemId l) (mk_items s) = true.

Definition event_ok (s : Market) (e : MarketEventRow) : Prop :=
  me_deduplicationKey e = deduplicationKeyFor (me_marketplaceItemId e) (me_eventType e) (me_toObservedAt e)
  /\ event_fks s e = true
  /\ (me_eventType e = new_listing <-> me_fromObservedAt e = None).

Record market_ok (s : Market) : Prop := {
  mo_target_ids : NoDup (mt_id <$> mk_targets s);
  mo_targets : forall r, r ∈ mk_targets s -> target_ok r;
  mo_item_ids : NoDup (mi_id <$> mk_items s);
  mo_identities : NoDup (item_identity <$> mk_items s);
  mo_items : forall r, r ∈ mk_items s -> mi_firstSeenAt r <= mi_lastSeenAt r;
  mo_link_keys : NoDup (link_key <$> mk_links s);
  mo_links : forall l, l ∈ mk_links s -> link_ok s l;
  mo_event_ids : NoDup (me_id <$> mk_events s);
  mo_event_keys : NoDup (me_deduplicationKey <$> mk_events s);
  mo_events : forall e, e ∈ mk_events s -> event_ok s e;
  mo_observations : NoDup (identity <$> mk_observations s);
  mo_rules : NoDup (or_id <$> mk_rules s);
}.

(** ** What stays *)

(** A fact once known of an item stays known. *)
Definition known_still {A} (before after : option A) : Prop := is_Some before -> is_Some after.

Record item_kept (r r' : MarketplaceItemRow) : Prop := {
  ik_id : mi_id r' = mi_id r;
  ik_identity : item_identity r' = item_identity r;
  ik_first : mi_firstSeenAt r' <= mi_firstSeenAt r;
  ik_last : mi_lastSeenAt r <= mi_lastSeenAt r';
  ik_title : known_still (mi_title r) (mi_title r');
  ik_url : known_still (mi_canonicalUrl r) (mi_canonicalUrl r');
  ik_seller : known_still (mi_sellerExternalId r) (mi_sellerExternalId r');
  ik_ends : known_still (mi_listingEndsAt r) (mi_listingEndsAt r');
}.
#[export] Instance item_kept_preorder : PreOrder item_kept.
Proof.
  split; [intros r; split; first [done | lia | by intros ?]|]. intros ??? [] []. split; unfold known_still in *; try congruence; try lia; auto.
Qed.

Record link_kept (l l' : MonitorItemRow) : Prop := {
  lk_key : link_key l' = link_key l;
  lk_first : ml_firstDiscoveredAt l' = ml_firstDiscoveredAt l;
  lk_last : ml_lastMatchedAt l <= ml_lastMatchedAt l';
}.
#[export] Instance link_kept_preorder : PreOrder link_kept.
Proof. split; [intros l; split; first [done | lia]|]. intros ??? [] []. split; congruence || lia. Qed.

(** An event changes at most once: when a rule is stamped on it, and then in nothing but the
    rule and the namespaced member of its payload. *)
Record event_kept (e e' : MarketEventRow) : Prop := {
  ek_same : e' = with_stamp (me_ruleId e') (me_payload e') e;
  ek_once : is_Some (me_ruleId e) -> e' = e;
  ek_stamp : me_ruleId e' = None -> e' = e;
  ek_facts : forall key, key <> OPPORTUNITY_PAYLOAD_KEY -> member key (me_payload e') = member key (me_payload e);
}.
#[export] Instance event_kept_preorder : PreOrder event_kept.
Proof.
  split; [by intros []; split|]. intros e1 e2 e3 [S1 O1 N1 F1] [S2 O2 N2 F2]. split.
  - rewrite S2 at 1. by rewrite S1.
  - intros H. rewrite (O1 H) in *. auto.
  - intros H. destruct (me_ruleId e2) eqn:E; [by rewrite (O2 ltac:(by eexists)) in *; congruence|]. rewrite N2 by done. auto.
  - intros key Hk. by rewrite F2, F1.
Qed.

Record history (s s' : Market) : Prop := {
  hy_items : grows item_kept (mk_items s) (mk_items s');
  hy_links : grows link_kept (mk_links s) (mk_links s');
  hy_events : grows event_kept (mk_events s) (mk_events s');
  hy_observations : grows eq (mk_observations s) (mk_observations s');
}.
#[export] Instance history_preorder : PreOrder history.
Proof. split; [by split|]. intros ??? [] []. split; by etrans. Qed.

Definition sound (s s' : Market) : Prop := market_ok s -> market_ok s' /\ history s s'.
#[export] Instance sound_preorder : PreOrder sound.
Proof.
  split; [by intros s Hs|]. intros s1 s2 s3 H1 H2 (Ho & Hh)%H1. destruct (H2 Ho) as [? ?]. split; [done|by etrans].
Qed.

(** ** Statements that leave the tables as they are *)
Record same_tables (s s' : Market) : Prop := {
  sm_targets : mk_targets s' = mk_targets s;
  sm_items : mk_items s' = mk_items s;
  sm_links : mk_links s' = mk_links s;
  sm_events : mk_events s' = mk_events s;
  sm_observations : mk_observations s' = mk_observations s;
  sm_rules : mk_rules s' = mk_rules s;
}.
Lemma same_tables_sound s s' : same_tables s s' -> sound s s'.
Proof.
  intros [Et Ei El Ee Eo Er] []. unfold link_ok, event_ok, event_fks in *.
  split; split; unfold link_ok, event_ok, event_fks; rewrite ?Et, ?Ei, ?El, ?Ee, ?Eo, ?Er; done.
Qed.
Lemma market_uuid_inv s id s' : market_uuid s = (Ok id, s') -> id = mk_next s /\ same_tables s s'.
Proof. intros [= <- <-]. by split. Qed.
Lemma market_uuid_sound : always sound market_uuid.
Proof. intros s. apply same_tables_sound. by split. Qed.
#[export] Hint Resolve market_uuid_sound : store.

(** ** References *)
Lemma event_fks_grow s s' e :
  (forall id, exists_id mt_id id (mk_targets s) = true -> exists_id mt_id id (mk_targets s') = true) ->
  (forall id, exists_id mi_id id (mk_items s) = true -> exists_id mi_id id (mk_items s') = true) ->
  event_fks s e = true -> event_fks s' e = true.
Proof.
  intros Ht Hi. unfold event_fks. rewrite !andb_true_iff. intros [H1 H2]. split; [by apply Hi|].
  destruct (me_monitorTargetId e); [by apply Ht|done].
Qed.

Lemma exists_id_app {A} (f : A -> uuid) id l k : exists_id f id l = true -> exists_id f id (l ++ k) = true.
Proof. rewrite !exists_id_true. intros (r & Hr & <-). exists r. split; [|done]. apply elem_of_app. by left. Qed.
Lemma exists_id_same {A} (f : A -> uuid) id l l' : f <$> l' = f <$> l -> exists_id f id l = exists_id f id l'.
Proof.
  intros E. apply eq_true_iff_eq. rewrite !exists_id_true. split; intros (r & Hr & <-).
  - assert (f r ∈ f <$> l') as Hin by (rewrite E; by apply list_elem_of_fmap_2).
    apply list_elem_of_fmap in Hin as (q & -> & Hq). eauto.
  - assert (f r ∈ f <$> l) as Hin by (rewrite <- E; by apply list_elem_of_fmap_2).
    apply list_elem_of_fmap in Hin as (q & -> & Hq). eauto.
Qed.

(** ** [monitor_targets] *)
Lemma put_targets_sound s ts :
  (market_ok s -> NoDup (mt_id <$> ts) /\ (forall r, r ∈ ts -> target_ok r)
     /\ (forall l, l ∈ mk_links s -> exists_id mt_id (ml_monitorTargetId l) ts = true)
     /\ (forall e t, e ∈ mk_events s -> me_monitorTargetId e = Some t -> exists_id mt_id t ts = true)) ->
  sound s (put_targets ts s).
Proof.
  intros H Hs. destruct (H Hs) as (Hi & Hr & Hl & He). split; [|by split]. destruct Hs. split; cbn; try done.
  - intros l Hin. destruct (mo_links0 l Hin) as (H1 & H2 & H3). split; [done|]. split; [by apply Hl|done].
  - intros e Hin. destruct (mo_events0 e Hin) as (H1 & H2 & H3). split; [done|]. split; [|done].
    unfold event_fks in *. apply andb_true_iff in H2 as [H2 _]. apply andb_true_iff. split; [exact H2|].
    destruct (me_monitorTargetId e) as [t|] eqn:E; [by apply (He e)|done].
Qed.

Lemma targets_refs s : market_ok s ->
  (forall l, l ∈ mk_links s -> exists_id mt_id (ml_monitorTargetId l) (mk_targets s) = true)
  /\ (forall e t, e ∈ mk_events s -> me_monitorTargetId e = Some t -> exists_id mt_id t (mk_targets s) = true).
Proof.
  intros []. split; [by intros l (_ & ? & _)%mo_links0|]. intros e t (_ & H & _)%mo_events0 E.
  unfold event_fks in H. rewrite E in H. by apply andb_true_iff in H as [_ H].
Qed.

Lemma insertTarget_sound values :
  (forall id now, target_ok (values id now) /\ mt_id (values id now) = id) -> always sound (insertTarget values).
Proof.
  intros Hv. unfold insertTarget. apply always_bind; [exact _|auto with store|]. intros id s.
  cbv [mbind St_bind st_get st_modify mret St_ret demand]. cbv zeta.
  destruct (target_ints _); [|reflexivity].
  destruct (exists_id mt_id id (mk_targets s)) eqn:Ex; [reflexivity|]. cbn [negb].
  destruct (target_fks _ _); [|reflexivity]. cbn [snd].
  destruct (Hv id (mk_now s)) as [Hok Hid]. apply put_targets_sound. intros Hs.
  destruct (targets_refs s Hs) as [Hl He]. destruct Hs. split_and!.
  - apply NoDup_keys_snoc. rewrite Hid. split; [done|]. by apply exists_id_false.
  - intros r [Hr| ->%list_elem_of_singleton]%elem_of_app; [by apply mo_targets0|done].
  - intros r Hr. by apply exists_id_app, Hl.
  - intros e t Hin E. apply exists_id_app. by apply (He e).
Qed.

Lemma update_targets_sound s p f :
  (forall r, mt_id (f r) = mt_id r) ->
  (forall r, r ∈ mk_targets s -> p r = true -> target_ok r -> target_ok (f r)) ->
  sound s (put_targets (update_rows p f (mk_targets s)) s).
Proof.
  intros Hid Hok. apply put_targets_sound. intros Hs. destruct (targets_refs s Hs) as [Hl He]. destruct Hs.
  pose proof (update_rows_keys mt_id p f (mk_targets s) Hid) as Ek. split_and!.
  - by rewrite Ek.
  - intros r (q & Hq & ->)%update_rows_elem. destruct (p q) eqn:E; [|by apply mo_targets0]. apply Hok; auto.
  - intros l Hin. rewrite <- (exists_id_same mt_id _ _ _ Ek). by apply Hl.
  - intros e t Hin E. rewrite <- (exists_id_same mt_id _ _ _ Ek). by apply (He e).
Qed.

Lemma updateTargets_sound_at s p f :
  (forall r, mt_id (f r) = mt_id r) ->
  (forall r, r ∈ mk_targets s -> p r = true -> target_ok r -> target_ok (f r)) ->
  sound s (updateTargets p f s).2.
Proof.
  intros Hid Hok. unfold updateTargets. cbv [mbind St_bind st_get st_modify mret St_ret demand]. cbv zeta.
  destruct (forallb _ _); [|reflexivity]. destruct (forallb _ _); [|reflexivity]. cbn [snd].
  by apply update_targets_sound.
Qed.
Lemma updateTargets_sound p f :
  (forall r, mt_id (f r) = mt_id r) -> (forall r, target_ok r -> target_ok (f r)) -> always sound (updateTargets p f).
Proof. intros Hid Hok s. apply updateTargets_sound_at; auto. Qed.

Lemma deleteTargetRow_sound id : always sound (deleteTargetRow id).
Proof.
  intros s. unfold deleteTargetRow. cbv [mbind St_bind st_get st_modify mret St_ret demand].
  destruct (_ && _ && _) eqn:E; [|reflexivity]. cbn [snd].
  apply andb_true_iff in E as [E _]. apply andb_true_iff in E as [El Ee].
  rewrite forallb_elem in El. rewrite forallb_elem in Ee. apply put_targets_sound. intros Hs. destruct (targets_refs s Hs) as [Hl He].
  assert (forall t, t <> id -> exists_id mt_id t (mk_targets s) = true ->
    exists_id mt_id t (List.filter (fun r => negb (is_target id r)) (mk_targets s)) = true) as Hk.
  { intros t Ht. rewrite !exists_id_true. intros (r & Hr & <-). exists r. split; [|done].
    apply elem_of_bool_filter. split; [|done]. unfold is_target. by rewrite bool_decide_eq_false_2. }
  destruct Hs. split_and!.
  - eapply NoDup_fmap_sublist; [apply bool_filter_sublist|done].
  - intros r [_ Hr]%elem_of_bool_filter. by apply mo_targets0.
  - intros l Hin. apply Hk; [|by apply Hl]. specialize (El l Hin). apply negb_true_iff in El.
    by apply bool_decide_eq_false in El.
  - intros e t Hin E. apply Hk; [|by apply (He e)]. specialize (Ee e Hin). unfold opt_eqb in Ee. rewrite E in Ee.
    intros ->. by rewrite bool_decide_eq_true_2 in Ee.
Qed.
#[export] Hint Resolve deleteTargetRow_sound : store.

(** ** [marketplace_items] *)
Lemma put_market_items_sound s is_ :
  grows item_kept (mk_items s) is_ ->
  (market_ok s -> NoDup (mi_id <$> is_) /\ NoDup (item_identity <$> is_)
     /\ forall r, r ∈ is_ -> mi_firstSeenAt r <= mi_lastSeenAt r) ->
  sound s (put_items is_ s).
Proof.
  intros Hg H Hs. destruct (H Hs) as (Hi & Hd & Hr). split; [|by split].
  assert (forall id, exists_id mi_id id (mk_items s) = true -> exists_id mi_id id is_ = true) as Hk.
  { intros id. rewrite !exists_id_true. intros (x & Hx & <-). destruct (grows_elem _ _ _ _ Hg Hx) as (y & Hy & []). eauto. }
  destruct Hs. split; cbn; try done.
  - intros l Hin. destruct (mo_links0 l Hin) as (H1 & H2 & H3). split; [done|]. split; [done|by apply Hk].
  - intros e Hin. destruct (mo_events0 e Hin) as (H1 & H2 & H3). split; [done|]. split; [|done].
    by apply (event_fks_grow s).
Qed.

Lemma coalesce_known {A} (a b : option A) : known_still b (coalesce a b).
Proof. destruct a as [x|]; intros H; [by exists x|done]. Qed.
Lemma seen_again_kept i now r : item_kept r (seen_again i now r).
Proof. split; cbn; first [done | lia | apply coalesce_known]. Qed.

Lemma same_identity_spec i r : same_identity i r = true <->
  item_identity r = (im_provider i, im_marketplace i, im_externalItemId i).
Proof.
  unfold same_identity, item_identity. rewrite !andb_true_iff, !String.eqb_eq. split; [by intros [[-> ->] ->]|by intros [= -> -> ->]].
Qed.

Lemma upsertMarketplaceItem_sound i : always sound (upsertMarketplaceItem i).
Proof.
  unfold upsertMarketplaceItem. do 3 (apply always_bind; [exact _|solve_respects|intros ?]). intros s.
  cbv [mbind St_bind st_get st_modify mret St_ret demand].
  destruct (find_row (same_identity i) (mk_items s)) as [r|] eqn:Ef; cbn [snd].
  - intros Hs. assert (forall x, x ∈ mk_items s -> item_kept x (seen_again i (mk_now s) x)) as Hk
      by (intros x Hx; apply seen_again_kept).
    revert Hs. apply put_market_items_sound; [apply update_rows_grows; [exact _|auto]|].
    intros []. split_and!.
    + by rewrite update_rows_keys.
    + rewrite update_rows_keys; [done|]. done.
    + intros x (q & Hq & ->)%update_rows_elem. pose proof (mo_items0 q Hq).
      destruct (same_identity i q); [cbn; lia|done].
  - destruct (exists_id mi_id _ (mk_items s)) eqn:Ex; [reflexivity|]. cbn [negb snd].
    apply put_market_items_sound; [apply grows_app; exact _|]. intros []. split_and!.
    + apply NoDup_keys_snoc. split; [done|]. by apply exists_id_false.
    + apply NoDup_keys_snoc. split; [done|]. intros (q & Eq & Hq)%list_elem_of_fmap.
      apply (find_row_none _ _ Ef) in Hq. apply not_true_iff_false in Hq. apply Hq, same_identity_spec. by rewrite <- Eq.
    + intros x [Hx| ->%list_elem_of_singleton]%elem_of_app; [by apply mo_items0|cbn; lia].
Qed.

(** ** [monitor_items] *)
Lemma put_links_sound s ls :
  grows link_kept (mk_links s) ls ->
  (market_ok s -> NoDup (link_key <$> ls) /\ forall l, l ∈ ls -> link_ok s l) ->
  sound s (put_links ls s).
Proof.
  intros Hg H Hs. destruct (H Hs) as [Hk Hl]. split; [|by split]. destruct Hs. by split.
Qed.

Lemma is_link_spec t i l : is_link t i l = true <-> link_key l = (t, i).
Proof. unfold is_link, link_key. rewrite andb_true_iff, !bool_decide_eq_true. split; [by intros [-> ->]|by intros [= -> ->]]. Qed.

Lemma linkItemToMonitor_sound t i a : always sound (linkItemToMonitor t i a).
Proof.
  intros s. unfold linkItemToMonitor. cbv [mbind St_bind st_get st_modify mret St_ret demand]. cbv zeta.
  set (at_ := default (mk_now s) a).
  destruct (existsb (is_link t i) (mk_links s)) eqn:Ex; cbn [snd].
  - apply put_links_sound.
    + apply update_rows_grows; [exact _|]. intros l _ _. split; cbn; (done || lia).
    + intros []. split; [by rewrite update_rows_keys|]. intros l (q & Hq & ->)%update_rows_elem.
      destruct (mo_links0 q Hq) as (H1 & H2 & H3). destruct (is_link t i q); [split; [cbn; lia|by split]|by split].
  - destruct (_ && _) eqn:Ek; [|reflexivity]. apply andb_true_iff in Ek as [Kt Ki]. cbn [snd].
    apply put_links_sound; [apply grows_app; exact _|]. intros []. split.
    + apply NoDup_keys_snoc. split; [done|]. cbn. intros (q & Eq & Hq)%list_elem_of_fmap.
      apply not_true_iff_false in Ex. apply Ex. apply existsb_exists. exists q. rewrite <- list_elem_of_In.
      split; [done|]. by apply is_link_spec.
    + intros l [Hl| ->%list_elem_of_singleton]%elem_of_app; [by apply mo_links0|]. split; [cbn; lia|by split].
Qed.

Lemma deactivateAbsent_sound t p a : always sound (deactivateAbsentMonitorItems t p a).
Proof.
  intros s. unfold deactivateAbsentMonitorItems. cbv [mbind St_bind st_get st_modify mret St_ret]. cbv zeta. cbn [snd].
  apply put_links_sound.
  - apply update_rows_grows; [exact _|]. intros l _ _. split; cbn; (done || lia).
  - intros []. split; [by rewrite update_rows_keys|]. intros l (q & Hq & ->)%update_rows_elem.
    destruct (mo_links0 q Hq) as (H1 & H2 & H3). destruct (absent _ _ _ _); by split.
Qed.
#[export] Hint Resolve upsertMarketplaceItem_sound linkItemToMonitor_sound deactivateAbsent_sound : store.

(** ** [market_events] *)
Lemma has_key_spec k es : has_key k es = true <-> k ∈ (me_deduplicationKey <$> es).
Proof.
  unfold has_key. rewrite existsb_exists, list_elem_of_fmap. setoid_rewrite String.eqb_eq.
  setoid_rewrite <- list_elem_of_In. naive_solver.
Qed.

(** A row as the package builds it. *)
Definition well_built (id : uuid) (e : MarketEventRow) : Prop :=
  me_id e = id
  /\ me_deduplicationKey e = deduplicationKeyFor (me_marketplaceItemId e) (me_eventType e) (me_toObservedAt e)
  /\ (me_eventType e = new_listing <-> me_fromObservedAt e = None).

Lemma insertEvent_sound values : (forall id, well_built id (values id)) -> always sound (insertEvent values).
Proof.
  intros Hv. unfold insertEvent. apply always_bind; [exact _|auto with store|]. intros id s.
  destruct (Hv id) as (Hid & Hkey & Hnew).
  cbv [mbind St_bind st_get st_modify mret St_ret demand]. cbv zeta.
  destruct (has_key _ _) eqn:Hk; [reflexivity|].
  destruct (exists_id me_id id (mk_events s)) eqn:Ex; [reflexivity|]. cbn [negb].
  destruct (event_fks s (values id)) eqn:Hf; [|reflexivity]. cbn [snd].
  intros []. split; [|by split; try done; apply grows_app; exact _]. split; cbn; try done.
  - apply NoDup_keys_snoc. rewrite Hid. split; [done|]. by apply exists_id_false.
  - apply NoDup_keys_snoc. split; [done|]. intros H%has_key_spec. congruence.
  - intros e [He| ->%list_elem_of_singleton]%elem_of_app; [by apply mo_events0|by split].
Qed.

Lemma insertEvents_sound values :
  (forall v, v ∈ values -> forall id, well_built id (v id)) -> always sound (insertEvents values).
Proof.
  intros Hv. unfold insertEvents. apply always_atomically; [exact _|]. apply always_respects.
  apply always_bind; [exact _| |intros ?; apply always_ret; exact _].
  induction values as [|v vs IH]; cbn [st_mapM]; [apply always_ret; exact _|].
  apply always_bind; [exact _|apply insertEvent_sound, Hv; by left|]. intros ?.
  apply always_bind; [exact _|apply IH; intros ? ?; apply Hv; by right|]. intros ?. apply always_ret; exact _.
Qed.

(** A comparison finds no discovery. *)
Lemma compare_not_new p c es e : compareObservations p c = Ok es -> e ∈ es -> de_eventType e <> new_listing.
Proof.
  unfold compareObservations, price_events. rewrite bind_Ok. intros (ps & Hps & [= <-]).
  rewrite !elem_of_app. intros [He|[He|[He|He]]].
  - revert Hps. destruct (os_price p), (os_price c); try (intros [= <-]; by apply not_elem_of_nil in He).
    rewrite bind_Ok. intros (z & _ & [= <-]). destruct (z =? 0); [by apply not_elem_of_nil in He|].
    destruct (z <? 0); set_solver.
  - unfold quantity_events in He. destruct (os_quantityAvailable p), (os_quantityAvailable c);
      try by apply not_elem_of_nil in He. destruct (_ =? _); [by apply not_elem_of_nil in He|].
    by apply list_elem_of_singleton in He as ->.
  - unfold stock_events in He. apply elem_of_app in He as [He|He].
    + destruct (restocked_now p c); [|by apply not_elem_of_nil in He]. by apply list_elem_of_singleton in He as ->.
    + destruct (sold_out_now p c); [|by apply not_elem_of_nil in He]. by apply list_elem_of_singleton in He as ->.
  - unfold ended_events in He. destruct (os_listingState p); [|by apply not_elem_of_nil in He].
    destruct (_ && _); [|by apply not_elem_of_nil in He]. by apply list_elem_of_singleton in He as ->.
Qed.

Lemma deriveMarketEvents_sound i p c t d : always sound (deriveMarketEvents i p c t d).
Proof.
  unfold deriveMarketEvents. destruct p as [p|]; [|apply always_ret; exact _]. intros s.
  cbv [mbind St_bind st_lift st_gets]. destruct (compareObservations p c) as [es|e] eqn:Ec; [|reflexivity].
  destruct es as [|d' es]; [reflexivity|].
  assert (always sound (insertEvents (event_values i t (default (mk_now s) d) p c <$> d' :: es))) as H.
  { apply insertEvents_sound. intros v (q & -> & Hq)%list_elem_of_fmap id. split; [done|]. split; [done|]. cbn.
    pose proof (compare_not_new _ _ _ _ Ec Hq). by split. }
  specialize (H s). by destruct (insertEvents _ s) as [[r|e] s'].
Qed.

Lemma deriveNewListingEvents_sound t items d : always sound (deriveNewListingEvents t items d).
Proof.
  unfold deriveNewListingEvents. destruct items as [|i items]; [apply always_ret; exact _|].
  apply always_bind; [exact _|apply always_get; exact _|]. intros s. cbv zeta.
  apply always_bind; [exact _| |intros ?; apply always_ret; exact _]. apply insertEvents_sound.
  intros v (q & Hv & _)%list_elem_of_bind id. unfold candidate_values in Hv.
  destruct (find_row _ _); [|by apply not_elem_of_nil in Hv]. destruct (global_first _ _); [|by apply not_elem_of_nil in Hv].
  destruct (_ =? _); [|by apply not_elem_of_nil in Hv]. apply list_elem_of_singleton in Hv as ->. by split.
Qed.

(** ** [marketplace_item_observations] *)
Lemma fresh_rows_unique rows stored : NoDup (identity <$> stored) -> NoDup (identity <$> stored ++ fresh_rows rows stored).
Proof.
  revert stored. induction rows as [|r rows IH]; intros stored H; cbn; [by rewrite app_nil_r|].
  case_bool_decide as Hin; [by apply IH|].
  change (r :: fresh_rows rows (stored ++ [r])) with ([r] ++ fresh_rows rows (stored ++ [r])). rewrite app_assoc.
  apply IH. by apply NoDup_keys_snoc.
Qed.

Lemma recordObservationBatch_sound b : always sound (recordObservationBatch b).
Proof.
  unfold recordObservationBatch. do 2 (apply always_bind; [exact _|solve_respects|intros ?]). intros s.
  cbv [mbind St_bind st_get st_modify mret St_ret]. cbv zeta. cbn [snd].
  intros []. split; [|by split; try done; apply grows_app; exact _]. split; cbn; try done. by apply fresh_rows_unique.
Qed.
#[export] Hint Resolve deriveMarketEvents_sound deriveNewListingEvents_sound recordObservationBatch_sound : store.

(** ** Every call of the market package keeps its tables

    The stores the calls reach in any order, and what holds in all of them. *)

#[global] Set Default Goal Selector "!".


(** ** The service *)
Lemma zod_Ok b u : zod b = Ok u -> b = true.
Proof. unfold zod. intros H%throw_if_Ok. by apply negb_false_iff in H. Qed.
Lemma positive_int_pos z : positive_int z = true -> 0 < z.
Proof. unfold positive_int. rewrite andb_true_iff, Z.ltb_lt. tauto. Qed.

Lemma createTarget_sound fm i : always sound (createTarget fm i).
Proof.
  intros s. unfold createTarget. cbv [mbind St_bind st_lift].
  destruct (createTargetSchema i) as [u|] eqn:Es; [|reflexivity].
  destruct (validateConfig _ _ _) as [c|]; [|reflexivity]. apply insertTarget_sound. intros id now. split; [|done].
  apply zod_Ok in Es. rewrite !andb_true_iff in Es. destruct Es as [[[_ Hp%positive_int_pos] _] _]. by split.
Qed.

Lemma getTarget_reads id : reads (getTarget id).
Proof. intros s. unfold getTarget. cbv [mbind St_bind st_gets]. by destruct (find_target id s). Qed.
#[export] Hint Resolve getTarget_reads : store.
Lemma market_reads_sound {A} (m : St Market A) : reads m -> always sound m.
Proof. apply reads_always. exact _. Qed.
Lemma getTarget_run id s r s' : getTarget id s = (Ok r, s') -> s' = s /\ find_target id s = Some r.
Proof. unfold getTarget. cbv [mbind St_bind st_gets]. by destruct (find_target id s); intros [= -> <-]. Qed.

Lemma updateTarget_read_reads fm id p : reads (updateTarget_read fm id p).
Proof.
  unfold updateTarget_read. apply always_bind; [exact _|apply getTarget_reads|]. intros r. solve_respects.
Qed.
Lemma updateTarget_read_row fm id p s r c s' :
  updateTarget_read fm id p s = (Ok (r, c), s') -> s' = s /\ find_target id s = Some r.
Proof.
  intros H. pose proof (reads_run _ _ _ _ (updateTarget_read_reads fm id p) H) as ->. split; [done|].
  unfold updateTarget_read in H. run_bind H x s1 Hx. apply getTarget_run in Hx as [-> Hx].
  run_bind H t s2 Ht. run_bind H d s3 Hd. by injection H as -> _ _.
Qed.

Lemma find_target_spec id s r : find_target id s = Some r -> r ∈ mk_targets s /\ mt_id r = id.
Proof. intros [Hr Hp]%find_row_some. split; [done|]. by apply bool_decide_eq_true in Hp. Qed.

Lemma target_set_ok p c now r : opt_all positive_int (ut_intervalSeconds p) = true ->
  target_ok r -> target_ok (target_set p c now r).
Proof.
  intros Hp []. split; cbn; try done. destruct (ut_intervalSeconds p) as [n|]; [|done]. by apply positive_int_pos.
Qed.

Lemma updateTarget_write_sound p r c s :
  opt_all positive_int (ut_intervalSeconds p) = true -> is_some (find_target (mt_id r) s) = true ->
  sound s (updateTarget_write p (r, c) s).2.
Proof.
  intros Hp Hf. unfold updateTarget_write. cbv [mbind St_bind st_gets]. rewrite Hf.
  pose proof (updateTargets_sound (is_target (mt_id r)) (target_set p c (mk_now s))
    ltac:(done) ltac:(intros; by apply target_set_ok) s) as H.
  destruct (updateTargets _ _ s) as [[rows|e] s1]; cbn [snd mret St_ret] in *; [|done].
  etrans; [exact H|]. by apply (market_reads_sound _ (getTarget_reads (mt_id r))).
Qed.

Lemma updateTarget_sound fm id p : always sound (updateTarget fm id p).
Proof.
  intros s. unfold updateTarget. cbv [mbind St_bind st_lift].
  destruct (updateTargetSchema p) as [u|] eqn:Es; [|reflexivity].
  destruct (updateTarget_read fm id p s) as [[[r c]|e] s1] eqn:Er.
  - apply updateTarget_read_row in Er as [-> Hr]. destruct (find_target_spec _ _ _ Hr) as [Hin <-].
    apply updateTarget_write_sound; [|by rewrite Hr].
    unfold updateTargetSchema in Es. apply bind_Ok in Es as (v & Ev%zod_Ok & _). rewrite !andb_true_iff in Ev. tauto.
  - by rewrite (reads_run _ _ _ _ (updateTarget_read_reads fm id p) Er).
Qed.

Lemma deleteTarget_sound id : always sound (deleteTarget id).
Proof. unfold deleteTarget. apply always_bind; [exact _|apply market_reads_sound, getTarget_reads|]. intros ?. auto with store. Qed.

(** ** Claims and outcomes *)
Lemma claimDueTargets_sound locked now limit : always sound (claimDueTargets locked now limit).
Proof.
  intros s. unfold claimDueTargets. cbv [mbind St_bind st_lift st_get].
  destruct (int_literal limit); [|reflexivity]. cbv zeta.
  match goal with |- context [updateTargets ?p ?f s] =>
    pose proof (updateTargets_sound p f ltac:(done) ltac:(intros ? []; by split) s) as H;
    destruct (updateTargets p f s) as [[rows|e] s1] end; exact H.
Qed.

Lemma succeeded_ok a n x c r : target_ok r -> target_ok (succeeded a n x c r).
Proof. intros []. by split. Qed.
Lemma failed_ok a n r : target_ok r -> target_ok (failed a n r).
Proof. intros []. split; cbn; [done|lia|]. split; [done|lia]. Qed.

Lemma recordFlat_sound id a : always sound (recordFlatPollSuccess id a).
Proof.
  unfold recordFlatPollSuccess. apply always_bind; [exact _|apply always_gets; exact _|]. intros now.
  apply always_bind; [exact _| |intros []; solve_respects].
  apply updateTargets_sound; [done|]. intros r. apply succeeded_ok.
Qed.
Lemma poll_signals_reads id a o : reads (poll_signals id a o).
Proof.
  unfold poll_signals. cbv zeta. destruct (_ && _); [|apply always_ret; exact _].
  apply always_bind; [exact _| |intros; apply always_ret; exact _].
  unfold collectAdaptiveSignals. cbv zeta. solve_respects.
Qed.
Lemma recordPollSuccess_sound id o : always sound (recordPollSuccess id o).
Proof.
  unfold recordPollSuccess. apply always_bind; [exact _|apply always_gets; exact _|]. intros clock. cbv zeta.
  destruct (ro_changed o) as [ch|].
  - apply always_bind; [exact _|apply market_reads_sound, getTarget_reads|]. intros r.
    destruct (negb _).
    + apply always_bind; [exact _|apply recordFlat_sound|]. intros ?. apply always_ret; exact _.
    + apply always_bind; [exact _|apply market_reads_sound, poll_signals_reads|]. intros sg.
      do 3 (apply always_bind; [exact _|apply always_lift; exact _|intros ?]).
      apply always_bind; [exact _| |intros []; solve_respects].
      apply updateTargets_sound; [done|]. intros ?. apply succeeded_ok.
  - apply always_bind; [exact _|apply recordFlat_sound|]. intros ?. apply always_ret; exact _.
Qed.
Lemma recordPollFailure_sound id a : always sound (recordPollFailure id a).
Proof.
  unfold recordPollFailure. apply always_bind; [exact _|apply always_gets; exact _|]. intros clock.
  apply always_bind; [exact _| |intros []; solve_respects].
  apply updateTargets_sound; [done|]. intros ?. apply failed_ok.
Qed.

(** ** Opportunity rules and the stamp *)
Lemma put_rules_sound rs s : (market_ok s -> NoDup (or_id <$> rs)) -> sound s (put_rules rs s).
Proof. intros H Hs. specialize (H Hs). split; [|by split]. destruct Hs. by split. Qed.

Lemma member_merge_other key block payload :
  (forall m, m ∈ block -> fst m <> key) ->
  member key (match payload with BObject ms => BObject (merge_members ms block) | _ => BObject block end)
  = member key payload.
Proof.
  intros Hk. assert (lookup_member key block = None) as Hn.
  { unfold lookup_member. destruct (List.find _ block) as [m|] eqn:E; [|done].
    apply List.find_some in E as [Hin E]. apply String.eqb_eq in E. exfalso. apply (Hk m); [by apply list_elem_of_In|done]. }
  destruct payload as [| | | |?|ms]; cbn [member]; try exact Hn.
  clear Hn. unfold merge_members. revert ms. induction block as [|m block IH]; intros ms; [done|]. cbn [fold_left].
  rewrite IH by (intros q Hq; apply Hk; by right). apply lookup_set_other. apply Hk. by left.
Qed.
Lemma stamped_kept m n t e : me_ruleId e = None -> event_kept e (stamped_with m (stamp_block m n t) e).
Proof.
  intros Hn. split; try done.
  - rewrite Hn. by intros [].
  - intros key Hk. apply member_merge_other. intros q Hq. apply list_elem_of_singleton in Hq as ->. cbn. congruence.
Qed.
Lemma is_unstamped_spec id e : is_unstamped id e = true -> me_ruleId e = None.
Proof. unfold is_unstamped. rewrite andb_true_iff. intros [_ H]. by destruct (me_ruleId e). Qed.

Lemma stamped_events_sound id m n t s :
  sound s (put_events (update_rows (is_unstamped id) (stamped_with m (stamp_block m n t)) (mk_events s)) s).
Proof.
  intros Hs. split.
  - destruct Hs. split; cbn; try done; try by rewrite update_rows_keys.
    intros e (q & Hq & ->)%update_rows_elem. destruct (mo_events0 q Hq) as (H1 & H2 & H3).
    unfold event_ok, event_fks in *. by destruct (is_unstamped id q).
  - split; cbn; try done. apply update_rows_grows; [exact _|]. intros e _ He. by apply stamped_kept, (is_unstamped_spec id).
Qed.
Lemma stampEventWithRule_sound id m t n : always sound (stampEventWithRule id m t n).
Proof.
  intros s. unfold stampEventWithRule. cbv [mbind St_bind st_get st_modify mret St_ret st_throw].
  destruct (find_row _ _); [apply stamped_events_sound|]. by destruct (find_event _ _).
Qed.
Lemma evaluate_always (R : relation Market) `{!PreOrder R} fm e o :
  (forall id m t n, always R (stampEventWithRule id m t n)) -> always R (evaluateRulesForEvent fm e o).
Proof.
  intros HR. unfold evaluateRulesForEvent. apply always_bind; [exact _|apply always_gets; exact _|]. intros rules. cbv zeta.
  destruct rules as [|r rules]; [apply always_ret; exact _|].
  apply always_bind; [exact _| |].
  - unfold observations_for, loadObservationsForEvent.
    destruct (eo_currentObservation o) as [c|], (eo_previousObservation o) as [p|];
      try (apply always_ret; exact _);
      (apply always_bind; [exact _|apply always_gets; exact _|intros ?; apply always_ret; exact _]).
  - intros found. destruct (_ ≫= _) as [|w ms]; [apply always_ret; exact _|].
    apply always_bind; [exact _|apply always_gets; exact _|]. intros clock.
    apply always_bind; [exact _|apply HR|]. intros ?. apply always_ret; exact _.
Qed.
Lemma evaluateRulesForEvent_sound fm e o : always sound (evaluateRulesForEvent fm e o).
Proof. apply evaluate_always; [exact _|apply stampEventWithRule_sound]. Qed.

Lemma getRule_reads id : reads (getRule id).
Proof. unfold getRule. apply always_bind; [exact _|apply always_gets; exact _|]. intros [r|]; [apply always_ret|apply always_throw]; exact _. Qed.
Lemma opportunity_rule_sound fm i : always sound (createRule fm i).
Proof.
  unfold createRule. apply always_bind; [exact _|apply always_lift; exact _|]. intros _.
  apply always_bind; [exact _|auto with store|]. intros id s.
  cbv [mbind St_bind st_get st_modify mret St_ret demand st_throw]. cbv zeta.
  destruct (int4 _); [|reflexivity]. destruct (negb _) eqn:En; [|reflexivity]. destruct (opt_known _ _); [|reflexivity].
  apply put_rules_sound. intros []. apply negb_true_iff in En. apply NoDup_keys_snoc. split; [done|].
  by apply exists_id_false in En.
Qed.
Lemma updateRule_always (R : relation Market) `{!PreOrder R} fm id p :
  (forall A (m : mrun A), reads m -> always R m) ->
  (forall now s, R s (put_rules (update_rows (is_rule id) (rule_set p now) (mk_rules s)) s)) ->
  always R (updateRule fm id p).
Proof.
  intros Hr HR. unfold updateRule. apply always_bind; [exact _|apply always_lift; exact _|]. intros _.
  apply always_bind; [exact _|apply Hr, getRule_reads|]. intros r.
  apply always_bind; [exact _|apply always_lift; exact _|]. intros _.
  apply always_bind; [exact _|apply always_gets; exact _|]. intros now.
  apply always_bind; [exact _|unfold demand; destruct (int4 _); [apply always_ret|apply always_throw]; exact _|]. intros _.
  apply always_bind; [exact _|intros s; apply HR|].
  intros _. apply always_bind; [exact _|apply Hr, getRule_reads|]. intros ?. apply always_ret; exact _.
Qed.
Lemma deleteRule_always (R : relation Market) `{!PreOrder R} id :
  (forall A (m : mrun A), reads m -> always R m) ->
  (forall s, R s (put_rules (List.filter (fun r => negb (is_rule id r)) (mk_rules s)) s)) -> always R (deleteRule id).
Proof.
  intros Hr HR. unfold deleteRule. apply always_bind; [exact _|apply Hr, getRule_reads|]. intros r.
  apply always_bind; [exact _|intros s; apply HR|]. intros ?. apply always_ret; exact _.
Qed.
Lemma updateRule_sound fm id p : always sound (updateRule fm id p).
Proof.
  apply updateRule_always; [exact _|intros; by apply market_reads_sound|].
  intros now s. apply put_rules_sound. intros []. by rewrite update_rows_keys.
Qed.
Lemma deleteRule_sound id : always sound (deleteRule id).
Proof.
  apply deleteRule_always; [exact _|intros; by apply market_reads_sound|]. intros s. apply put_rules_sound. intros []. eapply NoDup_fmap_sublist; [apply bool_filter_sublist|done].
Qed.

(** ** The calls *)
Inductive market_call : Type :=
  | CallCreateTarget (i : CreateMonitorTargetInput)
  | CallUpdateTarget (id : uuid) (p : UpdateMonitorTargetInput)
  | CallDeleteTarget (id : uuid)
  | CallClaim (locked : list uuid) (now limit : Z)
  | CallSuccess (id : uuid) (o : RecordPollSuccessOptions)
  | CallFailure (id : uuid) (at_ : option Z)
  | CallUpsertItem (i : MarketplaceItemInput)
  | CallLink (target item : uuid) (at_ : option Z)
  | CallDeactivate (target : uuid) (present : list uuid) (at_ : option Z)
  | CallObserve (b : ObservationBatchInput)
  | CallDerive (item : uuid) (previous : option ObservationSnapshot) (current : ObservationSnapshot)
      (target : option uuid) (detectedAt : option Z)
  | CallNewListings (target : uuid) (items : list NewlyLinkedItem) (detectedAt : option Z)
  | CallEvaluate (event : EvaluableMarketEvent) (o : EvaluateRulesForEventOptions)
  | CallCreateRule (i : CreateOpportunityRuleInput)
  | CallUpdateRule (id : uuid) (p : UpdateOpportunityRuleInput)
  | CallDeleteRule (id : uuid).

Section machine.
Context (fm : Formats).

(** The store a call leaves, whether it returns or throws. *)
Definition after_market (c : market_call) (s : Market) : Market :=
  match c with
  | CallCreateTarget i => (createTarget fm i s).2
  | CallUpdateTarget id p => (updateTarget fm id p s).2
  | CallDeleteTarget id => (deleteTarget id s).2
  | CallClaim locked now limit => (claimDueTargets locked now limit s).2
  | CallSuccess id o => (recordPollSuccess id o s).2
  | CallFailure id a => (recordPollFailure id a s).2
  | CallUpsertItem i => (upsertMarketplaceItem i s).2
  | CallLink t i a => (linkItemToMonitor t i a s).2
  | CallDeactivate t p a => (deactivateAbsentMonitorItems t p a s).2
  | CallObserve b => (recordObservationBatch b s).2
  | CallDerive i p c t d => (deriveMarketEvents i p c t d s).2
  | CallNewListings t l d => (deriveNewListingEvents t l d s).2
  | CallEvaluate e o => (evaluateRulesForEvent fm e o s).2
  | CallCreateRule i => (createRule fm i s).2
  | CallUpdateRule id p => (updateRule fm id p s).2
  | CallDeleteRule id => (deleteRule id s).2
  end.

Lemma after_market_sound c s : sound s (after_market c s).
Proof.
  destruct c; cbn [after_market];
    [ apply createTarget_sound | apply updateTarget_sound | apply deleteTarget_sound | apply claimDueTargets_sound
    | apply recordPollSuccess_sound | apply recordPollFailure_sound | apply upsertMarketplaceItem_sound
    | apply linkItemToMonitor_sound | apply deactivateAbsent_sound | apply recordObservationBatch_sound
    | apply deriveMarketEvents_sound | apply deriveNewListingEvents_sound | apply evaluateRulesForEvent_sound
    | apply opportunity_rule_sound | apply updateRule_sound | apply deleteRule_sound ].
Qed.

Definition no_market (s : Market) : Prop :=
  mk_targets s = [] /\ mk_items s = [] /\ mk_links s = [] /\ mk_events s = [] /\ mk_observations s = []
  /\ mk_rules s = [].

(** The calls of the market package, with anything between them that keeps its
    tables.  Two other packages write monitor targets of their own
    ([inventory/src/purchase-sync.ts] and [commerce/src/sync.ts] insert and
    update the row of a sync): those writes are outside these stores. *)
Inductive market_reachable : Market -> Prop :=
  | mreach_empty s : no_market s -> market_reachable s
  | mreach_call c s : market_reachable s -> market_reachable (after_market c s)
  | mreach_elsewhere s s' : market_reachable s -> same_tables s s' -> market_reachable s'.

Lemma reachable_market_ok s : market_reachable s -> market_ok s.
Proof.
  induction 1 as [s (Et & Ei & El & Ee & Eo & Er)|c s _ IH|s s' _ IH He].
  - split; rewrite ?Et, ?Ei, ?El, ?Ee, ?Eo, ?Er; try apply NoDup_nil_2; by intros ? ?%not_elem_of_nil.
  - by apply (after_market_sound c s).
  - by apply (same_tables_sound s s').
Qed.
End machine.

(** ** A poll keeps what its executor keeps *)
Lemma pollTarget_sound executor id :
  (forall t, always sound (executor t)) -> always sound (pollTarget executor id).
Proof.
  intros Hx. unfold pollTarget. apply always_bind; [exact _|apply always_gets; exact _|]. intros [t|]; [|apply always_ret; exact _].
  destruct (negb _); [apply always_ret; exact _|]. apply always_catch; [exact _| |].
  - apply always_bind; [exact _|apply Hx|]. intros o. apply always_bind; [exact _|apply recordPollSuccess_sound|].
    intros ?. apply always_ret; exact _.
  - intros e. apply always_bind; [exact _|apply recordPollFailure_sound|]. intros ?. apply always_ret; exact _.
Qed.
Lemma dispatch_sound locked limit q : always sound (dispatchDueMonitors locked limit q).
Proof.
  unfold dispatchDueMonitors. apply always_bind; [exact _|apply always_gets; exact _|]. intros now.
  apply always_bind; [exact _|apply claimDueTargets_sound|]. intros ?. apply always_ret; exact _.
Qed.

(** ** One event per item, kind and instant *)
Lemma event_text_then t u x y :
  String.append (event_text t) (String ":" x) = String.append (event_text u) (String ":" y) -> t = u /\ x = y.
Proof. destruct t, u; cbn; intros E; try discriminate E; injection E as E; by split. Qed.

Lemma deduplicationKeyFor_inj i t a j u b :
  deduplicationKeyFor i t a = deduplicationKeyFor j u b -> i = j /\ t = u /\ a = b.
Proof.
  unfold deduplicationKeyFor, concat_text. cbn [foldr]. rewrite !append_nil_r. intros E.
  assert (forall k, Js.all_digits (uuid_text k) = true) as Hd.
  { intros k. by destruct (bigint_to_string_spec (Zpos k) ltac:(done)) as (H & _ & _). }
  cbn [String.append] in E. apply digits_then in E as [Ei E]; [|done|apply Hd..].
  apply event_text_then in E as [-> E]. split; [by apply uuid_text_inj|]. split; [done|]. by apply toISOString_inj.
Qed.

Definition event_key (e : MarketEventRow) : uuid * MarketEventType * Z :=
  (me_marketplaceItemId e, me_eventType e, me_toObservedAt e).

Lemma event_keys_unique s : market_ok s -> NoDup (event_key <$> mk_events s).
Proof.
  intros Hs. assert (me_deduplicationKey <$> mk_events s
    = (fun k => deduplicationKeyFor k.1.1 k.1.2 k.2) <$> (event_key <$> mk_events s)) as E.
  { rewrite <- list_fmap_compose. apply list_fmap_ext. intros i e He. apply list_elem_of_lookup_2 in He.
    by destruct (mo_events s Hs e He) as (-> & _). }
  pose proof (mo_event_keys s Hs) as Hk. rewrite E in Hk. by apply NoDup_fmap_1 in Hk.
Qed.

(** ** A small market *)
Definition any_format : Formats := {| iso_datetime := fun _ => true; uuid_shape := fun _ => true |}.
Definition quiet_market : Market :=
  {| mk_targets := []; mk_items := []; mk_links := []; mk_events := []; mk_observations := [];
     mk_rules := []; mk_connections := [7]%positive; mk_users := []; mk_referenced := []; mk_next := 10; mk_now := 1786453200000 |}.

Definition target_input (type : MonitorTargetType) (interval : Z) (config : jsonb) : CreateMonitorTargetInput :=
  {| ct_targetType := type; ct_name := "lenses"; ct_connectionId := Some 7%positive; ct_enabled := None;
     ct_intervalSeconds := interval; ct_priority := None; ct_config := Some config; ct_nextPollAt := None;
     ct_createdByUserId := None |}.
Definition search_config : jsonb := BObject [("query", BText "nikkor 50mm")]%string.
Definition item_input (seenAt : Z) : MarketplaceItemInput :=
  {| im_provider := "ebay"; im_marketplace := "EBAY_US"; im_externalItemId := "v1|1|0"; im_seenAt := seenAt;
     im_currentState := None; im_sellerExternalId := None; im_canonicalUrl := None; im_title := Some "Nikkor 50mm"%string;
     im_conditionCode := None; im_categoryExternalId := None; im_listingType := None; im_listingStartedAt := None;
     im_listingEndsAt := None |}.
Definition linked_item (item : uuid) : NewlyLinkedItem :=
  {| nl_marketplaceItemId := item; nl_externalItemId := Some "v1|1|0"%string; nl_title := None; nl_price := None;
     nl_currency := None; nl_canonicalUrl := None; nl_sellerExternalId := None; nl_listingEndsAt := None |}.
Definition snapshot (at_ : Z) (price : string) (quantity : Z) : ObservationSnapshot :=
  {| os_observedAt := at_; os_price := Some price; os_currency := Some "USD"%string;
     os_quantityAvailable := Some quantity; os_availability := None; os_listingState := Some "active"%string |}.

(** Two searches, 10 and 11; the first discovers the item 12 and sees its price drop. *)
Definition LENSES : uuid := 10.
Definition CHEAP : uuid := 11.
Definition LENS : uuid := 12.
Definition NOON : Z := 1786453200000.
Definition two_searches : Market :=
  after_market any_format (CallCreateTarget (target_input ebay_search 600 search_config))
    (after_market any_format (CallCreateTarget (target_input ebay_search 3600 search_config)) quiet_market).
Definition discovered : Market :=
  after_market any_format (CallNewListings LENSES [linked_item LENS] (Some NOON))
    (after_market any_format (CallLink LENSES LENS (Some NOON))
      (after_market any_format (CallUpsertItem (item_input NOON)) two_searches)).
Definition price_drop : market_call :=
  CallDerive LENS (Some (snapshot NOON "120" 2)) (snapshot (NOON + 60000) "99.50" 2) (Some LENSES) None.
Definition dropped : Market := after_market any_format price_drop discovered.

Lemma dropped_reachable : market_reachable any_format dropped.
Proof. unfold dropped, discovered, two_searches. do 6 apply mreach_call. by apply mreach_empty. Qed.

(** C10. Whatever calls of the market package ran, in whatever order, and whether they
    returned or threw: identifiers are unique, and so are an item's provider, marketplace and
    external id, a link's target and item, an observation's batch, item and instant, and an
    event's item, kind and newer instant - a retry or a second monitor never records the same
    event again; every target has a positive interval and is backing off exactly when
    its last poll failed; an item's and a link's first instant is not after its last; every
    link names a target and an item that exist, and every event its item and its target. *)
Theorem market_tables_ok fm s : market_reachable fm s -> market_ok s /\ NoDup (event_key <$> mk_events s).
Proof. intros Hs%reachable_market_ok. split; [done|by apply event_keys_unique]. Qed.
Lemma market_tables_ok_witness :
  market_ok dropped /\ event_key <$> mk_events dropped
    = [(LENS, new_listing, NOON); (LENS, price_changed, NOON + 60000); (LENS, price_dropped, NOON + 60000)] /\
  mk_events (after_market any_format price_drop dropped) = mk_events dropped.
Proof.
  split; [exact (proj1 (market_tables_ok any_format dropped dropped_reachable))|]. split; vm_compute; reflexivity.
Defined.

(** C11. What a call leaves of what was recorded, whether it returns or throws: no item, link,
    event or observation is deleted or reordered; an observation never changes, and an
    event only once, when a rule is stamped on it, in its rule and one member of its payload; an
    item keeps its identity and every fact known of it, is first seen no later and last seen no
    earlier than before; a link keeps the instant of its discovery, and its last match only
    moves forward. *)
Theorem market_history_kept fm c s : market_reachable fm s -> history s (after_market fm c s).
Proof. intros Hs. by apply after_market_sound, (reachable_market_ok fm). Qed.
Lemma market_history_kept_witness :
  history dropped (after_market any_format (CallUpsertItem (item_input (NOON - 5000))) dropped) /\
  (fun i => (mi_firstSeenAt i, mi_lastSeenAt i))
    <$> mk_items (after_market any_format (CallUpsertItem (item_input (NOON - 5000))) dropped) = [(NOON - 5000, NOON)].
Proof. split; [exact (market_history_kept any_format (CallUpsertItem (item_input (NOON - 5000))) dropped dropped_reachable)|]. vm_compute. reflexivity. Defined.
