(* ===== verification/AdaptiveFacts.v ===== *)
(** * What the adaptive cadence promises

    The bounds of the interval, and the round trip of the stored state. *)
From Stdlib Require Import Lqa.
From S2P Require Import Prelude Decimal Inputs Store Schema Ledger LedgerFacts Stock Config Adaptive.
From S2P Require Import MarketTables Monitors Polls.

#[global] Set Default Goal Selector "!".

Open Scope Z_scope.

(** ** Rounding *)
Lemma lt_bool_true a b : lt_bool a b = true <-> (a < b)%Q.
Proof.
  unfold lt_bool. rewrite negb_true_iff, <- not_true_iff_false, Qle_bool_iff. split; [apply Qnot_le_lt|apply Qlt_not_le].
Qed.
Lemma lt_bool_false a b : lt_bool a b = false <-> (b <= a)%Q.
Proof. unfold lt_bool. by rewrite negb_false_iff, Qle_bool_iff. Qed.
Lemma lt_bool_spec a b : reflect (a < b)%Q (lt_bool a b).
Proof. apply iff_reflect. symmetry. apply lt_bool_true. Qed.

Lemma Qfloor_iff z q : z <= Qfloor q <-> (inject_Z z <= q)%Q.
Proof.
  split; intros H.
  - eapply Qle_trans; [|apply Qfloor_le]. by rewrite <- Zle_Qle.
  - rewrite <- (Qfloor_Z z). by apply Qfloor_resp_le.
Qed.

Lemma round_bounds q : (inject_Z (round q) - (1 # 2) <= q)%Q /\ (q < inject_Z (round q) + (1 # 2))%Q.
Proof.
  unfold round. pose proof (Qfloor_le (q + (1 # 2))). pose proof (Qlt_floor (q + (1 # 2))) as H1.
  rewrite inject_Z_plus in H1. change (inject_Z 1) with 1%Q in H1. split; lra.
Qed.

Lemma round_le z q : (inject_Z z <= q)%Q -> z <= round q.
Proof. intros H. unfold round. apply Qfloor_iff. lra. Qed.
Lemma round_ge z q : (q <= inject_Z z)%Q -> round q <= z.
Proof.
  intros H. destruct (round_bounds q) as [H1 _]. apply Z.lt_succ_r. rewrite Zlt_Qlt. unfold Z.succ.
  rewrite inject_Z_plus. change (inject_Z 1) with 1%Q. lra.
Qed.

(** ** The tiers *)

(** The conditions of the module's tables. *)
Definition applies (activity streak : Z) (ends : option Q) (t : AdaptiveTier) : Prop :=
  match t with
  | auction_endgame => exists s, ends = Some s /\ (s < 300)%Q
  | auction_near_end => exists s, ends = Some s /\ (s < 1800)%Q
  | auction_approaching_end => exists s, ends = Some s /\ (s < 21600)%Q
  | activity_hot => 8 <= activity
  | activity_warm => 3 <= activity
  | steady => True
  | idle_relaxed => activity = 0 /\ 6 <= streak
  | idle_long => activity = 0 /\ 12 <= streak
  | idle_very_long => activity = 0 /\ 24 <= streak
  end.
Definition tightens (t : AdaptiveTier) : Prop := (ADAPTIVE_TIER_FACTORS t < 1)%Q.
Definition relaxes (t : AdaptiveTier) : Prop := (1 < ADAPTIVE_TIER_FACTORS t)%Q.

(** The tier applies; a tightening tier that applies is never beaten by a looser
    one; and without one the longest idle stretch counts. *)
Definition right_tier (activity streak : Z) (ends : option Q) (t : AdaptiveTier) : Prop :=
  applies activity streak ends t
  /\ (forall u, tightens u -> applies activity streak ends u -> (ADAPTIVE_TIER_FACTORS t <= ADAPTIVE_TIER_FACTORS u)%Q)
  /\ ((forall u, tightens u -> ~ applies activity streak ends u) ->
      forall u, applies activity streak ends u -> (ADAPTIVE_TIER_FACTORS u <= ADAPTIVE_TIER_FACTORS t)%Q).

Lemma auction_cases ends :
  (exists s, ends = Some s /\ (s < 300)%Q /\ auction_tier ends = Some auction_endgame)
  \/ (exists s, ends = Some s /\ (300 <= s < 1800)%Q /\ auction_tier ends = Some auction_near_end)
  \/ (exists s, ends = Some s /\ (1800 <= s < 21600)%Q /\ auction_tier ends = Some auction_approaching_end)
  \/ ((forall s, ends = Some s -> (21600 <= s)%Q) /\ auction_tier ends = None).
Proof.
  destruct ends as [s|]; [|right; right; right; by split]. cbn [auction_tier].
  unfold AUCTION_ENDGAME_SECONDS, AUCTION_NEAR_END_SECONDS, AUCTION_APPROACHING_END_SECONDS.
  change (inject_Z 300) with 300%Q. change (inject_Z 1800) with 1800%Q. change (inject_Z 21600) with 21600%Q.
  destruct (lt_bool_spec s 300) as [H1|H1%Qnot_lt_le]; [left; exists s; auto|].
  destruct (lt_bool_spec s 1800) as [H2|H2%Qnot_lt_le]; [right; left; exists s; auto|].
  destruct (lt_bool_spec s 21600) as [H3|H3%Qnot_lt_le]; [right; right; left; exists s; auto|].
  right. right. right. split; [by intros ? [= <-]|done].
Qed.

Ltac tier_cases :=
  cbn [applies ADAPTIVE_TIER_FACTORS] in *; unfold tightens in *; cbn [ADAPTIVE_TIER_FACTORS] in *;
  repeat match goal with
    | H : exists _, _ |- _ => destruct H as (? & ? & ?)
    | H : _ /\ _ |- _ => destruct H
    end; simplify_eq;
  try match goal with H : forall s, Some _ = Some s -> _ |- _ => specialize (H _ eq_refl) end;
  try lra; try lia;
  first [done | split; lia | by (eexists; split; [reflexivity|]; lra) | idtac].

Lemma tier_by_signal activity streak ends : 0 <= activity ->
  applies activity streak ends (selectAdaptiveTier activity streak ends).
Proof.
  intros Ha. unfold selectAdaptiveTier, activity_tier, ACTIVITY_HOT_COUNT, ACTIVITY_WARM_COUNT,
    IDLE_STREAK_VERY_LONG, IDLE_STREAK_LONG, IDLE_STREAK_RELAXED.
  destruct (auction_cases ends) as [(s & Hs & B & ->)|[(s & Hs & B & ->)|[(s & Hs & B & ->)|[Hs ->]]]];
    destruct (Z.leb_spec 8 activity); try destruct (Z.leb_spec 3 activity);
    try (destruct (Z.eqb_spec activity 0); [destruct (Z.leb_spec 24 streak); [|destruct (Z.leb_spec 12 streak);
      [|destruct (Z.leb_spec 6 streak)]]|]); cbn -[Z.le Z.lt Qle Qlt]; tier_cases.
Qed.

Lemma tightest_wins activity streak ends u : 0 <= activity ->
  tightens u -> applies activity streak ends u ->
  (ADAPTIVE_TIER_FACTORS (selectAdaptiveTier activity streak ends) <= ADAPTIVE_TIER_FACTORS u)%Q.
Proof.
  intros Ha Hu Hw. unfold selectAdaptiveTier, activity_tier, ACTIVITY_HOT_COUNT, ACTIVITY_WARM_COUNT,
    IDLE_STREAK_VERY_LONG, IDLE_STREAK_LONG, IDLE_STREAK_RELAXED.
  destruct (auction_cases ends) as [(s & Hs & B & ->)|[(s & Hs & B & ->)|[(s & Hs & B & ->)|[Hs ->]]]];
    destruct (Z.leb_spec 8 activity); try destruct (Z.leb_spec 3 activity);
    try (destruct (Z.eqb_spec activity 0); [destruct (Z.leb_spec 24 streak); [|destruct (Z.leb_spec 12 streak);
      [|destruct (Z.leb_spec 6 streak)]]|]); destruct u; cbn -[Z.le Z.lt Qle Qlt]; tier_cases.
Qed.

Lemma idle_counts activity streak ends u : 0 <= activity ->
  (forall t, tightens t -> ~ applies activity streak ends t) -> applies activity streak ends u ->
  (ADAPTIVE_TIER_FACTORS u <= ADAPTIVE_TIER_FACTORS (selectAdaptiveTier activity streak ends))%Q.
Proof.
  intros Ha Hn Hu. pose proof (Hn activity_warm ltac:(unfold tightens; cbn; lra)) as Hw.
  pose proof (Hn auction_approaching_end ltac:(unfold tightens; cbn; lra)) as Hs. cbn in Hw.
  assert (auction_tier ends = None) as Ee.
  { destruct (auction_cases ends) as [(s & -> & B & _)|[(s & -> & B & _)|[(s & -> & B & _)|[_ E]]]]; [..|done];
      exfalso; apply Hs; eexists; (split; [reflexivity|]); lra. }
  unfold selectAdaptiveTier, activity_tier, ACTIVITY_HOT_COUNT, ACTIVITY_WARM_COUNT,
    IDLE_STREAK_VERY_LONG, IDLE_STREAK_LONG, IDLE_STREAK_RELAXED. rewrite Ee.
  destruct (Z.leb_spec 8 activity), (Z.leb_spec 3 activity); try lia.
  assert (forall t, applies activity streak ends t -> (ADAPTIVE_TIER_FACTORS t < 1)%Q -> False) as Hn' by exact (fun t x y => Hn t y x).
  destruct (Z.eqb_spec activity 0); [destruct (Z.leb_spec 24 streak); [|destruct (Z.leb_spec 12 streak);
      [|destruct (Z.leb_spec 6 streak)]]|]; destruct u; cbn -[Z.le Z.lt Qle Qlt];
    first [lra | exfalso; apply (Hn' _ Hu); cbn; lra | tier_cases].
Qed.

Lemma select_right activity streak ends :
  0 <= activity -> right_tier activity streak ends (selectAdaptiveTier activity streak ends).
Proof.
  intros Ha. split; [by apply tier_by_signal|split].
  - intros u. by apply tightest_wins.
  - intros Hn u. by apply idle_counts.
Qed.

(** ** The interval *)
Lemma nonNegativeCount_nonneg v z : nonNegativeCount v = Ok z -> 0 <= z.
Proof. destruct v as [[q|]|]; cbn; [intros [= <-]; lia|done|by intros [= <-]]. Qed.

Lemma resolveBounds_pos b r : resolveBounds b = Ok r -> 1 <= ab_minSeconds r /\ 1 <= ab_maxSeconds r.
Proof.
  unfold resolveBounds. rewrite !bind_Ok. intros (lo & Hlo & H). rewrite bind_Ok in H. destruct H as (hi & Hhi & [= <-]).
  assert (forall n q, bound_ok n = Ok q -> (1 <= q)%Q) as Hb.
  { intros [q|] q'; cbn; [|done]. destruct (lt_bool q 1) eqn:E; [done|]. intros [= <-]. by apply lt_bool_false. }
  cbn. split.
  - rewrite Zle_Qle. eapply Qle_trans; [exact (Hb _ _ Hlo)|apply Qle_ceiling].
  - apply Qfloor_iff. exact (Hb _ _ Hhi).
Qed.

(** A step of damping stays within a factor of four of the interval before. *)
Lemma damp_within p s : (0 < p)%Q ->
  (p / 4 <= fst (damp (Some p) s))%Q /\ (fst (damp (Some p) s) <= p * 4)%Q.
Proof.
  intros Hp. unfold damp, MAX_STEP_FACTOR. cbv zeta. rewrite (proj2 (lt_bool_true 0 p) Hp).
  assert (p / 4 == p * (1 # 4))%Q as E by (unfold Qdiv; by rewrite (Qmult_comm p), (Qmult_comm p)).
  destruct (lt_bool_spec s (p / 4)) as [H|H%Qnot_lt_le]; cbn [fst]; [rewrite E; split; lra|].
  destruct (lt_bool_spec (p * 4) s) as [H1|H1%Qnot_lt_le]; cbn [fst]; rewrite E in *; split; lra.
Qed.

Lemma clamped_within b s :
  (inject_Z (ab_minSeconds b) <= fst (clamp_min b (clamp_max b s)))%Q
  /\ (ab_minSeconds b <= ab_maxSeconds b -> (fst (clamp_min b (clamp_max b s)) <= inject_Z (ab_maxSeconds b))%Q)
  /\ (ab_maxSeconds b < ab_minSeconds b -> fst (clamp_min b (clamp_max b s)) = inject_Z (ab_minSeconds b)).
Proof.
  assert (fst (clamp_max b s) <= inject_Z (ab_maxSeconds b))%Q as Hmax.
  { unfold clamp_max. destruct (lt_bool_spec (inject_Z (ab_maxSeconds b)) (fst s)) as [H|H%Qnot_lt_le]; cbn; [apply Qle_refl|done]. }
  unfold clamp_min. destruct (lt_bool_spec (fst (clamp_max b s)) (inject_Z (ab_minSeconds b))) as [H|H%Qnot_lt_le]; cbn [fst].
  - split; [apply Qle_refl|]. split; [by rewrite <- Zle_Qle|done].
  - split; [done|]. split; [done|]. intros Hlt. rewrite Zlt_Qlt in Hlt. exfalso. apply (Qlt_irrefl (inject_Z (ab_minSeconds b))).
    eapply Qle_lt_trans; [exact H|]. eapply Qle_lt_trans; [exact Hmax|exact Hlt].
Qed.

(** Clamping a value that is at least (at most) a bound inside the range keeps it so. *)
Lemma clamped_ge b s x : (x <= inject_Z (ab_maxSeconds b))%Q -> (x <= fst s)%Q -> (x <= fst (clamp_min b (clamp_max b s)))%Q.
Proof.
  intros Hx Hs. assert (x <= fst (clamp_max b s))%Q as H1 by (unfold clamp_max; by destruct (lt_bool _ _)).
  unfold clamp_min. destruct (lt_bool_spec (fst (clamp_max b s)) (inject_Z (ab_minSeconds b))) as [H|H]; cbn [fst]; [|done].
  apply Qlt_le_weak. by eapply Qle_lt_trans.
Qed.
Lemma clamped_le b s x : (inject_Z (ab_minSeconds b) <= x)%Q -> (fst s <= x)%Q -> (fst (clamp_min b (clamp_max b s)) <= x)%Q.
Proof.
  intros Hx Hs. unfold clamp_min.
  destruct (lt_bool _ _); cbn [fst]; [done|]. unfold clamp_max.
  destruct (lt_bool_spec (inject_Z (ab_maxSeconds b)) (fst s)) as [H|H]; cbn [fst]; [|done].
  apply Qlt_le_weak. by eapply Qlt_le_trans.
Qed.

Lemma evaluate_inv input d : evaluateAdaptiveInterval input = Ok d ->
  exists base events changes streak,
    ai_baseIntervalSeconds input = Finite base /\ (0 < base)%Q
    /\ resolveBounds (ai_bounds input) = Ok (ad_bounds d)
    /\ nonNegativeCount (ai_recentEventCount input) = Ok events
    /\ nonNegativeCount (ai_recentChangeCount input) = Ok changes
    /\ nonNegativeCount (ai_unchangedStreak input) = Ok streak
    /\ ad_tier d = selectAdaptiveTier (events + changes) streak (listing_end (ai_secondsUntilListingEnd input))
    /\ ad_factor d = ADAPTIVE_TIER_FACTORS (ad_tier d)
    /\ ad_intervalSeconds d = Z.max 1 (round (fst (clamp_min (ad_bounds d) (clamp_max (ad_bounds d)
         (damp (ai_previousIntervalSeconds input) (base * ADAPTIVE_TIER_FACTORS (ad_tier d))%Q))))).
Proof.
  unfold evaluateAdaptiveInterval. rewrite bind_Ok. intros (base & Hbase & H).
  rewrite bind_Ok in H. destruct H as (b & Hb & H). rewrite bind_Ok in H. destruct H as (e & He & H).
  rewrite bind_Ok in H. destruct H as (c & Hc & H). rewrite bind_Ok in H. destruct H as (k & Hk & H). cbv zeta in H.
  exists base, e, c, k.
  destruct (ai_baseIntervalSeconds input) as [q|]; [|done]. destruct (Qle_bool q 0) eqn:Eq; [done|]. injection Hbase as ->.
  destruct (clamp_min b _) as [x y] eqn:Ex in H. injection H as <-. cbn [ad_bounds ad_tier ad_factor ad_intervalSeconds].
  rewrite Ex. repeat split; try done. apply lt_bool_true. unfold lt_bool. by rewrite Eq.
Qed.

(** *** What the caller passes *)

(** A count as the policy takes it: zero when absent or negative, else rounded
    down; a count that is not finite is refused. *)
Inductive counted : option number -> Z -> Prop :=
  | counted_absent : counted None 0
  | counted_negative q : (q < 0)%Q -> counted (Some (Finite q)) 0
  | counted_down q z : 0 <= z -> (inject_Z z <= q < inject_Z (z + 1))%Q -> counted (Some (Finite q)) z.

(** The bound the caller gives, or the documented default. *)
Definition bound_in_force (given : option number) (otherwise q : Q) : Prop :=
  given = Some (Finite q) \/ given = None /\ q = otherwise.
Record bounds_in_force (b : option BoundsInput) (floor ceiling : Q) : Prop := {
  bf_floor : bound_in_force (i ← b; bi_minSeconds i) 30 floor;
  bf_ceiling : bound_in_force (i ← b; bi_maxSeconds i) 86400 ceiling;
  bf_floor_ok : (1 <= floor)%Q;
  bf_ceiling_ok : (1 <= ceiling)%Q;
}.

(** The whole seconds inside the bounds: the floor rounded up, the ceiling down. *)
Definition whole_bounds (floor ceiling : Q) (r : AdaptiveBounds) : Prop :=
  (floor <= inject_Z (ab_minSeconds r) < floor + 1)%Q /\ (inject_Z (ab_maxSeconds r) <= ceiling < inject_Z (ab_maxSeconds r) + 1)%Q.

Lemma nonNegativeCount_counted v z : nonNegativeCount v = Ok z -> counted v z.
Proof.
  destruct v as [[q|]|]; cbn; [|done|intros [= <-]; constructor]. intros [= <-].
  destruct (Qlt_le_dec q 0) as [Hq|Hq].
  - assert (Qfloor q < 0) as Hf by (rewrite Zlt_Qlt; eapply Qle_lt_trans; [apply Qfloor_le|exact Hq]).
    rewrite Z.max_l by lia. by apply counted_negative.
  - assert (0 <= Qfloor q) as Hf by (by apply Qfloor_iff). rewrite Z.max_r by lia.
    apply counted_down; [done|]. split; [apply Qfloor_le|apply Qlt_floor].
Qed.

Lemma bound_ok_inv given otherwise q : bound_ok (bound_given given otherwise) = Ok q ->
  bound_in_force given otherwise q /\ (1 <= q)%Q.
Proof.
  unfold bound_ok, bound_given, bound_in_force. destruct given as [[x|]|]; cbn; [|done|].
  - destruct (lt_bool x 1) eqn:E; [done|]. intros [= <-]. apply lt_bool_false in E. auto.
  - destruct (lt_bool otherwise 1) eqn:E; [done|]. intros [= <-]. apply lt_bool_false in E. auto.
Qed.

Lemma resolveBounds_inv b r : resolveBounds b = Ok r ->
  exists floor ceiling, bounds_in_force b floor ceiling /\ whole_bounds floor ceiling r.
Proof.
  unfold resolveBounds. rewrite bind_Ok. intros (lo & Hlo & H). rewrite bind_Ok in H. destruct H as (hi & Hhi & [= <-]).
  apply bound_ok_inv in Hlo as [Hlo ?]. apply bound_ok_inv in Hhi as [Hhi ?]. exists lo, hi. split; [by split|].
  unfold whole_bounds. cbn [ab_minSeconds ab_maxSeconds]. split; [split|split].
  - apply Qle_ceiling.
  - pose proof (Qceiling_lt lo) as Hc. unfold Z.sub in Hc. rewrite inject_Z_plus in Hc. change (inject_Z (- (1))) with (-1)%Q in Hc. lra.
  - apply Qfloor_le.
  - pose proof (Qlt_floor hi) as Hf. rewrite inject_Z_plus in Hf. exact Hf.
Qed.

(** C15. The adaptive interval keeps every promise of the policy.  Whenever the policy
    answers, the tier is the one the documented tables select for the caller's events
    plus changes, unchanged streak and seconds to the end of the listing (an absent
    count is zero, others are rounded down and never negative): it applies, no
    tightening tier that applies has a smaller factor, and without any tightening tier
    no idle tier that applies is longer.  The bounds are the caller's, or thirty seconds
    and a day, in whole seconds.  The interval is a whole number of at least one
    second, never below the caller's floor, never above the ceiling unless the floor
    is, and then the floor itself; it moves by at most a factor of four (up to
    rounding) from a previous interval inside the bounds; and with no previous interval
    and nothing to clamp it is the base times the tier's factor, rounded. *)
Theorem adaptive_policy (input : AdaptiveIntervalInput) (d : AdaptiveDecision) :
  evaluateAdaptiveInterval input = Ok d ->
  let n := ad_intervalSeconds d in
  let lo := ab_minSeconds (ad_bounds d) in
  let hi := ab_maxSeconds (ad_bounds d) in
  exists base events changes streak floor ceiling,
    ai_baseIntervalSeconds input = Finite base /\ (0 < base)%Q
    /\ counted (ai_recentEventCount input) events /\ counted (ai_recentChangeCount input) changes
    /\ counted (ai_unchangedStreak input) streak
    /\ bounds_in_force (ai_bounds input) floor ceiling /\ whole_bounds floor ceiling (ad_bounds d)
    /\ right_tier (events + changes) streak (listing_end (ai_secondsUntilListingEnd input)) (ad_tier d)
    /\ ad_factor d = ADAPTIVE_TIER_FACTORS (ad_tier d)
    /\ (floor <= inject_Z n)%Q /\ 1 <= lo <= n /\ (lo <= hi -> n <= hi) /\ (hi < lo -> n = lo)
    /\ (forall p, ai_previousIntervalSeconds input = Some (inject_Z p) -> 0 < p -> lo <= p <= hi -> p - 2 <= 4 * n <= 16 * p)
    /\ (ai_previousIntervalSeconds input = None ->
        (inject_Z lo <= base * ADAPTIVE_TIER_FACTORS (ad_tier d))%Q ->
        (base * ADAPTIVE_TIER_FACTORS (ad_tier d) <= inject_Z hi)%Q ->
        n = round (base * ADAPTIVE_TIER_FACTORS (ad_tier d))).
Proof.
  intros H. destruct (evaluate_inv _ _ H) as (base & events & changes & streak & Eb & Hb & Hr & He & Hc & Hk & Et & Ef & En).
  cbv zeta. destruct (resolveBounds_pos _ _ Hr) as [Hlo Hhi]. destruct (resolveBounds_inv _ _ Hr) as (floor & ceiling & Hbf & Hwb).
  pose proof (nonNegativeCount_nonneg _ _ He) as Ce. pose proof (nonNegativeCount_nonneg _ _ Hc) as Cc.
  exists base, events, changes, streak, floor, ceiling. do 2 (split; [done|]).
  do 3 (split; [by apply nonNegativeCount_counted|]). split; [done|]. split; [done|].
  split; [rewrite Et; apply select_right; lia|]. split; [done|].
  assert (Hn : ad_intervalSeconds d >= ab_minSeconds (ad_bounds d) -> (floor <= inject_Z (ad_intervalSeconds d))%Q).
  { intros Hn%Z.ge_le. rewrite Zle_Qle in Hn. eapply Qle_trans; [apply Hwb|exact Hn]. }
  set (x := fst _) in En. destruct (clamped_within (ad_bounds d) (damp (ai_previousIntervalSeconds input)
    (base * ADAPTIVE_TIER_FACTORS (ad_tier d))%Q)) as (H1 & H2 & H3). fold x in H1, H2, H3.
  pose proof (round_le _ _ H1) as R1. rewrite Z.max_r in En by lia. rewrite En in Hn |- *.
  split; [apply Hn; lia|]. split; [lia|].
  split; [intros H4; by apply round_ge, H2|]. split.
  { intros H4. apply Z.le_antisymm; [|done]. apply round_ge. rewrite (H3 H4). apply Qle_refl. }
  split.
  - intros p Ep Hp Hin. assert (0 < inject_Z p)%Q as Hp' by (by rewrite (Zlt_Qlt 0 p) in Hp).
    destruct (damp_within (inject_Z p) (base * ADAPTIVE_TIER_FACTORS (ad_tier d))%Q Hp') as [D1 D2].
    assert (inject_Z p / 4 == inject_Z p * (1 # 4))%Q as E by (unfold Qdiv; by rewrite (Qmult_comm (inject_Z p)), (Qmult_comm (inject_Z p))).
    assert (inject_Z (ab_minSeconds (ad_bounds d)) <= inject_Z p)%Q as P1 by (rewrite <- Zle_Qle; lia).
    assert (inject_Z p <= inject_Z (ab_maxSeconds (ad_bounds d)))%Q as P2 by (rewrite <- Zle_Qle; lia).
    rewrite <- Ep in D1, D2.
    assert (inject_Z p / 4 <= x)%Q as X1 by (apply clamped_ge; [rewrite E; lra|done]).
    assert (x <= inject_Z p * 4)%Q as X2 by (apply clamped_le; [lra|done]).
    rewrite E in X1. destruct (round_bounds x) as [B1 B2]. split.
    + apply Z.lt_le_incl. rewrite Zlt_Qlt, inject_Z_mult. unfold Z.sub. rewrite inject_Z_plus.
      change (inject_Z (- (2))) with (-2)%Q. change (inject_Z 4) with 4%Q. lra.
    + assert (round x <= p * 4); [|lia]. apply round_ge. rewrite inject_Z_mult. exact X2.
  - intros Ep L1 L2. subst x. rewrite Ep. cbn [damp].
    unfold clamp_max. cbn [fst]. rewrite (proj2 (lt_bool_false _ _) L2).
    unfold clamp_min. cbn [fst]. rewrite (proj2 (lt_bool_false _ _) L1). done.
Qed.

Definition quiet_hour : AdaptiveIntervalInput :=
  {| ai_baseIntervalSeconds := Finite 900; ai_recentEventCount := Some (Finite 0);
     ai_recentChangeCount := None; ai_unchangedStreak := Some (Finite 13); ai_secondsUntilListingEnd := None;
     ai_previousIntervalSeconds := Some 900%Q; ai_bounds := None |}.

Lemma adaptive_policy_witness :
  exists d, evaluateAdaptiveInterval quiet_hour = Ok d /\ ad_intervalSeconds d = 3600 /\ ad_tier d = idle_long /\
    900 - 2 <= 4 * ad_intervalSeconds d <= 16 * 900.
Proof.
  eexists. split; [vm_compute; reflexivity|]. split; [reflexivity|]. split; [reflexivity|].
  destruct (adaptive_policy quiet_hour _ eq_refl)
    as (b & e & c & k & f & g & _ & _ & _ & _ & _ & _ & _ & _ & _ & _ & _ & _ & _ & H & _).
  apply (H 900); [reflexivity|lia|vm_compute; split; discriminate].
Defined.

(** ** The stored adaptive state

    What is merged under [config.adaptive] is what the next poll reads back, and
    nothing else of the configuration changes. *)

#[global] Set Default Goal Selector "!".

#[local] Arguments String.append : simpl nomatch.

Lemma set_member_elem k v ms m : m ∈ set_member k v ms -> m = (k, v) \/ m ∈ ms.
Proof.
  unfold set_member. intros [H|H%list_elem_of_singleton]%elem_of_app; [right|by left].
  by apply elem_of_bool_filter in H as [_ H].
Qed.
Lemma merge_members_elem a b m : m ∈ merge_members a b -> m ∈ a \/ m ∈ b.
Proof.
  unfold merge_members. revert a. induction b as [|[k v] b IH]; intros a; cbn; [by left|].
  intros [H|H]%IH; [|right; by right]. apply set_member_elem in H as [->|H]; [right; by left|by left].
Qed.

Lemma merge_cons k v a b : merge_members a ((k, v) :: b) = merge_members (set_member k v a) b.
Proof. done. Qed.

(** Reading a member of a merged object. *)
Lemma lookup_merge_other key a b : key ∉ b.*1 -> lookup_member key (merge_members a b) = lookup_member key a.
Proof.
  revert a. induction b as [|[k v] b IH]; intros a Hk; [done|]. rewrite merge_cons, IH by set_solver.
  apply lookup_set_other. set_solver.
Qed.
Lemma lookup_merge_in key v a b : NoDup b.*1 -> (key, v) ∈ b -> lookup_member key (merge_members a b) = Some v.
Proof.
  revert a. induction b as [|[k w] b IH]; intros a; [by intros _ ?%not_elem_of_nil|]. rewrite merge_cons, fmap_cons.
  intros [Hk Hb]%NoDup_cons [Heq|Hin]%elem_of_cons; [|by apply IH].
  injection Heq as <- <-. rewrite lookup_merge_other by done. apply lookup_set_member.
Qed.

Section patch.
Context (k : Z) (d : AdaptiveDecision) (at_ : Z).
Hypothesis Hk : 0 <= k.
Hypothesis Hks : isSafeInteger k = true.
Hypothesis Hd : 1 <= ad_intervalSeconds d.
Hypothesis Hds : isSafeInteger (ad_intervalSeconds d) = true.
Abbreviation patch := (adaptiveStatePatch k d at_).

Lemma patch_keys : patch.*1 = ["unchangedStreak"; "lastComputedInterval"; "lastTier"; "updatedAt"]%string.
Proof. reflexivity. Qed.
Lemma patch_NoDup : NoDup patch.*1.
Proof. rewrite patch_keys. apply (bool_decide_unpack _). vm_compute. exact I. Qed.

Lemma z_int_safe z : isSafeInteger z = true -> z_int (BNum (inject_Z z)) = Some z.
Proof. intros H. unfold z_int. by rewrite integer_of_Z, H. Qed.

Lemma tier_known t : z_enum (tier_text <$> ADAPTIVE_TIERS) (BText (tier_text t)) = true /\ tier_of_text (tier_text t) = Some t.
Proof. by destruct t. Qed.

(** Every member of the patch passes the schema. *)
Lemma patch_checked m : m ∈ patch -> exists f, List.find (fun f => String.eqb (fd_key f) (fst m))
  [optional "enabled" z_bool; optional "unchangedStreak" (int_within 0 None);
   optional "lastComputedInterval" (int_within 1 None);
   optional "lastTier" (z_enum (tier_text <$> ADAPTIVE_TIERS));
   optional "updatedAt" (text_with (fun _ => true))] = Some f /\ fd_check f (snd m) = true.
Proof.
  intros H. unfold adaptiveStatePatch in H. rewrite !elem_of_cons in H.
  destruct H as [->|[->|[->|[->|[]%not_elem_of_nil]]]]; (eexists; split; [reflexivity|]); cbn [snd fd_check optional].
  - unfold int_within. rewrite z_int_safe by done. by rewrite (proj2 (Z.leb_le 0 k)).
  - unfold int_within. rewrite z_int_safe by done. by rewrite (proj2 (Z.leb_le 1 (ad_intervalSeconds d))).
  - apply tier_known.
  - done.
Qed.

Lemma merged_valid old : adaptiveConfigSchema (BObject old) = true -> adaptiveConfigSchema (BObject (merge_members old patch)) = true.
Proof.
  unfold adaptiveConfigSchema, strictObject. rewrite !andb_true_iff. intros [Ho _]. split; [|done].
  rewrite forallb_elem in Ho. apply forallb_elem. intros m [Hm|Hm]%merge_members_elem; [by apply Ho|].
  destruct (patch_checked m Hm) as (f & -> & Hf). done.
Qed.

Lemma patch_read old key v : (key, v) ∈ patch -> lookup_member key (merge_members old patch) = Some v.
Proof. intros H. apply lookup_merge_in; [apply patch_NoDup|done]. Qed.

(** The member of a configuration that holds the state, when the schema takes it. *)
Definition adaptive_valid (config : jsonb) : Prop :=
  match member ADAPTIVE_CONFIG_KEY config with None => True | Some j => adaptiveConfigSchema j = true end.
Definition read_back (enabled : bool) : AdaptiveState :=
  {| as_enabled := enabled; as_unchangedStreak := k; as_lastComputedInterval := Some (ad_intervalSeconds d);
     as_lastTier := Some (ad_tier d); as_updatedAt := Some (toISOString at_) |}.

Lemma read_merged config old :
  member ADAPTIVE_CONFIG_KEY config = Some (BObject (merge_members old patch)) ->
  adaptiveConfigSchema (BObject old) = true ->
  readAdaptiveState config = read_back (match lookup_member "enabled" old with Some (BBool false) => false | _ => true end).
Proof.
  intros Hc Ho. unfold readAdaptiveState. rewrite Hc, (merged_valid old Ho). unfold read_back. cbn [member].
  rewrite (lookup_merge_other "enabled") by (rewrite patch_keys; apply (bool_decide_unpack _); vm_compute; exact I).
  rewrite (patch_read old "unchangedStreak" (BNum (inject_Z k))) by (by left).
  rewrite (patch_read old "lastComputedInterval" (BNum (inject_Z (ad_intervalSeconds d)))) by (right; by left).
  rewrite (patch_read old "lastTier" (BText (tier_text (ad_tier d)))) by (do 2 right; by left).
  rewrite (patch_read old "updatedAt" (BText (toISOString at_))) by (do 3 right; by left).
  cbn [mbind option_bind]. rewrite !z_int_safe by done. cbn [text_of mbind option_bind].
  by rewrite (proj2 (tier_known (ad_tier d))).
Qed.

Lemma merge_empty_schema : adaptiveConfigSchema (BObject []) = true.
Proof. done. Qed.
Lemma merge_nil : merge_members [] patch = patch.
Proof. reflexivity. Qed.

(** The toggle of a configuration. *)
Lemma merged_member config : exists old,
  member ADAPTIVE_CONFIG_KEY (merged_config patch config) = Some (BObject (merge_members old patch))
  /\ ((member ADAPTIVE_CONFIG_KEY config = Some (BObject old)) \/
      (old = [] /\ forall ms, member ADAPTIVE_CONFIG_KEY config <> Some (BObject ms))).
Proof.
  unfold merged_config. destruct config as [| | | | |ms].
  1-5: exists []; rewrite merge_nil; split; [done|by right].
  cbn [member]. destruct (lookup_member ADAPTIVE_CONFIG_KEY ms) as [[| | | | |old]|] eqn:E.
  6: by exists old; cbn [member]; rewrite lookup_set_member; split; [|left].
  all: exists []; rewrite merge_nil; cbn [member]; rewrite lookup_set_member; split; [done|right; split; [done|congruence]].
Qed.

Lemma read_merged_config config :
  adaptive_valid config ->
  readAdaptiveState (merged_config patch config) = read_back (as_enabled (readAdaptiveState config)).
Proof.
  intros Hv. destruct (merged_member config) as (old & Hm & Ho).
  unfold adaptive_valid in Hv.
  destruct Ho as [Ho|[-> Ho]].
  - rewrite Ho in Hv. rewrite (read_merged _ old Hm Hv). unfold readAdaptiveState. by rewrite Ho, Hv.
  - rewrite (read_merged _ [] Hm merge_empty_schema). unfold readAdaptiveState.
    destruct (member ADAPTIVE_CONFIG_KEY config) as [j|]; [|done].
    destruct j as [| | | | |ms]; try discriminate Hv. by destruct (Ho ms).
Qed.

(** Every other member of the configuration is as it was. *)
Lemma merged_others config key : key <> ADAPTIVE_CONFIG_KEY -> is_object config = true ->
  member key (merged_config patch config) = member key config.
Proof.
  destruct config as [| | | | |ms]; try done. intros Hkey _. unfold merged_config. cbn [member].
  destruct (lookup_member ADAPTIVE_CONFIG_KEY ms) as [[]|]; cbn [member]; by apply lookup_set_other.
Qed.
End patch.
