(* ===== verification/ScheduleFacts.v ===== *)
(** * The schedule of a target

    What a recorded outcome does to the schedule, what a claim takes and why no target is
    claimed twice for one tick; then the retries, races and late arrivals where the
    schedule and the events do not repeat as their comments say. *)
From Stdlib Require Import Sorted.
From stdpp Require Import sorting.
From S2P Require Import Prelude Decimal Inputs Store Schema Ledger LedgerFacts Stock Config Adaptive.
From S2P Require Import MarketTables Monitors Polls MarketEvents Observations Opportunities MarketTasks MarketMachine.
From S2P Require Import AdaptiveFacts.

#[global] Set Default Goal Selector "!".

Open Scope Z_scope.
#[local] Arguments String.append : simpl nomatch.

(** ** Updating by key *)
Lemma targets_unique s x y : market_ok s -> x ∈ mk_targets s -> y ∈ mk_targets s -> mt_id x = mt_id y -> x = y.
Proof. intros []. by apply NoDup_keys_inj. Qed.

Lemma updateTargets_run p f s rows s' : updateTargets p f s = (Ok rows, s') ->
  rows = f <$> List.filter p (mk_targets s) /\ s' = put_targets (update_rows p f (mk_targets s)) s.
Proof.
  unfold updateTargets. cbv [mbind St_bind st_get st_modify mret St_ret demand]. cbv zeta.
  destruct (forallb _ _); [|by intros [=]]. destruct (forallb _ _); [|by intros [=]]. by intros [= <- <-].
Qed.

Lemma filter_one s id r : market_ok s -> find_target id s = Some r -> List.filter (is_target id) (mk_targets s) = [r].
Proof.
  intros Hs Hr. destruct (find_target_spec _ _ _ Hr) as [Hin Hid].
  assert (NoDup (List.filter (is_target id) (mk_targets s))) as Hn.
  { eapply sublist_NoDup; [|apply bool_filter_sublist]. destruct Hs. by apply NoDup_fmap_1 in mo_target_ids. }
  assert (forall x, x ∈ List.filter (is_target id) (mk_targets s) <-> x = r) as Hx.
  { intros x. rewrite elem_of_bool_filter. unfold is_target. rewrite bool_decide_eq_true. split; [|by intros ->].
    intros [Hi Hx]. apply (targets_unique s); [done..|congruence]. }
  destruct (List.filter (is_target id) (mk_targets s)) as [|a [|b l]].
  - exfalso. by apply (not_elem_of_nil r), Hx.
  - f_equal. apply Hx. by left.
  - assert (a = r) as -> by (apply Hx; by left). assert (b = r) as -> by (apply Hx; right; by left).
    apply NoDup_cons in Hn as [Hn _]. destruct Hn. by left.
Qed.

Lemma find_updated s id f r : market_ok s -> (forall x, mt_id (f x) = mt_id x) -> find_target id s = Some r ->
  find_target id (put_targets (update_rows (is_target id) f (mk_targets s)) s) = Some (f r).
Proof.
  intros Hs Hf Hr. unfold find_target in *. cbn [put_targets with_market mk_targets].
  induction (mk_targets s) as [|x l IH]; [done|]. unfold find_row in *. cbn [List.find] in Hr. cbn [update_rows map List.find].
  assert (is_target id (if is_target id x then f x else x) = is_target id x) as E.
  { destruct (is_target id x) eqn:Ex; [|done]. unfold is_target in *. by rewrite Hf. }
  rewrite E. destruct (is_target id x); [by injection Hr as ->|]. by apply IH.
Qed.

(** The call on the one row of a key. *)
Lemma update_one s id f r rows s' : market_ok s -> (forall x, mt_id (f x) = mt_id x) -> find_target id s = Some r ->
  updateTargets (is_target id) f s = (Ok rows, s') -> rows = [f r] /\ find_target id s' = Some (f r).
Proof.
  intros Hs Hf Hr [-> ->]%updateTargets_run. rewrite (filter_one s id r) by done. split; [done|]. by apply find_updated.
Qed.

(** ** Backoff *)
Lemma failure_backoff_formula r : target_ok r ->
  failure_backoff r = backoffSeconds (mt_intervalSeconds r) (mt_consecutiveErrors r + 1).
Proof. intros []. unfold failure_backoff, backoffSeconds. by rewrite (Z.max_l _ 0) by lia. Qed.

Lemma backoff_range i n : 0 < i -> 0 < n ->
  Z.min (2 * i) MAX_BACKOFF_SECONDS <= backoffSeconds i n <= MAX_BACKOFF_SECONDS.
Proof.
  intros Hi Hn. unfold backoffSeconds, MAX_BACKOFF_SECONDS. rewrite (Z.max_l n 0) by lia.
  assert (2 ^ 1 <= 2 ^ Z.min n 20) as H by (apply Z.pow_le_mono_r; lia). change (2 ^ 1) with 2 in H. nia.
Qed.
Lemma backoff_grows i n : 0 < i -> backoffSeconds i n <= backoffSeconds i (n + 1).
Proof.
  intros Hi. unfold backoffSeconds. cbv zeta.
  assert (2 ^ Z.min (Z.max n 0) 20 <= 2 ^ Z.min (Z.max (n + 1) 0) 20) by (apply Z.pow_le_mono_r; lia). nia.
Qed.

(** C21. A failed poll postpones its target.  The recorded count is one more than before and the
    backoff ends after exactly the seconds of the documented formula for that count: at least
    twice the interval or an hour, whichever is less, at most an hour (so a target polled less
    than hourly backs off for less than its interval), and never shorter than after one failure
    fewer.  The target is not due before that end, and it is due at every instant from there on at which
    its schedule has come, if it is enabled. *)
Theorem poll_failure_backs_off s id at_ r n until s' :
  market_ok s -> find_target id s = Some r -> recordPollFailure id (Some at_) s = (Ok (n, until), s') ->
  n = mt_consecutiveErrors r + 1
  /\ until = at_ + backoffSeconds (mt_intervalSeconds r) n * 1000
  /\ Z.min (2 * mt_intervalSeconds r) MAX_BACKOFF_SECONDS <= backoffSeconds (mt_intervalSeconds r) n <= MAX_BACKOFF_SECONDS
  /\ backoffSeconds (mt_intervalSeconds r) (n - 1) <= backoffSeconds (mt_intervalSeconds r) n
  /\ exists r', find_target id s' = Some r' /\ mt_nextPollAt r' = mt_nextPollAt r
     /\ (forall now, now < until -> due now r' = false)
     /\ (forall now next, until <= now -> mt_enabled r = true -> mt_nextPollAt r = Some next -> next <= now -> due now r' = true).
Proof.
  intros Hs Hr H. pose proof (mo_targets _ Hs r (proj1 (find_target_spec _ _ _ Hr))) as Hok.
  unfold recordPollFailure in H. run_bind H c s1 Hc. apply st_gets_inv in Hc as [-> ->].
  run_bind H rows s1 Hu. apply update_one with (r := r) in Hu as [-> Hf]; [|done..]. cbn in H. injection H as <- <- <-.
  rewrite (failure_backoff_formula r Hok). pose proof Hok as [Hi He _].
  split; [done|]. split; [done|]. split; [apply backoff_range; lia|]. split.
  { replace (mt_consecutiveErrors r + 1 - 1) with (mt_consecutiveErrors r) by lia. by apply backoff_grows. }
  eexists. split; [exact Hf|]. split; [done|]. split.
  - intros now Hn. unfold due. cbn [failed mt_backoffUntil]. rewrite failure_backoff_formula by done.
    apply andb_false_iff. right. by apply Z.leb_gt.
  - intros now next Hn Hen Hnx Hle. unfold due. cbn [failed mt_backoffUntil mt_enabled mt_nextPollAt]. rewrite Hen, Hnx.
    rewrite failure_backoff_formula by done.
    rewrite !andb_true_iff, !Z.leb_le. split; [by split|done].
Qed.

(** The search's poll fails at noon: the next attempt is two intervals later. *)
Lemma poll_failure_backs_off_witness :
  exists r n until s', find_target CHEAP dropped = Some r
    /\ recordPollFailure CHEAP (Some NOON) dropped = (Ok (n, until), s')
    /\ until = NOON + 1200000 /\ n = mt_consecutiveErrors r + 1.
Proof.
  do 4 eexists. split; [vm_compute; reflexivity|]. split; [vm_compute; reflexivity|]. split; [reflexivity|].
  refine (proj1 (poll_failure_backs_off dropped CHEAP NOON _ _ _ _
    (reachable_market_ok any_format dropped dropped_reachable) _ _)); vm_compute; reflexivity.
Defined.

(** ** Success *)
Lemma succeeded_id a n x c r : mt_id (succeeded a n x c r) = mt_id r.
Proof. done. Qed.

Lemma flat_run s id a r u s' : market_ok s -> find_target id s = Some r -> recordFlatPollSuccess id a s = (Ok u, s') ->
  find_target id s' = Some (succeeded a (mk_now s) (mt_nextPollAt r) (mt_config r) r).
Proof.
  intros Hs Hr H. unfold recordFlatPollSuccess in H. run_bind H now s1 Hn. apply st_gets_inv in Hn as [-> ->].
  run_bind H rows s2 Hu. apply (update_one _ _ _ r) in Hu as [-> Hf]; [|done..]. cbn in H. by injection H as _ <-.
Qed.

Lemma streak_nonneg config : 0 <= as_unchangedStreak (readAdaptiveState config).
Proof.
  unfold readAdaptiveState. destruct (member ADAPTIVE_CONFIG_KEY config) as [raw|]; [|done].
  destruct (adaptiveConfigSchema raw) eqn:E; [|done]. cbn [as_unchangedStreak].
  destruct raw as [| | | | |ms]; try done. cbn [member]. destruct (lookup_member "unchangedStreak" ms) as [j|] eqn:El; [|done].
  cbn [mbind option_bind]. unfold adaptiveConfigSchema, strictObject in E. apply andb_true_iff in E as [E _].
  rewrite forallb_elem in E. unfold lookup_member in El. apply fmap_Some in El as ([k v] & Hf & ->).
  apply find_some in Hf as [Hin Hk]. apply list_elem_of_In in Hin. specialize (E _ Hin). cbn [fst snd] in *.
  apply String.eqb_eq in Hk as ->. cbn in E. unfold int_within in E. destruct (z_int v) as [z|]; [|done]. cbn.
  apply andb_true_iff in E as [E _]. by apply Z.leb_le in E.
Qed.

Lemma next_streak_nonneg config ch a : 0 <= nextUnchangedStreak (readAdaptiveState config) ch a.
Proof.
  unfold nextUnchangedStreak. pose proof (streak_nonneg config). case_bool_decide; [done|]. destruct ch; lia.
Qed.

Lemma poll_input_bounds r state ch k signals bounds : ai_bounds (poll_input r state ch k signals bounds) = bounds.
Proof. by destruct signals as [[??]?]. Qed.

(** A run of the adaptive path, taken apart. *)
Lemma adaptive_run s id o r ch res s' :
  market_ok s -> find_target id s = Some r -> ro_changed o = Some ch ->
  as_enabled (readAdaptiveState (mt_config r)) = true ->
  recordPollSuccess id o s = (Ok res, s') ->
  exists signals d, let a := default (mk_now s) (ro_at o) in
    let k := nextUnchangedStreak (readAdaptiveState (mt_config r)) ch a in
    poll_signals id a o s = (Ok signals, s)
    /\ evaluateAdaptiveInterval (poll_input r (readAdaptiveState (mt_config r)) ch k signals (ro_bounds o)) = Ok d
    /\ 0 <= ad_intervalSeconds d /\ isSafeInteger (ad_intervalSeconds d) = true
    /\ res = {| ps_adaptive := Some (d, k); ps_nextPollAt := Some (plus_seconds a (ad_intervalSeconds d)) |}
    /\ find_target id s' = Some (succeeded a (mk_now s) (Some (plus_seconds a (ad_intervalSeconds d)))
         (merged_config (adaptiveStatePatch k d a) (mt_config r)) r).
Proof.
  intros Hs Hr Hc He H. unfold recordPollSuccess in H. run_bind H clock s1 Hn. apply st_gets_inv in Hn as [-> ->].
  cbv zeta in H. rewrite Hc in H. run_bind H r0 s2 Ht. apply getTarget_run in Ht as [-> Ht].
  rewrite Hr in Ht. injection Ht as <-. rewrite He in H. cbn [negb] in H.
  run_bind H sg s2 Hsg. pose proof (reads_run _ _ _ _ (poll_signals_reads id _ o) Hsg) as ->.
  run_bind H d s2 Hd. apply st_lift_inv in Hd as [Hd ->]. run_bind H u s2 Hl. apply st_lift_inv in Hl as [Hl ->].
  run_bind H nx s2 Hx. apply st_lift_inv in Hx as [Hx ->]. run_bind H rows s2 Hu.
  apply (update_one _ _ _ r) in Hu as [-> Hf]; [|done..]. cbn in H. injection H as <- <-.
  unfold int_literal in Hl. apply throw_if_Ok, orb_false_iff in Hl as [Hl1%negb_false_iff Hl2%Z.ltb_ge].
  unfold advance in Hx. destruct (_ && _); [|done]. injection Hx as <-.
  exists sg, d. by cbv zeta.
Qed.

(** C16. A successful poll that says whether it saw a change reschedules its target, when the
    configuration is an object with a valid adaptive member or none and a streak below
    2^53 - 1.  Failures and backoff are cleared.  With the cadence opted out, schedule and
    configuration stay.  Otherwise the decision is the policy's for the target's interval,
    the interval it last computed, the caller's bounds, the new streak (zero after a change,
    one more without, the stored one when the same instant is recorded again) and, when
    nothing is to be derived, the caller's signals; the next poll comes exactly the decided
    interval after this one, never sooner than the floor the caller gave (or thirty
    seconds); the next poll will read back the operator's toggle and the streak, interval,
    tier and instant just recorded; every other member of the configuration is untouched. *)
Theorem poll_success_schedules s id o r a ch res s' :
  market_ok s -> find_target id s = Some r -> ro_at o = Some a -> ro_changed o = Some ch ->
  adaptive_valid (mt_config r) -> is_object (mt_config r) = true ->
  as_unchangedStreak (readAdaptiveState (mt_config r)) < MAX_SAFE_INTEGER ->
  recordPollSuccess id o s = (Ok res, s') ->
  let state := readAdaptiveState (mt_config r) in
  exists r', find_target id s' = Some r' /\ mt_consecutiveErrors r' = 0 /\ mt_backoffUntil r' = None
    /\ mt_lastSuccessAt r' = Some a
    /\ (as_enabled state = false ->
        res = flat_result /\ mt_nextPollAt r' = mt_nextPollAt r /\ mt_config r' = mt_config r)
    /\ (as_enabled state = true ->
        exists input d k floor ceiling, ps_adaptive res = Some (d, k)
          /\ evaluateAdaptiveInterval input = Ok d
          /\ ai_baseIntervalSeconds input = Finite (inject_Z (mt_intervalSeconds r))
          /\ ai_previousIntervalSeconds input = inject_Z <$> as_lastComputedInterval state
          /\ ai_unchangedStreak input = Some (Finite (inject_Z k))
          /\ k = (if bool_decide (as_updatedAt state = Some (toISOString a)) then as_unchangedStreak state
                  else if ch then 0 else as_unchangedStreak state + 1)
          /\ ai_bounds input = ro_bounds o
          /\ (ro_deriveSignals o = false ->
              ai_recentEventCount input = Some (default (Finite 0) (ro_recentEventCount o))
              /\ ai_recentChangeCount input = Some (default (Finite (if ch then 1 else 0)) (ro_recentChangeCount o))
              /\ ai_secondsUntilListingEnd input = (e ← ro_secondsUntilListingEnd o; e))
          /\ bounds_in_force (ro_bounds o) floor ceiling /\ (floor <= inject_Z (ad_intervalSeconds d))%Q
          /\ mt_nextPollAt r' = Some (a + ad_intervalSeconds d * 1000) /\ ps_nextPollAt res = mt_nextPollAt r'
          /\ readAdaptiveState (mt_config r') = read_back k d a true
          /\ forall key, key <> ADAPTIVE_CONFIG_KEY -> member key (mt_config r') = member key (mt_config r)).
Proof.
  intros Hs Hr Ha Hc Hv Ho Hk H state. unfold state. destruct (as_enabled (readAdaptiveState (mt_config r))) eqn:He.
  - destruct (adaptive_run s id o r ch res s' Hs Hr Hc He H) as (sg & d & Hsg & Hd & Hnn & Hsafe & -> & Hf).
    rewrite Ha in *. cbn [default] in *. set (k := nextUnchangedStreak (readAdaptiveState (mt_config r)) ch a) in *.
    eexists. split; [exact Hf|]. split; [done|]. split; [done|]. split; [done|]. split; [done|]. intros _.
    destruct (evaluate_inv _ _ Hd) as (? & ? & ? & ? & _ & _ & Hb & _ & _ & _ & _ & _ & En).
    destruct (resolveBounds_pos _ _ Hb) as [Hlo _].
    rewrite poll_input_bounds in Hb. destruct (resolveBounds_inv _ _ Hb) as (floor & ceiling & Hbf & Hwb).
    eexists _, d, k, floor, ceiling. split; [done|]. split; [exact Hd|].
    split; [by destruct sg as [[??]?]|]. split; [by destruct sg as [[??]?]|]. split; [by destruct sg as [[??]?]|].
    split; [done|]. split; [apply poll_input_bounds|]. split; [|split; [done|]].
    { intros Hdv. unfold poll_signals in Hsg. rewrite Hdv in Hsg. cbn [andb] in Hsg. by injection Hsg as <-. }
    match type of En with _ = Z.max 1 (round (fst (clamp_min _ (clamp_max _ ?x)))) =>
      destruct (clamped_within (ad_bounds d) x) as (H1%round_le & _ & _) end.
    assert (0 <= k) by apply next_streak_nonneg. assert (isSafeInteger k = true).
    { unfold isSafeInteger. apply andb_true_iff. rewrite !Z.leb_le. split; [unfold MAX_SAFE_INTEGER; lia|].
      unfold k, nextUnchangedStreak. case_bool_decide; [lia|]. destruct ch; [unfold MAX_SAFE_INTEGER; lia|lia]. }
    split; [eapply Qle_trans; [apply Hwb|]; rewrite <- Zle_Qle; lia|]. split; [done|]. split; [done|].
    cbn [succeeded mt_config]. rewrite read_merged_config; [|done|done|lia|done|done]. rewrite He.
    split; [done|]. intros key Hkey. by apply merged_others.
  - unfold recordPollSuccess in H. run_bind H clock s1 Hn. apply st_gets_inv in Hn as [-> ->]. cbv zeta in H.
    rewrite Hc, Ha in H. cbn [default] in H. run_bind H r0 s2 Ht. apply getTarget_run in Ht as [-> Ht]. rewrite Hr in Ht.
    injection Ht as <-. rewrite He in H. cbn [negb] in H. run_bind H u s2 Hu.
    apply (flat_run _ _ _ r) in Hu; [|done..]. apply st_ret_inv in H as [-> ->].
    eexists. split; [exact Hu|]. split; [done|]. split; [done|]. split; [done|]. split; [done|]. intros [=].
Qed.

(** The other search finds nothing new at noon: its streak is one, its base interval stands. *)
Definition nothing_new (at_ : Z) : RecordPollSuccessOptions :=
  {| ro_at := Some at_; ro_changed := Some false; ro_secondsUntilListingEnd := None; ro_recentEventCount := None;
     ro_recentChangeCount := None; ro_bounds := None; ro_deriveSignals := false; ro_signalWindowSeconds := None |}.
Lemma poll_success_schedules_witness :
  exists r res s', find_target LENSES dropped = Some r /\ recordPollSuccess LENSES (nothing_new NOON) dropped = (Ok res, s')
    /\ ps_nextPollAt res = Some (NOON + 3600000)
    /\ exists r', find_target LENSES s' = Some r' /\ mt_consecutiveErrors r' = 0.
Proof.
  do 3 eexists. split; [vm_compute; reflexivity|]. split; [vm_compute; reflexivity|]. split; [reflexivity|].
  destruct (poll_success_schedules dropped LENSES (nothing_new NOON) _ NOON false _ _
    (reachable_market_ok any_format dropped dropped_reachable) (eq_refl : find_target LENSES dropped = Some _)
    eq_refl eq_refl I eq_refl ltac:(reflexivity) ltac:(vm_compute; reflexivity)) as (r' & Hf & He & _).
  exists r'. split; [exact Hf|exact He].
Defined.

(** ** The claim of due targets

    What one claim takes, and why a target is never claimed twice for one tick. *)

#[global] Set Default Goal Selector "!".


(** ** The two orders *)
Lemma claim_total x y : claim_before x y = true \/ claim_before y x = true.
Proof.
  unfold claim_before. rewrite !orb_true_iff, !andb_true_iff, !Z.ltb_lt, !Z.leb_le, !Z.eqb_eq. lia.
Qed.
Lemma claim_trans x y z : claim_before x y = true -> claim_before y z = true -> claim_before x z = true.
Proof.
  unfold claim_before. rewrite !orb_true_iff, !andb_true_iff, !Z.ltb_lt, !Z.leb_le, !Z.eqb_eq. lia.
Qed.
Lemma dispatch_iff a b : dispatch_before a b = true <->
  cl_priority a < cl_priority b \/ cl_priority a = cl_priority b /\
    (cl_nextPollAt a < cl_nextPollAt b \/ cl_nextPollAt a = cl_nextPollAt b /\ (cl_id a <= cl_id b)%positive).
Proof.
  unfold dispatch_before. by rewrite !orb_true_iff, !andb_true_iff, !orb_true_iff, !andb_true_iff, !Z.ltb_lt, !Z.eqb_eq, Pos.leb_le.
Qed.
Lemma dispatch_total x y : dispatch_before x y = true \/ dispatch_before y x = true.
Proof. rewrite !dispatch_iff. lia. Qed.
Lemma dispatch_trans x y z : dispatch_before x y = true -> dispatch_before y z = true -> dispatch_before x z = true.
Proof. rewrite !dispatch_iff. lia. Qed.

(** ** The rows of a claim *)
Definition claimable (locked : list uuid) (now : Z) (r : MonitorTargetRow) : bool :=
  due now r && negb (bool_decide (mt_id r ∈ locked)).

Lemma claimable_spec locked now r : claimable locked now r = true <-> due now r = true /\ mt_id r ∉ locked.
Proof. unfold claimable. by rewrite andb_true_iff, negb_true_iff, bool_decide_eq_false. Qed.

Lemma claim_split locked now limit rows : exists rest,
  claim_rows locked now limit rows ++ rest ≡ₚ List.filter (claimable locked now) rows
  /\ (length (claim_rows locked now limit rows) <= Z.to_nat limit)%nat
  /\ (rest <> [] -> length (claim_rows locked now limit rows) = Z.to_nat limit)
  /\ forall q r, q ∈ claim_rows locked now limit rows -> r ∈ rest -> claim_before q r = true.
Proof.
  set (sorted := sort_with claim_before (List.filter (claimable locked now) rows)).
  assert (claim_rows locked now limit rows = take (Z.to_nat limit) sorted) as -> by done.
  exists (drop (Z.to_nat limit) sorted). rewrite take_drop. split; [apply sort_with_perm|].
  rewrite length_take. split; [lia|]. split.
  - intros Hr. destruct (decide (length sorted <= Z.to_nat limit)%nat); [|lia]. by destruct Hr; apply drop_ge.
  - intros q r Hq Hr. pose proof (sort_with_sorted claim_before (List.filter (claimable locked now) rows) claim_total claim_trans) as Hs.
    fold sorted in Hs. rewrite <- (take_drop (Z.to_nat limit) sorted) in Hs.
    by apply (StronglySorted_app_1_elem_of _ _ _ _ _ Hs).
Qed.

Lemma claim_run locked now limit s claimed s' : claimDueTargets locked now limit s = (Ok claimed, s') ->
  let ids := mt_id <$> claim_rows locked now limit (mk_targets s) in
  let rows := List.filter (fun r => bool_decide (mt_id r ∈ ids)) (mk_targets s) in
  0 <= limit /\ claimed = sort_with dispatch_before (claimed_of <$> (advanced now (mk_now s) <$> rows))
  /\ s' = put_targets (update_rows (fun r => bool_decide (mt_id r ∈ ids)) (advanced now (mk_now s)) (mk_targets s)) s.
Proof.
  unfold claimDueTargets. intros H. run_bind H u s1 Hl. apply st_lift_inv in Hl as [Hl ->].
  unfold int_literal in Hl. apply throw_if_Ok, orb_false_iff in Hl as [_ Hl%Z.ltb_ge].
  run_bind H s0 s1 Hg. apply st_get_inv in Hg as [-> ->]. cbv zeta in H. run_bind H rows s1 Hu.
  apply updateTargets_run in Hu as [-> ->]. apply st_ret_inv in H as [-> ->]. done.
Qed.

(** The claimed rows of the table are the rows of the subquery. *)
Lemma claimed_rows s locked now limit r : market_ok s -> r ∈ mk_targets s ->
  (mt_id r ∈ mt_id <$> claim_rows locked now limit (mk_targets s)) <-> r ∈ claim_rows locked now limit (mk_targets s).
Proof.
  intros Hs Hr. split; [|by intros H; apply list_elem_of_fmap_2]. intros (q & Eq & Hq)%list_elem_of_fmap.
  destruct (claim_split locked now limit (mk_targets s)) as (rest & Hp & _).
  assert (q ∈ List.filter (claimable locked now) (mk_targets s)) as Hq' by (rewrite <- Hp; apply elem_of_app; by left).
  apply elem_of_bool_filter in Hq' as [_ Hq']. by rewrite (targets_unique s r q).
Qed.

(** C13. One claim takes exactly the due targets it can.  The claimed targets are distinct, at
    most [limit], each enabled, due, not backing off and not locked by another dispatcher, and
    their next poll is one interval from now; they come sorted for dispatch.  A claimable target
    that was left behind was left because the limit is reached, and every claimed one comes
    before it by priority and then by how long it is due.  Every other row is untouched. *)
Theorem claim_exact locked now limit s claimed s' :
  market_ok s -> claimDueTargets locked now limit s = (Ok claimed, s') ->
  NoDup (cl_id <$> claimed) /\ Z.of_nat (length claimed) <= limit
  /\ StronglySorted (fun a b => dispatch_before a b = true) claimed
  /\ (forall c, c ∈ claimed -> exists r, r ∈ mk_targets s /\ mt_id r = cl_id c /\ due now r = true /\ mt_id r ∉ locked
        /\ cl_nextPollAt c = now + mt_intervalSeconds r * 1000)
  /\ (forall r, r ∈ mk_targets s -> due now r = true -> mt_id r ∉ locked -> mt_id r ∉ cl_id <$> claimed ->
        Z.of_nat (length claimed) = limit
        /\ forall q, q ∈ mk_targets s -> mt_id q ∈ cl_id <$> claimed -> claim_before q r = true)
  /\ mk_targets s' = (fun r => if bool_decide (mt_id r ∈ cl_id <$> claimed) then advanced now (mk_now s) r else r) <$> mk_targets s.
Proof.
  intros Hs H. destruct (claim_run _ _ _ _ _ _ H) as (Hl & Hc & ->). cbv zeta in Hc.
  set (taken := claim_rows locked now limit (mk_targets s)) in *.
  set (rows := List.filter (fun r => bool_decide (mt_id r ∈ mt_id <$> taken)) (mk_targets s)) in *.
  destruct (claim_split locked now limit (mk_targets s)) as (rest & Hp & Hlen & Hfull & Hord). fold taken in Hp, Hlen, Hfull, Hord.
  assert (forall r, r ∈ rows <-> r ∈ taken) as Hrows.
  { intros r. unfold rows. rewrite elem_of_bool_filter, bool_decide_eq_true. split.
    - intros [Hi Hr]. by apply (claimed_rows s locked now limit).
    - intros Hr. split; [by apply list_elem_of_fmap_2|].
      assert (r ∈ List.filter (claimable locked now) (mk_targets s)) as Hq by (rewrite <- Hp; apply elem_of_app; by left).
      by apply elem_of_bool_filter in Hq as [_ Hq]. }
  pose proof (NoDup_fmap_1 _ _ (mo_target_ids _ Hs)) as Hn.
  assert (NoDup rows) as Hnr by (eapply sublist_NoDup; [exact Hn|apply bool_filter_sublist]).
  assert (NoDup taken) as Hnt.
  { assert (NoDup (List.filter (claimable locked now) (mk_targets s))) as Hf by (eapply sublist_NoDup; [exact Hn|apply bool_filter_sublist]).
    rewrite <- Hp in Hf. by apply NoDup_app in Hf as [Hf _]. }
  assert (rows ≡ₚ taken) as Hperm by (by apply NoDup_Permutation).
  assert (cl_id <$> claimed ≡ₚ mt_id <$> rows) as Hids.
  { rewrite Hc, sort_with_perm, <- !list_fmap_compose. done. }
  assert (length claimed = length taken) as El.
  { rewrite <- Hperm. rewrite Hc. rewrite sort_with_perm. by rewrite !length_fmap. }
  assert (forall i, i ∈ cl_id <$> claimed <-> i ∈ mt_id <$> taken) as Hin by (intros i; by rewrite Hids, Hperm).
  split_and!.
  - rewrite Hids. eapply NoDup_fmap_sublist; [apply bool_filter_sublist|]. by destruct Hs.
  - rewrite El. lia.
  - rewrite Hc. apply sort_with_sorted; [apply dispatch_total|apply dispatch_trans].
  - intros c Hcl. rewrite Hc, sort_with_perm in Hcl. apply list_elem_of_fmap in Hcl as (x & -> & Hx).
    apply list_elem_of_fmap in Hx as (r & -> & Hr). apply Hrows in Hr.
    assert (r ∈ List.filter (claimable locked now) (mk_targets s)) as Hq by (rewrite <- Hp; apply elem_of_app; by left).
    apply elem_of_bool_filter in Hq as [[Hd Hk]%claimable_spec Hq]. by exists r.
  - intros r Hr Hd Hk Hnot. rewrite Hin in Hnot.
    assert (r ∈ rest) as Hrest.
    { assert (r ∈ taken ++ rest) as Hx by (rewrite Hp; apply elem_of_bool_filter; split; [by apply claimable_spec|done]).
      apply elem_of_app in Hx as [Hx|Hx]; [|done]. by destruct Hnot; apply list_elem_of_fmap_2. }
    split; [rewrite El, Hfull by (by intros ->; apply not_elem_of_nil in Hrest); lia|].
    intros q Hq Hqi. rewrite Hin in Hqi. apply Hord; [by apply (claimed_rows s locked now limit)|done].
  - cbn [put_targets with_market mk_targets]. unfold update_rows. apply list_fmap_ext. intros i r _.
    by rewrite (bool_decide_ext _ _ (Hin (mt_id r))).
Qed.

(** ** A schedule no call moves *)
Section parked.
Context (i : uuid).

(** Target [i] is there, and is not scheduled before [T]. *)
Definition parked (T : Z) (s : Market) : Prop :=
  i ∈ mt_id <$> mk_targets s
  /\ forall r, r ∈ mk_targets s -> mt_id r = i -> match mt_nextPollAt r with Some n => T <= n | None => True end.
Definition stays (s s' : Market) : Prop := forall T, parked T s -> parked T s'.
#[local] Instance stays_preorder : PreOrder stays.
Proof. split; [by intros s T|]. intros s1 s2 s3 H1 H2 T H. by apply H2, H1. Qed.

Lemma same_targets_stays s s' : mk_targets s' = mk_targets s -> stays s s'.
Proof. intros E T. unfold parked. by rewrite E. Qed.
Lemma market_uuid_stays : always stays market_uuid.
Proof. intros s. by apply same_targets_stays. Qed.
#[local] Hint Resolve market_uuid_stays : store.

Lemma insertTarget_stays values : (forall id now, mt_id (values id now) = id) -> always stays (insertTarget values).
Proof.
  intros Hv. unfold insertTarget. apply always_bind; [exact _|auto with store|]. intros id s.
  cbv [mbind St_bind st_get st_modify mret St_ret demand]. cbv zeta.
  destruct (target_ints _); [|reflexivity].
  destruct (exists_id mt_id id (mk_targets s)) eqn:Ex; [reflexivity|]. cbn [negb].
  destruct (target_fks _ _); [|reflexivity]. cbn [snd]. intros T [Hin Hr]. apply exists_id_false in Ex.
  split; cbn [put_targets with_market mk_targets].
  - rewrite fmap_app, elem_of_app. by left.
  - intros r [H| ->%list_elem_of_singleton]%elem_of_app; [by apply Hr|]. rewrite Hv. by intros ->.
Qed.

(** An update that moves no schedule of [i] ahead. *)
Lemma update_targets_stays s p f :
  (forall r, mt_id (f r) = mt_id r) ->
  (forall r, r ∈ mk_targets s -> p r = true -> mt_id r = i ->
     mt_nextPollAt (f r) = mt_nextPollAt r
     \/ exists n m, mt_nextPollAt r = Some n /\ mt_nextPollAt (f r) = Some m /\ n <= m) ->
  stays s (put_targets (update_rows p f (mk_targets s)) s).
Proof.
  intros Hid Hf T [Hin Hr]. split; cbn [put_targets with_market mk_targets]; [by rewrite update_rows_keys|].
  intros r (q & Hq & ->)%update_rows_elem. destruct (p q) eqn:E; [|by apply Hr]. rewrite Hid. intros Hi.
  specialize (Hr q Hq Hi). destruct (Hf q Hq E Hi) as [->|(n & m & En & -> & Hle)]; [done|]. rewrite En in Hr. lia.
Qed.
Lemma updateTargets_stays_at s p f :
  (forall r, mt_id (f r) = mt_id r) ->
  (forall r, r ∈ mk_targets s -> p r = true -> mt_id r = i ->
     mt_nextPollAt (f r) = mt_nextPollAt r
     \/ exists n m, mt_nextPollAt r = Some n /\ mt_nextPollAt (f r) = Some m /\ n <= m) ->
  stays s (updateTargets p f s).2.
Proof.
  intros Hid Hok. unfold updateTargets. cbv [mbind St_bind st_get st_modify mret St_ret demand]. cbv zeta.
  destruct (forallb _ _); [|reflexivity]. destruct (forallb _ _); [|reflexivity]. by apply update_targets_stays.
Qed.
Lemma updateTargets_stays p f :
  (forall r, mt_id (f r) = mt_id r) -> (forall r, p r = true -> mt_id r = i -> mt_nextPollAt (f r) = mt_nextPollAt r) ->
  always stays (updateTargets p f).
Proof. intros Hid Hf s. apply updateTargets_stays_at; [done|]. intros r _ Hp Hi. left. by apply Hf. Qed.

Lemma reads_stays {A} (m : St Market A) : reads m -> always stays m.
Proof. apply reads_always. exact _. Qed.

Lemma deleteTargetRow_stays id : id <> i -> always stays (deleteTargetRow id).
Proof.
  intros Hid s. unfold deleteTargetRow. cbv [mbind St_bind st_get st_modify mret St_ret demand].
  destruct (_ && _ && _); [|reflexivity]. cbn [snd]. intros T [Hin Hr]. split; cbn [put_targets with_market mk_targets].
  - apply list_elem_of_fmap in Hin as (r & -> & Hin). apply list_elem_of_fmap_2, elem_of_bool_filter.
    split; [|done]. unfold is_target. rewrite bool_decide_eq_false_2; [done|]. by intros E.
  - intros r [_ H]%elem_of_bool_filter. by apply Hr.
Qed.

(** ** The calls that leave the schedule of [i] alone *)
Definition keeps_schedule (c : market_call) : Prop :=
  match c with
  | CallUpdateTarget id p => id = i -> ut_nextPollAt p = None
  | CallSuccess id o => id = i -> ro_changed o = None
  | CallDeleteTarget id => id <> i
  | _ => True
  end.

Lemma recordFlat_stays id a : always stays (recordFlatPollSuccess id a).
Proof.
  unfold recordFlatPollSuccess. apply always_bind; [exact _|apply always_gets; exact _|]. intros now.
  apply always_bind; [exact _|by apply updateTargets_stays|]. intros []; apply reads_stays; solve_respects.
Qed.

Lemma other_target id r : id <> i -> is_target id r = true -> mt_id r = i -> False.
Proof. unfold is_target. rewrite bool_decide_eq_true. congruence. Qed.

Lemma recordPollSuccess_stays id o : (id = i -> ro_changed o = None) -> always stays (recordPollSuccess id o).
Proof.
  intros Ho. unfold recordPollSuccess. apply always_bind; [exact _|apply always_gets; exact _|]. intros clock. cbv zeta.
  destruct (ro_changed o) as [ch|].
  - assert (id <> i) as Hid by (intros E; by specialize (Ho E)).
    apply always_bind; [exact _|apply reads_stays, getTarget_reads|]. intros r.
    destruct (negb _).
    + apply always_bind; [exact _|apply recordFlat_stays|]. intros ?. apply always_ret; exact _.
    + apply always_bind; [exact _|apply reads_stays, poll_signals_reads|]. intros sg.
      do 3 (apply always_bind; [exact _|apply always_lift; exact _|intros ?]).
      apply always_bind; [exact _| |intros []; apply reads_stays; solve_respects].
      apply updateTargets_stays; [done|]. intros x Hx Hi. by destruct (other_target id x).
  - apply always_bind; [exact _|apply recordFlat_stays|]. intros ?. apply always_ret; exact _.
Qed.

Lemma updateTarget_stays fm id p : (id = i -> ut_nextPollAt p = None) -> always stays (updateTarget fm id p).
Proof.
  intros Hp s. unfold updateTarget. cbv [mbind St_bind st_lift].
  destruct (updateTargetSchema p) as [u|]; [|reflexivity].
  destruct (updateTarget_read fm id p s) as [[[r c]|e] s1] eqn:Er;
    [|by rewrite (reads_run _ _ _ _ (updateTarget_read_reads fm id p) Er)].
  apply updateTarget_read_row in Er as [-> Hr]. destruct (find_target_spec _ _ _ Hr) as [_ <-].
  unfold updateTarget_write. cbv [mbind St_bind st_gets]. rewrite Hr. cbn [is_some].
  assert (always stays (updateTargets (is_target (mt_id r)) (target_set p c (mk_now s)))) as H.
  { apply updateTargets_stays; [done|]. intros x Hx Hi. cbn. unfold is_target in Hx. apply bool_decide_eq_true in Hx.
    by rewrite Hp by congruence. }
  specialize (H s). destruct (updateTargets _ _ s) as [[rows|e] s1]; cbn [snd mret St_ret] in *; [|done].
  etrans; [exact H|]. apply (reads_stays _ (getTarget_reads (mt_id r))).
Qed.

Lemma insertEvents_stays values : always stays (insertEvents values).
Proof.
  unfold insertEvents. apply always_atomically; [exact _|]. apply always_respects.
  apply always_bind; [exact _| |intros ?; apply always_ret; exact _].
  apply always_mapM; [exact _..|]. intros v. unfold insertEvent. apply always_bind; [exact _|auto with store|].
  intros id s. cbv [mbind St_bind st_get st_modify mret St_ret demand]. cbv zeta.
  destruct (has_key _ _); [reflexivity|]. destruct (negb _); [|reflexivity]. destruct (event_fks _ _); [|reflexivity].
  by apply same_targets_stays.
Qed.

Lemma claim_stays locked now limit s : market_ok s -> stays s (claimDueTargets locked now limit s).2.
Proof.
  intros Hs. destruct (claimDueTargets locked now limit s) as [[claimed|e] s'] eqn:E.
  - destruct (claim_run _ _ _ _ _ _ E) as (_ & _ & ->). apply update_targets_stays; [done|].
    intros r Hr Hp Hi. apply bool_decide_eq_true in Hp. apply (claimed_rows s) in Hp; [|done..].
    destruct (claim_split locked now limit (mk_targets s)) as (rest & Hpm & _).
    assert (r ∈ List.filter (claimable locked now) (mk_targets s)) as Hq by (rewrite <- Hpm; apply elem_of_app; by left).
    apply elem_of_bool_filter in Hq as [[Hd _]%claimable_spec _]. unfold due in Hd.
    apply andb_true_iff in Hd as [[_ Hd]%andb_true_iff _]. destruct (mt_nextPollAt r) as [n|] eqn:En; [|done].
    apply Z.leb_le in Hd. right. exists n, (plus_seconds now (mt_intervalSeconds r)). split; [done|]. split; [done|].
    unfold plus_seconds. pose proof (to_interval _ (mo_targets _ Hs r Hr)). lia.
  - revert E. unfold claimDueTargets. cbv [mbind St_bind st_lift st_get]. destruct (int_literal limit); [|by intros [= _ <-]].
    cbv zeta. unfold updateTargets. cbv [mbind St_bind st_get st_modify mret St_ret demand]. cbv zeta.
    destruct (forallb _ _); [|by intros [= _ <-]]. destruct (forallb _ _); [|by intros [= _ <-]]. by intros [=].
Qed.

Lemma after_market_stays fm c s : market_ok s -> keeps_schedule c -> stays s (after_market fm c s).
Proof.
  intros Hs Hc. destruct c; cbn [after_market keeps_schedule] in *.
  - unfold createTarget. cbv [mbind St_bind st_lift]. destruct (createTargetSchema _); [|reflexivity].
    destruct (validateConfig _ _ _); [|reflexivity]. by apply insertTarget_stays.
  - by apply updateTarget_stays.
  - unfold deleteTarget. pose proof (deleteTargetRow_stays id Hc) as H. cbv [mbind St_bind].
    destruct (getTarget id s) as [[r|e] s1] eqn:E; rewrite (reads_run _ _ _ _ (getTarget_reads id) E); [apply H|reflexivity].
  - by apply claim_stays.
  - by apply recordPollSuccess_stays.
  - unfold recordPollFailure. cbv [mbind St_bind st_gets].
    pose proof (updateTargets_stays (is_target id) (failed (default (mk_now s) at_) (mk_now s)) ltac:(done) ltac:(done) s) as H.
    by destruct (updateTargets _ _ s) as [[[|? ?]|?] ?].
  - unfold upsertMarketplaceItem. apply always_bind; [exact _|solve_respects|]. intros ?.
    apply always_bind; [exact _|solve_respects|]. intros ?. apply always_bind; [exact _|auto with store|]. intros ? s1.
    cbv [mbind St_bind st_get st_modify mret St_ret demand]. destruct (find_row _ _); [by apply same_targets_stays|].
    destruct (negb _); by apply same_targets_stays.
  - unfold linkItemToMonitor. cbv [mbind St_bind st_get st_modify mret St_ret demand]. cbv zeta.
    destruct (existsb _ _); [by apply same_targets_stays|]. destruct (_ && _); by apply same_targets_stays.
  - by apply same_targets_stays.
  - unfold recordObservationBatch. do 2 (apply always_bind; [exact _|solve_respects|intros ?]). intros s1.
    by apply same_targets_stays.
  - unfold deriveMarketEvents. destruct previous as [p|]; [|reflexivity].
    apply always_bind; [exact _|apply always_lift; exact _|]. intros es. apply always_bind; [exact _|apply always_gets; exact _|].
    intros clock. apply always_bind; [exact _| |intros ?; apply always_ret; exact _].
    destruct es; [apply always_ret; exact _|apply insertEvents_stays].
  - unfold deriveNewListingEvents. destruct items as [|x l]; [reflexivity|].
    apply always_bind; [exact _|apply always_get; exact _|]. intros ?. cbv zeta.
    apply always_bind; [exact _|apply insertEvents_stays|]. intros ?. apply always_ret; exact _.
  - apply evaluate_always; [exact _|]. intros id m t n s1. unfold stampEventWithRule.
    cbv [mbind St_bind st_get st_modify mret St_ret st_throw].
    destruct (find_row _ _); [by apply same_targets_stays|]. by destruct (find_event _ _).
  - unfold createRule. apply always_bind; [exact _|apply always_lift; exact _|]. intros ?.
    apply always_bind; [exact _|auto with store|]. intros ? s1.
    cbv [mbind St_bind st_get st_modify mret St_ret demand st_throw]. cbv zeta.
    do 3 (destruct (_ : bool); [|reflexivity]). by apply same_targets_stays.
  - apply updateRule_always; [exact _|intros; by apply reads_stays|]. intros ??. by apply same_targets_stays.
  - apply deleteRule_always; [exact _|intros; by apply reads_stays|]. intros ?. by apply same_targets_stays.
Qed.
End parked.

(** ** No second claim for one tick *)
Lemma claimed_row s locked now limit claimed s' c :
  market_ok s -> claimDueTargets locked now limit s = (Ok claimed, s') -> c ∈ claimed ->
  exists r, r ∈ mk_targets s /\ mt_id r = cl_id c /\ mt_intervalSeconds r = cl_intervalSeconds c /\ due now r = true
    /\ advanced now (mk_now s) r ∈ mk_targets s'.
Proof.
  intros Hs H Hc. destruct (claim_run _ _ _ _ _ _ H) as (_ & -> & ->). rewrite sort_with_perm in Hc.
  apply list_elem_of_fmap in Hc as (x & -> & Hx). apply list_elem_of_fmap in Hx as (r & -> & Hr).
  apply elem_of_bool_filter in Hr as [Hp Hr]. exists r. split; [done|]. split; [done|]. split; [done|].
  split; [|apply update_rows_elem; exists r; by rewrite Hp].
  apply bool_decide_eq_true, (claimed_rows s) in Hp; [|done..].
  destruct (claim_split locked now limit (mk_targets s)) as (rest & Hpm & _).
  assert (r ∈ List.filter (claimable locked now) (mk_targets s)) as Hq by (rewrite <- Hpm; apply elem_of_app; by left).
  by apply elem_of_bool_filter in Hq as [[Hd _]%claimable_spec _].
Qed.

Definition after_all (fm : Formats) (cs : list market_call) (s : Market) : Market :=
  fold_left (fun s c => after_market fm c s) cs s.

Lemma after_all_parked fm i T cs s : market_ok s -> (forall c, c ∈ cs -> keeps_schedule i c) -> parked i T s ->
  market_ok (after_all fm cs s) /\ parked i T (after_all fm cs s).
Proof.
  unfold after_all. revert s. induction cs as [|c cs IH]; intros s Hs Hc Hp; [done|]. cbn [fold_left]. apply IH.
  - by apply (after_market_sound fm c s).
  - intros x Hx. apply Hc. by right.
  - apply (after_market_stays i fm c s Hs); [apply Hc; by left|done].
Qed.

(** C14. A target is never claimed twice for one tick.  When one dispatcher has claimed a
    target, and after it any calls ran - claims of other dispatchers, failures, flat
    successes, edits of other targets, anything but an adaptive success, an edit of the next
    poll or the deletion of this one - then a dispatcher that claims it again does so no
    sooner than one full interval after the first. *)
Theorem claimed_once fm s locked now limit claimed s1 c cs locked' now' limit' claimed' s2 :
  market_reachable fm s ->
  claimDueTargets locked now limit s = (Ok claimed, s1) -> c ∈ claimed ->
  (forall x, x ∈ cs -> keeps_schedule (cl_id c) x) ->
  claimDueTargets locked' now' limit' (after_all fm cs s1) = (Ok claimed', s2) -> cl_id c ∈ cl_id <$> claimed' ->
  now + cl_intervalSeconds c * 1000 <= now'.
Proof.
  intros Hs%reachable_market_ok H Hc Hk H' Hc'.
  destruct (claimed_row _ _ _ _ _ _ _ Hs H Hc) as (r & Hr & Hid & Hi & _ & Hr1).
  pose proof (claimDueTargets_sound locked now limit s Hs) as [Hs1 _]. rewrite H in Hs1. cbn [snd] in Hs1.
  assert (parked (cl_id c) (now + cl_intervalSeconds c * 1000) s1) as Hp.
  { split.
    - rewrite <- Hid. change (mt_id r) with (mt_id (advanced now (mk_now s) r)). by apply list_elem_of_fmap_2.
    - intros q Hq Eq. assert (q = advanced now (mk_now s) r) as -> by (apply (targets_unique s1); [done..|cbn; congruence]).
      cbn [advanced mt_nextPollAt]. unfold plus_seconds. rewrite Hi. done. }
  destruct (after_all_parked fm _ _ cs s1 Hs1 Hk Hp) as [Hs2 [_ Hp2]].
  apply list_elem_of_fmap in Hc' as (c' & Ec & Hc').
  destruct (claimed_row _ _ _ _ _ _ _ Hs2 H' Hc') as (q & Hq & Hqi & _ & Hd & _).
  specialize (Hp2 q Hq ltac:(congruence)). unfold due in Hd. apply andb_true_iff in Hd as [[_ Hd]%andb_true_iff _].
  destruct (mt_nextPollAt q) as [n|]; [|done]. apply Z.leb_le in Hd. lia.
Qed.

(** Two dispatchers at noon: the second, which saw no lock, finds nothing; ten minutes later
    the target with that interval is due again. *)
Definition noon_claim : market_call := CallClaim [] NOON 100.
Definition claimed_by (now : Z) (s : Market) : list uuid :=
  match claimDueTargets [] now 100 s with (Ok l, _) => cl_id <$> l | _ => [] end.

Lemma claimed_once_witness :
  claimed_by NOON dropped = [CHEAP; LENSES] /\ claimed_by NOON (after_market any_format noon_claim dropped) = []
  /\ forall cs now', (forall x, x ∈ cs -> keeps_schedule CHEAP x) ->
       CHEAP ∈ claimed_by now' (after_all any_format cs (after_market any_format noon_claim dropped)) ->
       NOON + 600 * 1000 <= now'.
Proof.
  split; [vm_compute; reflexivity|]. split; [vm_compute; reflexivity|]. intros cs now' Hk.
  unfold claimed_by. destruct (claimDueTargets [] now' 100 _) as [[claimed'|e] s2] eqn:E; [|by intros ?%not_elem_of_nil].
  intros Hin. destruct (claimDueTargets [] NOON 100 dropped) as [[claimed|e] s1] eqn:E1; [|by vm_compute in E1].
  assert (exists c, c ∈ claimed /\ cl_id c = CHEAP /\ cl_intervalSeconds c = 600) as (c & Hc & Ec & Ei).
  { vm_compute in E1. injection E1 as <- _. eexists. split; [by left|]. by split. }
  rewrite <- Ei. rewrite <- Ec in Hk, Hin.
  refine (claimed_once any_format dropped [] NOON 100 claimed s1 c cs [] now' 100 claimed' s2 dropped_reachable E1 Hc Hk _ Hin).
  unfold noon_claim in E. cbn [after_market] in E. by rewrite E1 in E.
Defined.

Lemma claim_exact_witness :
  exists claimed s', claimDueTargets [LENSES] NOON 1 dropped = (Ok claimed, s') /\ cl_id <$> claimed = [CHEAP]
    /\ NoDup (cl_id <$> claimed).
Proof.
  do 2 eexists. split; [vm_compute; reflexivity|]. split; [reflexivity|].
  refine (proj1 (claim_exact [LENSES] NOON 1 dropped _ _ (reachable_market_ok any_format dropped dropped_reachable) _)).
  vm_compute. reflexivity.
Defined.

(** ** Retries, races and late arrivals

    Where the schedule and the events do not repeat as their comments say. *)

#[global] Set Default Goal Selector "!".


(** ** A replayed success *)
Definition ends_in (seconds : Z) (at_ : Z) : RecordPollSuccessOptions :=
  {| ro_at := Some at_; ro_changed := Some true; ro_secondsUntilListingEnd := Some (Some (Finite (inject_Z seconds)));
     ro_recentEventCount := None; ro_recentChangeCount := None; ro_bounds := None; ro_deriveSignals := false;
     ro_signalWindowSeconds := None |}.

(** An hourly search, polled at noon and again two hours later with a listing about to end. *)
Definition at_noon : Market := after_market any_format (CallSuccess LENSES (nothing_new NOON)) dropped.
Definition two_oclock : Z := NOON + 7200000.
Definition ending : RecordPollSuccessOptions := ends_in 120 two_oclock.
Definition scheduled (s : Market) : option (Z * Z * Z) :=
  match recordPollSuccess LENSES ending s with
  | (Ok {| ps_adaptive := Some (d, k); ps_nextPollAt := Some next |}, _) => Some (ad_intervalSeconds d, k, next)
  | _ => None
  end.

(** Recording the same success twice does not recompute the same interval: the replay of
    the identical call, with the identical instant, keeps the streak but damps again, from the
    interval the first recording has just stored.  An hourly search with a listing in its last
    minutes is scheduled fifteen minutes ahead by the first recording, seven and a half
    minutes ahead by its retry, and stays there by the next. *)
Theorem adaptive_replay_moves :
  let once := after_market any_format (CallSuccess LENSES ending) at_noon in
  let twice := after_market any_format (CallSuccess LENSES ending) once in
  market_reachable any_format at_noon
  /\ scheduled at_noon = Some (900, 0, two_oclock + 900000)
  /\ scheduled once = Some (450, 0, two_oclock + 450000)
  /\ scheduled twice = Some (450, 0, two_oclock + 450000).
Proof. split; [apply mreach_call, dropped_reachable|]. split_and!; vm_compute; reflexivity. Qed.

(** ** An update of a target deleted meanwhile *)

(** C39. An edit can bring a deleted target back.  Whatever target the edit has read, when
    another session deletes it before the edit writes, the edit still succeeds: the row is
    inserted again under its old name, enabled but without schedule, connection or
    configuration, and no dispatcher ever finds it due. *)
Theorem update_resurrects_deleted fm id patch s r c s1 :
  market_ok s -> updateTarget_read fm id patch s = (Ok (r, c), s) -> deleteTarget id s = (Ok tt, s1) ->
  find_target id s1 = None
  /\ exists r' s2, updateTarget_write patch (r, c) s1 = (Ok r', s2)
     /\ mk_targets s2 = mk_targets s1 ++ [r']
     /\ mt_id r' = id /\ mt_name r' = mt_name r /\ mt_enabled r' = true /\ mt_connectionId r' = None
     /\ mt_config r' = BObject [] /\ (forall now, due now r' = false).
Proof.
  intros Hs Hr Hd. apply updateTarget_read_row in Hr as [_ Hr]. destruct (find_target_spec _ _ _ Hr) as [_ Hid].
  unfold deleteTarget in Hd. run_bind Hd x s0 Hx. apply getTarget_run in Hx as [-> _].
  unfold deleteTargetRow in Hd. run_bind Hd y s0 Hy. apply st_get_inv in Hy as [-> ->].
  run_bind Hd z s0 Hz. apply demand_inv in Hz as [_ ->]. apply st_modify_inv in Hd as [_ ->].
  assert (find_target id (put_targets (List.filter (fun r => negb (is_target id r)) (mk_targets s)) s) = None) as Hn.
  { unfold find_target. cbn [put_targets with_market mk_targets].
    destruct (find_row (is_target id) (List.filter (fun r => negb (is_target id r)) (mk_targets s))) as [q|] eqn:E; [|done].
    apply find_row_some in E as [[Hq _]%elem_of_bool_filter Hp]. by rewrite Hp in Hq. }
  split; [exact Hn|]. set (s1 := put_targets _ s) in *. exists (upserted r (mk_now s1)).
  eexists. split; [|].
  - unfold updateTarget_write. cbv [mbind St_bind st_gets st_modify]. rewrite Hid, Hn. cbn [is_some].
    unfold getTarget. cbv [mbind St_bind st_gets].
    assert (find_target id (put_targets (mk_targets s1 ++ [upserted r (mk_now s1)]) s1) = Some (upserted r (mk_now s1))) as ->.
    { unfold find_target. cbn [put_targets with_market mk_targets]. apply find_row_app_new; [by apply find_row_none|].
      unfold is_target. by apply bool_decide_eq_true. }
    reflexivity.
  - by split_and!.
Qed.

Definition renamed : UpdateMonitorTargetInput :=
  {| ut_targetType := None; ut_name := Some "primes"%string; ut_connectionId := None; ut_enabled := None;
     ut_intervalSeconds := None; ut_priority := None; ut_config := None; ut_nextPollAt := None |}.
Definition cheap_read : MonitorTargetRow * option jsonb :=
  match updateTarget_read any_format CHEAP renamed dropped with
  | (Ok rc, _) => rc
  | _ => (upserted (target_values (target_input ebay_search 1 BNull) BNull 1 0) 0, None)
  end.
Lemma update_resurrects_deleted_witness :
  updateTarget_read any_format CHEAP renamed dropped = (Ok cheap_read, dropped)
  /\ deleteTarget CHEAP dropped = (Ok tt, (deleteTarget CHEAP dropped).2)
  /\ find_target CHEAP (deleteTarget CHEAP dropped).2 = None
  /\ exists r' s2, updateTarget_write renamed cheap_read (deleteTarget CHEAP dropped).2 = (Ok r', s2)
       /\ mt_name r' = mt_name (fst cheap_read) /\ forall now, due now r' = false.
Proof.
  assert (updateTarget_read any_format CHEAP renamed dropped = (Ok cheap_read, dropped)) as Hr by (vm_compute; reflexivity).
  assert (deleteTarget CHEAP dropped = (Ok tt, (deleteTarget CHEAP dropped).2)) as Hd by (vm_compute; reflexivity).
  split; [exact Hr|]. split; [exact Hd|].
  destruct (update_resurrects_deleted any_format CHEAP renamed dropped (fst cheap_read) (snd cheap_read) _
    (reachable_market_ok any_format dropped dropped_reachable) Hr Hd) as (Hn & r' & s2 & Hw & _ & _ & Hname & _ & _ & _ & Hdue).
  split; [exact Hn|]. exists r', s2. split; [exact Hw|]. split; [exact Hname|exact Hdue].
Defined.

(** ** A link that arrives late *)
Lemma min_opt_late l a : (forall x, x ∈ l -> a < x) -> min_opt (l ++ [a]) = Some a.
Proof.
  intros H. induction l as [|x l IH]; [done|]. unfold min_opt in *. cbn [app foldr].
  rewrite IH by (intros y Hy; apply H; by right). f_equal. specialize (H x ltac:(by left)). lia.
Qed.

Lemma keys_differ s i a : market_ok s -> (forall x, x ∈ mk_events s -> event_key x <> (i, new_listing, a)) ->
  has_key (deduplicationKeyFor i new_listing a) (mk_events s) = false.
Proof.
  intros Hs H. apply not_true_iff_false. intros (x & Ex & Hx)%has_key_spec%list_elem_of_fmap.
  destruct (mo_events s Hs x Hx) as (Hk & _ & _). rewrite Hk in Ex. apply deduplicationKeyFor_inj in Ex as (E1 & E2 & E3).
  apply (H x Hx). unfold event_key. congruence.
Qed.

(** C40. An item can be announced as new twice.  When a monitor links an item that others have
    linked and announced already, and the instant of its own poll is earlier than every
    recorded discovery - its poll began first and finished last - then that link is the global
    minimum, the key built from it is not the key of the announcement, and a second
    [new_listing] event of the same item is stored beside the first. *)
Theorem late_link_announces_again s t a nl e :
  market_ok s -> e ∈ mk_events s -> me_eventType e = new_listing -> me_marketplaceItemId e = nl_marketplaceItemId nl ->
  exists_id mt_id t (mk_targets s) = true ->
  (forall l, l ∈ mk_links s -> ml_marketplaceItemId l = nl_marketplaceItemId nl ->
     a < ml_firstDiscoveredAt l /\ ml_monitorTargetId l <> t) ->
  (forall x, x ∈ mk_events s -> event_key x <> (nl_marketplaceItemId nl, new_listing, a)) ->
  exists_id me_id (mk_next s) (mk_events s) = false ->
  exists s1 e' s2,
    linkItemToMonitor t (nl_marketplaceItemId nl) (Some a) s = (Ok tt, s1)
    /\ deriveNewListingEvents t [nl] None s1 = (Ok ([e'], []), s2)
    /\ mk_events s2 = mk_events s ++ [e'] /\ me_eventType e' = new_listing
    /\ me_marketplaceItemId e' = me_marketplaceItemId e /\ e' <> e.
Proof.
  intros Hs He Hnew Hitem Ht Hl Hk Hfresh. set (i := nl_marketplaceItemId nl) in *.
  destruct (mo_events s Hs e He) as (_ & Hfk & _). unfold event_fks in Hfk. apply andb_true_iff in Hfk as [Hi _].
  rewrite Hitem in Hi.
  assert (forall l, l ∈ mk_links s -> is_link t i l = false) as Hno.
  { intros l Hin. apply not_true_iff_false. rewrite is_link_spec. unfold link_key. intros [= E1 E2]. by destruct (Hl l Hin E2). }
  set (link := {| ml_monitorTargetId := t; ml_marketplaceItemId := i; ml_firstDiscoveredAt := a; ml_lastMatchedAt := a;
                  ml_active := true |}).
  set (s1 := put_links (mk_links s ++ [link]) s).
  assert (linkItemToMonitor t i (Some a) s = (Ok tt, s1)) as Hlink.
  { unfold linkItemToMonitor. cbv [mbind St_bind st_get st_modify mret St_ret demand]. cbv zeta. cbn [default].
    assert (existsb (is_link t i) (mk_links s) = false) as ->.
    { apply not_true_iff_false. rewrite existsb_exists. intros (l & Hin%list_elem_of_In & E). by rewrite Hno in E. }
    by rewrite Ht, Hi. }
  assert (candidate_values s1 t (mk_now s1) nl = [new_listing_values t (mk_now s) a nl]) as Hc.
  { unfold candidate_values. fold i. cbn [s1 put_links with_market mk_links mk_now].
    rewrite (find_row_app_new _ _ link) by (done || (unfold is_link; cbn; by rewrite !bool_decide_eq_true_2 by done)).
    unfold global_first. rewrite List.filter_app, fmap_app. cbn [List.filter link ml_marketplaceItemId].
    rewrite bool_decide_eq_true_2 by done. cbn [fmap list_fmap ml_firstDiscoveredAt].
    rewrite min_opt_late; [by rewrite Z.eqb_refl|].
    intros x (l & -> & [Hb Hin]%elem_of_bool_filter)%list_elem_of_fmap. apply bool_decide_eq_true in Hb. by apply Hl. }
  pose proof (keys_differ s i a Hs Hk) as Hkey.
  exists s1, (new_listing_values t (mk_now s) a nl (mk_next s)). eexists. split; [exact Hlink|]. split; [|split_and!].
  - unfold deriveNewListingEvents. cbv [mbind St_bind st_get]. cbn [by_item_id].
    rewrite bool_decide_eq_false_2 by apply not_elem_of_nil. cbn [list_bind app default]. rewrite Hc. cbn [app].
    unfold insertEvents, atomically. cbn [st_mapM]. unfold insertEvent.
    cbv [mbind St_bind st_get st_modify mret St_ret demand market_uuid]. cbv zeta. cbn [mk_events s1 put_links with_market mk_next].
    cbn [me_deduplicationKey new_listing_values]. fold i. rewrite Hkey, Hfresh.
    match goal with |- context [event_fks ?st ?r] => assert (event_fks st r = true) as -> by
      (unfold event_fks; apply andb_true_iff; split; [exact Hi|exact Ht]) end.
    cbn [negb]. cbv beta iota. cbn [concat app fmap list_fmap me_marketplaceItemId new_listing_values List.filter].
    fold i. rewrite bool_decide_eq_true_2 by (by left). reflexivity.
  - done.
  - done.
  - done.
  - intros E. apply exists_id_false in Hfresh. apply Hfresh.
    assert (me_id e = mk_next s) as <- by (by rewrite <- E). by apply list_elem_of_fmap_2.
Qed.

(** The second search began its poll five seconds before noon and links the lens afterwards. *)
Lemma late_link_announces_again_witness :
  let late := after_market any_format (CallNewListings CHEAP [linked_item LENS] None)
                (after_market any_format (CallLink CHEAP LENS (Some (NOON - 5000))) dropped) in
  filter (fun k => k.1.2 = new_listing) (event_key <$> mk_events late)
    = [(LENS, new_listing, NOON); (LENS, new_listing, NOON - 5000)]
  /\ exists s1 e' s2, linkItemToMonitor CHEAP LENS (Some (NOON - 5000)) dropped = (Ok tt, s1)
       /\ deriveNewListingEvents CHEAP [linked_item LENS] None s1 = (Ok ([e'], []), s2) /\ me_eventType e' = new_listing.
Proof.
  split; [vm_compute; reflexivity|].
  assert (exists e, head (mk_events dropped) = Some e) as [e He] by (vm_compute; eexists; reflexivity).
  assert (e ∈ mk_events dropped) as Hin by (destruct (mk_events dropped); [done|]; injection He as ->; by left).
  assert (me_eventType e = new_listing /\ me_marketplaceItemId e = LENS) as [Ht Hi] by (vm_compute in He; by injection He as <-).
  destruct (late_link_announces_again dropped CHEAP (NOON - 5000) (linked_item LENS) e
    (reachable_market_ok any_format dropped dropped_reachable) Hin Ht Hi ltac:(vm_compute; reflexivity)) as (s1 & e' & s2 & H1 & H2 & _ & H3 & _).
  - assert (forallb (fun l => (NOON - 5000 <? ml_firstDiscoveredAt l) && negb (bool_decide (ml_monitorTargetId l = CHEAP)))
      (mk_links dropped) = true) as Hf by (vm_compute; reflexivity).
    rewrite forallb_elem in Hf. intros l Hl _. specialize (Hf l Hl). apply andb_true_iff in Hf as [Hf1%Z.ltb_lt Hf2%negb_true_iff].
    split; [done|by apply bool_decide_eq_false in Hf2].
  - assert (forallb (fun x => negb (me_toObservedAt x =? NOON - 5000)) (mk_events dropped) = true) as Hf by (vm_compute; reflexivity).
    rewrite forallb_elem in Hf. intros x Hx [= _ _ E]. specialize (Hf x Hx). apply negb_true_iff, Z.eqb_neq in Hf. done.
  - vm_compute. reflexivity.
  - exists s1, e', s2. split; [exact H1|]. split; [exact H2|exact H3].
Defined.
