(* ===== verification/OpportunityFacts.v ===== *)
(** * What an opportunity is

    The evaluation of a rule decides exactly the documented conditions, on the
    values of prices and never on an unknown one, and scores by the documented
    formula; the stamp attributes an event to the first rule that matches,
    once and for all. *)
From Stdlib Require Import Sorted Lqa.
From S2P Require Import Prelude Decimal DecimalPackages Inputs Store Schema Ledger LedgerFacts Json Facts PostingEngine.
From S2P Require Import Stock Config Adaptive MarketTables Monitors Polls MarketEvents Observations Opportunities.
From S2P Require Import MarketMachine AdaptiveFacts.

#[global] Set Default Goal Selector "!".

Open Scope Z_scope.
#[local] Arguments String.append : simpl nomatch.

(** ** Values *)

(** A decimal string in units of [10 ^ -12], when it has no more places. *)
Definition amount (s : string) (x : Z) : Prop := toUnitsAt MarketValidationError s PRICE_SCALE = Ok x.
Definition twelve_places (s : string) : Prop := forall p, parse s = Ok p -> (scale p <= PRICE_SCALE)%nat.

Lemma toScaled_exact s sc x : toUnitsAt MarketValidationError s sc = Ok x -> toScaled (Some s) sc = Some x.
Proof.
  rewrite toUnitsAt_parse. intros (p & Hp & Hs & ->).
  destruct (DECIMAL_STRING s) eqn:E; [|by unfold parseScaled in Hp; rewrite E in Hp].
  apply DECIMAL_STRING_inv in E as (n & w & f & -> & Hw & Hne & Hf).
  rewrite parseScaled_render in Hp by done. injection Hp as <-. cbn [units scale] in *.
  unfold toScaled. cbn [mbind option_bind]. rewrite decimal_parts_render by done. cbn [dp_negative dp_int dp_frac]. cbv zeta.
  rewrite (proj2 (Nat.ltb_ge _ _)) by done. f_equal. exact (scaled_value_units sc n w f Hs).
Qed.
Lemma toScaled_none s : (forall p, parse s <> Ok p) -> forall sc, toScaled (Some s) sc = None.
Proof.
  intros Hn sc. unfold toScaled. cbn [mbind option_bind]. unfold decimal_parts, isDecimalString.
  destruct (DECIMAL_STRING s) eqn:E; [|done]. exfalso.
  apply DECIMAL_STRING_inv in E as (n & w & f & -> & Hw & Hne & Hf).
  eapply Hn. by apply parseScaled_render.
Qed.
Lemma toScaled_amount s x : twelve_places s -> toScaled (Some s) PRICE_SCALE = Some x <-> amount s x.
Proof.
  intros H. split; [|apply toScaled_exact]. intros E. destruct (parse s) as [p|] eqn:Ep.
  - assert (amount s (units p * pow10 (PRICE_SCALE - scale p))) as Ha
      by (apply toUnitsAt_parse; exists p; split; [done|split; [by apply H|done]]).
    rewrite (toScaled_exact _ _ _ Ha) in E. by injection E as <-.
  - rewrite toScaled_none in E by congruence. done.
Qed.

(** What the two observations know. *)
Definition price_is (o : option ObservationSnapshot) (x : Z) : Prop :=
  exists snap s, o = Some snap /\ os_price snap = Some s /\ amount s x.
Definition quantity_is (o : option ObservationSnapshot) (n : Z) : Prop :=
  exists snap, o = Some snap /\ os_quantityAvailable snap = Some n.
Definition state_is (o : option ObservationSnapshot) (s : string) : Prop :=
  exists snap, o = Some snap /\ os_listingState snap = Some s.
Definition availability_is (o : option ObservationSnapshot) (s : string) : Prop :=
  exists snap, o = Some snap /\ os_availability snap = Some s.

(** The drop from [y] to [x] in percent. *)
Definition drop_percent (y x : Z) : Q := (inject_Z ((y - x) * 100) / inject_Z y)%Q.

(** ** The documented conditions *)
Definition price_holds (g : PriceConditions) (current previous : option ObservationSnapshot) : Prop :=
  (forall m, pc_maxPrice g = Some m -> exists x t, price_is current x /\ amount m t /\ x <= t)
  /\ (forall a, pc_minDropAmount g = Some a ->
        exists x y t, price_is current x /\ price_is previous y /\ amount a t /\ t <= y - x)
  /\ (forall q, pc_minDropPercent g = Some q ->
        exists x y, price_is current x /\ price_is previous y /\ 0 < y /\ (q <= drop_percent y x)%Q).
Definition quantity_holds (g : QuantityConditions) (current previous : option ObservationSnapshot) : Prop :=
  (forall n, qc_minAvailable g = Some n -> exists c, quantity_is current c /\ n <= c)
  /\ (forall n, qc_maxAvailable g = Some n -> exists c, quantity_is current c /\ c <= n)
  /\ (forall n, qc_minIncrease g = Some n ->
        exists c p, quantity_is current c /\ quantity_is previous p /\ n <= c - p).
Definition listing_holds (g : ListingConditions) (current previous : option ObservationSnapshot) : Prop :=
  (forall set, lc_stateIn g = Some set -> exists s, state_is current s /\ s ∈ set)
  /\ (forall set, lc_stateNotIn g = Some set -> exists s, state_is current s /\ s ∉ set)
  /\ (forall set, lc_availabilityIn g = Some set -> exists s, availability_is current s /\ s ∈ set)
  /\ (forall t, lc_transitionedTo g = Some t -> exists s, state_is previous s /\ s <> t /\ state_is current t).
Definition scope_holds (g : ScopeConditions) (e : OpportunityEventContext) : Prop :=
  (forall ids, sc_monitorTargetIds g = Some ids ->
     exists t, ec_monitorTargetId e = Some t /\ uuid_text t ∈ ids)
  /\ (forall ids, sc_marketplaceItemIds g = Some ids -> uuid_text (ec_marketplaceItemId e) ∈ ids).

Definition holds (c : OpportunityConditions) (cx : OpportunityContext) : Prop :=
  (forall set, oc_eventTypes c = Some set -> exists t, t ∈ set /\ ec_eventType (cx_event cx) = event_text t)
  /\ (forall g, oc_price c = Some g -> price_holds g (cx_currentObservation cx) (cx_previousObservation cx))
  /\ (forall g, oc_quantity c = Some g -> quantity_holds g (cx_currentObservation cx) (cx_previousObservation cx))
  /\ (forall g, oc_listing c = Some g -> listing_holds g (cx_currentObservation cx) (cx_previousObservation cx))
  /\ (forall g, oc_scope c = Some g -> scope_holds g (cx_event cx)).

(** ** Predicates *)
Definition all_satisfied (l : list PredicateResult) : Prop := Forall (fun r => pr_satisfied r = true) l.

Lemma satisfied_app l k : all_satisfied (l ++ k) <-> all_satisfied l /\ all_satisfied k.
Proof. apply Forall_app. Qed.
Lemma satisfied_given {A} (o : option A) f :
  all_satisfied (when_given o f) <-> forall a, o = Some a -> pr_satisfied (f a) = true.
Proof.
  destruct o as [a|]; cbn; [|by split; [|constructor]]. unfold all_satisfied. rewrite Forall_singleton.
  split; [by intros H ? [= <-]|auto].
Qed.
Lemma satisfied_group {A} (o : option A) f :
  all_satisfied (of_group o f) <-> forall g, o = Some g -> all_satisfied (f g).
Proof. destruct o as [a|]; cbn; [|by split; [|constructor]]. split; [by intros H ? [= <-]|auto]. Qed.

Definition places_known (o : option ObservationSnapshot) : Prop :=
  forall snap s, o = Some snap -> os_price snap = Some s -> twelve_places s.
(** A threshold of at most six places, as the grammar allows it. *)
Definition six_places (q : Q) : Prop := (0 < q)%Q /\ exists k, (q * 1000000 == inject_Z k)%Q.
Record places_ok (g : PriceConditions) : Prop := {
  po_max : forall m, pc_maxPrice g = Some m -> twelve_places m;
  po_amount : forall a, pc_minDropAmount g = Some a -> twelve_places a;
  po_percent : forall q, pc_minDropPercent g = Some q -> six_places q;
}.

Abbreviation price o := (toScaled (mbind (M := option) os_price o) PRICE_SCALE).

Lemma price_spec o x : places_known o -> price o = Some x <-> price_is o x.
Proof.
  intros Hp. unfold price_is. destruct o as [snap|]; cbn [mbind option_bind]; [|by split; [|intros (? & ? & ? & _)]].
  destruct (os_price snap) as [s|] eqn:Es.
  - rewrite toScaled_amount by (by eapply Hp). split; [intros; by exists snap, s|].
    intros (? & ? & [= <-] & E & H). congruence.
  - split; [done|]. intros (? & ? & [= <-] & E & _). congruence.
Qed.
Lemma price_is_fun o x y : price_is o x -> price_is o y -> x = y.
Proof. intros (? & ? & -> & E1 & H1) (? & ? & [= <-] & E2 & H2). unfold amount in *. congruence. Qed.

Lemma round_whole (q : Q) k : (q == inject_Z k)%Q -> round q = k.
Proof. intros E. apply Z.le_antisymm; [apply round_ge|apply round_le]; rewrite E; apply Qle_refl. Qed.

Lemma percent_exact q x y : six_places q -> 0 < y ->
  (Adaptive.round (q * 1000000) <=? percent_scaled y x) = true <-> (q <= drop_percent y x)%Q.
Proof.
  intros (Hq & k & Hk) Hy. rewrite (round_whole _ _ Hk), Z.leb_le. unfold percent_scaled, drop_percent.
  assert (0 < k) as Hk0 by (rewrite Zlt_Qlt; rewrite <- Hk; change (inject_Z 0) with 0%Q; lra).
  assert (forall z, (q <= inject_Z (z * 100) / inject_Z y)%Q <-> k * y <= z * 100 * 1000000) as Hd.
  { intros z. assert (0 < inject_Z y)%Q as Hy' by (by rewrite <- (Zlt_Qlt 0)).
    rewrite Zle_Qle, !inject_Z_mult, <- Hk. split; intros H.
    - apply Qmult_le_compat_r with (z := inject_Z y) in H; [|lra].
      assert (inject_Z z * inject_Z 100 / inject_Z y * inject_Z y == inject_Z z * inject_Z 100)%Q as E by (field; lra).
      rewrite E in H. change (inject_Z 1000000) with 1000000%Q. nra.
    - apply Qle_shift_div_l; [done|]. change (inject_Z 1000000) with 1000000%Q in H. nra. }
  rewrite Hd. set (a := (y - x) * 100 * 1000000). destruct (Z.le_gt_cases 0 a) as [Ha|Ha].
  - rewrite Z.quot_div_nonneg by lia. split; intros H.
    + pose proof (Z.mul_div_le a y Hy). nia.
    + apply Z.div_le_lower_bound; lia.
  - split; intros H; [exfalso|nia].
    assert (Z.quot a y <= 0); [|lia]. rewrite <- (Z.opp_involutive a), Z.quot_opp_l by lia.
    pose proof (Z.quot_pos (- a) y). lia.
Qed.

Lemma max_price_spec o m : places_known o -> twelve_places m ->
  pr_satisfied (max_price (price o) m) = true <-> exists x t, price_is o x /\ amount m t /\ x <= t.
Proof.
  intros Ho Hm. unfold max_price. destruct (price o) as [x|] eqn:Ex.
  - apply (price_spec o x Ho) in Ex. destruct (toScaled (Some m) PRICE_SCALE) as [t|] eqn:Et.
    + apply (toScaled_amount m t Hm) in Et. cbn. rewrite Z.leb_le. split; [by exists x, t|].
      intros (x' & t' & Hx & Ht & H). rewrite (price_is_fun _ _ _ Ex Hx). unfold amount in *. congruence.
    + split; [done|]. intros (? & t & _ & Ht & _). apply (toScaled_amount m t Hm) in Ht. congruence.
  - split; [done|]. intros (x & ? & Hx & _). apply (price_spec o x Ho) in Hx. congruence.
Qed.
Lemma min_drop_amount_spec o p a : places_known o -> places_known p -> twelve_places a ->
  pr_satisfied (min_drop_amount (price o) (price p) a) = true
  <-> exists x y t, price_is o x /\ price_is p y /\ amount a t /\ t <= y - x.
Proof.
  intros Ho Hp Ha. unfold min_drop_amount.
  destruct (price o) as [x|] eqn:Ex; [apply (price_spec o x Ho) in Ex|];
    [|split; [done|]; intros (x & ? & ? & Hx & _); apply (price_spec o x Ho) in Hx; congruence].
  destruct (price p) as [y|] eqn:Ey; [apply (price_spec p y Hp) in Ey|];
    [|split; [done|]; intros (? & y & ? & _ & Hy & _); apply (price_spec p y Hp) in Hy; congruence].
  destruct (toScaled (Some a) PRICE_SCALE) as [t|] eqn:Et; [apply (toScaled_amount a t Ha) in Et|];
    [|split; [done|]; intros (? & ? & t & _ & _ & Ht & _); apply (toScaled_amount a t Ha) in Ht; congruence].
  cbn. rewrite Z.leb_le. split; [by exists x, y, t|]. intros (x' & y' & t' & Hx & Hy & Ht & H).
  rewrite (price_is_fun _ _ _ Ex Hx), (price_is_fun _ _ _ Ey Hy). unfold amount in *. congruence.
Qed.
Lemma min_drop_percent_spec o p q : places_known o -> places_known p -> six_places q ->
  pr_satisfied (min_drop_percent (price o) (price p) q) = true
  <-> exists x y, price_is o x /\ price_is p y /\ 0 < y /\ (q <= drop_percent y x)%Q.
Proof.
  intros Ho Hp Hq. unfold min_drop_percent.
  destruct (price o) as [x|] eqn:Ex; [apply (price_spec o x Ho) in Ex|];
    [|split; [done|]; intros (x & ? & Hx & _); apply (price_spec o x Ho) in Hx; congruence].
  destruct (price p) as [y|] eqn:Ey; [apply (price_spec p y Hp) in Ey|];
    [|split; [done|]; intros (? & y & _ & Hy & _); apply (price_spec p y Hp) in Hy; congruence].
  destruct (Z.leb_spec y 0) as [H0|H0]; cbn [pr_satisfied predicate graded].
  - split; [done|]. intros (? & y' & _ & Hy & H & _). rewrite (price_is_fun _ _ _ Ey Hy) in H0. lia.
  - cbv zeta. cbn [pr_satisfied]. rewrite percent_exact by done. split; [by exists x, y|]. intros (x' & y' & Hx & Hy & _ & H).
    by rewrite (price_is_fun _ _ _ Ex Hx), (price_is_fun _ _ _ Ey Hy).
Qed.

Lemma price_predicates_spec g o p : places_known o -> places_known p -> places_ok g ->
  all_satisfied (price_predicates g (price o) (price p)) <-> price_holds g o p.
Proof.
  intros Ho Hp [Hm Ha Hq]. unfold price_predicates, price_holds. rewrite !satisfied_app, !satisfied_given.
  assert (forall A (x : option A) (P R : A -> Prop), (forall a, x = Some a -> P a <-> R a) ->
    (forall a, x = Some a -> P a) <-> (forall a, x = Some a -> R a)) as Hx by (intros A x P R H; split; intros K a E; apply H; auto).
  rewrite (Hx _ (pc_maxPrice g) _ _ (fun m E => max_price_spec o m Ho (Hm m E))).
  rewrite (Hx _ (pc_minDropAmount g) _ _ (fun a E => min_drop_amount_spec o p a Ho Hp (Ha a E))).
  by rewrite (Hx _ (pc_minDropPercent g) _ _ (fun q E => min_drop_percent_spec o p q Ho Hp (Hq q E))).
Qed.

Lemma and_iff_compat (A B C D : Prop) : (A <-> B) -> (C <-> D) -> A /\ C <-> B /\ D.
Proof. tauto. Qed.
(** Every condition of a group, declared or not. *)
Lemma given_iff {A} (o : option A) (P R : A -> Prop) : (forall a, o = Some a -> P a <-> R a) ->
  (forall a, o = Some a -> P a) <-> (forall a, o = Some a -> R a).
Proof. intros H. split; intros K a E; apply H; auto. Qed.

Lemma quantity_spec o n : (s ← o; os_quantityAvailable s) = Some n <-> quantity_is o n.
Proof. destruct o as [s|]; cbn; split; [by exists s|by intros (? & [= <-] & ?)|done|by intros (? & ? & _)]. Qed.
Lemma state_spec o n : (s ← o; os_listingState s) = Some n <-> state_is o n.
Proof. destruct o as [s|]; cbn; split; [by exists s|by intros (? & [= <-] & ?)|done|by intros (? & ? & _)]. Qed.
Lemma availability_spec o n : (s ← o; os_availability s) = Some n <-> availability_is o n.
Proof. destruct o as [s|]; cbn; split; [by exists s|by intros (? & [= <-] & ?)|done|by intros (? & ? & _)]. Qed.

Lemma quantity_predicates_spec g o p :
  all_satisfied (quantity_predicates g (s ← o; os_quantityAvailable s) (s ← p; os_quantityAvailable s))
  <-> quantity_holds g o p.
Proof.
  unfold quantity_predicates, quantity_holds. rewrite !satisfied_app, !satisfied_given.
  setoid_rewrite <- quantity_spec.
  destruct (mbind _ o) as [c|], (mbind _ p) as [q|]; cbn [pr_satisfied predicate graded];
    (apply and_iff_compat; [|apply and_iff_compat]); apply given_iff; intros a _; rewrite ?Z.leb_le;
    (split; [intros H; try done; try (eexists; by split); try (do 2 eexists; by split_and!)
            |intros H; destruct_and?; decompose [ex and] H; by simplify_eq]).
Qed.

Lemma inSet_spec v set : inSet v set = true <-> exists s, v = Some s /\ s ∈ set.
Proof.
  destruct v as [s|]; cbn; [rewrite bool_decide_eq_true|]; split; [by exists s|by intros (? & [= <-] & ?)|done|by intros (? & ? & _)].
Qed.

Lemma listing_predicates_spec g o p :
  all_satisfied (listing_predicates g (s ← o; os_listingState s) (s ← p; os_listingState s) (s ← o; os_availability s))
  <-> listing_holds g o p.
Proof.
  unfold listing_predicates, listing_holds. rewrite !satisfied_app, !satisfied_given.
  setoid_rewrite <- state_spec. setoid_rewrite <- availability_spec.
  set (state := mbind _ o). set (before := mbind _ p). set (available := mbind _ o).
  apply and_iff_compat; [|apply and_iff_compat; [|apply and_iff_compat]]; apply given_iff; intros a _;
    cbn [pr_satisfied predicate graded]; rewrite ?inSet_spec; try done.
  - destruct state as [s|]; cbn [pr_satisfied predicate graded]; [|by split; [|intros (? & ? & _)]].
    rewrite negb_true_iff, bool_decide_eq_false. split; [by exists s|by intros (? & [= <-] & ?)].
  - destruct state as [s|], before as [q|]; cbn [pr_satisfied predicate graded];
      try (split; [done|]; by intros (? & ? & _ & ?)).
    rewrite andb_true_iff, negb_true_iff, String.eqb_neq, String.eqb_eq.
    split; [intros [? ->]; by exists q|]. by intros (? & [= <-] & ? & [= ->]).
Qed.

Lemma scope_predicates_spec g e : all_satisfied (scope_predicates g e) <-> scope_holds g e.
Proof.
  unfold scope_predicates, scope_holds. rewrite !satisfied_app, !satisfied_given.
  apply and_iff_compat; apply given_iff; intros ids _; cbn [pr_satisfied predicate graded]; rewrite inSet_spec.
  - split; [intros (s & E & Hs)|intros (t & E & Ht)].
    + destruct (ec_monitorTargetId e) as [t|]; [|done]. injection E as <-. by exists t.
    + exists (uuid_text t). by rewrite E.
  - split; [by intros (s & [= <-] & Hs)|by eexists].
Qed.

(** ** The score *)
Lemma weight_valid s : scoreWeightSchema s = true ->
  exists w, toUnitsAt MarketValidationError s SCORE_SCALE = Ok w /\ 0 <= w < 10 ^ 10.
Proof.
  unfold scoreWeightSchema. destruct (span_digits s) as [w rest] eqn:E. apply span_digits_spec in E as [-> Hw].
  rewrite !andb_true_iff, !Nat.leb_le. intros [[Hw1 Hw6] Hr].
  assert (exists f, String.append w rest = render false w f /\ Js.all_digits f = true /\ (String.length f <= 4)%nat) as (f & -> & Hf & Hf4).
  { destruct rest as [|c f]; [exists ""%string; rewrite append_nil_r; split_and!; [unfold render; by rewrite !append_nil_r|done|cbn; lia]|].
    rewrite !andb_true_iff, !Nat.leb_le in Hr. destruct Hr as [[Hc Hf] [Hf1 Hf4]]. apply Ascii.eqb_eq in Hc as ->.
    exists f. split; [|done]. unfold render. rewrite (proj2 (String.eqb_neq f "")) by (intros ->; cbn in Hf1; lia). done. }
  assert (w <> ""%string) as Hne by (by intros ->; cbn in Hw1; lia).
  assert (Js.all_digits (String.append w f) = true) as Hwf by (by rewrite all_digits_append, Hw, Hf).
  destruct (bigint_bounds _ Hwf) as [H0 H1]. rewrite length_append in H1.
  exists (Js.bigint (String.append w f) * pow10 (SCORE_SCALE - String.length f)). split.
  - apply toUnitsAt_parse. eexists. split; [by apply parseScaled_render|]. by split.
  - unfold pow10, SCORE_SCALE in *. split; [apply Z.mul_nonneg_nonneg; [done|by apply Z.pow_nonneg]|].
    apply Z.lt_le_trans with (10 ^ Z.of_nat (String.length w + String.length f) * 10 ^ Z.of_nat (4 - String.length f)).
    { apply Z.mul_lt_mono_pos_r; [by apply Z.pow_pos_nonneg; lia|done]. }
    rewrite <- Z.pow_add_r by lia. apply Z.pow_le_mono_r; lia.
Qed.

(** How many predicates are declared. *)
Definition given_count {A} (o : option A) : Z := if o then 1 else 0.
Definition declared (c : OpportunityConditions) : Z :=
  given_count (oc_eventTypes c)
  + match oc_price c with None => 0 | Some g =>
      given_count (pc_maxPrice g) + given_count (pc_minDropAmount g) + given_count (pc_minDropPercent g) end
  + match oc_quantity c with None => 0 | Some g =>
      given_count (qc_minAvailable g) + given_count (qc_maxAvailable g) + given_count (qc_minIncrease g) end
  + match oc_listing c with None => 0 | Some g =>
      given_count (lc_stateIn g) + given_count (lc_stateNotIn g) + given_count (lc_availabilityIn g)
      + given_count (lc_transitionedTo g) end
  + match oc_scope c with None => 0 | Some g =>
      given_count (sc_monitorTargetIds g) + given_count (sc_marketplaceItemIds g) end.

Lemma declared_nonneg c : 0 <= declared c.
Proof.
  assert (forall A (o : option A), 0 <= given_count o) as G by (by intros A []).
  unfold declared. repeat (apply Z.add_nonneg_nonneg || apply G || case_match || done).
Qed.

Definition worth (l : list PredicateResult) : Z := sumZ (pr_contribution <$> l).
Lemma worth_app l k : worth (l ++ k) = worth l + worth k.
Proof. unfold worth. by rewrite fmap_app, sumZ_app. Qed.
Lemma worth_given {A} (o : option A) f : (forall a, o = Some a -> pr_contribution (f a) = SCORE_UNIT) ->
  worth (when_given o f) = SCORE_UNIT * given_count o.
Proof. intros H. destruct o as [a|]; cbn; [|done]. unfold worth. cbn. rewrite H by done. done. Qed.

(** What the graded predicate adds to the one it is worth as any other. *)
Definition bonus (c : OpportunityConditions) (cx : OpportunityContext) : Z :=
  match (g ← oc_price c; pc_minDropPercent g), price (cx_currentObservation cx), price (cx_previousObservation cx) with
  | Some _, Some x, Some y => if y <=? 0 then 0 else drop_bonus (percent_scaled y x)
  | _, _, _ => 0
  end.

Lemma predicates_worth c cx : worth (evaluatePredicates c cx) = SCORE_UNIT * declared c + bonus c cx.
Proof.
  unfold evaluatePredicates, declared, bonus, event_predicates. cbv zeta. rewrite !worth_app.
  rewrite (worth_given (oc_eventTypes c)) by done.
  set (x := price (cx_currentObservation cx)). set (y := price (cx_previousObservation cx)).
  assert (worth (of_group (oc_price c) (fun g => price_predicates g x y))
    = SCORE_UNIT * match oc_price c with None => 0 | Some g =>
        given_count (pc_maxPrice g) + given_count (pc_minDropAmount g) + given_count (pc_minDropPercent g) end
      + match (g ← oc_price c; pc_minDropPercent g), x, y with
        | Some _, Some x, Some y => if y <=? 0 then 0 else drop_bonus (percent_scaled y x)
        | _, _, _ => 0
        end) as ->.
  { destruct (oc_price c) as [g|]; cbn [of_group mbind option_bind]; [|done]. unfold price_predicates. rewrite !worth_app.
    rewrite (worth_given (pc_maxPrice g)) by (intros m _; unfold max_price; by repeat case_match).
    rewrite (worth_given (pc_minDropAmount g)) by (intros m _; unfold min_drop_amount; by repeat case_match).
    destruct (pc_minDropPercent g) as [q|]; cbn [when_given]; [|cbn [given_count worth sumZ fmap list_fmap foldr]; lia].
    unfold worth, min_drop_percent. cbn [given_count]. destruct x as [x|], y as [y|]; csimpl; try lia.
    destruct (y <=? 0); csimpl; lia. }
  assert (forall cur prev, worth (of_group (oc_quantity c) (fun g => quantity_predicates g cur prev))
    = SCORE_UNIT * match oc_quantity c with None => 0 | Some g =>
        given_count (qc_minAvailable g) + given_count (qc_maxAvailable g) + given_count (qc_minIncrease g) end) as ->.
  { intros cur prev. destruct (oc_quantity c) as [g|]; cbn [of_group]; [|done]. unfold quantity_predicates. rewrite !worth_app.
    rewrite !worth_given by (intros ? _; by repeat case_match). lia. }
  assert (forall st pst av, worth (of_group (oc_listing c) (fun g => listing_predicates g st pst av))
    = SCORE_UNIT * match oc_listing c with None => 0 | Some g =>
        given_count (lc_stateIn g) + given_count (lc_stateNotIn g) + given_count (lc_availabilityIn g)
        + given_count (lc_transitionedTo g) end) as ->.
  { intros st pst av. destruct (oc_listing c) as [g|]; cbn [of_group]; [|done]. unfold listing_predicates. rewrite !worth_app.
    rewrite !worth_given by (intros ? _; by repeat case_match). lia. }
  assert (worth (of_group (oc_scope c) (fun g => scope_predicates g (cx_event cx)))
    = SCORE_UNIT * match oc_scope c with None => 0 | Some g =>
        given_count (sc_monitorTargetIds g) + given_count (sc_marketplaceItemIds g) end) as ->.
  { destruct (oc_scope c) as [g|]; cbn [of_group]; [|done]. unfold scope_predicates. rewrite !worth_app.
    rewrite !worth_given by done. lia. }
  lia.
Qed.

Lemma drop_bonus_exact y x : 0 < y -> x <= y -> drop_bonus (percent_scaled y x) = Z.min 10000 ((y - x) * 10000 / y).
Proof.
  intros Hy Hx. unfold percent_scaled. rewrite Z.quot_div_nonneg by nia. set (a := (y - x) * 100 * 1000000 / y).
  assert (0 <= a) as Ha by (apply Z.div_pos; nia).
  assert (a / 10000 = (y - x) * 10000 / y) as E.
  { unfold a. rewrite Z.div_div by lia.
    replace ((y - x) * 100 * 1000000) with ((y - x) * 10000 * 10000) by ring. by rewrite Z.div_mul_cancel_r by lia. }
  unfold drop_bonus. cbv zeta. destruct (Z.ltb_spec 100000000 a) as [H|H].
  - change (Z.quot 100000000 10000) with 10000. cbn [Z.ltb Z.compare]. rewrite <- E.
    assert (10000 <= a / 10000) by (apply Z.div_le_lower_bound; lia). lia.
  - rewrite (proj2 (Z.ltb_ge a 0)) by done. rewrite Z.quot_div_nonneg, E by lia.
    assert (a / 10000 <= 10000) by (apply Z.div_le_upper_bound; lia). lia.
Qed.
Lemma drop_bonus_range p : 0 <= drop_bonus p <= 10000.
Proof.
  unfold drop_bonus. cbv zeta. set (m := if 100000000 <? p then _ else p).
  assert (m <= 100000000) as Hm by (unfold m; destruct (Z.ltb_spec 100000000 p); lia).
  destruct (Z.ltb_spec m 0); [lia|]. rewrite Z.quot_div_nonneg by lia.
  split; [by apply Z.div_pos|]. apply Z.div_le_upper_bound; lia.
Qed.

Lemma roundToScoreScale_half_up p : 0 <= p -> roundToScoreScale p = half_up p SCORE_UNIT.
Proof.
  intros Hp. unfold roundToScoreScale, SCORE_UNIT. change (10000 / 2) with 5000. rewrite Z.quot_div_nonneg by lia.
  symmetry. apply half_up_unique; [done|]. pose proof (Z.div_mod (p + 5000) 10000 ltac:(done)).
  pose proof (Z.mod_pos_bound (p + 5000) 10000 ltac:(done)). lia.
Qed.

Lemma evaluatePredicates_spec c cx :
  places_known (cx_currentObservation cx) -> places_known (cx_previousObservation cx) ->
  (forall g, oc_price c = Some g -> places_ok g) ->
  all_satisfied (evaluatePredicates c cx) <-> holds c cx.
Proof.
  intros Hc Hp Hg. unfold evaluatePredicates, holds, event_predicates. cbv zeta.
  rewrite !satisfied_app, !satisfied_given, !satisfied_group.
  apply and_iff_compat; [|apply and_iff_compat; [|apply and_iff_compat; [|apply and_iff_compat]]]; apply given_iff; intros g E.
  - cbn [pr_satisfied predicate graded]. rewrite bool_decide_eq_true, list_elem_of_fmap. naive_solver.
  - by apply price_predicates_spec; [..|apply Hg].
  - apply quantity_predicates_spec.
  - apply listing_predicates_spec.
  - apply scope_predicates_spec.
Qed.

Lemma none_failed l :
  List.filter (fun r => negb (pr_satisfied r)) l = [] <-> all_satisfied l.
Proof.
  induction l as [|r l IH]; [by split; [constructor|]|]. cbn. unfold all_satisfied in *. rewrite Forall_cons.
  destruct (pr_satisfied r) eqn:E; cbn; [rewrite IH; tauto|]. split; [done|]. by intros [? _].
Qed.

Lemma drop_from_percent q y x : (0 < q)%Q -> 0 < y -> (q <= drop_percent y x)%Q -> x <= y.
Proof.
  intros Hq Hy H. assert (0 < inject_Z ((y - x) * 100))%Q as Hz.
  { unfold drop_percent in H. assert (0 < inject_Z y)%Q as Hy' by (by rewrite <- (Zlt_Qlt 0)).
    assert (inject_Z ((y - x) * 100) / inject_Z y * inject_Z y == inject_Z ((y - x) * 100))%Q as E by (field; lra).
    rewrite <- E. apply Qmult_lt_0_compat; lra. }
  change 0%Q with (inject_Z 0) in Hz. rewrite <- Zlt_Qlt in Hz. lia.
Qed.

Lemma bonus_cases c cx :
  places_known (cx_currentObservation cx) -> places_known (cx_previousObservation cx) ->
  (forall g, oc_price c = Some g -> places_ok g) -> holds c cx ->
  0 <= bonus c cx <= 10000
  /\ ((g ← oc_price c; pc_minDropPercent g) = None -> bonus c cx = 0)
  /\ (forall g q x y, oc_price c = Some g -> pc_minDropPercent g = Some q ->
        price_is (cx_currentObservation cx) x -> price_is (cx_previousObservation cx) y ->
        bonus c cx = Z.min 10000 ((y - x) * 10000 / y)).
Proof.
  intros Hc Hp Hg (_ & Hprice & _). unfold bonus. split_and!.
  1, 2: destruct (mbind _ (oc_price c)); [|lia]; destruct (price _) as [x|]; [|lia]; destruct (price _) as [y|]; [|lia];
    destruct (y <=? 0); [lia|]; apply drop_bonus_range.
  - by intros ->.
  - intros g q x y Eg Eq Hx Hy. rewrite Eg. cbn [mbind option_bind]. rewrite Eq.
    rewrite (proj2 (price_spec _ x Hc) Hx), (proj2 (price_spec _ y Hp) Hy).
    destruct (Hprice g Eg) as (_ & _ & H). destruct (H q Eq) as (x' & y' & Hx' & Hy' & Hpos & Hle).
    rewrite <- (price_is_fun _ _ _ Hx Hx'), <- (price_is_fun _ _ _ Hy Hy') in *.
    rewrite (proj2 (Z.leb_gt y 0)) by done. apply drop_bonus_exact; [done|].
    eapply drop_from_percent; [|done..]. by apply (po_percent g (Hg g Eg)).
Qed.

(** C18. A rule is an opportunity exactly when every condition it declares holds, and an
    unknown is never a match.  A rule whose stored text is outside the grammar matches nothing.
    Otherwise, for prices and thresholds of the places the tables keep, it matches exactly when
    the event is of a declared type and each declared predicate holds of known values: prices
    compared by value, the percentage drop exactly and only from a positive price.  A rule
    that does not match scores nothing; one that does scores its weight times the sum of the
    number of declared predicates and, where a percentage is asked, the share of the price
    that was dropped - at most one, and cut off after four places before the weight applies -
    and the product is rounded half up to four places.  So a weight of 2.5, four predicates
    and a fall of 17.0833 percent score 2.5 times 4.1708, 10.4270, where the documented
    formula, without the cut, gives 10.4271. *)
Theorem evaluation_exact fm rule cx :
  let e := evaluateRule fm rule cx in
  let c := conditions_of (rd_conditions rule) in
  let valid := opportunityConditionsSchema fm (rd_conditions rule) && scoreWeightSchema (rd_scoreWeight rule) in
  (valid = false \/ ev_matched e = false -> ev_matched e = false /\ ev_score e = 0%Q)
  /\ (valid = true ->
      places_known (cx_currentObservation cx) -> places_known (cx_previousObservation cx) ->
      (forall g, oc_price c = Some g -> places_ok g) ->
      (ev_matched e = true <-> holds c cx)
      /\ (holds c cx -> exists w b,
            toUnitsAt MarketValidationError (rd_scoreWeight rule) SCORE_SCALE = Ok w
            /\ ev_score e = (half_up (w * (10000 * declared c + b)) 10000 # 10000)
            /\ 0 <= b <= 10000
            /\ ((g ← oc_price c; pc_minDropPercent g) = None -> b = 0)
            /\ (forall g q x y, oc_price c = Some g -> pc_minDropPercent g = Some q ->
                  price_is (cx_currentObservation cx) x -> price_is (cx_previousObservation cx) y ->
                  b = Z.min 10000 ((y - x) * 10000 / y)))).
Proof.
  cbv zeta. unfold evaluateRule.
  destruct (opportunityConditionsSchema fm (rd_conditions rule)); cbn [negb andb]; [|by split].
  destruct (scoreWeightSchema (rd_scoreWeight rule)) eqn:Hw; cbn [negb]; [|by split]. cbv zeta.
  set (c := conditions_of (rd_conditions rule)). split.
  { intros [|H]; [done|]. by destruct (List.filter _ _). }
  intros _ Hc Hp Hg. pose proof (none_failed (evaluatePredicates c cx)) as Hn.
  rewrite (evaluatePredicates_spec c cx Hc Hp Hg) in Hn.
  destruct (weight_valid _ Hw) as (w & Ew & Hw0 & _). split.
  { rewrite <- Hn. destruct (List.filter _ _); by split. }
  intros Hh. rewrite (proj2 Hn Hh). cbn [ev_score]. destruct (bonus_cases c cx Hc Hp Hg Hh) as (Hb & Hb0 & Hbx).
  exists w, (bonus c cx). split; [done|]. split; [|exact (conj Hb (conj Hb0 Hbx))].
  rewrite (toScaled_exact _ _ _ Ew). cbn [default].
  change (sumZ (pr_contribution <$> evaluatePredicates c cx)) with (worth (evaluatePredicates c cx)).
  rewrite predicates_worth. rewrite roundToScoreScale_half_up; [done|].
  apply Z.mul_nonneg_nonneg; [done|]. pose proof (declared_nonneg c). unfold SCORE_UNIT. lia.
Qed.

(** ** Attribution *)
Lemma order_iff r q : evaluation_order r q = true <->
  or_priority r < or_priority q \/ or_priority r = or_priority q /\
    (or_createdAt r < or_createdAt q \/ or_createdAt r = or_createdAt q /\ (or_id r <= or_id q)%positive).
Proof.
  unfold evaluation_order. by rewrite !orb_true_iff, !andb_true_iff, !orb_true_iff, !andb_true_iff, !Z.ltb_lt, !Z.eqb_eq, Pos.leb_le.
Qed.
Lemma order_total x y : evaluation_order x y = true \/ evaluation_order y x = true.
Proof. rewrite !order_iff. lia. Qed.
Lemma order_trans x y z : evaluation_order x y = true -> evaluation_order y z = true -> evaluation_order x z = true.
Proof. rewrite !order_iff. lia. Qed.

Definition enabled_rules (s : Market) : list OpportunityRuleRow :=
  sort_with evaluation_order (List.filter or_enabled (mk_rules s)).
Lemma elem_of_enabled s r : r ∈ enabled_rules s <-> r ∈ mk_rules s /\ or_enabled r = true.
Proof. unfold enabled_rules. rewrite sort_with_perm, elem_of_bool_filter. tauto. Qed.

(** The context an evaluation builds. *)
Definition context_of (ev : EvaluableMarketEvent) (found : option ObservationSnapshot * option ObservationSnapshot)
    : OpportunityContext :=
  {| cx_event := {| ec_eventType := ee_eventType ev; ec_marketplaceItemId := ee_marketplaceItemId ev;
                    ec_monitorTargetId := ee_monitorTargetId ev |};
     cx_currentObservation := fst found; cx_previousObservation := snd found |}.

Lemma observations_for_reads ev o : reads (observations_for ev o).
Proof.
  unfold observations_for, loadObservationsForEvent.
  destruct (eo_currentObservation o) as [c|], (eo_previousObservation o) as [p|];
    try (apply always_ret; exact _); (apply always_bind; [exact _|apply always_gets; exact _|intros ?; apply always_ret; exact _]).
Qed.
Lemma observations_for_ok ev o s : exists found, observations_for ev o s = (Ok found, s).
Proof.
  unfold observations_for, loadObservationsForEvent.
  destruct (eo_currentObservation o) as [c|], (eo_previousObservation o) as [p|]; by eexists.
Qed.

Lemma find_event_spec id s e : find_event id s = Some e -> e ∈ mk_events s /\ me_id e = id.
Proof. intros [Hr Hp]%find_row_some. split; [done|]. by apply bool_decide_eq_true in Hp. Qed.
Lemma find_unstamped s id e : market_ok s -> find_event id s = Some e ->
  find_row (is_unstamped id) (mk_events s) = if me_ruleId e then None else Some e.
Proof.
  intros Hs He. destruct (find_event_spec _ _ _ He) as [Hin Hid].
  destruct (find_row (is_unstamped id) (mk_events s)) as [q|] eqn:E.
  - apply find_row_some in E as [Hq Hu]. pose proof (is_unstamped_spec _ _ Hu) as Hn.
    unfold is_unstamped in Hu. apply andb_true_iff in Hu as [Hi _]. apply bool_decide_eq_true in Hi.
    rewrite (NoDup_keys_inj me_id (mk_events s) q e (mo_event_ids _ Hs) Hq Hin) in * by congruence. by rewrite Hn.
  - destruct (me_ruleId e) eqn:Er; [done|]. pose proof (find_row_none _ _ E e Hin) as H.
    unfold is_unstamped in H. rewrite Hid, bool_decide_true, Er in H by done. done.
Qed.

(** The events after a stamp: one row is replaced. *)
Definition replaced (id : uuid) (e' : MarketEventRow) (events : list MarketEventRow) : list MarketEventRow :=
  (fun x => if bool_decide (me_id x = id) then e' else x) <$> events.
Lemma stamp_replaces s id e f : market_ok s -> find_event id s = Some e -> me_ruleId e = None ->
  update_rows (is_unstamped id) f (mk_events s) = replaced id (f e) (mk_events s).
Proof.
  intros Hs He Hn. destruct (find_event_spec _ _ _ He) as [Hin Hid]. unfold update_rows, replaced.
  apply list_fmap_ext. intros i x Hx%list_elem_of_lookup_2. unfold is_unstamped.
  destruct (decide (me_id x = id)) as [E|E]; [|by rewrite !bool_decide_false].
  assert (x = e) as -> by (apply (NoDup_keys_inj me_id (mk_events s)); [by apply Hs|done..|congruence]).
  by rewrite bool_decide_true, Hn by done.
Qed.

(** The first of the matches is that of the least rule that matches. *)
Lemma first_of_matches {A} (f : OpportunityRuleRow -> list A) rules w rest :
  StronglySorted (fun x y => evaluation_order x y = true) rules -> rules ≫= f = w :: rest ->
  exists r, r ∈ rules /\ w ∈ f r /\ forall q, q ∈ rules -> f q <> [] -> evaluation_order r q = true.
Proof.
  induction 1 as [|r rules Hs IH Hall]; [done|]. rewrite bind_cons. rewrite Forall_forall in Hall.
  destruct (f r) as [|x l] eqn:E; cbn.
  - intros (q & Hq & Hw & Hle)%IH. exists q. split; [by right|]. split; [done|].
    intros p [->|Hp]%elem_of_cons Hne; [by rewrite E in Hne|auto].
  - intros [= -> _]. exists r. split; [by left|]. rewrite E. split; [by left|].
    intros p [->|Hp]%elem_of_cons _; [|by apply Hall]. by destruct (order_total r r).
Qed.

(** C19. An event is attributed once, to the first rule that matches it.  The answer lists
    exactly the matches of the enabled rules.  Without a match nothing is written, and the rule
    reported is none - also for an event that carries one.  With one, an event that carries a
    rule keeps it, and nothing is written; an event without is stamped with the least match by
    priority, then age, then identifier, its payload keeping every member but the namespaced
    one, and no other row of any table changes. *)
Theorem first_match_wins fm ev o s r s' e :
  market_ok s -> find_event (ee_id ev) s = Some e -> evaluateRulesForEvent fm ev o s = (Ok r, s') ->
  exists found, observations_for ev o s = (Ok found, s)
  /\ (forall m, m ∈ er_matches r <->
        exists rule, rule ∈ mk_rules s /\ or_enabled rule = true /\ m ∈ match_of fm (context_of ev found) rule)
  /\ (er_matches r = [] -> er_ruleId r = None /\ er_stamped r = false /\ s' = s)
  /\ (forall w rest, er_matches r = w :: rest ->
        (exists rule, rule ∈ mk_rules s /\ or_enabled rule = true /\ or_id rule = om_ruleId w
           /\ forall q, q ∈ mk_rules s -> or_enabled q = true ->
                ev_matched (evaluateRule fm (definition_of q) (context_of ev found)) = true ->
                evaluation_order rule q = true)
        /\ (forall k, me_ruleId e = Some k -> er_ruleId r = Some k /\ er_stamped r = false /\ s' = s)
        /\ (me_ruleId e = None -> er_ruleId r = Some (om_ruleId w) /\ er_stamped r = true
              /\ exists e', me_ruleId e' = Some (om_ruleId w) /\ event_kept e e'
                   /\ s' = put_events (replaced (ee_id ev) e' (mk_events s)) s)).
Proof.
  intros Hs He. unfold evaluateRulesForEvent. destruct (observations_for_ok ev o s) as [found Hf].
  cbv [mbind St_bind listEnabledRulesForEvaluation st_gets]. cbv zeta. fold (enabled_rules s).
  assert (StronglySorted (fun x y => evaluation_order x y = true) (enabled_rules s)) as Hso
    by (apply sort_with_sorted; [apply order_total|apply order_trans]).
  assert (forall m, m ∈ enabled_rules s ≫= match_of fm (context_of ev found) <->
    exists rule, rule ∈ mk_rules s /\ or_enabled rule = true /\ m ∈ match_of fm (context_of ev found) rule) as Hm.
  { intros m. rewrite list_elem_of_bind. setoid_rewrite elem_of_enabled. naive_solver. }
  intros E. exists found. split; [done|]. revert E.
  destruct (enabled_rules s) as [|r0 rules] eqn:Er.
  { intros [= <- <-]. cbn. split_and!; [exact Hm|done|done]. }
  rewrite <- Er in *. clear Er. rewrite Hf. fold (context_of ev found).
  change (list_bind _ _ (match_of fm (context_of ev found)) (enabled_rules s))
    with (enabled_rules s ≫= match_of fm (context_of ev found)).
  set (ms := enabled_rules s ≫= match_of fm (context_of ev found)) in *.
  destruct ms as [|w rest] eqn:Ems.
  { intros [= <- <-]. split_and!; [exact Hm|done|done]. }
  unfold stampEventWithRule. cbv [mbind St_bind st_get st_modify mret St_ret st_throw].
  rewrite (find_unstamped s _ e Hs He). intros E.
  assert (er_matches r = w :: rest) as Hr by (destruct (me_ruleId e); [rewrite He in E|]; by injection E as <- _).
  rewrite Hr. split; [exact Hm|]. split; [done|]. intros w' rest' [= <- <-]. split_and!.
  - destruct (first_of_matches _ _ _ _ Hso Ems) as (rule & Hin & Hw & Hle). apply elem_of_enabled in Hin as [Hin Hen].
    exists rule. split; [done|]. split; [done|]. split.
    + unfold match_of in Hw. cbv zeta in Hw. destruct (ev_matched _); [|by apply not_elem_of_nil in Hw].
      by apply list_elem_of_singleton in Hw as ->.
    + intros q Hq Hqe Hqm. apply Hle; [by apply elem_of_enabled|]. unfold match_of. cbv zeta. by rewrite Hqm.
  - intros k Hk. rewrite Hk, He in E. injection E as <- <-. by rewrite Hk.
  - intros Hn. rewrite Hn in E. injection E as <- <-. split; [done|]. split; [done|].
    exists (stamped_with w (stamp_block w (Z.of_nat (length (w :: rest))) (default (mk_now s) (eo_evaluatedAt o))) e).
    split; [done|]. split; [by apply stamped_kept|]. by rewrite (stamp_replaces s _ e).
Qed.

(** ** A rule for bargains *)
Definition bargain : jsonb := BObject
  [("eventTypes", BArray [BText "price_dropped"]);
   ("price", BObject [("maxPrice", BText "100"); ("minDropPercent", BNum 10)]);
   ("quantity", BObject [("minAvailable", BNum 1)])]%string.
Definition bargain_rule : OpportunityRuleDefinition :=
  {| rd_id := 40; rd_name := "bargain"; rd_priority := 0; rd_conditions := bargain; rd_scoreWeight := "2.5" |}.
Definition bargain_context : OpportunityContext :=
  {| cx_event := {| ec_eventType := "price_dropped"; ec_marketplaceItemId := LENS; ec_monitorTargetId := Some LENSES |};
     cx_currentObservation := Some (snapshot (NOON + 60000) "99.50" 2);
     cx_previousObservation := Some (snapshot NOON "120" 2) |}.

(** A fall from 120 to 99.50: four predicates and 17.08 percent, times two and a half. *)
Lemma evaluation_exact_witness :
  holds (conditions_of bargain) bargain_context
  /\ ev_score (evaluateRule any_format bargain_rule bargain_context) = (104270 # 10000)%Q.
Proof.
  assert (forall s u n, parse s = Ok (mk_scaled u n) -> (n <= 12)%nat -> twelve_places s) as Hp
    by (intros s u n E Hn p E'; rewrite E in E'; injection E' as <-; exact Hn).
  pose proof (proj2 (evaluation_exact any_format bargain_rule bargain_context) ltac:(vm_compute; reflexivity)) as H.
  destruct H as [Hm _].
  - intros ? ? [= <-] [= <-]. apply (Hp _ 9950 2%nat); [vm_compute; reflexivity|lia].
  - intros ? ? [= <-] [= <-]. apply (Hp _ 120 0%nat); [vm_compute; reflexivity|lia].
  - intros g E. vm_compute in E. injection E as <-. split; cbn; [|done|].
    + intros m [= <-]. apply (Hp _ 100 0%nat); [vm_compute; reflexivity|lia].
    + intros q [= <-]. split; [reflexivity|]. exists 10000000. reflexivity.
  - split; [|vm_compute; reflexivity]. apply Hm. vm_compute. reflexivity.
Defined.

Definition rule_input (name : string) (priority : Z) (conditions : jsonb) (weight : option string)
    : CreateOpportunityRuleInput :=
  {| cr_name := name; cr_enabled := None; cr_priority := Some priority; cr_conditions := conditions;
     cr_scoreWeight := weight; cr_createdByUserId := None |}.
Definition any_drop : jsonb := BObject [("eventTypes", BArray [BText "price_dropped"; BText "price_changed"])]%string.
(** Two rules match the drop; the bargain has the smaller priority. *)
Definition ruled : Market :=
  after_market any_format (CallCreateRule (rule_input "bargain" 0 bargain (Some "2.5"%string)))
    (after_market any_format (CallCreateRule (rule_input "any drop" 5 any_drop None)) dropped).
Definition the_drop : EvaluableMarketEvent :=
  {| ee_id := 15; ee_marketplaceItemId := LENS; ee_monitorTargetId := Some LENSES; ee_eventType := "price_dropped";
     ee_fromObservedAt := Some NOON; ee_toObservedAt := NOON + 60000 |}.
Definition seen_drop : EvaluateRulesForEventOptions :=
  {| eo_currentObservation := Some (Some (snapshot (NOON + 60000) "99.50" 2));
     eo_previousObservation := Some (Some (snapshot NOON "120" 2)); eo_evaluatedAt := None |}.
Lemma first_match_wins_witness :
  exists r s', evaluateRulesForEvent any_format the_drop seen_drop ruled = (Ok r, s')
    /\ om_ruleName <$> er_matches r = ["bargain"; "any drop"]%string
    /\ er_stamped r = true
    /\ (exists e', me_ruleId e' = er_ruleId r /\ mk_events s' = replaced 15 e' (mk_events ruled))
    /\ er_stamped <$> (match fst (evaluateRulesForEvent any_format the_drop seen_drop s') with
                       | Ok again => Some again | Throw _ => None end) = Some false.
Proof.
  assert (market_reachable any_format ruled) as Hr by (unfold ruled; do 2 apply mreach_call; apply dropped_reachable).
  destruct (evaluateRulesForEvent any_format the_drop seen_drop ruled) as [[r|x] s'] eqn:E; [|by vm_compute in E].
  destruct (find_event 15 ruled) as [e|] eqn:He; [|by vm_compute in He].
  destruct (first_match_wins any_format the_drop seen_drop ruled r s' e (reachable_market_ok _ _ Hr) He E)
    as (found & Hf & Hm & _ & Hw).
  exists r, s'. split; [done|]. vm_compute in E. injection E as <- <-. split; [reflexivity|]. split; [reflexivity|].
  split; [|vm_compute; reflexivity].
  destruct (Hw _ _ eq_refl) as (_ & _ & Hn). destruct (Hn ltac:(vm_compute in He; by injection He as <-)) as (H1 & _ & e' & He' & _ & Hs).
  exists e'. split; [by rewrite He', H1|]. by rewrite Hs.
Defined.
