(* ===== verification/Metrics.v ===== *)
(** * Market metrics: [market/src/metrics.ts]

    The read models over observations and events: bucketed prices and
    availability, sell-through, restock and sell-out intervals, an item's
    activity and the biggest price movers; and what the intervals and the
    deltas add up to.  [time_bucket] is a function of TimescaleDB and a
    parameter; a percentage is a rational. *)
From Stdlib Require Import Sorted Qabs Lqa.
From S2P Require Import Prelude Decimal DecimalPackages Inputs Store Schema Ledger LedgerFacts Facts PostingEngine.
From S2P Require Import Stock Config Adaptive MarketTables Monitors Polls MarketEvents Observations Opportunities.
#[global] Set Default Goal Selector "!".

Open Scope Z_scope.
#[local] Arguments String.append : simpl nomatch.

Definition DEFAULT_HISTORY_BUCKET_SECONDS : Z := 3600.

(** [from] is inclusive, [to] exclusive. *)
Definition in_range (from to : option Z) (t : Z) : bool :=
  opt_all (fun f => f <=? t) from && opt_all (fun u => t <? u) to.

(** [(array_agg(x order by observed_at desc) filter (where x is not null))[1]] *)
Definition latest_known {A} (f : ObservationRow -> option A) (rows : list ObservationRow) : option A :=
  head (omap f (sort_with later_observation rows)).

(** ** Bucketed history *)
Record PriceHistoryOptions : Type := {
  ph_marketplaceItemId : uuid;
  ph_from : option Z;
  ph_to : option Z;
  ph_bucketSeconds : option Z;
}.
Record PriceHistoryBucket : Type := {
  pb_bucketStart : Z;
  pb_minPrice : option string;
  pb_maxPrice : option string;
  pb_lastPrice : option string;
  pb_lastLandedPrice : option string;
  pb_observationCount : Z;
}.
Record AvailabilityHistoryBucket : Type := {
  ab_bucketStart : Z;
  ab_lastQuantityAvailable : option Z;
  ab_lastListingState : option string;
  ab_lastWatchCount : option Z;
  ab_lastQuantitySold : option Z;
  ab_wentUnavailable : bool;
}.

Definition max_opt (l : list Z) : option Z :=
  foldr (fun x m => Some (match m with None => x | Some y => Z.max x y end)) None l.
(** The landed price is of the observation the last price is of; an unknown shipping price makes it unknown. *)
Definition price_and_landed (o : ObservationRow) : option (Z * option Z) :=
  p ← ob_price o; Some (p, s ← ob_shippingPrice o; Some (p + s)).
Definition unavailable (o : ObservationRow) : bool :=
  opt_eqb (ob_availability o) AVAILABILITY_OUT_OF_STOCK || opt_eqb (ob_quantityAvailable o) 0.

Definition price_bucket (start : Z) (rows : list ObservationRow) : PriceHistoryBucket :=
  let last := latest_known price_and_landed rows in
  {| pb_bucketStart := start; pb_minPrice := fromUnits <$> min_opt (omap ob_price rows);
     pb_maxPrice := fromUnits <$> max_opt (omap ob_price rows); pb_lastPrice := fromUnits ∘ fst <$> last;
     pb_lastLandedPrice := fromUnits <$> (x ← last; snd x); pb_observationCount := Z.of_nat (length rows) |}.
Definition availability_bucket (start : Z) (rows : list ObservationRow) : AvailabilityHistoryBucket :=
  {| ab_bucketStart := start; ab_lastQuantityAvailable := latest_known ob_quantityAvailable rows;
     ab_lastListingState := latest_known ob_listingState rows; ab_lastWatchCount := latest_known ob_watchCount rows;
     ab_lastQuantitySold := latest_known ob_quantitySold rows; ab_wentUnavailable := existsb unavailable rows |}.

Section buckets.
(** [time_bucket(make_interval(secs => n), t)] *)
Context (time_bucket : Z -> Z -> Z).

Definition priceHistoryOptionsSchema (o : PriceHistoryOptions) : result unit := zod (opt_all positive_int (ph_bucketSeconds o)).

(** [group by bucket_start order by bucket_start] *)
Definition bucketed {B} (bucket : Z -> list ObservationRow -> B) (o : PriceHistoryOptions) (s : Market) : list B :=
  let seconds := default DEFAULT_HISTORY_BUCKET_SECONDS (ph_bucketSeconds o) in
  let rows := List.filter (fun r => in_range (ph_from o) (ph_to o) (ob_observedAt r))
                (observations_of (ph_marketplaceItemId o) (mk_observations s)) in
  let start r := time_bucket seconds (ob_observedAt r) in
  (fun t => bucket t (List.filter (fun r => start r =? t) rows)) <$> sort_with Z.leb (remove_dups (start <$> rows)).

Definition priceHistory (o : PriceHistoryOptions) : mrun (list PriceHistoryBucket) :=
  _ ← st_lift (priceHistoryOptionsSchema o);
  st_gets (bucketed price_bucket o).
Definition availabilityHistory (o : PriceHistoryOptions) : mrun (list AvailabilityHistoryBucket) :=
  _ ← st_lift (priceHistoryOptionsSchema o);
  st_gets (bucketed availability_bucket o).
End buckets.

(** ** Sell-through *)
Fixpoint sell_loop (previousKnown : option Z) (buckets : list (Z * option Z)) : list (Z * option Z) :=
  match buckets with
  | [] => []
  | (start, None) :: buckets => (start, None) :: sell_loop previousKnown buckets
  | (start, Some current) :: buckets =>
      (start, match previousKnown with
              | None => None
              | Some p => if current <? p then None else Some (current - p)
              end) :: sell_loop (Some current) buckets
  end.
(** Bucket starts with the cumulative readings, to bucket starts with the units sold. *)
Definition deriveSellThroughDeltas (buckets : list (Z * option Z)) : list (Z * option Z) := sell_loop None buckets.

(** ** Restock and sell-out intervals *)
Inductive StockState : Type := InStock | OutOfStock.
#[export] Instance StockState_eq_dec : EqDecision StockState.
Proof. solve_decision. Defined.
Record RestockSelloutEvent : Type := { re_restocked : bool; re_at : Z }.
Record RestockSelloutInterval : Type := { ri_from : Z; ri_to : option Z; ri_state : StockState }.
Record RestockSelloutResult : Type := {
  rr_selloutCount : Z;
  rr_restockCount : Z;
  rr_avgOutOfStockSeconds : option Q;
  rr_avgInStockSeconds : option Q;
  rr_currentState : option StockState;
  rr_intervals : list RestockSelloutInterval;
}.

Definition intervalSeconds (from to : Z) : Q := (inject_Z (to - from) / 1000)%Q.

(** The variables of the loop; the start is known whenever the state is. *)
Record Pairing : Type := {
  pa_current : option (StockState * Z);
  pa_sellouts : Z;
  pa_restocks : Z;
  pa_intervals : list RestockSelloutInterval;
  pa_out : list Q;
  pa_in : list Q;
}.
Definition turned (state : StockState) (at_ : Z) (p : Pairing) : Pairing :=
  match pa_current p with
  | Some (was, from) =>
      if decide (was = state) then p
      else
        {| pa_current := Some (state, at_); pa_sellouts := pa_sellouts p; pa_restocks := pa_restocks p;
           pa_intervals := pa_intervals p ++ [{| ri_from := from; ri_to := Some at_; ri_state := was |}];
           pa_out := pa_out p ++ (if decide (was = OutOfStock) then [intervalSeconds from at_] else []);
           pa_in := pa_in p ++ (if decide (was = InStock) then [intervalSeconds from at_] else []) |}
  | None =>
      {| pa_current := Some (state, at_); pa_sellouts := pa_sellouts p; pa_restocks := pa_restocks p;
         pa_intervals := pa_intervals p; pa_out := pa_out p; pa_in := pa_in p |}
  end.
Definition counted (restocked : bool) (p : Pairing) : Pairing :=
  {| pa_current := pa_current p; pa_sellouts := pa_sellouts p + (if restocked then 0 else 1);
     pa_restocks := pa_restocks p + (if restocked then 1 else 0); pa_intervals := pa_intervals p;
     pa_out := pa_out p; pa_in := pa_in p |}.
Definition state_after (e : RestockSelloutEvent) : StockState := if re_restocked e then InStock else OutOfStock.
Definition pair_step (p : Pairing) (e : RestockSelloutEvent) : Pairing :=
  turned (state_after e) (re_at e) (counted (re_restocked e) p).
Definition no_pairing : Pairing :=
  {| pa_current := None; pa_sellouts := 0; pa_restocks := 0; pa_intervals := []; pa_out := []; pa_in := [] |}.

Definition closed (rangeEnd : option Z) (p : Pairing) : Pairing :=
  match pa_current p with
  | None => p
  | Some (state, from) =>
      {| pa_current := pa_current p; pa_sellouts := pa_sellouts p; pa_restocks := pa_restocks p;
         pa_intervals := pa_intervals p ++ [{| ri_from := from; ri_to := rangeEnd; ri_state := state |}];
         pa_out := pa_out p ++ match rangeEnd with
           | Some to => if decide (state = OutOfStock) then [intervalSeconds from to] else [] | None => [] end;
         pa_in := pa_in p ++ match rangeEnd with
           | Some to => if decide (state = OutOfStock) then [] else [intervalSeconds from to] | None => [] end |}
  end.
Definition sumQ (l : list Q) : Q := foldr Qplus 0%Q l.
Definition average (values : list Q) : option Q :=
  match values with [] => None | _ => Some (sumQ values / inject_Z (Z.of_nat (length values)))%Q end.

Definition event_earlier (a b : RestockSelloutEvent) : bool := re_at a <=? re_at b.
Definition paired (events : list RestockSelloutEvent) (rangeEnd : option Z) : Pairing :=
  closed rangeEnd (fold_left pair_step (sort_with event_earlier events) no_pairing).
Definition deriveRestockSelloutIntervals (events : list RestockSelloutEvent) (rangeEnd : option Z)
    : RestockSelloutResult :=
  let p := paired events rangeEnd in
  {| rr_selloutCount := pa_sellouts p; rr_restockCount := pa_restocks p; rr_avgOutOfStockSeconds := average (pa_out p);
     rr_avgInStockSeconds := average (pa_in p); rr_currentState := fst <$> pa_current p; rr_intervals := pa_intervals p |}.

Definition stock_event (e : MarketEventRow) : list RestockSelloutEvent :=
  match me_eventType e with
  | restocked => [{| re_restocked := true; re_at := me_toObservedAt e |}]
  | sold_out => [{| re_restocked := false; re_at := me_toObservedAt e |}]
  | _ => []
  end.
Definition events_of (item : uuid) (events : list MarketEventRow) : list MarketEventRow :=
  List.filter (fun e => bool_decide (me_marketplaceItemId e = item)) events.
Definition restockSellout (marketplaceItemId : uuid) (from to : option Z) : mrun RestockSelloutResult :=
  st_gets (fun s =>
    let rangeEnd := default (mk_now s) to in
    let rows := List.filter (fun e => in_range from (Some rangeEnd) (me_toObservedAt e))
                  (events_of marketplaceItemId (mk_events s)) in
    deriveRestockSelloutIntervals (sort_with event_earlier (rows ≫= stock_event)) (Some rangeEnd)).

(** ** Activity of one item *)
Definition computePriceChangePercent (firstPrice lastPrice : string) : result (option Q) :=
  cmp ← compareDecimalStrings firstPrice lastPrice;
  if cmp =? 0 then mret (Some 0%Q)
  else
    pf ← decimal_parts firstPrice;
    pl ← decimal_parts lastPrice;
    let scale := Nat.max (String.length (dp_frac pf)) (String.length (dp_frac pl)) in
    let first := scaled_value scale pf in
    let last := scaled_value scale pl in
    mret (if first =? 0 then None else Some (Z.quot ((last - first) * 100 * 1000000) first # 1000000)%Q).

Record ItemActivitySummary : Type := {
  as_marketplaceItemId : uuid;
  as_windowSeconds : Z;
  as_eventCounts : list (MarketEventType * Z);
  as_priceChangePct : option Q;
  as_observationCount : Z;
  as_lastObservedAt : option Z;
}.
Definition count_of (t : MarketEventType) (events : list MarketEventRow) : Z :=
  Z.of_nat (length (List.filter (fun e => bool_decide (me_eventType e = t)) events)).

Definition itemActivitySummary (marketplaceItemId : uuid) (windowSeconds : Z) : mrun ItemActivitySummary :=
  _ ← st_lift (zod (positive_int windowSeconds));
  s ← st_get;
  let now := mk_now s in
  let since := now - windowSeconds * 1000 in
  _ ← st_lift (date_literal since);
  let events := List.filter (fun e => in_window since now (me_detectedAt e)) (events_of marketplaceItemId (mk_events s)) in
  let observed := observations_of marketplaceItemId (mk_observations s) in
  let windowed := List.filter (fun o => in_window since now (ob_observedAt o)) observed in
  let firstPrice := fromUnits <$> head (omap ob_price (sort_with observed_before windowed)) in
  let lastPrice := fromUnits <$> head (omap ob_price (sort_with later_observation windowed)) in
  pct ← st_lift (match firstPrice, lastPrice with
                 | Some f, Some l => computePriceChangePercent f l
                 | _, _ => mret None
                 end);
  mret {| as_marketplaceItemId := marketplaceItemId; as_windowSeconds := windowSeconds;
          as_eventCounts := (fun t => (t, count_of t events)) <$> MARKET_EVENT_TYPES; as_priceChangePct := pct;
          as_observationCount := Z.of_nat (length windowed); as_lastObservedAt := max_opt (ob_observedAt <$> observed) |}.

(** ** The biggest movers *)
Definition DEFAULT_PRICE_MOVERS_LIMIT : Z := 5.
Record PriceMoverRow : Type := {
  pm_marketplaceItemId : uuid;
  pm_title : option string;
  pm_currentState : string;
  pm_currency : option string;
  pm_latestPrice : string;
  pm_previousPrice : string;
  pm_priceChangePct : Q;
  pm_observedAt : Z;
  pm_previousObservedAt : Z;
}.
(** An item with its two latest priced observations and the size of the step. *)
Record Step : Type := {
  sp_item : MarketplaceItemRow;
  sp_latest : ObservationRow;
  sp_latestPrice : Z;
  sp_previous : ObservationRow;
  sp_previousPrice : Z;
}.
Definition step_size (m : Step) : Q :=
  Qabs (inject_Z (sp_latestPrice m - sp_previousPrice m) / inject_Z (sp_previousPrice m))%Q.
Definition priced_since (since : option Z) (s : Market) (item : uuid) : list (ObservationRow * Z) :=
  omap (fun o => p ← ob_price o; Some (o, p))
    (sort_with later_observation
       (List.filter (fun o => opt_all (fun t => t <=? ob_observedAt o) since) (observations_of item (mk_observations s)))).
Definition step_of (since : option Z) (s : Market) (item : MarketplaceItemRow) : list Step :=
  match priced_since since s (mi_id item) with
  | (latest, l) :: (previous, p) :: _ =>
      if (p =? 0) || (l =? p) then []
      else [{| sp_item := item; sp_latest := latest; sp_latestPrice := l; sp_previous := previous; sp_previousPrice := p |}]
  | _ => []
  end.
(** [order by abs(...) desc, p.marketplace_item_id asc] *)
Definition bigger_step (a b : Step) : bool :=
  lt_bool (step_size b) (step_size a)
  || (Qeq_bool (step_size a) (step_size b) && (mi_id (sp_item a) <=? mi_id (sp_item b))%positive).
Definition mover_of (m : Step) : result (list PriceMoverRow) :=
  let latestPrice := fromUnits (sp_latestPrice m) in
  let previousPrice := fromUnits (sp_previousPrice m) in
  pct ← computePriceChangePercent previousPrice latestPrice;
  mret match pct with
       | None => []
       | Some q =>
           [{| pm_marketplaceItemId := mi_id (sp_item m); pm_title := mi_title (sp_item m);
               pm_currentState := mi_currentState (sp_item m); pm_currency := ob_currency (sp_latest m);
               pm_latestPrice := latestPrice; pm_previousPrice := previousPrice; pm_priceChangePct := q;
               pm_observedAt := ob_observedAt (sp_latest m); pm_previousObservedAt := ob_observedAt (sp_previous m) |}]
       end.
Definition biggestPriceMovers (limit since : option Z) : mrun (list PriceMoverRow) :=
  _ ← st_lift (zod (opt_all (fun n => (0 <? n) && (n <=? 100)) limit));
  s ← st_get;
  let ranked := sort_with bigger_step (mk_items s ≫= step_of since s) in
  movers ← st_lift (res_mapM mover_of (take (Z.to_nat (default DEFAULT_PRICE_MOVERS_LIMIT limit)) ranked));
  mret (concat movers).

(** ** Sell-through adds up *)
Definition known (buckets : list (Z * option Z)) : list Z := omap snd buckets.
Definition units_sold (buckets : list (Z * option Z)) : Z := sumZ (omap snd (deriveSellThroughDeltas buckets)).
(** The fall of every reset of the counter. *)
Fixpoint resets (previous : option Z) (readings : list Z) : Z :=
  match readings with
  | [] => 0
  | x :: l => match previous with Some p => Z.max 0 (p - x) | None => 0 end + resets (Some x) l
  end.

Lemma sell_loop_sum p buckets : forall q, last (p :: known buckets) = Some q ->
  sumZ (omap snd (sell_loop (Some p) buckets)) = q - p + resets (Some p) (known buckets).
Proof.
  revert p. induction buckets as [|[t [x|]] l IH]; intros p q.
  - intros [= <-]. cbn. lia.
  - unfold known in *. csimpl. intros Hq. specialize (IH x q Hq).
    destruct (Z.ltb_spec x p); csimpl; rewrite IH; lia.
  - unfold known in *. csimpl. apply IH.
Qed.
Lemma sell_loop_nonneg previous buckets t n : (t, Some n) ∈ sell_loop previous buckets -> 0 <= n.
Proof.
  revert previous. induction buckets as [|[u [x|]] l IH]; intros previous; cbn; [by intros ?%not_elem_of_nil|..];
    (intros [E|E]%elem_of_cons; [|by eapply IH]).
  - destruct previous as [p|]; [|done]. destruct (Z.ltb_spec x p); [done|]. injection E as _ ->. lia.
  - done.
Qed.

(** ** Intervals tile the time *)
Fixpoint tiles (from to : Z) (l : list RestockSelloutInterval) : Prop :=
  match l with
  | [] => from = to
  | i :: l' => ri_from i = from /\ (exists m, ri_to i = Some m /\ from <= m /\ tiles m to l')
               /\ match l' with j :: _ => ri_state i <> ri_state j | [] => True end
  end.
Definition in_state (s : StockState) (l : list RestockSelloutInterval) : list RestockSelloutInterval :=
  List.filter (fun i => bool_decide (ri_state i = s)) l.
(** The event falls in an interval of the state it leads to. *)
Definition covers (l : list RestockSelloutInterval) (e : RestockSelloutEvent) : Prop :=
  exists i u, i ∈ l /\ ri_state i = state_after e /\ ri_from i <= re_at e /\ ri_to i = Some u /\ re_at e <= u.

Lemma tiles_snoc from m to st l : tiles from m l -> m <= to ->
  (forall i, last l = Some i -> ri_state i <> st) ->
  tiles from to (l ++ [{| ri_from := m; ri_to := Some to; ri_state := st |}]).
Proof.
  revert from. induction l as [|i l IH]; intros from Ht Hm Hl; cbn in *.
  - subst. split; [done|]. split; [|done]. by exists to.
  - destruct Ht as (Hf & (k & Hk & Hle & Ht) & Hn). split; [done|]. split.
    + exists k. split; [done|]. split; [done|]. apply IH; [done..|]. intros j Hj. apply Hl. by destruct l.
    + destruct l as [|j l]; cbn; [by apply Hl|done].
Qed.

Record paired_up (first : Z) (done : list RestockSelloutEvent) (st : StockState) (from : Z) (p : Pairing) : Prop := {
  pu_current : pa_current p = Some (st, from);
  pu_tiles : tiles first from (pa_intervals p);
  pu_turn : forall i, last (pa_intervals p) = Some i -> ri_state i <> st;
  pu_latest : exists e, e ∈ done /\ re_at e = from;
  pu_sellouts : pa_sellouts p = Z.of_nat (length (List.filter (fun e => negb (re_restocked e)) done));
  pu_restocks : pa_restocks p = Z.of_nat (length (List.filter re_restocked done));
  pu_out : length (pa_out p) = length (in_state OutOfStock (pa_intervals p));
  pu_in : length (pa_in p) = length (in_state InStock (pa_intervals p));
  pu_time : (sumQ (pa_out p) + sumQ (pa_in p) == intervalSeconds first from)%Q;
  pu_covered : forall e, e ∈ done -> covers (pa_intervals p) e \/ state_after e = st /\ from <= re_at e;
}.

Lemma sumQ_app l k : (sumQ (l ++ k) == sumQ l + sumQ k)%Q.
Proof.
  unfold sumQ. induction l as [|x l IH]; cbn [app foldr]; [by rewrite Qplus_0_l|]. by rewrite IH, Qplus_assoc.
Qed.
Lemma sumQ_one q : (sumQ [q] == q)%Q.
Proof. unfold sumQ. cbn [foldr]. apply Qplus_0_r. Qed.
Lemma sumQ_none : sumQ [] = 0%Q.
Proof. done. Qed.
Lemma intervalSeconds_add a b c : (intervalSeconds a b + intervalSeconds b c == intervalSeconds a c)%Q.
Proof.
  unfold intervalSeconds. replace (c - a) with ((b - a) + (c - b)) by lia. rewrite inject_Z_plus. field.
Qed.
Lemma intervalSeconds_self a : (intervalSeconds a a == 0)%Q.
Proof. unfold intervalSeconds. by rewrite Z.sub_diag. Qed.
Lemma bool_filter_app {A} (p : A -> bool) l k : List.filter p (l ++ k) = List.filter p l ++ List.filter p k.
Proof. apply List.filter_app. Qed.
Lemma count_perm {A} (b : A -> bool) l k : l ≡ₚ k -> length (List.filter b l) = length (List.filter b k).
Proof. induction 1; cbn; repeat case_match; cbn; congruence. Qed.
Lemma covers_app l k e : covers l e -> covers (l ++ k) e.
Proof. intros (i & u & Hi & H). exists i, u. split; [by apply elem_of_app; left|done]. Qed.

Lemma first_step e : paired_up (re_at e) [e] (state_after e) (re_at e) (pair_step no_pairing e).
Proof.
  unfold pair_step, turned, counted, state_after. cbn. split; cbn; try done; try (by destruct (re_restocked e)).
  - by exists e; split; [left|].
  - by rewrite intervalSeconds_self.
  - intros x Hx%list_elem_of_singleton. subst. by right.
Qed.

Lemma next_step first done st from p e :
  paired_up first done st from p -> (forall x, x ∈ done -> re_at x <= re_at e) ->
  exists st' from', paired_up first (done ++ [e]) st' from' (pair_step p e) /\ state_after e = st'.
Proof.
  intros [Hc Ht Hturn (l & Hl & Hlf) Hs Hr Ho Hi Hq Hcov] Hle.
  assert (from <= re_at e) as Hfe by (rewrite <- Hlf; by apply Hle).
  assert (forall b, Z.of_nat (length (List.filter b (done ++ [e])))
    = Z.of_nat (length (List.filter b done)) + (if b e then 1 else 0)) as Hcount.
  { intros b. rewrite bool_filter_app, length_app. cbn. destruct (b e); cbn; lia. }
  unfold pair_step, turned. cbn [counted pa_current]. rewrite Hc. destruct (decide (st = state_after e)) as [->|Hne].
  - exists (state_after e), from. split; [|done]. split; cbn; rewrite ?Hcount; try done.
    + exists l. split; [apply elem_of_app; by left|done].
    + rewrite Hs. by destruct (re_restocked e).
    + rewrite Hr. by destruct (re_restocked e).
    + intros x [Hx|Hx%list_elem_of_singleton]%elem_of_app; [by apply Hcov|]. subst. by right.
  - exists (state_after e), (re_at e). split; [|done]. split; cbn; rewrite ?Hcount; try done.
    + by apply tiles_snoc.
    + rewrite last_snoc. by intros i [= <-].
    + exists e. split; [apply elem_of_app; right; by left|done].
    + rewrite Hs. by destruct (re_restocked e).
    + rewrite Hr. by destruct (re_restocked e).
    + unfold in_state. rewrite bool_filter_app, !length_app, Ho. cbn. by destruct st.
    + unfold in_state. rewrite bool_filter_app, !length_app, Hi. cbn. by destruct st.
    + rewrite !sumQ_app, <- (intervalSeconds_add first from (re_at e)), <- Hq. rewrite <- (sumQ_one (intervalSeconds from (re_at e))).
      unfold intervalSeconds. destruct st; repeat case_decide; try done; rewrite sumQ_none; lra.
    + intros x [Hx|Hx%list_elem_of_singleton]%elem_of_app; [|subst; right; by split].
      left. destruct (Hcov x Hx) as [H|[Hst Hxf]]; [by apply covers_app|].
      eexists _, (re_at e). split; [apply elem_of_app; right; by left|]. cbn. split_and!; [done..|by apply Hle].
Qed.

Lemma pairing_run events : StronglySorted (fun a b => event_earlier a b = true) events ->
  match events with
  | [] => True
  | e :: _ => exists st from, paired_up (re_at e) events st from (fold_left pair_step events no_pairing)
  end.
Proof.
  induction events as [|e events IH] using rev_ind; [done|]. intros Hs.
  assert (StronglySorted (fun a b => event_earlier a b = true) events /\ forall x, x ∈ events -> re_at x <= re_at e) as [Hs' Hle].
  { clear IH. induction events as [|y l IHl]; [split; [constructor|by intros ? ?%not_elem_of_nil]|].
    inversion Hs as [|? ? H1 H2]; subst. destruct (IHl H1) as [H3 H4]. apply Forall_app in H2 as [H2 [H5 _]%Forall_cons].
    split; [by constructor|]. intros x [->|Hx]%elem_of_cons; [|auto].
    unfold event_earlier in H5. by apply Z.leb_le. }
  specialize (IH Hs'). destruct events as [|f l]; [exists (state_after e), (re_at e); apply first_step|].
  destruct IH as (st & from & Hp). destruct (next_step _ _ _ _ _ e Hp Hle) as (st' & from' & H & _).
  exists st', from'. by rewrite fold_left_app.
Qed.

Lemma earlier_total x y : event_earlier x y = true \/ event_earlier y x = true.
Proof. unfold event_earlier. rewrite !Z.leb_le. lia. Qed.
Lemma earlier_trans x y z : event_earlier x y = true -> event_earlier y z = true -> event_earlier x z = true.
Proof. unfold event_earlier. rewrite !Z.leb_le. lia. Qed.
Lemma average_times l : (default 0 (average l) * inject_Z (Z.of_nat (length l)) == sumQ l)%Q.
Proof.
  destruct l as [|q l]; [done|]. cbn [average default].
  rewrite Qmult_comm. apply Qmult_div_r. intros H. unfold inject_Z, Qeq in H. cbn [Qnum Qden] in H.
  rewrite length_cons in H. lia.
Qed.

Lemma last_times l q :
  (default 0 (average (l ++ [q])) * inject_Z (Z.of_nat (length l + 1)) == sumQ l + q)%Q.
Proof. pose proof (average_times (l ++ [q])) as H. rewrite length_app in H. cbn [length] in H. by rewrite H, sumQ_app, sumQ_one. Qed.

(** C20. The intervals account for all the time since the first event.  Whatever restock
    and sell-out events an item has, in whatever order they are given, as long as none is after
    the end of the range: the intervals run from the first event to the end without gap or
    overlap, neighbours differ in state, the last one has the current state, and every event
    falls in an interval of the state it leads to, also when it repeats the one before; the counts
    are those of the events; and the averages, each times the intervals of its state, add up
    to the seconds between the first event and the end. *)
Theorem restock_intervals_tile events to :
  events <> [] -> (forall e, e ∈ events -> re_at e <= to) ->
  let r := deriveRestockSelloutIntervals events (Some to) in
  exists first, (exists e, e ∈ events /\ re_at e = first) /\ (forall e, e ∈ events -> first <= re_at e)
  /\ tiles first to (rr_intervals r)
  /\ (exists i, last (rr_intervals r) = Some i /\ rr_currentState r = Some (ri_state i))
  /\ (forall e, e ∈ events -> covers (rr_intervals r) e)
  /\ rr_selloutCount r = Z.of_nat (length (List.filter (fun e => negb (re_restocked e)) events))
  /\ rr_restockCount r = Z.of_nat (length (List.filter re_restocked events))
  /\ (default 0 (rr_avgOutOfStockSeconds r) * inject_Z (Z.of_nat (length (in_state OutOfStock (rr_intervals r))))
      + default 0 (rr_avgInStockSeconds r) * inject_Z (Z.of_nat (length (in_state InStock (rr_intervals r))))
      == intervalSeconds first to)%Q.
Proof.
  intros Hne Hto. cbv zeta. unfold deriveRestockSelloutIntervals, paired.
  pose proof (sort_with_perm event_earlier events) as Hperm.
  pose proof (pairing_run _ (sort_with_sorted event_earlier events earlier_total earlier_trans)) as Hrun.
  pose proof (sort_with_sorted event_earlier events earlier_total earlier_trans) as Hs.
  destruct (sort_with event_earlier events) as [|e l] eqn:El; [by apply Permutation_nil in Hperm|].
  destruct Hrun as (st & from & [Hc Ht Hturn (z & Hz & Hzf) Hso Hre Ho Hi Hq Hcov]).
  assert (forall x, x ∈ events <-> x ∈ e :: l) as Hin by (intros x; by rewrite Hperm).
  assert (from <= to) as Hft by (rewrite <- Hzf; apply Hto, Hin, Hz).
  assert (forall b, length (List.filter b (e :: l)) = length (List.filter b events)) as Hlen
    by (intros b; by apply count_perm).
  exists (re_at e). split; [exists e; split; [apply Hin; by left|done]|]. split.
  { intros x [->|Hx]%Hin%elem_of_cons; [done|]. inversion Hs as [|? ? _ Hall]; subst. rewrite Forall_forall in Hall.
    apply Z.leb_le. by apply Hall. }
  unfold closed. rewrite Hc.
  cbn [rr_intervals rr_currentState rr_selloutCount rr_restockCount rr_avgOutOfStockSeconds rr_avgInStockSeconds
       pa_intervals pa_current pa_sellouts pa_restocks pa_out pa_in].
  split; [by apply tiles_snoc|]. split; [eexists; by rewrite last_snoc|]. split.
  { intros x Hx%Hin. destruct (Hcov x Hx) as [H|[Hst Hxf]]; [by apply covers_app|].
    eexists _, to. split; [apply elem_of_app; right; by left|]. cbn. split_and!; [done..|by apply Hto, Hin]. }
  split; [by rewrite Hso, Hlen|]. split; [by rewrite Hre, Hlen|].
  set (p := fold_left pair_step (e :: l) no_pairing) in *.
  assert (forall s, length (in_state s (pa_intervals p ++ [{| ri_from := from; ri_to := Some to; ri_state := st |}]))
    = (length (in_state s (pa_intervals p)) + if decide (st = s) then 1 else 0)%nat) as Hlast.
  { intros s. unfold in_state. rewrite bool_filter_app, length_app. cbn. destruct (decide (st = s)); by case_bool_decide. }
  rewrite !Hlast, <- Ho, <- Hi, <- (intervalSeconds_add (re_at e) from to), <- Hq.
  destruct st; repeat case_decide; try done; rewrite ?app_nil_r, ?Nat.add_0_r; rewrite average_times.
  - rewrite (last_times (pa_in p)). lra.
  - rewrite (last_times (pa_out p)). lra.
Qed.

(** A sell-out, a repeated one, a restock: forty seconds out of stock, then sixty in. *)
Definition sold_then_restocked : list RestockSelloutEvent :=
  [{| re_restocked := true; re_at := 50000 |}; {| re_restocked := false; re_at := 10000 |};
   {| re_restocked := false; re_at := 30000 |}].
Lemma restock_intervals_tile_witness :
  let r := deriveRestockSelloutIntervals sold_then_restocked (Some 110000) in
  rr_intervals r = [{| ri_from := 10000; ri_to := Some 50000; ri_state := OutOfStock |};
                    {| ri_from := 50000; ri_to := Some 110000; ri_state := InStock |}]
  /\ (forall e, e ∈ sold_then_restocked -> covers (rr_intervals r) e) /\ rr_selloutCount r = 2.
Proof.
  assert (sold_then_restocked <> []) as Hne by done.
  assert (forall e, e ∈ sold_then_restocked -> re_at e <= 110000) as Hto
    by (unfold sold_then_restocked; intros e He; rewrite !elem_of_cons, elem_of_nil in He; destruct He as [->|[->|[->|[]]]]; cbn; lia).
  destruct (restock_intervals_tile sold_then_restocked 110000 Hne Hto) as (first & _ & _ & _ & _ & Hc & Hs & _).
  split; [vm_compute; reflexivity|]. split; [exact Hc|exact Hs].
Defined.

(** Over readings of a cumulative counter the deltas add up to its growth, with every fall of a
    reset made up for; none of them is negative. *)
Theorem sell_through_adds_up buckets x l : known buckets = x :: l ->
  units_sold buckets = default x (last (x :: l)) - x + resets (Some x) l
  /\ forall t n, (t, Some n) ∈ deriveSellThroughDeltas buckets -> 0 <= n.
Proof.
  intros Hk. split; [|intros t n; apply sell_loop_nonneg].
  unfold units_sold, deriveSellThroughDeltas. revert Hk.
  induction buckets as [|[t [y|]] bs IH]; [done| |by unfold known in *; csimpl].
  unfold known. csimpl. intros [= -> Hl]. destruct (last (x :: l)) as [q|] eqn:Eq; [|by apply last_None in Eq].
  rewrite (sell_loop_sum x bs q) by (unfold known; by rewrite Hl). unfold known. by rewrite Hl.
Qed.
